(* ===== verification/_CoqProject ===== *)
-Q . S2P
Prelude.v
PyText.v
Json.v
Models.v
ProbeConfig.v
ProbeConfigProps.v
Platform.v
Config.v
Domain.v
Credentials.v
Configuration.v
Selection.v
HierarchyProps.v
CredentialsProps.v
Concurrency.v
EnrolmentRaces.v
Effects.v
Isolation.v
Confinement.v
Steps.v
Discipline.v
ConfigInvariant.v
ConfigTheorems.v
ObservationSchema.v
Observations.v
ObservationProps.v
DeliveryProps.v
Dashboard.v
DashboardProps.v
TemplateParser.v
TemplateValidator.v
TemplateProps.v
PrettyPrint.v
PrettyPrintProps.v
DevTools.v
RuffTui.v
RuffProps.v
Accounts.v
Lifecycle.v
WebAuthn.v
AuthApi.v
AuthDemo.v
SessionProps.v
AuthSteps.v
AuthOps.v
Superuser.v
AuthTheorems.v
Base64Props.v
Mailer.v
MailerProps.v
SignupProps.v
SuperuserProps.v
ProductionProps.v
SecondFactorProps.v
AccountRaces.v
Api.v
EndpointProps.v
MonitorRows.v
Requests.v
Responses.v
AgentContract.v
WireDemo.v
RequestProps.v
ContractProps.v
EditProps.v
MonitorRaces.v
Failures.v
Http.v
HttpProps.v
AgentOutbox.v
OutboxDemo.v
OutboxProps.v
OutboxBlocking.v
OutboxDelivery.v
Sql.v
Migrations.v
ModelClasses.v
SchemaProps.v
UpgradeProps.v
Wiring.v
