(* ===== verification/Prelude.v ===== *)
(** * BifrostNMS control plane: a verification development

    BifrostNMS is a multi-tenant monitoring system.  A Python control plane
    (src/backend/bifrostnms) keeps accounts, realms and the monitoring inventory in a
    database, tells agents what to probe, takes in what they observe and shows it.
    This library models the control plane as functions on its tables, the part of the Go
    agent (src/agent) that keeps observations until they are delivered, and the developer
    tools of the repository (src/tools), and proves what makes them correct.

    ** The parts of the program and their models

    - Tables and schemas.  [Models] has the rows of models/monitoring.py as records and
      the monitoring tables as the record [MonDB] of finite maps; [Accounts] does the
      same for models/auth.py ([AuthDB], with the session store and the mail that is
      sent), [Observations] for the hypertables of migration 0007 ([ObsDB]).
      [ProbeConfig] is schemas/monitoring.py, [ObservationSchema] the observation part
      of schemas/agent_protocol.py.  The uniqueness, check, NOT NULL and width constraints
      a write can meet are part of the operation that writes.
    - Domain service.  [Domain] is monitoring/domain.py, every function, with the rows the API
      writes itself.
    - Agents.  [Credentials] is agents/credentials.py and agents/protocol.py,
      [Configuration] agents/configuration.py and agents/heartbeat.py, [Observations]
      agents/observations.py.
    - Dashboard.  [Dashboard] is monitoring/dashboard.py and monitoring/measurements.py;
      an SQL query is the function it computes.
    - Accounts.  [Accounts] is auth/security.py, auth/permissions.py and auth/roles.py;
      [Lifecycle] is auth/account_lifecycle.py, auth/two_factor.py and auth/audit.py;
      [WebAuthn] is auth/webauthn.py; [AuthApi] is api/auth.py, api/two_factor.py,
      api/webauthn.py and api/security.py.
    - API.  [Api] has the handlers of api/monitoring.py, api/monitor_management.py,
      api/monitoring_relationships.py, api/dashboard.py and api/agent_protocol.py over
      the whole state [World], and collects them as one request.  [Requests] reads
      the request models of schemas/ from JSON and [Responses] prints the response models;
      [Http] has the routes of the agent protocol and the error handler of main.py; [Wiring]
      has the table of all routes with the search for the one that serves a request, the
      lifespan of main.py with auth/redis.py, and the queues of celery_app.py.
    - Schema.  [Sql] is the part of PostgreSQL and of the ORM's schema editor that the
      migrations use, [Migrations] the twelve files of migrations/ as data, [ModelClasses]
      the classes of models/ as declarations.
    - Statements.  [Concurrency] is a pool of requests whose statements interleave, with row
      locks and transactions; [EnrolmentRaces], [AccountRaces] and [MonitorRaces] have the
      functions of agents/credentials.py, auth/account_lifecycle.py, auth/two_factor.py and
      api/monitor_management.py that meet there as programs of statements, each equal to its
      function when it runs alone.
    - The agent's side.  [AgentContract] is what src/agent/protocol/types.go does with a
      configuration: decoding, validation, and the canonical text of Go's encoding/json.
      [AgentOutbox] is the queue of observations (storage/observations.go,
      storage/acknowledgements.go) and its uploads (synchronization/upload.go and client.go),
      over the tables of storage/migrations/002, with what probes/tcp/probe.go reports and how
      probe/observation.go encodes it.
    - Installation.  [Platform.Settings] and [Config] are config.py; [Superuser] is
      cli/create_superuser.py, with the terminal as lists of lines read and written.
    - Mail.  [Mailer] is email/base.py, email/smtp.py, email/microsoft_graph.py,
      email/__init__.py, tasks/email.py and cli/send_test_email.py, as the calls made to
      the server.
    - Linters.  [TemplateParser] and [TemplateValidator] are tools/lib/template_parser.py,
      [PrettyPrint] is tools/lib/pretty_print.py, [DevTools] tools/lib/html_branches.py and
      tools/lib/gitlint_rules.py.  [RuffTui] is tools/ruff_tui.py and tools/ruff_summary.py as
      interaction trees: menus, commands and output are events, loops are iteration, and what
      the user and the linter answer is left open.

    [Prelude], [PyText], [Json] and [Platform] model what the code uses of Python: sorting,
    strings, UUID texts, JSON values and their canonical text, IP address syntax, hashes
    and settings.  An operation is a function from a state to a state and an outcome
    ([M] below): writes made before an exception stay, [in_transaction] rolls back.
    Instants are microseconds, floating-point numbers are rationals, code points go up to
    U+00FF.  Random values, fresh ids and the time are arguments.  Requests run one after
    another, except in [Concurrency] and the files over it.

    Third-party packages are parameters, as type classes with the documented facts that
    are used: [Platform] (SHA-256, float texts, INET syntax), [Coercions] (pydantic's lax
    conversions), [PasswordHasher], [IsoFormat], [TwoFactorLib], [WebAuthnLib],
    [EmailValidator], [Collation], [MailLib] (msal, MIME rendering, files), [Server] (the
    answers of a mail server), [Decoder] (pydantic's UUIDs, datetimes and unions), [Columns]
    (values the ORM fills in), [FastApi] (its exception handlers), [GoLib] (numbers and times
    of Go), [GoTime] (texts of times and
    raw JSON in the outbox) and [Tortoise] (the SQL of the ORM's schema editor).  Each has an example instance, on which the theorems
    with hypotheses are instantiated ([AuthDemo], [Steps.Demo], [ObservationProps.ObsDemo],
    [EndpointProps.SystemDemo], [DeliveryProps.DeliveryDemo], [SuperuserProps.SuperuserDemo],
    [ProductionProps.ProductionDemo], [MailerProps.MailDemo], [TemplateProps.TemplateDemo],
    [PrettyPrintProps.FormatDemo], [WireDemo], [RequestProps.UploadDemo],
    [ContractProps.ContractDemo], [EditProps.EditDemo], [MonitorRaces.MonitorRaceDemo],
    [HttpProps.HttpDemo], [OutboxDemo]).

    ** What is proved

    - The system ([Api], [EndpointProps], [Confinement]): every request moves each
      store only by steps of its component ([mon_step], [auth_step], [obs_step]), so the
      component invariants hold in every state reachable by requests; a browser request
      changes monitoring tables only with the right permission and only in its realm.
    - Messages ([RequestProps], [MonitorRows], [EditProps]): an upload is read back as it was
      sent, although the types of its results are guessed from their fields; what is read
      about a monitor can be saved, and saving it unchanged writes nothing.
    - Failures ([Failures], [HttpProps]): the exceptions that leave each
      handler, by a logic of its own ([raises]), and so the answers of the API: agents get the
      error envelope, browsers a status and a text, and the causes of 500 are listed.
    - The contract with the agent ([ContractProps]): the agent accepts and acknowledges every
      configuration whose texts both JSON printers write alike, and refuses one with markup.
    - Delivery ([OutboxProps], [OutboxDelivery], [OutboxBlocking]): the agent and the control
      plane joined by a network that loses requests and answers never lose an observation; an
      upload of reports on a served configuration that is answered leaves the outbox; the report
      of a refused TCP connection stays at its head and keeps all others from being uploaded.
    - Concurrency ([EnrolmentRaces], [AccountRaces], [MonitorRaces]): enrolment stays safe in
      every interleaving; emailed tokens and recovery codes can be used twice at the same time;
      two edits of a monitor can share a revision.
    - Wiring ([Wiring]): no route of the application hides another, so each path reaches the
      handler declared for it.
    - Schema ([SchemaProps], [UpgradeProps]): the migrations build what the model classes
      declare and two unique indexes more, and a database with rows can be upgraded from any of them without loss; the
      schema created from the classes alone lacks those indexes and the checks.
    - Tenant isolation ([Isolation], [Steps]): relations join rows of one realm.
    - Group hierarchies ([HierarchyProps]): parents form a forest; the walk of
      [MAX_GROUP_DEPTH] = 64 parents is the source's own bound.
    - Configuration delivery ([Selection], [Effects], [Discipline], [ConfigInvariant],
      [ConfigTheorems]): the two queries that relate monitors and agents agree, a change
      of what an agent should run raises its desired revision, a request is answered with
      the current content, an acknowledged desired revision is the current content.
    - Enrolment and credentials ([CredentialsProps]): tokens work once, one is pending per
      agent, credentials authenticate until they are revoked and never after.
    - Observations ([ObservationProps]): each is answered once, as its screening and the hash
      recorded under its identity say, the table grows by what was accepted, a replay at any
      later time stores nothing, ingestion is atomic and keeps the typed tables consistent,
      storable uploads are answered, and an address missing from a result fails the upload.
    - From configuration to report ([DeliveryProps]): snapshots are kept, and a storable report
      on a monitor of a configuration that was served is stored, whatever changed since.
    - Dashboard ([DashboardProps]): states follow the documented rules,
      the pairs shown are the pairs configured, histories are the requested range.
    - Probe configurations ([ProbeConfigProps]): normalisation is idempotent and bounded, and
      request headers survive being written on the wire.
    - Accounts ([SessionProps], [AuthSteps], [AuthOps], [AuthTheorems], [SignupProps],
      [SecondFactorProps], [Base64Props]): access is granted exactly by role, sessions
      survive their encoding and end with a password reset, tokens, challenges and
      recovery codes are spent, a second factor cannot be skipped, audit metadata holds no
      sensitive key; the slug search needs at most one try more than there are realms,
      which is its fuel.
    - Superusers ([Superuser], [SuperuserProps]): the command leaves an account that can
      log in and administer, keeps the invariants of the account tables, and is the only
      way to become a superuser.
    - Production ([ProductionProps]): with validated settings the cookies, links and origins
      are https.
    - Mail ([MailerProps]): nothing confidential is sent before encryption where it is asked
      for, queued mails are handed over as queued, headers are single lines, credentials in
      base64 are read back; empty credentials block delivery.
    - Linters ([TemplateProps], [PrettyPrintProps], [DevTools]): the tokenizer ends within
      twice as many iterations as characters on text whose white space is blanks and newlines, and loses nothing; the
      validator accepts exactly the properly nested templates; other white space can keep
      the tokenizer looping; the formatter changes white space only; the dictionary of ids
      lists every mention; suggested verbs pass the rule on titles.
    - The interface around Ruff ([RuffProps]), by coinduction on its tree: it runs a command
      that changes files only after the user chose an entry that says so, as long as no path,
      code or file name begins with a dash.  Its sessions may be
      infinite, so there is no fuel.

    ** Not modelled

    Celery's scheduling and retries, argument parsing, CORS and the serving of files (calls to
    packages); tools/lib/custom_check.py, a table of regular expressions for an external linter,
    and tools/check-templates, which runs the modelled checks on files;
    modules that only export names again; of the Go agent the scheduler, the probes other than
    TCP, enrolment and heartbeats; the web front ends, which are TypeScript.
    NUL characters are refused by the text columns of monitors, agents, targets, groups and
    observations; in the texts of the account tables they are not modelled.
    Foreign keys are not rechecked where the code has just loaded the row.  In the
    schema, defaults and indexes are not compared, and TimescaleDB's hypertables are plain
    tables.  Requests other than those of the files on concurrency are atomic.

    ** Plan

    What could follow is the agent's scheduler against the configurations proved here, and the
    remaining domain functions as programs of statements. *)

From Stdlib Require Export ZArith Lia ZifyBool ZifyN ZifyNat.
From stdpp Require Export base gmap strings list sorting fin_maps sets.
From Stdlib Require Import Sorted.

#[global] Set Default Goal Selector "!".
#[export] Set Warnings "-clear-no-such-hyp".

(** ** Python exceptions raised by the modelled code

    One constructor per exception class.  [MonitoringDomainError] and its three
    subclasses are those of monitoring/domain.py; [ValidationError] is pydantic's,
    [IntegrityError] and [DoesNotExist] are the ORM's, [DataError] stands for a
    value the database driver refuses for a column; [TypeError], [KeyError]
    and [AttributeError] are those the interpreter raises on values of unexpected
    types; [OverflowError] is that of dates outside the calendar. *)

(** A value of the details of an [AgentProtocolError]. *)
Inductive detail := DetailInt (z : Z) | DetailText (s : string).

#[export] Instance detail_eq_dec : EqDecision detail.
Proof. solve_decision. Defined.

Inductive exn :=
| MonitoringDomainError (msg : string)
| RealmBoundaryError (msg : string)
| HierarchyError (msg : string)
| ResourceStateError (msg : string)
| ValueError (msg : string)
| ValidationError (msg : string)
| IntegrityError
| DataError
| DoesNotExist
| TypeError
| KeyError
| AttributeError
| InvalidToken
| OrmValidationError
| EOFError
| OverflowError
(** [OSError] and its subclasses: [TimeoutError], [smtplib.SMTPException] and
    [requests.RequestException] among them. *)
| OSError (msg : string)
| MicrosoftGraphConfigurationError (msg : string)
| MicrosoftGraphDeliveryError (msg : string)
| EnrolmentError (msg : string)
| AgentProtocolError (status_code : Z) (code message : string) (retryable : bool)
    (details : list (string * detail))
| HTTPException (status_code : Z) (detail : string).

#[export] Instance exn_eq_dec : EqDecision exn.
Proof. solve_decision. Defined.

(** [isinstance(e, MonitoringDomainError)]. *)
Definition is_MonitoringDomainError (e : exn) : bool :=
  match e with
  | MonitoringDomainError _ | RealmBoundaryError _ | HierarchyError _
  | ResourceStateError _ => true
  | _ => false
  end.

(** [isinstance(e, ValueError)]: the domain errors, the enrolment error and
    pydantic's validation error are all subclasses of [ValueError]. *)
Definition is_ValueError (e : exn) : bool :=
  match e with
  | ValueError _ | ValidationError _ | EnrolmentError _ => true
  | _ => is_MonitoringDomainError e
  end.

(** ** Outcomes and the state-and-exception monad

    An operation reads and writes a state [S] and either returns or raises.  The
    state written before an exception is kept, as the code keeps the rows it
    saved before raising; [in_transaction] is the construct that rolls back. *)
Inductive outcome (A : Type) :=
| Ok (a : A)
| Err (e : exn).
Arguments Ok {A} a.
Arguments Err {A} e.

Definition M (S A : Type) : Type := S -> S * outcome A.

#[export] Instance M_ret S : MRet (M S) := fun A a s => (s, Ok a).
#[export] Instance M_bind S : MBind (M S) := fun A B k m s =>
  match m s with
  | (s', Ok a) => k a s'
  | (s', Err e) => (s', Err e)
  end.

Definition raise {S A} (e : exn) : M S A := fun s => (s, Err e).
Definition gets {S A} (f : S -> A) : M S A := fun s => (s, Ok (f s)).
Definition modify {S} (f : S -> S) : M S unit := fun s => (f s, Ok tt).

(** [async with in_transaction()]: an exception leaves the state as it was. *)
Definition in_transaction {S A} (m : M S A) : M S A := fun s =>
  match m s with
  | (s', Ok a) => (s', Ok a)
  | (_, Err e) => (s, Err e)
  end.

(** [try: m except <class> as exc: raise h(exc)]. *)
Definition catch {S A} (m : M S A) (p : exn -> bool) (h : exn -> exn) : M S A := fun s =>
  match m s with
  | (s', Err e) => (s', Err (if p e then h e else e))
  | r => r
  end.

(** [if b: raise e]. *)
Definition raise_if {S} (b : bool) (e : exn) : M S unit :=
  if b then raise e else mret tt.

(** [for x in l: body(x)]. *)
Fixpoint for_each {S A} (l : list A) (body : A -> M S unit) : M S unit :=
  match l with
  | [] => mret tt
  | x :: l' => body x ≫= fun _ => for_each l' body
  end.

(** Running an operation on a part of a larger state. *)
Definition zoom {S T A} (get : S -> T) (put : T -> S -> S) (m : M T A) : M S A := fun s =>
  match m (get s) with (t, r) => (put t s, r) end.

(** ** Invariant preservation *)

(** Every run of [m] from a state with [I], whether it returns or raises, ends in
    a state with [I]. *)
Definition preserves {S A} (I : S -> Prop) (m : M S A) : Prop :=
  forall s, I s -> I (m s).1.

(** ** Tactics *)

(** Splits a conjunction of booleans in the goal, and those in the hypotheses. *)
Ltac split_andb :=
  repeat match goal with |- _ && _ = true => apply andb_true_iff; split end.

Ltac destruct_andb :=
  repeat match goal with H : _ && _ = true |- _ => apply andb_true_iff in H as [? ?] end.

(** ** Running operations *)

Section Running.
Context {S : Type}.

Lemma bind_run {A B} (m : M S A) (k : A -> M S B) s :
  (m ≫= k) s = match m s with (s', Ok a) => k a s' | (s', Err e) => (s', Err e) end.
Proof. done. Qed.

Lemma bind_Ok {A B} (m : M S A) (k : A -> M S B) s s' a :
  m s = (s', Ok a) -> (m ≫= k) s = k a s'.
Proof. rewrite bind_run. by intros ->. Qed.

Lemma bind_Err {A B} (m : M S A) (k : A -> M S B) s s' e :
  m s = (s', Err e) -> (m ≫= k) s = (s', Err e).
Proof. rewrite bind_run. by intros ->. Qed.

Lemma ret_run {A} (a : A) (s : S) : mret (M := M S) a s = (s, Ok a).
Proof. done. Qed.

Lemma raise_if_run b e (s : S) : raise_if b e s = (s, if b then Err e else Ok tt).
Proof. by destruct b. Qed.

(** A run is known by its outcome, where its state need not be computed. *)
Lemma run_outcome {A} (m : M S A) s r : (m s).2 = r -> m s = ((m s).1, r).
Proof. intros <-. by destruct (m s). Qed.

(** Two steps that compose return together. *)
Lemma bind_inv_Ok {A B} (m : M S A) (k : A -> M S B) s s' b :
  (m ≫= k) s = (s', Ok b) -> exists s1 a, m s = (s1, Ok a) /\ k a s1 = (s', Ok b).
Proof. rewrite bind_run. destruct (m s) as [s1 [a|e]]; naive_solver. Qed.

Lemma raise_if_inv_Ok b e (s s' : S) r :
  raise_if b e s = (s', Ok r) -> s' = s /\ b = false.
Proof. rewrite raise_if_run. destruct b; naive_solver. Qed.

Lemma gets_inv_Ok {A} (f : S -> A) (s s' : S) a :
  gets f s = (s', Ok a) -> s' = s /\ a = f s.
Proof. unfold gets. naive_solver. Qed.

Lemma modify_inv_Ok (f : S -> S) (s s' : S) r : modify f s = (s', Ok r) -> s' = f s.
Proof. unfold modify. naive_solver. Qed.

Lemma ret_inv_Ok {A} (a b : A) (s s' : S) :
  mret (M := M S) a s = (s', Ok b) -> s' = s /\ b = a.
Proof. rewrite ret_run. naive_solver. Qed.

Lemma in_transaction_inv_Ok {A} (m : M S A) s s' a :
  in_transaction m s = (s', Ok a) -> m s = (s', Ok a).
Proof. unfold in_transaction. destruct (m s) as [s1 [b|e]]; naive_solver. Qed.

Lemma in_transaction_inv_Err {A} (m : M S A) s s' e :
  in_transaction m s = (s', Err e) -> s' = s.
Proof. unfold in_transaction. destruct (m s) as [s1 [b|e']]; naive_solver. Qed.
End Running.

(** Runs the steps at the head of a computation as far as they are known. *)
Ltac mrun :=
  repeat first
    [ rewrite bind_run | rewrite raise_if_run | rewrite ret_run
    | progress cbn beta iota zeta delta [gets modify raise fst snd negb] ].

(** Inverts a computation that returned into the runs of its steps. *)
Ltac minv :=
  repeat match goal with
  | H : (_ ≫= _) _ = (_, Ok _) |- _ =>
      let s := fresh "s" in let a := fresh "a" in let H1 := fresh "H" in let H2 := fresh "H" in
      apply bind_inv_Ok in H as (s & a & H1 & H2)
  | H : raise_if _ _ _ = (_, Ok _) |- _ => apply raise_if_inv_Ok in H as [-> ?]
  | H : gets _ _ = (_, Ok _) |- _ => apply gets_inv_Ok in H as [-> ->]
  | H : modify _ _ = (_, Ok _) |- _ => apply modify_inv_Ok in H as ->
  | H : mret _ _ = (_, Ok _) |- _ =>
      first [apply ret_inv_Ok in H as [-> ->] | apply ret_inv_Ok in H as [-> ?]]
  | H : raise _ _ = (_, Ok _) |- _ => by inversion H
  | H : in_transaction _ _ = (_, Ok _) |- _ => apply in_transaction_inv_Ok in H
  end.

Create HintDb bifrost.

Section Preserves.
Context {S : Type} (I : S -> Prop).

Lemma preserves_ret {A} (a : A) : preserves I (mret a).
Proof. by intros s. Qed.

Lemma preserves_raise {A} e : preserves I (raise (A:=A) e).
Proof. by intros s. Qed.

Lemma preserves_gets {A} (f : S -> A) : preserves I (gets f).
Proof. by intros s. Qed.

Lemma preserves_raise_if b e : preserves I (raise_if b e).
Proof. by intros s; destruct b. Qed.

Lemma preserves_bind {A B} (m : M S A) (k : A -> M S B) :
  preserves I m -> (forall a, preserves I (k a)) -> preserves I (m ≫= k).
Proof.
  intros Hm Hk s Hs. unfold mbind, M_bind. specialize (Hm s Hs).
  destruct (m s) as [s' [a|e]]; [by apply Hk | done].
Qed.

Lemma preserves_in_transaction {A} (m : M S A) :
  preserves I m -> preserves I (in_transaction m).
Proof.
  intros Hm s Hs. unfold in_transaction. specialize (Hm s Hs).
  by destruct (m s) as [s' [a|e]].
Qed.

(** Only the runs that commit matter for a transaction. *)
Lemma preserves_in_transaction_Ok {A} (m : M S A) :
  (forall s s' a, I s -> m s = (s', Ok a) -> I s') -> preserves I (in_transaction m).
Proof.
  intros Hm s Hs. unfold in_transaction.
  destruct (m s) as [s' [a|e]] eqn:E; [by eapply Hm|done].
Qed.

Lemma preserves_catch {A} (m : M S A) p h : preserves I m -> preserves I (catch m p h).
Proof.
  intros Hm s Hs. unfold catch. specialize (Hm s Hs).
  by destruct (m s) as [s' [a|e]].
Qed.

Lemma preserves_for_each {A} (l : list A) (body : A -> M S unit) :
  (forall x, preserves I (body x)) -> preserves I (for_each l body).
Proof.
  intros Hb. induction l as [|x l IH]; simpl; [apply preserves_ret|].
  by apply preserves_bind.
Qed.

Lemma preserves_if {A} (b : bool) (m1 m2 : M S A) :
  preserves I m1 -> preserves I m2 -> preserves I (if b then m1 else m2).
Proof. by destruct b. Qed.
End Preserves.

#[export] Hint Resolve preserves_ret preserves_raise preserves_gets preserves_raise_if
  preserves_bind preserves_in_transaction preserves_catch preserves_for_each
  preserves_if : bifrost.

(** Proves that an operation preserves an invariant by unfolding it down to its writes, which
    [leaf] proves; [leaf] is tried first and may also settle a whole operation. *)
Ltac head_of t := lazymatch t with ?f _ => head_of f | ?f => f end.
Ltac walk leaf := repeat first [leaf | lazymatch goal with
  | |- preserves _ (mret _) => apply preserves_ret
  | |- preserves _ (raise _) => apply preserves_raise
  | |- preserves _ (gets _) => apply preserves_gets
  | |- preserves _ (raise_if _ _) => apply preserves_raise_if
  | |- preserves _ (catch _ _ _) => apply preserves_catch
  | |- preserves _ (in_transaction _) => apply preserves_in_transaction
  | |- preserves _ (for_each _ _) => apply preserves_for_each; intros ?
  | |- preserves _ (_ ≫= _) => apply preserves_bind; [|intros ?]
  | |- preserves _ (match ?x with _ => _ end) => destruct x
  | |- preserves _ ?m => let h := head_of m in unfold h
  end].

(** An exception inside a transaction restores the initial state. *)
Lemma in_transaction_rollback {S A} (m : M S A) s e :
  (in_transaction m s).2 = Err e -> (in_transaction m s).1 = s.
Proof. unfold in_transaction. by destruct (m s) as [s' [a|e']]. Qed.

(** ** Sorting by a boolean order: [ORDER BY], and Python's stable [sorted] *)

(** Insertion sort; rows that the order does not tell apart keep their order. *)
Fixpoint insert_by {A} (le : A -> A -> bool) (x : A) (l : list A) : list A :=
  match l with
  | [] => [x]
  | y :: l' => if le x y then x :: l else y :: insert_by le x l'
  end.
Definition order_by {A} (le : A -> A -> bool) (l : list A) : list A := foldr (insert_by le) [] l.

Section OrderBy.
Context {A : Type} (le : A -> A -> bool).
Context (le_total : forall x y, le x y = true \/ le y x = true).
Context (le_trans : forall x y z, le x y = true -> le y z = true -> le x z = true).

Lemma insert_by_perm x l : insert_by le x l ≡ₚ x :: l.
Proof.
  induction l as [|y l IH]; simpl; [done|]. destruct (le x y); [done|].
  rewrite IH. apply Permutation_swap.
Qed.

Lemma order_by_perm l : order_by le l ≡ₚ l.
Proof. induction l as [|x l IH]; simpl; [done|]. by rewrite insert_by_perm, IH. Qed.

Lemma insert_by_sorted x l :
  StronglySorted (fun x y => le x y = true) l ->
  StronglySorted (fun x y => le x y = true) (insert_by le x l).
Proof.
  induction 1 as [|y l Hl IH Hy]; simpl; [by repeat constructor|].
  destruct (le x y) eqn:E.
  - constructor; [by constructor|]. constructor; [done|]. eapply Forall_impl; [exact Hy|eauto].
  - constructor; [done|]. rewrite insert_by_perm. constructor; [|done].
    destruct (le_total x y); congruence.
Qed.

Lemma order_by_sorted l : StronglySorted (fun x y => le x y = true) (order_by le l).
Proof. induction l; simpl; [constructor|by apply insert_by_sorted]. Qed.

(** LIMIT keeps the first rows: what is dropped is not before what is kept. *)
Lemma take_order_by n l :
  let kept := take n (order_by le l) in
  let dropped := drop n (order_by le l) in
  StronglySorted (fun x y => le x y = true) kept /\ kept ++ dropped ≡ₚ l /\
  length kept = Nat.min n (length l) /\
  (forall x y, x ∈ kept -> y ∈ dropped -> le x y = true).
Proof.
  simpl. pose proof (order_by_sorted l) as Hs.
  rewrite <-(take_drop n (order_by le l)) in Hs. apply StronglySorted_app in Hs as (Hc & Hk & _).
  split; [done|]. split; [by rewrite take_drop, order_by_perm|].
  split; [by rewrite length_take, order_by_perm|done].
Qed.
End OrderBy.
