(* ===== verification/PyText.v ===== *)
(** * Python text and UUID values

    The string operations of the Python language and standard library that the
    control plane uses, and the textual form of [uuid.UUID].  A Python [str] is a
    [string] whose characters are its code points; code points above U+00FF are
    outside the model. *)

From Stdlib Require Import Ascii NArith.
From stdpp Require Import pretty.
From S2P Require Import Prelude.

(** ** Character classes (code points 0-255) *)

Definition code (c : ascii) : N := N_of_ascii c.

Definition in_range (lo hi : N) (c : ascii) : bool := (lo <=? code c)%N && (code c <=? hi)%N.

(** [str.isspace] on one code point. *)
Definition is_space (c : ascii) : bool :=
  in_range 9 13 c || in_range 28 32 c || (code c =? 133)%N || (code c =? 160)%N.

Definition is_control (c : ascii) : bool := (code c <? 32)%N || (code c =? 127)%N.
Definition is_digit (c : ascii) : bool := in_range 48 57 c.
Definition is_lower_letter (c : ascii) : bool := in_range 97 122 c.
Definition is_upper_letter (c : ascii) : bool := in_range 65 90 c.
Definition is_alnum_dash (c : ascii) : bool :=
  is_digit c || is_lower_letter c || is_upper_letter c || (code c =? 45)%N.

(** [str.lower] on one code point: A-Z and the accented capitals U+00C0-U+00DE
    except the multiplication sign U+00D7. *)
Definition lower_char (c : ascii) : ascii :=
  if is_upper_letter c || (in_range 192 222 c && negb (code c =? 215)%N)
  then ascii_of_N (code c + 32) else c.

(** [str.upper] on one ASCII letter; the other code points are left alone. *)
Definition upper_char (c : ascii) : ascii :=
  if is_lower_letter c then ascii_of_N (code c - 32) else c.

(** ** String operations *)

Fixpoint str_map (f : ascii -> ascii) (s : string) : string :=
  match s with
  | EmptyString => EmptyString
  | String c s' => String (f c) (str_map f s')
  end.

Fixpoint str_forall (p : ascii -> bool) (s : string) : bool :=
  match s with
  | EmptyString => true
  | String c s' => p c && str_forall p s'
  end.

Definition str_exists (p : ascii -> bool) (s : string) : bool :=
  negb (str_forall (fun c => negb (p c)) s).

Fixpoint lstrip_with (p : ascii -> bool) (s : string) : string :=
  match s with
  | EmptyString => EmptyString
  | String c s' => if p c then lstrip_with p s' else s
  end.

Fixpoint rstrip_with (p : ascii -> bool) (s : string) : string :=
  match s with
  | EmptyString => EmptyString
  | String c s' =>
      match rstrip_with p s' with
      | EmptyString => if p c then EmptyString else String c EmptyString
      | r => String c r
      end
  end.

(** The characters of a text outside a class. *)
Fixpoint remove_chars (p : ascii -> bool) (s : string) : string :=
  match s with
  | EmptyString => EmptyString
  | String c s' => if p c then remove_chars p s' else String c (remove_chars p s')
  end.

Definition strip (s : string) : string := rstrip_with is_space (lstrip_with is_space s).
Definition lower (s : string) : string := str_map lower_char s.
Definition upper (s : string) : string := str_map upper_char s.

Definition is_char (c : ascii) (d : ascii) : bool := Ascii.eqb c d.

(** [s.partition(sep)] for a one-character separator: the text before the first
    separator, whether there was one, and the text after it. *)
Fixpoint partition (sep : ascii) (s : string) : string * bool * string :=
  match s with
  | EmptyString => (EmptyString, false, EmptyString)
  | String c s' =>
      if Ascii.eqb c sep then (EmptyString, true, s')
      else match partition sep s' with
           | (before, found, after) => (String c before, found, after)
           end
  end.

(** [s.split(sep)] for a one-character separator. *)
Fixpoint split_on (sep : ascii) (s : string) : list string :=
  match s with
  | EmptyString => [EmptyString]
  | String c s' =>
      if Ascii.eqb c sep then EmptyString :: split_on sep s'
      else match split_on sep s' with
           | [] => [String c EmptyString]
           | w :: ws => String c w :: ws
           end
  end.

Fixpoint startswith (prefix s : string) : bool :=
  match prefix, s with
  | EmptyString, _ => true
  | String a p', String b s' => Ascii.eqb a b && startswith p' s'
  | _, _ => false
  end.

Fixpoint drop_chars (n : nat) (s : string) : string :=
  match n, s with
  | O, _ => s
  | S n', String _ s' => drop_chars n' s'
  | S _, EmptyString => EmptyString
  end.

Definition removeprefix (prefix s : string) : string :=
  if startswith prefix s then drop_chars (String.length prefix) s else s.

Fixpoint last_char (s : string) : option ascii :=
  match s with
  | EmptyString => None
  | String c EmptyString => Some c
  | String _ s' => last_char s'
  end.

Definition str_len (s : string) : Z := Z.of_nat (String.length s).

Fixpoint join (sep : string) (l : list string) : string :=
  match l with
  | [] => EmptyString
  | [x] => x
  | x :: l' => x +:+ sep +:+ join sep l'
  end.

(** ** Hexadecimal text and UUIDs

    A UUID is the 128-bit number it denotes. *)

Abbreviation uuid := N.

Definition hex_digit (n : N) : ascii :=
  ascii_of_N (if (n <? 10)%N then 48 + n else 87 + n).

Definition hex_value (c : ascii) : option N :=
  if in_range 48 57 c then Some (code c - 48)%N
  else if in_range 97 102 c then Some (code c - 87)%N
  else if in_range 65 70 c then Some (code c - 55)%N
  else None.

(** The [k] low hexadecimal digits of [n], most significant first. *)
Fixpoint to_hex (k : nat) (n : N) (acc : string) : string :=
  match k with
  | O => acc
  | S k' => to_hex k' (n / 16)%N (String (hex_digit (n mod 16)) acc)
  end.

(** The five dash-separated groups of [str(uuid.UUID)], from 32 hex digits. *)
Fixpoint take_chars (n : nat) (s : string) : string :=
  match n, s with
  | S n', String c s' => String c (take_chars n' s')
  | _, _ => EmptyString
  end.

Definition str_uuid (u : uuid) : string :=
  let h := to_hex 32 u EmptyString in
  take_chars 8 h +:+ "-" +:+
  take_chars 4 (drop_chars 8 h) +:+ "-" +:+
  take_chars 4 (drop_chars 12 h) +:+ "-" +:+
  take_chars 4 (drop_chars 16 h) +:+ "-" +:+
  drop_chars 20 h.

(** [s.replace(pat, "")] for a non-empty pattern: [skip] counts the characters of a
    match still to be dropped. *)
Fixpoint remove_sub (pat : string) (skip : nat) (s : string) : string :=
  match s with
  | EmptyString => EmptyString
  | String c s' =>
      match skip with
      | S k => remove_sub pat k s'
      | O => if startswith pat s then remove_sub pat (String.length pat - 1) s'
             else String c (remove_sub pat 0 s')
      end
  end.

(** [s.replace(c, "")] for one character. *)
Fixpoint remove_char (d : ascii) (s : string) : string :=
  match s with
  | EmptyString => EmptyString
  | String c s' => if Ascii.eqb c d then remove_char d s' else String c (remove_char d s')
  end.

(** The digit loop of [int(s, 16)]: underscores may only separate digits. *)
Fixpoint hex_digits (s : string) (acc : N) (after_digit : bool) : option N :=
  match s with
  | EmptyString => if after_digit then Some acc else None
  | String c s' =>
      if Ascii.eqb c "_" then (if after_digit then hex_digits s' acc false else None)
      else match hex_value c with
           | Some v => hex_digits s' (acc * 16 + v) true
           | None => None
           end
  end.

(** [int(s, 16)]: surrounding white space, a sign, an optional [0x] prefix (after
    which one underscore is accepted) and the digits. *)
Definition int_space (s : string) (c : ascii) : bool :=
  in_range 9 13 c || (code c =? 32)%N ||
  (str_exists (fun d => (127 <? code d)%N) s && is_space c).

Definition py_int16 (s : string) : option Z :=
  let t := rstrip_with (int_space s) (lstrip_with (int_space s) s) in
  let '(negative, t) :=
    match t with
    | String c t' =>
        if Ascii.eqb c "-" then (true, t') else if Ascii.eqb c "+" then (false, t') else (false, t)
    | EmptyString => (false, t)
    end in
  let t :=
    match t with
    | String z (String x t') =>
        if Ascii.eqb z "0" && (Ascii.eqb x "x" || Ascii.eqb x "X")
        then match t' with
             | String y t'' => if Ascii.eqb y "_" then t'' else t'
             | EmptyString => t'
             end
        else t
    | _ => t
    end in
  match hex_digits t 0 false with
  | Some n => Some (if (negative : bool) then - Z.of_N n else Z.of_N n)%Z
  | None => None
  end.

(** [int(s)]: white space, a sign and decimal digits, underscores between digits. *)
Fixpoint dec_digits (s : string) (acc : N) (after_digit : bool) : option N :=
  match s with
  | EmptyString => if after_digit then Some acc else None
  | String c s' =>
      if Ascii.eqb c "_" then (if after_digit then dec_digits s' acc false else None)
      else if is_digit c then dec_digits s' (acc * 10 + (code c - 48)) true else None
  end.

Definition py_int10 (s : string) : option Z :=
  let t := rstrip_with (int_space s) (lstrip_with (int_space s) s) in
  match t with
  | String c t' =>
      if Ascii.eqb c "-" then (fun n => (- Z.of_N n)%Z) <$> dec_digits t' 0 false
      else if Ascii.eqb c "+" then Z.of_N <$> dec_digits t' 0 false
      else Z.of_N <$> dec_digits t 0 false
  | EmptyString => None
  end.

(** [uuid.UUID(hex)]; [None] is the [ValueError]. *)
Definition parse_uuid (s : string) : option uuid :=
  let h := remove_sub "uuid:" 0 (remove_sub "urn:" 0 s) in
  let brace c := Ascii.eqb c "{" || Ascii.eqb c "}" in
  let h := remove_char "-" (rstrip_with brace (lstrip_with brace h)) in
  if Nat.eqb (String.length h) 32 then
    match py_int16 h with
    | Some i => if (0 <=? i)%Z && (i <? 2 ^ 128)%Z then Some (Z.to_N i) else None
    | None => None
    end
  else None.

(** ** Lemmas *)

Lemma str_forall_app p s t : str_forall p (s +:+ t) = str_forall p s && str_forall p t.
Proof.
  induction s as [|c s IH]; [done|].
  change (String c s +:+ t) with (String c (s +:+ t)). simpl. by rewrite IH, andb_assoc.
Qed.

Lemma str_forall_impl (p q : ascii -> bool) s :
  (forall c, p c = true -> q c = true) -> str_forall p s = true -> str_forall q s = true.
Proof.
  intros Hpq. induction s as [|c s IH]; simpl; [done|].
  intros [Hc Hs]%andb_true_iff. by rewrite (Hpq c Hc), IH.
Qed.

Lemma remove_chars_app p s t : remove_chars p (s +:+ t) = remove_chars p s +:+ remove_chars p t.
Proof.
  induction s as [|c s IH]; [done|]. change (String c s +:+ t) with (String c (s +:+ t)).
  simpl. destruct (p c); [done|]. by rewrite IH.
Qed.

Lemma lstrip_with_none p s :
  str_forall (fun c => negb (p c)) s = true -> lstrip_with p s = s.
Proof. destruct s as [|c s]; simpl; [done|]. by destruct (p c). Qed.

Lemma rstrip_with_none p s :
  str_forall (fun c => negb (p c)) s = true -> rstrip_with p s = s.
Proof.
  induction s as [|c s IH]; simpl; [done|]. intros [Hc Hs]%andb_true_iff.
  rewrite (IH Hs). destruct s; [|done]. by destruct (p c).
Qed.

Lemma remove_char_none d s :
  str_forall (fun c => negb (Ascii.eqb c d)) s = true -> remove_char d s = s.
Proof.
  induction s as [|c s IH]; simpl; [done|]. intros [Hc Hs]%andb_true_iff.
  destruct (Ascii.eqb c d); [done|]. by rewrite IH.
Qed.

Lemma remove_char_app d s t : remove_char d (s +:+ t) = remove_char d s +:+ remove_char d t.
Proof.
  induction s as [|c s IH]; [done|].
  change (String c s +:+ t) with (String c (s +:+ t)). simpl.
  rewrite IH. by destruct (Ascii.eqb c d).
Qed.

(** A pattern whose first character does not occur is not found. *)
Lemma remove_sub_none a pat s :
  str_forall (fun c => negb (Ascii.eqb c a)) s = true -> remove_sub (String a pat) 0 s = s.
Proof.
  induction s as [|c s IH]; simpl; [done|]. intros [Hc Hs]%andb_true_iff.
  rewrite Ascii.eqb_sym. destruct (Ascii.eqb c a); [done|]. simpl. by rewrite IH.
Qed.

Lemma take_drop_chars n s : take_chars n s +:+ drop_chars n s = s.
Proof.
  revert s. induction n as [|n IH]; intros s; [done|].
  destruct s as [|c s]; [done|]. simpl.
  change (String c (take_chars n s +:+ drop_chars n s) = String c s). by rewrite IH.
Qed.

Lemma drop_drop_chars n m s : drop_chars n (drop_chars m s) = drop_chars (m + n) s.
Proof.
  revert s. induction m as [|m IH]; intros s; [done|].
  destruct s as [|c s]; simpl; [by destruct n|]. apply IH.
Qed.

Lemma str_forall_take p n s : str_forall p s = true -> str_forall p (take_chars n s) = true.
Proof.
  revert s. induction n as [|n IH]; intros s; [done|]. destruct s as [|c s]; [done|].
  simpl. intros [Hc Hs]%andb_true_iff. by rewrite Hc, IH.
Qed.

Lemma str_forall_drop p n s : str_forall p s = true -> str_forall p (drop_chars n s) = true.
Proof.
  revert s. induction n as [|n IH]; intros s; [done|]. destruct s as [|c s]; [done|].
  simpl. intros [Hc Hs]%andb_true_iff. by apply IH.
Qed.

(** *** Hexadecimal digits *)

(** What the printer emits: 0-9 and a-f. *)
Definition is_hex_lower (c : ascii) : bool := in_range 48 57 c || in_range 97 102 c.

Lemma code_ascii_of_N n : (n < 256)%N -> code (ascii_of_N n) = n.
Proof. apply N_ascii_embedding. Qed.

Lemma hex_digit_spec n :
  (n < 16)%N -> hex_value (hex_digit n) = Some n /\ is_hex_lower (hex_digit n) = true.
Proof.
  intros Hn. destruct n as [|p]; [done|].
  do 4 (destruct p as [p|p|]; try done); lia.
Qed.

Lemma to_hex_lower k n acc :
  str_forall is_hex_lower acc = true -> str_forall is_hex_lower (to_hex k n acc) = true.
Proof.
  revert n acc. induction k as [|k IH]; intros n acc Hacc; simpl; [done|].
  apply IH. simpl. rewrite Hacc.
  by rewrite (proj2 (hex_digit_spec (n mod 16) ltac:(apply N.mod_lt; lia))).
Qed.

Lemma length_to_hex k n acc : String.length (to_hex k n acc) = k + String.length acc.
Proof.
  revert n acc. induction k as [|k IH]; intros n acc; simpl; [done|].
  rewrite IH. simpl. lia.
Qed.

Lemma hex_lower_not_underscore c : is_hex_lower c = true -> Ascii.eqb c "_" = false.
Proof.
  intros Hc. apply Ascii.eqb_neq. intros ->. done.
Qed.

Lemma to_hex_nonempty_lt k n : (n < 16 ^ N.of_nat (S k))%N -> (n / 16 < 16 ^ N.of_nat k)%N.
Proof.
  intros Hn. apply N.Div0.div_lt_upper_bound.
  replace (16 * 16 ^ N.of_nat k)%N with (16 ^ N.of_nat (S k))%N; [done|].
  rewrite Nat2N.inj_succ, N.pow_succ_r'. done.
Qed.

(** Reading back the printed digits: the digits of [n] shift the accumulator by
    [16 ^ k] and add [n]. *)
Lemma hex_digits_to_hex k n acc a b :
  (n < 16 ^ N.of_nat k)%N ->
  hex_digits (to_hex k n acc) a b =
  hex_digits acc (a * 16 ^ N.of_nat k + n) (if k is O then b else true).
Proof.
  revert n acc a b. induction k as [|k IH]; intros n acc a b Hn; simpl.
  - change (16 ^ N.of_nat 0)%N with 1%N in *. f_equal; lia.
  - pose proof (hex_digit_spec (n mod 16) ltac:(apply N.mod_lt; lia)) as [Hv Hl].
    rewrite IH by (by apply to_hex_nonempty_lt). simpl.
    rewrite (hex_lower_not_underscore _ Hl), Hv.
    f_equal. rewrite Nat2N.inj_succ, N.pow_succ_r'.
    pose proof (N.div_mod n 16 ltac:(lia)). nia.
Qed.

Lemma hex_lower_not (d c : ascii) :
  is_hex_lower d = false -> is_hex_lower c = true -> Ascii.eqb c d = false.
Proof. intros Hd Hc. apply Ascii.eqb_neq. intros ->. by rewrite Hc in Hd. Qed.

Lemma hex_lower_not_space s c :
  is_hex_lower c = true -> negb (int_space s c) = true.
Proof.
  unfold int_space, is_hex_lower, is_space, in_range. intros Hc.
  destruct (str_exists _ s); lia.
Qed.

Lemma py_int16_to_hex k n :
  (n < 16 ^ N.of_nat (S (S k)))%N ->
  py_int16 (to_hex (S (S k)) n EmptyString) = Some (Z.of_N n).
Proof.
  intros Hn. pose proof (to_hex_lower (S (S k)) n EmptyString eq_refl) as Hl.
  pose proof (length_to_hex (S (S k)) n EmptyString) as Hlen.
  pose proof (hex_digits_to_hex (S (S k)) n EmptyString 0 false Hn) as Hd.
  set (h := to_hex (S (S k)) n EmptyString) in *. clearbody h.
  unfold py_int16. rewrite lstrip_with_none, rstrip_with_none.
  2, 3: eapply str_forall_impl; [|exact Hl]; apply hex_lower_not_space.
  destruct h as [|c1 [|c2 h]]; [done|done|].
  simpl in Hl. apply andb_true_iff in Hl as [H1 [H2 Hl]%andb_true_iff].
  rewrite (hex_lower_not "-" c1), (hex_lower_not "+" c1) by done.
  rewrite (hex_lower_not "x" c2), (hex_lower_not "X" c2), andb_false_r by done.
  by rewrite Hd.
Qed.

Lemma remove_dash_str_uuid u :
  remove_char "-" (str_uuid u) = to_hex 32 u EmptyString.
Proof.
  pose proof (to_hex_lower 32 u EmptyString eq_refl) as Hl.
  assert (forall s, str_forall is_hex_lower s = true -> remove_char "-" s = s) as Hid.
  { intros s Hs. apply remove_char_none. eapply str_forall_impl; [|exact Hs].
    intros c Hc. by rewrite (hex_lower_not "-" c). }
  unfold str_uuid. set (h := to_hex 32 u EmptyString) in *. clearbody h.
  rewrite !remove_char_app. change (remove_char "-" "-") with EmptyString.
  rewrite !Hid by eauto using str_forall_take, str_forall_drop.
  assert (forall s : string, EmptyString +:+ s = s) as Hnil by done. rewrite !Hnil.
  pose proof (drop_drop_chars 4 16 h) as E20. pose proof (drop_drop_chars 4 12 h) as E16.
  pose proof (drop_drop_chars 4 8 h) as E12.
  change (16 + 4) with 20 in E20. change (12 + 4) with 16 in E16.
  change (8 + 4) with 12 in E12.
  by rewrite <-E20, take_drop_chars, <-E16, take_drop_chars, <-E12, !take_drop_chars.
Qed.

Lemma str_uuid_chars u :
  str_forall (fun c => is_hex_lower c || Ascii.eqb c "-") (str_uuid u) = true.
Proof.
  pose proof (to_hex_lower 32 u EmptyString eq_refl) as Hl.
  assert (forall s, str_forall is_hex_lower s = true ->
    str_forall (fun c => is_hex_lower c || Ascii.eqb c "-") s = true) as Hs.
  { intros s. apply str_forall_impl. by intros c ->. }
  unfold str_uuid. set (h := to_hex 32 u EmptyString) in *. clearbody h.
  rewrite !str_forall_app. repeat (apply andb_true_iff; split);
    first [done | apply Hs; eauto using str_forall_take, str_forall_drop].
Qed.

(** Reading a printed UUID gives the UUID back. *)
Lemma parse_str_uuid u : (u < 2 ^ 128)%N -> parse_uuid (str_uuid u) = Some u.
Proof.
  intros Hu. pose proof (str_uuid_chars u) as Hc.
  assert (forall d, is_hex_lower d || Ascii.eqb d "-" = false ->
    str_forall (fun c => negb (Ascii.eqb c d)) (str_uuid u) = true) as Hno.
  { intros d Hd. eapply str_forall_impl; [|exact Hc]. intros c Hcc.
    apply negb_true_iff, Ascii.eqb_neq. intros ->. by rewrite Hd in Hcc. }
  unfold parse_uuid. 
  rewrite (remove_sub_none "u" "rn:") by (by apply Hno).
  rewrite (remove_sub_none "u" "uid:") by (by apply Hno).
  rewrite lstrip_with_none, rstrip_with_none.
  2, 3: eapply str_forall_impl; [|exact Hc]; intros c Hcc; apply negb_true_iff;
    apply orb_false_iff; split; apply Ascii.eqb_neq; by intros ->.
  rewrite remove_dash_str_uuid, length_to_hex. simpl Nat.eqb.
  rewrite (py_int16_to_hex 30) by done. cbv iota.
  replace ((0 <=? Z.of_N u)%Z && (Z.of_N u <? 2 ^ 128)%Z) with true by lia.
  by rewrite N2Z.id.
Qed.

(** [str(uuid)] is injective on 128-bit values. *)
Lemma str_uuid_inj u v :
  (u < 2 ^ 128)%N -> (v < 2 ^ 128)%N -> str_uuid u = str_uuid v -> u = v.
Proof.
  intros Hu Hv H. apply parse_str_uuid in Hu, Hv. rewrite H in Hu. congruence.
Qed.

(** The textual form of a UUID has no dot: a credential [id.secret] splits at its
    first dot. *)
Lemma partition_app sep s t :
  str_forall (fun c => negb (Ascii.eqb c sep)) s = true ->
  partition sep (s +:+ String sep t) = (s, true, t).
Proof.
  induction s as [|c s IH].
  - intros _. change (EmptyString +:+ String sep t) with (String sep t). simpl.
    by rewrite Ascii.eqb_refl.
  - change (String c s +:+ String sep t) with (String c (s +:+ String sep t)).
    simpl. intros [Hc Hs]%andb_true_iff. destruct (Ascii.eqb c sep); [done|].
    by rewrite IH.
Qed.

Lemma str_uuid_no_dot u : str_forall (fun c => negb (Ascii.eqb c ".")) (str_uuid u) = true.
Proof.
  eapply str_forall_impl; [|apply str_uuid_chars]. intros c Hc.
  apply negb_true_iff, Ascii.eqb_neq. by intros ->.
Qed.

(** *** Normal forms: lower case, trimmed ends *)

Lemma lower_char_idem c : lower_char (lower_char c) = lower_char c.
Proof. by destruct c as [[] [] [] [] [] [] [] []]. Qed.

Lemma lower_idem s : lower (lower s) = lower s.
Proof. unfold lower. induction s as [|c s IH]; simpl; [done|]. by rewrite lower_char_idem, IH. Qed.

Lemma length_str_map f s : String.length (str_map f s) = String.length s.
Proof. induction s; simpl; auto. Qed.

Lemma length_lstrip_with p s : String.length (lstrip_with p s) <= String.length s.
Proof. induction s as [|c s IH]; simpl; [done|]. destruct (p c); simpl; lia. Qed.

Lemma length_rstrip_with p s : String.length (rstrip_with p s) <= String.length s.
Proof.
  induction s as [|c s IH]; simpl; [done|].
  destruct (rstrip_with p s); [destruct (p c)|]; simpl in *; lia.
Qed.

(** The last character left by [rstrip] is not one that is stripped. *)
Lemma rstrip_with_last p s :
  match last_char s with Some c => p c = false | None => True end -> rstrip_with p s = s.
Proof.
  induction s as [|c s IH]; [done|]. simpl. intros Hl.
  destruct s as [|d s]; [by rewrite Hl|].
  rewrite IH; [done|]. exact Hl.
Qed.

Lemma lstrip_with_first p s :
  match s with String c _ => p c = false | EmptyString => True end -> lstrip_with p s = s.
Proof. destruct s as [|c s]; simpl; [done|]. by intros ->. Qed.

Lemma last_char_forall p s c : str_forall p s = true -> last_char s = Some c -> p c = true.
Proof.
  induction s as [|d s IH]; [done|]. simpl. intros [Hd Hs]%andb_true_iff.
  destruct s as [|e s]; [by intros [= <-] |]. by apply IH.
Qed.

(** Splitting on a separator and looking at all the parts: every character is the
    separator or is accepted in some part. *)
Lemma split_on_chars sep p s :
  forallb (str_forall p) (split_on sep s) = true ->
  str_forall (fun c => p c || Ascii.eqb c sep) s = true.
Proof.
  induction s as [|c s IH]; [done|]. simpl. destruct (Ascii.eqb c sep) eqn:E.
  - rewrite orb_true_r. simpl. apply IH.
  - destruct (split_on sep s) as [|w ws] eqn:Es; simpl in *.
    + rewrite andb_true_r, orb_false_r. intros [-> _]%andb_true_iff. by rewrite IH.
    + rewrite orb_false_r. intros [[-> Hw]%andb_true_iff Hws]%andb_true_iff.
      simpl. apply IH. by rewrite Hw, Hws.
Qed.

Lemma split_on_nonnil sep s : split_on sep s <> [].
Proof.
  destruct s as [|c s]; simpl; [done|]. destruct (Ascii.eqb c sep); [done|].
  by destruct (split_on sep s).
Qed.

(** A text that ends with the separator splits into a last empty part. *)
Lemma split_on_sep_last sep s :
  last_char s = Some sep -> exists w ws, split_on sep s = w :: ws /\ last ws = Some EmptyString.
Proof.
  induction s as [|c s IH]; [done|]. simpl. destruct s as [|d s].
  - intros [= ->]. rewrite Ascii.eqb_refl. by exists EmptyString, [EmptyString].
  - intros (w & ws & Es & Hl)%IH. rewrite Es. destruct (Ascii.eqb c sep).
    + exists EmptyString, (w :: ws). split; [done|]. by destruct ws.
    + by exists (String c w), ws.
Qed.

Lemma split_on_last sep s :
  forallb (fun w => negb (String.eqb w EmptyString)) (split_on sep s) = true ->
  last_char s <> Some sep.
Proof.
  intros Hall (w & ws & Es & Hl)%split_on_sep_last. rewrite Es in Hall.
  apply last_Some in Hl as [ws' ->]. simpl in Hall. rewrite forallb_app in Hall. simpl in Hall.
  by rewrite !andb_false_r in Hall.
Qed.

(** ** Decimal text

    What [str(int)] prints, and that [int] reads it back. *)

Lemma pretty_N_chars p (n : N) : (forall x, p (pretty_N_char x) = true) -> str_forall p (pretty n) = true.
Proof.
  intros Hp. assert (forall x s, str_forall p s = true -> str_forall p (pretty_N_go x s) = true) as Hgo.
  { intros x. induction (N.lt_wf_0 x) as [x _ IH]. intros s Hs.
    assert (x = 0 \/ 0 < x)%N as [->|Hx] by lia; [by rewrite pretty_N_go_0|].
    rewrite pretty_N_go_step by done. apply IH; [by apply N.div_lt|]. simpl. by rewrite Hs, Hp. }
  unfold pretty, pretty_N. destruct (decide (n = 0)%N); [|by apply Hgo].
  simpl. by rewrite (Hp 0%N : p "0"%char = true).
Qed.

Lemma pretty_chars p (z : Z) :
  (forall x, p (pretty_N_char x) = true) -> p "-"%char = true -> str_forall p (pretty z) = true.
Proof.
  intros Hp Hm. destruct z as [|n|n]; [apply (pretty_N_chars p 0%N Hp)|apply (pretty_N_chars p (N.pos n) Hp)|].
  unfold pretty, pretty_Z. simpl. rewrite Hm. apply (pretty_N_chars p (N.pos n) Hp).
Qed.

Lemma digit_value x : (x < 10)%N ->
  is_digit (pretty_N_char x) = true /\ (code (pretty_N_char x) - 48 = x)%N /\ Ascii.eqb (pretty_N_char x) "_" = false.
Proof.
  intros Hx. destruct x as [|p]; [done|]. do 4 (destruct p as [p|p|]; try done); lia.
Qed.

Lemma dec_digits_go x s b : (0 < x)%N -> dec_digits (pretty_N_go x s) 0 b = dec_digits s x true.
Proof.
  revert s b. induction (N.lt_wf_0 x) as [x _ IH]. intros s b Hx. rewrite pretty_N_go_step by done.
  pose proof (N.mod_lt x 10 ltac:(done)) as Hm. destruct (digit_value _ Hm) as (Hd & Hv & Hu).
  pose proof (N.div_mod x 10 ltac:(done)) as Hdm.
  assert (x / 10 = 0 \/ 0 < x / 10)%N as [Hz|Hp] by lia.
  - rewrite Hz, pretty_N_go_0. cbn [dec_digits]. rewrite Hu, Hd, Hv. f_equal. lia.
  - rewrite IH by (done || by apply N.div_lt). cbn [dec_digits]. rewrite Hu, Hd, Hv. f_equal. lia.
Qed.

Lemma dec_digits_pretty (n : N) : dec_digits (pretty n) 0 false = Some n.
Proof.
  unfold pretty, pretty_N. destruct (decide (n = 0)%N) as [->|Hn]; [done|].
  rewrite dec_digits_go by lia. done.
Qed.

(** [int(str(z)) == z]. *)
Lemma py_int10_pretty (z : Z) : py_int10 (pretty z) = Some z.
Proof.
  assert (str_forall (fun c => negb (int_space (pretty z) c)) (pretty z) = true) as Hns.
  { assert (str_exists (fun d => (127 <? code d)%N) (pretty z) = false) as He.
    { unfold str_exists. rewrite pretty_chars; [done| |done]. intros x. unfold pretty_N_char. by repeat case_match. }
    apply pretty_chars; unfold int_space; rewrite He.
    - intros x. unfold pretty_N_char. by repeat case_match.
    - done. }
  unfold py_int10. rewrite lstrip_with_none, rstrip_with_none by done.
  assert (Hpos : forall n : N, match pretty n with
    | EmptyString => None
    | String c t' => if Ascii.eqb c "-" then (fun n => (- Z.of_N n)%Z) <$> dec_digits t' 0 false
        else if Ascii.eqb c "+" then Z.of_N <$> dec_digits t' 0 false else Z.of_N <$> dec_digits (pretty n) 0 false
    end = Some (Z.of_N n)).
  { intros n. rewrite dec_digits_pretty.
    pose proof (pretty_N_chars (fun c => negb (Ascii.eqb c "-") && negb (Ascii.eqb c "+")) n) as Hc.
    destruct (pretty n) as [|c t'] eqn:E.
    - pose proof (dec_digits_pretty n) as Hd. by rewrite E in Hd.
    - simpl in Hc. destruct (Ascii.eqb c "-"), (Ascii.eqb c "+"); try done;
        (discriminate Hc || (exfalso; discriminate Hc)); intros x; unfold pretty_N_char; by repeat case_match. }
  destruct z as [|n|n].
  - apply (Hpos 0%N).
  - apply (Hpos (N.pos n)).
  - change (pretty (Z.neg n)) with (String "-" (pretty (N.pos n))). cbv beta iota.
    by rewrite (dec_digits_pretty (N.pos n)).
Qed.

(** ** [ipaddress.ip_address]

    The acceptance test of the Python standard library's IP address parser, used
    by the DNS resolver and TLS server-name validators. *)

(** ** IPv4: [IPv4Address(s)] *)

Fixpoint decimal_value (s : string) (acc : N) : N :=
  match s with
  | EmptyString => acc
  | String c s' => decimal_value s' (acc * 10 + (code c - 48))
  end.

Definition starts_with_zero (s : string) : bool :=
  match s with String c _ => Ascii.eqb c "0" | EmptyString => false end.

Definition octet_ok (s : string) : bool :=
  negb (String.eqb s EmptyString) && str_forall is_digit s &&
  (String.length s <=? 3)%nat &&
  (String.eqb s "0" || negb (starts_with_zero s)) && (decimal_value s 0 <=? 255)%N.

Definition ipv4_ok (s : string) : bool :=
  let octets := split_on "." s in
  (length octets =? 4)%nat && forallb octet_ok octets.

(** ** IPv6: [IPv6Address(s)] *)

Definition is_hex (c : ascii) : bool := negb (bool_decide (hex_value c = None)).

Definition hextet_ok (s : string) : bool :=
  negb (String.eqb s EmptyString) && str_forall is_hex s && (String.length s <=? 4)%nat.

Definition is_empty (s : string) : bool := String.eqb s EmptyString.

(** The indices [1 .. len-2] of the empty parts: the places of a [::]. *)
Fixpoint empty_inner (i : nat) (parts : list string) : list nat :=
  match parts with
  | [] | [_] => []
  | p :: rest => if is_empty p then i :: empty_inner (S i) rest else empty_inner (S i) rest
  end.

(** Replaces a trailing dotted quad by two hextets; the value of the hextets does
    not matter for acceptance. *)
Definition expand_ipv4_tail (parts : list string) : option (list string) :=
  match last parts with
  | Some p =>
      if str_exists (Ascii.eqb ".") p
      then if ipv4_ok p then Some (removelast parts ++ ["0"; "0"]) else None
      else Some parts
  | None => None
  end.

Definition ipv6_parts_ok (parts : list string) : bool :=
  let n := length parts in
  let first_empty := match head parts with Some p => is_empty p | None => false end in
  let last_empty := match last parts with Some p => is_empty p | None => false end in
  match match parts with [] => [] | _ :: rest => empty_inner 1 rest end with
  | [] =>
      (n =? 8)%nat && negb first_empty && negb last_empty && forallb hextet_ok parts
  | [skip] =>
      let hi := (skip - (if first_empty then 1 else 0))%nat in
      let lo := (n - skip - 1 - (if last_empty then 1 else 0))%nat in
      (negb first_empty || (hi =? 0)%nat) && (negb last_empty || (lo =? 0)%nat) &&
      (hi + lo <=? 7)%nat &&
      forallb hextet_ok (take hi parts) && forallb hextet_ok (drop (n - lo) parts)
  | _ => false
  end.

Definition ipv6_ok (s : string) : bool :=
  match partition "%" s with
  | (addr, has_scope, scope) =>
      (negb has_scope || (negb (is_empty scope) && negb (str_exists (Ascii.eqb "%") scope))) &&
      negb (is_empty addr) && negb (str_exists (Ascii.eqb "/") s) &&
      let parts := split_on ":" addr in
      (3 <=? length parts)%nat &&
      match expand_ipv4_tail parts with
      | Some parts' => (length parts' <=? 9)%nat && ipv6_parts_ok parts'
      | None => false
      end
  end.

(** Whether [ipaddress.ip_address(s)] returns rather than raises [ValueError]. *)
Definition ip_address_ok (s : string) : bool := ipv4_ok s || ipv6_ok s.

Example ip_address_samples :
  map ip_address_ok
    ["192.0.2.1"; "256.0.0.1"; "01.2.3.4"; "1.2.3"; "::"; "::1"; "2001:db8::8:800:200c:417a";
     "1:2:3:4:5:6:7:8"; "1:2:3:4:5:6:7"; "1::2::3"; ":1::2"; "::ffff:192.0.2.1"; "fe80::1%eth0";
     "fe80::1%"; "12345::"; "example.com"]
  = [true; false; false; false; true; true; true; true; false; false; false; true; true;
     false; false; false].
Proof. reflexivity. Qed.
