(* ===== verification/Json.v ===== *)
(** * JSON values and [json.dumps]

    The values held by JSON columns and hashed by the control plane.  A JSON
    object is an association list; the modelled code only builds objects with
    distinct keys, and keeps them in ascending key order, so that structural
    equality is Python's order-insensitive equality of dictionaries. *)

From Stdlib Require Import Ascii QArith.
From stdpp Require Import pretty.
From S2P Require Import Prelude PyText.

#[local] Set Warnings "-register-all".

Inductive json :=
| JNull
| JBool (b : bool)
| JInt (z : Z)
| JFloat (q : Q)
| JString (s : string)
| JArray (l : list json)
| JObject (fields : list (string * json)).

#[export] Instance Q_eq_dec : EqDecision Q.
Proof. solve_decision. Defined.

#[export] Instance json_eq_dec : EqDecision json.
Proof.
  refine (fix go (x y : json) {struct x} : Decision (x = y) :=
    match x, y with
    | JNull, JNull => left eq_refl
    | JBool a, JBool b => cast_if (decide (a = b))
    | JInt a, JInt b => cast_if (decide (a = b))
    | JFloat a, JFloat b => cast_if (decide (a = b))
    | JString a, JString b => cast_if (decide (a = b))
    | JArray a, JArray b => cast_if (@list_eq_dec _ go a b)
    | JObject a, JObject b => cast_if (@list_eq_dec _ (@prod_eq_dec _ _ _ go) a b)
    | _, _ => right _
    end); clear go; abstract congruence.
Defined.

(** [d.get(key)] on a dictionary. *)
Fixpoint obj_get (key : string) (fields : list (string * json)) : option json :=
  match fields with
  | [] => None
  | (k, v) :: rest => if String.eqb k key then Some v else obj_get key rest
  end.

(** [value.get(key)] where [value] is expected to be a dictionary. *)
Definition json_get (key : string) (j : json) : option json :=
  match j with JObject fields => obj_get key fields | _ => None end.

(** The number a JSON scalar is equal to in Python ([True == 1 == 1.0]). *)
Definition as_number (j : json) : option Q :=
  match j with
  | JBool b => Some (inject_Z (if b then 1 else 0))
  | JInt z => Some (inject_Z z)
  | JFloat q => Some q
  | _ => None
  end.

(** [x == y] for scalars, and for containers without mixed numbers. *)
Definition py_eq (x y : json) : bool :=
  match as_number x, as_number y with
  | Some p, Some q => Qeq_bool p q
  | _, _ => bool_decide (x = y)
  end.

(** [x in l]. *)
Definition py_in (x : json) (l : list json) : bool := existsb (py_eq x) l.

(** [int(x)]. *)
Definition py_int (j : json) : outcome Z :=
  match j with
  | JBool b => Ok (if b then 1 else 0)%Z
  | JInt z => Ok z
  | JFloat q => Ok (Z.quot (Qnum q) (Zpos (Qden q)))
  | JString s => match py_int10 s with Some z => Ok z | None => Err (ValueError s) end
  | _ => Err TypeError
  end.

(** A nullable column or field. *)
Definition json_opt {A} (f : A -> json) (o : option A) : json :=
  match o with Some a => f a | None => JNull end.

(** ** Printing *)

Definition dquote : string := String "034" EmptyString.
Definition backslash : string := String "092" EmptyString.

(** The escapes of [json.dumps] with [ensure_ascii]. *)
Definition escape_char (c : ascii) : string :=
  let n := code c in
  if (n =? 34)%N then backslash +:+ dquote
  else if (n =? 92)%N then backslash +:+ backslash
  else if (n =? 10)%N then backslash +:+ "n"
  else if (n =? 13)%N then backslash +:+ "r"
  else if (n =? 9)%N then backslash +:+ "t"
  else if (n =? 8)%N then backslash +:+ "b"
  else if (n =? 12)%N then backslash +:+ "f"
  else if (32 <=? n)%N && (n <=? 126)%N then String c EmptyString
  else backslash +:+ "u" +:+ to_hex 4 n EmptyString.

Fixpoint escape (s : string) : string :=
  match s with
  | EmptyString => EmptyString
  | String c s' => escape_char c +:+ escape s'
  end.

Definition quote (s : string) : string := dquote +:+ escape s +:+ dquote.

Section Dumps.
(** [repr] of a Python float. *)
Context (float_repr : Q -> string).

(** Insertion of a printed member by its key, for [sort_keys=True]. *)
Fixpoint insert_member (m : string * string) (l : list (string * string)) :=
  match l with
  | [] => [m]
  | m' :: l' => if String.leb m.1 m'.1 then m :: l else m' :: insert_member m l'
  end.

Definition sort_members (l : list (string * string)) : list (string * string) :=
  foldr insert_member [] l.

(** [json.dumps(j, sort_keys=True, separators=(",", ":"))]. *)
Fixpoint dumps (j : json) : string :=
  match j with
  | JNull => "null"
  | JBool true => "true"
  | JBool false => "false"
  | JInt z => pretty z
  | JFloat q => float_repr q
  | JString s => quote s
  | JArray l => "[" +:+ join "," (map dumps l) +:+ "]"
  | JObject fields =>
      let members := map (fun f => match f with (k, v) => (k, dumps v) end) fields in
      "{" +:+ join "," (map (fun m => quote m.1 +:+ ":" +:+ m.2) (sort_members members))
          +:+ "}"
  end.
End Dumps.
