(* ===== verification/Models.v ===== *)
(** * The control plane's tables

    The rows of models/monitoring.py (and the realm of models/auth.py) as records
    and the database as a record of finite maps.  Tables read by their primary key
    are keyed by it; relation tables are keyed by their [unique_together] columns
    (realm, left, right), the memberships being sets of such keys and the
    assignments mapping them to their [enabled] column; the configuration and
    operational state are keyed by the agent, to which they are one-to-one, and the
    snapshots by (realm, agent, revision).  Instants are microseconds since the
    epoch.  The surrogate [id] of relation rows and the bookkeeping columns
    [created_at]/[updated_at] are left out where no code reads them. *)

From Stdlib Require Import Ascii.
From S2P Require Import Prelude PyText Json.

Inductive ProbeType := ICMP | HTTP | TCP | DNS | TLS.

#[export] Instance ProbeType_eq_dec : EqDecision ProbeType.
Proof. solve_decision. Defined.

(** [str(probe_type)]: the value of the [StrEnum]. *)
Definition str_ProbeType (p : ProbeType) : string :=
  match p with
  | ICMP => "icmp" | HTTP => "http" | TCP => "tcp" | DNS => "dns" | TLS => "tls"
  end.

(** ** Rows *)

(** models/auth.py, [Realm]. *)
Record Realm := mkRealm {
  realm_id : uuid;
  realm_name : string;
  realm_slug : string;
  realm_is_active : bool;
  realm_created_at : Z;
}.

(** models/monitoring.py, [Agent]. *)
Record Agent := mkAgent {
  a_id : uuid;
  a_realm_id : uuid;
  a_name : string;
  a_description : option string;
  a_enabled : bool;
  a_archived_at : option Z;
}.

(** [AgentGroup]. *)
Record AgentGroup := mkAgentGroup {
  g_id : uuid;
  g_realm_id : uuid;
  g_parent_id : option uuid;
  g_name : string;
  g_description : option string;
  g_enabled : bool;
  g_archived_at : option Z;
}.

(** [AgentGroupMembership], named by its unique key. *)
Record AgentGroupMembership := mkAgentGroupMembership {
  gm_realm_id : uuid;
  gm_agent_group_id : uuid;
  gm_agent_id : uuid;
}.

(** [AgentCredential]. *)
Record AgentCredential := mkAgentCredential {
  cr_id : uuid;
  cr_realm_id : uuid;
  cr_agent_id : uuid;
  cr_name : string;
  cr_credential_hash : string;
  cr_last_used_at : option Z;
  cr_expires_at : option Z;
  cr_revoked_at : option Z;
  cr_created_at : Z;
}.

(** [AgentEnrolmentToken]. *)
Record AgentEnrolmentToken := mkAgentEnrolmentToken {
  tok_id : uuid;
  tok_realm_id : uuid;
  tok_agent_id : uuid;
  tok_token_hash : string;
  tok_expires_at : Z;
  tok_consumed_at : option Z;
  tok_revoked_at : option Z;
}.

(** [AgentOperationalState]: one row per agent. *)
Record AgentOperationalState := mkAgentOperationalState {
  op_realm_id : uuid;
  op_agent_id : uuid;
  op_last_heartbeat_at : Z;
  op_agent_version : string;
  op_platform : string;
  op_architecture : string;
  op_hostname : string;
  op_capabilities : json;
  op_active_configuration_revision : Z;
  op_known_desired_configuration_revision : Z;
  op_queue_depth : Z;
  op_queue_bytes : Z;
  op_oldest_pending_observation_at : option Z;
  op_database_health : string;
  op_scheduler_state : string;
  op_agent_time : Z;
  op_clock_offset_ms : Z;
  op_warnings : list string;
}.

(** [Target]. *)
Record Target := mkTarget {
  t_id : uuid;
  t_realm_id : uuid;
  t_name : string;
  t_description : option string;
  t_address : string;
  t_enabled : bool;
  t_archived_at : option Z;
}.

(** [TargetGroup]. *)
Record TargetGroup := mkTargetGroup {
  tg_id : uuid;
  tg_realm_id : uuid;
  tg_parent_id : option uuid;
  tg_name : string;
  tg_description : option string;
  tg_archived_at : option Z;
}.

(** [TargetGroupMembership], named by its unique key. *)
Record TargetGroupMembership := mkTargetGroupMembership {
  tgm_realm_id : uuid;
  tgm_target_group_id : uuid;
  tgm_target_id : uuid;
}.

(** [Monitor]. *)
Record Monitor := mkMonitor {
  m_id : uuid;
  m_realm_id : uuid;
  m_target_id : uuid;
  m_name : string;
  m_description : option string;
  m_probe_type : ProbeType;
  m_interval_seconds : Z;
  m_timeout_seconds : Z;
  m_configuration : json;
  m_enabled : bool;
  m_revision : Z;
  m_archived_at : option Z;
}.

(** [MonitorAgentAssignment]: its unique key and its flag. *)
Record MonitorAgentAssignment := mkMonitorAgentAssignment {
  maa_realm_id : uuid;
  maa_monitor_id : uuid;
  maa_agent_id : uuid;
  maa_enabled : bool;
}.

(** [MonitorAgentGroupAssignment]: its unique key and its flag. *)
Record MonitorAgentGroupAssignment := mkMonitorAgentGroupAssignment {
  mga_realm_id : uuid;
  mga_monitor_id : uuid;
  mga_agent_group_id : uuid;
  mga_enabled : bool;
}.

(** [AgentConfigurationState]: one row per agent (a one-to-one relation). *)
Record AgentConfigurationState := mkAgentConfigurationState {
  st_realm_id : uuid;
  st_desired_revision : Z;
  st_desired_content_hash : string;
  st_acknowledged_revision : Z;
  st_acknowledged_content_hash : string;
  st_acknowledged_at : option Z;
}.

(** [AgentConfigurationSnapshot]. *)
Record AgentConfigurationSnapshot := mkAgentConfigurationSnapshot {
  sn_realm_id : uuid;
  sn_agent_id : uuid;
  sn_revision : Z;
  sn_content_hash : string;
  sn_configuration : json;
  sn_created_at : Z;
}.

(** ** The database *)

Record MonDB := mkMonDB {
  agents : gmap uuid Agent;
  agent_groups : gmap uuid AgentGroup;
  agent_group_memberships : gset (uuid * uuid * uuid);
  agent_credentials : gmap uuid AgentCredential;
  agent_enrolment_tokens : gmap uuid AgentEnrolmentToken;
  agent_operational_states : gmap uuid AgentOperationalState;
  targets : gmap uuid Target;
  target_groups : gmap uuid TargetGroup;
  target_group_memberships : gset (uuid * uuid * uuid);
  monitors : gmap uuid Monitor;
  monitor_agent_assignments : gmap (uuid * uuid * uuid) bool;
  monitor_agent_group_assignments : gmap (uuid * uuid * uuid) bool;
  agent_configuration_states : gmap uuid AgentConfigurationState;
  agent_configuration_snapshots : gmap (uuid * uuid * Z) AgentConfigurationSnapshot;
}.

Definition empty_db : MonDB :=
  mkMonDB ∅ ∅ ∅ ∅ ∅ ∅ ∅ ∅ ∅ ∅ ∅ ∅ ∅ ∅.

(** One setter per table. *)
Definition set_agents (v : gmap uuid Agent) (db : MonDB) : MonDB :=
  mkMonDB v (db.(agent_groups)) (db.(agent_group_memberships)) (db.(agent_credentials))
    (db.(agent_enrolment_tokens)) (db.(agent_operational_states)) (db.(targets))
    (db.(target_groups)) (db.(target_group_memberships)) (db.(monitors))
    (db.(monitor_agent_assignments)) (db.(monitor_agent_group_assignments))
    (db.(agent_configuration_states)) (db.(agent_configuration_snapshots)).
Definition set_agent_groups (v : gmap uuid AgentGroup) (db : MonDB) : MonDB :=
  mkMonDB (db.(agents)) v (db.(agent_group_memberships)) (db.(agent_credentials))
    (db.(agent_enrolment_tokens)) (db.(agent_operational_states)) (db.(targets))
    (db.(target_groups)) (db.(target_group_memberships)) (db.(monitors))
    (db.(monitor_agent_assignments)) (db.(monitor_agent_group_assignments))
    (db.(agent_configuration_states)) (db.(agent_configuration_snapshots)).
Definition set_agent_group_memberships (v : gset (uuid * uuid * uuid)) (db : MonDB) : MonDB :=
  mkMonDB (db.(agents)) (db.(agent_groups)) v (db.(agent_credentials))
    (db.(agent_enrolment_tokens)) (db.(agent_operational_states)) (db.(targets))
    (db.(target_groups)) (db.(target_group_memberships)) (db.(monitors))
    (db.(monitor_agent_assignments)) (db.(monitor_agent_group_assignments))
    (db.(agent_configuration_states)) (db.(agent_configuration_snapshots)).
Definition set_agent_credentials (v : gmap uuid AgentCredential) (db : MonDB) : MonDB :=
  mkMonDB (db.(agents)) (db.(agent_groups)) (db.(agent_group_memberships)) v
    (db.(agent_enrolment_tokens)) (db.(agent_operational_states)) (db.(targets))
    (db.(target_groups)) (db.(target_group_memberships)) (db.(monitors))
    (db.(monitor_agent_assignments)) (db.(monitor_agent_group_assignments))
    (db.(agent_configuration_states)) (db.(agent_configuration_snapshots)).
Definition set_agent_enrolment_tokens (v : gmap uuid AgentEnrolmentToken) (db : MonDB) : MonDB :=
  mkMonDB (db.(agents)) (db.(agent_groups)) (db.(agent_group_memberships))
    (db.(agent_credentials)) v (db.(agent_operational_states)) (db.(targets)) (db.(target_groups))
    (db.(target_group_memberships)) (db.(monitors)) (db.(monitor_agent_assignments))
    (db.(monitor_agent_group_assignments)) (db.(agent_configuration_states))
    (db.(agent_configuration_snapshots)).
Definition set_agent_operational_states (v : gmap uuid AgentOperationalState) (db : MonDB) : MonDB :=
  mkMonDB (db.(agents)) (db.(agent_groups)) (db.(agent_group_memberships))
    (db.(agent_credentials)) (db.(agent_enrolment_tokens)) v (db.(targets)) (db.(target_groups))
    (db.(target_group_memberships)) (db.(monitors)) (db.(monitor_agent_assignments))
    (db.(monitor_agent_group_assignments)) (db.(agent_configuration_states))
    (db.(agent_configuration_snapshots)).
Definition set_targets (v : gmap uuid Target) (db : MonDB) : MonDB :=
  mkMonDB (db.(agents)) (db.(agent_groups)) (db.(agent_group_memberships))
    (db.(agent_credentials)) (db.(agent_enrolment_tokens)) (db.(agent_operational_states)) v
    (db.(target_groups)) (db.(target_group_memberships)) (db.(monitors))
    (db.(monitor_agent_assignments)) (db.(monitor_agent_group_assignments))
    (db.(agent_configuration_states)) (db.(agent_configuration_snapshots)).
Definition set_target_groups (v : gmap uuid TargetGroup) (db : MonDB) : MonDB :=
  mkMonDB (db.(agents)) (db.(agent_groups)) (db.(agent_group_memberships))
    (db.(agent_credentials)) (db.(agent_enrolment_tokens)) (db.(agent_operational_states))
    (db.(targets)) v (db.(target_group_memberships)) (db.(monitors))
    (db.(monitor_agent_assignments)) (db.(monitor_agent_group_assignments))
    (db.(agent_configuration_states)) (db.(agent_configuration_snapshots)).
Definition set_target_group_memberships (v : gset (uuid * uuid * uuid)) (db : MonDB) : MonDB :=
  mkMonDB (db.(agents)) (db.(agent_groups)) (db.(agent_group_memberships))
    (db.(agent_credentials)) (db.(agent_enrolment_tokens)) (db.(agent_operational_states))
    (db.(targets)) (db.(target_groups)) v (db.(monitors)) (db.(monitor_agent_assignments))
    (db.(monitor_agent_group_assignments)) (db.(agent_configuration_states))
    (db.(agent_configuration_snapshots)).
Definition set_monitors (v : gmap uuid Monitor) (db : MonDB) : MonDB :=
  mkMonDB (db.(agents)) (db.(agent_groups)) (db.(agent_group_memberships))
    (db.(agent_credentials)) (db.(agent_enrolment_tokens)) (db.(agent_operational_states))
    (db.(targets)) (db.(target_groups)) (db.(target_group_memberships)) v
    (db.(monitor_agent_assignments)) (db.(monitor_agent_group_assignments))
    (db.(agent_configuration_states)) (db.(agent_configuration_snapshots)).
Definition set_monitor_agent_assignments (v : gmap (uuid * uuid * uuid) bool) (db : MonDB) : MonDB :=
  mkMonDB (db.(agents)) (db.(agent_groups)) (db.(agent_group_memberships))
    (db.(agent_credentials)) (db.(agent_enrolment_tokens)) (db.(agent_operational_states))
    (db.(targets)) (db.(target_groups)) (db.(target_group_memberships)) (db.(monitors)) v
    (db.(monitor_agent_group_assignments)) (db.(agent_configuration_states))
    (db.(agent_configuration_snapshots)).
Definition set_monitor_agent_group_assignments (v : gmap (uuid * uuid * uuid) bool) (db : MonDB) : MonDB :=
  mkMonDB (db.(agents)) (db.(agent_groups)) (db.(agent_group_memberships))
    (db.(agent_credentials)) (db.(agent_enrolment_tokens)) (db.(agent_operational_states))
    (db.(targets)) (db.(target_groups)) (db.(target_group_memberships)) (db.(monitors))
    (db.(monitor_agent_assignments)) v (db.(agent_configuration_states))
    (db.(agent_configuration_snapshots)).
Definition set_agent_configuration_states (v : gmap uuid AgentConfigurationState) (db : MonDB) : MonDB :=
  mkMonDB (db.(agents)) (db.(agent_groups)) (db.(agent_group_memberships))
    (db.(agent_credentials)) (db.(agent_enrolment_tokens)) (db.(agent_operational_states))
    (db.(targets)) (db.(target_groups)) (db.(target_group_memberships)) (db.(monitors))
    (db.(monitor_agent_assignments)) (db.(monitor_agent_group_assignments)) v
    (db.(agent_configuration_snapshots)).
Definition set_agent_configuration_snapshots (v : gmap (uuid * uuid * Z) AgentConfigurationSnapshot) (db : MonDB) : MonDB :=
  mkMonDB (db.(agents)) (db.(agent_groups)) (db.(agent_group_memberships))
    (db.(agent_credentials)) (db.(agent_enrolment_tokens)) (db.(agent_operational_states))
    (db.(targets)) (db.(target_groups)) (db.(target_group_memberships)) (db.(monitors))
    (db.(monitor_agent_assignments)) (db.(monitor_agent_group_assignments))
    (db.(agent_configuration_states)) v.

(** ** Queries *)

(** The rows of a table. *)
Definition rows {K R} `{Countable K} (t : gmap K R) : list R := (map_to_list t).*2.

(** [Model.filter(...).exists()]. *)
Definition exists_row {K R} `{Countable K} (p : R -> bool) (t : gmap K R) : bool :=
  existsb p (rows t).

(** [Model.filter(...).first()] where at most one row can match. *)
Definition first_row {K R} `{Countable K} (p : R -> bool) (t : gmap K R) : option R :=
  List.find p (rows t).

(** [Model.filter(id=key, ...).first()]. *)
Definition get_row {K R} `{Countable K} (p : R -> bool) (key : K) (t : gmap K R) : option R :=
  match t !! key with
  | Some r => if p r then Some r else None
  | None => None
  end.

Definition is_none {A} (o : option A) : bool := match o with None => true | Some _ => false end.

(** ** Column types *)

Definition opt_ok {A} (p : A -> bool) (o : option A) : bool :=
  match o with Some a => p a | None => true end.

(** Text columns refuse NUL, and so do the texts inside a JSONB column. *)
Definition pg_text (s : string) : bool := str_forall (fun c => negb (Ascii.eqb c "000")) s.

Fixpoint pg_json (j : json) : bool :=
  match j with
  | JString s => pg_text s
  | JArray l => forallb pg_json l
  | JObject o => forallb (fun kv => pg_text kv.1 && pg_json kv.2) o
  | _ => true
  end.

(** ** Lemmas on queries *)

Section Queries.
Context {K R : Type} `{Countable K}.
Implicit Types (t : gmap K R) (p : R -> bool).

Lemma elem_of_rows t r : r ∈ rows t <-> exists k, t !! k = Some r.
Proof.
  unfold rows. rewrite list_elem_of_fmap. split.
  - intros ([k r'] & -> & Hin). exists k. by apply elem_of_map_to_list.
  - intros (k & Hk). exists (k, r). split; [done|]. by apply elem_of_map_to_list.
Qed.

Lemma exists_row_true p t : exists_row p t = true <-> exists k r, t !! k = Some r /\ p r = true.
Proof.
  unfold exists_row. rewrite existsb_exists. split.
  - intros (r & Hin%list_elem_of_In & Hp). apply elem_of_rows in Hin as [k Hk]. eauto.
  - intros (k & r & Hk & Hp). exists r. split; [|done].
    apply list_elem_of_In, elem_of_rows. eauto.
Qed.

Lemma exists_row_false p t :
  exists_row p t = false <-> forall k r, t !! k = Some r -> p r = false.
Proof.
  rewrite <-not_true_iff_false, exists_row_true. split.
  - intros Hn k r Hk. apply not_true_iff_false. intros Hp. apply Hn. eauto.
  - intros Ha (k & r & Hk & Hp). by rewrite (Ha k r Hk) in Hp.
Qed.

Lemma first_row_Some p t r : first_row p t = Some r -> (exists k, t !! k = Some r) /\ p r = true.
Proof.
  intros [Hin Hp]%List.find_some. split; [|done].
  by apply elem_of_rows, list_elem_of_In.
Qed.

Lemma first_row_None p t : first_row p t = None <-> forall k r, t !! k = Some r -> p r = false.
Proof.
  split.
  - intros Hf k r Hk. eapply List.find_none; [exact Hf|].
    apply list_elem_of_In, elem_of_rows. eauto.
  - intros Ha. destruct (first_row p t) as [r|] eqn:E; [|done].
    apply first_row_Some in E as [[k Hk] Hp]. by rewrite (Ha k r Hk) in Hp.
Qed.

Lemma get_row_Some p k t r : get_row p k t = Some r <-> t !! k = Some r /\ p r = true.
Proof.
  unfold get_row. split.
  - destruct (t !! k) as [r'|]; [|done]. destruct (p r') eqn:E; [|done]. by intros [= ->].
  - by intros [-> ->].
Qed.
End Queries.

Lemma is_none_true {A} (o : option A) : is_none o = true <-> o = None.
Proof. by destruct o. Qed.
