(* ===== verification/ProbeConfig.v ===== *)
(** * Probe configurations (schemas/monitoring.py)

    The five typed probe configurations, their validation from untrusted JSON and
    their normalised JSON form.  The declarative constraints (defaults, bounds,
    lengths, literals, forbidden extra keys) and the validators of the source are
    definitions; pydantic's coercion of one JSON scalar to a Python type is the
    interface [Coercions], whose laws say that a value already of the type is kept. *)

From Stdlib Require Import Ascii QArith.
From S2P Require Import Prelude PyText Json Models.
Local Open Scope Z_scope.

(** pydantic's scalar coercions (lax mode): [None] is a validation error. *)
Class Coercions := {
  to_int : json -> option Z;
  to_float : json -> option Q;
  to_bool : json -> option bool;
  to_str : json -> option string;
  to_int_JInt z : to_int (JInt z) = Some z;
  to_float_JFloat q : to_float (JFloat q) = Some q;
  to_bool_JBool b : to_bool (JBool b) = Some b;
  to_str_JString s : to_str (JString s) = Some s;
}.

(** ** Literals *)

Inductive AddressFamily := AF_auto | AF_ipv4 | AF_ipv6.
Inductive Scheme_ := Scheme_http | Scheme_https.
Inductive Method := Method_GET | Method_HEAD.
Inductive ResolverMode := Resolver_system | Resolver_explicit.
Inductive Transport := Transport_udp_with_tcp_fallback | Transport_tcp.
Inductive QueryType := QT_A | QT_AAAA | QT_CNAME | QT_MX | QT_NS | QT_TXT | QT_PTR.
Inductive TlsVersion := Tls_1_2 | Tls_1_3.

Definition lit_AddressFamily : list (string * AddressFamily) :=
  [("auto", AF_auto); ("ipv4", AF_ipv4); ("ipv6", AF_ipv6)].
Definition lit_Scheme : list (string * Scheme_) :=
  [("http", Scheme_http); ("https", Scheme_https)].
Definition lit_Method : list (string * Method) := [("GET", Method_GET); ("HEAD", Method_HEAD)].
Definition lit_ResolverMode : list (string * ResolverMode) :=
  [("system", Resolver_system); ("explicit", Resolver_explicit)].
Definition lit_Transport : list (string * Transport) :=
  [("udp_with_tcp_fallback", Transport_udp_with_tcp_fallback); ("tcp", Transport_tcp)].
Definition lit_QueryType : list (string * QueryType) :=
  [("A", QT_A); ("AAAA", QT_AAAA); ("CNAME", QT_CNAME); ("MX", QT_MX); ("NS", QT_NS);
   ("TXT", QT_TXT); ("PTR", QT_PTR)].
Definition lit_TlsVersion : list (string * TlsVersion) := [("1.2", Tls_1_2); ("1.3", Tls_1_3)].

#[export] Instance AddressFamily_eq_dec : EqDecision AddressFamily.
Proof. solve_decision. Defined.
#[export] Instance Scheme_eq_dec : EqDecision Scheme_.
Proof. solve_decision. Defined.
#[export] Instance Method_eq_dec : EqDecision Method.
Proof. solve_decision. Defined.
#[export] Instance ResolverMode_eq_dec : EqDecision ResolverMode.
Proof. solve_decision. Defined.
#[export] Instance Transport_eq_dec : EqDecision Transport.
Proof. solve_decision. Defined.
#[export] Instance QueryType_eq_dec : EqDecision QueryType.
Proof. solve_decision. Defined.
#[export] Instance TlsVersion_eq_dec : EqDecision TlsVersion.
Proof. solve_decision. Defined.

(** The value of a literal in JSON, and its reading. *)
Fixpoint lit_print {A} `{EqDecision A} (lits : list (string * A)) (a : A) : json :=
  match lits with
  | [] => JNull
  | (s, b) :: rest => if decide (a = b) then JString s else lit_print rest a
  end.

Fixpoint lit_read {A} (lits : list (string * A)) (j : json) : option A :=
  match lits with
  | [] => None
  | (s, b) :: rest => if decide (j = JString s) then Some b else lit_read rest j
  end.

(** ** The typed configurations *)

Record IcmpProbeConfiguration := mkIcmp {
  icmp_packet_count : Z;
  icmp_packet_interval_ms : Z;
  icmp_per_packet_timeout_ms : option Z;
  icmp_payload_size_bytes : Z;
  icmp_address_family : AddressFamily;
  icmp_maximum_packet_loss_percent : option Q;
  icmp_maximum_average_rtt_ms : option Q;
}.

Record HttpHeaderAssertion := mkHeaderAssertion { ha_name : string; ha_value : string }.

Record HttpProbeConfiguration := mkHttp {
  http_scheme : Scheme_;
  http_port : option Z;
  http_path : string;
  http_method : Method;
  http_follow_redirects : bool;
  http_maximum_redirects : Z;
  http_host_header : option string;
  http_request_headers : list (string * string);
  http_expected_status_codes : list Z;
  http_expected_header_values : list HttpHeaderAssertion;
  http_expected_body_contains : list string;
  http_maximum_response_bytes : Z;
  http_address_family : AddressFamily;
}.

Record TcpProbeConfiguration := mkTcp {
  tcp_port : Z;
  tcp_address_family : AddressFamily;
}.

(** [DnsAnswerAssertion] has the single field [value]. *)
Record DnsProbeConfiguration := mkDns {
  dns_resolver_mode : ResolverMode;
  dns_resolver_address : option string;
  dns_resolver_port : Z;
  dns_transport : Transport;
  dns_query_name : option string;
  dns_query_type : QueryType;
  dns_recursion_desired : bool;
  dns_expected_response_codes : list string;
  dns_expected_answers : list string;
}.

Record TlsProbeConfiguration := mkTls {
  tls_port : Z;
  tls_server_name : option string;
  tls_address_family : AddressFamily;
  tls_minimum_tls_version : TlsVersion;
  tls_expiry_warning_days : Z;
}.

Inductive TypedProbeConfiguration :=
| IcmpConfig (c : IcmpProbeConfiguration)
| HttpConfig (c : HttpProbeConfiguration)
| TcpConfig (c : TcpProbeConfiguration)
| DnsConfig (c : DnsProbeConfiguration)
| TlsConfig (c : TlsProbeConfiguration).

(** ** Field combinators *)

Definition ensure (b : bool) : option unit := if b then Some tt else None.

(** A field with a default: the default is not validated. *)
Definition field {A} (obj : list (string * json)) (name : string) (read : json -> option A)
    (default : A) : option A :=
  match obj_get name obj with Some v => read v | None => Some default end.

(** A field without a default. *)
Definition required {A} (obj : list (string * json)) (name : string)
    (read : json -> option A) : option A :=
  match obj_get name obj with Some v => read v | None => None end.

(** [T | None]. *)
Definition nullable {A} (read : json -> option A) (j : json) : option (option A) :=
  match j with JNull => Some None | _ => Some <$> read j end.

(** [extra="forbid"]. *)
Definition only_keys (allowed : list string) (obj : list (string * json)) : bool :=
  forallb (fun f => existsb (String.eqb f.1) allowed) obj.

(** [schema_version: Literal[1] = 1]. *)
Definition schema_version_ok (obj : list (string * json)) : bool :=
  match obj_get "schema_version" obj with
  | Some v => bool_decide (v = JInt 1)
  | None => true
  end.

Definition control_free (s : string) : bool := negb (str_exists is_control s).

Fixpoint read_all {A} (read : json -> option A) (l : list json) : option (list A) :=
  match l with
  | [] => Some []
  | j :: l' => a ← read j; r ← read_all read l'; Some (a :: r)
  end.

(** A list of at least [lo] and at most [hi] items. *)
Definition read_list {A} (read : json -> option A) (lo hi : Z) (j : json) : option (list A) :=
  match j with
  | JArray l =>
      r ← read_all read l;
      _ ← ensure ((lo <=? Z.of_nat (length r)) && (Z.of_nat (length r) <=? hi));
      Some r
  | _ => None
  end.

(** [len(value) == len(set(value))]. *)
Definition all_distinct {A} `{EqDecision A} (l : list A) : bool := bool_decide (NoDup l).

(** ** The validators of the source *)

(** [_HTTP_HEADER_NAME]: one or more of [!#$%&'*+.^_`|~0-9A-Za-z-]. *)
Definition header_char (c : ascii) : bool :=
  is_alnum_dash c ||
  existsb (N.eqb (code c)) [33; 35; 36; 37; 38; 39; 42; 43; 46; 94; 95; 96; 124; 126]%N.

Definition header_name_ok (s : string) : bool := negb (is_empty s) && str_forall header_char s.

Definition http_forbidden_headers : list string :=
  ["authorization"; "cookie"; "proxy-authorization"].

(** One dot-separated label of a host name. *)
Definition label_ok (label : string) : bool :=
  negb (is_empty label) && (str_len label <=? 63) && negb (startswith "-" label) &&
  negb (bool_decide (last_char label = Some "-"%char)) && str_forall is_alnum_dash label.

Definition hostname_ok (s : string) : bool := forallb label_ok (split_on "." s).

Definition rstrip_dots (s : string) : string := rstrip_with (Ascii.eqb ".") s.

Definition validate_path (value : string) : option string :=
  _ ← ensure (startswith "/" value && control_free value); Some value.

Definition validate_host_header (value : string) : option string :=
  _ ← ensure (hostname_ok (rstrip_dots value)); Some value.

Definition validate_request_headers (value : list (string * string)) :
    option (list (string * string)) :=
  _ ← ensure (forallb (fun h => header_name_ok h.1 &&
                negb (existsb (String.eqb (lower h.1)) http_forbidden_headers) &&
                control_free h.2) value);
  Some value.

Definition validate_status_codes (value : list Z) : option (list Z) :=
  _ ← ensure (forallb (fun code => (100 <=? code) && (code <=? 599)) value);
  _ ← ensure (all_distinct value);
  Some value.

Definition validate_body_assertions (value : list string) : option (list string) :=
  _ ← ensure (forallb control_free value); Some value.

Definition validate_resolver_address (mode : ResolverMode) (value : option string) :
    option (option string) :=
  match mode, value with
  | Resolver_explicit, None => None
  | Resolver_explicit, Some a => _ ← ensure (ip_address_ok a); Some (Some a)
  | Resolver_system, Some _ => None
  | Resolver_system, None => Some None
  end.

Definition validate_transport (mode : ResolverMode) (value : Transport) : option Transport :=
  _ ← ensure (negb (bool_decide (mode = Resolver_system) &&
                    bool_decide (value <> Transport_udp_with_tcp_fallback)));
  Some value.

Definition normalize_query_name (value : string) : option string :=
  let normalized := lower (rstrip_dots (strip value)) in
  _ ← ensure (negb (is_empty normalized) && control_free normalized);
  Some normalized.

Definition allowed_response_codes : list string :=
  ["NOERROR"; "FORMERR"; "SERVFAIL"; "NXDOMAIN"; "NOTIMP"; "REFUSED"].

Definition validate_response_codes (value : list string) : option (list string) :=
  let normalized := map (fun code => upper (strip code)) value in
  _ ← ensure (forallb (fun c => existsb (String.eqb c) allowed_response_codes) normalized);
  _ ← ensure (all_distinct normalized);
  Some normalized.

Definition validate_resolver_mode (c : DnsProbeConfiguration) : option DnsProbeConfiguration :=
  _ ← ensure (negb (bool_decide (dns_resolver_mode c = Resolver_explicit) &&
                    is_none (dns_resolver_address c)));
  _ ← ensure (negb (bool_decide (dns_resolver_mode c = Resolver_system) &&
                    negb (is_none (dns_resolver_address c))));
  _ ← ensure (negb (bool_decide (dns_resolver_mode c = Resolver_system) &&
                    bool_decide (dns_transport c <> Transport_udp_with_tcp_fallback)));
  Some c.

Definition normalize_server_name (value : string) : option string :=
  let normalized := lower (rstrip_dots (strip value)) in
  _ ← ensure (negb (ip_address_ok normalized));
  _ ← ensure (hostname_ok normalized);
  Some normalized.

(** ** Validation and serialisation *)

Section Validation.
Context {CO : Coercions}.

(** [Annotated[int, Field(ge=lo, le=hi)]]. *)
Definition read_int (lo hi : Z) (j : json) : option Z :=
  z ← to_int j; _ ← ensure ((lo <=? z) && (z <=? hi)); Some z.

(** [Annotated[str, Field(min_length=lo, max_length=hi)]]. *)
Definition read_str (lo hi : Z) (j : json) : option string :=
  s ← to_str j; _ ← ensure ((lo <=? str_len s) && (str_len s <=? hi)); Some s.

(** [Annotated[float, Field(ge=0)]], with an upper bound where there is one. *)
Definition read_float (hi : option Q) (j : json) : option Q :=
  q ← to_float j;
  _ ← ensure (Qle_bool 0 q && match hi with Some h => Qle_bool q h | None => true end);
  Some q.

Definition read_icmp (j : json) : option IcmpProbeConfiguration :=
  match j with
  | JObject o =>
      _ ← ensure (only_keys ["schema_version"; "packet_count"; "packet_interval_ms";
            "per_packet_timeout_ms"; "payload_size_bytes"; "address_family";
            "maximum_packet_loss_percent"; "maximum_average_rtt_ms"] o);
      _ ← ensure (schema_version_ok o);
      packet_count ← field o "packet_count" (read_int 1 100) 20;
      packet_interval_ms ← field o "packet_interval_ms" (read_int 10 1000) 50;
      per_packet_timeout_ms ←
        field o "per_packet_timeout_ms" (nullable (read_int 1 60000)) None;
      payload_size_bytes ← field o "payload_size_bytes" (read_int 0 1400) 56;
      address_family ← field o "address_family" (lit_read lit_AddressFamily) AF_auto;
      loss ← field o "maximum_packet_loss_percent" (nullable (read_float (Some (100 # 1)))) None;
      rtt ← field o "maximum_average_rtt_ms" (nullable (read_float None)) None;
      Some (mkIcmp packet_count packet_interval_ms per_packet_timeout_ms payload_size_bytes
              address_family loss rtt)
  | _ => None
  end.

Definition read_header_assertion (j : json) : option HttpHeaderAssertion :=
  match j with
  | JObject o =>
      _ ← ensure (only_keys ["name"; "value"] o);
      name ← required o "name" (read_str 1 128);
      _ ← ensure (header_name_ok name);
      value ← required o "value" (read_str 0 1024);
      _ ← ensure (control_free value);
      Some (mkHeaderAssertion name value)
  | _ => None
  end.

(** [dict[str(1..128), str(..1024)]] of at most 32 entries. *)
Definition read_headers (j : json) : option (list (string * string)) :=
  match j with
  | JObject o =>
      kvs ← read_all (fun j => match j with
              | JArray [JString k; v] =>
                  _ ← ensure ((1 <=? str_len k) && (str_len k <=? 128));
                  v' ← read_str 0 1024 v; Some (k, v')
              | _ => None
              end) (map (fun f => JArray [JString f.1; f.2]) o);
      _ ← ensure (Z.of_nat (length kvs) <=? 32);
      Some kvs
  | _ => None
  end.

Definition read_http (j : json) : option HttpProbeConfiguration :=
  match j with
  | JObject o =>
      _ ← ensure (only_keys ["schema_version"; "scheme"; "port"; "path"; "method";
            "follow_redirects"; "maximum_redirects"; "host_header"; "request_headers";
            "expected_status_codes"; "expected_header_values"; "expected_body_contains";
            "maximum_response_bytes"; "address_family"] o);
      _ ← ensure (schema_version_ok o);
      scheme ← field o "scheme" (lit_read lit_Scheme) Scheme_https;
      port ← field o "port" (nullable (read_int 1 65535)) None;
      path ← field o "path" (fun v => read_str 1 2048 v ≫= validate_path) "/";
      method ← field o "method" (lit_read lit_Method) Method_GET;
      follow ← field o "follow_redirects" to_bool true;
      redirects ← field o "maximum_redirects" (read_int 0 10) 5;
      host ← field o "host_header"
               (nullable (fun v => read_str 1 253 v ≫= validate_host_header)) None;
      headers ← field o "request_headers"
                  (fun v => read_headers v ≫= validate_request_headers) [];
      codes ← field o "expected_status_codes"
                (fun v => read_list to_int 1 200 v ≫= validate_status_codes) (seqZ 200 200);
      assertions ← field o "expected_header_values"
                     (read_list read_header_assertion 0 32) [];
      body ← field o "expected_body_contains"
               (fun v => read_list (read_str 1 1024) 0 16 v ≫= validate_body_assertions) [];
      bytes ← field o "maximum_response_bytes" (read_int 1 (4 * 1024 * 1024)) (1024 * 1024);
      family ← field o "address_family" (lit_read lit_AddressFamily) AF_auto;
      Some (mkHttp scheme port path method follow redirects host headers codes assertions
              body bytes family)
  | _ => None
  end.

Definition read_tcp (j : json) : option TcpProbeConfiguration :=
  match j with
  | JObject o =>
      _ ← ensure (only_keys ["schema_version"; "port"; "address_family"] o);
      _ ← ensure (schema_version_ok o);
      port ← required o "port" (read_int 1 65535);
      family ← field o "address_family" (lit_read lit_AddressFamily) AF_auto;
      Some (mkTcp port family)
  | _ => None
  end.

Definition read_answer_assertion (j : json) : option string :=
  match j with
  | JObject o =>
      _ ← ensure (only_keys ["value"] o);
      value ← required o "value" (read_str 1 1024);
      _ ← ensure (control_free value);
      Some value
  | _ => None
  end.

Definition read_dns (j : json) : option DnsProbeConfiguration :=
  match j with
  | JObject o =>
      _ ← ensure (only_keys ["schema_version"; "resolver_mode"; "resolver_address";
            "resolver_port"; "transport"; "query_name"; "query_type"; "recursion_desired";
            "expected_response_codes"; "expected_answers"] o);
      _ ← ensure (schema_version_ok o);
      mode ← field o "resolver_mode" (lit_read lit_ResolverMode) Resolver_system;
      address ← field o "resolver_address"
                  (fun v => nullable (read_str 2 45) v ≫= validate_resolver_address mode) None;
      port ← field o "resolver_port" (read_int 1 65535) 53;
      transport ← field o "transport"
                    (fun v => lit_read lit_Transport v ≫= validate_transport mode)
                    Transport_udp_with_tcp_fallback;
      name ← field o "query_name"
               (nullable (fun v => read_str 1 253 v ≫= normalize_query_name)) None;
      type ← field o "query_type" (lit_read lit_QueryType) QT_A;
      recursion ← field o "recursion_desired" to_bool true;
      codes ← field o "expected_response_codes"
                (fun v => read_list to_str 1 16 v ≫= validate_response_codes) ["NOERROR"];
      answers ← field o "expected_answers" (read_list read_answer_assertion 0 32) [];
      validate_resolver_mode
        (mkDns mode address port transport name type recursion codes answers)
  | _ => None
  end.

Definition read_tls (j : json) : option TlsProbeConfiguration :=
  match j with
  | JObject o =>
      _ ← ensure (only_keys ["schema_version"; "port"; "server_name"; "address_family";
            "minimum_tls_version"; "expiry_warning_days"] o);
      _ ← ensure (schema_version_ok o);
      port ← field o "port" (read_int 1 65535) 443;
      name ← field o "server_name"
               (nullable (fun v => read_str 1 253 v ≫= normalize_server_name)) None;
      family ← field o "address_family" (lit_read lit_AddressFamily) AF_auto;
      version ← field o "minimum_tls_version" (lit_read lit_TlsVersion) Tls_1_2;
      days ← field o "expiry_warning_days" (read_int 0 3650) 30;
      Some (mkTls port name family version days)
  | _ => None
  end.

(** [_PROBE_CONFIGURATION_ADAPTERS[probe_type].validate_python]. *)
Definition validate_python (p : ProbeType) (j : json) : option TypedProbeConfiguration :=
  match p with
  | ICMP => IcmpConfig <$> read_icmp j
  | HTTP => HttpConfig <$> read_http j
  | TCP => TcpConfig <$> read_tcp j
  | DNS => DnsConfig <$> read_dns j
  | TLS => TlsConfig <$> read_tls j
  end.

Definition is_nil {A} (l : list A) : bool := match l with [] => true | _ => false end.

Definition validate_probe_configuration (p : ProbeType) (j : json) :
    outcome TypedProbeConfiguration :=
  match validate_python p j with
  | None => Err (ValidationError "validation error")
  | Some (HttpConfig c) =>
      if bool_decide (http_method c = Method_HEAD) &&
         negb (is_nil (http_expected_body_contains c))
      then Err (ValueError "HTTP HEAD monitors cannot contain body assertions")
      else Ok (HttpConfig c)
  | Some c => Ok c
  end.

(** [validated.model_dump(mode="json")], with the keys in ascending order. *)
Definition dump_strings (l : list string) : json := JArray (map JString l).

Definition model_dump (c : TypedProbeConfiguration) : json :=
  match c with
  | IcmpConfig c => JObject
      [("address_family", lit_print lit_AddressFamily (icmp_address_family c));
       ("maximum_average_rtt_ms", json_opt JFloat (icmp_maximum_average_rtt_ms c));
       ("maximum_packet_loss_percent", json_opt JFloat (icmp_maximum_packet_loss_percent c));
       ("packet_count", JInt (icmp_packet_count c));
       ("packet_interval_ms", JInt (icmp_packet_interval_ms c));
       ("payload_size_bytes", JInt (icmp_payload_size_bytes c));
       ("per_packet_timeout_ms", json_opt JInt (icmp_per_packet_timeout_ms c));
       ("schema_version", JInt 1)]
  | HttpConfig c => JObject
      [("address_family", lit_print lit_AddressFamily (http_address_family c));
       ("expected_body_contains", dump_strings (http_expected_body_contains c));
       ("expected_header_values",
         JArray (map (fun h => JObject [("name", JString (ha_name h));
                                        ("value", JString (ha_value h))])
                     (http_expected_header_values c)));
       ("expected_status_codes", JArray (map JInt (http_expected_status_codes c)));
       ("follow_redirects", JBool (http_follow_redirects c));
       ("host_header", json_opt JString (http_host_header c));
       ("maximum_redirects", JInt (http_maximum_redirects c));
       ("maximum_response_bytes", JInt (http_maximum_response_bytes c));
       ("method", lit_print lit_Method (http_method c));
       ("path", JString (http_path c));
       ("port", json_opt JInt (http_port c));
       ("request_headers",
         JObject (map (fun h => (h.1, JString h.2)) (http_request_headers c)));
       ("schema_version", JInt 1);
       ("scheme", lit_print lit_Scheme (http_scheme c))]
  | TcpConfig c => JObject
      [("address_family", lit_print lit_AddressFamily (tcp_address_family c));
       ("port", JInt (tcp_port c));
       ("schema_version", JInt 1)]
  | DnsConfig c => JObject
      [("expected_answers",
         JArray (map (fun a => JObject [("value", JString a)]) (dns_expected_answers c)));
       ("expected_response_codes", dump_strings (dns_expected_response_codes c));
       ("query_name", json_opt JString (dns_query_name c));
       ("query_type", lit_print lit_QueryType (dns_query_type c));
       ("recursion_desired", JBool (dns_recursion_desired c));
       ("resolver_address", json_opt JString (dns_resolver_address c));
       ("resolver_mode", lit_print lit_ResolverMode (dns_resolver_mode c));
       ("resolver_port", JInt (dns_resolver_port c));
       ("schema_version", JInt 1);
       ("transport", lit_print lit_Transport (dns_transport c))]
  | TlsConfig c => JObject
      [("address_family", lit_print lit_AddressFamily (tls_address_family c));
       ("expiry_warning_days", JInt (tls_expiry_warning_days c));
       ("minimum_tls_version", lit_print lit_TlsVersion (tls_minimum_tls_version c));
       ("port", JInt (tls_port c));
       ("schema_version", JInt 1);
       ("server_name", json_opt JString (tls_server_name c))]
  end.

(** The ICMP packet schedule has to fit in the monitor's timeout; the per-packet
    timeout defaults to the time left ([x or y]: a null or zero value is replaced). *)
Definition available_ms (timeout_seconds : Z) (c : IcmpProbeConfiguration) : Z :=
  timeout_seconds * 1000 - (icmp_packet_count c - 1) * icmp_packet_interval_ms c.

Definition packet_timeout_ms (timeout_seconds : Z) (c : IcmpProbeConfiguration) : Z :=
  match icmp_per_packet_timeout_ms c with
  | Some t => if t =? 0 then available_ms timeout_seconds c else t
  | None => available_ms timeout_seconds c
  end.

Definition with_packet_timeout (t : Z) (c : IcmpProbeConfiguration) : IcmpProbeConfiguration :=
  mkIcmp (icmp_packet_count c) (icmp_packet_interval_ms c) (Some t)
    (icmp_payload_size_bytes c) (icmp_address_family c) (icmp_maximum_packet_loss_percent c)
    (icmp_maximum_average_rtt_ms c).

(** The timeout step of [serialize_probe_configuration]. *)
Definition fit_timeout (timeout_seconds : option Z) (v : TypedProbeConfiguration) :
    outcome TypedProbeConfiguration :=
  match v, timeout_seconds with
  | IcmpConfig c, Some ts =>
      if (available_ms ts c <? 1) || (available_ms ts c <? packet_timeout_ms ts c)
      then Err (ValueError "ICMP packet sequence does not fit within monitor timeout")
      else Ok (IcmpConfig (with_packet_timeout (packet_timeout_ms ts c) c))
  | _, _ => Ok v
  end.

Definition serialize_probe_configuration (p : ProbeType) (j : json)
    (timeout_seconds : option Z) : outcome json :=
  match validate_probe_configuration p j with
  | Err e => Err e
  | Ok v => match fit_timeout timeout_seconds v with
            | Err e => Err e
            | Ok v' => Ok (model_dump v')
            end
  end.
End Validation.

(** Coercions that accept exactly the values already of the type: an instance of
    the interface. *)
#[refine] Definition strict_coercions : Coercions := {|
  to_int j := match j with JInt z => Some z | _ => None end;
  to_float j := match j with JFloat q => Some q | _ => None end;
  to_bool j := match j with JBool b => Some b | _ => None end;
  to_str j := match j with JString s => Some s | _ => None end;
|}.
Proof. all: done. Defined.
