(* ===== verification/ProbeConfigProps.v ===== *)
(** * Properties of probe configurations

    Validation establishes the declared bounds ([validate_python_wf]); the JSON form
    of a well-formed configuration validates to itself ([validate_model_dump]); an
    accepted ICMP monitor's packet schedule fits in its timeout; and two inputs for
    which the normalised form is not a fixed point of validation. *)

From Stdlib Require Import Ascii QArith.
From S2P Require Import Prelude PyText Json Models ProbeConfig.
Local Open Scope Z_scope.
#[local] Arguments startswith : simpl never.

(** ** Well-formed configurations *)

Definition between (lo hi z : Z) : bool := (lo <=? z) && (z <=? hi).
Definition len_between (lo hi : Z) (s : string) : bool := between lo hi (str_len s).
Definition opt_all {A} (p : A -> bool) (o : option A) : bool :=
  match o with Some a => p a | None => true end.
Definition size_between {A} (lo hi : Z) (l : list A) : bool := between lo hi (Z.of_nat (length l)).

Definition wf_icmp (c : IcmpProbeConfiguration) : bool :=
  between 1 100 (icmp_packet_count c) && between 10 1000 (icmp_packet_interval_ms c) &&
  opt_all (between 1 60000) (icmp_per_packet_timeout_ms c) &&
  between 0 1400 (icmp_payload_size_bytes c) &&
  opt_all (fun q => Qle_bool 0 q && Qle_bool q (100 # 1)) (icmp_maximum_packet_loss_percent c) &&
  opt_all (Qle_bool 0) (icmp_maximum_average_rtt_ms c).

Definition wf_assertion (h : HttpHeaderAssertion) : bool :=
  len_between 1 128 (ha_name h) && header_name_ok (ha_name h) &&
  len_between 0 1024 (ha_value h) && control_free (ha_value h).

Definition wf_header (h : string * string) : bool :=
  len_between 1 128 h.1 && len_between 0 1024 h.2 && header_name_ok h.1 &&
  negb (existsb (String.eqb (lower h.1)) http_forbidden_headers) && control_free h.2.

Definition wf_http (c : HttpProbeConfiguration) : bool :=
  opt_all (between 1 65535) (http_port c) &&
  (len_between 1 2048 (http_path c) && startswith "/" (http_path c) &&
   control_free (http_path c)) &&
  between 0 10 (http_maximum_redirects c) &&
  opt_all (fun h => len_between 1 253 h && hostname_ok (rstrip_dots h)) (http_host_header c) &&
  (size_between 0 32 (http_request_headers c) && forallb wf_header (http_request_headers c)) &&
  (size_between 1 200 (http_expected_status_codes c) &&
   forallb (between 100 599) (http_expected_status_codes c) &&
   all_distinct (http_expected_status_codes c)) &&
  (size_between 0 32 (http_expected_header_values c) &&
   forallb wf_assertion (http_expected_header_values c)) &&
  (size_between 0 16 (http_expected_body_contains c) &&
   forallb (fun s => len_between 1 1024 s && control_free s) (http_expected_body_contains c)) &&
  between 1 (4 * 1024 * 1024) (http_maximum_response_bytes c).

Definition wf_tcp (c : TcpProbeConfiguration) : bool := between 1 65535 (tcp_port c).

(** Everything the DNS schema requires, except that the query name is in normal
    form. *)
Definition wf_dns (c : DnsProbeConfiguration) : bool :=
  match dns_resolver_mode c, dns_resolver_address c with
  | Resolver_explicit, Some a => len_between 2 45 a && ip_address_ok a
  | Resolver_system, None => bool_decide (dns_transport c = Transport_udp_with_tcp_fallback)
  | _, _ => false
  end &&
  between 1 65535 (dns_resolver_port c) &&
  opt_all (fun n => len_between 1 253 n && control_free n) (dns_query_name c) &&
  (size_between 1 16 (dns_expected_response_codes c) &&
   forallb (fun s => existsb (String.eqb s) allowed_response_codes)
     (dns_expected_response_codes c) &&
   all_distinct (dns_expected_response_codes c)) &&
  (size_between 0 32 (dns_expected_answers c) &&
   forallb (fun a => len_between 1 1024 a && control_free a) (dns_expected_answers c)).

(** The query name is a fixed point of its normalisation. *)
Definition dns_name_normal (c : DnsProbeConfiguration) : bool :=
  opt_all (fun n => bool_decide (normalize_query_name n = Some n)) (dns_query_name c).

Definition wf_tls (c : TlsProbeConfiguration) : bool :=
  between 1 65535 (tls_port c) &&
  opt_all (fun n => len_between 1 253 n && bool_decide (normalize_server_name n = Some n))
    (tls_server_name c) &&
  between 0 3650 (tls_expiry_warning_days c).

Definition wf_config (c : TypedProbeConfiguration) : bool :=
  match c with
  | IcmpConfig c => wf_icmp c
  | HttpConfig c => wf_http c
  | TcpConfig c => wf_tcp c
  | DnsConfig c => wf_dns c
  | TlsConfig c => wf_tls c
  end.

Definition normal_config (c : TypedProbeConfiguration) : bool :=
  match c with DnsConfig c => dns_name_normal c | _ => true end.

Definition config_type (c : TypedProbeConfiguration) : ProbeType :=
  match c with
  | IcmpConfig _ => ICMP | HttpConfig _ => HTTP | TcpConfig _ => TCP
  | DnsConfig _ => DNS | TlsConfig _ => TLS
  end.

(** ** Reading lemmas *)

Lemma ensure_Some b u : ensure b = Some u <-> b = true.
Proof. by destruct b, u. Qed.

(** A validated field satisfies [P] when the reader only returns such values and
    the (unvalidated) default is one. *)
Lemma field_sound {A} (P : A -> Prop) o name read d v :
  field o name read d = Some v -> P d -> (forall j v, read j = Some v -> P v) -> P v.
Proof.
  unfold field. intros H Hd Hr. destruct (obj_get name o); [by eapply Hr|].
  by injection H as <-.
Qed.

Lemma required_sound {A} (P : A -> Prop) o name (read : json -> option A) v :
  required o name read = Some v -> (forall j v, read j = Some v -> P v) -> P v.
Proof. unfold required. intros H Hr. destruct (obj_get name o); [by eapply Hr|done]. Qed.

Ltac inv_read :=
  repeat match goal with
  | H : _ ≫= _ = Some _ |- _ => apply bind_Some in H as (? & ? & ?)
  | H : ensure _ = Some _ |- _ => apply ensure_Some in H
  | H : Some _ = Some _ |- _ => injection H; clear H; intros; subst
  | H : _ && _ = true |- _ => apply andb_true_iff in H as [? ?]
  | H : None = Some _ |- _ => discriminate H
  end.

(** Reduces a bound on a field's value to the same bound on what its reader returns. *)
Ltac by_field :=
  match goal with
  | H : field _ _ _ _ = Some ?x |- ?f ?x = true =>
      refine (field_sound (fun v => f v = true) _ _ _ _ _ H _ _); [vm_compute; reflexivity|]
  | H : required _ _ _ = Some ?x |- ?f ?x = true =>
      refine (required_sound (fun v => f v = true) _ _ _ _ H _)
  end; cbv beta; clear.

Lemma nullable_sound {A} (p : A -> bool) read j v :
  nullable read j = Some v -> (forall j v, read j = Some v -> p v = true) -> opt_all p v = true.
Proof.
  intros H Hr. destruct v as [a|]; [|done]. simpl.
  destruct j; simpl in H; try discriminate; apply fmap_Some in H as (? & ? & [= <-]); eauto.
Qed.

Lemma read_all_sound {A} (p : A -> bool) read l r :
  read_all read l = Some r -> (forall j v, read j = Some v -> p v = true) -> forallb p r = true.
Proof.
  intros H Hr. revert r H. induction l as [|j l IH]; simpl; intros r H; inv_read; [done|].
  simpl. rewrite IH by done. by erewrite Hr.
Qed.

Lemma read_list_sound {A} (p : A -> bool) read lo hi j r :
  read_list read lo hi j = Some r -> (forall j v, read j = Some v -> p v = true) ->
  size_between lo hi r && forallb p r = true.
Proof.
  intros H Hr. destruct j; try discriminate. simpl in H. inv_read.
  unfold size_between, between. erewrite read_all_sound by eauto.
  split_andb; auto.
Qed.

Section Sound.
Context {CO : Coercions}.

Lemma read_int_sound lo hi j z : read_int lo hi j = Some z -> between lo hi z = true.
Proof. unfold read_int, between. intros H. inv_read. by apply andb_true_iff. Qed.

Lemma read_str_sound lo hi j s : read_str lo hi j = Some s -> len_between lo hi s = true.
Proof. unfold read_str, len_between, between. intros H. inv_read. by apply andb_true_iff. Qed.

Lemma read_icmp_wf j c : read_icmp j = Some c -> wf_icmp c = true.
Proof.
  destruct j; try discriminate. unfold read_icmp. intros H. inv_read.
  unfold wf_icmp. simpl.
  split_andb; by_field;
    eauto using read_int_sound; intros ?j ?v ?Hv;
    (eapply nullable_sound; [exact Hv|]); eauto using read_int_sound;
    unfold read_float; intros ? ? ?; inv_read; [by apply andb_true_iff|done].
Qed.

Lemma read_tcp_wf j c : read_tcp j = Some c -> wf_tcp c = true.
Proof.
  destruct j; try discriminate. unfold read_tcp. intros H. inv_read.
  unfold wf_tcp. simpl. by_field. eauto using read_int_sound.
Qed.

Lemma read_headers_sound j r :
  read_headers j = Some r ->
  size_between 0 32 r && forallb (fun h => len_between 1 128 h.1 && len_between 0 1024 h.2) r
  = true.
Proof.
  destruct j as [| | | | | |o]; try discriminate. unfold read_headers. intros H. inv_read.
  apply andb_true_iff; split.
  { unfold size_between, between. lia. }
  eapply read_all_sound; [eassumption|]. intros j [k v] Hj.
  destruct j as [| | | | |[|[] [|? [|]]]|]; try discriminate. inv_read. simpl.
  apply andb_true_iff; split; [by apply andb_true_iff|by eapply read_str_sound].
Qed.

Lemma read_header_assertion_sound j h : read_header_assertion j = Some h -> wf_assertion h = true.
Proof.
  destruct j; try discriminate. unfold read_header_assertion. intros H. inv_read.
  unfold wf_assertion. simpl. split_andb; try done; by_field; eauto using read_str_sound.
Qed.

Lemma forallb_and {A} (p q : A -> bool) l :
  forallb (fun x => p x && q x) l = forallb p l && forallb q l.
Proof.
  induction l as [|x l IH]; simpl; [done|]. rewrite IH.
  destruct (p x), (q x), (forallb p l), (forallb q l); done.
Qed.

(** What the readers of the composite HTTP fields guarantee. *)
Lemma read_path_sound j v :
  read_str 1 2048 j ≫= validate_path = Some v ->
  len_between 1 2048 v = true /\ startswith "/" v = true /\ control_free v = true.
Proof. unfold validate_path. intros H. inv_read. eauto using read_str_sound. Qed.

Lemma read_request_headers_sound j v :
  read_headers j ≫= validate_request_headers = Some v ->
  size_between 0 32 v = true /\ forallb wf_header v = true.
Proof.
  unfold validate_request_headers. intros H. inv_read.
  match goal with H : read_headers _ = Some _ |- _ => apply read_headers_sound in H end.
  destruct_andb. split; [done|]. unfold wf_header. rewrite !forallb_and.
  repeat match goal with H : forallb (fun _ => _ && _) _ = true |- _ =>
    rewrite forallb_and in H; apply andb_true_iff in H as [? ?] end.
  by split_andb.
Qed.

Lemma read_status_codes_sound j v :
  read_list to_int 1 200 j ≫= validate_status_codes = Some v ->
  size_between 1 200 v = true /\ forallb (between 100 599) v = true /\ all_distinct v = true.
Proof.
  unfold validate_status_codes. intros H. inv_read.
  match goal with H : read_list _ _ _ _ = Some _ |- _ =>
    eapply (read_list_sound (fun _ => true)) in H; [|done] end.
  by destruct_andb.
Qed.

Lemma read_body_sound j v :
  read_list (read_str 1 1024) 0 16 j ≫= validate_body_assertions = Some v ->
  size_between 0 16 v = true /\
  forallb (fun s => len_between 1 1024 s && control_free s) v = true.
Proof.
  unfold validate_body_assertions. intros H. inv_read.
  match goal with H : read_list _ _ _ _ = Some _ |- _ =>
    eapply (read_list_sound (len_between 1 1024)) in H; [|eauto using read_str_sound] end.
  destruct_andb. split; [done|]. rewrite forallb_and. by split_andb.
Qed.

Lemma read_host_sound j v :
  nullable (fun v => read_str 1 253 v ≫= validate_host_header) j = Some v ->
  opt_all (fun h => len_between 1 253 h && hostname_ok (rstrip_dots h)) v = true.
Proof.
  intros Hv. eapply nullable_sound; [exact Hv|]. unfold validate_host_header.
  intros ? ? H. inv_read. split_andb; eauto using read_str_sound.
Qed.

Lemma read_assertions_sound j v :
  read_list read_header_assertion 0 32 j = Some v ->
  size_between 0 32 v = true /\ forallb wf_assertion v = true.
Proof.
  intros H.
  apply (read_list_sound wf_assertion) in H; [|apply read_header_assertion_sound].
  by destruct_andb.
Qed.

Lemma nullable_int_sound lo hi j v :
  nullable (read_int lo hi) j = Some v -> opt_all (between lo hi) v = true.
Proof. intros H. eapply nullable_sound; eauto using read_int_sound. Qed.

Lemma read_http_wf j c : read_http j = Some c -> wf_http c = true.
Proof.
  destruct j; try discriminate. unfold read_http. intros H. inv_read.
  unfold wf_http. simpl. split_andb; by_field;
    intros ? ? Hv;
    first [ by eapply nullable_int_sound
          | by apply read_path_sound in Hv as (? & ? & ?)
          | by eapply read_int_sound
          | by eapply read_host_sound
          | by apply read_request_headers_sound in Hv as (? & ?)
          | by apply read_status_codes_sound in Hv as (? & ? & ?)
          | by apply read_assertions_sound in Hv as (? & ?)
          | by apply read_body_sound in Hv as (? & ?) ].
Qed.

(** *** DNS *)

Lemma read_codes_sound j v :
  read_list to_str 1 16 j ≫= validate_response_codes = Some v ->
  size_between 1 16 v = true /\
  forallb (fun s => existsb (String.eqb s) allowed_response_codes) v = true /\
  all_distinct v = true.
Proof.
  unfold validate_response_codes. intros H. inv_read.
  match goal with H : read_list _ _ _ _ = Some _ |- _ =>
    eapply (read_list_sound (fun _ => true)) in H; [|done] end.
  destruct_andb. unfold size_between in *. rewrite length_map. done.
Qed.

Lemma read_answers_sound j v :
  read_list read_answer_assertion 0 32 j = Some v ->
  size_between 0 32 v = true /\
  forallb (fun a => len_between 1 1024 a && control_free a) v = true.
Proof.
  intros H.
  apply (read_list_sound (fun a => len_between 1 1024 a && control_free a)) in H;
    [by destruct_andb|].
  clear. intros j v. destruct j; try discriminate. unfold read_answer_assertion.
  intros H. inv_read. split_andb; try done. by_field. eauto using read_str_sound.
Qed.

Lemma read_query_name_sound j v :
  nullable (fun v => read_str 1 253 v ≫= normalize_query_name) j = Some v ->
  opt_all (fun n => len_between 1 253 n && control_free n) v = true.
Proof.
  intros Hv. eapply nullable_sound; [exact Hv|]. unfold normalize_query_name.
  clear. intros j v H. inv_read. split_andb; [|done].
  match goal with H : read_str _ _ _ = Some _ |- _ => apply read_str_sound in H end.
  unfold len_between, between, str_len, lower in *. rewrite length_str_map in *.
  match goal with H : negb (is_empty ?s) = true |- _ =>
    assert (String.length s <> 0%nat) by (by destruct s) end.
  rewrite length_str_map in *.
  pose proof (length_rstrip_with (Ascii.eqb ".") (strip x)).
  pose proof (length_rstrip_with is_space (lstrip_with is_space x)).
  pose proof (length_lstrip_with is_space x).
  unfold rstrip_dots, strip in *. lia.
Qed.

(** The resolver, its address and the transport agree. *)
Definition resolver_ok (mode : ResolverMode) (address : option string) (t : Transport) : bool :=
  match mode, address with
  | Resolver_explicit, Some a => len_between 2 45 a && ip_address_ok a
  | Resolver_system, None => bool_decide (t = Transport_udp_with_tcp_fallback)
  | _, _ => false
  end.

Lemma read_resolver_sound o mode address t :
  field o "resolver_address"
    (fun v => nullable (read_str 2 45) v ≫= validate_resolver_address mode) None = Some address ->
  negb (bool_decide (mode = Resolver_explicit) && is_none address) = true ->
  negb (bool_decide (mode = Resolver_system) && negb (is_none address)) = true ->
  negb (bool_decide (mode = Resolver_system) &&
        bool_decide (t <> Transport_udp_with_tcp_fallback)) = true ->
  resolver_ok mode address t = true.
Proof.
  intros Hf H1 H2 H3. destruct mode, address as [a|]; simpl in *; try done.
  - by destruct t.
  - unfold field in Hf. destruct (obj_get _ o) as [v|]; [|done]. inv_read.
    match goal with H : validate_resolver_address _ ?y = _ |- _ => destruct y as [b|] end;
      [|done]. simpl in *. inv_read. apply andb_true_iff; split; [|done].
    match goal with H : nullable _ _ = _ |- _ =>
      apply (nullable_sound (len_between 2 45)) in H; [done|apply read_str_sound] end.
Qed.

Lemma read_dns_wf j c : read_dns j = Some c -> wf_dns c = true.
Proof.
  destruct j; try discriminate. unfold read_dns, validate_resolver_mode. intros H. inv_read.
  simpl in *. unfold wf_dns. cbn [dns_resolver_mode dns_resolver_address dns_resolver_port
    dns_transport dns_query_name dns_query_type dns_recursion_desired
    dns_expected_response_codes dns_expected_answers].
  match goal with |- ?b && _ && _ && _ && _ = true =>
    assert (b = true) as -> by (by eapply read_resolver_sound) end.
  split_andb; [done|..]; by_field; intros ? ? Hv;
    first [ by eapply read_int_sound
          | by eapply read_query_name_sound
          | by apply read_codes_sound in Hv as (? & ? & ?)
          | by apply read_answers_sound in Hv as (? & ?) ].
Qed.

(** *** TLS *)

(** A valid host name is trimmed and has no trailing dot. *)
Lemma hostname_chars s :
  hostname_ok s = true -> str_forall (fun c => is_alnum_dash c || Ascii.eqb c ".") s = true.
Proof.
  intros H. apply split_on_chars. unfold hostname_ok in H.
  apply forallb_forall. intros w Hw. apply (proj1 (forallb_forall _ _) H) in Hw.
  unfold label_ok in Hw. by destruct_andb.
Qed.

Lemma hostname_last s : hostname_ok s = true -> last_char s <> Some "."%char.
Proof.
  intros H. apply split_on_last. apply forallb_forall. intros w Hw.
  apply (proj1 (forallb_forall _ _) H) in Hw. unfold label_ok in Hw. by destruct_andb.
Qed.

Lemma alnum_not_space c : is_alnum_dash c || Ascii.eqb c "." = true -> negb (is_space c) = true.
Proof. by destruct c as [[] [] [] [] [] [] [] []]. Qed.

Lemma normalize_server_name_idem v n :
  normalize_server_name v = Some n -> normalize_server_name n = Some n.
Proof.
  unfold normalize_server_name. intros H. inv_read.
  set (n := lower (rstrip_dots (strip v))) in *.
  assert (lower (rstrip_dots (strip n)) = n) as Hn.
  { assert (strip n = n) as ->.
    { unfold strip. rewrite lstrip_with_none, rstrip_with_none; [done|..];
        (eapply str_forall_impl; [apply alnum_not_space|by apply hostname_chars]). }
    unfold rstrip_dots. rewrite rstrip_with_last.
    - unfold n. apply lower_idem.
    - destruct (last_char n) as [c|] eqn:E; [|done].
      apply Ascii.eqb_neq. intros <-. by eapply hostname_last. }
  rewrite Hn.
  repeat match goal with H : ?b = true |- context [ensure ?b] => rewrite H end. done.
Qed.

Lemma read_server_name_sound j v :
  nullable (fun v => read_str 1 253 v ≫= normalize_server_name) j = Some v ->
  opt_all (fun n => len_between 1 253 n && bool_decide (normalize_server_name n = Some n)) v
  = true.
Proof.
  intros Hv. eapply nullable_sound; [exact Hv|]. clear. intros j v H.
  apply bind_Some in H as (x & Hx & Hn). pose proof (normalize_server_name_idem _ _ Hn) as Hi.
  apply andb_true_iff; split; [|by apply bool_decide_eq_true].
  apply read_str_sound in Hx. unfold normalize_server_name in Hn. inv_read.
  match goal with H : hostname_ok ?s = true |- _ =>
    assert (String.length s <> 0%nat) by (destruct s; [by vm_compute in H|done]) end.
  unfold len_between, between, str_len, lower in *. rewrite length_str_map in *.
  pose proof (length_rstrip_with (Ascii.eqb ".") (strip x)).
  pose proof (length_rstrip_with is_space (lstrip_with is_space x)).
  pose proof (length_lstrip_with is_space x).
  unfold rstrip_dots, strip in *. lia.
Qed.

Lemma read_tls_wf j c : read_tls j = Some c -> wf_tls c = true.
Proof.
  destruct j; try discriminate. unfold read_tls. intros H. inv_read.
  unfold wf_tls. simpl. split_andb; by_field; intros ? ? Hv;
    first [by eapply read_int_sound | by eapply read_server_name_sound].
Qed.

(** Validation only accepts configurations that respect the declared bounds. *)
Lemma validate_python_sound p j c :
  validate_python p j = Some c -> wf_config c = true /\ config_type c = p.
Proof.
  destruct p; simpl; intros (c' & Hc & ->)%fmap_Some; simpl; split; try done.
  - by eapply read_icmp_wf.
  - by eapply read_http_wf.
  - by eapply read_tcp_wf.
  - by eapply read_dns_wf.
  - by eapply read_tls_wf.
Qed.
End Sound.

(** ** The JSON form validates to itself *)

Lemma ensure_true : ensure true = Some tt.
Proof. done. Qed.

(** A nullable field printed with [json_opt] reads back. *)
Lemma nullable_json_opt {A} (print : A -> json) (read : json -> option A) (p : A -> bool) o :
  opt_all p o = true ->
  (forall a, print a <> JNull) -> (forall a, p a = true -> read (print a) = Some a) ->
  nullable read (json_opt print o) = Some o.
Proof.
  intros Ho Hn Hr. destruct o as [a|]; [|done]. simpl in *.
  unfold nullable. rewrite (Hr a Ho). specialize (Hn a). by destruct (print a).
Qed.

Lemma read_all_map {A} (print : A -> json) (read : json -> option A) (p : A -> bool) l :
  forallb p l = true -> (forall a, p a = true -> read (print a) = Some a) ->
  read_all read (map print l) = Some l.
Proof.
  intros Hl Hr. induction l as [|a l IH]; [done|]. simpl in *.
  apply andb_true_iff in Hl as [Ha Hl]. by rewrite (Hr a Ha), (IH Hl).
Qed.

Lemma read_list_map {A} (print : A -> json) (read : json -> option A) (p : A -> bool) lo hi l :
  size_between lo hi l = true -> forallb p l = true ->
  (forall a, p a = true -> read (print a) = Some a) ->
  read_list read lo hi (JArray (map print l)) = Some l.
Proof.
  intros Hs Hl Hr. unfold read_list. erewrite read_all_map by eauto. simpl.
  unfold size_between, between in Hs. by rewrite Hs.
Qed.

Lemma lit_read_print_AddressFamily a : lit_read lit_AddressFamily (lit_print lit_AddressFamily a) = Some a.
Proof. by destruct a. Qed.
Lemma lit_read_print_Scheme a : lit_read lit_Scheme (lit_print lit_Scheme a) = Some a.
Proof. by destruct a. Qed.
Lemma lit_read_print_Method a : lit_read lit_Method (lit_print lit_Method a) = Some a.
Proof. by destruct a. Qed.
Lemma lit_read_print_ResolverMode a : lit_read lit_ResolverMode (lit_print lit_ResolverMode a) = Some a.
Proof. by destruct a. Qed.
Lemma lit_read_print_Transport a : lit_read lit_Transport (lit_print lit_Transport a) = Some a.
Proof. by destruct a. Qed.
Lemma lit_read_print_QueryType a : lit_read lit_QueryType (lit_print lit_QueryType a) = Some a.
Proof. by destruct a. Qed.
Lemma lit_read_print_TlsVersion a : lit_read lit_TlsVersion (lit_print lit_TlsVersion a) = Some a.
Proof. by destruct a. Qed.

(** A response code of the allowed set is its own normal form. *)
Lemma response_codes_normal l :
  forallb (fun s => existsb (String.eqb s) allowed_response_codes) l = true ->
  map (fun code => upper (strip code)) l = l.
Proof.
  induction l as [|s l IH]; [done|]. cbn [forallb map]. intros [Hs Hl]%andb_true_iff.
  rewrite (IH Hl). f_equal. apply existsb_exists in Hs as (a & Ha & ->%String.eqb_eq).
  simpl in Ha. by destruct_or! Ha; subst.
Qed.

(** Evaluates the lookups of fields in the literal object of a dump. *)
Ltac eval_fields :=
  cbv [field required obj_get only_keys forallb existsb fst String.eqb Ascii.eqb Bool.eqb orb
       andb schema_version_ok]; rewrite ?bool_decide_eq_true_2 by done;
  cbn [ensure mbind option_bind].

Section RoundTrip.
Context {CO : Coercions}.

Lemma read_int_JInt lo hi z : between lo hi z = true -> read_int lo hi (JInt z) = Some z.
Proof. unfold read_int, between. intros H. rewrite to_int_JInt. simpl. by rewrite H. Qed.

Lemma read_str_JString lo hi s : len_between lo hi s = true -> read_str lo hi (JString s) = Some s.
Proof.
  unfold read_str, len_between, between. intros H. rewrite to_str_JString. simpl. by rewrite H.
Qed.

Lemma nullable_int lo hi o :
  opt_all (between lo hi) o = true -> nullable (read_int lo hi) (json_opt JInt o) = Some o.
Proof. intros H. eapply nullable_json_opt; [exact H|done|]. apply read_int_JInt. Qed.

Lemma read_icmp_dump c : wf_icmp c = true -> read_icmp (model_dump (IcmpConfig c)) = Some c.
Proof.
  intros H. unfold wf_icmp in H. destruct_andb. unfold read_icmp, model_dump. eval_fields.
  rewrite !read_int_JInt, nullable_int, lit_read_print_AddressFamily by done.
  cbn [mbind option_bind].
  rewrite (nullable_json_opt JFloat (read_float (Some (100 # 1)))
    (fun q => Qle_bool 0 q && Qle_bool q (100 # 1))); [|done..|].
  - cbn [mbind option_bind].
    rewrite (nullable_json_opt JFloat (read_float None) (Qle_bool 0)); [by destruct c|done..|].
    intros q Hq. unfold read_float. rewrite to_float_JFloat. simpl. by rewrite Hq.
  - intros q Hq. unfold read_float. rewrite to_float_JFloat. simpl. by rewrite Hq.
Qed.

Lemma read_tcp_dump c : wf_tcp c = true -> read_tcp (model_dump (TcpConfig c)) = Some c.
Proof.
  intros H. unfold wf_tcp in H. unfold read_tcp, model_dump. eval_fields.
  rewrite read_int_JInt, lit_read_print_AddressFamily by done. by destruct c.
Qed.

Lemma read_tls_dump c : wf_tls c = true -> read_tls (model_dump (TlsConfig c)) = Some c.
Proof.
  intros H. unfold wf_tls in H. destruct_andb. unfold read_tls, model_dump. eval_fields.
  rewrite !read_int_JInt, lit_read_print_AddressFamily, lit_read_print_TlsVersion by done.
  cbn [mbind option_bind].
  erewrite (nullable_json_opt JString); [by destruct c|eassumption|done|].
  intros n [Hl Hn%bool_decide_eq_true]%andb_true_iff. by rewrite read_str_JString.
Qed.

Lemma read_header_assertion_dump h :
  wf_assertion h = true ->
  read_header_assertion
    (JObject [("name", JString (ha_name h)); ("value", JString (ha_value h))]) = Some h.
Proof.
  intros H. unfold wf_assertion in H. destruct_andb. unfold read_header_assertion. eval_fields.
  rewrite !read_str_JString by done. cbn [mbind option_bind].
  by repeat match goal with H : ?b = true |- context [ensure ?b] => rewrite H end; destruct h.
Qed.

Lemma read_request_headers_dump l :
  size_between 0 32 l = true -> forallb wf_header l = true ->
  read_headers (JObject (map (fun h => (h.1, JString h.2)) l)) ≫= validate_request_headers
  = Some l.
Proof.
  intros Hs Hl. unfold read_headers. rewrite map_map. cbn [fst snd].
  rewrite (read_all_map _ _ wf_header); [|done|].
  - cbn [mbind option_bind]. unfold size_between, between in Hs. apply andb_true_iff in Hs as [_ ->].
    cbn [ensure mbind option_bind]. unfold validate_request_headers.
    match goal with |- context [forallb ?f l] =>
      assert (forallb f l = true) as -> end; [|done].
    apply forallb_forall. intros h Hh. apply (proj1 (forallb_forall _ _) Hl) in Hh.
    unfold wf_header in Hh. destruct_andb. by split_andb.
  - intros [k v] Hh. unfold wf_header in Hh. simpl in *. destruct_andb.
    match goal with H : len_between 1 128 k = true |- _ =>
      unfold len_between, between in H; rewrite H end.
    cbn [ensure mbind option_bind]. by rewrite read_str_JString.
Qed.

Lemma read_status_codes_dump l :
  size_between 1 200 l = true -> forallb (between 100 599) l = true -> all_distinct l = true ->
  read_list to_int 1 200 (JArray (map JInt l)) ≫= validate_status_codes = Some l.
Proof.
  intros Hs Hl Hd. rewrite (read_list_map _ _ (fun _ => true)).
  - cbn [mbind option_bind]. unfold validate_status_codes.
    unfold between in Hl. by rewrite Hl, Hd.
  - done.
  - by apply forallb_forall.
  - intros z _. apply to_int_JInt.
Qed.

Lemma read_body_dump l :
  size_between 0 16 l = true ->
  forallb (fun s => len_between 1 1024 s && control_free s) l = true ->
  read_list (read_str 1 1024) 0 16 (dump_strings l) ≫= validate_body_assertions = Some l.
Proof.
  intros Hs Hl. rewrite forallb_and in Hl. apply andb_true_iff in Hl as [Hl Hc].
  unfold dump_strings. rewrite (read_list_map _ _ (len_between 1 1024)) by
    eauto using read_str_JString.
  cbn [mbind option_bind]. unfold validate_body_assertions. by rewrite Hc.
Qed.

Lemma read_http_dump c : wf_http c = true -> read_http (model_dump (HttpConfig c)) = Some c.
Proof.
  intros H. unfold wf_http in H. destruct_andb. unfold read_http, model_dump. eval_fields.
  rewrite lit_read_print_Scheme, lit_read_print_Method, lit_read_print_AddressFamily.
  rewrite nullable_int, read_str_JString, to_bool_JBool, !read_int_JInt by done.
  erewrite (nullable_json_opt JString); [|eassumption|done|].
  2: { unfold validate_host_header. intros h [Hl Hh]%andb_true_iff.
       rewrite read_str_JString by done. simpl. by rewrite Hh. }
  rewrite read_request_headers_dump, read_status_codes_dump, read_body_dump by done.
  rewrite (read_list_map _ _ wf_assertion) by eauto using read_header_assertion_dump.
  cbn [mbind option_bind]. unfold validate_path.
  repeat match goal with H : ?b (http_path c) = true |- context [?b (http_path c)] =>
    rewrite H end.
  by destruct c.
Qed.

Lemma read_codes_dump l :
  size_between 1 16 l = true ->
  forallb (fun s => existsb (String.eqb s) allowed_response_codes) l = true ->
  all_distinct l = true ->
  read_list to_str 1 16 (dump_strings l) ≫= validate_response_codes = Some l.
Proof.
  intros Hs Hl Hd. unfold dump_strings. rewrite (read_list_map _ _ (fun _ => true)).
  - cbn [mbind option_bind]. unfold validate_response_codes.
    rewrite response_codes_normal by done. by rewrite Hl, Hd.
  - done.
  - by apply forallb_forall.
  - intros z _. apply to_str_JString.
Qed.

Lemma read_answers_dump l :
  size_between 0 32 l = true ->
  forallb (fun a => len_between 1 1024 a && control_free a) l = true ->
  read_list read_answer_assertion 0 32 (JArray (map (fun a => JObject [("value", JString a)]) l))
  = Some l.
Proof.
  intros Hs Hl. eapply read_list_map; [done|exact Hl|].
  intros a [Ha Hc]%andb_true_iff. unfold read_answer_assertion. eval_fields.
  rewrite read_str_JString by done. cbn [mbind option_bind]. by rewrite Hc.
Qed.

Lemma read_resolver_dump mode address t :
  resolver_ok mode address t = true ->
  nullable (read_str 2 45) (json_opt JString address) ≫= validate_resolver_address mode
    = Some address /\
  lit_read lit_Transport (lit_print lit_Transport t) ≫= validate_transport mode = Some t.
Proof.
  rewrite lit_read_print_Transport. unfold validate_transport. cbn [mbind option_bind].
  destruct mode, address as [a|]; simpl; try done.
  - by destruct t.
  - intros [Hl Ha]%andb_true_iff. rewrite read_str_JString by done. simpl. by rewrite Ha.
Qed.

Lemma read_dns_dump c :
  wf_dns c = true -> dns_name_normal c = true -> read_dns (model_dump (DnsConfig c)) = Some c.
Proof.
  intros H Hn. unfold wf_dns in H. rewrite <-!andb_assoc in H.
  apply andb_true_iff in H as [Hr H]. destruct_andb.
  change (resolver_ok (dns_resolver_mode c) (dns_resolver_address c) (dns_transport c) = true)
    in Hr. pose proof (read_resolver_dump _ _ _ Hr) as [Ha Ht].
  unfold read_dns, model_dump. eval_fields.
  rewrite lit_read_print_ResolverMode, lit_read_print_QueryType. cbn [mbind option_bind].
  cbn [mbind option_bind] in Ha, Ht. rewrite Ha. cbn [mbind option_bind].
  rewrite read_int_JInt by done. cbn [mbind option_bind]. rewrite Ht. cbn [mbind option_bind].
  rewrite (nullable_json_opt JString _
    (fun n => len_between 1 253 n && bool_decide (normalize_query_name n = Some n))).
  - rewrite to_bool_JBool, read_codes_dump, read_answers_dump by done.
    cbn [mbind option_bind]. unfold validate_resolver_mode.
    destruct c as [mode address ? t]; simpl in *.
    destruct mode, address; simpl in *; try done. by destruct t.
  - unfold dns_name_normal in Hn. destruct (dns_query_name c); [|done]. simpl in *.
    destruct_andb. by split_andb.
  - done.
  - intros n [Hl Hq%bool_decide_eq_true]%andb_true_iff. by rewrite read_str_JString.
Qed.

(** A well-formed configuration in normal form is what its JSON form validates to. *)
Lemma validate_python_dump c :
  wf_config c = true -> normal_config c = true ->
  validate_python (config_type c) (model_dump c) = Some c.
Proof.
  destruct c as [c|c|c|c|c]; intros Hw Hn; unfold config_type, validate_python, wf_config in *.
  - by rewrite read_icmp_dump.
  - by rewrite read_http_dump.
  - by rewrite read_tcp_dump.
  - by rewrite read_dns_dump.
  - by rewrite read_tls_dump.
Qed.
End RoundTrip.

(** ** Theorems *)

(** The derived per-packet timeout is within the range the schema declares. *)
Definition icmp_timeout_in_range (c : TypedProbeConfiguration) : bool :=
  match c with
  | IcmpConfig c => opt_all (between 1 60000) (icmp_per_packet_timeout_ms c)
  | _ => true
  end.

Section Theorems.
Context {CO : Coercions}.

Lemma validate_probe_configuration_python p j v :
  validate_probe_configuration p j = Ok v -> validate_python p j = Some v.
Proof.
  unfold validate_probe_configuration. destruct (validate_python p j) as [[]|]; try congruence.
  destruct (_ && _); congruence.
Qed.

(** The two outcomes of fitting a configuration in its timeout. *)
Lemma fit_timeout_Ok ts v v' :
  fit_timeout ts v = Ok v' ->
  (v' = v /\ (ts = None \/ config_type v <> ICMP)) \/
  exists t c, ts = Some t /\ v = IcmpConfig c /\
    v' = IcmpConfig (with_packet_timeout (packet_timeout_ms t c) c) /\
    1 <= available_ms t c /\ packet_timeout_ms t c <= available_ms t c.
Proof.
  unfold fit_timeout. destruct v as [c|c|c|c|c].
  1: destruct ts as [t|]; [|intros [= <-]; left; by auto].
  1: destruct (_ || _) eqn:E; [done|]; intros [= <-]; right; exists t, c;
     apply orb_false_iff in E; repeat split; try done; lia.
  all: intros [= <-]; left; split; [done|right; by intros [=]].
Qed.

Lemma serialize_inv p j ts r :
  serialize_probe_configuration p j ts = Ok r ->
  exists v v', validate_probe_configuration p j = Ok v /\ fit_timeout ts v = Ok v' /\
    r = model_dump v'.
Proof.
  unfold serialize_probe_configuration.
  destruct (validate_probe_configuration p j) as [v|]; [|done].
  destruct (fit_timeout ts v) as [v'|] eqn:E; [|done]. intros [= <-]. eauto.
Qed.

Lemma validate_head_no_body p j c :
  validate_probe_configuration p j = Ok (HttpConfig c) ->
  http_method c = Method_HEAD -> http_expected_body_contains c = [].
Proof.
  unfold validate_probe_configuration. intros H Hm.
  destruct (validate_python p j) as [[c0|c0|c0|c0|c0]|]; try discriminate.
  destruct (bool_decide (http_method c0 = Method_HEAD) && _) eqn:E; [done|].
  injection H as ->. rewrite Hm in E. by destruct (http_expected_body_contains c).
Qed.

Lemma packet_timeout_pos t c :
  wf_icmp c = true -> 1 <= available_ms t c -> 1 <= packet_timeout_ms t c.
Proof.
  unfold wf_icmp, packet_timeout_ms. intros Hw Ha. destruct_andb.
  destruct (icmp_per_packet_timeout_ms c) as [z|]; [|done]. simpl in *. unfold between in *.
  destruct (z =? 0) eqn:E; lia.
Qed.

(** Fitting is idempotent: the explicit timeout it stores is kept. *)
Lemma fit_timeout_idem ts v v' :
  wf_config v = true -> fit_timeout ts v = Ok v' -> fit_timeout ts v' = Ok v'.
Proof.
  intros Hw Hf. apply fit_timeout_Ok in Hf as Hc.
  destruct Hc as [[-> _]|(t & c & -> & -> & -> & Ha & Hp)]; [done|].
  pose proof (packet_timeout_pos t c Hw Ha) as Hpos. unfold fit_timeout.
  set (pt := packet_timeout_ms t c) in *. clearbody pt.
  change (available_ms t (with_packet_timeout pt c)) with (available_ms t c).
  assert (packet_timeout_ms t (with_packet_timeout pt c) = pt) as ->.
  { unfold packet_timeout_ms. simpl. destruct (pt =? 0) eqn:E; lia. }
  by replace ((available_ms t c <? 1) || (available_ms t c <? pt)) with false by lia.
Qed.

Lemma with_packet_timeout_wf t c :
  wf_icmp c = true -> between 1 60000 t = true -> wf_icmp (with_packet_timeout t c) = true.
Proof. unfold wf_icmp. simpl. intros H Ht. destruct_andb. by split_andb. Qed.

(** The typed configuration behind a serialised one. *)
Lemma serialize_typed p j ts r :
  serialize_probe_configuration p j ts = Ok r ->
  exists v, r = model_dump v /\ config_type v = p /\ fit_timeout ts v = Ok v /\
    (icmp_timeout_in_range v = true -> wf_config v = true) /\
    match v with
    | HttpConfig c => http_method c = Method_HEAD -> http_expected_body_contains c = []
    | _ => True
    end.
Proof.
  intros (v & v' & Hv & Hf & ->)%serialize_inv. exists v'.
  pose proof (validate_probe_configuration_python _ _ _ Hv) as [Hw Ht]%validate_python_sound.
  pose proof (fit_timeout_idem _ _ _ Hw Hf) as Hi.
  apply fit_timeout_Ok in Hf as [[-> _]|(t & c & -> & -> & -> & Ha & Hp)].
  - repeat split; try done. destruct v as [c|c|c|c|c]; try done. by eapply validate_head_no_body.
  - repeat split; try done. simpl. by apply with_packet_timeout_wf.
Qed.

(** The typed configuration of a serialised one validates back. *)
Lemma serialize_model_dump v ts :
  wf_config v = true -> normal_config v = true -> fit_timeout ts v = Ok v ->
  match v with
  | HttpConfig c => http_method c = Method_HEAD -> http_expected_body_contains c = []
  | _ => True
  end ->
  serialize_probe_configuration (config_type v) (model_dump v) ts = Ok (model_dump v).
Proof.
  intros Hw Hn Hf Hh. unfold serialize_probe_configuration, validate_probe_configuration.
  rewrite (validate_python_dump v Hw Hn).
  destruct v as [c|c|c|c|c]; try (by rewrite Hf).
  destruct (decide (http_method c = Method_HEAD)) as [Hm|Hm].
  - rewrite (Hh Hm), andb_false_r. cbv iota. by rewrite Hf.
  - rewrite bool_decide_eq_false_2 by done. cbv iota beta delta [andb]. by rewrite Hf.
Qed.
End Theorems.

(** Serialisation is a normal form: a configuration [serialize_probe_configuration]
    returns is the dump of a typed configuration of the monitor's probe type, and, unless the
    derived ICMP timeout leaves its range or a DNS query name still has surrounding spaces or
    dots, serialising it again with the same timeout returns it unchanged. *)
Theorem serialize_idempotent {CO : Coercions} p j ts r :
  serialize_probe_configuration p j ts = Ok r ->
  exists v, r = model_dump v /\ config_type v = p /\
    (icmp_timeout_in_range v = true -> normal_config v = true ->
     serialize_probe_configuration p r ts = Ok r).
Proof.
  intros (v & -> & Ht & Hf & Hw & Hh)%serialize_typed. exists v. repeat split; [done|].
  intros Hr Hn. rewrite <-Ht. by apply serialize_model_dump; auto.
Qed.

(** C35 An ICMP schedule fits its execution timeout: every stored ICMP configuration has
    a per-packet timeout of at least one millisecond, and the time from the first packet to
    the deadline of the last one is at most the monitor's timeout. *)
Theorem icmp_schedule_fits {CO : Coercions} j ts r :
  serialize_probe_configuration ICMP j (Some ts) = Ok r ->
  exists c t, r = model_dump (IcmpConfig c) /\ icmp_per_packet_timeout_ms c = Some t /\
    1 <= t /\ (icmp_packet_count c - 1) * icmp_packet_interval_ms c + t <= ts * 1000.
Proof.
  intros (v & v' & Hv & Hf & ->)%serialize_inv.
  pose proof (validate_probe_configuration_python _ _ _ Hv) as [Hw Ht]%validate_python_sound.
  apply fit_timeout_Ok in Hf as [[_ [?|?]]|(t & c & [= <-] & -> & -> & Ha & Hp)]; [done..|].
  eexists _, _. split; [done|]. split; [done|]. pose proof (packet_timeout_pos ts c Hw Ha).
  simpl. unfold available_ms in *. lia.
Qed.

(** ** Headers on the wire

    The headers of a request as HTTP/1.1 writes them, one line each, and as a recipient that
    takes a carriage return or a line feed for the end of a line reads them. *)

Definition cr : ascii := "013".
Definition lf : ascii := "010".

Definition header_line (h : string * string) : string := h.1 +:+ String ":" (String " " h.2).
Definition header_block (l : list (string * string)) : string :=
  foldr (fun h rest => header_line h +:+ String cr (String lf rest)) EmptyString l.

Definition block_lines (block : string) : list string :=
  List.filter (fun line => negb (is_empty line)) (mjoin (map (split_on cr) (split_on lf block))).

Definition read_header_line (line : string) : option (string * string) :=
  match partition ":" line with
  | (name, true, String c value) => if Ascii.eqb c " " then Some (name, value) else Some (name, String c value)
  | (name, true, EmptyString) => Some (name, EmptyString)
  | _ => None
  end.

Definition read_block (block : string) : option (list (string * string)) :=
  mapM read_header_line (block_lines block).

Definition free_of (sep : ascii) (s : string) : bool := str_forall (fun c => negb (Ascii.eqb c sep)) s.

Lemma split_on_first sep s t : free_of sep s = true ->
  split_on sep (s +:+ String sep t) = s :: split_on sep t.
Proof.
  unfold free_of. induction s as [|c s IH].
  - intros _. change (EmptyString +:+ String sep t) with (String sep t). simpl. by rewrite Ascii.eqb_refl.
  - simpl. intros [Hc%negb_true_iff Hs]%andb_true_iff.
    change (String c s +:+ String sep t) with (String c (s +:+ String sep t)). simpl. by rewrite Hc, IH.
Qed.

Lemma block_lines_cons line rest : free_of cr line = true -> free_of lf line = true -> line <> EmptyString ->
  block_lines (line +:+ String cr (String lf rest)) = line :: block_lines rest.
Proof.
  intros Hcr Hlf Hne. unfold block_lines.
  assert (line +:+ String cr (String lf rest) = (line +:+ String cr EmptyString) +:+ String lf rest) as ->.
  { clear. induction line as [|c l IH]; [done|]. change (String c (l +:+ String cr (String lf rest)) =
      String c ((l +:+ String cr EmptyString) +:+ String lf rest)). by rewrite IH. }
  rewrite split_on_first.
  2:{ unfold free_of in *. by rewrite str_forall_app, Hlf. }
  cbn [map mjoin list_join]. rewrite split_on_first by done.
  cbn [split_on app List.filter]. by destruct line.
Qed.

Lemma read_printed_line h : free_of ":" h.1 = true -> read_header_line (header_line h) = Some h.
Proof. intros Hn. unfold read_header_line, header_line. rewrite partition_app by done. by destruct h. Qed.

Lemma read_printed_block l :
  Forall (fun h => free_of ":" h.1 && free_of cr (h.1 +:+ h.2) && free_of lf (h.1 +:+ h.2) = true) l ->
  read_block (header_block l) = Some l.
Proof.
  unfold read_block. induction 1 as [|h l Hh _ IH]; [done|]. cbn [header_block foldr]. fold (header_block l).
  unfold free_of in Hh. rewrite !str_forall_app in Hh. destruct_andb.
  rewrite block_lines_cons; [|unfold free_of, header_line; rewrite str_forall_app; simpl; split_andb; done..|].
  - cbn [mapM]. rewrite read_printed_line by done. cbn. by rewrite IH.
  - unfold header_line. by destruct (h.1).
Qed.

Lemma str_forall_and (p q : ascii -> bool) s :
  str_forall (fun c => p c && q c) s = str_forall p s && str_forall q s.
Proof.
  induction s as [|c s IH]; [done|]. simpl. rewrite IH. by destruct (p c), (q c), (str_forall p s).
Qed.

(** Characters of a name and of a value that would end a line or a name. *)
Lemma header_char_plain c : header_char c = true ->
  negb (Ascii.eqb c ":") && negb (Ascii.eqb c cr) && negb (Ascii.eqb c lf) = true.
Proof. by destruct c as [[] [] [] [] [] [] [] []]; vm_compute. Qed.

Lemma control_free_plain s : control_free s = true -> free_of cr s = true /\ free_of lf s = true.
Proof.
  unfold control_free, str_exists, free_of. rewrite negb_involutive. intros Hs.
  split; (eapply str_forall_impl; [|exact Hs]); by intros [[] [] [] [] [] [] [] []].
Qed.

(** C36 The headers of an HTTP probe cannot be used to inject others or to carry credentials: a
    stored HTTP configuration has headers that, written one per line, are read back as exactly
    these headers, even by a recipient that takes a lone carriage return or line feed for the
    end of a line, and none of them is named authorization, cookie or proxy-authorization in
    any letter case. *)
Theorem http_headers_travel_intact {CO : Coercions} j ts r :
  serialize_probe_configuration HTTP j ts = Ok r ->
  exists c, r = model_dump (HttpConfig c) /\
    read_block (header_block (http_request_headers c)) = Some (http_request_headers c) /\
    forall k v, (k, v) ∈ http_request_headers c -> lower k ∉ ["authorization"; "cookie"; "proxy-authorization"].
Proof.
  intros (v & -> & Ht & _ & Hw & _)%serialize_typed. destruct v as [|c| | |]; try discriminate Ht.
  exists c. split; [done|]. specialize (Hw eq_refl). simpl in Hw. unfold wf_http in Hw. destruct_andb.
  match goal with H : forallb wf_header _ = true |- _ => rename H into Hh end.
  rewrite forallb_forall in Hh. split.
  - apply read_printed_block, Forall_forall. intros [n x] Hin%list_elem_of_In%Hh.
    unfold wf_header, header_name_ok in Hin. cbn [fst snd] in *. destruct_andb.
    match goal with H : control_free x = true |- _ => apply control_free_plain in H as [Hxc Hxl] end.
    match goal with H : str_forall header_char n = true |- _ => rename H into Hn end.
    apply (str_forall_impl _ _ _ header_char_plain) in Hn. unfold free_of in *. rewrite !str_forall_app, Hxc, Hxl.
    rewrite !andb_true_r. rewrite <-!str_forall_and. exact Hn.
  - intros k x Hin%list_elem_of_In%Hh Hl%list_elem_of_In. unfold wf_header in Hin. cbn [fst snd] in *. destruct_andb.
    match goal with H : negb (existsb _ _) = true |- _ => apply negb_true_iff, not_true_iff_false in H; apply H end.
    apply existsb_exists. exists (lower k). split; [done|]. apply String.eqb_refl.
Qed.

(** The derived ICMP timeout escapes its range: the default ICMP configuration with an
    execution timeout of 61 seconds or more is accepted and stored with a per-packet timeout
    above 60000 ms, which the schema itself then refuses to read. *)
Theorem icmp_derived_timeout_rejected {CO : Coercions} ts :
  61 <= ts ->
  exists r, serialize_probe_configuration ICMP (JObject []) (Some ts) = Ok r /\
    validate_python ICMP r = None.
Proof.
  intros Hts.
  set (c := mkIcmp 20 50 (Some (ts * 1000 - 950)) 56 AF_auto None None).
  exists (model_dump (IcmpConfig c)). split.
  - unfold serialize_probe_configuration, validate_probe_configuration. simpl.
    unfold packet_timeout_ms, available_ms. cbn [icmp_packet_count icmp_packet_interval_ms
      icmp_per_packet_timeout_ms]. change ((20 - 1) * 50) with 950.
    by replace ((ts * 1000 - 950 <? 1) || (ts * 1000 - 950 <? ts * 1000 - 950)) with false by lia.
  - unfold validate_python, read_icmp, model_dump. eval_fields.
    rewrite !read_int_JInt by done. cbn [mbind option_bind]. subst c.
    cbn [json_opt icmp_per_packet_timeout_ms nullable]. unfold read_int at 1.
    rewrite to_int_JInt. cbn [mbind option_bind].
    by replace ((1 <=? ts * 1000 - 950) && (ts * 1000 - 950 <=? 60000)) with false by lia.
Qed.

(** DNS query names are not always normalised: example.com followed by a space and a dot
    is stored with the trailing space, and serialising the stored configuration again changes
    it. *)
Theorem dns_query_name_not_normal {CO : Coercions} ts :
  exists r r', serialize_probe_configuration DNS
      (JObject [("query_name", JString "example.com .")]) ts = Ok r /\
    json_get "query_name" r = Some (JString "example.com ") /\
    serialize_probe_configuration DNS r ts = Ok r' /\ r' <> r.
Proof.
  set (c n := mkDns Resolver_system None 53 Transport_udp_with_tcp_fallback (Some n) QT_A true
    ["NOERROR"] []).
  exists (model_dump (DnsConfig (c "example.com "))), (model_dump (DnsConfig (c "example.com"))).
  repeat split.
  - unfold serialize_probe_configuration, validate_probe_configuration, validate_python, read_dns.
    eval_fields. cbn [nullable]. by rewrite read_str_JString.
  - unfold serialize_probe_configuration, validate_probe_configuration, validate_python, read_dns,
      model_dump. subst c. eval_fields. cbn [json_opt nullable dns_resolver_address dns_query_name].
    rewrite lit_read_print_ResolverMode. cbn [mbind option_bind].
    rewrite (read_str_JString 1 253) by done.
    rewrite to_bool_JBool, read_int_JInt, read_codes_dump by done. done.
  - done.
Qed.

(** ** Instances *)

#[local] Existing Instance strict_coercions.

Lemma serialize_idempotent_witness : exists v, config_type v = TCP /\
  serialize_probe_configuration TCP (JObject [("port", JInt 22)]) None = Ok (model_dump v) /\
  serialize_probe_configuration TCP (model_dump v) None = Ok (model_dump v).
Proof.
  pose (r := JObject [("address_family", JString "auto"); ("port", JInt 22);
                      ("schema_version", JInt 1)]).
  assert (Hr : serialize_probe_configuration TCP (JObject [("port", JInt 22)]) None = Ok r)
    by reflexivity.
  destruct (serialize_idempotent TCP (JObject [("port", JInt 22)]) None r Hr) as (v & Hv & Ht & Hi).
  exists v. rewrite <-Hv. split; [exact Ht|]. split; [exact Hr|].
  apply Hi; destruct v; try discriminate Ht; reflexivity.
Defined.

Lemma icmp_schedule_fits_witness : exists c t,
  serialize_probe_configuration ICMP (JObject [("packet_count", JInt 3)]) (Some 10) =
    Ok (model_dump (IcmpConfig c)) /\
  icmp_per_packet_timeout_ms c = Some t /\
  (icmp_packet_count c - 1) * icmp_packet_interval_ms c + t <= 10000.
Proof.
  destruct (serialize_probe_configuration ICMP (JObject [("packet_count", JInt 3)]) (Some 10))
    as [r|] eqn:E; [|discriminate E].
  destruct (icmp_schedule_fits (JObject [("packet_count", JInt 3)]) 10 r E) as (c & t & -> & Ht & _ & Hle).
  exists c, t. split; [reflexivity|]. split; [exact Ht|exact Hle].
Defined.

Lemma http_headers_travel_intact_witness : exists c,
  serialize_probe_configuration HTTP
    (JObject [("request_headers", JObject [("Accept", JString "*/*"); ("X-Probe", JString "a: b")])]) (Some 10) =
    Ok (model_dump (HttpConfig c)) /\
  read_block (header_block (http_request_headers c)) = Some (http_request_headers c).
Proof.
  destruct (serialize_probe_configuration HTTP
    (JObject [("request_headers", JObject [("Accept", JString "*/*"); ("X-Probe", JString "a: b")])]) (Some 10))
    as [r|] eqn:E; [|discriminate E].
  destruct (http_headers_travel_intact _ (Some 10) r E) as (c & -> & Hb & _).
  exists c. split; [reflexivity|exact Hb].
Defined.

Lemma icmp_derived_timeout_rejected_witness :
  exists r, serialize_probe_configuration ICMP (JObject []) (Some 61) = Ok r /\
    validate_python ICMP r = None.
Proof. apply (icmp_derived_timeout_rejected 61). lia. Defined.
