(* ===== verification/Config.v ===== *)
(** * Production settings (config.py)

    [Settings] is in [Platform]; here are its derived values and the validation that a
    production installation must pass to start, with the part of [urllib.parse.urlparse] it
    uses. *)

From Stdlib Require Import Ascii.
From S2P Require Import Prelude PyText Json Platform.
Local Open Scope Z_scope.

(** ** [urlparse(url).scheme] *)

(** Leading control characters and blanks are dropped, then every tab and line break. *)
Definition is_c0_or_space (c : ascii) : bool := (code c <=? 32)%N.
Definition is_unsafe_url_char (c : ascii) : bool :=
  (code c =? 9)%N || (code c =? 10)%N || (code c =? 13)%N.
Definition clean_url (url : string) : string :=
  remove_chars is_unsafe_url_char (lstrip_with is_c0_or_space url).

Definition is_ascii_letter (c : ascii) : bool := is_lower_letter c || is_upper_letter c.
Definition is_scheme_char (c : ascii) : bool :=
  is_ascii_letter c || is_digit c || is_char "+" c || is_char "-" c || is_char "." c.

(** The scheme and the rest: what comes before the first colon, where it is a scheme. *)
Definition split_scheme (url : string) : string * string :=
  match partition ":" url with
  | (String c before, true, after) =>
      if is_ascii_letter c && str_forall is_scheme_char (String c before)
      then (lower (String c before), after) else (EmptyString, url)
  | _ => (EmptyString, url)
  end.

Fixpoint take_until (p : ascii -> bool) (s : string) : string :=
  match s with
  | EmptyString => EmptyString
  | String c s' => if p c then EmptyString else String c (take_until p s')
  end.
Definition ends_netloc (c : ascii) : bool := is_char "/" c || is_char "?" c || is_char "#" c.
Definition netloc_of (rest : string) : string :=
  if startswith "//" rest then take_until ends_netloc (drop_chars 2 rest) else EmptyString.

(** [s.rpartition(sep)[2]]. *)
Definition after_last (sep : ascii) (s : string) : string := default EmptyString (last (split_on sep s)).

(** The host in brackets of a network location: an IPvFuture or an IPv6 address. *)
Definition ipvfuture_ok (host : string) : bool :=
  match partition "." (drop_chars 1 host) with
  | (version, found, address) =>
      found && negb (is_empty version) && str_forall is_hex version && negb (is_empty address)
  end.
Definition bracketed_host_ok (host : string) : bool :=
  if startswith "v" host then ipvfuture_ok host else ipv6_ok host.
Definition bracketed_netloc_ok (netloc : string) : bool :=
  match partition "[" (after_last "@" netloc) with
  | (before, true, bracketed) =>
      match partition "]" bracketed with
      | (host, _, port) => is_empty before && (is_empty port || startswith ":" port) &&
          bracketed_host_ok host
      end
  | (host_port, false, _) =>
      match partition ":" host_port with (host, _, _) => bracketed_host_ok host end
  end.
Definition netloc_ok (netloc : string) : bool :=
  let opens := str_exists (is_char "[") netloc in
  let closes := str_exists (is_char "]") netloc in
  Bool.eqb opens closes && (negb opens || bracketed_netloc_ok netloc).

Definition url_scheme (url : string) : string := (split_scheme (clean_url url)).1.

(** A malformed host in brackets raises [ValueError]; its messages vary. *)
Definition urlparse_scheme (url : string) : outcome string :=
  if netloc_ok (netloc_of (split_scheme (clean_url url)).2) then Ok (url_scheme url)
  else Err (ValueError "Invalid IPv6 URL").

(** ** [Settings] *)

Definition cors_origin_list (s : Settings) : list string :=
  List.filter (fun o => negb (String.eqb o EmptyString)) (map strip (split_on "," (cors_origins s))).

Definition not_https (url : string) : outcome bool :=
  match urlparse_scheme url with
  | Ok scheme => Ok (negb (String.eqb scheme "https"))
  | Err e => Err e
  end.

(** [any(origin == "*" or urlparse(origin).scheme != "https" for origin in ..)]. *)
Fixpoint any_bad_origin (l : list string) : outcome bool :=
  match l with
  | [] => Ok false
  | origin :: l' =>
      if String.eqb origin "*" then Ok true
      else match not_https origin with
           | Ok true => Ok true
           | Ok false => any_bad_origin l'
           | Err e => Err e
           end
  end.

Definition complain (b : bool) (text : string) : list string := if b then [text] else [].

Definition validate_production_security (s : Settings) : outcome Settings :=
  if negb (String.eqb (env s) "production") then Ok s
  else
    match not_https (auth_frontend_url s) with
    | Err e => Err e
    | Ok frontend =>
        match not_https (webauthn_origin s) with
        | Err e => Err e
        | Ok origin =>
            match any_bad_origin (cors_origin_list s) with
            | Err e => Err e
            | Ok cors =>
                let errors :=
                  complain (negb (cookie_secure s)) "BIFROSTNMS_COOKIE_SECURE must be true" ++
                  complain (String.eqb (auth_encryption_key s) "development-only-change-me" ||
                            (str_len (auth_encryption_key s) <? 32))
                    "BIFROSTNMS_AUTH_ENCRYPTION_KEY must be a strong deployment secret" ++
                  complain frontend "BIFROSTNMS_AUTH_FRONTEND_URL must use HTTPS" ++
                  complain origin "BIFROSTNMS_WEBAUTHN_ORIGIN must use HTTPS" ++
                  complain (String.eqb (webauthn_rp_id s) "localhost")
                    "BIFROSTNMS_WEBAUTHN_RP_ID must not be localhost" ++
                  complain (auto_create_schema s) "BIFROSTNMS_AUTO_CREATE_SCHEMA must be false" ++
                  complain cors "BIFROSTNMS_CORS_ORIGINS must contain only explicit HTTPS origins" in
                match errors with
                | [] => Ok s
                | _ => Err (ValueError ("Invalid production configuration: " +:+ join "; " errors))
                end
            end
        end
    end.

Example scheme_samples :
  map urlparse_scheme
    ["https://nms.example.org"; "HTTPS://nms.example.org"; "http://localhost:3001"; "nms.example.org";
     "//nms.example.org"; "1https://x"; ":x"; "https:"; "https://[::1]:443/"; "https://[::1/"; "  https://x"]
  = [Ok "https"; Ok "https"; Ok "http"; Ok ""; Ok ""; Ok ""; Ok ""; Ok "https"; Ok "https";
     Err (ValueError "Invalid IPv6 URL"); Ok "https"].
Proof. reflexivity. Qed.
