(* ===== verification/Domain.v ===== *)
(** * The monitoring domain service (monitoring/domain.py)

    Every function of the module, over the tables of [Models].  A function takes
    the ORM objects its caller loaded (records, possibly stale copies of their
    rows) and reads and writes the tables; [db_id] arguments are the primary keys
    the ORM draws for new rows and [now] is [datetime.now(UTC)]. *)

From S2P Require Import Prelude PyText Json Models ProbeConfig.
Local Open Scope Z_scope.

Definition MAX_GROUP_DEPTH : nat := 64.

(** ** Resources of a realm: the protocols [RealmOwnedResource] and
    [ArchivableResource] *)

Class RealmOwnedResource (R : Type) := resource_realm_id : R -> uuid.
Class ArchivableResource (R : Type) := resource_archived_at : R -> option Z.

#[export] Instance Agent_owned : RealmOwnedResource Agent := a_realm_id.
#[export] Instance AgentGroup_owned : RealmOwnedResource AgentGroup := g_realm_id.
#[export] Instance Target_owned : RealmOwnedResource Target := t_realm_id.
#[export] Instance TargetGroup_owned : RealmOwnedResource TargetGroup := tg_realm_id.
#[export] Instance Monitor_owned : RealmOwnedResource Monitor := m_realm_id.
#[export] Instance Agent_archivable : ArchivableResource Agent := a_archived_at.
#[export] Instance AgentGroup_archivable : ArchivableResource AgentGroup := g_archived_at.
#[export] Instance Target_archivable : ArchivableResource Target := t_archived_at.
#[export] Instance TargetGroup_archivable : ArchivableResource TargetGroup := tg_archived_at.
#[export] Instance Monitor_archivable : ArchivableResource Monitor := m_archived_at.

Abbreviation D A := (M MonDB A).

(** A computation that reads the tables and returns or raises. *)
Definition lift_outcome {A} (f : MonDB -> outcome A) : D A := fun db => (db, f db).

Definition _require_same_realm (realm : Realm) (resources : list uuid) : D unit :=
  raise_if (existsb (fun r => negb (r =? realm_id realm)%N) resources)
    (RealmBoundaryError "All related resources must belong to the active realm").

Definition _require_active (resources : list (option Z)) : D unit :=
  raise_if (existsb (fun a => negb (is_none a)) resources)
    (ResourceStateError "Archived resources cannot be changed or assigned").

Definition _validate_schedule (interval_seconds timeout_seconds : Z) : D unit :=
  raise_if (interval_seconds <? 1)
    (MonitoringDomainError "Monitor interval must be at least one second") ;;
  raise_if ((timeout_seconds <? 1) || (interval_seconds <=? timeout_seconds))
    (MonitoringDomainError "Monitor timeout must be positive and shorter than its interval").

(** ** Desired configuration revisions *)

(** The row [get_or_create] inserts: revisions 0 and empty hashes. *)
Definition new_configuration_state (realm_id : uuid) : AgentConfigurationState :=
  mkAgentConfigurationState realm_id 0 "" 0 "" None.

Definition bump_state (st : AgentConfigurationState) : AgentConfigurationState :=
  mkAgentConfigurationState (st_realm_id st) (st_desired_revision st + 1) ""
    (st_acknowledged_revision st) (st_acknowledged_content_hash st) (st_acknowledged_at st).

Definition bump_one (realm_id : uuid) (agent_id : uuid) : D unit :=
  in_transaction (
    (* get_or_create(agent_id=agent_id, defaults={"realm_id": realm_id}) *)
    found ← gets (fun db => agent_configuration_states db !! agent_id);
    let state := default (new_configuration_state realm_id) found in
    (* filter(id=state.id).select_for_update().get(), += 1, = "", save *)
    modify (fun db => set_agent_configuration_states
      (<[agent_id := bump_state state]> (agent_configuration_states db)) db)).

Definition _bump_configuration_revisions (agent_ids : list uuid) (realm_id : uuid) : D unit :=
  for_each (elements (list_to_set agent_ids : gset uuid)) (bump_one realm_id).

(** ** Effective agents *)

(** The joins [agent__enabled=True, agent__archived_at=None] and the like. *)
Definition agent_usable (db : MonDB) (a : uuid) : bool :=
  match agents db !! a with
  | Some ag => a_enabled ag && is_none (a_archived_at ag)
  | None => false
  end.

Definition group_usable (db : MonDB) (g : uuid) : bool :=
  match agent_groups db !! g with
  | Some gr => g_enabled gr && is_none (g_archived_at gr)
  | None => false
  end.

Definition direct_agent_ids (db : MonDB) (realm monitor : uuid) : list uuid :=
  omap (fun row => match row with
    | ((r, m, a), enabled) =>
        if (r =? realm)%N && (m =? monitor)%N && enabled && agent_usable db a
        then Some a else None
    end) (map_to_list (monitor_agent_assignments db)).

Definition assigned_group_ids (db : MonDB) (realm monitor : uuid) : list uuid :=
  omap (fun row => match row with
    | ((r, m, g), enabled) =>
        if (r =? realm)%N && (m =? monitor)%N && enabled && group_usable db g
        then Some g else None
    end) (map_to_list (monitor_agent_group_assignments db)).

(** The agents of the given groups; [group_ids] are the groups of [agent_group_id__in]. *)
Definition group_member_ids (db : MonDB) (realm : uuid) (group_ids : list uuid) : list uuid :=
  omap (fun row => match row with
    | (r, g, a) =>
        if (r =? realm)%N && bool_decide (g ∈ group_ids) && agent_usable db a
        then Some a else None
    end) (elements (agent_group_memberships db)).

Definition effective_agent_ids_of (db : MonDB) (monitor : Monitor) : gset uuid :=
  if negb (is_none (m_archived_at monitor)) || negb (m_enabled monitor) then ∅
  else list_to_set (direct_agent_ids db (m_realm_id monitor) (m_id monitor)) ∪
       list_to_set (group_member_ids db (m_realm_id monitor)
                      (assigned_group_ids db (m_realm_id monitor) (m_id monitor))).

Definition effective_agent_ids (monitor : Monitor) : D (gset uuid) :=
  gets (fun db => effective_agent_ids_of db monitor).

(** ** Monitors *)

(** The schedule columns are 32-bit integers, and no text holds NUL: the database refuses
    other values. *)
Definition fits_int4 (z : Z) : bool := (-2147483648 <=? z) && (z <=? 2147483647).

Definition check_behavior (m : Monitor) : D unit :=
  raise_if (negb (fits_int4 (m_interval_seconds m) && fits_int4 (m_timeout_seconds m) &&
                  fits_int4 (m_revision m) && pg_json (m_configuration m))) DataError.

Definition check_name (name : string) (description : option string) : D unit :=
  raise_if (negb (pg_text name && opt_ok pg_text description)) DataError.

(** [Monitor.create]: the primary key and the name within the realm are unique. *)
Definition insert_monitor (m : Monitor) : D unit :=
  check_behavior m ;;
  check_name (m_name m) (m_description m) ;;
  taken ← gets (fun db => negb (is_none (monitors db !! m_id m)) ||
    exists_row (fun m' => (m_realm_id m' =? m_realm_id m)%N && String.eqb (m_name m') (m_name m))
      (monitors db));
  raise_if taken IntegrityError ;;
  modify (fun db => set_monitors (<[m_id m := m]> (monitors db)) db).

Section Monitors.
Context {CO : Coercions}.

(** [serialize_probe_configuration] as an operation that may raise. *)
Definition serialize (probe_type : ProbeType) (configuration : json) (timeout_seconds : Z) :
    D json :=
  lift_outcome (fun _ =>
    serialize_probe_configuration probe_type configuration (Some timeout_seconds)).

Definition create_monitor (db_id : uuid) (realm : Realm) (target : Target) (name : string)
    (probe_type : ProbeType) (interval_seconds timeout_seconds : Z) (configuration : json)
    (description : option string) : D Monitor :=
  _require_same_realm realm [resource_realm_id target] ;;
  _require_active [resource_archived_at target] ;;
  raise_if (negb (t_enabled target))
    (ResourceStateError "Disabled targets cannot receive new monitors") ;;
  _validate_schedule interval_seconds timeout_seconds ;;
  normalized ← serialize probe_type configuration timeout_seconds;
  let m := mkMonitor db_id (realm_id realm) (t_id target) name description probe_type
             interval_seconds timeout_seconds normalized true 1 None in
  insert_monitor m ;;
  mret m.

(** [monitor.save(update_fields=[target_id, probe_type, interval_seconds,
    timeout_seconds, configuration, revision, updated_at])]. *)
Definition save_behavior (m : Monitor) : D unit :=
  check_behavior m ;;
  row ← gets (fun db => monitors db !! m_id m);
  match row with
  | None => raise IntegrityError
  | Some r => modify (fun db => set_monitors
      (<[m_id m := mkMonitor (m_id r) (m_realm_id r) (m_target_id m) (m_name r)
          (m_description r) (m_probe_type m) (m_interval_seconds m) (m_timeout_seconds m)
          (m_configuration m) (m_enabled r) (m_revision m) (m_archived_at r)]>
        (monitors db)) db)
  end.

Definition update_monitor_behavior (monitor : Monitor) (realm : Realm) (target : Target)
    (probe_type : ProbeType) (interval_seconds timeout_seconds : Z) (configuration : json) :
    D Monitor :=
  _require_same_realm realm [resource_realm_id monitor; resource_realm_id target] ;;
  _require_active [resource_archived_at monitor; resource_archived_at target] ;;
  raise_if (negb (t_enabled target))
    (ResourceStateError "Disabled targets cannot receive monitors") ;;
  _validate_schedule interval_seconds timeout_seconds ;;
  normalized ← serialize probe_type configuration timeout_seconds;
  if bool_decide (m_target_id monitor = t_id target) &&
     bool_decide (m_probe_type monitor = probe_type) &&
     (m_interval_seconds monitor =? interval_seconds) &&
     (m_timeout_seconds monitor =? timeout_seconds) &&
     bool_decide (m_configuration monitor = normalized)
  then mret monitor
  else
    let monitor' := mkMonitor (m_id monitor) (m_realm_id monitor) (t_id target)
      (m_name monitor) (m_description monitor) probe_type interval_seconds timeout_seconds
      normalized (m_enabled monitor) (m_revision monitor + 1) (m_archived_at monitor) in
    save_behavior monitor' ;;
    ids ← effective_agent_ids monitor';
    _bump_configuration_revisions (elements ids) (realm_id realm) ;;
    mret monitor'.
End Monitors.

(** ** Group hierarchies

    The agent-group and target-group functions are the same code over two tables;
    [GroupTable] is what they use of a table of groups. *)

Class GroupTable (R : Type) := {
  h_id : R -> uuid;
  h_realm_id : R -> uuid;
  h_parent_id : R -> option uuid;
  h_name : R -> string;
  h_description : R -> option string;
  h_archived_at : R -> option Z;
  h_set_parent : option uuid -> R -> R;
  h_table : MonDB -> gmap uuid R;
  h_set_table : gmap uuid R -> MonDB -> MonDB;
  h_kind : string;
}.

#[export] Instance AgentGroupTable : GroupTable AgentGroup := {|
  h_id := g_id; h_realm_id := g_realm_id; h_parent_id := g_parent_id; h_name := g_name;
  h_description := g_description; h_archived_at := g_archived_at;
  h_set_parent p g := mkAgentGroup (g_id g) (g_realm_id g) p (g_name g) (g_description g)
    (g_enabled g) (g_archived_at g);
  h_table := agent_groups; h_set_table := set_agent_groups; h_kind := "Agent";
|}.

#[export] Instance TargetGroupTable : GroupTable TargetGroup := {|
  h_id := tg_id; h_realm_id := tg_realm_id; h_parent_id := tg_parent_id; h_name := tg_name;
  h_description := tg_description; h_archived_at := tg_archived_at;
  h_set_parent p g := mkTargetGroup (tg_id g) (tg_realm_id g) p (tg_name g) (tg_description g)
    (tg_archived_at g);
  h_table := target_groups; h_set_table := set_target_groups; h_kind := "Target";
|}.

Section Hierarchy.
Context {R : Type} {GT : GroupTable R}.

(** The loop [for _ in range(MAX_GROUP_DEPTH)]: [fuel] iterations are left. *)
Fixpoint walk_parents (db : MonDB) (group : R) (current : option R) (fuel : nat) :
    outcome unit :=
  match fuel with
  | O => Err (HierarchyError (h_kind +:+ " group hierarchy exceeds 64 levels"))
  | S fuel' =>
      match current with
      | None => Ok tt
      | Some c =>
          match h_parent_id c with
          | None => Ok tt
          | Some p =>
              if (p =? h_id group)%N
              then Err (HierarchyError "A group cannot be moved below one of its descendants")
              else walk_parents db group
                     (get_row (fun r => (h_realm_id r =? h_realm_id group)%N) p (h_table db))
                     fuel'
          end
      end
  end.

Definition _assert_group_parent (group : R) (parent : option R) : D unit :=
  match parent with
  | None => mret tt
  | Some p =>
      raise_if (negb (h_realm_id p =? h_realm_id group)%N)
        (RealmBoundaryError "A group parent must belong to the same realm") ;;
      _require_active [h_archived_at group; h_archived_at p] ;;
      raise_if (h_id p =? h_id group)%N (HierarchyError "A group cannot be its own parent") ;;
      lift_outcome (fun db => walk_parents db group (Some p) MAX_GROUP_DEPTH)
  end.

(** [group.save(update_fields=["parent_id", "updated_at"])] under the unique index on
    (realm, parent, name) and the check that a group is not its own parent. *)
Definition save_parent (group : R) : D unit :=
  row ← gets (fun db => h_table db !! h_id group);
  match row with
  | None => raise IntegrityError
  | Some r =>
      let r' := h_set_parent (h_parent_id group) r in
      taken ← gets (fun db => exists_row (fun x => negb (h_id x =? h_id r)%N &&
        (h_realm_id x =? h_realm_id r)%N && bool_decide (h_parent_id x = h_parent_id r') &&
        String.eqb (h_name x) (h_name r)) (h_table db));
      raise_if (taken || bool_decide (h_parent_id r' = Some (h_id r))) IntegrityError ;;
      modify (fun db => h_set_table (<[h_id group := r']> (h_table db)) db)
  end.

Definition move_group (group : R) (parent : option R) : D R :=
  _assert_group_parent group parent ;;
  let group' := h_set_parent (h_id <$> parent) group in
  save_parent group' ;;
  mret group'.
End Hierarchy.

Definition _assert_agent_group_parent : AgentGroup -> option AgentGroup -> D unit :=
  _assert_group_parent.
Definition _assert_target_group_parent : TargetGroup -> option TargetGroup -> D unit :=
  _assert_group_parent.
Definition move_agent_group : AgentGroup -> option AgentGroup -> D AgentGroup := move_group.
Definition move_target_group : TargetGroup -> option TargetGroup -> D TargetGroup := move_group.

(** ** Memberships *)

(** [MonitorAgentGroupAssignment.filter(realm, agent_group, enabled=True)]. *)
Definition enabled_group_monitors (db : MonDB) (realm group : uuid) : list uuid :=
  omap (fun row => match row with
    | ((r, m, g), enabled) =>
        if (r =? realm)%N && (g =? group)%N && enabled then Some m else None
    end) (map_to_list (monitor_agent_group_assignments db)).

Definition add_agent_to_group (realm : Realm) (group : AgentGroup) (agent : Agent) :
    D AgentGroupMembership :=
  _require_same_realm realm [resource_realm_id group; resource_realm_id agent] ;;
  _require_active [resource_archived_at group; resource_archived_at agent] ;;
  let key := (realm_id realm, g_id group, a_id agent) in
  existing ← gets (fun db => bool_decide (key ∈ agent_group_memberships db));
  (if (existing : bool) then mret tt
   else
     modify (fun db => set_agent_group_memberships ({[key]} ∪ agent_group_memberships db) db) ;;
     monitor_ids ← gets (fun db => enabled_group_monitors db (realm_id realm) (g_id group));
     if negb (is_nil monitor_ids)
     then _bump_configuration_revisions [a_id agent] (realm_id realm) else mret tt) ;;
  mret (mkAgentGroupMembership (realm_id realm) (g_id group) (a_id agent)).

Definition add_target_to_group (realm : Realm) (group : TargetGroup) (target : Target) :
    D TargetGroupMembership :=
  _require_same_realm realm [resource_realm_id group; resource_realm_id target] ;;
  _require_active [resource_archived_at group; resource_archived_at target] ;;
  let key := (realm_id realm, tg_id group, t_id target) in
  modify (fun db => set_target_group_memberships ({[key]} ∪ target_group_memberships db) db) ;;
  mret (mkTargetGroupMembership (realm_id realm) (tg_id group) (t_id target)).

Definition remove_agent_from_group (realm : Realm) (group : AgentGroup) (agent : Agent) : D bool :=
  _require_same_realm realm [resource_realm_id group; resource_realm_id agent] ;;
  let key := (realm_id realm, g_id group, a_id agent) in
  deleted ← gets (fun db => bool_decide (key ∈ agent_group_memberships db));
  modify (fun db => set_agent_group_memberships (agent_group_memberships db ∖ {[key]}) db) ;;
  (if (deleted : bool) then
     has_assignments ← gets (fun db =>
       negb (is_nil (enabled_group_monitors db (realm_id realm) (g_id group))));
     if (has_assignments : bool)
     then _bump_configuration_revisions [a_id agent] (realm_id realm) else mret tt
   else mret tt) ;;
  mret deleted.

(** ** Assignments *)

(** The members of a group that are enabled and not archived. *)
Definition usable_members (db : MonDB) (realm group : uuid) : list uuid :=
  group_member_ids db realm [group].

Definition assign_monitor_to_agent (realm : Realm) (monitor : Monitor) (agent : Agent) :
    D MonitorAgentAssignment :=
  _require_same_realm realm [resource_realm_id monitor; resource_realm_id agent] ;;
  _require_active [resource_archived_at monitor; resource_archived_at agent] ;;
  raise_if (negb (m_enabled monitor) || negb (a_enabled agent))
    (ResourceStateError "Disabled resources cannot receive new assignments") ;;
  let key := (realm_id realm, m_id monitor, a_id agent) in
  existing ← gets (fun db => monitor_agent_assignments db !! key);
  (if bool_decide (existing = Some true) then mret tt
   else
     modify (fun db => set_monitor_agent_assignments
       (<[key := true]> (monitor_agent_assignments db)) db) ;;
     _bump_configuration_revisions [a_id agent] (realm_id realm)) ;;
  mret (mkMonitorAgentAssignment (realm_id realm) (m_id monitor) (a_id agent) true).

Definition assign_monitor_to_agent_group (realm : Realm) (monitor : Monitor) (group : AgentGroup) :
    D MonitorAgentGroupAssignment :=
  _require_same_realm realm [resource_realm_id monitor; resource_realm_id group] ;;
  _require_active [resource_archived_at monitor; resource_archived_at group] ;;
  raise_if (negb (m_enabled monitor) || negb (g_enabled group))
    (ResourceStateError "Disabled resources cannot receive new assignments") ;;
  let key := (realm_id realm, m_id monitor, g_id group) in
  existing ← gets (fun db => monitor_agent_group_assignments db !! key);
  (if bool_decide (existing = Some true) then mret tt
   else
     modify (fun db => set_monitor_agent_group_assignments
       (<[key := true]> (monitor_agent_group_assignments db)) db) ;;
     agent_ids ← gets (fun db => usable_members db (realm_id realm) (g_id group));
     _bump_configuration_revisions agent_ids (realm_id realm)) ;;
  mret (mkMonitorAgentGroupAssignment (realm_id realm) (m_id monitor) (g_id group) true).

Definition unassign_monitor_from_agent (realm : Realm) (monitor : Monitor) (agent : Agent) :
    D bool :=
  _require_same_realm realm [resource_realm_id monitor; resource_realm_id agent] ;;
  let key := (realm_id realm, m_id monitor, a_id agent) in
  deleted ← gets (fun db => negb (is_none (monitor_agent_assignments db !! key)));
  modify (fun db => set_monitor_agent_assignments
    (delete key (monitor_agent_assignments db)) db) ;;
  (if (deleted : bool) then _bump_configuration_revisions [a_id agent] (realm_id realm)
   else mret tt) ;;
  mret deleted.

Definition unassign_monitor_from_agent_group (realm : Realm) (monitor : Monitor)
    (group : AgentGroup) : D bool :=
  _require_same_realm realm [resource_realm_id monitor; resource_realm_id group] ;;
  agent_ids ← gets (fun db => usable_members db (realm_id realm) (g_id group));
  let key := (realm_id realm, m_id monitor, g_id group) in
  deleted ← gets (fun db => negb (is_none (monitor_agent_group_assignments db !! key)));
  modify (fun db => set_monitor_agent_group_assignments
    (delete key (monitor_agent_group_assignments db)) db) ;;
  (if (deleted : bool) then _bump_configuration_revisions agent_ids (realm_id realm)
   else mret tt) ;;
  mret deleted.

(** ** Archiving a target *)

(** The monitors of [Monitor.filter(realm=realm, target=target, archived_at=None)]. *)
Definition live_monitor_of (realm target : uuid) (m : Monitor) : bool :=
  (m_realm_id m =? realm)%N && (m_target_id m =? target)%N && is_none (m_archived_at m).

Definition archive_monitor (archived_at : Z) (m : Monitor) : Monitor :=
  mkMonitor (m_id m) (m_realm_id m) (m_target_id m) (m_name m) (m_description m)
    (m_probe_type m) (m_interval_seconds m) (m_timeout_seconds m) (m_configuration m) false
    (m_revision m) (Some archived_at).

Definition archive_target (now : Z) (realm : Realm) (target : Target) : D unit :=
  _require_same_realm realm [resource_realm_id target] ;;
  if negb (is_none (t_archived_at target)) then mret tt
  else
    in_transaction (
      (* target.save(update_fields=["enabled", "archived_at", "updated_at"]) *)
      row ← gets (fun db => targets db !! t_id target);
      match row with
      | None => raise IntegrityError
      | Some t => modify (fun db => set_targets
          (<[t_id target := mkTarget (t_id t) (t_realm_id t) (t_name t) (t_description t)
              (t_address t) false (Some now)]> (targets db)) db)
      end ;;
      live ← gets (fun db =>
        List.filter (live_monitor_of (realm_id realm) (t_id target)) (rows (monitors db)));
      affected ← gets (fun db => ⋃ (effective_agent_ids_of db <$> live));
      modify (fun db => set_monitors
        ((fun m => if live_monitor_of (realm_id realm) (t_id target) m
                   then archive_monitor now m else m) <$> monitors db) db) ;;
      _bump_configuration_revisions (elements (affected : gset uuid)) (realm_id realm)).

(** ** Rows the monitoring API writes itself (api/monitoring.py, api/monitor_management.py)

    The inserts, deletes and updates the handlers issue without going through the
    domain service, with the uniqueness and check constraints of migration 0006 and the
    refusal of NUL in texts. *)

(** [Agent.create] in [create_agent]. *)
Definition insert_agent (a : Agent) : D unit :=
  check_name (a_name a) (a_description a) ;;
  taken ← gets (fun db => negb (is_none (agents db !! a_id a)) ||
    exists_row (fun x => (a_realm_id x =? a_realm_id a)%N && String.eqb (a_name x) (a_name a))
      (agents db));
  raise_if taken IntegrityError ;;
  modify (fun db => set_agents (<[a_id a := a]> (agents db)) db).

(** [Target.create] in [create_target]. *)
Definition insert_target (t : Target) : D unit :=
  check_name (t_name t) (t_description t) ;;
  raise_if (negb (pg_text (t_address t))) DataError ;;
  taken ← gets (fun db => negb (is_none (targets db !! t_id t)) ||
    exists_row (fun x => (t_realm_id x =? t_realm_id t)%N && String.eqb (t_name x) (t_name t))
      (targets db));
  raise_if taken IntegrityError ;;
  modify (fun db => set_targets (<[t_id t := t]> (targets db)) db).

(** [AgentGroup.create] in [create_agent_group] and [TargetGroup.create] in
    [create_target_group]: the name is unique among the siblings and a group is not its
    own parent. *)
Definition insert_group {R} {GT : GroupTable R} (g : R) : D unit :=
  check_name (h_name g) (h_description g) ;;
  taken ← gets (fun db => negb (is_none (h_table db !! h_id g)) ||
    exists_row (fun x => (h_realm_id x =? h_realm_id g)%N &&
        bool_decide (h_parent_id x = h_parent_id g) && String.eqb (h_name x) (h_name g))
      (h_table db));
  raise_if (taken || bool_decide (h_parent_id g = Some (h_id g))) IntegrityError ;;
  modify (fun db => h_set_table (<[h_id g := g]> (h_table db)) db).

(** [TargetGroupMembership.filter(..).delete()] in [delete_target_group_membership]. *)
Definition delete_target_membership (realm group target : uuid) : D bool :=
  deleted ← gets (fun db =>
    bool_decide ((realm, group, target) ∈ target_group_memberships db));
  modify (fun db => set_target_group_memberships
    (target_group_memberships db ∖ {[(realm, group, target)]}) db) ;;
  mret deleted.

(** [Monitor.filter(id=.., realm=..).update(name=.., description=..)] in
    [update_monitor]. *)
Definition rename_monitor (realm id : uuid) (name : string) (description : option string) :
    D unit :=
  check_name name description ;;
  found ← gets (fun db => get_row (fun m => (m_realm_id m =? realm)%N) id (monitors db));
  match found with
  | None => mret tt
  | Some m =>
      taken ← gets (fun db => exists_row (fun x => negb (m_id x =? id)%N &&
        (m_realm_id x =? realm)%N && String.eqb (m_name x) name) (monitors db));
      raise_if taken IntegrityError ;;
      modify (fun db => set_monitors
        (<[id := mkMonitor (m_id m) (m_realm_id m) (m_target_id m) name description
              (m_probe_type m) (m_interval_seconds m) (m_timeout_seconds m) (m_configuration m)
              (m_enabled m) (m_revision m) (m_archived_at m)]> (monitors db)) db)
  end.
