(* ===== verification/Credentials.v ===== *)
(** * Agent protocol errors, enrolment tokens and credentials
    (agents/protocol.py, agents/credentials.py)

    [realms] is the realm table of the accounts component.  The random values drawn
    by [secrets] and [uuid4] and the instant [datetime.now(UTC)] are arguments. *)

From Stdlib Require Import Ascii.
From S2P Require Import Prelude PyText Json Platform Models ProbeConfig Domain.
Local Open Scope Z_scope.

(** ** agents/protocol.py *)

Definition MINIMUM_PROTOCOL_VERSION : Z := 1.
Definition MAXIMUM_PROTOCOL_VERSION : Z := 1.

Definition require_supported_protocol (protocol_version : Z) : D unit :=
  raise_if (negb ((MINIMUM_PROTOCOL_VERSION <=? protocol_version) &&
                  (protocol_version <=? MAXIMUM_PROTOCOL_VERSION)))
    (AgentProtocolError 409 "incompatible_protocol" "Agent protocol version is not supported."
       false [("minimum_protocol_version", DetailInt MINIMUM_PROTOCOL_VERSION);
              ("maximum_protocol_version", DetailInt MAXIMUM_PROTOCOL_VERSION)]).

(** ** agents/credentials.py *)

Record AgentAuthentication := mkAgentAuthentication {
  au_realm : Realm;
  au_agent : Agent;
  au_credential : AgentCredential;
}.

(** Consumed or revoked tokens are no longer pending. *)
Definition token_pending (t : AgentEnrolmentToken) : bool :=
  is_none (tok_consumed_at t) && is_none (tok_revoked_at t).

Definition revoke_token (now : Z) (t : AgentEnrolmentToken) : AgentEnrolmentToken :=
  mkAgentEnrolmentToken (tok_id t) (tok_realm_id t) (tok_agent_id t) (tok_token_hash t)
    (tok_expires_at t) (tok_consumed_at t) (Some now).

Definition consume_token (now : Z) (t : AgentEnrolmentToken) : AgentEnrolmentToken :=
  mkAgentEnrolmentToken (tok_id t) (tok_realm_id t) (tok_agent_id t) (tok_token_hash t)
    (tok_expires_at t) (Some now) (tok_revoked_at t).

(** [Model.filter(p).update(...)] on the enrolment tokens. *)
Definition update_tokens (p : AgentEnrolmentToken -> bool)
    (f : AgentEnrolmentToken -> AgentEnrolmentToken) : D unit :=
  modify (fun db => set_agent_enrolment_tokens
    ((fun t => if p t then f t else t) <$> agent_enrolment_tokens db) db).

(** [AgentEnrolmentToken.create]: the id and the token hash are unique. *)
Definition insert_token (t : AgentEnrolmentToken) : D unit :=
  taken ← gets (fun db => negb (is_none (agent_enrolment_tokens db !! tok_id t)) ||
    exists_row (fun t' => String.eqb (tok_token_hash t') (tok_token_hash t))
      (agent_enrolment_tokens db));
  raise_if taken IntegrityError ;;
  modify (fun db => set_agent_enrolment_tokens
    (<[tok_id t := t]> (agent_enrolment_tokens db)) db).

(** [AgentCredential.create]: the id and (realm, agent, name) are unique. *)
Definition insert_credential (c : AgentCredential) : D unit :=
  taken ← gets (fun db => negb (is_none (agent_credentials db !! cr_id c)) ||
    exists_row (fun c' => (cr_realm_id c' =? cr_realm_id c)%N &&
        (cr_agent_id c' =? cr_agent_id c)%N && String.eqb (cr_name c') (cr_name c))
      (agent_credentials db));
  raise_if taken IntegrityError ;;
  modify (fun db => set_agent_credentials (<[cr_id c := c]> (agent_credentials db)) db).

Definition agent_in_realm (realm : uuid) (a : Agent) : bool := (a_realm_id a =? realm)%N.

Section Credentials.
Context {P : Platform} (settings : Settings) (realms : gmap uuid Realm).

Definition issue_enrolment_token (now : Z) (raw_token : string) (db_id : uuid)
    (realm : Realm) (agent : Agent) (ttl : option Z) : D (AgentEnrolmentToken * string) :=
  (* [ttl or timedelta(...)]: a missing or zero duration means the default *)
  let ttl' := match ttl with
              | Some d => if d =? 0 then minutes (agent_enrolment_ttl_minutes settings) else d
              | None => minutes (agent_enrolment_ttl_minutes settings)
              end in
  let expires_at := now + ttl' in
  token ← in_transaction (
    found ← gets (fun db => get_row (agent_in_realm (realm_id realm)) (a_id agent) (agents db));
    raise_if (is_none found) DoesNotExist ;;
    update_tokens (fun t => (tok_realm_id t =? realm_id realm)%N &&
      (tok_agent_id t =? a_id agent)%N && token_pending t) (revoke_token now) ;;
    let token := mkAgentEnrolmentToken db_id (realm_id realm) (a_id agent)
                   (hash_token raw_token) expires_at None None in
    insert_token token ;;
    mret token);
  mret (token, raw_token).

Definition exchange_enrolment_token (now : Z) (credential_secret : string)
    (credential_id : uuid) (raw_token : string) : D (Agent * AgentCredential * string) :=
  '(agent, credential) ← in_transaction (
    found ← gets (fun db => first_row
      (fun t => String.eqb (tok_token_hash t) (hash_token raw_token))
      (agent_enrolment_tokens db));
    match found with
    | None => raise (EnrolmentError "Enrolment token is invalid or expired")
    | Some token =>
        raise_if (negb (is_none (tok_consumed_at token)) ||
                  negb (is_none (tok_revoked_at token)) || (tok_expires_at token <=? now))
          (EnrolmentError "Enrolment token is invalid or expired") ;;
        loaded ← gets (fun db =>
          get_row (agent_in_realm (tok_realm_id token)) (tok_agent_id token) (agents db));
        match loaded with
        | None => raise (EnrolmentError "Enrolment token is invalid or expired")
        | Some agent =>
            raise_if (negb (a_enabled agent) || negb (is_none (a_archived_at agent)))
              (EnrolmentError "Enrolment token is invalid or expired") ;;
            let credential := mkAgentCredential credential_id (tok_realm_id token)
              (tok_agent_id token) ("Enrolled " +:+ str_uuid credential_id)
              (hash_token credential_secret) None None None now in
            insert_credential credential ;;
            (* token.save(update_fields=["consumed_at"]) *)
            modify (fun db => set_agent_enrolment_tokens
              (alter (consume_token now) (tok_id token) (agent_enrolment_tokens db)) db) ;;
            mret (agent, credential)
        end
    end);
  mret (agent, credential, str_uuid (cr_id credential) +:+ "." +:+ credential_secret).

(** [AgentCredential.filter(id=..).select_related("agent", "realm").first()]: the row
    joined with the agent and the realm it refers to. *)
Definition credential_with_relations (db : MonDB) (id : uuid) :
    option (AgentCredential * Agent * Realm) :=
  match agent_credentials db !! id with
  | Some c =>
      match agents db !! cr_agent_id c, realms !! cr_realm_id c with
      | Some a, Some r => Some (c, a, r)
      | _, _ => None
      end
  | None => None
  end.

Definition credential_unexpired (now : Z) (c : AgentCredential) : bool :=
  match cr_expires_at c with None => true | Some e => now <? e end.

Definition touch_credential (now : Z) (c : AgentCredential) : AgentCredential :=
  mkAgentCredential (cr_id c) (cr_realm_id c) (cr_agent_id c) (cr_name c)
    (cr_credential_hash c) (Some now) (cr_expires_at c) (cr_revoked_at c) (cr_created_at c).

(** [authorization] is the request's header, [""] when it is absent. *)
Definition authenticate_agent (now : Z) (authorization : string) : D AgentAuthentication :=
  let '(scheme, separator, raw_credential) := partition " "%char authorization in
  raise_if (negb (String.eqb (lower scheme) "bearer") || negb separator)
    (AgentProtocolError 401 "not_authenticated" "Agent authentication is required." false []) ;;
  let '(identifier, separator, secret) := partition "."%char raw_credential in
  found ← gets (fun db => match parse_uuid identifier with
                          | Some id => credential_with_relations db id
                          | None => None
                          end);
  let invalid := AgentProtocolError 401 "invalid_credential"
                   "Agent credential is invalid or expired." false [] in
  match found with
  | None => raise invalid
  | Some (credential, agent, realm) =>
      raise_if (negb (separator &&
          String.eqb (cr_credential_hash credential) (hash_token secret) &&
          is_none (cr_revoked_at credential) && credential_unexpired now credential &&
          a_enabled agent && is_none (a_archived_at agent))) invalid ;;
      let credential' := touch_credential now credential in
      modify (fun db => set_agent_credentials
        (alter (touch_credential now) (cr_id credential) (agent_credentials db)) db) ;;
      mret (mkAgentAuthentication realm agent credential')
  end.
End Credentials.

Definition revoke_enrolment_token (now : Z) (realm : Realm) (agent : Agent) (token_id : uuid) :
    D bool :=
  let p t := (tok_id t =? token_id)%N && (tok_realm_id t =? realm_id realm)%N &&
             (tok_agent_id t =? a_id agent)%N && token_pending t in
  matched ← gets (fun db => exists_row p (agent_enrolment_tokens db));
  update_tokens p (revoke_token now) ;;
  mret matched.

Definition revoke_one_credential (now : Z) (c : AgentCredential) : AgentCredential :=
  mkAgentCredential (cr_id c) (cr_realm_id c) (cr_agent_id c) (cr_name c)
    (cr_credential_hash c) (cr_last_used_at c) (cr_expires_at c) (Some now) (cr_created_at c).

Definition revoke_credential (now : Z) (realm : Realm) (credential_id : uuid) : D bool :=
  let p c := (cr_id c =? credential_id)%N && (cr_realm_id c =? realm_id realm)%N &&
             is_none (cr_revoked_at c) in
  matched ← gets (fun db => exists_row p (agent_credentials db));
  modify (fun db => set_agent_credentials
    ((fun c => if p c then revoke_one_credential now c else c) <$> agent_credentials db) db) ;;
  mret matched.
