(* ===== verification/Configuration.v ===== *)
(** * Agent configuration: assembly, snapshots, acknowledgement, heartbeats
    (agents/configuration.py, agents/heartbeat.py) *)

From S2P Require Import Prelude PyText Json Platform Models ProbeConfig Domain Credentials.
Local Open Scope Z_scope.

(** ** The monitors of an agent *)

Definition direct_monitor_ids (db : MonDB) (realm agent : uuid) : list uuid :=
  omap (fun row => match row with
    | ((r, m, a), enabled) => if (r =? realm)%N && (a =? agent)%N && enabled then Some m else None
    end) (map_to_list (monitor_agent_assignments db)).

Definition usable_group_ids (db : MonDB) (realm agent : uuid) : list uuid :=
  omap (fun row => match row with
    | (r, g, a) => if (r =? realm)%N && (a =? agent)%N && group_usable db g then Some g else None
    end) (elements (agent_group_memberships db)).

Definition grouped_monitor_ids (db : MonDB) (realm : uuid) (group_ids : list uuid) : list uuid :=
  omap (fun row => match row with
    | ((r, m, g), enabled) =>
        if (r =? realm)%N && bool_decide (g ∈ group_ids) && enabled then Some m else None
    end) (map_to_list (monitor_agent_group_assignments db)).

Definition _assigned_monitor_ids (db : MonDB) (realm agent : uuid) : gset uuid :=
  list_to_set (direct_monitor_ids db realm agent) ∪
  list_to_set (grouped_monitor_ids db realm (usable_group_ids db realm agent)).

(** One row of [Monitor.filter(id__in=monitor_ids, realm=.., enabled=True,
    archived_at=None, target__enabled=True, target__archived_at=None)
    .select_related("target")]. *)
Definition select_monitor (db : MonDB) (realm : uuid) (ids : gset uuid) (m : Monitor) :
    option (Monitor * Target) :=
  if bool_decide (m_id m ∈ ids) && (m_realm_id m =? realm)%N && m_enabled m &&
     is_none (m_archived_at m)
  then match targets db !! m_target_id m with
       | Some t => if t_enabled t && is_none (t_archived_at t) then Some (m, t) else None
       | None => None
       end
  else None.

Definition selected (db : MonDB) (realm agent : uuid) : gmap uuid (Monitor * Target) :=
  omap (select_monitor db realm (_assigned_monitor_ids db realm agent)) (monitors db).

(** The rows of a table in the order of their keys: [.order_by("id")]. *)
Definition sorted_ids {V} (t : gmap uuid V) : list uuid :=
  merge_sort N.le (elements (dom t)).

Definition in_id_order {V} (t : gmap uuid V) : list V := omap (fun i => t !! i) (sorted_ids t).

Definition configured_monitors (db : MonDB) (realm agent : uuid) : list (Monitor * Target) :=
  in_id_order (selected db realm agent).

(** ** Capabilities and entries *)

Definition _check_capability (monitor : Monitor) (capabilities : json) : outcome unit :=
  let unsupported := Err (AgentProtocolError 409 "incompatible_capability"
    "An assigned monitor is not supported by this agent." false
    [("monitor_id", DetailText (str_uuid (m_id monitor)));
     ("probe_type", DetailText (str_ProbeType (m_probe_type monitor)))]) in
  match capabilities, m_configuration monitor with
  | JObject caps, JObject configuration =>
      match default (JObject []) (obj_get "probes" caps) with
      | JObject probes =>
          let schema_version := default (JInt 1) (obj_get "schema_version" configuration) in
          match obj_get (str_ProbeType (m_probe_type monitor)) probes with
          | Some (JObject probe) =>
              if bool_decide (obj_get "available" probe = Some (JBool true)) then
                match default (JArray []) (obj_get "schema_versions" probe) with
                | JArray versions => if py_in schema_version versions then Ok tt else unsupported
                | _ => Err TypeError
                end
              else unsupported
          | _ => unsupported
          end
      | _ => Err AttributeError
      end
  | _, _ => Err AttributeError
  end.

Definition schema_version (monitor : Monitor) : outcome Z :=
  py_int (default (JInt 1) (json_get "schema_version" (m_configuration monitor))).

Definition monitor_entry (m : Monitor) (t : Target) (version : Z) : json :=
  JObject [
    ("configuration", m_configuration m);
    ("interval_seconds", JInt (m_interval_seconds m));
    ("missed_run_policy", JString "skip");
    ("monitor_id", JString (str_uuid (m_id m)));
    ("monitor_revision", JInt (m_revision m));
    ("probe_schema_version", JInt version);
    ("probe_type", JString (str_ProbeType (m_probe_type m)));
    ("target_address", JString (t_address t));
    ("target_id", JString (str_uuid (m_target_id m)));
    ("timeout_seconds", JInt (m_timeout_seconds m))
  ].

(** The loop over the monitors: each is checked, then appended. *)
Fixpoint build_entries (capabilities : json) (l : list (Monitor * Target)) : outcome (list json) :=
  match l with
  | [] => Ok []
  | (m, t) :: l' =>
      match _check_capability m capabilities with
      | Err e => Err e
      | Ok _ =>
          match schema_version m with
          | Err e => Err e
          | Ok v =>
              match build_entries capabilities l' with
              | Err e => Err e
              | Ok entries => Ok (monitor_entry m t v :: entries)
              end
          end
      end
  end.

Definition hash_input (realm agent : uuid) (entries : list json) : json :=
  JObject [
    ("agent_id", JString (str_uuid agent));
    ("configuration_schema_version", JInt 1);
    ("monitors", JArray entries);
    ("realm_id", JString (str_uuid realm))
  ].

(** ** The configuration state row *)

(** [AgentConfigurationState.get_or_create(realm=.., agent=..)]: the agent has one row. *)
Definition get_or_create_state (realm agent : uuid) : D AgentConfigurationState :=
  found ← gets (fun db => agent_configuration_states db !! agent);
  match found with
  | Some st => raise_if (negb (st_realm_id st =? realm)%N) IntegrityError ;; mret st
  | None =>
      modify (fun db => set_agent_configuration_states
        (<[agent := new_configuration_state realm]> (agent_configuration_states db)) db) ;;
      mret (new_configuration_state realm)
  end.

Definition save_desired (agent : uuid) (revision : Z) (hash : string) : D unit :=
  modify (fun db => set_agent_configuration_states
    (alter (fun st => mkAgentConfigurationState (st_realm_id st) revision hash
        (st_acknowledged_revision st) (st_acknowledged_content_hash st) (st_acknowledged_at st))
      agent (agent_configuration_states db)) db).

Record ConfigurationResult := mkConfigurationResult {
  res_snapshot : AgentConfigurationSnapshot;
  res_content : json;
}.

Section Configuration.
Context {P : Platform}.

Definition content_hash_of (content : json) : string := sha256_hexdigest (canonical_json content).

(** [AgentConfigurationSnapshot.get_or_create(realm, agent, revision, defaults)]. *)
Definition get_or_create_snapshot (now : Z) (realm agent : uuid) (revision : Z)
    (hash : string) (configuration : json) : D AgentConfigurationSnapshot :=
  found ← gets (fun db => agent_configuration_snapshots db !! (realm, agent, revision));
  match found with
  | Some sn => mret sn
  | None =>
      raise_if (revision <=? 0) IntegrityError ;;
      let sn := mkAgentConfigurationSnapshot realm agent revision hash configuration now in
      modify (fun db => set_agent_configuration_snapshots
        (<[(realm, agent, revision) := sn]> (agent_configuration_snapshots db)) db) ;;
      mret sn
  end.

Definition get_or_create_configuration (now : Z) (authentication : AgentAuthentication) :
    D ConfigurationResult :=
  let realm := realm_id (au_realm authentication) in
  let agent := a_id (au_agent authentication) in
  in_transaction (
    state ← get_or_create_state realm agent;
    let desired_revision := if st_desired_revision state =? 0 then 1
                            else st_desired_revision state in
    operational ← gets (fun db =>
      get_row (fun o => (op_realm_id o =? realm)%N) agent (agent_operational_states db));
    match operational with
    | None => raise (AgentProtocolError 409 "capabilities_required"
                "Send a heartbeat before requesting configuration." true [])
    | Some op =>
        entries ← lift_outcome (fun db =>
          build_entries (op_capabilities op) (configured_monitors db realm agent));
        let content := hash_input realm agent entries in
        let content_hash := content_hash_of content in
        snapshot ← get_or_create_snapshot now realm agent desired_revision content_hash content;
        raise_if (negb (String.eqb (sn_content_hash snapshot) content_hash))
          (AgentProtocolError 409 "configuration_revision_conflict"
             "Desired configuration changed while its snapshot was generated." true []) ;;
        (if negb (String.eqb (st_desired_content_hash state) content_hash)
         then save_desired agent desired_revision content_hash else mret tt) ;;
        mret (mkConfigurationResult snapshot content)
    end).
End Configuration.

(** ** Acknowledgement *)

(** 64-bit columns. *)
Definition fits_int8 (z : Z) : bool := (- 2 ^ 63 <=? z) && (z <? 2 ^ 63).

Definition acknowledge_state (revision : Z) (digest : string) (activated_at : Z)
    (st : AgentConfigurationState) : AgentConfigurationState :=
  mkAgentConfigurationState (st_realm_id st) (st_desired_revision st)
    (st_desired_content_hash st) revision digest (Some activated_at).

Definition acknowledge_configuration (authentication : AgentAuthentication) (revision : Z)
    (content_hash : string) (activated_at : Z) : D AgentConfigurationState :=
  let realm := realm_id (au_realm authentication) in
  let agent := a_id (au_agent authentication) in
  let digest := removeprefix "sha256:" content_hash in
  in_transaction (
    raise_if (negb (fits_int8 revision)) DataError ;;
    snapshot ← gets (fun db => get_row (fun sn => String.eqb (sn_content_hash sn) digest)
                                 (realm, agent, revision) (agent_configuration_snapshots db));
    raise_if (is_none snapshot) (AgentProtocolError 409 "unknown_configuration"
      "The acknowledged configuration was not issued to this agent." false []) ;;
    found ← gets (fun db =>
      get_row (fun st => (st_realm_id st =? realm)%N) agent (agent_configuration_states db));
    match found with
    | None => raise DoesNotExist
    | Some state =>
        if st_acknowledged_revision state <=? revision then
          let state' := acknowledge_state revision digest activated_at state in
          (* the check constraint agent_config_revisions_valid *)
          raise_if (st_desired_revision state <? revision) IntegrityError ;;
          modify (fun db => set_agent_configuration_states
            (<[agent := state']> (agent_configuration_states db)) db) ;;
          mret state'
        else mret state
    end).

(** ** agents/heartbeat.py *)

Inductive DatabaseHealth := DBHealthy | DBDegraded | DBUnhealthy.
Inductive SchedulerState := SchedRunning | SchedDegraded | SchedStopped.

Definition str_DatabaseHealth (h : DatabaseHealth) : string :=
  match h with DBHealthy => "healthy" | DBDegraded => "degraded" | DBUnhealthy => "unhealthy" end.
Definition str_SchedulerState (s : SchedulerState) : string :=
  match s with SchedRunning => "running" | SchedDegraded => "degraded" | SchedStopped => "stopped" end.

(** schemas/agent_protocol.py, [AgentHeartbeatRequest]; [capabilities] is the dumped
    [AgentCapabilities]. *)
Record AgentHeartbeatRequest := mkAgentHeartbeatRequest {
  hb_protocol_version : Z;
  hb_agent_version : string;
  hb_platform : string;
  hb_architecture : string;
  hb_hostname : string;
  hb_capabilities : json;
  hb_active_configuration_revision : Z;
  hb_known_desired_configuration_revision : Z;
  hb_queue_depth : Z;
  hb_queue_bytes : Z;
  hb_oldest_pending_observation_at : option Z;
  hb_database_health : DatabaseHealth;
  hb_scheduler_state : SchedulerState;
  hb_agent_time : Z;
  hb_warnings : list string;
}.

Definition record_heartbeat {P : Platform} (received_at : Z) (authentication : AgentAuthentication)
    (payload : AgentHeartbeatRequest) : D (AgentOperationalState * AgentConfigurationState) :=
  let realm := realm_id (au_realm authentication) in
  let agent := a_id (au_agent authentication) in
  let clock_offset_ms := round_milliseconds (received_at - hb_agent_time payload) in
  let row := mkAgentOperationalState realm agent received_at (hb_agent_version payload)
    (hb_platform payload) (hb_architecture payload) (hb_hostname payload)
    (hb_capabilities payload) (hb_active_configuration_revision payload)
    (hb_known_desired_configuration_revision payload) (hb_queue_depth payload)
    (hb_queue_bytes payload) (hb_oldest_pending_observation_at payload)
    (str_DatabaseHealth (hb_database_health payload))
    (str_SchedulerState (hb_scheduler_state payload)) (hb_agent_time payload)
    clock_offset_ms (hb_warnings payload) in
  (* AgentOperationalState.update_or_create(realm=.., agent=.., defaults=..) *)
  raise_if (negb (fits_int8 (hb_active_configuration_revision payload) &&
                  fits_int8 (hb_known_desired_configuration_revision payload) &&
                  fits_int8 (hb_queue_depth payload) && fits_int8 (hb_queue_bytes payload) &&
                  pg_text (hb_agent_version payload) && pg_text (hb_platform payload) &&
                  pg_text (hb_architecture payload) && pg_text (hb_hostname payload) &&
                  pg_json (hb_capabilities payload) && forallb pg_text (hb_warnings payload)))
    DataError ;;
  other ← gets (fun db => match agent_operational_states db !! agent with
                          | Some o => negb (op_realm_id o =? realm)%N
                          | None => false
                          end);
  raise_if other IntegrityError ;;
  modify (fun db => set_agent_operational_states
    (<[agent := row]> (agent_operational_states db)) db) ;;
  configuration_state ← get_or_create_state realm agent;
  mret (row, configuration_state).
