(* ===== verification/Selection.v ===== *)
(** * Which monitors reach which agents

    The three queries that relate monitors and agents, [effective_agent_ids] of
    monitoring/domain.py, [_assigned_monitor_ids] of agents/configuration.py and their
    helpers, characterised by one relation; the closed form of the revision bump; and
    the content of an agent's configuration as a function of the selected monitors. *)

From S2P Require Import Prelude PyText Json Platform Models ProbeConfig Domain Credentials.
From S2P Require Import Configuration.
Local Open Scope Z_scope.

(** ** Routing *)

(** Monitor [m] is assigned to agent [a] in [realm]: directly, or through an enabled,
    unarchived group the agent is a member of. *)
Definition routed (db : MonDB) (realm m a : uuid) : Prop :=
  monitor_agent_assignments db !! (realm, m, a) = Some true \/
  exists g, monitor_agent_group_assignments db !! (realm, m, g) = Some true /\
            group_usable db g = true /\ (realm, g, a) ∈ agent_group_memberships db.

Section Rows.
(** Members of an [omap] over the rows of a table, for the shapes the queries have. *)
Lemma elem_of_omap_assignments {B : Type} (t : gmap (uuid * uuid * uuid) bool)
    (f : uuid * uuid * uuid * bool -> option B) x :
  x ∈ omap f (map_to_list t) <-> exists r m a b, t !! (r, m, a) = Some b /\ f (r, m, a, b) = Some x.
Proof.
  rewrite list_elem_of_omap. split.
  - intros ([[[r m] a] b] & Hin & Hf). apply elem_of_map_to_list in Hin. eauto 6.
  - intros (r & m & a & b & Hin & Hf). exists (r, m, a, b).
    split; [by apply elem_of_map_to_list|done].
Qed.

Lemma elem_of_omap_memberships {B : Type} (t : gset (uuid * uuid * uuid))
    (f : uuid * uuid * uuid -> option B) x :
  x ∈ omap f (elements t) <-> exists r g a, (r, g, a) ∈ t /\ f (r, g, a) = Some x.
Proof.
  rewrite list_elem_of_omap. split.
  - intros ([[r g] a] & Hin & Hf). apply elem_of_elements in Hin. eauto 6.
  - intros (r & g & a & Hin & Hf). exists (r, g, a). split; [by apply elem_of_elements|done].
Qed.
End Rows.

Ltac solve_rows :=
  repeat match goal with
  | H : context [if ?b then Some _ else None] |- _ => destruct b eqn:?; [|discriminate]
  end; destruct_andb; simplify_eq;
  repeat match goal with
  | H : (_ =? _)%N = true |- _ => apply N.eqb_eq in H; subst
  | H : bool_decide _ = true |- _ => apply bool_decide_eq_true in H
  end.

Section Queries.
Context (db : MonDB) (realm : uuid).

Lemma elem_of_direct_agent_ids m a :
  a ∈ direct_agent_ids db realm m <->
  monitor_agent_assignments db !! (realm, m, a) = Some true /\ agent_usable db a = true.
Proof.
  unfold direct_agent_ids. rewrite elem_of_omap_assignments. split.
  - intros (r & m' & a' & b & Hin & Hf). by solve_rows.
  - intros [Hin Hu]. exists realm, m, a, true. by rewrite !N.eqb_refl, Hu.
Qed.

Lemma elem_of_assigned_group_ids m g :
  g ∈ assigned_group_ids db realm m <->
  monitor_agent_group_assignments db !! (realm, m, g) = Some true /\ group_usable db g = true.
Proof.
  unfold assigned_group_ids. rewrite elem_of_omap_assignments. split.
  - intros (r & m' & a' & b & Hin & Hf). by solve_rows.
  - intros [Hin Hu]. exists realm, m, g, true. by rewrite !N.eqb_refl, Hu.
Qed.

Lemma elem_of_group_member_ids groups a :
  a ∈ group_member_ids db realm groups <->
  agent_usable db a = true /\
  exists g, g ∈ groups /\ (realm, g, a) ∈ agent_group_memberships db.
Proof.
  unfold group_member_ids. rewrite elem_of_omap_memberships. split.
  - intros (r & g & a' & Hin & Hf). solve_rows. eauto.
  - intros (Hu & g & Hg & Hin). exists realm, g, a.
    by rewrite N.eqb_refl, bool_decide_eq_true_2, Hu.
Qed.

Lemma elem_of_direct_monitor_ids m a :
  m ∈ direct_monitor_ids db realm a <->
  monitor_agent_assignments db !! (realm, m, a) = Some true.
Proof.
  unfold direct_monitor_ids. rewrite elem_of_omap_assignments. split.
  - intros (r & m' & a' & b & Hin & Hf). by solve_rows.
  - intros Hin. exists realm, m, a, true. by rewrite !N.eqb_refl.
Qed.

Lemma elem_of_usable_group_ids g a :
  g ∈ usable_group_ids db realm a <->
  (realm, g, a) ∈ agent_group_memberships db /\ group_usable db g = true.
Proof.
  unfold usable_group_ids. rewrite elem_of_omap_memberships. split.
  - intros (r & g' & a' & Hin & Hf). solve_rows. done.
  - intros [Hin Hu]. exists realm, g, a. by rewrite !N.eqb_refl, Hu.
Qed.

Lemma elem_of_grouped_monitor_ids m groups :
  m ∈ grouped_monitor_ids db realm groups <->
  exists g, g ∈ groups /\ monitor_agent_group_assignments db !! (realm, m, g) = Some true.
Proof.
  unfold grouped_monitor_ids. rewrite elem_of_omap_assignments. split.
  - intros (r & m' & g & b & Hin & Hf). solve_rows. by exists g.
  - intros (g & Hg & Hin). exists realm, m, g, true.
    by rewrite N.eqb_refl, bool_decide_eq_true_2.
Qed.

Lemma elem_of_enabled_group_monitors m g :
  m ∈ enabled_group_monitors db realm g <->
  monitor_agent_group_assignments db !! (realm, m, g) = Some true.
Proof.
  unfold enabled_group_monitors. rewrite elem_of_omap_assignments. split.
  - intros (r & m' & g' & b & Hin & Hf). by solve_rows.
  - intros Hin. exists realm, m, g, true. by rewrite !N.eqb_refl.
Qed.

Lemma elem_of_usable_members g a :
  a ∈ usable_members db realm g <->
  agent_usable db a = true /\ (realm, g, a) ∈ agent_group_memberships db.
Proof.
  unfold usable_members. rewrite elem_of_group_member_ids.
  setoid_rewrite list_elem_of_singleton. naive_solver.
Qed.

(** Both directions of the relation are the same relation. *)
Lemma elem_of_assigned_monitor_ids m a :
  m ∈ _assigned_monitor_ids db realm a <-> routed db realm m a.
Proof.
  unfold _assigned_monitor_ids, routed. rewrite elem_of_union, !elem_of_list_to_set.
  rewrite elem_of_direct_monitor_ids, elem_of_grouped_monitor_ids.
  setoid_rewrite elem_of_usable_group_ids. naive_solver.
Qed.
End Queries.

(** An enabled monitor that is not archived. *)
Definition monitor_live (m : Monitor) : bool := m_enabled m && is_none (m_archived_at m).

Lemma elem_of_effective_agent_ids db m a :
  a ∈ effective_agent_ids_of db m <->
  monitor_live m = true /\ agent_usable db a = true /\ routed db (m_realm_id m) (m_id m) a.
Proof.
  unfold effective_agent_ids_of, monitor_live, routed.
  destruct (is_none (m_archived_at m)), (m_enabled m); simpl; [|set_solver..].
  rewrite elem_of_union, !elem_of_list_to_set, elem_of_direct_agent_ids, elem_of_group_member_ids.
  setoid_rewrite elem_of_assigned_group_ids. naive_solver.
Qed.

(** ** The closed form of a bump *)

(** The configuration states after one bump of every agent of [ids]. *)
Definition bumped (ids : gset uuid) (realm : uuid) (t : gmap uuid AgentConfigurationState) :
    gmap uuid AgentConfigurationState :=
  set_to_map (fun a => (a, bump_state (default (new_configuration_state realm) (t !! a)))) ids ∪ t.

Lemma lookup_bumped ids realm t a :
  bumped ids realm t !! a =
    if decide (a ∈ ids) then Some (bump_state (default (new_configuration_state realm) (t !! a)))
    else t !! a.
Proof.
  unfold bumped. destruct (decide (a ∈ ids)) as [Hin|Hout].
  - apply lookup_union_Some_l, lookup_set_to_map; [by intros|by exists a].
  - rewrite lookup_union_r; [done|]. apply eq_None_not_Some. intros [st Hst].
    apply lookup_set_to_map in Hst; [|done]. by destruct Hst as (b & Hb & [= -> _]).
Qed.

Definition bump_db (ids : gset uuid) (realm : uuid) (db : MonDB) : MonDB :=
  set_agent_configuration_states (bumped ids realm (agent_configuration_states db)) db.

Lemma bumped_empty realm t : bumped ∅ realm t = t.
Proof. apply map_eq. intros a. rewrite lookup_bumped. by rewrite decide_False by set_solver. Qed.

Lemma bump_db_empty realm db : bump_db ∅ realm db = db.
Proof. unfold bump_db. rewrite bumped_empty. by destruct db. Qed.

Lemma for_each_bump realm l db :
  NoDup l -> for_each l (bump_one realm) db = (bump_db (list_to_set l) realm db, Ok tt).
Proof.
  intros Hnd. revert db. induction Hnd as [|x l Hx Hnd IH]; intros db; simpl.
  - by rewrite bump_db_empty.
  - rewrite bind_run. unfold bump_one, in_transaction. mrun. rewrite IH.
    f_equal. unfold bump_db, set_agent_configuration_states. simpl. f_equal. apply map_eq. intros a.
    rewrite !lookup_bumped. destruct (decide (a = x)) as [->|].
    + rewrite decide_False by (by rewrite elem_of_list_to_set).
      rewrite lookup_insert_eq. by rewrite decide_True by set_solver.
    + rewrite lookup_insert_ne by done. destruct (decide (a ∈ list_to_set l)).
      * by rewrite decide_True by set_solver.
      * by rewrite decide_False by set_solver.
Qed.

Lemma bump_closed_form ids realm db :
  _bump_configuration_revisions ids realm db = (bump_db (list_to_set ids) realm db, Ok tt).
Proof.
  unfold _bump_configuration_revisions. rewrite for_each_bump by apply NoDup_elements.
  by rewrite list_to_set_elements_L.
Qed.

(** ** The content of a configuration *)

(** The entry of a monitor whatever the agent's capabilities are. *)
Definition entry_of (mt : Monitor * Target) : json :=
  monitor_entry mt.1 mt.2 (match schema_version mt.1 with Ok v => v | Err _ => 0 end).

Definition current_content (db : MonDB) (realm agent : uuid) : json :=
  hash_input realm agent (map entry_of (configured_monitors db realm agent)).

Lemma build_entries_Ok caps l entries :
  build_entries caps l = Ok entries -> entries = map entry_of l.
Proof.
  revert entries. induction l as [|[m t] l IH]; intros entries; cbn [build_entries map].
  - by intros [= <-].
  - destruct (_check_capability m caps); [|done].
    destruct (schema_version m) as [v|] eqn:Ev; [|done].
    destruct (build_entries caps l) as [es|]; [|done]. intros [= <-].
    rewrite (IH es eq_refl). unfold entry_of at 2. simpl. by rewrite Ev.
Qed.

(** The rows in id order, seen through a function of the rows, only depend on what the
    function makes of each row. *)
Lemma in_id_order_ext {V W B : Type} (f : V -> B) (g : W -> B) (s : gmap uuid V) (t : gmap uuid W) :
  (forall k, f <$> s !! k = g <$> t !! k) ->
  map f (in_id_order s) = map g (in_id_order t).
Proof.
  intros Hext. unfold in_id_order.
  assert (Hids : sorted_ids s = sorted_ids t).
  { unfold sorted_ids. do 2 f_equal. apply set_eq. intros k. rewrite !elem_of_dom.
    rewrite <-(fmap_is_Some f), <-(fmap_is_Some g). by rewrite Hext. }
  rewrite Hids. generalize (sorted_ids t). intros l.
  induction l as [|k l IH]; [done|]. simpl. specialize (Hext k).
  destruct (s !! k), (t !! k); simplify_eq/=; [by f_equal|done].
Qed.

Lemma current_content_ext db db' realm agent :
  (forall k, entry_of <$> selected db realm agent !! k = entry_of <$> selected db' realm agent !! k) ->
  current_content db realm agent = current_content db' realm agent.
Proof.
  intros Hext. unfold current_content, configured_monitors. f_equal.
  by apply in_id_order_ext.
Qed.

Lemma elem_of_configured_monitors db realm agent mt :
  mt ∈ configured_monitors db realm agent <-> exists k, selected db realm agent !! k = Some mt.
Proof.
  unfold configured_monitors, in_id_order. rewrite list_elem_of_omap. split.
  - intros (k & _ & Hk). eauto.
  - intros (k & Hk). exists k. split; [|done]. unfold sorted_ids.
    rewrite merge_sort_Permutation, elem_of_elements, elem_of_dom. eauto.
Qed.

(** Monitors lie under their ids. *)
Definition monitors_keyed (db : MonDB) : Prop :=
  forall k m, monitors db !! k = Some m -> m_id m = k.

Definition target_usable (t : Target) : bool := t_enabled t && is_none (t_archived_at t).

(** Membership in the selection, spelled out. *)
Lemma lookup_selected db realm agent k m t :
  monitors_keyed db ->
  selected db realm agent !! k = Some (m, t) <->
  monitors db !! k = Some m /\ routed db realm k agent /\ m_realm_id m = realm /\
  monitor_live m = true /\ targets db !! m_target_id m = Some t /\ target_usable t = true.
Proof.
  intros Hkeyed. unfold selected. rewrite lookup_omap_Some.
  setoid_rewrite <-elem_of_assigned_monitor_ids.
  unfold select_monitor, monitor_live, target_usable. split.
  - intros (m' & Hsel & Hm). pose proof (Hkeyed _ _ Hm) as Hid.
    destruct (_ && _) eqn:E in Hsel; [|done]. destruct_andb.
    match goal with H : bool_decide _ = true |- _ => apply bool_decide_eq_true in H end.
    destruct (targets db !! m_target_id m') as [t'|] eqn:Et; [|done].
    destruct (_ && _) eqn:Eu in Hsel; [|done]. destruct_andb. simplify_eq.
    repeat split; try done; [by apply N.eqb_eq|by split_andb|by split_andb].
  - intros (Hm & Hr & Hre & Hl & Ht & Hu). destruct_andb. exists m. split; [|done].
    rewrite (Hkeyed _ _ Hm). rewrite bool_decide_eq_true_2, Hre, N.eqb_refl by done.
    simpl. by repeat match goal with H : _ = true |- _ => rewrite H; clear H end; rewrite Ht;
      repeat match goal with H : _ = true |- _ => rewrite H; clear H end.
Qed.

Lemma lookup_selected_None db realm agent k :
  monitors_keyed db ->
  (forall m t, monitors db !! k = Some m -> targets db !! m_target_id m = Some t ->
     m_realm_id m = realm -> monitor_live m = true -> target_usable t = true ->
     routed db realm k agent -> False) ->
  selected db realm agent !! k = None.
Proof.
  intros Hkeyed Hno. destruct (selected db realm agent !! k) as [[m t]|] eqn:E; [|done].
  apply lookup_selected in E as (? & ? & ? & ? & ? & ?); [|done]. exfalso. eauto.
Qed.

(** The selection only reads routes, monitors and targets. *)
Lemma selected_ext db db' realm agent :
  monitors_keyed db -> monitors_keyed db' ->
  (forall k m, routed db realm k agent \/ routed db' realm k agent ->
     monitors db !! k = Some m <-> monitors db' !! k = Some m) ->
  (forall k m t, monitors db !! k = Some m \/ monitors db' !! k = Some m ->
     targets db !! m_target_id m = Some t <-> targets db' !! m_target_id m = Some t) ->
  (forall k, routed db realm k agent <-> routed db' realm k agent) ->
  selected db realm agent = selected db' realm agent.
Proof.
  intros Hk Hk' Hm Ht Hr. apply map_eq. intros k. apply option_eq. intros [m t].
  rewrite !lookup_selected by done. rewrite <-Hr.
  split; intros (H1 & H2 & H3 & H4 & H5 & H6); repeat split; try done.
  - apply (Hm k m); auto.
  - eapply Ht; eauto.
  - apply (Hm k m); auto.
  - eapply Ht; eauto.
Qed.
