(* ===== verification/HierarchyProps.v ===== *)
(** * Group hierarchies stay forests

    The parent pointers of the agent groups and of the target groups never form a
    cycle: the walk of [_assert_group_parent] refuses exactly the parents that would
    close one, and the theorems are proved once against the [GroupTable] interface
    and its laws. *)

From stdpp Require Import relations.
From S2P Require Import Prelude PyText Json Models ProbeConfig Domain.
Local Open Scope Z_scope.

(** What the hierarchy code relies on of a table of groups. *)
Class GroupTableLaws (R : Type) {GT : GroupTable R} := {
  h_table_set : forall t db, h_table (h_set_table t db) = t;
  h_parent_set : forall p (r : R), h_parent_id (h_set_parent p r) = p;
  h_id_set : forall p (r : R), h_id (h_set_parent p r) = h_id r;
  h_realm_set : forall p (r : R), h_realm_id (h_set_parent p r) = h_realm_id r;
}.

#[export] Instance AgentGroupLaws : GroupTableLaws AgentGroup.
Proof. by split. Qed.
#[export] Instance TargetGroupLaws : GroupTableLaws TargetGroup.
Proof. by split. Qed.

Section Forest.
Context {R : Type} {GT : GroupTable R} {GL : GroupTableLaws R}.
Implicit Types (db : MonDB) (group r : R).

(** [x]'s row has parent [y]. *)
Definition parent_edge (t : gmap uuid R) (x y : uuid) : Prop :=
  exists r, t !! x = Some r /\ h_parent_id r = Some y.

Definition acyclic (t : gmap uuid R) : Prop := forall x, ~ tc (parent_edge t) x x.

(** Rows are stored under their id and parents are rows of the same realm. *)
Definition closed_groups (t : gmap uuid R) : Prop :=
  forall k r, t !! k = Some r ->
    h_id r = k /\
    forall p, h_parent_id r = Some p ->
      exists q, t !! p = Some q /\ h_realm_id q = h_realm_id r.

Lemma parent_edge_fun t x y z : parent_edge t x y -> parent_edge t x z -> y = z.
Proof. intros (r & Hr & Hy) (r' & Hr' & Hz). congruence. Qed.

(** The loop of the parent check explores the ancestors: when it returns, the moved
    group is not one of them. *)
Lemma walk_parents_sound db group fuel : forall c,
  closed_groups (h_table db) ->
  h_table db !! h_id c = Some c ->
  h_realm_id c = h_realm_id group ->
  h_id c <> h_id group ->
  walk_parents db group (Some c) fuel = Ok tt ->
  ~ rtc (parent_edge (h_table db)) (h_id c) (h_id group).
Proof.
  induction fuel as [|fuel IH]; intros c Hcl Hc Hrealm Hne Hw Hr; [done|].
  inversion Hr as [|x y z Hedge Hrest]; subst; [congruence|].
  destruct Hedge as (c' & Hc' & Hp). simplify_eq. cbn [walk_parents] in Hw.
  rewrite Hp in Hw. case_match eqn:E; [done|]. apply N.eqb_neq in E.
  destruct (Hcl _ _ Hc) as [_ Hpar]. destruct (Hpar _ Hp) as (q & Hq & Hqr).
  assert (Hget : get_row (fun r => (h_realm_id r =? h_realm_id group)%N) y (h_table db)
                 = Some q).
  { apply get_row_Some. split; [done|]. apply N.eqb_eq. congruence. }
  rewrite Hget in Hw. destruct (Hcl _ _ Hq) as [Hid _]. subst y.
  eapply (IH q); eauto; congruence.
Qed.

(** Adding an edge from [g] to [p] closes no cycle if [p] does not reach [g]. *)
Lemma acyclic_reparent (t : gmap uuid R) g (r' : R) :
  acyclic t ->
  (forall p, h_parent_id r' = Some p -> p <> g /\ ~ rtc (parent_edge t) p g) ->
  acyclic (<[g := r']> t).
Proof.
  intros Hac Hp.
  assert (Hold : forall x y, parent_edge (<[g := r']> t) x y -> x <> g -> parent_edge t x y).
  { intros x y (q & Hq & Hy) Hx. rewrite lookup_insert_ne in Hq by done. by exists q. }
  (* a path either stays in the old graph or goes through g *)
  assert (Hreach : forall x, rtc (parent_edge (<[g := r']> t)) x g -> rtc (parent_edge t) x g).
  { intros x Hx. revert x Hx. refine (rtc_ind_l _ _ _ _); [done|].
    intros x y Hxy _ IH. destruct (decide (x = g)) as [->|]; [done|].
    eapply rtc_l; eauto. }
  assert (Hg : ~ tc (parent_edge (<[g := r']> t)) g g).
  { intros Hc.
    assert (exists y, parent_edge (<[g:=r']> t) g y /\ rtc (parent_edge (<[g:=r']> t)) y g)
      as (y & (q & Hq & Hy) & Hyg).
    { inversion Hc; subst; eauto using tc_rtc, rtc_refl. }
    rewrite lookup_insert_eq in Hq. simplify_eq. destruct (Hp _ Hy) as [_ Hn].
    by apply Hn, Hreach. }
  (* a cycle that avoids g is an old cycle, one through g is a cycle at g *)
  assert (Htc : forall x y, tc (parent_edge (<[g := r']> t)) x y ->
    tc (parent_edge t) x y \/
    (rtc (parent_edge (<[g := r']> t)) x g /\ tc (parent_edge (<[g := r']> t)) g y)).
  { intros x y Hxy. induction Hxy as [x y Hxy|x y z Hxy Hyz IH].
    - destruct (decide (x = g)) as [->|]; [right|left; by apply tc_once, Hold].
      split; [done|by apply tc_once].
    - destruct (decide (x = g)) as [->|].
      { right. split; [done|]. eapply tc_l; eauto. }
      destruct IH as [IH|[IH1 IH2]].
      + left. eapply tc_l; eauto.
      + right. split; [|done]. eapply rtc_l; eauto. }
  intros x Hc. destruct (Htc _ _ Hc) as [Ho|[Hxg Hgx]]; [by eapply Hac|].
  apply Hg. eapply tc_rtc_r; eauto.
Qed.
(** Whatever the walk raises is a [HierarchyError]. *)
Lemma walk_parents_err db group fuel : forall c e,
  walk_parents db group c fuel = Err e -> exists msg, e = HierarchyError msg.
Proof.
  induction fuel as [|fuel IH]; intros c e; cbn [walk_parents].
  - intros [= <-]. eauto.
  - destruct c as [c|]; [|done]. destruct (h_parent_id c) as [p|]; [|done].
    case_match; [intros [= <-]; eauto|]. apply IH.
Qed.

(** [closed_groups] survives a move below a row of the group's realm. *)
Lemma closed_reparent (t : gmap uuid R) group row :
  closed_groups t -> t !! h_id group = Some row ->
  (forall p, h_parent_id group = Some p ->
    exists q, t !! p = Some q /\ h_realm_id q = h_realm_id row) ->
  closed_groups (<[h_id group := h_set_parent (h_parent_id group) row]> t).
Proof.
  intros Hcl Hrow Hp k r.
  assert (Hlift : forall p rr, (exists q, t !! p = Some q /\ h_realm_id q = rr) ->
    exists q, <[h_id group := h_set_parent (h_parent_id group) row]> t !! p = Some q /\
              h_realm_id q = rr).
  { intros p rr (q & Hq & Hqr). destruct (decide (p = h_id group)) as [->|].
    - eexists. rewrite lookup_insert_eq. split; [done|]. rewrite h_realm_set. congruence.
    - exists q. by rewrite lookup_insert_ne by done. }
  destruct (decide (k = h_id group)) as [->|].
  - rewrite lookup_insert_eq. intros [= <-]. rewrite h_id_set, h_parent_set, h_realm_set.
    split; [by apply (Hcl _ _ Hrow)|]. intros p Hgp. by apply Hlift, Hp.
  - rewrite lookup_insert_ne by done. intros Hr. destruct (Hcl _ _ Hr) as [Hid Hpar].
    split; [done|]. intros p Hgp. by apply Hlift, Hpar.
Qed.

(** The parent a caller passes is a current row. *)
Definition loaded (db : MonDB) (o : option R) : Prop :=
  forall p, o = Some p -> h_table db !! h_id p = Some p.

(** The check only reads. *)
Lemma assert_group_parent_pure db group parent : (_assert_group_parent group parent db).1 = db.
Proof.
  unfold _assert_group_parent, _require_active, lift_outcome. destruct parent; [|done]. mrun.
  destruct (negb _); [done|]. destruct (existsb _ _); [done|]. by destruct (_ =? _)%N.
Qed.

Lemma assert_group_parent_Ok db group parent :
  closed_groups (h_table db) -> loaded db parent ->
  (_assert_group_parent group parent db).1 = db /\
  ((_assert_group_parent group parent db).2 = Ok tt ->
    forall p, parent = Some p ->
      h_realm_id p = h_realm_id group /\ h_id p <> h_id group /\
      ~ rtc (parent_edge (h_table db)) (h_id p) (h_id group)).
Proof.
  intros Hcl Hl. destruct parent as [p|]; [|done]. specialize (Hl _ eq_refl).
  unfold _assert_group_parent, _require_active, raise_if, lift_outcome, mbind, M_bind.
  destruct (h_realm_id p =? h_realm_id group)%N eqn:Er; simpl; [|done].
  destruct (_ || _); simpl; [done|]. destruct (h_id p =? h_id group)%N eqn:Ei; simpl; [done|].
  apply N.eqb_eq in Er. apply N.eqb_neq in Ei. split; [done|].
  intros Hw p' [= <-]. repeat split; [done|done|].
  by eapply (walk_parents_sound db group MAX_GROUP_DEPTH).
Qed.

(** What a move leaves in the table. *)
Lemma move_group_table db group parent :
  closed_groups (h_table db) -> h_table db !! h_id group = Some group -> loaded db parent ->
  h_table (move_group group parent db).1 = h_table db \/
  (h_table (move_group group parent db).1 =
     <[h_id group := h_set_parent (h_id <$> parent) group]> (h_table db) /\
   forall p, parent = Some p ->
      h_realm_id p = h_realm_id group /\ h_id p <> h_id group /\
      ~ rtc (parent_edge (h_table db)) (h_id p) (h_id group)).
Proof.
  intros Hcl Hg Hl. destruct (assert_group_parent_Ok db group parent Hcl Hl) as [Hs Hok].
  unfold move_group. rewrite bind_run.
  destruct (_assert_group_parent group parent db) as [db1 [[]|e]]; simpl in *; subst; [|by left].
  unfold save_parent. mrun. rewrite h_id_set, Hg. mrun.
  destruct (_ || _); simpl; [by left|]. rewrite h_table_set, h_parent_set. right. auto.
Qed.

Lemma move_group_closed db group parent :
  closed_groups (h_table db) -> h_table db !! h_id group = Some group -> loaded db parent ->
  closed_groups (h_table (move_group group parent db).1).
Proof.
  intros Hcl Hg Hl. destruct (move_group_table db group parent Hcl Hg Hl) as [->|[-> Hok]]; [done|].
  pose proof (closed_reparent (h_table db) (h_set_parent (h_id <$> parent) group) group Hcl)
    as Hc. rewrite h_id_set, h_parent_set in Hc. apply Hc; [done|].
  intros q (p & -> & ->)%fmap_Some. exists p. split; [by apply Hl|]. by apply Hok.
Qed.

Lemma move_group_acyclic db group parent :
  closed_groups (h_table db) -> acyclic (h_table db) ->
  h_table db !! h_id group = Some group -> loaded db parent ->
  acyclic (h_table (move_group group parent db).1).
Proof.
  intros Hcl Hac Hg Hl.
  destruct (move_group_table db group parent Hcl Hg Hl) as [->|[-> Hok]]; [done|].
  apply acyclic_reparent; [done|]. intros q. rewrite h_parent_set.
  intros (p & -> & ->)%fmap_Some. split; by apply Hok.
Qed.

(** C27 Moving a group keeps the table of groups a forest: whatever current rows a
    caller passes, and whether the move is made or refused, after [move_group] the rows
    still lie under their ids with parents in their own realm and no parent chain returns
    to where it started. *)
Theorem move_group_keeps_forest db group parent :
  closed_groups (h_table db) -> acyclic (h_table db) ->
  h_table db !! h_id group = Some group -> loaded db parent ->
  closed_groups (h_table (move_group group parent db).1) /\
  acyclic (h_table (move_group group parent db).1).
Proof. eauto using move_group_closed, move_group_acyclic. Qed.

(** Moving a group below itself or below any of its descendants, at whatever
    depth, is refused with a [HierarchyError] and changes nothing. *)
Theorem move_below_descendant_refused db group (parent : R) :
  closed_groups (h_table db) ->
  h_table db !! h_id parent = Some parent ->
  h_realm_id parent = h_realm_id group ->
  h_archived_at group = None -> h_archived_at parent = None ->
  rtc (parent_edge (h_table db)) (h_id parent) (h_id group) ->
  exists msg, move_group group (Some parent) db = (db, Err (HierarchyError msg)).
Proof.
  intros Hcl Hl Hr Hag Hap Hreach.
  unfold move_group, _assert_group_parent, _require_active, lift_outcome.
  mrun. rewrite Hr, N.eqb_refl. mrun. cbn [existsb]. rewrite Hag, Hap. mrun.
  destruct (h_id parent =? h_id group)%N eqn:Ei; mrun; [by eexists|]. apply N.eqb_neq in Ei.
  destruct (walk_parents db group (Some parent) MAX_GROUP_DEPTH) as [[]|e] eqn:Ew.
  - by destruct (walk_parents_sound _ _ _ _ Hcl Hl Hr Ei Ew).
  - destruct (walk_parents_err _ _ _ _ _ Ew) as [msg ->]. by exists msg.
Qed.
End Forest.

(** ** Witnesses *)

Definition example_group (id : uuid) (parent : option uuid) (name : string) : AgentGroup :=
  mkAgentGroup id 1 parent name None true None.

Definition example_forest : MonDB :=
  set_agent_groups (<[10%N := example_group 10 None "europe"]>
    (<[11%N := example_group 11 (Some 10%N) "uk"]>
      (<[12%N := example_group 12 (Some 11%N) "london"]> ∅))) empty_db.

(** The two conditions checked by evaluation on a concrete table; the ids decrease
    towards the root. *)
Definition forest_check (t : gmap uuid AgentGroup) : bool :=
  forallb (fun kr => (g_id kr.2 =? kr.1)%N &&
    match g_parent_id kr.2 with
    | None => true
    | Some p => (p <? kr.1)%N &&
        match t !! p with Some q => (g_realm_id q =? g_realm_id kr.2)%N | None => false end
    end) (map_to_list t).

Lemma forest_check_sound t : forest_check t = true -> closed_groups t /\ acyclic t.
Proof.
  intros Hf.
  assert (Hrow : forall k r, t !! k = Some r -> g_id r = k /\
    forall p, g_parent_id r = Some p ->
      (p < k)%N /\ exists q, t !! p = Some q /\ g_realm_id q = g_realm_id r).
  { intros k r Hk. unfold forest_check in Hf. rewrite forallb_forall in Hf.
    specialize (Hf (k, r)). destruct_andb. simpl in Hf.
    rewrite <-list_elem_of_In, elem_of_map_to_list in Hf. specialize (Hf Hk). destruct_andb.
    split; [by apply N.eqb_eq|]. intros p Hp. rewrite Hp in *. destruct_andb.
    split; [by apply N.ltb_lt|]. destruct (t !! p) as [q|]; [|done]. exists q.
    split; [done|]. by apply N.eqb_eq. }
  split.
  - intros k r Hk. destruct (Hrow _ _ Hk) as [Hid Hp]. split; [done|].
    intros p Hpp. by destruct (Hp _ Hpp).
  - assert (Hlt : forall x y, tc (parent_edge t) x y -> (y < x)%N).
    { induction 1 as [x y (r & Hr & Hy)|x y z (r & Hr & Hy) _ IH];
        destruct (Hrow _ _ Hr) as [_ Hp]; destruct (Hp _ Hy) as [? _]; lia. }
    intros x Hx%Hlt. lia.
Qed.

Lemma move_group_keeps_forest_witness :
  (move_agent_group (example_group 12 (Some 11%N) "london")
     (Some (example_group 10 None "europe")) example_forest).2
    = Ok (example_group 12 (Some 10%N) "london") /\
  acyclic (agent_groups (move_agent_group (example_group 12 (Some 11%N) "london")
     (Some (example_group 10 None "europe")) example_forest).1).
Proof.
  split; [by vm_compute|].
  refine (proj2 (move_group_keeps_forest (R := AgentGroup) example_forest
    (example_group 12 (Some 11%N) "london") (Some (example_group 10 None "europe")) _ _ _ _)).
  - by apply forest_check_sound.
  - by apply forest_check_sound.
  - reflexivity.
  - intros p [= <-]. reflexivity.
Defined.

Lemma move_below_descendant_refused_witness :
  exists msg, move_agent_group (example_group 10 None "europe")
    (Some (example_group 12 (Some 11%N) "london")) example_forest
    = (example_forest, Err (HierarchyError msg)).
Proof.
  apply (move_below_descendant_refused (R := AgentGroup)).
  - by apply forest_check_sound.
  - reflexivity.
  - reflexivity.
  - reflexivity.
  - reflexivity.
  - eapply rtc_l; [by eexists|]. eapply rtc_l; [by eexists|]. apply rtc_refl.
Defined.
