(* ===== verification/CredentialsProps.v ===== *)
(** * Enrolment tokens and credentials: single use, replacement, authentication *)

From Stdlib Require Import Ascii.
From S2P Require Import Prelude PyText Json Platform Models ProbeConfig Domain Credentials.
Local Open Scope Z_scope.

(** ** The invariant of the two tables *)

(** Rows lie under their ids, no two tokens share a hash, and an agent has at most one
    token that is neither consumed nor revoked. *)
Record tokens_ok (db : MonDB) : Prop := {
  token_key : forall k t, agent_enrolment_tokens db !! k = Some t -> tok_id t = k;
  token_hash_unique : forall k1 k2 t1 t2,
    agent_enrolment_tokens db !! k1 = Some t1 -> agent_enrolment_tokens db !! k2 = Some t2 ->
    tok_token_hash t1 = tok_token_hash t2 -> k1 = k2;
  token_single_pending : forall k1 k2 t1 t2,
    agent_enrolment_tokens db !! k1 = Some t1 -> agent_enrolment_tokens db !! k2 = Some t2 ->
    token_pending t1 = true -> token_pending t2 = true ->
    tok_realm_id t1 = tok_realm_id t2 -> tok_agent_id t1 = tok_agent_id t2 -> k1 = k2;
  credential_key : forall k c, agent_credentials db !! k = Some c -> cr_id c = k;
}.

(** An update of token rows that keeps ids, hashes and owners and makes none pending. *)
Definition token_retire (f : AgentEnrolmentToken -> AgentEnrolmentToken) : Prop :=
  forall t, tok_id (f t) = tok_id t /\ tok_token_hash (f t) = tok_token_hash t /\
    tok_realm_id (f t) = tok_realm_id t /\ tok_agent_id (f t) = tok_agent_id t /\
    (token_pending (f t) = true -> token_pending t = true).

Lemma revoke_token_retire (p : AgentEnrolmentToken -> bool) now :
  token_retire (fun t => if p t then revoke_token now t else t).
Proof.
  intros t. destruct (p t); repeat split; try done. unfold token_pending; simpl.
  rewrite andb_false_r. done.
Qed.

Lemma consume_token_retire now : token_retire (consume_token now).
Proof. done. Qed.

Lemma tokens_ok_retire f db :
  token_retire f -> tokens_ok db ->
  tokens_ok (set_agent_enrolment_tokens (f <$> agent_enrolment_tokens db) db).
Proof.
  intros Hf [Hk Hh Hp Hc].
  assert (Hinv : forall k t, (f <$> agent_enrolment_tokens db) !! k = Some t ->
    exists t0, agent_enrolment_tokens db !! k = Some t0 /\ t = f t0).
  { intros k t. rewrite lookup_fmap. intros (t0 & H0 & ->)%fmap_Some. eauto. }
  split; simpl.
  - intros k t (t0 & H0 & ->)%Hinv. destruct (Hf t0) as (-> & _). eauto.
  - intros k1 k2 t1 t2 (a & Ha & ->)%Hinv (b & Hb & ->)%Hinv.
    destruct (Hf a) as (_ & -> & _), (Hf b) as (_ & -> & _). eauto.
  - intros k1 k2 t1 t2 (a & Ha & ->)%Hinv (b & Hb & ->)%Hinv.
    destruct (Hf a) as (_ & _ & -> & -> & Hpa), (Hf b) as (_ & _ & -> & -> & Hpb). eauto.
  - done.
Qed.

Lemma alter_as_fmap {A} (f : A -> A) (p : A -> bool) (m : gmap uuid A) k :
  (forall j x, m !! j = Some x -> p x = true <-> j = k) ->
  alter f k m = (fun x => if p x then f x else x) <$> m.
Proof.
  intros Hp. apply map_eq. intros j. rewrite lookup_fmap.
  destruct (decide (j = k)) as [->|Hne].
  - rewrite lookup_alter_eq. destruct (m !! k) as [x|] eqn:E; [|done]. simpl.
    by rewrite (proj2 (Hp _ _ E) eq_refl).
  - rewrite lookup_alter_ne by done. destruct (m !! j) as [x|] eqn:E; [|done]. simpl.
    destruct (p x) eqn:Ep; [|done]. by apply (Hp _ _ E) in Ep.
Qed.

Lemma tokens_ok_consume now k db :
  tokens_ok db ->
  tokens_ok (set_agent_enrolment_tokens
    (alter (consume_token now) k (agent_enrolment_tokens db)) db).
Proof.
  intros Hok.
  rewrite (alter_as_fmap _ (fun t => (tok_id t =? k)%N)).
  - apply tokens_ok_retire; [|done]. intros t. by destruct (_ =? _)%N.
  - intros j t Hj. rewrite (token_key _ Hok _ _ Hj). by rewrite N.eqb_eq.
Qed.

(** ** Runs of the operations *)

Section Runs.
Context {P : Platform} (settings : Settings) (realms : gmap uuid Realm).
Implicit Types (db : MonDB).

Lemma insert_token_inv db db' t r :
  insert_token t db = (db', Ok r) ->
  agent_enrolment_tokens db !! tok_id t = None /\
  (forall k t', agent_enrolment_tokens db !! k = Some t' ->
     tok_token_hash t' <> tok_token_hash t) /\
  db' = set_agent_enrolment_tokens (<[tok_id t := t]> (agent_enrolment_tokens db)) db.
Proof.
  intros H. unfold insert_token in H. minv.
  match goal with H : _ || _ = false |- _ => apply orb_false_iff in H as [H1 H2] end.
  repeat split.
  - by destruct (agent_enrolment_tokens db !! tok_id t).
  - intros k t' Hk He. rewrite exists_row_false in H2. specialize (H2 _ _ Hk).
    by rewrite He, String.eqb_refl in H2.
Qed.

Lemma insert_credential_inv db db' c r :
  insert_credential c db = (db', Ok r) ->
  agent_credentials db !! cr_id c = None /\
  db' = set_agent_credentials (<[cr_id c := c]> (agent_credentials db)) db.
Proof.
  intros H. unfold insert_credential in H. minv.
  match goal with H : _ || _ = false |- _ => apply orb_false_iff in H as [H1 _] end.
  split; [|done]. by destruct (agent_credentials db !! cr_id c).
Qed.

Lemma tokens_ok_insert_token db db' t r :
  tokens_ok db -> insert_token t db = (db', Ok r) ->
  (forall k t', agent_enrolment_tokens db !! k = Some t' -> token_pending t' = true ->
     tok_realm_id t' = tok_realm_id t -> tok_agent_id t' = tok_agent_id t -> False) ->
  tokens_ok db'.
Proof.
  intros [Hk Hh Hp Hc] Hi Hnone. apply insert_token_inv in Hi as (Hfresh & Hhash & ->).
  split; simpl; [..|done].
  - intros k x [[<- <-]|[? Hx]]%lookup_insert_Some; [done|eauto].
  - intros k1 k2 t1 t2 [[<- <-]|[? H1]]%lookup_insert_Some [[<- <-]|[? H2]]%lookup_insert_Some
      Heq; try done; [|by destruct (Hhash _ _ H1)|eauto].
    by destruct (Hhash _ _ H2).
  - intros k1 k2 t1 t2 [[<- <-]|[? H1]]%lookup_insert_Some [[<- <-]|[? H2]]%lookup_insert_Some;
      try done; [| |eauto]; intros; exfalso; eauto.
Qed.

Lemma exchange_inv db db' now secret cid raw ag cr out :
  exchange_enrolment_token now secret cid raw db = (db', Ok (ag, cr, out)) ->
  exists k tok,
    agent_enrolment_tokens db !! k = Some tok /\ tok_token_hash tok = hash_token raw /\
    token_pending tok = true /\ now < tok_expires_at tok /\
    agents db !! tok_agent_id tok = Some ag /\ a_realm_id ag = tok_realm_id tok /\
    a_enabled ag = true /\ a_archived_at ag = None /\
    cr = mkAgentCredential cid (tok_realm_id tok) (tok_agent_id tok)
           ("Enrolled " +:+ str_uuid cid) (hash_token secret) None None None now /\
    out = str_uuid cid +:+ "." +:+ secret /\
    agent_credentials db !! cid = None /\
    db' = set_agent_enrolment_tokens
      (alter (consume_token now) (tok_id tok) (agent_enrolment_tokens db))
      (set_agent_credentials (<[cid := cr]> (agent_credentials db)) db).
Proof.
  unfold exchange_enrolment_token. intros H. minv.
  destruct a as [ag' cr']. minv. simplify_eq.
  destruct (first_row _ _) as [tok|] eqn:Ef; [|by minv].
  apply first_row_Some in Ef as [[k Hk] Hhash%String.eqb_eq].
  minv. destruct (get_row _ _ _) as [ag0|] eqn:Eg; [|by minv].
  apply get_row_Some in Eg as [Hag Hrealm%N.eqb_eq]. minv. simplify_eq.
  match goal with H : insert_credential _ _ = _ |- _ => apply insert_credential_inv in H as [? ->] end.
  repeat match goal with H : _ || _ = false |- _ => apply orb_false_iff in H as [? ?] end.
  exists k, tok. unfold token_pending.
  destruct (tok_consumed_at tok), (tok_revoked_at tok); try done.
  destruct (a_enabled ag0), (a_archived_at ag0) eqn:?; try done.
  repeat split; try done. by apply Z.leb_gt.
Qed.
Lemma exchange_err db db' now secret cid raw e :
  exchange_enrolment_token now secret cid raw db = (db', Err e) -> db' = db.
Proof.
  unfold exchange_enrolment_token. intros H.
  rewrite bind_run in H. destruct (in_transaction _ db) as [db1 [[ag cr]|e']] eqn:E.
  - by rewrite ret_run in H.
  - injection H as <- _. by eapply in_transaction_inv_Err.
Qed.

Lemma issue_preserves now raw id realm agent ttl :
  preserves tokens_ok (issue_enrolment_token settings now raw id realm agent ttl).
Proof.
  apply preserves_bind; [|intros; apply preserves_ret].
  apply preserves_in_transaction_Ok. intros db db' tok Hok H. minv. unfold update_tokens in *. minv.
  eapply tokens_ok_insert_token; [|eassumption|].
  - apply tokens_ok_retire; [apply revoke_token_retire|done].
  - simpl. intros k t Ht Hp Hr Ha. rewrite lookup_fmap in Ht.
    apply fmap_Some in Ht as (t0 & Ht0 & ->).
    destruct (_ && _ && token_pending t0) eqn:E.
    + unfold token_pending in Hp. simpl in Hp. by rewrite andb_false_r in Hp.
    + rewrite Hp, andb_true_r, Hr, Ha, !N.eqb_refl in E. done.
Qed.

Lemma exchange_preserves now secret cid raw :
  preserves tokens_ok (exchange_enrolment_token now secret cid raw).
Proof.
  intros db Hok. destruct (exchange_enrolment_token now secret cid raw db) as [db' [r|e]] eqn:E.
  - destruct r as [[ag cr] out].
    apply exchange_inv in E as (k & tok & _ & _ & _ & _ & _ & _ & _ & _ & Hcr & _ & _ & ->).
    apply (tokens_ok_consume now (tok_id tok)
      (set_agent_credentials (<[cid := cr]> (agent_credentials db)) db)).
    destruct Hok as [? ? ? Hc]. split; [done..|]. simpl.
    intros j c [[<- <-]|[? Hj]]%lookup_insert_Some; [by subst cr|eauto].
  - by apply exchange_err in E as ->.
Qed.

Lemma credentials_map_preserves f :
  (forall c, cr_id (f c) = cr_id c) ->
  preserves tokens_ok (modify (fun db => set_agent_credentials (f <$> agent_credentials db) db)).
Proof.
  intros Hf db [? ? ? Hc]. split; [done..|]. simpl. intros k c.
  rewrite lookup_fmap. intros (c0 & H0 & ->)%fmap_Some. rewrite Hf. eauto.
Qed.

Lemma authenticate_preserves now header :
  preserves tokens_ok (authenticate_agent realms now header).
Proof.
  unfold authenticate_agent. destruct (partition _ header) as [[scheme sep] raw].
  apply preserves_bind; [apply preserves_raise_if|intros _].
  destruct (partition _ raw) as [[ident sep'] secret].
  apply preserves_bind; [apply preserves_gets|intros [[[c a] r]|]]; [|apply preserves_raise].
  apply preserves_bind; [apply preserves_raise_if|intros _].
  apply preserves_bind; [|intros; apply preserves_ret].
  intros db [Hk Hh Hp Hc]. split; [done..|]. simpl. intros k c'.
  destruct (decide (k = cr_id c)) as [->|].
  - rewrite lookup_alter_eq. intros (c0 & H0 & ->)%fmap_Some. simpl. eauto.
  - rewrite lookup_alter_ne by done. eauto.
Qed.

Lemma revoke_enrolment_token_preserves now realm agent id :
  preserves tokens_ok (revoke_enrolment_token now realm agent id).
Proof.
  unfold revoke_enrolment_token. apply preserves_bind; [apply preserves_gets|intros b].
  apply preserves_bind; [|intros; apply preserves_ret].
  intros db Hok. apply tokens_ok_retire; [apply revoke_token_retire|done].
Qed.

Lemma revoke_credential_preserves now realm id :
  preserves tokens_ok (revoke_credential now realm id).
Proof.
  unfold revoke_credential. apply preserves_bind; [apply preserves_gets|intros b].
  apply preserves_bind; [|intros; apply preserves_ret].
  apply credentials_map_preserves. intros c. by destruct (_ && _).
Qed.

(** One call of an operation of agents/credentials.py, whatever its arguments and
    whether it returns or raises. *)
Inductive credential_step : MonDB -> MonDB -> Prop :=
| step_issue now raw id realm agent ttl db :
    credential_step db (issue_enrolment_token settings now raw id realm agent ttl db).1
| step_exchange now secret cid raw db :
    credential_step db (exchange_enrolment_token now secret cid raw db).1
| step_authenticate now header db :
    credential_step db (authenticate_agent realms now header db).1
| step_revoke_token now realm agent id db :
    credential_step db (revoke_enrolment_token now realm agent id db).1
| step_revoke_credential now realm id db :
    credential_step db (revoke_credential now realm id db).1.

Lemma tokens_step db db' : credential_step db db' -> tokens_ok db -> tokens_ok db'.
Proof.
  intros Hstep Hok. destruct Hstep.
  - by apply issue_preserves.
  - by apply exchange_preserves.
  - by apply authenticate_preserves.
  - by apply revoke_enrolment_token_preserves.
  - by apply revoke_credential_preserves.
Qed.

(** At any point of any sequence of enrolment and credential operations, with any
    arguments, an agent has at most one enrolment token that can still be exchanged, no
    two tokens share a hash and rows stay under their ids: a sequence that starts in such
    a state (an empty one, for instance) stays in such states. *)
Theorem one_pending_token_per_agent db db' :
  tokens_ok db -> rtc credential_step db db' -> tokens_ok db'.
Proof.
  intros Hok Hsteps. revert Hok. induction Hsteps as [|x y z Hstep _ IH]; [done|].
  intros Hok. apply IH. by eapply tokens_step.
Qed.
(** ** Single use *)

(** The token with hash [h] has been consumed. *)
Definition token_spent (h : string) (db : MonDB) : Prop :=
  exists k t, agent_enrolment_tokens db !! k = Some t /\ tok_token_hash t = h /\
    tok_consumed_at t <> None.

Lemma spent_retire h f db :
  (forall t, tok_token_hash (f t) = tok_token_hash t /\
     (tok_consumed_at t <> None -> tok_consumed_at (f t) <> None)) ->
  token_spent h db ->
  token_spent h (set_agent_enrolment_tokens (f <$> agent_enrolment_tokens db) db).
Proof.
  intros Hf (k & t & Hk & Hh & Hc). exists k, (f t). simpl. rewrite lookup_fmap, Hk.
  destruct (Hf t) as [-> ?]. auto.
Qed.

Lemma spent_insert_token h t db db' r :
  insert_token t db = (db', Ok r) -> token_spent h db -> token_spent h db'.
Proof.
  intros (Hfresh & _ & ->)%insert_token_inv (k & t' & Hk & Hh & Hc). exists k, t'. simpl.
  rewrite lookup_insert_ne by congruence. auto.
Qed.

(** Tables that do not touch the tokens keep them spent. *)
Lemma spent_tokens h db db' :
  agent_enrolment_tokens db' = agent_enrolment_tokens db -> token_spent h db -> token_spent h db'.
Proof. unfold token_spent. by intros ->. Qed.

Lemma spent_issue h now raw id realm agent ttl :
  preserves (token_spent h) (issue_enrolment_token settings now raw id realm agent ttl).
Proof.
  apply preserves_bind; [|intros; apply preserves_ret].
  apply preserves_in_transaction_Ok. intros db db' tok Hok H. minv. unfold update_tokens in *. minv.
  eapply spent_insert_token; [eassumption|]. apply spent_retire; [|done].
  intros t. by destruct (_ && _).
Qed.

Lemma spent_exchange h now secret cid raw :
  preserves (token_spent h) (exchange_enrolment_token now secret cid raw).
Proof.
  intros db Hsp. destruct (exchange_enrolment_token now secret cid raw db) as [db' [r|e]] eqn:E.
  - destruct r as [[ag cr] out].
    apply exchange_inv in E as (k & tok & _ & _ & _ & _ & _ & _ & _ & _ & _ & _ & _ & ->).
    destruct Hsp as (j & t & Hj & Hh & Hc).
    destruct (decide (j = tok_id tok)) as [->|].
    + exists (tok_id tok), (consume_token now t). simpl. by rewrite lookup_alter_eq, Hj.
    + exists j, t. simpl. by rewrite lookup_alter_ne.
  - by apply exchange_err in E as ->.
Qed.

Lemma authenticate_tokens now header db :
  agent_enrolment_tokens (authenticate_agent realms now header db).1 =
  agent_enrolment_tokens db.
Proof.
  unfold authenticate_agent. destruct (partition _ header) as [[scheme sep] raw].
  destruct (partition _ raw) as [[ident sep'] secret]. mrun.
  destruct (_ || _); [done|]. mrun.
  destruct (match parse_uuid ident with Some _ => _ | None => _ end) as [[[c a] r]|]; [|done].
  mrun. by destruct (negb _).
Qed.

Lemma spent_step h db db' : credential_step db db' -> token_spent h db -> token_spent h db'.
Proof.
  intros Hstep Hsp. destruct Hstep.
  - by apply spent_issue.
  - by apply spent_exchange.
  - by eapply spent_tokens; [apply authenticate_tokens|].
  - apply spent_retire; [|done]. intros t. by destruct (_ && _).
  - by eapply spent_tokens; [|eassumption].
Qed.

Lemma spent_refused db raw now secret cid :
  tokens_ok db -> token_spent (hash_token raw) db ->
  exchange_enrolment_token now secret cid raw db =
    (db, Err (EnrolmentError "Enrolment token is invalid or expired")).
Proof.
  intros Hok (k & t & Hk & Hh & Hc). unfold exchange_enrolment_token. rewrite bind_run.
  unfold in_transaction. rewrite bind_run. cbn [gets].
  assert (first_row (fun t => String.eqb (tok_token_hash t) (hash_token raw))
            (agent_enrolment_tokens db) = Some t) as ->.
  { destruct (first_row _ _) as [t'|] eqn:Ef.
    - apply first_row_Some in Ef as [[k' Hk'] He%String.eqb_eq].
      assert (k' = k) as -> by (eapply token_hash_unique; eauto; congruence). congruence.
    - rewrite first_row_None in Ef. specialize (Ef _ _ Hk). by rewrite Hh, String.eqb_refl in Ef. }
  mrun. by destruct (tok_consumed_at t).
Qed.

(** An enrolment token is exchanged at most once: after an exchange that returned,
    whatever other enrolment and credential operations ran since, presenting the same
    token again is refused with [EnrolmentError] and changes nothing. *)
Theorem enrolment_token_single_use db db' db'' now secret cid raw r :
  tokens_ok db ->
  exchange_enrolment_token now secret cid raw db = (db', Ok r) ->
  rtc credential_step db' db'' ->
  forall now' secret' cid',
    exchange_enrolment_token now' secret' cid' raw db'' =
      (db'', Err (EnrolmentError "Enrolment token is invalid or expired")).
Proof.
  intros Hok Hex Hsteps now' secret' cid'.
  assert (Hok' : tokens_ok db').
  { pose proof (exchange_preserves now secret cid raw db Hok) as H. by rewrite Hex in H. }
  assert (Hsp : token_spent (hash_token raw) db').
  { destruct r as [[ag cr] out].
    apply exchange_inv in Hex as (k & tok & Hk & Hh & _ & _ & _ & _ & _ & _ & _ & _ & _ & ->).
    exists k, (consume_token now tok). simpl.
    rewrite <-(token_key _ Hok _ _ Hk) in Hk |- *. by rewrite lookup_alter_eq, Hk. }
  assert (tokens_ok db'' /\ token_spent (hash_token raw) db'') as [? ?].
  { clear Hex. induction Hsteps as [|x y z Hstep _ IH]; [done|].
    apply IH; [by eapply tokens_step|by eapply spent_step]. }
  by apply spent_refused.
Qed.

(** ** Authentication *)

Lemma authenticate_inv db db' now header au :
  authenticate_agent realms now header db = (db', Ok au) ->
  exists scheme raw ident secret id c,
    partition " "%char header = (scheme, true, raw) /\ lower scheme = "bearer" /\
    partition "."%char raw = (ident, true, secret) /\ parse_uuid ident = Some id /\
    agent_credentials db !! id = Some c /\ cr_credential_hash c = hash_token secret /\
    cr_revoked_at c = None /\ credential_unexpired now c = true /\
    agents db !! cr_agent_id c = Some (au_agent au) /\
    realms !! cr_realm_id c = Some (au_realm au) /\
    a_enabled (au_agent au) = true /\ a_archived_at (au_agent au) = None /\
    au_credential au = touch_credential now c /\
    db' = set_agent_credentials
            (alter (touch_credential now) (cr_id c) (agent_credentials db)) db.
Proof.
  unfold authenticate_agent. destruct (partition _ header) as [[scheme sep] raw] eqn:E1.
  destruct (partition _ raw) as [[ident sep'] secret] eqn:E2. intros H. minv.
  destruct (parse_uuid ident) as [id|] eqn:E3; [|by minv].
  unfold credential_with_relations in *.
  destruct (agent_credentials _ !! id) as [c|] eqn:E4; [|by minv].
  destruct (agents _ !! cr_agent_id c) as [ag|] eqn:E5; [|by minv].
  destruct (realms !! cr_realm_id c) as [r|] eqn:E6; [|by minv]. minv. simplify_eq.
  repeat match goal with
    | H : negb _ = false |- _ => apply negb_false_iff in H
    | H : _ || _ = false |- _ => apply orb_false_iff in H as [? ?]
    | H : is_none _ = true |- _ => apply is_none_true in H
    | H : String.eqb _ _ = true |- _ => apply String.eqb_eq in H
    end; destruct_andb.
  repeat match goal with
    | H : is_none _ = true |- _ => apply is_none_true in H
    | H : String.eqb _ _ = true |- _ => apply String.eqb_eq in H
    end; subst. exists scheme, raw, ident, secret, id, c. done.
Qed.

(** The credential handed out by an enrolment authenticates: the request header
    [Bearer <credential>] built from what [exchange_enrolment_token] returned is accepted
    at any instant, for the agent the token belongs to, provided the agent's realm is in
    the realm table. *)
Theorem enrolled_credential_authenticates db db' now secret cid raw ag cr out realm :
  (cid < 2 ^ 128)%N ->
  exchange_enrolment_token now secret cid raw db = (db', Ok (ag, cr, out)) ->
  realms !! a_realm_id ag = Some realm ->
  forall later, exists db'',
    authenticate_agent realms later ("Bearer " +:+ out) db' =
      (db'', Ok (mkAgentAuthentication realm ag (touch_credential later cr))).
Proof.
  intros Hcid Hex Hrealm later.
  apply exchange_inv in Hex as
    (k & tok & _ & _ & _ & _ & Hag & Hr & Hen & Har & Hcr & -> & _ & ->).
  eexists. unfold authenticate_agent.
  change ("Bearer " +:+ (str_uuid cid +:+ "." +:+ secret))
    with ("Bearer" +:+ String " " (str_uuid cid +:+ "." +:+ secret)).
  rewrite partition_app by done.
  change ("." +:+ secret) with (String "." secret).
  rewrite partition_app by apply str_uuid_no_dot.
  mrun. cbn [negb orb String.eqb lower str_map]. mrun. rewrite parse_str_uuid by done.
  unfold credential_with_relations. cbn [agent_credentials set_agent_enrolment_tokens
    set_agent_credentials agents]. rewrite lookup_insert_eq, Hcr. cbn [cr_agent_id cr_realm_id].
  rewrite Hag, <-Hr, Hrealm. mrun. cbn [cr_credential_hash cr_revoked_at is_none].
  rewrite String.eqb_refl, Hen, Har. done.
Qed.
(** What a refused authentication looks like. *)
Lemma authenticate_err db db' now header e :
  authenticate_agent realms now header db = (db', Err e) ->
  db' = db /\ exists code msg, e = AgentProtocolError 401 code msg false [].
Proof.
  unfold authenticate_agent. destruct (partition _ header) as [[scheme sep] raw].
  destruct (partition _ raw) as [[ident sep'] secret]. mrun.
  destruct (_ || _); [intros [= <- <-]; eauto|]. mrun.
  destruct (match parse_uuid ident with Some _ => _ | None => _ end) as [[[c a] r]|];
    mrun; [|intros [= <- <-]; eauto].
  destruct (negb _); [intros [= <- <-]; eauto|done].
Qed.

Definition credential_revoked (id : uuid) (db : MonDB) : Prop :=
  exists c, agent_credentials db !! id = Some c /\ cr_revoked_at c <> None.

Lemma revoked_map id f db :
  (forall c, cr_revoked_at c <> None -> cr_revoked_at (f c) <> None) ->
  credential_revoked id db ->
  credential_revoked id (set_agent_credentials (f <$> agent_credentials db) db).
Proof.
  intros Hf (c & Hc & Hr). exists (f c). simpl. rewrite lookup_fmap, Hc. auto.
Qed.

Lemma revoked_credentials id db db' :
  agent_credentials db' = agent_credentials db ->
  credential_revoked id db -> credential_revoked id db'.
Proof. unfold credential_revoked. by intros ->. Qed.

Lemma issue_credentials now raw id realm agent ttl db :
  agent_credentials (issue_enrolment_token settings now raw id realm agent ttl db).1 =
  agent_credentials db.
Proof.
  unfold issue_enrolment_token. rewrite bind_run. unfold in_transaction. mrun.
  destruct (is_none _); mrun; [done|]. unfold update_tokens, insert_token. mrun.
  by destruct (_ || _).
Qed.

Lemma revoked_step id db db' :
  credential_step db db' -> credential_revoked id db -> credential_revoked id db'.
Proof.
  intros Hstep Hrev. destruct Hstep as [now raw tid realm agent ttl db|now secret cid raw db
    |now header db|now realm agent tid db|now realm cid db].
  - eapply revoked_credentials; [apply issue_credentials|done].
  - destruct (exchange_enrolment_token now secret cid raw db) as [db' [r|e]] eqn:E; simpl.
    + destruct r as [[ag cr] out]. destruct Hrev as (c & Hc & Hr).
      apply exchange_inv in E as (k & tok & _ & _ & _ & _ & _ & _ & _ & _ & _ & _ & Hn & ->).
      exists c. simpl. rewrite lookup_insert_ne by congruence. done.
    + by apply exchange_err in E as ->.
  - destruct (authenticate_agent realms now header db) as [db' [au|e]] eqn:E; simpl.
    + apply authenticate_inv in E as (?&?&?&?&?&c&?&?&?&?&?&?&?&?&?&?&?&?&?&->).
      destruct Hrev as (c' & Hc & Hr). destruct (decide (id = cr_id c)) as [->|].
      * exists (touch_credential now c'). simpl. by rewrite lookup_alter_eq, Hc.
      * exists c'. simpl. by rewrite lookup_alter_ne.
    + apply authenticate_err in E as [-> _]. done.
  - by eapply revoked_credentials; [|eassumption].
  - apply revoked_map; [|done]. intros c. by destruct (_ && _).
Qed.

(** C25 Revocation is final: once [revoke_credential] has reported a revocation,
    whatever enrolment and credential operations run afterwards, no request header at all
    authenticates as that credential; a request that is refused gets a 401 protocol error
    and changes nothing. *)
Theorem revoked_credential_never_authenticates db db' db'' now realm id :
  tokens_ok db ->
  revoke_credential now realm id db = (db', Ok true) ->
  rtc credential_step db' db'' ->
  forall later header,
    match authenticate_agent realms later header db'' with
    | (_, Ok au) => cr_id (au_credential au) <> id
    | (db3, Err e) => db3 = db'' /\ exists code msg, e = AgentProtocolError 401 code msg false []
    end.
Proof.
  intros Hok Hrevoke Hsteps later header.
  assert (Hok' : tokens_ok db').
  { pose proof (revoke_credential_preserves now realm id db Hok) as H. by rewrite Hrevoke in H. }
  assert (Hrev : credential_revoked id db').
  { unfold revoke_credential in Hrevoke. minv.
    match goal with H : true = exists_row _ _ |- _ =>
      symmetry in H; apply exists_row_true in H as (k & c & Hk & Hp) end.
    assert (k = id) as ->.
    { destruct_andb. apply (credential_key _ Hok) in Hk. subst k. by apply N.eqb_eq. }
    exists (revoke_one_credential now c). simpl. rewrite lookup_fmap, Hk. simpl. by rewrite Hp. }
  assert (tokens_ok db'' /\ credential_revoked id db'') as [Hok2 (c & Hc & Hr)].
  { clear Hrevoke. induction Hsteps as [|x y z Hstep _ IH]; [done|].
    apply IH; [by eapply tokens_step|by eapply revoked_step]. }
  destruct (authenticate_agent realms later header db'') as [db3 [au|e]] eqn:E.
  - apply authenticate_inv in E as (?&?&?&?&j&c'&?&?&?&?&Hj&?&Hn&?&?&?&?&?&->&_).
    simpl. rewrite (credential_key _ Hok2 _ _ Hj). intros ->. by simplify_eq.
  - by apply authenticate_err in E.
Qed.
End Runs.

(** ** Witnesses *)

#[local] Existing Instance example_platform.

Definition example_realm : Realm := mkRealm 1 "Home" "home" true 0.
Definition example_agent : Agent := mkAgent 5 1 "probe-1" None true None.
Definition example_agents : MonDB := set_agents {[5%N := example_agent]} empty_db.

(** Two tokens issued one after the other, then the second exchanged. *)
Definition example_issued : MonDB :=
  (issue_enrolment_token default_settings 20 "second" 8 example_realm example_agent None
    (issue_enrolment_token default_settings 10 "first" 7 example_realm example_agent None
      example_agents).1).1.

Definition example_enrolled : MonDB := (exchange_enrolment_token 30 "s.ecret" 9 "second" example_issued).1.

Lemma example_agents_tokens_ok : tokens_ok example_agents.
Proof. by split. Qed.

Lemma example_issued_steps :
  rtc (credential_step default_settings ∅) example_agents example_issued.
Proof. eapply rtc_l; [apply step_issue|]. eapply rtc_l; [apply step_issue|]. apply rtc_refl. Qed.

Lemma one_pending_token_per_agent_witness :
  tokens_ok example_issued /\
  length (List.filter token_pending (rows (agent_enrolment_tokens example_issued))) = 1%nat /\
  length (rows (agent_enrolment_tokens example_issued)) = 2%nat.
Proof.
  split; [|split; by vm_compute].
  apply (one_pending_token_per_agent default_settings ∅ example_agents example_issued).
  - apply example_agents_tokens_ok.
  - apply example_issued_steps.
Defined.

Lemma example_issued_tokens_ok : tokens_ok example_issued.
Proof.
  assert (forall db, tokens_ok db -> rtc (credential_step default_settings ∅) db example_issued ->
    tokens_ok example_issued) as H.
  { intros db Hok Hs. induction Hs as [|x y z Hstep _ IH]; [done|].
    apply IH. by eapply tokens_step. }
  apply (H example_agents); [apply example_agents_tokens_ok|apply example_issued_steps].
Qed.

Lemma enrolment_token_single_use_witness :
  exchange_enrolment_token 40 "other" 11 "second" example_enrolled =
    (example_enrolled, Err (EnrolmentError "Enrolment token is invalid or expired")).
Proof.
  refine (enrolment_token_single_use default_settings ∅ example_issued example_enrolled
    example_enrolled 30 "s.ecret" 9 "second" _ example_issued_tokens_ok _ (rtc_refl _ _) _ _ _).
  vm_compute. reflexivity.
Defined.

Lemma enrolled_credential_authenticates_witness :
  exists db'',
    authenticate_agent {[1%N := example_realm]} 50
      ("Bearer " +:+ (str_uuid 9 +:+ ".s.ecret")) example_enrolled =
    (db'', Ok (mkAgentAuthentication example_realm example_agent (touch_credential 50
       (mkAgentCredential 9 1 5 ("Enrolled " +:+ str_uuid 9) (hash_token "s.ecret")
          None None None 30)))).
Proof.
  apply (enrolled_credential_authenticates {[1%N := example_realm]} example_issued
    example_enrolled 30 "s.ecret" 9 "second" example_agent).
  - reflexivity.
  - vm_compute. reflexivity.
  - reflexivity.
Defined.

Lemma revoked_credential_never_authenticates_witness :
  match authenticate_agent {[1%N := example_realm]} 70
    ("Bearer " +:+ (str_uuid 9 +:+ ".s.ecret"))
    (revoke_credential 60 example_realm 9 example_enrolled).1 with
  | (_, Ok au) => cr_id (au_credential au) <> 9%N
  | (db3, Err e) => db3 = (revoke_credential 60 example_realm 9 example_enrolled).1 /\
      exists code msg, e = AgentProtocolError 401 code msg false []
  end.
Proof.
  apply (revoked_credential_never_authenticates default_settings {[1%N := example_realm]}
    example_enrolled (revoke_credential 60 example_realm 9 example_enrolled).1 _
    60 example_realm 9).
  - apply (exchange_preserves 30 "s.ecret" 9 "second" example_issued example_issued_tokens_ok).
  - vm_compute. reflexivity.
  - apply rtc_refl.
Defined.
