(* ===== verification/Concurrency.v ===== *)
(** * Requests that interleave

    Between two awaits a request runs one statement on the shared store.  A program is the
    sequence of its statements; a pool runs several programs, one statement at a time, in any
    order.  Outside a transaction a statement takes effect at once.  Inside one
    ([in_transaction]) its writes are seen by later statements of the same transaction and
    take effect at the commit, and the rows it locks ([SELECT .. FOR UPDATE], UPDATE, INSERT)
    stay locked until then: a statement that needs a row another transaction has locked
    waits, and then works on what is committed at that time (READ COMMITTED, the default of
    the database). *)

From S2P Require Import Prelude.

Section Programs.
Context {S K R : Type}.

(** A statement: from the state it sees, the keys it locks, its write, and how the program
    goes on. *)
Inductive prog :=
| Ret (r : outcome R)
| Stmt (locks : S -> list K) (write : S -> S -> S) (next : S -> prog).

(** The statements of a program one after another. *)
Fixpoint run (p : prog) (s : S) : S * outcome R :=
  match p with
  | Ret r => (s, r)
  | Stmt _ write next => run (next s) (write s s)
  end.

(** A query, and one that locks the rows it finds. *)
Definition select_for_update {X} (locks : S -> list K) (f : S -> X) (k : X -> prog) : prog :=
  Stmt locks (fun _ x => x) (fun s => k (f s)).
Definition query {X} (f : S -> X) (k : X -> prog) : prog := select_for_update (fun _ => []) f k.

(** ** Threads and pools *)

Inductive thread :=
| Auto (p : prog)
| InTx (p : prog) (buffer : S -> S) (held : list K)
| Finished (r : outcome R).

Definition start (transaction : bool) (p : prog) : thread :=
  if transaction then InTx p id [] else Auto p.

Definition held (t : thread) : list K := match t with InTx _ _ h => h | _ => [] end.

(** The answer of a thread that has ended. *)
Definition answer (t : thread) : option (outcome R) :=
  match t with
  | Auto (Ret r) | Finished r => Some r
  | _ => None
  end.

Abbreviation pool := (gmap nat thread).

(** No other thread holds one of the keys. *)
Definition free (keys : list K) (i : nat) (ts : pool) : Prop :=
  forall j t, j <> i -> ts !! j = Some t -> forall k, k ∈ keys -> k ∉ held t.

Inductive step : S * pool -> S * pool -> Prop :=
| step_auto i s ts locks write next :
    ts !! i = Some (Auto (Stmt locks write next)) -> free (locks s) i ts ->
    step (s, ts) (write s s, <[i := Auto (next s)]> ts)
| step_stmt i s ts locks write next buffer h :
    ts !! i = Some (InTx (Stmt locks write next) buffer h) -> free (locks (buffer s)) i ts ->
    step (s, ts) (s, <[i := InTx (next (buffer s)) (fun x => write (buffer s) (buffer x))
                           (h ++ locks (buffer s))]> ts)
| step_commit i s ts a buffer h :
    ts !! i = Some (InTx (Ret (Ok a)) buffer h) ->
    step (s, ts) (buffer s, <[i := Finished (Ok a)]> ts)
| step_rollback i s ts e buffer h :
    ts !! i = Some (InTx (Ret (Err e)) buffer h) ->
    step (s, ts) (s, <[i := Finished (Err e)]> ts).

(** ** Locks are exclusive *)

Definition exclusive (ts : pool) : Prop := forall i j t t' k,
  ts !! i = Some t -> ts !! j = Some t' -> k ∈ held t -> k ∈ held t' -> i = j.

Lemma exclusive_insert ts i t :
  exclusive ts -> (forall j t', j <> i -> ts !! j = Some t' -> forall k, k ∈ held t -> k ∉ held t') ->
  exclusive (<[i := t]> ts).
Proof.
  intros He Hf a b ta tb k [[<- <-]|[Ha Hta]]%lookup_insert_Some
    [[<- <-]|[Hb Htb]]%lookup_insert_Some Hka Hkb; [done| | |eauto].
  - exfalso. eapply (Hf b); eauto.
  - exfalso. eapply (Hf a); eauto.
Qed.

Lemma step_exclusive c c' : step c c' -> exclusive c.2 -> exclusive c'.2.
Proof.
  intros Hs He. destruct Hs as [i s ts locks write next Hi Hf|i s ts locks write next b h Hi Hf
    |i s ts a b h Hi|i s ts e b h Hi]; simpl in *; apply exclusive_insert; try done.
  - intros j t _ _ k Hk. by apply elem_of_nil in Hk.
  - intros j t Hj Ht k [Hk|Hk]%elem_of_app; [|by eapply Hf].
    intros Hk'. apply Hj. symmetry. by eapply (He i j _ _ k).
  - intros j t _ _ k Hk. by apply elem_of_nil in Hk.
  - intros j t _ _ k Hk. by apply elem_of_nil in Hk.
Qed.

(** ** A thread alone *)

(** The state after a run, with the transaction around it. *)
Definition run_alone (transaction : bool) (p : prog) (s : S) : S * outcome R :=
  if transaction then in_transaction (run p) s else run p s.

(** The other threads hold no locks. *)
Definition unhindered (i : nat) (ts : pool) : Prop :=
  forall j t, j <> i -> ts !! j = Some t -> held t = [].

Lemma unhindered_free keys i ts : unhindered i ts -> free keys i ts.
Proof. intros Hu j t Hj Ht k _ Hk. rewrite (Hu j t Hj Ht) in Hk. by apply elem_of_nil in Hk. Qed.

Lemma unhindered_insert i t ts : unhindered i ts -> unhindered i (<[i := t]> ts).
Proof. intros Hu j t' Hj Ht. rewrite lookup_insert_ne in Ht by done. eauto. Qed.

Lemma run_stmts p s i ts buffer h :
  unhindered i ts -> ts !! i = Some (InTx p buffer h) ->
  exists buffer' h', rtc step (s, ts) (s, <[i := InTx (Ret (run p (buffer s)).2) buffer' h']> ts) /\
    buffer' s = (run p (buffer s)).1.
Proof.
  revert ts buffer h. induction p as [r|locks write next IH]; intros ts buffer h Hu Hi; simpl.
  - exists buffer, h. split; [|done]. rewrite insert_id by done. apply rtc_refl.
  - destruct (IH (buffer s) (<[i := InTx (next (buffer s)) (fun x => write (buffer s) (buffer x))
      (h ++ locks (buffer s))]> ts) _ _ (unhindered_insert _ _ _ Hu) (lookup_insert_eq _ _ _))
      as (b & h' & Hr & Hb).
    exists b, h'. split; [|done]. rewrite insert_insert_eq in Hr. eapply rtc_l; [|exact Hr].
    eapply step_stmt; [done|by apply unhindered_free].
Qed.

(** A thread that nobody hinders does what its program does in sequence. *)
Lemma runs_unhindered transaction p s i ts :
  unhindered i ts -> ts !! i = Some (start transaction p) ->
  exists t, rtc step (s, ts) ((run_alone transaction p s).1, <[i := t]> ts) /\
    answer t = Some (run_alone transaction p s).2 /\ held t = [].
Proof.
  intros Hu. destruct transaction; unfold start, run_alone.
  - intros Hi. destruct (run_stmts p s i ts id [] Hu Hi) as (b & h & Hr & Hb). unfold in_transaction.
    destruct (run p (id s)) as [s' [a|e]] eqn:E; unfold id in E; rewrite E; simpl in *.
    + exists (Finished (Ok a)). split; [|done]. eapply rtc_r; [exact Hr|]. rewrite <- Hb.
      rewrite <- (insert_insert_eq ts i (Finished (Ok a)) (InTx (Ret (Ok a)) b h)).
      eapply step_commit. apply lookup_insert_eq.
    + exists (Finished (Err e)). split; [|done]. eapply rtc_r; [exact Hr|].
      rewrite <- (insert_insert_eq ts i (Finished (Err e)) (InTx (Ret (Err e)) b h)).
      eapply step_rollback. apply lookup_insert_eq.
  - revert s ts Hu. induction p as [r|locks write next IH]; intros s ts Hu Hi; simpl.
    + exists (Auto (Ret r)). split; [|done]. rewrite insert_id by done. apply rtc_refl.
    + destruct (IH s (write s s) (<[i := Auto (next s)]> ts) (unhindered_insert _ _ _ Hu)
        (lookup_insert_eq _ _ _)) as (t & Hr & Ha & Hh). exists t. split; [|done].
      rewrite insert_insert_eq in Hr. eapply rtc_l; [|exact Hr].
      eapply step_auto; [done|by apply unhindered_free].
Qed.

(** In particular alone in the pool. *)
Lemma alone_runs transaction p s i :
  exists t, rtc step (s, {[i := start transaction p]}) ((run_alone transaction p s).1, {[i := t]}) /\
    answer t = Some (run_alone transaction p s).2.
Proof.
  destruct (runs_unhindered transaction p s i {[i := start transaction p]}) as (t & Hr & Ha & _).
  - intros j t Hj Ht. apply lookup_singleton_Some in Ht as [-> _]. done.
  - apply lookup_singleton_eq.
  - exists t. by rewrite insert_singleton_eq in Hr.
Qed.

(** One thread reads, another runs from start to end, and the first goes on with what it
    read. *)
Lemma overtaken {X} (f : S -> X) (k : X -> prog) q s :
  exists ts1 ts, rtc step (s, {[0%nat := Auto (query f k); 1%nat := Auto q]}) ((run q s).1, ts1) /\
    rtc step ((run q s).1, ts1) ((run (k (f s)) (run q s).1).1, ts) /\
    answer <$> ts !! 0%nat = Some (Some (run (k (f s)) (run q s).1).2) /\
    answer <$> ts !! 1%nat = Some (Some (run q s).2).
Proof.
  set (ts1 := {[0%nat := Auto (k (f s)); 1%nat := Auto q]} : gmap nat thread).
  destruct (runs_unhindered false q s 1 ts1) as (t1 & Hr1 & Ha1 & Hh1); [|done|].
  { intros j t _ Ht. unfold ts1 in Ht. apply lookup_insert_Some in Ht as [[_ <-]|[_ Ht]]; [done|].
    by apply lookup_singleton_Some in Ht as [_ <-]. }
  destruct (runs_unhindered false (k (f s)) (run q s).1 0 (<[1%nat := t1]> ts1)) as (t0 & Hr0 & Ha0 & Hh0).
  { intros j t Hj [[<- <-]|[_ Ht]]%lookup_insert_Some; [done|].
    unfold ts1 in Ht. apply lookup_insert_Some in Ht as [[<- _]|[_ Ht]]; [done|].
    by apply lookup_singleton_Some in Ht as [_ <-]. }
  { done. }
  exists (<[1%nat := t1]> ts1), (<[0%nat := t0]> (<[1%nat := t1]> ts1)). split_and!.
  - eapply rtc_l; [|exact Hr1].
    replace ts1 with (<[0%nat := Auto (k (f s))]>
      ({[0%nat := Auto (query f k); 1%nat := Auto q]} : gmap nat thread)) by apply insert_insert_eq.
    apply (step_auto 0 s _ (fun _ => []) (fun _ x => x) (fun s => k (f s))); [done|].
    intros j t _ _ key Hk. by apply elem_of_nil in Hk.
  - exact Hr0.
  - rewrite lookup_insert_eq. simpl. by rewrite Ha0.
  - rewrite lookup_insert_ne, lookup_insert_eq by done. simpl. by rewrite Ha1.
Qed.

Corollary overtaken_run {X} (f : S -> X) (k : X -> prog) q s :
  exists ts, rtc step (s, {[0%nat := Auto (query f k); 1%nat := Auto q]})
               ((run (k (f s)) (run q s).1).1, ts) /\
    answer <$> ts !! 0%nat = Some (Some (run (k (f s)) (run q s).1).2) /\
    answer <$> ts !! 1%nat = Some (Some (run q s).2).
Proof.
  destruct (overtaken f k q s) as (ts1 & ts & H1 & H2 & A). exists ts. split; [by etrans|exact A].
Qed.
End Programs.

(** ** Programs as a monad

    Programs compose as the code they stand for, and running them one statement after
    another turns the composition into that of [M]. *)
Section Monad.
Context {S K : Type}.

#[export] Instance prog_ret : MRet (@prog S K) := fun R r => Ret (Ok r).
#[export] Instance prog_bind : MBind (@prog S K) := fun R R' k =>
  fix go p := match p with
  | Ret (Ok r) => k r
  | Ret (Err e) => Ret (Err e)
  | Stmt locks write next => Stmt locks write (fun s => go (next s))
  end.

(** [try: p except <class> as exc: raise h(exc)]. *)
Fixpoint prog_catch {R} (p : prog (S := S) (K := K) (R := R)) (c : exn -> bool) (h : exn -> exn) :
    prog (S := S) (K := K) (R := R) :=
  match p with
  | Ret (Err e) => Ret (Err (if c e then h e else e))
  | Ret r => Ret r
  | Stmt locks write next => Stmt locks write (fun s => prog_catch (next s) c h)
  end.

(** [for x in l: body(x)]. *)
Fixpoint prog_for_each {A} (l : list A) (body : A -> prog (S := S) (K := K) (R := unit)) :
    prog (S := S) (K := K) (R := unit) :=
  match l with
  | [] => mret tt
  | x :: l' => body x ≫= fun _ => prog_for_each l' body
  end.

(** A query, and an operation that runs as one statement outside a transaction. *)
Definition read {X} (f : S -> X) : prog (S := S) (K := K) (R := X) := query f mret.
Definition at_once {R} (m : M S R) : prog (S := S) (K := K) (R := R) :=
  Stmt (fun _ => []) (fun s _ => (m s).1) (fun s => Ret (m s).2).

Lemma run_bind {R R'} (p : prog (S := S) (K := K) (R := R)) (k : R -> prog (R := R')) s :
  run (p ≫= k) s = mbind (M := M S) (fun r => run (k r)) (run p) s.
Proof.
  rewrite bind_run. revert s. induction p as [[r|e]|locks write next IH]; intros s; [done|done|].
  exact (IH s (write s s)).
Qed.

Lemma run_catch {R} (p : prog (S := S) (K := K) (R := R)) c h s :
  run (prog_catch p c h) s = catch (run p) c h s.
Proof.
  unfold catch. revert s. induction p as [[r|e]|locks write next IH]; intros s; [done|done|].
  exact (IH s (write s s)).
Qed.

Lemma run_catch_Ok {R} (p : prog (S := S) (K := K) (R := R)) c h s s' r :
  run (prog_catch p c h) s = (s', Ok r) <-> run p s = (s', Ok r).
Proof. rewrite run_catch. unfold catch. by destruct (run p s) as [s1 [a|e]]. Qed.

Lemma run_for_each {A} (l : list A) (body : A -> prog (R := unit)) s :
  run (prog_for_each l body) s = for_each l (fun x => run (body x)) s.
Proof.
  revert s. induction l as [|x l IH]; intros s; [done|]. simpl. rewrite run_bind, !bind_run.
  destruct (run (body x) s) as [s' [[]|e]]; [apply IH|done].
Qed.

Lemma run_at_once {R} (m : M S R) s : run (at_once m) s = m s.
Proof. simpl. by destruct (m s). Qed.
End Monad.
