(* ===== verification/EnrolmentRaces.v ===== *)
(** * Concurrent enrolment (agents/credentials.py)

    The operations on enrolment tokens as programs of statements, with the rows they lock.
    Run alone they are the operations of [Credentials]; run together, in any interleaving, the
    locks keep a token from being exchanged twice and an agent from having two pending
    tokens. *)

From Stdlib Require Import Ascii.
From S2P Require Import Prelude PyText Json Platform Models ProbeConfig Domain Credentials.
From S2P Require Import CredentialsProps Concurrency.
Local Open Scope Z_scope.

(** Rows, and values that are being inserted under a uniqueness constraint. *)
Inductive lock :=
| AgentRow (a : uuid)
| TokenRow (t : uuid)
| TokenHash (h : string)
| CredentialRow (c : uuid).

Inductive reply :=
| Issued (token : AgentEnrolmentToken) (raw : string)
| Exchanged (agent : Agent) (credential : AgentCredential) (text : string)
| Revoked (matched : bool).

Abbreviation mprog := (prog (S := MonDB) (K := lock) (R := reply)).
Abbreviation mthread := (thread (S := MonDB) (K := lock) (R := reply)).

(** The rows an UPDATE finds, and its effect on them. *)
Definition matching (p : AgentEnrolmentToken -> bool) (db : MonDB) : list uuid :=
  (map_to_list (filter (fun kt => p kt.2 = true) (agent_enrolment_tokens db))).*1.
Definition update_rows (ids : list uuid) (f : AgentEnrolmentToken -> AgentEnrolmentToken)
    (db : MonDB) : MonDB :=
  set_agent_enrolment_tokens
    (map_imap (fun k t => Some (if bool_decide (k ∈ ids) then f t else t)) (agent_enrolment_tokens db)) db.

Definition update_stmt (p : AgentEnrolmentToken -> bool)
    (f : AgentEnrolmentToken -> AgentEnrolmentToken) (k : bool -> mprog) : mprog :=
  Stmt (fun db => map TokenRow (matching p db)) (fun db => update_rows (matching p db) f)
    (fun db => k (exists_row p (agent_enrolment_tokens db))).

Definition invalid_token : exn := EnrolmentError "Enrolment token is invalid or expired".

Section Programs.
Context {P : Platform} (settings : Settings).

Definition token_taken (t : AgentEnrolmentToken) (db : MonDB) : bool :=
  negb (is_none (agent_enrolment_tokens db !! tok_id t)) ||
  exists_row (fun t' => String.eqb (tok_token_hash t') (tok_token_hash t)) (agent_enrolment_tokens db).

Definition insert_token_stmt (t : AgentEnrolmentToken) (k : mprog) : mprog :=
  Stmt (fun _ => [TokenRow (tok_id t); TokenHash (tok_token_hash t)])
    (fun db x => if token_taken t db then x
                 else set_agent_enrolment_tokens (<[tok_id t := t]> (agent_enrolment_tokens x)) x)
    (fun db => if token_taken t db then Ret (Err IntegrityError) else k).

Definition credential_taken (c : AgentCredential) (db : MonDB) : bool :=
  negb (is_none (agent_credentials db !! cr_id c)) ||
  exists_row (fun c' => (cr_realm_id c' =? cr_realm_id c)%N &&
      (cr_agent_id c' =? cr_agent_id c)%N && String.eqb (cr_name c') (cr_name c)) (agent_credentials db).

Definition insert_credential_stmt (c : AgentCredential) (k : mprog) : mprog :=
  Stmt (fun _ => [CredentialRow (cr_id c)])
    (fun db x => if credential_taken c db then x
                 else set_agent_credentials (<[cr_id c := c]> (agent_credentials x)) x)
    (fun db => if credential_taken c db then Ret (Err IntegrityError) else k).

(** ** [issue_enrolment_token] *)

Definition new_token (now : Z) (raw : string) (id : uuid) (realm : Realm) (agent : Agent)
    (ttl : option Z) : AgentEnrolmentToken :=
  let ttl' := match ttl with
              | Some d => if d =? 0 then minutes (agent_enrolment_ttl_minutes settings) else d
              | None => minutes (agent_enrolment_ttl_minutes settings)
              end in
  mkAgentEnrolmentToken id (realm_id realm) (a_id agent) (hash_token raw) (now + ttl') None None.

Definition replaced (realm : Realm) (agent : Agent) (t : AgentEnrolmentToken) : bool :=
  (tok_realm_id t =? realm_id realm)%N && (tok_agent_id t =? a_id agent)%N && token_pending t.

Definition issue_prog (now : Z) (raw : string) (id : uuid) (realm : Realm) (agent : Agent)
    (ttl : option Z) : mprog :=
  let found db := get_row (agent_in_realm (realm_id realm)) (a_id agent) (agents db) in
  select_for_update (fun db => if is_none (found db) then [] else [AgentRow (a_id agent)]) found
    (fun row => if is_none row then Ret (Err DoesNotExist) else
    update_stmt (replaced realm agent) (revoke_token now) (fun _ =>
    let token := new_token now raw id realm agent ttl in
    insert_token_stmt token (Ret (Ok (Issued token raw))))).

(** ** [exchange_enrolment_token] *)

Definition with_hash (raw : string) (t : AgentEnrolmentToken) : bool :=
  String.eqb (tok_token_hash t) (hash_token raw).

Definition unusable (now : Z) (t : AgentEnrolmentToken) : bool :=
  negb (is_none (tok_consumed_at t)) || negb (is_none (tok_revoked_at t)) || (tok_expires_at t <=? now).

Definition new_credential (now : Z) (secret : string) (id : uuid) (t : AgentEnrolmentToken) :
    AgentCredential :=
  mkAgentCredential id (tok_realm_id t) (tok_agent_id t) ("Enrolled " +:+ str_uuid id)
    (hash_token secret) None None None now.

(** [token.save(update_fields=["consumed_at"])]. *)
Definition save_consumed_stmt (now : Z) (t : AgentEnrolmentToken) (k : mprog) : mprog :=
  Stmt (fun _ => [TokenRow (tok_id t)])
    (fun _ x => set_agent_enrolment_tokens
      (alter (consume_token now) (tok_id t) (agent_enrolment_tokens x)) x) (fun _ => k).

(** The rest of the transaction once the token is locked, and once the agent is read. *)
Definition exchange_with (now : Z) (secret : string) (id : uuid) (token : AgentEnrolmentToken)
    (agent : Agent) : mprog :=
  let credential := new_credential now secret id token in
  insert_credential_stmt credential (save_consumed_stmt now token
    (Ret (Ok (Exchanged agent credential (str_uuid (cr_id credential) +:+ "." +:+ secret))))).

Definition exchange_locked (now : Z) (secret : string) (id : uuid) (token : AgentEnrolmentToken) :
    mprog :=
  query (fun db => get_row (agent_in_realm (tok_realm_id token)) (tok_agent_id token) (agents db))
    (fun loaded => match loaded with
     | None => Ret (Err invalid_token)
     | Some agent =>
         if negb (a_enabled agent) || negb (is_none (a_archived_at agent))
         then Ret (Err invalid_token)
         else exchange_with now secret id token agent
     end).

Definition exchange_prog (now : Z) (secret : string) (id : uuid) (raw : string) : mprog :=
  let found db := first_row (with_hash raw) (agent_enrolment_tokens db) in
  select_for_update (fun db => match found db with Some t => [TokenRow (tok_id t)] | None => [] end)
    found
    (fun row => match row with
     | None => Ret (Err invalid_token)
     | Some token =>
         if unusable now token then Ret (Err invalid_token) else exchange_locked now secret id token
     end).

(** ** [revoke_enrolment_token], outside a transaction *)

Definition revoked_by (realm : Realm) (agent : Agent) (id : uuid) (t : AgentEnrolmentToken) : bool :=
  (tok_id t =? id)%N && (tok_realm_id t =? realm_id realm)%N && (tok_agent_id t =? a_id agent)%N &&
  token_pending t.

Definition revoke_prog (now : Z) (realm : Realm) (agent : Agent) (id : uuid) : mprog :=
  update_stmt (revoked_by realm agent id) (revoke_token now) (fun b => Ret (Ok (Revoked b))).

(** ** Alone they are the operations *)

Lemma update_rows_fmap p f db :
  update_rows (matching p db) f db =
  set_agent_enrolment_tokens ((fun t => if p t then f t else t) <$> agent_enrolment_tokens db) db.
Proof.
  unfold update_rows. f_equal. apply map_eq. intros k.
  rewrite map_lookup_imap, lookup_fmap. destruct (_ !! k) as [t|] eqn:E; [|done]. simpl. f_equal.
  unfold matching. destruct (p t) eqn:Hp.
  - rewrite bool_decide_eq_true_2; [done|]. apply list_elem_of_fmap. exists (k, t).
    split; [done|]. apply elem_of_map_to_list, map_lookup_filter_Some. done.
  - rewrite bool_decide_eq_false_2; [done|]. intros ([k' t'] & -> & Hin)%list_elem_of_fmap.
    apply elem_of_map_to_list, map_lookup_filter_Some in Hin as [Hin Hp']. simpl in *. congruence.
Qed.

(** The reply of a program for the result of an operation. *)
Definition as_reply {A} (f : A -> reply) (r : MonDB * outcome A) : MonDB * outcome reply :=
  match r with (db, Ok a) => (db, Ok (f a)) | (db, Err e) => (db, Err e) end.

Lemma issue_alone now raw id realm agent ttl db :
  run_alone true (issue_prog now raw id realm agent ttl) db =
  as_reply (fun tr => Issued tr.1 tr.2) (issue_enrolment_token settings now raw id realm agent ttl db).
Proof.
  unfold run_alone, in_transaction, issue_prog, issue_enrolment_token, as_reply.
  cbn [run select_for_update update_stmt insert_token_stmt]. mrun. unfold in_transaction. mrun.
  destruct (get_row _ _ _) as [row|]; [|done]. mrun. cbn [is_none run update_stmt].
  rewrite update_rows_fmap. unfold update_tokens, insert_token. mrun.
  cbn [insert_token_stmt run]. fold (replaced realm agent).
  set (db1 := set_agent_enrolment_tokens _ db). fold (new_token now raw id realm agent ttl).
  unfold token_taken. destruct (_ || _); mrun; done.
Qed.

Lemma exchange_alone now secret id raw db :
  run_alone true (exchange_prog now secret id raw) db =
  as_reply (fun acs => Exchanged acs.1.1 acs.1.2 acs.2) (exchange_enrolment_token now secret id raw db).
Proof.
  unfold run_alone, in_transaction, exchange_prog, exchange_enrolment_token, as_reply.
  mrun. unfold in_transaction. cbn [run select_for_update]. mrun.
  fold (with_hash raw). destruct (first_row _ _) as [token|]; [|done]. mrun.
  fold (unusable now token). destruct (unusable now token); mrun; [done|].
  unfold exchange_locked, query. cbn [run select_for_update].
  destruct (get_row _ _ _) as [agent|]; [|done]. mrun.
  destruct (negb (a_enabled agent) || _); mrun; [done|].
  unfold exchange_with, insert_credential, credential_taken, save_consumed_stmt. mrun.
  cbn [run insert_credential_stmt]. unfold credential_taken, new_credential. cbn [cr_id cr_realm_id cr_agent_id cr_name].
  destruct (_ || _); mrun; done.
Qed.

Lemma revoke_alone now realm agent id db :
  run_alone false (revoke_prog now realm agent id) db =
  as_reply Revoked (revoke_enrolment_token now realm agent id db).
Proof.
  unfold run_alone, revoke_prog, revoke_enrolment_token, as_reply. cbn [run update_stmt]. mrun.
  unfold update_tokens. mrun. by rewrite update_rows_fmap.
Qed.
End Programs.

(** ** Requests in a pool *)

Inductive request :=
| Issue (now : Z) (raw : string) (id : uuid) (realm : Realm) (agent : Agent) (ttl : option Z)
| Exchange (now : Z) (secret : string) (id : uuid) (raw : string)
| Revoke (now : Z) (realm : Realm) (agent : Agent) (id : uuid).

Section Races.
Context {P : Platform} (settings : Settings).

Definition thread_of (r : request) : mthread :=
  match r with
  | Issue now raw id realm agent ttl => start true (issue_prog settings now raw id realm agent ttl)
  | Exchange now secret id raw => start true (exchange_prog now secret id raw)
  | Revoke now realm agent id => start false (revoke_prog now realm agent id)
  end.

Abbreviation tokens := agent_enrolment_tokens.

(** What the token table keeps at every commit. *)
Record tokens_sound (db : MonDB) : Prop := {
  ts_key : forall k t, tokens db !! k = Some t -> tok_id t = k;
  ts_hash : forall k1 k2 t1 t2, tokens db !! k1 = Some t1 -> tokens db !! k2 = Some t2 ->
    tok_token_hash t1 = tok_token_hash t2 -> k1 = k2;
  ts_pending : forall k1 k2 t1 t2, tokens db !! k1 = Some t1 -> tokens db !! k2 = Some t2 ->
    token_pending t1 = true -> token_pending t2 = true ->
    tok_realm_id t1 = tok_realm_id t2 -> tok_agent_id t1 = tok_agent_id t2 -> k1 = k2;
}.

(** What a commit under the locks [held] can do to the table: rows change only under their
    lock, keep their hash and owner, do not become pending again and stay consumed; a row is
    inserted only under the locks of its hash and of its agent. *)
Record change (held : list lock) (db db' : MonDB) : Prop := {
  cg_frame : forall k, TokenRow k ∉ held -> tokens db' !! k = tokens db !! k;
  cg_keep : forall k t, tokens db !! k = Some t -> exists t', tokens db' !! k = Some t' /\
    tok_token_hash t' = tok_token_hash t /\ tok_realm_id t' = tok_realm_id t /\
    tok_agent_id t' = tok_agent_id t /\ (token_pending t' = true -> token_pending t = true) /\
    (tok_consumed_at t <> None -> tok_consumed_at t' <> None);
  cg_new : forall k t, tokens db' !! k = Some t -> tokens db !! k = None ->
    TokenHash (tok_token_hash t) ∈ held /\ AgentRow (tok_agent_id t) ∈ held;
}.

Lemma change_refl held db : change held db db.
Proof.
  split; [done| |congruence]. intros k t Ht. exists t. done.
Qed.

(** The points of an exchange once the token is locked: what is left to do, and what the
    writes so far do to the table. *)
Inductive exchanging (now : Z) (secret : string) (id : uuid) (token : AgentEnrolmentToken)
    (buffer : MonDB -> MonDB) : mprog -> Prop :=
| ex_locked : (forall x, tokens (buffer x) = tokens x) ->
    exchanging now secret id token buffer (exchange_locked now secret id token)
| ex_loaded agent : (forall x, tokens (buffer x) = tokens x) ->
    exchanging now secret id token buffer (exchange_with now secret id token agent)
| ex_inserted a : (forall x, tokens (buffer x) = tokens x) ->
    exchanging now secret id token buffer (save_consumed_stmt now token (Ret (Ok a)))
| ex_consumed a : (forall x, tokens (buffer x) = alter (consume_token now) (tok_id token) (tokens x)) ->
    exchanging now secret id token buffer (Ret (Ok a)).

(** The effect of the UPDATE of an issue on the table. *)
Definition retired (now : Z) (ids : list uuid) (x : MonDB) : gmap uuid AgentEnrolmentToken :=
  tokens (update_rows ids (revoke_token now) x).

(** How far a thread has come, what it holds, and what it relies on of the committed table. *)
Inductive at_point (db : MonDB) : request -> mthread -> Prop :=
| at_start r : at_point db r (thread_of r)
| at_issue_locked now raw id realm agent ttl buffer h :
    AgentRow (a_id agent) ∈ h -> (forall x, tokens (buffer x) = tokens x) ->
    at_point db (Issue now raw id realm agent ttl)
      (InTx (update_stmt (replaced realm agent) (revoke_token now) (fun _ =>
         let token := new_token settings now raw id realm agent ttl in
         insert_token_stmt token (Ret (Ok (Issued token raw))))) buffer h)
| at_issue_updated now raw id realm agent ttl buffer h ids :
    AgentRow (a_id agent) ∈ h -> (forall k, k ∈ ids -> TokenRow k ∈ h) ->
    (forall k t, tokens db !! k = Some t -> replaced realm agent t = true -> k ∈ ids) ->
    (forall x, tokens (buffer x) = retired now ids x) ->
    at_point db (Issue now raw id realm agent ttl)
      (InTx (insert_token_stmt (new_token settings now raw id realm agent ttl)
         (Ret (Ok (Issued (new_token settings now raw id realm agent ttl) raw)))) buffer h)
| at_issue_inserted now raw id realm agent ttl buffer h ids a :
    AgentRow (a_id agent) ∈ h -> (forall k, k ∈ ids -> TokenRow k ∈ h) ->
    (forall k t, tokens db !! k = Some t -> replaced realm agent t = true -> k ∈ ids) ->
    TokenRow id ∈ h -> TokenHash (hash_token raw) ∈ h -> tokens db !! id = None ->
    (forall k t, tokens db !! k = Some t -> tok_token_hash t <> hash_token raw) ->
    (forall x, tokens (buffer x) =
       <[id := new_token settings now raw id realm agent ttl]> (retired now ids x)) ->
    at_point db (Issue now raw id realm agent ttl) (InTx (Ret (Ok a)) buffer h)
| at_exchange now secret id raw p buffer h token :
    TokenRow (tok_id token) ∈ h -> tokens db !! tok_id token = Some token ->
    tok_token_hash token = hash_token raw -> tok_consumed_at token = None ->
    exchanging now secret id token buffer p ->
    at_point db (Exchange now secret id raw) (InTx p buffer h)
| at_exchanged now secret id raw k t a :
    tokens db !! k = Some t -> tok_token_hash t = hash_token raw -> tok_consumed_at t <> None ->
    at_point db (Exchange now secret id raw) (Finished (Ok a))
| at_issued now raw id realm agent ttl a : at_point db (Issue now raw id realm agent ttl) (Finished (Ok a))
| at_failed r e buffer h : at_point db r (InTx (Ret (Err e)) buffer h)
| at_refused r e : at_point db r (Finished (Err e))
| at_revoked now realm agent id o : at_point db (Revoke now realm agent id) (Auto (Ret o)).

(** ** Commits *)

Lemma lookup_retired now ids x k :
  retired now ids x !! k = (fun t => if bool_decide (k ∈ ids) then revoke_token now t else t) <$> tokens x !! k.
Proof. unfold retired, update_rows. simpl. rewrite map_lookup_imap. by destruct (tokens x !! k). Qed.

Lemma elem_of_matching_rows p db k : k ∈ matching p db <-> exists t, tokens db !! k = Some t /\ p t = true.
Proof.
  unfold matching. rewrite list_elem_of_fmap. split.
  - intros ([k' t] & -> & Hin%elem_of_map_to_list). apply map_lookup_filter_Some in Hin. eauto.
  - intros (t & Ht & Hp). exists (k, t). split; [done|].
    by apply elem_of_map_to_list, map_lookup_filter_Some.
Qed.

(** An update of rows that only retires them. *)
Record retires (db db' : MonDB) : Prop := {
  rt_back : forall k t', tokens db' !! k = Some t' -> exists t, tokens db !! k = Some t /\
    tok_id t' = tok_id t /\ tok_token_hash t' = tok_token_hash t /\ tok_realm_id t' = tok_realm_id t /\
    tok_agent_id t' = tok_agent_id t /\ (token_pending t' = true -> token_pending t = true);
}.

Lemma retires_sound db db' : retires db db' -> tokens_sound db -> tokens_sound db'.
Proof.
  intros [Hb] [Hk Hh Hp]. split.
  - intros k t (t0 & H0 & -> & _)%Hb. eauto.
  - intros k1 k2 t1 t2 (x & Hx & _ & -> & _)%Hb (y & Hy & _ & -> & _)%Hb. eauto.
  - intros k1 k2 t1 t2 (x & Hx & _ & _ & -> & -> & Px)%Hb (y & Hy & _ & _ & -> & -> & Py)%Hb. eauto.
Qed.

Lemma revoke_not_pending now t : token_pending (revoke_token now t) = true -> token_pending t = true.
Proof. unfold token_pending. simpl. by rewrite andb_false_r. Qed.

Lemma update_commit now ids h db db' :
  tokens db' = retired now ids db -> (forall k, k ∈ ids -> TokenRow k ∈ h) ->
  retires db db' /\ change h db db'.
Proof.
  intros E Hids. assert (Hl : forall k, tokens db' !! k = (fun t => if bool_decide (k ∈ ids)
    then revoke_token now t else t) <$> tokens db !! k) by (intros; by rewrite E, lookup_retired).
  split; split.
  - intros k t'. rewrite Hl. intros (t & -> & ->)%fmap_Some. exists t.
    destruct (bool_decide _); split_and!; eauto using revoke_not_pending.
  - intros k Hk. rewrite Hl, bool_decide_eq_false_2 by (intros Hi; by apply Hk, Hids).
    by destruct (tokens db !! k).
  - intros k t Ht. rewrite Hl, Ht. eexists. split; [done|].
    destruct (bool_decide _); split_and!; eauto using revoke_not_pending.
  - intros k t. rewrite Hl. intros (t0 & -> & _)%fmap_Some. done.
Qed.

Lemma consume_commit now token h db db' :
  tokens db' = alter (consume_token now) (tok_id token) (tokens db) -> TokenRow (tok_id token) ∈ h ->
  retires db db' /\ change h db db'.
Proof.
  intros E Hh.
  assert (Hl : forall k, tokens db' !! k = (fun t => if decide (k = tok_id token)
    then consume_token now t else t) <$> tokens db !! k).
  { intros k. rewrite E. destruct (decide (k = tok_id token)) as [->|Hne].
    - by rewrite lookup_alter_eq.
    - rewrite lookup_alter_ne by done. by destruct (tokens db !! k). }
  split; split.
  - intros k t'. rewrite Hl. intros (t & -> & ->)%fmap_Some. exists t.
    case_decide; split_and!; done.
  - intros k Hk. rewrite Hl. case_decide; [by subst|]. by destruct (tokens db !! k).
  - intros k t Ht. rewrite Hl, Ht. eexists. split; [done|]. case_decide; split_and!; done.
  - intros k t. rewrite Hl. intros (t0 & -> & _)%fmap_Some. done.
Qed.

Lemma issue_commit now raw id realm agent ttl ids h db db' :
  AgentRow (a_id agent) ∈ h -> (forall k, k ∈ ids -> TokenRow k ∈ h) ->
  (forall k t, tokens db !! k = Some t -> replaced realm agent t = true -> k ∈ ids) ->
  TokenRow id ∈ h -> TokenHash (hash_token raw) ∈ h -> tokens db !! id = None ->
  (forall k t, tokens db !! k = Some t -> tok_token_hash t <> hash_token raw) ->
  tokens db' = <[id := new_token settings now raw id realm agent ttl]> (retired now ids db) ->
  tokens_sound db -> tokens_sound db' /\ change h db db'.
Proof.
  intros Ha Hids Hrep Hid Hh Hnone Hfresh E Hs.
  set (mid := update_rows ids (revoke_token now) db).
  destruct (update_commit now ids h db mid eq_refl Hids) as [Hret Hch].
  pose proof (retires_sound _ _ Hret Hs) as [Mk Mh Mp].
  set (new := new_token settings now raw id realm agent ttl) in *.
  assert (Hl : forall k, tokens db' !! k = if decide (k = id) then Some new else tokens mid !! k).
  { intros k. rewrite E. case_decide as Hk; [subst; apply lookup_insert_eq|by rewrite lookup_insert_ne]. }
  assert (Hback : forall k t, tokens mid !! k = Some t -> exists t0, tokens db !! k = Some t0 /\
    tok_token_hash t = tok_token_hash t0).
  { intros k t (t0 & H0 & _ & Eh & _)%(rt_back _ _ Hret). eauto. }
  assert (Hnp : forall k t, tokens mid !! k = Some t -> token_pending t = true ->
    tok_realm_id t = realm_id realm -> tok_agent_id t = a_id agent -> False).
  { intros k t Ht Hp Er Ea. unfold mid in Ht. change (tokens _) with (retired now ids db) in Ht.
    rewrite lookup_retired in Ht. apply fmap_Some in Ht as (t0 & H0 & ->).
    destruct (bool_decide (k ∈ ids)) eqn:Eb.
    - unfold token_pending in Hp. simpl in Hp. by rewrite andb_false_r in Hp.
    - apply bool_decide_eq_false in Eb. apply Eb, (Hrep k t0 H0). unfold replaced.
      split_andb; [by apply N.eqb_eq..|done]. }
  split; [split|split].
  - intros k t. rewrite Hl. case_decide; [|apply Mk]. intros [= <-]. by subst.
  - intros k1 k2 t1 t2. rewrite !Hl. repeat case_decide; try (by subst); [| |apply Mh].
    + intros [= <-] (t0 & Et & Eh)%Hback Eq. exfalso. apply (Hfresh _ _ Et). by rewrite <- Eh, <- Eq.
    + intros (t0 & Et & Eh)%Hback [= <-] Eq. exfalso. apply (Hfresh _ _ Et). by rewrite <- Eh, Eq.
  - intros k1 k2 t1 t2. rewrite !Hl. repeat case_decide; try (by subst); [| |apply Mp].
    + intros [= <-] H2 _ P2 Er Ea. exfalso. by eapply (Hnp k2 t2).
    + intros H1 [= <-] P1 _ Er Ea. exfalso. by eapply (Hnp k1 t1).
  - intros k Hk. rewrite Hl. case_decide; [by subst|]. by apply (cg_frame _ _ _ Hch).
  - intros k t Ht. destruct (cg_keep _ _ _ Hch _ _ Ht) as (t' & Ht' & Hrest). exists t'.
    rewrite Hl. case_decide; [congruence|]. done.
  - intros k t. rewrite Hl. case_decide; [intros [= <-] _; by split|]. apply (cg_new _ _ _ Hch).
Qed.

(** What a thread relies on is not changed under the locks of others. *)
Lemma at_point_stable L db db' r t :
  at_point db r t -> change L db db' -> (forall k, k ∈ held t -> k ∉ L) -> at_point db' r t.
Proof.
  intros Hp Hc Hd.
  assert (Hrep : forall realm agent (ids : list uuid) h, held t = h -> AgentRow (a_id agent) ∈ h ->
    (forall k x, tokens db !! k = Some x -> replaced realm agent x = true -> k ∈ ids) ->
    forall k x, tokens db' !! k = Some x -> replaced realm agent x = true -> k ∈ ids).
  { intros realm agent ids h <- Ha Hids k x Hx Hr. destruct (tokens db !! k) as [y|] eqn:E.
    - destruct (cg_keep _ _ _ Hc _ _ E) as (y' & Hy' & _ & Er & Ea & Ep & _). simplify_eq.
      apply (Hids k y E). unfold replaced in *. rewrite <- Er, <- Ea. destruct_andb. split_andb; auto.
    - destruct (cg_new _ _ _ Hc _ _ Hx E) as [_ HL]. unfold replaced in Hr. destruct_andb.
      exfalso. apply (Hd _ Ha). by replace (a_id agent) with (tok_agent_id x) by (by apply N.eqb_eq). }
  destruct Hp; simpl in Hd; try by constructor.
  - eapply at_issue_updated; eauto.
  - eapply at_issue_inserted with (ids := ids); eauto.
    + rewrite (cg_frame _ _ _ Hc); auto.
    + intros k x Hx. destruct (tokens db !! k) as [y|] eqn:E.
      * destruct (cg_keep _ _ _ Hc _ _ E) as (y' & Hy' & Eh & _). simplify_eq. rewrite Eh. eauto.
      * destruct (cg_new _ _ _ Hc _ _ Hx E) as [HL _]. intros Eh. rewrite Eh in HL. by eapply Hd.
  - eapply at_exchange; eauto. rewrite (cg_frame _ _ _ Hc); auto.
  - destruct (cg_keep _ _ _ Hc _ _ H) as (t' & Ht' & Eh & _ & _ & _ & Ec).
    eapply at_exchanged; eauto. congruence.
Qed.

(** ** One statement of a transaction *)

Lemma first_row_token db raw t : tokens_sound db ->
  first_row (with_hash raw) (tokens db) = Some t ->
  tokens db !! tok_id t = Some t /\ tok_token_hash t = hash_token raw.
Proof.
  intros Hs Hf. apply first_row_Some in Hf as [[k Hk] Hp]. rewrite (ts_key _ Hs _ _ Hk).
  split; [done|]. by apply String.eqb_eq in Hp.
Qed.

Lemma token_taken_false t db : token_taken t db = false ->
  tokens db !! tok_id t = None /\ forall k x, tokens db !! k = Some x -> tok_token_hash x <> tok_token_hash t.
Proof.
  unfold token_taken. intros [Hi%negb_false_iff%is_none_true He]%orb_false_iff. split; [done|].
  intros k x Hx Eh. rewrite exists_row_false in He. specialize (He k x Hx). simpl in He.
  apply String.eqb_neq in He. congruence.
Qed.

Lemma tx_statement db r locks write next buffer h :
  tokens_sound db -> at_point db r (InTx (Stmt locks write next) buffer h) ->
  at_point db r (InTx (next (buffer db)) (fun x => write (buffer db) (buffer x)) (h ++ locks (buffer db))).
Proof.
  intros Hs Hp. remember (InTx (Stmt locks write next) buffer h) as t eqn:Et.
  destruct Hp as [r|now raw id realm agent ttl buffer' h' Ha Hb
    |now raw id realm agent ttl buffer' h' ids Ha Hids Hrep Hb|
    |now secret id raw p buffer' h' token Hh Ht Eh Hc Hex| | | | | ]; try discriminate Et.
  - destruct r as [now raw id realm agent ttl|now secret id raw|now realm agent id]; simpl in Et; try done.
    + unfold start, issue_prog, select_for_update in Et. injection Et as <- <- <- <- <-. simpl.
      destruct (is_none _); [apply at_failed|].
      apply at_issue_locked; [by left|done].
    + unfold start, exchange_prog, select_for_update in Et. injection Et as <- <- <- <- <-. simpl.
      unfold Datatypes.id. destruct (first_row _ _) as [token|] eqn:E; [|apply at_failed].
      destruct (unusable now token) eqn:Eu; [apply at_failed|].
      destruct (first_row_token _ _ _ Hs E) as [Ht Eh].
      apply at_exchange with (token := token); [by left|done|done| |by apply ex_locked].
      unfold unusable in Eu. apply orb_false_iff in Eu as [[Eu _]%orb_false_iff _].
      by apply negb_false_iff, is_none_true in Eu.
  - unfold update_stmt in Et. injection Et as <- <- <- <- <-. simpl.
    apply at_issue_updated with (ids := matching (replaced realm agent) (buffer' db)).
    + apply elem_of_app. by left.
    + intros k Hk. apply elem_of_app. right. by apply list_elem_of_fmap_2.
    + intros k t Ht Hr. apply elem_of_matching_rows. exists t. by rewrite Hb.
    + intros x. unfold retired, update_rows. simpl. by rewrite Hb.
  - unfold insert_token_stmt in Et. injection Et as <- <- <- <- <-. simpl.
    destruct (token_taken _ _) eqn:Etk; [apply at_failed|].
    apply token_taken_false in Etk as [Hnone Hfresh]. simpl in Hnone, Hfresh.
    assert (Hl : forall k, tokens (buffer' db) !! k = _) by (intros k; rewrite Hb; apply lookup_retired).
    apply at_issue_inserted with (ids := ids).
    + apply elem_of_app. by left.
    + intros k Hk. apply elem_of_app. left. auto.
    + done.
    + apply elem_of_app. right. by left.
    + apply elem_of_app. right. right. by left.
    + rewrite Hl in Hnone. by apply fmap_None in Hnone.
    + intros k t Ht. specialize (Hfresh k). rewrite Hl, Ht in Hfresh. specialize (Hfresh _ eq_refl).
      by destruct (bool_decide _) in Hfresh.
    + intros x. simpl. by rewrite Hb.
  - injection Et as -> -> ->. remember (Stmt locks write next) as q eqn:Ep.
    destruct Hex as [Hb|agent Hb|a Hb|a Hb]; try discriminate Ep.
    + unfold exchange_locked, query, select_for_update in Ep. injection Ep as <- <- <-. simpl.
      destruct (get_row _ _ _) as [agent|]; [|apply at_failed].
      destruct (_ || _); [apply at_failed|]. rewrite app_nil_r.
      apply at_exchange with (token := token); [done..|]. by apply ex_loaded.
    + unfold exchange_with, insert_credential_stmt in Ep. injection Ep as <- <- <-. simpl.
      destruct (credential_taken _ _); [apply at_failed|].
      apply at_exchange with (token := token); [|done..|].
      * apply elem_of_app. by left.
      * apply ex_inserted. done.
    + unfold save_consumed_stmt in Ep. injection Ep as <- <- <-. simpl.
      apply at_exchange with (token := token); [|done..|].
      * apply elem_of_app. by left.
      * apply ex_consumed. intros x. simpl. by rewrite Hb.
Qed.

(** ** The invariant of a pool *)

Definition exchanges (reqs : gmap nat request) (i : nat) (raw : string) : Prop :=
  exists now secret id, reqs !! i = Some (Exchange now secret id raw).

Record race_inv (reqs : gmap nat request) (c : MonDB * gmap nat mthread) : Prop := {
  ri_sound : tokens_sound c.1;
  ri_exclusive : exclusive c.2;
  ri_points : forall i t, c.2 !! i = Some t -> exists r, reqs !! i = Some r /\ at_point c.1 r t;
  ri_single : forall i j raw a b, exchanges reqs i raw -> exchanges reqs j raw ->
    c.2 !! i = Some (Finished (Ok a)) -> c.2 !! j = Some (Finished (Ok b)) -> i = j;
}.

(** A step of thread [i] under the locks [L]. *)
Lemma race_step reqs i r t' L db db' ts :
  race_inv reqs (db, ts) -> reqs !! i = Some r -> change L db db' -> tokens_sound db' ->
  (forall j t, j <> i -> ts !! j = Some t -> forall k, k ∈ held t -> k ∉ L) ->
  exclusive (<[i := t']> ts) -> at_point db' r t' ->
  (forall a raw, t' = Finished (Ok a) -> exchanges reqs i raw -> exists token,
     tokens db !! tok_id token = Some token /\ tok_token_hash token = hash_token raw /\
     tok_consumed_at token = None) ->
  race_inv reqs (db', <[i := t']> ts).
Proof.
  intros [Hs He Hp Hw] Hr Hc Hs' Hfree He' Hpt Hwin. simpl in *.
  assert (Hone : forall j raw a b, j <> i -> ts !! j = Some (Finished (Ok b)) -> t' = Finished (Ok a) ->
    exchanges reqs i raw -> exchanges reqs j raw -> False).
  { intros j raw a b Hj Hj' Ht Hi' (now & secret & id & Hx).
    destruct (Hwin a raw Ht Hi') as (token & Htok & Eh & Ec).
    destruct (Hp _ _ Hj') as (r' & Hr' & Hat). simplify_eq. inversion Hat; subst; try done.
    assert (k = tok_id token) as -> by (eapply (ts_hash _ Hs); eauto; congruence). congruence. }
  split; simpl; [done|done| |].
  - intros j t [[<- <-]|[Hj Ht]]%lookup_insert_Some; [eauto|].
    destruct (Hp _ _ Ht) as (r' & Hr' & Hat). exists r'. split; [done|].
    eapply at_point_stable; eauto.
  - intros j1 j2 raw a b H1 H2 [[<- E1]|[N1 E1]]%lookup_insert_Some [[<- E2]|[N2 E2]]%lookup_insert_Some;
      [done| | |by eapply Hw].
    + exfalso. by eapply (Hone j2).
    + exfalso. by eapply (Hone j1).
Qed.

Lemma free_held {ts : gmap nat mthread} {keys i} : free keys i ts ->
  forall j t, j <> i -> ts !! j = Some t -> forall k, k ∈ held t -> k ∉ keys.
Proof. intros Hf j t Hj Ht k Hk Hin. by eapply Hf. Qed.

Lemma exclusive_held {ts : gmap nat mthread} {i t} : exclusive ts -> ts !! i = Some t ->
  forall j t', j <> i -> ts !! j = Some t' -> forall k, k ∈ held t' -> k ∉ held t.
Proof. intros He Hi j t' Hj Ht k Hk Hin. apply Hj. by eapply (He j i). Qed.

Lemma race_inv_step reqs c c' : step c c' -> race_inv reqs c -> race_inv reqs c'.
Proof.
  intros Hst Hinv. pose proof (step_exclusive _ _ Hst (ri_exclusive _ _ Hinv)) as He'.
  pose proof (ri_sound _ _ Hinv) as Hs.
  destruct Hst as [i db ts locks write next Hi Hf|i db ts locks write next b h Hi Hf
    |i db ts a b h Hi|i db ts e b h Hi]; simpl in *;
    destruct (ri_points _ _ Hinv i _ Hi) as (r & Hr & Hp).
  - remember (Auto (Stmt locks write next)) as t eqn:Et.
    destruct Hp as [r| | | | | | | | |]; try discriminate Et.
    destruct r as [| |now realm agent id]; simpl in Et; try discriminate Et.
    unfold start, revoke_prog, update_stmt in Et. injection Et as <- <- <-.
    destruct (update_commit now (matching (revoked_by realm agent id) db)
      (map TokenRow (matching (revoked_by realm agent id) db)) db _ eq_refl) as [Hret Hch].
    { intros k Hk. by apply list_elem_of_fmap_2. }
    eapply race_step; eauto using retires_sound, free_held; [apply at_revoked|done].
  - eapply (race_step _ _ _ _ []); eauto using change_refl, tx_statement.
    + intros j t _ _ k _ Hk. by apply elem_of_nil in Hk.
    + done.
  - remember (InTx (Ret (Ok a)) b h) as t eqn:Et.
    destruct Hp as [r| | |now raw id realm agent ttl b' h' ids a' Ha Hids Hrep Hrow Hhash Hnone Hfresh Hb
      |now secret id raw p b' h' token Hrow Htok Eh Hc Hex| | | | |]; try discriminate Et.
    + destruct r; discriminate Et.
    + injection Et as -> -> ->.
      destruct (issue_commit now raw id realm agent ttl ids h db (b db)) as [Hs' Hch]; try done.
      eapply (race_step _ _ _ _ h); eauto.
      * exact (exclusive_held (ri_exclusive _ _ Hinv) Hi).
      * apply at_issued.
      * intros a0 raw0 _ (? & ? & ? & ?). congruence.
    + injection Et as -> -> ->. remember (Ret (Ok a)) as q eqn:Eq.
      destruct Hex as [| | |a' Hb]; try discriminate Eq.
      destruct (consume_commit now token h db (b db)) as [Hret Hch]; [done|done|].
      eapply (race_step _ _ _ _ h); eauto using retires_sound.
      * exact (exclusive_held (ri_exclusive _ _ Hinv) Hi).
      * eapply at_exchanged with (k := tok_id token) (t := consume_token now token); [|done|done].
        simpl in Htok. by rewrite Hb, lookup_alter_eq, Htok.
      * intros a0 raw0 _ (? & ? & ? & Hx). exists token. split_and!; [done| |done]. congruence.
  - eapply (race_step _ _ _ _ []); eauto using change_refl.
    + intros j t _ _ k _ Hk. by apply elem_of_nil in Hk.
    + apply at_refused.
    + done.
Qed.

(** C24 Enrolment under concurrency.  Any number of requests that issue, exchange and revoke
    enrolment tokens run at the same time, their statements interleaved in any way, on a
    database whose tokens have distinct hashes and where no agent has two pending tokens.
    Then at every point no agent has two pending tokens, and of all the requests that
    exchange the same token at most one succeeds. *)
Theorem concurrent_enrolment_is_safe reqs db0 db ts :
  tokens_sound db0 -> rtc step (db0, thread_of <$> reqs) (db, ts) ->
  tokens_sound db /\
  forall i j raw a b, exchanges reqs i raw -> exchanges reqs j raw ->
    answer <$> ts !! i = Some (Some (Ok a)) -> answer <$> ts !! j = Some (Some (Ok b)) -> i = j.
Proof.
  intros Hs Hsteps.
  assert (Hgen : forall c c', rtc step c c' -> race_inv reqs c -> race_inv reqs c').
  { induction 1; eauto using race_inv_step. }
  assert (race_inv reqs (db, ts)) as [Hs' _ Hp Hw].
  { apply (Hgen _ _ Hsteps). split; simpl; [done| | |].
    - intros i j t t' k Ht _ Hk. exfalso. rewrite lookup_fmap in Ht.
      apply fmap_Some in Ht as ([] & _ & ->); by apply elem_of_nil in Hk.
    - intros i t. rewrite lookup_fmap. intros (r & Hr & ->)%fmap_Some. eauto using at_start.
    - intros i j raw a b _ _ Hi. exfalso. rewrite lookup_fmap in Hi.
      by apply fmap_Some in Hi as ([] & _ & Hi). }
  split; [done|]. intros i j raw a b Hi Hj Ai Aj. simpl in *.
  assert (Hfin : forall n x, exchanges reqs n raw -> answer <$> ts !! n = Some (Some (Ok x)) ->
    ts !! n = Some (Finished (Ok x))).
  { intros n x (now & secret & id & Hn) Hx. apply fmap_Some in Hx as (t & Ht & Ha).
    destruct (Hp _ _ Ht) as (r & Hr & Hat). rewrite Hn in Hr. injection Hr as <-.
    rewrite Ht. destruct t as [[o|]|p b' h|o]; simpl in Ha; try done; [|congruence].
    inversion Hat. }
  eauto.
Qed.
End Races.

(** ** An example: two agents present the same token *)

Module RaceDemo.
#[export] Existing Instance example_platform.

Definition two_exchanges : gmap nat request :=
  {[0%nat := Exchange 30 "s.ecret" 9 "second"; 1%nat := Exchange 31 "other" 10 "second"]}.

Definition init : gmap nat mthread := thread_of default_settings <$> two_exchanges.
Definition first_run : MonDB * outcome reply :=
  run_alone true (exchange_prog 30 "s.ecret" 9 "second") example_issued.
Definition second_run : MonDB * outcome reply :=
  run_alone true (exchange_prog 31 "other" 10 "second") first_run.1.

Lemma sound : tokens_sound example_issued.
Proof. destruct example_issued_tokens_ok. by split. Qed.

(** One after the other: the first is answered with a credential, the second refused. *)
Lemma both_run : exists ts, rtc step (example_issued, init) (second_run.1, ts) /\
  answer <$> ts !! 0%nat = Some (Some first_run.2) /\ answer <$> ts !! 1%nat = Some (Some second_run.2).
Proof.
  destruct (runs_unhindered true (exchange_prog 30 "s.ecret" 9 "second") example_issued 0 init)
    as (t0 & Hr0 & Ha0 & Hh0); [|done|].
  { intros j t _ Ht. unfold init in Ht. rewrite lookup_fmap in Ht. apply fmap_Some in Ht as ([] & _ & ->); done. }
  destruct (runs_unhindered true (exchange_prog 31 "other" 10 "second") first_run.1 1 (<[0%nat := t0]> init))
    as (t1 & Hr1 & Ha1 & Hh1).
  { intros j t Hj [[<- <-]|[_ Ht]]%lookup_insert_Some; [done|].
    unfold init in Ht. rewrite lookup_fmap in Ht. apply fmap_Some in Ht as ([] & _ & ->); done. }
  { by rewrite lookup_insert_ne. }
  exists (<[1%nat := t1]> (<[0%nat := t0]> init)). split_and!.
  - etrans; [exact Hr0|exact Hr1].
  - rewrite lookup_insert_ne, lookup_insert_eq by done. simpl. by rewrite Ha0.
  - rewrite lookup_insert_eq. simpl. by rewrite Ha1.
Qed.
End RaceDemo.

Lemma concurrent_enrolment_is_safe_witness :
  exists db ts, rtc step (example_issued, RaceDemo.init) (db, ts) /\
    (exists a, answer <$> ts !! 0%nat = Some (Some (Ok a))) /\
    answer <$> ts !! 1%nat = Some (Some (Err invalid_token)) /\ tokens_sound db.
Proof.
  destruct RaceDemo.both_run as (ts & Hr & H0 & H1). exists RaceDemo.second_run.1, ts.
  split_and!; [exact Hr| | |].
  - assert (exists a, RaceDemo.first_run.2 = Ok a) as [a Ha] by (eexists; vm_compute; reflexivity).
    exists a. by rewrite H0, Ha.
  - rewrite H1. assert (RaceDemo.second_run.2 = Err invalid_token) as -> by (vm_compute; reflexivity).
    done.
  - apply (concurrent_enrolment_is_safe default_settings RaceDemo.two_exchanges example_issued _ ts
      RaceDemo.sound Hr).
Defined.
