(* ===== verification/Effects.v ===== *)
(** * What each domain operation writes

    For every operation of monitoring/domain.py that changes the tables: it either
    leaves them as they are or, its guards having passed, writes exactly the tables
    stated here.  Exceptions never leave a partial write behind. *)

From S2P Require Import Prelude PyText Json Platform Models ProbeConfig Domain.
From S2P Require Import Credentials Configuration Selection.
Local Open Scope Z_scope.

(** Turns the boolean guards that passed into equations. *)
Ltac guards :=
  repeat match goal with
  | H : existsb _ (_ :: _) = false |- _ => cbn [existsb] in H
  | H : negb (negb _) = _ |- _ => rewrite negb_involutive in H
  | H : negb _ = false |- _ => apply negb_false_iff in H
  | H : negb _ = true |- _ => apply negb_true_iff in H
  | H : _ || _ = false |- _ => apply orb_false_iff in H as [? ?]
  | H : _ && _ = true |- _ => apply andb_true_iff in H as [? ?]
  | H : (_ =? _)%N = true |- _ => apply N.eqb_eq in H
  | H : (_ =? _)%N = false |- _ => apply N.eqb_neq in H
  | H : is_none _ = true |- _ => apply is_none_true in H
  | H : bool_decide _ = true |- _ => apply bool_decide_eq_true in H
  | H : bool_decide _ = false |- _ => apply bool_decide_eq_false in H
  end.

(** Case analysis on the guard about to be run. *)
Ltac check_guard H := match goal with
  | |- context [if ?b then Err _ else Ok _] => destruct b eqn:H
  end.

(** The same where a refusal leaves the tables as they are, the left case of a goal. *)
Ltac passed H := mrun; check_guard H; mrun; [by left|].

Section Effects.
Context {CO : Coercions}.
Implicit Types (db : MonDB) (realm : Realm).

Lemma is_nil_false {A} (l : list A) : is_nil l = false -> exists x, x ∈ l.
Proof. destruct l as [|x l]; [done|]. exists x. by left. Qed.

Lemma create_monitor_effect db id realm target name probe interval timeout conf descr :
  let db' := (create_monitor id realm target name probe interval timeout conf descr db).1 in
  db' = db \/
  exists m, m_id m = id /\ m_realm_id m = realm_id realm /\ m_target_id m = t_id target /\
    t_realm_id target = realm_id realm /\ monitors db !! id = None /\
    1 <= m_timeout_seconds m < m_interval_seconds m /\ m_interval_seconds m < 2 ^ 31 /\
    m_revision m = 1 /\ db' = set_monitors (<[id := m]> (monitors db)) db.
Proof.
  unfold create_monitor, _require_same_realm, _require_active, _validate_schedule,
    serialize, lift_outcome.
  passed G1. passed G2. passed G3. passed G4. passed G5.
  destruct (serialize_probe_configuration _ _ _) as [norm|e]; [|by left]. mrun.
  unfold insert_monitor, check_behavior, check_name. passed G6. passed G8. passed G7.
  right. exists (mkMonitor id (realm_id realm) (t_id target) name descr probe interval timeout
    norm true 1 None). unfold resource_realm_id, Target_owned, fits_int4 in *.
  guards. cbn [m_timeout_seconds m_interval_seconds m_revision m_realm_id m_target_id m_id] in *.
  repeat split; try done; try lia.
Qed.

Lemma update_monitor_effect db monitor realm target probe interval timeout conf :
  monitors db !! m_id monitor = Some monitor ->
  let db' := (update_monitor_behavior monitor realm target probe interval timeout conf db).1 in
  db' = db \/
  exists m', m_id m' = m_id monitor /\ m_realm_id m' = m_realm_id monitor /\
    m_target_id m' = t_id target /\ m_enabled m' = m_enabled monitor /\
    m_archived_at m' = m_archived_at monitor /\ m_name m' = m_name monitor /\
    m_revision m' = m_revision monitor + 1 /\
    1 <= m_timeout_seconds m' < m_interval_seconds m' /\
    m_realm_id monitor = realm_id realm /\ t_realm_id target = realm_id realm /\
    let db1 := set_monitors (<[m_id monitor := m']> (monitors db)) db in
    db' = bump_db (effective_agent_ids_of db1 m') (realm_id realm) db1.
Proof.
  intros Hrow. unfold update_monitor_behavior, _require_same_realm, _require_active,
    _validate_schedule, serialize, lift_outcome.
  passed G1. passed G2. passed G3. passed G4. passed G5.
  destruct (serialize_probe_configuration _ _ _) as [norm|e]; [|by left]. mrun.
  destruct (_ && _ && _ && _ && _); mrun; [by left|].
  unfold save_behavior, check_behavior. passed G6. cbn [m_id]. rewrite Hrow. mrun.
  unfold effective_agent_ids. mrun. rewrite bump_closed_form, list_to_set_elements_L.
  right. exists (mkMonitor (m_id monitor) (m_realm_id monitor) (t_id target) (m_name monitor)
    (m_description monitor) probe interval timeout norm (m_enabled monitor)
    (m_revision monitor + 1) (m_archived_at monitor)).
  unfold resource_realm_id, Target_owned, Monitor_owned in *; guards.
  repeat split; try done; simpl; lia.
Qed.

Lemma add_agent_effect db realm group agent :
  let db' := (add_agent_to_group realm group agent db).1 in
  let r := realm_id realm in
  db' = db \/
  (g_realm_id group = r /\ a_realm_id agent = r /\
   let db1 := set_agent_group_memberships
                ({[(r, g_id group, a_id agent)]} ∪ agent_group_memberships db) db in
   (db' = bump_db {[a_id agent]} r db1 \/
    (db' = db1 /\ forall m, monitor_agent_group_assignments db !! (r, m, g_id group) <> Some true))).
Proof.
  unfold add_agent_to_group, _require_same_realm, _require_active. passed G1. passed G2.
  destruct (bool_decide _); mrun; [by left|].
  right. unfold resource_realm_id, AgentGroup_owned, Agent_owned in *. guards.
  split; [done|]. split; [done|].
  destruct (is_nil _) eqn:En; mrun.
  - right. split; [done|]. intros m Hm. apply elem_of_enabled_group_monitors in Hm.
    unfold enabled_group_monitors in *. simpl in En.
    destruct (omap _ _); [by apply elem_of_nil in Hm|done].
  - left. rewrite bump_closed_form. simpl. by rewrite union_empty_r_L.
Qed.

Lemma remove_agent_effect db realm group agent :
  let db' := (remove_agent_from_group realm group agent db).1 in
  let r := realm_id realm in
  db' = db \/
  (g_realm_id group = r /\ a_realm_id agent = r /\
   let db1 := set_agent_group_memberships
                (agent_group_memberships db ∖ {[(r, g_id group, a_id agent)]}) db in
   (db' = bump_db {[a_id agent]} r db1 \/
    (db' = db1 /\ ((r, g_id group, a_id agent) ∈ agent_group_memberships db ->
       forall m, monitor_agent_group_assignments db !! (r, m, g_id group) <> Some true)))).
Proof.
  unfold remove_agent_from_group, _require_same_realm. passed G1.
  right. unfold resource_realm_id, AgentGroup_owned, Agent_owned in *. guards.
  split; [done|]. split; [done|].
  destruct (bool_decide _) eqn:Eb; mrun; guards.
  - destruct (is_nil _) eqn:En; mrun.
    + right. split; [done|]. intros _ m Hm. apply elem_of_enabled_group_monitors in Hm.
      unfold enabled_group_monitors in *. simpl in En.
      destruct (omap _ _); [by apply elem_of_nil in Hm|done].
    + left. rewrite bump_closed_form. simpl. by rewrite union_empty_r_L.
  - right. done.
Qed.

Lemma assign_agent_effect db realm monitor agent :
  let db' := (assign_monitor_to_agent realm monitor agent db).1 in
  let r := realm_id realm in
  db' = db \/
  (m_realm_id monitor = r /\ a_realm_id agent = r /\
   db' = bump_db {[a_id agent]} r (set_monitor_agent_assignments
     (<[(r, m_id monitor, a_id agent) := true]> (monitor_agent_assignments db)) db)).
Proof.
  unfold assign_monitor_to_agent, _require_same_realm, _require_active.
  passed G1. passed G2. passed G3. destruct (bool_decide _); mrun; [by left|].
  right. unfold resource_realm_id, Monitor_owned, Agent_owned in *. guards.
  rewrite bump_closed_form. simpl. by rewrite union_empty_r_L.
Qed.

Lemma assign_group_effect db realm monitor group :
  let db' := (assign_monitor_to_agent_group realm monitor group db).1 in
  let r := realm_id realm in
  db' = db \/
  (m_realm_id monitor = r /\ g_realm_id group = r /\
   db' = bump_db (list_to_set (usable_members db r (g_id group))) r
     (set_monitor_agent_group_assignments
       (<[(r, m_id monitor, g_id group) := true]> (monitor_agent_group_assignments db)) db)).
Proof.
  unfold assign_monitor_to_agent_group, _require_same_realm, _require_active.
  passed G1. passed G2. passed G3. destruct (bool_decide _); mrun; [by left|].
  right. unfold resource_realm_id, Monitor_owned, AgentGroup_owned in *. guards.
  by rewrite bump_closed_form.
Qed.

Lemma unassign_agent_effect db realm monitor agent :
  let db' := (unassign_monitor_from_agent realm monitor agent db).1 in
  let r := realm_id realm in
  db' = db \/
  (m_realm_id monitor = r /\ a_realm_id agent = r /\
   db' = bump_db {[a_id agent]} r (set_monitor_agent_assignments
     (delete (r, m_id monitor, a_id agent) (monitor_agent_assignments db)) db)).
Proof.
  unfold unassign_monitor_from_agent, _require_same_realm. passed G1.
  destruct (monitor_agent_assignments db !! _) as [b|] eqn:E; cbn [is_none]; mrun.
  - right. unfold resource_realm_id, Monitor_owned, Agent_owned in *. guards.
    rewrite bump_closed_form. simpl. by rewrite union_empty_r_L.
  - left. simpl. rewrite delete_id by done. by destruct db.
Qed.

Lemma unassign_group_effect db realm monitor group :
  let db' := (unassign_monitor_from_agent_group realm monitor group db).1 in
  let r := realm_id realm in
  db' = db \/
  (m_realm_id monitor = r /\ g_realm_id group = r /\
   db' = bump_db (list_to_set (usable_members db r (g_id group))) r
     (set_monitor_agent_group_assignments
       (delete (r, m_id monitor, g_id group) (monitor_agent_group_assignments db)) db)).
Proof.
  unfold unassign_monitor_from_agent_group, _require_same_realm. passed G1.
  destruct (monitor_agent_group_assignments db !! _) as [b|] eqn:E; cbn [is_none]; mrun.
  - right. unfold resource_realm_id, Monitor_owned, AgentGroup_owned in *. guards.
    by rewrite bump_closed_form.
  - left. simpl. rewrite delete_id by done. by destruct db.
Qed.

(** The tables after archiving [target] of realm [r]. *)
Definition archived_row (now : Z) (target : Target) : Target :=
  mkTarget (t_id target) (t_realm_id target) (t_name target) (t_description target)
    (t_address target) false (Some now).

Definition archived_targets (now : Z) (target : Target) (db : MonDB) : MonDB :=
  set_targets (<[t_id target := archived_row now target]> (targets db)) db.

Definition archived_monitors (now : Z) (r : uuid) (target : Target) (db : MonDB) : MonDB :=
  set_monitors ((fun m => if live_monitor_of r (t_id target) m then archive_monitor now m else m)
    <$> monitors db) (archived_targets now target db).

(** The agents with a live monitor on the target. *)
Definition affected_agents (now : Z) (r : uuid) (target : Target) (db : MonDB) : gset uuid :=
  ⋃ (effective_agent_ids_of (archived_targets now target db) <$>
     List.filter (live_monitor_of r (t_id target)) (rows (monitors db))).

Lemma archive_target_run db now realm target :
  targets db !! t_id target = Some target -> t_realm_id target = realm_id realm ->
  t_archived_at target = None ->
  archive_target now realm target db =
    (bump_db (affected_agents now (realm_id realm) target db) (realm_id realm)
       (archived_monitors now (realm_id realm) target db), Ok tt).
Proof.
  intros Hrow Hr Ha. unfold archive_target, _require_same_realm. mrun. cbn [existsb].
  unfold resource_realm_id, Target_owned. rewrite Hr, N.eqb_refl, Ha. mrun. cbn [is_none orb]. mrun.
  unfold in_transaction. mrun. rewrite Hrow. mrun.
  by rewrite bump_closed_form, list_to_set_elements_L.
Qed.

Lemma archive_target_effect db now realm target :
  targets db !! t_id target = Some target ->
  let db' := (archive_target now realm target db).1 in
  let r := realm_id realm in
  db' = db \/
  (t_realm_id target = r /\ t_archived_at target = None /\
   db' = bump_db (affected_agents now r target db) r (archived_monitors now r target db)).
Proof.
  intros Hrow. destruct (decide (t_realm_id target = realm_id realm)) as [Hr|Hr].
  - destruct (t_archived_at target) eqn:Ha.
    + left. unfold archive_target, _require_same_realm. mrun. check_guard G; [done|].
      by rewrite Ha.
    + right. by rewrite archive_target_run.
  - left. unfold archive_target, _require_same_realm. mrun. check_guard G; [done|].
    unfold resource_realm_id, Target_owned in *. by guards.
Qed.
End Effects.
