(* ===== verification/Isolation.v ===== *)
(** * Realms stay closed

    Every relation of the database joins rows of one realm, which is what makes the
    realm a tenant boundary: [realm_closed] is the invariant and the lemmas show that
    each way of writing a table keeps it, under the condition its writer establishes. *)

From S2P Require Import Prelude PyText Json Platform Models ProbeConfig Domain.
From S2P Require Import Credentials Configuration Selection Effects HierarchyProps CredentialsProps.
Local Open Scope Z_scope.

(** ** Rows of a realm *)

Definition has_agent (db : MonDB) (r a : uuid) : Prop :=
  exists x, agents db !! a = Some x /\ a_realm_id x = r.
Definition has_group (db : MonDB) (r g : uuid) : Prop :=
  exists x, agent_groups db !! g = Some x /\ g_realm_id x = r.
Definition has_target (db : MonDB) (r t : uuid) : Prop :=
  exists x, targets db !! t = Some x /\ t_realm_id x = r.
Definition has_target_group (db : MonDB) (r g : uuid) : Prop :=
  exists x, target_groups db !! g = Some x /\ tg_realm_id x = r.
Definition has_monitor (db : MonDB) (r m : uuid) : Prop :=
  exists x, monitors db !! m = Some x /\ m_realm_id x = r.

Record realm_closed (db : MonDB) : Prop := {
  rc_agents : forall k a, agents db !! k = Some a -> a_id a = k;
  rc_agent_groups : closed_groups (agent_groups db);
  rc_targets : forall k t, targets db !! k = Some t -> t_id t = k;
  rc_target_groups : closed_groups (target_groups db);
  rc_monitors : forall k m, monitors db !! k = Some m ->
    m_id m = k /\ has_target db (m_realm_id m) (m_target_id m);
  rc_memberships : forall r g a, (r, g, a) ∈ agent_group_memberships db ->
    has_group db r g /\ has_agent db r a;
  rc_target_memberships : forall r g t, (r, g, t) ∈ target_group_memberships db ->
    has_target_group db r g /\ has_target db r t;
  rc_assignments : forall r m a b, monitor_agent_assignments db !! (r, m, a) = Some b ->
    has_monitor db r m /\ has_agent db r a;
  rc_group_assignments : forall r m g b,
    monitor_agent_group_assignments db !! (r, m, g) = Some b ->
    has_monitor db r m /\ has_group db r g;
  rc_tokens : forall k t, agent_enrolment_tokens db !! k = Some t ->
    has_agent db (tok_realm_id t) (tok_agent_id t);
  rc_credentials : forall k c, agent_credentials db !! k = Some c ->
    has_agent db (cr_realm_id c) (cr_agent_id c);
  rc_operational : forall k o, agent_operational_states db !! k = Some o ->
    op_agent_id o = k /\ has_agent db (op_realm_id o) k;
}.

Lemma rc_monitors_keyed db : realm_closed db -> monitors_keyed db.
Proof. intros Hrc k m Hm. by apply (rc_monitors _ Hrc). Qed.

Lemma routed_has_agent db r m a : realm_closed db -> routed db r m a -> has_agent db r a.
Proof.
  intros Hrc [Hd|(g & _ & _ & Hin)]; [by eapply rc_assignments|by eapply rc_memberships].
Qed.

Lemma routed_has_monitor db r m a : realm_closed db -> routed db r m a -> has_monitor db r m.
Proof.
  intros Hrc [Hd|(g & Hg & _)]; [by eapply rc_assignments|by eapply rc_group_assignments].
Qed.

(** ** Writing tables *)

(** A table that only gains rows, or changes rows within their realm. *)
Definition realm_kept {R} (realm : R -> uuid) (t t' : gmap uuid R) : Prop :=
  forall k x, t !! k = Some x -> exists x', t' !! k = Some x' /\ realm x' = realm x.

Lemma realm_kept_insert {R} (realm : R -> uuid) (t : gmap uuid R) k x' :
  (forall x, t !! k = Some x -> realm x' = realm x) -> realm_kept realm t (<[k := x']> t).
Proof.
  intros Hk j x Hj. destruct (decide (j = k)) as [->|].
  - exists x'. rewrite lookup_insert_eq. auto.
  - exists x. by rewrite lookup_insert_ne.
Qed.

Lemma realm_kept_fmap {R} (realm : R -> uuid) (t : gmap uuid R) (f : R -> R) :
  (forall x, realm (f x) = realm x) -> realm_kept realm t (f <$> t).
Proof. intros Hf k x Hk. exists (f x). by rewrite lookup_fmap, Hk, Hf. Qed.

Section Writes.
Context (db : MonDB) (Hrc : realm_closed db).

(** Rows found in a table are found in one that keeps their realms. *)
Lemma has_kept {R} (realm : R -> uuid) (t t' : gmap uuid R) r k :
  realm_kept realm t t' -> (exists x, t !! k = Some x /\ realm x = r) ->
  exists x, t' !! k = Some x /\ realm x = r.
Proof. intros Hk (x & Hx & <-). destruct (Hk _ _ Hx) as (x' & ? & ?). eauto. Qed.

Lemma rc_set_agents v :
  realm_kept a_realm_id (agents db) v -> (forall k a, v !! k = Some a -> a_id a = k) ->
  realm_closed (set_agents v db).
Proof.
  intros Hk Hid. pose proof (fun r a => has_kept a_realm_id _ _ r a Hk) as Hag.
  destruct Hrc. split; try done; unfold has_agent in *; simpl; naive_solver.
Qed.

Lemma rc_set_agent_groups v :
  realm_kept g_realm_id (agent_groups db) v -> closed_groups v ->
  realm_closed (set_agent_groups v db).
Proof.
  intros Hk Hcl. pose proof (fun r a => has_kept g_realm_id _ _ r a Hk) as Hag.
  destruct Hrc. split; try done; unfold has_group in *; simpl; naive_solver.
Qed.

Lemma rc_set_target_groups v :
  realm_kept tg_realm_id (target_groups db) v -> closed_groups v ->
  realm_closed (set_target_groups v db).
Proof.
  intros Hk Hcl. pose proof (fun r a => has_kept tg_realm_id _ _ r a Hk) as Hag.
  destruct Hrc. split; try done; unfold has_target_group in *; simpl; naive_solver.
Qed.

Lemma rc_set_targets v :
  realm_kept t_realm_id (targets db) v -> (forall k t, v !! k = Some t -> t_id t = k) ->
  realm_closed (set_targets v db).
Proof.
  intros Hk Hid. pose proof (fun r a => has_kept t_realm_id _ _ r a Hk) as Hag.
  destruct Hrc. split; try done; unfold has_target in *; simpl; naive_solver.
Qed.

Lemma rc_set_monitors v :
  realm_kept m_realm_id (monitors db) v ->
  (forall k m, v !! k = Some m -> m_id m = k /\ has_target db (m_realm_id m) (m_target_id m)) ->
  realm_closed (set_monitors v db).
Proof.
  intros Hk Hid. pose proof (fun r a => has_kept m_realm_id _ _ r a Hk) as Hag.
  destruct Hrc. split; try done; unfold has_monitor in *; simpl; naive_solver.
Qed.

Lemma rc_set_memberships v :
  (forall r g a, (r, g, a) ∈ v -> has_group db r g /\ has_agent db r a) ->
  realm_closed (set_agent_group_memberships v db).
Proof. intros Hv. by destruct Hrc. Qed.

Lemma rc_set_target_memberships v :
  (forall r g t, (r, g, t) ∈ v -> has_target_group db r g /\ has_target db r t) ->
  realm_closed (set_target_group_memberships v db).
Proof. intros Hv. by destruct Hrc. Qed.

Lemma rc_set_assignments v :
  (forall r m a b, v !! (r, m, a) = Some b -> has_monitor db r m /\ has_agent db r a) ->
  realm_closed (set_monitor_agent_assignments v db).
Proof. intros Hv. by destruct Hrc. Qed.

Lemma rc_set_group_assignments v :
  (forall r m g b, v !! (r, m, g) = Some b -> has_monitor db r m /\ has_group db r g) ->
  realm_closed (set_monitor_agent_group_assignments v db).
Proof. intros Hv. by destruct Hrc. Qed.

Lemma rc_set_tokens v :
  (forall k t, v !! k = Some t -> has_agent db (tok_realm_id t) (tok_agent_id t)) ->
  realm_closed (set_agent_enrolment_tokens v db).
Proof. intros Hv. by destruct Hrc. Qed.

Lemma rc_set_credentials v :
  (forall k c, v !! k = Some c -> has_agent db (cr_realm_id c) (cr_agent_id c)) ->
  realm_closed (set_agent_credentials v db).
Proof. intros Hv. by destruct Hrc. Qed.

Lemma rc_set_operational v :
  (forall k o, v !! k = Some o -> op_agent_id o = k /\ has_agent db (op_realm_id o) k) ->
  realm_closed (set_agent_operational_states v db).
Proof. intros Hv. by destruct Hrc. Qed.

Lemma rc_set_states v : realm_closed (set_agent_configuration_states v db).
Proof. by destruct Hrc. Qed.

Lemma rc_set_snapshots v : realm_closed (set_agent_configuration_snapshots v db).
Proof. by destruct Hrc. Qed.
End Writes.

(** ** The operations *)

Section Operations.
Context {CO : Coercions} {P : Platform} (settings : Settings) (realms : gmap uuid Realm).
Implicit Types (db : MonDB) (realm : Realm).

Lemma rc_bump_db ids r db : realm_closed db -> realm_closed (bump_db ids r db).
Proof. intros. by apply rc_set_states. Qed.

Lemma rc_create_monitor db id realm target name probe interval timeout conf descr :
  realm_closed db -> targets db !! t_id target = Some target ->
  realm_closed (create_monitor id realm target name probe interval timeout conf descr db).1.
Proof.
  intros Hrc Ht.
  destruct (create_monitor_effect db id realm target name probe interval timeout conf descr)
    as [->|(m & Hid & Hr & Htg & Htr & Hnew & _ & _ & _ & ->)]; [done|].
  apply rc_set_monitors; [done| |].
  - apply realm_kept_insert. congruence.
  - intros k x [[<- <-]|[_ Hx]]%lookup_insert_Some; [|by apply (rc_monitors _ Hrc)].
    split; [done|]. exists target. rewrite Htg, Hr. done.
Qed.

Lemma rc_update_monitor db monitor realm target probe interval timeout conf :
  realm_closed db -> monitors db !! m_id monitor = Some monitor ->
  targets db !! t_id target = Some target ->
  realm_closed (update_monitor_behavior monitor realm target probe interval timeout conf db).1.
Proof.
  intros Hrc Hm Ht.
  destruct (update_monitor_effect db monitor realm target probe interval timeout conf Hm)
    as [->|(m' & Hid & Hr & Htg & _ & _ & _ & _ & _ & Hmr & Htr & Heq)]; [done|].
  cbv zeta in Heq. rewrite Heq. apply rc_bump_db, rc_set_monitors; [done| |].
  - apply realm_kept_insert. intros x Hx. congruence.
  - intros k x [[<- <-]|[_ Hx]]%lookup_insert_Some; [|by apply (rc_monitors _ Hrc)].
    split; [done|]. exists target. rewrite Htg, Hr. split; [done|congruence].
Qed.

Lemma rc_rename_monitor db r id name descr :
  realm_closed db -> realm_closed (rename_monitor r id name descr db).1.
Proof.
  intros Hrc. unfold rename_monitor, check_name. mrun. destruct (negb _); [done|]. mrun.
  destruct (get_row _ _ _) as [m|] eqn:Eg; [|done]. apply get_row_Some in Eg as [Hm _].
  mrun. destruct (exists_row _ _); [done|]. simpl. apply rc_set_monitors; [done| |].
  - apply realm_kept_insert. intros x Hx. by simplify_eq.
  - intros k x [[<- <-]|[_ Hx]]%lookup_insert_Some; [|by apply (rc_monitors _ Hrc)].
    by apply (rc_monitors _ Hrc) in Hm.
Qed.

Lemma rc_insert_agent db a : realm_closed db -> realm_closed (insert_agent a db).1.
Proof.
  intros Hrc. unfold insert_agent, check_name. mrun. destruct (negb _); [done|]. mrun.
  destruct (_ || _) eqn:E; [done|]. simpl. guards.
  apply rc_set_agents; [done| |].
  - apply realm_kept_insert. congruence.
  - intros k x [[<- <-]|[_ Hx]]%lookup_insert_Some; [done|by apply (rc_agents _ Hrc)].
Qed.

Lemma rc_insert_target db t : realm_closed db -> realm_closed (insert_target t db).1.
Proof.
  intros Hrc. unfold insert_target, check_name. mrun. do 2 (destruct (negb _); [done|]; mrun).
  destruct (_ || _) eqn:E; [done|]. simpl. guards.
  apply rc_set_targets; [done| |].
  - apply realm_kept_insert. congruence.
  - intros k x [[<- <-]|[_ Hx]]%lookup_insert_Some; [done|by apply (rc_targets _ Hrc)].
Qed.

Lemma closed_groups_insert {R} {GT : GroupTable R} (t : gmap uuid R) (g : R) :
  closed_groups t -> t !! h_id g = None ->
  (forall p, h_parent_id g = Some p -> exists q, t !! p = Some q /\ h_realm_id q = h_realm_id g) ->
  closed_groups (<[h_id g := g]> t).
Proof.
  intros Hcl Hnew Hp.
  assert (Hlift : forall p q, t !! p = Some q -> <[h_id g := g]> t !! p = Some q).
  { intros p q Hq. rewrite lookup_insert_ne; [done|congruence]. }
  intros k r [[<- <-]|[_ Hr]]%lookup_insert_Some.
  - split; [done|]. intros p (q & ? & ?)%Hp. eauto.
  - destruct (Hcl _ _ Hr) as [? Hpar]. split; [done|]. intros p (q & ? & ?)%Hpar. eauto.
Qed.

Lemma rc_insert_agent_group db (g : AgentGroup) :
  realm_closed db -> (forall p, g_parent_id g = Some p -> has_group db (g_realm_id g) p) ->
  realm_closed (insert_group g db).1.
Proof.
  intros Hrc Hp. unfold insert_group, check_name. mrun. destruct (negb _); [done|]. mrun.
  destruct (_ || _) eqn:E; [done|]. simpl. guards.
  apply rc_set_agent_groups; [done| |].
  - apply realm_kept_insert. simpl in *. congruence.
  - refine (closed_groups_insert (agent_groups db) g _ _ _); [apply Hrc|done|done].
Qed.

Lemma rc_insert_target_group db (g : TargetGroup) :
  realm_closed db -> (forall p, tg_parent_id g = Some p -> has_target_group db (tg_realm_id g) p) ->
  realm_closed (insert_group g db).1.
Proof.
  intros Hrc Hp. unfold insert_group, check_name. mrun. destruct (negb _); [done|]. mrun.
  destruct (_ || _) eqn:E; [done|]. simpl. guards.
  apply rc_set_target_groups; [done| |].
  - apply realm_kept_insert. simpl in *. congruence.
  - refine (closed_groups_insert (target_groups db) g _ _ _); [apply Hrc|done|done].
Qed.

(** A move keeps every group in its realm. *)
Lemma move_group_realms {R} {GT : GroupTable R} {GL : GroupTableLaws R} db (group : R) parent :
  h_table db !! h_id group = Some group ->
  exists v, realm_kept h_realm_id (h_table db) v /\
    ((move_group group parent db).1 = db \/
     (move_group group parent db).1 = h_set_table v db).
Proof.
  intros Hg. unfold move_group. rewrite bind_run.
  destruct (_assert_group_parent group parent db) as [db1 r] eqn:E.
  assert (db1 = db) as ->.
  { unfold _assert_group_parent, _require_active, lift_outcome in E.
    destruct parent; [|by injection E]. mrun. revert E. mrun.
    repeat (match goal with |- context [if ?b then _ else _] => destruct b end; mrun);
      by intros [= <- _]. }
  destruct r as [[]|e].
  - unfold save_parent. mrun. rewrite h_id_set, Hg. mrun.
    destruct (_ || _); [exists (h_table db); split; [|by left]; intros k x Hk; eauto|].
    mrun. eexists. split; [|right; reflexivity].
    apply realm_kept_insert. intros x Hx. rewrite h_realm_set. congruence.
  - exists (h_table db). split; [intros k x Hk; eauto|by left].
Qed.

Lemma rc_move_agent_group db group parent :
  realm_closed db -> agent_groups db !! g_id group = Some group -> loaded db parent ->
  realm_closed (move_agent_group group parent db).1.
Proof.
  intros Hrc Hg Hl. destruct (move_group_realms (GT := AgentGroupTable) db group parent Hg) as (v & Hk & [Hs|Hs]);
    unfold move_agent_group; rewrite Hs; [done|].
  apply rc_set_agent_groups; [done|done|].
  pose proof (move_group_closed (GT := AgentGroupTable) db group parent (rc_agent_groups _ Hrc) Hg Hl) as Hcl.
  by rewrite Hs in Hcl.
Qed.

Lemma rc_move_target_group db group parent :
  realm_closed db -> target_groups db !! tg_id group = Some group -> loaded db parent ->
  realm_closed (move_target_group group parent db).1.
Proof.
  intros Hrc Hg Hl. destruct (move_group_realms (GT := TargetGroupTable) db group parent Hg) as (v & Hk & [Hs|Hs]);
    unfold move_target_group; rewrite Hs; [done|].
  apply rc_set_target_groups; [done|done|].
  pose proof (move_group_closed (GT := TargetGroupTable) db group parent (rc_target_groups _ Hrc) Hg Hl) as Hcl.
  by rewrite Hs in Hcl.
Qed.

Lemma rc_add_agent db realm group agent :
  realm_closed db -> agent_groups db !! g_id group = Some group ->
  agents db !! a_id agent = Some agent ->
  realm_closed (add_agent_to_group realm group agent db).1.
Proof.
  intros Hrc Hg Ha.
  assert (g_realm_id group = realm_id realm -> a_realm_id agent = realm_id realm ->
    realm_closed (set_agent_group_memberships ({[(realm_id realm, g_id group, a_id agent)]}
      ∪ agent_group_memberships db) db)) as Hset.
  { intros Hgr Har. apply rc_set_memberships; [done|].
    intros r g a [[= -> -> ->]%elem_of_singleton|Hin]%elem_of_union;
      [|by apply (rc_memberships _ Hrc)]. split; eexists; eauto. }
  destruct (add_agent_effect db realm group agent) as [->|(Hgr & Har & [->|[-> _]])];
    [done|apply rc_bump_db|]; auto.
Qed.

Lemma rc_remove_agent db realm group agent :
  realm_closed db -> realm_closed (remove_agent_from_group realm group agent db).1.
Proof.
  intros Hrc.
  assert (realm_closed (set_agent_group_memberships (agent_group_memberships db ∖
    {[(realm_id realm, g_id group, a_id agent)]}) db)) as Hset.
  { apply rc_set_memberships; [done|]. intros r g a [Hin _]%elem_of_difference.
    by apply (rc_memberships _ Hrc). }
  destruct (remove_agent_effect db realm group agent) as [->|(_ & _ & [->|[-> _]])];
    [done|by apply rc_bump_db|done].
Qed.

Lemma rc_add_target db realm group target :
  realm_closed db -> target_groups db !! tg_id group = Some group ->
  targets db !! t_id target = Some target ->
  realm_closed (add_target_to_group realm group target db).1.
Proof.
  intros Hrc Hg Ht. unfold add_target_to_group, _require_same_realm, _require_active. mrun.
  check_guard G1; mrun; [done|]. check_guard G2; mrun; [done|].
  unfold resource_realm_id, TargetGroup_owned, Target_owned in *. guards.
  apply rc_set_target_memberships; [done|].
  intros r g t [[= -> -> ->]%elem_of_singleton|Hin]%elem_of_union;
    [|by apply (rc_target_memberships _ Hrc)]. split; eexists; eauto.
Qed.

Lemma rc_delete_target_membership db r g t :
  realm_closed db -> realm_closed (delete_target_membership r g t db).1.
Proof.
  intros Hrc. apply rc_set_target_memberships; [done|].
  intros r' g' t' [Hin _]%elem_of_difference. by apply (rc_target_memberships _ Hrc).
Qed.

Lemma rc_assign_agent db realm monitor agent :
  realm_closed db -> monitors db !! m_id monitor = Some monitor ->
  agents db !! a_id agent = Some agent ->
  realm_closed (assign_monitor_to_agent realm monitor agent db).1.
Proof.
  intros Hrc Hm Ha. destruct (assign_agent_effect db realm monitor agent) as [->|(Hmr & Har & ->)];
    [done|]. apply rc_bump_db, rc_set_assignments; [done|].
  intros r m a b [[[= <- <- <-] _]|[_ Hin]]%lookup_insert_Some;
    [|by eapply (rc_assignments _ Hrc)]. split; eexists; eauto.
Qed.

Lemma rc_assign_group db realm monitor group :
  realm_closed db -> monitors db !! m_id monitor = Some monitor ->
  agent_groups db !! g_id group = Some group ->
  realm_closed (assign_monitor_to_agent_group realm monitor group db).1.
Proof.
  intros Hrc Hm Hg. destruct (assign_group_effect db realm monitor group) as [->|(Hmr & Hgr & ->)];
    [done|]. apply rc_bump_db, rc_set_group_assignments; [done|].
  intros r m g b [[[= <- <- <-] _]|[_ Hin]]%lookup_insert_Some;
    [|by eapply (rc_group_assignments _ Hrc)]. split; eexists; eauto.
Qed.

Lemma rc_unassign_agent db realm monitor agent :
  realm_closed db -> realm_closed (unassign_monitor_from_agent realm monitor agent db).1.
Proof.
  intros Hrc. destruct (unassign_agent_effect db realm monitor agent) as [->|(_ & _ & ->)];
    [done|]. apply rc_bump_db, rc_set_assignments; [done|].
  intros r m a b [_ Hin]%lookup_delete_Some. by eapply (rc_assignments _ Hrc).
Qed.

Lemma rc_unassign_group db realm monitor group :
  realm_closed db -> realm_closed (unassign_monitor_from_agent_group realm monitor group db).1.
Proof.
  intros Hrc. destruct (unassign_group_effect db realm monitor group) as [->|(_ & _ & ->)];
    [done|]. apply rc_bump_db, rc_set_group_assignments; [done|].
  intros r m a b [_ Hin]%lookup_delete_Some. by eapply (rc_group_assignments _ Hrc).
Qed.

Lemma rc_archive_target db now realm target :
  realm_closed db -> targets db !! t_id target = Some target ->
  realm_closed (archive_target now realm target db).1.
Proof.
  intros Hrc Ht.
  destruct (archive_target_effect db now realm target Ht) as [->|(Htr & _ & ->)]; [done|].
  apply rc_bump_db.
  assert (Hrc1 : realm_closed (archived_targets now target db)).
  { apply rc_set_targets; [done| |].
    - apply realm_kept_insert. intros x Hx. by simplify_eq.
    - intros k x [[<- <-]|[_ Hx]]%lookup_insert_Some; [done|by apply (rc_targets _ Hrc)]. }
  apply (rc_set_monitors _ Hrc1).
  - apply realm_kept_fmap. intros m. by destruct (live_monitor_of _ _ _).
  - intros k m. rewrite lookup_fmap. intros (m0 & Hm0 & ->)%fmap_Some.
    pose proof (rc_monitors _ Hrc1 _ _ Hm0). by destruct (live_monitor_of _ _ _).
Qed.

Lemma rc_exchange db now secret cid raw :
  realm_closed db -> realm_closed (exchange_enrolment_token now secret cid raw db).1.
Proof.
  intros Hrc. destruct (exchange_enrolment_token now secret cid raw db) as [db' [r|e]] eqn:E.
  - destruct r as [[ag cr] out].
    apply exchange_inv in E as (k & tok & Hk & _ & _ & _ & Hag & Har & _ & _ & -> & _ & _ & ->).
    assert (Hrc1 : realm_closed (set_agent_credentials (<[cid := mkAgentCredential cid
      (tok_realm_id tok) (tok_agent_id tok) ("Enrolled " +:+ str_uuid cid) (hash_token secret)
      None None None now]> (agent_credentials db)) db)).
    { apply rc_set_credentials; [done|].
      intros j c [[<- <-]|[_ Hc]]%lookup_insert_Some; [|by eapply (rc_credentials _ Hrc)].
      exists ag. done. }
    apply (rc_set_tokens _ Hrc1). intros j t. simpl.
    destruct (decide (j = tok_id tok)) as [->|].
    + rewrite lookup_alter_eq. intros (t0 & Ht0 & ->)%fmap_Some. by apply (rc_tokens _ Hrc) in Ht0.
    + rewrite lookup_alter_ne by done. apply (rc_tokens _ Hrc).
  - by apply exchange_err in E as ->.
Qed.

Lemma rc_issue db now raw id realm agent ttl :
  realm_closed db ->
  realm_closed (issue_enrolment_token settings now raw id realm agent ttl db).1.
Proof.
  intros Hrc. unfold issue_enrolment_token. rewrite bind_run. unfold in_transaction. mrun.
  destruct (get_row _ _ _) as [ag|] eqn:Eg; cbn [is_none]; mrun; [|done].
  apply get_row_Some in Eg as [Hag Har%N.eqb_eq].
  unfold update_tokens, insert_token. mrun. destruct (_ || _); [done|]. simpl.
  apply rc_set_tokens; [apply rc_set_tokens; [done|]|].
  - intros k t. rewrite lookup_fmap. intros (t0 & Ht0 & ->)%fmap_Some.
    apply (rc_tokens _ Hrc) in Ht0. by destruct (_ && _).
  - intros k t [[<- <-]|[_ Hin]]%lookup_insert_Some; [by exists ag|].
    rewrite lookup_fmap in Hin. apply fmap_Some in Hin as (t0 & Ht0 & ->).
    apply (rc_tokens _ Hrc) in Ht0. by destruct (_ && _).
Qed.

Lemma rc_map_credentials db f :
  realm_closed db ->
  (forall c, cr_realm_id (f c) = cr_realm_id c /\ cr_agent_id (f c) = cr_agent_id c) ->
  realm_closed (set_agent_credentials (f <$> agent_credentials db) db).
Proof.
  intros Hrc Hf. apply rc_set_credentials; [done|]. intros k c. rewrite lookup_fmap.
  intros (c0 & Hc0 & ->)%fmap_Some. destruct (Hf c0) as [-> ->]. by eapply (rc_credentials _ Hrc).
Qed.

Lemma rc_credential_step db db' :
  credential_step settings realms db db' -> realm_closed db -> realm_closed db'.
Proof.
  intros Hstep Hrc. destruct Hstep as [now raw tid realm agent ttl db|now secret cid raw db
    |now header db|now realm agent tid db|now realm cid db].
  - by apply rc_issue.
  - by apply rc_exchange.
  - destruct (authenticate_agent realms now header db) as [db' [au|e]] eqn:E; simpl.
    + apply authenticate_inv in E as (?&?&?&?&?&c&?&?&?&?&?&?&?&?&?&?&?&?&?&->).
      apply rc_set_credentials; [done|]. intros k c'. destruct (decide (k = cr_id c)) as [->|].
      * rewrite lookup_alter_eq. intros (c0 & Hc0 & ->)%fmap_Some.
        by apply (rc_credentials _ Hrc) in Hc0.
      * rewrite lookup_alter_ne by done. apply (rc_credentials _ Hrc).
    + apply authenticate_err in E as [-> _]. done.
  - apply rc_set_tokens; [done|]. intros k t. rewrite lookup_fmap.
    intros (t0 & Ht0 & ->)%fmap_Some. apply (rc_tokens _ Hrc) in Ht0. by destruct (_ && _).
  - apply rc_map_credentials; [done|]. intros c. by destruct (_ && _).
Qed.
End Operations.
