(* ===== verification/Confinement.v ===== *)
(** * Writes stay in their realm

    [confined r db db'] says that going from [db] to [db'] changed nothing that belongs to a
    realm other than [r].  Every operation the browser API runs for a realm is confined to
    it, on tables whose relations join rows of one realm. *)

From S2P Require Import Prelude PyText Json Platform Models ProbeConfig Domain.
From S2P Require Import Credentials Configuration Selection HierarchyProps CredentialsProps Effects.
From S2P Require Import Isolation.
Local Open Scope Z_scope.

Section Confined.
Context (r : uuid).

(** The rows of the other realms are the same. *)
Definition foreign_kept {R} (realm : R -> uuid) (t t' : gmap uuid R) : Prop :=
  forall k x, realm x <> r -> t !! k = Some x <-> t' !! k = Some x.

Record confined (db db' : MonDB) : Prop := {
  cn_agents : foreign_kept a_realm_id (agents db) (agents db');
  cn_agent_groups : foreign_kept g_realm_id (agent_groups db) (agent_groups db');
  cn_targets : foreign_kept t_realm_id (targets db) (targets db');
  cn_target_groups : foreign_kept tg_realm_id (target_groups db) (target_groups db');
  cn_monitors : foreign_kept m_realm_id (monitors db) (monitors db');
  cn_tokens : foreign_kept tok_realm_id (agent_enrolment_tokens db) (agent_enrolment_tokens db');
  cn_credentials : foreign_kept cr_realm_id (agent_credentials db) (agent_credentials db');
  cn_operational : agent_operational_states db' = agent_operational_states db;
  cn_snapshots : agent_configuration_snapshots db' = agent_configuration_snapshots db;
  cn_memberships : forall q g a, q <> r ->
    (q, g, a) ∈ agent_group_memberships db <-> (q, g, a) ∈ agent_group_memberships db';
  cn_target_memberships : forall q g t, q <> r ->
    (q, g, t) ∈ target_group_memberships db <-> (q, g, t) ∈ target_group_memberships db';
  cn_assignments : forall q m a, q <> r ->
    monitor_agent_assignments db' !! (q, m, a) = monitor_agent_assignments db !! (q, m, a);
  cn_group_assignments : forall q m g, q <> r ->
    monitor_agent_group_assignments db' !! (q, m, g) =
    monitor_agent_group_assignments db !! (q, m, g);
  (** The configuration state of an agent of another realm. *)
  cn_states : forall a x, agents db !! a = Some x -> a_realm_id x <> r ->
    agent_configuration_states db' !! a = agent_configuration_states db !! a;
}.

#[export] Instance foreign_kept_preorder {R} (realm : R -> uuid) : PreOrder (foreign_kept realm).
Proof. split; [by intros t k x|]. intros t1 t2 t3 H H' k x Hx. by rewrite (H k x Hx), (H' k x Hx). Qed.

#[export] Instance confined_preorder : PreOrder confined.
Proof.
  split; [by intros db; split|]. intros db1 db2 db3 H H'.
  split; try (etransitivity; [apply H|apply H']; fail).
  - rewrite (cn_operational _ _ H'). apply H.
  - rewrite (cn_snapshots _ _ H'). apply H.
  - intros q g a Hq. by rewrite (cn_memberships _ _ H), (cn_memberships _ _ H').
  - intros q g a Hq. by rewrite (cn_target_memberships _ _ H), (cn_target_memberships _ _ H').
  - intros q m a Hq. by rewrite (cn_assignments _ _ H'), (cn_assignments _ _ H).
  - intros q m a Hq. by rewrite (cn_group_assignments _ _ H'), (cn_group_assignments _ _ H).
  - intros a x Ha Hx. rewrite (cn_states _ _ H' a x), (cn_states _ _ H a x); try done.
    by apply (cn_agents _ _ H).
Qed.

(** ** Writing tables *)

Lemma foreign_insert {R} (realm : R -> uuid) (t : gmap uuid R) k x :
  realm x = r -> (forall y, t !! k = Some y -> realm y = r) ->
  foreign_kept realm t (<[k := x]> t).
Proof.
  intros Hx Hold j y Hy. destruct (decide (j = k)) as [->|]; [|by rewrite lookup_insert_ne].
  rewrite lookup_insert_eq. split; [intros Hj; by apply Hold in Hj|congruence].
Qed.

Lemma foreign_fmap {R} (realm : R -> uuid) (t : gmap uuid R) (f : R -> R) :
  (forall x, realm x <> r -> f x = x) -> (forall x, realm (f x) = realm x) ->
  foreign_kept realm t (f <$> t).
Proof.
  intros Hf Hr k x Hx. rewrite lookup_fmap. split.
  - intros ->. simpl. by rewrite Hf.
  - intros (y & Hy & ->)%fmap_Some. rewrite Hr in Hx. by rewrite Hf.
Qed.

Section Writes.
Context (db : MonDB).
Lemma confined_set_agents v : foreign_kept a_realm_id (agents db) v -> confined db (set_agents v db).
Proof. by split. Qed.
Lemma confined_set_agent_groups v :
  foreign_kept g_realm_id (agent_groups db) v -> confined db (set_agent_groups v db).
Proof. by split. Qed.
Lemma confined_set_targets v :
  foreign_kept t_realm_id (targets db) v -> confined db (set_targets v db).
Proof. by split. Qed.
Lemma confined_set_target_groups v :
  foreign_kept tg_realm_id (target_groups db) v -> confined db (set_target_groups v db).
Proof. by split. Qed.
Lemma confined_set_monitors v :
  foreign_kept m_realm_id (monitors db) v -> confined db (set_monitors v db).
Proof. by split. Qed.
Lemma confined_set_tokens v : foreign_kept tok_realm_id (agent_enrolment_tokens db) v ->
  confined db (set_agent_enrolment_tokens v db).
Proof. by split. Qed.
Lemma confined_set_credentials v : foreign_kept cr_realm_id (agent_credentials db) v ->
  confined db (set_agent_credentials v db).
Proof. by split. Qed.
Lemma confined_set_memberships v :
  (forall q g a, q <> r -> (q, g, a) ∈ agent_group_memberships db <-> (q, g, a) ∈ v) ->
  confined db (set_agent_group_memberships v db).
Proof. by split. Qed.
Lemma confined_set_target_memberships v :
  (forall q g t, q <> r -> (q, g, t) ∈ target_group_memberships db <-> (q, g, t) ∈ v) ->
  confined db (set_target_group_memberships v db).
Proof. by split. Qed.
Lemma confined_set_assignments v :
  (forall q m a, q <> r -> v !! (q, m, a) = monitor_agent_assignments db !! (q, m, a)) ->
  confined db (set_monitor_agent_assignments v db).
Proof. by split. Qed.
Lemma confined_set_group_assignments v :
  (forall q m g, q <> r -> v !! (q, m, g) = monitor_agent_group_assignments db !! (q, m, g)) ->
  confined db (set_monitor_agent_group_assignments v db).
Proof. by split. Qed.

(** A bump of agents of the realm. *)
Lemma confined_bump ids :
  (forall a, a ∈ ids -> has_agent db r a) -> confined db (bump_db ids r db).
Proof.
  intros Hids. split; try done. intros a x Ha Hx. simpl. rewrite lookup_bumped.
  destruct (decide (a ∈ ids)) as [Hin|]; [|done].
  destruct (Hids _ Hin) as (y & Hy & Hyr). congruence.
Qed.
End Writes.
End Confined.

Lemma effective_has_agent db m a :
  realm_closed db -> a ∈ effective_agent_ids_of db m -> has_agent db (m_realm_id m) a.
Proof.
  intros Hrc (_ & _ & Hr)%elem_of_effective_agent_ids. by eapply routed_has_agent.
Qed.

Lemma member_has_agent db r g a :
  realm_closed db -> a ∈ (list_to_set (usable_members db r g) : gset uuid) -> has_agent db r a.
Proof.
  intros Hrc [_ Hin]%elem_of_list_to_set%elem_of_usable_members. by eapply (rc_memberships _ Hrc).
Qed.

(** ** The operations *)

Section Operations.
Context {CO : Coercions} {P : Platform} (settings : Settings).
Implicit Types (db : MonDB) (realm : Realm).

Lemma confined_insert_agent db a r : a_realm_id a = r -> confined r db (insert_agent a db).1.
Proof.
  intros <-. unfold insert_agent, check_name. mrun. destruct (negb _); [done|]. mrun.
  destruct (_ || _) eqn:E; [done|]. simpl. guards.
  by apply confined_set_agents, foreign_insert; [|congruence].
Qed.

Lemma confined_insert_target db t r : t_realm_id t = r -> confined r db (insert_target t db).1.
Proof.
  intros <-. unfold insert_target, check_name. mrun. do 2 (destruct (negb _); [done|]; mrun).
  destruct (_ || _) eqn:E; [done|]. simpl. guards.
  by apply confined_set_targets, foreign_insert; [|congruence].
Qed.

Lemma confined_insert_agent_group db (g : AgentGroup) r :
  g_realm_id g = r -> confined r db (insert_group g db).1.
Proof.
  intros <-. unfold insert_group, check_name. mrun. destruct (negb _); [done|]. mrun.
  destruct (_ || _) eqn:E; [done|]. simpl. guards. simpl in *.
  by apply confined_set_agent_groups, foreign_insert; [|congruence].
Qed.

Lemma confined_insert_target_group db (g : TargetGroup) r :
  tg_realm_id g = r -> confined r db (insert_group g db).1.
Proof.
  intros <-. unfold insert_group, check_name. mrun. destruct (negb _); [done|]. mrun.
  destruct (_ || _) eqn:E; [done|]. simpl. guards. simpl in *.
  by apply confined_set_target_groups, foreign_insert; [|congruence].
Qed.

Lemma confined_create_monitor db id realm target name probe interval timeout conf descr :
  confined (realm_id realm) db
    (create_monitor id realm target name probe interval timeout conf descr db).1.
Proof.
  destruct (create_monitor_effect db id realm target name probe interval timeout conf descr)
    as [->|(m & _ & Hr & _ & _ & Hnew & _ & _ & _ & ->)]; [done|].
  by apply confined_set_monitors, foreign_insert; [|congruence].
Qed.

Lemma confined_update_monitor db monitor realm target probe interval timeout conf :
  realm_closed db -> monitors db !! m_id monitor = Some monitor ->
  targets db !! t_id target = Some target ->
  confined (realm_id realm) db
    (update_monitor_behavior monitor realm target probe interval timeout conf db).1.
Proof.
  intros Hrc Hm Ht.
  destruct (update_monitor_effect db monitor realm target probe interval timeout conf Hm)
    as [->|(m' & Hid & Hr & Htg & _ & _ & _ & _ & _ & Hmr & Htr & Heq)]; [done|].
  cbv zeta in Heq. rewrite Heq. set (db1 := set_monitors _ db) in *.
  assert (realm_closed db1) as Hrc1.
  { apply rc_set_monitors; [done|apply realm_kept_insert; intros x Hx; congruence|].
    intros k x [[<- <-]|[_ Hx]]%lookup_insert_Some; [|by apply (rc_monitors _ Hrc)].
    split; [done|]. exists target. rewrite Htg, Hr. split; [done|congruence]. }
  transitivity db1; [apply confined_set_monitors, foreign_insert; [congruence|]|].
  - intros y Hy. congruence.
  - apply confined_bump. intros a Ha. apply effective_has_agent in Ha; [|done].
    by rewrite Hr, Hmr in Ha.
Qed.

Lemma confined_rename_monitor db q id name descr :
  confined q db (rename_monitor q id name descr db).1.
Proof.
  unfold rename_monitor, check_name. mrun. destruct (negb _); [done|]. mrun.
  destruct (get_row _ _ _) as [m|] eqn:Eg; [|done]. apply get_row_Some in Eg as [Hm Hq%N.eqb_eq].
  mrun. destruct (exists_row _ _); [done|]. simpl.
  apply confined_set_monitors, foreign_insert; [done|]. intros y Hy. congruence.
Qed.

Lemma confined_add_agent db realm group agent :
  agents db !! a_id agent = Some agent ->
  confined (realm_id realm) db (add_agent_to_group realm group agent db).1.
Proof.
  intros Ha. set (v := {[(realm_id realm, g_id group, a_id agent)]} ∪ agent_group_memberships db).
  assert (confined (realm_id realm) db (set_agent_group_memberships v db)) as Hset
    by (apply confined_set_memberships; set_solver).
  destruct (add_agent_effect db realm group agent) as [->|(Hgr & Har & [->|[-> _]])]; [done| |done].
  etransitivity; [exact Hset|]. apply confined_bump. intros a ->%elem_of_singleton. by exists agent.
Qed.

Lemma confined_remove_agent db realm group agent :
  agents db !! a_id agent = Some agent ->
  confined (realm_id realm) db (remove_agent_from_group realm group agent db).1.
Proof.
  intros Ha. set (v := agent_group_memberships db ∖ {[(realm_id realm, g_id group, a_id agent)]}).
  assert (confined (realm_id realm) db (set_agent_group_memberships v db)) as Hset
    by (apply confined_set_memberships; set_solver).
  destruct (remove_agent_effect db realm group agent) as [->|(Hgr & Har & [->|[-> _]])];
    [done| |done].
  etransitivity; [exact Hset|]. apply confined_bump. intros a ->%elem_of_singleton. by exists agent.
Qed.

Lemma confined_add_target db realm group target :
  confined (realm_id realm) db (add_target_to_group realm group target db).1.
Proof.
  unfold add_target_to_group, _require_same_realm, _require_active. mrun.
  check_guard G1; mrun; [done|]. check_guard G2; mrun; [done|].
  apply confined_set_target_memberships. set_solver.
Qed.

Lemma confined_delete_target_membership db q g t :
  confined q db (delete_target_membership q g t db).1.
Proof. apply confined_set_target_memberships. set_solver. Qed.

Lemma confined_assign_agent db realm monitor agent :
  agents db !! a_id agent = Some agent ->
  confined (realm_id realm) db (assign_monitor_to_agent realm monitor agent db).1.
Proof.
  intros Ha. destruct (assign_agent_effect db realm monitor agent) as [->|(Hmr & Har & ->)]; [done|].
  etransitivity; [|apply confined_bump]; [apply confined_set_assignments|].
  - intros q m a Hq. rewrite lookup_insert_ne; [done|congruence].
  - intros a ->%elem_of_singleton. by exists agent.
Qed.

Lemma confined_assign_group db realm monitor group :
  realm_closed db ->
  confined (realm_id realm) db (assign_monitor_to_agent_group realm monitor group db).1.
Proof.
  intros Hrc. destruct (assign_group_effect db realm monitor group) as [->|(Hmr & Hgr & ->)]; [done|].
  etransitivity; [|apply confined_bump]; [apply confined_set_group_assignments|].
  - intros q m a Hq. rewrite lookup_insert_ne; [done|congruence].
  - intros a Ha. exact (member_has_agent _ _ _ _ Hrc Ha).
Qed.

Lemma confined_unassign_agent db realm monitor agent :
  agents db !! a_id agent = Some agent ->
  confined (realm_id realm) db (unassign_monitor_from_agent realm monitor agent db).1.
Proof.
  intros Ha. destruct (unassign_agent_effect db realm monitor agent) as [->|(Hmr & Har & ->)]; [done|].
  etransitivity; [|apply confined_bump]; [apply confined_set_assignments|].
  - intros q m a Hq. rewrite lookup_delete_ne; [done|congruence].
  - intros a ->%elem_of_singleton. by exists agent.
Qed.

Lemma confined_unassign_group db realm monitor group :
  realm_closed db ->
  confined (realm_id realm) db (unassign_monitor_from_agent_group realm monitor group db).1.
Proof.
  intros Hrc. destruct (unassign_group_effect db realm monitor group) as [->|(Hmr & Hgr & ->)]; [done|].
  etransitivity; [|apply confined_bump]; [apply confined_set_group_assignments|].
  - intros q m a Hq. rewrite lookup_delete_ne; [done|congruence].
  - intros a Ha. exact (member_has_agent _ _ _ _ Hrc Ha).
Qed.

Lemma confined_archive_target db now realm target :
  realm_closed db -> targets db !! t_id target = Some target ->
  confined (realm_id realm) db (archive_target now realm target db).1.
Proof.
  intros Hrc Ht.
  destruct (archive_target_effect db now realm target Ht) as [->|(Htr & _ & ->)]; [done|].
  etransitivity; [apply (confined_set_targets _ _ (<[t_id target := archived_row now target]> (targets db)))|].
  { apply foreign_insert; [done|]. intros y Hy. congruence. }
  etransitivity; [apply confined_set_monitors, (foreign_fmap _ _ _ (fun m =>
    if live_monitor_of (realm_id realm) (t_id target) m then archive_monitor now m else m))|].
  - intros m Hm. unfold live_monitor_of. by rewrite (proj2 (N.eqb_neq _ _) Hm).
  - intros m. by destruct (live_monitor_of _ _ _).
  - apply confined_bump. intros a. unfold affected_agents.
    rewrite elem_of_union_list. intros (s & Hs & Ha).
    apply list_elem_of_fmap in Hs as (m & -> & Hm). apply list_elem_of_In, filter_In in Hm as [_ Hm].
    unfold live_monitor_of in Hm. guards. rewrite <-H.
    assert (realm_closed (archived_targets now target db)) as Hrc1.
    { apply rc_set_targets; [done|apply realm_kept_insert; intros x Hx; by simplify_eq|].
      intros k x [[<- <-]|[_ Hx]]%lookup_insert_Some; [done|by apply (rc_targets _ Hrc)]. }
    exact (effective_has_agent _ _ _ Hrc1 Ha).
Qed.

Lemma confined_update_tokens db q p f :
  (forall t, p t = true -> tok_realm_id t = q) -> (forall t, tok_realm_id (f t) = tok_realm_id t) ->
  confined q db (update_tokens p f db).1.
Proof.
  intros Hp Hf. apply confined_set_tokens, foreign_fmap; intros t; destruct (p t) eqn:E; try done.
  intros Ht. by apply Hp in E.
Qed.

Lemma confined_issue db now raw id realm agent ttl :
  confined (realm_id realm) db (issue_enrolment_token settings now raw id realm agent ttl db).1.
Proof.
  unfold issue_enrolment_token. rewrite bind_run. unfold in_transaction. mrun.
  destruct (get_row _ _ _) as [ag|] eqn:Eg; cbn [is_none]; mrun; [|done].
  set (p := fun t : AgentEnrolmentToken => _).
  pose proof (confined_update_tokens db (realm_id realm) p (revoke_token now)) as Hup.
  unfold update_tokens, insert_token in *. mrun. destruct (_ || _) eqn:E; [done|]. simpl. guards.
  etransitivity; [apply Hup; [|done]|].
  { intros t Ht. unfold p in Ht. by guards. }
  apply confined_set_tokens. simpl. apply foreign_insert; [done|]. simpl in *. congruence.
Qed.

Lemma confined_revoke_token db now realm agent id :
  confined (realm_id realm) db (revoke_enrolment_token now realm agent id db).1.
Proof.
  apply confined_update_tokens; [|done]. intros t Ht. by guards.
Qed.

Lemma confined_revoke_credential db now realm id :
  confined (realm_id realm) db (revoke_credential now realm id db).1.
Proof.
  apply confined_set_credentials, foreign_fmap; intros c; destruct (_ && _) eqn:E; try done.
  intros Hc. by guards.
Qed.
End Operations.
