(* ===== verification/Steps.v ===== *)
(** * The steps of the control plane on the monitoring tables

    One constructor per operation the API runs, with arguments as the handlers pass
    them: rows they have just loaded, and an agent that has just authenticated.  Every
    run of an operation, returning or raising, is a step; requests are taken one after
    another. *)

From S2P Require Import Prelude PyText Json Platform Models ProbeConfig Domain.
From S2P Require Import Credentials Configuration Selection Effects HierarchyProps CredentialsProps.
From S2P Require Import Isolation.
Local Open Scope Z_scope.

(** An authenticated agent is an enabled, unarchived row of its realm. *)
Record authenticated (db : MonDB) (au : AgentAuthentication) : Prop := {
  au_row : agents db !! a_id (au_agent au) = Some (au_agent au);
  au_same_realm : a_realm_id (au_agent au) = realm_id (au_realm au);
  au_enabled : a_enabled (au_agent au) = true;
  au_active : a_archived_at (au_agent au) = None;
}.

Section Steps.
Context {CO : Coercions} {P : Platform} (settings : Settings).

Inductive mon_step : MonDB -> MonDB -> Prop :=
| step_insert_agent a db : mon_step db (insert_agent a db).1
| step_insert_target t db : mon_step db (insert_target t db).1
| step_insert_agent_group (g : AgentGroup) db :
    (forall p, g_parent_id g = Some p -> has_group db (g_realm_id g) p) ->
    mon_step db (insert_group g db).1
| step_insert_target_group (g : TargetGroup) db :
    (forall p, tg_parent_id g = Some p -> has_target_group db (tg_realm_id g) p) ->
    mon_step db (insert_group g db).1
| step_create_monitor id realm target name probe interval timeout conf descr db :
    targets db !! t_id target = Some target ->
    mon_step db (create_monitor id realm target name probe interval timeout conf descr db).1
| step_update_monitor monitor realm target probe interval timeout conf db :
    monitors db !! m_id monitor = Some monitor -> targets db !! t_id target = Some target ->
    mon_step db (update_monitor_behavior monitor realm target probe interval timeout conf db).1
| step_rename_monitor r id name descr db : mon_step db (rename_monitor r id name descr db).1
| step_move_agent_group group parent db :
    agent_groups db !! g_id group = Some group -> loaded db parent ->
    mon_step db (move_agent_group group parent db).1
| step_move_target_group group parent db :
    target_groups db !! tg_id group = Some group -> loaded db parent ->
    mon_step db (move_target_group group parent db).1
| step_add_agent realm group agent db :
    agent_groups db !! g_id group = Some group -> agents db !! a_id agent = Some agent ->
    mon_step db (add_agent_to_group realm group agent db).1
| step_remove_agent realm group agent db :
    agents db !! a_id agent = Some agent ->
    mon_step db (remove_agent_from_group realm group agent db).1
| step_add_target realm group target db :
    target_groups db !! tg_id group = Some group -> targets db !! t_id target = Some target ->
    mon_step db (add_target_to_group realm group target db).1
| step_delete_target_membership r g t db : mon_step db (delete_target_membership r g t db).1
| step_assign_agent realm monitor agent db :
    monitors db !! m_id monitor = Some monitor -> agents db !! a_id agent = Some agent ->
    mon_step db (assign_monitor_to_agent realm monitor agent db).1
| step_assign_group realm monitor group db :
    monitors db !! m_id monitor = Some monitor -> agent_groups db !! g_id group = Some group ->
    mon_step db (assign_monitor_to_agent_group realm monitor group db).1
| step_unassign_agent realm monitor agent db :
    agents db !! a_id agent = Some agent ->
    mon_step db (unassign_monitor_from_agent realm monitor agent db).1
| step_unassign_group realm monitor group db :
    mon_step db (unassign_monitor_from_agent_group realm monitor group db).1
| step_archive_target now realm target db :
    targets db !! t_id target = Some target ->
    mon_step db (archive_target now realm target db).1
(** [realms] is the realm table at the time of the step. *)
| step_credentials realms db db' : credential_step settings realms db db' -> mon_step db db'
| step_heartbeat now au payload db :
    authenticated db au -> mon_step db (record_heartbeat now au payload db).1
| step_configuration now au db :
    authenticated db au -> mon_step db (get_or_create_configuration now au db).1
| step_acknowledge au revision hash at_ db :
    authenticated db au -> mon_step db (acknowledge_configuration au revision hash at_ db).1.

(** The configuration operations write the states and the snapshots only. *)
Section Frame.
Context (I : MonDB -> Prop).
Context (I_states : forall v db, I db -> I (set_agent_configuration_states v db)).
Context (I_snapshots : forall v db, I db -> I (set_agent_configuration_snapshots v db)).

Lemma frame_get_or_create_state r a : preserves I (get_or_create_state r a).
Proof.
  apply preserves_bind; [apply preserves_gets|intros [st|]].
  - apply preserves_bind; [apply preserves_raise_if|intros; apply preserves_ret].
  - apply preserves_bind; [|intros; apply preserves_ret]. intros db. apply I_states.
Qed.

Lemma frame_get_or_create_snapshot now r a k h c :
  preserves I (get_or_create_snapshot now r a k h c).
Proof.
  apply preserves_bind; [apply preserves_gets|intros [sn|]]; [apply preserves_ret|].
  apply preserves_bind; [apply preserves_raise_if|intros _].
  apply preserves_bind; [|intros; apply preserves_ret]. intros db. apply I_snapshots.
Qed.

Lemma frame_configuration now au : preserves I (get_or_create_configuration now au).
Proof.
  apply preserves_in_transaction.
  apply preserves_bind; [apply frame_get_or_create_state|intros st].
  apply preserves_bind; [apply preserves_gets|intros [op|]]; [|apply preserves_raise].
  apply preserves_bind; [by intros db|intros entries].
  apply preserves_bind; [apply frame_get_or_create_snapshot|intros sn].
  apply preserves_bind; [apply preserves_raise_if|intros _].
  apply preserves_bind; [|intros; apply preserves_ret].
  apply preserves_if; [|apply preserves_ret]. intros db. apply I_states.
Qed.

Lemma frame_acknowledge au revision hash at_ :
  preserves I (acknowledge_configuration au revision hash at_).
Proof.
  apply preserves_in_transaction.
  apply preserves_bind; [apply preserves_raise_if|intros _].
  apply preserves_bind; [apply preserves_gets|intros sn].
  apply preserves_bind; [apply preserves_raise_if|intros _].
  apply preserves_bind; [apply preserves_gets|intros [st|]]; [|apply preserves_raise].
  apply preserves_if; [|apply preserves_ret].
  apply preserves_bind; [apply preserves_raise_if|intros _].
  apply preserves_bind; [|intros; apply preserves_ret]. intros db. apply I_states.
Qed.
End Frame.

Lemma rc_heartbeat db now au payload :
  realm_closed db -> authenticated db au -> realm_closed (record_heartbeat now au payload db).1.
Proof.
  intros Hrc [Hrow Hr _ _]. unfold record_heartbeat. mrun. check_guard G; mrun; [done|].
  check_guard G2; mrun; [done|].
  set (db1 := set_agent_operational_states _ db).
  assert (realm_closed db1) as Hrc1.
  { apply rc_set_operational; [done|].
    intros k o [[<- <-]|[_ Ho]]%lookup_insert_Some; [|by apply (rc_operational _ Hrc)].
    split; [done|]. by exists (au_agent au). }
  pose proof (frame_get_or_create_state realm_closed (fun v d H => rc_set_states d H v)
    (realm_id (au_realm au)) (a_id (au_agent au)) db1 Hrc1) as H.
  by destruct (get_or_create_state _ _ db1) as [? [?|?]].
Qed.

Lemma rc_step db db' : mon_step db db' -> realm_closed db -> realm_closed db'.
Proof.
  intros Hstep Hrc. destruct Hstep; eauto using rc_insert_agent, rc_insert_target,
    rc_insert_agent_group, rc_insert_target_group, rc_create_monitor, rc_update_monitor,
    rc_rename_monitor, rc_move_agent_group, rc_move_target_group, rc_add_agent,
    rc_remove_agent, rc_add_target, rc_delete_target_membership, rc_assign_agent,
    rc_assign_group, rc_unassign_agent, rc_unassign_group, rc_archive_target,
    rc_credential_step, rc_heartbeat.
  - by apply frame_configuration; [intros; by apply rc_set_states|intros; by apply rc_set_snapshots|].
  - by apply frame_acknowledge; [intros; by apply rc_set_states|].
Qed.

(** Tenant isolation: from the empty database, after any sequence of the operations
    the API runs, every relation (membership, assignment, monitor target, group parent,
    token, credential, heartbeat row) joins rows of one realm, and rows lie under their
    ids. *)
Theorem realms_stay_closed db : rtc mon_step empty_db db -> realm_closed db.
Proof.
  assert (Hgen : forall x y, rtc mon_step x y -> realm_closed x -> realm_closed y).
  { induction 1 as [|x y z Hxy _ IH]; [done|]. intros Hrc. apply IH. by eapply rc_step. }
  intros Hsteps. apply (Hgen _ _ Hsteps). split; done.
Qed.
End Steps.

(** ** A worked run

    An agent and a target are created, a TCP monitor is put on the target and assigned to
    the agent, the agent sends a heartbeat, fetches its configuration and acknowledges it. *)

Module Demo.
#[export] Existing Instance example_platform.
#[export] Existing Instance strict_coercions.

Definition target : Target := mkTarget 20 1 "router" None "192.0.2.1" true None.
Definition monitor : Monitor :=
  mkMonitor 30 1 20 "ssh" None TCP 60 10
    (JObject [("address_family", JString "auto"); ("port", JInt 22); ("schema_version", JInt 1)])
    true 1 None.
Definition capabilities : json :=
  JObject [("probes", JObject [("tcp", JObject [("available", JBool true);
    ("schema_versions", JArray [JInt 1])])])].
Definition heartbeat : AgentHeartbeatRequest :=
  mkAgentHeartbeatRequest 1 "1.0" "linux" "amd64" "probe-1" capabilities 0 0 0 0 None DBHealthy
    SchedRunning 1000000 [].
Definition au : AgentAuthentication :=
  mkAgentAuthentication example_realm example_agent
    (mkAgentCredential 9 1 5 "Enrolled" "" None None None 0).

Definition db1 : MonDB := (insert_agent example_agent empty_db).1.
Definition db2 : MonDB := (insert_target target db1).1.
Definition db3 : MonDB :=
  (create_monitor 30 example_realm target "ssh" TCP 60 10 (JObject [("port", JInt 22)]) None db2).1.
Definition db4 : MonDB := (assign_monitor_to_agent example_realm monitor example_agent db3).1.
Definition db5 : MonDB := (record_heartbeat 2000000 au heartbeat db4).1.
Definition db6 : MonDB := (get_or_create_configuration 3000000 au db5).1.
Definition issued_hash : string :=
  content_hash_of (hash_input 1 5 [monitor_entry monitor target 1]).
Definition db7 : MonDB :=
  (acknowledge_configuration au 1 ("sha256:" +:+ issued_hash) 4000000 db6).1.

(** The agent authenticates in each of these states. *)
Lemma au_authenticated db :
  agents db !! 5%N = Some example_agent -> authenticated db au.
Proof. intros H. by split. Qed.

Abbreviation step := (mon_step default_settings).

Lemma reach3 : rtc step empty_db db3.
Proof.
  eapply rtc_l; [apply (step_insert_agent default_settings example_agent)|].
  eapply rtc_l; [apply (step_insert_target default_settings target)|].
  apply rtc_once, (step_create_monitor default_settings 30 example_realm target).
  by vm_compute.
Qed.

Lemma step34 : step db3 db4.
Proof.
  apply (step_assign_agent default_settings example_realm monitor example_agent); by vm_compute.
Qed.

Lemma reach4 : rtc step empty_db db4.
Proof. eapply rtc_r; [apply reach3|apply step34]. Qed.

Lemma reach5 : rtc step empty_db db5.
Proof.
  eapply rtc_r; [apply reach4|]. apply step_heartbeat, au_authenticated. by vm_compute.
Qed.

Lemma reach6 : rtc step empty_db db6.
Proof.
  eapply rtc_r; [apply reach5|]. apply step_configuration, au_authenticated. by vm_compute.
Qed.

Lemma reach7 : rtc step empty_db db7.
Proof.
  eapply rtc_r; [apply reach6|]. apply step_acknowledge, au_authenticated. by vm_compute.
Qed.

(** What the run leaves in the tables, by evaluation. *)
Definition content : json := hash_input 1 5 [monitor_entry monitor target 1].

Lemma au5 : authenticated db5 au.
Proof. apply au_authenticated. by vm_compute. Qed.
Lemma au6 : authenticated db6 au.
Proof. apply au_authenticated. by vm_compute. Qed.
Lemma agent7 : agents db7 !! 5%N = Some example_agent.
Proof. by vm_compute. Qed.
Lemma target7 : targets db7 !! 20%N = Some target.
Proof. by vm_compute. Qed.
Lemma snapshot6 : agent_configuration_snapshots db6 !! (1%N, 5%N, 1) =
  Some (mkAgentConfigurationSnapshot 1 5 1 issued_hash content 3000000).
Proof. by vm_compute. Qed.
Lemma state7 : agent_configuration_states db7 !! 5%N =
  Some (mkAgentConfigurationState 1 1 issued_hash 1 issued_hash (Some 4000000)).
Proof. by vm_compute. Qed.
Lemma operational5 : exists op, agent_operational_states db5 !! 5%N = Some op /\
  op_capabilities op = capabilities.
Proof. eexists. by vm_compute. Qed.
Lemma entries5 : build_entries capabilities (configured_monitors db5 1 5) =
  Ok [monitor_entry monitor target 1].
Proof. by vm_compute. Qed.
Lemma desired5 : agent_configuration_states db5 !! 5%N =
  Some (mkAgentConfigurationState 1 1 EmptyString 0 EmptyString None).
Proof. by vm_compute. Qed.
End Demo.

Lemma realms_stay_closed_witness : realm_closed Demo.db7.
Proof.
  apply (realms_stay_closed (CO := strict_coercions) (P := example_platform) default_settings).
  apply Demo.reach7.
Defined.
