(* ===== verification/Discipline.v ===== *)
(** * The revision discipline

    What an operation that is not part of the configuration protocol owes to it: the
    snapshots stay, the desired revisions only grow, and an agent whose configuration
    content changed has a new desired revision.  [disciplined] is that contract between
    two states; every operation of the domain service and of the inventory meets it. *)

From S2P Require Import Prelude PyText Json Platform Models ProbeConfig Domain.
From S2P Require Import Credentials Configuration Selection Effects HierarchyProps CredentialsProps.
From S2P Require Import Isolation Steps.
Local Open Scope Z_scope.

(** The desired revision of an agent, 0 before its state row exists. *)
Definition desired (db : MonDB) (a : uuid) : Z :=
  match agent_configuration_states db !! a with Some st => st_desired_revision st | None => 0 end.

Record state_kept (st st' : AgentConfigurationState) : Prop := {
  sk_realm : st_realm_id st' = st_realm_id st;
  sk_desired : st_desired_revision st <= st_desired_revision st';
  sk_hash : st_desired_content_hash st' = "" \/
    (st_desired_revision st' = st_desired_revision st /\
     st_desired_content_hash st' = st_desired_content_hash st);
  sk_ack : st_acknowledged_revision st' = st_acknowledged_revision st;
  sk_ack_hash : st_acknowledged_content_hash st' = st_acknowledged_content_hash st;
  sk_ack_at : st_acknowledged_at st' = st_acknowledged_at st;
}.

Record disciplined (db db' : MonDB) : Prop := {
  d_snapshots : agent_configuration_snapshots db' = agent_configuration_snapshots db;
  d_agents : forall a x, agents db !! a = Some x -> agents db' !! a = Some x;
  d_states : forall a st, agent_configuration_states db !! a = Some st ->
    exists st', agent_configuration_states db' !! a = Some st' /\ state_kept st st';
  d_new_states : forall a st', agent_configuration_states db' !! a = Some st' ->
    agent_configuration_states db !! a = None ->
    has_agent db' (st_realm_id st') a /\ 0 <= st_desired_revision st' /\
    st_desired_content_hash st' = "" /\ st_acknowledged_revision st' = 0 /\
    st_acknowledged_content_hash st' = "";
  d_content : forall a x, agents db !! a = Some x -> a_enabled x = true ->
    a_archived_at x = None ->
    desired db a < desired db' a \/
    current_content db' (a_realm_id x) a = current_content db (a_realm_id x) a;
}.

(** ** Changes that keep the configuration states *)

Section Frames.
Implicit Types db : MonDB.

Lemma state_kept_refl st : state_kept st st.
Proof. split; try done. by right. Qed.

(** Nothing of the configuration changed. *)
Lemma disciplined_quiet db db' :
  agent_configuration_snapshots db' = agent_configuration_snapshots db ->
  agent_configuration_states db' = agent_configuration_states db ->
  (forall a x, agents db !! a = Some x -> agents db' !! a = Some x) ->
  (forall a x, agents db !! a = Some x ->
     selected db' (a_realm_id x) a = selected db (a_realm_id x) a) ->
  disciplined db db'.
Proof.
  intros Hsn Hst Hag Hsel. split; [done|done|..].
  - rewrite Hst. intros a st Ha. exists st. split; [done|apply state_kept_refl].
  - rewrite Hst. congruence.
  - intros a x Hx _ _. right. unfold current_content, configured_monitors. by rewrite Hsel.
Qed.

Lemma disciplined_refl db : disciplined db db.
Proof. by apply disciplined_quiet. Qed.

(** The selection reads routes, monitors and targets only. *)
Lemma selected_tables db db' r a :
  monitors db' = monitors db -> targets db' = targets db ->
  monitor_agent_assignments db' = monitor_agent_assignments db ->
  monitor_agent_group_assignments db' = monitor_agent_group_assignments db ->
  agent_group_memberships db' = agent_group_memberships db ->
  agent_groups db' = agent_groups db ->
  selected db' r a = selected db r a.
Proof.
  intros Hm Ht H1 H2 H3 H4. unfold selected, _assigned_monitor_ids, direct_monitor_ids,
    grouped_monitor_ids, usable_group_ids, group_usable, select_monitor.
  by rewrite Hm, Ht, H1, H2, H3, H4.
Qed.

Lemma content_bump_db ids r0 db r a :
  current_content (bump_db ids r0 db) r a = current_content db r a.
Proof. done. Qed.

(** A change of the relations followed by a bump of the agents it concerns. *)
Lemma disciplined_bump db db1 ids r :
  agent_configuration_snapshots db1 = agent_configuration_snapshots db ->
  agent_configuration_states db1 = agent_configuration_states db ->
  agents db1 = agents db ->
  (forall a, a ∈ ids -> has_agent db r a) ->
  (forall a x, agents db !! a = Some x -> a_enabled x = true -> a_archived_at x = None ->
     a ∉ ids -> current_content db1 (a_realm_id x) a = current_content db (a_realm_id x) a) ->
  disciplined db (bump_db ids r db1).
Proof.
  intros Hsn Hst Hag Hids Hcont.
  assert (Hlook : forall a, agent_configuration_states (bump_db ids r db1) !! a =
    if decide (a ∈ ids) then Some (bump_state (default (new_configuration_state r)
      (agent_configuration_states db !! a))) else agent_configuration_states db !! a).
  { intros a. simpl. by rewrite lookup_bumped, Hst. }
  split.
  - done.
  - simpl. by rewrite Hag.
  - intros a st Ha. rewrite Hlook, Ha. destruct (decide (a ∈ ids)).
    + eexists. split; [done|]. split; try done; simpl; [lia|by left].
    + eexists. split; [done|apply state_kept_refl].
  - intros a st'. rewrite Hlook. intros Hs Hnone. rewrite Hnone in Hs.
    destruct (decide (a ∈ ids)); [|done]. simplify_eq/=.
    unfold has_agent. simpl. rewrite Hag. repeat split; [by apply Hids|lia].
  - intros a x Hx He Har. rewrite content_bump_db.
    destruct (decide (a ∈ ids)) as [Hin|Hout]; [left|right; eauto].
    unfold desired. rewrite Hlook, decide_True by done.
    destruct (agent_configuration_states db !! a); simpl; lia.
Qed.
End Frames.

(** ** The inventory *)

Section Inventory.
Context {CO : Coercions} {P : Platform} (settings : Settings) (realms : gmap uuid Realm).
Implicit Types (db : MonDB) (realm : Realm).

Lemma disciplined_insert_agent db a : disciplined db (insert_agent a db).1.
Proof.
  unfold insert_agent, check_name. mrun.
  do 1 (check_guard G; mrun; [apply disciplined_refl|]; clear G). check_guard E; mrun; [apply disciplined_refl|]. guards.
  apply disciplined_quiet; try done. simpl. intros k x Hk. rewrite lookup_insert_ne; congruence.
Qed.

Lemma disciplined_insert_target db t :
  realm_closed db -> disciplined db (insert_target t db).1.
Proof.
  intros Hrc. unfold insert_target, check_name. mrun.
  do 2 (check_guard G; mrun; [apply disciplined_refl|]; clear G). check_guard E; mrun; [apply disciplined_refl|]. guards.
  apply disciplined_quiet; try done. intros a x Hx. symmetry.
  apply selected_ext; try done; try by apply (rc_monitors_keyed db).
  intros k m t' Hm. simpl. assert (m_target_id m <> t_id t).
  { assert (monitors db !! k = Some m) as Hm' by naive_solver.
    apply (rc_monitors _ Hrc) in Hm' as [_ (y & Hy & _)]. congruence. }
  by rewrite lookup_insert_ne.
Qed.

(** Replacing group rows without changing which existing groups are usable. *)
Lemma disciplined_set_agent_groups db v :
  realm_closed db ->
  (forall g x, agent_groups db !! g = Some x ->
     group_usable (set_agent_groups v db) g = group_usable db g) ->
  disciplined db (set_agent_groups v db).
Proof.
  intros Hrc Hus. apply disciplined_quiet; try done. intros a x Hx. symmetry.
  apply selected_ext; try done; try by apply (rc_monitors_keyed db).
  intros k. unfold routed. simpl. split; intros [Hd|(g & Hg & Hu & Hin)]; auto; right; exists g;
    destruct (rc_memberships _ Hrc _ _ _ Hin) as [(y & Hy & _) _]; specialize (Hus _ _ Hy);
    repeat split; congruence.
Qed.

Lemma disciplined_insert_agent_group db (g : AgentGroup) :
  realm_closed db -> disciplined db (insert_group g db).1.
Proof.
  intros Hrc. unfold insert_group, check_name. mrun.
  do 1 (check_guard G; mrun; [apply disciplined_refl|]; clear G). check_guard E; mrun; [apply disciplined_refl|]. guards.
  apply disciplined_set_agent_groups; [done|]. intros k x Hk. unfold group_usable. simpl in *.
  rewrite lookup_insert_ne; [done|congruence].
Qed.

Lemma disciplined_insert_target_group db (g : TargetGroup) : disciplined db (insert_group g db).1.
Proof.
  unfold insert_group, check_name. mrun.
  do 1 (check_guard G; mrun; [apply disciplined_refl|]; clear G). check_guard E; mrun; [apply disciplined_refl|].
  by apply disciplined_quiet.
Qed.

Lemma disciplined_move_agent_group db group parent :
  realm_closed db -> agent_groups db !! g_id group = Some group ->
  disciplined db (move_agent_group group parent db).1.
Proof.
  intros Hrc Hg. unfold move_agent_group, move_group. rewrite bind_run.
  rewrite (surjective_pairing (_assert_group_parent group parent db)).
  rewrite assert_group_parent_pure. destruct (_assert_group_parent group parent db).2;
    [|apply disciplined_refl].
  unfold save_parent. mrun. cbn [h_id h_table h_set_parent AgentGroupTable g_id]. rewrite Hg. mrun.
  check_guard E; mrun; [apply disciplined_refl|].
  apply disciplined_set_agent_groups; [done|]. intros k x Hk. unfold group_usable. simpl.
  destruct (decide (k = g_id group)) as [->|]; [|by rewrite lookup_insert_ne].
  rewrite lookup_insert_eq, Hg. done.
Qed.

Lemma disciplined_move_target_group db group parent :
  target_groups db !! tg_id group = Some group ->
  disciplined db (move_target_group group parent db).1.
Proof.
  intros Hg. unfold move_target_group, move_group. rewrite bind_run.
  rewrite (surjective_pairing (_assert_group_parent group parent db)).
  rewrite assert_group_parent_pure. destruct (_assert_group_parent group parent db).2;
    [|apply disciplined_refl].
  unfold save_parent. mrun. cbn [h_id h_table h_set_parent TargetGroupTable tg_id]. rewrite Hg. mrun.
  check_guard E; mrun; [apply disciplined_refl|]. by apply disciplined_quiet.
Qed.

Lemma disciplined_add_target db realm group target :
  disciplined db (add_target_to_group realm group target db).1.
Proof.
  unfold add_target_to_group, _require_same_realm, _require_active. mrun.
  check_guard G1; mrun; [apply disciplined_refl|]. check_guard G2; mrun; [apply disciplined_refl|].
  by apply disciplined_quiet.
Qed.

Lemma disciplined_delete_target_membership db r g t :
  disciplined db (delete_target_membership r g t db).1.
Proof. by apply disciplined_quiet. Qed.

(** Writing a monitor row without touching the routes: only that monitor's entry can
    change, and it does not when the row is not routed or keeps its entry. *)
Lemma content_set_monitor db k0 m' r a :
  realm_closed db -> m_id m' = k0 ->
  entry_of <$> selected (set_monitors (<[k0 := m']> (monitors db)) db) r a !! k0 =
    entry_of <$> selected db r a !! k0 ->
  current_content (set_monitors (<[k0 := m']> (monitors db)) db) r a = current_content db r a.
Proof.
  intros Hrc Hid Hk0. apply current_content_ext. intros k.
  destruct (decide (k = k0)) as [->|Hne]; [done|]. f_equal.
  unfold selected. rewrite !lookup_omap. simpl. by rewrite lookup_insert_ne.
Qed.

Lemma keyed_insert db k0 m' :
  realm_closed db -> m_id m' = k0 ->
  monitors_keyed (set_monitors (<[k0 := m']> (monitors db)) db).
Proof.
  intros Hrc Hid k m. simpl.
  intros [[<- <-]|[_ Hm]]%lookup_insert_Some; [done|by apply (rc_monitors _ Hrc)].
Qed.

Lemma disciplined_set_monitor db k0 m' :
  realm_closed db -> m_id m' = k0 ->
  (forall r a, entry_of <$> selected (set_monitors (<[k0 := m']> (monitors db)) db) r a !! k0 =
    entry_of <$> selected db r a !! k0) ->
  disciplined db (set_monitors (<[k0 := m']> (monitors db)) db).
Proof.
  intros Hrc Hid Hk0. rewrite <-(bump_db_empty 0 (set_monitors _ _)).
  apply disciplined_bump; try done. intros a x _ _ _ _. by apply content_set_monitor.
Qed.

Lemma disciplined_create_monitor db id realm target name probe interval timeout conf descr :
  realm_closed db ->
  disciplined db (create_monitor id realm target name probe interval timeout conf descr db).1.
Proof.
  intros Hrc.
  destruct (create_monitor_effect db id realm target name probe interval timeout conf descr)
    as [->|(m & Hid & _ & _ & _ & Hnew & _ & _ & _ & ->)]; [apply disciplined_refl|].
  apply disciplined_set_monitor; [done|done|]. intros r a. f_equal.
  assert (Hno : ~ routed db r id a).
  { intros (y & Hy & _)%routed_has_monitor; congruence. }
  rewrite !lookup_selected_None; try done; try by apply (rc_monitors_keyed db).
  - by apply keyed_insert.
Qed.

Lemma disciplined_rename_monitor db r0 id name descr :
  realm_closed db -> disciplined db (rename_monitor r0 id name descr db).1.
Proof.
  intros Hrc. unfold rename_monitor, check_name. mrun. destruct (negb _); [apply disciplined_refl|]. mrun.
  destruct (get_row _ _ _) as [m|] eqn:Eg; [|apply disciplined_refl].
  apply get_row_Some in Eg as [Hm _]. mrun. check_guard E; mrun; [apply disciplined_refl|].
  destruct (rc_monitors _ Hrc _ _ Hm) as [Hid _].
  apply disciplined_set_monitor; [done|done|]. intros r a.
  unfold selected. rewrite !lookup_omap. simpl. rewrite lookup_insert_eq, Hm. simpl.
  unfold select_monitor. simpl. destruct (_ && _); [|done].
  destruct (targets db !! m_target_id m); [|done]. by destruct (_ && _).
Qed.
End Inventory.

(** ** The domain service *)

Section Domain.
Context {CO : Coercions} {P : Platform} (settings : Settings) (realms : gmap uuid Realm).
Implicit Types (db : MonDB) (realm : Realm).

(** Changing relations only: the content follows the routes. *)
Lemma content_routes db db1 r a :
  realm_closed db -> monitors db1 = monitors db -> targets db1 = targets db ->
  (forall k, routed db1 r k a <-> routed db r k a) ->
  current_content db1 r a = current_content db r a.
Proof.
  intros Hrc Hm Ht Hr. unfold current_content, configured_monitors. do 3 f_equal.
  apply selected_ext; try done.
  - unfold monitors_keyed. rewrite Hm. by apply rc_monitors_keyed.
  - by apply rc_monitors_keyed.
  - by rewrite Hm.
  - by rewrite Ht.
Qed.

(** Routes through a group that carries no enabled assignment do not exist. *)
Lemma disciplined_add_agent db realm group agent :
  realm_closed db -> agents db !! a_id agent = Some agent ->
  disciplined db (add_agent_to_group realm group agent db).1.
Proof.
  intros Hrc Ha. destruct (add_agent_effect db realm group agent)
    as [->|(Hg & Hr & Heff)]; [apply disciplined_refl|].
  assert (Hother : forall r k a, routed db r k a -> routed (set_agent_group_memberships
    ({[(realm_id realm, g_id group, a_id agent)]} ∪ agent_group_memberships db) db) r k a).
  { intros r k a [Hd|(g & Hm & Hu & Hin)]; [by left|right]. exists g. repeat split; try done.
    simpl. set_solver. }
  cbv zeta in Heff. destruct Heff as [->|[-> Hno]].
  - apply disciplined_bump; try done.
    + intros a ->%elem_of_singleton. by exists agent.
    + intros a x Hx _ _ Hout. apply content_routes; try done. intros k. split; [|apply Hother].
      intros [Hd|(g & Hm & Hu & Hin)]; [by left|right]. exists g. simpl in Hin. set_solver.
  - rewrite <-(bump_db_empty 0 (set_agent_group_memberships _ _)).
    apply disciplined_bump; try done. intros a x Hx _ _ _. apply content_routes; try done.
    intros k. split; [|apply Hother].
    intros [Hd|(g & Hm & Hu & Hin)]; [by left|right]. exists g. simpl in *.
    apply elem_of_union in Hin as [Hin%elem_of_singleton|Hin]; [|done].
    simplify_eq. exfalso. rewrite Hr in Hm. by eapply Hno.
Qed.

Lemma disciplined_remove_agent db realm group agent :
  realm_closed db -> agents db !! a_id agent = Some agent ->
  disciplined db (remove_agent_from_group realm group agent db).1.
Proof.
  intros Hrc Ha. destruct (remove_agent_effect db realm group agent)
    as [->|(Hg & Hr & Heff)]; [apply disciplined_refl|].
  assert (Hother : forall r k a, routed (set_agent_group_memberships
    (agent_group_memberships db ∖ {[(realm_id realm, g_id group, a_id agent)]}) db) r k a ->
    routed db r k a).
  { intros r k a [Hd|(g & Hm & Hu & Hin)]; [by left|right]. exists g. repeat split; try done.
    simpl in Hin. set_solver. }
  cbv zeta in Heff. destruct Heff as [->|[-> Hno]].
  - apply disciplined_bump; try done.
    + intros a ->%elem_of_singleton. by exists agent.
    + intros a x Hx _ _ Hout. apply content_routes; try done. intros k. split; [apply Hother|].
      intros [Hd|(g & Hm & Hu & Hin)]; [by left|right]. exists g. simpl. set_solver.
  - rewrite <-(bump_db_empty 0 (set_agent_group_memberships _ _)).
    apply disciplined_bump; try done. intros a x Hx _ _ _. apply content_routes; try done.
    intros k. split; [apply Hother|].
    intros [Hd|(g & Hm & Hu & Hin)]; [by left|right]. exists g. simpl in *.
    repeat split; try done. apply elem_of_difference. split; [done|].
    intros Heq%elem_of_singleton. simplify_eq. rewrite Hr in *. by eapply Hno.
Qed.

Lemma disciplined_assign_agent db realm monitor agent :
  realm_closed db -> agents db !! a_id agent = Some agent ->
  disciplined db (assign_monitor_to_agent realm monitor agent db).1.
Proof.
  intros Hrc Ha. destruct (assign_agent_effect db realm monitor agent)
    as [->|(Hm & Hr & ->)]; [apply disciplined_refl|].
  apply disciplined_bump; try done.
  - intros a ->%elem_of_singleton. by exists agent.
  - intros a x Hx _ _ Hout. apply content_routes; try done. intros k. unfold routed. simpl.
    rewrite lookup_insert_ne; [done|]. set_solver.
Qed.

Lemma disciplined_unassign_agent db realm monitor agent :
  realm_closed db -> agents db !! a_id agent = Some agent ->
  disciplined db (unassign_monitor_from_agent realm monitor agent db).1.
Proof.
  intros Hrc Ha. destruct (unassign_agent_effect db realm monitor agent)
    as [->|(Hm & Hr & ->)]; [apply disciplined_refl|].
  apply disciplined_bump; try done.
  - intros a ->%elem_of_singleton. by exists agent.
  - intros a x Hx _ _ Hout. apply content_routes; try done. intros k. unfold routed. simpl.
    rewrite lookup_delete_ne; [done|]. set_solver.
Qed.

(** The members a group change bumps are all the usable agents it can route to. *)
Lemma not_usable_member db r g a x :
  agents db !! a = Some x -> a_enabled x = true -> a_archived_at x = None ->
  a ∉ (list_to_set (usable_members db r g) : gset uuid) ->
  (r, g, a) ∉ agent_group_memberships db.
Proof.
  intros Hx He Har Hout Hin. apply Hout. rewrite elem_of_list_to_set, elem_of_usable_members.
  split; [|done]. unfold agent_usable. by rewrite Hx, He, Har.
Qed.

Lemma usable_members_realm db r g a :
  realm_closed db -> a ∈ (list_to_set (usable_members db r g) : gset uuid) -> has_agent db r a.
Proof.
  intros Hrc. rewrite elem_of_list_to_set, elem_of_usable_members. intros [_ Hin].
  by apply (rc_memberships _ Hrc) in Hin as [_ ?].
Qed.

Lemma disciplined_assign_group db realm monitor group :
  realm_closed db -> disciplined db (assign_monitor_to_agent_group realm monitor group db).1.
Proof.
  intros Hrc. destruct (assign_group_effect db realm monitor group)
    as [->|(Hm & Hr & ->)]; [apply disciplined_refl|].
  apply disciplined_bump; try done; [intros a; by apply usable_members_realm|].
  intros a x Hx He Har Hout. eapply not_usable_member in Hout; [|done..].
  apply content_routes; try done. intros k. unfold routed, group_usable. simpl.
  split; (intros [Hd|(g & Hg & Hu & Hin)]; [by left|right]); exists g; repeat split; try done.
  - rewrite lookup_insert_ne in Hg; [done|congruence].
  - rewrite lookup_insert_ne; [done|congruence].
Qed.

Lemma disciplined_unassign_group db realm monitor group :
  realm_closed db -> disciplined db (unassign_monitor_from_agent_group realm monitor group db).1.
Proof.
  intros Hrc. destruct (unassign_group_effect db realm monitor group)
    as [->|(Hm & Hr & ->)]; [apply disciplined_refl|].
  apply disciplined_bump; try done; [intros a; by apply usable_members_realm|].
  intros a x Hx He Har Hout. eapply not_usable_member in Hout; [|done..].
  apply content_routes; try done. intros k. unfold routed, group_usable. simpl.
  split; (intros [Hd|(g & Hg & Hu & Hin)]; [by left|right]); exists g; repeat split; try done.
  - by apply lookup_delete_Some in Hg as [_ ?].
  - rewrite lookup_delete_ne; [done|congruence].
Qed.

Lemma disciplined_update_monitor db monitor realm target probe interval timeout conf :
  realm_closed db -> monitors db !! m_id monitor = Some monitor ->
  disciplined db
    (update_monitor_behavior monitor realm target probe interval timeout conf db).1.
Proof.
  intros Hrc Hm.
  destruct (update_monitor_effect db monitor realm target probe interval timeout conf Hm)
    as [->|(m' & Hid & Hr & _ & Hen & Har & _ & _ & _ & Hmr & _ & Heq)]; [apply disciplined_refl|].
  cbv zeta in Heq. rewrite Heq. apply disciplined_bump; try done.
  - intros a (_ & _ & Hro)%elem_of_effective_agent_ids. rewrite Hr, Hmr in Hro.
    by apply (routed_has_agent db) in Hro.
  - intros a x Hx He Hax Hout. apply content_set_monitor; [done|done|]. f_equal.
    assert (Hno : monitor_live m' = true -> m_realm_id m' = a_realm_id x ->
              ~ routed db (a_realm_id x) (m_id monitor) a).
    { intros Hl Hxr Hro. apply Hout, elem_of_effective_agent_ids.
      rewrite Hid, Hxr. repeat split; try done. unfold agent_usable. simpl.
      by rewrite Hx, He, Hax. }
    rewrite !lookup_selected_None; try done.
    + by apply rc_monitors_keyed.
    + intros m t Hm1 _ Hmr1 Hl _. simplify_eq. apply Hno; [|congruence].
      unfold monitor_live in *. by rewrite Hen, Har.
    + by apply keyed_insert.
    + intros m t Hm1 _ Hmr1 Hl _. simpl in Hm1. rewrite lookup_insert_eq in Hm1. simplify_eq.
      by apply Hno.
Qed.

Lemma elem_of_affected_agents now r target db a :
  a ∈ affected_agents now r target db <->
  exists k m, monitors db !! k = Some m /\ live_monitor_of r (t_id target) m = true /\
    a ∈ effective_agent_ids_of (archived_targets now target db) m.
Proof.
  unfold affected_agents. rewrite elem_of_union_list. split.
  - intros (X & HX & Ha). apply list_elem_of_fmap in HX as (m & -> & Hm).
    apply list_elem_of_In, filter_In in Hm as [Hm%list_elem_of_In Hl].
    apply elem_of_rows in Hm as [k Hk]. eauto.
  - intros (k & m & Hk & Hl & Ha). eexists. split; [|exact Ha].
    apply list_elem_of_fmap. exists m. split; [done|].
    apply list_elem_of_In, filter_In. split; [|done]. apply list_elem_of_In, elem_of_rows. eauto.
Qed.

Lemma archived_monitors_keyed now r target db :
  realm_closed db -> monitors_keyed (archived_monitors now r target db).
Proof.
  intros Hrc k m. simpl. rewrite lookup_fmap. intros (m0 & Hm0 & ->)%fmap_Some.
  rewrite <-(proj1 (rc_monitors _ Hrc _ _ Hm0)). by destruct (live_monitor_of _ _ _).
Qed.

(** After archiving, the selections are the former ones without the target's monitors. *)
Lemma selected_archived now r target db r' a k m t :
  realm_closed db -> targets db !! t_id target = Some target -> t_realm_id target = r ->
  selected (archived_monitors now r target db) r' a !! k = Some (m, t) <->
  selected db r' a !! k = Some (m, t) /\ m_target_id m <> t_id target.
Proof.
  intros Hrc Ht Htr. rewrite !lookup_selected
    by (by apply archived_monitors_keyed || by apply rc_monitors_keyed). simpl. split.
  - intros (Hm & Hro & Hmr & Hl & Htg & Hu). rewrite lookup_fmap in Hm.
    apply fmap_Some in Hm as (m0 & Hm0 & ->).
    destruct (live_monitor_of r (t_id target) m0) eqn:El.
    { unfold monitor_live in Hl. by simpl in Hl. }
    destruct (decide (m_target_id m0 = t_id target)) as [Heq|Hne].
    { rewrite Heq, lookup_insert_eq in Htg. by simplify_eq. }
    rewrite lookup_insert_ne in Htg by done. done.
  - intros ((Hm & Hro & Hmr & Hl & Htg & Hu) & Hne).
    rewrite lookup_fmap, Hm. simpl. rewrite lookup_insert_ne by done.
    destruct (live_monitor_of r (t_id target) m) eqn:El; [|done].
    unfold live_monitor_of in El. by guards.
Qed.

(** Agents that are configured with one of the target's monitors are affected. *)
Lemma selected_affected now r target db a x k m t :
  realm_closed db -> targets db !! t_id target = Some target -> t_realm_id target = r ->
  agents db !! a = Some x -> a_enabled x = true -> a_archived_at x = None ->
  selected db (a_realm_id x) a !! k = Some (m, t) -> m_target_id m = t_id target ->
  a ∈ affected_agents now r target db.
Proof.
  intros Hrc Ht Htr Hx He Hax Hsel Heq.
  apply lookup_selected in Hsel as (Hm & Hro & Hmr & Hl & Htg & Hu);
    [|by apply rc_monitors_keyed].
  destruct (rc_monitors _ Hrc _ _ Hm) as [Hid (y & Hy & Hyr)].
  rewrite Heq, Ht in Hy. injection Hy as <-.
  apply elem_of_affected_agents. exists k, m. split; [done|]. split.
  - unfold live_monitor_of, monitor_live in *. guards. rewrite Heq, N.eqb_refl, <-Hyr, Htr.
    rewrite N.eqb_refl. simpl. by apply is_none_true.
  - apply elem_of_effective_agent_ids. rewrite Hid, Hmr. repeat split; try done.
    unfold agent_usable. simpl. by rewrite Hx, He, Hax.
Qed.

Lemma disciplined_archive_target db now realm target :
  realm_closed db -> targets db !! t_id target = Some target ->
  disciplined db (archive_target now realm target db).1.
Proof.
  intros Hrc Ht.
  destruct (archive_target_effect db now realm target Ht) as [->|(Htr & Hta & ->)];
    [apply disciplined_refl|].
  apply disciplined_bump; try done.
  - intros a (k & m & Hk & Hl & Ha)%elem_of_affected_agents.
    apply elem_of_effective_agent_ids in Ha as (_ & _ & Hro). unfold live_monitor_of in Hl.
    guards. rewrite (proj1 (rc_monitors _ Hrc _ _ Hk)) in Hro.
    apply (routed_has_agent db) in Hro; [|done]. congruence.
  - intros a x Hx He Hax Hout. unfold current_content, configured_monitors. do 3 f_equal.
    apply map_eq. intros k. apply option_eq. intros [m t].
    rewrite selected_archived by done. split; [by intros [? _]|]. intros Hsel. split; [done|].
    intros Heq. by eapply Hout, selected_affected.
Qed.

Lemma disciplined_credential_step db db' :
  credential_step settings realms db db' -> disciplined db db'.
Proof.
  intros Hstep.
  assert (Hframe : forall db', agent_configuration_snapshots db' = agent_configuration_snapshots db ->
    agent_configuration_states db' = agent_configuration_states db -> agents db' = agents db ->
    monitors db' = monitors db -> targets db' = targets db ->
    monitor_agent_assignments db' = monitor_agent_assignments db ->
    monitor_agent_group_assignments db' = monitor_agent_group_assignments db ->
    agent_group_memberships db' = agent_group_memberships db ->
    agent_groups db' = agent_groups db -> disciplined db db').
  { intros d ? ? Hag ? ? ? ? ? ?. apply disciplined_quiet; try done; [by rewrite Hag|].
    intros a x _. by apply selected_tables. }
  destruct Hstep as [now raw tid realm agent ttl db|now secret cid raw db
    |now header db|now realm agent tid db|now realm cid db].
  - unfold issue_enrolment_token. rewrite bind_run. unfold in_transaction. mrun.
    destruct (is_none _); mrun; [apply disciplined_refl|]. unfold update_tokens, insert_token. mrun.
    destruct (_ || _); mrun; [apply disciplined_refl|]. by apply Hframe.
  - destruct (exchange_enrolment_token now secret cid raw db) as [db' [r|e]] eqn:E; simpl.
    + destruct r as [[ag cr] out].
      apply exchange_inv in E as (k & tok & _ & _ & _ & _ & _ & _ & _ & _ & _ & _ & _ & ->).
      by apply Hframe.
    + apply exchange_err in E as ->. apply disciplined_refl.
  - destruct (authenticate_agent realms now header db) as [db' [au|e]] eqn:E; simpl.
    + apply authenticate_inv in E as (?&?&?&?&?&c&?&?&?&?&?&?&?&?&?&?&?&?&?&->).
      by apply Hframe.
    + apply authenticate_err in E as [-> _]. apply disciplined_refl.
  - by apply Hframe.
  - by apply Hframe.
Qed.
End Domain.
