(* ===== verification/ConfigInvariant.v ===== *)
(** * The configuration protocol is coherent

    The invariant that ties the configuration states and snapshots to the current
    assignments, its preservation by every step of the control plane, and what an
    agent gets from it: a configuration request is answered with the current content,
    the revision conflict of [get_or_create_configuration] never occurs between
    serialised requests, and an up-to-date acknowledgement names the current content. *)

From S2P Require Import Prelude PyText Json Platform Models ProbeConfig Domain.
From S2P Require Import Credentials Configuration Selection Effects HierarchyProps CredentialsProps.
From S2P Require Import Isolation Steps Discipline.
Local Open Scope Z_scope.

Section Invariant.
Context {CO : Coercions} {P : Platform} (settings : Settings).
Implicit Types (db : MonDB) (realm : Realm).

(** A snapshot under (realm, agent, revision): it belongs to the agent's realm, carries
    the hash of its content, has a revision that was desired, and the one at the current
    desired revision of a usable agent holds the current content. *)
Record snapshot_ok (db : MonDB) (r a : uuid) (k : Z) (sn : AgentConfigurationSnapshot) : Prop := {
  sn_ok_revision : sn_revision sn = k;
  sn_ok_hash : sn_content_hash sn = content_hash_of (sn_configuration sn);
  sn_ok_agent : exists x st, agents db !! a = Some x /\ a_realm_id x = r /\
    agent_configuration_states db !! a = Some st /\ 1 <= k <= st_desired_revision st /\
    (k = st_desired_revision st -> a_enabled x = true -> a_archived_at x = None ->
     sn_configuration sn = current_content db r a);
}.

(** A configuration state: it belongs to its agent's realm, what was acknowledged was
    issued and is not ahead of what is desired, and a recorded desired hash is the hash of
    the snapshot at the desired revision. *)
Record state_ok (db : MonDB) (a : uuid) (st : AgentConfigurationState) : Prop := {
  st_ok_agent : has_agent db (st_realm_id st) a;
  st_ok_bounds : 0 <= st_acknowledged_revision st <= st_desired_revision st;
  st_ok_acknowledged : 0 < st_acknowledged_revision st ->
    exists sn, agent_configuration_snapshots db !!
        (st_realm_id st, a, st_acknowledged_revision st) = Some sn /\
      sn_content_hash sn = st_acknowledged_content_hash st;
  st_ok_desired : st_desired_content_hash st <> "" ->
    exists sn, agent_configuration_snapshots db !!
        (st_realm_id st, a, st_desired_revision st) = Some sn /\
      sn_content_hash sn = st_desired_content_hash st;
}.

Record config_ok (db : MonDB) : Prop := {
  co_closed : realm_closed db;
  co_snapshots : forall r a k sn,
    agent_configuration_snapshots db !! (r, a, k) = Some sn -> snapshot_ok db r a k sn;
  co_states : forall a st, agent_configuration_states db !! a = Some st -> state_ok db a st;
}.

(** ** Disciplined operations *)

Lemma desired_lookup db a st :
  agent_configuration_states db !! a = Some st -> desired db a = st_desired_revision st.
Proof. unfold desired. by intros ->. Qed.

(** An operation that follows the discipline keeps the protocol coherent. *)
Lemma config_ok_disciplined db db' :
  config_ok db -> realm_closed db' -> disciplined db db' -> config_ok db'.
Proof.
  intros [Hrc Hsn Hst] Hrc' [Dsn Dag Dst Dnew Dcont].
  assert (Hhas : forall r a, has_agent db r a -> has_agent db' r a).
  { intros r a (x & Hx & Hr). exists x. eauto. }
  split; [done|..].
  - intros r a k sn Hk. rewrite Dsn in Hk.
    destruct (Hsn _ _ _ _ Hk) as [Hrev Hhash (x & st & Hx & Hr & Hs & Hb & Hc)].
    destruct (Dst _ _ Hs) as (st' & Hs' & Kept). split; [done|done|].
    exists x, st'. destruct Kept as [_ Hd _ _ _ _].
    repeat split; try done; [eauto|lia|lia|].
    intros Hkd He Har. destruct (Dcont _ _ Hx He Har) as [Hlt|Hsame].
    + rewrite (desired_lookup _ _ _ Hs), (desired_lookup _ _ _ Hs') in Hlt. lia.
    + rewrite Hr in Hsame. rewrite Hsame. apply Hc; [lia|done|done].
  - intros a st' Hs'. destruct (agent_configuration_states db !! a) as [st|] eqn:Hs.
    + destruct (Dst _ _ Hs) as (st2 & Hs2 & [Kr Kd Kh Ka Kah Kat]). simplify_eq.
      destruct (Hst _ _ Hs) as [Ho1 Ho2 Ho3 Ho4].
      split; rewrite ?Kr, ?Ka, ?Kah, ?Dsn; [eauto|lia|done|].
      destruct Kh as [Kh|[-> ->]]; [by rewrite Kh|done].
    + destruct (Dnew _ _ Hs' Hs) as (Hag & Hd & Hh & Hak & Hah).
      split; [done|lia|lia|]. by rewrite Hh.
Qed.

Lemma disciplined_heartbeat db now au payload :
  authenticated db au -> disciplined db (record_heartbeat now au payload db).1.
Proof.
  intros [Hrow Hr _ _]. unfold record_heartbeat. mrun. check_guard G; mrun; [apply disciplined_refl|].
  check_guard G2; mrun; [apply disciplined_refl|].
  set (r := realm_id (au_realm au)) in *. set (a := a_id (au_agent au)) in *.
  set (db1 := set_agent_operational_states _ db). unfold get_or_create_state. mrun.
  change (agent_configuration_states db1) with (agent_configuration_states db).
  destruct (agent_configuration_states db !! a) as [st|] eqn:Es; mrun.
  - check_guard G3; mrun; by apply disciplined_quiet.
  - split; simpl; try done.
    + intros b st Hb. exists st. split; [|apply state_kept_refl].
      rewrite lookup_insert_ne; [done|congruence].
    + intros b st' [[<- <-]|[_ Hb]]%lookup_insert_Some Hn; [|congruence].
      simpl. repeat split; try done. by exists (au_agent au).
    + by right.
Qed.

(** ** The configuration operations *)

(** The selection does not read states or snapshots. *)
Lemma content_set_states db v r a :
  current_content (set_agent_configuration_states v db) r a = current_content db r a.
Proof. done. Qed.
Lemma content_set_snapshots db v r a :
  current_content (set_agent_configuration_snapshots v db) r a = current_content db r a.
Proof. done. Qed.

(** The state row a request works on. *)
Definition state_row (db : MonDB) (r a : uuid) : AgentConfigurationState :=
  default (new_configuration_state r) (agent_configuration_states db !! a).

(** The revision a request answers with. *)
Definition served_revision (db : MonDB) (a : uuid) : Z :=
  if desired db a =? 0 then 1 else desired db a.

Definition with_desired (k : Z) (h : string) (st : AgentConfigurationState) :
    AgentConfigurationState :=
  mkAgentConfigurationState (st_realm_id st) k h (st_acknowledged_revision st)
    (st_acknowledged_content_hash st) (st_acknowledged_at st).

Lemma state_row_realm db au :
  config_ok db -> authenticated db au ->
  st_realm_id (state_row db (realm_id (au_realm au)) (a_id (au_agent au))) = realm_id (au_realm au).
Proof.
  intros Hok [Hrow Hr _ _]. unfold state_row.
  destruct (agent_configuration_states db !! _) as [st|] eqn:Es; [|done]. simpl.
  destruct (co_states _ Hok _ _ Es) as [(x & Hx & Hxr) _ _ _]. congruence.
Qed.

Lemma set_states_same db : set_agent_configuration_states (agent_configuration_states db) db = db.
Proof. by destruct db. Qed.
Lemma set_snapshots_same db :
  set_agent_configuration_snapshots (agent_configuration_snapshots db) db = db.
Proof. by destruct db. Qed.

Lemma get_or_create_state_run db au :
  config_ok db -> authenticated db au ->
  let r := realm_id (au_realm au) in
  let a := a_id (au_agent au) in
  get_or_create_state r a db =
    (set_agent_configuration_states
       (<[a := state_row db r a]> (agent_configuration_states db)) db, Ok (state_row db r a)).
Proof.
  intros Hok Hau r a. pose proof (state_row_realm db au Hok Hau) as Hr. fold r a in Hr.
  unfold get_or_create_state. mrun. unfold state_row in *.
  destruct (agent_configuration_states db !! a) as [st|] eqn:Es; mrun; [|done].
  simpl in Hr. rewrite Hr, N.eqb_refl. mrun. rewrite insert_id by done.
  by rewrite set_states_same.
Qed.

(** The state a request leaves behind, and the snapshot it answers with. *)
Definition served (db : MonDB) (r a : uuid) (sn : AgentConfigurationSnapshot) : MonDB :=
  set_agent_configuration_snapshots
    (<[(r, a, served_revision db a) := sn]> (agent_configuration_snapshots db))
    (set_agent_configuration_states
      (<[a := with_desired (served_revision db a) (content_hash_of (current_content db r a))
                (state_row db r a)]> (agent_configuration_states db)) db).

Lemma served_revision_row db r a :
  (if st_desired_revision (state_row db r a) =? 0 then 1
   else st_desired_revision (state_row db r a)) = served_revision db a.
Proof.
  unfold served_revision, desired, state_row.
  by destruct (agent_configuration_states db !! a).
Qed.

(** A snapshot found at the served revision holds the current content. *)
Lemma served_snapshot_current db au sn :
  config_ok db -> authenticated db au ->
  let r := realm_id (au_realm au) in
  let a := a_id (au_agent au) in
  agent_configuration_snapshots db !! (r, a, served_revision db a) = Some sn ->
  sn_configuration sn = current_content db r a /\ served_revision db a = desired db a.
Proof.
  intros Hok [Hrow Hr He Har] r a Hsn.
  destruct (co_snapshots _ Hok _ _ _ _ Hsn) as [_ _ (x & st & Hx & Hxr & Hst & Hb & Hc)].
  assert (served_revision db a = st_desired_revision st) as Hk.
  { unfold served_revision in *. rewrite (desired_lookup _ _ _ Hst) in *.
    destruct (st_desired_revision st =? 0) eqn:E; [|done]. lia. }
  rewrite (desired_lookup _ _ _ Hst). split; [|done].
  fold a in Hrow. rewrite Hrow in Hx. injection Hx as <-. by apply Hc.
Qed.

(** A recorded desired hash leaves nothing to save. *)
Lemma with_desired_same db r a :
  config_ok db -> st_realm_id (state_row db r a) = r ->
  st_desired_content_hash (state_row db r a) = content_hash_of (current_content db r a) ->
  with_desired (served_revision db a) (content_hash_of (current_content db r a))
    (state_row db r a) = state_row db r a.
Proof.
  intros Hok Hr Hh. unfold with_desired. rewrite <-Hh, <-(served_revision_row db r a).
  unfold state_row in *. destruct (agent_configuration_states db !! a) as [st|] eqn:Es.
  - simpl in *. assert (st_desired_revision st <> 0) as Hne.
    { intros H0. destruct (co_states _ Hok _ _ Es) as [_ _ _ Hd].
      destruct Hd as (sn & Hsn & _); [rewrite Hh; apply sha256_nonempty|].
      destruct (co_snapshots _ Hok _ _ _ _ Hsn) as [_ _ (x & st' & _ & _ & _ & Hb & _)]. lia. }
    apply Z.eqb_neq in Hne. rewrite Hne. by destruct st.
  - simpl in Hh. by destruct (sha256_nonempty (canonical_json (current_content db r a))).
Qed.

(** The save at the end of a request. *)
Lemma save_desired_run db r a :
  config_ok db -> st_realm_id (state_row db r a) = r ->
  let h := content_hash_of (current_content db r a) in
  let k := served_revision db a in
  let db1 := set_agent_configuration_states
               (<[a := state_row db r a]> (agent_configuration_states db)) db in
  forall dbs,
    (if negb (st_desired_content_hash (state_row db r a) =? h)%string
     then save_desired a k h else mret tt)
      (set_agent_configuration_snapshots dbs db1) =
    (set_agent_configuration_snapshots dbs (set_agent_configuration_states
       (<[a := with_desired k h (state_row db r a)]> (agent_configuration_states db)) db), Ok tt).
Proof.
  intros Hok Hrow h k db1 dbs.
  destruct (st_desired_content_hash (state_row db r a) =? h)%string eqn:Eh; simpl.
  - apply String.eqb_eq in Eh. unfold k, h. by rewrite with_desired_same.
  - unfold save_desired, modify. cbn [agent_configuration_states set_agent_configuration_snapshots
      db1 set_agent_configuration_states]. by rewrite alter_insert_eq.
Qed.

Lemma configuration_run db now au op entries :
  config_ok db -> authenticated db au ->
  let r := realm_id (au_realm au) in
  let a := a_id (au_agent au) in
  agent_operational_states db !! a = Some op ->
  build_entries (op_capabilities op) (configured_monitors db r a) = Ok entries ->
  exists sn,
    sn_revision sn = served_revision db a /\
    sn_content_hash sn = content_hash_of (current_content db r a) /\
    sn_configuration sn = current_content db r a /\
    (agent_configuration_snapshots db !! (r, a, served_revision db a) = None \/
     agent_configuration_snapshots db !! (r, a, served_revision db a) = Some sn) /\
    get_or_create_configuration now au db =
      (served db r a sn, Ok (mkConfigurationResult sn (current_content db r a))).
Proof.
  intros Hok Hau r a Hop Hent.
  pose proof (state_row_realm db au Hok Hau) as Hrow. fold r a in Hrow.
  pose proof (served_snapshot_current db au) as Hcur. fold r a in Hcur.
  unfold get_or_create_configuration, in_transaction. fold r a.
  rewrite (bind_Ok _ _ _ _ _ (get_or_create_state_run db au Hok Hau)). fold r a.
  rewrite served_revision_row. mrun.
  assert (get_row (fun o => (op_realm_id o =? r)%N) a (agent_operational_states db) = Some op) as Hg.
  { apply get_row_Some. split; [done|].
    destruct (rc_operational _ (co_closed _ Hok) _ _ Hop) as [_ (x & Hx & Hxr)].
    destruct Hau as [Hrow' Hr' _ _]. fold a in Hrow'. fold r in Hr'.
    apply N.eqb_eq. congruence. }
  cbn [agent_operational_states set_agent_configuration_states]. rewrite Hg.
  unfold lift_outcome. mrun.
  change (configured_monitors (set_agent_configuration_states _ db) r a)
    with (configured_monitors db r a).
  rewrite Hent, (build_entries_Ok _ _ _ Hent). fold (current_content db r a).
  set (h := content_hash_of (current_content db r a)) in *.
  set (k := served_revision db a) in *.
  set (db1 := set_agent_configuration_states _ db).
  assert (Hsave := save_desired_run db r a Hok Hrow). fold h k db1 in Hsave.
  unfold get_or_create_snapshot. mrun.
  change (agent_configuration_snapshots db1) with (agent_configuration_snapshots db).
  destruct (agent_configuration_snapshots db !! (r, a, k)) as [sn|] eqn:Esn; mrun.
  - destruct (Hcur sn Hok Hau Esn) as [Hc _].
    destruct (co_snapshots _ Hok _ _ _ _ Esn) as [Hrev Hhash _].
    exists sn. rewrite Hhash, Hc. fold h. rewrite String.eqb_refl. mrun.
    rewrite <-(set_snapshots_same db1) at 1. rewrite Hsave. mrun.
    repeat split; [done|by right|]. unfold served. fold k h.
    by rewrite (insert_id (agent_configuration_snapshots db) _ sn Esn).
  - assert ((k <=? 0) = false) as ->.
    { apply Z.leb_gt. unfold k, served_revision. destruct (desired db a =? 0) eqn:E; [lia|].
      unfold desired in *. destruct (agent_configuration_states db !! a) as [st|] eqn:Es; [|lia].
      destruct (co_states _ Hok _ _ Es) as [_ Hb _ _]. lia. }
    mrun. exists (mkAgentConfigurationSnapshot r a k h (current_content db r a) now).
    cbn [sn_content_hash]. rewrite String.eqb_refl. mrun. rewrite Hsave. mrun.
    repeat split. by left.
Qed.

(** The requests that are refused: before any heartbeat, and when a monitor is not
    supported; nothing is written. *)
Lemma configuration_refused db now au :
  config_ok db -> authenticated db au ->
  let r := realm_id (au_realm au) in
  let a := a_id (au_agent au) in
  (agent_operational_states db !! a = None ->
   get_or_create_configuration now au db = (db, Err (AgentProtocolError 409 "capabilities_required"
     "Send a heartbeat before requesting configuration." true []))) /\
  (forall op e, agent_operational_states db !! a = Some op ->
   build_entries (op_capabilities op) (configured_monitors db r a) = Err e ->
   get_or_create_configuration now au db = (db, Err e)).
Proof.
  intros Hok Hau r a. unfold get_or_create_configuration, in_transaction. fold r a.
  rewrite (bind_Ok _ _ _ _ _ (get_or_create_state_run db au Hok Hau)). fold r a. mrun.
  cbn [agent_operational_states set_agent_configuration_states]. split.
  - intros Hop. unfold get_row. by rewrite Hop.
  - intros op e Hop Herr.
    assert (get_row (fun o => (op_realm_id o =? r)%N) a (agent_operational_states db) = Some op)
      as ->.
    { apply get_row_Some. split; [done|].
      destruct (rc_operational _ (co_closed _ Hok) _ _ Hop) as [_ (x & Hx & Hxr)].
      destruct Hau as [Hrow' Hr' _ _]. fold a in Hrow'. fold r in Hr'.
      apply N.eqb_eq. congruence. }
    unfold lift_outcome. mrun.
    change (configured_monitors (set_agent_configuration_states _ db) r a)
      with (configured_monitors db r a). by rewrite Herr.
Qed.

Lemma served_revision_bounds db a :
  config_ok db -> desired db a <= served_revision db a /\ 1 <= served_revision db a /\
  (desired db a <> 0 -> served_revision db a = desired db a) /\ 0 <= desired db a.
Proof.
  intros Hok. assert (0 <= desired db a).
  { unfold desired. destruct (agent_configuration_states db !! a) as [st|] eqn:Es; [|lia].
    destruct (co_states _ Hok _ _ Es) as [_ Hb _ _]. lia. }
  unfold served_revision. destruct (desired db a =? 0) eqn:E; lia.
Qed.

Lemma config_ok_served db au sn :
  config_ok db -> authenticated db au ->
  let r := realm_id (au_realm au) in
  let a := a_id (au_agent au) in
  sn_revision sn = served_revision db a ->
  sn_content_hash sn = content_hash_of (current_content db r a) ->
  sn_configuration sn = current_content db r a ->
  (agent_configuration_snapshots db !! (r, a, served_revision db a) = None \/
   agent_configuration_snapshots db !! (r, a, served_revision db a) = Some sn) ->
  config_ok (served db r a sn).
Proof.
  intros Hok Hau r a Hrev Hhash Hconf Hold.
  pose proof (state_row_realm db au Hok Hau) as Hrow. fold r a in Hrow.
  destruct (served_revision_bounds db a Hok) as (B1 & B2 & B3 & B4).
  set (k := served_revision db a) in *. set (h := content_hash_of _) in *.
  assert (Hkept : forall key x, agent_configuration_snapshots db !! key = Some x ->
    <[(r, a, k) := sn]> (agent_configuration_snapshots db) !! key = Some x).
  { intros key x Hx. destruct (decide (key = (r, a, k))) as [->|]; [|by rewrite lookup_insert_ne].
    rewrite lookup_insert_eq. destruct Hold; congruence. }
  destruct Hau as [Hag Hr He Har]. fold a r in Hag, Hr.
  split.
  - apply rc_set_snapshots, rc_set_states, Hok.
  - intros r' a' k' x Hx. simpl in Hx. unfold served. fold k h.
    apply lookup_insert_Some in Hx as [[[= <- <- <-] <-]|[Hne Hx]].
    + split; [done|by rewrite Hhash, Hconf|]. exists (au_agent au), (with_desired k h (state_row db r a)).
      simpl. rewrite lookup_insert_eq. repeat split; try done; lia.
    + destruct (co_snapshots _ Hok _ _ _ _ Hx) as [Hv Hh (y & st & Hy & Hyr & Hst & Hb & Hc)].
      split; [done|done|]. exists y. simpl. destruct (decide (a' = a)) as [->|Hna].
      * rewrite lookup_insert_eq. rewrite (desired_lookup _ _ _ Hst) in *.
        eexists. repeat split; try done; simpl; try lia.
        intros Hkk. apply Hc. lia.
      * exists st. rewrite lookup_insert_ne by done. done.
  - intros a' st Hst. simpl in Hst. unfold served. fold k h.
    apply lookup_insert_Some in Hst as [[<- <-]|[Hna Hst]].
    + split; simpl; rewrite ?Hrow.
      * by exists (au_agent au).
      * unfold state_row. destruct (agent_configuration_states db !! a) as [st|] eqn:Es; simpl; [|lia].
        destruct (co_states _ Hok _ _ Es) as [_ Hb _ _]. rewrite (desired_lookup _ _ _ Es) in *. lia.
      * intros Hpos. unfold state_row in *.
        destruct (agent_configuration_states db !! a) as [st|] eqn:Es; simpl in *; [|lia].
        destruct (co_states _ Hok _ _ Es) as [_ _ Ha _]. rewrite Hrow in Ha.
        destruct (Ha Hpos) as (x & Hx & ?). exists x. auto.
      * intros _. exists sn. by rewrite lookup_insert_eq.
    + destruct (co_states _ Hok _ _ Hst) as [H1 H2 H3 H4]. split; [done|done|..].
      * intros Hp. destruct (H3 Hp) as (x & Hx & ?). exists x. split; [|done]. by apply Hkept.
      * intros Hp. destruct (H4 Hp) as (x & Hx & ?). exists x. split; [|done]. by apply Hkept.
Qed.

Lemma config_ok_configuration db now au :
  config_ok db -> authenticated db au -> config_ok (get_or_create_configuration now au db).1.
Proof.
  intros Hok Hau. destruct (configuration_refused db now au Hok Hau) as [Hn He].
  destruct (agent_operational_states db !! a_id (au_agent au)) as [op|] eqn:Eop;
    [|by rewrite Hn].
  destruct (build_entries (op_capabilities op)
    (configured_monitors db (realm_id (au_realm au)) (a_id (au_agent au)))) as [es|e] eqn:Eb;
    [|by rewrite (He op e)].
  destruct (configuration_run db now au op es Hok Hau Eop Eb) as (sn & H1 & H2 & H3 & H4 & ->).
  by apply config_ok_served.
Qed.

(** ** Acknowledgements *)

Lemma config_ok_acknowledge db au revision hash at_ :
  config_ok db -> authenticated db au ->
  config_ok (acknowledge_configuration au revision hash at_ db).1.
Proof.
  intros Hok Hau. destruct Hau as [Hag Hr He Har].
  destruct (acknowledge_configuration au revision hash at_ db) as [db' [st'|e]] eqn:E;
    [|by apply in_transaction_inv_Err in E as ->].
  set (r := realm_id (au_realm au)) in *. set (ai := a_id (au_agent au)) in *.
  unfold acknowledge_configuration in E. fold r ai in E. minv.
  destruct (get_row _ (r, ai, revision) _) as [sn|] eqn:Esn; [|by simpl in *].
  apply get_row_Some in Esn as [Hsn Hhash%String.eqb_eq].
  destruct (get_row _ ai _) as [st|] eqn:Est; [|by minv].
  apply get_row_Some in Est as [Hst Hstr%N.eqb_eq].
  destruct (st_acknowledged_revision st <=? revision); minv; [|done].
  destruct Hok as [Hrc Hsns Hsts]. destruct (Hsts _ _ Hst) as [S1 S2 S3 S4].
  destruct (Hsns _ _ _ _ Hsn) as [_ _ (x & st0 & _ & _ & Hst0 & Hb & _)].
  rewrite Hst in Hst0. injection Hst0 as <-.
  split; [by apply rc_set_states|..].
  - intros r' a' k' y Hy. destruct (Hsns _ _ _ _ Hy) as [V1 V2 (z & stz & Hz & Hzr & Hstz & Hbz & Hc)].
    split; [done|done|]. exists z. simpl. destruct (decide (a' = ai)) as [->|].
    + rewrite lookup_insert_eq. rewrite Hst in Hstz. injection Hstz as <-.
      eexists. repeat split; try done; simpl; lia.
    + exists stz. by rewrite lookup_insert_ne.
  - intros a' y Hy. simpl in Hy. apply lookup_insert_Some in Hy as [[<- <-]|[Hne Hy]].
    + split; simpl; [done|lia| |done]. intros _. exists sn. rewrite Hstr. done.
    + by destruct (Hsts _ _ Hy).
Qed.

(** Neither operation changes what any agent is to run. *)
Lemma content_configuration db now au r a :
  current_content (get_or_create_configuration now au db).1 r a = current_content db r a.
Proof. by apply (frame_configuration (fun d => current_content d r a = current_content db r a)). Qed.

Lemma content_acknowledge db au k h t r a :
  current_content (acknowledge_configuration au k h t db).1 r a = current_content db r a.
Proof. by apply (frame_acknowledge (fun d => current_content d r a = current_content db r a)). Qed.

(** ** Every step *)

Lemma disciplined_step db db' :
  realm_closed db -> mon_step settings db db' ->
  disciplined db db' \/
  (exists now au, authenticated db au /\ db' = (get_or_create_configuration now au db).1) \/
  (exists au k h t, authenticated db au /\ db' = (acknowledge_configuration au k h t db).1).
Proof.
  intros Hrc Hstep. destruct Hstep; try (by eauto 8); left;
    eauto using disciplined_insert_agent, disciplined_insert_target,
      disciplined_insert_agent_group, disciplined_insert_target_group,
      disciplined_create_monitor, disciplined_update_monitor, disciplined_rename_monitor,
      disciplined_move_agent_group, disciplined_move_target_group, disciplined_add_agent,
      disciplined_remove_agent, disciplined_add_target, disciplined_delete_target_membership,
      disciplined_assign_agent, disciplined_assign_group, disciplined_unassign_agent,
      disciplined_unassign_group, disciplined_archive_target, disciplined_credential_step,
      disciplined_heartbeat.
Qed.

Lemma config_ok_step db db' : mon_step settings db db' -> config_ok db -> config_ok db'.
Proof.
  intros Hstep Hok. pose proof (rc_step _ _ _ Hstep (co_closed _ Hok)) as Hrc'.
  destruct (disciplined_step db db' (co_closed _ Hok) Hstep)
    as [Hd|[(now & au & Hau & ->)|(au & k & h & t & Hau & ->)]].
  - by eapply config_ok_disciplined.
  - by apply config_ok_configuration.
  - by apply config_ok_acknowledge.
Qed.

Lemma config_ok_reachable db : rtc (mon_step settings) empty_db db -> config_ok db.
Proof.
  assert (Hgen : forall x y, rtc (mon_step settings) x y -> config_ok x -> config_ok y).
  { induction 1 as [|x y z Hxy _ IH]; [done|]. intros Hok. apply IH. by eapply config_ok_step. }
  intros Hsteps. apply (Hgen _ _ Hsteps). by split.
Qed.
End Invariant.
