(* ===== verification/ConfigTheorems.v ===== *)
(** * What the configuration protocol guarantees

    The properties of the assignment, revision and configuration code over the states
    reachable from the empty database by the steps of [Steps], with a worked run on
    which they are instantiated. *)

From S2P Require Import Prelude PyText Json Platform Models ProbeConfig Domain.
From S2P Require Import Credentials Configuration Selection Effects HierarchyProps CredentialsProps.
From S2P Require Import Isolation Steps Discipline ConfigInvariant.
Local Open Scope Z_scope.

Section Theorems.
Context {CO : Coercions} {P : Platform} (settings : Settings).
Implicit Types (db : MonDB) (realm : Realm).

(** C26 The two queries that relate monitors and agents agree: an enabled, unarchived agent
    is among [effective_agent_ids] of a live monitor exactly when the monitor is among the
    [_assigned_monitor_ids] of that agent in the monitor's realm; an agent that cannot be
    used, and a monitor that is disabled or archived, are in no such pair. *)
Theorem effective_agents_agree_with_assigned_monitors db (m : Monitor) (a : uuid) :
  a ∈ effective_agent_ids_of db m <->
  m_enabled m = true /\ m_archived_at m = None /\ agent_usable db a = true /\
  m_id m ∈ _assigned_monitor_ids db (m_realm_id m) a.
Proof.
  rewrite elem_of_effective_agent_ids, elem_of_assigned_monitor_ids.
  unfold monitor_live. rewrite andb_true_iff, is_none_true. tauto.
Qed.

(** One call of [_bump_configuration_revisions] raises the desired revision of every
    listed agent by exactly one, however often the agent is listed, creating its row at
    revision 1 when it has none, clears its desired hash, and leaves every other agent and
    every other table alone; it never raises. *)
Theorem bump_is_pointwise ids (realm : uuid) db :
  exists t, _bump_configuration_revisions ids realm db =
      (set_agent_configuration_states t db, Ok tt) /\
    forall a, t !! a =
      if decide (a ∈ ids)
      then Some (bump_state (default (new_configuration_state realm)
                               (agent_configuration_states db !! a)))
      else agent_configuration_states db !! a.
Proof.
  eexists. split; [apply bump_closed_form|]. intros a. rewrite lookup_bumped.
  destruct (decide (a ∈ ids)).
  - by rewrite decide_True by (by apply elem_of_list_to_set).
  - by rewrite decide_False by (by rewrite elem_of_list_to_set).
Qed.

(** C8 No silent change: in every reachable state, a step of the control plane that
    changes the configuration content of an enabled, unarchived agent also raises that
    agent's desired revision. *)
Theorem content_change_raises_revision db db' a x :
  rtc (mon_step settings) empty_db db -> mon_step settings db db' ->
  agents db !! a = Some x -> a_enabled x = true -> a_archived_at x = None ->
  current_content db' (a_realm_id x) a <> current_content db (a_realm_id x) a ->
  desired db a < desired db' a.
Proof.
  intros Hreach Hstep Hx He Har Hne.
  pose proof (config_ok_reachable settings db Hreach) as Hok.
  destruct (disciplined_step settings db db' (co_closed _ Hok) Hstep)
    as [[_ _ _ _ Hc]|[(now & au & Hau & ->)|(au & k & h & t & Hau & ->)]].
  - by destruct (Hc _ _ Hx He Har).
  - by rewrite content_configuration in Hne.
  - by rewrite content_acknowledge in Hne.
Qed.

(** C10 A configuration request is answered: in every reachable state, for an
    authenticated agent that has sent a heartbeat and supports the monitors routed to it,
    [get_or_create_configuration] returns the current content, a snapshot of it with its
    hash, and the desired revision (1 if none was desired yet); without a heartbeat it
    raises [capabilities_required] and when a monitor is not supported it raises that
    monitor's error, in both cases changing nothing.  In particular the retryable
    revision conflict never occurs between serialised requests. *)
Theorem configuration_request_answered db now au :
  rtc (mon_step settings) empty_db db -> authenticated db au ->
  let r := realm_id (au_realm au) in
  let a := a_id (au_agent au) in
  match agent_operational_states db !! a with
  | None => get_or_create_configuration now au db =
      (db, Err (AgentProtocolError 409 "capabilities_required"
                  "Send a heartbeat before requesting configuration." true []))
  | Some op =>
      match build_entries (op_capabilities op) (configured_monitors db r a) with
      | Err e => get_or_create_configuration now au db = (db, Err e)
      | Ok entries => exists db' sn,
          get_or_create_configuration now au db =
            (db', Ok (mkConfigurationResult sn (hash_input r a entries))) /\
          sn_configuration sn = hash_input r a entries /\
          sn_content_hash sn = content_hash_of (hash_input r a entries) /\
          sn_revision sn = (if desired db a =? 0 then 1 else desired db a) /\
          desired db' a = sn_revision sn
      end
  end.
Proof.
  intros Hreach Hau r a. pose proof (config_ok_reachable settings db Hreach) as Hok.
  destruct (configuration_refused db now au Hok Hau) as [Hn He].
  destruct (agent_operational_states db !! a) as [op|] eqn:Eop; [|by apply Hn].
  destruct (build_entries _ _) as [es|e] eqn:Eb; [|by apply (He op)].
  destruct (configuration_run db now au op es Hok Hau Eop Eb) as (sn & H1 & H2 & H3 & _ & H5).
  rewrite (build_entries_Ok _ _ _ Eb). exists (served db r a sn), sn.
  repeat split; [done|done|done|done|].
  unfold desired, served. simpl. rewrite lookup_insert_eq. by rewrite H1.
Qed.

(** C9 An up-to-date acknowledgement names the current configuration: in every
    reachable state, when the acknowledged revision of a usable agent has reached its
    desired revision, the acknowledged hash is the hash of the content the agent would be
    served now. *)
Theorem acknowledged_revision_is_current db a x st :
  rtc (mon_step settings) empty_db db ->
  agents db !! a = Some x -> a_enabled x = true -> a_archived_at x = None ->
  agent_configuration_states db !! a = Some st ->
  0 < st_desired_revision st <= st_acknowledged_revision st ->
  st_acknowledged_content_hash st = content_hash_of (current_content db (a_realm_id x) a).
Proof.
  intros Hreach Hx He Har Hst Hack.
  pose proof (config_ok_reachable settings db Hreach) as Hok.
  destruct (co_states _ Hok _ _ Hst) as [(y & Hy & Hyr) Hb Ha _].
  destruct Ha as (sn & Hsn & <-); [lia|].
  destruct (co_snapshots _ Hok _ _ _ _ Hsn) as [_ -> (z & st' & Hz & Hzr & Hst' & _ & Hc)].
  simplify_eq. rewrite Hc by (done || lia). congruence.
Qed.

(** Acknowledging: in every reachable state, for a 64-bit revision, the acknowledgement of a revision and hash
    that were issued to the agent is recorded unless a later revision has been
    acknowledged already, anything else is refused as [unknown_configuration], and the
    database constraint that the acknowledged revision does not exceed the desired one is
    never hit. *)
Theorem acknowledge_records_issued_revisions db au revision hash activated_at :
  rtc (mon_step settings) empty_db db -> authenticated db au ->
  fits_int8 revision = true ->
  let r := realm_id (au_realm au) in
  let a := a_id (au_agent au) in
  let digest := removeprefix "sha256:" hash in
  match agent_configuration_snapshots db !! (r, a, revision) with
  | Some sn =>
      if String.eqb (sn_content_hash sn) digest then
        exists st st', agent_configuration_states db !! a = Some st /\
          acknowledge_configuration au revision hash activated_at db =
            (set_agent_configuration_states (<[a := st']> (agent_configuration_states db)) db,
             Ok st') /\
          st_acknowledged_revision st' = Z.max (st_acknowledged_revision st) revision /\
          st_acknowledged_revision st' <= st_desired_revision st'
      else acknowledge_configuration au revision hash activated_at db =
        (db, Err (AgentProtocolError 409 "unknown_configuration"
               "The acknowledged configuration was not issued to this agent." false []))
  | None => acknowledge_configuration au revision hash activated_at db =
        (db, Err (AgentProtocolError 409 "unknown_configuration"
               "The acknowledged configuration was not issued to this agent." false []))
  end.
Proof.
  intros Hreach Hau Hfit r a digest.
  pose proof (config_ok_reachable settings db Hreach) as Hok.
  unfold acknowledge_configuration, in_transaction. fold r a digest. rewrite Hfit. mrun.
  unfold get_row.
  destruct (agent_configuration_snapshots db !! (r, a, revision)) as [sn|] eqn:Esn; [|done].
  destruct (String.eqb (sn_content_hash sn) digest) eqn:Eh; [|done]. cbn [is_none]. mrun.
  destruct (co_snapshots _ Hok _ _ _ _ Esn) as [_ _ (x & st & Hx & Hxr & Hst & Hb & _)].
  destruct (co_states _ Hok _ _ Hst) as [(y & Hy & Hyr) Hb2 _ _].
  assert (st_realm_id st = r) as Hstr by congruence.
  rewrite Hst, Hstr, N.eqb_refl. mrun.
  exists st. destruct (st_acknowledged_revision st <=? revision) eqn:Ele.
  - assert ((st_desired_revision st <? revision) = false) as -> by lia. mrun.
    eexists. repeat split; simpl; lia.
  - mrun. exists st. rewrite insert_id by done. rewrite set_states_same.
    repeat split; lia.
Qed.

(** Archiving a target: on a reachable state, archiving a current target of the
    realm returns, leaves the target disabled and archived, leaves no enabled or
    unarchived monitor on it, and no agent of any realm is configured with a monitor of
    that target any more. *)
Theorem archived_target_leaves_no_monitor db now realm target :
  rtc (mon_step settings) empty_db db ->
  targets db !! t_id target = Some target -> t_realm_id target = realm_id realm ->
  t_archived_at target = None ->
  let '(db', res) := archive_target now realm target db in
  res = Ok tt /\
  (exists t', targets db' !! t_id target = Some t' /\ t_enabled t' = false /\
     t_archived_at t' = Some now) /\
  (forall k m, monitors db' !! k = Some m -> m_target_id m = t_id target ->
     m_archived_at m <> None) /\
  (forall r a m t, (m, t) ∈ configured_monitors db' r a -> m_target_id m <> t_id target).
Proof.
  intros Hreach Ht Hr Har. pose proof (config_ok_reachable settings db Hreach) as Hok.
  pose proof (co_closed _ Hok) as Hrc.
  rewrite archive_target_run by done. split; [done|]. split; [|split].
  - exists (archived_row now target). simpl. by rewrite lookup_insert_eq.
  - intros k m. simpl. rewrite lookup_fmap. intros (m0 & Hm0 & ->)%fmap_Some.
    destruct (live_monitor_of _ _ m0) eqn:El; [done|]. intros Heq Hn.
    destruct (rc_monitors _ Hrc _ _ Hm0) as [_ (y & Hy & Hyr)].
    rewrite Heq, Ht in Hy. injection Hy as <-. unfold live_monitor_of in El.
    by rewrite Heq, Hn, <-Hyr, Hr, !N.eqb_refl in El.
  - intros r a m t Hin. apply elem_of_configured_monitors in Hin as [k Hk].
    change (selected (bump_db _ _ ?d) r a) with (selected d r a) in Hk.
    by apply selected_archived in Hk as [_ ?].
Qed.
End Theorems.

(** ** Witnesses *)

(** Assigning the monitor changes the agent's content and raises its revision from 0. *)
Lemma content_change_raises_revision_witness :
  desired Demo.db3 5 < desired Demo.db4 5.
Proof.
  apply (content_change_raises_revision (CO := strict_coercions) (P := example_platform)
    default_settings Demo.db3 Demo.db4 5 example_agent).
  - apply Demo.reach3.
  - apply Demo.step34.
  - vm_compute. reflexivity.
  - reflexivity.
  - reflexivity.
  - vm_compute. discriminate.
Defined.

Lemma configuration_request_answered_witness :
  exists db' sn,
    get_or_create_configuration (P := example_platform) 3000000 Demo.au Demo.db5 =
      (db', Ok (mkConfigurationResult sn Demo.content)) /\
    sn_configuration sn = Demo.content /\
    sn_content_hash sn = content_hash_of (P := example_platform) Demo.content /\
    sn_revision sn = 1 /\ desired db' 5 = sn_revision sn.
Proof.
  pose proof (configuration_request_answered (CO := strict_coercions) (P := example_platform)
    default_settings Demo.db5 3000000 Demo.au Demo.reach5 Demo.au5) as H.
  cbv zeta in H. cbn [Demo.au au_realm au_agent example_realm example_agent realm_id a_id] in H.
  destruct Demo.operational5 as (op & Hop & Hcaps).
  unfold desired at 1 in H. rewrite Hop, Hcaps, Demo.entries5, Demo.desired5 in H. exact H.
Defined.

Lemma acknowledged_revision_is_current_witness :
  Demo.issued_hash = content_hash_of (P := example_platform) (current_content Demo.db7 1 5).
Proof.
  refine (acknowledged_revision_is_current (CO := strict_coercions) (P := example_platform)
    default_settings Demo.db7 5 example_agent _ Demo.reach7 Demo.agent7 eq_refl eq_refl
    Demo.state7 _).
  simpl. lia.
Defined.

Lemma acknowledge_records_issued_revisions_witness :
  exists st st', agent_configuration_states Demo.db6 !! 5%N = Some st /\
    acknowledge_configuration Demo.au 1 ("sha256:" +:+ Demo.issued_hash) 4000000 Demo.db6 =
      (set_agent_configuration_states (<[5%N := st']> (agent_configuration_states Demo.db6))
         Demo.db6, Ok st') /\
    st_acknowledged_revision st' = Z.max (st_acknowledged_revision st) 1 /\
    st_acknowledged_revision st' <= st_desired_revision st'.
Proof.
  pose proof (acknowledge_records_issued_revisions (CO := strict_coercions)
    (P := example_platform) default_settings Demo.db6 Demo.au 1
    ("sha256:" +:+ Demo.issued_hash) 4000000 Demo.reach6 Demo.au6 eq_refl) as H.
  cbv zeta in H. cbn [Demo.au au_realm au_agent example_realm example_agent realm_id a_id] in H.
  rewrite Demo.snapshot6 in H. cbn [sn_content_hash removeprefix] in H.
  change (removeprefix "sha256:" ("sha256:" +:+ Demo.issued_hash)) with Demo.issued_hash in H.
  rewrite String.eqb_refl in H. exact H.
Defined.

Lemma archived_target_leaves_no_monitor_witness :
  exists t', targets (archive_target 5000000 example_realm Demo.target Demo.db7).1 !! 20%N = Some t' /\
    t_enabled t' = false /\ t_archived_at t' = Some 5000000.
Proof.
  pose proof (archived_target_leaves_no_monitor (CO := strict_coercions)
    (P := example_platform) default_settings Demo.db7 5000000 example_realm Demo.target
    Demo.reach7 Demo.target7 eq_refl eq_refl) as H.
  destruct (archive_target 5000000 example_realm Demo.target Demo.db7) as [db' res].
  exact (proj1 (proj2 H)).
Defined.
