(* ===== verification/ObservationSchema.v ===== *)
(** * Observation payloads (schemas/agent_protocol.py)

    The typed results, observations and uploads an agent sends, with the constraints
    their pydantic models enforce ([*_ok]: the [Field] bounds and the model
    validators), and [model_dump(mode="json")] of an observation, which is what
    ingestion hashes.  Durations are rationals; an aware datetime is its instant and
    its offset from UTC. *)

From Stdlib Require Import QArith.
From S2P Require Import Prelude PyText Json Platform Models.
Local Open Scope Z_scope.

Record AwareDatetime := mkAware { instant : Z; utc_offset : Z }.

#[export] Instance AwareDatetime_eq_dec : EqDecision AwareDatetime.
Proof. solve_decision. Defined.

(** ** Field constraints *)

Definition between (lo hi z : Z) : bool := (lo <=? z) && (z <=? hi).
Definition nonneg (q : Q) : bool := Qle_bool 0 q.
Definition len_between (lo hi : Z) (s : string) : bool := between lo hi (str_len s).

(** ** Results *)

Record IcmpObservationResult := mkIcmpResult {
  ir_packets_sent : Z;
  ir_packets_received : Z;
  ir_packet_loss_percent : Q;
  ir_min_rtt_ms : option Q;
  ir_avg_rtt_ms : option Q;
  ir_median_rtt_ms : option Q;
  ir_max_rtt_ms : option Q;
  ir_p95_rtt_ms : option Q;
  ir_jitter_ms : option Q;
  ir_rtt_samples_ms : list Q;
}.

Definition IcmpObservationResult_ok (r : IcmpObservationResult) : bool :=
  between 1 100 (ir_packets_sent r) && between 0 100 (ir_packets_received r) &&
  nonneg (ir_packet_loss_percent r) && Qle_bool (ir_packet_loss_percent r) 100 &&
  opt_ok nonneg (ir_min_rtt_ms r) && opt_ok nonneg (ir_avg_rtt_ms r) &&
  opt_ok nonneg (ir_median_rtt_ms r) && opt_ok nonneg (ir_max_rtt_ms r) &&
  opt_ok nonneg (ir_p95_rtt_ms r) && opt_ok nonneg (ir_jitter_ms r) &&
  forallb nonneg (ir_rtt_samples_ms r) && (Z.of_nat (length (ir_rtt_samples_ms r)) <=? 100) &&
  (* validate_packet_counts *)
  (ir_packets_received r <=? ir_packets_sent r) &&
  (Z.of_nat (length (ir_rtt_samples_ms r)) =? ir_packets_received r).

Inductive HttpMethod := HTTP_GET | HTTP_HEAD.
Inductive UrlScheme := US_http | US_https.
Definition str_HttpMethod (m : HttpMethod) : string :=
  match m with HTTP_GET => "GET" | HTTP_HEAD => "HEAD" end.
Definition str_UrlScheme (s : UrlScheme) : string :=
  match s with US_http => "http" | US_https => "https" end.

Record HttpObservationResult := mkHttpResult {
  hr_method : HttpMethod;
  hr_scheme : UrlScheme;
  hr_status_code : option Z;
  hr_redirect_count : Z;
  hr_response_size_bytes : option Z;
  hr_dns_ms : option Q;
  hr_connect_ms : option Q;
  hr_tls_ms : option Q;
  hr_ttfb_ms : option Q;
  hr_total_ms : option Q;
  hr_assertions_total : Z;
  hr_assertions_failed : Z;
  hr_final_url_redacted : option string;
}.

Definition HttpObservationResult_ok (r : HttpObservationResult) : bool :=
  opt_ok (between 100 599) (hr_status_code r) && between 0 20 (hr_redirect_count r) &&
  opt_ok (fun z => 0 <=? z) (hr_response_size_bytes r) &&
  opt_ok nonneg (hr_dns_ms r) && opt_ok nonneg (hr_connect_ms r) && opt_ok nonneg (hr_tls_ms r) &&
  opt_ok nonneg (hr_ttfb_ms r) && opt_ok nonneg (hr_total_ms r) &&
  between 0 100 (hr_assertions_total r) && between 0 100 (hr_assertions_failed r) &&
  opt_ok (len_between 0 2048) (hr_final_url_redacted r) &&
  (* validate_assertion_counts *)
  (hr_assertions_failed r <=? hr_assertions_total r).

Record TcpObservationResult := mkTcpResult {
  tr_port : Z;
  tr_address_used : option string;
  tr_connect_ms : option Q;
}.

Definition TcpObservationResult_ok (r : TcpObservationResult) : bool :=
  between 1 65535 (tr_port r) && opt_ok (len_between 2 45) (tr_address_used r) &&
  opt_ok nonneg (tr_connect_ms r).

Inductive DnsQueryType := DQ_A | DQ_AAAA | DQ_CNAME | DQ_MX | DQ_NS | DQ_PTR | DQ_TXT.
Definition str_DnsQueryType (t : DnsQueryType) : string :=
  match t with
  | DQ_A => "A" | DQ_AAAA => "AAAA" | DQ_CNAME => "CNAME" | DQ_MX => "MX" | DQ_NS => "NS"
  | DQ_PTR => "PTR" | DQ_TXT => "TXT"
  end.

Record DnsAnswer := mkDnsAnswer {
  da_type : DnsQueryType;
  da_name : string;
  da_ttl : option Z;
  da_value : string;
}.

Definition DnsAnswer_ok (a : DnsAnswer) : bool :=
  len_between 1 253 (da_name a) && opt_ok (fun z => 0 <=? z) (da_ttl a) &&
  len_between 1 1024 (da_value a).

Record DnsObservationResult := mkDnsResult {
  dr_resolver_address : option string;
  dr_query_name : string;
  dr_query_type : DnsQueryType;
  dr_response_code : option string;
  dr_response_ms : option Q;
  dr_answer_count : Z;
  dr_answers : list DnsAnswer;
  dr_truncated : bool;
  dr_authoritative : bool;
  dr_assertions_total : Z;
  dr_assertions_failed : Z;
}.

Definition DnsObservationResult_ok (r : DnsObservationResult) : bool :=
  opt_ok (len_between 2 45) (dr_resolver_address r) && len_between 1 253 (dr_query_name r) &&
  opt_ok (len_between 0 32) (dr_response_code r) && opt_ok nonneg (dr_response_ms r) &&
  between 0 100 (dr_answer_count r) && forallb DnsAnswer_ok (dr_answers r) &&
  (Z.of_nat (length (dr_answers r)) <=? 100) &&
  between 0 100 (dr_assertions_total r) && between 0 100 (dr_assertions_failed r) &&
  (* validate_counts *)
  (Z.of_nat (length (dr_answers r)) =? dr_answer_count r) &&
  (dr_assertions_failed r <=? dr_assertions_total r).

Record TlsObservationResult := mkTlsResult {
  lr_port : Z;
  lr_server_name : string;
  lr_protocol_version : option string;
  lr_cipher_suite : option string;
  lr_handshake_ms : option Q;
  lr_certificate_present : bool;
  lr_hostname_valid : option bool;
  lr_chain_valid : option bool;
  lr_not_before : option AwareDatetime;
  lr_not_after : option AwareDatetime;
  lr_days_remaining : option Q;
  lr_subject_name : option string;
  lr_issuer_name : option string;
  lr_serial_number : option string;
  lr_fingerprint_sha256 : option string;
}.

(** [pattern=r"^[0-9a-f]{64}$"]. *)
Definition fingerprint_ok (s : string) : bool :=
  (str_len s =? 64) && str_forall is_hex_lower s.

Definition TlsObservationResult_ok (r : TlsObservationResult) : bool :=
  between 1 65535 (lr_port r) && len_between 1 253 (lr_server_name r) &&
  opt_ok (len_between 0 32) (lr_protocol_version r) && opt_ok (len_between 0 160) (lr_cipher_suite r) &&
  opt_ok nonneg (lr_handshake_ms r) &&
  opt_ok (len_between 0 500) (lr_subject_name r) && opt_ok (len_between 0 500) (lr_issuer_name r) &&
  opt_ok (len_between 0 160) (lr_serial_number r) && opt_ok fingerprint_ok (lr_fingerprint_sha256 r) &&
  (* validate_certificate_dates *)
  match lr_not_before r, lr_not_after r with
  | Some b, Some a => instant b <=? instant a
  | _, _ => true
  end.

Inductive ObservationResult :=
| IcmpResult (r : IcmpObservationResult)
| HttpResult (r : HttpObservationResult)
| TcpResult (r : TcpObservationResult)
| DnsResult (r : DnsObservationResult)
| TlsResult (r : TlsObservationResult).

(** The probe type a result belongs to ([expected_result_types]). *)
Definition result_type (r : ObservationResult) : ProbeType :=
  match r with
  | IcmpResult _ => ICMP | HttpResult _ => HTTP | TcpResult _ => TCP | DnsResult _ => DNS
  | TlsResult _ => TLS
  end.

Definition ObservationResult_ok (r : ObservationResult) : bool :=
  match r with
  | IcmpResult r => IcmpObservationResult_ok r
  | HttpResult r => HttpObservationResult_ok r
  | TcpResult r => TcpObservationResult_ok r
  | DnsResult r => DnsObservationResult_ok r
  | TlsResult r => TlsObservationResult_ok r
  end.

(** ** Observations and uploads *)

Inductive ExecutionStatus := Completed | Failed.
Inductive Assessment := Healthy | Unhealthy | Unknown.
Inductive ErrorCategory :=
| EC_timeout | EC_resolution | EC_connection | EC_tls | EC_protocol | EC_assertion
| EC_permission | EC_invalid_configuration | EC_resource_limit | EC_internal.

#[export] Instance ExecutionStatus_eq_dec : EqDecision ExecutionStatus.
Proof. solve_decision. Defined.
#[export] Instance Assessment_eq_dec : EqDecision Assessment.
Proof. solve_decision. Defined.

Definition str_ExecutionStatus (s : ExecutionStatus) : string :=
  match s with Completed => "completed" | Failed => "failed" end.
Definition str_Assessment (a : Assessment) : string :=
  match a with Healthy => "healthy" | Unhealthy => "unhealthy" | Unknown => "unknown" end.
Definition str_ErrorCategory (c : ErrorCategory) : string :=
  match c with
  | EC_timeout => "timeout" | EC_resolution => "resolution" | EC_connection => "connection"
  | EC_tls => "tls" | EC_protocol => "protocol" | EC_assertion => "assertion"
  | EC_permission => "permission" | EC_invalid_configuration => "invalid_configuration"
  | EC_resource_limit => "resource_limit" | EC_internal => "internal"
  end.

Record AgentObservation := mkAgentObservation {
  ob_scheduled_at : AwareDatetime;
  ob_observation_id : uuid;
  ob_monitor_id : uuid;
  ob_monitor_revision : Z;
  ob_probe_type : ProbeType;
  ob_started_at : AwareDatetime;
  ob_finished_at : AwareDatetime;
  ob_execution_status : ExecutionStatus;
  ob_assessment : Assessment;
  ob_error_category : option ErrorCategory;
  ob_error_code : option string;
  ob_error_message : option string;
  ob_agent_clock_offset_ms : option Z;
  ob_result : option ObservationResult;
}.

Definition validate_observation (o : AgentObservation) : bool :=
  (instant (ob_scheduled_at o) <=? instant (ob_started_at o)) &&
  (instant (ob_started_at o) <=? instant (ob_finished_at o)) &&
  match ob_execution_status o, ob_result o with
  | Completed, Some r => bool_decide (result_type r = ob_probe_type o)
  | Completed, None => false
  | Failed, Some _ => false
  | Failed, None => true
  end.

Definition AgentObservation_ok (o : AgentObservation) : bool :=
  (1 <=? ob_monitor_revision o) && opt_ok (len_between 0 120) (ob_error_code o) &&
  opt_ok (len_between 0 500) (ob_error_message o) && opt_ok ObservationResult_ok (ob_result o) &&
  validate_observation o.

Record AgentObservationUpload := mkAgentObservationUpload {
  up_protocol_version : Z;
  up_result_schema_version : Z;
  up_agent_config_revision : Z;
  up_batch_id : uuid;
  up_observations : list AgentObservation;
}.

Definition AgentObservationUpload_ok (u : AgentObservationUpload) : bool :=
  (1 <=? up_protocol_version u) && (1 <=? up_result_schema_version u) &&
  (1 <=? up_agent_config_revision u) &&
  between 1 500 (Z.of_nat (length (up_observations u))) &&
  forallb AgentObservation_ok (up_observations u).

Inductive Disposition := Accepted | Duplicate | Rejected.

#[export] Instance Disposition_eq_dec : EqDecision Disposition.
Proof. solve_decision. Defined.

Record AgentObservationResult := mkAgentObservationResult {
  ar_scheduled_at : AwareDatetime;
  ar_observation_id : uuid;
  ar_disposition : Disposition;
  ar_code : option string;
  ar_retryable : bool;
}.

(** ** [model_dump(mode="json")] *)

Section Dump.
Context {P : Platform}.

Definition j_datetime (d : AwareDatetime) : json :=
  JString (datetime_json (instant d) (utc_offset d)).

Definition dump_DnsAnswer (a : DnsAnswer) : json :=
  JObject [("name", JString (da_name a)); ("ttl", json_opt JInt (da_ttl a));
    ("type", JString (str_DnsQueryType (da_type a))); ("value", JString (da_value a))].

Definition dump_result (r : ObservationResult) : json :=
  match r with
  | IcmpResult r => JObject [
      ("avg_rtt_ms", json_opt JFloat (ir_avg_rtt_ms r));
      ("jitter_ms", json_opt JFloat (ir_jitter_ms r));
      ("max_rtt_ms", json_opt JFloat (ir_max_rtt_ms r));
      ("median_rtt_ms", json_opt JFloat (ir_median_rtt_ms r));
      ("min_rtt_ms", json_opt JFloat (ir_min_rtt_ms r));
      ("p95_rtt_ms", json_opt JFloat (ir_p95_rtt_ms r));
      ("packet_loss_percent", JFloat (ir_packet_loss_percent r));
      ("packets_received", JInt (ir_packets_received r));
      ("packets_sent", JInt (ir_packets_sent r));
      ("rtt_samples_ms", JArray (map JFloat (ir_rtt_samples_ms r)))]
  | HttpResult r => JObject [
      ("assertions_failed", JInt (hr_assertions_failed r));
      ("assertions_total", JInt (hr_assertions_total r));
      ("connect_ms", json_opt JFloat (hr_connect_ms r));
      ("dns_ms", json_opt JFloat (hr_dns_ms r));
      ("final_url_redacted", json_opt JString (hr_final_url_redacted r));
      ("method", JString (str_HttpMethod (hr_method r)));
      ("redirect_count", JInt (hr_redirect_count r));
      ("response_size_bytes", json_opt JInt (hr_response_size_bytes r));
      ("scheme", JString (str_UrlScheme (hr_scheme r)));
      ("status_code", json_opt JInt (hr_status_code r));
      ("tls_ms", json_opt JFloat (hr_tls_ms r));
      ("total_ms", json_opt JFloat (hr_total_ms r));
      ("ttfb_ms", json_opt JFloat (hr_ttfb_ms r))]
  | TcpResult r => JObject [
      ("address_used", json_opt JString (tr_address_used r));
      ("connect_ms", json_opt JFloat (tr_connect_ms r));
      ("port", JInt (tr_port r))]
  | DnsResult r => JObject [
      ("answer_count", JInt (dr_answer_count r));
      ("answers", JArray (map dump_DnsAnswer (dr_answers r)));
      ("assertions_failed", JInt (dr_assertions_failed r));
      ("assertions_total", JInt (dr_assertions_total r));
      ("authoritative", JBool (dr_authoritative r));
      ("query_name", JString (dr_query_name r));
      ("query_type", JString (str_DnsQueryType (dr_query_type r)));
      ("resolver_address", json_opt JString (dr_resolver_address r));
      ("response_code", json_opt JString (dr_response_code r));
      ("response_ms", json_opt JFloat (dr_response_ms r));
      ("truncated", JBool (dr_truncated r))]
  | TlsResult r => JObject [
      ("certificate_present", JBool (lr_certificate_present r));
      ("chain_valid", json_opt JBool (lr_chain_valid r));
      ("cipher_suite", json_opt JString (lr_cipher_suite r));
      ("days_remaining", json_opt JFloat (lr_days_remaining r));
      ("fingerprint_sha256", json_opt JString (lr_fingerprint_sha256 r));
      ("handshake_ms", json_opt JFloat (lr_handshake_ms r));
      ("hostname_valid", json_opt JBool (lr_hostname_valid r));
      ("issuer_name", json_opt JString (lr_issuer_name r));
      ("not_after", json_opt j_datetime (lr_not_after r));
      ("not_before", json_opt j_datetime (lr_not_before r));
      ("port", JInt (lr_port r));
      ("protocol_version", json_opt JString (lr_protocol_version r));
      ("serial_number", json_opt JString (lr_serial_number r));
      ("server_name", JString (lr_server_name r));
      ("subject_name", json_opt JString (lr_subject_name r))]
  end.

Definition dump_observation (o : AgentObservation) : json :=
  JObject [
    ("agent_clock_offset_ms", json_opt JInt (ob_agent_clock_offset_ms o));
    ("assessment", JString (str_Assessment (ob_assessment o)));
    ("error_category", json_opt (fun c => JString (str_ErrorCategory c)) (ob_error_category o));
    ("error_code", json_opt JString (ob_error_code o));
    ("error_message", json_opt JString (ob_error_message o));
    ("execution_status", JString (str_ExecutionStatus (ob_execution_status o)));
    ("finished_at", j_datetime (ob_finished_at o));
    ("monitor_id", JString (str_uuid (ob_monitor_id o)));
    ("monitor_revision", JInt (ob_monitor_revision o));
    ("observation_id", JString (str_uuid (ob_observation_id o)));
    ("probe_type", JString (str_ProbeType (ob_probe_type o)));
    ("result", json_opt dump_result (ob_result o));
    ("scheduled_at", j_datetime (ob_scheduled_at o));
    ("started_at", j_datetime (ob_started_at o))].
End Dump.
