(* ===== verification/Observations.v ===== *)
(** * Observation ingestion (agents/observations.py, migrations 0007, 0011, 0012)

    The observation hypertables and the ingestion of an upload.  Tables are keyed by
    their identity constraint (scheduled_at, observation_id).  A statement is refused
    with [DataError] when the driver cannot encode a value for its column (integers
    out of range, NUL in text, text that is no [INET]), with [IntegrityError] when a
    constraint of the migrations fails. *)

From Stdlib Require Import QArith Ascii.
From S2P Require Import Prelude PyText Json Platform Models ProbeConfig Domain.
From S2P Require Import Credentials Configuration ObservationSchema.
Local Open Scope Z_scope.

(** ** Tables *)

Record ObservationRow := mkObservationRow {
  or_scheduled_at : Z;
  or_observation_id : uuid;
  or_realm_id : uuid;
  or_agent_id : uuid;
  or_monitor_id : uuid;
  or_probe_type : ProbeType;
  or_monitor_revision : Z;
  or_agent_config_revision : Z;
  or_started_at : Z;
  or_finished_at : Z;
  or_received_at : Z;
  or_execution_status : ExecutionStatus;
  or_assessment : Assessment;
  or_error_category : option ErrorCategory;
  or_error_code : option string;
  or_error_message : option string;
  or_agent_clock_offset_ms : option Z;
  or_canonical_payload_hash : option string;
}.

(** A row of one of the five typed tables: its identity columns and its data. *)
Record ResultRow (A : Type) := mkResultRow {
  rr_realm_id : uuid;
  rr_agent_id : uuid;
  rr_monitor_id : uuid;
  rr_data : A;
}.
Arguments mkResultRow {A}.
Arguments rr_realm_id {A}.
Arguments rr_agent_id {A}.
Arguments rr_monitor_id {A}.
Arguments rr_data {A}.

(** The key of all six tables. *)
Abbreviation okey := (Z * uuid)%type.

Record ObsDB := mkObsDB {
  observations : gmap okey ObservationRow;
  icmp_results : gmap okey (ResultRow IcmpObservationResult);
  http_results : gmap okey (ResultRow HttpObservationResult);
  tcp_results : gmap okey (ResultRow TcpObservationResult);
  dns_results : gmap okey (ResultRow DnsObservationResult);
  tls_results : gmap okey (ResultRow TlsObservationResult);
}.

Definition empty_obs : ObsDB := mkObsDB ∅ ∅ ∅ ∅ ∅ ∅.

Definition set_observations (v : gmap okey ObservationRow) (db : ObsDB) : ObsDB :=
  mkObsDB v (icmp_results db) (http_results db) (tcp_results db) (dns_results db) (tls_results db).
Definition set_icmp_results (v : gmap okey (ResultRow IcmpObservationResult)) (db : ObsDB) : ObsDB :=
  mkObsDB (observations db) v (http_results db) (tcp_results db) (dns_results db) (tls_results db).
Definition set_http_results (v : gmap okey (ResultRow HttpObservationResult)) (db : ObsDB) : ObsDB :=
  mkObsDB (observations db) (icmp_results db) v (tcp_results db) (dns_results db) (tls_results db).
Definition set_tcp_results (v : gmap okey (ResultRow TcpObservationResult)) (db : ObsDB) : ObsDB :=
  mkObsDB (observations db) (icmp_results db) (http_results db) v (dns_results db) (tls_results db).
Definition set_dns_results (v : gmap okey (ResultRow DnsObservationResult)) (db : ObsDB) : ObsDB :=
  mkObsDB (observations db) (icmp_results db) (http_results db) (tcp_results db) v (tls_results db).
Definition set_tls_results (v : gmap okey (ResultRow TlsObservationResult)) (db : ObsDB) : ObsDB :=
  mkObsDB (observations db) (icmp_results db) (http_results db) (tcp_results db) (dns_results db) v.

Abbreviation O A := (M ObsDB A).

Definition key_of (o : AgentObservation) : okey :=
  (instant (ob_scheduled_at o), ob_observation_id o).

(** ** Ingestion *)

Definition MAXIMUM_OBSERVATION_AGE : Z := days 30.
Definition MAXIMUM_FUTURE_SKEW : Z := minutes 5.

Definition _rejected (o : AgentObservation) (code : string) (retryable : bool) :
    AgentObservationResult :=
  mkAgentObservationResult (ob_scheduled_at o) (ob_observation_id o) Rejected (Some code) retryable.

(** [{monitor["monitor_id"]: monitor for monitor in snapshot.configuration["monitors"]}]. *)
Fixpoint configured_entries (l : list json) : outcome (list (string * json)) :=
  match l with
  | [] => Ok []
  | e :: l' =>
      match json_get "monitor_id" e with
      | Some (JString id) =>
          match configured_entries l' with
          | Ok rest => Ok ((id, e) :: rest)
          | Err x => Err x
          end
      | _ => Err KeyError
      end
  end.

Definition configured_of (configuration : json) : outcome (list (string * json)) :=
  match json_get "monitors" configuration with
  | Some (JArray l) => configured_entries l
  | _ => Err KeyError
  end.

(** [configured.get(key)]: a later entry overrides an earlier one. *)
Definition configured_get (key : string) (l : list (string * json)) : option json :=
  snd <$> List.find (fun p => String.eqb p.1 key) (reverse l).

Section Ingestion.
Context {P : Platform}.

Definition _canonical_hash (o : AgentObservation) : string :=
  sha256_hexdigest (canonical_json (dump_observation o)).

(** The values of the common row the driver or a constraint refuses. *)
Definition common_encodable (u : AgentObservationUpload) (o : AgentObservation) : bool :=
  fits_int8 (ob_monitor_revision o) && fits_int8 (up_agent_config_revision u) &&
  opt_ok pg_text (ob_error_code o) && opt_ok pg_text (ob_error_message o) &&
  opt_ok fits_int4 (ob_agent_clock_offset_ms o).

Definition common_checks (u : AgentObservationUpload) (o : AgentObservation) : bool :=
  (0 <? ob_monitor_revision o) && (0 <? up_agent_config_revision u) &&
  (instant (ob_scheduled_at o) <=? instant (ob_started_at o)) &&
  (instant (ob_started_at o) <=? instant (ob_finished_at o)).

Definition common_row (received_at : Z) (authentication : AgentAuthentication)
    (upload : AgentObservationUpload) (o : AgentObservation) (content_hash : string) :
    ObservationRow :=
  mkObservationRow (instant (ob_scheduled_at o)) (ob_observation_id o)
    (realm_id (au_realm authentication)) (a_id (au_agent authentication)) (ob_monitor_id o)
    (ob_probe_type o) (ob_monitor_revision o) (up_agent_config_revision upload)
    (instant (ob_started_at o)) (instant (ob_finished_at o)) received_at
    (ob_execution_status o) (ob_assessment o) (ob_error_category o) (ob_error_code o)
    (ob_error_message o) (ob_agent_clock_offset_ms o) (Some content_hash).

(** INSERT .. ON CONFLICT (scheduled_at, observation_id) DO NOTHING RETURNING. *)
Definition _insert_common (received_at : Z) (authentication : AgentAuthentication)
    (upload : AgentObservationUpload) (o : AgentObservation) (content_hash : string) : O bool :=
  raise_if (negb (common_encodable upload o)) DataError ;;
  raise_if (negb (common_checks upload o)) IntegrityError ;;
  existing ← gets (fun db => observations db !! key_of o);
  match existing with
  | Some _ => mret false
  | None =>
      modify (fun db => set_observations
        (<[key_of o := common_row received_at authentication upload o content_hash]>
          (observations db)) db) ;;
      mret true
  end.

Definition _existing_hash (o : AgentObservation) : O (option string) :=
  gets (fun db => match observations db !! key_of o with
                  | Some row => or_canonical_payload_hash row
                  | None => None
                  end).

(** Column constraints of the typed tables. *)
Definition icmp_encodable (r : IcmpObservationResult) : bool :=
  fits_int4 (ir_packets_sent r) && fits_int4 (ir_packets_received r).
Definition icmp_checks (r : IcmpObservationResult) : bool :=
  between 1 100 (ir_packets_sent r) && between 0 (ir_packets_sent r) (ir_packets_received r) &&
  (Z.of_nat (length (ir_rtt_samples_ms r)) =? ir_packets_received r) &&
  nonneg (ir_packet_loss_percent r) && Qle_bool (ir_packet_loss_percent r) 100 &&
  opt_ok nonneg (ir_min_rtt_ms r).

Definition http_encodable (r : HttpObservationResult) : bool :=
  opt_ok fits_int4 (hr_status_code r) && fits_int4 (hr_redirect_count r) &&
  opt_ok fits_int8 (hr_response_size_bytes r) && fits_int4 (hr_assertions_total r) &&
  fits_int4 (hr_assertions_failed r) && opt_ok pg_text (hr_final_url_redacted r).
Definition http_checks (r : HttpObservationResult) : bool :=
  opt_ok (between 100 599) (hr_status_code r) && (0 <=? hr_redirect_count r) &&
  (0 <=? hr_assertions_total r) && between 0 (hr_assertions_total r) (hr_assertions_failed r) &&
  opt_ok (fun z => 0 <=? z) (hr_response_size_bytes r).

(** [address_used INET NOT NULL]. *)
Definition tcp_encodable (r : TcpObservationResult) : bool :=
  fits_int4 (tr_port r) && opt_ok inet_ok (tr_address_used r).
Definition tcp_checks (r : TcpObservationResult) : bool :=
  negb (is_none (tr_address_used r)) && between 1 65535 (tr_port r) &&
  opt_ok nonneg (tr_connect_ms r).

(** [resolver_address INET NOT NULL]; [answers] is a JSON text. *)
Definition dns_encodable (r : DnsObservationResult) : bool :=
  opt_ok inet_ok (dr_resolver_address r) && pg_text (dr_query_name r) &&
  opt_ok pg_text (dr_response_code r) && fits_int4 (dr_answer_count r) &&
  forallb (fun a => pg_text (da_name a) && pg_text (da_value a)) (dr_answers r) &&
  fits_int4 (dr_assertions_total r) && fits_int4 (dr_assertions_failed r).
Definition dns_checks (r : DnsObservationResult) : bool :=
  negb (is_none (dr_resolver_address r)) && opt_ok nonneg (dr_response_ms r) &&
  (0 <=? dr_answer_count r) && (0 <=? dr_assertions_total r) &&
  between 0 (dr_assertions_total r) (dr_assertions_failed r).

Definition tls_encodable (r : TlsObservationResult) : bool :=
  fits_int4 (lr_port r) && pg_text (lr_server_name r) && opt_ok pg_text (lr_protocol_version r) &&
  opt_ok pg_text (lr_cipher_suite r) && opt_ok pg_text (lr_subject_name r) &&
  opt_ok pg_text (lr_issuer_name r) && opt_ok pg_text (lr_serial_number r) &&
  opt_ok pg_text (lr_fingerprint_sha256 r).
Definition tls_checks (r : TlsObservationResult) : bool :=
  between 1 65535 (lr_port r) && opt_ok nonneg (lr_handshake_ms r) &&
  match lr_not_before r, lr_not_after r with
  | Some b, Some a => instant b <=? instant a
  | _, _ => true
  end.

(** INSERT INTO one typed table, whose identity is unique. *)
Definition insert_result {A} (get : ObsDB -> gmap okey (ResultRow A))
    (set : gmap okey (ResultRow A) -> ObsDB -> ObsDB) (encodable checks : A -> bool)
    (authentication : AgentAuthentication) (o : AgentObservation) (r : A) : O unit :=
  raise_if (negb (encodable r)) DataError ;;
  raise_if (negb (checks r)) IntegrityError ;;
  taken ← gets (fun db => negb (is_none (get db !! key_of o)));
  raise_if taken IntegrityError ;;
  modify (fun db => set (<[key_of o := mkResultRow (realm_id (au_realm authentication))
    (a_id (au_agent authentication)) (ob_monitor_id o) r]> (get db)) db).

(** The table comes from the probe type and the columns from the result: a result of
    another type lacks the columns. *)
Definition _insert_typed_result (authentication : AgentAuthentication) (o : AgentObservation) :
    O unit :=
  match ob_result o, ob_probe_type o with
  | None, _ => mret tt
  | Some (IcmpResult r), ICMP =>
      insert_result icmp_results set_icmp_results icmp_encodable icmp_checks authentication o r
  | Some (HttpResult r), HTTP =>
      insert_result http_results set_http_results http_encodable http_checks authentication o r
  | Some (TcpResult r), TCP =>
      insert_result tcp_results set_tcp_results tcp_encodable tcp_checks authentication o r
  | Some (DnsResult r), DNS =>
      insert_result dns_results set_dns_results dns_encodable dns_checks authentication o r
  | Some (TlsResult r), TLS =>
      insert_result tls_results set_tls_results tls_encodable tls_checks authentication o r
  | Some _, _ => raise KeyError
  end.

(** The checks of the loop before anything is written: the code of the rejection. *)
Definition screen (now : Z) (configured : list (string * json)) (o : AgentObservation) :
    option string :=
  match configured_get (str_uuid (ob_monitor_id o)) configured with
  | None => Some "monitor_not_in_configuration"
  | Some monitor =>
      if negb (bool_decide (json_get "probe_type" monitor =
                            Some (JString (str_ProbeType (ob_probe_type o)))))
      then Some "monitor_not_in_configuration"
      else if negb match json_get "monitor_revision" monitor with
                   | Some v => py_eq v (JInt (ob_monitor_revision o))
                   | None => false
                   end
      then Some "monitor_revision_mismatch"
      else if instant (ob_scheduled_at o) <? now - MAXIMUM_OBSERVATION_AGE
      then Some "observation_too_old"
      else if now + MAXIMUM_FUTURE_SKEW <? instant (ob_scheduled_at o)
      then Some "observation_in_future"
      else None
  end.

(** The body of the loop for one observation. *)
Definition ingest_one (now received_at : Z) (authentication : AgentAuthentication)
    (upload : AgentObservationUpload) (configured : list (string * json))
    (o : AgentObservation) : O AgentObservationResult :=
  match screen now configured o with
  | Some code => mret (_rejected o code false)
  | None =>
      let content_hash := _canonical_hash o in
      inserted ← _insert_common received_at authentication upload o content_hash;
      if negb inserted then
        existing_hash ← _existing_hash o;
        mret (if bool_decide (existing_hash = Some content_hash)
              then mkAgentObservationResult (ob_scheduled_at o) (ob_observation_id o)
                     Duplicate None false
              else mkAgentObservationResult (ob_scheduled_at o) (ob_observation_id o)
                     Rejected (Some "idempotency_conflict") false)
      else
        _insert_typed_result authentication o ;;
        mret (mkAgentObservationResult (ob_scheduled_at o) (ob_observation_id o)
                Accepted None false)
  end.

Fixpoint ingest_loop (now received_at : Z) (authentication : AgentAuthentication)
    (upload : AgentObservationUpload) (configured : list (string * json))
    (l : list AgentObservation) : O (list AgentObservationResult) :=
  match l with
  | [] => mret []
  | o :: l' =>
      r ← ingest_one now received_at authentication upload configured o;
      rs ← ingest_loop now received_at authentication upload configured l';
      mret (r :: rs)
  end.

(** [mon] is the monitoring database the snapshot is read from; [received_at] is the
    transaction's [CURRENT_TIMESTAMP]. *)
Definition ingest_observations (mon : MonDB) (now received_at : Z)
    (authentication : AgentAuthentication) (upload : AgentObservationUpload) :
    O (list AgentObservationResult) :=
  (* the revision is compared with a 64-bit column *)
  raise_if (negb (fits_int8 (up_agent_config_revision upload))) DataError ;;
  match agent_configuration_snapshots mon !!
          (realm_id (au_realm authentication), a_id (au_agent authentication),
           up_agent_config_revision upload) with
  | None => mret (map (fun o => _rejected o "configuration_revision_unavailable" true)
                    (up_observations upload))
  | Some snapshot =>
      match configured_of (sn_configuration snapshot) with
      | Err e => raise e
      | Ok configured =>
          in_transaction
            (ingest_loop now received_at authentication upload configured
               (up_observations upload))
      end
  end.
End Ingestion.
