(* ===== verification/ObservationProps.v ===== *)
(** * Ingestion is atomic, idempotent and keeps the typed tables consistent *)

From Stdlib Require Import QArith Ascii.
From S2P Require Import Prelude PyText Json Platform Models ProbeConfig Domain.
From S2P Require Import Credentials Configuration ObservationSchema Observations Steps.
Local Open Scope Z_scope.

Section Ingest.
Context {P : Platform}.
Implicit Types (db : ObsDB) (o : AgentObservation).

(** ** Runs of the statements *)

Definition writable (up : AgentObservationUpload) o : bool :=
  common_encodable up o && common_checks up o.

Lemma insert_common_run recv au up o h db :
  writable up o = true ->
  _insert_common recv au up o h db =
    match observations db !! key_of o with
    | Some _ => (db, Ok false)
    | None => (set_observations (<[key_of o := common_row recv au up o h]> (observations db)) db,
               Ok true)
    end.
Proof.
  unfold writable. intros [He Hc]%andb_true_iff. unfold _insert_common.
  rewrite He, Hc. mrun. by destruct (observations db !! key_of o).
Qed.

Lemma insert_common_inv recv au up o h db db' b :
  _insert_common recv au up o h db = (db', Ok b) -> writable up o = true.
Proof.
  unfold _insert_common. intros H. minv. unfold writable.
  destruct (common_encodable up o), (common_checks up o); done.
Qed.

(** The six ways a typed insert can run. *)
Lemma insert_result_inv {A} get set (enc chk : A -> bool) au o r db db' u :
  insert_result get set enc chk au o r db = (db', Ok u) ->
  enc r = true /\ chk r = true /\ get db !! key_of o = None /\
  db' = set (<[key_of o := mkResultRow (realm_id (au_realm au)) (a_id (au_agent au))
               (ob_monitor_id o) r]> (get db)) db.
Proof.
  unfold insert_result. intros H. minv.
  destruct (enc r), (chk r), (get db !! key_of o); done.
Qed.

Lemma typed_observations au o db :
  observations (_insert_typed_result au o db).1 = observations db.
Proof.
  assert (Hins : forall A (get : ObsDB -> gmap okey (ResultRow A)) set enc chk r,
    (forall v d, observations (set v d) = observations d) ->
    observations (insert_result get set enc chk au o r db).1 = observations db).
  { intros A get set enc chk r Hset. unfold insert_result. mrun.
    destruct (negb (enc r)); [done|]. mrun. destruct (negb (chk r)); [done|]. mrun.
    destruct (is_none _); mrun; [by rewrite Hset|done]. }
  unfold _insert_typed_result. destruct (ob_result o) as [[r|r|r|r|r]|], (ob_probe_type o);
    try done; by apply Hins.
Qed.

(** ** One observation *)

Definition duplicate_of o : AgentObservationResult :=
  mkAgentObservationResult (ob_scheduled_at o) (ob_observation_id o) Duplicate None false.
Definition conflict_of o : AgentObservationResult :=
  mkAgentObservationResult (ob_scheduled_at o) (ob_observation_id o) Rejected
    (Some "idempotency_conflict") false.
Definition accepted_of o : AgentObservationResult :=
  mkAgentObservationResult (ob_scheduled_at o) (ob_observation_id o) Accepted None false.

(** How the body of the loop ends when it returns. *)
Inductive ingested now recv au up cfg o db : ObsDB -> AgentObservationResult -> Prop :=
| ing_screened code :
    screen now cfg o = Some code ->
    ingested now recv au up cfg o db db (_rejected o code false)
| ing_stored row :
    screen now cfg o = None -> writable up o = true ->
    observations db !! key_of o = Some row ->
    ingested now recv au up cfg o db db
      (if bool_decide (or_canonical_payload_hash row = Some (_canonical_hash o))
       then duplicate_of o else conflict_of o)
| ing_accepted db' :
    screen now cfg o = None -> writable up o = true ->
    observations db !! key_of o = None ->
    _insert_typed_result au o (set_observations
      (<[key_of o := common_row recv au up o (_canonical_hash o)]> (observations db)) db)
      = (db', Ok tt) ->
    ingested now recv au up cfg o db db' (accepted_of o).

Lemma ingest_one_inv now recv au up cfg o db db' r :
  ingest_one now recv au up cfg o db = (db', Ok r) -> ingested now recv au up cfg o db db' r.
Proof.
  unfold ingest_one. destruct (screen now cfg o) as [code|] eqn:Es.
  - intros H. minv. by constructor.
  - intros H. minv. pose proof (insert_common_inv _ _ _ _ _ _ _ _ H0) as Hw.
    rewrite insert_common_run in H0 by done.
    destruct (observations db !! key_of o) as [row|] eqn:Eo; injection H0 as <- <-; simpl in H1.
    + unfold _existing_hash in H1. minv. rewrite Eo. by eapply ing_stored.
    + minv. destruct a. by apply ing_accepted.
Qed.

Lemma ingested_observations now recv au up cfg o db db' r :
  ingested now recv au up cfg o db db' r ->
  forall k row, observations db !! k = Some row -> observations db' !! k = Some row.
Proof.
  intros Hi k row0 Hk. destruct Hi as [code Hs|row Hs Hw Ho|d Hs Hw Hn Ht]; try done.
  pose proof (typed_observations au o (set_observations (<[key_of o := common_row recv au up o
    (_canonical_hash o)]> (observations db)) db)) as Hobs.
  rewrite Ht in Hobs. simpl in Hobs. rewrite Hobs, lookup_insert_ne; [done|congruence].
Qed.

Lemma loop_observations now recv au up cfg l : forall db db' rs,
  ingest_loop now recv au up cfg l db = (db', Ok rs) ->
  forall k row, observations db !! k = Some row -> observations db' !! k = Some row.
Proof.
  induction l as [|o l IH]; intros db db' rs H k row Hk; simpl in H; minv; [done|].
  apply ingest_one_inv in H0. eapply IH; [eassumption|]. by eapply ingested_observations.
Qed.

(** ** One result per observation *)

(** The first observation of a list that is stored under [k]: those that fail the screening
    are not. *)
Definition first_passing now cfg (k : okey) (l : list AgentObservation) : option AgentObservation :=
  List.find (fun e => bool_decide (key_of e = k) && is_none (screen now cfg e)) l.

(** The hash recorded under [k], in the tables [db] or by the observations [before] in the same
    upload. *)
Definition recorded now cfg db (before : list AgentObservation) (k : okey) : option (option string) :=
  match observations db !! k with
  | Some row => Some (or_canonical_payload_hash row)
  | None => (fun e => Some (_canonical_hash e)) <$> first_passing now cfg k before
  end.

(** The answer to an observation: the code of its screening, or what the recorded hash says. *)
Definition verdict now cfg (known : option (option string)) o : AgentObservationResult :=
  match screen now cfg o with
  | Some code => _rejected o code false
  | None =>
      match known with
      | None => accepted_of o
      | Some h => if bool_decide (h = Some (_canonical_hash o)) then duplicate_of o else conflict_of o
      end
  end.

(** The row under [k] after an upload. *)
Definition row_after now recv au up cfg db (l : list AgentObservation) (k : okey) : option ObservationRow :=
  match observations db !! k with
  | Some row => Some row
  | None => (fun e => common_row recv au up e (_canonical_hash e)) <$> first_passing now cfg k l
  end.

Lemma ingested_verdict now recv au up cfg o db db' r :
  ingested now recv au up cfg o db db' r ->
  r = verdict now cfg (recorded now cfg db [] (key_of o)) o /\
  forall k, observations db' !! k = row_after now recv au up cfg db [o] k.
Proof.
  intros Hi. unfold verdict, recorded, row_after, first_passing; simpl.
  destruct Hi as [code Hs|row Hs Hw Ho|d Hs Hw Hn Ht]; rewrite Hs; simpl.
  - split; [done|]. intros k. rewrite andb_false_r. by destruct (observations db !! k).
  - rewrite Ho. split; [done|]. intros k. destruct (observations db !! k) eqn:Ek; [done|].
    rewrite bool_decide_eq_false_2 by (intros <-; congruence). done.
  - rewrite Hn. split; [done|]. intros k.
    pose proof (typed_observations au o (set_observations (<[key_of o := common_row recv au up o
      (_canonical_hash o)]> (observations db)) db)) as Hobs.
    rewrite Ht in Hobs. simpl in Hobs. rewrite Hobs. destruct (decide (key_of o = k)) as [<-|Hne].
    + by rewrite lookup_insert_eq, Hn, bool_decide_eq_true_2.
    + rewrite lookup_insert_ne, bool_decide_eq_false_2 by done. by destruct (observations db !! k).
Qed.

(** Both after one observation more. *)
Lemma recorded_after now recv au up cfg o db db' l k :
  (forall k, observations db' !! k = row_after now recv au up cfg db [o] k) ->
  recorded now cfg db' l k = recorded now cfg db (o :: l) k /\
  row_after now recv au up cfg db' l k = row_after now recv au up cfg db (o :: l) k.
Proof.
  intros Hrow. unfold recorded. unfold row_after at 1. rewrite Hrow. unfold row_after, first_passing; simpl.
  destruct (observations db !! k); [done|]. by destruct (_ && _).
Qed.

Lemma loop_verdicts now recv au up cfg l : forall db db' rs,
  ingest_loop now recv au up cfg l db = (db', Ok rs) ->
  length rs = length l /\
  (forall i o, l !! i = Some o ->
     rs !! i = Some (verdict now cfg (recorded now cfg db (take i l) (key_of o)) o)) /\
  forall k, observations db' !! k = row_after now recv au up cfg db l k.
Proof.
  induction l as [|o l IH]; intros db db' rs H; simpl in H; minv.
  - split; [done|]. split; [done|]. intros k. unfold row_after. by destruct (observations db !! k).
  - apply ingest_one_inv, ingested_verdict in H0 as [-> Hrow]. apply IH in H as (Hlen & Hv & Hr). split; [simpl; lia|].
    split.
    + intros [|i] e He; simpl in *; [by injection He as <-|]. rewrite (Hv i e He).
      by destruct (recorded_after now recv au up cfg o db s (take i l) (key_of e) Hrow) as [-> _].
    + intros k. rewrite Hr. by destruct (recorded_after now recv au up cfg o db s l k Hrow) as [_ ->].
Qed.

(** ** Replays *)

Definition too_old (now : Z) o : bool := instant (ob_scheduled_at o) <? now - MAXIMUM_OBSERVATION_AGE.

(** Rejected before anything was looked up. *)
Definition screened_out (r : AgentObservationResult) : bool :=
  negb (is_none (ar_code r)) && negb (bool_decide (ar_code r = Some "idempotency_conflict")).

(** The answer to an observation that was answered with [r] before: it is a duplicate where it
    was accepted, until it is too old. *)
Definition replayed (now : Z) o (r : AgentObservationResult) : AgentObservationResult :=
  if screened_out r then r
  else if too_old now o then _rejected o "observation_too_old" false
  else match ar_disposition r with Accepted => duplicate_of o | _ => r end.

(** Only the clock changes the outcome of the screening. *)
Lemma screen_later now now' cfg o : now <= now' -> screen now cfg o <> Some "observation_in_future" ->
  screen now' cfg o = match screen now cfg o with
    | Some code => Some code
    | None => if too_old now' o then Some "observation_too_old" else None
    end.
Proof.
  intros Hle. unfold screen, too_old. destruct (configured_get _ cfg) as [m|]; [|done].
  destruct (negb _); [done|]. destruct (negb _); [done|].
  destruct (Z.ltb_spec (instant (ob_scheduled_at o)) (now - MAXIMUM_OBSERVATION_AGE)),
    (Z.ltb_spec (instant (ob_scheduled_at o)) (now' - MAXIMUM_OBSERVATION_AGE)),
    (Z.ltb_spec (now + MAXIMUM_FUTURE_SKEW) (instant (ob_scheduled_at o))),
    (Z.ltb_spec (now' + MAXIMUM_FUTURE_SKEW) (instant (ob_scheduled_at o))); done || lia.
Qed.

Lemma screening_code now cfg o code : screen now cfg o = Some code -> code <> "idempotency_conflict".
Proof. unfold screen. repeat case_match; by intros [= <-]. Qed.

Lemma ingest_one_replay now recv au up cfg o db db1 r now' recv' db2 :
  ingested now recv au up cfg o db db1 r -> now <= now' -> ar_code r <> Some "observation_in_future" ->
  (forall k row, observations db1 !! k = Some row -> observations db2 !! k = Some row) ->
  ingest_one now' recv' au up cfg o db2 = (db2, Ok (replayed now' o r)).
Proof.
  intros Hi Hle Hfut Hext. unfold ingest_one. rewrite (screen_later now now' cfg o Hle).
  2:{ destruct Hi as [code Hs|row Hs|d Hs]; rewrite Hs; [exact Hfut|done|done]. }
  unfold replayed, screened_out. destruct Hi as [code Hs|row Hs Hw Ho|d Hs Hw Hn Ht]; rewrite Hs.
  - cbn [_rejected ar_code is_none negb andb]. rewrite bool_decide_eq_false_2; [done|].
    intros [= Hc]. by eapply screening_code.
  - assert (forall b : bool, negb (is_none (ar_code (if b then duplicate_of o else conflict_of o))) &&
      negb (bool_decide (ar_code (if b then duplicate_of o else conflict_of o) = Some "idempotency_conflict"))
      = false) as -> by by intros [].
    destruct (too_old now' o); [done|]. specialize (Hext _ _ Ho). mrun.
    rewrite insert_common_run, Hext by done. mrun. unfold _existing_hash. mrun. rewrite Hext. by case_bool_decide.
  - cbn [accepted_of ar_code is_none negb andb ar_disposition]. destruct (too_old now' o); [done|].
    assert (Hrow : observations d !! key_of o = Some (common_row recv au up o (_canonical_hash o))).
    { pose proof (typed_observations au o (set_observations (<[key_of o := common_row recv au up o
        (_canonical_hash o)]> (observations db)) db)) as Hobs.
      rewrite Ht in Hobs. simpl in Hobs. by rewrite Hobs, lookup_insert_eq. }
    specialize (Hext _ _ Hrow). mrun. rewrite insert_common_run, Hext by done. mrun.
    unfold _existing_hash. mrun. rewrite Hext. simpl. by rewrite bool_decide_eq_true_2.
Qed.

Lemma loop_replay now recv au up cfg now' recv' l : forall db db1 rs db2,
  ingest_loop now recv au up cfg l db = (db1, Ok rs) -> now <= now' ->
  (forall r, r ∈ rs -> ar_code r <> Some "observation_in_future") ->
  (forall k row, observations db1 !! k = Some row -> observations db2 !! k = Some row) ->
  ingest_loop now' recv' au up cfg l db2 = (db2, Ok (zip_with (replayed now') l rs)).
Proof.
  induction l as [|o l IH]; intros db db1 rs db2 H Hle Hfut Hext; simpl in H; minv; [done|].
  pose proof (loop_observations _ _ _ _ _ _ _ _ _ H) as Hmono.
  apply ingest_one_inv in H0. simpl.
  erewrite bind_Ok; [|eapply ingest_one_replay; [done|done|apply Hfut; by left|eauto]].
  erewrite bind_Ok; [done|]. eapply IH; [done|done| |done]. intros r Hr. apply Hfut. by right.
Qed.

(** ** Consistency of the typed tables *)

Definition owner_of {A} (rr : ResultRow A) : uuid * uuid * uuid :=
  (rr_realm_id rr, rr_agent_id rr, rr_monitor_id rr).

(** The identity columns of the typed table of a probe type. *)
Definition owners db (p : ProbeType) : gmap okey (uuid * uuid * uuid) :=
  match p with
  | ICMP => owner_of <$> icmp_results db
  | HTTP => owner_of <$> http_results db
  | TCP => owner_of <$> tcp_results db
  | DNS => owner_of <$> dns_results db
  | TLS => owner_of <$> tls_results db
  end.

(** Rows lie under their identity; a typed row belongs to a completed observation of its
    type, realm, agent and monitor; a completed observation has its typed row. *)
Record obs_ok db : Prop := {
  oo_key : forall k row, observations db !! k = Some row ->
    (or_scheduled_at row, or_observation_id row) = k;
  oo_typed : forall p k w, owners db p !! k = Some w ->
    exists row, observations db !! k = Some row /\ or_probe_type row = p /\
      or_execution_status row = Completed /\
      w = (or_realm_id row, or_agent_id row, or_monitor_id row);
  oo_complete : forall k row, observations db !! k = Some row ->
    or_execution_status row = Completed -> is_Some (owners db (or_probe_type row) !! k);
}.

Lemma typed_fresh db k q : obs_ok db -> observations db !! k = None -> owners db q !! k = None.
Proof.
  intros Hok Hn. destruct (owners db q !! k) eqn:E; [|done].
  apply (oo_typed _ Hok) in E as (? & ? & _). congruence.
Qed.

Lemma owners_set_observations v db q : owners (set_observations v db) q = owners db q.
Proof. by destruct q. Qed.

Definition identity_of (au : AgentAuthentication) o : uuid * uuid * uuid :=
  (realm_id (au_realm au), a_id (au_agent au), ob_monitor_id o).

(** What a typed insert writes. *)
Lemma typed_owners au o db db' u :
  _insert_typed_result au o db = (db', Ok u) -> AgentObservation_ok o = true ->
  (ob_execution_status o = Failed /\ db' = db) \/
  (ob_execution_status o = Completed /\ owners db (ob_probe_type o) !! key_of o = None /\
   observations db' = observations db /\
   forall q, owners db' q = if decide (q = ob_probe_type o)
     then <[key_of o := identity_of au o]> (owners db q) else owners db q).
Proof.
  intros Ht Hok. unfold AgentObservation_ok, validate_observation in Hok. destruct_andb.
  unfold _insert_typed_result in Ht.
  destruct (ob_result o) as [res|], (ob_execution_status o); try done; [right|left; by minv].
  match goal with H : bool_decide _ = true |- _ => apply bool_decide_eq_true in H; rename H into Hty end.
  destruct res as [r|r|r|r|r]; simpl in Hty; rewrite <-Hty in *;
    apply insert_result_inv in Ht as (_ & _ & Hn & ->); (split; [done|]); simpl;
    rewrite lookup_fmap, Hn; (split; [done|]); (split; [done|]);
    intros []; simpl; try done; by rewrite fmap_insert.
Qed.

Lemma obs_ok_ingested now recv au up cfg o db db' r :
  ingested now recv au up cfg o db db' r -> AgentObservation_ok o = true ->
  obs_ok db -> obs_ok db'.
Proof.
  intros Hi Hok [Hk Ht Hc]. destruct Hi as [code Hs|row Hs Hw Ho|db' Hs Hw Hn Hty]; [done|done|].
  set (row := common_row recv au up o (_canonical_hash o)) in *.
  assert (Hold : forall k x, observations db !! k = Some x ->
    <[key_of o := row]> (observations db) !! k = Some x).
  { intros k x Hx. rewrite lookup_insert_ne; [done|congruence]. }
  apply typed_owners in Hty as [[Hf ->]|(Hco & _ & Hobs & Hown)]; [|simpl in Hobs|done].
  - split; simpl.
    + intros k x [[<- <-]|[_ Hx]]%lookup_insert_Some; [done|eauto].
    + intros p k w (x & Hx & ?)%Ht. exists x. auto.
    + intros k x [[<- <-]|[_ Hx]]%lookup_insert_Some Hcx; [|eauto]. simpl in Hcx. congruence.
  - split; rewrite ?Hobs.
    + intros k x [[<- <-]|[_ Hx]]%lookup_insert_Some; [done|eauto].
    + intros p k w. rewrite Hown. destruct (decide (p = ob_probe_type o)) as [->|].
      * intros [[<- <-]|[_ Hw']]%lookup_insert_Some.
        -- exists row. rewrite lookup_insert_eq. done.
        -- apply Ht in Hw' as (x & Hx & ?). exists x. auto.
      * intros (x & Hx & ?)%Ht. exists x. auto.
    + intros k x Hx Hcx. rewrite Hown. apply lookup_insert_Some in Hx as [[<- <-]|[Hne Hx]].
      * simpl. rewrite decide_True, lookup_insert_eq by done. eauto.
      * destruct (decide (or_probe_type x = ob_probe_type o)); [|eauto].
        rewrite lookup_insert_ne by done. eauto.
Qed.

Lemma obs_ok_loop now recv au up cfg l : forall db db' rs,
  ingest_loop now recv au up cfg l db = (db', Ok rs) ->
  forallb AgentObservation_ok l = true -> obs_ok db -> obs_ok db'.
Proof.
  induction l as [|o l IH]; intros db db' rs H Hok Hdb; simpl in H, Hok; minv; [done|].
  destruct_andb. apply ingest_one_inv in H0. eapply IH; [done|done|]. by eapply obs_ok_ingested.
Qed.

(** ** The operation *)

Lemma ingest_inv mon now recv au up db db' rs :
  ingest_observations mon now recv au up db = (db', Ok rs) ->
  (agent_configuration_snapshots mon !! (realm_id (au_realm au), a_id (au_agent au),
     up_agent_config_revision up) = None /\ db' = db /\
   rs = map (fun o => _rejected o "configuration_revision_unavailable" true) (up_observations up)) \/
  (exists sn cfg, agent_configuration_snapshots mon !! (realm_id (au_realm au), a_id (au_agent au),
     up_agent_config_revision up) = Some sn /\ configured_of (sn_configuration sn) = Ok cfg /\
   ingest_loop now recv au up cfg (up_observations up) db = (db', Ok rs)).
Proof.
  unfold ingest_observations. intros H. minv.
  destruct (agent_configuration_snapshots mon !! _) as [sn|]; [right|left; by minv].
  destruct (configured_of (sn_configuration sn)) as [cfg|] eqn:Ec; [|by minv].
  exists sn, cfg. by minv.
Qed.

(** C14 Every observation of an upload is answered once, in order and under its own
    identity, and the answers and the table follow from what was recorded before: when
    [ingest_observations] returns, either the named configuration revision was never issued to
    the agent, nothing is stored and every observation is rejected as retryable; or an
    observation that fails a check against the configuration or the clock is rejected with the
    code of the first it fails, and of the others those under whose identity nothing is
    recorded, in the table or by an earlier observation of the upload, are accepted, those whose
    hash is the recorded one are duplicates, and those with another hash are conflicts.
    Afterwards the table has the rows it had and one for each accepted observation. *)
Theorem every_observation_answered mon now recv au up db db' rs :
  ingest_observations mon now recv au up db = (db', Ok rs) ->
  match agent_configuration_snapshots mon !! (realm_id (au_realm au), a_id (au_agent au),
          up_agent_config_revision up) with
  | None => db' = db /\
      rs = map (fun o => _rejected o "configuration_revision_unavailable" true) (up_observations up)
  | Some sn => exists cfg, configured_of (sn_configuration sn) = Ok cfg /\
      length rs = length (up_observations up) /\
      (forall i o, up_observations up !! i = Some o ->
         rs !! i = Some (verdict now cfg (recorded now cfg db (take i (up_observations up)) (key_of o)) o)) /\
      forall k, observations db' !! k = row_after now recv au up cfg db (up_observations up) k
  end.
Proof.
  intros [(Hn & -> & ->)|(sn & cfg & Hsn & Hcfg & Hl)]%ingest_inv.
  - by rewrite Hn.
  - rewrite Hsn. exists cfg. split; [done|]. by eapply loop_verdicts.
Qed.

(** C15 Retrying an upload is safe: when an upload for an issued revision has been answered, and
    none of its observations was refused for lying in the future, sending the same upload
    again at any later time, with the snapshot still there and whatever was stored since, is
    answered without an error and stores nothing; each observation is answered as before, with
    duplicate in place of accepted, until it is thirty days old and rejected as too old. *)
Theorem replay_is_idempotent mon mon' now recv au up db db1 rs sn db2 now' recv' :
  ingest_observations mon now recv au up db = (db1, Ok rs) ->
  agent_configuration_snapshots mon !! (realm_id (au_realm au), a_id (au_agent au),
    up_agent_config_revision up) = Some sn ->
  agent_configuration_snapshots mon' !! (realm_id (au_realm au), a_id (au_agent au),
    up_agent_config_revision up) = Some sn ->
  now <= now' -> (forall r, r ∈ rs -> ar_code r <> Some "observation_in_future") ->
  (forall k row, observations db1 !! k = Some row -> observations db2 !! k = Some row) ->
  ingest_observations mon' now' recv' au up db2 =
    (db2, Ok (zip_with (replayed now') (up_observations up) rs)).
Proof.
  intros H Hsn Hsn' Hle Hfut Hext.
  assert (fits_int8 (up_agent_config_revision up) = true) as Hfit.
  { unfold ingest_observations in H. minv. by destruct (fits_int8 _). }
  unfold ingest_observations. rewrite Hfit. mrun.
  apply ingest_inv in H as [(Hn & _)|(sn' & cfg & Hs & Hcfg & Hl)]; [congruence|].
  rewrite Hsn in Hs. injection Hs as <-. rewrite Hsn', Hcfg. unfold in_transaction.
  by erewrite loop_replay by eauto.
Qed.

Lemma obs_ok_empty_tables : obs_ok empty_obs.
Proof. split; [done|by intros []|done]. Qed.

Lemma obs_ok_ingest mon now recv au up db :
  AgentObservationUpload_ok up = true -> obs_ok db ->
  obs_ok (ingest_observations mon now recv au up db).1 /\
  (forall e, (ingest_observations mon now recv au up db).2 = Err e ->
     (ingest_observations mon now recv au up db).1 = db).
Proof.
  intros Hup Hdb. unfold AgentObservationUpload_ok in Hup. destruct_andb.
  destruct (ingest_observations mon now recv au up db) as [db' [rs|e]] eqn:E; simpl.
  - split; [|done]. apply ingest_inv in E as [(_ & -> & _)|(sn & cfg & _ & _ & Hl)]; [done|].
    by eapply obs_ok_loop.
  - assert (db' = db) as ->; [|done]. revert E. unfold ingest_observations. mrun.
    destruct (negb _); [by intros [= <- _]|].
    destruct (agent_configuration_snapshots mon !! _) as [sn|]; [|done].
    destruct (configured_of _); [|by intros [= <- _]]. by apply in_transaction_inv_Err.
Qed.

(** C16 Ingestion is atomic and keeps the hypertables consistent: whatever the outcome,
    after a schema-valid upload every typed result row belongs to exactly one completed
    observation of its probe type, realm, agent and monitor, every completed observation
    has its typed row, and an upload that raises leaves all tables as they were. *)
Theorem ingestion_keeps_tables_consistent mon now recv au up db :
  AgentObservationUpload_ok up = true -> obs_ok db ->
  obs_ok (ingest_observations mon now recv au up db).1 /\
  (forall e, (ingest_observations mon now recv au up db).2 = Err e ->
     (ingest_observations mon now recv au up db).1 = db).
Proof. apply obs_ok_ingest. Qed.

(** ** Which uploads are stored *)

(** Values that fit their columns: 32- and 64-bit integers, text without NUL, addresses
    the driver accepts.  The two address columns are [NOT NULL]. *)
Definition result_fits (r : ObservationResult) : bool :=
  match r with
  | IcmpResult r => icmp_encodable r
  | HttpResult r => http_encodable r
  | TcpResult r => tcp_encodable r && negb (is_none (tr_address_used r))
  | DnsResult r => dns_encodable r && negb (is_none (dr_resolver_address r))
  | TlsResult r => tls_encodable r
  end.

Definition storable (up : AgentObservationUpload) o : bool :=
  common_encodable up o && opt_ok result_fits (ob_result o).

(** Apart from those two columns the schema implies the constraints of the tables. *)
Lemma schema_implies_checks r :
  ObservationResult_ok r = true -> result_fits r = true ->
  match r with
  | IcmpResult r => icmp_checks r
  | HttpResult r => http_checks r
  | TcpResult r => tcp_checks r
  | DnsResult r => dns_checks r
  | TlsResult r => tls_checks r
  end = true.
Proof.
  destruct r as [r|r|r|r|r]; simpl; intros Hok Hfit.
  - unfold IcmpObservationResult_ok, icmp_checks, between in *. destruct_andb. split_andb; done || lia.
  - unfold HttpObservationResult_ok, http_checks, between in *. destruct_andb. split_andb; done || lia.
  - unfold TcpObservationResult_ok, tcp_checks, between in *. destruct_andb. split_andb; done || lia.
  - unfold DnsObservationResult_ok, dns_checks, between in *. destruct_andb. split_andb; done || lia.
  - unfold TlsObservationResult_ok, tls_checks, between in *. destruct_andb. split_andb; done || lia.
Qed.

Lemma insert_result_run {A} get set (enc chk : A -> bool) au o r db :
  enc r = true -> chk r = true -> get db !! key_of o = None ->
  exists db', insert_result get set enc chk au o r db = (db', Ok tt).
Proof. intros He Hc Hn. unfold insert_result. rewrite He, Hc. mrun. rewrite Hn. eexists. done. Qed.

Lemma typed_run au up o db :
  AgentObservation_ok o = true -> storable up o = true ->
  (forall q, owners db q !! key_of o = None) ->
  exists db', _insert_typed_result au o db = (db', Ok tt).
Proof.
  intros Hok Hst Hfresh. unfold AgentObservation_ok, validate_observation, storable in *.
  destruct_andb. unfold _insert_typed_result. destruct (ob_result o) as [res|]; [|by eexists].
  destruct (ob_execution_status o); [|done].
  match goal with H : bool_decide _ = true |- _ => apply bool_decide_eq_true in H; rename H into Hty end.
  simpl in *. specialize (Hfresh (result_type res)).
  pose proof (schema_implies_checks res) as Hchk.
  rewrite <-Hty. destruct res as [r|r|r|r|r]; simpl in *; destruct_andb;
    rewrite lookup_fmap, fmap_None in Hfresh; apply insert_result_run; auto;
    apply Hchk; try done; by split_andb.
Qed.

Lemma checks_of_schema up o :
  1 <= up_agent_config_revision up -> AgentObservation_ok o = true -> common_checks up o = true.
Proof.
  intros Hup Hok. unfold AgentObservation_ok, validate_observation, common_checks in *.
  destruct_andb. split_andb; done || lia.
Qed.

Lemma loop_run now recv au up cfg l : forall db,
  1 <= up_agent_config_revision up ->
  forallb AgentObservation_ok l = true -> forallb (storable up) l = true -> obs_ok db ->
  exists db' rs, ingest_loop now recv au up cfg l db = (db', Ok rs).
Proof.
  induction l as [|o l IH]; intros db Hup Hok Hst Hdb; simpl in *; [by eexists _, _|].
  destruct_andb.
  assert (Hone : exists db1 r, ingest_one now recv au up cfg o db = (db1, Ok r)).
  { unfold ingest_one. destruct (screen now cfg o); [by eexists _, _|].
    assert (Hw : writable up o = true).
    { unfold writable. rewrite checks_of_schema by done. unfold storable in *. destruct_andb.
      by split_andb. }
    mrun. rewrite insert_common_run by done.
    destruct (observations db !! key_of o) as [row|] eqn:Eo; mrun; [by eexists _, _|].
    edestruct (typed_run au up o) as [db' Hty]; [done|done| |rewrite Hty; by eexists _, _].
    intros q. rewrite owners_set_observations. by apply typed_fresh. }
  destruct Hone as (db1 & r & Hone). mrun. rewrite Hone.
  destruct (IH db1) as (db' & rs & Hl); [done|done|done| |mrun; rewrite Hl; by eexists _, _].
  apply ingest_one_inv in Hone. by eapply obs_ok_ingested.
Qed.

(** Storable uploads are answered: from consistent tables, a schema-valid upload for
    an issued, well-formed snapshot whose integers, texts and addresses fit their columns
    is never refused with an exception. *)
Lemma storable_run mon now recv au up db sn cfg :
  AgentObservationUpload_ok up = true -> obs_ok db ->
  fits_int8 (up_agent_config_revision up) = true ->
  agent_configuration_snapshots mon !! (realm_id (au_realm au), a_id (au_agent au),
    up_agent_config_revision up) = Some sn ->
  configured_of (sn_configuration sn) = Ok cfg ->
  forallb (storable up) (up_observations up) = true ->
  exists db' rs, ingest_observations mon now recv au up db = (db', Ok rs).
Proof.
  intros Hup Hdb Hfit Hsn Hcfg Hst. unfold AgentObservationUpload_ok in Hup. destruct_andb.
  destruct (loop_run now recv au up cfg (up_observations up) db) as (db' & rs & Hl);
    [lia|done|done|done|].
  exists db', rs. unfold ingest_observations. rewrite Hfit. mrun. rewrite Hsn, Hcfg.
  unfold in_transaction. by rewrite Hl.
Qed.

Lemma find_app {A} (p : A -> bool) l1 l2 :
  List.find p (l1 ++ l2) = match List.find p l1 with Some x => Some x | None => List.find p l2 end.
Proof. induction l1 as [|x l1 IH]; [done|]. simpl. by destruct (p x). Qed.

(** An observation that passes the screening is in the table afterwards, or another one is. *)
Lemma loop_answered now recv au up cfg l db db' rs i o :
  ingest_loop now recv au up cfg l db = (db', Ok rs) -> l !! i = Some o -> screen now cfg o = None ->
  exists r row, rs !! i = Some r /\ observations db' !! key_of o = Some row /\
    if bool_decide (or_canonical_payload_hash row = Some (_canonical_hash o))
    then r = accepted_of o \/ r = duplicate_of o else r = conflict_of o.
Proof.
  intros (_ & Hv & Hrow)%loop_verdicts Ho Hs. specialize (Hv i o Ho). specialize (Hrow (key_of o)).
  unfold verdict, recorded in Hv. unfold row_after in Hrow. rewrite Hs in Hv.
  destruct (observations db !! key_of o) as [row|].
  { eexists _, row. split; [exact Hv|]. split; [exact Hrow|]. case_bool_decide; auto. }
  rewrite <- (take_drop_middle l i o Ho) in Hrow. unfold first_passing in *. rewrite find_app in Hrow.
  destruct (List.find _ (take i l)) as [e|]; simpl in *.
  - eexists _, _. split; [exact Hv|]. split; [exact Hrow|]. simpl. case_bool_decide; auto.
  - rewrite Hs, bool_decide_eq_true_2 in Hrow by done. simpl in Hrow.
    eexists _, _. split; [exact Hv|]. split; [exact Hrow|]. simpl. rewrite bool_decide_eq_true_2 by done. auto.
Qed.

(** A result whose address is absent: allowed by the schema. *)
Definition lacks_address o : bool :=
  match ob_result o with
  | Some (TcpResult r) => is_none (tr_address_used r)
  | Some (DnsResult r) => is_none (dr_resolver_address r)
  | _ => false
  end.

Lemma ingested_keys now recv au up cfg o db db' r k :
  ingested now recv au up cfg o db db' r -> key_of o <> k ->
  observations db !! k = None -> observations db' !! k = None.
Proof.
  intros Hi Hne Hk. destruct Hi as [code Hs|row Hs Hw Ho|d Hs Hw Hn Ht]; try done.
  pose proof (typed_observations au o (set_observations (<[key_of o := common_row recv au up o
    (_canonical_hash o)]> (observations db)) db)) as Hobs.
  rewrite Ht in Hobs. simpl in Hobs. by rewrite Hobs, lookup_insert_ne.
Qed.

Lemma loop_lacking now recv au up cfg o l2 l1 : forall db db' rs,
  ingest_loop now recv au up cfg (l1 ++ o :: l2) db = (db', Ok rs) ->
  (forall x, x ∈ l1 -> key_of x <> key_of o) -> observations db !! key_of o = None ->
  screen now cfg o = None -> lacks_address o = true -> False.
Proof.
  induction l1 as [|x l1 IH]; intros db db' rs H Hkeys Hfresh Hs Hl; simpl in H; minv.
  - apply ingest_one_inv in H0. inversion H0 as [code Hs'|row _ _ Ho|d _ _ _ Ht]; subst;
      [congruence|congruence|].
    unfold lacks_address in Hl. unfold _insert_typed_result in Ht.
    destruct (ob_result o) as [[r|r|r|r|r]|]; try done; destruct (ob_probe_type o); try done;
      apply insert_result_inv in Ht as (_ & Hc & _ & _); unfold tcp_checks, dns_checks in Hc;
      rewrite Hl in Hc; done.
  - eapply IH; [exact H| |eapply ingested_keys; [by apply ingest_one_inv| |done]|done|done].
    + intros y Hy. apply Hkeys. by right.
    + apply Hkeys. by left.
Qed.

(** A result without an address poisons its batch: an upload that contains an
    observation of an assigned monitor inside the time window, not stored yet, whose TCP
    result has no [address_used] or whose DNS result has no [resolver_address] (both
    optional in the schema, but [NOT NULL] columns) is refused with an exception, and none
    of its observations is stored. *)
Theorem result_without_address_fails_upload mon now recv au up db sn cfg l1 o l2 :
  fits_int8 (up_agent_config_revision up) = true ->
  agent_configuration_snapshots mon !! (realm_id (au_realm au), a_id (au_agent au),
    up_agent_config_revision up) = Some sn ->
  configured_of (sn_configuration sn) = Ok cfg ->
  up_observations up = l1 ++ o :: l2 ->
  (forall x, x ∈ l1 -> key_of x <> key_of o) -> observations db !! key_of o = None ->
  screen now cfg o = None -> lacks_address o = true ->
  exists e, ingest_observations mon now recv au up db = (db, Err e).
Proof.
  intros Hfit Hsn Hcfg Hup Hkeys Hfresh Hs Hl. unfold ingest_observations. rewrite Hfit. mrun.
  rewrite Hsn, Hcfg, Hup. unfold in_transaction.
  destruct (ingest_loop now recv au up cfg (l1 ++ o :: l2) db) as [db' [rs|e]] eqn:E.
  - by destruct (loop_lacking _ _ _ _ _ _ _ _ _ _ _ E).
  - by exists e.
Qed.
End Ingest.

(** ** A worked upload: the agent of the worked run reports one completed TCP check. *)

Module ObsDemo.
#[export] Existing Instance example_platform.

Definition at_ (t : Z) : AwareDatetime := mkAware t 0.
Definition check (id : uuid) (address : option string) : AgentObservation :=
  mkAgentObservation (at_ 5000000) id 30 1 TCP (at_ 5000000) (at_ 6000000) Completed Healthy
    None None None None (Some (TcpResult (mkTcpResult 22 address (Some (3 # 2)%Q)))).
Definition upload : AgentObservationUpload :=
  mkAgentObservationUpload 1 1 1 50 [check 40 (Some "192.0.2.1"); check 41 (Some "192.0.2.1")].
Definition lacking : AgentObservationUpload :=
  mkAgentObservationUpload 1 1 1 50 [check 40 (Some "192.0.2.1"); check 41 None].
Definition stored : ObsDB :=
  (ingest_observations Demo.db6 7000000 7000001 Demo.au upload empty_obs).1.
Definition answers_ : list AgentObservationResult :=
  [mkAgentObservationResult (at_ 5000000) 40 Accepted None false;
   mkAgentObservationResult (at_ 5000000) 41 Accepted None false].

Lemma run_eq : ingest_observations Demo.db6 7000000 7000001 Demo.au upload empty_obs =
  (stored, Ok answers_).
Proof. by vm_compute. Qed.
Lemma upload_ok : AgentObservationUpload_ok upload = true.
Proof. by vm_compute. Qed.
Lemma lacking_upload_ok : AgentObservationUpload_ok lacking = true.
Proof. by vm_compute. Qed.
Lemma snapshot : agent_configuration_snapshots Demo.db6 !! (realm_id (au_realm Demo.au),
  a_id (au_agent Demo.au), up_agent_config_revision upload) =
  Some (mkAgentConfigurationSnapshot 1 5 1 Demo.issued_hash Demo.content 3000000).
Proof. exact Demo.snapshot6. Qed.

Definition cfg : list (string * json) :=
  [(str_uuid 30, monitor_entry Demo.monitor Demo.target 1)].
Lemma configured : configured_of Demo.content = Ok cfg.
Proof. by vm_compute. Qed.
End ObsDemo.

#[local] Existing Instance example_platform.

Lemma every_observation_answered_witness :
  exists cfg, configured_of Demo.content = Ok cfg /\
    verdict 7000000 cfg (recorded 7000000 cfg empty_obs [ObsDemo.check 40 (Some "192.0.2.1")]
      (key_of (ObsDemo.check 41 (Some "192.0.2.1")))) (ObsDemo.check 41 (Some "192.0.2.1")) =
      accepted_of (ObsDemo.check 41 (Some "192.0.2.1")).
Proof.
  pose proof (every_observation_answered Demo.db6 7000000 7000001 Demo.au ObsDemo.upload empty_obs
    ObsDemo.stored ObsDemo.answers_ ObsDemo.run_eq) as H.
  rewrite ObsDemo.snapshot in H. destruct H as (cfg & Hc & _ & Hv & _). exists cfg. split; [exact Hc|].
  specialize (Hv 1%nat _ eq_refl). injection Hv as Hv. symmetry. exact Hv.
Defined.

(** Replayed at once, and after thirty days. *)
Lemma replay_is_idempotent_witness :
  ingest_observations Demo.db6 8000000 8000001 Demo.au ObsDemo.upload ObsDemo.stored =
    (ObsDemo.stored, Ok (map duplicate_of (up_observations ObsDemo.upload))) /\
  ingest_observations Demo.db6 (days 31) (days 31) Demo.au ObsDemo.upload ObsDemo.stored =
    (ObsDemo.stored, Ok (map (fun o => _rejected o "observation_too_old" false) (up_observations ObsDemo.upload))).
Proof.
  assert (forall r, r ∈ ObsDemo.answers_ -> ar_code r <> Some "observation_in_future") as Hfut.
  { intros r Hr. repeat (apply elem_of_cons in Hr as [->|Hr]; [done|]). by apply elem_of_nil in Hr. }
  split; refine (replay_is_idempotent Demo.db6 Demo.db6 7000000 7000001 Demo.au ObsDemo.upload empty_obs
    ObsDemo.stored ObsDemo.answers_ _ ObsDemo.stored _ _ ObsDemo.run_eq ObsDemo.snapshot ObsDemo.snapshot
    _ Hfut (fun k row Hk => Hk)); by vm_compute.
Defined.

Lemma ingestion_keeps_tables_consistent_witness : obs_ok ObsDemo.stored.
Proof.
  exact (proj1 (ingestion_keeps_tables_consistent Demo.db6 7000000 7000001 Demo.au ObsDemo.upload
    empty_obs ObsDemo.upload_ok obs_ok_empty_tables)).
Defined.

Lemma result_without_address_fails_upload_witness :
  AgentObservationUpload_ok ObsDemo.lacking = true /\
  exists e, ingest_observations Demo.db6 7000000 7000001 Demo.au ObsDemo.lacking empty_obs =
    (empty_obs, Err e).
Proof.
  split; [apply ObsDemo.lacking_upload_ok|].
  refine (result_without_address_fails_upload Demo.db6 7000000 7000001 Demo.au ObsDemo.lacking
    empty_obs _ ObsDemo.cfg [ObsDemo.check 40 (Some "192.0.2.1")] (ObsDemo.check 41 None) []
    _ ObsDemo.snapshot ObsDemo.configured _ _ _ _ _); try by vm_compute.
  intros x Hx. apply list_elem_of_singleton in Hx as ->. by vm_compute.
Defined.
