(* ===== verification/DeliveryProps.v ===== *)
(** * From configuration to report

    The configuration service and the ingestion service together: a snapshot, once issued,
    is kept, and a report on a monitor of an issued snapshot passes the checks of the
    ingestion, however the monitors have changed since. *)

From Stdlib Require Import QArith.
From S2P Require Import Prelude PyText Json Platform Models ProbeConfig Domain Credentials.
From S2P Require Import Configuration Selection HierarchyProps CredentialsProps Isolation Steps.
From S2P Require Import Discipline ConfigInvariant ObservationSchema Observations ObservationProps.
Local Open Scope Z_scope.

(** ** The index of a snapshot *)

Lemma configured_entries_map l :
  configured_entries (map entry_of l) = Ok (map (fun mt => (str_uuid (m_id mt.1), entry_of mt)) l).
Proof. induction l as [|[m t] l IH]; [done|]. cbn [map configured_entries]. by rewrite IH. Qed.

Lemma configured_current db r a :
  configured_of (current_content db r a) =
    Ok (map (fun mt => (str_uuid (m_id mt.1), entry_of mt)) (configured_monitors db r a)).
Proof. apply configured_entries_map. Qed.

Lemma find_unique {A} (p : A -> bool) (l : list A) x :
  x ∈ l -> p x = true -> (forall y, y ∈ l -> p y = true -> y = x) -> List.find p l = Some x.
Proof.
  intros Hx Hp Hu. destruct (List.find p l) as [y|] eqn:E.
  - apply List.find_some in E as [Hy Hpy]. f_equal. apply Hu; [by apply list_elem_of_In|done].
  - eapply List.find_none in E; [|by apply list_elem_of_In]. congruence.
Qed.

Section Delivery.
Context {CO : Coercions} {P : Platform} (settings : Settings).
Implicit Types (db : MonDB).

(** The ids of the monitors are 128-bit numbers. *)
Definition monitor_ids_are_uuids db : Prop := forall k m, monitors db !! k = Some m -> (k < 2 ^ 128)%N.

Lemma configured_get_current db r a m t :
  realm_closed db -> monitor_ids_are_uuids db -> (m, t) ∈ configured_monitors db r a ->
  configured_get (str_uuid (m_id m))
    (map (fun mt => (str_uuid (m_id mt.1), entry_of mt)) (configured_monitors db r a)) =
  Some (entry_of (m, t)).
Proof.
  intros Hrc Hid Hin. pose proof (rc_monitors_keyed _ Hrc) as Hk. unfold configured_get.
  rewrite (find_unique _ _ (str_uuid (m_id m), entry_of (m, t))); [done|..].
  - apply elem_of_reverse, list_elem_of_fmap. by exists (m, t).
  - apply String.eqb_refl.
  - intros y Hy He%String.eqb_eq. apply elem_of_reverse, list_elem_of_fmap in Hy as ([m' t'] & -> & Hy).
    simpl in He. apply elem_of_configured_monitors in Hin as [k Hin], Hy as [k' Hy].
    pose proof (proj1 (lookup_selected _ _ _ _ _ _ Hk) Hin) as (Hm & _).
    pose proof (proj1 (lookup_selected _ _ _ _ _ _ Hk) Hy) as (Hm' & _).
    rewrite (Hk _ _ Hm), (Hk _ _ Hm') in He.
    apply str_uuid_inj in He; [|by eapply Hid|by eapply Hid]. by simplify_eq.
Qed.

(** ** Snapshots are kept *)

Lemma acknowledge_snapshots db au k h t :
  agent_configuration_snapshots (acknowledge_configuration au k h t db).1 = agent_configuration_snapshots db.
Proof.
  pose (I := fun d => agent_configuration_snapshots d = agent_configuration_snapshots db).
  exact (frame_acknowledge I (fun v d H => H) au k h t db eq_refl).
Qed.

Lemma configuration_snapshots db now au key sn :
  config_ok db -> authenticated db au -> agent_configuration_snapshots db !! key = Some sn ->
  agent_configuration_snapshots (get_or_create_configuration now au db).1 !! key = Some sn.
Proof.
  intros Hok Hau Hsn. destruct (configuration_refused db now au Hok Hau) as [Hn He].
  destruct (agent_operational_states db !! a_id (au_agent au)) as [op|] eqn:Eop; [|by rewrite Hn].
  destruct (build_entries (op_capabilities op)
    (configured_monitors db (realm_id (au_realm au)) (a_id (au_agent au)))) as [es|e] eqn:Eb;
    [|by rewrite (He op e)].
  destruct (configuration_run db now au op es Hok Hau Eop Eb) as (sn' & _ & _ & _ & Hold & ->).
  simpl. destruct (decide (key = (realm_id (au_realm au), a_id (au_agent au),
    served_revision db (a_id (au_agent au))))) as [->|]; [|by rewrite lookup_insert_ne].
  rewrite lookup_insert_eq. destruct Hold; congruence.
Qed.

Lemma snapshots_kept db db' key sn :
  config_ok db -> rtc (mon_step settings) db db' ->
  agent_configuration_snapshots db !! key = Some sn ->
  agent_configuration_snapshots db' !! key = Some sn.
Proof.
  intros Hok Hsteps. revert Hok. induction Hsteps as [|x y z Hxy _ IH]; [done|]. intros Hok Hsn.
  apply IH; [by eapply config_ok_step|].
  destruct (disciplined_step settings x y (co_closed _ Hok) Hxy)
    as [Hd|[(now & au & Hau & ->)|(au & k & h & t & Hau & ->)]].
  - by rewrite (d_snapshots _ _ Hd).
  - by apply configuration_snapshots.
  - by rewrite acknowledge_snapshots.
Qed.

(** What [get_or_create_configuration] returns is stored. *)
Lemma configuration_stored db now au db1 res :
  config_ok db -> authenticated db au -> get_or_create_configuration now au db = (db1, Ok res) ->
  agent_configuration_snapshots db1 !! (realm_id (au_realm au), a_id (au_agent au),
    sn_revision (res_snapshot res)) = Some (res_snapshot res) /\
  sn_configuration (res_snapshot res) = current_content db (realm_id (au_realm au)) (a_id (au_agent au)).
Proof.
  intros Hok Hau E. destruct (configuration_refused db now au Hok Hau) as [Hn He].
  destruct (agent_operational_states db !! a_id (au_agent au)) as [op|] eqn:Eop; [|by rewrite Hn in E].
  destruct (build_entries (op_capabilities op)
    (configured_monitors db (realm_id (au_realm au)) (a_id (au_agent au)))) as [es|e] eqn:Eb;
    [|by rewrite (He op e) in E].
  destruct (configuration_run db now au op es Hok Hau Eop Eb) as (sn & Hr & _ & Hc & _ & Hrun).
  rewrite Hrun in E. injection E as <- <-. simpl. by rewrite Hr, lookup_insert_eq.
Qed.

(** ** The report *)

(** [o] reports on [m] as it was when it was configured. *)
Definition reports_on (m : Monitor) (o : AgentObservation) : Prop :=
  ob_monitor_id o = m_id m /\ ob_probe_type o = m_probe_type m /\ ob_monitor_revision o = m_revision m.

Definition in_window (now : Z) (o : AgentObservation) : Prop :=
  now - MAXIMUM_OBSERVATION_AGE <= instant (ob_scheduled_at o) <= now + MAXIMUM_FUTURE_SKEW.

Lemma screen_passes db r a m t now o :
  realm_closed db -> monitor_ids_are_uuids db -> (m, t) ∈ configured_monitors db r a ->
  reports_on m o -> in_window now o ->
  screen now (map (fun mt => (str_uuid (m_id mt.1), entry_of mt)) (configured_monitors db r a)) o = None.
Proof.
  intros Hrc Hid Hin (Hm & Hp & Hr) [Hlo Hhi]. unfold screen. rewrite Hm.
  erewrite configured_get_current by done. cbn [entry_of fst snd json_get monitor_entry obj_get].
  rewrite Hp, Hr, bool_decide_eq_true_2 by done. simpl.
  assert (py_eq (JInt (m_revision m)) (JInt (m_revision m)) = true) as -> by (apply Qeq_bool_iff; reflexivity).
  cbn [negb].
  destruct (Z.ltb_spec (instant (ob_scheduled_at o)) (now - MAXIMUM_OBSERVATION_AGE)); [lia|].
  destruct (Z.ltb_spec (now + MAXIMUM_FUTURE_SKEW) (instant (ob_scheduled_at o))); [lia|]. done.
Qed.

(** C12 Agents that do as they are told are believed: if, in a reachable state, an agent is
    served a configuration, then later, whatever the control plane has done in between, an
    upload of that agent that names the served revision, satisfies the schema and holds values
    the tables can store (in particular an address where a TCP or DNS result has one) is
    answered; and every observation in it on a monitor of that configuration, with the probe
    type and revision served and within the time window, is stored with its hash and answered
    as accepted or duplicate, or a row with another hash is stored under its identity and the
    answer is a conflict. *)
Theorem report_on_served_configuration_accepted db now0 au db1 res db2 now recv au2 up odb :
  rtc (mon_step settings) empty_db db -> monitor_ids_are_uuids db -> authenticated db au ->
  get_or_create_configuration now0 au db = (db1, Ok res) ->
  rtc (mon_step settings) db1 db2 ->
  realm_id (au_realm au2) = realm_id (au_realm au) -> a_id (au_agent au2) = a_id (au_agent au) ->
  up_agent_config_revision up = sn_revision (res_snapshot res) ->
  fits_int8 (up_agent_config_revision up) = true ->
  AgentObservationUpload_ok up = true -> obs_ok odb -> forallb (storable up) (up_observations up) = true ->
  exists odb' rs, ingest_observations db2 now recv au2 up odb = (odb', Ok rs) /\
    forall i o m t, up_observations up !! i = Some o ->
      (m, t) ∈ configured_monitors db (realm_id (au_realm au)) (a_id (au_agent au)) ->
      reports_on m o -> in_window now o ->
      exists r row, rs !! i = Some r /\ observations odb' !! key_of o = Some row /\
        if bool_decide (or_canonical_payload_hash row = Some (_canonical_hash o))
        then r = accepted_of o \/ r = duplicate_of o else r = conflict_of o.
Proof.
  intros Hreach Hid Hau Hserve Hlater Hr Ha Hrev Hfit Hup Hodb Hst.
  pose proof (config_ok_reachable settings db Hreach) as Hok.
  destruct (configuration_stored db now0 au db1 res Hok Hau Hserve) as [Hsn Hcont].
  assert (config_ok db1) as Hok1.
  { pose proof (config_ok_configuration db now0 au Hok Hau) as H. by rewrite Hserve in H. }
  pose proof (snapshots_kept _ _ _ _ Hok1 Hlater Hsn) as Hsn2. rewrite <-Hr, <-Ha, <-Hrev in Hsn2.
  pose proof (configured_current db (realm_id (au_realm au)) (a_id (au_agent au))) as Hcfg. rewrite <-Hcont in Hcfg.
  destruct (storable_run db2 now recv au2 up odb _ _ Hup Hodb Hfit Hsn2 Hcfg Hst) as (odb' & rs & Hing).
  exists odb', rs. split; [done|]. intros i o m t Ho Hin Hrep Hwin.
  apply ingest_inv in Hing as [(Hn & _)|(sn & cfg & Hs & Hcfg' & Hl)]; [congruence|].
  rewrite Hsn2 in Hs. injection Hs as <-. rewrite Hcfg in Hcfg'. injection Hcfg' as <-.
  apply loop_answered with (i := i) (o := o) in Hl; [done|done|]. by eapply screen_passes; first [done|apply Hok].
Qed.
End Delivery.

(** ** A worked delivery: the target is archived between the configuration and the report. *)

Module DeliveryDemo.
#[export] Existing Instance example_platform.
#[export] Existing Instance strict_coercions.

Definition later : MonDB := (archive_target 4000000 example_realm Demo.target Demo.db6).1.
Definition stored : ObsDB :=
  (ingest_observations later 7000000 7000001 Demo.au ObsDemo.upload empty_obs).1.

Lemma later_step : rtc (mon_step default_settings) Demo.db6 later.
Proof. apply rtc_once, step_archive_target. by vm_compute. Qed.
Lemma serve_eq : exists res, get_or_create_configuration 3000000 Demo.au Demo.db5 = (Demo.db6, Ok res) /\
  sn_revision (res_snapshot res) = 1.
Proof. eexists. by vm_compute. Qed.
Lemma delivery_run_eq : ingest_observations later 7000000 7000001 Demo.au ObsDemo.upload empty_obs =
  (stored, Ok ObsDemo.answers_).
Proof. by vm_compute. Qed.
Lemma ids : monitor_ids_are_uuids Demo.db5.
Proof.
  assert (monitors Demo.db5 = {[30%N := Demo.monitor]}) as E by by vm_compute.
  intros k m. rewrite E. intros [<- _]%lookup_singleton_Some. by vm_compute.
Qed.
Lemma delivery_configured : configured_monitors Demo.db5 1 5 = [(Demo.monitor, Demo.target)].
Proof. by vm_compute. Qed.
Lemma archived_since : configured_monitors later 1 5 = [].
Proof. by vm_compute. Qed.
End DeliveryDemo.

#[local] Existing Instance example_platform.
#[local] Existing Instance strict_coercions.

Lemma report_on_served_configuration_accepted_witness :
  configured_monitors DeliveryDemo.later 1 5 = [] /\
  exists odb' rs r row,
    ingest_observations DeliveryDemo.later 7000000 7000001 Demo.au ObsDemo.upload empty_obs = (odb', Ok rs) /\
    rs !! 0%nat = Some r /\ observations odb' !! key_of (ObsDemo.check 40 (Some "192.0.2.1")) = Some row /\
    ar_disposition r <> Rejected.
Proof.
  split; [apply DeliveryDemo.archived_since|]. destruct DeliveryDemo.serve_eq as (res & Hs & Hrev).
  destruct (report_on_served_configuration_accepted default_settings Demo.db5 3000000 Demo.au Demo.db6 res
    DeliveryDemo.later 7000000 7000001 Demo.au ObsDemo.upload empty_obs
    Demo.reach5 DeliveryDemo.ids Demo.au5 Hs DeliveryDemo.later_step eq_refl eq_refl) as (odb' & rs & E & Hall).
  - by rewrite Hrev.
  - by vm_compute.
  - exact ObsDemo.upload_ok.
  - apply obs_ok_empty_tables.
  - by vm_compute.
  - destruct (Hall 0%nat (ObsDemo.check 40 (Some "192.0.2.1")) Demo.monitor Demo.target eq_refl) as (r & row & Hr & Hrow & _).
    + change (realm_id (au_realm Demo.au)) with 1%N. change (a_id (au_agent Demo.au)) with 5%N.
      rewrite DeliveryDemo.delivery_configured. apply list_elem_of_singleton. reflexivity.
    + split; [reflexivity|split; reflexivity].
    + split; vm_compute; discriminate.
    + exists odb', rs, r, row. split; [exact E|]. split; [exact Hr|]. split; [exact Hrow|].
      apply (f_equal snd) in E. rewrite (f_equal snd DeliveryDemo.delivery_run_eq) in E. cbn [snd] in E.
      injection E as <-. injection Hr as <-. discriminate.
Defined.
