(* ===== verification/Dashboard.v ===== *)
(** * The dashboard (monitoring/dashboard.py, monitoring/measurements.py,
    schemas/dashboard.py)

    The SQL of [query_monitor_states] and of the history queries over the tables of
    [Models] and [Observations], and the classification of monitor-agent pairs.  The
    order of names is the database's collation, a parameter. *)

From Stdlib Require Import QArith.
From S2P Require Import Prelude PyText Json Platform Models ProbeConfig Domain Credentials.
From S2P Require Import Configuration ObservationSchema Observations.
Local Open Scope Z_scope.

(** schemas/dashboard.py. *)
Inductive AvailabilityState :=
| pending_configuration | no_data_yet | av_healthy | av_unhealthy | probe_error | overdue
| agent_stale | agent_offline | av_disabled.
Inductive MonitorHeadline := hl_healthy | hl_degraded | hl_unhealthy | hl_unknown | hl_disabled.

#[export] Instance AvailabilityState_eq_dec : EqDecision AvailabilityState.
Proof. solve_decision. Defined.
#[export] Instance MonitorHeadline_eq_dec : EqDecision MonitorHeadline.
Proof. solve_decision. Defined.

(** One row of the state query. *)
Record StateRow := mkStateRow {
  sr_monitor_id : uuid;
  sr_monitor_name : string;
  sr_probe_type : ProbeType;
  sr_interval_seconds : Z;
  sr_timeout_seconds : Z;
  sr_agent_id : uuid;
  sr_agent_name : string;
  sr_desired_revision : Z;
  sr_acknowledged_revision : Z;
  sr_acknowledged_at : option Z;
  sr_last_heartbeat_at : option Z;
  sr_last_observation_id : option uuid;
  sr_last_scheduled_at : option Z;
  sr_last_received_at : option Z;
  sr_execution_status : option ExecutionStatus;
  sr_assessment : option Assessment;
}.

Record MonitorAgentState := mkMonitorAgentState {
  ms_monitor_id : uuid;
  ms_monitor_name : string;
  ms_agent_id : uuid;
  ms_agent_name : string;
  ms_probe_type : ProbeType;
  ms_availability_state : AvailabilityState;
  ms_desired_config_revision : Z;
  ms_acknowledged_config_revision : Z;
  ms_last_observation_id : option uuid;
  ms_last_scheduled_at : option Z;
  ms_last_received_at : option Z;
  ms_execution_status : option ExecutionStatus;
  ms_assessment : option Assessment;
}.

Record MonitorStateSummary := mkMonitorStateSummary {
  su_monitor_id : uuid;
  su_monitor_name : string;
  su_target_id : uuid;
  su_target_name : string;
  su_probe_type : ProbeType;
  su_headline : MonitorHeadline;
  su_effective_agents : Z;
  su_healthy_agents : Z;
  su_unhealthy_agents : Z;
  su_unavailable_agents : Z;
  su_coverage_percent : Q;
  su_agents : list MonitorAgentState;
}.

(** ** Classification *)

Definition _availability_state (settings : Settings) (now : Z) (row : StateRow) :
    AvailabilityState :=
  if (sr_desired_revision row =? 0) || (sr_acknowledged_revision row <? sr_desired_revision row)
  then pending_configuration
  else
    match sr_last_heartbeat_at row with
    | None => agent_offline
    | Some heartbeat =>
        let heartbeat_age := now - heartbeat in
        let stale_after := Z.min (agent_offline_after_seconds settings)
                             (agent_heartbeat_interval_seconds settings * 2) in
        if seconds (agent_offline_after_seconds settings) <? heartbeat_age then agent_offline
        else if seconds stale_after <? heartbeat_age then agent_stale
        else
          let grace_seconds := agent_heartbeat_interval_seconds settings +
                               agent_configuration_poll_interval_seconds settings in
          let allowance := seconds (sr_interval_seconds row + sr_timeout_seconds row + grace_seconds) in
          match sr_last_scheduled_at row with
          | None =>
              match sr_acknowledged_at row with
              | None => no_data_yet
              | Some acknowledged_at =>
                  let first_deadline := acknowledged_at + allowance in
                  if now <=? first_deadline then no_data_yet else overdue
              end
          | Some latest_scheduled_at =>
              let deadline := latest_scheduled_at + allowance in
              if deadline <? now then overdue
              else if bool_decide (sr_execution_status row = Some Failed) then probe_error
              else if bool_decide (sr_assessment row = Some Unhealthy) then av_unhealthy
              else if bool_decide (sr_assessment row = Some Healthy) then av_healthy
              else probe_error
          end
    end.

(** [sum(item.availability_state == s for item in states)]. *)
Definition count_state (s : AvailabilityState) (states : list MonitorAgentState) : Z :=
  Z.of_nat (length (List.filter (fun i => bool_decide (ms_availability_state i = s)) states)).

Definition _headline (states : list MonitorAgentState) : MonitorHeadline :=
  match states with
  | [] => hl_disabled
  | _ =>
      let healthy := count_state av_healthy states in
      let unhealthy := count_state av_unhealthy states in
      let total := Z.of_nat (length states) in
      if healthy =? total then hl_healthy
      else if unhealthy =? total then hl_unhealthy
      else if (healthy =? 0) && (unhealthy =? 0) then hl_unknown
      else hl_degraded
  end.

(** ** The state query *)

(** The joins both halves of [effective_pairs] share: the monitor of the realm with its
    usable target, and the usable agent of the monitor's realm. *)
Definition pair_rows (db : MonDB) (realm monitor_id agent_id : uuid) : option (Monitor * Agent) :=
  match monitors db !! monitor_id, agents db !! agent_id with
  | Some m, Some a =>
      match targets db !! m_target_id m with
      | Some t =>
          if (t_realm_id t =? m_realm_id m)%N && (a_realm_id a =? m_realm_id m)%N &&
             (m_realm_id m =? realm)%N && m_enabled m && is_none (m_archived_at m) &&
             t_enabled t && is_none (t_archived_at t) && a_enabled a && is_none (a_archived_at a)
          then Some (m, a) else None
      | None => None
      end
  | _, _ => None
  end.

(** The first SELECT: direct assignments. *)
Definition direct_pairs (db : MonDB) (realm : uuid) : list (uuid * uuid) :=
  omap (fun row => match row with
    | ((r, m, a), enabled) =>
        match pair_rows db realm m a with
        | Some (mon, _) => if (r =? m_realm_id mon)%N && enabled then Some (m, a) else None
        | None => None
        end
    end) (map_to_list (monitor_agent_assignments db)).

(** The second SELECT: assignments of usable groups of the realm, and their members. *)
Definition group_pairs (db : MonDB) (realm : uuid) : list (uuid * uuid) :=
  row ← map_to_list (monitor_agent_group_assignments db);
  match row with
  | ((r, m, g), enabled) =>
      omap (fun membership => match membership with
        | (r', g', a) =>
            match pair_rows db realm m a, agent_groups db !! g with
            | Some (mon, _), Some gr =>
                if (r =? m_realm_id mon)%N && enabled && (g_realm_id gr =? m_realm_id mon)%N &&
                   g_enabled gr && is_none (g_archived_at gr) && (g' =? g)%N &&
                   (r' =? m_realm_id mon)%N
                then Some (m, a) else None
            | _, _ => None
            end
        end) (elements (agent_group_memberships db))
  end.

(** UNION removes duplicates. *)
Definition effective_pairs (db : MonDB) (realm : uuid) : gset (uuid * uuid) :=
  list_to_set (direct_pairs db realm) ∪ list_to_set (group_pairs db realm).

(** The LATERAL subquery: the last observation by (scheduled_at, received_at). *)
Definition later_observation (x y : ObservationRow) : ObservationRow :=
  if (or_scheduled_at x <? or_scheduled_at y) ||
     ((or_scheduled_at x =? or_scheduled_at y) && (or_received_at x <? or_received_at y))
  then y else x.

Definition latest_observation (obs : ObsDB) (realm monitor agent : uuid) : option ObservationRow :=
  match List.filter (fun o => (or_realm_id o =? realm)%N && (or_monitor_id o =? monitor)%N &&
                              (or_agent_id o =? agent)%N) (rows (observations obs)) with
  | [] => None
  | o :: l => Some (fold_left later_observation l o)
  end.

Definition state_row_of (db : MonDB) (obs : ObsDB) (realm : uuid) (m : Monitor) (a : Agent) :
    StateRow :=
  let configuration := get_row (fun st => (st_realm_id st =? realm)%N) (a_id a)
                         (agent_configuration_states db) in
  let operational := get_row (fun o => (op_realm_id o =? realm)%N) (a_id a)
                       (agent_operational_states db) in
  let latest := latest_observation obs realm (m_id m) (a_id a) in
  mkStateRow (m_id m) (m_name m) (m_probe_type m) (m_interval_seconds m) (m_timeout_seconds m)
    (a_id a) (a_name a)
    (default 0 (st_desired_revision <$> configuration))
    (default 0 (st_acknowledged_revision <$> configuration))
    (configuration ≫= st_acknowledged_at)
    (op_last_heartbeat_at <$> operational)
    (or_observation_id <$> latest) (or_scheduled_at <$> latest) (or_received_at <$> latest)
    (or_execution_status <$> latest) (or_assessment <$> latest).

(** The order of text columns. *)
Class Collation := {
  name_le : string -> string -> bool;
  name_le_total : forall x y, name_le x y = true \/ name_le y x = true;
  name_le_trans : forall x y z, name_le x y = true -> name_le y z = true -> name_le x z = true;
}.

Section Queries.
Context {C : Collation} (settings : Settings).

(** ORDER BY monitor_name, agent_name. *)
Definition state_row_le (x y : StateRow) : bool :=
  if name_le (sr_monitor_name x) (sr_monitor_name y)
  then if name_le (sr_monitor_name y) (sr_monitor_name x)
       then name_le (sr_agent_name x) (sr_agent_name y) else true
  else false.

Definition state_rows (db : MonDB) (obs : ObsDB) (realm : uuid) : list StateRow :=
  order_by state_row_le (omap (fun p : uuid * uuid =>
    match pair_rows db realm p.1 p.2 with
    | Some (m, a) => Some (state_row_of db obs realm m a)
    | None => None
    end) (elements (effective_pairs db realm))).

Definition agent_state (now : Z) (row : StateRow) : MonitorAgentState :=
  mkMonitorAgentState (sr_monitor_id row) (sr_monitor_name row) (sr_agent_id row)
    (sr_agent_name row) (sr_probe_type row) (_availability_state settings now row)
    (sr_desired_revision row) (sr_acknowledged_revision row) (sr_last_observation_id row)
    (sr_last_scheduled_at row) (sr_last_received_at row) (sr_execution_status row)
    (sr_assessment row).

(** [grouped.get(monitor.id, [])]. *)
Definition grouped (now : Z) (rows : list StateRow) (monitor : uuid) : list MonitorAgentState :=
  map (agent_state now) (List.filter (fun r => (sr_monitor_id r =? monitor)%N) rows).

Definition monitor_summary (now : Z) (rows : list StateRow) (m : Monitor) (t : Target) :
    MonitorStateSummary :=
  let states := if m_enabled m then grouped now rows (m_id m) else [] in
  let healthy_agents := count_state av_healthy states in
  let unhealthy_agents := count_state av_unhealthy states in
  let trustworthy := healthy_agents + unhealthy_agents in
  let total := Z.of_nat (length states) in
  mkMonitorStateSummary (m_id m) (m_name m) (m_target_id m) (t_name t) (m_probe_type m)
    (_headline states) total healthy_agents unhealthy_agents (total - trustworthy)
    (if total =? 0 then 0%Q else ((inject_Z trustworthy / inject_Z total) * 100)%Q)
    states.

Definition query_monitor_states (db : MonDB) (obs : ObsDB) (realm : uuid) (now : Z) :
    list MonitorStateSummary :=
  let rows_ := state_rows db obs realm in
  map (fun mt => monitor_summary now rows_ mt.1 mt.2)
    (order_by (fun x y => name_le (m_name x.1) (m_name y.1))
      (omap (fun m =>
         if (m_realm_id m =? realm)%N && is_none (m_archived_at m)
         then match targets db !! m_target_id m with Some t => Some (m, t) | None => None end
         else None) (rows (monitors db)))).
End Queries.

(** ** Recent observations and history *)

(** ORDER BY received_at DESC, scheduled_at DESC. *)
Definition recent_le (x y : ObservationRow) : bool :=
  (or_received_at y <? or_received_at x) ||
  ((or_received_at x =? or_received_at y) && (or_scheduled_at y <=? or_scheduled_at x)).

Definition query_recent_observations (obs : ObsDB) (realm : uuid) (limit : nat) :
    list ObservationRow :=
  take limit (order_by recent_le
    (List.filter (fun o => (or_realm_id o =? realm)%N) (rows (observations obs)))).

(** ORDER BY scheduled_at ASC, agent_id ASC. *)
Definition history_le (x y : ObservationRow) : bool :=
  (or_scheduled_at x <? or_scheduled_at y) ||
  ((or_scheduled_at x =? or_scheduled_at y) && (or_agent_id x <=? or_agent_id y)%N).

(** The typed row of an observation: [_typed_result] over the joined tables. *)
Definition _typed_result (obs : ObsDB) (probe_type : ProbeType) (k : okey) :
    option ObservationResult :=
  match probe_type with
  | ICMP => (fun r => IcmpResult (rr_data r)) <$> icmp_results obs !! k
  | HTTP => (fun r => HttpResult (rr_data r)) <$> http_results obs !! k
  | TCP => (fun r => TcpResult (rr_data r)) <$> tcp_results obs !! k
  | DNS => (fun r => DnsResult (rr_data r)) <$> dns_results obs !! k
  | TLS => (fun r => TlsResult (rr_data r)) <$> tls_results obs !! k
  end.

Definition in_history (realm monitor : uuid) (probe_type : ProbeType) (start end_ : Z)
    (o : ObservationRow) : bool :=
  (or_realm_id o =? realm)%N && (or_monitor_id o =? monitor)%N &&
  bool_decide (or_probe_type o = probe_type) &&
  (start <=? or_scheduled_at o) && (or_scheduled_at o <=? end_).

Definition _history_point (obs : ObsDB) (probe_type : ProbeType) (o : ObservationRow) :
    ObservationRow * option ObservationResult :=
  (o, _typed_result obs probe_type (or_scheduled_at o, or_observation_id o)).

Definition query_probe_history (obs : ObsDB) (realm monitor : uuid) (probe_type : ProbeType)
    (start end_ : Z) (limit : nat) : list (ObservationRow * option ObservationResult) :=
  map (_history_point obs probe_type)
    (take limit (order_by history_le
      (List.filter (in_history realm monitor probe_type start end_) (rows (observations obs))))).

(** monitoring/measurements.py: the ICMP history joins its typed table on the whole
    identity. *)
Definition icmp_point (obs : ObsDB) (o : ObservationRow) :
    option (ObservationRow * IcmpObservationResult) :=
  match icmp_results obs !! (or_scheduled_at o, or_observation_id o) with
  | Some r =>
      if (rr_realm_id r =? or_realm_id o)%N && (rr_agent_id r =? or_agent_id o)%N &&
         (rr_monitor_id r =? or_monitor_id o)%N
      then Some (o, rr_data r) else None
  | None => None
  end.

Definition query_icmp_history (obs : ObsDB) (realm monitor : uuid) (start end_ : Z) (limit : nat) :
    list (ObservationRow * IcmpObservationResult) :=
  take limit (order_by (fun x y => history_le x.1 y.1)
    (omap (icmp_point obs)
      (List.filter (in_history realm monitor ICMP start end_) (rows (observations obs))))).
