(* ===== verification/DashboardProps.v ===== *)
(** * The dashboard says what the documentation says

    [available] and [headline_rule] restate the rules of docs/architecture/health.md;
    the classification code implements them.  The pairs the dashboard lists are the
    pairs the agents are configured with, and the histories are the requested range. *)

From Stdlib Require Import QArith Sorted.
From S2P Require Import Prelude PyText Json Platform Models ProbeConfig Domain.
From S2P Require Import Credentials Configuration Selection Effects HierarchyProps CredentialsProps.
From S2P Require Import Isolation Steps Discipline ConfigInvariant ObservationSchema Observations.
From S2P Require Import ObservationProps Dashboard.
Local Open Scope Z_scope.

(** ** Availability *)

Section Availability.
Context (settings : Settings) (now : Z) (row : StateRow).

(** The desired revision has been acknowledged. *)
Definition acknowledged : Prop :=
  sr_desired_revision row <> 0 /\ sr_desired_revision row <= sr_acknowledged_revision row.

Definition offline : Prop :=
  match sr_last_heartbeat_at row with
  | None => True
  | Some h => now - h > seconds (agent_offline_after_seconds settings)
  end.

Definition stale : Prop :=
  match sr_last_heartbeat_at row with
  | None => False
  | Some h => now - h > seconds (Z.min (agent_offline_after_seconds settings)
                                   (agent_heartbeat_interval_seconds settings * 2))
  end.

(** The time after which the execution due after instant [t] must have been reported. *)
Definition deadline_after (t : Z) : Z :=
  t + seconds (sr_interval_seconds row + sr_timeout_seconds row +
               (agent_heartbeat_interval_seconds settings +
                agent_configuration_poll_interval_seconds settings)).

(** The instant the next expected observation is counted from: the last scheduled one, or
    the acknowledgement before any. *)
Definition counted_from : option Z :=
  match sr_last_scheduled_at row with Some s => Some s | None => sr_acknowledged_at row end.

Definition late : Prop := exists t, counted_from = Some t /\ now > deadline_after t.

(** The rules of the documentation, each with the negation of those before it. *)
Inductive available : AvailabilityState -> Prop :=
| rule_pending : ~ acknowledged -> available pending_configuration
| rule_offline : acknowledged -> offline -> available agent_offline
| rule_stale : acknowledged -> ~ offline -> stale -> available agent_stale
| rule_no_data : acknowledged -> ~ offline -> ~ stale -> ~ late ->
    sr_last_scheduled_at row = None -> available no_data_yet
| rule_overdue : acknowledged -> ~ offline -> ~ stale -> late -> available overdue
| rule_probe_error : acknowledged -> ~ offline -> ~ stale -> ~ late ->
    sr_last_scheduled_at row <> None ->
    sr_execution_status row = Some Failed \/
      (sr_assessment row <> Some Unhealthy /\ sr_assessment row <> Some Healthy) ->
    available probe_error
| rule_unhealthy : acknowledged -> ~ offline -> ~ stale -> ~ late ->
    sr_last_scheduled_at row <> None -> sr_execution_status row <> Some Failed ->
    sr_assessment row = Some Unhealthy -> available av_unhealthy
| rule_healthy : acknowledged -> ~ offline -> ~ stale -> ~ late ->
    sr_last_scheduled_at row <> None -> sr_execution_status row <> Some Failed ->
    sr_assessment row = Some Healthy -> available av_healthy.

(** Case analysis on the test about to be made. *)
Ltac next_test H := match goal with
  | |- available (if ?b then _ else _) => destruct b eqn:H
  end.

Lemma available_sound : available (_availability_state settings now row).
Proof.
  unfold _availability_state.
  next_test Ea.
  { apply rule_pending. unfold acknowledged. lia. }
  assert (Hack : acknowledged) by (unfold acknowledged; lia).
  destruct (sr_last_heartbeat_at row) as [h|] eqn:Eh;
    [|apply rule_offline; [done|unfold offline; by rewrite Eh]].
  next_test Eo.
  { apply rule_offline; [done|]. unfold offline. rewrite Eh. lia. }
  assert (Hon : ~ offline) by (unfold offline; rewrite Eh; lia).
  next_test Es.
  { apply rule_stale; [done|done|]. unfold stale. rewrite Eh. lia. }
  assert (Hfresh : ~ stale) by (unfold stale; rewrite Eh; lia).
  destruct (sr_last_scheduled_at row) as [s|] eqn:El.
  - next_test Ed.
    { apply rule_overdue; try done. exists s. unfold counted_from, deadline_after.
      rewrite El. split; [done|lia]. }
    assert (Hin : ~ late).
    { intros (t & Ht & Hlt). unfold counted_from, deadline_after in *. rewrite El in Ht.
      injection Ht as <-. lia. }
    repeat case_bool_decide; [apply rule_probe_error|apply rule_unhealthy|apply rule_healthy|
      apply rule_probe_error]; rewrite ?El; auto.
  - destruct (sr_acknowledged_at row) as [t|] eqn:Et; [next_test Ed|].
    + apply rule_no_data; try done. intros (t' & Ht & Hlt).
      unfold counted_from, deadline_after in *. rewrite El, Et in Ht. injection Ht as <-. lia.
    + apply rule_overdue; try done. exists t. unfold counted_from, deadline_after.
      rewrite El, Et. split; [done|lia].
    + apply rule_no_data; try done. intros (t' & Ht & Hlt). unfold counted_from in Ht.
      by rewrite El, Et in Ht.
Qed.

(** The rules exclude each other. *)
Lemma available_deterministic s s' : available s -> available s' -> s = s'.
Proof. intros H H'. destruct H, H'; try done; exfalso; tauto || intuition congruence. Qed.

(** The availability state of a monitor-agent pair is the one the documented precedence
    assigns: [_availability_state] returns [s] exactly when [s] is the state of the first
    rule that applies (configuration not acknowledged, agent offline, agent stale, no data
    before the first deadline, overdue, probe error, unhealthy, healthy). *)
Theorem availability_follows_documented_rules s :
  _availability_state settings now row = s <-> available s.
Proof.
  split; [intros <-; apply available_sound|].
  intros Hs. by eapply available_deterministic; [apply available_sound|].
Qed.
End Availability.

(** Results only age: with the same row, a pair that is healthy, unhealthy or in probe
    error at some instant had that same state at every earlier instant at which it is
    classified; the passing of time alone never makes a pair healthy. *)
Theorem fresh_states_only_age settings row now now' s :
  now <= now' -> _availability_state settings now' row = s ->
  s = av_healthy \/ s = av_unhealthy \/ s = probe_error ->
  _availability_state settings now row = s.
Proof.
  intros Hle Hs Hfresh. unfold _availability_state in *.
  destruct (_ || _); [destruct Hfresh as [|[|]]; congruence|].
  destruct (sr_last_heartbeat_at row) as [h|]; [|destruct Hfresh as [|[|]]; congruence].
  destruct (_ <? now' - h) eqn:E1 in Hs; [destruct Hfresh as [|[|]]; congruence|].
  destruct (_ <? now' - h) eqn:E2 in Hs; [destruct Hfresh as [|[|]]; congruence|].
  rewrite (proj2 (Z.ltb_ge _ _)), (proj2 (Z.ltb_ge _ _)) by lia.
  destruct (sr_last_scheduled_at row) as [t|].
  - destruct (_ <? now') eqn:E3 in Hs; [destruct Hfresh as [|[|]]; congruence|].
    by rewrite (proj2 (Z.ltb_ge _ _)) by lia.
  - destruct (sr_acknowledged_at row); [destruct (now' <=? _)|]; destruct Hfresh as [|[|]]; congruence.
Qed.

(** A pair that reported at 60 s and sent a heartbeat at 70 s. *)
Definition example_row : StateRow :=
  mkStateRow 30 "ssh" TCP 60 10 5 "probe-1" 1 1 (Some 4000000) (Some 70000000) (Some 40%N)
    (Some 60000000) (Some 61000000) (Some Completed) (Some Healthy).

Lemma fresh_states_only_age_witness :
  _availability_state default_settings 71000000 example_row = av_healthy.
Proof.
  apply (fresh_states_only_age default_settings example_row 71000000 75000000);
    [lia|by vm_compute|by left].
Defined.

(** ** Headlines and counts *)

Lemma count_state_all s states :
  count_state s states = Z.of_nat (length states) <->
  Forall (fun i => ms_availability_state i = s) states.
Proof.
  unfold count_state. induction states as [|i states IH]; simpl; [by split|].
  rewrite Forall_cons, <-IH. pose proof (List.filter_length_le
    (fun i => bool_decide (ms_availability_state i = s)) states).
  case_bool_decide; simpl; split; [intros; split; [done|lia]|lia|lia|naive_solver].
Qed.

Lemma count_state_none s states :
  count_state s states = 0 <-> Forall (fun i => ms_availability_state i <> s) states.
Proof.
  unfold count_state. induction states as [|i states IH]; simpl; [by split|].
  rewrite Forall_cons, <-IH. case_bool_decide; simpl; split; [lia|naive_solver|auto|naive_solver].
Qed.

Lemma count_state_bounds s states : 0 <= count_state s states <= Z.of_nat (length states).
Proof.
  unfold count_state. pose proof (List.filter_length_le
    (fun i => bool_decide (ms_availability_state i = s)) states). lia.
Qed.

Lemma count_states_le states :
  count_state av_healthy states + count_state av_unhealthy states <= Z.of_nat (length states).
Proof.
  unfold count_state. induction states as [|i states IH]; simpl; [lia|].
  repeat case_bool_decide; simpl in *; try congruence; lia.
Qed.

(** The headline rules of the documentation. *)
Definition headline_rule (states : list MonitorAgentState) (h : MonitorHeadline) : Prop :=
  let healthy i := ms_availability_state i = av_healthy in
  let unhealthy i := ms_availability_state i = av_unhealthy in
  match h with
  | hl_disabled => states = []
  | hl_healthy => states <> [] /\ Forall healthy states
  | hl_unhealthy => states <> [] /\ Forall unhealthy states
  | hl_unknown => states <> [] /\ Forall (fun i => ~ healthy i /\ ~ unhealthy i) states
  | hl_degraded => ~ Forall healthy states /\ ~ Forall unhealthy states /\
      ~ Forall (fun i => ~ healthy i /\ ~ unhealthy i) states
  end.

Lemma headline_sound states : headline_rule states (_headline states).
Proof.
  assert (Hnone : count_state av_healthy states = 0 /\ count_state av_unhealthy states = 0 <->
    Forall (fun i => ms_availability_state i <> av_healthy /\ ms_availability_state i <> av_unhealthy)
      states).
  { rewrite !count_state_none, Forall_and. tauto. }
  unfold _headline, headline_rule in *. destruct states as [|i l]; [done|].
  set (st := i :: l) in *. destruct (count_state av_healthy st =? _) eqn:E1;
    [split; [done|]; by apply count_state_all, Z.eqb_eq|].
  destruct (count_state av_unhealthy st =? _) eqn:E2;
    [split; [done|]; by apply count_state_all, Z.eqb_eq|].
  destruct ((_ =? 0) && _) eqn:E3; [split; [done|]; apply Hnone; lia|].
  rewrite <-Hnone, <-!count_state_all. lia.
Qed.

(** The headline of a monitor follows the documented rules: disabled without effective
    agents, healthy or unhealthy only when every effective agent agrees, unknown when no
    agent has a trustworthy assessment, degraded for every other mixture; the rules leave
    exactly one headline. *)
Theorem headline_follows_documented_rules states h :
  _headline states = h <-> headline_rule states h.
Proof.
  pose proof (headline_sound states) as Hsound.
  split; [by intros <-|]. intros Hr. destruct states as [|i l].
  - destruct h; simpl in Hr; naive_solver.
  - destruct (_headline (i :: l)), h; simpl in Hsound, Hr; try done;
      repeat match goal with H : _ /\ _ |- _ => destruct H end; try done;
      repeat match goal with H : Forall _ (_ :: _) |- _ => apply Forall_cons in H as [? ?] end;
      naive_solver congruence.
Qed.

(** The percentage of [k] trustworthy agents among [n]. *)
Lemma percent_bounds k n : 0 <= k <= n -> 0 < n ->
  (0 <= inject_Z k / inject_Z n * 100 <= 100)%Q /\
  ((inject_Z k / inject_Z n * 100 == 100)%Q <-> k = n).
Proof.
  intros Hk Hn. destruct n as [|n|n]; try lia.
  unfold Qdiv, Qinv, Qmult, Qle, Qeq; simpl. repeat split; lia.
Qed.

(** The denominator is never hidden: in every summary the healthy, unhealthy and
    unavailable agents add up to the effective agents, none of the counts is negative, the
    coverage lies between 0 and 100, it is 100 exactly when every effective agent has a
    trustworthy assessment (and there is one), and a healthy or unhealthy headline implies
    full coverage. *)
Theorem summary_counts_add_up settings now rows m t :
  let s := monitor_summary settings now rows m t in
  su_healthy_agents s + su_unhealthy_agents s + su_unavailable_agents s = su_effective_agents s /\
  0 <= su_healthy_agents s /\ 0 <= su_unhealthy_agents s /\ 0 <= su_unavailable_agents s /\
  (0 <= su_coverage_percent s <= 100)%Q /\
  ((su_coverage_percent s == 100)%Q <-> su_unavailable_agents s = 0 /\ su_effective_agents s <> 0) /\
  (su_headline s = hl_healthy \/ su_headline s = hl_unhealthy -> su_unavailable_agents s = 0).
Proof.
  unfold monitor_summary. simpl.
  generalize (if m_enabled m then grouped settings now rows (m_id m) else []). intros states.
  pose proof (count_state_bounds av_healthy states) as H1.
  pose proof (count_state_bounds av_unhealthy states) as H2.
  pose proof (count_states_le states) as H3.
  assert (Hhead : _headline states = hl_healthy \/ _headline states = hl_unhealthy ->
    Z.of_nat (length states) - (count_state av_healthy states + count_state av_unhealthy states) = 0).
  { pose proof (headline_sound states) as Hs.
    intros [E|E]; rewrite E in Hs; destruct Hs as [_ Hall%count_state_all]; lia. }
  destruct (Z.eqb_spec (Z.of_nat (length states)) 0) as [En|En].
  - repeat split; try lia; try done; intros Hq; try (by inversion Hq); lia.
  - destruct (percent_bounds (count_state av_healthy states + count_state av_unhealthy states)
                (Z.of_nat (length states))) as [Hb Hfull]; [lia|lia|].
    rewrite Hfull. repeat split; try apply Hb; try lia; done.
Qed.

(** ** The pairs the dashboard lists *)

Lemma pair_rows_spec db r m a mon ag :
  pair_rows db r m a = Some (mon, ag) <->
  monitors db !! m = Some mon /\ agents db !! a = Some ag /\ m_realm_id mon = r /\ a_realm_id ag = r /\
  monitor_live mon = true /\ agent_usable db a = true /\
  exists t, targets db !! m_target_id mon = Some t /\ t_realm_id t = r /\ target_usable t = true.
Proof.
  unfold pair_rows, monitor_live, agent_usable, target_usable. split.
  - intros H. destruct (monitors db !! m) as [mon'|]; [|done].
    destruct (agents db !! a) as [ag'|]; [|done].
    destruct (targets db !! m_target_id mon') as [t|] eqn:Et; [|done].
    destruct (_ && _) eqn:E in H; [|done]. simplify_eq. destruct_andb.
    repeat match goal with H : (_ =? _)%N = true |- _ => apply N.eqb_eq in H end.
    repeat split; try done; try congruence; try by split_andb.
    exists t. repeat split; try done; try congruence. by split_andb.
  - intros (-> & Ha & Hr & Hr' & Hl & Hu & t & Ht & Htr & Hut). rewrite Ha in *. rewrite Ht.
    destruct_andb. rewrite Hr, Hr', Htr, !N.eqb_refl.
    by repeat match goal with H : _ = true |- _ => rewrite H; clear H end.
Qed.

Lemma elem_of_direct_pairs db r m a :
  (m, a) ∈ direct_pairs db r <->
  monitor_agent_assignments db !! (r, m, a) = Some true /\ is_Some (pair_rows db r m a).
Proof.
  unfold direct_pairs. rewrite elem_of_omap_assignments. split.
  - intros (r' & m' & a' & b & Hin & Hf).
    destruct (pair_rows db r m' a') as [[mon ag]|] eqn:E; [|done]. solve_rows.
    apply pair_rows_spec in E as E'. destruct E' as (_ & _ & Hr & _). rewrite Hr in *.
    split; [done|]. by rewrite E.
  - intros (Hin & [[mon ag] E]). exists r, m, a, true. split; [done|]. rewrite E.
    apply pair_rows_spec in E as (_ & _ & -> & _). by rewrite N.eqb_refl.
Qed.

Lemma elem_of_group_pairs db r m a :
  (m, a) ∈ group_pairs db r <->
  is_Some (pair_rows db r m a) /\
  exists g gr, monitor_agent_group_assignments db !! (r, m, g) = Some true /\
    agent_groups db !! g = Some gr /\ g_realm_id gr = r /\ group_usable db g = true /\
    (r, g, a) ∈ agent_group_memberships db.
Proof.
  unfold group_pairs. rewrite list_elem_of_bind. split.
  - intros ([[[r' m'] g] b] & Hf & Hin%elem_of_map_to_list).
    apply elem_of_omap_memberships in Hf as (r'' & g' & a' & Hmem & Hf).
    destruct (pair_rows db r m' a') as [[mon ag]|] eqn:E; [|done].
    destruct (agent_groups db !! g) as [gr|] eqn:Eg; [|done]. solve_rows.
    apply pair_rows_spec in E as E'. destruct E' as (_ & _ & Hr & _). rewrite Hr in *.
    split; [by rewrite E|]. exists g, gr. repeat split; try done.
    unfold group_usable. rewrite Eg. by split_andb.
  - intros ([[mon ag] E] & g & gr & Hin & Hg & Hgr & Hu & Hmem).
    exists (r, m, g, true). split; [|by apply elem_of_map_to_list].
    apply elem_of_omap_memberships. exists r, g, a. split; [done|]. rewrite E, Hg.
    apply pair_rows_spec in E as (_ & _ & -> & _). rewrite Hgr, !N.eqb_refl.
    unfold group_usable in Hu. rewrite Hg in Hu. destruct_andb.
    by repeat match goal with H : _ = true |- _ => rewrite H; clear H end.
Qed.

(** In a closed database the UNION is the routing relation over usable rows. *)
Lemma elem_of_effective_pairs db r m a :
  realm_closed db ->
  (m, a) ∈ effective_pairs db r <-> is_Some (pair_rows db r m a) /\ routed db r m a.
Proof.
  intros Hrc. unfold effective_pairs, routed.
  rewrite elem_of_union, !elem_of_list_to_set, elem_of_direct_pairs, elem_of_group_pairs.
  split; [naive_solver|]. intros (Hp & [Hd|(g & Hg & Hu & Hm)]); [by left|right].
  split; [done|]. destruct (rc_group_assignments _ Hrc _ _ _ _ Hg) as [_ (gr & Hgr & Hr)]. eauto 8.
Qed.

Section Pairs.
Context {CO : Coercions} {P : Platform} (settings : Settings).

(** C28 The dashboard lists exactly the configured pairs: in every reachable state, the
    state query of a realm has the pair of monitor [m] and agent [a] exactly when [a] is an
    enabled, unarchived agent of that realm and [m] is one of the monitors whose
    configuration is assembled for [a]. *)
Theorem dashboard_lists_configured_pairs db r m a :
  rtc (mon_step settings) empty_db db ->
  (m, a) ∈ effective_pairs db r <->
  agent_usable db a = true /\ has_agent db r a /\
  exists mt, mt ∈ configured_monitors db r a /\ m_id mt.1 = m.
Proof.
  intros Hreach. pose proof (co_closed _ (config_ok_reachable settings db Hreach)) as Hrc.
  pose proof (rc_monitors_keyed _ Hrc) as Hkeyed. rewrite elem_of_effective_pairs by done. split.
  - intros [[[mon ag] E] Hr]. apply pair_rows_spec in E
      as (Hm & Ha & Hmr & Har & Hl & Hu & t & Ht & Htr & Htu).
    split; [done|]. split; [by exists ag|]. exists (mon, t). split; [|by apply Hkeyed].
    apply elem_of_configured_monitors. exists m. by apply lookup_selected.
  - intros (Hu & (ag & Ha & Har) & [mon t] & (k & Hs)%elem_of_configured_monitors & Hid).
    apply lookup_selected in Hs as (Hm & Hr & Hmr & Hl & Ht & Htu); [|done].
    pose proof (Hkeyed _ _ Hm) as Hk. simpl in Hid. assert (k = m) as -> by congruence.
    split; [|done]. exists (mon, ag). apply pair_rows_spec. repeat split; try done.
    exists t. repeat split; try done.
    destruct (rc_monitors _ Hrc _ _ Hm) as [_ (t' & Ht' & Htr)]. congruence.
Qed.
End Pairs.

Lemma demo_configured : configured_monitors Demo.db7 1 5 = [(Demo.monitor, Demo.target)].
Proof. by vm_compute. Qed.

Lemma dashboard_lists_configured_pairs_witness : (30%N, 5%N) ∈ effective_pairs Demo.db7 1%N.
Proof.
  refine (proj2 (dashboard_lists_configured_pairs (CO := strict_coercions) (P := example_platform)
    default_settings Demo.db7 1%N 30%N 5%N Demo.reach7) _).
  split; [by vm_compute|]. split; [exists example_agent; split; [apply Demo.agent7|done]|].
  exists (Demo.monitor, Demo.target). split; [|done].
  rewrite demo_configured. left.
Defined.

(** ** What the history queries return

    Sorting, truncation and completeness of [query_probe_history], and its agreement
    with [query_icmp_history]. *)

Lemma length_omap_le {A B} (f : A -> option B) l : (length (omap f l) <= length l)%nat.
Proof. induction l as [|x l IH]; csimpl; [lia|]. destruct (f x); csimpl; lia. Qed.

Lemma history_le_total x y : history_le x y = true \/ history_le y x = true.
Proof.
  unfold history_le. destruct (N.leb_spec (or_agent_id x) (or_agent_id y)),
    (N.leb_spec (or_agent_id y) (or_agent_id x)); lia.
Qed.

Lemma history_le_trans x y z :
  history_le x y = true -> history_le y z = true -> history_le x z = true.
Proof.
  unfold history_le. rewrite !orb_true_iff, !andb_true_iff, !N.leb_le. lia.
Qed.

Section History.
Context (obs : ObsDB) (Hok : obs_ok obs).

(** The typed row of a stored observation exists exactly when the probe completed, and it
    carries the identity of the observation. *)
Lemma typed_result_completed o :
  o ∈ rows (observations obs) ->
  is_Some (_typed_result obs (or_probe_type o) (or_scheduled_at o, or_observation_id o)) <->
  or_execution_status o = Completed.
Proof.
  intros [k Ho]%elem_of_rows. pose proof (oo_key _ Hok _ _ Ho) as Hk. rewrite Hk.
  assert (Heq : is_Some (_typed_result obs (or_probe_type o) k) <->
                is_Some (owners obs (or_probe_type o) !! k)).
  { unfold _typed_result, owners. destruct (or_probe_type o);
      by rewrite lookup_fmap, !fmap_is_Some. }
  rewrite Heq. split.
  - intros [w (row & Hrow & _ & Hst & _)%(oo_typed _ Hok)]. congruence.
  - by apply (oo_complete _ Hok).
Qed.

Lemma in_history_spec r m p s e o :
  in_history r m p s e o = true <->
  or_realm_id o = r /\ or_monitor_id o = m /\ or_probe_type o = p /\
  s <= or_scheduled_at o <= e.
Proof.
  unfold in_history. rewrite !andb_true_iff, bool_decide_eq_true, !N.eqb_eq, !Z.leb_le. tauto.
Qed.

Lemma elem_of_matching r m p s e o :
  o ∈ List.filter (in_history r m p s e) (rows (observations obs)) <->
  o ∈ rows (observations obs) /\ in_history r m p s e o = true.
Proof. by rewrite !list_elem_of_In, filter_In. Qed.
End History.

(** The history of a monitor is the requested range: over consistent tables the points
    come in the order of schedule and agent, at most [limit] of them; every point is a stored
    observation of the realm, monitor, probe type and time range, with a typed result exactly
    when its probe completed; and every stored observation in the range is a point unless the
    limit was reached, in which case it is not before any point returned. *)
Theorem probe_history_is_the_range obs r m p s e limit :
  obs_ok obs ->
  let points := query_probe_history obs r m p s e limit in
  StronglySorted (fun x y => history_le x y = true) points.*1 /\
  (length points <= limit)%nat /\
  (forall o res, (o, res) ∈ points -> o ∈ rows (observations obs) /\
     or_realm_id o = r /\ or_monitor_id o = m /\ or_probe_type o = p /\
     s <= or_scheduled_at o <= e /\ (is_Some res <-> or_execution_status o = Completed)) /\
  (forall o, o ∈ rows (observations obs) -> in_history r m p s e o = true ->
     o ∈ points.*1 \/
     (length points = limit /\ forall o', o' ∈ points.*1 -> history_le o' o = true)).
Proof.
  intros Hok. unfold query_probe_history. cbv zeta.
  assert (Hfst : forall l, (map (_history_point obs p) l).*1 = l).
  { intros l. induction l; simpl; by f_equal. }
  rewrite Hfst, length_map.
  set (l := List.filter (in_history r m p s e) (rows (observations obs))).
  destruct (take_order_by history_le history_le_total history_le_trans limit l)
    as (Hsorted & Hperm & Hlen & Hcut).
  split; [done|]. split; [lia|]. split.
  - intros o res (o' & [= -> ->] & Hin)%list_elem_of_fmap.
    assert (o' ∈ l) as [Ho Hin']%elem_of_matching.
    { rewrite <-Hperm, elem_of_app. by left. }
    apply in_history_spec in Hin' as (? & ? & Hp & ?). repeat split; try done; try lia.
    all: by rewrite <-Hp, typed_result_completed.
  - intros o Ho Hin. assert (o ∈ l) as Hl by by apply elem_of_matching.
    rewrite <-Hperm, elem_of_app in Hl. destruct Hl as [|Hd]; [by left|right].
    split; [|intros o' Ho'; by apply Hcut].
    apply Permutation_length in Hperm as Hlen'. rewrite length_app in Hlen'.
    assert (length (drop limit (order_by history_le l)) <> 0%nat) as Hne
      by (destruct (drop _ _); [by apply elem_of_nil in Hd|done]). lia.
Qed.

(** The dedicated ICMP history and the generic history agree: over consistent tables
    and with a limit that cuts nothing off, an observation and its ICMP result are in the one
    exactly when they are in the other. *)
Theorem icmp_history_agrees obs r m s e limit o d :
  obs_ok obs -> (length (rows (observations obs)) <= limit)%nat ->
  (o, d) ∈ query_icmp_history obs r m s e limit <->
  (o, Some (IcmpResult d)) ∈ query_probe_history obs r m ICMP s e limit.
Proof.
  intros Hok Hlim. unfold query_icmp_history, query_probe_history.
  set (l := List.filter (in_history r m ICMP s e) (rows (observations obs))).
  assert (Hl : (length l <= limit)%nat) by (pose proof (List.filter_length_le
    (in_history r m ICMP s e) (rows (observations obs))); unfold l; lia).
  rewrite !take_ge; cycle 1.
  { by rewrite order_by_perm. }
  { rewrite order_by_perm. etransitivity; [apply length_omap_le|done]. }
  rewrite order_by_perm, list_elem_of_omap, list_elem_of_fmap. split.
  - intros (o' & Hin & Hpt). exists o'. rewrite order_by_perm. split; [|done]. unfold icmp_point in Hpt.
    unfold _history_point, _typed_result.
    destruct (icmp_results obs !! _) as [rr|] eqn:E; [|done].
    destruct (_ && _); [|done]. by simplify_eq.
  - intros (o' & [= -> Hres] & Hin). rewrite order_by_perm in Hin. exists o'. split; [done|].
    apply elem_of_matching in Hin as [[k Ho]%elem_of_rows (_ & _ & Hp & _)%in_history_spec].
    unfold icmp_point. destruct (icmp_results obs !! _) as [rr|] eqn:E; [|done].
    rewrite (oo_key _ Hok _ _ Ho) in E.
    destruct (oo_typed _ Hok ICMP k (owner_of rr)) as (row & Hrow & _ & _ & Hown).
    { simpl. by rewrite lookup_fmap, E. }
    unfold owner_of in Hown. assert (row = o') as -> by congruence.
    injection Hown as -> -> ->. rewrite !N.eqb_refl. simpl in *. congruence.
Qed.

(** One completed ICMP observation and its result. *)
Module HistoryDemo.
Definition result : IcmpObservationResult :=
  mkIcmpResult 1 1 0 (Some 1%Q) (Some 1%Q) (Some 1%Q) (Some 1%Q) (Some 1%Q) None [1%Q].
Definition row : ObservationRow :=
  mkObservationRow 5000000 40 1 5 30 ICMP 1 1 5000000 6000000 7000000 Completed Healthy
    None None None None None.
Definition obs : ObsDB :=
  mkObsDB {[(5000000, 40%N) := row]} {[(5000000, 40%N) := mkResultRow 1 5 30 result]} ∅ ∅ ∅ ∅.

Lemma obs_ok_obs : obs_ok obs.
Proof.
  split; unfold obs; cbn [observations].
  - by intros k r [<- <-]%lookup_singleton_Some.
  - intros [] k w; try done. simpl. rewrite lookup_fmap, fmap_Some.
    intros (rr & [<- <-]%lookup_singleton_Some & ->). exists row.
    by rewrite lookup_singleton_eq.
  - intros k r [<- <-]%lookup_singleton_Some _. simpl. by rewrite lookup_fmap, lookup_singleton_eq.
Qed.
End HistoryDemo.

Lemma probe_history_is_the_range_witness :
  HistoryDemo.row ∈ (query_probe_history HistoryDemo.obs 1 30 ICMP 0 9000000 10).*1.
Proof.
  destruct (probe_history_is_the_range HistoryDemo.obs 1 30 ICMP 0 9000000 10 HistoryDemo.obs_ok_obs)
    as (_ & _ & _ & Hall).
  destruct (Hall HistoryDemo.row) as [H|[H _]].
  - apply elem_of_rows. exists (5000000, 40%N). by vm_compute.
  - by vm_compute.
  - exact H.
  - vm_compute in H. discriminate H.
Defined.

Lemma icmp_history_agrees_witness :
  (HistoryDemo.row, HistoryDemo.result) ∈ query_icmp_history HistoryDemo.obs 1 30 0 9000000 10.
Proof.
  refine (proj2 (icmp_history_agrees HistoryDemo.obs 1 30 0 9000000 10 HistoryDemo.row
    HistoryDemo.result HistoryDemo.obs_ok_obs _) _); [apply Nat.leb_le; by vm_compute|].
  vm_compute. left.
Defined.
