(* ===== verification/TemplateParser.v ===== *)
(** * The template linter (tools/lib/template_parser.py): tokenizer

    [tokenize] splits a template into tokens.  A text is a [string]; [text[i]] raises
    [IndexError] out of range and a slice is clamped, as in Python.  The main loop takes a
    bound on its iterations, [None] standing for a loop that has not ended within it; the
    scanning loops run over a range of positions, whose length is their fuel. *)

From Stdlib Require Import Ascii.
From stdpp Require Import pretty.
From S2P Require Import Prelude PyText.

(** ** Exceptions *)

Inductive failure :=
| TokenizationError (message line_content : string)
| FormattedError (message : string)
| TemplateParserError (message : string)
| IndexError
| AssertionError (message : string)
(** [raise Exception(message)]. *)
| PlainException (message : string).

Abbreviation result := (sum failure).

#[export] Instance result_ret : MRet result := fun A a => inr a.
#[export] Instance result_bind : MBind result := fun A B k m =>
  match m with inr a => k a | inl e => inl e end.

(** ** Text *)

Definition len (s : string) : nat := String.length s.

(** [text[a:b]] for [0 <= a], [0 <= b]. *)
Definition slice (text : string) (a b : nat) : string := take_chars (b - a) (drop_chars a text).

(** [s[a:-k]] for [0 <= a], [0 < k]. *)
Definition slice_to (s : string) (a k : nat) : string := slice s a (len s - k).

(** [text[i]]. *)
Definition char_at (text : string) (i : nat) : result ascii :=
  match String.get i text with Some c => inr c | None => inl IndexError end.

Definition endswith (suffix s : string) : bool :=
  String.eqb (drop_chars (len s - len suffix) s) suffix.

(** [s.strip(chars)]. *)
Definition strip_chars (chars s : string) : string :=
  let p c := negb (str_forall (fun d => negb (Ascii.eqb c d)) chars) in
  rstrip_with p (lstrip_with p s).

Fixpoint take_while (p : ascii -> bool) (s : string) : string :=
  match s with
  | String c s' => if p c then String c (take_while p s') else EmptyString
  | EmptyString => EmptyString
  end.

(** [s.split()[0]] and [s.split(None, 1)[0]]: the first word, if there is one. *)
Definition first_word (s : string) : option string :=
  match lstrip_with is_space s with
  | EmptyString => None
  | s' => Some (take_while (fun c => negb (is_space c)) s')
  end.

Definition get_first_word (s : string) : result string :=
  match first_word s with Some w => inr w | None => inl IndexError end.

Definition newline_char : ascii := "010"%char.
Definition nl : string := String newline_char EmptyString.
Definition quote_char : ascii := "034"%char.
Definition quoted (s : string) : string := String quote_char s +:+ String quote_char EmptyString.

(** ** Scanning functions *)

Definition is_c (d c : ascii) : bool := Ascii.eqb c d.

(** The loop [while end < stop and text[end] != c: end += 1]; [n] positions are left. *)
Fixpoint seek (text : string) (c : ascii) (n end_ : nat) : result nat :=
  match n with
  | O => inr end_
  | S n' => d ← char_at text end_; if is_c c d then inr end_ else seek text c n' (S end_)
  end.

Definition get_handlebars_tag (text : string) (i : nat) : result string :=
  end_ ← seek text "}" (len text - 2 - (i + 2)) (i + 2);
  c ← char_at text end_;
  (* [text[end] != x or text[end + 1] != y] evaluates its right operand on demand *)
  ok ← (if is_c "}" c then d ← char_at text (end_ + 1); inr (is_c "}" d) else inr false);
  if (ok : bool) then inr (slice text i (end_ + 2))
  else inl (TokenizationError ("Tag missing " +:+ quoted "}}") (slice text i (end_ + 2))).

Definition get_handlebars_triple_stache_tag (text : string) (i : nat) : result string :=
  end_ ← seek text "}" (len text - 3 - (i + 3)) (i + 3);
  if String.eqb (slice text end_ (end_ + 3)) "}}}" then inr (slice text i (end_ + 3))
  else if (end_ + 4 <=? len text)%nat && String.eqb (slice text end_ (end_ + 4)) "}~}}"
  then inr (slice text i (end_ + 4))
  else inl (TokenizationError ("Tag missing " +:+ quoted "}}}") (slice text i (end_ + 3))).

Definition get_spaces (text : string) (i : nat) : string :=
  take_while (is_c " ") (drop_chars i text).

Definition get_code (text : string) (i : nat) : string :=
  take_while (fun c => negb (is_c "<" c)) (drop_chars i text).

(** [c not in "{<"]. *)
Definition is_text_char (c : ascii) : bool := negb (is_c "{" c) && negb (is_c "<" c).

Definition get_text (text : string) (i : nat) : string :=
  strip (take_while is_text_char (drop_chars i text)).

Definition get_django_tag (text : string) (i : nat) (stripped : bool) : result string :=
  let start := if stripped then i + 3 else i + 2 in
  end_ ← seek text "%" (len text - 1 - start) start;
  c ← char_at text end_;
  ok ← (if is_c "%" c then d ← char_at text (end_ + 1); inr (is_c "}" d) else inr false);
  if (ok : bool) then inr (slice text i (end_ + 2))
  else inl (TokenizationError ("Tag missing " +:+ quoted "%}") (slice text i (end_ + 2))).

(** The loop of [get_html_tag] over the text from [end_] on: where it stops, the number of
    quotes seen and the position of the first ["<"] ([0] for none). *)
Fixpoint html_tag_end (rest : string) (end_ quote_count unclosed_end : nat) : nat * nat * nat :=
  match rest with
  | EmptyString => (end_, quote_count, unclosed_end)
  | String c rest' =>
      if negb (is_c ">" c) || (Nat.odd quote_count && negb (is_c "<" c))
      then html_tag_end rest' (S end_)
             (if is_c quote_char c then S quote_count else quote_count)
             (if (unclosed_end =? 0)%nat && is_c "<" c then end_ else unclosed_end)
      else (end_, quote_count, unclosed_end)
  end.

Definition get_html_tag (text : string) (i : nat) : result string :=
  let '(end_, quote_count, unclosed_end) := html_tag_end (drop_chars (i + 1) text) (i + 1) 0 0 in
  if Nat.odd quote_count then
    inl (TokenizationError "Unbalanced quotes"
           (if (unclosed_end =? 0)%nat then slice text i (end_ + 1) else slice text i unclosed_end))
  else
    (* [end == len(text) or text[end] != ">"] *)
    missing ← (if (end_ =? len text)%nat then inr true
               else c ← char_at text end_; inr (negb (is_c ">" c)));
    if (missing : bool)
    then inl (TokenizationError ("Tag missing " +:+ quoted ">") (slice text i (end_ + 1)))
    else inr (slice text i (end_ + 1)).

(** The loop shared by the functions below: [end] runs up to [len(text)] until the text
    before it ends with [closing]; [n] values of [end] are left. *)
Fixpoint seek_closing (text closing : string) (what : string) (i n end_ unclosed_end : nat) :
    result string :=
  match n with
  | O => inl (TokenizationError what (slice text i unclosed_end))
  | S n' =>
      if String.eqb (slice text (end_ - len closing) end_) closing then inr (slice text i end_)
      else
        unclosed ← (if (unclosed_end =? 0)%nat
                    then c ← char_at text end_; inr (if is_c "<" c then end_ else 0%nat)
                    else inr unclosed_end);
        seek_closing text closing what i n' (S end_) unclosed
  end.

(** The number of iterations of [while end <= len(text)] from [end = e]. *)
Definition up_to (text : string) (e : nat) : nat := len text + 1 - e.

Definition get_html_comment (text : string) (i : nat) : result string :=
  seek_closing text "-->" "Unclosed comment" i (up_to text (i + 7)) (i + 7) 0.

Definition get_handlebars_comment (text : string) (i : nat) : result string :=
  seek_closing text "}}" "Unclosed comment" i (up_to text (i + 5)) (i + 5) 0.

Definition get_django_comment (text : string) (i : nat) : result string :=
  seek_closing text "#}" "Unclosed comment" i (up_to text (i + 4)) (i + 4) 0.

Definition get_handlebars_partial (text : string) (i : nat) : result string :=
  seek_closing text "}}" "Unclosed partial" i (up_to text (i + 10)) (i + 10) 0.

Fixpoint seek_var (text : string) (i n end_ unclosed_end : nat) : result string :=
  match n with
  | O => inl (TokenizationError "Unclosed var" (slice text i unclosed_end))
  | S n' =>
      before ← char_at text (end_ - 1);
      if is_c "}" before then
        more ← (if (end_ <? len text)%nat then c ← char_at text end_; inr (is_c "}" c) else inr false);
        inr (slice text i (if (more : bool) then end_ + 1 else end_))
      else
        unclosed ← (if (unclosed_end =? 0)%nat
                    then c ← char_at text end_; inr (if is_c "<" c then end_ else 0%nat)
                    else inr unclosed_end);
        seek_var text i n' (S end_) unclosed
  end.

Definition get_template_var (text : string) (i : nat) : result string :=
  seek_var text i (up_to text (i + 3)) (i + 3) 0.

(** ** Tokens *)

Inductive TokenKind :=
| k_code | k_html_comment | k_handlebars_comment | k_django_comment | k_handlebars_partial
| k_handlebars_partial_block | k_html_doctype | k_html_singleton | k_html_start | k_html_end
| k_handlebars_else | k_handlebars_triple_stache | k_handlebars_start | k_handlebars_end
| k_django_else | k_django_end | k_django_start | k_jinja2_whitespace_stripped_start
| k_jinja2_whitespace_stripped_end | k_jinja2_whitespace_stripped_type2_start | k_template_var
| k_newline | k_indent | k_whitespace | k_text.

#[export] Instance TokenKind_eq_dec : EqDecision TokenKind.
Proof. solve_decision. Defined.

(** [start_token] and [end_token] are positions in the list of tokens; the fields of the
    pretty-printing phase are not used here. *)
Record Token := mkToken {
  tk_kind : TokenKind; tk_s : string; tk_tag : string;
  tk_line : nat; tk_col : nat; tk_line_span : nat;
  tk_start_token : option nat; tk_end_token : option nat }.

Record TokenizerState := mkTokenizerState { ts_i : nat; ts_line : nat; ts_col : nat }.

(** ** The tokenizer *)

Section Tokenize.
Context (text : string) (template_format : option string).

Definition is_format (f : string) : bool := bool_decide (template_format = Some f).

Fixpoint advance (n : nat) (st : TokenizerState) : result TokenizerState :=
  match n with
  | O => inr st
  | S n' =>
      c ← char_at text (ts_i st);
      advance n' (if is_c newline_char c then mkTokenizerState (S (ts_i st)) (S (ts_line st)) 1
                  else mkTokenizerState (S (ts_i st)) (ts_line st) (S (ts_col st)))
  end.

Definition looking_at (i : nat) (s : string) : bool := String.eqb (slice text i (i + len s)) s.

Definition looking_at_htmlcomment i : bool := looking_at i "<!--".
Definition looking_at_handlebars_comment i : bool := looking_at i "{{!".
Definition looking_at_djangocomment i : bool := is_format "django" && looking_at i "{#".
Definition looking_at_handlebars_partial i : bool := is_format "handlebars" && looking_at i "{{>".
Definition looking_at_handlebars_partial_block i : bool :=
  is_format "handlebars" && looking_at i "{{#>".
Definition looking_at_handlebars_triple_stache i : bool :=
  is_format "handlebars" && (looking_at i "{{{" || looking_at i "{{~{").
Definition looking_at_html_start i : bool := looking_at i "<" && negb (looking_at i "</").
Definition looking_at_html_end i : bool := looking_at i "</".
Definition looking_at_handlebars_start i : bool :=
  looking_at i "{{#" || looking_at i "{{^" || looking_at i "{{~#".
Definition looking_at_handlebars_else i : bool := is_format "handlebars" && looking_at i "{{else".
Definition looking_at_template_var i : bool := looking_at i "{".
Definition looking_at_handlebars_end i : bool :=
  is_format "handlebars" && (looking_at i "{{/" || looking_at i "{{~/").
Definition looking_at_django_start i : bool := is_format "django" && looking_at i "{% ".
Definition looking_at_django_else i : bool :=
  is_format "django" && (looking_at i "{% else" || looking_at i "{% elif" ||
                         looking_at i "{%- else" || looking_at i "{%- elif").
Definition looking_at_django_end i : bool := is_format "django" && looking_at i "{% end".
Definition looking_at_jinja2_end_whitespace_stripped i : bool :=
  is_format "django" && looking_at i "{%- end".
Definition looking_at_jinja2_start_whitespace_stripped_type2 i : bool :=
  is_format "django" && looking_at i "{%-" && negb (looking_at i "{%- end").

(** What one iteration of the loop makes of position [i]: the kind, text and tag of a token,
    or [None] for [continue]; and the new value of [in_code_block]. *)
Definition scanned : Type := option (TokenKind * string * string) * bool.

Definition plain_token (kind : TokenKind) (s tag : string) : result scanned :=
  inr (Some (kind, s, tag), false).

Definition scan_html_start (i : nat) : result scanned :=
  s ← get_html_tag text i;
  let end_offset := if endswith "/>" s then 2%nat else 1%nat in
  match first_word (slice_to s 1 end_offset) with
  | None => inl (TemplateParserError "Tag name missing")
  | Some tag =>
      let kind :=
        if String.eqb tag "!DOCTYPE" then k_html_doctype
        else if String.eqb tag "!doctype" then k_html_doctype
        else if endswith "/>" s then k_html_singleton else k_html_start in
      inr (Some (kind, s, tag), existsb (String.eqb tag) ["code"; "pre"; "script"])
  end.

Definition scan_triple_stache (i : nat) : result scanned :=
  s ← get_handlebars_triple_stache_tag text i;
  let start_offset := if startswith "{{~{" s then 4%nat else 3%nat in
  let end_offset := if endswith "}~}}" s then 4%nat else 3%nat in
  let tag := strip (slice_to s start_offset end_offset) in
  if endswith "_html" tag then plain_token k_handlebars_triple_stache s tag
  else inl (TemplateParserError
    "Unescaped variables in triple staches {{{ }}} must be suffixed with `_html`").

Definition scan_django_start (i : nat) : result scanned :=
  s ← get_django_tag text i false;
  tag ← get_first_word (slice_to s 3 2);
  (* [s[-3]] *)
  c ← (if (3 <=? len s)%nat then char_at s (len s - 3) else inl IndexError);
  plain_token (if is_c "-" c then k_jinja2_whitespace_stripped_start else k_django_start) s tag.

Definition scan_text (i : nat) : result scanned :=
  c ← char_at text i;
  if negb (is_text_char c)
  then inl (AssertionError ("tool cannot parse " +:+ take_chars 15 (drop_chars i text)))
  else
    let s := get_text text i in
    if String.eqb s "" then inr (None, false) else plain_token k_text s "".

Definition scan (in_code_block : bool) (i : nat) (last : option TokenKind) : result scanned :=
  if in_code_block then
    let s := get_code text i in
    if String.eqb s "" then inr (None, false) else plain_token k_code s ""
  else if looking_at_htmlcomment i then
    s ← get_html_comment text i; plain_token k_html_comment s (slice_to s 4 3)
  else if looking_at_handlebars_comment i then
    s ← get_handlebars_comment text i; plain_token k_handlebars_comment s (slice_to s 3 2)
  else if looking_at_djangocomment i then
    s ← get_django_comment text i; plain_token k_django_comment s (slice_to s 2 2)
  else if looking_at_handlebars_partial i then
    s ← get_handlebars_partial text i; plain_token k_handlebars_partial s (slice_to s 9 2)
  else if looking_at_handlebars_partial_block i then
    s ← get_handlebars_partial text i;
    tag ← get_first_word (slice_to s 5 2);
    plain_token k_handlebars_partial_block s tag
  else if looking_at_html_start i then scan_html_start i
  else if looking_at_html_end i then
    s ← get_html_tag text i; plain_token k_html_end s (slice_to s 2 1)
  else if looking_at_handlebars_else i then
    s ← get_handlebars_tag text i; plain_token k_handlebars_else s "else"
  else if looking_at_handlebars_triple_stache i then scan_triple_stache i
  else if looking_at_handlebars_start i then
    s ← get_handlebars_tag text i;
    w ← get_first_word (slice_to s 3 2);
    plain_token k_handlebars_start s (removeprefix "*" (strip_chars "#" w))
  else if looking_at_handlebars_end i then
    s ← get_handlebars_tag text i;
    plain_token k_handlebars_end s (strip_chars "/#~" (slice_to s 3 2))
  else if looking_at_django_else i then
    s ← get_django_tag text i false; plain_token k_django_else s "else"
  else if looking_at_django_end i then
    s ← get_django_tag text i false; plain_token k_django_end s (slice_to s 6 3)
  else if looking_at_django_start i then scan_django_start i
  else if looking_at_jinja2_end_whitespace_stripped i then
    s ← get_django_tag text i false; plain_token k_jinja2_whitespace_stripped_end s (slice_to s 7 3)
  else if looking_at_jinja2_start_whitespace_stripped_type2 i then
    s ← get_django_tag text i true;
    tag ← get_first_word (slice_to s 3 3);
    plain_token k_jinja2_whitespace_stripped_type2_start s tag
  else if looking_at_template_var i then
    s ← get_template_var text i; plain_token k_template_var s "var"
  else if looking_at i nl then plain_token k_newline nl "newline"
  else if looking_at i " " then
    plain_token (if bool_decide (last = None \/ last = Some k_newline) then k_indent else k_whitespace)
      (get_spaces text i) ""
  else scan_text i.

(** [len(s.strip("\n").split("\n"))]. *)
Definition line_span_of (s : string) : nat := length (split_on newline_char (strip_chars nl s)).

(** [except TokenizationError as e: raise FormattedError(...)]. *)
Definition formatted (st : TokenizerState) (e : failure) : failure :=
  match e with
  | TokenizationError message line_content =>
      FormattedError (message +:+ " at line " +:+ pretty (ts_line st) +:+ " col " +:+
        pretty (ts_col st) +:+ ":" +:+ quoted line_content)
  | _ => e
  end.

Definition new_token (st : TokenizerState) (kind : TokenKind) (s tag : string) : Token :=
  mkToken kind s (strip tag) (ts_line st) (ts_col st) (line_span_of s) None None.

(** The loop [while state.i < len(text)]. *)
Fixpoint tokenize_loop (fuel : nat) (in_code_block : bool) (st : TokenizerState)
    (tokens : list Token) : option (result (list Token)) :=
  if (ts_i st <? len text)%nat then
    match fuel with
    | O => None
    | S fuel' =>
        match scan in_code_block (ts_i st) (tk_kind <$> last tokens) with
        | inl e => Some (inl (formatted st e))
        | inr (None, code) => tokenize_loop fuel' code st tokens
        | inr (Some (kind, s, tag), code) =>
            match advance (len s) st with
            | inl e => Some (inl e)
            | inr st' => tokenize_loop fuel' code st' (tokens ++ [new_token st kind s tag])
            end
        end
    end
  else Some (inr tokens).

Definition tokenize (fuel : nat) : option (result (list Token)) :=
  tokenize_loop fuel false (mkTokenizerState 0 1 1) [].
End Tokenize.
