(* ===== verification/TemplateValidator.v ===== *)
(** * The template linter (tools/lib/template_parser.py): validator

    [validate] checks the tags, the whitespace and the indentation of a tokenized template.
    The chain of closures [state.matcher] is the data type [matcher]: a closure [f] is given
    by what it captures. *)

From Stdlib Require Import Ascii.
From stdpp Require Import pretty.
From S2P Require Import Prelude PyText TemplateParser.

Definition HTML_VOID_TAGS : list string :=
  ["area"; "base"; "br"; "col"; "command"; "embed"; "hr"; "img"; "input"; "keygen"; "link"; "meta";
   "param"; "source"; "track"; "wbr"].

Definition HTML_INLINE_TAGS : list string :=
  ["a"; "b"; "br"; "button"; "cite"; "code"; "em"; "i"; "img"; "input"; "kbd"; "label"; "object";
   "script"; "select"; "small"; "span"; "strong"; "textarea"].

Definition is_django_block_tag (tag : string) : bool :=
  existsb (String.eqb tag) ["autoescape"; "block"; "comment"; "for"; "if"; "ifequal"; "macro";
    "verbatim"; "blocktrans"; "trans"; "raw"; "with"].

Inductive Flavor := FlavorStart | FlavorEnd.

#[export] Instance Flavor_eq_dec : EqDecision Flavor.
Proof. solve_decision. Defined.

Definition tag_flavor (token : Token) : option Flavor :=
  match tk_kind token with
  | k_code | k_django_comment | k_handlebars_comment | k_handlebars_partial | k_html_comment
  | k_html_doctype | k_html_singleton | k_indent | k_newline | k_template_var | k_text
  | k_whitespace | k_handlebars_triple_stache => None
  | k_handlebars_start | k_handlebars_partial_block | k_html_start => Some FlavorStart
  | k_django_else | k_django_end | k_handlebars_else | k_handlebars_end | k_html_end
  | k_jinja2_whitespace_stripped_end => Some FlavorEnd
  | k_django_start | k_jinja2_whitespace_stripped_start | k_jinja2_whitespace_stripped_type2_start =>
      if is_django_block_tag (tk_tag token) then Some FlavorStart else None
  end.

(** ** Messages *)

(** A line of a message, indented by [n] spaces. *)
Definition line (n : nat) (s : string) : string := nl +:+ String.concat EmptyString (replicate n " ") +:+ s.
Definition at_row (l c : nat) : string := "line " +:+ pretty l +:+ ", col " +:+ pretty c.
Definition position (t : Token) : string := at_row (tk_line t) (tk_col t).

(** ** Matching tags *)

(** [state.matcher]: [no_start_tag], or the closure made by [start_tag_matcher] for a start
    token, with the position of the token and the matcher and flag it restores. *)
Inductive matcher :=
| NoStartTag
| Matching (start : nat) (start_token : Token) (old_matcher : matcher) (old_foreign : bool).

Record State := mkState {
  st_depth : Z; st_foreign : bool; st_matcher : matcher; st_tokens : list Token }.

Definition set_start (i : nat) (t : Token) : Token :=
  mkToken (tk_kind t) (tk_s t) (tk_tag t) (tk_line t) (tk_col t) (tk_line_span t) (Some i)
    (tk_end_token t).
Definition set_end (i : nat) (t : Token) : Token :=
  mkToken (tk_kind t) (tk_s t) (tk_tag t) (tk_line t) (tk_col t) (tk_line_span t)
    (tk_start_token t) (Some i).

Section Validate.
Context (fn : string).

Definition no_start_tag (token : Token) : failure :=
  TemplateParserError (line 12 "No start tag" +:+ line 12 ("fn: " +:+ fn) +:+ line 12 "end tag:" +:+
    line 16 (tk_tag token) +:+ line 16 (position token) +:+ line 12 "").

Definition missing_end_tag (start_token : Token) : failure :=
  TemplateParserError (nl +:+ line 4 ("Problem with " +:+ fn) +:+
    line 4 ("Missing end tag for the token at row " +:+ pretty (tk_line start_token) +:+ " " +:+
            pretty (tk_col start_token) +:+ "!") +:+ nl +:+
    line 0 (tk_s start_token) +:+ nl +:+
    line 4 "It's possible you have a typo in a token that you think is" +:+
    line 4 "matching this tag." +:+ line 20 "").

Definition is_else_tag (token : Token) : bool := String.eqb (tk_tag token) "else".

Definition report_problem (start_token end_token : Token) : option string :=
  let start_tag := strip_chars "~" (tk_tag start_token) in
  let end_tag := strip_chars "~" (tk_tag end_token) in
  if String.eqb start_tag "code" && (tk_line end_token =? tk_line start_token + 1)%nat
  then Some "Code tag is split across two lines."
  else if is_else_tag end_token then
    if negb (existsb (String.eqb start_tag) ["if"; "else"; "unless"])
    then Some ("Unexpected else/elif tag encountered after " +:+ start_tag +:+ " tag.") else None
  else if negb (String.eqb start_tag end_tag)
  then Some ("Mismatched tags: (" +:+ start_tag +:+ " != " +:+ end_tag +:+ ")")
  else None.

Definition mismatch (start_token end_token : Token) (problem : string) : failure :=
  TemplateParserError (line 20 ("fn: " +:+ fn) +:+ line 19 problem +:+ line 20 "start:" +:+
    line 24 (tk_s start_token) +:+ line 24 (position start_token) +:+ line 20 "end tag:" +:+
    line 24 (strip_chars "~" (tk_tag end_token)) +:+ line 24 (position end_token) +:+ line 20 "").

(** [start_tag_matcher(token)] for the token at position [i]. *)
Definition start_tag_matcher (i : nat) (start_token : Token) (st : State) : State :=
  let start_tag := strip_chars "~" (tk_tag start_token) in
  mkState (st_depth st + 1)
    (if existsb (String.eqb start_tag) ["math"; "svg"] then true else st_foreign st)
    (Matching i start_token (st_matcher st) (st_foreign st)) (st_tokens st).

(** [state.matcher(token)] for the token at position [j]. *)
Definition call_matcher (j : nat) (end_token : Token) (st : State) : result State :=
  match st_matcher st with
  | NoStartTag => inl (no_start_tag end_token)
  | Matching i start_token old_matcher old_foreign =>
      match report_problem start_token end_token with
      | Some problem => inl (mismatch start_token end_token problem)
      | None =>
          let tokens := alter (set_end j) i (alter (set_start i) j (st_tokens st)) in
          if is_else_tag end_token
          then inr (mkState (st_depth st) (st_foreign st) (st_matcher st) tokens)
          else inr (mkState (st_depth st - 1) old_foreign old_matcher tokens)
      end
  end.

(** The check of void tags outside MathML and SVG. *)
Definition void_problem (foreign : bool) (token : Token) : option failure :=
  let void := existsb (String.eqb (tk_tag token)) HTML_VOID_TAGS in
  if foreign then None
  else if bool_decide (tk_kind token = k_html_start) && void then
    Some (TemplateParserError ("Tag must be self-closing: " +:+ tk_tag token +:+ " at " +:+ fn +:+
      " line " +:+ pretty (tk_line token) +:+ ", col " +:+ pretty (tk_col token)))
  else if bool_decide (tk_kind token = k_html_singleton) && negb void then
    Some (TemplateParserError ("Tag must not be self-closing: " +:+ tk_tag token +:+ " at " +:+ fn +:+
      " line " +:+ pretty (tk_line token) +:+ ", col " +:+ pretty (tk_col token)))
  else None.

(** The body of [for token in tokens] for the token at position [j]. *)
Definition check_token (j : nat) (token : Token) (st : State) : result State :=
  match void_problem (st_foreign st) token with
  | Some e => inl e
  | None =>
      match tag_flavor token with
      | Some FlavorStart => inr (start_tag_matcher j token st)
      | Some FlavorEnd => call_matcher j token st
      | None => inr st
      end
  end.

Fixpoint check_tokens (j : nat) (tokens : list Token) (st : State) : result State :=
  match tokens with
  | [] => inr st
  | t :: tokens' => st' ← check_token j t st; check_tokens (S j) tokens' st'
  end.

(** The loop and the check that follows it: the tokens with their [start_token] and
    [end_token] set. *)
Definition check_tags (tokens : list Token) : result (list Token) :=
  st ← check_tokens 0 tokens (mkState 0 false NoStartTag tokens);
  if (st_depth st =? 0)%Z then inr (st_tokens st)
  else
    match st_matcher st with
    | Matching _ start_token _ _ => inl (missing_end_tag start_token)
    | NoStartTag => inl (AssertionError EmptyString)
    end.

(** ** Indentation *)

Definition has_bad_indentation (lines : list string) (start_token end_token : Token) : result bool :=
  if (tk_line start_token + 1 <? tk_line end_token)%nat then
    let misplaced := negb (tk_col end_token =? tk_col start_token)%nat in
    if existsb (String.eqb (tk_tag start_token)) HTML_INLINE_TAGS &&
       bool_decide (tk_kind start_token = k_html_start)
    then
      match lines !! (tk_line end_token - 1)%nat with
      | None => inl IndexError
      | Some end_row_text =>
          inr (startswith (tk_s end_token) (lstrip_with is_space end_row_text) && misplaced)
      end
    else inr misplaced
  else inr false.

Definition bad_indentation (start_token end_token : Token) : failure :=
  TemplateParserError (line 16 ("fn: " +:+ fn) +:+
    line 16 "Indentation for start/end tags does not match." +:+
    line 16 ("start tag: " +:+ tk_s start_token) +:+ nl +:+ line 16 "start:" +:+
    line 20 (position start_token) +:+ line 16 "end:" +:+
    line 20 (strip_chars "~" (tk_tag end_token)) +:+ line 20 (position end_token) +:+ line 16 "").

Fixpoint ensure_indentation (lines : list string) (all tokens : list Token) : result unit :=
  match tokens with
  | [] => inr tt
  | token :: tokens' =>
      match tk_start_token token ≫= (fun i => all !! i) with
      | None => ensure_indentation lines all tokens'
      | Some start_token =>
          bad ← has_bad_indentation lines start_token token;
          if (bad : bool) then inl (bad_indentation start_token token)
          else ensure_indentation lines all tokens'
      end
  end.

Definition ensure_matching_indentation (tokens : list Token) (lines : list string) : result unit :=
  ensure_indentation lines tokens tokens.

(** ** Whitespace *)

Fixpoint extra_newlines (count : nat) (tokens : list Token) : result unit :=
  match tokens with
  | [] => inr tt
  | token :: tokens' =>
      if bool_decide (tk_kind token = k_newline) then
        if (4 <=? count + 1)%nat
        then inl (TemplateParserError ("Please avoid so many blank lines near row " +:+
                    pretty (tk_line token) +:+ " in " +:+ fn +:+ "."))
        else extra_newlines (count + 1) tokens'
      else extra_newlines 0 tokens'
  end.

Definition prevent_extra_newlines (tokens : list Token) : result unit := extra_newlines 0 tokens.

Definition is_blank (t : Token) : bool :=
  bool_decide (tk_kind t = k_indent) || bool_decide (tk_kind t = k_whitespace).

Definition four_space_message (token : Token) : string :=
  line 24 "Please use 4-space indents for template files. Most of our" +:+
  line 24 "codebase (including Python and JavaScript) uses 4-space indents," +:+
  line 24 "so it's worth investing in configuring your editor to use" +:+
  line 24 "4-space indents for files like" +:+ line 24 fn +:+ nl +:+
  line 24 ("The line at row " +:+ pretty (tk_line token) +:+ " is indented with " +:+
           pretty (len (tk_s token)) +:+ " spaces.") +:+ line 20 "".

(** The body of the loop over the tokens that are neither first nor last. *)
Definition whitespace_problem (token next_token : Token) : option failure :=
  if bool_decide (tk_kind token = k_indent) then
    if is_blank next_token then Some (AssertionError "programming error parsing indents")
    else if bool_decide (tk_kind next_token = k_newline) then
      Some (TemplateParserError ("Please just make row " +:+ pretty (tk_line token) +:+ " in " +:+
        fn +:+ " a truly blank line (no spaces)."))
    else if negb (len (tk_s token) mod 4 =? 0)%nat then
      Some (TemplateParserError (four_space_message token))
    else None
  else if bool_decide (tk_kind token = k_whitespace) then
    if (1 <? len (tk_s token))%nat then
      Some (TemplateParserError (line 24 ("We did not expect this much whitespace at row " +:+
        pretty (tk_line token) +:+ " column " +:+ pretty (tk_col token) +:+ " in " +:+ fn +:+ ".") +:+
        line 20 ""))
    else if bool_decide (tk_kind next_token = k_newline) then
      Some (TemplateParserError (line 24 ("Unexpected trailing whitespace at row " +:+
        pretty (tk_line token) +:+ " column " +:+ pretty (tk_col token) +:+ " in " +:+ fn +:+ ".") +:+
        line 20 ""))
    else None
  else None.

Fixpoint check_whitespace (tokens : list Token) : result unit :=
  match tokens with
  | token :: ((next_token :: _) as tokens') =>
      match whitespace_problem token next_token with
      | Some e => inl e
      | None => check_whitespace tokens'
      end
  | _ => inr tt
  end.

Definition prevent_whitespace_violations (tokens : list Token) : result unit :=
  match tokens with
  | [] => inl IndexError
  | first :: others =>
      if is_blank first
      then inl (TemplateParserError (" Please remove the whitespace at the beginning of " +:+ fn +:+ "."))
      else
        _ ← prevent_extra_newlines tokens;
        check_whitespace others
  end.

(** ** validate

    [fn] is the name of the file, or ["<in memory file>"], and [text] its content, which
    [validate] reads itself when it is not given. *)

Definition rename_formatted (e : failure) : failure :=
  match e with
  | FormattedError m => TemplateParserError (line 12 ("fn: " +:+ fn) +:+ line 12 m)
  | _ => e
  end.

Definition check_tokenized (text : string) (tokens : list Token) : result (list Token) :=
  _ ← prevent_whitespace_violations tokens;
  tokens' ← check_tags tokens;
  _ ← ensure_matching_indentation tokens' (split_on newline_char text);
  inr tokens'.

Definition validate (fuel : nat) (text : string) (template_format : option string) :
    option (result (list Token)) :=
  match tokenize text template_format fuel with
  | None => None
  | Some (inl e) => Some (inl (rename_formatted e))
  | Some (inr tokens) => Some (check_tokenized text tokens)
  end.
End Validate.
