(* ===== verification/TemplateProps.v ===== *)
(** * Properties of the template linter

    On text whose only white space is blanks and newlines the tokenizer ends and its tokens
    are the text, cut into pieces and placed at their rows and columns; other white space can
    keep it from ending.  The validator accepts exactly the properly nested templates. *)

From Stdlib Require Import Ascii.
From S2P Require Import Prelude PyText TemplateParser TemplateValidator.

(** ** Text *)

Lemma len_app s t : len (s +:+ t) = len s + len t.
Proof. unfold len. induction s as [|c s IH]; simpl; [done|by rewrite IH]. Qed.

Lemma len_drop n s : len (drop_chars n s) = len s - n.
Proof. unfold len. revert s. induction n; intros [|c s]; simpl; auto with lia. Qed.

Lemma len_take n s : len (take_chars n s) = n `min` len s.
Proof. unfold len. revert s. induction n; intros [|c s]; simpl; auto with lia. Qed.

Lemma app_assoc_str (s t u : string) : (s +:+ t) +:+ u = s +:+ (t +:+ u).
Proof. induction s as [|c s IH]; [done|]. change (String c ((s +:+ t) +:+ u) = String c (s +:+ (t +:+ u))). by rewrite IH. Qed.

Lemma app_empty_r (s : string) : s +:+ EmptyString = s.
Proof. induction s as [|c s IH]; [done|]. change (String c (s +:+ EmptyString) = String c s). by rewrite IH. Qed.

Lemma drop_app s t : drop_chars (len s) (s +:+ t) = t.
Proof. by induction s. Qed.

Lemma get_app s c t : String.get (len s) (s +:+ String c t) = Some c.
Proof. by induction s. Qed.

Lemma get_length i s c : String.get i s = Some c -> i < len s.
Proof.
  unfold len. revert i. induction s as [|d s IH]; intros [|i]; simpl; intros H; try done; [lia|].
  apply IH in H. lia.
Qed.

Lemma get_drop i s c : String.get i s = Some c -> exists r, drop_chars i s = String c r.
Proof.
  revert i. induction s as [|d s IH]; intros [|i]; simpl; intros H; simplify_eq; [by exists s|].
  by apply IH.
Qed.

Lemma char_at_inr text i c : char_at text i = inr c -> i < len text.
Proof. unfold char_at. destruct (String.get i text) eqn:E; [|done]. intros _. by eapply get_length. Qed.

Lemma take_while_app p s : exists r, take_while p s +:+ r = s.
Proof.
  induction s as [|c s [r IH]]; simpl; [by exists EmptyString|]. destruct (p c).
  - exists r. change (String c (take_while p s +:+ r) = String c s). by rewrite IH.
  - by exists (String c s).
Qed.

Lemma rstrip_with_app p s : exists r, rstrip_with p s +:+ r = s.
Proof.
  induction s as [|c s [r IH]]; simpl; [by exists EmptyString|].
  destruct (rstrip_with p s) as [|d s'] eqn:E.
  - destruct (p c); [by exists (String c s)|]. exists s. done.
  - exists r. change (String c (String d s' +:+ r) = String c s). by rewrite IH.
Qed.

(** ** Pieces *)

(** [s] is a non-empty piece of the text at position [i]. *)
Definition piece (text : string) (i : nat) (s : string) : Prop :=
  s <> EmptyString /\ exists r, drop_chars i text = s +:+ r.

Lemma piece_slice text i b : i < b -> b <= len text -> piece text i (slice text i b).
Proof.
  intros Hib Hb. split.
  - intros H. apply (f_equal len) in H. unfold slice in H. rewrite len_take, len_drop in H.
    change (len EmptyString) with 0 in H. lia.
  - exists (drop_chars (b - i) (drop_chars i text)). symmetry. apply take_drop_chars.
Qed.

Lemma slice_full text a b s : slice text a b = s -> a + len s = b -> a < b -> b <= len text.
Proof.
  intros <- H Hab. unfold slice in H. rewrite len_take, len_drop in H. lia.
Qed.

Lemma piece_prefix text i s t : drop_chars i text = t -> s <> EmptyString -> (exists r, s +:+ r = t) ->
  piece text i s.
Proof. intros Ht Hs [r Hr]. split; [done|]. exists r. by rewrite Ht. Qed.

Lemma seek_ge text c n end_ e : seek text c n end_ = inr e -> end_ <= e.
Proof.
  revert end_. induction n as [|n IH]; intros end_; simpl; [by intros [= ->]|].
  unfold mbind, result_bind. destruct (char_at text end_) as [?|d]; [done|].
  destruct (is_c c d); [by intros [= ->]|]. intros ?%IH. lia.
Qed.

Ltac bind_inr H x E := unfold mbind, result_bind in H; match type of H with
  | match ?m with _ => _ end = inr _ => destruct m as [?|x] eqn:E; [discriminate H|] end.

Lemma piece_handlebars_tag text i s : get_handlebars_tag text i = inr s -> piece text i s.
Proof.
  unfold get_handlebars_tag. intros H. bind_inr H e E1. bind_inr H c E2. bind_inr H ok E3.
  apply seek_ge in E1. destruct (is_c _ c); [|by injection E3 as <-].
  bind_inr E3 d E4. apply char_at_inr in E4. destruct ok; [|done]. injection H as <-.
  apply piece_slice; lia.
Qed.

Lemma piece_django_tag text i stripped s : get_django_tag text i stripped = inr s -> piece text i s.
Proof.
  unfold get_django_tag. intros H. bind_inr H e E1. bind_inr H c E2. bind_inr H ok E3.
  apply seek_ge in E1. assert (i < e) by (destruct stripped; lia).
  destruct (is_c _ c); [|by injection E3 as <-].
  bind_inr E3 d E4. apply char_at_inr in E4. destruct ok; [|done]. injection H as <-.
  apply piece_slice; lia.
Qed.

Lemma piece_triple_stache text i s : get_handlebars_triple_stache_tag text i = inr s -> piece text i s.
Proof.
  unfold get_handlebars_triple_stache_tag. intros H. bind_inr H e E1. apply seek_ge in E1.
  destruct (String.eqb _ _) eqn:E2; [|destruct (_ && _) eqn:E3; [|done]]; injection H as <-.
  - apply String.eqb_eq in E2. pose proof (slice_full _ _ _ _ E2 eq_refl). apply piece_slice; lia.
  - destruct_andb. apply Nat.leb_le in H. apply piece_slice; lia.
Qed.

Lemma html_tag_end_ge rest end_ q u e q' u' :
  html_tag_end rest end_ q u = (e, q', u') -> end_ <= e.
Proof.
  revert end_ q u. induction rest as [|c rest IH]; intros end_ q u; simpl; [by intros [= -> _ _]|].
  destruct (_ || _); [intros ?%IH; lia|by intros [= -> _ _]].
Qed.

Lemma piece_html_tag text i s : get_html_tag text i = inr s -> piece text i s.
Proof.
  unfold get_html_tag. destruct (html_tag_end _ _ _ _) as [[e q] u] eqn:E.
  apply html_tag_end_ge in E. destruct (Nat.odd q); [done|]. intros H. bind_inr H missing E2.
  destruct (e =? len text) eqn:E3; [injection E2 as <-; done|]. bind_inr E2 c E4.
  apply char_at_inr in E4. destruct missing; [done|]. injection H as <-. apply piece_slice; lia.
Qed.

Lemma piece_closing text closing what i n end_ u s :
  i < end_ -> n = len text + 1 - end_ ->
  seek_closing text closing what i n end_ u = inr s -> piece text i s.
Proof.
  revert end_ u. induction n as [|n IH]; intros end_ u Hi Hn; simpl; [done|].
  destruct (String.eqb _ _); [intros [= <-]; apply piece_slice; lia|].
  intros H. bind_inr H u' E. eapply IH; [| |exact H]; lia.
Qed.

Lemma piece_seek_var text i n end_ u s :
  i < end_ -> n = len text + 1 - end_ -> seek_var text i n end_ u = inr s -> piece text i s.
Proof.
  revert end_ u. induction n as [|n IH]; intros end_ u Hi Hn; simpl; [done|]. intros H.
  bind_inr H c E. destruct (is_c _ c).
  - bind_inr H more E2. injection H as <-. destruct more; [|apply piece_slice; lia].
    destruct (end_ <? len text) eqn:E3; [|done]. apply piece_slice; lia.
  - bind_inr H u' E2. eapply IH; [| |exact H]; lia.
Qed.

(** ** One iteration *)

(** The only white space is blanks and newlines. *)
Definition plain (text : string) : bool :=
  str_forall (fun c => negb (is_space c) || is_c " " c || is_c newline_char c) text.

Section Scan.
Context (text : string) (fmt : option string).

Lemma piece_take_while p i :
  take_while p (drop_chars i text) <> EmptyString -> piece text i (take_while p (drop_chars i text)).
Proof. intros Hs. by apply (piece_prefix _ _ _ _ eq_refl), take_while_app. Qed.

Lemma looking_at_char i c : looking_at text i (String c EmptyString) = true ->
  exists r, drop_chars i text = String c r.
Proof.
  unfold looking_at, slice. intros H%String.eqb_eq. change (len (String c EmptyString)) with 1 in H.
  replace (i + 1 - i) with 1 in H by lia. destruct (drop_chars i text) as [|d r]; [done|].
  simpl in H. injection H as ->. by exists r.
Qed.

Lemma looking_at_char_false i c d : looking_at text i (String c EmptyString) = false ->
  char_at text i = inr d -> d <> c.
Proof.
  unfold looking_at, slice, char_at. change (len (String c EmptyString)) with 1.
  replace (i + 1 - i) with 1 by lia. intros H%String.eqb_neq Hd ->.
  destruct (String.get i text) eqn:E; [|done]. injection Hd as ->.
  apply get_drop in E as [r Er]. by rewrite Er in H.
Qed.

(** The first character of a text token is not white space. *)
Lemma get_text_piece i c :
  plain text = true -> char_at text i = inr c -> is_text_char c = true -> c <> " "%char ->
  c <> newline_char -> piece text i (get_text text i).
Proof.
  intros Hp Hc Ht Hb Hn. unfold char_at in Hc. destruct (String.get i text) as [d|] eqn:E; [|done].
  injection Hc as ->. apply get_drop in E as [r Er].
  assert (is_space c = false) as Hs.
  { apply (str_forall_drop _ i) in Hp. rewrite Er in Hp. simpl in Hp. apply andb_true_iff in Hp as [Hp _].
    apply Ascii.eqb_neq in Hb, Hn. unfold is_c in Hp. rewrite Hb, Hn in Hp. by destruct (is_space c). }
  unfold get_text, strip. rewrite Er. simpl. rewrite Ht. simpl. rewrite Hs.
  apply (piece_prefix _ _ _ _ Er).
  - simpl. destruct (rstrip_with _ _); [by rewrite Hs|done].
  - destruct (rstrip_with_app is_space (String c (take_while is_text_char r))) as [r1 H1].
    destruct (take_while_app is_text_char r) as [r2 H2]. exists (r1 +:+ r2).
    rewrite <-app_assoc_str, H1. change (String c (take_while is_text_char r +:+ r2) = String c r).
    by rewrite H2.
Qed.

Lemma plain_token_inr k s tag x : plain_token k s tag = inr x -> x = (Some (k, s, tag), false).
Proof. by intros [= <-]. Qed.

Lemma scan_html_start_piece i k s tag code :
  scan_html_start text i = inr (Some (k, s, tag), code) -> piece text i s.
Proof.
  unfold scan_html_start. intros H. bind_inr H s' E. destruct (first_word _); [|done].
  simplify_eq. by apply piece_html_tag.
Qed.

Lemma scan_triple_stache_piece i k s tag code :
  scan_triple_stache text i = inr (Some (k, s, tag), code) -> piece text i s.
Proof.
  unfold scan_triple_stache. intros H. bind_inr H s' E. destruct (endswith _ _) in H; [|done].
  apply plain_token_inr in H. simplify_eq. by apply piece_triple_stache.
Qed.

Lemma scan_django_start_piece i k s tag code :
  scan_django_start text i = inr (Some (k, s, tag), code) -> piece text i s.
Proof.
  unfold scan_django_start. intros H. bind_inr H s' E. bind_inr H w E2. bind_inr H c E3.
  apply plain_token_inr in H. simplify_eq. by apply piece_django_tag in E.
Qed.

Ltac text_char H :=
  match goal with
  | Hn : looking_at text ?i nl = false, Hb : looking_at text ?i " " = false, Hp : plain text = true |- _ =>
      let c := fresh "c" in let Hc := fresh "Hc" in let Ht := fresh "Ht" in
      unfold scan_text in H; bind_inr H c Hc; destruct (negb (is_text_char c)) eqn:Ht; [done|];
      apply negb_false_iff in Ht;
      pose proof (get_text_piece i c Hp Hc Ht (looking_at_char_false _ _ _ Hb Hc)
                    (looking_at_char_false _ _ _ Hn Hc))
  end.

Lemma scan_text_piece i k s tag code :
  plain text = true -> looking_at text i nl = false -> looking_at text i " " = false ->
  scan_text text i = inr (Some (k, s, tag), code) -> piece text i s.
Proof.
  intros Hp Hn Hb H. text_char H. destruct (String.eqb _ _); [done|].
  apply plain_token_inr in H. by simplify_eq.
Qed.

Lemma scan_text_none i code :
  plain text = true -> looking_at text i nl = false -> looking_at text i " " = false ->
  scan_text text i <> inr (None, code).
Proof.
  intros Hp Hn Hb H. text_char H. destruct (String.eqb _ _) eqn:E; [|done].
  apply String.eqb_eq in E. by destruct H0.
Qed.

(** Case analysis on the branch taken. *)
Ltac branch H :=
  repeat match type of H with
  | (if ?b then _ else _) = _ => destruct b eqn:?
  | mbind _ ?m = _ => let x := fresh "x" in let E := fresh "E" in bind_inr H x E
  | match ?x with _ => _ end = _ => destruct x eqn:?
  end.

Lemma scan_none i last code :
  plain text = true -> scan text fmt false i last <> inr (None, code).
Proof.
  intros Hp. unfold scan. intros H. branch H; try done; try (by eapply scan_text_none).
  all: unfold scan_html_start, scan_triple_stache, scan_django_start in H; branch H; done.
Qed.

Lemma scan_piece in_code i last k s tag code :
  plain text = true -> scan text fmt in_code i last = inr (Some (k, s, tag), code) -> piece text i s.
Proof.
  intros Hp. unfold scan. intros H. branch H; try discriminate H;
    try match type of H with
    | scan_text _ _ = _ => by eapply scan_text_piece
    | scan_html_start _ _ = _ => by eapply scan_html_start_piece
    | scan_triple_stache _ _ = _ => by eapply scan_triple_stache_piece
    | scan_django_start _ _ = _ => by eapply scan_django_start_piece
    | plain_token _ _ _ = _ => apply plain_token_inr in H; injection H as -> -> -> ->
    end;
    try match goal with
    | E : get_handlebars_tag _ _ = inr ?s |- piece _ _ ?s => by apply piece_handlebars_tag
    | E : get_django_tag _ _ _ = inr ?s |- piece _ _ ?s => by eapply piece_django_tag
    | E : get_html_tag _ _ = inr ?s |- piece _ _ ?s => by apply piece_html_tag
    | E : get_html_comment _ _ = inr ?s |- piece _ _ ?s => refine (piece_closing _ _ _ _ _ _ _ _ _ _ E)
    | E : get_handlebars_comment _ _ = inr ?s |- piece _ _ ?s => refine (piece_closing _ _ _ _ _ _ _ _ _ _ E)
    | E : get_django_comment _ _ = inr ?s |- piece _ _ ?s => refine (piece_closing _ _ _ _ _ _ _ _ _ _ E)
    | E : get_handlebars_partial _ _ = inr ?s |- piece _ _ ?s => refine (piece_closing _ _ _ _ _ _ _ _ _ _ E)
    | E : get_template_var _ _ = inr ?s |- piece _ _ ?s => refine (piece_seek_var _ _ _ _ _ _ _ _ E)
    end; try (clear; lia); try reflexivity.
  - apply piece_take_while. by apply String.eqb_neq.
  - apply (piece_prefix _ _ _ _ eq_refl); [done|].
    destruct (looking_at_char i newline_char) as [r Hr]; [done|]. rewrite Hr. by exists r.
  - apply piece_take_while. destruct (looking_at_char i " ") as [r Hr]; [done|]. by rewrite Hr.
Qed.
End Scan.

(** ** Rows and columns *)

(** The row and the column of the character that follows [pre]. *)
Definition row_after (pre : string) : nat := length (split_on newline_char pre).
Definition col_after (pre : string) : nat :=
  S (len (default EmptyString (last (split_on newline_char pre)))).

Definition state_after (pre : string) : TokenizerState :=
  mkTokenizerState (len pre) (row_after pre) (col_after pre).

Lemma split_on_snoc sep s c :
  split_on sep (s +:+ String c EmptyString) =
    if Ascii.eqb c sep then split_on sep s ++ [EmptyString]
    else match last (split_on sep s) with
         | Some w => removelast (split_on sep s) ++ [w +:+ String c EmptyString]
         | None => []
         end.
Proof.
  induction s as [|d s IH].
  - simpl. by destruct (Ascii.eqb c sep).
  - change (String d s +:+ String c EmptyString) with (String d (s +:+ String c EmptyString)).
    simpl. pose proof (split_on_nonnil sep s) as Hn.
    destruct (Ascii.eqb d sep), (Ascii.eqb c sep); rewrite IH; try done;
      destruct (split_on sep s) as [|w [|w' ws]] eqn:E; try done;
      rewrite !last_cons_cons; destruct (last (w' :: ws)) eqn:El; by apply last_None in El || done.
Qed.

Lemma last_removelast_app {A} (l : list A) x : length (removelast l ++ [x]) = length l \/ l = [].
Proof.
  destruct l as [|y l]; [by right|left].
  rewrite length_app. simpl length at 2. rewrite Nat.add_1_r.
  clear. revert y. induction l as [|z l IH]; intros y; [done|]. simpl. f_equal. apply IH.
Qed.

Lemma state_after_snoc pre c :
  state_after (pre +:+ String c EmptyString) =
    if is_c newline_char c then mkTokenizerState (S (len pre)) (S (row_after pre)) 1
    else mkTokenizerState (S (len pre)) (row_after pre) (S (col_after pre)).
Proof.
  unfold state_after, row_after, col_after. rewrite len_app, split_on_snoc. unfold is_c.
  change (len (String c EmptyString)) with 1. rewrite Nat.add_1_r.
  destruct (Ascii.eqb c newline_char).
  - by rewrite length_app, last_snoc, Nat.add_1_r.
  - pose proof (split_on_nonnil newline_char pre) as Hn.
    destruct (last (split_on newline_char pre)) as [w|] eqn:E.
    + rewrite last_snoc. simpl. rewrite len_app. change (len (String c EmptyString)) with 1.
      rewrite Nat.add_1_r. f_equal. by destruct (last_removelast_app (split_on newline_char pre)
        (w +:+ String c EmptyString)) as [->|].
    + by apply last_None in E.
Qed.

Lemma advance_piece text pre s post :
  text = pre +:+ (s +:+ post) -> advance text (len s) (state_after pre) = inr (state_after (pre +:+ s)).
Proof.
  revert pre. induction s as [|c s IH]; intros pre Ht; [by rewrite app_empty_r|].
  change (len (String c s)) with (S (len s)). cbn [advance]. unfold mbind, result_bind, char_at.
  change (ts_i (state_after pre)) with (len pre).
  change (String c s +:+ post) with (String c (s +:+ post)) in Ht. rewrite Ht at 1. rewrite get_app.
  pose proof (state_after_snoc pre c) as Hst. cbn [state_after ts_i ts_line ts_col] in Hst |- *.
  rewrite <-Hst. change (mkTokenizerState ?a ?b ?d) with (mkTokenizerState a b d).
  replace (pre +:+ String c s) with ((pre +:+ String c EmptyString) +:+ s) by (by rewrite app_assoc_str).
  apply IH. by rewrite app_assoc_str.
Qed.

(** ** The loop *)

(** The tokens are pieces of [text], in order, each at its row and column. *)
Definition texts (tokens : list Token) : string := String.concat EmptyString (map tk_s tokens).

Definition placed (tokens : list Token) : Prop :=
  forall l t l', tokens = l ++ t :: l' ->
    tk_s t <> EmptyString /\ tk_line t = row_after (texts l) /\ tk_col t = col_after (texts l).

Lemma concat_cons s l : String.concat EmptyString (s :: l) = s +:+ String.concat EmptyString l.
Proof. destruct l; simpl; [by rewrite app_empty_r|done]. Qed.

Lemma texts_snoc tokens t : texts (tokens ++ [t]) = texts tokens +:+ tk_s t.
Proof.
  unfold texts. induction tokens as [|u l IH]; [done|].
  change (map tk_s ((u :: l) ++ [t])) with (tk_s u :: map tk_s (l ++ [t])).
  change (map tk_s (u :: l)) with (tk_s u :: map tk_s l).
  by rewrite !concat_cons, IH, app_assoc_str.
Qed.

Lemma placed_snoc tokens t :
  placed tokens -> tk_s t <> EmptyString -> tk_line t = row_after (texts tokens) ->
  tk_col t = col_after (texts tokens) -> placed (tokens ++ [t]).
Proof.
  intros Hp Hs Hl Hc l u l' H. destruct l' as [|v l'' _] using rev_ind.
  - by apply app_inj_tail in H as [-> ->].
  - rewrite app_comm_cons, app_assoc in H. apply app_inj_tail in H as [H _]. by apply (Hp l u l'').
Qed.

Definition code_step (in_code : bool) : nat := if in_code then 1 else 0.

Lemma tokenize_loop_spec text fmt fuel in_code tokens rest :
  plain text = true -> text = texts tokens +:+ rest -> placed tokens ->
  2 * len rest + code_step in_code <= fuel ->
  exists r, tokenize_loop text fmt fuel in_code (state_after (texts tokens)) tokens = Some r /\
    forall out, r = inr out -> texts out = text /\ placed out.
Proof.
  intros Hp. revert in_code tokens rest. induction fuel as [|fuel IH]; intros in_code tokens rest Ht Hpl Hf.
  - assert (rest = EmptyString) as -> by (destruct rest; [done|simpl in Hf; unfold len in Hf; simpl in Hf; lia]).
    rewrite app_empty_r in Ht. exists (inr tokens). split; [|by intros out [= <-]].
    cbn [tokenize_loop]. change (ts_i (state_after (texts tokens))) with (len (texts tokens)).
    by rewrite <-Ht, Nat.ltb_irrefl.
  - cbn [tokenize_loop]. change (ts_i (state_after (texts tokens))) with (len (texts tokens)).
    assert (drop_chars (len (texts tokens)) text = rest) as Hd by (rewrite Ht; apply drop_app).
    destruct (_ <? _) eqn:El.
    2:{ exists (inr tokens). split; [done|]. intros out [= <-]. split; [|done].
      apply Nat.ltb_ge in El. apply (f_equal len) in Ht as Hlen. rewrite len_app in Hlen.
      destruct rest; [by rewrite app_empty_r in Ht|]. unfold len in *. simpl in Hlen. lia. }
    destruct (scan _ _ _ _ _) as [e|[[[[k s] tag]|] code]] eqn:Es; [by eexists|..].
    + apply scan_piece in Es as [Hs [r Hr]]; [|done]. rewrite Hd in Hr. clear Hd. subst rest.
      rewrite (advance_piece text (texts tokens) s r Ht).
      set (t := new_token _ _ _ _). change s with (tk_s t). rewrite <-texts_snoc.
      apply IH with (rest := r); [by rewrite texts_snoc, app_assoc_str|by apply placed_snoc|].
      rewrite len_app in Hf. destruct s as [|c s]; [done|].
      change (len (String c s)) with (S (len s)) in Hf. unfold code_step in *. destruct code, in_code; lia.
    + destruct in_code; [|by apply scan_none in Es].
      apply IH with (rest := rest); [done|done|]. unfold scan in Es.
      destruct (String.eqb _ _); [|done]. injection Es as <-. simpl in *. lia.
Qed.

(** C37 The tokenizer of the linter ends and loses nothing: on a text whose only white
    space is blanks and newlines, twice as many iterations as characters are enough, and the
    tokens it returns, if it does not raise, are non-empty pieces that make up the text in
    order, each carrying the row and column at which it starts. *)
Theorem tokenize_reassembles text fmt fuel :
  plain text = true -> 2 * len text <= fuel ->
  exists r, tokenize text fmt fuel = Some r /\
    forall tokens, r = inr tokens -> texts tokens = text /\ placed tokens.
Proof.
  intros Hp Hf. apply (tokenize_loop_spec text fmt fuel false [] text Hp eq_refl); [|simpl; lia].
  intros l t l' H. by destruct l.
Qed.

(** ** Divergence *)

Lemma take_while_all p s rest :
  str_forall p s = true -> match rest with String d _ => p d = false | EmptyString => True end ->
  take_while p (s +:+ rest) = s.
Proof.
  intros Hs Hr. induction s as [|c s IH].
  - destruct rest as [|d r]; [done|]. change (take_while p (String d r) = EmptyString). simpl. by rewrite Hr.
  - simpl in Hs. apply andb_true_iff in Hs as [Hc Hs].
    change (take_while p (String c (s +:+ rest)) = String c s). simpl. by rewrite Hc, IH.
Qed.

Lemma strip_all s : str_forall is_space s = true -> strip s = EmptyString.
Proof.
  intros Hs. unfold strip. assert (lstrip_with is_space s = EmptyString) as ->; [|done].
  induction s as [|c s IH]; [done|]. simpl in *. apply andb_true_iff in Hs as [-> Hs]. by apply IH.
Qed.

Lemma looking_at_other c r d x : c <> d -> looking_at (String c r) 0 (String d x) = false.
Proof.
  intros Hc. unfold looking_at, slice. simpl. by rewrite (proj2 (Ascii.eqb_neq c d) Hc).
Qed.

Lemma scan_stuck c r fmt last :
  c <> "<"%char -> c <> "{"%char -> c <> " "%char -> c <> newline_char ->
  get_text (String c r) 0 = EmptyString -> scan (String c r) fmt false 0 last = inr (None, false).
Proof.
  intros H1 H2 H3 H4 Hg. unfold scan, looking_at_htmlcomment, looking_at_handlebars_comment,
    looking_at_djangocomment, looking_at_handlebars_partial, looking_at_handlebars_partial_block,
    looking_at_html_start, looking_at_html_end, looking_at_handlebars_else,
    looking_at_handlebars_triple_stache, looking_at_handlebars_start, looking_at_handlebars_end,
    looking_at_django_else, looking_at_django_end, looking_at_django_start,
    looking_at_jinja2_end_whitespace_stripped, looking_at_jinja2_start_whitespace_stripped_type2,
    looking_at_template_var, nl.
  rewrite !looking_at_other by done. rewrite !andb_false_r. cbn [orb andb].
  unfold scan_text, char_at, mbind, result_bind. cbn [String.get]. rewrite Hg.
  unfold is_text_char, is_c. by rewrite !(proj2 (Ascii.eqb_neq _ _)).
Qed.

Lemma tokenize_loop_stuck c r fmt fuel :
  c <> "<"%char -> c <> "{"%char -> c <> " "%char -> c <> newline_char ->
  get_text (String c r) 0 = EmptyString ->
  tokenize_loop (String c r) fmt fuel false (mkTokenizerState 0 1 1) [] = None.
Proof.
  intros H1 H2 H3 H4 Hg. induction fuel as [|fuel IH]; [done|].
  cbn [tokenize_loop ts_i]. rewrite scan_stuck by done. exact IH.
Qed.

(** A text that starts with white space other than a blank or a newline, up to its
    first brace or tag, keeps the tokenizer looping for ever: whatever the number of
    iterations, it has not ended. *)
Theorem tokenizer_loops_on_other_white_space c s rest fmt fuel :
  is_space c = true -> c <> " "%char -> c <> newline_char ->
  str_forall (fun d => is_space d && is_text_char d) s = true ->
  match rest with String d _ => is_text_char d = false | EmptyString => True end ->
  tokenize (String c s +:+ rest) fmt fuel = None.
Proof.
  intros Hc Hb Hn Hs Hr. unfold tokenize.
  assert (is_text_char c = true) as Htc by (clear -Hc; by destruct c as [[] [] [] [] [] [] [] []]).
  change (String c s +:+ rest) with (String c (s +:+ rest)).
  assert (c <> "<"%char /\ c <> "{"%char) as [H1 H2] by (split; intros ->; done).
  apply tokenize_loop_stuck; try done. unfold get_text.
  change (drop_chars 0 (String c (s +:+ rest))) with (String c s +:+ rest).
  rewrite (take_while_all is_text_char (String c s) rest); [apply strip_all| |done]; simpl;
    rewrite ?Hc, ?Htc; (eapply str_forall_impl; [|exact Hs]); intros d Hd; by apply andb_true_iff in Hd as [? ?].
Qed.

(** ** Properly nested templates *)

Definition bare_tag (t : Token) : string := strip_chars "~" (tk_tag t).

Definition void_ok (foreign : bool) (t : Token) : Prop :=
  foreign = true \/
  ((tk_kind t = k_html_start -> tk_tag t ∉ HTML_VOID_TAGS) /\
   (tk_kind t = k_html_singleton -> tk_tag t ∈ HTML_VOID_TAGS)).

(** An element is not a code element split over two lines. *)
Definition not_split (a b : Token) : Prop := bare_tag a = "code" -> tk_line b <> tk_line a + 1.

(** [content foreign start l]: the tokens [l] are proper content of the element that [start]
    opens, or of the whole template, inside MathML or SVG if [foreign]. *)
Inductive content : bool -> option Token -> list Token -> Prop :=
| content_nil foreign start : content foreign start []
| content_other foreign start t l :
    tag_flavor t = None -> void_ok foreign t -> content foreign start l ->
    content foreign start (t :: l)
| content_else foreign a t l :
    tag_flavor t = Some FlavorEnd -> tk_tag t = "else" -> bare_tag a ∈ ["if"; "else"; "unless"] ->
    content foreign (Some a) l -> content foreign (Some a) (t :: l)
| content_element foreign start a inner b l :
    tag_flavor a = Some FlavorStart -> void_ok foreign a ->
    content (foreign || bool_decide (bare_tag a ∈ ["math"; "svg"])) (Some a) inner ->
    tag_flavor b = Some FlavorEnd -> tk_tag b <> "else" -> bare_tag b = bare_tag a -> not_split a b ->
    content foreign start l ->
    content foreign start (a :: inner ++ b :: l).

Lemma existsb_eqb s l : existsb (String.eqb s) l = bool_decide (s ∈ l).
Proof.
  apply eq_true_iff_eq. rewrite bool_decide_eq_true, existsb_exists. split.
  - intros (x & Hx & ->%String.eqb_eq). by apply list_elem_of_In.
  - intros Hs%list_elem_of_In. exists s. by rewrite String.eqb_refl.
Qed.

Lemma void_problem_None fn foreign t : void_problem fn foreign t = None <-> void_ok foreign t.
Proof.
  unfold void_problem, void_ok. rewrite existsb_eqb.
  destruct foreign; [naive_solver|].
  repeat case_bool_decide; simpl; naive_solver.
Qed.

Lemma report_problem_else a t :
  tk_tag t = "else" -> report_problem a t = None <-> bare_tag a ∈ ["if"; "else"; "unless"].
Proof.
  intros Ht. unfold report_problem, is_else_tag. rewrite Ht, existsb_eqb.
  change (strip_chars "~" (tk_tag a)) with (bare_tag a). cbn [String.eqb].
  destruct (String.eqb_spec (bare_tag a) "code") as [Hc|Hc].
  - assert ("code" ∉ ["if"; "else"; "unless"]) as Hn by (by apply (bool_decide_eq_false_1 _)).
    rewrite Hc, bool_decide_eq_false_2 by done. destruct (_ =? _)%nat; naive_solver.
  - case_bool_decide; naive_solver.
Qed.

Lemma report_problem_end a b :
  tk_tag b <> "else" -> report_problem a b = None <-> bare_tag b = bare_tag a /\ not_split a b.
Proof.
  intros Hb. unfold report_problem, is_else_tag, not_split.
  rewrite (proj2 (String.eqb_neq _ _) Hb).
  change (strip_chars "~" (tk_tag a)) with (bare_tag a).
  change (strip_chars "~" (tk_tag b)) with (bare_tag b).
  destruct (String.eqb_spec (bare_tag a) "code"), (Nat.eqb_spec (tk_line b) (tk_line a + 1)),
    (String.eqb_spec (bare_tag a) (bare_tag b)); simpl; naive_solver.
Qed.

(** The rest of the template, for a chain of open elements. *)
Fixpoint completes (m : matcher) (foreign : bool) (l : list Token) : Prop :=
  match m with
  | NoStartTag => content foreign None l
  | Matching _ a m' foreign' => exists inner b rest,
      l = inner ++ b :: rest /\ content foreign (Some a) inner /\ tag_flavor b = Some FlavorEnd /\
      tk_tag b <> "else" /\ bare_tag b = bare_tag a /\ not_split a b /\ completes m' foreign' rest
  end.

Fixpoint height (m : matcher) : Z :=
  match m with NoStartTag => 0 | Matching _ _ m' _ => height m' + 1 end.

Definition opened (m : matcher) : option Token :=
  match m with NoStartTag => None | Matching _ a _ _ => Some a end.

(** Proper content may be put in front. *)
Lemma completes_front m foreign l l' :
  (forall r, content foreign (opened m) r -> content foreign (opened m) (l ++ r)) ->
  completes m foreign l' -> completes m foreign (l ++ l').
Proof.
  destruct m as [|i a m' f']; simpl; [auto|].
  intros Hl (inner & b & rest & -> & Hc & H). exists (l ++ inner), b, rest.
  rewrite <-app_assoc. split; [done|]. split; [by apply Hl|done].
Qed.

Lemma height_nonneg m : (0 <= height m)%Z.
Proof. induction m; simpl; lia. Qed.

Lemma foreign_flag (foreign : bool) s :
  (if existsb (String.eqb s) ["math"; "svg"] then true else foreign) =
  foreign || bool_decide (s ∈ ["math"; "svg"]).
Proof. rewrite existsb_eqb. by destruct (bool_decide _), foreign. Qed.

Section Nesting.
Context (fn : string).

Lemma check_tokens_sound j l st st' :
  st_depth st = height (st_matcher st) -> check_tokens fn j l st = inr st' -> st_depth st' = 0%Z ->
  completes (st_matcher st) (st_foreign st) l.
Proof.
  revert j st. induction l as [|t l IH]; intros j st Hd; cbn [check_tokens].
  - intros [= ->] H0. rewrite H0 in Hd. destruct (st_matcher st') as [|i a m f]; [by constructor|].
    simpl in Hd. pose proof (height_nonneg m). lia.
  - intros H H0. bind_inr H st1 E. specialize (IH (S j) st1). unfold check_token in E.
    destruct (void_problem _ _ _) eqn:Ev; [done|]. apply void_problem_None in Ev.
    destruct (tag_flavor t) as [[]|] eqn:Ef.
    + injection E as <-. destruct IH as (inner & b & rest & -> & Hc & Hb & He & Ht & Hs & Hr); [simpl; lia|done|done|].
      replace (t :: inner ++ b :: rest) with ((t :: inner ++ [b]) ++ rest) by (simpl; by rewrite <-app_assoc).
      apply completes_front; [|done]. intros r Hcr. simpl. rewrite <-app_assoc. simpl.
      apply content_element; try done. cbn [st_foreign start_tag_matcher] in Hc.
      by rewrite <-foreign_flag.
    + unfold call_matcher in E. destruct (st_matcher st) as [|i a m f] eqn:Em; [done|].
      destruct (report_problem a t) eqn:Er; [done|]. unfold is_else_tag in E.
      destruct (String.eqb_spec (tk_tag t) "else") as [Ht|Ht]; injection E as <-.
      * apply (completes_front (Matching i a m f) _ [t]); [|by apply IH].
        intros r Hr. apply content_else; [done|done|by apply report_problem_else in Er|done].
      * apply report_problem_end in Er as [Hb Hs]; [|done]. exists [], t, l.
        split; [done|]. split; [constructor|]. repeat (split; [done|]).
        apply IH; [|done|done]. simpl in *. lia.
    + injection E as <-. apply (completes_front _ _ [t]); [|by apply IH].
      intros r Hr. by apply content_other.
Qed.

Definition with_tokens (tokens : list Token) (st : State) : State :=
  mkState (st_depth st) (st_foreign st) (st_matcher st) tokens.

Lemma check_tokens_complete foreign start l :
  content foreign start l ->
  forall j st rest, st_foreign st = foreign -> opened (st_matcher st) = start ->
    exists tokens, check_tokens fn j (l ++ rest) st =
      check_tokens fn (j + length l) rest (with_tokens tokens st).
Proof.
  induction 1 as [f s|f s t l Hf Hv _ IH|f a t l Hf Ht Ha _ IH|f s a inner b l Hf Hv _ IHi Hb He Ht Hs _ IH];
    intros j st rest Hfo Hop.
  - exists (st_tokens st). rewrite Nat.add_0_r. by destruct st.
  - cbn [app check_tokens]. unfold check_token. rewrite Hfo, (proj2 (void_problem_None _ _ _) Hv), Hf.
    destruct (IH (S j) st rest Hfo Hop) as [tokens Htk]. exists tokens.
    unfold mbind, result_bind. rewrite Htk. f_equal. simpl. lia.
  - cbn [app check_tokens]. unfold check_token.
    assert (void_problem fn (st_foreign st) t = None) as ->.
    { apply void_problem_None. right. split; intros Hk; unfold tag_flavor in Hf; by rewrite Hk in Hf. }
    rewrite Hf. unfold call_matcher. destruct (st_matcher st) as [|i a' m f'] eqn:Em; [done|].
    injection Hop as ->. rewrite (proj2 (report_problem_else a t Ht) Ha). unfold is_else_tag. rewrite Ht.
    rewrite String.eqb_refl. unfold mbind, result_bind. set (st1 := mkState _ _ _ _).
    destruct (IH (S j) st1 rest Hfo) as [tokens Htk]; [done|]. exists tokens. rewrite Htk.
    f_equal; [simpl; lia|]. unfold with_tokens, st1. simpl. by rewrite Em.
  - replace ((a :: inner ++ b :: l) ++ rest) with (a :: inner ++ (b :: (l ++ rest)))
      by (simpl; by rewrite <-app_assoc).
    cbn [check_tokens]. unfold check_token at 1. rewrite Hfo, (proj2 (void_problem_None _ _ _) Hv), Hf.
    unfold mbind, result_bind. set (st1 := start_tag_matcher j a st).
    assert (st_foreign st1 = f || bool_decide (bare_tag a ∈ ["math"; "svg"])) as Hf1.
    { rewrite <-foreign_flag. subst f. done. }
    destruct (IHi (S j) st1 (b :: (l ++ rest)) Hf1 eq_refl) as [tk1 ->].
    cbn [check_tokens]. unfold check_token.
    assert (forall fo, void_problem fn fo b = None) as ->.
    { intros fo. apply void_problem_None. right. split; intros Hk; unfold tag_flavor in Hb; by rewrite Hk in Hb. }
    rewrite Hb. unfold call_matcher. cbn [with_tokens st_matcher st1 start_tag_matcher].
    rewrite (proj2 (report_problem_end a b He) (conj Ht Hs)). unfold is_else_tag.
    rewrite (proj2 (String.eqb_neq _ _) He). set (tk2 := alter _ _ _).
    assert (mkState (st_depth (with_tokens tk1 st1) - 1) (st_foreign st) (st_matcher st) tk2 =
      with_tokens tk2 st) as Hst by (unfold with_tokens, st1; simpl; f_equal; lia).
    fold st1. rewrite Hst. unfold mbind, result_bind.
    destruct (IH (S (S j + length inner)) (with_tokens tk2 st) rest Hfo Hop) as [tokens Htk].
    exists tokens. rewrite Htk. f_equal. simpl. rewrite length_app. simpl. lia.
Qed.

Lemma check_tags_nested tokens :
  (exists l, check_tags fn tokens = inr l) <-> content false None tokens.
Proof.
  unfold check_tags. split.
  - intros [l H]. bind_inr H st E. destruct (_ =? 0)%Z eqn:Ed; [|by destruct (st_matcher st)].
    apply Z.eqb_eq in Ed. by apply (check_tokens_sound 0 tokens (mkState 0 false NoStartTag tokens) st eq_refl E).
  - intros Hc. destruct (check_tokens_complete _ _ _ Hc 0 (mkState 0 false NoStartTag tokens) [] eq_refl eq_refl)
      as [tk Htk]. rewrite app_nil_r in Htk. exists tk. unfold mbind, result_bind. by rewrite Htk.
Qed.

(** C38 The chain of matcher closures decides proper nesting: the tag checks accept a list of
    tokens exactly when it can be parsed by the grammar [content], in which every start tag
    has its end tag of the same name, else tags stand directly inside if, unless or else
    blocks, void elements are self-closing and no others are outside MathML and SVG, and no
    code element is split over two lines. *)
Theorem check_tags_accepts_nested tokens :
  (exists l, check_tags fn tokens = inr l) <-> content false None tokens.
Proof. apply check_tags_nested. Qed.
End Nesting.

(** ** Layout *)

Section Layout.
Context (fn : string).

Definition newline_at (tokens : list Token) (i : nat) : Prop :=
  exists t, tokens !! i = Some t /\ tk_kind t = k_newline.

(** The last [count] tokens before [tokens] were newlines. *)
Lemma extra_newlines_spec count tokens :
  extra_newlines fn count tokens = inr tt ->
  ~ (exists k, k < 4 /\ 4 <= count + k /\ forall i, i < k -> newline_at tokens i) /\
  ~ (exists i, forall j, j < 4 -> newline_at tokens (i + j)) \/ 4 <= count.
Proof.
  revert count. induction tokens as [|t tokens IH]; intros count; cbn [extra_newlines].
  - intros _. destruct (decide (4 <= count)); [by right|left]. split.
    + intros (k & Hk & Hc & H). destruct k; [lia|]. destruct (H 0) as (? & ? & _); [lia|done].
    + intros (i & H). destruct (H 0) as (? & Hn & _); [lia|]. by rewrite lookup_nil in Hn.
  - case_bool_decide as Hk.
    + destruct (4 <=? count + 1) eqn:E; [done|]. apply Nat.leb_gt in E. intros H.
      destruct (IH _ H) as [[H1 H2]|]; [left|lia]. split.
      * intros (k & Hk4 & Hc & Hn). apply H1. exists (k - 1). repeat split; [lia|lia|].
        intros i Hi. apply (Hn (S i)). lia.
      * intros (i & Hn). destruct i as [|i]; [|apply H2; by exists i].
        apply H1. exists 3. repeat split; [lia|lia|]. intros i Hi. apply (Hn (S i)). lia.
    + intros H. destruct (IH 0 H) as [[_ H2]|]; [|lia].
      destruct (decide (4 <= count)); [by right|left]. split.
      * intros (k & Hk4 & Hc & Hn). destruct k; [lia|]. destruct (Hn 0) as (u & [= <-] & ?); [lia|done].
      * intros (i & Hn). destruct i as [|i]; [|apply H2; by exists i].
        destruct (Hn 0) as (u & [= <-] & ?); [lia|done].
Qed.

(** What the linter asks of a token that is neither first nor last. *)
Definition spaced (t next : Token) : Prop :=
  (tk_kind t = k_indent -> len (tk_s t) mod 4 = 0 /\ tk_kind next <> k_newline) /\
  (tk_kind t = k_whitespace -> len (tk_s t) <= 1 /\ tk_kind next <> k_newline).

Lemma check_whitespace_spec tokens i t next :
  check_whitespace fn tokens = inr tt -> tokens !! i = Some t -> tokens !! S i = Some next -> spaced t next.
Proof.
  revert i. induction tokens as [|x tokens IH]; intros i H Ht Hn; [done|].
  destruct tokens as [|y tokens]; [by destruct i|]. cbn [check_whitespace] in H.
  destruct (whitespace_problem fn x y) eqn:E; [done|].
  destruct i as [|i]; [|by eapply (IH i)]. simplify_eq/=. clear H IH.
  unfold whitespace_problem in E. unfold spaced.
  split; intros Hk; rewrite Hk in E.
  - rewrite bool_decide_eq_true_2 in E by done. destruct (is_blank next); [done|].
    case_bool_decide; [done|]. destruct (_ =? 0)%nat eqn:Em; [|done].
    split; [by apply Nat.eqb_eq|done].
  - rewrite (bool_decide_eq_false_2 (k_whitespace = k_indent)), bool_decide_eq_true_2 in E by done.
    destruct (1 <? _)%nat eqn:Em; [done|]. case_bool_decide; [done|].
    split; [by apply Nat.ltb_ge|done].
Qed.

Lemma ensure_indentation_spec lines all tokens j t a i :
  ensure_indentation fn lines all tokens = inr tt -> tokens !! j = Some t ->
  tk_start_token t = Some i -> all !! i = Some a -> has_bad_indentation lines a t = inr false.
Proof.
  revert j. induction tokens as [|x tokens IH]; intros j H Ht Hs Ha; [done|].
  cbn [ensure_indentation] in H. destruct j as [|j].
  - injection Ht as ->. rewrite Hs in H. simpl in H. rewrite Ha in H. bind_inr H bad E. by destruct bad.
  - destruct (tk_start_token x ≫= _) as [s|]; [|by eapply (IH j)].
    bind_inr H bad E. destruct bad; [done|]. by eapply (IH j).
Qed.

(** What an accepted template looks like: it tokenizes, its tags are properly nested, it
    has no four newlines in a row, does not begin with white space, interior indents are
    multiples of four blanks and never trail a line, other interior white space is single
    blanks within a line, and a block that spans more than two lines ends in the column it
    starts in, inline HTML elements excepted. *)
Theorem validated_template_layout fuel text fmt out :
  validate fn fuel text fmt = Some (inr out) ->
  exists first others, tokenize text fmt fuel = Some (inr (first :: others)) /\
    content false None (first :: others) /\
    ~ (exists i, forall j, j < 4 -> newline_at (first :: others) (i + j)) /\
    is_blank first = false /\
    (forall i t next, others !! i = Some t -> others !! S i = Some next -> spaced t next) /\
    (forall i j a b, out !! j = Some b -> tk_start_token b = Some i -> out !! i = Some a ->
       tk_line a + 1 < tk_line b ->
       ~ (tk_kind a = k_html_start /\ tk_tag a ∈ HTML_INLINE_TAGS) -> tk_col b = tk_col a).
Proof.
  unfold validate. destruct (tokenize text fmt fuel) as [[e|tokens]|]; [done| |done].
  intros H. assert (check_tokenized fn text tokens = inr out) as Hc by congruence. clear H.
  unfold check_tokenized in Hc. bind_inr Hc u E. bind_inr Hc l E2. bind_inr Hc u' E3. injection Hc as <-.
  unfold prevent_whitespace_violations in E. destruct tokens as [|first others]; [done|].
  destruct (is_blank first) eqn:Eb; [done|]. bind_inr E u2 E4. destruct u, u2, u'.
  exists first, others. split; [done|]. split; [by apply (check_tags_nested fn); exists l|].
  split; [by destruct (extra_newlines_spec 0 _ E4) as [[_ ?]|]; [|lia]|]. split; [done|].
  split; [intros i t next; by apply check_whitespace_spec|].
  intros i j a b Hb Hs Ha Hl Hin.
  pose proof (ensure_indentation_spec _ _ _ _ _ _ _ E3 Hb Hs Ha) as Hbad. unfold has_bad_indentation in Hbad.
  rewrite (proj2 (Nat.ltb_lt _ _) Hl), existsb_eqb in Hbad.
  destruct (_ && _) eqn:Ei.
  - apply andb_true_iff in Ei as [H1%bool_decide_eq_true H2%bool_decide_eq_true]. by destruct Hin.
  - injection Hbad as Hbad. apply negb_false_iff in Hbad. by apply Nat.eqb_eq.
Qed.
End Layout.

(** ** Examples *)

Module TemplateDemo.
Definition template : string :=
  "<div>" +:+ nl +:+ "    {{#if x}}" +:+ nl +:+ "        <b>text</b>" +:+ nl +:+ "    {{else}}" +:+ nl +:+
  "        <br />" +:+ nl +:+ "    {{/if}}" +:+ nl +:+ "</div>" +:+ nl.
Definition tokens : list Token :=
  match tokenize template (Some "handlebars") 200 with Some (inr l) => l | _ => [] end.
Definition out : list Token :=
  match validate "f" 200 template (Some "handlebars") with Some (inr l) => l | _ => [] end.

Lemma accepted : validate "f" 200 template (Some "handlebars") = Some (inr out).
Proof. by vm_compute. Qed.
Lemma tokenized : tokenize template (Some "handlebars") 200 = Some (inr tokens).
Proof. by vm_compute. Qed.
Definition tab : ascii := "009"%char.

(** An unclosed comment with no tag after it is reported by an [IndexError]. *)
Example unclosed_comment_index_error : get_html_comment "<!-- never closed" 0 = inl IndexError.
Proof. by vm_compute. Qed.
(** A line indented by a tab is read twice. *)
Example tab_read_twice : exists l, tokenize (String tab "ab") None 10 = Some (inr l) /\
  map tk_s l = ["ab"; "b"].
Proof. eexists. by vm_compute. Qed.
End TemplateDemo.

Lemma tokenize_reassembles_witness :
  texts TemplateDemo.tokens = TemplateDemo.template /\ placed TemplateDemo.tokens.
Proof.
  destruct (tokenize_reassembles TemplateDemo.template (Some "handlebars") 200) as (r & Hr & H).
  - by vm_compute.
  - by vm_compute; lia.
  - rewrite TemplateDemo.tokenized in Hr. injection Hr as <-. by apply H.
Defined.

Lemma tokenizer_loops_on_other_white_space_witness :
  tokenize (String TemplateDemo.tab "<b>") None 1000 = None.
Proof.
  exact (tokenizer_loops_on_other_white_space TemplateDemo.tab EmptyString "<b>" None 1000
    eq_refl ltac:(discriminate) ltac:(discriminate) eq_refl eq_refl).
Defined.

Lemma validated_template_layout_witness : content false None TemplateDemo.tokens.
Proof.
  destruct (validated_template_layout "f" 200 TemplateDemo.template (Some "handlebars") TemplateDemo.out
    TemplateDemo.accepted) as (first & others & Ht & Hc & _).
  rewrite TemplateDemo.tokenized in Ht.
  pose proof (f_equal (fun o => match o with Some (inr l) => l | _ => [] end) Ht) as E.
  cbv beta iota in E. rewrite E. exact Hc.
Defined.
