(* ===== verification/PrettyPrint.v ===== *)
(** * The template formatter (tools/lib/pretty_print.py)

    [pretty_print_html] reindents a validated template.  The fields a token gets in this phase
    are those of [PToken]; tokens refer to each other by position, and an update of a token is
    seen through every reference, as in the source. *)

From Stdlib Require Import Ascii.
From stdpp Require Import pretty.
From S2P Require Import Prelude PyText TemplateParser TemplateValidator.

Record PToken := mkPToken {
  pt : Token;
  new_s : string;
  indent : option string;
  orig_indent : option string;
  child_indent : option string;
  indent_is_final : bool;
  parent_token : option nat;
}.

Definition set_indent (o : option string) (t : PToken) : PToken :=
  mkPToken (pt t) (new_s t) o (orig_indent t) (child_indent t) (indent_is_final t) (parent_token t).
Definition set_new_s (s : string) (t : PToken) : PToken :=
  mkPToken (pt t) s (indent t) (orig_indent t) (child_indent t) (indent_is_final t) (parent_token t).
Definition set_child_indent (o : option string) (t : PToken) : PToken :=
  mkPToken (pt t) (new_s t) (indent t) (orig_indent t) o (indent_is_final t) (parent_token t).
Definition set_final (t : PToken) : PToken :=
  mkPToken (pt t) (new_s t) (indent t) (orig_indent t) (child_indent t) true (parent_token t).
Definition set_parent (p : option nat) (t : PToken) : PToken :=
  mkPToken (pt t) (new_s t) (indent t) (orig_indent t) (child_indent t) (indent_is_final t) p.

(** The first loop of [pretty_print_html]; the other fields are as [Token.__init__] set them. *)
Definition fresh_token (t : Token) : PToken := mkPToken t (tk_s t) None None None false None.

Definition has_kind (k : TokenKind) (t : PToken) : bool := bool_decide (tk_kind (pt t) = k).

(** The loop over [tokens[:-1]] with the tokens that follow. *)
Fixpoint shift_loop (tokens : list PToken) : list PToken :=
  match tokens with
  | token :: ((next_token :: rest) as tail) =>
      let next1 := if has_kind k_indent token then set_indent (Some (tk_s (pt token))) next_token
                   else next_token in
      let token' := if has_kind k_indent token then set_new_s EmptyString token else token in
      let next2 := if has_kind k_newline token && negb (has_kind k_indent next_token)
                   then set_indent (Some EmptyString) next1 else next1 in
      token' :: match shift_loop tail with
                | next' :: rest' => set_indent (indent next2) next' :: rest'
                | [] => []
                end
  | _ => tokens
  end.

Definition shift_indents_to_the_next_tokens (tokens : list PToken) : result (list PToken) :=
  match tokens with
  | [] => inl IndexError
  | first :: rest => inr (shift_loop (set_indent (Some EmptyString) first :: rest))
  end.

Definition token_allows_children_to_skip_indents (token : PToken) : bool :=
  if String.eqb (tk_tag (pt token)) "each" then false
  else has_kind k_django_start token || has_kind k_handlebars_start token ||
       String.eqb (tk_tag (pt token)) "a".

Definition four_blanks : string := "    ".

Definition kind_name (k : TokenKind) : string :=
  match k with
  | k_code => "code"
  | k_html_comment => "html_comment"
  | k_handlebars_comment => "handlebars_comment"
  | k_django_comment => "django_comment"
  | k_handlebars_partial => "handlebars_partial"
  | k_handlebars_partial_block => "handlebars_partial_block"
  | k_html_doctype => "html_doctype"
  | k_html_singleton => "html_singleton"
  | k_html_start => "html_start"
  | k_html_end => "html_end"
  | k_handlebars_else => "handlebars_else"
  | k_handlebars_triple_stache => "handlebars_triple_stache"
  | k_handlebars_start => "handlebars_start"
  | k_handlebars_end => "handlebars_end"
  | k_django_else => "django_else"
  | k_django_end => "django_end"
  | k_django_start => "django_start"
  | k_jinja2_whitespace_stripped_start => "jinja2_whitespace_stripped_start"
  | k_jinja2_whitespace_stripped_end => "jinja2_whitespace_stripped_end"
  | k_jinja2_whitespace_stripped_type2_start => "jinja2_whitespace_stripped_type2_start"
  | k_template_var => "template_var"
  | k_newline => "newline"
  | k_indent => "indent"
  | k_whitespace => "whitespace"
  | k_text => "text"
  end.

Definition no_indent (t : PToken) : bool := match indent t with None => true | Some _ => false end.

Section Adjust.
Context (fn : string).

Definition unexpected (token : PToken) : failure :=
  AssertionError (line 20 (kind_name (tk_kind (pt token)) +:+ " was unexpected in " +:+ tk_s (pt token)) +:+
    line 20 ("in row " +:+ pretty (tk_line (pt token)) +:+ " of " +:+ fn) +:+ line 20 "").

(** The block [if start_token and token.indent is not None]. *)
Definition settle_start (start : option nat) (token : PToken) (tokens : list PToken) : list PToken :=
  match start, indent token with
  | Some s, Some _ =>
      alter (fun st => set_final
        (if negb (indent_is_final st) && bool_decide (indent token = orig_indent st) &&
            token_allows_children_to_skip_indents st
         then set_child_indent (indent st) st else st)) s tokens
  | _, _ => tokens
  end.

(** A token that opens a block. *)
Definition open_block (j : nat) (start : option nat) (token : PToken) (tokens : list PToken) :
    result (list PToken) :=
  match indent token with
  | None => inr (alter (set_parent start) j tokens)
  | Some ind =>
      let outer := match start with
                   | None => Some EmptyString
                   | Some s => (tokens !! s) ≫= child_indent
                   end in
      match outer with
      | None => inl (AssertionError EmptyString)
      | Some o =>
          inr (alter (fun t => mkPToken (pt t) (new_s t) (Some o) (Some ind) (Some (o +:+ four_blanks))
                 (indent_is_final t) start) j tokens)
      end
  end.

(** The body of the loop of [adjust_block_indentation] for the token at position [j]. *)
Definition adjust_token (j : nat) (start : option nat) (tokens : list PToken) :
    result (option nat * list PToken) :=
  match tokens !! j with
  | None => inr (start, tokens)
  | Some token =>
      if has_kind k_indent token || has_kind k_whitespace token || has_kind k_newline token
      then inr (start, tokens)
      else if existsb (String.eqb (tk_tag (pt token))) ["code"; "pre"] then inr (start, tokens)
      else if String.eqb (tk_tag (pt token)) "else" then
        match tk_start_token (pt token) with
        | None => inl (AssertionError EmptyString)
        | Some i =>
            inr (start, if no_indent token then tokens
                        else alter (set_indent ((tokens !! i) ≫= indent)) j tokens)
        end
      else
        let tokens := settle_start start token tokens in
        match tk_end_token (pt token), tk_start_token (pt token) with
        | Some _, _ =>
            tokens' ← open_block j start token tokens;
            inr (Some j, tokens')
        | None, Some i =>
            if negb (bool_decide (start = Some i)) then inl (unexpected token)
            else
              inr ((tokens !! i) ≫= parent_token,
                   if no_indent token then tokens
                   else alter (set_indent ((tokens !! i) ≫= indent)) j tokens)
        | None, None =>
            if no_indent token then inr (start, tokens)
            else match start with
                 | None => inr (start, alter (set_indent (Some EmptyString)) j tokens)
                 | Some s =>
                     match (tokens !! s) ≫= child_indent with
                     | Some ci => inr (start, alter (set_indent (Some ci)) j tokens)
                     | None => inr (start, tokens)
                     end
                 end
        end
  end.

Fixpoint adjust_loop (js : list nat) (start : option nat) (tokens : list PToken) :
    result (list PToken) :=
  match js with
  | [] => inr tokens
  | j :: js' => '(start', tokens') ← adjust_token j start tokens; adjust_loop js' start' tokens'
  end.

Definition adjust_block_indentation (tokens : list PToken) : result (list PToken) :=
  adjust_loop (seq 0 (length tokens)) None tokens.

Definition fix_ (continue_indent frag : string) : string :=
  let frag := strip frag in
  if String.eqb frag EmptyString then EmptyString else continue_indent +:+ frag.

Definition fix_multi_line (token : PToken) : PToken :=
  if has_kind k_code token then token
  else match indent token with
       | None => token
       | Some ind =>
           if (tk_line_span (pt token) =? 1)%nat then token
           else
             let continue_indent :=
               if existsb (fun k => has_kind k token)
                    [k_django_comment; k_handlebars_comment; k_html_comment; k_text]
               then ind else ind +:+ four_blanks in
             match split_on newline_char (new_s token) with
             | [] => token
             | first :: rest =>
                 set_new_s (first +:+ nl +:+ join nl (map (fix_ continue_indent) rest)) token
             end
       end.

Definition fix_indents_for_multi_line_tags (tokens : list PToken) : list PToken :=
  map fix_multi_line tokens.

Definition apply_token_indents (tokens : list PToken) : list PToken :=
  map (fun token => match indent token with
                    | Some ind => if String.eqb ind EmptyString then token
                                  else set_new_s (ind +:+ new_s token) token
                    | None => token
                    end) tokens.

Definition pretty_print_html (tokens : list Token) : result string :=
  shifted ← shift_indents_to_the_next_tokens (map fresh_token tokens);
  adjusted ← adjust_block_indentation shifted;
  let printed := apply_token_indents (fix_indents_for_multi_line_tags adjusted) in
  inr (String.concat EmptyString (map new_s printed)).

(** [html] is the content of the file; the second result is what is written to it. *)
Definition validate_indent_html (html : string) (tokens : list Token) (fix_it : bool) :
    result (bool * option string) :=
  phtml ← pretty_print_html tokens;
  if bool_decide (split_on newline_char html = split_on newline_char phtml) then inr (true, None)
  else if fix_it then inr (true, Some phtml) else inr (false, None).
End Adjust.
