(* ===== verification/PrettyPrintProps.v ===== *)
(** * The formatter changes white space only *)

From Stdlib Require Import Ascii.
From S2P Require Import Prelude PyText TemplateParser TemplateValidator TemplateProps PrettyPrint.

(** A text without its white space. *)
Definition squeeze (s : string) : string := remove_chars is_space s.

Lemma squeeze_app s t : squeeze (s +:+ t) = squeeze s +:+ squeeze t.
Proof. apply remove_chars_app. Qed.

Definition blank (s : string) : Prop := str_forall is_space s = true.

Lemma squeeze_blank s : blank s -> squeeze s = EmptyString.
Proof.
  unfold blank, squeeze. induction s as [|c s IH]; [done|]. simpl. by intros [-> Hs]%andb_true_iff; apply IH.
Qed.

Lemma blank_app s t : blank s -> blank t -> blank (s +:+ t).
Proof. unfold blank. intros Hs Ht. by rewrite str_forall_app, Hs, Ht. Qed.

Lemma squeeze_strip s : squeeze (strip s) = squeeze s.
Proof.
  unfold strip, squeeze. trans (remove_chars is_space (lstrip_with is_space s)).
  - induction (lstrip_with is_space s) as [|c t IH]; [done|]. cbn [rstrip_with remove_chars].
    destruct (rstrip_with is_space t) as [|d r] eqn:E.
    + rewrite <-IH. simpl. destruct (is_space c) eqn:Ec; [done|]. simpl. by rewrite Ec.
    + cbn [remove_chars] in *. rewrite <-IH. by destruct (is_space c).
  - induction s as [|c s IH]; [done|]. simpl. by destruct (is_space c) eqn:Ec; [|simpl; rewrite Ec].
Qed.

Lemma squeeze_fix ind frag : blank ind -> squeeze (fix_ ind frag) = squeeze frag.
Proof.
  intros Hi. unfold fix_. rewrite <-(squeeze_strip frag). destruct (String.eqb_spec (strip frag) EmptyString) as [->|]; [done|].
  by rewrite squeeze_app, (squeeze_blank ind).
Qed.

Lemma squeeze_nl : squeeze nl = EmptyString.
Proof. done. Qed.

Lemma squeeze_join l : squeeze (join nl l) = String.concat EmptyString (map squeeze l).
Proof.
  induction l as [|x [|y l] IH]; [done|done|].
  change (join nl (x :: y :: l)) with (x +:+ nl +:+ join nl (y :: l)).
  rewrite !squeeze_app, squeeze_nl, IH. change (map squeeze (x :: y :: l)) with (squeeze x :: map squeeze (y :: l)).
  by rewrite concat_cons.
Qed.

Lemma squeeze_split s : String.concat EmptyString (map squeeze (split_on newline_char s)) = squeeze s.
Proof.
  induction s as [|c s IH]; [done|]. cbn [split_on]. destruct (Ascii.eqb_spec c newline_char) as [->|Hc].
  - cbn [map]. rewrite concat_cons, IH. done.
  - destruct (split_on newline_char s) as [|w ws]; cbn [map] in *; rewrite ?concat_cons in *.
    + unfold squeeze in *. cbn [remove_chars String.concat map] in *. rewrite <-IH. by destruct (is_space c).
    + unfold squeeze in *. cbn [remove_chars]. rewrite <-IH. by destruct (is_space c).
Qed.

(** ** The invariant of the phases *)

Definition blank_opt (o : option string) : Prop := match o with Some s => blank s | None => True end.

Record same_text (t : PToken) : Prop := {
  sm_text : squeeze (new_s t) = squeeze (tk_s (pt t));
  sm_indent : blank_opt (indent t);
  sm_child : blank_opt (child_indent t);
}.

(** Tokens of kind indent are blank. *)
Definition blank_indents (tokens : list Token) : Prop :=
  Forall (fun t => tk_kind t = k_indent -> blank (tk_s t)) tokens.

Lemma set_indent_same o t : blank_opt o -> same_text t -> same_text (set_indent o t).
Proof. intros Ho []. by split. Qed.

Lemma blank_bind {A} (f : A -> option string) (o : option A) :
  (forall a, o = Some a -> blank_opt (f a)) -> blank_opt (o ≫= f).
Proof. destruct o as [a|]; simpl; [|done]. intros H. by apply H. Qed.

Lemma Forall_alter_ok {A} (P : A -> Prop) (f : A -> A) i l :
  Forall P l -> (forall x, P x -> P (f x)) -> Forall P (alter f i l).
Proof.
  intros Hl Hf. revert i. induction Hl as [|x l Hx Hl IH]; intros [|i]; simpl; constructor; eauto.
Qed.

Lemma map_alter_same {A B} (g : A -> B) (f : A -> A) i l :
  (forall x, g (f x) = g x) -> map g (alter f i l) = map g l.
Proof. intros Hf. revert i. induction l as [|x l IH]; intros [|i]; simpl; f_equal; eauto. Qed.

(** [l'] is [l] with other fields, and its tokens have the text of [l]. *)
Definition reshaped (tokens : list Token) (l : list PToken) : Prop :=
  map pt l = tokens /\ Forall same_text l.

Lemma lookup_same l i t : Forall same_text l -> l !! i = Some t -> same_text t.
Proof. intros Hl Hi. by eapply Forall_lookup_1. Qed.

Lemma reshaped_alter tokens f i l :
  (forall t, pt (f t) = pt t) -> (forall t, same_text t -> same_text (f t)) ->
  reshaped tokens l -> reshaped tokens (alter f i l).
Proof.
  intros Hp Hs [Hm Hl]. split; [by rewrite map_alter_same|by apply Forall_alter_ok].
Qed.

(** The indent the loop gives to the token after [t]. *)
Definition next_indent (t n : PToken) : option string :=
  if has_kind k_newline t && negb (has_kind k_indent n) then Some EmptyString
  else if has_kind k_indent t then Some (tk_s (pt t)) else indent n.

Lemma shift_loop_cons t n l :
  shift_loop (t :: n :: l) = (if has_kind k_indent t then set_new_s EmptyString t else t) ::
    match shift_loop (n :: l) with
    | n' :: l' => set_indent (next_indent t n) n' :: l'
    | [] => []
    end.
Proof.
  cbn [shift_loop]. f_equal. unfold next_indent.
  by destruct (has_kind k_newline t), (has_kind k_indent n), (has_kind k_indent t).
Qed.

Lemma shift_loop_same l :
  Forall (fun t => has_kind k_indent t = true -> blank (tk_s (pt t))) l -> Forall same_text l ->
  map pt (shift_loop l) = map pt l /\ Forall same_text (shift_loop l).
Proof.
  induction l as [|t [|n l] IH]; [done|done|]. intros Hb Hl. rewrite Forall_cons in Hb, Hl.
  destruct Hb as [Hbt Hb], Hl as [Ht Hl]. destruct (IH Hb Hl) as [Em Hs].
  rewrite shift_loop_cons. destruct (shift_loop (n :: l)) as [|n' l'].
  { by apply (f_equal length) in Em. }
  cbn [map] in *. split.
  - destruct (has_kind k_indent t); cbn; f_equal; exact Em.
  - rewrite Forall_cons in Hs. destruct Hs as [Hn Hs]. constructor; [|constructor; [|done]].
    + destruct (has_kind k_indent t) eqn:Hk; [|done]. destruct Ht. split; [|done|done].
      simpl. symmetry. by apply squeeze_blank, Hbt.
    + apply set_indent_same; [|done]. rewrite Forall_cons in Hl. destruct Hl as [[_ Hni _] _].
      unfold next_indent. destruct (has_kind k_newline t && _); [done|].
      destruct (has_kind k_indent t); [by apply Hbt|done].
Qed.

Lemma shift_same tokens l :
  blank_indents tokens -> shift_indents_to_the_next_tokens (map fresh_token tokens) = inr l ->
  reshaped tokens l.
Proof.
  intros Hb. destruct tokens as [|t tokens]; [done|]. cbn [map shift_indents_to_the_next_tokens].
  intros [= <-]. pose proof (shift_loop_same (set_indent (Some EmptyString) (fresh_token t) ::
    map fresh_token tokens)) as H. cbn [map pt set_indent fresh_token] in H.
  assert (Hm : map pt (map fresh_token tokens) = tokens).
  { rewrite map_map. apply map_id. }
  rewrite Hm in H. apply H.
  - unfold blank_indents in Hb. rewrite Forall_cons in Hb. destruct Hb as [Ht Hb]. constructor.
    + intros Hk%bool_decide_eq_true. by apply Ht.
    + apply Forall_map. eapply Forall_impl; [exact Hb|]. intros x Hx Hk%bool_decide_eq_true. by apply Hx.
  - constructor; [done|]. apply Forall_map. by apply Forall_true.
Qed.

Lemma squeeze_concat ws : squeeze (String.concat EmptyString ws) = String.concat EmptyString (map squeeze ws).
Proof. induction ws as [|x l IH]; [done|]. cbn [map]. by rewrite !concat_cons, squeeze_app, IH. Qed.

Section Adjusted.
Context (fn : string) (tokens : list Token).
Implicit Types (l : list PToken).

Lemma reshaped_set_indent o j l :
  blank_opt o -> reshaped tokens l -> reshaped tokens (alter (set_indent o) j l).
Proof. intros Ho. apply reshaped_alter; [done|]. intros t. by apply set_indent_same. Qed.

Lemma reshaped_settle start t l : reshaped tokens l -> reshaped tokens (settle_start start t l).
Proof.
  intros Hl. unfold settle_start. destruct start as [s|]; [|done]. destruct (indent t) as [i|]; [|done].
  apply reshaped_alter; [|intros x Hx|done].
  - intros x. by destruct (_ && _ && _).
  - destruct (_ && _ && _); [|by destruct Hx]. destruct Hx. by split.
Qed.

Lemma blank_lookup f l i : (forall t, same_text t -> blank_opt (f t)) -> reshaped tokens l ->
  blank_opt ((l !! i) ≫= f).
Proof. intros Hf [_ Hl]. apply blank_bind. intros t Ht. by eapply Hf, lookup_same. Qed.

Lemma reshaped_open j start t l l' :
  reshaped tokens l -> open_block j start t l = inr l' -> reshaped tokens l'.
Proof.
  intros Hl. unfold open_block. destruct (indent t) as [ind|].
  2: { intros [= <-]. apply reshaped_alter; [done| |done]. intros x []. by split. }
  assert (Ho : blank_opt (match start with None => Some EmptyString
    | Some s => (l !! s) ≫= child_indent end)).
  { destruct start as [s|]; [|done]. apply blank_lookup; [by intros x []|done]. }
  destruct (match start with None => Some EmptyString | Some s => (l !! s) ≫= child_indent end) as [o|];
    [|done].
  intros [= <-]. apply reshaped_alter; [done| |done]. intros x [Hx _ _]. split; [done|done|].
  by apply blank_app.
Qed.

Lemma reshaped_adjust_token j start l start' l' :
  reshaped tokens l -> adjust_token fn j start l = inr (start', l') -> reshaped tokens l'.
Proof.
  intros Hl. unfold adjust_token. destruct (l !! j) as [t|]; [|by intros [= <- <-]].
  destruct (_ || _ || _); [by intros [= <- <-]|]. destruct (existsb _ _); [by intros [= <- <-]|].
  assert (Hi : forall k i x, reshaped tokens x -> reshaped tokens (if no_indent t then x
    else alter (set_indent ((x !! i) ≫= indent)) k x)).
  { intros k i x Hx. destruct (no_indent t); [done|]. apply reshaped_set_indent; [|done].
    apply blank_lookup; [by intros y []|done]. }
  destruct (String.eqb _ "else").
  { destruct (tk_start_token _) as [i|]; [|done]. intros [= <- <-]. by apply Hi. }
  pose proof (reshaped_settle start t l Hl) as Hs. set (l1 := settle_start start t l) in *.
  destruct (tk_end_token _) as [e|].
  { destruct (open_block j start t l1) as [|l2] eqn:Eo; [done|]. intros [= <- <-].
    by eapply reshaped_open. }
  destruct (tk_start_token _) as [i|].
  { destruct (negb _); [done|]. intros [= <- <-]. by apply Hi. }
  destruct (no_indent t); [by intros [= <- <-]|]. destruct start as [s|].
  - pose proof (blank_lookup child_indent l1 s (fun t H => sm_child t H) Hs) as Hc.
    destruct ((l1 !! s) ≫= child_indent) as [ci|]; intros [= <- <-]; [|done].
    by apply reshaped_set_indent.
  - intros [= <- <-]. by apply reshaped_set_indent.
Qed.

Lemma reshaped_adjust_loop js start l l' :
  reshaped tokens l -> adjust_loop fn js start l = inr l' -> reshaped tokens l'.
Proof.
  revert start l. induction js as [|j js IH]; intros start l Hl; [by intros [= <-]|].
  cbn [adjust_loop]. destruct (adjust_token fn j start l) as [|[start1 l1]] eqn:E; [done|].
  apply IH. by eapply reshaped_adjust_token.
Qed.

Lemma fix_multi_line_same t : same_text t -> same_text (fix_multi_line t) /\ pt (fix_multi_line t) = pt t.
Proof.
  intros Ht. unfold fix_multi_line. destruct (has_kind k_code t); [done|].
  destruct (indent t) as [ind|] eqn:Ei; [|done]. destruct (_ =? 1); [done|].
  set (ci := if existsb _ _ then _ else _). assert (blank ci) as Hci.
  { pose proof (sm_indent t Ht) as Hi. rewrite Ei in Hi. unfold ci. destruct (existsb _ _); [done|].
    by apply blank_app. }
  destruct (split_on newline_char (new_s t)) as [|first rest] eqn:Es; [done|]. split; [|done].
  destruct Ht as [H1 H2 H3]. split; [|done|done]. simpl. rewrite <-H1, <-(squeeze_split (new_s t)), Es.
  rewrite !squeeze_app, squeeze_nl, squeeze_join, map_map. cbn [map]. rewrite concat_cons. f_equal.
  change (EmptyString +:+ ?x) with x. f_equal. apply map_ext. intros f. by apply squeeze_fix.
Qed.

Lemma printed_text l : reshaped tokens l ->
  squeeze (String.concat EmptyString (map new_s (apply_token_indents (fix_indents_for_multi_line_tags l)))) =
  squeeze (texts tokens).
Proof.
  intros [<- Hl]. unfold texts. rewrite !squeeze_concat, !map_map. f_equal.
  unfold apply_token_indents, fix_indents_for_multi_line_tags. rewrite !map_map.
  induction Hl as [|t l Ht _ IH]; [done|]. cbn [map]. f_equal; [|exact IH].
  destruct (fix_multi_line_same t Ht) as [[H1 H2 _] Hp]. rewrite <-Hp, <-H1.
  destruct (indent (fix_multi_line t)) as [ind|]; [|done]. destruct (String.eqb_spec ind EmptyString); [done|].
  simpl. by rewrite squeeze_app, (squeeze_blank ind).
Qed.

Lemma pretty_print_squeeze out :
  blank_indents tokens -> pretty_print_html fn tokens = inr out -> squeeze out = squeeze (texts tokens).
Proof.
  intros Hb. unfold pretty_print_html.
  destruct (shift_indents_to_the_next_tokens _) as [|l] eqn:Es; [done|].
  change (mbind ?k (inr l)) with (k l). cbv beta.
  destruct (adjust_block_indentation fn l) as [|l2] eqn:Ea; [done|]. intros [= <-].
  apply printed_text. eapply reshaped_adjust_loop; [|exact Ea]. by apply shift_same.
Qed.
End Adjusted.

(** ** Tokens of kind indent *)

(** Case analysis on the branch taken. *)
Ltac branch H :=
  repeat match type of H with
  | (if ?b then _ else _) = _ => destruct b eqn:?
  | mbind _ ?m = _ => let x := fresh "x" in let E := fresh "E" in bind_inr H x E
  | match ?x with _ => _ end = _ => destruct x eqn:?
  end.

Lemma spaces_blank text i : blank (get_spaces text i).
Proof.
  unfold blank, get_spaces. induction (drop_chars i text) as [|c s IH]; [done|]. cbn [take_while].
  destruct (is_c " " c) eqn:E; [|done]. apply Ascii.eqb_eq in E as ->. cbn [str_forall]. by rewrite IH.
Qed.

Lemma scan_indent_blank text fmt in_code i last k s tag code :
  scan text fmt in_code i last = inr (Some (k, s, tag), code) -> k = k_indent -> blank s.
Proof.
  unfold scan. intros H Hk.
  branch H; try discriminate H;
    try (unfold scan_html_start, scan_triple_stache, scan_django_start, scan_text in H; branch H;
         try discriminate H);
    try (apply plain_token_inr in H; injection H as -> -> -> ->);
    try (injection H as <- <- <- <-); try done; try apply spaces_blank.
  all: by repeat case_match.
Qed.

Lemma tokenize_loop_blank text fmt fuel in_code st tokens out :
  blank_indents tokens -> tokenize_loop text fmt fuel in_code st tokens = Some (inr out) ->
  blank_indents out.
Proof.
  revert in_code st tokens. induction fuel as [|fuel IH]; intros in_code st tokens Hb; cbn [tokenize_loop];
    destruct (_ <? _); try done; try (by intros [= <-]).
  destruct (scan _ _ _ _ _) as [e|[[[[k s] tag]|] code]] eqn:Es; [done| |by apply IH].
  destruct (advance _ _ _) as [e|st']; [done|]. apply IH. apply Forall_app. split; [done|].
  constructor; [|done]. intros Hk. by eapply scan_indent_blank.
Qed.

(** The checks keep the kind and the text of every token. *)
Definition kind_and_text (t : Token) : TokenKind * string := (tk_kind t, tk_s t).

Lemma check_tokens_texts fn j l st st' :
  check_tokens fn j l st = inr st' -> map kind_and_text (st_tokens st') = map kind_and_text (st_tokens st).
Proof.
  revert j st. induction l as [|t l IH]; intros j st; cbn [check_tokens]; [by intros [= <-]|].
  intros H. bind_inr H st1 E. apply IH in H as ->. unfold check_token in E.
  destruct (void_problem _ _ _); [done|]. destruct (tag_flavor t) as [[]|]; [by injection E as <-| |by injection E as <-].
  unfold call_matcher in E. destruct (st_matcher st) as [|i a m f]; [done|].
  destruct (report_problem _ _); [done|]. destruct (is_else_tag t); injection E as <-; simpl;
    by rewrite !map_alter_same.
Qed.

Lemma validate_tokens fn fuel text fmt out :
  validate fn fuel text fmt = Some (inr out) ->
  exists tokens, tokenize text fmt fuel = Some (inr tokens) /\
    map kind_and_text out = map kind_and_text tokens.
Proof.
  unfold validate. destruct (tokenize text fmt fuel) as [[e|tokens]|]; [done| |done]. intros H.
  assert (check_tokenized fn text tokens = inr out) as Hc by congruence. clear H.
  unfold check_tokenized in Hc. bind_inr Hc u E. bind_inr Hc l E2. bind_inr Hc u' E3. injection Hc as <-.
  exists tokens. split; [done|]. unfold check_tags in E2. bind_inr E2 st E4.
  apply check_tokens_texts in E4. simpl in E4. destruct (_ =? 0)%Z; [by injection E2 as <-|].
  by destruct (st_matcher st).
Qed.

(** C39 The formatter changes white space only: for an accepted template whose only white
    space is blanks and newlines, what [pretty_print_html] returns, and so what
    [validate_indent_html] writes, has the characters of the template it is given in the same
    order, white space aside. *)
Theorem formatting_keeps_text fn fuel text fmt tokens fix_it ok written :
  plain text = true -> (2 * len text <= fuel)%nat -> validate fn fuel text fmt = Some (inr tokens) ->
  validate_indent_html fn text tokens fix_it = inr (ok, written) ->
  (forall new, written = Some new -> fix_it = true /\ squeeze new = squeeze text) /\
  exists phtml, pretty_print_html fn tokens = inr phtml /\ squeeze phtml = squeeze text /\
    (ok = false -> fix_it = false /\ split_on newline_char phtml <> split_on newline_char text).
Proof.
  intros Hp Hf Hv. apply validate_tokens in Hv as (tokens0 & Ht & Em).
  destruct (tokenize_loop_spec text fmt fuel false [] text Hp eq_refl) as (r & Hr & Hall);
    [intros l t l' H; by destruct l|simpl; lia|].
  unfold tokenize in Ht. change (state_after (texts [])) with (mkTokenizerState 0 1 1) in Hr.
  rewrite Hr in Ht. injection Ht as ->. destruct (Hall _ eq_refl) as [Htext _].
  apply tokenize_loop_blank in Hr; [|constructor].
  assert (Htx : texts tokens = text).
  { rewrite <-Htext. unfold texts. f_equal. apply (f_equal (map snd)) in Em. by rewrite !map_map in Em. }
  assert (Hb : blank_indents tokens).
  { unfold blank_indents in *. assert (Forall (fun x => x.1 = k_indent -> blank x.2) (map kind_and_text tokens))
      as Hk by (rewrite Em; by apply Forall_map). by apply Forall_map in Hk. }
  unfold validate_indent_html. destruct (pretty_print_html fn tokens) as [|phtml] eqn:E; [done|].
  change (mbind ?k (inr phtml)) with (k phtml). cbv beta.
  pose proof (pretty_print_squeeze fn tokens phtml Hb E) as Hs. rewrite Htx in Hs.
  destruct (bool_decide_reflect (split_on newline_char text = split_on newline_char phtml)) as [Heq|Hne];
    [|destruct fix_it]; intros [= <- <-]; (split; [intros new [= <-]; done|]);
    (exists phtml; split; [done|split; [done|intros [=]; done]]).
Qed.

Module FormatDemo.
(** A template whose inner block is not indented as the formatter wants it. *)
Definition template : string :=
  "<div>" +:+ nl +:+ "    {{#each x}}" +:+ nl +:+ "    <b>text</b>" +:+ nl +:+ "    {{/each}}" +:+ nl +:+
  "</div>" +:+ nl.
Definition reformatted : string :=
  "<div>" +:+ nl +:+ "    {{#each x}}" +:+ nl +:+ "        <b>text</b>" +:+ nl +:+ "    {{/each}}" +:+ nl +:+
  "</div>" +:+ nl.
Definition tokens : list Token :=
  match validate "f" 200 template (Some "handlebars") with Some (inr l) => l | _ => [] end.

Lemma format_accepted : validate "f" 200 template (Some "handlebars") = Some (inr tokens).
Proof. by vm_compute. Qed.
Lemma format_fixed : validate_indent_html "f" template tokens true = inr (true, Some reformatted).
Proof. by vm_compute. Qed.

(** An accepted template on which the formatter fails an assertion: a block opened after other
    text on its line has no indent, and a block inside it starts a line. *)
Definition inline_block : string :=
  "see <a>" +:+ nl +:+ "    <b>x</b> y</a>" +:+ nl.
Definition inline_tokens : list Token :=
  match validate "f" 200 inline_block (Some "handlebars") with Some (inr l) => l | _ => [] end.
Example formatter_fails_assertion :
  validate "f" 200 inline_block (Some "handlebars") = Some (inr inline_tokens) /\
  pretty_print_html "f" inline_tokens = inl (AssertionError EmptyString).
Proof. split; vm_compute; reflexivity. Qed.
End FormatDemo.

Lemma formatting_keeps_text_witness :
  squeeze FormatDemo.reformatted = squeeze FormatDemo.template.
Proof.
  refine (proj2 (proj1 (formatting_keeps_text "f" 200 FormatDemo.template (Some "handlebars")
    FormatDemo.tokens true true (Some FormatDemo.reformatted) _ _ FormatDemo.format_accepted
    FormatDemo.format_fixed) FormatDemo.reformatted eq_refl)).
  - by vm_compute.
  - vm_compute. lia.
Defined.
