(* ===== verification/DevTools.v ===== *)
(** * Smaller tools (tools/lib/html_branches.py, tools/lib/gitlint_rules.py)

    The search for duplicate ids in templates, and the rule on the mood of commit titles. *)

From Stdlib Require Import Ascii.
From stdpp Require Import pretty.
From S2P Require Import Prelude PyText TemplateParser TemplateValidator TemplateProps.

(** ** html_branches.py *)

(** The loop of [split_for_id_and_class]: [outside] and [s] are its variables
    [outside_braces] and [s]. *)
Fixpoint split_loop (element : string) (outside : bool) (s : string) : list string :=
  match element with
  | EmptyString => if String.eqb s EmptyString then [] else [s]
  | String ch element' =>
      let outside := if Ascii.eqb ch "{" then false else outside in
      let outside := if Ascii.eqb ch "}" then true else outside in
      if Ascii.eqb ch " " && outside
      then (if String.eqb s EmptyString then [] else [s]) ++ split_loop element' outside EmptyString
      else split_loop element' outside (s +:+ String ch EmptyString)
  end.

Definition split_for_id_and_class (element : string) : list string := split_loop element true EmptyString.

(** [re.search(prefix + "(.*?)" + quote, s)]: the shortest text up to the quote after the
    first occurrence of the prefix that a quote follows on the same line. *)
Fixpoint up_to_quote (quote : ascii) (s : string) : option string :=
  match s with
  | EmptyString => None
  | String c s' => if Ascii.eqb c quote then Some EmptyString
                   else if Ascii.eqb c newline_char then None
                   else String c <$> up_to_quote quote s'
  end.
Fixpoint search_attribute (prefix : string) (quote : ascii) (s : string) : option string :=
  let here := if startswith prefix s then up_to_quote quote (drop_chars (len prefix) s) else None in
  match here with
  | Some g => Some g
  | None => match s with EmptyString => None | String _ s' => search_attribute prefix quote s' end
  end.

Record TagInfo := mkTagInfo { ti_tag : string; ti_classes : list string; ti_ids : list string; ti_token : Token }.

Definition words (t : TagInfo) : list string :=
  ti_tag t :: map (fun s => "." +:+ s) (ti_classes t) ++ map (fun s => "#" +:+ s) (ti_ids t).

Definition text (t : TagInfo) : string :=
  ti_tag t +:+ (match ti_classes t with [] => EmptyString | l => "." +:+ join "." l end) +:+
  (match ti_ids t with [] => EmptyString | l => "#" +:+ join "#" l end).

Definition attribute_words (name : string) (s : string) : list string :=
  let group q := match search_attribute (" " +:+ name +:+ "=" +:+ String q EmptyString) q s with
                 | Some g => split_for_id_and_class g
                 | None => []
                 end in
  group quote_char ++ group "039"%char.

Definition get_tag_info (token : Token) : TagInfo :=
  mkTagInfo (tk_tag token) (attribute_words "class" (tk_s token)) (attribute_words "id" (tk_s token)) token.

(** [template_id_dict[ids].append(..)] on the dictionary, in order of insertion. *)
Fixpoint dict_append (key value : string) (d : list (string * list string)) : list (string * list string) :=
  match d with
  | [] => [(key, [value])]
  | (k, l) :: d' => if String.eqb k key then (k, l ++ [value]) :: d' else (k, l) :: dict_append key value d'
  end.

(** Where a token stands: [Line n:fn]. *)
Definition place (fn : string) (token : Token) : string := "Line " +:+ pretty (tk_line token) +:+ ":" +:+ fn.

Definition add_token (fn : string) (d : list (string * list string)) (token : Token) :
    list (string * list string) :=
  fold_left (fun d id => dict_append id (place fn token) d) (ti_ids (get_tag_info token)) d.

(** [templates] are the names of the files with their contents; [None] is a tokenizer that
    has not ended within its bound. *)
Fixpoint build_id_dict_from (fuel : nat) (templates : list (string * string))
    (d : list (string * list string)) : option (result (list (string * list string))) :=
  match templates with
  | [] => Some (inr d)
  | (fn, content) :: templates' =>
      match tokenize content None fuel with
      | None => None
      | Some (inl (FormattedError m)) =>
          Some (inl (PlainException (line 16 ("fn: " +:+ fn) +:+ line 16 m)))
      | Some (inl e) => Some (inl e)
      | Some (inr tokens) => build_id_dict_from fuel templates' (fold_left (add_token fn) tokens d)
      end
  end.
Definition build_id_dict (fuel : nat) (templates : list (string * string)) :=
  build_id_dict_from fuel templates [].

(** ** gitlint_rules.py *)

Definition TENSE_DATA : list (list string * string) :=
  [(["adds"; "adding"; "added"], "add");
   (["allows"; "allowing"; "allowed"], "allow");
   (["amends"; "amending"; "amended"], "amend");
   (["bumps"; "bumping"; "bumped"], "bump");
   (["calculates"; "calculating"; "calculated"], "calculate");
   (["changes"; "changing"; "changed"], "change");
   (["cleans"; "cleaning"; "cleaned"], "clean");
   (["commits"; "committing"; "committed"], "commit");
   (["corrects"; "correcting"; "corrected"], "correct");
   (["creates"; "creating"; "created"], "create");
   (["darkens"; "darkening"; "darkened"], "darken");
   (["disables"; "disabling"; "disabled"], "disable");
   (["displays"; "displaying"; "displayed"], "display");
   (["documents"; "documenting"; "documented"], "document");
   (["drys"; "drying"; "dryed"], "dry");
   (["ends"; "ending"; "ended"], "end");
   (["enforces"; "enforcing"; "enforced"], "enforce");
   (["enqueues"; "enqueuing"; "enqueued"], "enqueue");
   (["extracts"; "extracting"; "extracted"], "extract");
   (["finishes"; "finishing"; "finished"], "finish");
   (["fixes"; "fixing"; "fixed"], "fix");
   (["formats"; "formatting"; "formatted"], "format");
   (["guards"; "guarding"; "guarded"], "guard");
   (["handles"; "handling"; "handled"], "handle");
   (["hides"; "hiding"; "hid"], "hide");
   (["increases"; "increasing"; "increased"], "increase");
   (["ignores"; "ignoring"; "ignored"], "ignore");
   (["implements"; "implementing"; "implemented"], "implement");
   (["improves"; "improving"; "improved"], "improve");
   (["keeps"; "keeping"; "kept"], "keep");
   (["kills"; "killing"; "killed"], "kill");
   (["makes"; "making"; "made"], "make");
   (["merges"; "merging"; "merged"], "merge");
   (["moves"; "moving"; "moved"], "move");
   (["permits"; "permitting"; "permitted"], "permit");
   (["prevents"; "preventing"; "prevented"], "prevent");
   (["pushes"; "pushing"; "pushed"], "push");
   (["rebases"; "rebasing"; "rebased"], "rebase");
   (["refactors"; "refactoring"; "refactored"], "refactor");
   (["removes"; "removing"; "removed"], "remove");
   (["renames"; "renaming"; "renamed"], "rename");
   (["reorders"; "reordering"; "reordered"], "reorder");
   (["replaces"; "replacing"; "replaced"], "replace");
   (["requires"; "requiring"; "required"], "require");
   (["restores"; "restoring"; "restored"], "restore");
   (["sends"; "sending"; "sent"], "send");
   (["sets"; "setting"], "set");
   (["separates"; "separating"; "separated"], "separate");
   (["shows"; "showing"; "showed"], "show");
   (["simplifies"; "simplifying"; "simplified"], "simplify");
   (["skips"; "skipping"; "skipped"], "skip");
   (["sorts"; "sorting"], "sort");
   (["speeds"; "speeding"; "sped"], "speed");
   (["starts"; "starting"; "started"], "start");
   (["supports"; "supporting"; "supported"], "support");
   (["takes"; "taking"; "took"], "take");
   (["testing"; "tested"], "test");
   (["truncates"; "truncating"; "truncated"], "truncate");
   (["updates"; "updating"; "updated"], "update");
   (["uses"; "using"; "used"], "use")].

(** A dictionary: the last entry of a word counts. *)
Definition TENSE_CORRECTIONS : list (string * string) :=
  concat (map (fun row => map (fun word => (word, row.2)) row.1) TENSE_DATA).
Definition correction (word : string) : option string :=
  snd <$> List.find (fun e => String.eqb e.1 word) (reverse TENSE_CORRECTIONS).

(** [line.split(": ", 1)[-1]]. *)
Fixpoint after_prefix (line : string) : option string :=
  if startswith ": " line then Some (drop_chars 2 line)
  else match line with EmptyString => None | String _ line' => after_prefix line' end.
Definition subject_of (line : string) : string := default line (after_prefix line).

Record RuleViolation := mkRuleViolation { rv_rule : string; rv_message : string }.

Definition validate_title (line title : string) : result (list RuleViolation) :=
  match first_word (subject_of line) with
  | None => inl IndexError
  | Some w =>
      match correction (lower w) with
      | None => inr []
      | Some imperative =>
          inr [mkRuleViolation "Z1" ("The first word in commit title should be in imperative mood (" +:+
            quoted (lower w) +:+ " -> " +:+ quoted imperative +:+ "): " +:+ quoted title)]
      end
  end.

(** ** What the dictionary of ids holds *)

Definition dict_get (key : string) (d : list (string * list string)) : list string :=
  default [] (snd <$> List.find (fun e => String.eqb e.1 key) d).

Lemma dict_get_append key value key' d :
  dict_get key' (dict_append key value d) = dict_get key' d ++ (if String.eqb key key' then [value] else []).
Proof.
  unfold dict_get. induction d as [|[k l] d IH]; cbn [dict_append List.find fst].
  - by destruct (String.eqb key key').
  - destruct (String.eqb_spec k key) as [->|Hk]; cbn [List.find fst].
    + destruct (String.eqb key key') eqn:E; [done|]. by rewrite app_nil_r.
    + destruct (String.eqb_spec k key') as [->|Hk']; [|exact IH].
      destruct (String.eqb_spec key key') as [->|]; [done|]. by rewrite app_nil_r.
Qed.

(** The places at which a token has the id, once per mention. *)
Definition mentions (id fn : string) (t : Token) : list string :=
  map (fun _ => place fn t) (List.filter (fun i => String.eqb i id) (ti_ids (get_tag_info t))).

Lemma dict_get_ids id fn t ids d :
  dict_get id (fold_left (fun d i => dict_append i (place fn t) d) ids d) =
  dict_get id d ++ map (fun _ => place fn t) (List.filter (fun i => String.eqb i id) ids).
Proof.
  revert d. induction ids as [|i ids IH]; intros d; cbn [fold_left List.filter map]; [by rewrite app_nil_r|].
  rewrite IH, dict_get_append, <-app_assoc. by destruct (String.eqb i id).
Qed.

Lemma dict_get_tokens id fn tokens d :
  dict_get id (fold_left (add_token fn) tokens d) = dict_get id d ++ concat (map (mentions id fn) tokens).
Proof.
  revert d. induction tokens as [|t tokens IH]; intros d; cbn [fold_left map concat]; [by rewrite app_nil_r|].
  rewrite IH. unfold add_token at 1. rewrite dict_get_ids, <-app_assoc. done.
Qed.

(** All mentions of an id in the templates, in order. *)
Definition all_mentions (fuel : nat) (id : string) (templates : list (string * string)) : list string :=
  concat (map (fun fc => match tokenize fc.2 None fuel with
                         | Some (inr tokens) => concat (map (mentions id fc.1) tokens)
                         | _ => []
                         end) templates).

(** The dictionary lists every mention of every id: for each id, the places of its mentions in
    the templates, in order and with repetitions. *)
Theorem id_dict_lists_mentions fuel templates d id :
  build_id_dict fuel templates = Some (inr d) -> dict_get id d = all_mentions fuel id templates.
Proof.
  unfold build_id_dict. change (dict_get id d = ?r) with (dict_get id d = dict_get id [] ++ r).
  generalize (@nil (string * list string)). unfold all_mentions.
  induction templates as [|[fn content] templates IH]; intros d0; cbn [build_id_dict_from map concat fst snd].
  - intros [= <-]. by rewrite app_nil_r.
  - destruct (tokenize content None fuel) as [[[]|tokens]|]; try done.
    intros H. apply IH in H as ->. by rewrite dict_get_tokens, <-app_assoc.
Qed.

(** ** Titles corrected as suggested pass *)

Lemma corrections_settled :
  forallb (fun e => match correction (lower e.2) with None => true | Some _ => false end && String.eqb (lower e.2) e.2 &&
             str_forall (fun c => negb (is_space c)) e.2 && negb (String.eqb e.2 EmptyString))
    TENSE_CORRECTIONS = true.
Proof. vm_compute. reflexivity. Qed.

Lemma correction_entry word imperative :
  correction word = Some imperative -> (word, imperative) ∈ TENSE_CORRECTIONS.
Proof.
  unfold correction. destruct (List.find _ _) as [[w i]|] eqn:E; [|done]. intros [= <-].
  apply List.find_some in E as [Hin He%String.eqb_eq]. simpl in He. subst w.
  by apply list_elem_of_In, elem_of_reverse in Hin.
Qed.

Lemma first_word_of w rest :
  w <> EmptyString -> str_forall (fun c => negb (is_space c)) w = true ->
  first_word (w +:+ " " +:+ rest) = Some w.
Proof.
  intros Hne Hw. unfold first_word.
  assert (lstrip_with is_space (w +:+ " " +:+ rest) = w +:+ " " +:+ rest) as ->.
  { apply lstrip_with_first. destruct w as [|c w]; [done|]. simpl in *.
    apply andb_true_iff in Hw as [Hc _]. by apply negb_true_iff. }
  destruct w as [|c w]; [done|]. change (String c w +:+ " " +:+ rest) with (String c (w +:+ " " +:+ rest)).
  f_equal. exact (take_while_all (fun c => negb (is_space c)) (String c w) (" " +:+ rest) Hw eq_refl).
Qed.

(** A title that begins with the verb the rule suggests passes the rule. *)
Theorem suggestion_is_accepted word imperative rest title :
  correction word = Some imperative -> after_prefix (imperative +:+ " " +:+ rest) = None ->
  validate_title (imperative +:+ " " +:+ rest) title = inr [].
Proof.
  intros Hc Hp. apply correction_entry in Hc. pose proof corrections_settled as Hs.
  rewrite forallb_forall in Hs. apply list_elem_of_In in Hc. specialize (Hs _ Hc). cbn [snd] in Hs.
  destruct_andb. apply String.eqb_eq in H2. unfold validate_title, subject_of. rewrite Hp.
  change (default ?x None) with x. rewrite first_word_of; [|by intros ->|done]. rewrite H2 in *.
  by destruct (correction imperative).
Qed.

Example suggestion_example : validate_title "Added a probe" "Added a probe" =
  inr [mkRuleViolation "Z1" ("The first word in commit title should be in imperative mood (" +:+
    quoted "added" +:+ " -> " +:+ quoted "add" +:+ "): " +:+ quoted "Added a probe")].
Proof. by vm_compute. Qed.

(** Nothing after the prefix: the rule fails with [IndexError]. *)
Example empty_subject_fails : validate_title "docs: " "docs:" = inl IndexError.
Proof. by vm_compute. Qed.
