(* ===== verification/RuffTui.v ===== *)
(** * The interface around Ruff (tools/ruff_tui.py, tools/ruff_summary.py)

    An interactive program: an interaction tree whose events are the questions it asks, the
    commands it runs and the lines it prints.  Its [while True] loops are [ITree.iter].
    [json.loads] and Ruff itself are parameters; what Ruff prints is taken in the shape its
    documentation gives it.  Characters beyond U+00FF, which occur in labels only, are written
    as other single characters. *)

From Stdlib Require Import Ascii.
From stdpp Require Import pretty.
From ITree Require Import ITree.
From S2P Require Import Prelude PyText.
Local Open Scope Z_scope.

(** ** Events *)

(** [subprocess.CompletedProcess]: what a command printed. *)
Record CompletedProcess := mkCompletedProcess { stdout : string; stderr : string }.

Variant tuiE : Type -> Type :=
(** [inquirer.List]: the position of the choice taken, [None] when the user interrupts. *)
| Choose (message : string) (labels : list string) : tuiE (option nat)
(** [inquirer.Text]. *)
| Ask (message default_ : string) : tuiE (option string)
(** [subprocess.run]: [None] when the program cannot be started. *)
| Run (cmd : list string) : tuiE (option CompletedProcess)
(** [os.path.exists]. *)
| Exists (path : string) : tuiE bool
(** [print], to standard output or to standard error, and [input]. *)
| Print (line : string) : tuiE unit
| PrintError (line : string) : tuiE unit
| Input (prompt : string) : tuiE unit
(** An exception that ends the program. *)
| Raise (e : exn) : tuiE Empty_set.

Abbreviation Tui := (itree tuiE).

#[export] Instance tui_ret : MRet Tui := fun A a => Ret a.
#[export] Instance tui_bind : MBind Tui := fun A B k m => ITree.bind m k.

Definition print (line : string) : Tui unit := ITree.trigger (Print line).
Definition print_error (line : string) : Tui unit := ITree.trigger (PrintError line).
Definition input (prompt : string) : Tui unit := ITree.trigger (Input prompt).
Definition throw {A} (e : exn) : Tui A :=
  ITree.bind (ITree.trigger (Raise e)) (fun x => match x : Empty_set with end).

(** [_run]: a program that cannot be started raises, whatever [check] says. *)
Definition run (cmd : list string) : Tui CompletedProcess :=
  r ← ITree.trigger (Run cmd);
  match r with Some res => mret res | None => throw (OSError "FileNotFoundError") end.

(** [inquirer.prompt] of one list: the value of the choice taken. *)
Definition choose {A} (message : string) (choices : list (string * A)) : Tui (option A) :=
  i ← ITree.trigger (Choose message (map fst choices));
  mret (k ← i; snd <$> choices !! k).

(** ** Constants *)

Definition RET : string := "__return__".
Definition QUIT : string := "__quit__".
Definition RERUN : string := "__rerun__".
Definition CHPATH : string := "__changepath__".

(** The marks and the dash of the labels. *)
Definition mark (n : N) : string := String (ascii_of_N n) EmptyString.
Definition dash : string := mark 151.
Definition back : string := mark 171.
Definition again : string := mark 174.
Definition move : string := mark 187.
Definition newline : string := mark 10.

Record Issue := mkIssue {
  code : string;
  message : string;
  filepath : string;
  line : Z;
  col : Z;
}.

#[export] Instance Issue_eq_dec : EqDecision Issue.
Proof. solve_decision. Defined.

(** ** Ruff's findings *)

(** One finding of Ruff's JSON output, with the members that are read. *)
Record Location := mkLocation {
  loc_row : option Z; loc_line : option Z; loc_column : option Z; loc_col : option Z }.
Record RawIssue := mkRawIssue {
  raw_code : option string; raw_message : option string; raw_filename : option string;
  raw_file : option string; raw_location : option Location }.

(** A JSON text that was read: a list of findings or anything else. *)
Inductive loaded := Findings (l : list RawIssue) | NotAList.

(** [x or y]: a missing, empty or zero value is replaced. *)
Definition or_text (x : option string) (y : string) : string :=
  match x with Some s => if String.eqb s EmptyString then y else s | None => y end.
Definition or_int (x : option Z) (y : Z) : Z :=
  match x with Some z => if z =? 0 then y else z | None => y end.

Definition parse_issue (it : RawIssue) : Issue :=
  let loc := default (mkLocation None None None None) (raw_location it) in
  mkIssue (or_text (raw_code it) EmptyString) (or_text (raw_message it) EmptyString)
    (or_text (raw_filename it) (or_text (raw_file it) EmptyString))
    (or_int (loc_row loc) (or_int (loc_line loc) 1)) (or_int (loc_column loc) (or_int (loc_col loc) 1)).

Definition parse_issues (raw : list RawIssue) : list Issue := map parse_issue raw.

(** ** Grouping

    Dictionaries keep the order of insertion: association lists without repeated keys. *)

Fixpoint update {V} (key : string) (f : option V -> V) (d : list (string * V)) : list (string * V) :=
  match d with
  | [] => [(key, f None)]
  | (k, v) :: d' => if String.eqb k key then (k, f (Some v)) :: d' else (k, v) :: update key f d'
  end.

Fixpoint get {V} (key : string) (d : list (string * V)) : option V :=
  match d with
  | [] => None
  | (k, v) :: d' => if String.eqb k key then Some v else get key d'
  end.

Record Groups := mkGroups {
  counts : list (string * Z);
  first_msg : list (string * string);
  by_code : list (string * list Issue);
}.

Definition group_one (g : Groups) (iss : Issue) : Groups :=
  mkGroups (update (code iss) (fun c => default 0 c + 1) (counts g))
    (update (code iss) (fun m => default (message iss) m) (first_msg g))
    (update (code iss) (fun l => default [] l ++ [iss]) (by_code g)).

Definition group_by_code (issues : list Issue) : Groups := foldl group_one (mkGroups [] [] []) issues.

(** [Counter.most_common] and [sorted] of the codes. *)
Definition most_common (d : list (string * Z)) : list string :=
  map fst (order_by (fun x y : string * Z => y.2 <=? x.2) d).
Definition sorted_keys (d : list (string * Z)) : list string := order_by String.leb (map fst d).

(** The key [(filepath, line, col)]. *)
Definition issue_le (x y : Issue) : bool :=
  match String.compare (filepath x) (filepath y) with
  | Lt => true
  | Gt => false
  | Eq => (line x <? line y) || ((line x =? line y) && (col x <=? col y))
  end.

(** [s.replace("\n", " ")]. *)
Definition one_line (s : string) : string :=
  str_map (fun c => if Ascii.eqb c (ascii_of_N 10) then " "%char else c) s.

(** [s[:keep] + "..." if len(s) > limit]. *)
Definition shorten (limit keep : nat) (s : string) : string :=
  if (limit <? String.length s)%nat then take_chars keep s +:+ "..." else s.

Definition format_summary_line (code_ msg : string) (count : Z) : string :=
  code_ +:+ ": " +:+ shorten 90 87 (one_line (strip msg)) +:+ " " +:+ dash +:+ " " +:+ pretty count.

Definition place (iss : Issue) : string := filepath iss +:+ ":" +:+ pretty (line iss) +:+ ":" +:+ pretty (col iss).

(** ** The program *)

Section Program.
Context (loads : string -> option loaded).

(** [str.find] and [str.rfind] of one character. *)
Fixpoint find_char (c : ascii) (s : string) : option nat :=
  match s with
  | EmptyString => None
  | String d s' => if Ascii.eqb d c then Some 0%nat else S <$> find_char c s'
  end.
Fixpoint rfind_char (c : ascii) (s : string) : option nat :=
  match s with
  | EmptyString => None
  | String d s' => match rfind_char c s' with
                   | Some n => Some (S n)
                   | None => if Ascii.eqb d c then Some 0%nat else None
                   end
  end.

Definition of_loaded (v : loaded) : list RawIssue := match v with Findings l => l | NotAList => [] end.

Definition JSONDecodeError : exn := ValueError "JSONDecodeError".

Definition run_ruff_json (target : string) : Tui (list RawIssue) :=
  res ← run ["ruff"; "check"; "--quiet"; "--output-format=json"; target];
  let out := strip (stdout res) in
  if String.eqb out EmptyString then
    (if String.eqb (stderr res) EmptyString then mret tt else print_error (stderr res)) ;;
    mret []
  else
    match loads out with
    | Some v => mret (of_loaded v)
    | None =>
        match find_char "[" out, rfind_char "]" out with
        | Some start, Some end_ =>
            match loads (drop_chars start (take_chars (S end_) out)) with
            | Some v => mret (of_loaded v)
            | None => throw JSONDecodeError
            end
        | _, _ => throw JSONDecodeError
        end
    end.

Definition refresh (path : string) : Tui (list Issue * Groups) :=
  raw ← run_ruff_json path;
  let issues := parse_issues raw in
  mret (issues, group_by_code issues).

Definition pick_sort_order : Tui string :=
  order ← choose "How do you want to sort the rules?"
    [("By frequency (most common first)", "freq"); ("Alphabetically by code", "alpha");
     (back +:+ " Return", RET); ("Quit", QUIT)];
  mret (default RET order).

Definition ask_change_path (current_path : string) : Tui (option string) :=
  ITree.trigger (Ask ("Enter new path (current: " +:+ current_path +:+ ")") current_path).

Definition rule_choices (codes : list string) (g : Groups) : list (string * string) :=
  [(again +:+ " Re-run Ruff", RERUN); (move +:+ " Change path", CHPATH); (back +:+ " Return", RET); ("Quit", QUIT)] ++
  map (fun c => (format_summary_line c (default EmptyString (get c (first_msg g))) (default 0 (get c (counts g))), c))
    codes.

Definition pick_rule (g : Groups) : Tui (option string) :=
  match counts g with
  | [] => print "No issues found." ;; mret None
  | _ =>
      order ← pick_sort_order;
      if String.eqb order RET then mret (Some RET)
      else if String.eqb order QUIT then mret (Some QUIT)
      else
        let sorted_codes := if String.eqb order "freq" then most_common (counts g) else sorted_keys (counts g) in
        rule ← choose "Pick a rule to drill into:" (rule_choices sorted_codes g);
        mret (Some (default RET rule))
  end.

Definition occurrence_choices (issues : list Issue) : list (string * (Issue + string)) :=
  [(back +:+ " Return", inr RET); (again +:+ " Re-run Ruff", inr RERUN); ("Quit", inr QUIT)] ++
  map (fun iss => (shorten 180 177 (place iss +:+ " " +:+ dash +:+ " " +:+ message iss), inl iss))
    (order_by issue_le issues).

Definition pick_occurrence (issues : list Issue) : Tui (Issue + string) :=
  occ ← choose "Select an occurrence:" (occurrence_choices issues);
  mret (default (inr RET) occ).

Definition open_in_vscode (issue : Issue) : Tui unit :=
  found ← ITree.trigger (Exists (filepath issue));
  if negb (found : bool) then
    print_error ("File not found: " +:+ filepath issue +:+ ". Location: " +:+ filepath issue +:+ "+" +:+
                 pretty (line issue))
  else run ["code"; "-g"; place issue] ;; mret tt.

Definition press_enter : Tui unit := input "(press Enter to return)".

Definition or_else (x y : string) : string := if String.eqb x EmptyString then y else x.

Definition show_rule_docs (rule_code : string) : Tui unit :=
  res ← run ["ruff"; "rule"; rule_code];
  let out := or_else (strip (stdout res)) (or_else (strip (stderr res)) "(no documentation available)") in
  print (newline +:+ out +:+ newline) ;;
  press_enter.

Definition show_diff (rule_code where_ path : string) : Tui unit :=
  res ← run ["ruff"; "check"; "--quiet"; "--select"; rule_code; "--diff"; path];
  let out := strip (stdout res) in
  (if String.eqb out EmptyString
   then print (newline +:+ "No diff available for " +:+ rule_code +:+ where_ +:+ path +:+ newline)
   else print (newline +:+ out +:+ newline)) ;;
  press_enter.

Definition show_rule_diff_for_path (rule_code path : string) : Tui unit := show_diff rule_code " on path: " path.
Definition show_file_diff_for_rule (rule_code file_path : string) : Tui unit :=
  show_diff rule_code " in file: " file_path.

(** The loop over the output formats: the first that prints something. *)
Fixpoint first_help (rule_code path : string) (formats : list string) : Tui unit :=
  match formats with
  | [] => print "(no help available)"
  | fmt :: formats' =>
      res ← run ["ruff"; "check"; "--select"; rule_code; "--output-format=" +:+ fmt; path];
      let out := strip (or_else (stdout res) (stderr res)) in
      if String.eqb out EmptyString then first_help rule_code path formats' else print out
  end.

Definition show_rule_help (rule_code path : string) : Tui unit :=
  print (newline +:+ "Showing Ruff help output for " +:+ rule_code +:+ " in " +:+ path +:+ "..." +:+ newline) ;;
  first_help rule_code path ["full"; "text"; "concise"] ;;
  print EmptyString ;;
  press_enter.

Definition apply_fix (rule_code target : string) : Tui unit :=
  print (newline +:+ "Applying Ruff fixes for " +:+ rule_code +:+ " in " +:+ target +:+ " ..." +:+ newline) ;;
  res ← run ["ruff"; "check"; "--quiet"; "--select"; rule_code; "--fix"; target];
  (if String.eqb (strip (stderr res)) EmptyString then mret tt else print (stderr res)) ;;
  print ("Done." +:+ newline) ;;
  press_enter.

Definition apply_rule_fix_for_path : string -> string -> Tui unit := apply_fix.
Definition apply_rule_fix_for_file : string -> string -> Tui unit := apply_fix.

(** ** Menus *)

Definition fix_path_label : string := "Apply fixes for this rule " +:+ dash +:+ " current path".
Definition fix_file_label : string := "Apply fixes for this rule in this file".

Definition occurrence_menu : list (string * string) :=
  [(back +:+ " Return", RET); (again +:+ " Re-run Ruff", RERUN); ("Quit", QUIT); ("Open in VS Code", "open");
   ("Show proposed fix (diff) for this file", "diff_file"); (fix_file_label, "fix_file")].

(** One round of the submenu: another, or its end with what the rule menu returns, if
    anything. *)
Definition occurrence_round (rule_code : string) (sel : Issue) : Tui (unit + option string) :=
  a2 ← choose (place sel) occurrence_menu;
  match a2 with
  | None => mret (inr None)
  | Some occ_action =>
      if String.eqb occ_action RET then mret (inr None)
      else if String.eqb occ_action QUIT || String.eqb occ_action RERUN then mret (inr (Some occ_action))
      else
        (if String.eqb occ_action "open" then open_in_vscode sel
         else if String.eqb occ_action "diff_file" then show_file_diff_for_rule rule_code (filepath sel)
         else if String.eqb occ_action "fix_file" then apply_rule_fix_for_file rule_code (filepath sel)
         else mret tt) ;;
        mret (inl tt)
  end.

Definition rule_menu : list (string * string) :=
  [(back +:+ " Return to rule list", RET); (again +:+ " Re-run Ruff", RERUN); ("Quit", QUIT);
   ("Browse occurrences (open in VS Code)", "browse"); ("Print all occurrences to stdout", "print");
   ("Show rule documentation", "docs");
   ("Show proposed fix (diff) for this rule " +:+ dash +:+ " current path", "diff_rule_path");
   ("Show Ruff help for this rule (annotated hints)", "help_rule_path"); (fix_path_label, "fix_rule_path")].

Fixpoint print_all (rule_code : string) (l : list Issue) : Tui unit :=
  match l with
  | [] => mret tt
  | iss :: l' => print (place iss +:+ ": " +:+ rule_code +:+ " " +:+ message iss) ;; print_all rule_code l'
  end.

Definition browse (rule_code : string) (rule_issues : list Issue) : Tui (unit + string) :=
  sel ← pick_occurrence rule_issues;
  match sel with
  | inr s =>
      if String.eqb s QUIT then mret (inr QUIT)
      else if String.eqb s RERUN then mret (inr RERUN) else mret (inl tt)
  | inl iss =>
      result ← ITree.iter (fun _ : unit => occurrence_round rule_code iss) tt;
      mret (match result with Some s => inr s | None => inl tt end)
  end.

Definition rule_round (rule_code : string) (rule_issues : list Issue) (path : string) : Tui (unit + string) :=
  ans ← choose (rule_code +:+ ": " +:+ pretty (Z.of_nat (length rule_issues)) +:+ " occurrences " +:+ dash +:+
                " choose an action") rule_menu;
  match ans with
  | None => mret (inr RET)
  | Some action =>
      if String.eqb action RET || String.eqb action QUIT || String.eqb action RERUN then mret (inr action)
      else if String.eqb action "browse" then browse rule_code rule_issues
      else
        (if String.eqb action "print" then
           print_all rule_code (order_by issue_le rule_issues) ;; input (newline +:+ "(press Enter to return)")
         else if String.eqb action "docs" then show_rule_docs rule_code
         else if String.eqb action "diff_rule_path" then show_rule_diff_for_path rule_code path
         else if String.eqb action "help_rule_path" then show_rule_help rule_code path
         else if String.eqb action "fix_rule_path" then apply_rule_fix_for_path rule_code path
         else mret tt) ;;
        mret (inl tt)
  end.

Definition show_rule_menu (rule_code : string) (rule_issues : list Issue) (path : string) : Tui string :=
  ITree.iter (fun _ : unit => rule_round rule_code rule_issues path) tt.

(** [if not issues: print(..); break], else the next round with the new findings. *)
Definition shown (path : string) (found : list Issue * Groups) : Tui (string * Groups + unit) :=
  match found.1 with
  | [] => print "No issues found." ;; mret (inr tt)
  | _ => mret (inl (path, found.2))
  end.

Definition main_round (state : string * Groups) : Tui (string * Groups + unit) :=
  let '(path, g) := state in
  chosen ← pick_rule g;
  match chosen with
  | None => mret (inr tt)
  | Some chosen =>
      if String.eqb chosen RET || String.eqb chosen QUIT then mret (inr tt)
      else if String.eqb chosen RERUN then found ← refresh path; shown path found
      else if String.eqb chosen CHPATH then
        new_path ← ask_change_path path;
        match new_path with
        | Some p => if String.eqb p EmptyString then mret (inl state) else found ← refresh p; shown p found
        | None => mret (inl state)
        end
      else
        result ← show_rule_menu chosen (default [] (get chosen (by_code g))) path;
        if String.eqb result QUIT then mret (inr tt)
        else if String.eqb result RERUN then found ← refresh path; shown path found
        else mret (inl state)
  end.

Definition main (path : string) : Tui unit :=
  found ← refresh path;
  match found.1 with
  | [] => print "No issues found."
  | _ => ITree.iter main_round (path, found.2)
  end.
End Program.

(** ** tools/ruff_summary.py *)

Section Summary.
Context (loads_list : string -> option (list RawIssue)).

(** Findings without a code are skipped; the message of a code is its first that is not empty. *)
Definition tally (d : list (string * Z) * list (string * string)) (it : RawIssue) :
    list (string * Z) * list (string * string) :=
  let c := or_text (raw_code it) EmptyString in
  if String.eqb c EmptyString then d
  else (update c (fun n => default 0 n + 1) d.1,
        update c (fun m => or_text m (default EmptyString (raw_message it))) d.2).

Definition summary_lines (issues : list RawIssue) : list string :=
  let '(counts_, messages) := foldl tally ([], []) issues in
  map (fun c => c +:+ ": " +:+ default EmptyString (get c messages) +:+ " " +:+ dash +:+ " " +:+
                pretty (default 0 (get c counts_))) (most_common counts_).

Fixpoint print_lines (l : list string) : Tui unit :=
  match l with [] => mret tt | x :: l' => print x ;; print_lines l' end.

(** The result is the exit status. *)
Definition summary_main : Tui Z :=
  result ← run ["ruff"; "check"; "--quiet"; "--output-format=json"; "."];
  let out := strip (stdout result) in
  if String.eqb out EmptyString then
    (if String.eqb (stderr result) EmptyString then mret tt else print_error (stderr result)) ;;
    print "No issues found." ;;
    mret 0
  else
    match loads_list out with
    | None => print_error "Failed to parse Ruff JSON output." ;; print out ;; mret 1
    | Some issues =>
        match summary_lines issues with
        | [] => print "No issues found." ;; mret 0
        | lines => print_lines lines ;; mret 0
        end
    end.
End Summary.
