(* ===== verification/RuffProps.v ===== *)
(** * What the interface around Ruff does to files

    [careful] is a coinductive predicate on the program: whatever is answered, a command that
    changes files is run only right after its menu item was taken.  The grouping of the
    findings is a partition. *)

From Stdlib Require Import Ascii.
From ITree Require Import ITree Eq.Shallow.
From Paco Require Import paco.
From S2P Require Import Prelude PyText RuffTui.
Local Open Scope Z_scope.

(** ** What counts *)

(** Text that no command takes for an option. *)
Definition plain (s : string) : bool := negb (startswith "-" s).

(** A command that changes files, and the one form it may have. *)
Definition changes (cmd : list string) : bool := existsb (startswith "--fix") cmd.
Definition fix_command (cmd : list string) : bool :=
  match cmd with
  | [a; b; c; d; _; f; _] =>
      bool_decide ([a; b; c; d; f] = ["ruff"; "check"; "--quiet"; "--select"; "--fix"])
  | _ => false
  end.

(** The item taken asks for the change. *)
Definition granted (labels : list string) (i : option nat) : bool :=
  match i ≫= (fun k => labels !! k) with
  | Some label => String.eqb label fix_path_label || String.eqb label fix_file_label
  | None => false
  end.

Definition allowed {X} (e : tuiE X) (g : bool) : bool :=
  match e with Run cmd => negb (changes cmd) || (g && fix_command cmd) | _ => true end.
Definition plausible {X} (e : tuiE X) : X -> bool :=
  match e with Ask _ _ => fun a => match a with Some p => plain p | None => true end | _ => fun _ => true end.
Definition next {X} (e : tuiE X) (g : bool) : X -> bool :=
  match e with
  | Choose _ labels => fun i => granted labels i
  | Run _ => fun _ => false
  | _ => fun _ => g
  end.

(** ** The predicate *)

Section Careful.
Context {R : Type} (Q : R -> Prop).

Inductive carefulF (r : bool -> Tui R -> Prop) (g : bool) : itree' tuiE R -> Prop :=
| careful_RetF x : Q x -> carefulF r g (RetF x)
| careful_TauF t : r g t -> carefulF r g (TauF t)
| careful_VisF X (e : tuiE X) k : allowed e g = true ->
    (forall x, plausible e x = true -> r (next e g x) (k x)) -> carefulF r g (VisF e k).

Lemma carefulF_inv r g o : carefulF r g o ->
  match o with
  | RetF x => Q x
  | TauF t => r g t
  | VisF e k => allowed e g = true /\ forall x, plausible e x = true -> r (next e g x) (k x)
  end.
Proof. by intros []. Qed.

Definition careful_gen (r : bool -> Tui R -> Prop) (g : bool) (t : Tui R) : Prop := carefulF r g (observe t).

Lemma careful_mon : monotone2 careful_gen.
Proof. intros g t r r' H LE. unfold careful_gen in *. destruct H; constructor; auto. Qed.

Definition careful : bool -> Tui R -> Prop := paco2 careful_gen bot2.
End Careful.
#[local] Hint Resolve careful_mon : paco.

(** ** Rules *)

Lemma careful_weaken {R} (Q : R -> Prop) g g' t :
  (g = true -> g' = true) -> careful Q g t -> careful Q g' t.
Proof.
  revert g g' t. pcofix CIH. intros g g' t Hg Ht. punfold Ht. pfold. unfold careful_gen in *.
  destruct Ht as [x Hx|t' Ht|X e k Ha Hk].
  - by constructor.
  - constructor. right. pclearbot. eauto.
  - constructor.
    + destruct e; cbn in *; try done. destruct (changes cmd), g, g'; try done; by cbn in *; auto.
    + intros x Hx. right. specialize (Hk x Hx). pclearbot. eapply CIH; [|exact Hk]. by destruct e.
Qed.

Lemma careful_ret {R} (Q : R -> Prop) g x : Q x -> careful Q g (mret x).
Proof. intros Hx. pfold. unfold careful_gen. by constructor. Qed.

Lemma observe_mbind {R S} (m : Tui R) (k : R -> Tui S) :
  observe (m ≫= k) = match observe m with
                     | RetF x => observe (k x)
                     | TauF t => TauF (t ≫= k)
                     | VisF e h => VisF e (fun x => h x ≫= k)
                     end.
Proof. unfold mbind, tui_bind. rewrite observe_bind. by destruct (observe m). Qed.

(** What the first part establishes is known to the second, which starts without permission. *)
Lemma careful_bind {R S} (Q : R -> Prop) (Q' : S -> Prop) g (m : Tui R) (k : R -> Tui S) :
  careful Q g m -> (forall x, Q x -> careful Q' false (k x)) -> careful Q' g (m ≫= k).
Proof.
  intros Hm Hk. revert g m Hm. pcofix CIH. intros g m Hm. punfold Hm. unfold careful_gen in Hm.
  pfold. unfold careful_gen. rewrite observe_mbind. destruct Hm as [x Hx|t Ht|X e h Ha Hh].
  - assert (careful Q' g (k x)) as Hkx by (eapply careful_weaken; [|by apply Hk]; done).
    punfold Hkx. eapply careful_mon; [exact Hkx|]. intros ? ? [?|[]]. left.
    eapply paco2_mon_bot; [eassumption|done].
  - constructor. right. pclearbot. eauto.
  - constructor; [done|]. intros x Hx. right. specialize (Hh x Hx). pclearbot. eauto.
Qed.

Lemma careful_mono {R} (Q Q' : R -> Prop) g (t : Tui R) :
  careful Q g t -> (forall x, Q x -> Q' x) -> careful Q' g t.
Proof.
  intros Ht HQ. revert g t Ht. pcofix CIH. intros g t Ht. punfold Ht. pfold. unfold careful_gen in *.
  destruct Ht as [x Hx|t' Ht|X e k Ha Hk]; constructor; auto.
  - right. pclearbot. eauto.
  - intros x Hx. right. specialize (Hk x Hx). pclearbot. eauto.
Qed.

(** One event: it has to be allowed, and the rest starts with what its answer grants. *)
Lemma careful_trigger {X S} (Q : S -> Prop) g (e : tuiE X) (k : X -> Tui S) :
  allowed e g = true -> (forall x, plausible e x = true -> careful Q (next e g x) (k x)) ->
  careful Q g (ITree.trigger e ≫= k).
Proof.
  intros Ha Hk. pfold. unfold careful_gen. rewrite observe_mbind.
  change (observe (ITree.trigger e)) with (VisF e (fun x => Ret x) : itree' tuiE X). constructor; [done|].
  intros x Hx. left. specialize (Hk x Hx). pfold. unfold careful_gen. rewrite observe_mbind.
  change (observe (Ret x)) with (RetF x : itree' tuiE X). by punfold Hk.
Qed.

(** A loop all of whose rounds are careful and keep [I]. *)
Lemma careful_iter {J R} (I : J -> Prop) (Q : R -> Prop) (body : J -> Tui (J + R)) g j :
  (forall j, I j -> careful (fun x => match x with inl j' => I j' | inr r => Q r end) false (body j)) ->
  I j -> careful Q g (ITree.iter body j).
Proof.
  intros Hb. revert g j. pcofix CIH. intros g j Hj.
  pose proof (careful_weaken _ false g _ ltac:(done) (Hb j Hj)) as Hj'. clear Hj.
  enough (forall g t, careful (fun x => match x with inl j' => I j' | inr r => Q r end) g t ->
    paco2 (careful_gen Q) r g
      (t ≫= (fun lr => ITree.on_left lr l (Tau (ITree.iter body l))))) as Hgen.
  { specialize (Hgen _ _ Hj'). punfold Hgen. }
  clear g j Hj'. pcofix CIH'. intros g t Ht. punfold Ht. unfold careful_gen in Ht.
  pfold. unfold careful_gen. rewrite observe_mbind. destruct Ht as [[j|x] Hx|t' Ht|X e h Ha Hh].
  - constructor. right. by apply CIH.
  - by constructor.
  - constructor. right. pclearbot. by apply CIH'.
  - constructor; [done|]. intros x Hx. right. specialize (Hh x Hx). pclearbot. by apply CIH'.
Qed.

(** ** Events and helpers of the program *)

Definition any {R} (_ : R) : Prop := True.

Lemma careful_event {X} g (e : tuiE X) : allowed e g = true -> careful any g (ITree.trigger e).
Proof.
  intros Ha. pfold. unfold careful_gen. constructor; [done|]. intros x _. left. pfold. by constructor.
Qed.

Lemma careful_print g s : careful any g (print s).
Proof. by apply careful_event. Qed.
Lemma careful_print_error g s : careful any g (print_error s).
Proof. by apply careful_event. Qed.
Lemma careful_input g s : careful any g (input s).
Proof. by apply careful_event. Qed.
Lemma careful_throw {A} (Q : A -> Prop) g e : careful Q g (throw e).
Proof. apply careful_trigger; [done|]. by intros []. Qed.
Lemma careful_run g cmd : allowed (Run cmd) g = true -> careful any g (run cmd).
Proof.
  intros Ha. apply careful_trigger; [done|]. intros [res|] _; [by apply careful_ret|apply careful_throw].
Qed.

(** The value of a choice that was taken is one of those offered. *)
Lemma careful_choose {A S} (Q : S -> Prop) g msg (choices : list (string * A)) (k : option A -> Tui S) :
  careful Q false (k None) ->
  (forall i label a, choices !! i = Some (label, a) ->
     careful Q (String.eqb label fix_path_label || String.eqb label fix_file_label) (k (Some a))) ->
  careful Q g (choose msg choices ≫= k).
Proof.
  intros Hn Hs. pfold. unfold careful_gen. unfold choose. rewrite !observe_mbind.
  change (observe (ITree.trigger (Choose msg (map fst choices)))) with
    (VisF (Choose msg (map fst choices)) (fun x => Ret x) : itree' tuiE (option nat)).
  constructor; [done|]. intros i _. left. pfold. unfold careful_gen. rewrite !observe_mbind.
  change (observe (Ret ?x)) with (RetF x : itree' tuiE (option nat)). cbv iota beta.
  assert (careful Q (next (Choose msg (map fst choices)) g i) (k (j ← i; snd <$> choices !! j))) as Ht;
    [|by punfold Ht].
  cbn [next]. unfold granted. destruct i as [i|]; cbn; [|done]. rewrite list_lookup_fmap.
  destruct (choices !! i) as [[label a]|] eqn:Ei; cbn; [by eapply Hs|done].
Qed.

(** ** Dictionaries and grouping *)

Lemma get_update {V} key f (d : list (string * V)) k :
  get k (update key f d) = if String.eqb k key then Some (f (get key d)) else get k d.
Proof.
  induction d as [|[k0 v] d IH]; cbn [update get].
  - rewrite (String.eqb_sym key k). by destruct (String.eqb_spec k key).
  - destruct (String.eqb_spec k0 key) as [->|Hne]; cbn [get].
    + rewrite (String.eqb_sym key k). by destruct (String.eqb_spec k key).
    + rewrite IH. destruct (String.eqb_spec k0 k) as [->|]; [|done].
      by rewrite (proj2 (String.eqb_neq _ _) Hne).
Qed.

Lemma Forall_get {V} (P : string * V -> Prop) (d : list (string * V)) k v :
  get k d = Some v -> Forall P d -> P (k, v).
Proof.
  intros Hg Hd. induction Hd as [|[k0 v0] d Hkv _ IH]; cbn [get] in Hg; [done|].
  destruct (String.eqb_spec k0 k) as [->|]; [by injection Hg as ->|auto].
Qed.

Lemma get_member {V} (d : list (string * V)) k v : (k, v) ∈ d -> is_Some (get k d).
Proof.
  induction d as [|[k0 v0] d IH]; [by intros ?%elem_of_nil|]. cbn [get].
  intros [[= <- <-]|Hin]%elem_of_cons; [rewrite String.eqb_refl; eauto|].
  destruct (String.eqb k0 k); eauto.
Qed.

(** The findings of a code, in order; [None] where there are none. *)
Definition of_code (c : string) (issues : list Issue) : list Issue :=
  List.filter (fun iss => String.eqb (code iss) c) issues.
Definition some_of {A} (l : list A) : option (list A) := match l with [] => None | _ => Some l end.

Lemma of_code_snoc c issues iss :
  of_code c (issues ++ [iss]) = of_code c issues ++ (if String.eqb (code iss) c then [iss] else []).
Proof. unfold of_code. rewrite List.filter_app. simpl. by destruct (String.eqb _ _). Qed.

(** Grouping is a partition of the findings: under each code the groups hold exactly its
    findings, in their order, with their number and the message of the first of them. *)
Theorem group_by_code_partitions issues c :
  let g := group_by_code issues in
  get c (by_code g) = some_of (of_code c issues) /\
  get c (counts g) = (fun l => Z.of_nat (length l)) <$> some_of (of_code c issues) /\
  get c (first_msg g) = message <$> head (of_code c issues).
Proof.
  induction issues as [|iss issues IH] using rev_ind; [done|].
  unfold group_by_code in *. rewrite foldl_snoc. cbn zeta in *.
  set (g := foldl group_one (mkGroups [] [] []) issues) in *. destruct IH as (Hb & Hc & Hf).
  unfold group_one. cbn [by_code counts first_msg]. rewrite !get_update, of_code_snoc.
  rewrite (String.eqb_sym c (code iss)).
  destruct (String.eqb_spec (code iss) c) as [Hcode|_]; [|by rewrite app_nil_r].
  rewrite Hcode, Hb, Hc, Hf. destruct (of_code c issues) as [|i l]; cbn; [done|].
  rewrite length_app. cbn. repeat split; try done. f_equal. lia.
Qed.

(** ** Names that Ruff prints *)

(** No rule code and no file name is taken for an option. *)
Definition plain_issue (iss : Issue) : Prop := plain (code iss) = true /\ plain (filepath iss) = true.
Definition plain_groups (g : Groups) : Prop :=
  Forall (fun e => plain e.1 = true) (counts g) /\ Forall (fun e => Forall plain_issue e.2) (by_code g).

Lemma Forall_update {V} (P : string * V -> Prop) key f (d : list (string * V)) :
  (forall o, (forall v, o = Some v -> P (key, v)) -> P (key, f o)) -> Forall P d -> Forall P (update key f d).
Proof.
  intros Hf. induction 1 as [|[k v] d Hkv Hd IH]; cbn [update].
  - constructor; [|done]. by apply Hf.
  - destruct (String.eqb_spec k key) as [->|]; constructor; try done. apply Hf. by intros ? [= <-].
Qed.

Lemma plain_group_by_code issues : Forall plain_issue issues -> plain_groups (group_by_code issues).
Proof.
  induction issues as [|iss issues IH] using rev_ind; [by repeat constructor|].
  intros [Hl [Hi _]%Forall_cons]%Forall_app. destruct (IH Hl) as [Hc Hb].
  unfold group_by_code. rewrite foldl_snoc. split; cbn [group_one counts by_code].
  - apply Forall_update; [|exact Hc]. intros o _. apply Hi.
  - apply Forall_update; [|exact Hb]. intros [l|] Ho; cbn; [|by apply Forall_singleton].
    apply Forall_app. split; [by apply Ho|by apply Forall_singleton].
Qed.

Lemma plain_not_fix s : plain s = true -> startswith "--fix" s = false.
Proof.
  unfold plain. destruct s as [|a s]; [done|]. cbn [startswith]. by destruct (Ascii.eqb "-" a).
Qed.

Lemma plain_place iss : plain (filepath iss) = true -> startswith "--fix" (place iss) = false.
Proof.
  unfold place. destruct (filepath iss) as [|a s]; [done|]. unfold plain.
  change (String a s +:+ ?t) with (String a (s +:+ t)). cbn [startswith]. by destruct (Ascii.eqb "-" a).
Qed.

(** ** The functions of the program *)

Create HintDb careful.
#[local] Hint Resolve careful_print careful_print_error careful_input careful_throw : careful.

(** A command without [--fix] among its arguments. *)
Lemma careful_run_plain g cmd : Forall (fun a => startswith "--fix" a = false) cmd -> careful any g (run cmd).
Proof.
  intros Hc. apply careful_run. cbn [allowed]. unfold changes.
  enough (existsb (startswith "--fix") cmd = false) as -> by done.
  induction Hc as [|a l Ha _ IH]; cbn [existsb]; [done|]. by rewrite Ha, IH.
Qed.

Ltac careful_run := apply careful_run_plain; repeat constructor; auto using plain_not_fix, plain_place.
Ltac careful :=
  repeat match goal with
  | |- careful _ _ (run _ ≫= _) => apply (careful_bind any); [careful_run|intros ? _]
  | |- careful _ _ (_ ≫= _) => apply (careful_bind any); [|intros ? _]
  | |- careful _ _ (mret _) => apply careful_ret; try done
  | |- careful _ _ (let _ := _ in _) => cbv zeta
  | |- careful _ _ (if ?b then _ else _) => destruct b
  end; auto with careful.

Section Functions.
Context (loads : string -> option loaded).
Hypothesis loads_plain : forall text l, loads text = Some (Findings l) -> Forall plain_issue (parse_issues l).

Lemma careful_run_ruff_json target : plain target = true ->
  careful (fun raw => Forall plain_issue (parse_issues raw)) false (run_ruff_json loads target).
Proof.
  intros Ht. unfold run_ruff_json. apply (careful_bind any); [careful_run|intros res _]. cbv zeta.
  destruct (String.eqb _ _).
  - apply (careful_bind any); [careful|intros _ _]. apply careful_ret. constructor.
  - assert (forall text v, loads text = Some v -> Forall plain_issue (parse_issues (of_loaded v))) as Hl.
    { intros text [l|] Hv; [by eapply loads_plain|constructor]. }
    destruct (loads (strip (stdout res))) eqn:Hv; [apply careful_ret; eauto|].
    destruct (find_char _ _); [|auto with careful]. destruct (rfind_char _ _); [|auto with careful].
    destruct (loads (drop_chars _ _)) eqn:Hv'; [apply careful_ret; eauto|auto with careful].
Qed.

Lemma careful_refresh path : plain path = true ->
  careful (fun found => plain_groups found.2) false (refresh loads path).
Proof.
  intros Hp. unfold refresh. eapply careful_bind; [by apply careful_run_ruff_json|].
  intros raw Hr. apply careful_ret. by apply plain_group_by_code.
Qed.

Lemma careful_open_in_vscode iss : plain_issue iss -> careful any false (open_in_vscode iss).
Proof.
  intros [_ Hf]. unfold open_in_vscode. apply careful_trigger; [done|]. intros found _.
  destruct found; cbn [negb]; careful.
Qed.

Lemma careful_show_rule_docs c : plain c = true -> careful any false (show_rule_docs c).
Proof. intros Hc. unfold show_rule_docs, press_enter. careful. Qed.

Lemma careful_show_diff c w p : plain c = true -> plain p = true -> careful any false (show_diff c w p).
Proof. intros Hc Hp. unfold show_diff, press_enter. careful. Qed.

Lemma careful_first_help c p fs : plain c = true -> plain p = true -> careful any false (first_help c p fs).
Proof. intros Hc Hp. induction fs as [|f fs IH]; cbn [first_help]; careful. Qed.

Lemma careful_show_rule_help c p : plain c = true -> plain p = true -> careful any false (show_rule_help c p).
Proof. intros Hc Hp. unfold show_rule_help, press_enter. careful. by apply careful_first_help. Qed.

Lemma careful_print_all c l : careful any false (print_all c l).
Proof. induction l; cbn [print_all]; careful. Qed.

(** With permission, fixes may be applied. *)
Lemma careful_apply_fix c p : careful any true (apply_fix c p).
Proof.
  unfold apply_fix, press_enter. apply careful_trigger; [done|]. intros x _. cbn [next].
  apply (careful_bind any); [|intros res _; careful]. apply careful_run, orb_true_iff. by right.
Qed.

(** Comparisons of literals are computed. *)
Ltac literals :=
  repeat match goal with
  | |- context [String.eqb ?x ?y] =>
      let v := eval vm_compute in (String.eqb x y) in
      match v with true => idtac | false => idtac end; change (String.eqb x y) with v
  end; cbn [orb negb]; cbv iota beta.
(** The items of a menu one by one. *)
Ltac items :=
  let i := fresh "i" in let label := fresh "label" in let a := fresh "a" in let Hi := fresh "Hi" in
  intros i label a Hi;
  repeat (destruct i as [|i]; [injection Hi as <- <-; literals|cbn [lookup list_lookup] in Hi]); [..|done].

Lemma careful_occurrence_round c iss : plain c = true -> plain_issue iss ->
  careful any false (occurrence_round c iss).
Proof.
  intros Hc Hi. pose proof (proj2 Hi) as Hf. unfold occurrence_round. apply careful_choose; [careful|].
  unfold occurrence_menu. items; careful.
  - by apply careful_open_in_vscode.
  - by apply careful_show_diff.
  - apply careful_apply_fix.
Qed.

Lemma careful_browse c l : plain c = true -> Forall plain_issue l -> careful any false (browse c l).
Proof.
  intros Hc Hl. unfold browse.
  apply (careful_bind (fun sel => match sel with inl iss => plain_issue iss | inr _ => True end)).
  - unfold pick_occurrence. apply careful_choose; [by careful|]. intros i label [iss|] Hi; careful.
    cbn. apply list_elem_of_lookup_2 in Hi. unfold occurrence_choices in Hi.
    apply elem_of_app in Hi as [Hi|(x & [= -> ->] & Hx)%list_elem_of_fmap]; [set_solver|].
    rewrite order_by_perm in Hx. by eapply Forall_forall.
  - intros [iss|s] Hsel; [|careful]. apply (careful_bind any); [|intros [] _; careful].
    apply (careful_iter (fun _ => True)); [|done]. intros _ _.
    eapply careful_mono; [by apply careful_occurrence_round|]. by intros [].
Qed.

Lemma careful_rule_round c l path : plain c = true -> plain path = true -> Forall plain_issue l ->
  careful any false (rule_round c l path).
Proof.
  intros Hc Hp Hl. unfold rule_round. apply careful_choose; [careful|].
  unfold rule_menu. items; careful.
  - by apply careful_browse.
  - apply careful_print_all.
  - by apply careful_show_rule_docs.
  - by apply careful_show_diff.
  - by apply careful_show_rule_help.
  - apply careful_apply_fix.
Qed.

Definition plain_choice (chosen : option string) : Prop :=
  match chosen with Some c => plain c = true | None => True end.

Lemma plain_codes (d : list (string * Z)) c : Forall (fun e => plain e.1 = true) d ->
  c ∈ most_common d \/ c ∈ sorted_keys d -> plain c = true.
Proof.
  intros Hd Hc. enough (c ∈ map fst d) as (e & -> & He)%list_elem_of_fmap.
  { by eapply (Forall_forall (fun e => plain e.1 = true)) in He. }
  destruct Hc as [Hc|Hc]; unfold most_common, sorted_keys in Hc; [|by rewrite order_by_perm in Hc].
  apply list_elem_of_fmap in Hc as (e & -> & He). rewrite order_by_perm in He. by apply list_elem_of_fmap_2.
Qed.

Lemma careful_pick_rule g : plain_groups g -> careful plain_choice false (pick_rule g).
Proof.
  intros [Hc _]. unfold pick_rule. destruct (counts g) as [|e d] eqn:Hg; [careful|]. rewrite <- Hg in *.
  clear e d Hg. apply (careful_bind any).
  { unfold pick_sort_order. apply careful_choose; intros; by careful. }
  intros order _. destruct (String.eqb order RET); [careful|]. destruct (String.eqb order QUIT); [careful|].
  cbv zeta. apply careful_choose; [careful|]. intros i label c Hi. careful. cbn.
  apply list_elem_of_lookup_2 in Hi. unfold rule_choices in Hi.
  apply elem_of_app in Hi as [Hi|(x & [= -> ->] & Hx)%list_elem_of_fmap]; [set_solver|].
  apply (plain_codes (counts g)); [done|]. destruct (String.eqb order "freq"); auto.
Qed.

Lemma careful_show_rule_menu c l path : plain c = true -> plain path = true -> Forall plain_issue l ->
  careful any false (show_rule_menu c l path).
Proof.
  intros Hc Hp Hl. apply (careful_iter (fun _ => True)); [|done]. intros _ _.
  eapply careful_mono; [by apply careful_rule_round|]. by intros [].
Qed.

(** What the main loop keeps: the path and the findings are plain. *)
Definition plain_state (state : string * Groups) : Prop := plain state.1 = true /\ plain_groups state.2.
Definition round_result (x : string * Groups + unit) : Prop :=
  match x with inl state => plain_state state | inr _ => True end.

Lemma careful_shown path : plain path = true ->
  careful round_result false (found ← refresh loads path; shown path found).
Proof.
  intros Hp. eapply careful_bind; [by apply careful_refresh|]. intros [[|iss issues] g] Hg; unfold shown; careful.
Qed.

Lemma careful_main_round state : plain_state state -> careful round_result false (main_round loads state).
Proof.
  destruct state as [path g]. intros [Hp Hg]. cbn [fst snd] in *. unfold main_round.
  eapply careful_bind; [by apply careful_pick_rule|]. intros [c|] Hc; [|careful]. cbn in Hc.
  destruct (String.eqb c RET || String.eqb c QUIT); [careful|].
  destruct (String.eqb c RERUN); [by apply careful_shown|].
  destruct (String.eqb c CHPATH).
  - unfold ask_change_path. apply careful_trigger; [done|]. intros [p|] Hpl; cbn in Hpl; [|careful].
    cbn [next]. destruct (String.eqb p EmptyString); [careful|by apply careful_shown].
  - apply (careful_bind any).
    { apply careful_show_rule_menu; [done..|]. destruct (get c (by_code g)) as [l|] eqn:Hl; [|constructor].
      destruct Hg as [_ Hb]. apply (Forall_get _ _ _ _ Hl Hb). }
    intros result _. destruct (String.eqb result QUIT); [careful|].
    destruct (String.eqb result RERUN); [by apply careful_shown|careful].
Qed.

Lemma careful_main path : plain path = true -> careful any false (main loads path).
Proof.
  intros Hp. unfold main. eapply careful_bind; [by apply careful_refresh|]. intros [[|iss issues] g] Hg;
    cbn [fst snd]; [careful|].
  apply (careful_iter plain_state); [|done]. intros state Hs.
  eapply careful_mono; [by apply careful_main_round|]. by intros [].
Qed.
End Functions.

(** ** Runs *)

(** What is seen of a run: the items taken, the paths typed and the commands run. *)
Inductive action :=
| Chose (labels : list string) (i : option nat)
| Typed (p : option string)
| Ran (cmd : list string)
| Other.

Definition action_of {X} (e : tuiE X) : X -> action :=
  match e with
  | Choose _ labels => Chose labels
  | Ask _ _ => Typed
  | Run cmd => fun _ => Ran cmd
  | _ => fun _ => Other
  end.

(** The finite beginnings of the runs of a program. *)
Inductive trace {R} : Tui R -> list action -> Prop :=
| trace_stop t : trace t []
| trace_tau t t' tr : observe t = TauF t' -> trace t' tr -> trace t tr
| trace_vis t X (e : tuiE X) k x tr : observe t = VisF e k -> trace (k x) tr -> trace t (action_of e x :: tr).

(** Every command that changes files applies the fixes of one rule, and the last item taken
    before it, with no command in between, asks for that. *)
Fixpoint orderly (g : bool) (tr : list action) : bool :=
  match tr with
  | [] => true
  | Chose labels i :: tr' => orderly (granted labels i) tr'
  | Ran cmd :: tr' => (negb (changes cmd) || (g && fix_command cmd)) && orderly false tr'
  | _ :: tr' => orderly g tr'
  end.

Definition plain_typed (a : action) : bool := match a with Typed (Some p) => plain p | _ => true end.

Lemma careful_orderly {R} (Q : R -> Prop) g (t : Tui R) tr :
  careful Q g t -> trace t tr -> forallb plain_typed tr = true -> orderly g tr = true.
Proof.
  intros Hc Ht. revert g Hc. induction Ht as [t|t t' tr Ho _ IH|t X e k x tr Ho _ IH]; intros g Hc Hp; [done|..].
  - punfold Hc. unfold careful_gen in Hc. rewrite Ho in Hc. apply carefulF_inv in Hc. pclearbot. by apply IH.
  - punfold Hc. unfold careful_gen in Hc. rewrite Ho in Hc.
    cbn [forallb] in Hp. apply andb_true_iff in Hp as [Hx Hp].
    assert (allowed e g = true /\ (plausible e x = true -> careful Q (next e g x) (k x))) as [Ha Hk].
    { apply carefulF_inv in Hc as [Ha Hk]. split; [done|]. intros Hpl. specialize (Hk x Hpl). by pclearbot. }
    destruct e; cbn [action_of orderly] in *; try (apply IH; [by apply Hk|done]).
    apply andb_true_iff. split; [exact Ha|]. apply IH; [by apply Hk|done].
Qed.

(** C40 The user interface changes files only on request: in every run, however long and whatever
    Ruff and the user answer, a command with [--fix] is one that applies the fixes of one rule
    and is run only right after the user took the menu item that says so; looking at rules,
    diffs, help and files never changes anything.  Ruff's codes and file names, the path given
    at the start and the paths typed must not begin with a dash. *)
Theorem ruff_changes_files_only_on_request loads path tr :
  (forall text l, loads text = Some (Findings l) -> Forall plain_issue (parse_issues l)) ->
  plain path = true -> trace (main loads path) tr -> forallb plain_typed tr = true ->
  orderly false tr = true.
Proof. intros Hl Hp Ht Hty. by eapply careful_orderly; [apply careful_main|..]. Qed.

(** ** A player of scripts *)

Inductive answer := Item (i : nat) | Text (p : string) | Output (out : string) | IsThere (b : bool).

(** The answer to an event and the rest of the script. *)
Definition reply {X} (e : tuiE X) (script : list answer) : option (X * list answer) :=
  match e in tuiE X return option (X * list answer) with
  | Choose _ _ => match script with Item i :: s => Some (Some i, s) | _ => None end
  | Ask _ _ => match script with Text p :: s => Some (Some p, s) | _ => None end
  | Run _ => match script with Output out :: s => Some (Some (mkCompletedProcess out EmptyString), s) | _ => None end
  | Exists _ => match script with IsThere b :: s => Some (b, s) | _ => None end
  | Print _ | PrintError _ | Input _ => Some (tt, script)
  | Raise _ => None
  end.

Fixpoint play {R} (fuel : nat) (script : list answer) (t : Tui R) : list action :=
  match fuel with
  | O => []
  | S fuel' =>
      match observe t with
      | RetF _ => []
      | TauF t' => play fuel' script t'
      | VisF e k =>
          match reply e script with
          | Some (x, script') => action_of e x :: play fuel' script' (k x)
          | None => []
          end
      end
  end.

Lemma play_is_trace {R} fuel script (t : Tui R) : trace t (play fuel script t).
Proof.
  revert script t. induction fuel as [|fuel IH]; intros script t; cbn [play]; [constructor|].
  destruct (observe t) as [x|t'|X e k] eqn:Ho; [constructor|by eapply trace_tau|].
  destruct (reply e script) as [[x s]|]; [by eapply trace_vis|constructor].
Qed.

Definition demo_loads (text : string) : option loaded :=
  if String.eqb text "[...]" then
    Some (Findings [mkRawIssue (Some "E501") (Some "Line too long") (Some "/a.py") None
                      (Some (mkLocation (Some 3) None (Some 80) None));
                    mkRawIssue (Some "F401") (Some "Unused import") (Some "/a.py") None None])
  else None.

Lemma demo_loads_plain text l : demo_loads text = Some (Findings l) -> Forall plain_issue (parse_issues l).
Proof. unfold demo_loads. destruct (String.eqb _ _); [|done]. intros [= <-]. by repeat constructor. Qed.

(** Browse the occurrences of a rule, look at the diff of a file, then fix it. *)
Definition demo_run : list action :=
  play 100 [Output "[...]"; Item 0; Item 5; Item 3; Item 3; Item 4; Output "diff"; Item 5; Output EmptyString; Item 2]
    (main demo_loads "src").

(** The script above: the one fix is run, for the rule F401 and the file. *)
Lemma ruff_changes_files_only_on_request_witness :
  orderly false demo_run = true /\
  List.filter (fun a => match a with Ran cmd => changes cmd | _ => false end) demo_run =
    [Ran ["ruff"; "check"; "--quiet"; "--select"; "F401"; "--fix"; "/a.py"]].
Proof.
  split; [|by vm_compute].
  apply (ruff_changes_files_only_on_request demo_loads "src").
  - exact demo_loads_plain.
  - reflexivity.
  - apply play_is_trace.
  - by vm_compute.
Defined.

(** A path that is typed is passed to Ruff as it is: an option is obeyed. *)
Example typed_option_changes_files :
  last (play 100 [Output "[...]"; Item 0; Item 1; Text "--fix"; Output EmptyString] (main demo_loads "src")) =
    Some Other /\
  Ran ["ruff"; "check"; "--quiet"; "--output-format=json"; "--fix"] ∈
    play 100 [Output "[...]"; Item 0; Item 1; Text "--fix"; Output EmptyString] (main demo_loads "src").
Proof. split; [by vm_compute|]. vm_compute. set_solver. Qed.
