(* ===== verification/Accounts.v ===== *)
(** * Accounts: users, realms, sessions, roles (models/auth.py, auth/roles.py,
    auth/permissions.py, auth/security.py)

    The tables of models/auth.py, the session store in Redis, the queue of outgoing
    mail, and the operations on sessions and permissions.  The store keeps the JSON value
    [SessionData.to_json] prints and [from_json] parses.  Random values ([secrets],
    [uuid4]) and the instant [datetime.now(UTC)] are arguments; a [.first()] without an
    order picks some matching row. *)

From Stdlib Require Import Ascii.
From S2P Require Import Prelude PyText Json Platform Models.
Local Open Scope Z_scope.

(** ** Rows of models/auth.py *)

Record User := mkUser {
  u_id : uuid;
  u_email : string;
  u_password_hash : string;
  u_first_name : string;
  u_last_name : string;
  u_is_active : bool;
  u_is_superuser : bool;
  u_email_verified : bool;
  u_session_version : Z;
}.

Definition full_name (u : User) : string := strip (u_first_name u +:+ " " +:+ u_last_name u).

Record RealmMembership := mkRealmMembership {
  mb_id : uuid;
  mb_user_id : uuid;
  mb_realm_id : uuid;
  mb_role : string;
}.

Record WebAuthnCredential := mkWebAuthnCredential {
  wc_id : uuid;
  wc_user_id : uuid;
  wc_credential_id : string;
  wc_public_key : string;
  wc_sign_count : Z;
  wc_name : string;
  wc_device_type : string;
  wc_backed_up : bool;
  wc_transports : list string;
  wc_last_used_at : option Z;
  wc_created_at : Z;
}.

Record TwoFactorMethod := mkTwoFactorMethod {
  tf_id : uuid;
  tf_user_id : uuid;
  tf_method_type : string;
  tf_secret_encrypted : string;
  tf_is_enabled : bool;
  tf_verified_at : option Z;
  tf_last_used_at : option Z;
}.

Record RecoveryCode := mkRecoveryCode {
  rcode_id : uuid;
  rcode_user_id : uuid;
  rcode_code_hash : string;
  rcode_used_at : option Z;
}.

Record AuthenticationChallenge := mkAuthenticationChallenge {
  ch_id : uuid;
  ch_user_id : option uuid;
  ch_challenge_type : string;
  ch_challenge_hash : string;
  ch_expires_at : Z;
  ch_consumed_at : option Z;
  ch_metadata : json;
}.

Record AuditEvent := mkAuditEvent {
  ev_realm_id : option uuid;
  ev_actor_user_id : option uuid;
  ev_actor_type : string;
  ev_action : string;
  ev_outcome : string;
  ev_target_type : option string;
  ev_target_id : option string;
  ev_source_ip : option string;
  ev_user_agent : string;
  ev_superuser_bypass : bool;
  ev_metadata : json;
}.

(** A message handed to the mail queue by [send_email.delay]. *)
Record Mail := mkMail { mail_to : list string; mail_subject : string; mail_text : string }.

(** The database, the session store (values with the instant they expire at) and the queue. *)
Record AuthDB := mkAuthDB {
  users : gmap uuid User;
  realms : gmap uuid Realm;
  realm_memberships : gmap uuid RealmMembership;
  webauthn_credentials : gmap uuid WebAuthnCredential;
  two_factor_methods : gmap uuid TwoFactorMethod;
  recovery_codes : gmap uuid RecoveryCode;
  authentication_challenges : gmap uuid AuthenticationChallenge;
  audit_events : list AuditEvent;
  redis : gmap string (json * Z);
  outbox : list Mail;
}.

Definition empty_auth : AuthDB := mkAuthDB ∅ ∅ ∅ ∅ ∅ ∅ ∅ [] ∅ [].

Definition set_users (v : gmap uuid User) (d : AuthDB) : AuthDB :=
  mkAuthDB v (realms d) (realm_memberships d) (webauthn_credentials d) (two_factor_methods d)
    (recovery_codes d) (authentication_challenges d) (audit_events d) (redis d) (outbox d).
Definition set_realms (v : gmap uuid Realm) (d : AuthDB) : AuthDB :=
  mkAuthDB (users d) v (realm_memberships d) (webauthn_credentials d) (two_factor_methods d)
    (recovery_codes d) (authentication_challenges d) (audit_events d) (redis d) (outbox d).
Definition set_realm_memberships (v : gmap uuid RealmMembership) (d : AuthDB) : AuthDB :=
  mkAuthDB (users d) (realms d) v (webauthn_credentials d) (two_factor_methods d)
    (recovery_codes d) (authentication_challenges d) (audit_events d) (redis d) (outbox d).
Definition set_webauthn_credentials (v : gmap uuid WebAuthnCredential) (d : AuthDB) : AuthDB :=
  mkAuthDB (users d) (realms d) (realm_memberships d) v (two_factor_methods d)
    (recovery_codes d) (authentication_challenges d) (audit_events d) (redis d) (outbox d).
Definition set_two_factor_methods (v : gmap uuid TwoFactorMethod) (d : AuthDB) : AuthDB :=
  mkAuthDB (users d) (realms d) (realm_memberships d) (webauthn_credentials d) v
    (recovery_codes d) (authentication_challenges d) (audit_events d) (redis d) (outbox d).
Definition set_recovery_codes (v : gmap uuid RecoveryCode) (d : AuthDB) : AuthDB :=
  mkAuthDB (users d) (realms d) (realm_memberships d) (webauthn_credentials d)
    (two_factor_methods d) v (authentication_challenges d) (audit_events d) (redis d)
    (outbox d).
Definition set_authentication_challenges (v : gmap uuid AuthenticationChallenge) (d : AuthDB) : AuthDB :=
  mkAuthDB (users d) (realms d) (realm_memberships d) (webauthn_credentials d)
    (two_factor_methods d) (recovery_codes d) v (audit_events d) (redis d) (outbox d).
Definition set_audit_events (v : list AuditEvent) (d : AuthDB) : AuthDB :=
  mkAuthDB (users d) (realms d) (realm_memberships d) (webauthn_credentials d)
    (two_factor_methods d) (recovery_codes d) (authentication_challenges d) v (redis d)
    (outbox d).
Definition set_redis (v : gmap string (json * Z)) (d : AuthDB) : AuthDB :=
  mkAuthDB (users d) (realms d) (realm_memberships d) (webauthn_credentials d)
    (two_factor_methods d) (recovery_codes d) (authentication_challenges d) (audit_events d) v
    (outbox d).
Definition set_outbox (v : list Mail) (d : AuthDB) : AuthDB :=
  mkAuthDB (users d) (realms d) (realm_memberships d) (webauthn_credentials d)
    (two_factor_methods d) (recovery_codes d) (authentication_challenges d) (audit_events d)
    (redis d) v.

(** The operations of this component. *)
Abbreviation AuthM A := (M AuthDB A).

(** ** auth/roles.py *)

Inductive RealmRole := OWNER | ADMIN | MEMBER | VIEWER.

Inductive RealmPermission :=
| REALM_READ | REALM_MANAGE | REALM_DELETE | MEMBERS_READ | MEMBERS_MANAGE
| MONITORING_READ | MONITORING_MANAGE | AGENT_CREDENTIALS_MANAGE | ALERTS_ACKNOWLEDGE.

#[export] Instance RealmRole_eq_dec : EqDecision RealmRole.
Proof. solve_decision. Defined.
#[export] Instance RealmPermission_eq_dec : EqDecision RealmPermission.
Proof. solve_decision. Defined.

Definition all_permissions : list RealmPermission :=
  [REALM_READ; REALM_MANAGE; REALM_DELETE; MEMBERS_READ; MEMBERS_MANAGE; MONITORING_READ;
   MONITORING_MANAGE; AGENT_CREDENTIALS_MANAGE; ALERTS_ACKNOWLEDGE].

Definition ROLE_PERMISSIONS (role : RealmRole) : list RealmPermission :=
  match role with
  | OWNER => all_permissions
  | ADMIN => [REALM_READ; MEMBERS_READ; MEMBERS_MANAGE; MONITORING_READ; MONITORING_MANAGE;
              AGENT_CREDENTIALS_MANAGE; ALERTS_ACKNOWLEDGE]
  | MEMBER => [REALM_READ; MONITORING_READ; MONITORING_MANAGE; ALERTS_ACKNOWLEDGE]
  | VIEWER => [REALM_READ; MONITORING_READ]
  end.

Definition role_has_permission (role : RealmRole) (permission : RealmPermission) : bool :=
  bool_decide (permission ∈ ROLE_PERMISSIONS role).

(** [RealmRole(value)]: [None] is its [ValueError]. *)
Definition parse_role (value : string) : option RealmRole :=
  if String.eqb value "owner" then Some OWNER
  else if String.eqb value "admin" then Some ADMIN
  else if String.eqb value "member" then Some MEMBER
  else if String.eqb value "viewer" then Some VIEWER
  else None.

(** ** auth/security.py *)

(** [pwdlib.PasswordHash]: salted hashing and its verification. *)
Class PasswordHasher := {
  password_hash_with : string -> string -> string;
  password_verify : string -> string -> bool;
  password_verify_hash : forall salt password,
    password_verify password (password_hash_with salt password) = true;
  password_hash_length : forall salt password,
    (String.length (password_hash_with salt password) <= 255)%nat;
}.

(** The instants of Python's calendar from the epoch to the end of year 9999. *)
Definition in_calendar (t : Z) : bool := (0 <=? t) && (t <? 253402300800000000).

(** [datetime.isoformat] of an instant in UTC and [datetime.fromisoformat]. *)
Class IsoFormat := {
  isoformat : Z -> string;
  fromisoformat : string -> option Z;
  fromisoformat_isoformat : forall t, in_calendar t = true -> fromisoformat (isoformat t) = Some t;
}.

Record SessionData := mkSessionData {
  sd_user_id : uuid;
  sd_active_realm_id : option uuid;
  sd_auth_method : string;
  sd_created_at : Z;
  sd_last_activity : Z;
  sd_user_agent : string;
  sd_ip_address : option string;
  sd_redis_key : string;
  sd_user_session_version : Z;
}.

Section SessionJson.
Context {I : IsoFormat}.

Definition to_json (s : SessionData) : json :=
  JObject [
    ("user_id", JString (str_uuid (sd_user_id s)));
    ("active_realm_id", json_opt (fun r => JString (str_uuid r)) (sd_active_realm_id s));
    ("auth_method", JString (sd_auth_method s));
    ("created_at", JString (isoformat (sd_created_at s)));
    ("last_activity", JString (isoformat (sd_last_activity s)));
    ("user_agent", JString (sd_user_agent s));
    ("ip_address", json_opt JString (sd_ip_address s));
    ("user_session_version", JInt (sd_user_session_version s))
  ].

(** [data[key]] read as text, [UUID(..)], [datetime.fromisoformat(..)]. *)
Definition text_member (key : string) (data : json) : outcome string :=
  match json_get key data with
  | Some (JString s) => Ok s
  | Some _ => Err TypeError
  | None => Err KeyError
  end.

(** A value that [to_json] did not print is refused with one of its faults. *)
Definition from_json (data : json) (redis_key : string) : outcome SessionData :=
  match text_member "user_id" data, text_member "auth_method" data,
        text_member "created_at" data, text_member "last_activity" data with
  | Ok user_id, Ok auth_method, Ok created_at, Ok last_activity =>
      match parse_uuid user_id, fromisoformat created_at, fromisoformat last_activity with
      | Some user_id, Some created_at, Some last_activity =>
          let version := match json_get "user_session_version" data with
                         | Some (JInt v) => Ok v
                         | Some _ => Err TypeError
                         | None => Ok 1
                         end in
          let realm := match json_get "active_realm_id" data with
                       | Some (JString r) =>
                           if String.eqb r EmptyString then Ok None
                           else match parse_uuid r with
                                | Some r => Ok (Some r)
                                | None => Err (ValueError r)
                                end
                       | Some JNull | None => Ok None
                       | Some _ => Err AttributeError
                       end in
          let user_agent := match json_get "user_agent" data with
                            | Some (JString s) => s | _ => EmptyString end in
          let ip_address := match json_get "ip_address" data with
                            | Some (JString s) => Some s | _ => None end in
          match version, realm with
          | Ok version, Ok realm =>
              Ok (mkSessionData user_id realm auth_method created_at last_activity user_agent
                    ip_address redis_key version)
          | Err e, _ | _, Err e => Err e
          end
      | _, _, _ => Err (ValueError "badly formed session")
      end
  | Err e, _, _, _ | _, Err e, _, _ | _, _, Err e, _ | _, _, _, Err e => Err e
  end.
End SessionJson.

Definition normalize_email (email : string) : string := lower (strip email).

Definition hash_password `{PasswordHasher} (salt password : string) : string :=
  password_hash_with salt password.
Definition verify_password `{PasswordHasher} (password encoded : string) : bool :=
  password_verify password encoded.

(** The part of an HTTP request the code reads. *)
Record Request := mkRequest {
  rq_cookies : gmap string string;
  rq_user_agent : option string;
  rq_client_host : option string;
}.

(** [response.set_cookie(..)]. *)
Record Cookie := mkCookie {
  ck_name : string;
  ck_value : string;
  ck_httponly : bool;
  ck_secure : bool;
  ck_samesite : string;
  ck_max_age : Z;
  ck_domain : option string;
  ck_path : string;
}.

(** Redis: GET, SET with an expiry in seconds, DEL. *)
Definition redis_get (now : Z) (key : string) (d : AuthDB) : option json :=
  match redis d !! key with
  | Some (v, expires) => if now <? expires then Some v else None
  | None => None
  end.
Definition redis_set (now : Z) (key : string) (v : json) (ex : Z) : AuthM unit :=
  modify (fun d => set_redis (<[key := (v, now + seconds ex)]> (redis d)) d).
Definition redis_delete (key : string) : AuthM unit :=
  modify (fun d => set_redis (delete key (redis d)) d).

(** [Realm.filter(is_active=True).order_by("created_at").first()]. *)
Definition earlier_realm (x y : Realm) : Realm :=
  if realm_created_at y <? realm_created_at x then y else x.
Definition first_active_realm (d : AuthDB) : option Realm :=
  match List.filter realm_is_active (rows (realms d)) with
  | [] => None
  | r :: l => Some (fold_left earlier_realm l r)
  end.

Definition _initial_realm_id (user : User) (d : AuthDB) : option uuid :=
  match first_row (fun m => (mb_user_id m =? u_id user)%N) (realm_memberships d) with
  | Some membership => Some (mb_realm_id membership)
  | None => if u_is_superuser user then realm_id <$> first_active_realm d else None
  end.

Definition with_active_realm (r : option uuid) (s : SessionData) : SessionData :=
  mkSessionData (sd_user_id s) r (sd_auth_method s) (sd_created_at s) (sd_last_activity s)
    (sd_user_agent s) (sd_ip_address s) (sd_redis_key s) (sd_user_session_version s).
Definition with_last_activity (t : Z) (s : SessionData) : SessionData :=
  mkSessionData (sd_user_id s) (sd_active_realm_id s) (sd_auth_method s) (sd_created_at s) t
    (sd_user_agent s) (sd_ip_address s) (sd_redis_key s) (sd_user_session_version s).

Definition not_authenticated : exn := HTTPException 401 "Not authenticated".
Definition session_expired : exn := HTTPException 401 "Session expired".

Section Sessions.
Context {P : Platform} {I : IsoFormat} (settings : Settings).

Definition _session_key (token : string) : string :=
  session_key_prefix settings +:+ hash_token token.

(** [token] is [secrets.token_urlsafe(48)]. *)
Definition create_session (now : Z) (token : string) (user : User) (request : Request)
    (auth_method : string) : AuthM (SessionData * Cookie) :=
  let redis_key := _session_key token in
  realm ← gets (_initial_realm_id user);
  let session := mkSessionData (u_id user) realm auth_method now now
    (default EmptyString (rq_user_agent request)) (rq_client_host request) redis_key
    (u_session_version user) in
  redis_set now redis_key (to_json session) (session_ttl_seconds settings) ;;
  mret (session, mkCookie (session_cookie_name settings) token true (cookie_secure settings)
    "lax" (session_ttl_seconds settings) (cookie_domain settings) "/").

(** The session cookie; an empty one is no cookie. *)
Definition session_token (request : Request) : option string :=
  match rq_cookies request !! session_cookie_name settings with
  | Some token => if String.eqb token EmptyString then None else Some token
  | None => None
  end.

Definition get_session_user (now : Z) (request : Request) : AuthM (User * SessionData) :=
  match session_token request with
  | None => raise not_authenticated
  | Some token =>
      let redis_key := _session_key token in
      raw ← gets (redis_get now redis_key);
      match raw with
      | None => raise session_expired
      | Some raw =>
          match from_json raw redis_key with
          | Err e => raise e
          | Ok session =>
              found ← gets (fun d => get_row u_is_active (sd_user_id session) (users d));
              match found with
              | None => redis_delete redis_key ;; raise session_expired
              | Some user =>
                  if negb (sd_user_session_version session =? u_session_version user)
                  then redis_delete redis_key ;; raise session_expired
                  else
                    realm ← gets (fun d => match sd_active_realm_id session with
                                           | Some r => Some r
                                           | None => _initial_realm_id user d
                                           end);
                    let session' := with_last_activity now (with_active_realm realm session) in
                    redis_set now redis_key (to_json session') (session_ttl_seconds settings) ;;
                    mret (user, session')
              end
          end
      end
  end.

Definition set_active_realm (now : Z) (session : SessionData) (realm : uuid) :
    AuthM SessionData :=
  let session' := with_last_activity now (with_active_realm (Some realm) session) in
  redis_set now (sd_redis_key session') (to_json session') (session_ttl_seconds settings) ;;
  mret session'.

(** [response.delete_cookie] has no effect on the state. *)
Definition delete_session (request : Request) : AuthM unit :=
  match session_token request with
  | Some token => redis_delete (_session_key token)
  | None => mret tt
  end.

(** ** auth/permissions.py *)

Definition require_superuser (now : Z) (request : Request) : AuthM (User * SessionData) :=
  '(user, session) ← get_session_user now request;
  raise_if (negb (u_is_superuser user))
    (HTTPException 403 "Installation superuser access required") ;;
  mret (user, session).
End Sessions.

Record RealmAuthorization := mkRealmAuthorization {
  ra_user : User;
  ra_session : SessionData;
  ra_realm : Realm;
  ra_role : option RealmRole;
  ra_membership_id : option uuid;
  ra_is_superuser_bypass : bool;
}.

Section Permissions.
Context {P : Platform} {I : IsoFormat} (settings : Settings).

Definition realm_not_found : exn := HTTPException 404 "Realm not found".
Definition permission_denied : exn := HTTPException 403 "Realm permission denied".

Definition require_realm_permission (now : Z) (request : Request) (permission : RealmPermission) :
    AuthM RealmAuthorization :=
  '(user, session) ← get_session_user settings now request;
  match sd_active_realm_id session with
  | None => raise (HTTPException 409 "No active realm selected")
  | Some active =>
      found ← gets (fun d => get_row realm_is_active active (realms d));
      match found with
      | None => raise realm_not_found
      | Some realm =>
          if u_is_superuser user
          then mret (mkRealmAuthorization user session realm None None true)
          else
            membership ← gets (fun d => first_row (fun m => (mb_user_id m =? u_id user)%N &&
                                            (mb_realm_id m =? realm_id realm)%N)
                                          (realm_memberships d));
            match membership with
            | None => raise realm_not_found
            | Some membership =>
                match parse_role (mb_role membership) with
                | None => raise permission_denied
                | Some role =>
                    raise_if (negb (role_has_permission role permission)) permission_denied ;;
                    mret (mkRealmAuthorization user session realm (Some role)
                            (Some (mb_id membership)) false)
                end
            end
      end
  end.
End Permissions.
