(* ===== verification/Lifecycle.v ===== *)
(** * Account tokens, two-factor authentication and audit events
    (auth/account_lifecycle.py, auth/two_factor.py, auth/audit.py) *)

From Stdlib Require Import Ascii.
From stdpp Require Import pretty.
From S2P Require Import Prelude PyText Json Platform Models Domain Accounts.
Local Open Scope Z_scope.

(** ** Challenges *)

(** [challenge.consumed_at = now]. *)
Definition consume_challenge (now : Z) (c : AuthenticationChallenge) : AuthenticationChallenge :=
  mkAuthenticationChallenge (ch_id c) (ch_user_id c) (ch_challenge_type c) (ch_challenge_hash c)
    (ch_expires_at c) (Some now) (ch_metadata c).

(** [challenge.save(update_fields=["consumed_at"])]. *)
Definition save_consumed (now : Z) (c : AuthenticationChallenge) : AuthM unit :=
  modify (fun d => set_authentication_challenges
    (alter (consume_challenge now) (ch_id c) (authentication_challenges d)) d).

(** [AuthenticationChallenge.create]: the id and the hash are unique. *)
Definition insert_challenge (c : AuthenticationChallenge) : AuthM unit :=
  taken ← gets (fun d => negb (is_none (authentication_challenges d !! ch_id c)) ||
    exists_row (fun c' => String.eqb (ch_challenge_hash c') (ch_challenge_hash c))
      (authentication_challenges d));
  raise_if taken IntegrityError ;;
  modify (fun d => set_authentication_challenges
    (<[ch_id c := c]> (authentication_challenges d)) d).

(** A pending challenge of a user and type. *)
Definition pending_of (user : uuid) (challenge_type : string) (c : AuthenticationChallenge) : bool :=
  bool_decide (ch_user_id c = Some user) && String.eqb (ch_challenge_type c) challenge_type &&
  is_none (ch_consumed_at c).

(** [user.save(update_fields=[..])]. *)
Definition save_user (f : User -> User) (user : User) : AuthM unit :=
  modify (fun d => set_users (alter f (u_id user) (users d)) d).

Definition with_email_verified (u : User) : User :=
  mkUser (u_id u) (u_email u) (u_password_hash u) (u_first_name u) (u_last_name u) (u_is_active u)
    (u_is_superuser u) true (u_session_version u).
Definition with_password (h : string) (version : Z) (u : User) : User :=
  mkUser (u_id u) (u_email u) h (u_first_name u) (u_last_name u) (u_is_active u)
    (u_is_superuser u) (u_email_verified u) version.

(** The user a challenge refers to ([select_related("user")]). *)
Definition challenge_user (c : AuthenticationChallenge) (d : AuthDB) : option User :=
  ch_user_id c ≫= fun u => users d !! u.

Section Lifecycle.
Context {P : Platform} {H : PasswordHasher} (settings : Settings).

(** ** auth/account_lifecycle.py *)

(** [token] is [secrets.token_urlsafe(32)], [id] the new row's [uuid4]. *)
Definition create_account_token (now : Z) (token : string) (id : uuid) (user : User)
    (challenge_type : string) (ttl : Z) : AuthM string :=
  modify (fun d => set_authentication_challenges
    ((fun c => if pending_of (u_id user) challenge_type c then consume_challenge now c else c)
       <$> authentication_challenges d) d) ;;
  insert_challenge (mkAuthenticationChallenge id (Some (u_id user)) challenge_type
    (hash_token token) (now + ttl) None (JObject [])) ;;
  mret token.

Definition consume_account_token (now : Z) (token challenge_type : string) :
    AuthM (option User) :=
  found ← gets (fun d => first_row (fun c =>
      String.eqb (ch_challenge_type c) challenge_type &&
      String.eqb (ch_challenge_hash c) (hash_token token) &&
      is_none (ch_consumed_at c) && (now <? ch_expires_at c)) (authentication_challenges d));
  match found with
  | None => mret None
  | Some challenge =>
      user ← gets (challenge_user challenge);
      match user with
      | None => mret None
      | Some user =>
          if negb (u_is_active user) then mret None
          else save_consumed now challenge ;; mret (Some user)
      end
  end.

Definition create_verification_token (now : Z) (token : string) (id : uuid) (user : User) :
    AuthM string :=
  create_account_token now token id user "email_verification"
    (hours (email_verification_ttl_hours settings)).

Definition create_password_reset_token (now : Z) (token : string) (id : uuid) (user : User) :
    AuthM string :=
  create_account_token now token id user "password_reset"
    (minutes (password_reset_ttl_minutes settings)).

Definition verify_email_token (now : Z) (token : string) : AuthM (option User) :=
  user ← consume_account_token now token "email_verification";
  match user with
  | None => mret None
  | Some user =>
      if u_email_verified user then mret (Some user)
      else save_user with_email_verified user ;; mret (Some (with_email_verified user))
  end.

(** [session_version] is an [IntField]. *)
Definition reset_password (now : Z) (salt token password : string) : AuthM (option User) :=
  user ← consume_account_token now token "password_reset";
  match user with
  | None => mret None
  | Some user =>
      let version := u_session_version user + 1 in
      let encoded := hash_password salt password in
      raise_if (negb (fits_int4 version)) DataError ;;
      save_user (with_password encoded version) user ;;
      mret (Some (with_password encoded version user))
  end.
End Lifecycle.

(** ** auth/two_factor.py *)

(** [cryptography.fernet.Fernet] under the key derived from [auth_encryption_key], and
    [pyotp]. *)
Class TwoFactorLib := {
  fernet_encrypt : string -> string -> string -> string;
  fernet_decrypt : string -> string -> option string;
  fernet_roundtrip : forall key nonce text,
    fernet_decrypt key (fernet_encrypt key nonce text) = Some text;
  totp_verify : string -> string -> Z -> bool;
  totp_provisioning_uri : string -> string -> string -> string;
}.

Definition CHALLENGE_TTL_MINUTES : Z := 5.
Definition RECOVERY_CODE_COUNT : nat := 10.
Definition RECOVERY_ALPHABET : string := "ABCDEFGHJKLMNPQRSTUVWXYZ23456789".

(** [secrets.choice(RECOVERY_ALPHABET)] for a draw below 32. *)
Definition choice (draw : nat) : string := take_chars 1 (drop_chars draw RECOVERY_ALPHABET).

(** The code of twelve draws: three groups of four. *)
Definition generate_recovery_code (draws : list nat) : string :=
  join "-" (map (fun g => join EmptyString (map choice (firstn 4 (skipn (4 * g) draws)))) (seq 0 3)).

Definition enable_method (now : Z) (m : TwoFactorMethod) : TwoFactorMethod :=
  mkTwoFactorMethod (tf_id m) (tf_user_id m) (tf_method_type m) (tf_secret_encrypted m) true
    (Some now) (tf_last_used_at m).
Definition touch_method (now : Z) (m : TwoFactorMethod) : TwoFactorMethod :=
  mkTwoFactorMethod (tf_id m) (tf_user_id m) (tf_method_type m) (tf_secret_encrypted m)
    (tf_is_enabled m) (tf_verified_at m) (Some now).
Definition use_code (now : Z) (c : RecoveryCode) : RecoveryCode :=
  mkRecoveryCode (rcode_id c) (rcode_user_id c) (rcode_code_hash c) (Some now).

Definition totp_of (user : User) (m : TwoFactorMethod) : bool :=
  (tf_user_id m =? u_id user)%N && String.eqb (tf_method_type m) "totp".

(** [filter(p).delete()]. *)
Definition delete_methods (p : TwoFactorMethod -> bool) : AuthM unit :=
  modify (fun d => set_two_factor_methods
    (filter (fun kv => p kv.2 = false) (two_factor_methods d)) d).
Definition delete_codes (user : User) : AuthM unit :=
  modify (fun d => set_recovery_codes
    (filter (fun kv => (rcode_user_id kv.2 =? u_id user)%N = false) (recovery_codes d)) d).

(** [TwoFactorMethod.create]: the id and (user, method_type) are unique. *)
Definition insert_method (m : TwoFactorMethod) : AuthM unit :=
  taken ← gets (fun d => negb (is_none (two_factor_methods d !! tf_id m)) ||
    exists_row (fun m' => (tf_user_id m' =? tf_user_id m)%N &&
                          String.eqb (tf_method_type m') (tf_method_type m))
      (two_factor_methods d));
  raise_if taken IntegrityError ;;
  modify (fun d => set_two_factor_methods (<[tf_id m := m]> (two_factor_methods d)) d).

Section TwoFactor.
Context {P : Platform} {T : TwoFactorLib} (settings : Settings).

Definition encrypt_secret (nonce secret : string) : string :=
  fernet_encrypt (auth_encryption_key settings) nonce secret.
(** [None] stands for the exception [InvalidToken]. *)
Definition decrypt_secret (secret : string) : option string :=
  fernet_decrypt (auth_encryption_key settings) secret.

Definition hash_recovery_code (code : string) : string :=
  sha256_hexdigest (remove_char " " (upper (strip code))).

(** [secret] is [pyotp.random_base32()]. *)
Definition create_totp_setup (id : uuid) (nonce secret : string) (user : User) :
    AuthM (TwoFactorMethod * string * string) :=
  delete_methods (fun m => totp_of user m && negb (tf_is_enabled m)) ;;
  let method := mkTwoFactorMethod id (u_id user) "totp" (encrypt_secret nonce secret) false
                  None None in
  insert_method method ;;
  mret (method, secret, totp_provisioning_uri secret (u_email user) "BifrostNMS").

(** The rows of [RecoveryCode.bulk_create]: one insert, so a clash of ids inserts none. *)
Definition insert_codes (user : User) (codes : list (uuid * string)) : AuthM unit :=
  taken ← gets (fun d => negb (bool_decide (NoDup codes.*1)) ||
    existsb (fun c => negb (is_none (recovery_codes d !! c.1))) codes);
  raise_if taken IntegrityError ;;
  modify (fun d => set_recovery_codes
    (list_to_map (map (fun c => (c.1, mkRecoveryCode c.1 (u_id user) (hash_recovery_code c.2) None))
       codes) ∪ recovery_codes d) d).

(** [draws] gives the id and the random draws of each recovery code. *)
Definition verify_totp_setup (now : Z) (draws : list (uuid * list nat)) (user : User)
    (method_id : uuid) (code : string) : AuthM (list string) :=
  found ← gets (fun d => get_row (totp_of user) method_id (two_factor_methods d));
  match found with
  | None => raise (ValueError "TOTP setup not found")
  | Some method =>
      match decrypt_secret (tf_secret_encrypted method) with
      | None => raise InvalidToken
      | Some secret =>
          raise_if (negb (totp_verify secret (strip code) now))
            (ValueError "Invalid verification code") ;;
          modify (fun d => set_two_factor_methods
            (alter (enable_method now) (tf_id method) (two_factor_methods d)) d) ;;
          delete_codes user ;;
          let codes := map (fun d => (d.1, generate_recovery_code d.2)) draws in
          insert_codes user codes ;;
          mret codes.*2
      end
  end.

Definition user_has_two_factor (user : User) (d : AuthDB) : bool :=
  exists_row (fun m => totp_of user m && tf_is_enabled m) (two_factor_methods d).

Definition unused_code (user : User) (h : string) (c : RecoveryCode) : bool :=
  (rcode_user_id c =? u_id user)%N && String.eqb (rcode_code_hash c) h &&
  is_none (rcode_used_at c).

Definition verify_two_factor (now : Z) (user : User) (code : string) (recovery : bool) :
    AuthM bool :=
  if recovery then
    let code_hash := hash_recovery_code code in
    found ← gets (fun d => first_row (unused_code user code_hash) (recovery_codes d));
    match found with
    | None => mret false
    | Some c =>
        modify (fun d => set_recovery_codes
          (alter (use_code now) (rcode_id c) (recovery_codes d)) d) ;;
        mret true
    end
  else
    found ← gets (fun d => first_row (fun m => totp_of user m && tf_is_enabled m)
                             (two_factor_methods d));
    match found with
    | None => mret false
    | Some method =>
        match decrypt_secret (tf_secret_encrypted method) with
        | None => raise InvalidToken
        | Some secret =>
            let valid := totp_verify secret (strip code) now in
            (if valid then modify (fun d => set_two_factor_methods
               (alter (touch_method now) (tf_id method) (two_factor_methods d)) d)
             else mret tt) ;;
            mret valid
        end
    end.

(** [token] is [secrets.token_urlsafe(48)]. *)
Definition create_login_challenge (now : Z) (token : string) (id : uuid) (user : User) :
    AuthM string :=
  modify (fun d => set_authentication_challenges
    (filter (fun kv => pending_of (u_id user) "two_factor_login" kv.2 = false)
       (authentication_challenges d)) d) ;;
  insert_challenge (mkAuthenticationChallenge id (Some (u_id user)) "two_factor_login"
    (sha256_hexdigest token) (now + minutes CHALLENGE_TTL_MINUTES) None (JObject [])) ;;
  mret token.

Definition consume_login_challenge (now : Z) (token : string) : AuthM (option User) :=
  found ← gets (fun d => first_row (fun c =>
      String.eqb (ch_challenge_type c) "two_factor_login" &&
      String.eqb (ch_challenge_hash c) (sha256_hexdigest token) &&
      is_none (ch_consumed_at c)) (authentication_challenges d));
  match found with
  | None => mret None
  | Some challenge =>
      user ← gets (challenge_user challenge);
      match user with
      | None => mret None
      | Some user =>
          if ch_expires_at challenge <=? now then mret None
          else save_consumed now challenge ;; mret (Some user)
      end
  end.
End TwoFactor.

(** ** auth/audit.py *)

Inductive AuditActorType := ActorUser | ActorAgent | ActorSystem | ActorAnonymous.
Inductive AuditOutcome := OutcomeSuccess | OutcomeDenied | OutcomeFailure.

Definition str_AuditActorType (a : AuditActorType) : string :=
  match a with
  | ActorUser => "user" | ActorAgent => "agent" | ActorSystem => "system"
  | ActorAnonymous => "anonymous"
  end.
Definition str_AuditOutcome (o : AuditOutcome) : string :=
  match o with OutcomeSuccess => "success" | OutcomeDenied => "denied" | OutcomeFailure => "failure" end.

Definition SENSITIVE_METADATA_PARTS : list string :=
  ["authorization"; "cookie"; "credential"; "password"; "secret"; "token"].

(** [pat in s]. *)
Fixpoint contains (pat s : string) : bool :=
  startswith pat s || match s with EmptyString => false | String _ s' => contains pat s' end.

(** [str(key).lower().replace("-", "_")]. *)
Definition normalized_key (key : string) : string :=
  str_map (fun c => if Ascii.eqb c "-" then "_"%char else c) (lower key).

Definition sensitive_key (key : string) : bool :=
  existsb (fun part => contains part (normalized_key key)) SENSITIVE_METADATA_PARTS.

Fixpoint _validate_metadata (path : string) (value : json) : outcome unit :=
  match value with
  | JObject fields =>
      (fix go (l : list (string * json)) : outcome unit :=
         match l with
         | [] => Ok tt
         | (key, nested) :: l' =>
             if sensitive_key key
             then Err (ValueError ("Sensitive audit metadata key rejected: " +:+ path +:+ "." +:+ key))
             else match _validate_metadata (path +:+ "." +:+ key) nested with
                  | Err e => Err e
                  | Ok _ => go l'
                  end
         end) fields
  | JArray items =>
      (fix go (index : N) (l : list json) : outcome unit :=
         match l with
         | [] => Ok tt
         | nested :: l' =>
             match _validate_metadata (path +:+ "[" +:+ pretty index +:+ "]") nested with
             | Err e => Err e
             | Ok _ => go (index + 1)%N l'
             end
         end) 0%N items
  | _ => Ok tt
  end.

(** [metadata or {}]. *)
Definition audit_details (metadata : option (list (string * json))) : json :=
  JObject (default [] metadata).

(** The [max_length] of the text columns of [AuditEvent]. *)
Definition event_fits (e : AuditEvent) : bool :=
  (str_len (ev_action e) <=? 120) && (str_len (default EmptyString (ev_target_type e)) <=? 80) &&
  (str_len (default EmptyString (ev_target_id e)) <=? 255) &&
  (str_len (default EmptyString (ev_source_ip e)) <=? 64).

Definition record_audit_event (action : string) (outcome_ : AuditOutcome) (actor : AuditActorType)
    (request : option Request) (realm : option Realm) (actor_user : option User)
    (target_type target_id : option string) (superuser_bypass : bool)
    (metadata : option (list (string * json))) : AuthM AuditEvent :=
  let details := audit_details metadata in
  match _validate_metadata "metadata" details with
  | Err e => raise e
  | Ok _ =>
      let source_ip := request ≫= rq_client_host in
      let user_agent := match request with
                        | Some r => take_chars 512 (default EmptyString (rq_user_agent r))
                        | None => EmptyString
                        end in
      let event := mkAuditEvent (realm_id <$> realm) (u_id <$> actor_user) (str_AuditActorType actor)
        action (str_AuditOutcome outcome_) target_type target_id source_ip user_agent
        superuser_bypass details in
      raise_if (negb (event_fits event)) OrmValidationError ;;
      modify (fun d => set_audit_events (audit_events d ++ [event]) d) ;;
      mret event
  end.
