(* ===== verification/WebAuthn.v ===== *)
(** * Passkeys (auth/webauthn.py)

    Base64 as the file uses it, the stored challenges, registration and authentication.
    The [webauthn] package is a parameter.  Byte strings are texts of Latin-1 characters. *)

From Stdlib Require Import Ascii.
From stdpp Require Import pretty.
From S2P Require Import Prelude PyText Json Platform Models Domain Accounts Lifecycle.
Local Open Scope Z_scope.

(** ** Base64 with the URL-safe alphabet *)

(** The character of a six-bit value, and its value. *)
Definition b64_char (n : N) : ascii :=
  ascii_of_N (if n <? 26 then 65 + n else if n <? 52 then 71 + n
              else if n <? 62 then n - 4 else if n =? 62 then 45 else 95)%N.

Definition b64_value (c : ascii) : option N :=
  let n := code c in
  (if (65 <=? n) && (n <=? 90) then Some (n - 65)
   else if (97 <=? n) && (n <=? 122) then Some (n - 71)
   else if (48 <=? n) && (n <=? 57) then Some (n + 4)
   else if n =? 45 then Some 62 else if n =? 95 then Some 63
   (* urlsafe_b64decode translates "-_" to "+/" and so also accepts these *)
   else if n =? 43 then Some 62 else if n =? 47 then Some 63
   else None)%N.

(** [base64.urlsafe_b64encode(data).decode("ascii")] without its padding, and the padding. *)
Fixpoint b64_groups (data : string) : string :=
  match data with
  | EmptyString => EmptyString
  | String a EmptyString =>
      String (b64_char (code a / 4)) (String (b64_char ((code a mod 4) * 16)) EmptyString)
  | String a (String b EmptyString) =>
      String (b64_char (code a / 4))
        (String (b64_char ((code a mod 4) * 16 + code b / 16))
          (String (b64_char ((code b mod 16) * 4)) EmptyString))
  | String a (String b (String c rest)) =>
      String (b64_char (code a / 4))
        (String (b64_char ((code a mod 4) * 16 + code b / 16))
          (String (b64_char ((code b mod 16) * 4 + code c / 64))
            (String (b64_char (code c mod 64)) (b64_groups rest))))
  end.

Fixpoint repeat_char (c : ascii) (n : nat) : string :=
  match n with O => EmptyString | S n => String c (repeat_char c n) end.

Definition b64_padding (data : string) : string :=
  match (String.length data mod 3)%nat with 1%nat => "==" | 2%nat => "=" | _ => EmptyString end.

(** [urlsafe_b64encode(data).decode("ascii").rstrip("=")]. *)
Definition _b64 (data : string) : string :=
  rstrip_with (is_char "=") (b64_groups data +:+ b64_padding data).

(** [binascii.a2b_base64] in its lenient mode: characters outside the alphabet are skipped,
    [quad] counts the characters of the current group, [left] holds the bits not yet
    written, [pads] the padding characters just read; [None] is [binascii.Error]. *)
Fixpoint a2b_base64 (s : string) (quad : nat) (left : N) (pads : nat) : option string :=
  match s with
  | EmptyString => if Nat.eqb quad 0 then Some EmptyString else None
  | String c rest =>
      if Ascii.eqb c "=" then
        if (2 <=? quad)%nat then
          if (4 <=? quad + S pads)%nat then Some EmptyString
          else a2b_base64 rest quad left (S pads)
        else a2b_base64 rest quad left pads
      else
        match b64_value c with
        | None => a2b_base64 rest quad left pads
        | Some v =>
            match quad with
            | O => a2b_base64 rest 1 v 0
            | 1%nat => String (ascii_of_N (left * 4 + v / 16)) <$> a2b_base64 rest 2 (v mod 16) 0
            | 2%nat => String (ascii_of_N (left * 16 + v / 4)) <$> a2b_base64 rest 3 (v mod 4) 0
            | _ => String (ascii_of_N (left * 64 + v)) <$> a2b_base64 rest 0 0 0
            end
        end
  end.

(** [padding = "=" * (-len(value) % 4)]. *)
Definition _unb64 (value : string) : option string :=
  let padding := repeat_char "=" (Z.to_nat ((- str_len value) mod 4)) in
  a2b_base64 (value +:+ padding) 0 0 0.

(** ** The [webauthn] package *)

Record RegistrationVerification := mkRegistrationVerification {
  rv_credential_id : string;
  rv_credential_public_key : string;
  rv_sign_count : Z;
  rv_credential_device_type : string;
  rv_credential_backed_up : bool;
}.

Record AuthenticationVerification := mkAuthenticationVerification {
  av_new_sign_count : Z;
  av_credential_device_type : string;
  av_credential_backed_up : bool;
}.

(** Verification under the relying party's id and origin, with user verification
    required; the library's exceptions are [ValueError]s or not as it decides. *)
Class WebAuthnLib := {
  verify_registration_response :
    json -> string -> string -> string -> outcome RegistrationVerification;
  verify_authentication_response :
    json -> string -> string -> string -> string -> Z -> outcome AuthenticationVerification;
  generate_registration_options : string -> string -> uuid -> string -> string -> list string -> string -> json;
  generate_authentication_options : string -> string -> json;
  (** [repr] of a float or a container, where the code prints one. *)
  py_repr : json -> string;
}.

(** [str(value)] of a JSON value. *)
Definition py_str `{WebAuthnLib} (value : json) : string :=
  match value with
  | JString s => s
  | JNull => "None"
  | JBool true => "True"
  | JBool false => "False"
  | JInt z => pretty z
  | other => py_repr other
  end.

(** ** Challenges *)

Definition binascii_error : exn := ValueError "Incorrect padding".
Definition unb64 (value : string) : AuthM string :=
  match _unb64 value with Some b => mret b | None => raise binascii_error end.

(** [WebAuthnCredential.create]: the id and [credential_id] are unique, texts bounded. *)
Definition credential_fits (c : WebAuthnCredential) : bool :=
  (str_len (wc_credential_id c) <=? 1024) && (str_len (wc_name c) <=? 120) &&
  (str_len (wc_device_type c) <=? 64).

Definition insert_webauthn_credential (c : WebAuthnCredential) : AuthM unit :=
  raise_if (negb (credential_fits c)) OrmValidationError ;;
  taken ← gets (fun d => negb (is_none (webauthn_credentials d !! wc_id c)) ||
    exists_row (fun c' => String.eqb (wc_credential_id c') (wc_credential_id c))
      (webauthn_credentials d));
  raise_if taken IntegrityError ;;
  modify (fun d => set_webauthn_credentials (<[wc_id c := c]> (webauthn_credentials d)) d).

Definition used_passkey (now : Z) (v : AuthenticationVerification) (c : WebAuthnCredential) :
    WebAuthnCredential :=
  mkWebAuthnCredential (wc_id c) (wc_user_id c) (wc_credential_id c) (wc_public_key c)
    (av_new_sign_count v) (wc_name c) (av_credential_device_type v) (av_credential_backed_up v)
    (wc_transports c) (Some now) (wc_created_at c).

(** [credential.get("response", {}).get("transports", [])], and the texts of the list. *)
Definition transports_value (credential : list (string * json)) : outcome json :=
  match default (JObject []) (obj_get "response" credential) with
  | JObject response => Ok (default (JArray []) (obj_get "transports" response))
  | _ => Err AttributeError
  end.

Section WebAuthn.
Context {P : Platform} {W : WebAuthnLib} (settings : Settings).

Definition _store_challenge (now : Z) (id : uuid) (challenge challenge_type : string)
    (user : option User) : AuthM AuthenticationChallenge :=
  let row := mkAuthenticationChallenge id (u_id <$> user) challenge_type
    (sha256_hexdigest challenge) (now + minutes CHALLENGE_TTL_MINUTES) None
    (JObject [("challenge", JString (_b64 challenge))]) in
  insert_challenge row ;; mret row.

Definition _get_challenge (now : Z) (challenge_id : uuid) (challenge_type : string) :
    AuthM AuthenticationChallenge :=
  found ← gets (fun d => get_row (fun c => String.eqb (ch_challenge_type c) challenge_type &&
                                           is_none (ch_consumed_at c))
                           challenge_id (authentication_challenges d));
  match found with
  | None => raise (ValueError "WebAuthn challenge expired")
  | Some challenge =>
      raise_if (ch_expires_at challenge <=? now) (ValueError "WebAuthn challenge expired") ;;
      mret challenge
  end.

(** [_unb64(str(challenge.metadata["challenge"]))]. *)
Definition expected_challenge (challenge : AuthenticationChallenge) : AuthM string :=
  match json_get "challenge" (ch_metadata challenge) with
  | Some v => unb64 (py_str v)
  | None => raise KeyError
  end.

Fixpoint exclude_credentials (l : list WebAuthnCredential) : AuthM (list string) :=
  match l with
  | [] => mret []
  | c :: l' =>
      b ← unb64 (wc_credential_id c);
      rest ← exclude_credentials l';
      mret (b :: rest)
  end.

(** [challenge] is the random challenge [generate_registration_options] draws. *)
Definition registration_options (now : Z) (id : uuid) (challenge : string) (user : User) :
    AuthM (uuid * json) :=
  credentials ← gets (fun d => List.filter (fun c => (wc_user_id c =? u_id user)%N)
                                 (rows (webauthn_credentials d)));
  excluded ← exclude_credentials credentials;
  let options := generate_registration_options (webauthn_rp_id settings)
                   (webauthn_rp_name settings) (u_id user) (u_email user) (full_name user) excluded challenge in
  row ← _store_challenge now id challenge "webauthn_registration" (Some user);
  mret (ch_id row, options).

Definition verify_registration (now : Z) (id : uuid) (user : User) (challenge_id : uuid)
    (credential : list (string * json)) (name : string) : AuthM WebAuthnCredential :=
  challenge ← _get_challenge now challenge_id "webauthn_registration";
  raise_if (negb (bool_decide (ch_user_id challenge = Some (u_id user))))
    (ValueError "WebAuthn challenge does not belong to this user") ;;
  expected ← expected_challenge challenge;
  match verify_registration_response (JObject credential) expected (webauthn_rp_id settings)
          (webauthn_origin settings) with
  | Err e => raise e
  | Ok verification =>
      match transports_value credential with
      | Err e => raise e
      | Ok value =>
          let transports := match value with JArray l => map py_str l | _ => [] end in
          let name' := if String.eqb (strip name) EmptyString then "Passkey" else strip name in
          let stored := mkWebAuthnCredential id (u_id user)
            (_b64 (rv_credential_id verification)) (_b64 (rv_credential_public_key verification))
            (rv_sign_count verification) name' (rv_credential_device_type verification)
            (rv_credential_backed_up verification) transports None now in
          insert_webauthn_credential stored ;;
          save_consumed now challenge ;;
          mret stored
      end
  end.

Definition authentication_options (now : Z) (id : uuid) (challenge : string) :
    AuthM (uuid * json) :=
  let options := generate_authentication_options (webauthn_rp_id settings) challenge in
  row ← _store_challenge now id challenge "webauthn_authentication" None;
  mret (ch_id row, options).

Definition verify_authentication (now : Z) (challenge_id : uuid)
    (credential : list (string * json)) : AuthM User :=
  challenge ← _get_challenge now challenge_id "webauthn_authentication";
  match obj_get "id" credential with
  | Some (JString credential_id) =>
      found ← gets (fun d => match first_row (fun c => String.eqb (wc_credential_id c) credential_id)
                                     (webauthn_credentials d) with
                             | Some c => match users d !! wc_user_id c with
                                         | Some u => Some (c, u) | None => None end
                             | None => None
                             end);
      match found with
      | None => raise (ValueError "Passkey is not registered")
      | Some (stored, user) =>
          expected ← expected_challenge challenge;
          public_key ← unb64 (wc_public_key stored);
          match verify_authentication_response (JObject credential) expected
                  (webauthn_rp_id settings) (webauthn_origin settings) public_key
                  (wc_sign_count stored) with
          | Err e => raise e
          | Ok verification =>
              modify (fun d => set_webauthn_credentials
                (alter (used_passkey now verification) (wc_id stored) (webauthn_credentials d)) d) ;;
              save_consumed now challenge ;;
              mret user
          end
      end
  | _ => raise (ValueError "Invalid passkey response")
  end.
End WebAuthn.
