(* ===== verification/AuthApi.v ===== *)
(** * The account endpoints (api/auth.py, api/security.py, api/two_factor.py,
    api/webauthn.py, schemas/auth.py)

    Each handler as a computation on [AuthDB].  A handler that sets the session cookie
    returns it with its response; ids, tokens, salts and the instant are arguments. *)

From Stdlib Require Import Ascii.
From stdpp Require Import pretty.
From S2P Require Import Prelude PyText Json Platform Models Domain ObservationSchema Observations.
From S2P Require Import Dashboard Accounts Lifecycle WebAuthn.
Local Open Scope Z_scope.

(** ** schemas/auth.py *)

(** [EmailStr]: the [email_validator] package, which returns the normalised address. *)
Class EmailValidator := { validate_email : string -> option string }.

Definition length_between (lo hi : Z) (s : string) : bool :=
  (lo <=? str_len s) && (str_len s <=? hi).

Record LoginRequest := mkLoginRequest { lg_email : string; lg_password : string }.
Record SignupRequest := mkSignupRequest {
  sg_email : string;
  sg_password : string;
  sg_first_name : string;
  sg_last_name : string;
  sg_realm_name : option string;
}.
Record TwoFactorVerifyRequest := mkTwoFactorVerifyRequest {
  tv_challenge_token : string;
  tv_code : string;
  tv_recovery_code : bool;
}.

(** What a parsed request satisfies. *)
Definition LoginRequest_ok `{EmailValidator} (r : LoginRequest) : bool :=
  bool_decide (is_Some (validate_email (lg_email r))) && length_between 8 256 (lg_password r).
Definition SignupRequest_ok `{EmailValidator} (r : SignupRequest) : bool :=
  bool_decide (is_Some (validate_email (sg_email r))) && length_between 12 256 (sg_password r) &&
  length_between 1 150 (sg_first_name r) && length_between 1 150 (sg_last_name r) &&
  match sg_realm_name r with Some n => str_len n <=? 200 | None => true end.
Definition TokenRequest_ok (token : string) : bool := length_between 32 256 token.
Definition PasswordResetRequest_ok (token password : string) : bool :=
  length_between 32 256 token && length_between 12 256 password.
Definition TwoFactorVerifyRequest_ok (r : TwoFactorVerifyRequest) : bool :=
  length_between 6 32 (tv_code r).
Definition TotpSetupVerifyRequest_ok (code : string) : bool := length_between 6 8 code.

Record RealmSummary := mkRealmSummary {
  rs_id : uuid;
  rs_name : string;
  rs_slug : string;
  rs_role : string;
}.
Record UserResponse := mkUserResponse {
  ur_id : uuid;
  ur_email : string;
  ur_first_name : string;
  ur_last_name : string;
  ur_full_name : string;
  ur_email_verified : bool;
  ur_is_superuser : bool;
  ur_active_realm_id : option uuid;
  ur_realms : list RealmSummary;
}.
Record LoginResponse := mkLoginResponse {
  lr_user : option UserResponse;
  lr_requires_two_factor : bool;
  lr_challenge_token : option string;
}.

(** ** Helpers of api/auth.py *)

(** The bytes of a Latin-1 character in UTF-8, percent-encoded. *)
Definition upper_hex (n : N) : string := upper (to_hex 2 n EmptyString).
Definition percent (c : ascii) : string :=
  let n := code c in
  if (n <? 128)%N then "%" +:+ upper_hex n
  else "%" +:+ upper_hex (192 + n / 64)%N +:+ "%" +:+ upper_hex (128 + n mod 64)%N.

(** [urllib.parse.quote_plus]. *)
Definition unreserved (c : ascii) : bool :=
  is_digit c || is_lower_letter c || is_upper_letter c ||
  existsb (Ascii.eqb c) ["_"; "."; "-"; "~"]%char.
Fixpoint quote_plus (s : string) : string :=
  match s with
  | EmptyString => EmptyString
  | String c s' =>
      (if unreserved c then String c EmptyString
       else if Ascii.eqb c " " then "+" else percent c) +:+ quote_plus s'
  end.

Definition newline : string := String "010" EmptyString.

(** [send_email.delay(..)] puts the message on the queue. *)
Definition _send_account_email (settings : Settings) (email subject path token : string) :
    AuthM unit :=
  let url := rstrip_with (is_char "/") (auth_frontend_url settings) +:+ path +:+ "?token=" +:+
             quote_plus token in
  let text := "Open this link to continue:" +:+ newline +:+ newline +:+ url +:+ newline +:+
              newline +:+ "If you did not request this, ignore this email." in
  modify (fun d => set_outbox (outbox d ++ [mkMail [email] subject text]) d).

(** [re.sub(r"[^a-z0-9]+", "-", s)]: [run] says that the last character was replaced. *)
Definition is_slug_char (c : ascii) : bool := is_lower_letter c || is_digit c.
Fixpoint sub_runs (run : bool) (s : string) : string :=
  match s with
  | EmptyString => EmptyString
  | String c s' =>
      if is_slug_char c then String c (sub_runs false s')
      else if run then sub_runs true s' else String "-" (sub_runs true s')
  end.

Definition slugify (value : string) : string :=
  let s := sub_runs false (lower (strip value)) in
  let s := rstrip_with (is_char "-") (lstrip_with (is_char "-") s) in
  if String.eqb s EmptyString then "realm" else s.

Definition slug_taken (d : AuthDB) (slug : string) : bool :=
  exists_row (fun r => String.eqb (realm_slug r) slug) (realms d).

(** [while await Realm.filter(slug=slug).exists(): slug = f"{base_slug}-{counter}"; ..]; one
    realm more than there are is enough fuel. *)
Fixpoint free_slug (d : AuthDB) (fuel : nat) (base slug : string) (counter : N) : option string :=
  if slug_taken d slug then
    match fuel with
    | 0%nat => None
    | Datatypes.S fuel => free_slug d fuel base (base +:+ "-" +:+ pretty counter) (counter + 1)%N
    end
  else Some slug.

Definition find_slug (base : string) (d : AuthDB) : option string :=
  free_slug d (Datatypes.S (size (realms d))) base base 2%N.

(** [User.create], [Realm.create], [RealmMembership.create] with the widths and the unique
    columns of their tables. *)
Definition user_fits (u : User) : bool :=
  (str_len (u_email u) <=? 320) && (str_len (u_password_hash u) <=? 255) &&
  (str_len (u_first_name u) <=? 150) && (str_len (u_last_name u) <=? 150).
Definition insert_user (u : User) : AuthM unit :=
  raise_if (negb (user_fits u)) OrmValidationError ;;
  taken ← gets (fun d => negb (is_none (users d !! u_id u)) ||
    exists_row (fun u' => String.eqb (u_email u') (u_email u)) (users d));
  raise_if taken IntegrityError ;;
  modify (fun d => set_users (<[u_id u := u]> (users d)) d).

Definition realm_fits (r : Realm) : bool :=
  (str_len (realm_name r) <=? 200) && (str_len (realm_slug r) <=? 120).
Definition insert_realm (r : Realm) : AuthM unit :=
  raise_if (negb (realm_fits r)) OrmValidationError ;;
  taken ← gets (fun d => negb (is_none (realms d !! realm_id r)) || slug_taken d (realm_slug r));
  raise_if taken IntegrityError ;;
  modify (fun d => set_realms (<[realm_id r := r]> (realms d)) d).

Definition insert_membership (m : RealmMembership) : AuthM unit :=
  taken ← gets (fun d => negb (is_none (realm_memberships d !! mb_id m)) ||
    exists_row (fun m' => (mb_user_id m' =? mb_user_id m)%N && (mb_realm_id m' =? mb_realm_id m)%N)
      (realm_memberships d));
  raise_if taken IntegrityError ;;
  modify (fun d => set_realm_memberships (<[mb_id m := m]> (realm_memberships d)) d).

(** [d[key] = v] and [d.setdefault(key, v)] on the summaries, keyed by realm. *)
Fixpoint dict_set (v : RealmSummary) (l : list RealmSummary) : list RealmSummary :=
  match l with
  | [] => [v]
  | x :: l' => if (rs_id x =? rs_id v)%N then v :: l' else x :: dict_set v l'
  end.
Definition dict_setdefault (l : list RealmSummary) (v : RealmSummary) : list RealmSummary :=
  if existsb (fun x => (rs_id x =? rs_id v)%N) l then l else l ++ [v].

Section Api.
Context {P : Platform} {I : IsoFormat} {H : PasswordHasher} {T : TwoFactorLib} {W : WebAuthnLib}
  {C : Collation} (settings : Settings).

Definition serialize_user (user : User) (session : option SessionData) (d : AuthDB) :
    UserResponse :=
  let own := omap (fun m => match realms d !! mb_realm_id m with
                            | Some r => Some (mkRealmSummary (realm_id r) (realm_name r)
                                                (realm_slug r) (mb_role m))
                            | None => None
                            end)
               (List.filter (fun m => (mb_user_id m =? u_id user)%N) (rows (realm_memberships d))) in
  let summaries := fold_left (fun l v => dict_set v l) own [] in
  let others := order_by (fun x y => name_le (realm_name x) (realm_name y))
                  (List.filter realm_is_active (rows (realms d))) in
  let all := if u_is_superuser user
             then fold_left (fun l r => dict_setdefault l
                    (mkRealmSummary (realm_id r) (realm_name r) (realm_slug r) "superuser"))
                    others summaries
             else summaries in
  mkUserResponse (u_id user) (u_email user) (u_first_name user) (u_last_name user)
    (full_name user) (u_email_verified user) (u_is_superuser user)
    (session ≫= sd_active_realm_id) all.

Definition signup (now : Z) (user_id realm_id_ membership_id challenge_id : uuid)
    (salt verification_token session_token : string) (payload : SignupRequest)
    (request : Request) : AuthM (UserResponse * Cookie) :=
  let email := normalize_email (sg_email payload) in
  taken ← gets (fun d => exists_row (fun u => String.eqb (u_email u) email) (users d));
  raise_if taken (HTTPException 409 "An account already exists for that email") ;;
  let user := mkUser user_id email (hash_password salt (sg_password payload))
    (strip (sg_first_name payload)) (strip (sg_last_name payload)) true false false 1 in
  insert_user user ;;
  let default_name := strip (sg_first_name payload) +:+ "'s Realm" in
  let name := match sg_realm_name payload with
              | Some n => if String.eqb n EmptyString then default_name else n
              | None => default_name
              end in
  slug ← gets (find_slug (slugify name));
  match slug with
  | None => raise IntegrityError (* unreachable: see [find_slug_total] *)
  | Some slug =>
      insert_realm (mkRealm realm_id_ name slug true now) ;;
      insert_membership (mkRealmMembership membership_id user_id realm_id_ "owner") ;;
      token ← create_verification_token settings now verification_token challenge_id user;
      _send_account_email settings (u_email user) "Verify your BifrostNMS email" "/verify-email"
        token ;;
      '(session, cookie) ← create_session settings now session_token user request "password";
      response ← gets (serialize_user user (Some session));
      mret (response, cookie)
  end.

Definition request_email_verification (now : Z) (token : string) (id : uuid)
    (request : Request) : AuthM string :=
  '(user, _) ← get_session_user settings now request;
  (if negb (u_email_verified user) then
     token ← create_verification_token settings now token id user;
     _send_account_email settings (u_email user) "Verify your BifrostNMS email" "/verify-email" token
   else mret tt) ;;
  mret "Verification email requested".

Definition invalid_token : exn := HTTPException 400 "Invalid or expired token".

Definition confirm_email_verification (now : Z) (token : string) : AuthM string :=
  user ← verify_email_token now token;
  raise_if (is_none user) invalid_token ;;
  mret "Email verified".

Definition forgot_password (now : Z) (token : string) (id : uuid) (email : string) :
    AuthM string :=
  user ← gets (fun d => first_row (fun u => String.eqb (u_email u) (normalize_email email) &&
                                            u_is_active u) (users d));
  match user with
  | Some user =>
      token ← create_password_reset_token settings now token id user;
      _send_account_email settings (u_email user) "Reset your BifrostNMS password"
        "/reset-password" token
  | None => mret tt
  end ;;
  mret "If the account exists, a reset email has been sent".

Definition confirm_password_reset (now : Z) (salt token password : string) : AuthM string :=
  user ← reset_password now salt token password;
  raise_if (is_none user) invalid_token ;;
  mret "Password reset".

Definition login (now : Z) (challenge_id : uuid) (challenge_token session_token : string)
    (payload : LoginRequest) (request : Request) : AuthM (LoginResponse * option Cookie) :=
  found ← gets (fun d => first_row
    (fun u => String.eqb (u_email u) (normalize_email (lg_email payload))) (users d));
  let invalid := HTTPException 401 "Invalid email or password" in
  match found with
  | None => raise invalid
  | Some user =>
      raise_if (negb (verify_password (lg_password payload) (u_password_hash user))) invalid ;;
      raise_if (negb (u_is_active user)) (HTTPException 403 "Account is disabled") ;;
      two_factor ← gets (user_has_two_factor user);
      if (two_factor : bool) then
        token ← create_login_challenge now challenge_token challenge_id user;
        mret (mkLoginResponse None true (Some token), None)
      else
        '(session, cookie) ← create_session settings now session_token user request "password";
        response ← gets (serialize_user user (Some session));
        mret (mkLoginResponse (Some response) false None, Some cookie)
  end.

Definition logout (request : Request) : AuthM unit := delete_session settings request.

Definition me (now : Z) (request : Request) : AuthM UserResponse :=
  '(user, session) ← get_session_user settings now request;
  gets (serialize_user user (Some session)).

Definition activate_realm (now : Z) (realm : uuid) (request : Request) : AuthM UserResponse :=
  '(user, session) ← get_session_user settings now request;
  found ← gets (fun d =>
    if u_is_superuser user then get_row realm_is_active realm (realms d)
    else match first_row (fun m => (mb_user_id m =? u_id user)%N && (mb_realm_id m =? realm)%N)
                 (realm_memberships d) with
         | Some m => realms d !! mb_realm_id m
         | None => None
         end);
  match found with
  | None => raise realm_not_found
  | Some r =>
      session' ← set_active_realm settings now session (realm_id r);
      gets (serialize_user user (Some session'))
  end.

(** ** api/two_factor.py *)

Definition verify_login_challenge (now : Z) (session_token : string)
    (payload : TwoFactorVerifyRequest) (request : Request) : AuthM (UserResponse * Cookie) :=
  user ← consume_login_challenge now (tv_challenge_token payload);
  match user with
  | None => raise (HTTPException 401 "2FA challenge expired")
  | Some user =>
      valid ← verify_two_factor settings now user (tv_code payload) (tv_recovery_code payload);
      raise_if (negb valid) (HTTPException 401 "Invalid verification code") ;;
      '(session, cookie) ← create_session settings now session_token user request "password+2fa";
      response ← gets (serialize_user user (Some session));
      mret (response, cookie)
  end.

Definition setup_totp (now : Z) (id : uuid) (nonce secret : string) (request : Request) :
    AuthM (uuid * string * string) :=
  '(user, _) ← get_session_user settings now request;
  '(method, secret, uri) ← create_totp_setup settings id nonce secret user;
  mret (tf_id method, secret, uri).

(** [str(exc)] of the exceptions the handlers below catch. *)
Definition exn_text (e : exn) : string :=
  match e with
  | ValueError m | ValidationError m | EnrolmentError m | MonitoringDomainError m
  | RealmBoundaryError m | HierarchyError m | ResourceStateError m => m
  | _ => EmptyString
  end.

Definition verify_totp (now : Z) (draws : list (uuid * list nat)) (method_id : uuid)
    (code : string) (request : Request) : AuthM (list string) :=
  '(user, _) ← get_session_user settings now request;
  catch (verify_totp_setup settings now draws user method_id code) is_ValueError
    (fun e => HTTPException 400 (exn_text e)).

Definition disable_totp (now : Z) (request : Request) : AuthM unit :=
  '(user, _) ← get_session_user settings now request;
  delete_methods (totp_of user) ;;
  delete_codes user.

Definition two_factor_enabled (now : Z) (request : Request) : AuthM bool :=
  '(user, _) ← get_session_user settings now request;
  gets (user_has_two_factor user).

(** ** api/webauthn.py *)

Definition register_options (now : Z) (id : uuid) (challenge : string) (request : Request) :
    AuthM (uuid * json) :=
  '(user, _) ← get_session_user settings now request;
  registration_options settings now id challenge user.

Definition register_verify (now : Z) (id challenge_id : uuid) (credential : list (string * json))
    (name : string) (request : Request) : AuthM (uuid * string) :=
  '(user, _) ← get_session_user settings now request;
  credential ← catch (verify_registration settings now id user challenge_id credential name)
    is_ValueError (fun e => HTTPException 400 (exn_text e));
  mret (wc_id credential, wc_name credential).

Definition authenticate_options (now : Z) (id : uuid) (challenge : string) :
    AuthM (uuid * json) :=
  authentication_options settings now id challenge.

Definition authenticate_verify (now : Z) (challenge_id : uuid) (session_token : string)
    (credential : list (string * json)) (request : Request) : AuthM (UserResponse * Cookie) :=
  user ← catch (verify_authentication settings now challenge_id credential) is_ValueError
    (fun e => HTTPException 401 (exn_text e));
  raise_if (negb (u_is_active user)) (HTTPException 403 "Account is disabled") ;;
  '(session, cookie) ← create_session settings now session_token user request "passkey";
  response ← gets (serialize_user user (Some session));
  mret (response, cookie).

(** The path parameter is text: one that is no UUID is refused by the database layer. *)
Definition delete_passkey (now : Z) (credential_id : string) (request : Request) : AuthM unit :=
  '(user, _) ← get_session_user settings now request;
  match parse_uuid credential_id with
  | None => raise DataError
  | Some id =>
      found ← gets (fun d => get_row (fun c => (wc_user_id c =? u_id user)%N) id
                               (webauthn_credentials d));
      raise_if (is_none found) (HTTPException 404 "Passkey not found") ;;
      modify (fun d => set_webauthn_credentials (delete id (webauthn_credentials d)) d)
  end.

(** ** api/security.py *)

Definition later_passkey (x y : WebAuthnCredential) : bool := wc_created_at y <=? wc_created_at x.

Definition security_summary (now : Z) (request : Request) :
    AuthM (bool * Z * list WebAuthnCredential) :=
  '(user, _) ← get_session_user settings now request;
  gets (fun d =>
    (user_has_two_factor user d,
     Z.of_nat (length (List.filter (fun c => (rcode_user_id c =? u_id user)%N &&
                                             is_none (rcode_used_at c)) (rows (recovery_codes d)))),
     order_by later_passkey (List.filter (fun c => (wc_user_id c =? u_id user)%N)
                               (rows (webauthn_credentials d))))).
End Api.
