(* ===== verification/AuthDemo.v ===== *)
(** * A worked run of the account endpoints

    Stand-ins for the packages the account code calls, and a run: a user signs up, asks
    for a password reset and resets the password. *)

From Stdlib Require Import Ascii.
From S2P Require Import Prelude PyText Json Platform Models Domain ObservationSchema Observations.
From S2P Require Import Dashboard Accounts Lifecycle WebAuthn AuthApi.
Local Open Scope Z_scope.

Lemma length_take_chars n s : (String.length (take_chars n s) <= n)%nat.
Proof. revert s. induction n as [|n IH]; intros [|c s]; simpl; try lia. specialize (IH s). lia. Qed.

#[local] Instance example_hasher : PasswordHasher.
Proof.
  refine {| password_hash_with _ password := take_chars 255 password;
            password_verify password encoded := String.eqb encoded (take_chars 255 password) |}.
  - intros _ password. apply String.eqb_refl.
  - intros _ password. apply length_take_chars.
Defined.

#[local] Instance example_iso : IsoFormat.
Proof.
  refine {| isoformat t := to_hex 16 (Z.to_N t) EmptyString; fromisoformat := py_int16 |}.
  intros t Ht. unfold in_calendar in Ht. rewrite (py_int16_to_hex 14).
  - f_equal. lia.
  - change (16 ^ N.of_nat 16)%N with (2 ^ 64)%N. lia.
Defined.

#[local] Instance example_two_factor : TwoFactorLib.
Proof.
  refine {| fernet_encrypt _ _ text := text; fernet_decrypt _ text := Some text;
            totp_verify secret code _ := String.eqb secret code;
            totp_provisioning_uri secret _ _ := secret |}.
  done.
Defined.

#[local] Instance example_webauthn : WebAuthnLib :=
  {| verify_registration_response _ challenge _ _ :=
       Ok (mkRegistrationVerification challenge challenge 0 "single_device" false);
     verify_authentication_response _ _ _ _ _ count :=
       Ok (mkAuthenticationVerification (count + 1) "single_device" false);
     generate_registration_options _ _ _ _ _ _ challenge := JString challenge;
     generate_authentication_options _ challenge := JString challenge;
     py_repr _ := "..." |}.

#[local] Instance example_collation : Collation.
Proof.
  refine {| name_le x y := (String.length x <=? String.length y)%nat |}.
  - intros x y. rewrite !Nat.leb_le. lia.
  - intros x y z. rewrite !Nat.leb_le. lia.
Defined.

#[local] Instance example_email : EmailValidator := {| validate_email := Some |}.

Module AuthDemo.
#[export] Existing Instance example_platform.
#[export] Existing Instance example_hasher.
#[export] Existing Instance example_iso.
#[export] Existing Instance example_two_factor.
#[export] Existing Instance example_webauthn.
#[export] Existing Instance example_collation.
#[export] Existing Instance example_email.

Definition request (token : string) : Request :=
  mkRequest {["bifrost_session" := token]} (Some "browser") (Some "192.0.2.7").
Definition payload : SignupRequest :=
  mkSignupRequest "Ada@example.org" "correct horse" "Ada" "Lovelace" None.

Definition run1 := signup default_settings 1000000 1 2 3 4 "salt" "verification-token" "session-token"
  payload (request EmptyString) empty_auth.
Definition auth1 : AuthDB := run1.1.
Definition auth2 : AuthDB :=
  (forgot_password default_settings 2000000 "reset-token" 5 "ada@example.org" auth1).1.
Definition run3 := reset_password 3000000 "salt" "reset-token" "new password 1" auth2.
Definition auth3 : AuthDB := run3.1.

Definition user : User := mkUser 1 "ada@example.org" "correct horse" "Ada" "Lovelace" true false false 1.
Definition user' : User := mkUser 1 "ada@example.org" "new password 1" "Ada" "Lovelace" true false false 2.
Definition realm : Realm := mkRealm 2 "Ada's Realm" "ada-s-realm" true 1000000.

Lemma run3_eq : reset_password 3000000 "salt" "reset-token" "new password 1" auth2 =
  (auth3, Ok (Some user')).
Proof. apply run_outcome. vm_compute. reflexivity. Qed.
Lemma user1 : users auth1 !! 1%N = Some user.
Proof. by vm_compute. Qed.
Lemma realm1 : realms auth1 !! 2%N = Some realm.
Proof. by vm_compute. Qed.

(** The same user enables an authenticator, logs in and answers the challenge. *)
Definition auth4 : AuthDB :=
  (setup_totp default_settings 2000000 6 "nonce" "SECRET" (request "session-token") auth1).1.
Definition draws : list (uuid * list nat) := [(10%N, seq 0 12); (11%N, seq 12 12)].
Definition auth5 : AuthDB :=
  (verify_totp default_settings 3000000 draws 6 "SECRET" (request "session-token") auth4).1.
Definition credentials : LoginRequest := mkLoginRequest "ada@example.org" "correct horse".
Definition auth6 : AuthDB :=
  (login default_settings 4000000 7 "challenge" "unused" credentials (request EmptyString) auth5).1.
Definition answer : TwoFactorVerifyRequest := mkTwoFactorVerifyRequest "challenge" "abcd-efgh-jklm" true.

Lemma login_eq :
  login default_settings 4000000 7 "challenge" "unused" credentials (request EmptyString) auth5 =
    (auth6, Ok (mkLoginResponse None true (Some "challenge"), None)).
Proof. apply run_outcome. vm_compute. reflexivity. Qed.
Lemma two_factor5 : user_has_two_factor user auth5 = true.
Proof. by vm_compute. Qed.
End AuthDemo.
