(* ===== verification/SessionProps.v ===== *)
(** * Sessions and permissions

    The JSON form of a session round trips; a session authenticates its user for as long
    as it lives; access to a realm is granted exactly by an active session with a role
    that has the permission. *)

From Stdlib Require Import Ascii.
From S2P Require Import Prelude PyText Json Platform Models Accounts AuthApi AuthDemo.
Local Open Scope Z_scope.

(** ** The JSON form *)

Definition is_uuid (u : uuid) : bool := (u <? 2 ^ 128)%N.

(** What [SessionData] can hold: 128-bit ids and instants of the calendar. *)
Definition session_wf (s : SessionData) : bool :=
  is_uuid (sd_user_id s) && match sd_active_realm_id s with Some r => is_uuid r | None => true end &&
  in_calendar (sd_created_at s) && in_calendar (sd_last_activity s).

Lemma str_uuid_nonempty u : String.eqb (str_uuid u) EmptyString = false.
Proof.
  apply String.eqb_neq. intros E. pose proof (remove_dash_str_uuid u) as H. rewrite E in H.
  pose proof (length_to_hex 32 u EmptyString) as Hl. by rewrite <-H in Hl.
Qed.

#[local] Opaque parse_uuid str_uuid.

Section Json.
Context {I : IsoFormat}.

Lemma session_roundtrip s k :
  session_wf s = true ->
  from_json (to_json s) k =
    Ok (mkSessionData (sd_user_id s) (sd_active_realm_id s) (sd_auth_method s) (sd_created_at s)
          (sd_last_activity s) (sd_user_agent s) (sd_ip_address s) k (sd_user_session_version s)).
Proof.
  unfold session_wf, is_uuid. intros Hwf. destruct_andb.
  unfold from_json, text_member. simpl.
  rewrite parse_str_uuid by by apply N.ltb_lt.
  rewrite !fromisoformat_isoformat by done.
  destruct (sd_active_realm_id s) as [r|]; simpl.
  - rewrite str_uuid_nonempty, parse_str_uuid by by apply N.ltb_lt. by destruct (sd_ip_address s).
  - by destruct (sd_ip_address s).
Qed.

(** A session survives its storage: parsing what [SessionData.to_json] printed,
    under the key it was stored at, gives back the same session. *)
Theorem session_json_roundtrip s :
  session_wf s = true -> from_json (to_json s) (sd_redis_key s) = Ok s.
Proof. intros Hwf. rewrite session_roundtrip by done. by destruct s. Qed.
End Json.

(** ** Authentication by session *)

Section Sessions.
Context {P : Platform} {I : IsoFormat} (settings : Settings).
Implicit Types (d : AuthDB).

(** The realm a session is in, with the user's initial realm where it has none. *)
Definition effective_realm (s : SessionData) (u : User) d : option uuid :=
  match sd_active_realm_id s with Some r => Some r | None => _initial_realm_id u d end.

(** The session [get_session_user] returns and stores back. *)
Definition touched (now : Z) (s : SessionData) (u : User) d : SessionData :=
  with_last_activity now (with_active_realm (effective_realm s u d) s).

Definition refresh (now : Z) (key : string) (s : SessionData) d : AuthDB :=
  set_redis (<[key := (to_json s, now + seconds (session_ttl_seconds settings))]> (redis d)) d.

(** The request's cookie names a stored, unexpired session [s] of the active user [u] that
    has the user's current session version. *)
Definition live_session (now : Z) (request : Request) d (u : User) (s : SessionData) : Prop :=
  exists token raw, session_token settings request = Some token /\
    redis_get now (_session_key settings token) d = Some raw /\
    from_json raw (_session_key settings token) = Ok s /\
    users d !! sd_user_id s = Some u /\ u_is_active u = true /\
    sd_user_session_version s = u_session_version u.

Lemma get_session_user_run now request d u s :
  live_session now request d u s ->
  get_session_user settings now request d =
    (refresh now (sd_redis_key s) (touched now s u d) d, Ok (u, touched now s u d)).
Proof.
  intros (token & raw & Hc & Hr & Hp & Hu & Ha & Hv). unfold get_session_user. rewrite Hc. mrun.
  rewrite Hr, Hp. mrun. unfold get_row. rewrite Hu, Ha. rewrite Hv, Z.eqb_refl.
  assert (sd_redis_key s = _session_key settings token) as ->; [|done].
  revert Hp. unfold from_json. repeat case_match; intros [= <-]; done.
Qed.

Lemma get_session_user_inv now request d d' r :
  get_session_user settings now request d = (d', r) ->
  (exists u s, live_session now request d u s /\ r = Ok (u, touched now s u d) /\
     d' = refresh now (sd_redis_key s) (touched now s u d) d) \/
  (exists e, r = Err e /\ (d' = d \/ exists key, d' = set_redis (delete key (redis d)) d)).
Proof.
  intros E. destruct (session_token settings request) as [token|] eqn:Hc.
  2: { right. revert E. unfold get_session_user. rewrite Hc. intros [= <- <-]. eauto. }
  revert E. destruct (redis_get now (_session_key settings token) d) as [raw|] eqn:Hr.
  2: { unfold get_session_user. rewrite Hc. mrun. rewrite Hr. intros [= <- <-]. right. eauto. }
  destruct (from_json raw (_session_key settings token)) as [s|e] eqn:Hp.
  2: { unfold get_session_user. rewrite Hc. mrun. rewrite Hr, Hp. intros [= <- <-]. right. eauto. }
  destruct (get_row u_is_active (sd_user_id s) (users d)) as [u|] eqn:Hu.
  2: { unfold get_session_user. rewrite Hc. mrun. rewrite Hr, Hp. mrun. rewrite Hu.
       intros [= <- <-]. right. eauto. }
  destruct (sd_user_session_version s =? u_session_version u) eqn:Hv.
  - apply get_row_Some in Hu as [Hu Ha]. intros E. left.
    assert (live_session now request d u s) as Hl.
    { exists token, raw. repeat split; try done. lia. }
    rewrite (get_session_user_run _ _ _ _ _ Hl) in E. simplify_eq. eauto 6.
  - unfold get_session_user. rewrite Hc. mrun. rewrite Hr, Hp. mrun. rewrite Hu, Hv.
    intros [= <- <-]. right. eauto.
Qed.

(** A session stored under the token of the cookie, unexpired and of the current version. *)
Lemma stored_session_live now request d u s token expires :
  rq_cookies request !! session_cookie_name settings = Some token -> token <> EmptyString ->
  sd_redis_key s = _session_key settings token -> session_wf s = true ->
  redis d !! sd_redis_key s = Some (to_json s, expires) -> now < expires ->
  users d !! sd_user_id s = Some u -> u_is_active u = true ->
  sd_user_session_version s = u_session_version u -> live_session now request d u s.
Proof.
  intros Hck Htok Hkey Hwf Hr Hlt Hu Ha Hv. exists token, (to_json s). rewrite <-Hkey. split.
  { unfold session_token. rewrite Hck. by apply String.eqb_neq in Htok as ->. }
  split; [|by rewrite session_roundtrip; [destruct s|]].
  unfold redis_get. rewrite Hr. by apply Z.ltb_lt in Hlt as ->.
Qed.

(** A session authenticates its user: after [create_session] with a token, a request
    that carries the token as its session cookie, before the session's lifetime has passed,
    is answered by [get_session_user] with the user, provided the account is still there,
    active and at the same session version; the session is extended by its lifetime. *)
Theorem created_session_authenticates now now' token u request request' method d d1 s cookie :
  create_session settings now token u request method d = (d1, Ok (s, cookie)) ->
  session_wf s = true -> token <> EmptyString ->
  users d !! u_id u = Some u -> u_is_active u = true ->
  rq_cookies request' !! session_cookie_name settings = Some (ck_value cookie) ->
  now' < now + seconds (session_ttl_seconds settings) ->
  exists d2 s', get_session_user settings now' request' d1 = (d2, Ok (u, s')) /\
    sd_user_id s' = u_id u /\ sd_auth_method s' = method /\
    redis d2 !! sd_redis_key s =
      Some (to_json s', now' + seconds (session_ttl_seconds settings)).
Proof.
  unfold create_session. intros E Hwf Htok Hu Ha Hck Hlt. minv.
  unfold redis_set in *. minv. simplify_eq.
  set (s0 := mkSessionData _ _ _ _ _ _ _ _ _) in *.
  set (d1 := set_redis _ d).
  assert (Hl : live_session now' request' d1 u s0).
  { eapply stored_session_live; try done. apply lookup_insert_eq. }
  eexists _, _. split; [by apply get_session_user_run|]. simpl.
  by rewrite lookup_insert_eq.
Qed.
End Sessions.

(** ** Access to a realm *)

(** [unique_together = (("user", "realm"),)]. *)
Definition memberships_unique (d : AuthDB) : Prop :=
  forall k k' m m', realm_memberships d !! k = Some m -> realm_memberships d !! k' = Some m' ->
    mb_user_id m = mb_user_id m' -> mb_realm_id m = mb_realm_id m' -> m = m'.

(** What lets user [u] do [permission] in [realm]. *)
Inductive granted (d : AuthDB) (u : User) (realm : Realm) (permission : RealmPermission) : Prop :=
| granted_superuser : u_is_superuser u = true -> granted d u realm permission
| granted_role k m role :
    realm_memberships d !! k = Some m -> mb_user_id m = u_id u -> mb_realm_id m = realm_id realm ->
    parse_role (mb_role m) = Some role -> permission ∈ ROLE_PERMISSIONS role ->
    granted d u realm permission.

Section Access.
Context {P : Platform} {I : IsoFormat} (settings : Settings).
Implicit Types (d : AuthDB).

(** The tables of models/auth.py a session check does not touch. *)
Lemma refresh_tables now key s d :
  realms (refresh settings now key s d) = realms d /\
  realm_memberships (refresh settings now key s d) = realm_memberships d /\
  users (refresh settings now key s d) = users d.
Proof. done. Qed.

Lemma require_inv now request permission d d' ra :
  require_realm_permission settings now request permission d = (d', Ok ra) ->
  exists s active, live_session settings now request d (ra_user ra) s /\
    effective_realm s (ra_user ra) d = Some active /\ realms d !! active = Some (ra_realm ra) /\
    realm_is_active (ra_realm ra) = true /\ granted d (ra_user ra) (ra_realm ra) permission /\
    d' = refresh settings now (sd_redis_key s) (touched now s (ra_user ra) d) d.
Proof.
  unfold require_realm_permission. intros E. apply bind_inv_Ok in E as (d1 & [u1 s1] & Hs & E).
  apply get_session_user_inv in Hs as [(u & s & Hl & [= -> ->] & ->)|(e & He & _)]; [|done].
  simpl in E. destruct (effective_realm s u d) as [active|] eqn:Hact; [|done].
  minv. simpl in *. destruct (get_row realm_is_active active (realms d)) as [realm|] eqn:Hr; [|done].
  apply get_row_Some in Hr as [Hr Hra].
  destruct (u_is_superuser u) eqn:Hsu.
  { minv. subst. exists s, active. repeat split; try done. by apply granted_superuser. }
  minv. simpl in *. destruct (first_row _ (realm_memberships d)) as [m|] eqn:Hf; [|done].
  destruct (parse_role (mb_role m)) as [role|] eqn:Hrole; [|done]. minv. subst.
  exists s, active. repeat split; try done.
  apply first_row_Some in Hf as [[k Hk] Hb]. destruct_andb.
  eapply granted_role; [done|by apply N.eqb_eq|by apply N.eqb_eq|done|].
  apply (bool_decide_eq_true_1 (permission ∈ ROLE_PERMISSIONS role)). by apply negb_false_iff.
Qed.

(** C17 Access to a realm is exactly what the role table grants: [require_realm_permission]
    answers a request exactly when its cookie names a live session, the session has an
    active realm, that realm is active, and the user is a superuser or holds a membership
    of that realm whose role has the permission; the authorisation it returns is for that
    user and that realm. *)
Theorem realm_access_is_granted_exactly now request permission d (u : User) (realm : Realm) :
  memberships_unique d ->
  (exists d' ra, require_realm_permission settings now request permission d = (d', Ok ra) /\
     ra_user ra = u /\ ra_realm ra = realm) <->
  exists s active, live_session settings now request d u s /\
    effective_realm s u d = Some active /\ realms d !! active = Some realm /\
    realm_is_active realm = true /\ granted d u realm permission.
Proof.
  intros Huniq. split.
  - intros (d' & ra & E & <- & <-). apply require_inv in E as (s & active & ? & ? & ? & ? & ? & _).
    eauto 8.
  - intros (s & active & Hl & Hact & Hr & Hra & Hg). unfold require_realm_permission.
    rewrite bind_run, (get_session_user_run _ _ _ _ _ _ Hl). simpl. rewrite Hact. mrun.
    unfold get_row at 1. simpl. rewrite Hr, Hra.
    destruct (u_is_superuser u) eqn:Hsu; [by eexists _, _|].
    destruct Hg as [Hg|k m role Hm Hmu Hmr Hrole Hp]; [congruence|]. mrun. simpl.
    destruct (first_row _ (realm_memberships d)) as [m'|] eqn:Hf.
    + apply first_row_Some in Hf as [[k' Hk'] Hb]. destruct_andb.
      assert (m' = m) as -> by (eapply Huniq; [done|done|..]; apply N.eqb_eq in H, H0; congruence).
      rewrite Hrole. mrun. unfold role_has_permission. rewrite bool_decide_eq_true_2 by done.
      by eexists _, _.
    + eapply first_row_None in Hf; [|exact Hm]. simpl in Hf.
      by rewrite Hmu, Hmr, !N.eqb_refl in Hf.
Qed.
End Access.

(** ** Instances on the worked run *)

#[local] Existing Instance example_platform.
#[local] Existing Instance example_iso.

Definition demo_session : SessionData :=
  mkSessionData 1 (Some 2%N) "password" 1000000 1000000 "browser" (Some "192.0.2.7")
    (_session_key default_settings "other") 1.

Lemma session_json_roundtrip_witness :
  from_json (to_json demo_session) (sd_redis_key demo_session) = Ok demo_session.
Proof. apply (session_json_roundtrip demo_session). by vm_compute. Defined.

Lemma demo_created :
  create_session default_settings 1000000 "other" AuthDemo.user (AuthDemo.request EmptyString)
    "password" AuthDemo.auth1 =
  ((create_session default_settings 1000000 "other" AuthDemo.user (AuthDemo.request EmptyString)
      "password" AuthDemo.auth1).1,
   Ok (demo_session, mkCookie "bifrost_session" "other" true false "lax" 2592000 None "/")).
Proof. apply run_outcome. vm_compute. reflexivity. Qed.

Lemma created_session_authenticates_witness :
  exists d2 s', get_session_user default_settings 9000000 (AuthDemo.request "other")
    (create_session default_settings 1000000 "other" AuthDemo.user (AuthDemo.request EmptyString)
       "password" AuthDemo.auth1).1 = (d2, Ok (AuthDemo.user, s')).
Proof.
  destruct (created_session_authenticates default_settings 1000000 9000000 "other" AuthDemo.user
    (AuthDemo.request EmptyString) (AuthDemo.request "other") "password" AuthDemo.auth1 _ _ _
    demo_created) as (d2 & s' & Hg & _).
  - by vm_compute.
  - done.
  - exact AuthDemo.user1.
  - done.
  - by vm_compute.
  - by vm_compute.
  - exists d2, s'. exact Hg.
Defined.

Lemma demo_memberships : memberships_unique AuthDemo.auth1.
Proof.
  assert (Hm : realm_memberships AuthDemo.auth1 = {[3%N := mkRealmMembership 3 1 2 "owner"]})
    by by vm_compute.
  intros k k' m m'. rewrite Hm, !lookup_singleton_Some. by intros [_ <-] [_ <-].
Qed.

Definition demo_signup_session : SessionData :=
  mkSessionData 1 (Some 2%N) "password" 1000000 1000000 "browser" (Some "192.0.2.7")
    (_session_key default_settings "session-token") 1.

Lemma demo_live : live_session default_settings 5000000 (AuthDemo.request "session-token")
  AuthDemo.auth1 AuthDemo.user demo_signup_session.
Proof. exists "session-token", (to_json demo_signup_session). repeat split; by vm_compute. Qed.

Lemma realm_access_is_granted_exactly_witness :
  exists d' ra, require_realm_permission default_settings 5000000 (AuthDemo.request "session-token")
    MONITORING_MANAGE AuthDemo.auth1 = (d', Ok ra) /\
    ra_user ra = AuthDemo.user /\ ra_realm ra = AuthDemo.realm.
Proof.
  refine (proj2 (realm_access_is_granted_exactly default_settings 5000000
    (AuthDemo.request "session-token") MONITORING_MANAGE AuthDemo.auth1 AuthDemo.user AuthDemo.realm
    demo_memberships) _).
  exists demo_signup_session, 2%N. split; [exact demo_live|]. split; [reflexivity|]. split; [exact AuthDemo.realm1|].
  split; [done|]. apply (granted_role _ _ _ _ 3%N (mkRealmMembership 3 1 2 "owner") OWNER);
    [by vm_compute|done|done|done|]. apply (bool_decide_eq_true_1 _). by vm_compute.
Defined.
