(* ===== verification/AuthSteps.v ===== *)
(** * Runs of the account endpoints

    The invariant of the account tables and of the session store, what no request ever
    undoes ([later]), and the step relation of the endpoints. *)

From Stdlib Require Import Ascii.
From S2P Require Import Prelude PyText Json Platform Models Domain ObservationSchema Observations.
From S2P Require Import Dashboard Accounts Lifecycle WebAuthn AuthApi SessionProps.
Local Open Scope Z_scope.

(** ** Triples *)

(** From state [s], [m] ends in a state with [I] whether it returns or raises, and with [Q]
    of its result when it returns. *)
Definition safe {S A} (I : S -> Prop) (m : M S A) (Q : A -> S -> Prop) (s : S) : Prop :=
  match m s with
  | (s', Ok a) => I s' /\ Q a s'
  | (s', Err _) => I s'
  end.

Section Safe.
Context {S : Type} (I : S -> Prop).

Lemma safe_bind {A B} (m : M S A) (k : A -> M S B) Q s :
  safe I m (fun a s' => safe I (k a) Q s') s -> safe I (m ≫= k) Q s.
Proof. unfold safe. rewrite bind_run. destruct (m s) as [s' [a|e]]; tauto. Qed.

Lemma safe_ret {A} (a : A) (Q : A -> S -> Prop) s : I s -> Q a s -> safe I (mret a) Q s.
Proof. by split. Qed.

Lemma safe_raise {A} e (Q : A -> S -> Prop) s : I s -> safe I (raise e) Q s.
Proof. done. Qed.

Lemma safe_gets {A} (f : S -> A) (Q : A -> S -> Prop) s : I s -> Q (f s) s -> safe I (gets f) Q s.
Proof. by split. Qed.

Lemma safe_modify (f : S -> S) (Q : unit -> S -> Prop) s :
  I (f s) -> Q tt (f s) -> safe I (modify f) Q s.
Proof. by split. Qed.

Lemma safe_raise_if b e (Q : unit -> S -> Prop) s :
  I s -> (b = false -> Q tt s) -> safe I (raise_if b e) Q s.
Proof. destruct b; [done|]. split; auto. Qed.

Lemma safe_catch {A} (m : M S A) p h Q s : safe I m Q s -> safe I (catch m p h) Q s.
Proof. unfold safe, catch. by destruct (m s) as [s' [a|e]]. Qed.

Lemma safe_weaken {A} (m : M S A) (Q Q' : A -> S -> Prop) s :
  safe I m Q s -> (forall a s', I s' -> Q a s' -> Q' a s') -> safe I m Q' s.
Proof. unfold safe. destruct (m s) as [s' [a|e]]; naive_solver. Qed.

Lemma safe_state {A} (m : M S A) Q s : safe I m Q s -> I (m s).1.
Proof. unfold safe. destruct (m s) as [s' [a|e]]; naive_solver. Qed.
End Safe.

(** ** Invariants *)

(** Account tables: rows lie under their ids, ids have 128 bits. *)
Definition users_ok (t : gmap uuid User) : Prop :=
  forall k u, t !! k = Some u -> u_id u = k /\ is_uuid k = true.
Definition realms_ok (t : gmap uuid Realm) : Prop :=
  forall k r, t !! k = Some r -> realm_id r = k /\ is_uuid k = true.
Definition codes_ok (t : gmap uuid RecoveryCode) : Prop :=
  forall k c, t !! k = Some c -> rcode_id c = k.

(** Challenges lie under their ids and no two have the same hash. *)
Record challenges_ok (t : gmap uuid AuthenticationChallenge) : Prop := {
  cho_key : forall k c, t !! k = Some c -> ch_id c = k;
  cho_unique : forall k k' c c', t !! k = Some c -> t !! k' = Some c' ->
    ch_challenge_hash c = ch_challenge_hash c' -> k = k';
}.

Definition memberships_ok (d : AuthDB) : Prop :=
  memberships_unique d /\
  forall k m, realm_memberships d !! k = Some m -> is_Some (realms d !! mb_realm_id m).

(** Every stored session is one [to_json] printed, of an existing user, and not of a later
    session version than the user's. *)
Definition sessions_ok `{IsoFormat} (d : AuthDB) : Prop :=
  forall key v expires, redis d !! key = Some (v, expires) ->
    exists s u, v = to_json s /\ session_wf s = true /\ users d !! sd_user_id s = Some u /\
      sd_user_session_version s <= u_session_version u.

Record auth_ok `{IsoFormat} (d : AuthDB) : Prop := {
  ao_users : users_ok (users d);
  ao_realms : realms_ok (realms d);
  ao_codes : codes_ok (recovery_codes d);
  ao_challenges : challenges_ok (authentication_challenges d);
  ao_memberships : memberships_ok d;
  ao_sessions : sessions_ok d;
}.

(** What requests never undo: accounts stay, session versions do not go back, a consumed
    challenge stays consumed. *)
Record later (d d' : AuthDB) : Prop := {
  la_users : forall k u, users d !! k = Some u ->
    exists u', users d' !! k = Some u' /\ u_session_version u <= u_session_version u';
  la_challenges : forall k c, authentication_challenges d !! k = Some c ->
    ch_consumed_at c <> None -> exists c', authentication_challenges d' !! k = Some c' /\
      ch_challenge_hash c' = ch_challenge_hash c /\ ch_consumed_at c' <> None;
}.

#[export] Instance later_preorder : PreOrder later.
Proof.
  split.
  - intros d. split; [intros k u ->; by exists u|intros k c -> Hc; by exists c].
  - intros d1 d2 d3 [Hu Hc] [Hu' Hc']. split.
    + intros k u Hk. destruct (Hu _ _ Hk) as (u1 & Hk1 & ?).
      destruct (Hu' _ _ Hk1) as (u2 & Hk2 & ?). exists u2. split; [done|lia].
    + intros k c Hk Hne. destruct (Hc _ _ Hk Hne) as (c1 & Hk1 & <- & Hne1).
      by apply (Hc' _ _ Hk1).
Qed.

(** ** Writes *)

(** An update of the challenges that keeps ids and hashes, deletes only pending rows and
    makes no consumed row pending. *)
Definition challenge_update (t t' : gmap uuid AuthenticationChallenge) : Prop :=
  forall k, match t !! k, t' !! k with
    | Some c, Some c' => ch_id c' = ch_id c /\ ch_challenge_hash c' = ch_challenge_hash c /\
        (ch_consumed_at c <> None -> ch_consumed_at c' <> None)
    | Some c, None => ch_consumed_at c = None
    | None, c' => c' = None
    end.

Lemma challenge_update_fmap (p : AuthenticationChallenge -> bool) now t :
  challenge_update t ((fun c : AuthenticationChallenge => if p c then consume_challenge now c else c)
    <$> t).
Proof.
  intros k. rewrite lookup_fmap. destruct (t !! k) as [c|]; [|done]. simpl. by destruct (p c).
Qed.

Lemma challenge_update_alter now i t : challenge_update t (alter (consume_challenge now) i t).
Proof.
  intros k. destruct (decide (k = i)) as [->|Hne].
  - rewrite lookup_alter_eq. by destruct (t !! i).
  - rewrite lookup_alter_ne by done. by destruct (t !! k).
Qed.

Lemma challenge_update_filter u ty t :
  challenge_update t (filter (fun kv => pending_of u ty kv.2 = false) t).
Proof.
  intros k. destruct (t !! k) as [c|] eqn:E.
  - destruct (pending_of u ty c) eqn:Hp.
    + rewrite map_lookup_filter_None_2 by (right; intros x Hx; simplify_eq; simpl; congruence).
      unfold pending_of in Hp. destruct_andb. by apply is_none_true.
    + by rewrite (map_lookup_filter_Some_2 _ _ _ c).
  - by rewrite map_lookup_filter_None_2 by auto.
Qed.

(** Reads through the last write. *)
Ltac open_tables := unfold sessions_ok, memberships_ok, memberships_unique in *;
  cbn [users realms realm_memberships authentication_challenges redis recovery_codes
       set_users set_realms set_realm_memberships set_authentication_challenges set_redis
       set_recovery_codes] in *.

Section Writes.
Context {IF : IsoFormat} (d0 : AuthDB).
Implicit Types (d : AuthDB).

Definition inv d : Prop := auth_ok d /\ later d0 d.

(** Tables neither the invariant nor [later] reads. *)
Lemma inv_set_outbox v d : inv d -> inv (set_outbox v d).
Proof. intros [[] []]. by split; split. Qed.
Lemma inv_set_audit_events v d : inv d -> inv (set_audit_events v d).
Proof. intros [[] []]. by split; split. Qed.
Lemma inv_set_webauthn_credentials v d : inv d -> inv (set_webauthn_credentials v d).
Proof. intros [[] []]. by split; split. Qed.
Lemma inv_set_two_factor_methods v d : inv d -> inv (set_two_factor_methods v d).
Proof. intros [[] []]. by split; split. Qed.
Lemma inv_set_recovery_codes v d : codes_ok v -> inv d -> inv (set_recovery_codes v d).
Proof. intros ? [[] []]. by split; split. Qed.

Lemma inv_redis_set key s u e d :
  session_wf s = true -> users d !! sd_user_id s = Some u ->
  sd_user_session_version s <= u_session_version u ->
  inv d -> inv (set_redis (<[key := (to_json s, e)]> (redis d)) d).
Proof.
  intros Hwf Hu Hv [[] []]. split; split; try done.
  intros k v ex Hk. cbn in Hk. apply lookup_insert_Some in Hk as [[<- [= <- <-]]|[_ Hk]];
    [by exists s, u|eauto].
Qed.

Lemma inv_redis_delete key d : inv d -> inv (set_redis (delete key (redis d)) d).
Proof.
  intros [[] []]. split; split; try done. intros k v ex Hk. cbn in Hk.
  apply lookup_delete_Some in Hk as [_ Hk]. eauto.
Qed.

Lemma inv_challenge_update v d :
  challenge_update (authentication_challenges d) v -> inv d ->
  inv (set_authentication_challenges v d).
Proof.
  intros Hup [[Hu Hr Hco [Hk Hq] Hm Hs] [Hlu Hlc]]. split; split; try done; open_tables.
  - split.
    + intros k c Hc. specialize (Hup k). rewrite Hc in Hup.
      destruct (_ !! k) as [c0|] eqn:E in Hup; [|done]. destruct Hup as (-> & _). eauto.
    + intros k k' c c' Hc Hc' Hh. pose proof (Hup k) as H1. pose proof (Hup k') as H2.
      rewrite Hc in H1. rewrite Hc' in H2.
      destruct (authentication_challenges d !! k) as [c0|] eqn:E; [|done].
      destruct (authentication_challenges d !! k') as [c0'|] eqn:E'; [|done].
      destruct H1 as (_ & H1 & _), H2 as (_ & H2 & _). eapply Hq; eauto; congruence.
  - intros k c Hc Hne. destruct (Hlc _ _ Hc Hne) as (c1 & E & Hh & Hn).
    specialize (Hup k). rewrite E in Hup. simpl. destruct (v !! k) as [c2|]; [|done].
    destruct Hup as (_ & Hh' & Himp). exists c2. repeat split; [congruence|auto].
Qed.

Lemma inv_insert_challenge c d :
  authentication_challenges d !! ch_id c = None ->
  (forall k c', authentication_challenges d !! k = Some c' ->
     ch_challenge_hash c' <> ch_challenge_hash c) ->
  inv d ->
  inv (set_authentication_challenges (<[ch_id c := c]> (authentication_challenges d)) d).
Proof.
  intros Hnone Hfresh [[Hu Hr Hco [Hk Hq] Hm Hs] [Hlu Hlc]]. split; split; try done; open_tables.
  - split.
    + intros k x [[<- <-]|[_ Hx]]%lookup_insert_Some; eauto.
    + intros k k' x y [[<- <-]|[Hne Hx]]%lookup_insert_Some [[<- <-]|[Hne' Hy]]%lookup_insert_Some
        Hh; [done| | |by eapply Hq].
      * exfalso. eapply Hfresh; eauto.
      * exfalso. eapply Hfresh; eauto.
  - intros k x Hx Hne. destruct (Hlc _ _ Hx Hne) as (c1 & E & Hh & Hn). exists c1.
    simpl. rewrite lookup_insert_ne; [done|]. intros <-. congruence.
Qed.

Lemma inv_insert_user u d :
  users d !! u_id u = None -> is_uuid (u_id u) = true -> inv d ->
  inv (set_users (<[u_id u := u]> (users d)) d).
Proof.
  intros Hnone Hid [[Hu Hr Hco Hch Hm Hs] [Hlu Hlc]]. split; split; try done; open_tables.
  - intros k x [[<- <-]|[_ Hx]]%lookup_insert_Some; auto.
  - intros key v e Hk. destruct (Hs _ _ _ Hk) as (s & u' & ? & ? & Hu' & ?). exists s, u'.
    simpl. rewrite lookup_insert_ne; [done|]. intros E. rewrite E in Hnone. congruence.
  - intros k x Hx. destruct (Hlu _ _ Hx) as (u' & Hu' & ?). exists u'. simpl.
    rewrite lookup_insert_ne; [done|]. intros <-. congruence.
Qed.

Lemma inv_alter_user f i d :
  (forall u, users d !! i = Some u -> u_id (f u) = u_id u /\
     u_session_version u <= u_session_version (f u)) ->
  inv d -> inv (set_users (alter f i (users d)) d).
Proof.
  intros Hf [[Hu Hr Hco Hch Hm Hs] [Hlu Hlc]].
  assert (Hup : forall k u, users d !! k = Some u -> exists u', alter f i (users d) !! k = Some u' /\
    u_session_version u <= u_session_version u').
  { intros k u Hk. destruct (decide (k = i)) as [->|].
    - exists (f u). rewrite lookup_alter_eq, Hk. split; [done|by apply Hf].
    - exists u. rewrite lookup_alter_ne by done. split; [done|lia]. }
  split; split; try done; open_tables.
  - intros k x [[<- (u & Hx & ->)]|[_ Hx]]%lookup_alter_Some; [|auto].
    destruct (Hf _ Hx) as [-> _]. auto.
  - intros key v e Hk. destruct (Hs _ _ _ Hk) as (s & u' & ? & ? & Hu' & ?).
    destruct (Hup _ _ Hu') as (u'' & ? & ?). exists s, u''. repeat split; try done. lia.
  - intros k x Hx. destruct (Hlu _ _ Hx) as (u' & Hu' & ?).
    destruct (Hup _ _ Hu') as (u'' & ? & ?). exists u''. split; [done|lia].
Qed.

Lemma inv_insert_realm r d :
  realms d !! realm_id r = None -> is_uuid (realm_id r) = true -> inv d ->
  inv (set_realms (<[realm_id r := r]> (realms d)) d).
Proof.
  intros Hnone Hid [[Hu Hr Hco Hch [Hm Hmr] Hs] []]. split; split; try done; open_tables.
  - intros k x [[<- <-]|[_ Hx]]%lookup_insert_Some; auto.
  - split; [done|]. intros k m Hk. simpl. rewrite lookup_insert_is_Some'. right. eauto.
Qed.

Lemma inv_insert_membership m d :
  realm_memberships d !! mb_id m = None -> is_Some (realms d !! mb_realm_id m) ->
  (forall k m', realm_memberships d !! k = Some m' ->
     ~ (mb_user_id m' = mb_user_id m /\ mb_realm_id m' = mb_realm_id m)) ->
  inv d -> inv (set_realm_memberships (<[mb_id m := m]> (realm_memberships d)) d).
Proof.
  intros Hnone Hrealm Hfresh [[Hu Hr Hco Hch [Hm Hmr] Hs] []]. split; split; try done; open_tables. split.
  - intros k k' x y [[<- <-]|[_ Hx]]%lookup_insert_Some [[<- <-]|[_ Hy]]%lookup_insert_Some E1 E2;
      [done| | |by eapply Hm].
    + exfalso. eapply Hfresh; eauto.
    + exfalso. eapply Hfresh; eauto.
  - intros k x [[<- <-]|[_ Hx]]%lookup_insert_Some; [done|eauto].
Qed.
End Writes.
