(* ===== verification/AuthOps.v ===== *)
(** * Every account operation keeps the invariant

    For each operation of [Accounts], [Lifecycle], [WebAuthn] and each endpoint of
    [AuthApi]: run from a state with [auth_ok], it ends in such a state, [later] than the
    first, whether it returns or raises. *)

From Stdlib Require Import Ascii.
From S2P Require Import Prelude PyText Json Platform Models Domain ObservationSchema Observations.
From S2P Require Import Dashboard Accounts Lifecycle WebAuthn AuthApi SessionProps AuthSteps.
Local Open Scope Z_scope.

(** [m] run from [d] is safe with respect to [d] itself. *)
Definition kept `{IsoFormat} {A} (m : AuthM A) (Q : A -> AuthDB -> Prop) (d : AuthDB) : Prop :=
  auth_ok d -> safe (inv d) m Q d.

Section Kept.
Context {IF : IsoFormat}.
Implicit Types (d : AuthDB).

Lemma inv_self d : auth_ok d -> inv d d.
Proof. by split. Qed.

Lemma kept_bind {A B} (m : AuthM A) (k : A -> AuthM B) Q Q' d :
  kept m Q d -> (forall a d1, later d d1 -> Q a d1 -> kept (k a) Q' d1) -> kept (m ≫= k) Q' d.
Proof.
  intros Hm Hk Hok. apply safe_bind. eapply safe_weaken; [by apply Hm|].
  intros a d1 [Hok1 Hl] Hq. specialize (Hk a d1 Hl Hq Hok1). unfold safe in *.
  destruct (k a d1) as [d2 [b|e]]; unfold inv in *; intuition (by etransitivity).
Qed.

Lemma kept_ret {A} (a : A) (Q : A -> AuthDB -> Prop) d : Q a d -> kept (mret a) Q d.
Proof. intros Hq Hok. apply safe_ret; [by apply inv_self|done]. Qed.
Lemma kept_raise {A} e (Q : A -> AuthDB -> Prop) d : kept (raise e) Q d.
Proof. intros Hok. by apply safe_raise, inv_self. Qed.
Lemma kept_gets {A} (f : AuthDB -> A) d : kept (gets f) (fun a d' => a = f d /\ d' = d) d.
Proof. intros Hok. by apply safe_gets; [apply inv_self|]. Qed.
Lemma kept_raise_if b e d : kept (raise_if b e) (fun _ d' => b = false /\ d' = d) d.
Proof. intros Hok. by apply safe_raise_if; [apply inv_self|]. Qed.
Lemma kept_modify f (Q : unit -> AuthDB -> Prop) d :
  (auth_ok d -> inv d (f d)) -> Q tt (f d) -> kept (modify f) Q d.
Proof. intros Hf Hq Hok. by apply safe_modify; [apply Hf|]. Qed.
Lemma kept_catch {A} (m : AuthM A) p h Q d : kept m Q d -> kept (catch m p h) Q d.
Proof. intros Hm Hok. by apply safe_catch, Hm. Qed.
Lemma kept_weaken {A} (m : AuthM A) (Q Q' : A -> AuthDB -> Prop) d :
  kept m Q d -> (forall a d', later d d' -> Q a d' -> Q' a d') -> kept m Q' d.
Proof.
  intros Hm Himp Hok. eapply safe_weaken; [by apply Hm|]. intros a d' [_ Hl]. by apply Himp.
Qed.
Lemma kept_ok {A} (m : AuthM A) Q d : (auth_ok d -> kept m Q d) -> kept m Q d.
Proof. intros Hm Hok. by apply Hm. Qed.

(** Operations with nothing to say of their result. *)
Definition anything {A} (_ : A) (_ : AuthDB) : Prop := True.

Lemma kept_any {A} (m : AuthM A) Q d : kept m Q d -> kept m anything d.
Proof. intros Hm. by eapply kept_weaken. Qed.
End Kept.

(** Takes the next step of a computation whose specification is known. *)
Ltac kstep lem := eapply kept_bind; [apply lem|intros ? ? ? ?].
Ltac kget := eapply kept_bind; [apply kept_gets|intros ? ? _ [-> ->]].
Ltac kguard := eapply kept_bind; [apply kept_raise_if|intros ? ? _ [? ->]].
Ltac kdone := first [apply kept_raise | apply kept_ret; done].

(** The user is in the table, perhaps at a later session version. *)
Definition known (u : User) (d : AuthDB) : Prop :=
  exists u', users d !! u_id u = Some u' /\ u_session_version u <= u_session_version u'.

Lemma known_later u d d' : later d d' -> known u d -> known u d'.
Proof.
  intros Hl (u1 & H1 & Hv). destruct (la_users _ _ Hl _ _ H1) as (u2 & H2 & Hv2).
  exists u2. split; [done|lia].
Qed.

(** The user is in the table as it is. *)
Definition stored (u : User) (d : AuthDB) : Prop := users d !! u_id u = Some u.

Lemma stored_known u d : stored u d -> known u d.
Proof. intros Hs. exists u. split; [done|lia]. Qed.

Section Sessions.
Context {P : Platform} {IF : IsoFormat} (settings : Settings).
Implicit Types (d : AuthDB) (u : User) (s : SessionData).

Lemma first_active_realm_Some d r :
  first_active_realm d = Some r -> exists k, realms d !! k = Some r /\ realm_is_active r = true.
Proof.
  assert (Hin : forall l x, fold_left earlier_realm l x ∈ x :: l).
  { induction l as [|y l IH]; intros x; simpl; [left|]. specialize (IH (earlier_realm x y)).
    unfold earlier_realm in *. destruct (_ <? _); [by right|].
    apply elem_of_cons in IH as [->|IH]; [left|by right; right]. }
  unfold first_active_realm. destruct (List.filter _ _) as [|x l] eqn:E; [done|].
  intros [= <-]. specialize (Hin l x). rewrite <-E, list_elem_of_In, filter_In in Hin.
  destruct Hin as [Hr Ha]. apply list_elem_of_In, elem_of_rows in Hr as [k Hk]. eauto.
Qed.

Lemma initial_realm_uuid u d r :
  auth_ok d -> _initial_realm_id u d = Some r -> is_uuid r = true.
Proof.
  intros Hok. unfold _initial_realm_id.
  destruct (first_row _ _) as [m|] eqn:E.
  - intros [= <-]. apply first_row_Some in E as [[k Hk] _].
    destruct (proj2 (ao_memberships _ Hok) _ _ Hk) as [r Hr]. by apply (ao_realms _ Hok) in Hr as [_ ?].
  - destruct (u_is_superuser u); [|done]. destruct (first_active_realm d) as [r'|] eqn:Er; [|done].
    intros [= <-]. apply first_active_realm_Some in Er as (k & Hk & _).
    apply (ao_realms _ Hok) in Hk as [-> ?]. done.
Qed.

Lemma known_uuid u d : auth_ok d -> known u d -> is_uuid (u_id u) = true.
Proof. intros Hok (u' & Hu & _). by apply (ao_users _ Hok) in Hu as [_ ?]. Qed.

Lemma kept_redis_set now key s ex d :
  session_wf s = true -> (exists u, users d !! sd_user_id s = Some u /\
    sd_user_session_version s <= u_session_version u) ->
  kept (redis_set now key (to_json s) ex) (fun _ d' => users d' = users d) d.
Proof.
  intros Hwf (u & Hu & Hv). apply kept_modify; [|done]. intros Hok.
  eapply inv_redis_set; eauto using inv_self.
Qed.

Lemma kept_redis_delete key d : kept (redis_delete key) anything d.
Proof. apply kept_modify; [|done]. intros Hok. by apply inv_redis_delete, inv_self. Qed.

Lemma kept_create_session now token u request method d :
  in_calendar now = true -> known u d ->
  kept (create_session settings now token u request method) anything d.
Proof.
  intros Hnow Hu. apply kept_ok. intros Hok. unfold create_session. kget.
  eapply kept_bind; [apply kept_redis_set|intros; by apply kept_ret].
  - unfold session_wf. simpl. rewrite (known_uuid u d), Hnow by done. simpl.
    destruct (_initial_realm_id u d) eqn:E; [|done]. by rewrite (initial_realm_uuid u d) by done.
  - exact Hu.
Qed.

(** What an authenticated request may rely on. *)
Definition authenticated_user (us : User * SessionData) d : Prop :=
  stored us.1 d /\ u_is_active us.1 = true /\ sd_user_id us.2 = u_id us.1 /\
  session_wf us.2 = true /\ sd_user_session_version us.2 = u_session_version us.1.

(** A stored value parses to the session it was printed from. *)
Lemma parsed_session now key raw s d :
  auth_ok d -> redis_get now key d = Some raw -> from_json raw key = Ok s ->
  session_wf s = true.
Proof.
  intros Hok Hr Hp. unfold redis_get in Hr. destruct (redis d !! key) as [[v e]|] eqn:E; [|done].
  destruct (_ <? _); [|done]. simplify_eq.
  destruct (ao_sessions _ Hok _ _ _ E) as (s0 & u0 & -> & Hwf & _).
  rewrite session_roundtrip in Hp by done. injection Hp as <-. exact Hwf.
Qed.

Lemma kept_get_session_user now request d :
  in_calendar now = true ->
  kept (get_session_user settings now request) authenticated_user d.
Proof.
  intros Hnow Hok. destruct (get_session_user settings now request d) as [d' r] eqn:E.
  apply get_session_user_inv in E as E'.
  destruct E' as [(u & s & (token & raw & Hc & Hr & Hp & Hu & Ha & Hv) & -> & ->)|(e & -> & Hd)].
  - pose proof (parsed_session _ _ _ _ _ Hok Hr Hp) as Hwf.
    pose proof (ao_users _ Hok _ _ Hu) as [Hid Huu].
    assert (Hwf' : session_wf (touched now s u d) = true).
    { unfold session_wf, touched, effective_realm in *. destruct_andb. simpl.
      split_andb; try done. destruct (sd_active_realm_id s); [done|].
      destruct (_initial_realm_id u d) eqn:Ei; [by apply (initial_realm_uuid u d)|done]. }
    unfold safe. rewrite E. split.
    + eapply inv_redis_set; eauto using inv_self. simpl. lia.
    + repeat split; simpl; try done. unfold stored. simpl. by rewrite Hid.
  - unfold safe. rewrite E. destruct Hd as [->|(key & ->)]; [by apply inv_self|].
    by apply inv_redis_delete, inv_self.
Qed.

Lemma kept_set_active_realm now s r u d :
  in_calendar now = true -> is_uuid r = true -> authenticated_user (u, s) d ->
  kept (set_active_realm settings now s r) anything d.
Proof.
  intros Hnow Hr (Hst & _ & Hid & Hwf & Hv). unfold set_active_realm. simpl in *.
  eapply kept_bind; [apply kept_redis_set|intros; by apply kept_ret].
  - unfold session_wf in *. simpl. destruct_andb. by split_andb.
  - exists u. simpl. rewrite Hid. split; [exact Hst|lia].
Qed.

Lemma kept_delete_session request d : kept (delete_session settings request) anything d.
Proof.
  unfold delete_session. destruct (session_token settings request); [|by apply kept_ret].
  apply kept_redis_delete.
Qed.
End Sessions.

Section Challenges.
Context {P : Platform} {IF : IsoFormat} {H : PasswordHasher} (settings : Settings).
Implicit Types (d : AuthDB) (u : User).

Lemma kept_insert_challenge c d :
  kept (insert_challenge c) (fun _ d' => users d' = users d) d.
Proof.
  unfold insert_challenge. kget. kguard. apply kept_modify; [|done]. intros Hok.
  match goal with H : _ || _ = false |- _ => apply orb_false_iff in H as [Hid Hh] end.
  apply inv_insert_challenge; [|intros k c' Hc|by apply inv_self].
  - by apply is_none_true, negb_false_iff.
  - eapply exists_row_false in Hh; [|exact Hc]. by apply String.eqb_neq.
Qed.

Lemma kept_challenge_update f d :
  (forall t, challenge_update t (f t)) ->
  kept (modify (fun d => set_authentication_challenges (f (authentication_challenges d)) d))
    (fun _ d' => users d' = users d) d.
Proof.
  intros Hf. apply kept_modify; [|done]. intros Hok.
  by apply inv_challenge_update; [|apply inv_self].
Qed.

Lemma kept_save_consumed now c d : kept (save_consumed now c) (fun _ d' => users d' = users d) d.
Proof.
  apply (kept_challenge_update (alter (consume_challenge now) (ch_id c))).
  intros t. apply challenge_update_alter.
Qed.

Lemma kept_create_account_token now token id u ty ttl d :
  kept (create_account_token now token id u ty ttl) anything d.
Proof.
  unfold create_account_token.
  eapply kept_bind; [apply (kept_challenge_update (fmap (fun c =>
    if pending_of (u_id u) ty c then consume_challenge now c else c)));
    intros t; apply challenge_update_fmap|intros a d1 _ _].
  eapply kept_bind; [apply kept_insert_challenge|intros]. by apply kept_ret.
Qed.

(** The user a token or challenge names is in the table as it is. *)
Definition stored_opt (o : option User) d : Prop := match o with Some u => stored u d | None => True end.

Lemma challenge_user_stored c u d : auth_ok d -> challenge_user c d = Some u -> stored u d.
Proof.
  unfold challenge_user, stored. intros Hok Hu. destruct (ch_user_id c) as [i|]; [|done].
  simpl in Hu. by rewrite (proj1 (ao_users _ Hok _ _ Hu)).
Qed.

Lemma kept_consume_account_token now token ty d :
  kept (consume_account_token now token ty) stored_opt d.
Proof.
  apply kept_ok. intros Hok. unfold consume_account_token. kget.
  destruct (first_row _ _) as [c|]; [|by apply kept_ret]. kget.
  destruct (challenge_user c d) as [u|] eqn:Hu; [|by apply kept_ret].
  destruct (negb _); [by apply kept_ret|].
  eapply kept_bind; [apply kept_save_consumed|intros a d1 _ E; cbn in E]. apply kept_ret.
  simpl. unfold stored. rewrite E. by eapply challenge_user_stored.
Qed.

Lemma kept_save_user f u d :
  stored u d -> (u_id (f u) = u_id u /\ u_session_version u <= u_session_version (f u)) ->
  kept (save_user f u) anything d.
Proof.
  intros Hs Hf. apply kept_modify; [|done]. intros Hok.
  apply inv_alter_user; [|by apply inv_self]. intros u' Hu'.
  assert (u' = u) as -> by (unfold stored in Hs; congruence). done.
Qed.

Lemma kept_verify_email_token now token d : kept (verify_email_token now token) anything d.
Proof.
  unfold verify_email_token. kstep kept_consume_account_token.
  destruct a as [u|]; [|by apply kept_ret]. destruct (u_email_verified u); [by apply kept_ret|].
  eapply kept_bind; [apply kept_save_user; [done|split; simpl; [done|lia]]|intros].
  by apply kept_ret.
Qed.

Lemma kept_reset_password now salt token password d :
  kept (reset_password now salt token password) anything d.
Proof.
  unfold reset_password. kstep kept_consume_account_token.
  destruct a as [u|]; [|by apply kept_ret]. kguard.
  eapply kept_bind; [apply kept_save_user; [done|split; simpl; [done|lia]]|intros].
  by apply kept_ret.
Qed.
End Challenges.

Section SecondFactor.
Context {P : Platform} {IF : IsoFormat} {T : TwoFactorLib} (settings : Settings).
Implicit Types (d : AuthDB) (u : User).

Lemma kept_set_methods f d :
  kept (modify (fun d => set_two_factor_methods (f d) d)) anything d.
Proof.
  apply kept_modify; [|done]. intros Hok. by apply inv_set_two_factor_methods, inv_self.
Qed.

Lemma kept_set_codes f d :
  (auth_ok d -> codes_ok (f d)) -> kept (modify (fun d => set_recovery_codes (f d) d)) anything d.
Proof.
  intros Hf. apply kept_modify; [|done]. intros Hok.
  by apply inv_set_recovery_codes; [apply Hf|apply inv_self].
Qed.

Lemma kept_delete_methods p d : kept (delete_methods p) anything d.
Proof. apply kept_set_methods. Qed.

Lemma kept_delete_codes u d : kept (delete_codes u) anything d.
Proof.
  apply kept_set_codes. intros Hok k c Hc. apply map_lookup_filter_Some in Hc as [Hc _].
  by apply (ao_codes _ Hok).
Qed.

Lemma kept_create_totp_setup id nonce secret u d :
  kept (create_totp_setup settings id nonce secret u) anything d.
Proof.
  unfold create_totp_setup. kstep kept_delete_methods.
  eapply kept_bind; [|intros; by apply kept_ret]. unfold insert_method. kget. kguard.
  apply kept_set_methods.
Qed.

Lemma kept_insert_codes u codes d : kept (insert_codes u codes) anything d.
Proof.
  unfold insert_codes. kget. kguard. apply kept_set_codes. intros Hok k c Hc.
  apply lookup_union_Some_raw in Hc as [Hc|[_ Hc]]; [|by apply (ao_codes _ Hok)].
  apply elem_of_list_to_map_2, list_elem_of_fmap in Hc as ([i x] & [= -> ->] & _). done.
Qed.

Lemma kept_verify_totp_setup now draws u method_id code d :
  kept (verify_totp_setup settings now draws u method_id code) anything d.
Proof.
  unfold verify_totp_setup. kget. destruct (get_row _ _ _) as [m|]; [|by kdone].
  destruct (decrypt_secret _ _) as [secret|]; [|by kdone]. kguard.
  eapply kept_bind; [apply kept_set_methods|intros]. kstep kept_delete_codes.
  kstep kept_insert_codes. by apply kept_ret.
Qed.

Lemma kept_verify_two_factor now u code recovery d :
  kept (verify_two_factor settings now u code recovery) anything d.
Proof.
  unfold verify_two_factor. destruct recovery; kget.
  - destruct (first_row _ _) as [c|]; [|by apply kept_ret].
    eapply kept_bind; [apply kept_set_codes|intros; by apply kept_ret].
    intros Hok k x [[<- (y & Hy & ->)]|[_ Hx]]%lookup_alter_Some; [|by apply (ao_codes _ Hok)].
    simpl. by apply (ao_codes _ Hok).
  - destruct (first_row _ _) as [m|]; [|by apply kept_ret].
    destruct (decrypt_secret _ _) as [secret|]; [|by kdone].
    eapply kept_bind; [|intros; by apply kept_ret].
    destruct (totp_verify _ _ _); [apply kept_set_methods|by apply kept_ret].
Qed.

Lemma kept_create_login_challenge now token id u d :
  kept (create_login_challenge now token id u) anything d.
Proof.
  unfold create_login_challenge.
  eapply kept_bind; [apply (kept_challenge_update (filter (fun kv =>
    pending_of (u_id u) "two_factor_login" kv.2 = false)));
    intros t; apply challenge_update_filter|intros a d1 _ _].
  eapply kept_bind; [apply kept_insert_challenge|intros]. by apply kept_ret.
Qed.

Lemma kept_consume_login_challenge now token d :
  kept (consume_login_challenge now token) stored_opt d.
Proof.
  apply kept_ok. intros Hok. unfold consume_login_challenge. kget.
  destruct (first_row _ _) as [c|]; [|by apply kept_ret]. kget.
  destruct (challenge_user c d) as [u|] eqn:Hu; [|by apply kept_ret].
  destruct (_ <=? _); [by apply kept_ret|].
  eapply kept_bind; [apply kept_save_consumed|intros a d1 _ E; cbn in E]. apply kept_ret.
  simpl. unfold stored. rewrite E. by eapply challenge_user_stored.
Qed.
End SecondFactor.

Section Passkeys.
Context {P : Platform} {IF : IsoFormat} {W : WebAuthnLib} (settings : Settings).
Implicit Types (d : AuthDB) (u : User).

Lemma kept_set_passkeys f d :
  kept (modify (fun d => set_webauthn_credentials (f d) d)) (fun _ d' => users d' = users d) d.
Proof.
  apply kept_modify; [|done]. intros Hok. by apply inv_set_webauthn_credentials, inv_self.
Qed.

Lemma kept_unb64 v d : kept (unb64 v) (fun _ d' => d' = d) d.
Proof. unfold unb64. destruct (_unb64 v); [by apply kept_ret|apply kept_raise]. Qed.

Lemma kept_exclude_credentials l d : kept (exclude_credentials l) anything d.
Proof.
  revert d. induction l as [|c l IH]; intros d; simpl; [by apply kept_ret|].
  kstep kept_unb64. kstep IH. by apply kept_ret.
Qed.

Lemma kept_store_challenge now id challenge ty o d :
  kept (_store_challenge now id challenge ty o) anything d.
Proof. unfold _store_challenge. kstep kept_insert_challenge. by apply kept_ret. Qed.

Lemma kept_get_challenge now id ty d :
  kept (_get_challenge now id ty) (fun _ d' => d' = d) d.
Proof.
  unfold _get_challenge. kget. destruct (get_row _ _ _) as [c|]; [|by kdone]. kguard.
  by apply kept_ret.
Qed.

Lemma kept_expected_challenge c d : kept (expected_challenge c) (fun _ d' => d' = d) d.
Proof.
  unfold expected_challenge. destruct (json_get _ _); [apply kept_unb64|apply kept_raise].
Qed.

Lemma kept_registration_options now id challenge u d :
  kept (registration_options settings now id challenge u) anything d.
Proof.
  unfold registration_options. kget. kstep kept_exclude_credentials. kstep kept_store_challenge.
  by apply kept_ret.
Qed.

Lemma kept_verify_registration now id u challenge_id credential name d :
  kept (verify_registration settings now id u challenge_id credential name) anything d.
Proof.
  unfold verify_registration. kstep kept_get_challenge. kguard. kstep kept_expected_challenge.
  destruct (verify_registration_response _ _ _ _) as [v|]; [|by kdone].
  destruct (transports_value _) as [t|]; [|by kdone].
  eapply kept_bind.
  { unfold insert_webauthn_credential. kguard. kget. kguard. apply kept_set_passkeys. }
  intros ? ? ? ?. kstep kept_save_consumed. by apply kept_ret.
Qed.

Lemma kept_authentication_options now id challenge d :
  kept (authentication_options settings now id challenge) anything d.
Proof. unfold authentication_options. kstep kept_store_challenge. by apply kept_ret. Qed.

Lemma kept_verify_authentication now challenge_id credential d :
  kept (verify_authentication settings now challenge_id credential) stored d.
Proof.
  apply kept_ok. intros Hok. unfold verify_authentication.
  eapply kept_bind; [apply kept_get_challenge|intros c ? _ ->].
  destruct (obj_get _ _) as [[]|]; try by kdone. kget.
  destruct (first_row _ _) as [p|]; [|by kdone].
  destruct (users d !! wc_user_id p) as [u|] eqn:Hu; [|by kdone].
  eapply kept_bind; [apply kept_expected_challenge|intros e ? _ ->].
  eapply kept_bind; [apply kept_unb64|intros b ? _ ->].
  destruct (verify_authentication_response _ _ _ _ _ _) as [v|]; [|by kdone].
  eapply kept_bind; [apply kept_set_passkeys|intros ? d1 _ E1].
  eapply kept_bind; [apply kept_save_consumed|intros ? d2 _ E2]. apply kept_ret.
  cbn in E1, E2. unfold stored. rewrite E2, E1. by rewrite (proj1 (ao_users _ Hok _ _ Hu)).
Qed.
End Passkeys.

Section Handlers.
Context {P : Platform} {IF : IsoFormat} {H : PasswordHasher} {T : TwoFactorLib} {W : WebAuthnLib}
  {C : Collation} (settings : Settings) (now : Z) (Hnow : in_calendar now = true).
Implicit Types (d : AuthDB) (u : User).

Lemma kept_send_account_email email subject path token d :
  kept (_send_account_email settings email subject path token) anything d.
Proof. apply kept_modify; [|done]. intros Hok. by apply inv_set_outbox, inv_self. Qed.

Lemma kept_insert_user u d :
  is_uuid (u_id u) = true -> kept (insert_user u) (fun _ d' => stored u d') d.
Proof.
  intros Hid. unfold insert_user. kguard. kget. kguard. apply kept_modify.
  - intros Hok. apply inv_insert_user; [|done|by apply inv_self].
    by apply is_none_true, negb_false_iff; apply orb_false_iff in H1 as [? _].
  - unfold stored. simpl. apply lookup_insert_eq.
Qed.

Lemma kept_insert_realm r d :
  is_uuid (realm_id r) = true ->
  kept (insert_realm r) (fun _ d' => is_Some (realms d' !! realm_id r)) d.
Proof.
  intros Hid. unfold insert_realm. kguard. kget. kguard. apply kept_modify.
  - intros Hok. apply inv_insert_realm; [|done|by apply inv_self].
    by apply is_none_true, negb_false_iff; apply orb_false_iff in H1 as [? _].
  - simpl. by rewrite lookup_insert_eq.
Qed.

Lemma kept_insert_membership m d :
  is_Some (realms d !! mb_realm_id m) -> kept (insert_membership m) anything d.
Proof.
  intros Hr. unfold insert_membership. kget. kguard. apply kept_modify; [|done]. intros Hok.
  apply orb_false_iff in H0 as [H1 H2].
  apply inv_insert_membership; [by apply is_none_true, negb_false_iff|done| |by apply inv_self].
  intros k m' Hk [E1 E2]. eapply exists_row_false in H2; [|exact Hk].
  by rewrite E1, E2, !N.eqb_refl in H2.
Qed.

Ltac kuser := eapply kept_bind; [by apply kept_get_session_user|
  intros [? ?] ? ? (? & ? & ? & ? & ?); cbn [fst snd] in *].

Lemma kept_signup user_id realm_id_ membership_id challenge_id salt vt st payload request d :
  is_uuid user_id = true -> is_uuid realm_id_ = true ->
  kept (signup settings now user_id realm_id_ membership_id challenge_id salt vt st payload request)
    anything d.
Proof.
  intros Hu Hr. unfold signup. kget. kguard.
  eapply kept_bind; [by apply kept_insert_user|intros ? d1 _ Hst%stored_known]. kget.
  destruct (find_slug _ _) as [slug|]; [|by kdone].
  eapply kept_bind; [by apply kept_insert_realm|intros ? d2 Hl2 Hrealm].
  eapply kept_bind; [by apply kept_insert_membership|intros ? d3 Hl3 _].
  eapply kept_bind; [apply kept_create_account_token|intros ? d4 Hl4 _].
  eapply kept_bind; [apply kept_send_account_email|intros ? d5 Hl5 _].
  eapply kept_bind; [apply kept_create_session; [done|eauto using known_later]|intros [s c] d6 _ _].
  kget. by apply kept_ret.
Qed.

Lemma kept_request_email_verification token id request d :
  kept (request_email_verification settings now token id request) anything d.
Proof.
  unfold request_email_verification. kuser.
  eapply kept_bind with (Q := anything); [|intros; by apply kept_ret].
  destruct (negb _); [|by apply kept_ret]. kstep kept_create_account_token.
  apply kept_send_account_email.
Qed.

Lemma kept_confirm_email_verification token d :
  kept (confirm_email_verification now token) anything d.
Proof. unfold confirm_email_verification. kstep kept_verify_email_token. kguard. by apply kept_ret. Qed.

Lemma kept_forgot_password token id email d :
  kept (forgot_password settings now token id email) anything d.
Proof.
  unfold forgot_password. kget.
  eapply kept_bind with (Q := anything); [|intros; by apply kept_ret].
  destruct (first_row _ _); [|by apply kept_ret]. kstep kept_create_account_token.
  apply kept_send_account_email.
Qed.

Lemma kept_confirm_password_reset salt token password d :
  kept (confirm_password_reset now salt token password) anything d.
Proof. unfold confirm_password_reset. kstep kept_reset_password. kguard. by apply kept_ret. Qed.

Lemma kept_login id ct st payload request d :
  kept (login settings now id ct st payload request) anything d.
Proof.
  apply kept_ok. intros Hok. unfold login. kget. destruct (first_row _ _) as [u|] eqn:Hu; [|by kdone].
  kguard. kguard. kget. destruct (user_has_two_factor u d).
  - kstep kept_create_login_challenge. by apply kept_ret.
  - eapply kept_bind; [apply kept_create_session; [done|]|intros [s c] ? _ _; kget; by apply kept_ret].
    apply stored_known. apply first_row_Some in Hu as [[k Hk] _]. unfold stored.
    by rewrite (proj1 (ao_users _ Hok _ _ Hk)).
Qed.

Lemma kept_me request d : kept (me settings now request) anything d.
Proof. unfold me. kuser. by eapply kept_any, kept_gets. Qed.

Lemma kept_activate_realm realm request d :
  kept (activate_realm settings now realm request) anything d.
Proof.
  unfold activate_realm.
  eapply kept_bind; [by apply kept_get_session_user|intros [u s] d1 _ Hau; cbn [fst snd]].
  apply kept_ok. intros Hok. kget.
  match goal with |- kept (match ?m with _ => _ end) _ _ => destruct m as [r|] eqn:Hr end; [|by kdone].
  eapply kept_bind; [eapply kept_set_active_realm; [done| |exact Hau]|
    intros; by eapply kept_any, kept_gets].
  assert (exists k, realms d1 !! k = Some r) as [k Hk].
  { destruct (u_is_superuser u); [apply get_row_Some in Hr as [? _]; eauto|].
    destruct (first_row _ _); eauto. done. }
  by apply (ao_realms _ Hok) in Hk as [-> ?].
Qed.

Lemma kept_verify_login_challenge st payload request d :
  kept (verify_login_challenge settings now st payload request) anything d.
Proof.
  unfold verify_login_challenge.
  eapply kept_bind; [apply kept_consume_login_challenge|intros [u|] d1 _ Hu; [|by kdone]].
  apply stored_known in Hu.
  eapply kept_bind; [apply kept_verify_two_factor|intros valid d2 Hl _]. kguard.
  eapply kept_bind; [apply kept_create_session; [done|by eapply known_later]|intros [s c] ? _ _].
  kget. by apply kept_ret.
Qed.

Lemma kept_setup_totp id nonce secret request d :
  kept (setup_totp settings now id nonce secret request) anything d.
Proof.
  unfold setup_totp. kuser. eapply kept_bind; [apply kept_create_totp_setup|intros [[m s'] uri] ? _ _].
  by apply kept_ret.
Qed.

Lemma kept_verify_totp draws method_id code request d :
  kept (verify_totp settings now draws method_id code request) anything d.
Proof. unfold verify_totp. kuser. apply kept_catch, kept_verify_totp_setup. Qed.

Lemma kept_disable_totp request d : kept (disable_totp settings now request) anything d.
Proof. unfold disable_totp. kuser. kstep kept_delete_methods. apply kept_delete_codes. Qed.

Lemma kept_two_factor_enabled request d : kept (two_factor_enabled settings now request) anything d.
Proof. unfold two_factor_enabled. kuser. by eapply kept_any, kept_gets. Qed.

Lemma kept_register_options id challenge request d :
  kept (register_options settings now id challenge request) anything d.
Proof. unfold register_options. kuser. apply kept_registration_options. Qed.

Lemma kept_register_verify id challenge_id credential name request d :
  kept (register_verify settings now id challenge_id credential name request) anything d.
Proof.
  unfold register_verify. kuser.
  eapply kept_bind; [apply kept_catch, kept_verify_registration|intros]. by apply kept_ret.
Qed.

Lemma kept_authenticate_verify challenge_id st credential request d :
  kept (authenticate_verify settings now challenge_id st credential request) anything d.
Proof.
  unfold authenticate_verify.
  eapply kept_bind; [apply kept_catch, kept_verify_authentication|intros u d1 _ Hu%stored_known].
  kguard. eapply kept_bind; [by apply kept_create_session|intros [s c] ? _ _]. kget. by apply kept_ret.
Qed.

Lemma kept_delete_passkey id request d : kept (delete_passkey settings now id request) anything d.
Proof.
  unfold delete_passkey. kuser. destruct (parse_uuid id); [|by kdone]. kget. kguard.
  eapply kept_any, kept_set_passkeys.
Qed.

Lemma kept_security_summary request d : kept (security_summary settings now request) anything d.
Proof. unfold security_summary. kuser. by eapply kept_any, kept_gets. Qed.
End Handlers.
