(* ===== verification/Superuser.v ===== *)
(** * The command that creates superusers (cli/create_superuser.py)

    The command reads its options, the environment and the terminal, and writes the tables
    of accounts and realms.  What it reads from standard input and what is typed at the
    password prompt are two lists of lines; reading past the end raises [EOFError], so its
    loops end.  Ids, the salt and the instant are arguments. *)

From Stdlib Require Import Ascii.
From S2P Require Import Prelude PyText Json Platform Models Domain ObservationSchema Observations.
From S2P Require Import Dashboard Accounts Lifecycle WebAuthn AuthApi.
From S2P Require Import SessionProps AuthSteps AuthOps.
Local Open Scope Z_scope.

Definition MIN_PASSWORD_LENGTH : Z := 12.
Definition DEFAULT_REALM_NAME : string := "Default".

(** The options [build_parser] declares; [--realm-name] is [DEFAULT_REALM_NAME] by default. *)
Record Namespace := mkNamespace {
  arg_email : option string;
  arg_first_name : option string;
  arg_last_name : option string;
  arg_realm_name : string;
  arg_promote_existing : bool;
}.

(** Lines still to be read from standard input and at the password prompt; texts written to
    standard output (prompts included) and to standard error. *)
Record Console := mkConsole {
  cs_stdin : list string;
  cs_tty : list string;
  cs_stdout : list string;
  cs_stderr : list string;
}.

Abbreviation CliM A := (M (AuthDB * Console) A).

Definition on_tables {A} (m : AuthM A) : CliM A := zoom fst (fun d s => (d, s.2)) m.
Definition on_console {A} (m : M Console A) : CliM A := zoom snd (fun c s => (s.1, c)) m.

Definition print (text : string) : M Console unit :=
  modify (fun c => mkConsole (cs_stdin c) (cs_tty c) (cs_stdout c ++ [text]) (cs_stderr c)).
Definition print_error (text : string) : M Console unit :=
  modify (fun c => mkConsole (cs_stdin c) (cs_tty c) (cs_stdout c) (cs_stderr c ++ [text])).

(** The loop of [_prompt]: the entry, the lines left, the prompts written. *)
Fixpoint prompt_loop (label : string) (lines : list string) :
    outcome string * list string * list string :=
  let prompt := label +:+ ": " in
  match lines with
  | [] => (Err EOFError, [], [prompt])
  | line :: rest =>
      let entered := strip line in
      if negb (String.eqb entered EmptyString) then (Ok entered, rest, [prompt])
      else match prompt_loop label rest with
           | (r, unread, written) => (r, unread, prompt :: written)
           end
  end.

Definition _prompt (value : option string) (label : string) : M Console string := fun c =>
  match value with
  | Some v =>
      if negb (String.eqb v EmptyString) then (c, Ok (strip v))
      else match prompt_loop label (cs_stdin c) with
           | (r, unread, written) =>
               (mkConsole unread (cs_tty c) (cs_stdout c ++ written) (cs_stderr c), r)
           end
  | None => match prompt_loop label (cs_stdin c) with
            | (r, unread, written) =>
                (mkConsole unread (cs_tty c) (cs_stdout c ++ written) (cs_stderr c), r)
            end
  end.

Definition _validate_password (password : string) : outcome string :=
  if str_len password <? MIN_PASSWORD_LENGTH
  then Err (ValueError "Password must be at least 12 characters.")
  else Ok password.

(** The loop of [_read_password]: the password, the lines left, the complaints written. *)
Fixpoint password_loop (lines : list string) : outcome string * list string * list string :=
  match lines with
  | [] => (Err EOFError, [], [])
  | password :: rest =>
      match _validate_password password with
      | Err e => match password_loop rest with
                 | (r, unread, written) => (r, unread, exn_text e :: written)
                 end
      | Ok _ =>
          match rest with
          | [] => (Err EOFError, [], [])
          | confirmation :: rest' =>
              if String.eqb password confirmation then (Ok password, rest', [])
              else match password_loop rest' with
                   | (r, unread, written) => (r, unread, "Passwords do not match." :: written)
                   end
          end
      end
  end.

(** [env_password] is the variable [BIFROSTNMS_SUPERUSER_PASSWORD] of the environment. *)
Definition _read_password (env_password : option string) : M Console string := fun c =>
  let ask := match password_loop (cs_tty c) with
             | (r, unread, written) =>
                 (mkConsole (cs_stdin c) unread (cs_stdout c) (cs_stderr c ++ written), r)
             end in
  match env_password with
  | Some p => if negb (String.eqb p EmptyString) then (c, _validate_password p) else ask
  | None => ask
  end.

Definition _slugify_realm (value : string) : string :=
  let value := sub_runs false (lower (strip value)) in
  let value := rstrip_with (is_char "-") (lstrip_with (is_char "-") value) in
  if String.eqb value EmptyString then "realm" else value.

Definition ensure_initial_realm (now : Z) (id : uuid) (realm_name : string) : CliM Realm :=
  existing ← on_tables (gets first_active_realm);
  match existing with
  | Some realm => mret realm
  | None =>
      let name := if String.eqb (strip realm_name) EmptyString then DEFAULT_REALM_NAME
                  else strip realm_name in
      slug ← on_tables (gets (find_slug (_slugify_realm name)));
      match slug with
      | None => raise IntegrityError (* unreachable: see [find_slug_total] *)
      | Some slug =>
          let realm := mkRealm id name slug true now in
          on_tables (insert_realm realm) ;;
          on_console (print ("Created initial realm " +:+ name +:+ " (" +:+ slug +:+ ").")) ;;
          mret realm
      end
  end.

Definition with_superuser (u : User) : User :=
  mkUser (u_id u) (u_email u) (u_password_hash u) (u_first_name u) (u_last_name u) true
    true (u_email_verified u) (u_session_version u).

Section Command.
Context {H : PasswordHasher}.

(** The result is the exit status. *)
Definition create_superuser (now : Z) (user_id realm_id_ : uuid) (salt : string)
    (env_password : option string) (args : Namespace) : CliM Z :=
  entered ← on_console (_prompt (arg_email args) "Email");
  let email := normalize_email entered in
  existing ← on_tables (gets (fun d =>
    first_row (fun u => String.eqb (u_email u) email) (users d)));
  match existing with
  | Some existing =>
      if negb (arg_promote_existing args) then
        on_console (print_error ("A user with that email already exists. Use " +:+
          "--promote-existing to grant installation superuser access.")) ;;
        mret 1
      else
        on_tables (save_user with_superuser existing) ;;
        ensure_initial_realm now realm_id_ (arg_realm_name args) ;;
        on_console (print ("Promoted " +:+ u_email existing +:+ " to installation superuser.")) ;;
        mret 0
  | None =>
      first_name ← on_console (_prompt (arg_first_name args) "First name");
      last_name ← on_console (_prompt (arg_last_name args) "Last name");
      password ← on_console (_read_password env_password);
      on_tables (insert_user (mkUser user_id email (hash_password salt password)
        first_name last_name true true true 1)) ;;
      ensure_initial_realm now realm_id_ (arg_realm_name args) ;;
      on_console (print ("Created installation superuser " +:+ email +:+ ".")) ;;
      mret 0
  end.
End Command.

(** ** The superuser command keeps the invariant of the account tables *)

(** [kept] for a command: the tables are its part of the state. *)
Definition ckept `{IsoFormat} {A} (m : CliM A) (Q : A -> AuthDB -> Prop) (d : AuthDB) : Prop :=
  forall c, auth_ok d -> safe (fun s => inv d s.1) m (fun a s => Q a s.1) (d, c).

Section CommandKept.
Context {IF : IsoFormat}.
Implicit Types (d : AuthDB).

Lemma ckept_bind {A B} (m : CliM A) (k : A -> CliM B) Q Q' d :
  ckept m Q d -> (forall a d1, auth_ok d1 -> later d d1 -> Q a d1 -> ckept (k a) Q' d1) ->
  ckept (m ≫= k) Q' d.
Proof.
  intros Hm Hk c Hok. apply safe_bind. eapply safe_weaken; [by apply Hm|].
  intros a [d1 c1] [Hok1 Hl] Hq. specialize (Hk a d1 Hok1 Hl Hq c1 Hok1). unfold safe in *.
  destruct (k a (d1, c1)) as [[d2 c2] [b|e]]; unfold inv in *; simpl in *;
    intuition (by etransitivity).
Qed.

Lemma ckept_ret {A} (a : A) (Q : A -> AuthDB -> Prop) d : Q a d -> ckept (mret a) Q d.
Proof. intros Hq c Hok. apply safe_ret; [by apply inv_self|done]. Qed.

Lemma ckept_raise {A} e (Q : A -> AuthDB -> Prop) d : ckept (raise e) Q d.
Proof. intros c Hok. by apply safe_raise, inv_self. Qed.

Lemma ckept_tables {A} (m : AuthM A) Q d : kept m Q d -> ckept (on_tables m) Q d.
Proof.
  intros Hm c Hok. specialize (Hm Hok). unfold safe, on_tables, zoom in *. simpl in *.
  by destruct (m d) as [d' [a|e]].
Qed.

Lemma ckept_console {A} (m : M Console A) d : ckept (on_console m) (fun _ d' => d' = d) d.
Proof.
  intros c Hok. unfold safe, on_console, zoom. simpl.
  destruct (m c) as [c' [a|e]]; simpl; [split; [|done]|]; by apply inv_self.
Qed.

(** An active realm is stored. *)
Definition has_active_realm d : Prop := exists k r, realms d !! k = Some r /\ realm_is_active r = true.

Lemma ckept_ensure_initial_realm now id name d :
  is_uuid id = true ->
  ckept (ensure_initial_realm now id name)
    (fun _ d' => has_active_realm d' /\ users d' = users d) d.
Proof.
  intros Hid. unfold ensure_initial_realm.
  eapply ckept_bind; [apply ckept_tables, kept_gets|intros ? d1 _ _ [-> ->]].
  destruct (first_active_realm d) as [r|] eqn:Hr.
  { apply ckept_ret. split; [|done]. apply first_active_realm_Some in Hr as (k & Hk & Ha). by exists k, r. }
  eapply ckept_bind; [apply ckept_tables, kept_gets|intros ? d1 _ _ [-> ->]].
  destruct (find_slug _ d) as [slug|]; [|by apply ckept_raise].
  eapply ckept_bind; [|intros ? d1 _ _ Hq]. 
  { apply ckept_tables. unfold insert_realm. kguard. kget. kguard.
    apply kept_modify with (Q := fun _ d' => has_active_realm d' /\ users d' = users d).
    - intros Hok. apply inv_insert_realm; [|done|by apply inv_self].
      by apply is_none_true, negb_false_iff; apply orb_false_iff in H0 as [? _].
    - split; [|done]. eexists _, _. split; [apply lookup_insert_eq|done]. }
  eapply ckept_bind; [apply ckept_console|intros ? d2 _ _ ->]. by apply ckept_ret.
Qed.

(** The email the command works on: the option given, or some line entered. *)
Definition email_asked (args : Namespace) (email : string) : Prop :=
  match arg_email args with
  | Some e => e = EmptyString \/ email = normalize_email (strip e)
  | None => True
  end.

(** A superuser account with the email, active, in an installation with an active realm. *)
Definition administrable (args : Namespace) d : Prop :=
  has_active_realm d /\ exists u, users d !! u_id u = Some u /\ u_is_superuser u = true /\
    u_is_active u = true /\ email_asked args (u_email u).

Lemma ckept_prompt_email args d :
  ckept (on_console (_prompt (arg_email args) "Email"))
    (fun entered d' => d' = d /\ email_asked args (normalize_email entered)) d.
Proof.
  intros c Hok. unfold safe, on_console, zoom, _prompt, email_asked. simpl.
  destruct (arg_email args) as [e|].
  - destruct (String.eqb_spec e EmptyString) as [->|]; simpl.
    + destruct (prompt_loop _ _) as [[[a|x] l] w]; simpl; by auto using inv_self.
    + by auto using inv_self.
  - destruct (prompt_loop _ _) as [[[a|x] l] w]; simpl; by auto using inv_self.
Qed.

Lemma ckept_create_superuser `{PasswordHasher} now user_id realm_id_ salt env_password args d :
  is_uuid user_id = true -> is_uuid realm_id_ = true ->
  ckept (create_superuser now user_id realm_id_ salt env_password args)
    (fun code d' => (code = 0 /\ administrable args d') \/ (code = 1 /\ d' = d)) d.
Proof.
  intros Hu Hr. unfold create_superuser.
  eapply ckept_bind; [apply ckept_prompt_email|intros entered d1 Hok _ [-> He]]. 
  eapply ckept_bind; [apply ckept_tables, kept_gets|intros ? d1 _ _ [-> ->]].
  destruct (first_row _ _) as [u|] eqn:Hf.
  - apply first_row_Some in Hf as [[k Hk] Hem%String.eqb_eq].
    destruct (ao_users _ Hok _ _ Hk) as [<- _]. destruct (negb _).
    { eapply ckept_bind; [apply ckept_console|intros ? d2 _ _ ->]. apply ckept_ret. by right. }
    eapply ckept_bind; [|intros ? d2 _ _ Hq].
    { apply ckept_tables, kept_modify with
        (Q := fun _ d' => users d' !! u_id u = Some (with_superuser u)); [intros _|].
      - apply inv_alter_user; [|by apply inv_self]. intros u' Hu'. by simplify_eq.
      - simpl. by rewrite lookup_alter_eq, Hk. }
    eapply ckept_bind; [by apply ckept_ensure_initial_realm|intros ? d3 _ _ [Ha E]].
    eapply ckept_bind; [apply ckept_console|intros ? d4 _ _ ->]. apply ckept_ret. left.
    split; [done|]. split; [done|]. exists (with_superuser u). rewrite E. simpl. by rewrite Hem.
  - do 3 (eapply ckept_bind; [apply ckept_console|intros ? ? _ _ ->]).
    eapply ckept_bind; [by apply ckept_tables, kept_insert_user|intros ? d2 _ _ Hq].
    eapply ckept_bind; [by apply ckept_ensure_initial_realm|intros ? d3 _ _ [Ha E]].
    eapply ckept_bind; [apply ckept_console|intros ? d4 _ _ ->]. apply ckept_ret. left.
    split; [done|]. split; [done|]. eexists. rewrite E. by repeat split; [apply Hq|..].
Qed.
End CommandKept.

(** ** Invariants of the tables under an arbitrary predicate *)

Lemma preserves_exclude I l : preserves I (exclude_credentials l).
Proof.
  induction l as [|c l IH]; [apply preserves_ret|]. apply preserves_bind.
  - unfold unb64. destruct (_unb64 _); [apply preserves_ret|apply preserves_raise].
  - intros x. apply preserves_bind; [exact IH|intros; apply preserves_ret].
Qed.

Lemma preserves_tables {A} (I : AuthDB -> Prop) (m : AuthM A) :
  preserves I m -> preserves (fun s => I s.1) (on_tables m).
Proof.
  intros Hm [d c] Hd. unfold on_tables, zoom. specialize (Hm d Hd). simpl. by destruct (m d).
Qed.

Lemma preserves_console {A} (I : AuthDB -> Prop) (m : M Console A) :
  preserves (fun s => I s.1) (on_console m).
Proof. intros [d c] Hd. unfold on_console, zoom. simpl. by destruct (m c). Qed.
