(* ===== verification/AuthTheorems.v ===== *)
(** * What the account endpoints guarantee *)

From Stdlib Require Import Ascii.
From S2P Require Import Prelude PyText Json Platform Models Domain ObservationSchema Observations.
From S2P Require Import Dashboard Accounts Lifecycle WebAuthn AuthApi AuthDemo SessionProps.
From S2P Require Import AuthSteps AuthOps Superuser.
Local Open Scope Z_scope.

Section Steps.
Context {P : Platform} {IF : IsoFormat} {H : PasswordHasher} {T : TwoFactorLib} {W : WebAuthnLib}
  {C : Collation} (settings : Settings).

(** One request to an account endpoint, whatever its outcome; the clock shows a date of
    the calendar and the ids drawn have 128 bits. *)
Inductive auth_request (d : AuthDB) : AuthDB -> Prop :=
| step_signup now u r m c salt vt st payload request :
    in_calendar now = true -> is_uuid u = true -> is_uuid r = true ->
    auth_request d (signup settings now u r m c salt vt st payload request d).1
| step_request_email_verification now token id request : in_calendar now = true ->
    auth_request d (request_email_verification settings now token id request d).1
| step_confirm_email_verification now token : in_calendar now = true ->
    auth_request d (confirm_email_verification now token d).1
| step_forgot_password now token id email : in_calendar now = true ->
    auth_request d (forgot_password settings now token id email d).1
| step_confirm_password_reset now salt token password : in_calendar now = true ->
    auth_request d (confirm_password_reset now salt token password d).1
| step_login now id ct st payload request : in_calendar now = true ->
    auth_request d (login settings now id ct st payload request d).1
| step_logout request : auth_request d (logout settings request d).1
| step_me now request : in_calendar now = true -> auth_request d (me settings now request d).1
| step_activate_realm now realm request : in_calendar now = true ->
    auth_request d (activate_realm settings now realm request d).1
| step_verify_login_challenge now st payload request : in_calendar now = true ->
    auth_request d (verify_login_challenge settings now st payload request d).1
| step_setup_totp now id nonce secret request : in_calendar now = true ->
    auth_request d (setup_totp settings now id nonce secret request d).1
| step_verify_totp now draws method_id code request : in_calendar now = true ->
    auth_request d (verify_totp settings now draws method_id code request d).1
| step_disable_totp now request : in_calendar now = true ->
    auth_request d (disable_totp settings now request d).1
| step_two_factor_enabled now request : in_calendar now = true ->
    auth_request d (two_factor_enabled settings now request d).1
| step_register_options now id challenge request : in_calendar now = true ->
    auth_request d (register_options settings now id challenge request d).1
| step_register_verify now id challenge_id credential name request : in_calendar now = true ->
    auth_request d (register_verify settings now id challenge_id credential name request d).1
| step_authenticate_options now id challenge : in_calendar now = true ->
    auth_request d (authenticate_options settings now id challenge d).1
| step_authenticate_verify now challenge_id st credential request : in_calendar now = true ->
    auth_request d (authenticate_verify settings now challenge_id st credential request d).1
| step_delete_passkey now id request : in_calendar now = true ->
    auth_request d (delete_passkey settings now id request d).1
| step_security_summary now request : in_calendar now = true ->
    auth_request d (security_summary settings now request d).1
(** A session check made by an endpoint of another component. *)
| step_permission now request permission : in_calendar now = true ->
    auth_request d (require_realm_permission settings now request permission d).1
(** An audit event recorded by an endpoint of another component. *)
| step_audit action o actor request realm user target_type target_id bypass metadata :
    auth_request d (record_audit_event action o actor request realm user target_type target_id bypass
                   metadata d).1.

(** A request or a run of the superuser command, whatever its outcome. *)
Inductive auth_step (d : AuthDB) : AuthDB -> Prop :=
| step_request d' : auth_request d d' -> auth_step d d'
| step_create_superuser now u r salt env_password args console :
    is_uuid u = true -> is_uuid r = true ->
    auth_step d (create_superuser now u r salt env_password args (d, console)).1.1.

Lemma kept_require_realm_permission now request permission d :
  in_calendar now = true -> kept (require_realm_permission settings now request permission) anything d.
Proof.
  intros Hnow. unfold require_realm_permission.
  eapply kept_bind; [by apply kept_get_session_user|intros [u s] d1 _ _; cbn [fst snd]].
  destruct (sd_active_realm_id s); [|apply kept_raise]. kget.
  destruct (get_row _ _ _); [|apply kept_raise]. destruct (u_is_superuser u); [by apply kept_ret|].
  kget. destruct (first_row _ _); [|apply kept_raise]. destruct (parse_role _); [|apply kept_raise].
  kguard. by apply kept_ret.
Qed.

Lemma kept_record_audit_event action o actor request realm user tt_ ti bypass metadata d :
  kept (record_audit_event action o actor request realm user tt_ ti bypass metadata) anything d.
Proof.
  unfold record_audit_event. destruct (_validate_metadata _ _); [|apply kept_raise]. kguard.
  eapply kept_bind with (Q := anything); [|intros; by apply kept_ret]. apply kept_modify; [|done].
  intros Hok. by apply inv_set_audit_events, inv_self.
Qed.

Lemma auth_request_inv d d' : auth_request d d' -> auth_ok d -> auth_ok d' /\ later d d'.
Proof.
  intros Hs Hok.
  destruct Hs; eapply safe_state; (eapply kept_signup || eapply kept_request_email_verification ||
    eapply kept_confirm_email_verification || eapply kept_forgot_password ||
    eapply kept_confirm_password_reset || eapply kept_login || eapply kept_delete_session ||
    eapply kept_me || eapply kept_activate_realm || eapply kept_verify_login_challenge ||
    eapply kept_setup_totp || eapply kept_verify_totp || eapply kept_disable_totp ||
    eapply kept_two_factor_enabled || eapply kept_register_options ||
    eapply kept_register_verify || eapply kept_authentication_options ||
    eapply kept_authenticate_verify || eapply kept_delete_passkey ||
    eapply kept_security_summary || eapply kept_require_realm_permission ||
    eapply kept_record_audit_event); done.
Qed.

Lemma auth_step_inv d d' : auth_step d d' -> auth_ok d -> auth_ok d' /\ later d d'.
Proof.
  intros [d1 Hs|now u r salt env_password args c Hu Hr] Hok; [by apply auth_request_inv|].
  exact (safe_state _ _ _ _
    (ckept_create_superuser now u r salt env_password args d Hu Hr c Hok)).
Qed.

Lemma auth_ok_empty : auth_ok empty_auth.
Proof. by split. Qed.

Lemma auth_run d d' : rtc auth_step d d' -> auth_ok d -> auth_ok d' /\ later d d'.
Proof.
  induction 1 as [d|d d1 d2 Hs _ IH]; intros Hok; [by split|].
  destruct (auth_step_inv _ _ Hs Hok) as [Hok1 Hl1]. destruct (IH Hok1) as [Hok2 Hl2].
  split; [done|by etransitivity].
Qed.

Lemma auth_ok_reachable d : rtc auth_step empty_auth d -> auth_ok d.
Proof. intros Hr. by apply (auth_run _ _ Hr), auth_ok_empty. Qed.

(** ** Account tokens *)

Lemma consume_account_token_inv now token ty d d' u :
  consume_account_token now token ty d = (d', Ok (Some u)) ->
  exists k c, authentication_challenges d !! k = Some c /\ ch_challenge_type c = ty /\
    ch_challenge_hash c = hash_token token /\ now < ch_expires_at c /\
    challenge_user c d = Some u /\ u_is_active u = true /\
    d' = set_authentication_challenges
           (alter (consume_challenge now) (ch_id c) (authentication_challenges d)) d.
Proof.
  unfold consume_account_token. intros E. minv.
  destruct (first_row _ _) as [c|] eqn:Hf; [|done]. minv.
  destruct (challenge_user c d) as [u'|] eqn:Hu; [|done].
  destruct (negb _) eqn:Ha; [done|]. rewrite bind_run in H2.
  unfold save_consumed, modify in H2. rewrite ret_run in H2. simplify_eq.
  apply first_row_Some in Hf as [[k Hk] Hb]. destruct_andb.
  exists k, c. repeat split; try done; try (by apply String.eqb_eq); [lia|by apply negb_false_iff].
Qed.

(** A token whose challenge has been consumed. *)
Definition spent (token : string) (d : AuthDB) : Prop :=
  exists k c, authentication_challenges d !! k = Some c /\
    ch_challenge_hash c = hash_token token /\ ch_consumed_at c <> None.

Lemma spent_later token d d' : later d d' -> spent token d -> spent token d'.
Proof.
  intros Hl (k & c & Hk & Hh & Hn). destruct (la_challenges _ _ Hl _ _ Hk Hn) as (c' & ? & ? & ?).
  exists k, c'. repeat split; [done|congruence|done].
Qed.

(** No pending challenge has the hash of a spent token. *)
Lemma spent_no_pending token d k c :
  auth_ok d -> spent token d -> authentication_challenges d !! k = Some c ->
  ch_challenge_hash c = hash_token token -> is_none (ch_consumed_at c) = false.
Proof.
  intros Hok (k' & c' & Hk' & Hh' & Hn) Hk Hh.
  assert (k' = k) as -> by (eapply (cho_unique _ (ao_challenges _ Hok)); eauto; congruence).
  assert (c' = c) as -> by congruence. by destruct (ch_consumed_at c).
Qed.

Lemma spent_account_token now token ty d :
  auth_ok d -> spent token d -> consume_account_token now token ty d = (d, Ok None).
Proof.
  intros Hok Hsp. unfold consume_account_token. mrun.
  destruct (first_row _ _) as [c|] eqn:Hf; [|done].
  apply first_row_Some in Hf as [[k Hk] Hb]. destruct_andb.
  rewrite (spent_no_pending token d k c) in *; try done. by apply String.eqb_eq.
Qed.

Lemma consumed_spent now token ty d d' u :
  auth_ok d -> consume_account_token now token ty d = (d', Ok (Some u)) -> spent token d'.
Proof.
  intros Hok (k & c & Hk & _ & Hh & _ & _ & _ & ->)%consume_account_token_inv.
  rewrite (cho_key _ (ao_challenges _ Hok) _ _ Hk). exists k, (consume_challenge now c).
  simpl. by rewrite lookup_alter_eq, Hk.
Qed.

(** C19 Account tokens work once: after an email verification or password reset token has
    been accepted, every later attempt to use it, for either purpose and after any requests,
    changes nothing and is refused. *)
Theorem account_token_single_use d now token ty d1 u d2 now' ty' :
  rtc auth_step empty_auth d ->
  consume_account_token now token ty d = (d1, Ok (Some u)) ->
  rtc auth_step d1 d2 ->
  consume_account_token now' token ty' d2 = (d2, Ok None).
Proof.
  intros Hr Hc Hr2. pose proof (auth_ok_reachable _ Hr) as Hok.
  pose proof (consumed_spent _ _ _ _ _ _ Hok Hc) as Hsp.
  assert (auth_ok d1) as Hok1.
  { pose proof (kept_consume_account_token now token ty d Hok) as Hk. unfold safe in Hk.
    rewrite Hc in Hk. apply Hk. }
  destruct (auth_run _ _ Hr2 Hok1) as [Hok2 Hl]. apply spent_account_token; [done|].
  by eapply spent_later.
Qed.

(** ** Password reset *)

Lemma reset_password_inv now salt token password d d' u :
  auth_ok d -> reset_password now salt token password d = (d', Ok (Some u)) ->
  exists u0, stored u0 d /\ stored u d' /\
    u = with_password (hash_password salt password) (u_session_version u0 + 1) u0 /\
    redis d' = redis d.
Proof.
  intros Hok. unfold reset_password. intros E.
  apply bind_inv_Ok in E as (d1 & [u0|] & Hc & E); [|done]. minv. simplify_eq.
  apply consume_account_token_inv in Hc as (k & c & Hk & _ & _ & _ & Hu & _ & ->).
  unfold save_user in *. minv. apply challenge_user_stored in Hu; [|done].
  exists u0. repeat split; try done. unfold stored in *. simpl. by rewrite lookup_alter_eq, Hu.
Qed.

(** Sessions of a user stored in [d] are at most of the user's version. *)
Lemma session_version_bound key v e s u d :
  auth_ok d -> redis d !! key = Some (v, e) -> from_json v key = Ok s ->
  users d !! sd_user_id s = Some u -> sd_user_session_version s <= u_session_version u.
Proof.
  intros Hok Hk Hp Hu. destruct (ao_sessions _ Hok _ _ _ Hk) as (s0 & u0 & -> & Hwf & Hu0 & Hv).
  rewrite session_roundtrip in Hp by done. injection Hp as <-. simpl in *. by simplify_eq.
Qed.

(** C18 Resetting the password ends the sessions: when [reset_password] succeeds, the new
    password verifies, no request is authenticated as that user right afterwards, and after
    any further requests a session that authenticates as that user has a later session
    version than every session of that user stored before the reset. *)
Theorem password_reset_ends_sessions d now salt token password d1 u :
  rtc auth_step empty_auth d ->
  reset_password now salt token password d = (d1, Ok (Some u)) ->
  verify_password password (u_password_hash u) = true /\
  (forall now' request d' u' s',
     get_session_user settings now' request d1 = (d', Ok (u', s')) -> u_id u' <> u_id u) /\
  (forall key v e s d2 now' request d' u' s',
     redis d !! key = Some (v, e) -> from_json v key = Ok s -> sd_user_id s = u_id u ->
     rtc auth_step d1 d2 ->
     get_session_user settings now' request d2 = (d', Ok (u', s')) -> u_id u' = u_id u ->
     sd_user_session_version s < sd_user_session_version s').
Proof.
  intros Hr Hreset. pose proof (auth_ok_reachable _ Hr) as Hok.
  assert (auth_ok d1) as Hok1.
  { pose proof (kept_reset_password now salt token password d Hok) as Hk. unfold safe in Hk.
    rewrite Hreset in Hk. apply Hk. }
  apply reset_password_inv in Hreset as (u0 & Hst0 & Hst & Hu & Hredis); [|done].
  assert (Hid : u_id u = u_id u0) by by rewrite Hu.
  assert (Hver : u_session_version u = u_session_version u0 + 1) by by rewrite Hu.
  unfold stored in *. split; [rewrite Hu; apply password_verify_hash|]. split.
  - intros now' request d' u' s' E Hsame.
    apply get_session_user_inv in E as [(u'' & s & Hl & [= -> ->] & _)|(? & ? & _)]; [|done].
    destruct Hl as (tk & raw & _ & Hg & Hp & Hus & _ & Hv).
    pose proof (ao_users _ Hok1 _ _ Hus) as [Hk _]. assert (u'' = u) as -> by congruence.
    unfold redis_get in Hg. rewrite Hredis in Hg.
    destruct (redis d !! _) as [[v e]|] eqn:Hd; [|done]. destruct (_ <? _); [|done].
    simplify_eq. pose proof (session_version_bound _ _ _ _ u0 _ Hok Hd Hp) as Hle.
    rewrite <-Hk, Hid in Hle. specialize (Hle Hst0). lia.
  - intros key v e s d2 now' request d' u' s' Hd Hp Hsid Hr2 E Hsame.
    pose proof (session_version_bound _ _ _ _ u0 _ Hok Hd Hp) as Hle.
    rewrite Hsid, Hid in Hle. specialize (Hle Hst0).
    destruct (auth_run _ _ Hr2 Hok1) as [Hok2 Hl2].
    destruct (la_users _ _ Hl2 _ _ Hst) as (u2 & Hu2 & Hv2).
    apply get_session_user_inv in E as [(u'' & s2 & Hlive & [= -> ->] & _)|(? & ? & _)]; [|done].
    destruct Hlive as (tk & raw & _ & _ & _ & Hus & _ & Hv).
    pose proof (ao_users _ Hok2 _ _ Hus) as [Hk _]. assert (u'' = u2) as -> by congruence.
    simpl. lia.
Qed.
End Steps.

(** ** Instances on the worked run *)

#[local] Existing Instance example_platform.
#[local] Existing Instance example_hasher.
#[local] Existing Instance example_iso.
#[local] Existing Instance example_two_factor.
#[local] Existing Instance example_webauthn.
#[local] Existing Instance example_collation.

Lemma demo_reach : rtc (auth_step default_settings) empty_auth AuthDemo.auth2.
Proof.
  eapply rtc_l; [by apply step_request, (step_signup default_settings empty_auth 1000000 1 2 3 4 "salt"
    "verification-token" "session-token" AuthDemo.payload (AuthDemo.request EmptyString))|].
  by apply rtc_once, step_request, (step_forgot_password default_settings AuthDemo.auth1 2000000 "reset-token" 5
    "ada@example.org").
Qed.

Lemma demo_consumed : exists d1, consume_account_token 3000000 "reset-token" "password_reset"
  AuthDemo.auth2 = (d1, Ok (Some AuthDemo.user)).
Proof. eexists. apply run_outcome. vm_compute. reflexivity. Qed.

Lemma account_token_single_use_witness : exists d1,
  consume_account_token 3000000 "reset-token" "password_reset" AuthDemo.auth2 =
    (d1, Ok (Some AuthDemo.user)) /\
  consume_account_token 3500000 "reset-token" "password_reset" d1 = (d1, Ok None).
Proof.
  destruct demo_consumed as [d1 Hc]. exists d1. split; [exact Hc|].
  exact (account_token_single_use default_settings AuthDemo.auth2 3000000 "reset-token"
    "password_reset" d1 AuthDemo.user d1 3500000 "password_reset" demo_reach Hc (rtc_refl _ _)).
Defined.

Lemma password_reset_ends_sessions_witness :
  verify_password "new password 1" (u_password_hash AuthDemo.user') = true.
Proof.
  exact (proj1 (password_reset_ends_sessions default_settings AuthDemo.auth2 3000000 "salt"
    "reset-token" "new password 1" AuthDemo.auth3 AuthDemo.user' demo_reach AuthDemo.run3_eq)).
Defined.
