(* ===== verification/Base64Props.v ===== *)
(** * Base64 round trips (auth/webauthn.py, [_b64] and [_unb64]) *)

From Stdlib Require Import Ascii.
From S2P Require Import Prelude PyText Json Platform Models Domain Accounts Lifecycle WebAuthn.
Local Open Scope N_scope.

(** ** Characters and bits *)

Definition char_ok (v : N) : bool :=
  bool_decide (b64_value (b64_char v) = Some v) && negb (Ascii.eqb (b64_char v) "=").

Lemma b64_char_ok v : v < 64 -> b64_value (b64_char v) = Some v /\ Ascii.eqb (b64_char v) "=" = false.
Proof.
  intros Hv. assert (Hall : forallb char_ok (map N.of_nat (seq 0 64)) = true) by by vm_compute.
  assert (char_ok v = true) as Hc.
  { eapply (proj1 (forallb_forall _ _) Hall). apply in_map_iff. exists (N.to_nat v).
    split; [apply N2Nat.id|]. apply in_seq. lia. }
  unfold char_ok in Hc. destruct_andb. split; [by eapply bool_decide_eq_true_1|by apply negb_true_iff].
Qed.

Lemma code_bound c : code c < 256.
Proof. apply N_ascii_bounded. Qed.

Lemma ascii_of_code c n : n = code c -> ascii_of_N n = c.
Proof. intros ->. apply ascii_N_embedding. Qed.

Lemma low_bits a b : b < 16 -> ((a mod 4) * 16 + b) / 16 = a mod 4 /\ ((a mod 4) * 16 + b) mod 16 = b.
Proof.
  intros Hb. split.
  - rewrite N.add_comm, N.div_add, (N.div_small b) by lia. lia.
  - rewrite N.add_comm, N.Div0.mod_add. by apply N.mod_small.
Qed.

Lemma mid_bits b c : c < 4 -> ((b mod 16) * 4 + c) / 4 = b mod 16 /\ ((b mod 16) * 4 + c) mod 4 = c.
Proof.
  intros Hb. split.
  - rewrite N.add_comm, N.div_add, (N.div_small c) by lia. lia.
  - rewrite N.add_comm, N.Div0.mod_add. by apply N.mod_small.
Qed.

Lemma split_byte k c : k <> 0 -> c / k * k + c mod k = c.
Proof. intros Hk. rewrite (N.mul_comm (c / k)). symmetry. by apply N.div_mod. Qed.

Lemma six_bits c : code c / 4 < 64 /\ code c / 16 < 16 /\ code c / 64 < 4 /\ code c mod 4 < 4 /\
  code c mod 16 < 16 /\ code c mod 64 < 64.
Proof.
  pose proof (code_bound c). repeat split; try (by apply N.mod_lt); apply N.Div0.div_lt_upper_bound; lia.
Qed.

(** ** Decoding one group *)

(** The step of the decoder on a character of the alphabet. *)
Lemma decode_char v rest quad left pads :
  v < 64 ->
  a2b_base64 (String (b64_char v) rest) quad left pads =
    match quad with
    | 0%nat => a2b_base64 rest 1 v 0
    | 1%nat => String (ascii_of_N (left * 4 + v / 16)) <$> a2b_base64 rest 2 (v mod 16) 0
    | 2%nat => String (ascii_of_N (left * 16 + v / 4)) <$> a2b_base64 rest 3 (v mod 4) 0
    | _ => String (ascii_of_N (left * 64 + v)) <$> a2b_base64 rest 0 0 0
    end.
Proof. intros [Hv He]%b64_char_ok. cbn [a2b_base64]. by rewrite He, Hv. Qed.

Lemma decode_two a b rest pads :
  a2b_base64 (String (b64_char (code a / 4))
    (String (b64_char ((code a mod 4) * 16 + code b / 16)) rest)) 0 0 pads =
  String a <$> a2b_base64 rest 2 (code b / 16) 0.
Proof.
  destruct (six_bits a) as (Ha & _ & _ & Ha4 & _ & _), (six_bits b) as (_ & Hb16 & _ & _ & _ & _).
  destruct (low_bits (code a) (code b / 16) Hb16) as [E1 E2].
  rewrite !decode_char by lia. rewrite E1, E2. do 2 f_equal.
  apply ascii_of_code. by apply split_byte.
Qed.

Lemma decode_third b c rest :
  a2b_base64 (String (b64_char ((code b mod 16) * 4 + code c / 64)) rest) 2 (code b / 16) 0 =
  String b <$> a2b_base64 rest 3 (code c / 64) 0.
Proof.
  destruct (six_bits b) as (_ & Hb & _ & _ & Hb16 & _), (six_bits c) as (_ & _ & Hc & _ & _ & _).
  destruct (mid_bits (code b) (code c / 64) Hc) as [E1 E2].
  rewrite !decode_char by lia. rewrite E1, E2. do 2 f_equal.
  apply ascii_of_code. by apply split_byte.
Qed.

Lemma decode_fourth c rest :
  a2b_base64 (String (b64_char (code c mod 64)) rest) 3 (code c / 64) 0 =
  String c <$> a2b_base64 rest 0 0 0.
Proof.
  destruct (six_bits c) as (_ & _ & Hc & _ & _ & Hc'). rewrite decode_char by done.
  do 2 f_equal. apply ascii_of_code. by apply split_byte.
Qed.

(** ** Whole strings *)

(** Strings in groups of three. *)
Lemma string_ind3 (Q : string -> Prop) :
  Q EmptyString -> (forall a, Q (String a EmptyString)) ->
  (forall a b, Q (String a (String b EmptyString))) ->
  (forall a b c s, Q s -> Q (String a (String b (String c s)))) -> forall s, Q s.
Proof.
  intros H0 H1 H2 H3. fix go 1. intros [|a [|b [|c s]]];
    [exact H0|apply H1|apply H2|apply H3, go].
Qed.

Lemma padding_period a b c data :
  b64_padding (String a (String b (String c data))) = b64_padding data.
Proof.
  unfold b64_padding. cbn [String.length].
  by replace (S (S (S (String.length data)))) with (String.length data + 1 * 3)%nat by lia;
    rewrite Nat.Div0.mod_add.
Qed.

Lemma decode_groups data : a2b_base64 (b64_groups data +:+ b64_padding data) 0 0 0 = Some data.
Proof.
  induction data as [|a|a b|a b c data IH] using string_ind3.
  - done.
  - change (b64_groups (String a EmptyString) +:+ b64_padding (String a EmptyString)) with
      (String (b64_char (code a / 4)) (String (b64_char ((code a mod 4) * 16)) "==")).
    pose proof (decode_two a "000" "==" 0) as E. change (code "000" / 16) with 0 in E.
    rewrite N.add_0_r in E. rewrite E. done.
  - change (b64_groups (String a (String b EmptyString)) +:+
      b64_padding (String a (String b EmptyString))) with
      (String (b64_char (code a / 4)) (String (b64_char ((code a mod 4) * 16 + code b / 16))
        (String (b64_char ((code b mod 16) * 4)) "="))).
    rewrite decode_two. pose proof (decode_third b "000" "=") as E.
    change (code "000" / 64) with 0 in E. rewrite N.add_0_r in E. rewrite E. done.
  - rewrite padding_period.
    change (b64_groups (String a (String b (String c data))) +:+ b64_padding data) with
      (String (b64_char (code a / 4)) (String (b64_char ((code a mod 4) * 16 + code b / 16))
        (String (b64_char ((code b mod 16) * 4 + code c / 64)) (String (b64_char (code c mod 64))
          (b64_groups data +:+ b64_padding data))))).
    by rewrite decode_two, decode_third, decode_fourth, IH.
Qed.

(** What holds of the characters of the alphabet holds of a whole encoding. *)
Lemma groups_forall p data :
  (forall v, v < 64 -> p (b64_char v) = true) -> str_forall p (b64_groups data) = true.
Proof.
  intros Hc. induction data as [|a|a b|a b c data IH] using string_ind3; [done|..];
    cbn [b64_groups str_forall].
  - destruct (six_bits a) as (? & _ & _ & ? & _). split_andb; try done; apply Hc; lia.
  - destruct (six_bits a) as (? & _ & _ & ? & _), (six_bits b) as (_ & ? & _ & _ & ? & _).
    split_andb; try done; apply Hc; lia.
  - destruct (six_bits a) as (? & _ & _ & ? & _), (six_bits b) as (_ & ? & _ & _ & ? & _),
      (six_bits c) as (_ & _ & ? & _ & _ & ?).
    split_andb; try done; apply Hc; lia.
Qed.

Lemma groups_not_pad data : str_forall (fun c => negb (is_char "=" c)) (b64_groups data) = true.
Proof.
  apply groups_forall. intros v [_ Hv]%b64_char_ok. unfold is_char. by rewrite Ascii.eqb_sym, Hv.
Qed.

Lemma rstrip_app p s t :
  str_forall (fun c => negb (p c)) s = true -> str_forall p t = true ->
  rstrip_with p (s +:+ t) = s.
Proof.
  intros Hs Ht. assert (rstrip_with p t = EmptyString) as Hnil.
  { revert Ht. clear. induction t as [|c t IH]; simpl; [done|]. intros [Hc Ht]%andb_true_iff.
    by rewrite (IH Ht), Hc. }
  revert Hs. induction s as [|c s IH]; [by intros _|]. cbn [str_forall]. intros [Hc Hs]%andb_true_iff.
  change (String c s +:+ t) with (String c (s +:+ t)). cbn [rstrip_with]. rewrite (IH Hs).
  apply negb_true_iff in Hc. rewrite Hc. by destruct s.
Qed.

Lemma b64_unpadded data : _b64 data = b64_groups data.
Proof.
  unfold _b64. apply rstrip_app; [apply groups_not_pad|].
  unfold b64_padding. by destruct (String.length data mod 3)%nat as [|[|[|]]].
Qed.

(** The padding [_unb64] adds is the padding [_b64] removed. *)
Lemma padding_restored data :
  repeat_char "=" (Z.to_nat ((- str_len (b64_groups data)) mod 4)) = b64_padding data.
Proof.
  unfold str_len. induction data as [|a|a b|a b c data IH] using string_ind3; [done..|].
  cbn [b64_groups String.length].
  rewrite padding_period, <-IH. do 2 f_equal.
  replace (- Z.of_nat (S (S (S (S (String.length (b64_groups data)))))))%Z with
    (- Z.of_nat (String.length (b64_groups data)) + (-1) * 4)%Z by lia.
  by rewrite Z_mod_plus_full.
Qed.

(** Stored passkey material survives its encoding: decoding with [_unb64] what [_b64]
    encoded (challenges, credential ids, public keys) returns the original bytes, for every
    byte string, with the padding dropped and restored. *)
Theorem b64_roundtrip data : _unb64 (_b64 data) = Some data.
Proof.
  rewrite b64_unpadded. unfold _unb64. rewrite padding_restored. apply decode_groups.
Qed.
