(* ===== verification/Mailer.v ===== *)
(** * Outgoing mail (email/base.py, email/smtp.py, email/microsoft_graph.py,
    email/__init__.py, tasks/email.py)

    A message is built, a backend is chosen from the settings, and the backend talks to its
    server.  The log records the calls made to the server, in order; what the server answers
    is a parameter.  The packages [msal] and [requests], the rendering of a message to bytes
    and the file system are parameters too. *)

From Stdlib Require Import Ascii QArith.
From stdpp Require Import pretty.
From S2P Require Import Prelude PyText Json Platform Models Domain ObservationSchema Observations.
From S2P Require Import Dashboard Accounts Lifecycle WebAuthn AuthApi.
Local Open Scope Z_scope.

(** ** email/base.py *)

Record EmailMessage := mkEmailMessage {
  em_to : list string;
  em_subject : string;
  em_text : string;
  em_html : option string;
  em_reply_to : option string;
  em_headers : list (string * string);
}.

(** [email.message.EmailMessage]: the headers in order (those that describe the content are
    left out), the text and its alternative. *)
Record Mime := mkMime {
  mi_headers : list (string * string);
  mi_text : string;
  mi_html : option string;
}.

(** [if value:] for a text. *)
Definition truthy (s : string) : bool := negb (String.eqb s EmptyString).
Definition opt_truthy (o : option string) : bool := match o with Some s => truthy s | None => false end.

(** The characters at which [str.splitlines] ends a line. *)
Definition is_line_break (c : ascii) : bool :=
  in_range 10 13 c || in_range 28 30 c || (code c =? 133)%N.

(** [len(value.splitlines()) > 1]: something follows a line break. *)
Fixpoint several_lines (s : string) : bool :=
  match s with
  | EmptyString => false
  | String c s' =>
      if is_line_break c then
        match s' with
        | EmptyString => false
        | String d s'' =>
            if (code c =? 13)%N && (code d =? 10)%N then truthy s'' else true
        end
      else several_lines s'
  end.

(** The headers of which the standard library allows one per message. *)
Definition unique_headers : list string :=
  ["subject"; "date"; "orig-date"; "sender"; "to"; "cc"; "bcc"; "from"; "reply-to"; "mime-version";
   "content-type"; "content-disposition"; "content-transfer-encoding"; "message-id"].
Definition has_header (name : string) (headers : list (string * string)) : bool :=
  existsb (fun h => String.eqb (lower h.1) (lower name)) headers.

(** [email[name] = value]. *)
Definition set_header (name value : string) (headers : list (string * string)) :
    outcome (list (string * string)) :=
  if existsb (String.eqb (lower name)) unique_headers && has_header name headers
  then Err (ValueError ("There may be at most 1 " +:+ name +:+ " headers in a message"))
  else if several_lines value
  then Err (ValueError "Header values may not contain linefeed or carriage return characters")
  else Ok (headers ++ [(name, value)]).

Fixpoint set_headers (l : list (string * string)) (headers : list (string * string)) :
    outcome (list (string * string)) :=
  match l with
  | [] => Ok headers
  | (name, value) :: l' =>
      match set_header name value headers with
      | Ok headers' => set_headers l' headers'
      | Err e => Err e
      end
  end.

(** What the mail code uses of packages, of the file system and of character encodings. *)
Record TokenResult := mkTokenResult {
  tr_access_token : option string;
  tr_error : option string;
  tr_error_description : option string;
}.
Class MailLib := {
  (** [Charset("utf-8").header_encode]: a name that is not ASCII, as an encoded word. *)
  header_encode : string -> string;
  (** [message.as_bytes()]. *)
  as_bytes : Mime -> string;
  (** [bytes.decode("utf-8")]; [None] is [UnicodeDecodeError].  ASCII is itself. *)
  utf8_decode : string -> option string;
  utf8_decode_ascii : forall s, str_forall (fun c => (code c <? 128)%N) s = true ->
    utf8_decode s = Some s;
  (** [Path(path).read_text(encoding="utf-8")]. *)
  read_text : string -> outcome string;
  (** [msal.ConfidentialClientApplication(..).acquire_token_for_client(..)]: client, authority,
      private key, certificate, passphrase. *)
  acquire_token : string -> string -> string -> string -> option string -> outcome TokenResult;
}.

Definition is_ascii (c : ascii) : bool := (code c <? 128)%N.
Definition quote_char : string := String "034" EmptyString.
Definition is_special (c : ascii) : bool :=
  existsb (Ascii.eqb c) ["]"; "["; "\"; "("; ")"; "<"; ">"; "@"; ","; ":"; ";"; "034"; "."]%char.
Fixpoint escape (s : string) : string :=
  match s with
  | EmptyString => EmptyString
  | String c s' =>
      if Ascii.eqb c "\" || Ascii.eqb c "034" then String "\" (String c (escape s'))
      else String c (escape s')
  end.

(** [email.utils.formataddr]. *)
Definition formataddr `{MailLib} (name address : string) : outcome string :=
  if negb (str_forall is_ascii address) then Err (ValueError "ordinal not in range(128)")
  else if negb (truthy name) then Ok address
  else if negb (str_forall is_ascii name) then Ok (header_encode name +:+ " <" +:+ address +:+ ">")
  else
    let quotes := if str_exists is_special name then quote_char else EmptyString in
    Ok (quotes +:+ escape name +:+ quotes +:+ " <" +:+ address +:+ ">").

(** [set_content] drops the headers that describe a content and adds [MIME-Version]. *)
Definition set_content (text : string) (headers : list (string * string)) : Mime :=
  let kept := List.filter (fun h => negb (startswith "content-" (lower h.1))) headers in
  mkMime (if has_header "MIME-Version" kept then kept else kept ++ [("MIME-Version", "1.0")]) text None.

Definition build_mime_message `{MailLib} (message : EmailMessage) (from_email : string)
    (from_name : option string) : outcome Mime :=
  match em_to message with
  | [] => Err (ValueError "Email message must contain at least one recipient")
  | _ =>
      match formataddr (default EmptyString from_name) from_email with
      | Err e => Err e
      | Ok from =>
          let reply_to := match em_reply_to message with
                          | Some r => if truthy r then [("Reply-To", r)] else []
                          | None => []
                          end in
          match set_headers ([("From", from); ("To", join ", " (em_to message));
                              ("Subject", em_subject message)] ++ reply_to ++ em_headers message) [] with
          | Err e => Err e
          | Ok headers =>
              let email := set_content (em_text message) headers in
              Ok (if opt_truthy (em_html message)
                  then mkMime (mi_headers email) (mi_text email) (em_html message) else email)
          end
      end
  end.

(** ** Calls to a server *)

Inductive Call :=
| SMTP (host : string) (port : Z)
| SMTP_SSL (host : string) (port : Z)
| ehlo
| call_starttls
| login_as (username password : string)
| send_message (email : Mime)
| quit
| post (url token data : string).

(** How the server answers a call after the calls before it: [None] is success, and a call to
    [requests.post] answers a status and a request id. *)
Class Server := {
  reply : list Call -> Call -> option exn;
  post_reply : list Call -> Call -> outcome (Z * option string);
}.

Abbreviation MailM A := (M (list Call) A).

Definition call `{Server} (c : Call) : MailM unit := fun log =>
  (log ++ [c], match reply log c with None => Ok tt | Some e => Err e end).

(** [with connect as client: body]: the connection is closed however the body ends. *)
Definition closing `{Server} (body : MailM unit) : MailM unit := fun log =>
  match body log with
  | (log', r) => match call quit log' with
                 | (log'', Err e) => (log'', Err e)
                 | (log'', Ok _) => (log'', r)
                 end
  end.
Definition with_client `{Server} (connect : Call) (body : MailM unit) : MailM unit :=
  call connect ;; closing body.

(** ** email/smtp.py *)

Record SMTPEmailBackend := mkSMTPEmailBackend {
  sb_host : string;
  sb_port : Z;
  sb_security : SmtpSecurity;
  sb_timeout_seconds : Q;
  sb_from_email : string;
  sb_from_name : option string;
  sb_username : option string;
  sb_password : option string;
}.

(** The constructor; its check of the security mode cannot fail on a [Literal]. *)
Definition new_SMTPEmailBackend (host : string) (port : Z) (security : SmtpSecurity) (timeout : Q)
    (from_email : string) (from_name username password : option string) : outcome SMTPEmailBackend :=
  if negb (Bool.eqb (opt_truthy username) (opt_truthy password))
  then Err (ValueError "SMTP username and password must either both be set or both be omitted")
  else Ok (mkSMTPEmailBackend host port security timeout from_email from_name username password).

Definition authenticated_smtp (b : SMTPEmailBackend) : bool :=
  negb (is_none (sb_username b)) && negb (is_none (sb_password b)).

Definition _authenticate_and_send `{Server} (b : SMTPEmailBackend) (email : Mime) : MailM unit :=
  match sb_username b, sb_password b with
  | Some username, Some password => call (login_as username password) ;; call (send_message email)
  | _, _ => call (send_message email)
  end.

Definition smtp_send `{MailLib} `{Server} (b : SMTPEmailBackend) (message : EmailMessage) : MailM unit :=
  match build_mime_message message (sb_from_email b) (sb_from_name b) with
  | Err e => raise e
  | Ok email =>
      match sb_security b with
      | ssl => with_client (SMTP_SSL (sb_host b) (sb_port b)) (_authenticate_and_send b email)
      | security =>
          with_client (SMTP (sb_host b) (sb_port b))
            (call ehlo ;;
             (if bool_decide (security = starttls) then call call_starttls ;; call ehlo else mret tt) ;;
             _authenticate_and_send b email)
      end
  end.

(** ** email/microsoft_graph.py *)

(** [base64.b64encode(data).decode("ascii")]: the standard alphabet. *)
Definition to_standard (c : ascii) : ascii :=
  if Ascii.eqb c "-" then "+" else if Ascii.eqb c "_" then "/" else c.
Definition b64encode (data : string) : string :=
  str_map to_standard (b64_groups data +:+ b64_padding data).

Definition standard_value (c : ascii) : option N :=
  if Ascii.eqb c "-" || Ascii.eqb c "_" then None else b64_value c.

(** [binascii.a2b_base64] in its strict mode, on which [b64decode(.., validate=True)] relies:
    other characters, padding at the start, text after padding and characters between
    padding are errors.  [first] says that nothing was read yet, [padded] that padding was. *)
Fixpoint a2b_strict (s : string) (first : bool) (quad : nat) (left : N) (pads : nat) (padded : bool) :
    option string :=
  match s with
  | EmptyString => if Nat.eqb quad 0 then Some EmptyString else None
  | String c rest =>
      if Ascii.eqb c "=" then
        if first then None
        else if (2 <=? quad)%nat then
          if (4 <=? quad + Datatypes.S pads)%nat then (if truthy rest then None else Some EmptyString)
          else a2b_strict rest false quad left (Datatypes.S pads) true
        else a2b_strict rest false quad left pads true
      else
        match standard_value c with
        | None => None
        | Some v =>
            if padded then None
            else match quad with
                 | 0%nat => a2b_strict rest false 1 v 0 padded
                 | 1%nat => String (ascii_of_N (left * 4 + v / 16)) <$>
                              a2b_strict rest false 2 (v mod 16) 0 padded
                 | 2%nat => String (ascii_of_N (left * 16 + v / 4)) <$>
                              a2b_strict rest false 3 (v mod 4) 0 padded
                 | _ => String (ascii_of_N (left * 64 + v)) <$> a2b_strict rest false 0 0 0 padded
                 end
        end
  end.

(** [base64.b64decode(s, validate=True)]; a character that is not ASCII is a [ValueError]
    raised by the same call, which the code does not catch. *)
Definition b64decode_validate (s : string) : option string := a2b_strict s true 0 0 0 false.

(** [needle in s]. *)
Fixpoint contains (needle s : string) : bool :=
  startswith needle s || match s with EmptyString => false | String _ s' => contains needle s' end.

Section Graph.
Context {L : MailLib} {SV : Server}.

Definition read_pem_credential (base64_value path_value : option string) (label : string) :
    outcome string :=
  let encoded := strip (default EmptyString base64_value) in
  if truthy encoded then
    if negb (str_forall is_ascii encoded)
    then Err (ValueError "string argument should contain only ASCII characters")
    else
      match b64decode_validate encoded ≫= utf8_decode with
      | None => Err (MicrosoftGraphConfigurationError
                  (label +:+ " base64 value is not valid base64-encoded UTF-8"))
      | Some decoded =>
          if negb (contains "-----BEGIN " decoded)
          then Err (MicrosoftGraphConfigurationError (label +:+ " does not contain PEM data"))
          else Ok decoded
      end
  else
    let raw_path := strip (default EmptyString path_value) in
    if negb (truthy raw_path)
    then Err (MicrosoftGraphConfigurationError
           ("Configure " +:+ label +:+ " using either its base64 value or file path"))
    else
      match read_text raw_path with
      | Err (OSError _) => Err (MicrosoftGraphConfigurationError
                             ("Could not read " +:+ label +:+ ": " +:+ raw_path))
      | Err e => Err e
      | Ok pem =>
          if negb (contains "-----BEGIN " pem)
          then Err (MicrosoftGraphConfigurationError (label +:+ " file does not contain PEM data"))
          else Ok pem
      end.

Record MicrosoftGraphEmailBackend := mkMicrosoftGraphEmailBackend {
  gb_tenant_id : string;
  gb_client_id : string;
  gb_sender_email : string;
  gb_private_key : string;
  gb_public_certificate : string;
  gb_private_key_passphrase : option string;
  gb_from_name : option string;
  gb_timeout_seconds : Q;
}.

(** The first required value that is blank. *)
Definition missing_value (l : list (string * string)) : option string :=
  fst <$> List.find (fun nv => negb (truthy (strip nv.2))) l.

Definition new_MicrosoftGraphEmailBackend (tenant_id client_id sender_email private_key
    public_certificate : string) (private_key_passphrase from_name : option string) (timeout : Q) :
    outcome MicrosoftGraphEmailBackend :=
  match missing_value [("tenant_id", tenant_id); ("client_id", client_id);
                       ("sender_email", sender_email); ("private_key", private_key);
                       ("public_certificate", public_certificate)] with
  | Some name => Err (MicrosoftGraphConfigurationError ("Microsoft Graph " +:+ name +:+ " is required"))
  | None => Ok (mkMicrosoftGraphEmailBackend tenant_id client_id sender_email private_key
                  public_certificate private_key_passphrase from_name timeout)
  end.

Definition _get_access_token (b : MicrosoftGraphEmailBackend) : outcome string :=
  let passphrase := match gb_private_key_passphrase b with
                    | Some p => if truthy p then Some p else None
                    | None => None
                    end in
  match acquire_token (gb_client_id b) ("https://login.microsoftonline.com/" +:+ gb_tenant_id b)
          (gb_private_key b) (gb_public_certificate b) passphrase with
  | Err e => Err e
  | Ok result =>
      match tr_access_token result with
      | Some token =>
          if truthy token then Ok token
          else Err (MicrosoftGraphDeliveryError
            ("Could not authenticate Microsoft Graph email service: " +:+
             default "Microsoft identity rejected the request" (tr_error_description result)))
      | None => Err (MicrosoftGraphDeliveryError
            ("Could not authenticate Microsoft Graph email service: " +:+
             default "Microsoft identity rejected the request" (tr_error_description result)))
      end
  end.

(** [urllib.parse.quote(s, safe=EmptyString)]. *)
Fixpoint quote (s : string) : string :=
  match s with
  | EmptyString => EmptyString
  | String c s' => (if unreserved c then String c EmptyString else percent c) +:+ quote s'
  end.

Definition graph_send (b : MicrosoftGraphEmailBackend) (message : EmailMessage) : MailM unit :=
  match build_mime_message message (gb_sender_email b) (gb_from_name b) with
  | Err e => raise e
  | Ok email =>
      let mime_base64 := b64encode (as_bytes email) in
      match _get_access_token b with
      | Err e => raise e
      | Ok access_token =>
          let c := post ("https://graph.microsoft.com/v1.0/users/" +:+ quote (gb_sender_email b) +:+
                         "/sendMail") access_token mime_base64 in
          fun log =>
            (log ++ [c],
             match post_reply log c with
             | Err e => Err e
             | Ok (status, request_id) =>
                 if status =? 202 then Ok tt
                 else Err (MicrosoftGraphDeliveryError
                   ("Microsoft Graph rejected the email (status " +:+ pretty status +:+ ", request ID " +:+
                    default "unknown" request_id +:+ ")"))
             end)
      end
  end.

(** ** email/__init__.py and tasks/email.py *)

Inductive EmailBackend :=
| SmtpBackend (b : SMTPEmailBackend)
| GraphBackend (b : MicrosoftGraphEmailBackend).

Definition get_email_backend (s : Settings) : outcome EmailBackend :=
  match email_backend s with
  | smtp =>
      match new_SMTPEmailBackend (smtp_host s) (smtp_port s) (smtp_security s) (smtp_timeout_seconds s)
              (smtp_from_email s) (smtp_from_name s) (smtp_username s) (smtp_password s) with
      | Ok b => Ok (SmtpBackend b)
      | Err e => Err e
      end
  | microsoft_graph =>
      match read_pem_credential (microsoft_graph_private_key_base64 s) (microsoft_graph_private_key_path s)
              "Microsoft Graph private key" with
      | Err e => Err e
      | Ok private_key =>
          match read_pem_credential (microsoft_graph_certificate_base64 s)
                  (microsoft_graph_certificate_path s) "Microsoft Graph certificate" with
          | Err e => Err e
          | Ok public_certificate =>
              match new_MicrosoftGraphEmailBackend (default EmptyString (microsoft_graph_tenant_id s))
                      (default EmptyString (microsoft_graph_client_id s))
                      (default EmptyString (microsoft_graph_sender_email s)) private_key
                      public_certificate (microsoft_graph_private_key_passphrase s)
                      (microsoft_graph_from_name s) (microsoft_graph_timeout_seconds s) with
              | Ok b => Ok (GraphBackend b)
              | Err e => Err e
              end
          end
      end
  end.

Definition send (b : EmailBackend) (message : EmailMessage) : MailM unit :=
  match b with
  | SmtpBackend b => smtp_send b message
  | GraphBackend b => graph_send b message
  end.

(** One run of the task [send_email]. *)
Definition send_email (settings : Settings) (to_ : list string) (subject text : string)
    (html reply_to : option string) (headers : option (list (string * string))) : MailM unit :=
  let message := mkEmailMessage to_ subject text html reply_to (default [] headers) in
  match get_email_backend settings with
  | Err e => raise e
  | Ok b => send b message
  end.

(** [autoretry_for]: the exceptions after which the task is run again. *)
Definition retried (e : exn) : bool :=
  match e with OSError _ | MicrosoftGraphDeliveryError _ => true | _ => false end.

(** A mail of the queue, as [_send_account_email] queued it. *)
Definition send_queued (settings : Settings) (m : Mail) : MailM unit :=
  send_email settings (mail_to m) (mail_subject m) (mail_text m) None None None.

(** cli/send_test_email.py: the mail [main] queues, with the default of [--subject]. *)
Definition test_subject : string := "BifrostNMS test email".
Definition send_test_email (settings : Settings) (recipient : string) (subject : option string) : MailM unit :=
  send_email settings [recipient] (default test_subject subject) "This is a test email from BifrostNMS."
    (Some "<p>This is a test email from <strong>BifrostNMS</strong>.</p>") None None.
End Graph.
