(* ===== verification/SignupProps.v ===== *)
(** * Signing up: slugs and the stranded account (api/auth.py) *)

From Stdlib Require Import Ascii.
From stdpp Require Import pretty.
From S2P Require Import Prelude PyText Json Platform Models Domain ObservationSchema Observations.
From S2P Require Import Dashboard Accounts Lifecycle WebAuthn AuthApi AuthDemo.
Local Open Scope Z_scope.

(** ** The loop over slugs *)

(** The slugs the loop tries after the first. *)
Fixpoint candidates (base : string) (counter : N) (n : nat) : list string :=
  match n with
  | 0%nat => []
  | Datatypes.S n => (base +:+ "-" +:+ pretty counter) :: candidates base (counter + 1)%N n
  end.

Lemma free_slug_None d fuel base slug counter :
  free_slug d fuel base slug counter = None ->
  Forall (fun s => slug_taken d s = true) (slug :: candidates base counter fuel).
Proof.
  revert slug counter. induction fuel as [|fuel IH]; intros slug counter; simpl;
    destruct (slug_taken d slug) eqn:E; try done.
  - by repeat constructor.
  - intros Hn. constructor; [done|]. by apply IH.
Qed.

Lemma free_slug_Some d fuel base slug counter s :
  free_slug d fuel base slug counter = Some s ->
  slug_taken d s = false /\ (s = slug \/ exists n, (counter <= n)%N /\ s = base +:+ "-" +:+ pretty n).
Proof.
  revert slug counter. induction fuel as [|fuel IH]; intros slug counter; simpl;
    destruct (slug_taken d slug) eqn:E; try done.
  - intros [= <-]. auto.
  - intros [Ht [->|(n & Hn & ->)]]%IH; split; try done; right; [by exists counter|].
    exists n. split; [lia|done].
  - intros [= <-]. auto.
Qed.

Lemma append_inj_l (s t t' : string) : s +:+ t = s +:+ t' -> t = t'.
Proof. induction s as [|c s IH]; [done|]. intros [= E]. auto. Qed.

Lemma length_append (s t : string) :
  String.length (s +:+ t) = (String.length s + String.length t)%nat.
Proof. induction s as [|c s IH]; [done|]. simpl. by f_equal. Qed.

Lemma elem_of_candidates base counter n s :
  s ∈ candidates base counter n -> exists k, (counter <= k)%N /\ s = base +:+ "-" +:+ pretty k.
Proof.
  revert counter. induction n as [|n IH]; intros counter; simpl; [by intros ?%elem_of_nil|].
  intros [->|(k & Hk & ->)%IH]%elem_of_cons; [by exists counter|]. exists k. split; [lia|done].
Qed.

Lemma candidates_NoDup base counter n : NoDup (base :: candidates base counter n).
Proof.
  constructor.
  - intros (k & _ & E)%elem_of_candidates. apply (f_equal String.length) in E.
    rewrite length_append in E. simpl in E. lia.
  - revert counter. induction n as [|n IH]; intros counter; simpl; constructor; [|done].
    intros (k & Hk & E)%elem_of_candidates. apply append_inj_l, append_inj_l in E.
    apply (inj pretty) in E. lia.
Qed.

Lemma length_candidates base counter n : length (candidates base counter n) = n.
Proof. revert counter. induction n; intros; simpl; auto. Qed.

Lemma find_slug_total base d : exists slug, find_slug base d = Some slug.
Proof.
  unfold find_slug. destruct (free_slug _ _ _ _ _) as [slug|] eqn:E; [eauto|exfalso].
  apply free_slug_None in E. set (l := base :: candidates base 2 (S (size (realms d)))) in *.
  assert (Hsub : l ⊆+ map realm_slug (rows (realms d))).
  { apply NoDup_submseteq; [apply candidates_NoDup|]. intros s Hs.
    rewrite Forall_forall in E. apply E in Hs.
    apply exists_row_true in Hs as (k & r & Hk & Hr%String.eqb_eq).
    apply list_elem_of_fmap. exists r. split; [done|]. apply elem_of_rows. eauto. }
  apply submseteq_length in Hsub. unfold l in Hsub. simpl in Hsub.
  rewrite length_candidates, length_map in Hsub. unfold rows in Hsub.
  rewrite length_fmap, length_map_to_list in Hsub. lia.
Qed.

(** The search for a free slug ends: whatever realms exist, the loop of [signup] stops
    within one more try than there are realms, at a slug no realm has, which is the slug of
    the name or that slug with a counter of at least 2. *)
Theorem slug_search_terminates base d :
  exists slug, find_slug base d = Some slug /\ slug_taken d slug = false /\
    (slug = base \/ exists n, (2 <= n)%N /\ slug = base +:+ "-" +:+ pretty n).
Proof.
  destruct (find_slug_total base d) as [slug E]. exists slug. split; [done|].
  by apply free_slug_Some in E.
Qed.

(** ** The form of a slug *)

(** Letters, digits and single dashes, with no dash at either end. *)
Fixpoint slug_body (after_dash : bool) (s : string) : bool :=
  match s with
  | EmptyString => negb after_dash
  | String c s' =>
      if Ascii.eqb c "-" then negb after_dash && slug_body true s'
      else is_slug_char c && slug_body false s'
  end.
Definition slug_form (s : string) : bool :=
  negb (String.eqb s EmptyString) && slug_body true s.

(** Replaced text has no two dashes in a row. *)
Fixpoint single_dashes (after_dash : bool) (s : string) : bool :=
  match s with
  | EmptyString => true
  | String c s' =>
      if Ascii.eqb c "-" then negb after_dash && single_dashes true s'
      else is_slug_char c && single_dashes false s'
  end.

Lemma slug_char_not_dash c : is_slug_char c = true -> Ascii.eqb c "-" = false.
Proof. intros Hc. apply Ascii.eqb_neq. intros ->. by vm_compute in Hc. Qed.

Lemma sub_runs_single run s : single_dashes run (sub_runs run s) = true.
Proof.
  revert run. induction s as [|c s IH]; intros run; simpl; [done|].
  destruct (is_slug_char c) eqn:E.
  - simpl. rewrite (slug_char_not_dash c E), E. simpl. apply IH.
  - destruct run; [apply IH|]. simpl. apply IH.
Qed.

Lemma single_dashes_weaken s : single_dashes true s = true -> single_dashes false s = true.
Proof. destruct s as [|c s]; simpl; [done|]. by destruct (Ascii.eqb c "-"). Qed.

Lemma lstrip_single s :
  single_dashes false s = true -> single_dashes true (lstrip_with (is_char "-") s) = true.
Proof.
  induction s as [|c s IH]; [done|]. cbn [lstrip_with single_dashes]. unfold is_char at 1.
  rewrite (Ascii.eqb_sym "-" c). destruct (Ascii.eqb c "-") eqn:E.
  - intros [_ Hs]%andb_true_iff. by apply IH, single_dashes_weaken.
  - intros Hs. cbn [single_dashes]. by rewrite E.
Qed.

Lemma rstrip_body b s :
  single_dashes b s = true ->
  rstrip_with (is_char "-") s <> EmptyString -> slug_body b (rstrip_with (is_char "-") s) = true.
Proof.
  revert b. induction s as [|c s IH]; intros b; [done|]. cbn [single_dashes rstrip_with]. intros Hs.
  destruct (rstrip_with (is_char "-") s) as [|c' r] eqn:Er.
  - unfold is_char. rewrite (Ascii.eqb_sym "-" c). destruct (Ascii.eqb c "-") eqn:E; [done|].
    intros _. cbn [slug_body]. rewrite E. by destruct_andb; split_andb.
  - intros _. cbn [slug_body]. destruct (Ascii.eqb c "-") eqn:E; destruct_andb; split_andb; try done;
      by apply IH.
Qed.

(** Slugs are URL-safe names: whatever text a realm is named with, [slugify] returns a
    non-empty text of lowercase letters, digits and single dashes that neither begins nor ends
    with a dash. *)
Theorem slugify_form value : slug_form (slugify value) = true.
Proof.
  unfold slugify, slug_form. set (s := lower (strip value)).
  set (x := rstrip_with _ _). destruct (String.eqb x EmptyString) eqn:E; [done|].
  rewrite E. apply rstrip_body; [|by apply String.eqb_neq]. apply lstrip_single, sub_runs_single.
Qed.

(** ** A name too long for its slug *)

Section Stranded.
Context {P : Platform} {I : IsoFormat} {H : PasswordHasher} {T : TwoFactorLib} {W : WebAuthnLib}
  {C : Collation} {E : EmailValidator} (settings : Settings).

Definition requested_name (payload : SignupRequest) : string :=
  match sg_realm_name payload with
  | Some n => if String.eqb n EmptyString then strip (sg_first_name payload) +:+ "'s Realm" else n
  | None => strip (sg_first_name payload) +:+ "'s Realm"
  end.

Lemma length_strip s : str_len (strip s) <= str_len s.
Proof.
  unfold str_len, strip. pose proof (length_rstrip_with is_space (lstrip_with is_space s)).
  assert (String.length (lstrip_with is_space s) <= String.length s)%nat; [|lia].
  clear. induction s as [|c s IH]; simpl; [lia|]. destruct (is_space c); simpl; lia.
Qed.

(** Signing up can strand an account: a valid request for a new address whose realm
    name has a slug of more than 120 characters (a first name of 113 letters is enough)
    fails with an exception after the user row was written, without a realm, and from then on
    signing up with that address is refused because the account exists. *)
Theorem signup_with_long_name_strands_account now u r m c salt vt st payload request d :
  SignupRequest_ok payload = true -> str_len (normalize_email (sg_email payload)) <= 320 ->
  exists_row (fun x => String.eqb (u_email x) (normalize_email (sg_email payload))) (users d) = false ->
  users d !! u = None -> 120 < str_len (slugify (requested_name payload)) ->
  exists d' x, signup settings now u r m c salt vt st payload request d = (d', Err OrmValidationError) /\
    users d' = <[u := x]> (users d) /\ realms d' = realms d /\
    realm_memberships d' = realm_memberships d /\
    forall now' u' r' m' c' salt' vt' st' request',
      signup settings now' u' r' m' c' salt' vt' st' payload request' d' =
        (d', Err (HTTPException 409 "An account already exists for that email")).
Proof.
  intros Hok Hemail Hnew Hid Hlong. unfold SignupRequest_ok, length_between in Hok. destruct_andb.
  set (x := mkUser u (normalize_email (sg_email payload)) (hash_password salt (sg_password payload))
    (strip (sg_first_name payload)) (strip (sg_last_name payload)) true false false 1).
  exists (set_users (<[u := x]> (users d)) d), x.
  assert (Hrun : insert_user x d = (set_users (<[u := x]> (users d)) d, Ok tt)).
  { unfold insert_user. assert (user_fits x = true) as ->.
    { unfold user_fits. simpl. pose proof (length_strip (sg_first_name payload)).
      pose proof (length_strip (sg_last_name payload)).
      pose proof (password_hash_length salt (sg_password payload)).
      unfold str_len, hash_password in *. split_andb; lia. }
    mrun. simpl. rewrite Hid, Hnew. done. }
  split; [|split; [done|split; [done|split; [done|]]]].
  - unfold signup. mrun. rewrite Hnew. mrun. fold x. rewrite Hrun. mrun. fold (requested_name payload).
    set (d1 := set_users _ d). destruct (find_slug_total (slugify (requested_name payload)) d1) as [slug Hs].
    rewrite Hs. mrun. unfold insert_realm.
    assert (realm_fits (mkRealm r (requested_name payload) slug true now) = false) as ->; [|done].
    unfold realm_fits. simpl. apply andb_false_iff. right.
    apply free_slug_Some in Hs as [_ [->|(n & _ & ->)]]; [lia|].
    unfold str_len in *. rewrite length_append. lia.
  - intros. unfold signup. mrun.
    assert (exists_row (fun y => String.eqb (u_email y) (normalize_email (sg_email payload)))
      (users (set_users (<[u := x]> (users d)) d)) = true) as ->; [|done].
    apply exists_row_true. exists u, x. simpl. by rewrite lookup_insert_eq, String.eqb_refl.
Qed.
End Stranded.

(** Someone whose first name has 113 letters. *)
Definition long_payload : SignupRequest :=
  mkSignupRequest "a@example.org" "correct horse" (repeat_char "a" 113) "B" None.

#[local] Existing Instance example_platform.
#[local] Existing Instance example_hasher.
#[local] Existing Instance example_iso.
#[local] Existing Instance example_two_factor.
#[local] Existing Instance example_webauthn.
#[local] Existing Instance example_collation.
#[local] Existing Instance example_email.

Lemma signup_with_long_name_strands_account_witness :
  exists d', signup default_settings 1000000 1 2 3 4 "salt" "vt" "st" long_payload
      (AuthDemo.request EmptyString) empty_auth = (d', Err OrmValidationError) /\
    realms d' = ∅.
Proof.
  destruct (signup_with_long_name_strands_account default_settings 1000000 1 2 3 4 "salt" "vt" "st"
    long_payload (AuthDemo.request EmptyString) empty_auth) as (d' & x & Hs & _ & Hr & _).
  - by vm_compute.
  - by vm_compute.
  - by vm_compute.
  - by vm_compute.
  - by vm_compute.
  - exists d'. split; [exact Hs|exact Hr].
Defined.
