(* ===== verification/SuperuserProps.v ===== *)
(** * What the superuser command achieves *)

From Stdlib Require Import Ascii.
From S2P Require Import Prelude PyText Json Platform Models Domain ObservationSchema Observations.
From S2P Require Import Dashboard Accounts Lifecycle WebAuthn AuthApi AuthDemo SessionProps.
From S2P Require Import AuthSteps AuthOps Superuser AuthTheorems SignupProps.
Local Open Scope Z_scope.

Section Access.
Context {P : Platform} {IF : IsoFormat} {H : PasswordHasher} {T : TwoFactorLib} {W : WebAuthnLib}
  {C : Collation} (settings : Settings).
Implicit Types (d : AuthDB) (u : User).

(** The session [create_session] opens. *)
Definition opened (now : Z) (token : string) u (request : Request) (method : string) d : SessionData :=
  mkSessionData (u_id u) (_initial_realm_id u d) method now now
    (default EmptyString (rq_user_agent request)) (rq_client_host request)
    (_session_key settings token) (u_session_version u).

Lemma create_session_run now token u request method d :
  create_session settings now token u request method d =
    (refresh settings now (_session_key settings token) (opened now token u request method d) d,
     Ok (opened now token u request method d,
         mkCookie (session_cookie_name settings) token true (cookie_secure settings) "lax"
           (session_ttl_seconds settings) (cookie_domain settings) "/")).
Proof. done. Qed.

Lemma opened_wf now token u request method d :
  auth_ok d -> users d !! u_id u = Some u -> in_calendar now = true ->
  session_wf (opened now token u request method d) = true.
Proof.
  intros Hok Hu Hnow. unfold session_wf, opened. simpl.
  rewrite (proj2 (ao_users _ Hok _ _ Hu)), Hnow. simpl.
  destruct (_initial_realm_id u d) eqn:E; [|done]. by rewrite (initial_realm_uuid _ _ _ Hok E).
Qed.

(** A superuser may do everything in the active realm of the session. *)
Lemma superuser_access now request permission d u s realm :
  live_session settings now request d u s -> u_is_superuser u = true ->
  effective_realm s u d = Some (realm_id realm) -> realms d !! realm_id realm = Some realm ->
  realm_is_active realm = true ->
  exists d' ra, require_realm_permission settings now request permission d = (d', Ok ra) /\
    ra_user ra = u /\ ra_realm ra = realm.
Proof.
  intros Hl Hsu Heff Hr Ha. unfold require_realm_permission.
  rewrite bind_run, (get_session_user_run _ _ _ _ _ _ Hl). simpl. rewrite Heff. mrun.
  unfold get_row. simpl. rewrite Hr, Ha, Hsu. by eexists _, _.
Qed.

(** A superuser with a live session can switch to any active realm. *)
Lemma superuser_activates now request d u s realm :
  live_session settings now request d u s -> u_is_superuser u = true ->
  realms d !! realm_id realm = Some realm -> realm_is_active realm = true ->
  let s' := with_last_activity now (with_active_realm (Some (realm_id realm)) (touched now s u d)) in
  exists response, activate_realm settings now (realm_id realm) request d =
    (refresh settings now (sd_redis_key s) s' (refresh settings now (sd_redis_key s) (touched now s u d) d),
     Ok response).
Proof.
  intros Hl Hsu Hr Ha s'. unfold activate_realm.
  rewrite bind_run, (get_session_user_run _ _ _ _ _ _ Hl). mrun. rewrite Hsu. unfold get_row. simpl.
  rewrite Hr, Ha. eexists. unfold set_active_realm. mrun. done.
Qed.

(** A superuser can administer: when the command ends with status 0 in a reachable
    state, the account it names is an active superuser and there is an active realm, such
    that whoever opens a session for the account can activate that realm and is then granted
    every permission there, as long as the session lives. *)
Theorem superuser_can_administer now user_id realm_id_ salt env_password args d c d' c' :
  rtc (auth_step settings) empty_auth d -> is_uuid user_id = true -> is_uuid realm_id_ = true ->
  create_superuser now user_id realm_id_ salt env_password args (d, c) = ((d', c'), Ok 0) ->
  exists u realm, users d' !! u_id u = Some u /\ email_asked args (u_email u) /\
    forall now1 now2 now3 token request method request' permission,
      in_calendar now1 = true -> in_calendar now2 = true -> token <> EmptyString ->
      rq_cookies request' !! session_cookie_name settings = Some token ->
      now2 < now1 + seconds (session_ttl_seconds settings) ->
      now3 < now2 + seconds (session_ttl_seconds settings) ->
      let d1 := (create_session settings now1 token u request method d').1 in
      let d2 := (activate_realm settings now2 (realm_id realm) request' d1).1 in
      exists d3 ra, require_realm_permission settings now3 request' permission d2 = (d3, Ok ra) /\
        ra_user ra = u /\ ra_realm ra = realm.
Proof.
  intros Hreach Hu Hr E. pose proof (auth_ok_reachable settings d Hreach) as Hok.
  pose proof (ckept_create_superuser now user_id realm_id_ salt env_password args d Hu Hr) as Hs.
  specialize (Hs c Hok). unfold safe in Hs. rewrite E in Hs.
  destruct Hs as [[Hok' _] [[_ [(k & realm & Hk & Hact) (u & Hus & Hsu & Hua & Hem)]]|[? _]]]; [|done].
  cbn [fst snd] in *. destruct (ao_realms _ Hok' _ _ Hk) as [<- Hrid].
  exists u, realm. split; [done|]. split; [done|].
  intros now1 now2 now3 token request method request' permission Hn1 Hn2 Htok Hck Hlt2 Hlt3.
  pose proof (opened_wf now1 token u request method d' Hok' Hus Hn1) as Hwf.
  rewrite create_session_run. cbn [fst].
  set (s := opened now1 token u request method d') in *. set (d1' := refresh _ _ _ _ _).
  assert (Hl : live_session settings now2 request' d1' u s).
  { eapply stored_session_live; try done. apply lookup_insert_eq. }
  destruct (superuser_activates now2 request' d1' u s realm Hl Hsu Hk Hact) as [response ->].
  cbn [fst].
  match goal with |- context [refresh _ now2 (sd_redis_key s) ?s2 (refresh _ _ _ ?s1 _)] =>
    apply superuser_access with (s := s2) end; [|done|done|done|done].
  eapply stored_session_live; [done|done|done| |apply lookup_insert_eq|done|done|done|done].
  unfold session_wf in *. cbn in *. destruct_andb. by split_andb.
Qed.
End Access.

(** ** Unattended creation *)

Section Unattended.
Context {P : Platform} {IF : IsoFormat} {H : PasswordHasher} {T : TwoFactorLib} {W : WebAuthnLib}
  {C : Collation} (settings : Settings).
Implicit Types (d : AuthDB) (u : User).

(** The name of the realm the command creates. *)
Definition initial_name (args : Namespace) : string :=
  if String.eqb (strip (arg_realm_name args)) EmptyString then DEFAULT_REALM_NAME
  else strip (arg_realm_name args).

(** Where a realm has to be created, its id is new and its name and slug fit their columns. *)
Definition realm_creatable (now : Z) (id : uuid) (args : Namespace) d : Prop :=
  first_active_realm d = None -> realms d !! id = None /\
    forall slug, find_slug (_slugify_realm (initial_name args)) d = Some slug ->
      realm_fits (mkRealm id (initial_name args) slug true now) = true.

(** A first run of the command with everything given: all options, a long enough password in
    the environment, an email nobody has, texts that fit and new ids that nothing refers to. *)
Record unattended (now : Z) (user_id realm_id_ : uuid) (args : Namespace)
    (email first last_ password : string) d : Prop := {
  un_args : arg_email args = Some email /\ arg_first_name args = Some first /\
    arg_last_name args = Some last_;
  un_given : forall t, t ∈ [email; first; last_; password] -> t <> EmptyString;
  un_password : MIN_PASSWORD_LENGTH <= str_len password;
  un_fits : str_len (normalize_email (strip email)) <= 320 /\ str_len (strip first) <= 150 /\
    str_len (strip last_) <= 150;
  un_new : exists_row (fun u => String.eqb (u_email u) (normalize_email (strip email))) (users d) = false;
  un_ids : is_uuid user_id = true /\ is_uuid realm_id_ = true /\ users d !! user_id = None;
  un_unreferenced :
    exists_row (fun m => (mb_user_id m =? user_id)%N) (realm_memberships d) = false /\
    exists_row (fun m => (tf_user_id m =? user_id)%N) (two_factor_methods d) = false;
  un_realm : realm_creatable now realm_id_ args d;
}.

Lemma first_row_unique {R} (p : R -> bool) (t : gmap uuid R) k r :
  t !! k = Some r -> p r = true -> (forall k' r', t !! k' = Some r' -> p r' = true -> r' = r) ->
  first_row p t = Some r.
Proof.
  intros Hk Hp Hu. destruct (first_row p t) as [x|] eqn:E.
  - apply first_row_Some in E as [[k' Hk'] Hx]. f_equal. eauto.
  - eapply first_row_None in E; [|exact Hk]. congruence.
Qed.

Lemma find_first_active d : has_active_realm d -> exists r, first_active_realm d = Some r.
Proof.
  intros (k & r & Hk & Ha). unfold first_active_realm. destruct (List.filter _ _) eqn:E; [|eauto].
  assert (r ∈ List.filter realm_is_active (rows (realms d))) as Hin.
  { apply list_elem_of_In, filter_In. split; [|done]. apply list_elem_of_In, elem_of_rows. eauto. }
  rewrite E in Hin. by apply elem_of_nil in Hin.
Qed.

(** The search for a slug reads the realms only. *)
Lemma find_slug_ext base d d' : realms d = realms d' -> find_slug base d = find_slug base d'.
Proof.
  intros E. unfold find_slug. rewrite E.
  assert (Hf : forall fuel slug n, free_slug d fuel base slug n = free_slug d' fuel base slug n).
  { induction fuel as [|fuel IH]; intros slug n; simpl; unfold slug_taken; rewrite E; [done|].
    destruct (exists_row _ _); [apply IH|done]. }
  apply Hf.
Qed.

Lemma realm_creatable_ext now id args d d' :
  realms d = realms d' -> realm_creatable now id args d -> realm_creatable now id args d'.
Proof.
  intros E Hc. unfold realm_creatable, first_active_realm in *. rewrite <-E.
  by setoid_rewrite <-(find_slug_ext _ _ _ E).
Qed.

Lemma ensure_initial_realm_run now id args d c :
  realm_creatable now id args d ->
  exists v c' r, ensure_initial_realm now id (arg_realm_name args) (d, c) =
    ((set_realms v d, c'), Ok r).
Proof.
  intros Hc. unfold ensure_initial_realm. rewrite bind_run. unfold on_tables at 1, zoom. mrun.
  destruct (first_active_realm d) as [r|] eqn:Hr.
  { exists (realms d), c, r. by destruct d. }
  destruct (Hc Hr) as [Hid Hfit]. fold (initial_name args).
  destruct (find_slug_total (_slugify_realm (initial_name args)) d) as [slug Hs].
  rewrite bind_run. unfold on_tables at 1, zoom. mrun. rewrite Hs.
  rewrite bind_run. unfold on_tables, zoom, insert_realm. mrun. rewrite (Hfit _ Hs). mrun.
  simpl. rewrite Hid. unfold find_slug in Hs. rewrite (proj1 (free_slug_Some _ _ _ _ _ _ Hs)). mrun.
  by eexists _, _, _.
Qed.

Lemma prompt_given t label c : t <> EmptyString -> _prompt (Some t) label c = (c, Ok (strip t)).
Proof. intros Ht. unfold _prompt. by apply String.eqb_neq in Ht as ->. Qed.

Definition created (user_id : uuid) (salt email first last_ password : string) : User :=
  mkUser user_id (normalize_email (strip email)) (hash_password salt password) (strip first)
    (strip last_) true true true 1.

Lemma create_superuser_run now user_id realm_id_ salt args email first last_ password d c :
  unattended now user_id realm_id_ args email first last_ password d ->
  let u := created user_id salt email first last_ password in
  exists v c', create_superuser now user_id realm_id_ salt (Some password) args (d, c) =
    ((set_realms v (set_users (<[user_id := u]> (users d)) d), c'), Ok 0).
Proof.
  intros [(Ee & Ef & El) Hg Hp (F1 & F2 & F3) Hnew (Hu & Hr & Hid) _ Hrealm] u.
  set (e := normalize_email (strip email)) in *. unfold create_superuser.
  assert (Hzoom : forall {A B} (t : A) (k : A -> CliM B) m s, m s.2 = (s.2, Ok t) ->
    (on_console m ≫= k) s = k t s).
  { intros A B t k m [s1 s2] E. rewrite bind_run. unfold on_console, zoom. simpl in *. by rewrite E. }
  rewrite (Hzoom _ _ (strip email)) by (rewrite Ee; apply prompt_given, Hg; by left).
  rewrite bind_run. unfold on_tables at 1, zoom. mrun. fold e.
  assert (first_row (fun u => String.eqb (u_email u) e) (users d) = None) as ->
    by (apply first_row_None; by apply exists_row_false).
  rewrite (Hzoom _ _ (strip first)) by (rewrite Ef; apply prompt_given, Hg; set_solver).
  rewrite (Hzoom _ _ (strip last_)) by (rewrite El; apply prompt_given, Hg; set_solver).
  rewrite (Hzoom _ _ password).
  2: { unfold _read_password. assert (password <> EmptyString) as Hne%String.eqb_neq by (apply Hg; set_solver).
       rewrite Hne. unfold _validate_password. simpl. by replace (_ <? _) with false by lia. }
  rewrite bind_run. unfold on_tables at 1, zoom, insert_user. mrun.
  change (mkUser _ _ _ _ _ _ _ _ _) with u. assert (user_fits u = true) as ->.
  { unfold user_fits, u, created. cbn [u_email u_password_hash u_first_name u_last_name]. fold e.
    pose proof (password_hash_length salt password). unfold hash_password, str_len in *.
    split_andb; apply Z.leb_le; lia. }
  mrun. unfold u at 1 2, created at 1 2. cbn [u_id u_email]. fold e. rewrite Hid. cbn [is_none negb orb]. fold e. rewrite Hnew. mrun.
  set (d1 := set_users _ d).
  destruct (ensure_initial_realm_run now realm_id_ args d1 c) as (v & c' & r & E).
  { by apply realm_creatable_ext with (d := d). }
  cbn [fst snd] in *. rewrite E. mrun. by eexists _, _.
Qed.

(** Unattended creation works: run on a reachable state with all options and the
    password in the environment, for an email nobody has and texts that fit, the command ends
    with status 0; the account then logs in with the email and the password, without a second
    step, and the session is granted every permission in an active realm. *)
Theorem unattended_superuser_logs_in now user_id realm_id_ salt args email first last_ password d c :
  rtc (auth_step settings) empty_auth d ->
  unattended now user_id realm_id_ args email first last_ password d ->
  exists d' c', create_superuser now user_id realm_id_ salt (Some password) args (d, c) =
      ((d', c'), Ok 0) /\
    forall now1 now2 challenge_id challenge token payload request request' permission,
      in_calendar now1 = true -> token <> EmptyString ->
      normalize_email (lg_email payload) = normalize_email (strip email) ->
      lg_password payload = password ->
      rq_cookies request' !! session_cookie_name settings = Some token ->
      now2 < now1 + seconds (session_ttl_seconds settings) ->
      exists d1 response cookie d2 ra,
        login settings now1 challenge_id challenge token payload request d' =
          (d1, Ok (response, Some cookie)) /\
        require_realm_permission settings now2 request' permission d1 = (d2, Ok ra) /\
        u_id (ra_user ra) = user_id.
Proof.
  intros Hreach U. pose proof (auth_ok_reachable settings d Hreach) as Hok.
  destruct (un_ids _ _ _ _ _ _ _ _ _ U) as (Hu & Hr & Hid).
  pose proof (ckept_create_superuser now user_id realm_id_ salt (Some password) args d Hu Hr c Hok) as Hs.
  destruct (create_superuser_run now user_id realm_id_ salt args email first last_ password d c U)
    as (v & c' & E). set (u := created _ _ _ _ _ _) in *. set (d' := set_realms _ _) in *.
  unfold safe in Hs. rewrite E in Hs. cbn [fst snd] in Hs.
  destruct Hs as [[Hok' _] [[_ [Hact _]]|[? _]]]; [|done]. exists d', c'. split; [done|].
  intros now1 now2 cid ct token payload request request' permission Hn1 Htok Hmail Hpw Hck Hlt.
  assert (Hst : users d' !! u_id u = Some u) by apply lookup_insert_eq.
  destruct (un_unreferenced _ _ _ _ _ _ _ _ _ U) as [Hmem Htf].
  assert (Hfound : first_row (fun x => String.eqb (u_email x) (normalize_email (lg_email payload)))
    (users d') = Some u).
  { rewrite Hmail. apply (first_row_unique _ _ (u_id u)); [done|apply String.eqb_refl|].
    intros k x Hk Hx. change (users d') with (<[user_id := u]> (users d)) in Hk.
    apply lookup_insert_Some in Hk as [[_ <-]|[_ Hk]]; [done|].
    pose proof (un_new _ _ _ _ _ _ _ _ _ U) as Hn. eapply exists_row_false in Hn; [|exact Hk]. congruence. }
  assert (user_has_two_factor u d' = false) as H2.
  { apply exists_row_false. intros k m Hm. unfold totp_of. eapply exists_row_false in Htf; [|exact Hm].
    cbn [u_id u created]. by rewrite Htf. }
  destruct (find_first_active d' Hact) as [realm Hrealm].
  destruct (first_active_realm_Some _ _ Hrealm) as (k & Hk & Ha).
  destruct (ao_realms _ Hok' _ _ Hk) as [<- Hrid].
  assert (_initial_realm_id u d' = Some (realm_id realm)) as Hinit.
  { unfold _initial_realm_id. assert (first_row (fun m => (mb_user_id m =? u_id u)%N)
      (realm_memberships d') = None) as -> by (apply first_row_None; by apply exists_row_false).
    simpl. by rewrite Hrealm. }
  set (s := opened settings now1 token u request "password" d').
  destruct (superuser_access settings now2 request' permission
    (refresh settings now1 (_session_key settings token) s d') u s realm) as (d2 & ra & Ereq & Hra & _);
    [|done| |done|done|].
  - eapply stored_session_live; [done|done|done|by apply opened_wf|apply lookup_insert_eq|done..].
  - unfold effective_realm. simpl. by rewrite Hinit.
  - eexists _, _, _, d2, ra. split; [|by rewrite Hra]. 
    unfold login. mrun. rewrite Hfound. mrun. rewrite Hpw. unfold verify_password.
    cbn [u_password_hash u created u_is_active]. unfold hash_password. rewrite password_verify_hash. mrun.
    rewrite H2, bind_run, create_session_run. mrun. done.
Qed.
End Unattended.

(** ** Requests give no one superuser rights *)

Section Privileges.
Context {P : Platform} {IF : IsoFormat} {H : PasswordHasher} {T : TwoFactorLib} {W : WebAuthnLib}
  {C : Collation} (settings : Settings) (old : uuid -> Prop).
Implicit Types (d : AuthDB) (u : User).

(** The superusers are among the accounts [old]. *)
Definition superusers_in d : Prop :=
  forall k u, users d !! k = Some u -> u_is_superuser u = true -> old k.

Lemma superusers_in_users f : (forall d, users (f d) = users d) -> preserves superusers_in (modify f).
Proof. intros Hf d Hd k u. simpl. rewrite Hf. apply Hd. Qed.

Lemma superusers_in_save_user f u :
  (forall u', u_is_superuser (f u') = u_is_superuser u') -> preserves superusers_in (save_user f u).
Proof.
  intros Hf d Hd k v. simpl. destruct (decide (k = u_id u)) as [->|].
  - rewrite lookup_alter_eq. destruct (users d !! u_id u) as [u'|] eqn:E; [|done]. simpl.
    intros [= <-]. rewrite Hf. by apply Hd.
  - rewrite lookup_alter_ne by done. apply Hd.
Qed.

Lemma superusers_in_insert_user u :
  u_is_superuser u = false -> preserves superusers_in (insert_user u).
Proof.
  intros Hu. apply preserves_bind; [apply preserves_raise_if|intros _].
  apply preserves_bind; [apply preserves_gets|intros taken].
  apply preserves_bind; [apply preserves_raise_if|intros _]. intros d Hd k v. simpl.
  destruct (decide (k = u_id u)) as [->|]; [rewrite lookup_insert_eq; congruence|].
  rewrite lookup_insert_ne by done. apply Hd.
Qed.

Ltac no_grant := walk ltac:(idtac; lazymatch goal with
  | |- preserves _ (save_user _ _) => by apply superusers_in_save_user
  | |- preserves _ (insert_user _) => by apply superusers_in_insert_user
  | |- preserves _ (modify _) => by apply superusers_in_users
  | |- preserves _ (exclude_credentials _) => apply preserves_exclude
  end).

Lemma superusers_in_request d d' :
  auth_request settings d d' -> superusers_in d -> superusers_in d'.
Proof.
  intros Hs Hd. destruct Hs;
    match goal with |- superusers_in (?m d).1 => enough (preserves superusers_in m) by auto end;
    no_grant.
Qed.
End Privileges.

(** C21 No request makes anyone a superuser: whatever requests run, every superuser
    account there is in the end was a superuser account at the start; only the command
    creates or promotes superusers. *)
Theorem no_request_makes_a_superuser `{Platform} `{IsoFormat} `{PasswordHasher} `{TwoFactorLib}
    `{WebAuthnLib} `{Collation} settings d d' k u :
  rtc (auth_request settings) d d' -> users d' !! k = Some u -> u_is_superuser u = true ->
  exists u0, users d !! k = Some u0 /\ u_is_superuser u0 = true.
Proof.
  intros Hsteps. pose (old := fun k => exists u0, users d !! k = Some u0 /\ u_is_superuser u0 = true).
  assert (superusers_in old d) as Hd by (intros k' u' Hk Hs; by exists u').
  assert (superusers_in old d') as Hd'; [|apply Hd'].
  clear k u. clearbody old. induction Hsteps as [|x y z Hxy _ IH]; [done|].
  apply IH. by eapply superusers_in_request.
Qed.

(** ** Worked runs *)

Module SuperuserDemo.
Export AuthDemo.

Definition args : Namespace :=
  mkNamespace (Some "Root@Example.org") (Some "Grace") (Some "Hopper") "Main Site" false.
Definition promote : Namespace := mkNamespace (Some "ada@example.org") None None "" true.
Definition console : Console := mkConsole [] [] [] [].
Definition password : string := "a long password".

Definition run : (AuthDB * Console) * outcome Z :=
  create_superuser 500000 41 42 "salt" (Some password) args (empty_auth, console).
Definition promotion : (AuthDB * Console) * outcome Z :=
  create_superuser 2000000 43 44 "salt" None promote (auth1, console).

Lemma promotion_eq : promotion = ((promotion.1.1, promotion.1.2), Ok 0).
Proof. rewrite <-surjective_pairing. apply run_outcome. vm_compute. reflexivity. Qed.

Lemma fresh : unattended 500000 41 42 args "Root@Example.org" "Grace" "Hopper" password empty_auth.
Proof.
  split; [done| |by vm_compute|by repeat split; vm_compute|by vm_compute|by vm_compute|by vm_compute|].
  - intros t. rewrite !elem_of_cons, elem_of_nil. intros [->|[->|[->|[->|[]]]]]; done.
  - intros _. split; [done|]. intros slug. vm_compute. by intros [= <-].
Qed.

(** A signup after the superuser was created. *)
Definition installed : AuthDB := run.1.1.
Definition signed_up : AuthDB :=
  (signup default_settings 1000000 1 2 3 4 "salt" "verification-token" "session-token" payload
     (request EmptyString) installed).1.

Lemma signed_up_step : rtc (auth_request default_settings) installed signed_up.
Proof. by apply rtc_once, step_signup. Qed.

Definition root : User := created 41 "salt" "Root@Example.org" "Grace" "Hopper" password.
Lemma root_signed_up : users signed_up !! 41%N = Some root.
Proof. by vm_compute. Qed.
End SuperuserDemo.

#[local] Existing Instance example_platform.
#[local] Existing Instance example_hasher.
#[local] Existing Instance example_iso.
#[local] Existing Instance example_two_factor.
#[local] Existing Instance example_webauthn.
#[local] Existing Instance example_collation.

Lemma superuser_can_administer_witness :
  exists u realm, users SuperuserDemo.promotion.1.1 !! u_id u = Some u /\
    u_email u = "ada@example.org" /\
    exists d3 ra, require_realm_permission default_settings 5000000 (AuthDemo.request "new-session")
      REALM_DELETE (activate_realm default_settings 4000000 (realm_id realm) (AuthDemo.request "new-session")
        (create_session default_settings 3000000 "new-session" u (AuthDemo.request EmptyString) "password"
           SuperuserDemo.promotion.1.1).1).1 = (d3, Ok ra).
Proof.
  destruct (superuser_can_administer default_settings 2000000 43 44 "salt" None SuperuserDemo.promote
    AuthDemo.auth1 SuperuserDemo.console _ _
    (rtc_once _ _ (step_request _ _ _ (step_signup default_settings empty_auth 1000000 1 2 3 4 "salt"
      "verification-token" "session-token" AuthDemo.payload (AuthDemo.request EmptyString)
      eq_refl eq_refl eq_refl))) eq_refl eq_refl SuperuserDemo.promotion_eq)
    as (u & realm & Hu & Hem & Hall).
  exists u, realm. split; [exact Hu|]. split; [destruct Hem as [Hem|Hem]; [done|exact Hem]|].
  destruct (Hall 3000000 4000000 5000000 "new-session" (AuthDemo.request EmptyString) "password"
    (AuthDemo.request "new-session") REALM_DELETE) as (d3 & ra & E & _);
    [reflexivity|reflexivity|discriminate|reflexivity|reflexivity|reflexivity|].
  exists d3, ra. exact E.
Defined.

Lemma unattended_superuser_logs_in_witness :
  exists d1 response cookie d2 ra,
    login default_settings 3000000 7 "challenge" "new-session"
      (mkLoginRequest "root@example.org" SuperuserDemo.password) (AuthDemo.request EmptyString)
      SuperuserDemo.installed = (d1, Ok (response, Some cookie)) /\
    require_realm_permission default_settings 5000000 (AuthDemo.request "new-session") MEMBERS_MANAGE d1 =
      (d2, Ok ra) /\ u_id (ra_user ra) = 41%N.
Proof.
  destruct (unattended_superuser_logs_in default_settings 500000 41 42 "salt" SuperuserDemo.args
    "Root@Example.org" "Grace" "Hopper" SuperuserDemo.password empty_auth SuperuserDemo.console
    (rtc_refl _ _) SuperuserDemo.fresh) as (d' & c' & E & Hall).
  unfold SuperuserDemo.installed, SuperuserDemo.run. rewrite E. cbn [fst].
  apply Hall; first [reflexivity|discriminate].
Defined.

Lemma no_request_makes_a_superuser_witness :
  exists u0, users SuperuserDemo.installed !! 41%N = Some u0 /\ u_is_superuser u0 = true.
Proof.
  exact (no_request_makes_a_superuser default_settings SuperuserDemo.installed SuperuserDemo.signed_up
    41 SuperuserDemo.root SuperuserDemo.signed_up_step SuperuserDemo.root_signed_up eq_refl).
Defined.
