(* ===== verification/ProductionProps.v ===== *)
(** * What a production installation guarantees

    The validation of the settings together with the components that read them. *)

From Stdlib Require Import Ascii QArith.
From S2P Require Import Prelude PyText Json Platform Models Domain ObservationSchema Observations.
From S2P Require Import Dashboard Accounts Lifecycle WebAuthn AuthApi AuthDemo SessionProps.
From S2P Require Import AuthSteps AuthOps Superuser AuthTheorems Config SuperuserProps.
Local Open Scope Z_scope.

(** ** The scheme of a longer text *)

Lemma lstrip_app p s t :
  lstrip_with p s <> EmptyString -> lstrip_with p (s +:+ t) = lstrip_with p s +:+ t.
Proof. induction s as [|c s IH]; [done|]. simpl. destruct (p c); [apply IH|done]. Qed.

Lemma lstrip_app_empty p s t : lstrip_with p s = EmptyString -> lstrip_with p (s +:+ t) = lstrip_with p t.
Proof. induction s as [|c s IH]; [done|]. simpl. by destruct (p c). Qed.

Lemma partition_found_app sep s t b r :
  partition sep s = (b, true, r) -> partition sep (s +:+ t) = (b, true, r +:+ t).
Proof.
  revert b. induction s as [|c s IH]; intros b; [done|]. simpl. destruct (Ascii.eqb c sep).
  - by intros [= <- <-].
  - destruct (partition sep s) as [[b' f] r']. intros [= <- -> ->]. by rewrite (IH b').
Qed.

Lemma partition_none sep s : str_forall (fun c => negb (Ascii.eqb c sep)) s = true ->
  exists b r, partition sep s = (b, false, r).
Proof.
  induction s as [|c s IH]; simpl; [by eauto|]. destruct (Ascii.eqb c sep); [done|]. simpl.
  intros (b & r & ->)%IH. eauto.
Qed.

Lemma partition_app_inv sep s t b r :
  str_forall (fun c => negb (Ascii.eqb c sep)) t = true -> partition sep (s +:+ t) = (b, true, r) ->
  exists r', partition sep s = (b, true, r').
Proof.
  intros Ht. revert b. induction s as [|c s IH]; intros b.
  - change (EmptyString +:+ t) with t. destruct (partition_none sep t Ht) as (b' & r' & ->). done.
  - simpl. destruct (Ascii.eqb c sep); [intros [= <- _]; eauto|].
    destruct (partition sep (s +:+ t)) as [[b' f] r'] eqn:E. intros [= <- -> ->].
    destruct (IH _ eq_refl) as [r'' ->]. eauto.
Qed.

Lemma rstrip_split p s : exists t, s = rstrip_with p s +:+ t /\ str_forall p t = true.
Proof.
  induction s as [|c s (t & E & Ht)]; [by exists EmptyString|]. simpl.
  destruct (rstrip_with p s) as [|c' s'] eqn:Er.
  - destruct (p c) eqn:Hc; [|exists t; by rewrite E]. exists (String c s). split; [done|].
    simpl. rewrite Hc, E. done.
  - exists t. by rewrite E at 1.
Qed.

(** What comes before the first colon, where [split_scheme] takes it for a scheme. *)
Definition scheme_before (before : string) : bool :=
  match before with
  | String c _ => is_ascii_letter c && str_forall is_scheme_char before
  | EmptyString => false
  end.

Lemma url_scheme_spec url scheme :
  scheme <> EmptyString ->
  url_scheme url = scheme <->
  exists before after, partition ":" (clean_url url) = (before, true, after) /\
    scheme_before before = true /\ lower before = scheme.
Proof.
  intros Hne. unfold url_scheme, split_scheme.
  destruct (partition ":" (clean_url url)) as [[[|c b] [|]] r]; simpl; try (split; [done|naive_solver]).
  destruct (is_ascii_letter c && _) eqn:E; simpl; split.
  - intros <-. by exists (String c b), r.
  - intros (before & after & [= <- <-] & _ & <-). done.
  - done.
  - intros (before & after & [= <- <-] & Hb & _). simpl in Hb. congruence.
Qed.

Lemma slashes_clean t :
  str_forall (is_char "/") t = true -> clean_url t = t /\ remove_chars is_unsafe_url_char t = t /\
    str_forall (fun c => negb (Ascii.eqb c ":")) t = true.
Proof.
  induction t as [|c t IH]; [done|]. cbn [str_forall]. intros [<-%Ascii.eqb_eq Ht]%andb_true_iff.
  destruct (IH Ht) as (_ & E & F). unfold clean_url.
  change (lstrip_with is_c0_or_space (String "/" t)) with (String "/" t).
  change (remove_chars is_unsafe_url_char (String "/" t)) with
    (String "/" (remove_chars is_unsafe_url_char t)).
  rewrite E. repeat split. exact F.
Qed.

(** A link that starts with a URL, less its last slashes, has the scheme of the URL. *)
Lemma url_scheme_link url t scheme :
  scheme <> EmptyString -> url_scheme url = scheme ->
  url_scheme (rstrip_with (is_char "/") url +:+ t) = scheme.
Proof.
  intros Hne Hs. apply url_scheme_spec in Hs as (b & r & Hp & Hb & Hl); [|done].
  apply url_scheme_spec; [done|]. destruct (rstrip_split (is_char "/") url) as (sl & E & Hsl).
  set (u := rstrip_with (is_char "/") url) in *. rewrite E in Hp. clear E. clearbody u.
  destruct (slashes_clean sl Hsl) as (C1 & C2 & C3). unfold clean_url in *.
  destruct (String.eqb_spec (lstrip_with is_c0_or_space u) EmptyString) as [E|E].
  { rewrite lstrip_app_empty, C1 in Hp by done.
    destruct (partition_none ":" sl C3) as (b' & r' & E'). congruence. }
  rewrite lstrip_app, remove_chars_app, C2 in Hp by done.
  destruct (partition_app_inv _ _ _ _ _ C3 Hp) as (r' & Hp').
  rewrite lstrip_app, remove_chars_app by done. exists b, (r' +:+ remove_chars is_unsafe_url_char t).
  split; [by apply partition_found_app|done].
Qed.

(** ** The links of the mails *)

(** The text of a mail that asks to open a link. *)
Definition links_to (m : Mail) (link : string) : Prop :=
  mail_text m = "Open this link to continue:" +:+ newline +:+ newline +:+ link +:+ newline +:+
    newline +:+ "If you did not request this, ignore this email.".

Section Mails.
Context {P : Platform} {IF : IsoFormat} {H : PasswordHasher} {T : TwoFactorLib} {W : WebAuthnLib}
  {C : Collation} (settings : Settings).
Implicit Types (d : AuthDB).

(** Every queued mail links to a page below the front end of the settings. *)
Definition links_below d : Prop :=
  Forall (fun m => exists rest, links_to m (rstrip_with (is_char "/") (auth_frontend_url settings) +:+ rest))
    (outbox d).

Lemma links_below_outbox f : (forall d, outbox (f d) = outbox d) -> preserves links_below (modify f).
Proof. intros Hf d Hd. unfold links_below. simpl. by rewrite Hf. Qed.

Lemma links_below_send email subject path token :
  preserves links_below (_send_account_email settings email subject path token).
Proof.
  intros d Hd. unfold links_below. simpl. apply Forall_app. split; [done|].
  constructor; [|done]. by eexists.
Qed.

Ltac same_links := walk ltac:(idtac; lazymatch goal with
  | |- preserves _ (_send_account_email _ _ _ _ _) => apply links_below_send
  | |- preserves _ (modify _) => by apply links_below_outbox
  | |- preserves _ (exclude_credentials _) => apply preserves_exclude
  | |- preserves _ (on_tables _) => apply preserves_tables
  | |- preserves _ (on_console _) => apply preserves_console
  end).

Lemma links_below_step d d' : auth_step settings d d' -> links_below d -> links_below d'.
Proof.
  intros [d1 Hs|now u r salt env_password args c _ _] Hd.
  - destruct Hs; match goal with |- links_below (?m d).1 => enough (preserves links_below m) by auto end;
      same_links.
  - enough (preserves (fun s => links_below s.1) (create_superuser now u r salt env_password args))
      as Hp by exact (Hp (d, c) Hd). same_links.
Qed.

Lemma links_below_reachable d : rtc (auth_step settings) empty_auth d -> links_below d.
Proof.
  intros Hr. assert (Hd : links_below empty_auth) by constructor. revert Hd.
  induction Hr as [|x y z Hxy _ IH]; [done|]. intros Hx. by eapply IH, links_below_step.
Qed.
End Mails.

(** ** Validated settings *)

Lemma not_https_false url : not_https url = Ok false -> url_scheme url = "https".
Proof.
  unfold not_https, urlparse_scheme. destruct (netloc_ok _); [|done].
  by intros [= E%negb_false_iff%String.eqb_eq].
Qed.

Lemma any_bad_origin_false l :
  any_bad_origin l = Ok false -> Forall (fun o => o <> "*" /\ url_scheme o = "https") l.
Proof.
  induction l as [|o l IH]; simpl; [constructor|]. destruct (String.eqb_spec o "*"); [done|].
  destruct (not_https o) as [[|]|] eqn:E; [done| |done]. intros Hl.
  constructor; [split; [done|by apply not_https_false]|by apply IH].
Qed.

Lemma complain_app_nil b text l : complain b text ++ l = [] <-> b = false /\ l = [].
Proof. destruct b; simpl; naive_solver. Qed.

Record secure (s : Settings) : Prop := {
  sec_cookie : cookie_secure s = true;
  sec_key : auth_encryption_key s <> "development-only-change-me" /\ 32 <= str_len (auth_encryption_key s);
  sec_frontend : url_scheme (auth_frontend_url s) = "https";
  sec_origin : url_scheme (webauthn_origin s) = "https" /\ webauthn_rp_id s <> "localhost";
  sec_schema : auto_create_schema s = false;
  sec_cors : Forall (fun o => o <> "*" /\ url_scheme o = "https") (cors_origin_list s);
}.

Lemma validated_secure s s' :
  validate_production_security s = Ok s' -> env s = "production" -> s' = s /\ secure s.
Proof.
  unfold validate_production_security. intros E Henv. rewrite Henv in E. cbn [String.eqb negb Ascii.eqb Bool.eqb] in E.
  destruct (not_https (auth_frontend_url s)) as [f|] eqn:Ef; [|done].
  destruct (not_https (webauthn_origin s)) as [o|] eqn:Eo; [|done].
  destruct (any_bad_origin (cors_origin_list s)) as [a|] eqn:Ea; [|done].
  match type of E with match ?l with _ => _ end = _ => destruct l eqn:Eerr end; [|done].
  injection E as <-. split; [done|].
  rewrite !complain_app_nil in Eerr. destruct Eerr as (E1 & E2 & -> & -> & E5 & E6 & E7).
  destruct a; [done|]. apply orb_false_iff in E2 as [E2 E2'].
  split; [by apply negb_false_iff| |by apply not_https_false| |done|by apply any_bad_origin_false].
  - split; [by apply String.eqb_neq|by apply Z.ltb_ge].
  - split; [by apply not_https_false|by apply String.eqb_neq].
Qed.

(** C22 Nothing a production installation hands out travels unprotected: with settings that
    pass the validation for production, every mail queued by any run of requests and commands
    asks to open a link whose scheme is https, every session cookie is secure and not readable
    by scripts, passkeys are bound to an https origin, and browsers are let in only from
    explicit https origins. *)
Theorem production_traffic_is_protected `{Platform} `{IsoFormat} `{PasswordHasher} `{TwoFactorLib}
    `{WebAuthnLib} `{Collation} settings settings' :
  validate_production_security settings = Ok settings' -> env settings = "production" ->
  (forall d, rtc (auth_step settings') empty_auth d ->
     Forall (fun m => exists link, links_to m link /\ url_scheme link = "https") (outbox d)) /\
  (forall now token u request method d, exists d' s cookie,
     create_session settings' now token u request method d = (d', Ok (s, cookie)) /\
     ck_secure cookie = true /\ ck_httponly cookie = true) /\
  url_scheme (webauthn_origin settings') = "https" /\
  Forall (fun o => o <> "*" /\ url_scheme o = "https") (cors_origin_list settings').
Proof.
  intros Hv Henv. apply validated_secure in Hv as [-> Hs]; [|done].
  split; [|split; [|split; [apply Hs|apply Hs]]].
  - intros d Hr. eapply Forall_impl; [by apply links_below_reachable|]. intros m [rest Hm].
    eexists. split; [exact Hm|]. apply url_scheme_link; [done|apply Hs].
  - intros. eexists _, _, _. split; [apply create_session_run|]. split; [apply Hs|done].
Qed.

Module ProductionDemo.
Definition settings : Settings := {|
  env := "production";
  database_url := "postgres://nms@db/nms";
  redis_url := "redis://redis:6379/0";
  auto_create_schema := false;
  celery_broker_url := "redis://redis:6379/1";
  celery_result_backend := "redis://redis:6379/2";
  celery_task_always_eager := false;
  session_cookie_name := "bifrost_session";
  session_key_prefix := "bifrostnms:session:";
  session_ttl_days := 30;
  cookie_secure := true;
  cookie_domain := None;
  cors_origins := "https://nms.example.org, https://login.example.org";
  agent_enrolment_ttl_minutes := 15;
  agent_heartbeat_interval_seconds := 30;
  agent_offline_after_seconds := 90;
  agent_configuration_poll_interval_seconds := 30;
  auth_encryption_key := "0123456789abcdef0123456789abcdef";
  auth_frontend_url := "https://login.example.org/";
  email_verification_ttl_hours := 24;
  password_reset_ttl_minutes := 30;
  webauthn_rp_id := "example.org";
  webauthn_rp_name := "BifrostNMS";
  webauthn_origin := "https://login.example.org";
  email_backend := smtp;
  smtp_host := "mail.example.org";
  smtp_port := 587;
  smtp_security := starttls;
  smtp_timeout_seconds := 15%Q;
  smtp_username := Some "nms";
  smtp_password := Some "secret";
  smtp_from_email := "nms@example.org";
  smtp_from_name := Some "BifrostNMS";
  microsoft_graph_tenant_id := None;
  microsoft_graph_client_id := None;
  microsoft_graph_sender_email := None;
  microsoft_graph_certificate_base64 := None;
  microsoft_graph_private_key_base64 := None;
  microsoft_graph_certificate_path := None;
  microsoft_graph_private_key_path := None;
  microsoft_graph_private_key_passphrase := None;
  microsoft_graph_from_name := None;
  microsoft_graph_timeout_seconds := 15%Q;
|}.

Export AuthDemo.

(** A signup, which queues a mail. *)
Definition signed_up : AuthDB :=
  (signup settings 1000000 1 2 3 4 "salt" "verification-token" "session-token" payload
     (request EmptyString) empty_auth).1.

(** The development settings are refused in production, with every complaint. *)
Example development_refused :
  validate_production_security
    (mkSettings "production" (database_url default_settings) (redis_url default_settings) true
       EmptyString EmptyString false "bifrost_session" EmptyString 30 false None
       (cors_origins default_settings) 15 30 90 30 (auth_encryption_key default_settings)
       (auth_frontend_url default_settings) 24 30 "localhost" EmptyString
       (webauthn_origin default_settings) smtp EmptyString 25 security_none 15%Q None None EmptyString
       None None None None None None None None None None 15%Q) =
  Err (ValueError ("Invalid production configuration: " +:+
    "BIFROSTNMS_COOKIE_SECURE must be true; " +:+
    "BIFROSTNMS_AUTH_ENCRYPTION_KEY must be a strong deployment secret; " +:+
    "BIFROSTNMS_AUTH_FRONTEND_URL must use HTTPS; " +:+
    "BIFROSTNMS_WEBAUTHN_ORIGIN must use HTTPS; " +:+
    "BIFROSTNMS_WEBAUTHN_RP_ID must not be localhost; " +:+
    "BIFROSTNMS_AUTO_CREATE_SCHEMA must be false; " +:+
    "BIFROSTNMS_CORS_ORIGINS must contain only explicit HTTPS origins")).
Proof. by vm_compute. Qed.
End ProductionDemo.

#[local] Existing Instance example_platform.
#[local] Existing Instance example_hasher.
#[local] Existing Instance example_iso.
#[local] Existing Instance example_two_factor.
#[local] Existing Instance example_webauthn.
#[local] Existing Instance example_collation.

Lemma production_traffic_is_protected_witness :
  length (outbox ProductionDemo.signed_up) = 1%nat /\
  Forall (fun m => exists link, links_to m link /\ url_scheme link = "https")
    (outbox ProductionDemo.signed_up).
Proof.
  split; [by vm_compute|].
  refine (proj1 (production_traffic_is_protected ProductionDemo.settings ProductionDemo.settings _
    eq_refl) ProductionDemo.signed_up _); [by vm_compute|].
  by apply rtc_once, step_request, (step_signup ProductionDemo.settings empty_auth 1000000 1 2 3 4 "salt"
    "verification-token" "session-token" AuthDemo.payload (AuthDemo.request EmptyString)).
Defined.
