(* ===== verification/SecondFactorProps.v ===== *)
(** * The second factor, recovery codes and audit metadata *)

From Stdlib Require Import Ascii.
From stdpp Require Import pretty.
From S2P Require Import Prelude PyText Json Platform Models Domain ObservationSchema Observations.
From S2P Require Import Dashboard Accounts Lifecycle WebAuthn AuthApi AuthDemo SessionProps.
From S2P Require Import AuthSteps AuthOps AuthTheorems.
Local Open Scope Z_scope.

Section SecondFactor.
Context {P : Platform} {IF : IsoFormat} {H : PasswordHasher} {T : TwoFactorLib} {W : WebAuthnLib}
  {C : Collation} (settings : Settings).
Implicit Types (d : AuthDB) (u : User).

(** C20 A password alone never opens an account that has a second factor: when [login]
    answers, the password verified for an active account of that address; with two-factor
    authentication enabled the answer only carries a challenge, no cookie is set and the
    session store is as it was. *)
Theorem password_alone_opens_no_protected_account now id ct st payload request d d' response cookie :
  login settings now id ct st payload request d = (d', Ok (response, cookie)) ->
  exists u, (exists k, users d !! k = Some u) /\
    u_email u = normalize_email (lg_email payload) /\
    verify_password (lg_password payload) (u_password_hash u) = true /\ u_is_active u = true /\
    (user_has_two_factor u d = true ->
       response = mkLoginResponse None true (Some ct) /\ cookie = None /\ redis d' = redis d).
Proof.
  unfold login. intros E. minv. destruct (first_row _ _) as [u|] eqn:Hu; [|done]. minv.
  apply first_row_Some in Hu as [Hk Hmail]. exists u.
  split; [done|]. split; [by apply String.eqb_eq|]. split; [by apply negb_false_iff|].
  split; [by apply negb_false_iff|]. intros Htf. rewrite Htf in *. minv.
  unfold create_login_challenge, insert_challenge in *. minv. by simplify_eq.
Qed.

(** What [verify_two_factor] accepts. *)
Definition factor_shown now u (code : string) (recovery : bool) d : Prop :=
  if recovery
  then exists k c, recovery_codes d !! k = Some c /\ unused_code u (hash_recovery_code code) c = true
  else exists k m secret, two_factor_methods d !! k = Some m /\ totp_of u m = true /\
         tf_is_enabled m = true /\ decrypt_secret settings (tf_secret_encrypted m) = Some secret /\
         totp_verify secret (strip code) now = true.

Lemma verify_two_factor_true now u code recovery d d' :
  verify_two_factor settings now u code recovery d = (d', Ok true) ->
  factor_shown now u code recovery d.
Proof.
  unfold verify_two_factor, factor_shown. destruct recovery; intros E; minv.
  - destruct (first_row _ _) as [c|] eqn:Hc; [|done]. apply first_row_Some in Hc as [[k Hk] Hu]. eauto.
  - destruct (first_row _ _) as [m|] eqn:Hm; [|done].
    destruct (decrypt_secret _ _) as [secret|] eqn:Hs; [|done].
    apply bind_inv_Ok in H1 as (s1 & [] & _ & E). apply ret_inv_Ok in E as [_ E].
    apply first_row_Some in Hm as [[k Hk] Hb]. destruct_andb. exists k, m, secret. eauto.
Qed.

(** A login challenge is answered only with a second factor: when
    [verify_login_challenge] creates a session, the token names a pending, unexpired login
    challenge of the user, and the request shows an unused recovery code of that user or a
    code the user's enabled authenticator accepts now; the challenge is spent. *)
Theorem challenge_needs_second_factor now st payload request d d' response cookie :
  verify_login_challenge settings now st payload request d = (d', Ok (response, cookie)) ->
  exists k c u, authentication_challenges d !! k = Some c /\
    ch_challenge_type c = "two_factor_login" /\
    ch_challenge_hash c = hash_token (tv_challenge_token payload) /\
    ch_consumed_at c = None /\ now < ch_expires_at c /\ challenge_user c d = Some u /\
    factor_shown now u (tv_code payload) (tv_recovery_code payload) d /\ ur_id response = u_id u.
Proof.
  unfold verify_login_challenge. intros E. apply bind_inv_Ok in E as (d1 & [u|] & Hc & E); [|done].
  apply bind_inv_Ok in E as (d2 & valid & Hv & E). minv.
  match goal with H : negb valid = false |- _ => apply negb_false_iff in H as -> end.
  apply verify_two_factor_true in Hv.
  unfold consume_login_challenge in Hc. apply bind_inv_Ok in Hc as (d3 & found & Hg & Hc).
  apply gets_inv_Ok in Hg as [-> ->]. destruct (first_row _ _) as [c|] eqn:Hf; [|done].
  apply bind_inv_Ok in Hc as (d3 & found & Hg & Hc). apply gets_inv_Ok in Hg as [-> ->].
  destruct (challenge_user c d) as [u'|] eqn:Hu; [|done].
  destruct (ch_expires_at c <=? now) eqn:Hexp; [done|].
  unfold save_consumed, modify in Hc. rewrite bind_run, ret_run in Hc. simplify_eq.
  apply first_row_Some in Hf as [[k Hk] Hb]. destruct_andb.
  exists k, c, u. repeat split; try done; try (by apply String.eqb_eq);
    [by apply is_none_true|lia|].
  destruct a0 as [s ck]. apply bind_inv_Ok in H3 as (? & r & Hg & E). apply gets_inv_Ok in Hg as [-> ->].
  apply ret_inv_Ok in E as [_ E]. by simplify_eq.
Qed.

(** A recovery code works once: when a recovery code is accepted, exactly one
    unused row of the user with its hash is marked used and nothing else changes; if it was
    the only such row, the code is refused from then on. *)
Theorem recovery_code_is_spent now now' u code d d' :
  rtc (auth_step settings) empty_auth d ->
  verify_two_factor settings now u code true d = (d', Ok true) ->
  exists k c, recovery_codes d !! k = Some c /\
    unused_code u (hash_recovery_code code) c = true /\
    d' = set_recovery_codes (<[k := use_code now c]> (recovery_codes d)) d /\
    ((forall k' c', recovery_codes d !! k' = Some c' ->
        unused_code u (hash_recovery_code code) c' = true -> k' = k) ->
     verify_two_factor settings now' u code true d' = (d', Ok false)).
Proof.
  intros Hr E. pose proof (auth_ok_reachable _ _ Hr) as Hok. unfold verify_two_factor in *. minv.
  destruct (first_row _ _) as [c|] eqn:Hc; [|done]. minv.
  apply first_row_Some in Hc as [[k Hk] Hu]. pose proof (ao_codes _ Hok _ _ Hk) as Hid.
  exists k, c. split; [done|]. split; [done|].
  assert (Halt : alter (use_code now) (rcode_id c) (recovery_codes d) =
                 <[k := use_code now c]> (recovery_codes d)).
  { rewrite Hid. apply map_eq. intros j. destruct (decide (j = k)) as [->|].
    - by rewrite lookup_alter_eq, lookup_insert_eq, Hk.
    - by rewrite lookup_alter_ne, lookup_insert_ne. }
  split; [by f_equal|]. intros Honly. mrun.
  assert (first_row (unused_code u (hash_recovery_code code))
    (recovery_codes (set_recovery_codes (alter (use_code now) (rcode_id c) (recovery_codes d)) d)) = None)
    as ->; [|done].
  apply first_row_None. simpl. rewrite Halt. intros k' c' [[<- <-]|[Hne Hk']]%lookup_insert_Some.
  - unfold unused_code. simpl. by rewrite andb_false_r.
  - apply not_true_iff_false. intros Hu'. apply Hne. symmetry. by apply (Honly k' c').
Qed.

(** An enabled authenticator blocks a new setup: when the user has TOTP enabled,
    [create_totp_setup] fails on the unique key of the table instead of starting a setup or
    answering the client, whatever secret and id are drawn. *)
Theorem totp_setup_fails_when_enabled id nonce secret u d :
  user_has_two_factor u d = true ->
  (create_totp_setup settings id nonce secret u d).2 = Err IntegrityError.
Proof.
  intros Htf. apply exists_row_true in Htf as (k & m & Hk & Hm). destruct_andb.
  unfold create_totp_setup, delete_methods. mrun. unfold insert_method. mrun. simpl.
  match goal with |- context [if ?b then _ else _] => assert (b = true) as ->; [|done] end.
  apply orb_true_iff. right. apply exists_row_true. exists k, m. split.
  - apply map_lookup_filter_Some. split; [done|]. simpl. by rewrite H0, H1.
  - unfold totp_of in H0. simpl. exact H0.
Qed.
End SecondFactor.

(** ** Audit metadata *)

(** Every key at any depth of a JSON value. *)
Fixpoint deep_keys (j : json) : list string :=
  match j with
  | JObject fields => flat_map (fun kv => match kv with (k, v) => k :: deep_keys v end) fields
  | JArray items => flat_map deep_keys items
  | _ => []
  end.

Lemma json_ind' (Q : json -> Prop) :
  Q JNull -> (forall b, Q (JBool b)) -> (forall z, Q (JInt z)) -> (forall q, Q (JFloat q)) ->
  (forall s, Q (JString s)) -> (forall l, Forall Q l -> Q (JArray l)) ->
  (forall l, Forall (fun kv => Q kv.2) l -> Q (JObject l)) -> forall j, Q j.
Proof.
  intros Hn Hb Hi Hf Hs Ha Ho. fix go 1.
  intros [|b|z|q|s|l|l]; [exact Hn|apply Hb|apply Hi|apply Hf|apply Hs|..].
  - apply Ha. revert l. fix gol 1. intros [|x l]; constructor; [apply go|apply gol].
  - apply Ho. revert l. fix gol 1. intros [|x l]; constructor; [apply go|apply gol].
Qed.

Lemma validate_metadata_iff j path :
  _validate_metadata path j = Ok tt <-> Forall (fun k => sensitive_key k = false) (deep_keys j).
Proof.
  revert path. induction j as [| | | | |l IH|l IH] using json_ind'; intros path; simpl;
    try (split; intros _; [constructor|done]).
  - generalize 0%N. induction IH as [|x l Hx _ IHl]; intros i; [by split|].
    cbn [flat_map]. rewrite Forall_app, <-(IHl (i + 1)%N),
      <-(Hx (path +:+ "[" +:+ pretty i +:+ "]")).
    destruct (_validate_metadata _ x) as [[]|e]; [tauto|]. by split; [|intros [? _]].
  - induction IH as [|[k v] l Hx _ IHl]; [by split|]. simpl in Hx.
    cbn [flat_map app]. rewrite Forall_cons, Forall_app, <-IHl, <-(Hx (path +:+ "." +:+ k)).
    destruct (sensitive_key k); [by split; [|intros [? _]]|].
    destruct (_validate_metadata _ v) as [[]|e]; [tauto|]. by split; [|intros [_ [? _]]].
Qed.

(** The audit log holds no secrets: an event is appended only if no key of its metadata,
    at any depth of objects and lists and in any letter case, contains authorization, cookie,
    credential, password, secret or token; and metadata without such keys is never the reason
    an event is refused. *)
Theorem audit_metadata_has_no_sensitive_key action o actor request realm user tt_ ti bypass metadata d :
  let keys := deep_keys (audit_details metadata) in
  (forall d' ev,
     record_audit_event action o actor request realm user tt_ ti bypass metadata d = (d', Ok ev) ->
     Forall (fun k => sensitive_key k = false) keys /\ audit_events d' = audit_events d ++ [ev] /\
     ev_metadata ev = audit_details metadata) /\
  (Forall (fun k => sensitive_key k = false) keys ->
   forall d' e,
     record_audit_event action o actor request realm user tt_ ti bypass metadata d = (d', Err e) ->
     e = OrmValidationError).
Proof.
  cbv zeta. unfold record_audit_event.
  pose proof (validate_metadata_iff (audit_details metadata) "metadata") as Hkeys.
  destruct (_validate_metadata "metadata" (audit_details metadata)) as [[]|e] eqn:E.
  2: { split; [done|]. by intros Hk%Hkeys. }
  split.
  - intros d' ev Hr. minv. split; [by apply Hkeys|done].
  - intros _ d' e Hr. rewrite bind_run, raise_if_run in Hr.
    destruct (negb _); [by injection Hr|done].
Qed.

(** ** Instances on the worked run *)

#[local] Existing Instance example_platform.
#[local] Existing Instance example_hasher.
#[local] Existing Instance example_iso.
#[local] Existing Instance example_two_factor.
#[local] Existing Instance example_webauthn.
#[local] Existing Instance example_collation.

Lemma demo_reach6 : rtc (auth_step default_settings) empty_auth AuthDemo.auth6.
Proof.
  eapply rtc_l; [by apply step_request, (step_signup default_settings empty_auth 1000000 1 2 3 4 "salt"
    "verification-token" "session-token" AuthDemo.payload (AuthDemo.request EmptyString))|].
  eapply rtc_l; [by apply step_request, (step_setup_totp default_settings AuthDemo.auth1 2000000 6 "nonce" "SECRET"
    (AuthDemo.request "session-token"))|].
  eapply rtc_l; [by apply step_request, (step_verify_totp default_settings AuthDemo.auth4 3000000 AuthDemo.draws 6
    "SECRET" (AuthDemo.request "session-token"))|].
  by apply rtc_once, step_request, (step_login default_settings AuthDemo.auth5 4000000 7 "challenge" "unused"
    AuthDemo.credentials (AuthDemo.request EmptyString)).
Qed.

Lemma password_alone_opens_no_protected_account_witness :
  exists u, u_email u = "ada@example.org" /\ u_is_active u = true.
Proof.
  destruct (password_alone_opens_no_protected_account default_settings 4000000 7 "challenge" "unused"
    AuthDemo.credentials (AuthDemo.request EmptyString) AuthDemo.auth5 AuthDemo.auth6 _ _
    AuthDemo.login_eq) as (u & _ & He & _ & Ha & _).
  exists u. split; [exact He|exact Ha].
Defined.

Lemma demo_answer : exists d' response cookie,
  verify_login_challenge default_settings 5000000 "session-2" AuthDemo.answer
    (AuthDemo.request EmptyString) AuthDemo.auth6 = (d', Ok (response, cookie)).
Proof. eexists _, _, _. apply run_outcome. vm_compute. reflexivity. Qed.

Lemma challenge_needs_second_factor_witness :
  exists k c, authentication_challenges AuthDemo.auth6 !! k = Some c /\ 5000000 < ch_expires_at c.
Proof.
  destruct demo_answer as (d' & response & cookie & E).
  destruct (challenge_needs_second_factor default_settings 5000000 "session-2" AuthDemo.answer
    (AuthDemo.request EmptyString) AuthDemo.auth6 d' response cookie E)
    as (k & c & u & Hk & _ & _ & _ & Hexp & _).
  exists k, c. split; [exact Hk|exact Hexp].
Defined.

Lemma demo_recovery : exists d', verify_two_factor default_settings 5000000 AuthDemo.user
  "abcd-efgh-jklm" true AuthDemo.auth6 = (d', Ok true).
Proof. eexists. apply run_outcome. vm_compute. reflexivity. Qed.

Lemma recovery_code_is_spent_witness :
  exists k c, recovery_codes AuthDemo.auth6 !! k = Some c /\
    unused_code AuthDemo.user (hash_recovery_code "abcd-efgh-jklm") c = true.
Proof.
  destruct demo_recovery as (d' & E).
  destruct (recovery_code_is_spent default_settings 5000000 6000000 AuthDemo.user "abcd-efgh-jklm"
    AuthDemo.auth6 d' demo_reach6 E) as (k & c & Hk & Hu & _).
  exists k, c. split; [exact Hk|exact Hu].
Defined.

Lemma totp_setup_fails_when_enabled_witness :
  (create_totp_setup default_settings 8 "nonce" "OTHER" AuthDemo.user AuthDemo.auth5).2 =
    Err IntegrityError.
Proof.
  exact (totp_setup_fails_when_enabled default_settings 8 "nonce" "OTHER" AuthDemo.user AuthDemo.auth5
    AuthDemo.two_factor5).
Defined.
