(* ===== verification/AccountRaces.v ===== *)
(** * Concurrent use of account tokens (auth/account_lifecycle.py, auth/two_factor.py)

    A password reset reads its token, marks it consumed and changes the password in three
    statements, outside a transaction and without locking the row; a recovery code is read and
    then marked used.  Run alone the programs are the operations of [Lifecycle], which accept a
    token or a code once.  Interleaved, two requests that both read before either writes are
    both accepted; this is where the account tokens differ from the enrolment tokens of
    [EnrolmentRaces]. *)

From S2P Require Import Prelude PyText Json Platform Models Domain ObservationSchema Observations.
From S2P Require Import Dashboard Accounts Lifecycle WebAuthn AuthApi AuthDemo SessionProps.
From S2P Require Import AuthSteps AuthOps Superuser AuthTheorems SecondFactorProps Concurrency.
Local Open Scope Z_scope.

(** No statement of these programs takes a lock that another of them waits for. *)
Abbreviation aprog R := (prog (S := AuthDB) (K := unit) (R := R)).

(** A statement that writes. *)
Definition write_stmt {R} (w : AuthDB -> AuthDB) (k : aprog R) :
    aprog R :=
  Stmt (fun _ => []) (fun _ => w) (fun _ => k).

Section Programs.
Context {P : Platform} {H : PasswordHasher} {T : TwoFactorLib}.

(** [select_related("user")]: one query for the challenge and its user. *)
Definition with_user (p : AuthenticationChallenge -> bool) (d : AuthDB) :
    option (AuthenticationChallenge * option User) :=
  match first_row p (authentication_challenges d) with
  | Some c => Some (c, challenge_user c d)
  | None => None
  end.

Definition account_token (now : Z) (token challenge_type : string) (c : AuthenticationChallenge) : bool :=
  String.eqb (ch_challenge_type c) challenge_type &&
  String.eqb (ch_challenge_hash c) (hash_token token) &&
  is_none (ch_consumed_at c) && (now <? ch_expires_at c).

Definition save_consumed_at (now : Z) (c : AuthenticationChallenge) (d : AuthDB) : AuthDB :=
  set_authentication_challenges (alter (consume_challenge now) (ch_id c) (authentication_challenges d)) d.

(** [consume_account_token], and what its caller does with the user. *)
Definition consume_account_token_prog {R} (now : Z) (token challenge_type : string)
    (k : option User -> aprog R) : aprog R :=
  query (with_user (account_token now token challenge_type)) (fun found =>
    match found with
    | Some (challenge, Some user) =>
        if negb (u_is_active user) then k None
        else write_stmt (save_consumed_at now challenge) (k (Some user))
    | _ => k None
    end).

Definition reset_password_prog (now : Z) (salt token password : string) :
    aprog (option User) :=
  consume_account_token_prog now token "password_reset" (fun user =>
    match user with
    | None => Ret (Ok None)
    | Some user =>
        let version := u_session_version user + 1 in
        let encoded := hash_password salt password in
        if negb (fits_int4 version) then Ret (Err DataError)
        else write_stmt (fun d => set_users (alter (with_password encoded version) (u_id user) (users d)) d)
               (Ret (Ok (Some (with_password encoded version user))))
    end).

(** The recovery branch of [verify_two_factor]. *)
Definition recovery_prog (now : Z) (user : User) (code : string) :
    aprog bool :=
  query (fun d => first_row (unused_code user (hash_recovery_code code)) (recovery_codes d)) (fun found =>
    match found with
    | None => Ret (Ok false)
    | Some c =>
        write_stmt (fun d => set_recovery_codes (alter (use_code now) (rcode_id c) (recovery_codes d)) d)
          (Ret (Ok true))
    end).

(** ** Alone *)

Lemma reset_password_alone now salt token password d :
  run (reset_password_prog now salt token password) d = reset_password now salt token password d.
Proof.
  unfold reset_password, consume_account_token, reset_password_prog, consume_account_token_prog, with_user.
  unfold account_token, mbind, M_bind, gets, raise_if. simpl.
  destruct (first_row _ _) as [c|]; [|done]. simpl.
  destruct (challenge_user c d) as [u|]; [|done]. simpl.
  destruct (u_is_active u); [|done]. simpl. by destruct (fits_int4 _).
Qed.

Lemma recovery_alone settings now user code d :
  run (recovery_prog now user code) d = verify_two_factor settings now user code true d.
Proof.
  unfold verify_two_factor, recovery_prog, mbind, M_bind, gets. simpl. by destruct (first_row _ _).
Qed.
End Programs.

(** ** Two requests, one token *)

Section Races.
Context {P : Platform} {IF : IsoFormat} {H : PasswordHasher} {T : TwoFactorLib} {W : WebAuthnLib}
  {C : Collation} (settings : Settings).

(** The rest of a reset that has read its token and its user. *)
Definition reset_rest (now : Z) (salt password : string) (challenge : AuthenticationChallenge)
    (user : User) (d : AuthDB) : AuthDB :=
  set_users (alter (with_password (hash_password salt password) (u_session_version user + 1))
    (u_id user) (users d)) (save_consumed_at now challenge d).

(** A reset that succeeds alone has read a challenge with its user, and then whatever the
    others have written meanwhile it goes on to write and to succeed. *)
Lemma reset_decided now salt token password d d' u :
  reset_password now salt token password d = (d', Ok (Some u)) ->
  exists k challenge user, authentication_challenges d !! k = Some challenge /\
    ch_challenge_hash challenge = hash_token token /\ challenge_user challenge d = Some user /\
    u = with_password (hash_password salt password) (u_session_version user + 1) user /\
    d' = reset_rest now salt password challenge user d /\
    exists (f : AuthDB -> option (AuthenticationChallenge * option User)) next, reset_password_prog now salt token password = query f next /\
      forall x, run (next (f d)) x = (reset_rest now salt password challenge user x, Ok (Some u)).
Proof.
  rewrite <- reset_password_alone. unfold reset_password_prog, consume_account_token_prog. simpl.
  destruct (with_user _ d) as [[challenge [user|]]|] eqn:Hw; try (intros E; discriminate E).
  assert (Hf := Hw). unfold with_user in Hf. destruct (first_row _ _) as [c|] eqn:Hc; [|discriminate Hf].
  injection Hf as -> Hu. apply first_row_Some in Hc as [[k Hk] Ht]. unfold account_token in Ht.
  destruct_andb. destruct (u_is_active user) eqn:Ha; simpl; [|intros E; discriminate E].
  destruct (fits_int4 _) eqn:Hv; simpl; [|intros E; discriminate E]. intros [= <- <-].
  exists k, challenge, user. split_and!; try done; [by apply String.eqb_eq|].
  eexists _, _. split; [done|]. intros x. simpl. rewrite Hw, Ha. simpl. rewrite Hv. done.
Qed.

(** C33 Two password resets with one token: each succeeds when it runs alone.  Run one after the
    other the second is refused.  But interleaved so that both read the token before either
    marks it consumed, both are answered with the user: the token has been used twice, one of
    the two new passwords is silently replaced by the other, and the session version has
    risen once for two resets. *)
Theorem concurrent_resets_share_a_token d token now1 salt1 password1 d1 u1 now2 salt2 password2 d2 u2 :
  rtc (auth_step settings) empty_auth d ->
  reset_password now1 salt1 token password1 d = (d1, Ok (Some u1)) ->
  reset_password now2 salt2 token password2 d = (d2, Ok (Some u2)) ->
  (reset_password now2 salt2 token password2 d1).2 = Ok None /\
  exists d' ts, rtc step (d, {[0%nat := Auto (reset_password_prog now1 salt1 token password1);
                               1%nat := Auto (reset_password_prog now2 salt2 token password2)]}) (d', ts) /\
    answer <$> ts !! 0%nat = Some (Some (Ok (Some u1))) /\
    answer <$> ts !! 1%nat = Some (Some (Ok (Some u2))) /\
    u_id u1 = u_id u2 /\ users d' !! u_id u1 = Some u1 /\
    exists u, users d !! u_id u1 = Some u /\ u_session_version u1 = u_session_version u + 1.
Proof.
  intros Hr E1 E2. pose proof (auth_ok_reachable _ _ Hr) as Hok.
  assert (auth_ok d1) as Hok1.
  { pose proof (kept_reset_password now1 salt1 token password1 d Hok) as Hk. unfold safe in Hk.
    rewrite E1 in Hk. apply Hk. }
  apply reset_decided in E1 as (k1 & c1 & v1 & Hk1 & Hh1 & Hu1 & -> & -> & f & next & Hp & Hnext).
  apply reset_decided in E2 as (k2 & c2 & v2 & Hk2 & Hh2 & Hu2 & -> & -> & f2 & next2 & Hp2 & Hnext2).
  pose proof (cho_key _ (ao_challenges _ Hok) _ _ Hk1) as Hid.
  assert (k1 = k2) as <- by (eapply (cho_unique _ (ao_challenges _ Hok)); eauto; congruence).
  simplify_eq. pose proof (challenge_user_stored _ _ _ Hok Hu1) as Hst. unfold stored in Hst. split.
  - unfold reset_password. rewrite bind_run, spent_account_token; [done|done|].
    exists (ch_id c1), (consume_challenge now1 c1). simpl. by rewrite lookup_alter_eq, Hk1.
  - destruct (overtaken_run f next (reset_password_prog now2 salt2 token password2) d) as (ts & Hs & A0 & A1).
    rewrite Hp2 in A1, A0, Hs. simpl in A1, A0, Hs. rewrite Hnext2 in A1, A0, Hs. rewrite Hnext in A0, Hs.
    rewrite <- Hp2, <- Hp in Hs. simpl in A0, A1, Hs.
    eexists _, ts. split; [exact Hs|]. split_and!; try done; simpl.
    + by rewrite !lookup_alter_eq, Hst.
    + by exists v1.
Qed.

(** Two logins with one recovery code: the code is accepted alone, and both are accepted when
    both read its row before either marks it used; the row then has the time of the one that
    wrote last. *)
Theorem concurrent_logins_share_a_code d user code now1 now2 d1 :
  verify_two_factor settings now1 user code true d = (d1, Ok true) ->
  exists d' ts, rtc step (d, {[0%nat := Auto (recovery_prog now1 user code);
                               1%nat := Auto (recovery_prog now2 user code)]}) (d', ts) /\
    answer <$> ts !! 0%nat = Some (Some (Ok true)) /\
    answer <$> ts !! 1%nat = Some (Some (Ok true)) /\
    d' = d1.
Proof.
  intros E.
  destruct (overtaken_run (fun d => first_row (unused_code user (hash_recovery_code code)) (recovery_codes d))
    (fun found => match found with
       | None => Ret (Ok false)
       | Some c => write_stmt (fun d => set_recovery_codes (alter (use_code now1) (rcode_id c) (recovery_codes d)) d)
                     (Ret (Ok true))
       end) (recovery_prog now2 user code) d) as (ts & Hs & A0 & A1).
  rewrite <- recovery_alone in E. unfold recovery_prog in E. simpl in E, Hs, A0, A1.
  destruct (first_row _ _) as [c|] eqn:Hc; simpl in *; [|discriminate E].
  injection E as <-. eexists _, ts. split_and!; [exact Hs|done|done|].
  destruct d. unfold set_recovery_codes. simpl. f_equal. rewrite alter_alter_eq.
  apply alter_ext. by intros x _.
Qed.
End Races.

(** ** On the worked run *)

#[local] Existing Instance example_platform.
#[local] Existing Instance example_hasher.
#[local] Existing Instance example_iso.
#[local] Existing Instance example_two_factor.
#[local] Existing Instance example_webauthn.
#[local] Existing Instance example_collation.

Lemma demo_other_reset : exists d2, reset_password 3000001 "salt" "reset-token" "another password" AuthDemo.auth2 =
  (d2, Ok (Some (with_password "another password" 2 AuthDemo.user))).
Proof. eexists. apply run_outcome. vm_compute. reflexivity. Qed.

Lemma concurrent_resets_share_a_token_witness :
  exists d' ts, rtc step (AuthDemo.auth2,
      {[0%nat := Auto (reset_password_prog 3000000 "salt" "reset-token" "new password 1");
        1%nat := Auto (reset_password_prog 3000001 "salt" "reset-token" "another password")]}) (d', ts) /\
    answer <$> ts !! 0%nat = Some (Some (Ok (Some AuthDemo.user'))) /\
    users d' !! 1%N = Some AuthDemo.user'.
Proof.
  destruct demo_other_reset as [d2 E2].
  destruct (concurrent_resets_share_a_token default_settings AuthDemo.auth2 "reset-token" 3000000 "salt"
    "new password 1" AuthDemo.auth3 AuthDemo.user' 3000001 "salt" "another password" d2 _ demo_reach
    AuthDemo.run3_eq E2) as [_ (d' & ts & Hs & A0 & _ & _ & Hu & _)].
  exists d', ts. split_and!; [exact Hs|exact A0|exact Hu].
Defined.

Lemma concurrent_logins_share_a_code_witness :
  exists d' ts, rtc step (AuthDemo.auth6,
      {[0%nat := Auto (recovery_prog 5000000 AuthDemo.user "abcd-efgh-jklm");
        1%nat := Auto (recovery_prog 5000001 AuthDemo.user "abcd-efgh-jklm")]}) (d', ts) /\
    answer <$> ts !! 0%nat = Some (Some (Ok true)) /\ answer <$> ts !! 1%nat = Some (Some (Ok true)).
Proof.
  destruct demo_recovery as (d1 & E).
  destruct (concurrent_logins_share_a_code default_settings AuthDemo.auth6 AuthDemo.user "abcd-efgh-jklm"
    5000000 5000001 d1 E) as (d' & ts & Hs & A0 & A1 & _).
  exists d', ts. split_and!; [exact Hs|exact A0|exact A1].
Defined.
