(* ===== verification/Api.v ===== *)
(** * The monitoring and agent endpoints (api/monitoring.py, api/monitor_management.py,
    api/monitoring_relationships.py, api/dashboard.py, api/agent_protocol.py)

    The handlers as computations on the whole state: the account tables, the monitoring
    tables and the observation tables.  A handler that only reads still refreshes the
    session it is authorised by.  Responses are the rows the response models copy. *)

From Stdlib Require Import Ascii.
From stdpp Require Import pretty.
From S2P Require Import Prelude PyText Json Platform Models ProbeConfig Domain.
From S2P Require Import Credentials Configuration ObservationSchema Observations Dashboard Accounts.
From S2P Require Import Lifecycle WebAuthn AuthApi.
From S2P Require Import HierarchyProps CredentialsProps Isolation Steps.
From S2P Require Import ConfigInvariant ObservationProps.
From S2P Require Import AuthDemo SessionProps AuthSteps AuthOps.
From S2P Require Import AuthTheorems.
Local Open Scope Z_scope.

Record World := mkWorld { w_auth : AuthDB; w_mon : MonDB; w_obs : ObsDB }.

Definition set_w_auth (a : AuthDB) (w : World) : World := mkWorld a (w_mon w) (w_obs w).
Definition set_w_mon (m : MonDB) (w : World) : World := mkWorld (w_auth w) m (w_obs w).
Definition set_w_obs (o : ObsDB) (w : World) : World := mkWorld (w_auth w) (w_mon w) o.

Definition empty_world : World := mkWorld empty_auth empty_db empty_obs.

Abbreviation Api A := (M World A).

Definition on_auth {A} (m : AuthM A) : Api A := zoom w_auth set_w_auth m.
Definition on_mon {A} (m : D A) : Api A := zoom w_mon set_w_mon m.
Definition on_obs {A} (m : M ObsDB A) : Api A := zoom w_obs set_w_obs m.

(** ** Errors *)

Definition _conflict (detail : string) : exn := HTTPException 409 detail.
Definition _unprocessable (e : exn) : exn := HTTPException 422 (exn_text e).
Definition not_found (detail : string) : exn := HTTPException 404 detail.

Definition is_IntegrityError (e : exn) : bool := bool_decide (e = IntegrityError).
(** [except (MonitoringDomainError, ResourceStateError, ValidationError)]: pydantic's
    [ValidationError], not every [ValueError]. *)
Definition is_rejected_input (e : exn) : bool :=
  is_MonitoringDomainError e || match e with ValidationError _ => true | _ => false end.
Definition is_EnrolmentError (e : exn) : bool := match e with EnrolmentError _ => true | _ => false end.

(** [if x is None: raise e]. *)
Definition require_some {A} (o : option A) (e : exn) : Api A :=
  match o with Some a => mret a | None => raise e end.

(** ** schemas/monitoring_api.py, schemas/monitor_management.py *)

Record AgentCreate := mkAgentCreate {
  ac_name : string; ac_description : option string; ac_enabled : bool }.
Record TargetCreate := mkTargetCreate {
  tc_name : string; tc_description : option string; tc_address : string; tc_enabled : bool }.
(** [MonitorCreate] and [MonitorUpdate] have the same fields. *)
Record MonitorCreate := mkMonitorCreate {
  mc_target_id : uuid; mc_name : string; mc_description : option string;
  mc_probe_type : ProbeType; mc_interval_seconds : Z; mc_timeout_seconds : Z;
  mc_configuration : json }.
Record AgentGroupCreate := mkAgentGroupCreate {
  gc_name : string; gc_description : option string; gc_parent_id : option uuid; gc_enabled : bool }.

Definition AgentCreate_ok (p : AgentCreate) : bool := length_between 1 200 (ac_name p).
Definition TargetCreate_ok (p : TargetCreate) : bool :=
  length_between 1 200 (tc_name p) && length_between 1 253 (tc_address p).
Definition MonitorCreate_ok (p : MonitorCreate) : bool :=
  length_between 1 200 (mc_name p) && (1 <=? mc_interval_seconds p) && (1 <=? mc_timeout_seconds p).
Definition AgentGroupCreate_ok (p : AgentGroupCreate) : bool := length_between 1 200 (gc_name p).

(** A row of the realm with this id. *)
Definition in_realm_row {R} (realm_of : R -> uuid) (realm : Realm) (id : uuid) (t : gmap uuid R) : option R :=
  get_row (fun r => (realm_of r =? realm_id realm)%N) id t.

Section Monitoring.
Context {CO : Coercions} {P : Platform} {I : IsoFormat} {C : Collation} (settings : Settings).

Definition authorize (now : Z) (request : Request) (permission : RealmPermission) :
    Api RealmAuthorization :=
  on_auth (require_realm_permission settings now request permission).

(** The live rows of a table that belong to a realm, by name. *)
Definition named_rows {R} (realm_of : R -> uuid) (archived_at : R -> option Z) (name : R -> string)
    (realm : Realm) (t : gmap uuid R) : list R :=
  order_by (fun x y => name_le (name x) (name y))
    (List.filter (fun r => (realm_of r =? realm_id realm)%N && is_none (archived_at r)) (rows t)).

Definition audit (now : Z) (action : string) (request : Request) (auth : RealmAuthorization)
    (target_type target_id : string) : Api AuditEvent :=
  on_auth (record_audit_event action OutcomeSuccess ActorUser (Some request) (Some (ra_realm auth))
    (Some (ra_user auth)) (Some target_type) (Some target_id) (ra_is_superuser_bypass auth) None).

(** ** Agents *)

Definition list_agents (now : Z) (request : Request) : Api (list Agent) :=
  auth ← authorize now request MONITORING_READ;
  gets (fun w => named_rows a_realm_id a_archived_at a_name (ra_realm auth) (agents (w_mon w))).

Definition create_agent (now : Z) (id : uuid) (payload : AgentCreate) (request : Request) :
    Api Agent :=
  auth ← authorize now request MONITORING_MANAGE;
  let agent := mkAgent id (realm_id (ra_realm auth)) (strip (ac_name payload))
                 (ac_description payload) (ac_enabled payload) None in
  catch (on_mon (insert_agent agent)) is_IntegrityError
    (fun _ => _conflict "An agent with that name already exists") ;;
  mret agent.

Definition create_agent_enrolment_token (now : Z) (raw_token : string) (token_id agent_id : uuid)
    (request : Request) : Api (uuid * uuid * string * Z) :=
  auth ← authorize now request MONITORING_MANAGE;
  found ← gets (fun w => get_row (fun a => (a_realm_id a =? realm_id (ra_realm auth))%N &&
                                           a_enabled a && is_none (a_archived_at a))
                           agent_id (agents (w_mon w)));
  agent ← require_some found (not_found "Agent not found");
  '(token, raw) ← on_mon (issue_enrolment_token settings now raw_token token_id (ra_realm auth)
                            agent None);
  audit now "agent.enrolment.create" request auth "agent_enrolment_token" (str_uuid (tok_id token)) ;;
  mret (tok_id token, a_id agent, raw, tok_expires_at token).

Definition delete_agent_enrolment_token (now : Z) (agent_id token_id : uuid) (request : Request) :
    Api unit :=
  auth ← authorize now request MONITORING_MANAGE;
  found ← gets (fun w => in_realm_row a_realm_id (ra_realm auth) agent_id (agents (w_mon w)));
  agent ← require_some found (not_found "Enrolment token not found");
  revoked ← on_mon (revoke_enrolment_token now (ra_realm auth) agent token_id);
  raise_if (negb revoked) (not_found "Enrolment token not found") ;;
  audit now "agent.enrolment.revoke" request auth "agent_enrolment_token" (str_uuid token_id) ;;
  mret tt.

Definition earlier_credential (x y : AgentCredential) : bool := cr_created_at x <=? cr_created_at y.

Definition list_agent_credentials (now : Z) (agent_id : uuid) (request : Request) :
    Api (list AgentCredential) :=
  auth ← authorize now request MONITORING_READ;
  found ← gets (fun w => in_realm_row a_realm_id (ra_realm auth) agent_id (agents (w_mon w)));
  raise_if (is_none found) (not_found "Agent not found") ;;
  gets (fun w => order_by earlier_credential
    (List.filter (fun c => (cr_agent_id c =? agent_id)%N &&
                           (cr_realm_id c =? realm_id (ra_realm auth))%N)
       (rows (agent_credentials (w_mon w))))).

(** [AgentStatusResponse]: [None] for a state row stands for the defaults of an agent that
    never sent a heartbeat. *)
Definition get_agent_status (now : Z) (agent_id : uuid) (request : Request) :
    Api (uuid * bool * option AgentOperationalState) :=
  auth ← authorize now request MONITORING_READ;
  found ← gets (fun w => in_realm_row a_realm_id (ra_realm auth) agent_id (agents (w_mon w)));
  agent ← require_some found (not_found "Agent not found");
  state ← gets (fun w => get_row (fun o => (op_realm_id o =? realm_id (ra_realm auth))%N)
                           (a_id agent) (agent_operational_states (w_mon w)));
  match state with
  | None => mret (a_id agent, false, None)
  | Some state =>
      let online_cutoff := now - seconds (agent_offline_after_seconds settings) in
      mret (a_id agent,
            a_enabled agent && is_none (a_archived_at agent) &&
              (online_cutoff <=? op_last_heartbeat_at state),
            Some state)
  end.

Definition delete_agent_credential (now : Z) (agent_id credential_id : uuid) (request : Request) :
    Api unit :=
  auth ← authorize now request MONITORING_MANAGE;
  found ← gets (fun w => get_row (fun c => (cr_agent_id c =? agent_id)%N &&
                                           (cr_realm_id c =? realm_id (ra_realm auth))%N)
                           credential_id (agent_credentials (w_mon w)));
  credential ← require_some found (not_found "Agent credential not found");
  revoked ← on_mon (revoke_credential now (ra_realm auth) (cr_id credential));
  raise_if (negb revoked) (not_found "Agent credential not found") ;;
  audit now "agent.credential.revoke" request auth "agent_credential" (str_uuid (cr_id credential)) ;;
  mret tt.

(** ** Targets *)

Definition list_targets (now : Z) (request : Request) : Api (list Target) :=
  auth ← authorize now request MONITORING_READ;
  gets (fun w => named_rows t_realm_id t_archived_at t_name (ra_realm auth) (targets (w_mon w))).

Definition create_target (now : Z) (id : uuid) (payload : TargetCreate) (request : Request) :
    Api Target :=
  auth ← authorize now request MONITORING_MANAGE;
  let target := mkTarget id (realm_id (ra_realm auth)) (strip (tc_name payload))
                  (tc_description payload) (strip (tc_address payload)) (tc_enabled payload) None in
  catch (on_mon (insert_target target)) is_IntegrityError
    (fun _ => _conflict "A target with that name already exists") ;;
  mret target.

Definition delete_target (now : Z) (target_id : uuid) (request : Request) : Api unit :=
  auth ← authorize now request MONITORING_MANAGE;
  found ← gets (fun w => in_realm_row t_realm_id (ra_realm auth) target_id (targets (w_mon w)));
  target ← require_some found (not_found "Target not found");
  on_mon (archive_target now (ra_realm auth) target).

(** ** Monitors *)

Definition list_monitors (now : Z) (request : Request) : Api (list Monitor) :=
  auth ← authorize now request MONITORING_READ;
  gets (fun w => named_rows m_realm_id m_archived_at m_name (ra_realm auth) (monitors (w_mon w))).

Definition monitor_errors {A} (m : Api A) : Api A :=
  catch (catch m is_IntegrityError (fun _ => _conflict "A monitor with that name already exists"))
    is_rejected_input _unprocessable.

Definition create_monitor_endpoint (now : Z) (id : uuid) (payload : MonitorCreate)
    (request : Request) : Api Monitor :=
  auth ← authorize now request MONITORING_MANAGE;
  found ← gets (fun w => in_realm_row t_realm_id (ra_realm auth) (mc_target_id payload)
                           (targets (w_mon w)));
  target ← require_some found (not_found "Target not found");
  monitor_errors (on_mon (create_monitor id (ra_realm auth) target (strip (mc_name payload))
    (mc_probe_type payload) (mc_interval_seconds payload) (mc_timeout_seconds payload)
    (mc_configuration payload) (mc_description payload))).

(** The live row of the realm with this id. *)
Definition live_row {R} (realm_of : R -> uuid) (archived_at : R -> option Z) (realm : Realm)
    (id : uuid) (t : gmap uuid R) : option R :=
  get_row (fun r => (realm_of r =? realm_id realm)%N && is_none (archived_at r)) id t.

Definition get_monitor (now : Z) (monitor_id : uuid) (request : Request) : Api Monitor :=
  auth ← authorize now request MONITORING_READ;
  found ← gets (fun w => live_row m_realm_id m_archived_at (ra_realm auth) monitor_id
                           (monitors (w_mon w)));
  require_some found (not_found "Monitor not found").

Definition update_monitor (now : Z) (monitor_id : uuid) (payload : MonitorCreate)
    (request : Request) : Api Monitor :=
  auth ← authorize now request MONITORING_MANAGE;
  let realm := ra_realm auth in
  found ← gets (fun w => live_row m_realm_id m_archived_at realm monitor_id (monitors (w_mon w)));
  monitor ← require_some found (not_found "Monitor not found");
  found_target ← gets (fun w => live_row t_realm_id t_archived_at realm (mc_target_id payload)
                                  (targets (w_mon w)));
  target ← require_some found_target (not_found "Target not found");
  let name := strip (mc_name payload) in
  let description := match mc_description payload with
                     | Some d => if String.eqb d EmptyString then None else Some (strip d)
                     | None => None
                     end in
  raise_if (negb (pg_text name)) DataError ;;
  taken ← gets (fun w => exists_row (fun m => (m_realm_id m =? realm_id realm)%N &&
      String.eqb (m_name m) name && negb (m_id m =? m_id monitor)%N) (monitors (w_mon w)));
  raise_if taken (_conflict "A monitor with that name already exists") ;;
  monitor_errors (
    monitor' ← on_mon (update_monitor_behavior monitor realm target (mc_probe_type payload)
      (mc_interval_seconds payload) (mc_timeout_seconds payload) (mc_configuration payload));
    if negb (String.eqb (m_name monitor') name) ||
       negb (bool_decide (m_description monitor' = description))
    then
      on_mon (rename_monitor (realm_id realm) (m_id monitor') name description) ;;
      refreshed ← gets (fun w => monitors (w_mon w) !! m_id monitor');
      require_some refreshed DoesNotExist
    else mret monitor').

(** ** Groups *)

Definition list_agent_groups (now : Z) (request : Request) : Api (list AgentGroup) :=
  auth ← authorize now request MONITORING_READ;
  gets (fun w => named_rows g_realm_id g_archived_at g_name (ra_realm auth) (agent_groups (w_mon w))).

(** The parent named by the payload, which has to be a live group of the realm. *)
Definition parent_row {R} (found : uuid -> World -> option R) (parent_id : option uuid) :
    Api (option R) :=
  match parent_id with
  | None => mret None
  | Some p =>
      row ← gets (found p);
      parent ← require_some row (not_found "Parent not found");
      mret (Some parent)
  end.

Definition create_agent_group (now : Z) (id : uuid) (payload : AgentGroupCreate)
    (request : Request) : Api AgentGroup :=
  auth ← authorize now request MONITORING_MANAGE;
  parent ← parent_row (fun p w => live_row g_realm_id g_archived_at (ra_realm auth) p
                                    (agent_groups (w_mon w))) (gc_parent_id payload);
  let group := mkAgentGroup id (realm_id (ra_realm auth)) (g_id <$> parent) (strip (gc_name payload))
                 (gc_description payload) (gc_enabled payload) None in
  catch (on_mon (insert_group group)) is_IntegrityError
    (fun _ => _conflict "An agent group with that sibling name already exists") ;;
  mret group.

Definition list_target_groups (now : Z) (request : Request) : Api (list TargetGroup) :=
  auth ← authorize now request MONITORING_READ;
  gets (fun w => named_rows tg_realm_id tg_archived_at tg_name (ra_realm auth)
                   (target_groups (w_mon w))).

Definition create_target_group (now : Z) (id : uuid) (payload : AgentGroupCreate)
    (request : Request) : Api TargetGroup :=
  auth ← authorize now request MONITORING_MANAGE;
  parent ← parent_row (fun p w => live_row tg_realm_id tg_archived_at (ra_realm auth) p
                                    (target_groups (w_mon w))) (gc_parent_id payload);
  let group := mkTargetGroup id (realm_id (ra_realm auth)) (tg_id <$> parent)
                 (strip (gc_name payload)) (gc_description payload) None in
  catch (on_mon (insert_group group)) is_IntegrityError
    (fun _ => _conflict "A target group with that sibling name already exists") ;;
  mret group.

(** ** Memberships and assignments *)

(** Two rows of the realm, or 404. *)
Definition two_rows {R S} (left_ : World -> option R) (right_ : World -> option S) : Api (R * S) :=
  l ← gets left_;
  r ← gets right_;
  match l, r with
  | Some l, Some r => mret (l, r)
  | _, _ => raise (not_found "Resource not found")
  end.

Definition group_row (realm : Realm) (id : uuid) (w : World) : option AgentGroup :=
  in_realm_row g_realm_id realm id (agent_groups (w_mon w)).
Definition agent_row (realm : Realm) (id : uuid) (w : World) : option Agent :=
  in_realm_row a_realm_id realm id (agents (w_mon w)).
Definition target_row (realm : Realm) (id : uuid) (w : World) : option Target :=
  in_realm_row t_realm_id realm id (targets (w_mon w)).
Definition target_group_row (realm : Realm) (id : uuid) (w : World) : option TargetGroup :=
  in_realm_row tg_realm_id realm id (target_groups (w_mon w)).
Definition monitor_row (realm : Realm) (id : uuid) (w : World) : option Monitor :=
  in_realm_row m_realm_id realm id (monitors (w_mon w)).

Definition create_agent_group_membership (now : Z) (group_id agent_id : uuid) (request : Request) :
    Api AgentGroupMembership :=
  auth ← authorize now request MONITORING_MANAGE;
  '(group, agent) ← two_rows (group_row (ra_realm auth) group_id) (agent_row (ra_realm auth) agent_id);
  catch (on_mon (add_agent_to_group (ra_realm auth) group agent)) is_MonitoringDomainError
    _unprocessable.

Definition delete_agent_group_membership (now : Z) (group_id agent_id : uuid) (request : Request) :
    Api unit :=
  auth ← authorize now request MONITORING_MANAGE;
  '(group, agent) ← two_rows (group_row (ra_realm auth) group_id) (agent_row (ra_realm auth) agent_id);
  deleted ← on_mon (remove_agent_from_group (ra_realm auth) group agent);
  raise_if (negb deleted) (not_found "Membership not found").

Definition create_target_group_membership (now : Z) (group_id target_id : uuid)
    (request : Request) : Api TargetGroupMembership :=
  auth ← authorize now request MONITORING_MANAGE;
  '(group, target) ← two_rows (target_group_row (ra_realm auth) group_id)
                               (target_row (ra_realm auth) target_id);
  catch (on_mon (add_target_to_group (ra_realm auth) group target)) is_MonitoringDomainError
    _unprocessable.

Definition delete_target_group_membership (now : Z) (group_id target_id : uuid)
    (request : Request) : Api unit :=
  auth ← authorize now request MONITORING_MANAGE;
  deleted ← on_mon (delete_target_membership (realm_id (ra_realm auth)) group_id target_id);
  raise_if (negb deleted) (not_found "Membership not found").

Definition create_monitor_agent_assignment (now : Z) (monitor_id agent_id : uuid)
    (request : Request) : Api MonitorAgentAssignment :=
  auth ← authorize now request MONITORING_MANAGE;
  '(monitor, agent) ← two_rows (monitor_row (ra_realm auth) monitor_id)
                                (agent_row (ra_realm auth) agent_id);
  catch (on_mon (assign_monitor_to_agent (ra_realm auth) monitor agent)) is_MonitoringDomainError
    _unprocessable.

Definition delete_monitor_agent_assignment (now : Z) (monitor_id agent_id : uuid)
    (request : Request) : Api unit :=
  auth ← authorize now request MONITORING_MANAGE;
  '(monitor, agent) ← two_rows (monitor_row (ra_realm auth) monitor_id)
                                (agent_row (ra_realm auth) agent_id);
  deleted ← on_mon (unassign_monitor_from_agent (ra_realm auth) monitor agent);
  raise_if (negb deleted) (not_found "Assignment not found").

Definition create_monitor_agent_group_assignment (now : Z) (monitor_id group_id : uuid)
    (request : Request) : Api MonitorAgentGroupAssignment :=
  auth ← authorize now request MONITORING_MANAGE;
  '(monitor, group) ← two_rows (monitor_row (ra_realm auth) monitor_id)
                                (group_row (ra_realm auth) group_id);
  catch (on_mon (assign_monitor_to_agent_group (ra_realm auth) monitor group))
    is_MonitoringDomainError _unprocessable.

Definition delete_monitor_agent_group_assignment (now : Z) (monitor_id group_id : uuid)
    (request : Request) : Api unit :=
  auth ← authorize now request MONITORING_MANAGE;
  '(monitor, group) ← two_rows (monitor_row (ra_realm auth) monitor_id)
                                (group_row (ra_realm auth) group_id);
  deleted ← on_mon (unassign_monitor_from_agent_group (ra_realm auth) monitor group);
  raise_if (negb deleted) (not_found "Assignment not found").

(** ** api/monitoring_relationships.py *)

Definition pair_le (x y : uuid * uuid * uuid) : bool :=
  (x.1.2 <? y.1.2)%N || ((x.1.2 =? y.1.2)%N && (x.2 <=? y.2)%N).

(** The keys (realm, left, right) of a realm, by left and right. *)
Definition realm_keys (realm : Realm) (l : list (uuid * uuid * uuid)) : list (uuid * uuid * uuid) :=
  order_by pair_le (List.filter (fun k => (k.1.1 =? realm_id realm)%N) l).

Definition list_agent_group_memberships (now : Z) (request : Request) :
    Api (list (uuid * uuid * uuid)) :=
  auth ← authorize now request MONITORING_READ;
  gets (fun w => realm_keys (ra_realm auth) (elements (agent_group_memberships (w_mon w)))).

Definition list_target_group_memberships (now : Z) (request : Request) :
    Api (list (uuid * uuid * uuid)) :=
  auth ← authorize now request MONITORING_READ;
  gets (fun w => realm_keys (ra_realm auth) (elements (target_group_memberships (w_mon w)))).

(** The assignments of a realm with their [enabled] column. *)
Definition realm_assignments (realm : Realm) (t : gmap (uuid * uuid * uuid) bool) :
    list (uuid * uuid * uuid * bool) :=
  order_by (fun x y => pair_le x.1 y.1)
    (List.filter (fun kv => (kv.1.1.1 =? realm_id realm)%N) (map_to_list t)).

Definition list_monitor_agent_assignments (now : Z) (request : Request) :
    Api (list (uuid * uuid * uuid * bool)) :=
  auth ← authorize now request MONITORING_READ;
  gets (fun w => realm_assignments (ra_realm auth) (monitor_agent_assignments (w_mon w))).

Definition list_monitor_agent_group_assignments (now : Z) (request : Request) :
    Api (list (uuid * uuid * uuid * bool)) :=
  auth ← authorize now request MONITORING_READ;
  gets (fun w => realm_assignments (ra_realm auth) (monitor_agent_group_assignments (w_mon w))).

(** ** api/dashboard.py *)

(** A query parameter of type [datetime]: its instant, and its offset from UTC where it has a
    time zone. *)
Record QueryTime := mkQueryTime { qt_instant : Z; qt_offset : option Z }.
Definition qt_aware (t : QueryTime) : bool := negb (is_none (qt_offset t)).
(** What its clock shows. *)
Definition qt_wall (t : QueryTime) : Z := qt_instant t + default 0 (qt_offset t).

(** Dates are in the years 1 to 9999. *)
Definition datetime_min : Z := -62135596800 * 10 ^ 6.
Definition datetime_max : Z := 253402300800 * 10 ^ 6 - 1.

Definition _history_range (now : Z) (detail : string) (start end_ : option QueryTime) : Api (Z * Z) :=
  let resolved_end := default (mkQueryTime now (Some 0)) end_ in
  raise_if (is_none start && (qt_wall resolved_end - hours 24 <? datetime_min)) OverflowError ;;
  let resolved_start := default (mkQueryTime (qt_instant resolved_end - hours 24)
                                   (qt_offset resolved_end)) start in
  raise_if (negb (qt_aware resolved_start) || negb (qt_aware resolved_end) ||
            (qt_instant resolved_end <=? qt_instant resolved_start) ||
            (days 30 <? qt_instant resolved_end - qt_instant resolved_start))
    (HTTPException 422 detail) ;;
  mret (qt_instant resolved_start, qt_instant resolved_end).

(** The driver sends the two ends of the range in UTC, and refuses what is no date there. *)
Definition encode_range (s e : Z) : Api unit :=
  raise_if ((s <? datetime_min) || (datetime_max <? e)) DataError.

Definition current_state (now : Z) (request : Request) : Api (list MonitorStateSummary) :=
  auth ← authorize now request MONITORING_READ;
  gets (fun w => query_monitor_states settings (w_mon w) (w_obs w) (realm_id (ra_realm auth)) now).

(** [limit] is bounded by the query parameter's validation to 1..250. *)
Definition recent_observations (now : Z) (limit : nat) (request : Request) :
    Api (list ObservationRow) :=
  auth ← authorize now request MONITORING_READ;
  gets (fun w => query_recent_observations (w_obs w) (realm_id (ra_realm auth)) limit).

Definition monitor_history (now : Z) (monitor_id : uuid) (start end_ : option QueryTime)
    (limit : nat) (request : Request) : Api (list (ObservationRow * option ObservationResult)) :=
  auth ← authorize now request MONITORING_READ;
  found ← gets (fun w => live_row m_realm_id m_archived_at (ra_realm auth) monitor_id
                           (monitors (w_mon w)));
  monitor ← require_some found (not_found "Monitor not found");
  '(s, e) ← _history_range now "History range must be positive and no longer than 30 days" start end_;
  encode_range s e ;;
  gets (fun w => query_probe_history (w_obs w) (realm_id (ra_realm auth)) (m_id monitor)
                   (m_probe_type monitor) s e limit).

(** api/monitoring.py, [get_icmp_history]; the range check is the same. *)
Definition get_icmp_history (now : Z) (monitor_id : uuid) (start end_ : option QueryTime)
    (limit : nat) (request : Request) : Api (list (ObservationRow * IcmpObservationResult)) :=
  auth ← authorize now request MONITORING_READ;
  found ← gets (fun w => get_row (fun m => (m_realm_id m =? realm_id (ra_realm auth))%N &&
                                           bool_decide (m_probe_type m = ICMP))
                           monitor_id (monitors (w_mon w)));
  monitor ← require_some found (not_found "Monitor not found");
  '(s, e) ← _history_range now "ICMP history range must be positive and no longer than 30 days"
              start end_;
  encode_range s e ;;
  gets (fun w => query_icmp_history (w_obs w) (realm_id (ra_realm auth)) (m_id monitor) s e limit).
End Monitoring.

(** ** api/agent_protocol.py *)

Definition MAXIMUM_OBSERVATION_UPLOAD_BYTES : Z := 2 ^ 20.

Record AgentEnrolmentResponse := mkAgentEnrolmentResponse {
  er_realm_id : uuid; er_agent_id : uuid; er_credential_id : uuid; er_credential : string;
  er_server_time : Z; er_heartbeat_interval_seconds : Z; er_configuration_poll_interval_seconds : Z }.
Record AgentHeartbeatResponse := mkAgentHeartbeatResponse {
  hr_server_time : Z; hr_heartbeat_interval_seconds : Z; hr_configuration_poll_interval_seconds : Z;
  hr_desired_configuration_revision : Z; hr_desired_configuration_hash : string;
  hr_configuration_update_available : bool }.
(** The configuration, or [None] for 304 Not Modified. *)
Record AgentConfigurationResponse := mkAgentConfigurationResponse {
  cf_agent_id : uuid; cf_realm_id : uuid; cf_revision : Z; cf_content_hash : string;
  cf_generated_at : Z; cf_monitors : json }.

Section AgentProtocol.
Context {P : Platform} (settings : Settings).

(** [Depends(authenticate_agent)]. *)
Definition authenticate (now : Z) (authorization : string) : Api AgentAuthentication := fun w =>
  on_mon (authenticate_agent (realms (w_auth w)) now authorization) w.

Definition enrol_agent (now : Z) (credential_secret : string) (credential_id : uuid)
    (protocol_version : Z) (enrolment_token : string) (request : Request) :
    Api AgentEnrolmentResponse :=
  on_mon (require_supported_protocol protocol_version) ;;
  '(agent, credential, raw_credential) ←
    catch (on_mon (exchange_enrolment_token now credential_secret credential_id enrolment_token))
      is_EnrolmentError
      (fun e => AgentProtocolError 401 "invalid_enrolment_token" (exn_text e) false []);
  realm ← gets (fun w => realms (w_auth w) !! a_realm_id agent);
  on_auth (record_audit_event "agent.enrolment.consume" OutcomeSuccess ActorAnonymous (Some request)
    realm None (Some "agent") (Some (str_uuid (a_id agent))) false
    (Some [("protocol_version", JInt protocol_version)])) ;;
  on_auth (record_audit_event "agent.credential.create" OutcomeSuccess ActorAnonymous (Some request)
    realm None (Some "agent_credential") (Some (str_uuid (cr_id credential))) false
    (Some [("agent_id", JString (str_uuid (a_id agent)))])) ;;
  mret (mkAgentEnrolmentResponse (a_realm_id agent) (a_id agent) (cr_id credential) raw_credential
    now (agent_heartbeat_interval_seconds settings)
    (agent_configuration_poll_interval_seconds settings)).

Definition heartbeat (now : Z) (payload : AgentHeartbeatRequest) (authorization : string) :
    Api AgentHeartbeatResponse :=
  authentication ← authenticate now authorization;
  on_mon (require_supported_protocol (hb_protocol_version payload)) ;;
  '(_, configuration) ← on_mon (record_heartbeat now authentication payload);
  mret (mkAgentHeartbeatResponse now (agent_heartbeat_interval_seconds settings)
    (agent_configuration_poll_interval_seconds settings) (st_desired_revision configuration)
    (if String.eqb (st_desired_content_hash configuration) EmptyString then EmptyString
     else "sha256:" +:+ st_desired_content_hash configuration)
    (negb (st_desired_revision configuration =? hb_active_configuration_revision payload))).

Definition configuration_response (authentication : AgentAuthentication) (result : ConfigurationResult)
    (monitors : json) : AgentConfigurationResponse :=
  let snapshot := res_snapshot result in
  mkAgentConfigurationResponse (a_id (au_agent authentication)) (realm_id (au_realm authentication))
    (sn_revision snapshot) ("sha256:" +:+ sn_content_hash snapshot) (sn_created_at snapshot) monitors.

Definition get_configuration (now : Z) (protocol_version : Z) (active_revision : option Z)
    (content_hash : option string) (authorization : string) : Api (option AgentConfigurationResponse) :=
  authentication ← authenticate now authorization;
  on_mon (require_supported_protocol protocol_version) ;;
  result ← on_mon (get_or_create_configuration now authentication);
  let snapshot := res_snapshot result in
  let response_hash := "sha256:" +:+ sn_content_hash snapshot in
  if bool_decide (active_revision = Some (sn_revision snapshot)) &&
     bool_decide (content_hash = Some response_hash)
  then mret None
  else
    match json_get "monitors" (res_content result) with
    | None => raise KeyError
    | Some monitors => mret (Some (configuration_response authentication result monitors))
    end.

Definition acknowledge_agent_configuration (now protocol_version revision : Z)
    (content_hash : string) (activated_at : Z) (authorization : string) : Api (Z * string) :=
  authentication ← authenticate now authorization;
  on_mon (require_supported_protocol protocol_version) ;;
  state ← on_mon (acknowledge_configuration authentication revision content_hash activated_at);
  mret (st_acknowledged_revision state, "sha256:" +:+ st_acknowledged_content_hash state).

(** [content_length] is the request's header. *)
Definition exceeds_limit (content_length : option string) : bool :=
  match content_length with
  | None => false
  | Some s => match py_int10 s with
              | Some n => MAXIMUM_OBSERVATION_UPLOAD_BYTES <? n
              | None => true
              end
  end.

Definition upload_observations (now received_at : Z) (payload : AgentObservationUpload)
    (content_length : option string) (authorization : string) :
    Api (uuid * list AgentObservationResult) :=
  authentication ← authenticate now authorization;
  raise_if (exceeds_limit content_length) (AgentProtocolError 413 "observation_batch_too_large"
    "The serialized observation batch exceeds 1 MiB." true []) ;;
  on_mon (require_supported_protocol (up_protocol_version payload)) ;;
  raise_if (negb (up_result_schema_version payload =? 1)) (AgentProtocolError 400
    "unsupported_result_schema" "The observation result schema version is unsupported." false []) ;;
  mon ← gets w_mon;
  results ← on_obs (ingest_observations mon now received_at authentication payload);
  mret (up_batch_id payload, results).
End AgentProtocol.

(** ** The endpoints as steps of the whole system

    [serve] and [serve_agent] run one request; [api_step] is one request of any kind.
    Every request moves each of the three stores by steps of its own component, so the
    invariants of the components hold in every reachable state of the system. *)

(** The result of a handler is its response; the state is what matters here. *)
Definition ignore {A} (m : Api A) : Api unit := m ≫= fun _ => mret tt.

(** The requests of a browser, with their path parameters, bodies and the ids drawn. *)
Inductive endpoint :=
| ListAgents | CreateAgent (id : uuid) (payload : AgentCreate)
| CreateEnrolmentToken (raw : string) (id agent : uuid) | DeleteEnrolmentToken (agent token : uuid)
| ListCredentials (agent : uuid) | AgentStatus (agent : uuid) | DeleteCredential (agent credential : uuid)
| ListTargets | CreateTarget (id : uuid) (payload : TargetCreate) | DeleteTarget (target : uuid)
| ListMonitors | CreateMonitor (id : uuid) (payload : MonitorCreate) | GetMonitor (monitor : uuid)
| UpdateMonitor (monitor : uuid) (payload : MonitorCreate)
| ListAgentGroups | CreateAgentGroup (id : uuid) (payload : AgentGroupCreate)
| ListTargetGroups | CreateTargetGroup (id : uuid) (payload : AgentGroupCreate)
| PutAgentMembership (group agent : uuid) | DeleteAgentMembership (group agent : uuid)
| PutTargetMembership (group target : uuid) | DeleteTargetMembership (group target : uuid)
| PutAssignment (monitor agent : uuid) | DeleteAssignment (monitor agent : uuid)
| PutGroupAssignment (monitor group : uuid) | DeleteGroupAssignment (monitor group : uuid)
| ListAgentMemberships | ListTargetMemberships | ListAssignments | ListGroupAssignments
| CurrentState | RecentObservations (limit : nat)
| MonitorHistory (monitor : uuid) (start end_ : option QueryTime) (limit : nat)
| IcmpHistory (monitor : uuid) (start end_ : option QueryTime) (limit : nat).

(** The requests of an agent. *)
Inductive agent_endpoint :=
| Enrol (secret : string) (credential : uuid) (version : Z) (token : string) (request : Request)
| Heartbeat (payload : AgentHeartbeatRequest) (authorization : string)
| GetConfiguration (version : Z) (active : option Z) (hash : option string) (authorization : string)
| Acknowledge (version revision : Z) (hash : string) (activated_at : Z) (authorization : string)
| Upload (received_at : Z) (payload : AgentObservationUpload) (length : option string)
    (authorization : string).

Section Serve.
Context {CO : Coercions} {P : Platform} {I : IsoFormat} {C : Collation} (settings : Settings).

Definition serve (e : endpoint) (now : Z) (request : Request) : Api unit :=
  match e with
  | ListAgents => ignore (list_agents settings now request)
  | CreateAgent id p => ignore (create_agent settings now id p request)
  | CreateEnrolmentToken raw id a => ignore (create_agent_enrolment_token settings now raw id a request)
  | DeleteEnrolmentToken a t => ignore (delete_agent_enrolment_token settings now a t request)
  | ListCredentials a => ignore (list_agent_credentials settings now a request)
  | AgentStatus a => ignore (get_agent_status settings now a request)
  | DeleteCredential a c => ignore (delete_agent_credential settings now a c request)
  | ListTargets => ignore (list_targets settings now request)
  | CreateTarget id p => ignore (create_target settings now id p request)
  | DeleteTarget t => ignore (delete_target settings now t request)
  | ListMonitors => ignore (list_monitors settings now request)
  | CreateMonitor id p => ignore (create_monitor_endpoint settings now id p request)
  | GetMonitor m => ignore (get_monitor settings now m request)
  | UpdateMonitor m p => ignore (update_monitor settings now m p request)
  | ListAgentGroups => ignore (list_agent_groups settings now request)
  | CreateAgentGroup id p => ignore (create_agent_group settings now id p request)
  | ListTargetGroups => ignore (list_target_groups settings now request)
  | CreateTargetGroup id p => ignore (create_target_group settings now id p request)
  | PutAgentMembership g a => ignore (create_agent_group_membership settings now g a request)
  | DeleteAgentMembership g a => ignore (delete_agent_group_membership settings now g a request)
  | PutTargetMembership g t => ignore (create_target_group_membership settings now g t request)
  | DeleteTargetMembership g t => ignore (delete_target_group_membership settings now g t request)
  | PutAssignment m a => ignore (create_monitor_agent_assignment settings now m a request)
  | DeleteAssignment m a => ignore (delete_monitor_agent_assignment settings now m a request)
  | PutGroupAssignment m g => ignore (create_monitor_agent_group_assignment settings now m g request)
  | DeleteGroupAssignment m g =>
      ignore (delete_monitor_agent_group_assignment settings now m g request)
  | ListAgentMemberships => ignore (list_agent_group_memberships settings now request)
  | ListTargetMemberships => ignore (list_target_group_memberships settings now request)
  | ListAssignments => ignore (list_monitor_agent_assignments settings now request)
  | ListGroupAssignments => ignore (list_monitor_agent_group_assignments settings now request)
  | CurrentState => ignore (current_state settings now request)
  | RecentObservations limit => ignore (recent_observations settings now limit request)
  | MonitorHistory m s t limit => ignore (monitor_history settings now m s t limit request)
  | IcmpHistory m s t limit => ignore (get_icmp_history settings now m s t limit request)
  end.

Definition serve_agent (e : agent_endpoint) (now : Z) : Api unit :=
  match e with
  | Enrol secret c v token request => ignore (enrol_agent settings now secret c v token request)
  | Heartbeat p auth => ignore (heartbeat settings now p auth)
  | GetConfiguration v active hash auth => ignore (get_configuration now v active hash auth)
  | Acknowledge v r hash t auth => ignore (acknowledge_agent_configuration now v r hash t auth)
  | Upload received p length auth => ignore (upload_observations now received p length auth)
  end.

(** What a request was parsed into. *)
Definition agent_request_ok (e : agent_endpoint) : Prop :=
  match e with Upload _ p _ _ => AgentObservationUpload_ok p = true | _ => True end.
End Serve.
