(* ===== verification/EndpointProps.v ===== *)
(** * Requests refine the steps of the components *)

From Stdlib Require Import Ascii.
From S2P Require Import Prelude PyText Json Platform Models ProbeConfig Domain.
From S2P Require Import Credentials Configuration HierarchyProps CredentialsProps Isolation.
From S2P Require Import Confinement Steps ConfigInvariant ObservationSchema Observations.
From S2P Require Import ObservationProps Dashboard Accounts Lifecycle WebAuthn AuthApi AuthDemo.
From S2P Require Import SessionProps AuthSteps AuthOps AuthTheorems Api.
Local Open Scope Z_scope.

Section System.
Context {CO : Coercions} {P : Platform} {IF : IsoFormat} {H : PasswordHasher} {T : TwoFactorLib}
  {W : WebAuthnLib} {C : Collation} (settings : Settings).
Implicit Types (w : World).

(** One upload to the observation tables. *)
Inductive obs_step (o : ObsDB) : ObsDB -> Prop :=
| step_ingest mon now received au up :
    AgentObservationUpload_ok up = true ->
    obs_step o (ingest_observations mon now received au up o).1.

(** The monitoring and the observation tables move by steps of [S] and [O], the account
    tables by steps of their component. *)
Record moves (S : relation MonDB) (O : relation ObsDB) w w' : Prop := {
  mv_mon : rtc S (w_mon w) (w_mon w');
  mv_auth : rtc (auth_step settings) (w_auth w) (w_auth w');
  mv_obs : rtc O (w_obs w) (w_obs w');
}.

#[local] Instance moves_preorder S O : PreOrder (moves S O).
Proof. split; [by intros w|]. intros w1 w2 w3 [] []. split; by etransitivity. Qed.

Definition no_step {X} (_ _ : X) : Prop := False.

Lemma rtc_no_step {X} (x y : X) : rtc no_step x y -> y = x.
Proof. by inversion 1. Qed.

Class SubStep (S : relation MonDB) : Prop := sub_step : forall x y, S x y -> mon_step settings x y.

#[local] Instance sub_step_all : SubStep (mon_step settings).
Proof. by intros x y. Qed.

(** The steps of a request authorised for [permission] in realm [r]: only one that manages
    the realm has any, and they are confined to it. *)
Definition within (permission : RealmPermission) (r : uuid) (x y : MonDB) : Prop :=
  permission = MONITORING_MANAGE /\ mon_step settings x y /\ confined r x y.

#[local] Instance sub_step_within permission r : SubStep (within permission r).
Proof. intros x y (_ & Hs & _). exact Hs. Qed.

Lemma within_manage r x y :
  mon_step settings x y -> confined r x y -> within MONITORING_MANAGE r x y.
Proof. by split. Qed.

Lemma rtc_within permission r x y :
  rtc (within permission r) x y ->
  (x = y \/ permission = MONITORING_MANAGE) /\ rtc (mon_step settings) x y /\ confined r x y.
Proof.
  induction 1 as [x|x y z (Hp & Hs & Hc) _ (_ & Hs' & Hc')]; [|].
  { split; [by left|]. by split. }
  split; [by right|]. split; [by eapply rtc_l|by etransitivity].
Qed.

Definition good w : Prop := realm_closed (w_mon w) /\ auth_ok (w_auth w).

Lemma good_moves S `{SubStep S} O w w' : good w -> moves S O w w' -> good w'.
Proof.
  intros [Hrc Hok] [Hm Ha _]. split; [|by apply (auth_run _ _ _ Ha)].
  clear Hok Ha. induction Hm as [|x y z Hxy _ IH]; [done|]. apply IH.
  by eapply rc_step; [apply sub_step|].
Qed.

Definition any {A} (_ : A) (_ : World) : Prop := True.

Section Follows.
Context (S : relation MonDB) {HS : SubStep S} (O : relation ObsDB).

(** From a good state, [m] moves the stores by steps, and returns with [Q]. *)
Definition follows {A} (m : Api A) (Q : A -> World -> Prop) w : Prop :=
  good w -> safe (moves S O w) m Q w.

Lemma follows_bind {A B} (m : Api A) (k : A -> Api B) Q Q' w :
  follows m Q w -> (forall a w1, good w1 -> Q a w1 -> follows (k a) Q' w1) ->
  follows (m ≫= k) Q' w.
Proof.
  intros Hm Hk Hg. apply safe_bind. eapply safe_weaken; [by apply Hm|].
  intros a w1 Hmv Hq. assert (good w1) as Hg1 by by eapply good_moves.
  specialize (Hk a w1 Hg1 Hq Hg1). unfold safe in *.
  destruct (k a w1) as [w2 [b|e]]; [destruct Hk; split; [by etransitivity|done]|by etransitivity].
Qed.

Lemma follows_ret {A} (a : A) (Q : A -> World -> Prop) w : Q a w -> follows (mret a) Q w.
Proof. intros Hq _. by apply safe_ret. Qed.
Lemma follows_raise {A} e (Q : A -> World -> Prop) w : follows (raise e) Q w.
Proof. intros _. by apply safe_raise. Qed.
Lemma follows_gets {A} (f : World -> A) w : follows (gets f) (fun a w' => a = f w /\ w' = w) w.
Proof. intros _. by apply safe_gets. Qed.
Lemma follows_raise_if b e w : follows (raise_if b e) (fun _ w' => b = false /\ w' = w) w.
Proof. intros _. by apply safe_raise_if. Qed.
Lemma follows_catch {A} (m : Api A) p h Q w : follows m Q w -> follows (catch m p h) Q w.
Proof. intros Hm Hg. by apply safe_catch, Hm. Qed.
Lemma follows_require {A} (o : option A) e w :
  follows (require_some o e) (fun a w' => o = Some a /\ w' = w) w.
Proof. destruct o; [by apply follows_ret|apply follows_raise]. Qed.

Lemma follows_any {A} (m : Api A) Q w : follows m Q w -> follows m any w.
Proof. intros Hm Hg. by eapply safe_weaken; [apply Hm|]. Qed.
Lemma follows_on_mon {A} (m : D A) w :
  (good w -> rtc S (w_mon w) (m (w_mon w)).1) ->
  follows (on_mon m) (fun a w' => m (w_mon w) = (w_mon w', Ok a) /\ w_auth w' = w_auth w) w.
Proof.
  intros Hm Hg. specialize (Hm Hg). unfold safe, on_mon, zoom.
  destruct (m (w_mon w)) as [db [a|e]]; [split; [|done]|]; by split.
Qed.

Lemma follows_on_auth {A} (m : AuthM A) w :
  auth_step settings (w_auth w) (m (w_auth w)).1 ->
  follows (on_auth m) (fun a w' => m (w_auth w) = (w_auth w', Ok a) /\ w_mon w' = w_mon w) w.
Proof.
  intros Hm _. unfold safe, on_auth, zoom.
  destruct (m (w_auth w)) as [d [a|e]]; [split; [|done]|]; split; try done; by apply rtc_once.
Qed.

Lemma follows_audit now action request auth ty id w :
  follows (audit now action request auth ty id) any w.
Proof. eapply follows_any, follows_on_auth, step_request, step_audit. Qed.

End Follows.

(** ** Rows a handler has loaded *)

Lemma in_realm_row_Some {R} (realm_of : R -> uuid) realm id (t : gmap uuid R) r :
  in_realm_row realm_of realm id t = Some r -> t !! id = Some r /\ realm_of r = realm_id realm.
Proof. intros [? ?%N.eqb_eq]%get_row_Some. done. Qed.

Lemma live_row_Some {R} (realm_of : R -> uuid) (arch : R -> option Z) realm id (t : gmap uuid R) r :
  live_row realm_of arch realm id t = Some r ->
  t !! id = Some r /\ realm_of r = realm_id realm /\ arch r = None.
Proof.
  intros [? Hb]%get_row_Some. destruct_andb.
  split; [done|]. split; [by apply N.eqb_eq|by apply is_none_true].
Qed.

Section Loaded.
Context (db : MonDB) (Hrc : realm_closed db).
Lemma loaded_agent id a : agents db !! id = Some a -> agents db !! a_id a = Some a.
Proof. intros Ha. by rewrite (rc_agents _ Hrc _ _ Ha). Qed.
Lemma loaded_target id t : targets db !! id = Some t -> targets db !! t_id t = Some t.
Proof. intros Ht. by rewrite (rc_targets _ Hrc _ _ Ht). Qed.
Lemma loaded_monitor id m : monitors db !! id = Some m -> monitors db !! m_id m = Some m.
Proof. intros Hm. by rewrite (proj1 (rc_monitors _ Hrc _ _ Hm)). Qed.
Lemma loaded_agent_group id g : agent_groups db !! id = Some g -> agent_groups db !! g_id g = Some g.
Proof. intros Hg. by rewrite (proj1 (rc_agent_groups _ Hrc _ _ Hg : g_id g = id /\ _)). Qed.
Lemma loaded_target_group id g :
  target_groups db !! id = Some g -> target_groups db !! tg_id g = Some g.
Proof. intros Hg. by rewrite (proj1 (rc_target_groups _ Hrc _ _ Hg : tg_id g = id /\ _)). Qed.
End Loaded.

(** ** The handlers *)

Section Requests.
Context (now : Z) (Hnow : in_calendar now = true).

(** A request that is refused, or that only reads, refreshes at most a session; any other
    request acts within the realm it is authorised for. *)
Definition obeys {A} (request : Request) (permission : RealmPermission) (m : Api A) w : Prop :=
  good w -> let w' := (m w).1 in
  moves no_step no_step w w' \/
  exists ra d, require_realm_permission settings now request permission (w_auth w) = (d, Ok ra) /\
    moves (within permission (realm_id (ra_realm ra))) no_step w w'.

Lemma obeys_ignore {A} request permission (m : Api A) w :
  obeys request permission m w -> obeys request permission (ignore m) w.
Proof.
  unfold obeys. intros Hm Hg. specialize (Hm Hg). unfold ignore. rewrite bind_run.
  by destruct (m w) as [w' [?|?]].
Qed.

Lemma obeys_authorize {A} request permission (k : RealmAuthorization -> Api A) w :
  (forall ra w1, good w1 ->
     follows (within permission (realm_id (ra_realm ra))) no_step (k ra) any w1) ->
  obeys request permission (authorize settings now request permission ≫= k) w.
Proof.
  intros Hk Hg. rewrite bind_run. unfold authorize, on_auth, zoom.
  pose proof (step_request settings _ _
    (step_permission settings (w_auth w) now request permission Hnow)) as Hs.
  destruct (require_realm_permission _ _ _ _ _) as [d [ra|e]]; simpl in *;
    [right|left; split; first [done|by apply rtc_once]].
  exists ra, d. split; [done|].
  assert (moves (within permission (realm_id (ra_realm ra))) no_step w (set_w_auth d w)) as Hmv
    by (split; first [done|by apply rtc_once]).
  assert (good (set_w_auth d w)) as Hg1 by exact (good_moves _ _ _ _ Hg Hmv).
  specialize (Hk ra _ Hg1 Hg1). unfold safe in Hk. etransitivity; [exact Hmv|].
  destruct (k ra _) as [w2 [?|?]]; by destruct Hk.
Qed.

Ltac fauth := apply obeys_authorize; intros auth w1 Hg1.
Ltac fget := eapply follows_bind; [apply _|apply follows_gets|intros ? ? _ [-> ->]].
Ltac freq Hrow := eapply follows_bind; [apply _|apply follows_require|intros ? ? _ [Hrow ->]].
Ltac fguard := eapply follows_bind; [apply _|apply follows_raise_if|intros ? ? _ [_ ->]].
Ltac fread := eapply follows_any, follows_gets.
Ltac row := first [done | by eapply loaded_agent | by eapply loaded_target
  | by eapply loaded_monitor | by eapply loaded_agent_group].
Ltac fstep step conf :=
  intros [Hrc _]; apply rtc_once, within_manage; [apply step|apply conf]; try row.
Ltac fmon step conf := eapply follows_any, follows_on_mon; fstep step conf.

Section Reads.
Context (S : relation MonDB) {HS : SubStep S} (O : relation ObsDB).

Lemma follows_two_rows {R Q} (l : World -> option R) (r : World -> option Q) w :
  follows S O (two_rows l r) (fun p w' => l w = Some p.1 /\ r w = Some p.2 /\ w' = w) w.
Proof.
  unfold two_rows. fget. fget. destruct (l w) as [x|] eqn:El, (r w) as [y|] eqn:Er;
    (by apply follows_ret) || apply follows_raise.
Qed.

Lemma follows_parent_row {R} (found : uuid -> World -> option R) parent w :
  follows S O (parent_row found parent) (fun o w' => w' = w /\
    match o with Some p => exists i, found i w = Some p | None => True end) w.
Proof.
  unfold parent_row. destruct parent as [p|]; [|by apply follows_ret].
  fget. freq Hp. apply follows_ret. eauto.
Qed.

Lemma follows_history_range detail start end_ w :
  follows S O (_history_range now detail start end_) (fun _ w' => w' = w) w.
Proof. unfold _history_range. fguard. fguard. by apply follows_ret. Qed.
End Reads.

Ltac frows Hl Hr := eapply follows_bind; [apply _|apply follows_two_rows, _|
  intros [? ?] ? _ (Hl & Hr & ->); cbn [fst snd] in *;
  apply in_realm_row_Some in Hl as [Hl _]; apply in_realm_row_Some in Hr as [Hr _]].

Lemma obeys_create_agent id payload request w :
  obeys request MONITORING_MANAGE (create_agent settings now id payload request) w.
Proof.
  unfold create_agent. fauth. eapply follows_bind; [apply _| |intros; by apply follows_ret].
  apply follows_catch. fmon step_insert_agent confined_insert_agent.
Qed.

Lemma obeys_create_target id payload request w :
  obeys request MONITORING_MANAGE (create_target settings now id payload request) w.
Proof.
  unfold create_target. fauth. eapply follows_bind; [apply _| |intros; by apply follows_ret].
  apply follows_catch. fmon step_insert_target confined_insert_target.
Qed.

Ltac fcredential step conf := eapply follows_bind;
  [apply _|apply follows_on_mon; fstep (step_credentials settings ∅) conf; apply step|].
Ltac faudit := eapply follows_bind; [apply _|apply follows_audit|intros; by apply follows_ret].

Lemma obeys_create_agent_enrolment_token raw id agent request w :
  obeys request MONITORING_MANAGE
    (create_agent_enrolment_token settings now raw id agent request) w.
Proof.
  unfold create_agent_enrolment_token. fauth. fget. freq Hrow.
  fcredential step_issue confined_issue. intros [token out] w2 _ _. faudit.
Qed.

Lemma obeys_delete_agent_enrolment_token agent token request w :
  obeys request MONITORING_MANAGE (delete_agent_enrolment_token settings now agent token request) w.
Proof.
  unfold delete_agent_enrolment_token. fauth. fget. freq Hrow.
  fcredential step_revoke_token confined_revoke_token. intros ? w2 _ _. fguard. faudit.
Qed.

Lemma obeys_delete_agent_credential agent credential request w :
  obeys request MONITORING_MANAGE (delete_agent_credential settings now agent credential request) w.
Proof.
  unfold delete_agent_credential. fauth. fget. freq Hrow.
  fcredential step_revoke_credential confined_revoke_credential. intros ? w2 _ _. fguard. faudit.
Qed.

Lemma obeys_get_agent_status agent request w :
  obeys request MONITORING_READ (get_agent_status settings now agent request) w.
Proof.
  unfold get_agent_status. fauth. fget. freq Hrow. fget. destruct (get_row _ _ _); by apply follows_ret.
Qed.

Lemma obeys_list_agent_credentials agent request w :
  obeys request MONITORING_READ (list_agent_credentials settings now agent request) w.
Proof. unfold list_agent_credentials. fauth. fget. fguard. fread. Qed.

Lemma obeys_delete_target target request w :
  obeys request MONITORING_MANAGE (delete_target settings now target request) w.
Proof.
  unfold delete_target. fauth. fget. freq Hrow. apply in_realm_row_Some in Hrow as [Hrow _].
  fmon step_archive_target confined_archive_target.
Qed.

Lemma obeys_create_monitor_endpoint id payload request w :
  obeys request MONITORING_MANAGE (create_monitor_endpoint settings now id payload request) w.
Proof.
  unfold create_monitor_endpoint, monitor_errors. fauth. fget. freq Hrow.
  apply in_realm_row_Some in Hrow as [Hrow _]. do 2 apply follows_catch.
  fmon step_create_monitor confined_create_monitor.
Qed.

Lemma obeys_get_monitor monitor request w :
  obeys request MONITORING_READ (get_monitor settings now monitor request) w.
Proof. unfold get_monitor. fauth. fget. eapply follows_any, follows_require. Qed.

Lemma obeys_update_monitor monitor payload request w :
  obeys request MONITORING_MANAGE (update_monitor settings now monitor payload request) w.
Proof.
  unfold update_monitor, monitor_errors. fauth. fget. freq Hm. fget. freq Ht. fguard. fget. fguard.
  apply live_row_Some in Hm as [Hm _], Ht as [Ht _]. do 2 apply follows_catch.
  eapply follows_bind; [apply _|apply follows_on_mon;
    fstep step_update_monitor confined_update_monitor|intros m' w2 Hg2 _].
  destruct (_ || _); [|by apply follows_ret].
  eapply follows_bind; [apply _|apply follows_on_mon;
    fstep step_rename_monitor confined_rename_monitor|intros ? w3 _ _].
  fget. eapply follows_any, follows_require.
Qed.

Lemma obeys_create_agent_group id payload request w :
  obeys request MONITORING_MANAGE (create_agent_group settings now id payload request) w.
Proof.
  unfold create_agent_group. fauth.
  eapply follows_bind; [apply _|apply follows_parent_row, _|intros parent ? Hg2 [-> Hp]; cbn in Hp].
  eapply follows_bind; [apply _| |intros; by apply follows_ret]. apply follows_catch.
  fmon step_insert_agent_group confined_insert_agent_group. intros p Hpar. simpl in Hpar.
  destruct parent as [g|]; [|done]. destruct Hp as [i (Hg & Hr & _)%live_row_Some].
  injection Hpar as <-. exists g. split; [by eapply loaded_agent_group|exact Hr].
Qed.

Lemma obeys_create_target_group id payload request w :
  obeys request MONITORING_MANAGE (create_target_group settings now id payload request) w.
Proof.
  unfold create_target_group. fauth.
  eapply follows_bind; [apply _|apply follows_parent_row, _|intros parent ? Hg2 [-> Hp]; cbn in Hp].
  eapply follows_bind; [apply _| |intros; by apply follows_ret]. apply follows_catch.
  fmon step_insert_target_group confined_insert_target_group. intros p Hpar. simpl in Hpar.
  destruct parent as [g|]; [|done]. destruct Hp as [i (Hg & Hr & _)%live_row_Some].
  injection Hpar as <-. exists g. split; [by eapply loaded_target_group|exact Hr].
Qed.

Ltac fdelete step conf := eapply follows_bind; [apply _|apply follows_on_mon; fstep step conf|
  intros ? ? _ _; eapply follows_any, follows_raise_if].

Lemma obeys_memberships g a request w :
  obeys request MONITORING_MANAGE (create_agent_group_membership settings now g a request) w /\
  obeys request MONITORING_MANAGE (delete_agent_group_membership settings now g a request) w /\
  obeys request MONITORING_MANAGE (create_target_group_membership settings now g a request) w /\
  obeys request MONITORING_MANAGE (delete_target_group_membership settings now g a request) w.
Proof.
  split; [|split; [|split]].
  - unfold create_agent_group_membership. fauth. frows Hl Hr. apply follows_catch.
    fmon step_add_agent confined_add_agent.
  - unfold delete_agent_group_membership. fauth. frows Hl Hr.
    fdelete step_remove_agent confined_remove_agent.
  - unfold create_target_group_membership. fauth. frows Hl Hr. apply follows_catch.
    fmon step_add_target confined_add_target. by eapply loaded_target_group.
  - unfold delete_target_group_membership. fauth.
    fdelete step_delete_target_membership confined_delete_target_membership.
Qed.

Lemma obeys_assignments m x request w :
  obeys request MONITORING_MANAGE (create_monitor_agent_assignment settings now m x request) w /\
  obeys request MONITORING_MANAGE (delete_monitor_agent_assignment settings now m x request) w /\
  obeys request MONITORING_MANAGE
    (create_monitor_agent_group_assignment settings now m x request) w /\
  obeys request MONITORING_MANAGE
    (delete_monitor_agent_group_assignment settings now m x request) w.
Proof.
  split; [|split; [|split]].
  - unfold create_monitor_agent_assignment. fauth. frows Hl Hr. apply follows_catch.
    fmon step_assign_agent confined_assign_agent.
  - unfold delete_monitor_agent_assignment. fauth. frows Hl Hr.
    fdelete step_unassign_agent confined_unassign_agent.
  - unfold create_monitor_agent_group_assignment. fauth. frows Hl Hr. apply follows_catch.
    fmon step_assign_group confined_assign_group.
  - unfold delete_monitor_agent_group_assignment. fauth. frows Hl Hr.
    fdelete step_unassign_group confined_unassign_group.
Qed.

Lemma obeys_histories m s e limit request w :
  obeys request MONITORING_READ (monitor_history settings now m s e limit request) w /\
  obeys request MONITORING_READ (get_icmp_history settings now m s e limit request) w.
Proof.
  split; [unfold monitor_history|unfold get_icmp_history]; fauth; fget; freq Hm;
    (eapply follows_bind; [apply _|apply follows_history_range, _|intros [? ?] ? _ ->]);
    unfold encode_range; fguard; fread.
Qed.

Lemma obeys_serve e request w :
  exists permission, obeys request permission (serve settings e now request) w.
Proof.
  destruct e; cbn [serve]; eexists; apply obeys_ignore;
    first [ apply obeys_create_agent | apply obeys_create_agent_enrolment_token
          | apply obeys_delete_agent_enrolment_token | apply obeys_list_agent_credentials
          | apply obeys_get_agent_status | apply obeys_delete_agent_credential
          | apply obeys_create_target | apply obeys_delete_target
          | apply obeys_create_monitor_endpoint | apply obeys_get_monitor
          | apply obeys_update_monitor | apply obeys_create_agent_group
          | apply obeys_create_target_group | apply obeys_memberships
          | apply obeys_assignments | apply obeys_histories
          | fauth; fread ].
Qed.

(** ** The agent protocol *)

Abbreviation agent_follows := (follows (mon_step settings) obs_step).

Lemma follows_authenticate header w :
  agent_follows (authenticate now header)
    (fun au w' => authenticated (w_mon w') au /\ w_auth w' = w_auth w) w.
Proof.
  intros Hg. eapply safe_weaken; [apply (follows_on_mon _ _ (authenticate_agent (realms (w_auth w)) now header));
    [intros _; apply rtc_once, (step_credentials _ (realms (w_auth w))), step_authenticate|done]|].
  intros au w' _ [E Ha]. split; [|done]. destruct Hg as [Hrc Hok].
  apply authenticate_inv in E as (?&?&?&?&?&c&?&?&?&?&Hc&?&?&?&Hag&Hr&?&?&?&->).
  apply (rc_credentials _ Hrc) in Hc as (ag & Hx & Hxr). simplify_eq/=.
  split; simpl; [by eapply loaded_agent| |done..].
  rewrite Hxr. symmetry. by apply (ao_realms _ Hok).
Qed.

Lemma follows_protocol version w :
  agent_follows (on_mon (require_supported_protocol version)) (fun _ w' => w' = w) w.
Proof.
  intros _. unfold safe, on_mon, zoom, require_supported_protocol, raise_if.
  destruct (negb _); destruct w; by split.
Qed.

Lemma follows_enrol secret c v token request w :
  agent_follows (enrol_agent settings now secret c v token request) any w.
Proof.
  unfold enrol_agent. eapply follows_bind; [apply _|apply follows_protocol|intros _ ? _ ->].
  eapply follows_bind; [apply _|apply follows_catch, follows_on_mon; intros _;
    apply rtc_once, (step_credentials _ ∅), step_exchange|intros [[agent credential] raw] w1 _ _].
  fget. do 2 (eapply follows_bind; [apply _|apply follows_on_auth, step_request, step_audit|intros ? ? _ _]).
  by apply follows_ret.
Qed.

Ltac fagent := eapply follows_bind; [apply _|apply follows_authenticate|intros au w1 _ [Hau _]].
Ltac fversion := eapply follows_bind; [apply _|apply follows_protocol|intros _ ? _ ->].

Lemma follows_heartbeat payload header w : agent_follows (heartbeat settings now payload header) any w.
Proof.
  unfold heartbeat. fagent. fversion.
  eapply follows_bind; [apply _|apply follows_on_mon; intros _; by apply rtc_once, step_heartbeat|
    intros [? ?] w2 _ _]. by apply follows_ret.
Qed.

Lemma follows_get_configuration v active hash header w :
  agent_follows (get_configuration now v active hash header) any w.
Proof.
  unfold get_configuration. fagent. fversion.
  eapply follows_bind; [apply _|apply follows_on_mon; intros _; by apply rtc_once, step_configuration|
    intros ? w2 _ _].
  destruct (_ && _); [by apply follows_ret|].
  destruct (json_get _ _); [by apply follows_ret|apply follows_raise].
Qed.

Lemma follows_acknowledge v r hash t header w :
  agent_follows (acknowledge_agent_configuration now v r hash t header) any w.
Proof.
  unfold acknowledge_agent_configuration. fagent. fversion.
  eapply follows_bind; [apply _|apply follows_on_mon; intros _; by apply rtc_once, step_acknowledge|
    intros ? w2 _ _]. by apply follows_ret.
Qed.

Lemma follows_upload received payload length header w :
  AgentObservationUpload_ok payload = true ->
  agent_follows (upload_observations now received payload length header) any w.
Proof.
  intros Hok. unfold upload_observations. fagent. fguard. fversion. fguard. fget.
  eapply follows_bind; [apply _| |intros ? ? _ _; by apply follows_ret].
  apply (follows_any _ _ _ any). intros _. unfold safe, on_obs, zoom.
  pose proof (step_ingest (w_obs w1) (w_mon w1) now received au payload Hok) as Hs.
  destruct (ingest_observations _ _ _ _ _ _) as [o [?|?]]; [split; [|done]|]; split; try done;
    by apply rtc_once.
Qed.

Lemma follows_serve_agent e w :
  agent_request_ok e -> agent_follows (serve_agent settings e now) any w.
Proof.
  destruct e; cbn [serve_agent agent_request_ok]; intros Hok; unfold ignore;
    (eapply follows_bind; [apply _| |intros; by apply follows_ret]).
  - apply follows_enrol.
  - apply follows_heartbeat.
  - apply follows_get_configuration.
  - apply follows_acknowledge.
  - by apply follows_upload.
Qed.
End Requests.

(** ** The system *)

(** One request: of a browser, of an agent, or to the account endpoints. *)
Inductive api_step w : World -> Prop :=
| api_browser e now request : in_calendar now = true ->
    api_step w (serve settings e now request w).1
| api_agent e now : in_calendar now = true -> agent_request_ok e ->
    api_step w (serve_agent settings e now w).1
| api_account d : auth_step settings (w_auth w) d -> api_step w (set_w_auth d w).

Lemma moves_widen S `{SubStep S} w w' :
  moves S no_step w w' -> moves (mon_step settings) obs_step w w'.
Proof.
  intros [Hm Ha Ho%rtc_no_step]. split; [|done|by rewrite Ho].
  clear -Hm H0. induction Hm as [|x y z Hxy _ IH]; [done|]. by eapply rtc_l; [apply sub_step|].
Qed.

Lemma api_step_moves w w' : good w -> api_step w w' -> moves (mon_step settings) obs_step w w'.
Proof.
  intros Hg [e now request Hnow|e now Hnow Hok|d Hd].
  - destruct (obeys_serve now Hnow e request w) as [permission Hob].
    destruct (Hob Hg) as [[Hm Ha Ho]|(ra & d & _ & Hmv)]; [|by eapply moves_widen; [apply _|]].
    split; [by rewrite (rtc_no_step _ _ Hm)|done|by rewrite (rtc_no_step _ _ Ho)].
  - pose proof (follows_serve_agent now e w Hok Hg) as Hs. unfold safe in Hs.
    by destruct (serve_agent _ _ _ _) as [w1 [?|?]]; destruct Hs.
  - by split; [|apply rtc_once|].
Qed.

Lemma good_empty : good empty_world.
Proof. split; [by split|apply auth_ok_empty]. Qed.

Lemma reachable_moves w : rtc api_step empty_world w -> moves (mon_step settings) obs_step empty_world w.
Proof.
  assert (forall x y, rtc api_step x y -> good x -> moves (mon_step settings) obs_step x y) as Hgen.
  { induction 1 as [|x y z Hxy _ IH]; [done|]. intros Hg.
    pose proof (api_step_moves _ _ Hg Hxy) as Hmv. etransitivity; [exact Hmv|].
    exact (IH (good_moves _ _ _ _ Hg Hmv)). }
  intros Hr. apply (Hgen _ _ Hr), good_empty.
Qed.

Lemma obs_ok_reachable o : rtc obs_step empty_obs o -> obs_ok o.
Proof.
  assert (forall x y, rtc obs_step x y -> obs_ok x -> obs_ok y) as Hgen.
  { induction 1 as [|x y z Hxy _ IH]; [done|]. intros Hx. apply IH. destruct Hxy as [m n r au up Hup].
    by apply obs_ok_ingest. }
  intros Hr. apply (Hgen _ _ Hr), obs_ok_empty_tables.
Qed.

(** C1 The endpoints implement the component specifications: from the empty system,
    whatever requests of browsers, agents and account holders are served, returning or
    failing, in whatever order, each store has moved only by steps of its own component;
    so in every reachable state relations join rows of one realm, the revisions and
    snapshots of the agents are consistent, accounts, challenges and sessions are
    consistent, and typed results match their observations. *)
Theorem requests_keep_the_system_consistent w :
  rtc api_step empty_world w ->
  rtc (mon_step settings) empty_db (w_mon w) /\
  rtc (auth_step settings) empty_auth (w_auth w) /\
  rtc obs_step empty_obs (w_obs w) /\
  realm_closed (w_mon w) /\ config_ok (w_mon w) /\ auth_ok (w_auth w) /\ obs_ok (w_obs w).
Proof.
  intros Hr. pose proof (reachable_moves w Hr) as Hmv.
  destruct (good_moves _ _ _ _ good_empty Hmv) as [Hrc Hok]. destruct Hmv as [Hm Ha Ho].
  repeat (split; [done|]). split; [by eapply config_ok_reachable|]. split; [done|].
  by apply obs_ok_reachable.
Qed.

(** C2 Multi-tenant access control of the browser API: a request never touches the
    observations, and it changes the monitoring tables only if it carries a live session
    whose user may manage monitoring in the session's active realm; whatever endpoint it
    calls and whatever ids it names, it then changes nothing that belongs to another
    realm. *)
Theorem browser_request_stays_in_its_realm w e now request :
  rtc api_step empty_world w -> in_calendar now = true ->
  let w' := (serve settings e now request w).1 in
  w_obs w' = w_obs w /\
  (w_mon w' = w_mon w \/
   exists user session active realm,
     live_session settings now request (w_auth w) user session /\
     effective_realm session user (w_auth w) = Some active /\
     realms (w_auth w) !! active = Some realm /\ realm_is_active realm = true /\
     granted (w_auth w) user realm MONITORING_MANAGE /\
     confined (realm_id realm) (w_mon w) (w_mon w')).
Proof.
  intros Hr Hnow w'. pose proof (good_moves _ _ _ _ good_empty (reachable_moves w Hr)) as Hg.
  destruct (obeys_serve now Hnow e request w) as [permission Hob].
  destruct (Hob Hg) as [[Hm _ Ho]|(ra & d & Hreq & [Hm _ Ho])];
    (split; [exact (rtc_no_step _ _ Ho)|]); [left; exact (rtc_no_step _ _ Hm)|].
  apply rtc_within in Hm as ([Heq| ->] & _ & Hc); [by left|right].
  apply require_inv in Hreq as (s & active & Hl & Ha & Hrow & Hact & Hgr & _).
  by exists (ra_user ra), s, active, (ra_realm ra).
Qed.
End System.

(** ** Instances on the worked run *)

#[local] Existing Instance strict_coercions.
#[local] Existing Instance example_platform.
#[local] Existing Instance example_hasher.
#[local] Existing Instance example_iso.
#[local] Existing Instance example_two_factor.
#[local] Existing Instance example_webauthn.
#[local] Existing Instance example_collation.

Module SystemDemo.
Definition world1 : World := mkWorld AuthDemo.auth1 empty_db empty_obs.
Definition new_agent : endpoint := CreateAgent 5 (mkAgentCreate "probe" None true).
Definition world2 : World :=
  (serve default_settings new_agent 5000000 (AuthDemo.request "session-token") world1).1.

Lemma reach1 : rtc (api_step default_settings) empty_world world1.
Proof.
  apply rtc_once. exact (api_account default_settings empty_world AuthDemo.auth1
    (step_request _ _ _ (step_signup default_settings empty_auth 1000000 1 2 3 4 "salt"
       "verification-token" "session-token" AuthDemo.payload (AuthDemo.request EmptyString)
       eq_refl eq_refl eq_refl))).
Qed.

Lemma reach2 : rtc (api_step default_settings) empty_world world2.
Proof.
  eapply rtc_r; [apply reach1|].
  exact (api_browser default_settings world1 new_agent 5000000 (AuthDemo.request "session-token") eq_refl).
Qed.

Lemma created : agents (w_mon world2) = {[5%N := mkAgent 5 2 "probe" None true None]}.
Proof. by vm_compute. Qed.
End SystemDemo.

Lemma requests_keep_the_system_consistent_witness :
  agents (w_mon SystemDemo.world2) = {[5%N := mkAgent 5 2 "probe" None true None]} /\
  realm_closed (w_mon SystemDemo.world2).
Proof.
  split; [exact SystemDemo.created|].
  destruct (requests_keep_the_system_consistent default_settings SystemDemo.world2 SystemDemo.reach2)
    as (_ & _ & _ & Hrc & _). exact Hrc.
Defined.

Lemma browser_request_stays_in_its_realm_witness :
  exists user session active realm,
    live_session default_settings 5000000 (AuthDemo.request "session-token") AuthDemo.auth1 user session /\
    effective_realm session user AuthDemo.auth1 = Some active /\
    realms AuthDemo.auth1 !! active = Some realm /\
    granted AuthDemo.auth1 user realm MONITORING_MANAGE /\
    confined (realm_id realm) empty_db (w_mon SystemDemo.world2).
Proof.
  destruct (browser_request_stays_in_its_realm default_settings SystemDemo.world1 SystemDemo.new_agent
    5000000 (AuthDemo.request "session-token") SystemDemo.reach1 eq_refl)
    as [_ [Heq|(user & session & active & realm & Hl & He & Hr & _ & Hg & Hc)]].
  - apply (f_equal agents) in Heq. fold SystemDemo.world2 in Heq.
    rewrite SystemDemo.created in Heq. discriminate (f_equal (lookup 5%N) Heq).
  - exists user, session, active, realm. exact (conj Hl (conj He (conj Hr (conj Hg Hc)))).
Defined.
