(* ===== verification/MonitorRows.v ===== *)
(** * The rows of the monitors table

    In every reachable state a monitor's schedule is one the domain service accepts, its
    configuration is one that validation has normalised for its probe type and timeout, and
    its name is its own within its realm. *)

From S2P Require Import Prelude PyText Json Platform Models ProbeConfig Domain.
From S2P Require Import Credentials Configuration Selection Effects HierarchyProps CredentialsProps.
From S2P Require Import Isolation Steps.
Local Open Scope Z_scope.

Section Rows.
Context {CO : Coercions} {P : Platform} (settings : Settings).
Implicit Types (db : MonDB) (realm : Realm).

Record monitor_ok (m : Monitor) : Prop := {
  mo_schedule : 1 <= m_timeout_seconds m < m_interval_seconds m;
  mo_normal : exists j, serialize_probe_configuration (m_probe_type m) j (Some (m_timeout_seconds m)) =
    Ok (m_configuration m);
  mo_text : pg_text (m_name m) = true;
}.

(** No other row than that of [k] has the realm and name of [m]. *)
Definition name_free db (k : uuid) (m : Monitor) : Prop :=
  forall k' m', monitors db !! k' = Some m' -> m_realm_id m' = m_realm_id m -> m_name m' = m_name m -> k' = k.

Record monitor_rows_ok db : Prop := {
  mr_row : forall k m, monitors db !! k = Some m -> m_id m = k /\ monitor_ok m;
  mr_name : forall k m, monitors db !! k = Some m -> name_free db k m;
}.

(** ** What each step does to the table *)

(** Either nothing, or it replaces rows by rows that are as good. *)
Definition rows_kept db db' : Prop := monitor_rows_ok db -> monitor_rows_ok db'.

Lemma rows_kept_same db db' : monitors db' = monitors db -> rows_kept db db'.
Proof. intros E [Hrow Hname]. by split; unfold name_free; rewrite E. Qed.

Lemma rows_kept_insert db db' m :
  monitors db' = <[m_id m := m]> (monitors db) ->
  (monitor_rows_ok db -> monitor_ok m /\ name_free db (m_id m) m) -> rows_kept db db'.
Proof.
  intros E Hm Hok. destruct (Hm Hok) as [Hnew Hfree], Hok as [Hrow Hname].
  split; [|unfold name_free]; rewrite E.
  - intros k' m'. intros [[<- <-]|[_ Hk]]%lookup_insert_Some; eauto.
  - intros k1 m1 [[<- <-]|[N1 H1]]%lookup_insert_Some k2 m2 [[<- <-]|[N2 H2]]%lookup_insert_Some HR HN;
      [done|by eapply Hfree| |by eapply Hname].
    exfalso. apply N1. symmetry. by eapply Hfree.
Qed.

Lemma rows_kept_fmap db db' (f : Monitor -> Monitor) :
  monitors db' = f <$> monitors db ->
  (forall m, m_id (f m) = m_id m /\ m_realm_id (f m) = m_realm_id m /\ m_name (f m) = m_name m) ->
  (forall m, monitor_ok m -> monitor_ok (f m)) -> rows_kept db db'.
Proof.
  intros E Hid Hf [Hrow Hname]. split; [|unfold name_free]; rewrite E.
  - intros k m. rewrite lookup_fmap. intros (m0 & Hm0 & ->)%fmap_Some.
    destruct (Hrow k m0 Hm0) as [<- Hok]. destruct (Hid m0) as (-> & _ & _). eauto.
  - intros k1 m1 H1 k2 m2. rewrite lookup_fmap in *.
    apply fmap_Some in H1 as (n1 & H1 & ->). intros (n2 & H2 & ->)%fmap_Some.
    destruct (Hid n1) as (_ & -> & ->), (Hid n2) as (_ & -> & ->). by eapply Hname.
Qed.

(** A new version of a row keeps its name free. *)
Lemma name_free_row db m m' :
  monitor_rows_ok db -> monitors db !! m_id m = Some m ->
  m_realm_id m' = m_realm_id m -> m_name m' = m_name m -> name_free db (m_id m) m'.
Proof. intros Hok Hm HR HN k2 m2. rewrite HR, HN. by apply (mr_name _ Hok). Qed.

(** The same where a refusal leaves the table as it is. *)
Ltac proceed H := mrun; check_guard H; mrun; [by apply rows_kept_same|].

Lemma rows_create_monitor db id realm target name probe interval timeout conf descr :
  rows_kept db (create_monitor id realm target name probe interval timeout conf descr db).1.
Proof.
  unfold create_monitor, _require_same_realm, _require_active, _validate_schedule, serialize, lift_outcome.
  proceed G1. proceed G2. proceed G3. proceed G4. proceed G5.
  destruct (serialize_probe_configuration _ _ _) as [norm|e] eqn:Es; [|by apply rows_kept_same]. mrun.
  unfold insert_monitor, check_behavior, check_name. proceed G6. proceed G8. proceed G7.
  eapply rows_kept_insert; [done|]. intros _. split.
  - split; simpl; [|eauto|]; guards; [lia|done].
  - apply orb_false_iff in G7 as [_ G7]. rewrite exists_row_false in G7.
    intros k' m' Hm' HR HN. specialize (G7 k' m' Hm'). simpl in *.
    rewrite HR, HN, N.eqb_refl, String.eqb_refl in G7. discriminate.
Qed.

Lemma rows_update_monitor db monitor realm target probe interval timeout conf :
  monitors db !! m_id monitor = Some monitor ->
  rows_kept db (update_monitor_behavior monitor realm target probe interval timeout conf db).1.
Proof.
  intros Hrow. unfold update_monitor_behavior, _require_same_realm, _require_active,
    _validate_schedule, serialize, lift_outcome.
  proceed G1. proceed G2. proceed G3. proceed G4. proceed G5.
  destruct (serialize_probe_configuration _ _ _) as [norm|e] eqn:Es; [|by apply rows_kept_same]. mrun.
  destruct (_ && _ && _ && _ && _); mrun; [by apply rows_kept_same|].
  unfold save_behavior, check_behavior. proceed G6. cbn [m_id]. rewrite Hrow. mrun.
  unfold effective_agent_ids. mrun. rewrite bump_closed_form.
  eapply (rows_kept_insert _ _ (mkMonitor _ _ _ _ _ _ _ _ _ _ _ _)); [done|].
  intros Hok. split; [|by apply (name_free_row db monitor)]. split; simpl; [|eauto|]; [guards; lia|].
  by destruct (mr_row _ Hok _ _ Hrow) as [_ [_ _ Ht]].
Qed.

Lemma rows_rename_monitor db r id name descr : rows_kept db (rename_monitor r id name descr db).1.
Proof.
  unfold rename_monitor, check_name. proceed G0. destruct (get_row _ _ _) as [m|] eqn:Eg; [|by apply rows_kept_same].
  apply get_row_Some in Eg as [Hm Hr]. proceed G.
  intros Hok. pose proof (mr_row _ Hok _ _ Hm) as [Hid [Hs Hn _]]. revert Hok.
  eapply (rows_kept_insert _ _ (mkMonitor _ _ _ _ _ _ _ _ _ _ _ _)); [cbn [m_id]; by rewrite Hid|].
  intros Hok. split; [split; [done|done|]; simpl; guards; done|].
  rewrite exists_row_false in G. intros k' m' Hm' HR HN. specialize (G k' m' Hm'). simpl in *.
  destruct (mr_row _ Hok _ _ Hm') as [<- _]. rewrite HN, String.eqb_refl, andb_true_r in G.
  rewrite HR in G. apply N.eqb_eq in Hr. rewrite Hr in G. rewrite N.eqb_refl, andb_true_r in G.
  apply negb_false_iff, N.eqb_eq in G. by rewrite G.
Qed.

Lemma rows_archive_target db now realm target :
  targets db !! t_id target = Some target -> rows_kept db (archive_target now realm target db).1.
Proof.
  intros Ht. destruct (archive_target_effect db now realm target Ht) as [->|(_ & _ & ->)];
    [by apply rows_kept_same|]. eapply rows_kept_fmap; [done| |].
  - intros m. cbn beta. by destruct (live_monitor_of _ _ m).
  - intros m [Hs Hn Htext]. by destruct (live_monitor_of _ _ m).
Qed.

Lemma rows_credential_step realms db db' : credential_step settings realms db db' -> rows_kept db db'.
Proof.
  intros Hstep. apply rows_kept_same. destruct Hstep as [now raw tid realm agent ttl db|now secret cid raw db
    |now header db|now realm agent tid db|now realm cid db]; [| | |done..].
  - unfold issue_enrolment_token. rewrite bind_run. unfold in_transaction. mrun.
    destruct (is_none _); mrun; [done|]. unfold update_tokens, insert_token. mrun. by destruct (_ || _).
  - destruct (exchange_enrolment_token now secret cid raw db) as [db' [[[ag cr] out]|e]] eqn:E; simpl.
    + by apply exchange_inv in E as (k & tok & _ & _ & _ & _ & _ & _ & _ & _ & _ & _ & _ & ->).
    + by apply exchange_err in E as ->.
  - destruct (authenticate_agent realms now header db) as [db' [au|e]] eqn:E; simpl.
    + by apply authenticate_inv in E as (?&?&?&?&?&c&?&?&?&?&?&?&?&?&?&?&?&?&?&->).
    + by apply authenticate_err in E as [-> _].
Qed.

Lemma rows_move_group {R} {GT : GroupTable R} {GL : GroupTableLaws R} db (group : R) parent :
  (forall t d, monitors (h_set_table t d) = monitors d) ->
  rows_kept db (move_group group parent db).1.
Proof.
  intros Hset. apply rows_kept_same. unfold move_group. rewrite bind_run.
  rewrite (surjective_pairing (_assert_group_parent group parent db)), assert_group_parent_pure.
  destruct (_assert_group_parent group parent db).2; [|done].
  unfold save_parent. mrun. destruct (_ !! _); mrun; [|done]. check_guard E; mrun; [done|]. apply Hset.
Qed.

Lemma rows_step db db' : mon_step settings db db' -> rows_kept db db'.
Proof.
  intros Hstep. destruct Hstep; eauto using rows_create_monitor, rows_update_monitor, rows_rename_monitor,
    rows_archive_target, rows_credential_step; try (by apply rows_move_group).
  1-4: apply rows_kept_same; unfold insert_agent, insert_target, insert_group, check_name; mrun;
    repeat (check_guard E; [by mrun|clear E; mrun]); by mrun.
  - by destruct (add_agent_effect db realm group agent) as [->|(_ & _ & [->|[-> _]])]; apply rows_kept_same.
  - by destruct (remove_agent_effect db realm group agent) as [->|(_ & _ & [->|[-> _]])]; apply rows_kept_same.
  - apply rows_kept_same. unfold add_target_to_group, _require_same_realm, _require_active. mrun.
    check_guard G1; mrun; [done|]. by check_guard G2; mrun.
  - by apply rows_kept_same.
  - by destruct (assign_agent_effect db realm monitor agent) as [->|(_ & _ & ->)]; apply rows_kept_same.
  - by destruct (assign_group_effect db realm monitor group) as [->|(_ & _ & ->)]; apply rows_kept_same.
  - by destruct (unassign_agent_effect db realm monitor agent) as [->|(_ & _ & ->)]; apply rows_kept_same.
  - by destruct (unassign_group_effect db realm monitor group) as [->|(_ & _ & ->)]; apply rows_kept_same.
  - unfold record_heartbeat. mrun. check_guard G; mrun; [by apply rows_kept_same|].
    check_guard G2; mrun; [by apply rows_kept_same|].
    intros Hok. set (db1 := set_agent_operational_states _ db).
    pose proof (frame_get_or_create_state monitor_rows_ok
      (fun v d => rows_kept_same d (set_agent_configuration_states v d) eq_refl)
      (realm_id (au_realm au)) (a_id (au_agent au)) db1 (rows_kept_same db db1 eq_refl Hok)) as Hst.
    by destruct (get_or_create_state _ _ db1) as [? [?|?]].
  - intros Hok. apply frame_configuration; [..|done]; intros v d; by apply rows_kept_same.
  - intros Hok. apply frame_acknowledge; [..|done]; intros v d; by apply rows_kept_same.
Qed.

Lemma monitor_rows_reachable db : rtc (mon_step settings) empty_db db -> monitor_rows_ok db.
Proof.
  assert (Hgen : forall x y, rtc (mon_step settings) x y -> rows_kept x y).
  { induction 1 as [|x y z Hxy _ IH]; [by intros ?|]. intros Hx. by apply IH, (rows_step x). }
  intros Hr. apply (Hgen _ _ Hr). by split.
Qed.
End Rows.
