(* ===== verification/Requests.v ===== *)
(** * Request bodies (schemas/agent_protocol.py, schemas/monitoring_api.py,
    schemas/monitor_management.py, schemas/auth.py)

    What pydantic makes of the JSON body of a request: [read_*] is [None] where validation
    fails.  The coercions of scalars are the parameter [Coercions]; those of UUIDs, of aware
    datetimes and the choice between the members of a union are the parameter [Decoder]. *)

From Stdlib Require Import Ascii QArith.
From S2P Require Import Prelude PyText Json Platform Models ProbeConfig Domain.
From S2P Require Import Credentials Configuration ObservationSchema Observations Dashboard Accounts.
From S2P Require Import Lifecycle WebAuthn AuthApi Api.
Local Open Scope Z_scope.

(** A datetime whose JSON text is read back to it: a local time of the years 1 to 9999 and an
    offset of whole minutes below a day. *)
Definition aware_ok (d : AwareDatetime) : bool :=
  (Z.abs (utc_offset d) <? 86400) && (utc_offset d mod 60 =? 0) &&
  (-62135596800000000 <=? instant d + 1000000 * utc_offset d) &&
  (instant d + 1000000 * utc_offset d <? 253402300800000000) &&
  (-62135596800000000 <=? instant d) && (instant d <? 253402300800000000).

(** The models of a union: the keys of each, and whether a field holds models itself. *)
Definition result_keys (r : ObservationResult) : list string :=
  match r with
  | IcmpResult _ => ["packets_sent"; "packets_received"; "packet_loss_percent"; "min_rtt_ms";
      "avg_rtt_ms"; "median_rtt_ms"; "max_rtt_ms"; "p95_rtt_ms"; "jitter_ms"; "rtt_samples_ms"]
  | HttpResult _ => ["method"; "scheme"; "status_code"; "redirect_count"; "response_size_bytes";
      "dns_ms"; "connect_ms"; "tls_ms"; "ttfb_ms"; "total_ms"; "assertions_total";
      "assertions_failed"; "final_url_redacted"]
  | TcpResult _ => ["port"; "address_used"; "connect_ms"]
  | DnsResult _ => ["resolver_address"; "query_name"; "query_type"; "response_code"; "response_ms";
      "answer_count"; "answers"; "truncated"; "authoritative"; "assertions_total"; "assertions_failed"]
  | TlsResult _ => ["port"; "server_name"; "protocol_version"; "cipher_suite"; "handshake_ms";
      "certificate_present"; "hostname_valid"; "chain_valid"; "not_before"; "not_after";
      "days_remaining"; "subject_name"; "issuer_name"; "serial_number"; "fingerprint_sha256"]
  end.
Definition holds_models (r : ObservationResult) : bool :=
  match r with DnsResult _ => true | _ => false end.

(** How many of the fields of the model the object sets. *)
Definition fields_set (o : list (string * json)) (r : ObservationResult) : nat :=
  length (List.filter (fun key => negb (is_none (obj_get key o))) (result_keys r)).

(** pydantic: UUIDs, aware datetimes and the smart mode of unions, which takes the member that
    sets the most fields. *)
Class Decoder {P : Platform} := {
  to_uuid : json -> option uuid;
  to_uuid_str : forall u, (u < 2 ^ 128)%N -> to_uuid (JString (str_uuid u)) = Some u;
  to_uuid_bits : forall j u, to_uuid j = Some u -> (u < 2 ^ 128)%N;
  to_aware : json -> option AwareDatetime;
  to_aware_text : forall d, aware_ok d = true ->
    to_aware (JString (datetime_json (instant d) (utc_offset d))) = Some d;
  smart_union : list (string * json) -> list ObservationResult -> option ObservationResult;
  smart_union_member : forall o l r, smart_union o l = Some r -> r ∈ l;
  smart_union_best : forall o l r, r ∈ l -> forallb (fun x => negb (holds_models x)) l = true ->
    (forall x, x ∈ l -> x = r \/ (fields_set o x < fields_set o r)%nat) -> smart_union o l = Some r;
  smart_union_only : forall o r, smart_union o [r] = Some r;
}.

Section Read.
Context {CO : Coercions} {P : Platform} {D : Decoder}.

(** ** Observations *)

Definition lit_HttpMethod : list (string * HttpMethod) := [("GET", HTTP_GET); ("HEAD", HTTP_HEAD)].
Definition lit_UrlScheme : list (string * UrlScheme) := [("http", US_http); ("https", US_https)].
Definition lit_DnsQueryType : list (string * DnsQueryType) :=
  [("A", DQ_A); ("AAAA", DQ_AAAA); ("CNAME", DQ_CNAME); ("MX", DQ_MX); ("NS", DQ_NS); ("PTR", DQ_PTR);
   ("TXT", DQ_TXT)].
Definition lit_ExecutionStatus : list (string * ExecutionStatus) :=
  [("completed", Completed); ("failed", Failed)].
Definition lit_Assessment : list (string * Assessment) :=
  [("healthy", Healthy); ("unhealthy", Unhealthy); ("unknown", Unknown)].
Definition lit_ErrorCategory : list (string * ErrorCategory) :=
  [("timeout", EC_timeout); ("resolution", EC_resolution); ("connection", EC_connection);
   ("tls", EC_tls); ("protocol", EC_protocol); ("assertion", EC_assertion);
   ("permission", EC_permission); ("invalid_configuration", EC_invalid_configuration);
   ("resource_limit", EC_resource_limit); ("internal", EC_internal)].
Definition lit_ProbeType : list (string * ProbeType) :=
  [("icmp", ICMP); ("http", HTTP); ("tcp", TCP); ("dns", DNS); ("tls", TLS)].

(** A list of any length; its bounds are among the constraints. *)
Definition read_items {A} (read : json -> option A) (j : json) : option (list A) :=
  match j with JArray l => read_all read l | _ => None end.

(** The value, where the constraints of its model hold. *)
Definition checked {A} (ok : A -> bool) (a : A) : option A := if ok a then Some a else None.

Definition read_icmp_result (o : list (string * json)) : option IcmpObservationResult :=
  sent ← required o "packets_sent" to_int;
  received ← required o "packets_received" to_int;
  loss ← required o "packet_loss_percent" to_float;
  lo ← field o "min_rtt_ms" (nullable to_float) None;
  avg ← field o "avg_rtt_ms" (nullable to_float) None;
  median ← field o "median_rtt_ms" (nullable to_float) None;
  hi ← field o "max_rtt_ms" (nullable to_float) None;
  p95 ← field o "p95_rtt_ms" (nullable to_float) None;
  jitter ← field o "jitter_ms" (nullable to_float) None;
  samples ← required o "rtt_samples_ms" (read_items to_float);
  checked IcmpObservationResult_ok (mkIcmpResult sent received loss lo avg median hi p95 jitter samples).

Definition read_http_result (o : list (string * json)) : option HttpObservationResult :=
  method ← required o "method" (lit_read lit_HttpMethod);
  scheme ← required o "scheme" (lit_read lit_UrlScheme);
  status_code ← field o "status_code" (nullable to_int) None;
  redirects ← required o "redirect_count" to_int;
  size ← field o "response_size_bytes" (nullable to_int) None;
  dns ← field o "dns_ms" (nullable to_float) None;
  connect ← field o "connect_ms" (nullable to_float) None;
  tls ← field o "tls_ms" (nullable to_float) None;
  ttfb ← field o "ttfb_ms" (nullable to_float) None;
  total ← field o "total_ms" (nullable to_float) None;
  assertions ← required o "assertions_total" to_int;
  failed ← required o "assertions_failed" to_int;
  url ← field o "final_url_redacted" (nullable to_str) None;
  checked HttpObservationResult_ok
    (mkHttpResult method scheme status_code redirects size dns connect tls ttfb total assertions failed url).

Definition read_tcp_result (o : list (string * json)) : option TcpObservationResult :=
  port ← required o "port" to_int;
  address ← field o "address_used" (nullable to_str) None;
  connect ← field o "connect_ms" (nullable to_float) None;
  checked TcpObservationResult_ok (mkTcpResult port address connect).

Definition read_DnsAnswer (j : json) : option DnsAnswer :=
  match j with
  | JObject o =>
      _ ← ensure (only_keys ["type"; "name"; "ttl"; "value"] o);
      type ← required o "type" (lit_read lit_DnsQueryType);
      name ← required o "name" to_str;
      ttl ← field o "ttl" (nullable to_int) None;
      value ← required o "value" to_str;
      checked DnsAnswer_ok (mkDnsAnswer type name ttl value)
  | _ => None
  end.

Definition read_dns_result (o : list (string * json)) : option DnsObservationResult :=
  address ← field o "resolver_address" (nullable to_str) None;
  name ← required o "query_name" to_str;
  type ← required o "query_type" (lit_read lit_DnsQueryType);
  rcode ← field o "response_code" (nullable to_str) None;
  ms ← field o "response_ms" (nullable to_float) None;
  count ← required o "answer_count" to_int;
  answers ← required o "answers" (read_items read_DnsAnswer);
  truncated ← required o "truncated" to_bool;
  authoritative ← required o "authoritative" to_bool;
  assertions ← required o "assertions_total" to_int;
  failed ← required o "assertions_failed" to_int;
  checked DnsObservationResult_ok
    (mkDnsResult address name type rcode ms count answers truncated authoritative assertions failed).

Definition read_tls_result (o : list (string * json)) : option TlsObservationResult :=
  port ← required o "port" to_int;
  name ← required o "server_name" to_str;
  version ← field o "protocol_version" (nullable to_str) None;
  cipher ← field o "cipher_suite" (nullable to_str) None;
  handshake ← field o "handshake_ms" (nullable to_float) None;
  present ← required o "certificate_present" to_bool;
  hostname ← field o "hostname_valid" (nullable to_bool) None;
  chain ← field o "chain_valid" (nullable to_bool) None;
  not_before ← field o "not_before" (nullable to_aware) None;
  not_after ← field o "not_after" (nullable to_aware) None;
  days ← field o "days_remaining" (nullable to_float) None;
  subject ← field o "subject_name" (nullable to_str) None;
  issuer ← field o "issuer_name" (nullable to_str) None;
  serial ← field o "serial_number" (nullable to_str) None;
  fingerprint ← field o "fingerprint_sha256" (nullable to_str) None;
  checked TlsObservationResult_ok
    (mkTlsResult port name version cipher handshake present hostname chain not_before not_after days
       subject issuer serial fingerprint).

(** [ObservationResult]: the members of the union that accept the object. *)
Definition result_candidates (o : list (string * json)) : list ObservationResult :=
  omap id [IcmpResult <$> read_icmp_result o; HttpResult <$> read_http_result o;
    TcpResult <$> read_tcp_result o; DnsResult <$> read_dns_result o; TlsResult <$> read_tls_result o].

Definition read_ObservationResult (j : json) : option ObservationResult :=
  match j with JObject o => smart_union o (result_candidates o) | _ => None end.

Definition read_AgentObservation (j : json) : option AgentObservation :=
  match j with
  | JObject o =>
      scheduled ← required o "scheduled_at" to_aware;
      id ← required o "observation_id" to_uuid;
      monitor ← required o "monitor_id" to_uuid;
      revision ← required o "monitor_revision" to_int;
      type ← required o "probe_type" (lit_read lit_ProbeType);
      started ← required o "started_at" to_aware;
      finished ← required o "finished_at" to_aware;
      execution ← required o "execution_status" (lit_read lit_ExecutionStatus);
      assessment ← required o "assessment" (lit_read lit_Assessment);
      category ← field o "error_category" (nullable (lit_read lit_ErrorCategory)) None;
      code ← field o "error_code" (nullable to_str) None;
      message ← field o "error_message" (nullable to_str) None;
      offset ← field o "agent_clock_offset_ms" (nullable to_int) None;
      result ← field o "result" (nullable read_ObservationResult) None;
      checked AgentObservation_ok (mkAgentObservation scheduled id monitor revision type started finished
        execution assessment category code message offset result)
  | _ => None
  end.

Definition read_AgentObservationUpload (j : json) : option AgentObservationUpload :=
  match j with
  | JObject o =>
      version ← required o "protocol_version" to_int;
      schema ← required o "result_schema_version" to_int;
      revision ← required o "agent_config_revision" to_int;
      batch ← required o "batch_id" to_uuid;
      observations ← required o "observations" (read_items read_AgentObservation);
      checked AgentObservationUpload_ok (mkAgentObservationUpload version schema revision batch observations)
  | _ => None
  end.

(** ** Agent requests *)

(** The members of an object that are not declared fields ([extra="allow"]). *)
Definition extras (declared : list string) (o : list (string * json)) : list (string * json) :=
  List.filter (fun f => negb (existsb (String.eqb f.1) declared)) o.

(** [dict[str, T]] of at most [hi] entries. *)
Definition read_dict {A} (read : json -> option A) (hi : nat) (j : json) : option (list (string * A)) :=
  match j with
  | JObject o =>
      _ ← ensure (length o <=? hi)%nat;
      mapM (fun f => a ← read f.2; Some (f.1, a)) o
  | _ => None
  end.

Definition print_dict {A} (print : A -> json) (d : list (string * A)) : json :=
  JObject (map (fun f => (f.1, print f.2)) d).

(** [ProbeCapability] and its [model_dump(mode="json")]. *)
Definition read_ProbeCapability (j : json) : option json :=
  match j with
  | JObject o =>
      versions ← field o "schema_versions" (read_list to_int 0 20) [];
      available ← required o "available" to_bool;
      Some (JObject ([("schema_versions", JArray (map JInt versions)); ("available", JBool available)] ++
        extras ["schema_versions"; "available"] o))
  | _ => None
  end.

Definition dump_capabilities (probes runtime external_tools : json) (extra : list (string * json)) : json :=
  JObject ([("probes", probes); ("runtime", runtime); ("external_tools", external_tools)] ++ extra).

(** [AgentCapabilities] and its [model_dump(mode="json")]. *)
Definition read_AgentCapabilities (j : json) : option json :=
  match j with
  | JObject o =>
      probes ← field o "probes" (read_dict read_ProbeCapability 50) [];
      runtime ← field o "runtime" (read_dict to_bool 50) [];
      tools ← field o "external_tools" (read_dict to_str 50) [];
      Some (dump_capabilities (print_dict id probes) (print_dict JBool runtime) (print_dict JString tools)
        (extras ["probes"; "runtime"; "external_tools"] o))
  | _ => None
  end.

Record AgentEnrolmentRequest := mkAgentEnrolmentRequest {
  en_protocol_version : Z; en_enrolment_token : string; en_agent_version : string; en_platform : string;
  en_architecture : string; en_hostname : string; en_capabilities : json }.

(** [Annotated[int, Field(ge=lo)]] and [Annotated[str, Field(min_length=lo)]]. *)
Definition read_int_from (lo : Z) (j : json) : option Z := z ← to_int j; _ ← ensure (lo <=? z); Some z.
Definition read_str_from (lo : Z) (j : json) : option string :=
  s ← to_str j; _ ← ensure (lo <=? str_len s); Some s.

Definition read_AgentEnrolmentRequest (j : json) : option AgentEnrolmentRequest :=
  match j with
  | JObject o =>
      version ← required o "protocol_version" (read_int_from 1);
      token ← required o "enrolment_token" (read_str_from 32);
      agent_version ← required o "agent_version" (read_str 1 120);
      platform ← required o "platform" (read_str 1 120);
      architecture ← required o "architecture" (read_str 1 120);
      hostname ← required o "hostname" (read_str 1 253);
      capabilities ← field o "capabilities" read_AgentCapabilities
                       (dump_capabilities (JObject []) (JObject []) (JObject []) []);
      Some (mkAgentEnrolmentRequest version token agent_version platform architecture hostname capabilities)
  | _ => None
  end.

Definition lit_DatabaseHealth : list (string * DatabaseHealth) :=
  [("healthy", DBHealthy); ("degraded", DBDegraded); ("unhealthy", DBUnhealthy)].
Definition lit_SchedulerState : list (string * SchedulerState) :=
  [("running", SchedRunning); ("degraded", SchedDegraded); ("stopped", SchedStopped)].

Definition read_AgentHeartbeatRequest (j : json) : option AgentHeartbeatRequest :=
  match j with
  | JObject o =>
      version ← required o "protocol_version" (read_int_from 1);
      agent_version ← required o "agent_version" (read_str 1 120);
      platform ← required o "platform" (read_str 1 120);
      architecture ← required o "architecture" (read_str 1 120);
      hostname ← required o "hostname" (read_str 1 253);
      capabilities ← required o "capabilities" read_AgentCapabilities;
      active ← required o "active_configuration_revision" (read_int_from 0);
      known ← required o "known_desired_configuration_revision" (read_int_from 0);
      depth ← required o "queue_depth" (read_int_from 0);
      bytes ← required o "queue_bytes" (read_int_from 0);
      oldest ← field o "oldest_pending_observation_at" (nullable to_aware) None;
      health ← required o "database_health" (lit_read lit_DatabaseHealth);
      scheduler ← required o "scheduler_state" (lit_read lit_SchedulerState);
      time ← required o "agent_time" to_aware;
      warnings ← field o "warnings" (read_list (read_str 0 500) 0 20) [];
      Some (mkAgentHeartbeatRequest version agent_version platform architecture hostname capabilities
        active known depth bytes (instant <$> oldest) health scheduler (instant time) warnings)
  | _ => None
  end.

Record AgentConfigurationAcknowledgement := mkAcknowledgement {
  ack_protocol_version : Z; ack_revision : Z; ack_content_hash : string; ack_activated_at : AwareDatetime }.

(** [pattern=r"^sha256:[0-9a-f]{64}$"]. *)
Definition content_hash_ok (s : string) : bool :=
  startswith "sha256:" s && fingerprint_ok (drop_chars 7 s).

Definition read_AgentConfigurationAcknowledgement (j : json) : option AgentConfigurationAcknowledgement :=
  match j with
  | JObject o =>
      version ← required o "protocol_version" (read_int_from 1);
      revision ← required o "revision" (read_int_from 1);
      hash ← required o "content_hash" (fun v => s ← to_str v; checked content_hash_ok s);
      time ← required o "activated_at" to_aware;
      Some (mkAcknowledgement version revision hash time)
  | _ => None
  end.

(** ** Monitoring requests *)

Definition read_description (o : list (string * json)) : option (option string) :=
  field o "description" (nullable to_str) None.

Definition read_AgentCreate (j : json) : option AgentCreate :=
  match j with
  | JObject o =>
      name ← required o "name" (read_str 1 200);
      description ← read_description o;
      enabled ← field o "enabled" to_bool true;
      Some (mkAgentCreate name description enabled)
  | _ => None
  end.

Definition read_TargetCreate (j : json) : option TargetCreate :=
  match j with
  | JObject o =>
      name ← required o "name" (read_str 1 200);
      description ← read_description o;
      address ← required o "address" (read_str 1 253);
      enabled ← field o "enabled" to_bool true;
      Some (mkTargetCreate name description address enabled)
  | _ => None
  end.

(** [dict[str, Any]]. *)
Definition read_object (j : json) : option json := match j with JObject _ => Some j | _ => None end.

(** [MonitorCreate] and [MonitorUpdate]. *)
Definition read_MonitorCreate (j : json) : option MonitorCreate :=
  match j with
  | JObject o =>
      target ← required o "target_id" to_uuid;
      name ← required o "name" (read_str 1 200);
      description ← read_description o;
      type ← required o "probe_type" (lit_read lit_ProbeType);
      interval ← required o "interval_seconds" (read_int_from 1);
      timeout ← required o "timeout_seconds" (read_int_from 1);
      configuration ← field o "configuration" read_object (JObject []);
      Some (mkMonitorCreate target name description type interval timeout configuration)
  | _ => None
  end.

(** [GroupCreate] and [AgentGroupCreate], which adds [enabled]. *)
Definition read_GroupCreate (j : json) : option AgentGroupCreate :=
  match j with
  | JObject o =>
      name ← required o "name" (read_str 1 200);
      description ← read_description o;
      parent ← field o "parent_id" (nullable to_uuid) None;
      Some (mkAgentGroupCreate name description parent true)
  | _ => None
  end.

Definition read_AgentGroupCreate (j : json) : option AgentGroupCreate :=
  match j with
  | JObject o =>
      group ← read_GroupCreate j;
      enabled ← field o "enabled" to_bool true;
      Some (mkAgentGroupCreate (gc_name group) (gc_description group) (gc_parent_id group) enabled)
  | _ => None
  end.

(** ** Account requests *)

Context {E : EmailValidator}.

Definition read_email (j : json) : option string := s ← to_str j; validate_email s.

Definition read_LoginRequest (j : json) : option LoginRequest :=
  match j with
  | JObject o =>
      email ← required o "email" read_email;
      password ← required o "password" (read_str 8 256);
      Some (mkLoginRequest email password)
  | _ => None
  end.

Definition read_SignupRequest (j : json) : option SignupRequest :=
  match j with
  | JObject o =>
      email ← required o "email" read_email;
      password ← required o "password" (read_str 12 256);
      first ← required o "first_name" (read_str 1 150);
      last ← required o "last_name" (read_str 1 150);
      realm ← field o "realm_name" (nullable (read_str 0 200)) None;
      Some (mkSignupRequest email password first last realm)
  | _ => None
  end.

Definition read_EmailRequest (j : json) : option string :=
  match j with JObject o => required o "email" read_email | _ => None end.
Definition read_TokenRequest (j : json) : option string :=
  match j with JObject o => required o "token" (read_str 32 256) | _ => None end.

Definition read_PasswordResetRequest (j : json) : option (string * string) :=
  match j with
  | JObject o =>
      token ← read_TokenRequest j;
      password ← required o "password" (read_str 12 256);
      Some (token, password)
  | _ => None
  end.

Definition read_TwoFactorVerifyRequest (j : json) : option TwoFactorVerifyRequest :=
  match j with
  | JObject o =>
      token ← required o "challenge_token" to_str;
      code ← required o "code" (read_str 6 32);
      recovery ← field o "recovery_code" to_bool false;
      Some (mkTwoFactorVerifyRequest token code recovery)
  | _ => None
  end.

Definition read_TotpSetupVerifyRequest (j : json) : option (uuid * string) :=
  match j with
  | JObject o =>
      method ← required o "method_id" to_uuid;
      code ← required o "code" (read_str 6 8);
      Some (method, code)
  | _ => None
  end.

Definition read_WebAuthnRegistrationVerifyRequest (j : json) : option (uuid * json * string) :=
  match j with
  | JObject o =>
      challenge ← required o "challenge_id" to_uuid;
      credential ← required o "credential" read_object;
      name ← field o "name" (read_str 0 120) "Passkey";
      Some (challenge, credential, name)
  | _ => None
  end.

Definition read_WebAuthnAuthenticationVerifyRequest (j : json) : option (uuid * json) :=
  match j with
  | JObject o =>
      challenge ← required o "challenge_id" to_uuid;
      credential ← required o "credential" read_object;
      Some (challenge, credential)
  | _ => None
  end.
End Read.
