(* ===== verification/Responses.v ===== *)
(** * Response bodies (schemas/monitoring_api.py, schemas/dashboard.py, schemas/auth.py,
    schemas/agent_protocol.py)

    The JSON of each response model, its members in the order of the class.  Columns that only
    responses show, the ids of relationship rows and the times of creation and change, are the
    parameter [Columns]. *)

From Stdlib Require Import Ascii QArith.
From S2P Require Import Prelude PyText Json Platform Models ProbeConfig Domain.
From S2P Require Import Credentials Configuration ObservationSchema Observations Dashboard Accounts.
From S2P Require Import Lifecycle WebAuthn AuthApi Api Requests.
Local Open Scope Z_scope.

(** By table and id, or by table and unique key. *)
Class Columns := {
  created_at : string -> uuid -> Z;
  updated_at : string -> uuid -> Z;
  relation_id : string -> uuid * uuid * uuid -> uuid;
  relation_created_at : string -> uuid * uuid * uuid -> Z;
  relation_updated_at : string -> uuid * uuid * uuid -> Z;
}.

Definition j_uuid (u : uuid) : json := JString (str_uuid u).

Section Encode.
Context {P : Platform} {C : Columns}.

(** A timestamp column: an instant in UTC. *)
Definition j_time (t : Z) : json := JString (datetime_json t 0).

(** ** schemas/monitoring_api.py *)

(** The fields of [MonitoringResponse]. *)
Definition encode_base (table : string) (id realm : uuid) : list (string * json) :=
  [("id", j_uuid id); ("realm_id", j_uuid realm); ("created_at", j_time (created_at table id));
   ("updated_at", j_time (updated_at table id))].

Definition encode_AgentResponse (a : Agent) : json :=
  JObject (encode_base "agents" (a_id a) (a_realm_id a) ++
    [("name", JString (a_name a)); ("description", json_opt JString (a_description a));
     ("enabled", JBool (a_enabled a)); ("archived_at", json_opt j_time (a_archived_at a))]).

Definition encode_TargetResponse (t : Target) : json :=
  JObject (encode_base "targets" (t_id t) (t_realm_id t) ++
    [("name", JString (t_name t)); ("description", json_opt JString (t_description t));
     ("address", JString (t_address t)); ("enabled", JBool (t_enabled t));
     ("archived_at", json_opt j_time (t_archived_at t))]).

Definition encode_MonitorResponse (m : Monitor) : json :=
  JObject (encode_base "monitors" (m_id m) (m_realm_id m) ++
    [("target_id", j_uuid (m_target_id m)); ("name", JString (m_name m));
     ("description", json_opt JString (m_description m));
     ("probe_type", JString (str_ProbeType (m_probe_type m)));
     ("interval_seconds", JInt (m_interval_seconds m)); ("timeout_seconds", JInt (m_timeout_seconds m));
     ("configuration", m_configuration m); ("enabled", JBool (m_enabled m));
     ("revision", JInt (m_revision m)); ("archived_at", json_opt j_time (m_archived_at m))]).

Definition encode_AgentGroupResponse (g : AgentGroup) : json :=
  JObject (encode_base "agent_groups" (g_id g) (g_realm_id g) ++
    [("parent_id", json_opt j_uuid (g_parent_id g)); ("name", JString (g_name g));
     ("description", json_opt JString (g_description g)); ("enabled", JBool (g_enabled g));
     ("archived_at", json_opt j_time (g_archived_at g))]).

Definition encode_TargetGroupResponse (g : TargetGroup) : json :=
  JObject (encode_base "target_groups" (tg_id g) (tg_realm_id g) ++
    [("parent_id", json_opt j_uuid (tg_parent_id g)); ("name", JString (tg_name g));
     ("description", json_opt JString (tg_description g));
     ("archived_at", json_opt j_time (tg_archived_at g))]).

Definition encode_AgentGroupMembershipResponse (k : uuid * uuid * uuid) : json :=
  JObject [("id", j_uuid (relation_id "agent_group_memberships" k)); ("realm_id", j_uuid k.1.1);
    ("agent_group_id", j_uuid k.1.2); ("agent_id", j_uuid k.2);
    ("created_at", j_time (relation_created_at "agent_group_memberships" k))].

Definition encode_TargetGroupMembershipResponse (k : uuid * uuid * uuid) : json :=
  JObject [("id", j_uuid (relation_id "target_group_memberships" k)); ("realm_id", j_uuid k.1.1);
    ("target_group_id", j_uuid k.1.2); ("target_id", j_uuid k.2);
    ("created_at", j_time (relation_created_at "target_group_memberships" k))].

Definition relation_base (table : string) (k : uuid * uuid * uuid) : list (string * json) :=
  [("id", j_uuid (relation_id table k)); ("realm_id", j_uuid k.1.1);
   ("created_at", j_time (relation_created_at table k));
   ("updated_at", j_time (relation_updated_at table k))].

Definition encode_MonitorAgentAssignmentResponse (k : uuid * uuid * uuid) (enabled : bool) : json :=
  JObject (relation_base "monitor_agent_assignments" k ++
    [("monitor_id", j_uuid k.1.2); ("agent_id", j_uuid k.2); ("enabled", JBool enabled)]).

Definition encode_MonitorAgentGroupAssignmentResponse (k : uuid * uuid * uuid) (enabled : bool) : json :=
  JObject (relation_base "monitor_agent_group_assignments" k ++
    [("monitor_id", j_uuid k.1.2); ("agent_group_id", j_uuid k.2); ("enabled", JBool enabled)]).

Definition encode_IcmpHistoryPoint (p : ObservationRow * IcmpObservationResult) : json :=
  let '(o, r) := p in
  JObject [("scheduled_at", j_time (or_scheduled_at o)); ("agent_id", j_uuid (or_agent_id o));
    ("assessment", JString (str_Assessment (or_assessment o)));
    ("packets_sent", JInt (ir_packets_sent r)); ("packets_received", JInt (ir_packets_received r));
    ("packet_loss_percent", JFloat (ir_packet_loss_percent r));
    ("min_rtt_ms", json_opt JFloat (ir_min_rtt_ms r)); ("avg_rtt_ms", json_opt JFloat (ir_avg_rtt_ms r));
    ("median_rtt_ms", json_opt JFloat (ir_median_rtt_ms r)); ("max_rtt_ms", json_opt JFloat (ir_max_rtt_ms r));
    ("p95_rtt_ms", json_opt JFloat (ir_p95_rtt_ms r)); ("jitter_ms", json_opt JFloat (ir_jitter_ms r));
    ("rtt_samples_ms", JArray (map JFloat (ir_rtt_samples_ms r)))].

(** ** schemas/dashboard.py *)

Definition str_AvailabilityState (s : AvailabilityState) : string :=
  match s with
  | pending_configuration => "pending_configuration" | no_data_yet => "no_data_yet"
  | av_healthy => "healthy" | av_unhealthy => "unhealthy" | probe_error => "probe_error"
  | overdue => "overdue" | agent_stale => "agent_stale" | agent_offline => "agent_offline"
  | av_disabled => "disabled"
  end.
Definition str_MonitorHeadline (h : MonitorHeadline) : string :=
  match h with
  | hl_healthy => "healthy" | hl_degraded => "degraded" | hl_unhealthy => "unhealthy"
  | hl_unknown => "unknown" | hl_disabled => "disabled"
  end.
Definition j_execution (s : ExecutionStatus) : json := JString (str_ExecutionStatus s).
Definition j_assessment (a : Assessment) : json := JString (str_Assessment a).

Definition summary_fields (o : ObservationRow) : list (string * json) :=
  [("observation_id", j_uuid (or_observation_id o)); ("scheduled_at", j_time (or_scheduled_at o));
   ("received_at", j_time (or_received_at o)); ("monitor_id", j_uuid (or_monitor_id o));
   ("agent_id", j_uuid (or_agent_id o)); ("probe_type", JString (str_ProbeType (or_probe_type o)));
   ("execution_status", j_execution (or_execution_status o)); ("assessment", j_assessment (or_assessment o));
   ("error_category", json_opt (fun c => JString (str_ErrorCategory c)) (or_error_category o));
   ("error_code", json_opt JString (or_error_code o)); ("error_message", json_opt JString (or_error_message o))].

Definition encode_ObservationSummary (o : ObservationRow) : json := JObject (summary_fields o).

Definition encode_MonitorAgentState (s : MonitorAgentState) : json :=
  JObject [("monitor_id", j_uuid (ms_monitor_id s)); ("monitor_name", JString (ms_monitor_name s));
    ("agent_id", j_uuid (ms_agent_id s)); ("agent_name", JString (ms_agent_name s));
    ("probe_type", JString (str_ProbeType (ms_probe_type s)));
    ("availability_state", JString (str_AvailabilityState (ms_availability_state s)));
    ("desired_config_revision", JInt (ms_desired_config_revision s));
    ("acknowledged_config_revision", JInt (ms_acknowledged_config_revision s));
    ("last_observation_id", json_opt j_uuid (ms_last_observation_id s));
    ("last_scheduled_at", json_opt j_time (ms_last_scheduled_at s));
    ("last_received_at", json_opt j_time (ms_last_received_at s));
    ("execution_status", json_opt j_execution (ms_execution_status s));
    ("assessment", json_opt j_assessment (ms_assessment s))].

Definition encode_MonitorStateSummary (s : MonitorStateSummary) : json :=
  JObject [("monitor_id", j_uuid (su_monitor_id s)); ("monitor_name", JString (su_monitor_name s));
    ("target_id", j_uuid (su_target_id s)); ("target_name", JString (su_target_name s));
    ("probe_type", JString (str_ProbeType (su_probe_type s)));
    ("headline", JString (str_MonitorHeadline (su_headline s)));
    ("effective_agents", JInt (su_effective_agents s)); ("healthy_agents", JInt (su_healthy_agents s));
    ("unhealthy_agents", JInt (su_unhealthy_agents s)); ("unavailable_agents", JInt (su_unavailable_agents s));
    ("coverage_percent", JFloat (su_coverage_percent s));
    ("agents", JArray (map encode_MonitorAgentState (su_agents s)))].

(** [ProbeResult]: the five models have the fields of the results the agents sent. *)
Definition encode_ProbeResult (r : ObservationResult) : json :=
  match r with
  | IcmpResult r => JObject [
      ("packets_sent", JInt (ir_packets_sent r)); ("packets_received", JInt (ir_packets_received r));
      ("packet_loss_percent", JFloat (ir_packet_loss_percent r));
      ("min_rtt_ms", json_opt JFloat (ir_min_rtt_ms r)); ("avg_rtt_ms", json_opt JFloat (ir_avg_rtt_ms r));
      ("median_rtt_ms", json_opt JFloat (ir_median_rtt_ms r)); ("max_rtt_ms", json_opt JFloat (ir_max_rtt_ms r));
      ("p95_rtt_ms", json_opt JFloat (ir_p95_rtt_ms r)); ("jitter_ms", json_opt JFloat (ir_jitter_ms r));
      ("rtt_samples_ms", JArray (map JFloat (ir_rtt_samples_ms r)))]
  | HttpResult r => JObject [
      ("method", JString (str_HttpMethod (hr_method r))); ("scheme", JString (str_UrlScheme (hr_scheme r)));
      ("status_code", json_opt JInt (hr_status_code r)); ("redirect_count", JInt (hr_redirect_count r));
      ("response_size_bytes", json_opt JInt (hr_response_size_bytes r));
      ("dns_ms", json_opt JFloat (hr_dns_ms r)); ("connect_ms", json_opt JFloat (hr_connect_ms r));
      ("tls_ms", json_opt JFloat (hr_tls_ms r)); ("ttfb_ms", json_opt JFloat (hr_ttfb_ms r));
      ("total_ms", json_opt JFloat (hr_total_ms r)); ("assertions_total", JInt (hr_assertions_total r));
      ("assertions_failed", JInt (hr_assertions_failed r));
      ("final_url_redacted", json_opt JString (hr_final_url_redacted r))]
  | TcpResult r => JObject [
      ("port", JInt (tr_port r)); ("address_used", json_opt JString (tr_address_used r));
      ("connect_ms", json_opt JFloat (tr_connect_ms r))]
  | DnsResult r => JObject [
      ("resolver_address", json_opt JString (dr_resolver_address r));
      ("query_name", JString (dr_query_name r)); ("query_type", JString (str_DnsQueryType (dr_query_type r)));
      ("response_code", json_opt JString (dr_response_code r)); ("response_ms", json_opt JFloat (dr_response_ms r));
      ("answer_count", JInt (dr_answer_count r)); ("answers", JArray (map dump_DnsAnswer (dr_answers r)));
      ("truncated", JBool (dr_truncated r)); ("authoritative", JBool (dr_authoritative r));
      ("assertions_total", JInt (dr_assertions_total r)); ("assertions_failed", JInt (dr_assertions_failed r))]
  | TlsResult r => JObject [
      ("port", JInt (lr_port r)); ("server_name", JString (lr_server_name r));
      ("protocol_version", json_opt JString (lr_protocol_version r));
      ("cipher_suite", json_opt JString (lr_cipher_suite r)); ("handshake_ms", json_opt JFloat (lr_handshake_ms r));
      ("certificate_present", JBool (lr_certificate_present r));
      ("hostname_valid", json_opt JBool (lr_hostname_valid r)); ("chain_valid", json_opt JBool (lr_chain_valid r));
      ("not_before", json_opt (fun d => j_time (instant d)) (lr_not_before r));
      ("not_after", json_opt (fun d => j_time (instant d)) (lr_not_after r));
      ("days_remaining", json_opt JFloat (lr_days_remaining r));
      ("subject_name", json_opt JString (lr_subject_name r)); ("issuer_name", json_opt JString (lr_issuer_name r));
      ("serial_number", json_opt JString (lr_serial_number r));
      ("fingerprint_sha256", json_opt JString (lr_fingerprint_sha256 r))]
  end.

Definition encode_ProbeHistoryPoint (p : ObservationRow * option ObservationResult) : json :=
  JObject (summary_fields p.1 ++ [("result", json_opt encode_ProbeResult p.2)]).

(** ** schemas/agent_protocol.py *)

Definition encode_EnrolmentTokenResponse (r : uuid * uuid * string * Z) : json :=
  let '(id, agent, token, expires_at) := r in
  JObject [("id", j_uuid id); ("agent_id", j_uuid agent); ("enrolment_token", JString token);
    ("expires_at", j_time expires_at)].

Definition encode_AgentCredentialResponse (c : AgentCredential) : json :=
  JObject [("id", j_uuid (cr_id c)); ("agent_id", j_uuid (cr_agent_id c)); ("name", JString (cr_name c));
    ("created_at", j_time (cr_created_at c)); ("last_used_at", json_opt j_time (cr_last_used_at c));
    ("expires_at", json_opt j_time (cr_expires_at c)); ("revoked_at", json_opt j_time (cr_revoked_at c))].

(** [AgentStatusResponse]; an agent without a heartbeat has the values of the first branch of
    [get_agent_status]. *)
Definition encode_AgentStatusResponse (r : uuid * bool * option AgentOperationalState) : json :=
  let '(agent, online, state) := r in
  match state with
  | None => JObject [("agent_id", j_uuid agent); ("online", JBool online); ("last_heartbeat_at", JNull);
      ("agent_version", JNull); ("platform", JNull); ("architecture", JNull); ("hostname", JNull);
      ("capabilities", JObject []); ("active_configuration_revision", JInt 0);
      ("known_desired_configuration_revision", JInt 0); ("queue_depth", JInt 0); ("queue_bytes", JInt 0);
      ("oldest_pending_observation_at", JNull); ("database_health", JNull); ("scheduler_state", JNull);
      ("clock_offset_ms", JNull); ("warnings", JArray [])]
  | Some s => JObject [("agent_id", j_uuid agent); ("online", JBool online);
      ("last_heartbeat_at", j_time (op_last_heartbeat_at s)); ("agent_version", JString (op_agent_version s));
      ("platform", JString (op_platform s)); ("architecture", JString (op_architecture s));
      ("hostname", JString (op_hostname s)); ("capabilities", op_capabilities s);
      ("active_configuration_revision", JInt (op_active_configuration_revision s));
      ("known_desired_configuration_revision", JInt (op_known_desired_configuration_revision s));
      ("queue_depth", JInt (op_queue_depth s)); ("queue_bytes", JInt (op_queue_bytes s));
      ("oldest_pending_observation_at", json_opt j_time (op_oldest_pending_observation_at s));
      ("database_health", JString (op_database_health s)); ("scheduler_state", JString (op_scheduler_state s));
      ("clock_offset_ms", JInt (op_clock_offset_ms s)); ("warnings", JArray (map JString (op_warnings s)))]
  end.

Definition encode_AgentEnrolmentResponse (r : AgentEnrolmentResponse) : json :=
  JObject [("protocol_version", JInt 1); ("realm_id", j_uuid (er_realm_id r)); ("agent_id", j_uuid (er_agent_id r));
    ("credential_id", j_uuid (er_credential_id r)); ("credential", JString (er_credential r));
    ("server_time", j_time (er_server_time r));
    ("heartbeat_interval_seconds", JInt (er_heartbeat_interval_seconds r));
    ("configuration_poll_interval_seconds", JInt (er_configuration_poll_interval_seconds r))].

Definition encode_AgentHeartbeatResponse (r : AgentHeartbeatResponse) : json :=
  JObject [("protocol_version", JInt 1); ("minimum_protocol_version", JInt 1); ("maximum_protocol_version", JInt 1);
    ("server_time", j_time (hr_server_time r));
    ("heartbeat_interval_seconds", JInt (hr_heartbeat_interval_seconds r));
    ("configuration_poll_interval_seconds", JInt (hr_configuration_poll_interval_seconds r));
    ("desired_configuration_revision", JInt (hr_desired_configuration_revision r));
    ("desired_configuration_hash", JString (hr_desired_configuration_hash r));
    ("configuration_update_available", JBool (hr_configuration_update_available r))].

(** [AgentMonitorConfiguration]: the response is built from the entries of the content, which
    pydantic reads as these models and prints again. *)
Record AgentMonitorConfiguration := mkAgentMonitorConfiguration {
  mcf_monitor_id : uuid; mcf_target_id : uuid; mcf_monitor_revision : Z; mcf_target_address : string;
  mcf_probe_type : string; mcf_probe_schema_version : Z; mcf_interval_seconds : Z; mcf_timeout_seconds : Z;
  mcf_configuration : json }.

Definition read_AgentMonitorConfiguration `{Coercions} `{Decoder} (j : json) :
    option AgentMonitorConfiguration :=
  match j with
  | JObject o =>
      monitor ← required o "monitor_id" to_uuid;
      target ← required o "target_id" to_uuid;
      revision ← required o "monitor_revision" to_int;
      address ← required o "target_address" to_str;
      type ← required o "probe_type" to_str;
      version ← required o "probe_schema_version" to_int;
      interval ← required o "interval_seconds" to_int;
      timeout ← required o "timeout_seconds" to_int;
      _ ← field o "missed_run_policy" (lit_read [("skip", tt)]) tt;
      configuration ← required o "configuration" read_object;
      Some (mkAgentMonitorConfiguration monitor target revision address type version interval timeout
              configuration)
  | _ => None
  end.

Definition encode_AgentMonitorConfiguration (c : AgentMonitorConfiguration) : json :=
  JObject [("monitor_id", j_uuid (mcf_monitor_id c)); ("target_id", j_uuid (mcf_target_id c));
    ("monitor_revision", JInt (mcf_monitor_revision c)); ("target_address", JString (mcf_target_address c));
    ("probe_type", JString (mcf_probe_type c)); ("probe_schema_version", JInt (mcf_probe_schema_version c));
    ("interval_seconds", JInt (mcf_interval_seconds c)); ("timeout_seconds", JInt (mcf_timeout_seconds c));
    ("missed_run_policy", JString "skip"); ("configuration", mcf_configuration c)].

(** [None] where an entry is not such a model. *)
Definition encode_AgentConfigurationResponse `{Coercions} `{Decoder} (r : AgentConfigurationResponse) :
    option json :=
  entries ← read_items read_AgentMonitorConfiguration (cf_monitors r);
  Some (JObject [("protocol_version", JInt 1); ("configuration_schema_version", JInt 1);
    ("agent_id", j_uuid (cf_agent_id r)); ("realm_id", j_uuid (cf_realm_id r)); ("revision", JInt (cf_revision r));
    ("content_hash", JString (cf_content_hash r)); ("generated_at", j_time (cf_generated_at r));
    ("monitors", JArray (map encode_AgentMonitorConfiguration entries))]).

Definition encode_AcknowledgementResponse (r : Z * string) : json :=
  JObject [("protocol_version", JInt 1); ("acknowledged_revision", JInt r.1);
    ("acknowledged_content_hash", JString r.2)].

Definition str_Disposition (d : Disposition) : string :=
  match d with Accepted => "accepted" | Duplicate => "duplicate" | Rejected => "rejected" end.

Definition encode_AgentObservationResult (r : AgentObservationResult) : json :=
  JObject [("scheduled_at", j_datetime (ar_scheduled_at r)); ("observation_id", j_uuid (ar_observation_id r));
    ("disposition", JString (str_Disposition (ar_disposition r))); ("code", json_opt JString (ar_code r));
    ("retryable", JBool (ar_retryable r))].

Definition encode_AgentObservationUploadResponse (r : uuid * list AgentObservationResult) : json :=
  JObject [("protocol_version", JInt 1); ("batch_id", j_uuid r.1);
    ("results", JArray (map encode_AgentObservationResult r.2)); ("retry_after_seconds", JNull)].

(** ** schemas/auth.py *)

Definition encode_RealmSummary (r : RealmSummary) : json :=
  JObject [("id", j_uuid (rs_id r)); ("name", JString (rs_name r)); ("slug", JString (rs_slug r));
    ("role", JString (rs_role r))].

Definition encode_UserResponse (u : UserResponse) : json :=
  JObject [("id", j_uuid (ur_id u)); ("email", JString (ur_email u)); ("first_name", JString (ur_first_name u));
    ("last_name", JString (ur_last_name u)); ("full_name", JString (ur_full_name u));
    ("email_verified", JBool (ur_email_verified u)); ("is_superuser", JBool (ur_is_superuser u));
    ("active_realm_id", json_opt j_uuid (ur_active_realm_id u));
    ("realms", JArray (map encode_RealmSummary (ur_realms u)))].

Definition encode_AuthResponse (u : UserResponse) : json := JObject [("user", encode_UserResponse u)].

Definition encode_LoginResponse (r : LoginResponse) : json :=
  JObject [("user", json_opt encode_UserResponse (lr_user r));
    ("requires_two_factor", JBool (lr_requires_two_factor r));
    ("challenge_token", json_opt JString (lr_challenge_token r))].

Definition encode_TotpSetupResponse (r : uuid * string * string) : json :=
  let '(method, secret, uri) := r in
  JObject [("method_id", j_uuid method); ("secret", JString secret); ("provisioning_uri", JString uri)].
Definition encode_RecoveryCodesResponse (codes : list string) : json :=
  JObject [("recovery_codes", JArray (map JString codes))].
Definition encode_WebAuthnOptionsResponse (r : uuid * json) : json :=
  JObject [("challenge_id", j_uuid r.1); ("options", r.2)].

Definition encode_PasskeySummary `{IsoFormat} (c : WebAuthnCredential) : json :=
  JObject [("id", j_uuid (wc_id c)); ("name", JString (wc_name c)); ("device_type", JString (wc_device_type c));
    ("backed_up", JBool (wc_backed_up c)); ("transports", JArray (map JString (wc_transports c)));
    ("created_at", JString (isoformat (wc_created_at c)));
    ("last_used_at", json_opt (fun t => JString (isoformat t)) (wc_last_used_at c))].

Definition encode_SecuritySummary `{IsoFormat} (r : bool * Z * list WebAuthnCredential) : json :=
  let '(enabled, remaining, passkeys) := r in
  JObject [("two_factor_enabled", JBool enabled); ("recovery_codes_remaining", JInt remaining);
    ("passkeys", JArray (map encode_PasskeySummary passkeys))].
End Encode.
