(* ===== verification/AgentContract.v ===== *)
(** * The configuration as the agent checks it (agent/protocol/types.go)

    The agent decodes the response, builds the content again from its fields, prints it with
    Go's [json.Marshal] and compares the hash.  The control plane prints the content with
    Python's [json.dumps] ([Json.dumps]).  The printers differ: Go escapes the characters
    [<], [>] and [&], Python everything outside ASCII; and the numbers of a probe configuration
    pass through a [float64], which prints without a fraction when it is whole. *)

From Stdlib Require Import Ascii QArith.
From stdpp Require Import pretty.
From S2P Require Import Prelude PyText Json Platform Models ProbeConfig Domain.
From S2P Require Import Credentials Configuration ObservationSchema Observations Dashboard Accounts.
From S2P Require Import Lifecycle WebAuthn AuthApi Api Requests Responses.
Local Open Scope Z_scope.

(** Go's conversions: an integer literal to a [float64] (exact up to 2^53), the text of a
    [float64] (whole numbers below 1e21 without fraction or exponent), and whether a text is
    a time of RFC 3339. *)
Class GoLib {P : Platform} := {
  float64 : Z -> Q;
  float64_exact : forall z, Z.abs z <= 2 ^ 53 -> float64 z = inject_Z z;
  go_float : Q -> string;
  go_float_whole : forall z, Z.abs z < 10 ^ 21 -> go_float (inject_Z z) = pretty z;
  go_float_chars : forall q, str_forall (fun c => is_digit c || is_char "-" c || is_char "+" c ||
    is_char "." c || is_char "e" c) (go_float q) = true;
  go_time : string -> bool;
  go_time_utc : forall t, 0 <= t < 253402300800000000 -> go_time (datetime_json t 0) = true;
}.

Section Marshal.
Context {P : Platform} {G : GoLib}.

(** [json.Marshal] of a string. *)
Definition go_escape_char (c : ascii) : string :=
  let n := code c in
  if (n =? 34)%N then backslash +:+ dquote
  else if (n =? 92)%N then backslash +:+ backslash
  else if (n =? 10)%N then backslash +:+ "n"
  else if (n =? 13)%N then backslash +:+ "r"
  else if (n =? 9)%N then backslash +:+ "t"
  else if (n =? 8)%N then backslash +:+ "b"
  else if (n =? 12)%N then backslash +:+ "f"
  else if (n <? 32)%N || (n =? 38)%N || (n =? 60)%N || (n =? 62)%N
  then backslash +:+ "u" +:+ to_hex 4 n EmptyString
  else String c EmptyString.

Fixpoint go_escape (s : string) : string :=
  match s with
  | EmptyString => EmptyString
  | String c s' => go_escape_char c +:+ go_escape s'
  end.

Definition go_quote (s : string) : string := dquote +:+ go_escape s +:+ dquote.

(** [json.Unmarshal] into [any]: every number is a [float64]. *)
Fixpoint go_any (j : json) : json :=
  match j with
  | JInt z => JFloat (float64 z)
  | JArray l => JArray (map go_any l)
  | JObject fields => JObject (map (fun f => match f with (k, v) => (k, go_any v) end) fields)
  | _ => j
  end.

(** [json.Marshal]: the members of a map in the order of their keys. *)
Fixpoint go_marshal (j : json) : string :=
  match j with
  | JNull => "null"
  | JBool true => "true"
  | JBool false => "false"
  | JInt z => pretty z
  | JFloat q => go_float q
  | JString s => go_quote s
  | JArray l => "[" +:+ join "," (map go_marshal l) +:+ "]"
  | JObject fields =>
      let members := map (fun f => match f with (k, v) => (k, go_marshal v) end) fields in
      "{" +:+ join "," (map (fun m => go_quote m.1 +:+ ":" +:+ m.2) (sort_members members))
          +:+ "}"
  end.
End Marshal.

(** ** The messages *)

Record MonitorConfiguration := mkMonitorConfiguration {
  MonitorID : string; TargetID : string; MonitorRevision : Z; TargetAddress : string;
  ProbeType_ : string; ProbeSchemaVersion : Z; IntervalSeconds : Z; TimeoutSeconds : Z;
  MissedRunPolicy : string; Configuration_ : list (string * json) }.

Record ConfigurationResponse := mkConfigurationResponse {
  ProtocolVersion : Z; ConfigurationSchemaVersion : Z; AgentID : string; RealmID : string;
  Revision : Z; ContentHash : string; Monitors : list MonitorConfiguration }.

Record GoProbeCapability := mkGoProbeCapability { SchemaVersions : list Z; Available : bool }.
Record GoCapabilities := mkGoCapabilities {
  Probes : list (string * GoProbeCapability);
  Runtime : list (string * bool);
  ExternalTools : list (string * string) }.

(** What the agent puts into a heartbeat. *)
Definition marshal_capability (c : GoProbeCapability) : json :=
  JObject [("schema_versions", JArray (map JInt (SchemaVersions c))); ("available", JBool (Available c))].
Definition marshal_capabilities (c : GoCapabilities) : json :=
  JObject [("probes", print_dict marshal_capability (Probes c)); ("runtime", print_dict JBool (Runtime c));
    ("external_tools", print_dict JString (ExternalTools c))].

(** [capabilities.Probes[key]]. *)
Fixpoint probe_of (key : string) (l : list (string * GoProbeCapability)) : option GoProbeCapability :=
  match l with
  | [] => None
  | (k, c) :: l' => if String.eqb k key then Some c else probe_of key l'
  end.

(** ** Decoding the response *)

(** A member that is absent or null leaves the zero value. *)
Definition go_member {A} (o : list (string * json)) (key : string) (zero : A) (read : json -> option A) :
    option A :=
  match obj_get key o with None | Some JNull => Some zero | Some j => read j end.
Definition go_int64 (j : json) : option Z :=
  match j with JInt z => if fits_int8 z then Some z else None | _ => None end.
Definition go_string (j : json) : option string := match j with JString s => Some s | _ => None end.
Definition go_map (j : json) : option (list (string * json)) :=
  match j with JObject o => Some o | _ => None end.

Definition decode_monitor (j : json) : option MonitorConfiguration :=
  match j with
  | JObject o =>
      id ← go_member o "monitor_id" EmptyString go_string;
      target ← go_member o "target_id" EmptyString go_string;
      revision ← go_member o "monitor_revision" 0 go_int64;
      address ← go_member o "target_address" EmptyString go_string;
      type ← go_member o "probe_type" EmptyString go_string;
      version ← go_member o "probe_schema_version" 0 go_int64;
      interval ← go_member o "interval_seconds" 0 go_int64;
      timeout ← go_member o "timeout_seconds" 0 go_int64;
      policy ← go_member o "missed_run_policy" EmptyString go_string;
      configuration ← go_member o "configuration" [] go_map;
      Some (mkMonitorConfiguration id target revision address type version interval timeout policy configuration)
  | _ => None
  end.

Section Validate.
Context {P : Platform} {G : GoLib}.

Definition decode_configuration (j : json) : option ConfigurationResponse :=
  match j with
  | JObject o =>
      version ← go_member o "protocol_version" 0 go_int64;
      schema ← go_member o "configuration_schema_version" 0 go_int64;
      agent ← go_member o "agent_id" EmptyString go_string;
      realm ← go_member o "realm_id" EmptyString go_string;
      revision ← go_member o "revision" 0 go_int64;
      hash ← go_member o "content_hash" EmptyString go_string;
      _ ← go_member o "generated_at" tt (fun j => s ← go_string j; ensure (go_time s));
      monitors ← go_member o "monitors" [] (read_items decode_monitor);
      Some (mkConfigurationResponse version schema agent realm revision hash monitors)
  | _ => None
  end.

(** ** [ConfigurationResponse.Validate] *)

Inductive validation :=
| Accepted_ (canonical : string)
| ErrVersion | ErrConfigurationIdentity | ErrDuplicate (monitor : string)
| ErrConfigurationCapability (monitor probe : string) | ErrSchedule (monitor : string)
| ErrConfigurationHash.

(** The map the agent builds for a monitor. *)
Definition monitor_map (m : MonitorConfiguration) : json :=
  JObject [("monitor_id", JString (MonitorID m)); ("target_id", JString (TargetID m));
    ("monitor_revision", JInt (MonitorRevision m)); ("target_address", JString (TargetAddress m));
    ("probe_type", JString (ProbeType_ m)); ("probe_schema_version", JInt (ProbeSchemaVersion m));
    ("interval_seconds", JInt (IntervalSeconds m)); ("timeout_seconds", JInt (TimeoutSeconds m));
    ("missed_run_policy", JString (MissedRunPolicy m)); ("configuration", go_any (JObject (Configuration_ m)))].

Definition capable (capabilities : GoCapabilities) (m : MonitorConfiguration) : bool :=
  match probe_of (ProbeType_ m) (Probes capabilities) with
  | Some c => Available c && existsb (Z.eqb (ProbeSchemaVersion m)) (SchemaVersions c)
  | None => false
  end.

Definition schedule_ok (m : MonitorConfiguration) : bool :=
  (1 <=? IntervalSeconds m) && (1 <=? TimeoutSeconds m) && (TimeoutSeconds m <? IntervalSeconds m) &&
  String.eqb (MissedRunPolicy m) "skip".

(** The loop over the monitors: the first error, or the maps. *)
Fixpoint check_monitors (capabilities : GoCapabilities) (seen : list string) (l : list MonitorConfiguration) :
    validation + list json :=
  match l with
  | [] => inr []
  | m :: l' =>
      if existsb (String.eqb (MonitorID m)) seen then inl (ErrDuplicate (MonitorID m))
      else if negb (capable capabilities m) then inl (ErrConfigurationCapability (MonitorID m) (ProbeType_ m))
      else if negb (schedule_ok m) then inl (ErrSchedule (MonitorID m))
      else match check_monitors capabilities (MonitorID m :: seen) l' with
           | inl e => inl e
           | inr maps => inr (monitor_map m :: maps)
           end
  end.

(** The content the agent prints. *)
Definition agent_content (c : ConfigurationResponse) (maps : list json) : json :=
  JObject [("configuration_schema_version", JInt (ConfigurationSchemaVersion c)); ("agent_id", JString (AgentID c));
    ("realm_id", JString (RealmID c)); ("monitors", JArray maps)].

(** [strings.EqualFold] on the texts that occur here. *)
Definition equal_fold (x y : string) : bool := String.eqb (lower x) (lower y).

Definition Validate (c : ConfigurationResponse) (agent realm : string) (capabilities : GoCapabilities) : validation :=
  if negb (ProtocolVersion c =? 1) || negb (ConfigurationSchemaVersion c =? 1) || (Revision c <? 1) then ErrVersion
  else if negb (String.eqb (AgentID c) agent) || negb (String.eqb (RealmID c) realm) then ErrConfigurationIdentity
  else match check_monitors capabilities [] (Monitors c) with
       | inl e => e
       | inr maps =>
           let canonical := go_marshal (agent_content c maps) in
           if equal_fold ("sha256:" +:+ sha256_hexdigest canonical) (ContentHash c) then Accepted_ canonical
           else ErrConfigurationHash
       end.
End Validate.
