(* ===== verification/WireDemo.v ===== *)
(** * Stand-ins for the packages that read and print messages

    A decoder that accepts exactly the values that are already of the type, and Go's numbers,
    over the stand-ins of [Platform]. *)

From Stdlib Require Import Ascii QArith.
From stdpp Require Import pretty.
From S2P Require Import Prelude PyText Json Platform Models ProbeConfig Domain.
From S2P Require Import Credentials Configuration ObservationSchema Observations Dashboard Accounts.
From S2P Require Import Lifecycle WebAuthn AuthApi Api Requests Responses AgentContract.
Local Open Scope Z_scope.

#[local] Existing Instance example_platform.

(** The first of the candidates that set the most fields. *)
Fixpoint most_fields (o : list (string * json)) (l : list ObservationResult) : option ObservationResult :=
  match l with
  | [] => None
  | r :: l' => match most_fields o l' with
               | None => Some r
               | Some r' => if (fields_set o r <? fields_set o r')%nat then Some r' else Some r
               end
  end.

Lemma most_fields_spec o l r : most_fields o l = Some r ->
  r ∈ l /\ forall x, x ∈ l -> (fields_set o x <= fields_set o r)%nat.
Proof.
  revert r. induction l as [|y l IH]; intros r; [done|]. cbn [most_fields].
  destruct (most_fields o l) as [r'|] eqn:E.
  - destruct (IH r' eq_refl) as [Hin Hmax]. destruct (_ <? _)%nat eqn:Hlt; intros [= <-].
    + split; [by right|]. apply Nat.ltb_lt in Hlt. intros x [->|Hx]%elem_of_cons; [lia|auto].
    + split; [by left|]. apply Nat.ltb_ge in Hlt. intros x [->|Hx]%elem_of_cons; [lia|].
      specialize (Hmax x Hx). lia.
  - intros [= <-]. destruct l as [|z l]; [|cbn in E; by repeat case_match].
    split; [by left|]. intros x [->|Hx]%elem_of_cons; [lia|by apply elem_of_nil in Hx].
Qed.

Definition uuid_text (j : json) : option uuid :=
  match j with
  | JString s => u ← parse_uuid s; if (u <? 2 ^ 128)%N then Some u else None
  | _ => None
  end.

(** The texts of [example_platform]: the instant, an at sign and the offset. *)
Definition aware_text (j : json) : option AwareDatetime :=
  match j with
  | JString s =>
      let '(t, _, z) := partition "@" s in
      instant ← py_int10 t; offset ← py_int10 z; Some (mkAware instant offset)
  | _ => None
  end.

#[local] Instance example_decoder : Decoder.
Proof.
  refine {| to_uuid := uuid_text; to_aware := aware_text; smart_union := most_fields |}.
  - intros u Hu. unfold uuid_text. rewrite parse_str_uuid by done. simpl. by apply N.ltb_lt in Hu as ->.
  - intros j u. destruct j; try done. simpl. destruct (parse_uuid s); [|done]. simpl.
    destruct (_ <? _)%N eqn:E; [|done]. intros [= <-]. by apply N.ltb_lt.
  - intros d _. unfold aware_text.
    change (datetime_json (instant d) (utc_offset d)) with (pretty (instant d) +:+ String "@" (pretty (utc_offset d))).
    rewrite (partition_app "@").
    + rewrite !py_int10_pretty. by destruct d.
    + apply pretty_chars; [|done]. intros x. unfold pretty_N_char. by repeat case_match.
  - intros o l r. apply most_fields_spec.
  - intros o l r Hin _ Hbest. destruct (most_fields o l) as [x|] eqn:E.
    + destruct (most_fields_spec _ _ _ E) as [Hx Hmax]. destruct (Hbest x Hx) as [->|Hlt]; [done|].
      specialize (Hmax r Hin). lia.
    + destruct l as [|y l]; [by apply elem_of_nil in Hin|]. cbn in E. by repeat case_match.
  - done.
Defined.

#[local] Instance example_go : GoLib.
Proof.
  refine {| float64 := inject_Z;
            go_float q := if (Qden q =? 1)%positive then pretty (Qnum q) else "0.5";
            go_time _ := true |}; try done.
  intros q. destruct (_ =? _)%positive; [|done]. apply pretty_chars; [|done].
  intros x. unfold pretty_N_char. by repeat case_match.
Defined.
