(* ===== verification/RequestProps.v ===== *)
(** * What request bodies are read as

    An upload that is read satisfies the constraints of its schema, and the JSON of an upload
    is read back as that upload: each result is recognised among the members of the union. *)

From Stdlib Require Import Ascii QArith.
From S2P Require Import Prelude PyText Json Platform Models ProbeConfig ProbeConfigProps Domain.
From S2P Require Import Credentials Configuration ObservationSchema Observations Dashboard Accounts.
From S2P Require Import Lifecycle WebAuthn AuthApi Api Requests WireDemo.
Local Open Scope Z_scope.

Section Read.
Context {CO : Coercions} {P : Platform} {D : Decoder}.

(** ** What is read is valid *)

Lemma checked_Some {A} (ok : A -> bool) a b : checked ok a = Some b -> a = b /\ ok b = true.
Proof. unfold checked. destruct (ok a) eqn:E; [|done]. intros [= <-]. done. Qed.

Lemma checked_self {A} (ok : A -> bool) a b : b = a -> ok a = true -> checked ok b = Some a.
Proof. intros -> Ha. unfold checked. by rewrite Ha. Qed.

(** ** Printing and reading *)

(** The datetimes and ids of a message are ones JSON carries. *)
Definition result_wire (r : ObservationResult) : bool :=
  match r with
  | TlsResult r => opt_ok aware_ok (lr_not_before r) && opt_ok aware_ok (lr_not_after r)
  | _ => true
  end.
Definition observation_wire (o : AgentObservation) : bool :=
  (ob_observation_id o <? 2 ^ 128)%N && (ob_monitor_id o <? 2 ^ 128)%N && aware_ok (ob_scheduled_at o) &&
  aware_ok (ob_started_at o) && aware_ok (ob_finished_at o) && opt_ok result_wire (ob_result o).

Lemma nullable_opt {A} (print : A -> json) (read : json -> option A) (o : option A) :
  (forall a, print a <> JNull) -> (forall a, o = Some a -> read (print a) = Some a) ->
  nullable read (json_opt print o) = Some o.
Proof.
  intros Hn Hr. destruct o as [a|]; [|done]. specialize (Hr a eq_refl). specialize (Hn a). simpl.
  unfold nullable. by destruct (print a); simpl; rewrite ?Hr.
Qed.

Lemma nullable_float o : nullable to_float (json_opt JFloat o) = Some o.
Proof. apply nullable_opt; [done|]. intros a _. apply to_float_JFloat. Qed.
Lemma nullable_int_printed o : nullable to_int (json_opt JInt o) = Some o.
Proof. apply nullable_opt; [done|]. intros a _. apply to_int_JInt. Qed.
Lemma nullable_str o : nullable to_str (json_opt JString o) = Some o.
Proof. apply nullable_opt; [done|]. intros a _. apply to_str_JString. Qed.
Lemma nullable_bool o : nullable to_bool (json_opt JBool o) = Some o.
Proof. apply nullable_opt; [done|]. intros a _. apply to_bool_JBool. Qed.
Lemma nullable_aware o : opt_ok aware_ok o = true -> nullable to_aware (json_opt j_datetime o) = Some o.
Proof. intros Ho. apply nullable_opt; [done|]. intros a ->. by apply to_aware_text. Qed.

Lemma read_floats l : read_items to_float (JArray (map JFloat l)) = Some l.
Proof.
  simpl. induction l as [|q l IH]; [done|]. simpl. by rewrite to_float_JFloat, IH.
Qed.

Lemma lit_HttpMethod_print m : lit_read lit_HttpMethod (JString (str_HttpMethod m)) = Some m.
Proof. by destruct m. Qed.
Lemma lit_UrlScheme_print m : lit_read lit_UrlScheme (JString (str_UrlScheme m)) = Some m.
Proof. by destruct m. Qed.
Lemma lit_DnsQueryType_print m : lit_read lit_DnsQueryType (JString (str_DnsQueryType m)) = Some m.
Proof. by destruct m. Qed.
Lemma lit_ProbeType_print m : lit_read lit_ProbeType (JString (str_ProbeType m)) = Some m.
Proof. by destruct m. Qed.
Lemma lit_ExecutionStatus_print m : lit_read lit_ExecutionStatus (JString (str_ExecutionStatus m)) = Some m.
Proof. by destruct m. Qed.
Lemma lit_Assessment_print m : lit_read lit_Assessment (JString (str_Assessment m)) = Some m.
Proof. by destruct m. Qed.
Lemma lit_ErrorCategory_print m : lit_read lit_ErrorCategory (JString (str_ErrorCategory m)) = Some m.
Proof. by destruct m. Qed.

Create Rewrite HintDb wire.
#[local] Hint Rewrite nullable_float nullable_int_printed nullable_str nullable_bool read_floats @to_int_JInt @to_float_JFloat
  @to_bool_JBool @to_str_JString lit_HttpMethod_print lit_UrlScheme_print lit_DnsQueryType_print lit_ProbeType_print
  lit_ExecutionStatus_print lit_Assessment_print lit_ErrorCategory_print : wire.

(** Reads the fields of a printed object. *)
Ltac read_fields :=
  unfold required, field; cbn [obj_get String.eqb Ascii.eqb Bool.eqb]; autorewrite with wire;
  cbn [mbind option_bind].

Definition members (j : json) : list (string * json) := match j with JObject o => o | _ => [] end.

Lemma read_icmp_printed r : IcmpObservationResult_ok r = true ->
  read_icmp_result (members (dump_result (IcmpResult r))) = Some r.
Proof.
  intros Hok. unfold read_icmp_result. cbn [members dump_result]. read_fields.
  apply checked_self; [by destruct r|done].
Qed.

Lemma read_http_printed r : HttpObservationResult_ok r = true ->
  read_http_result (members (dump_result (HttpResult r))) = Some r.
Proof.
  intros Hok. unfold read_http_result. cbn [members dump_result]. read_fields.
  apply checked_self; [by destruct r|done].
Qed.

Lemma read_tcp_printed r : TcpObservationResult_ok r = true ->
  read_tcp_result (members (dump_result (TcpResult r))) = Some r.
Proof.
  intros Hok. unfold read_tcp_result. cbn [members dump_result]. read_fields.
  apply checked_self; [by destruct r|done].
Qed.

Lemma read_answer_printed a : DnsAnswer_ok a = true -> read_DnsAnswer (dump_DnsAnswer a) = Some a.
Proof.
  intros Hok. unfold read_DnsAnswer, dump_DnsAnswer. change (ensure _) with (Some tt). cbn [mbind option_bind].
  read_fields. apply checked_self; [by destruct a|done].
Qed.

Lemma read_answers_printed l : forallb DnsAnswer_ok l = true ->
  read_items read_DnsAnswer (JArray (map dump_DnsAnswer l)) = Some l.
Proof. intros Hl. apply (read_all_map _ _ DnsAnswer_ok); [done|apply read_answer_printed]. Qed.

Lemma read_dns_printed r : DnsObservationResult_ok r = true ->
  read_dns_result (members (dump_result (DnsResult r))) = Some r.
Proof.
  intros Hok. unfold read_dns_result. cbn [members dump_result].
  assert (forallb DnsAnswer_ok (dr_answers r) = true) as Ha.
  { unfold DnsObservationResult_ok in Hok. by destruct_andb. }
  read_fields. rewrite read_answers_printed by done. cbn [mbind option_bind].
  apply checked_self; [by destruct r|done].
Qed.

Lemma read_tls_printed r : TlsObservationResult_ok r = true -> result_wire (TlsResult r) = true ->
  read_tls_result (members (dump_result (TlsResult r))) = Some r.
Proof.
  intros Hok Hw. simpl in Hw. apply andb_true_iff in Hw as [Hb Ha]. unfold read_tls_result.
  cbn [members dump_result]. read_fields. rewrite !nullable_aware by done. cbn [mbind option_bind].
  apply checked_self; [by destruct r|done].
Qed.

(** A TLS result is the only one another member, that for TCP, accepts too; it sets more fields. *)
Lemma tls_candidates r : TlsObservationResult_ok r = true -> result_wire (TlsResult r) = true ->
  result_candidates (members (dump_result (TlsResult r))) =
    [TcpResult (mkTcpResult (lr_port r) None None); TlsResult r].
Proof.
  intros Hok Hw. unfold result_candidates. rewrite read_tls_printed by done. cbn [members dump_result].
  assert (between 1 65535 (lr_port r) = true) as Hport.
  { unfold TlsObservationResult_ok in Hok. by destruct_andb. }
  unfold read_icmp_result, read_http_result, read_tcp_result, read_dns_result. read_fields.
  unfold checked, TcpObservationResult_ok. cbn [tr_port tr_address_used tr_connect_ms opt_ok].
  by rewrite Hport.
Qed.

Lemma sole_candidate o r : result_candidates o = [r] -> smart_union o (result_candidates o) = Some r.
Proof. intros ->. apply smart_union_only. Qed.

Lemma read_result_printed r : ObservationResult_ok r = true -> result_wire r = true ->
  read_ObservationResult (dump_result r) = Some r.
Proof.
  intros Hok Hw. unfold read_ObservationResult.
  assert (dump_result r = JObject (members (dump_result r))) as -> by by destruct r.
  destruct r as [r|r|r|r|r]; simpl in Hok.
  5: { rewrite tls_candidates by done. apply smart_union_best; [by right; left|done|].
       intros x [->|[->|Hx]%elem_of_cons]%elem_of_cons; [|by left|by apply elem_of_nil in Hx].
       right. cbn. lia. }
  all: apply sole_candidate.
  - unfold result_candidates. rewrite read_icmp_printed by done. cbn [members dump_result].
    unfold read_http_result, read_tcp_result, read_dns_result, read_tls_result. read_fields. done.
  - unfold result_candidates. rewrite read_http_printed by done. cbn [members dump_result].
    unfold read_icmp_result, read_tcp_result, read_dns_result, read_tls_result. read_fields. done.
  - unfold result_candidates. rewrite read_tcp_printed by done. cbn [members dump_result].
    unfold read_icmp_result, read_http_result, read_dns_result, read_tls_result. read_fields. done.
  - unfold result_candidates. rewrite read_dns_printed by done. cbn [members dump_result].
    unfold read_icmp_result, read_http_result, read_tcp_result, read_tls_result. read_fields. done.
Qed.

Lemma read_observation_printed o : AgentObservation_ok o = true -> observation_wire o = true ->
  read_AgentObservation (dump_observation o) = Some o.
Proof.
  intros Hok Hw. unfold observation_wire in Hw. destruct_andb.
  unfold read_AgentObservation, dump_observation, required, field. cbn [obj_get String.eqb Ascii.eqb Bool.eqb].
  unfold j_datetime. rewrite !to_aware_text, !to_uuid_str by (done || by apply N.ltb_lt).
  assert (nullable (lit_read lit_ErrorCategory) (json_opt (fun c => JString (str_ErrorCategory c))
    (ob_error_category o)) = Some (ob_error_category o)) as ->.
  { apply nullable_opt; [done|]. intros c _. apply lit_ErrorCategory_print. }
  assert (nullable read_ObservationResult (json_opt dump_result (ob_result o)) = Some (ob_result o)) as ->.
  { apply nullable_opt; [by intros []|]. intros r Hr. rewrite Hr in *.
    unfold AgentObservation_ok in Hok. destruct_andb. rewrite Hr in *. by apply read_result_printed. }
  autorewrite with wire. cbn [mbind option_bind]. apply checked_self; [by destruct o|done].
Qed.

(** The body of an upload with every member present, an absent value as [null]. *)
Definition dump_upload (u : AgentObservationUpload) : json :=
  JObject [("protocol_version", JInt (up_protocol_version u));
    ("result_schema_version", JInt (up_result_schema_version u));
    ("agent_config_revision", JInt (up_agent_config_revision u)); ("batch_id", JString (str_uuid (up_batch_id u)));
    ("observations", JArray (map dump_observation (up_observations u)))].

Definition upload_wire (u : AgentObservationUpload) : bool :=
  (up_batch_id u <? 2 ^ 128)%N && forallb observation_wire (up_observations u).

(** C13 An upload survives the wire: a body that is accepted satisfies every constraint of the
    schema, and the body of an upload that satisfies them is accepted and read back as exactly
    that upload, each of its results as the type it was sent as, although the schema leaves
    their types to be guessed from the fields. *)
Theorem upload_round_trip u :
  AgentObservationUpload_ok u = true -> upload_wire u = true ->
  read_AgentObservationUpload (dump_upload u) = Some u /\
  forall j u', read_AgentObservationUpload j = Some u' -> AgentObservationUpload_ok u' = true.
Proof.
  intros Hok Hw. split.
  - unfold upload_wire in Hw. apply andb_true_iff in Hw as [Hb Hw].
    unfold read_AgentObservationUpload, dump_upload, required. cbn [obj_get String.eqb Ascii.eqb Bool.eqb].
    rewrite to_uuid_str by (by apply N.ltb_lt). autorewrite with wire. cbn [mbind option_bind].
    assert (read_items read_AgentObservation (JArray (map dump_observation (up_observations u))) =
      Some (up_observations u)) as ->.
    { apply (read_all_map _ _ (fun o => AgentObservation_ok o && observation_wire o)).
      - unfold AgentObservationUpload_ok in Hok. destruct_andb. apply forallb_forall. intros o Ho.
        rewrite forallb_forall in *. by rewrite andb_true_iff; eauto.
      - intros o Ho. apply andb_true_iff in Ho as [? ?]. by apply read_observation_printed. }
    cbn [mbind option_bind]. apply checked_self; [by destruct u|done].
  - intros j u' Hr. unfold read_AgentObservationUpload in Hr. destruct j; try discriminate Hr.
    repeat (apply bind_Some in Hr as (? & _ & Hr)). by apply checked_Some in Hr as [_ ?].
Qed.
End Read.

(** ** A batch of two: a TLS result, which also reads as a TCP one, and a failure *)

#[local] Existing Instance example_platform.
#[local] Existing Instance strict_coercions.
#[local] Existing Instance example_decoder.

Module UploadDemo.
Definition tls : ObservationResult :=
  TlsResult (mkTlsResult 443 "example.org" (Some "TLS 1.3") None (Some (1 # 2)%Q) true (Some true) (Some true)
    None (Some (mkAware 0 3600)) None None None None None).
Definition completed : AgentObservation :=
  mkAgentObservation (mkAware 0 0) 1 2 1 TLS (mkAware 0 0) (mkAware 5 60) Completed Healthy None None None None
    (Some tls).
Definition failed : AgentObservation :=
  mkAgentObservation (mkAware 0 0) 3 4 1 DNS (mkAware 0 0) (mkAware 5 0) Failed Unknown (Some EC_timeout)
    (Some "timeout") None (Some 12) None.
Definition upload : AgentObservationUpload := mkAgentObservationUpload 1 1 1 9 [completed; failed].
End UploadDemo.

Lemma upload_round_trip_witness :
  read_AgentObservationUpload (dump_upload UploadDemo.upload) = Some UploadDemo.upload.
Proof. apply upload_round_trip; by vm_compute. Defined.
