(* ===== verification/ContractProps.v ===== *)
(** * The agent's check of its configuration, against the control plane's

    The agent accepts every configuration it is served whose texts have none of the characters
    that Go and Python print differently and whose numbers are integers; a configuration with a
    text that contains [<], [>] or [&] it refuses. *)

From Stdlib Require Import Ascii QArith.
From stdpp Require Import pretty.
From S2P Require Import Prelude PyText Json Platform Models ProbeConfig Domain.
From S2P Require Import Credentials Configuration Selection Effects HierarchyProps CredentialsProps.
From S2P Require Import Isolation Steps Discipline ConfigInvariant ConfigTheorems.
From S2P Require Import ObservationSchema Observations Dashboard Accounts Lifecycle WebAuthn AuthApi.
From S2P Require Import SecondFactorProps Api Requests Responses AgentContract MonitorRows WireDemo.
Local Open Scope Z_scope.

(** ** Texts *)

(** A character both printers write alike, and one that only Go escapes. *)
Definition plain_char (c : ascii) : bool :=
  (code c <=? 126)%N && negb ((code c =? 38)%N || (code c =? 60)%N || (code c =? 62)%N).
Definition markup_char (c : ascii) : bool := (code c =? 38)%N || (code c =? 60)%N || (code c =? 62)%N.

(** No fractions, integers a [float64] holds, and only such characters. *)
Fixpoint plain (j : json) : bool :=
  match j with
  | JInt z => Z.abs z <=? 2 ^ 53
  | JFloat _ => false
  | JString s => str_forall plain_char s
  | JArray l => forallb plain l
  | JObject fields => forallb (fun f => match f with (k, v) => str_forall plain_char k && plain v end) fields
  | _ => true
  end.

(** A text with a character of markup, at any depth. *)
Fixpoint has_markup (j : json) : bool :=
  match j with
  | JString s => str_exists markup_char s
  | JArray l => existsb has_markup l
  | JObject fields => existsb (fun f => match f with (k, v) => str_exists markup_char k || has_markup v end) fields
  | _ => false
  end.

Lemma go_escape_char_plain c : plain_char c = true -> go_escape_char c = escape_char c.
Proof. by destruct c as [[] [] [] [] [] [] [] []]. Qed.

Lemma go_escape_plain s : str_forall plain_char s = true -> go_escape s = escape s.
Proof.
  induction s as [|c s IH]; [done|]. simpl. intros [Hc Hs]%andb_true_iff.
  by rewrite go_escape_char_plain, IH.
Qed.

Lemma Forall_sort_members (Q : string * string -> Prop) l : Forall Q l -> Forall Q (sort_members l).
Proof.
  assert (forall m l, Q m -> Forall Q l -> Forall Q (insert_member m l)) as Hins.
  { intros m l0 Hm. induction l0 as [|m' l0 IH]; simpl; [by repeat constructor|].
    intros Hl. inversion_clear Hl. destruct (String.leb _ _); by repeat constructor; eauto. }
  induction 1; simpl; eauto.
Qed.

Lemma forallb_in {A} (p : A -> bool) l x : forallb p l = true -> x ∈ l -> p x = true.
Proof.
  intros Hl. induction 1 as [|x y l Hx IH]; simpl in Hl; apply andb_true_iff in Hl as [? ?]; eauto.
Qed.

Lemma map_ext_elem {A B} (f g : A -> B) l : (forall x, x ∈ l -> f x = g x) -> map f l = map g l.
Proof.
  induction l as [|x l IH]; intros Hx; [done|]. simpl. rewrite Hx, IH; [done| |by left].
  intros y Hy. apply Hx. by right.
Qed.

Section Marshal.
Context {P : Platform} {G : GoLib}.

(** On such values Go prints what Python prints. *)
Lemma go_marshal_plain j : plain j = true -> go_marshal (go_any j) = dumps float_repr j.
Proof.
  induction j as [|[]|z|q|s|l IH|fields IH] using json_ind'; simpl; try done.
  - intros Hz. apply Z.leb_le in Hz. rewrite float64_exact by done. apply go_float_whole. lia.
  - intros Hs. unfold go_quote, quote. by rewrite go_escape_plain.
  - intros Hl. do 3 f_equal. rewrite map_map. apply map_ext_elem. intros x Hx.
    rewrite Forall_forall in IH. by apply IH, (forallb_in _ _ _ Hl).
  - intros Hf. rewrite map_map. do 3 f_equal. rewrite Forall_forall in IH.
    erewrite (map_ext_elem _ (fun f => match f with (k, v) => (k, dumps float_repr v) end)).
    2: { intros [k v] Hx. f_equal. apply (IH (k, v) Hx). apply (forallb_in _ _ _ Hf) in Hx.
         by apply andb_true_iff in Hx as [_ ?]. }
    apply map_ext_elem. intros [k t] Hx. simpl. unfold go_quote, quote. rewrite go_escape_plain; [done|].
    assert (Forall (fun m : string * string => str_forall plain_char m.1 = true)
      (map (fun f => match f with (k, v) => (k, dumps float_repr v) end) fields)) as Hk.
    { apply Forall_forall. intros [k' t'] Hm. apply list_elem_of_fmap in Hm as ([k0 v0] & [= -> ->] & Hm).
      apply (forallb_in _ _ _ Hf) in Hm. by apply andb_true_iff in Hm as [? _]. }
    apply Forall_sort_members in Hk. rewrite Forall_forall in Hk. apply (Hk _ Hx).
Qed.

(** ** Markup: Go never prints it, Python prints it as it is *)

Abbreviation no_markup := (str_forall (fun c => negb (markup_char c))).

Lemma go_escape_no_markup s : no_markup (go_escape s) = true.
Proof.
  induction s as [|c s IH]; [done|]. simpl. rewrite str_forall_app, IH, andb_true_r.
  by destruct c as [[] [] [] [] [] [] [] []].
Qed.

Lemma go_quote_no_markup s : no_markup (go_quote s) = true.
Proof. unfold go_quote. by rewrite !str_forall_app, go_escape_no_markup. Qed.

Lemma join_forall p sep l : str_forall p sep = true -> Forall (fun s => str_forall p s = true) l ->
  str_forall p (join sep l) = true.
Proof.
  intros Hs. induction 1 as [|s l Hx Hl IH]; [done|]. simpl. destruct l; [done|].
  by rewrite !str_forall_app, Hx, Hs, IH.
Qed.

Lemma pretty_no_markup (z : Z) : no_markup (pretty z) = true.
Proof. apply pretty_chars; [|done]. intros x. unfold pretty_N_char. by repeat case_match. Qed.

Lemma go_float_no_markup q : no_markup (go_float q) = true.
Proof.
  eapply str_forall_impl; [|apply go_float_chars]. intros c. by destruct c as [[] [] [] [] [] [] [] []].
Qed.

Lemma go_marshal_no_markup j : no_markup (go_marshal j) = true.
Proof.
  induction j as [|[]|z|q|s|l IH|fields IH] using json_ind'; cbn [go_marshal]; try done.
  - apply pretty_no_markup.
  - apply go_float_no_markup.
  - apply go_quote_no_markup.
  - rewrite !str_forall_app, join_forall; [done|done|]. by apply Forall_map.
  - rewrite !str_forall_app, join_forall; [done|done|]. apply Forall_map.
    assert (Forall (fun m : string * string => no_markup m.2 = true)
      (map (fun f => match f with (k, v) => (k, go_marshal v) end) fields)) as Hm.
    { apply Forall_map. eapply Forall_impl; [exact IH|]. by intros [k v]. }
    apply Forall_sort_members in Hm. eapply Forall_impl; [exact Hm|]. intros [k t] Ht. cbn [fst snd] in *.
    rewrite str_forall_app, (str_forall_app _ _ t), go_quote_no_markup, Ht. done.
Qed.

Lemma str_exists_app p s t : str_exists p (s +:+ t) = str_exists p s || str_exists p t.
Proof. unfold str_exists. rewrite str_forall_app. by rewrite negb_andb. Qed.

Lemma join_exists p sep l s : s ∈ l -> str_exists p s = true -> str_exists p (join sep l) = true.
Proof.
  intros Hin Hs. induction l as [|x l IH]; [by apply elem_of_nil in Hin|]. simpl.
  apply elem_of_cons in Hin as [->|Hin].
  - destruct l; [done|]. by rewrite str_exists_app, Hs.
  - destruct l; [by apply elem_of_nil in Hin|]. rewrite !str_exists_app, IH by done. by rewrite !orb_true_r.
Qed.

Lemma escape_exists s : str_exists markup_char s = true -> str_exists markup_char (escape s) = true.
Proof.
  induction s as [|c s IH]; [done|]. simpl escape.
  change (String c s) with (String c EmptyString +:+ s). rewrite !str_exists_app.
  intros [Hc|Hs]%orb_true_iff; [|by rewrite (IH Hs), orb_true_r].
  apply orb_true_iff. left. revert Hc. by destruct c as [[] [] [] [] [] [] [] []].
Qed.

Lemma quote_exists s : str_exists markup_char s = true -> str_exists markup_char (quote s) = true.
Proof. intros Hs. unfold quote. rewrite !str_exists_app, escape_exists by done. by rewrite orb_true_r. Qed.

Lemma elem_of_sort_members m l : m ∈ l -> m ∈ sort_members l.
Proof.
  assert (forall x l, m = x \/ m ∈ l -> m ∈ insert_member x l) as Hins.
  { intros x l0. induction l0 as [|y l0 IH]; simpl; [set_solver|].
    destruct (String.leb _ _); set_solver. }
  induction 1; simpl; apply Hins; eauto.
Qed.

Lemma dumps_markup j : has_markup j = true -> str_exists markup_char (dumps float_repr j) = true.
Proof.
  induction j as [|[]|z|q|s|l IH|fields IH] using json_ind'; cbn [has_markup dumps]; try done.
  - apply quote_exists.
  - intros (x & Hx & Hm)%existsb_exists. rewrite Forall_forall in IH. apply list_elem_of_In in Hx.
    rewrite str_exists_app. apply orb_true_iff. right. rewrite str_exists_app. apply orb_true_iff. left.
    eapply join_exists; [by apply list_elem_of_fmap_2|by apply IH].
  - intros ([k v] & Hx & Hm)%existsb_exists. rewrite Forall_forall in IH. apply list_elem_of_In in Hx.
    rewrite str_exists_app. apply orb_true_iff. right. rewrite str_exists_app. apply orb_true_iff. left.
    eapply join_exists.
    + apply list_elem_of_fmap_2, elem_of_sort_members, (list_elem_of_fmap_2 _ _ (k, v)), Hx.
    + cbn [fst snd]. rewrite str_exists_app. apply orb_true_iff in Hm as [Hk|Hv].
      * by rewrite quote_exists.
      * apply orb_true_iff. right. rewrite str_exists_app. apply orb_true_iff. right. by apply (IH (k, v)).
Qed.

(** So the texts differ. *)
Lemma markup_texts_differ j j' : has_markup j = true -> go_marshal j' <> dumps float_repr j.
Proof.
  intros Hm%dumps_markup E. rewrite <- E in Hm. unfold str_exists in Hm.
  by rewrite go_marshal_no_markup in Hm.
Qed.
End Marshal.

(** A whole threshold of an ICMP monitor, which is a float, is printed differently too. *)
Lemma whole_threshold_printed_differently {P : Platform} {G : GoLib} :
  float_repr (inject_Z 100) = "100.0" ->
  let configuration := JObject [("maximum_packet_loss_percent", JFloat (inject_Z 100))] in
  go_marshal (go_any configuration) <> dumps float_repr configuration.
Proof.
  intros Hr configuration. cbn [configuration go_any go_marshal dumps map].
  rewrite Hr, (go_float_whole 100) by done. done.
Qed.

(** ** Capabilities: what the agent sent, what the control plane stored and checks *)

Section Capabilities.
Context {CO : Coercions} {P : Platform} {D : Decoder}.

Lemma read_all_ints l : read_all to_int (map JInt l) = Some l.
Proof. induction l as [|z l IH]; [done|]. simpl. by rewrite to_int_JInt, IH. Qed.

Lemma read_capability c j : read_ProbeCapability (marshal_capability c) = Some j -> j = marshal_capability c.
Proof.
  unfold read_ProbeCapability, marshal_capability, field, required, read_list. simpl.
  rewrite read_all_ints. simpl. destruct (ensure _); simpl; [|done].
  rewrite to_bool_JBool. simpl. by intros [= <-].
Qed.

Lemma mapM_capabilities l l' :
  mapM (fun f : string * json => a ← read_ProbeCapability f.2; Some (f.1, a))
    (map (fun f => (f.1, marshal_capability f.2)) l) = Some l' ->
  l' = map (fun f => (f.1, marshal_capability f.2)) l.
Proof.
  revert l'. induction l as [|[k c] l IH]; intros l'; cbn [map mapM fst snd]; [by intros [= <-]|].
  destruct (read_ProbeCapability _) as [j|] eqn:Ej; [|done]. apply read_capability in Ej as ->.
  cbn [mbind option_bind]. destruct (mapM _ _) as [r|]; [|done]. rewrite (IH r eq_refl). by intros [= <-].
Qed.

(** The stored capabilities have the probes the agent sent. *)
Lemma stored_probes caps stored :
  read_AgentCapabilities (marshal_capabilities caps) = Some stored ->
  exists o, stored = JObject o /\ obj_get "probes" o = Some (print_dict marshal_capability (Probes caps)).
Proof.
  intros E. unfold read_AgentCapabilities, marshal_capabilities in E.
  apply bind_Some in E as (probes & Ep & E). apply bind_Some in E as (runtime & _ & E).
  apply bind_Some in E as (tools & _ & [= <-]). eexists. split; [done|]. cbn [obj_get String.eqb app].
  unfold field, read_dict, print_dict in Ep. simpl in Ep. apply bind_Some in Ep as (? & _ & Ep).
  apply mapM_capabilities in Ep as ->. simpl. unfold print_dict, id. rewrite map_map. done.
Qed.

Lemma obj_get_probes key l :
  obj_get key (map (fun f : string * GoProbeCapability => (f.1, marshal_capability f.2)) l) =
    marshal_capability <$> probe_of key l.
Proof. induction l as [|[k c] l IH]; [done|]. simpl. by destruct (String.eqb k key). Qed.

(** The version the control plane found among the agent's is the number it sends. *)
Lemma version_among (version : json) (l : list Z) v :
  py_in version (map JInt l) = true -> py_int version = Ok v -> existsb (Z.eqb v) l = true.
Proof.
  induction l as [|z l IH]; [done|]. simpl. intros [Hz|Hl]%orb_true_iff Hv; [|by rewrite IH, orb_true_r].
  apply orb_true_iff. left. apply Z.eqb_eq. unfold py_eq in Hz. simpl in Hz.
  destruct version as [|b|y|q|s|a|o]; simpl in *; try (by apply bool_decide_eq_true in Hz); try done.
  - injection Hv as <-. apply Qeq_bool_iff in Hz. unfold Qeq in Hz. simpl in Hz. lia.
  - injection Hv as <-. apply Qeq_bool_iff in Hz. unfold Qeq in Hz. simpl in Hz. lia.
  - injection Hv as <-. apply Qeq_bool_iff in Hz. unfold Qeq in Hz. simpl in Hz.
    rewrite Z.mul_1_r in Hz. rewrite Hz. by apply Z.quot_mul.
Qed.

(** A monitor the control plane finds supported, the agent finds supported. *)
Lemma capable_agrees caps stored m version (mc : MonitorConfiguration) :
  read_AgentCapabilities (marshal_capabilities caps) = Some stored ->
  _check_capability m stored = Ok tt -> schema_version m = Ok version ->
  ProbeType_ mc = str_ProbeType (m_probe_type m) -> ProbeSchemaVersion mc = version ->
  capable caps mc = true /\ exists o, m_configuration m = JObject o.
Proof.
  intros (o & -> & Ho)%stored_probes Hc Hv Ht Hn. unfold _check_capability in Hc.
  destruct (m_configuration m) as [| | | | | |conf] eqn:Econf; try discriminate Hc. split; [|by eexists].
  rewrite Ho in Hc. simpl in Hc. unfold print_dict in Hc. rewrite obj_get_probes in Hc.
  unfold capable. rewrite Ht, Hn. destruct (probe_of _ _) as [c|]; simpl in Hc; [|discriminate Hc].
  destruct (Available c); simpl in Hc; [|discriminate Hc].
  unfold schema_version in Hv. rewrite Econf in Hv. simpl in Hv.
  destruct (py_in _ _) eqn:Ein; [|discriminate Hc]. simpl. by eapply version_among.
Qed.
End Capabilities.

(** ** The entry of a monitor, from the control plane to the agent *)

Section Entries.
Context {CO : Coercions} {P : Platform} {D : Decoder} {G : GoLib}.

Definition version_of (m : Monitor) : Z := match schema_version m with Ok v => v | Err _ => 0 end.

Definition served_model (mt : Monitor * Target) : AgentMonitorConfiguration :=
  mkAgentMonitorConfiguration (m_id mt.1) (m_target_id mt.1) (m_revision mt.1) (t_address mt.2)
    (str_ProbeType (m_probe_type mt.1)) (version_of mt.1) (m_interval_seconds mt.1) (m_timeout_seconds mt.1)
    (m_configuration mt.1).

Definition go_monitor (mt : Monitor * Target) : MonitorConfiguration :=
  mkMonitorConfiguration (str_uuid (m_id mt.1)) (str_uuid (m_target_id mt.1)) (m_revision mt.1)
    (t_address mt.2) (str_ProbeType (m_probe_type mt.1)) (version_of mt.1) (m_interval_seconds mt.1)
    (m_timeout_seconds mt.1) "skip" (default [] (go_map (m_configuration mt.1))).

(** What holds of a monitor that is served. *)
Record servable (mt : Monitor * Target) : Prop := {
  sv_id : (m_id mt.1 < 2 ^ 128)%N;
  sv_target : (m_target_id mt.1 < 2 ^ 128)%N;
  sv_configuration : exists o, m_configuration mt.1 = JObject o;
  sv_schedule : 1 <= m_timeout_seconds mt.1 < m_interval_seconds mt.1;
}.

Lemma entry_read mt : servable mt -> read_AgentMonitorConfiguration (entry_of mt) = Some (served_model mt).
Proof.
  intros [Hid Ht [o Ho] _]. unfold entry_of, monitor_entry, read_AgentMonitorConfiguration, required, field.
  cbn [obj_get String.eqb Ascii.eqb Bool.eqb]. rewrite !to_uuid_str, !to_int_JInt, !to_str_JString by done.
  rewrite Ho. simpl. unfold served_model. by rewrite Ho.
Qed.

Lemma float64_fits_int64 z : (Z.abs z <=? 2 ^ 53) = true -> fits_int8 z = true.
Proof. unfold fits_int8. lia. Qed.

Lemma decode_entry mt : servable mt -> plain (entry_of mt) = true ->
  decode_monitor (encode_AgentMonitorConfiguration (served_model mt)) = Some (go_monitor mt).
Proof.
  intros [_ _ [o Ho] _] Hp. unfold entry_of, monitor_entry in Hp. cbn [plain forallb] in Hp. destruct_andb.
  fold (version_of mt.1) in *.
  unfold encode_AgentMonitorConfiguration, decode_monitor, go_member, go_monitor, go_int64.
  cbn [obj_get String.eqb Ascii.eqb Bool.eqb go_string mcf_monitor_id mcf_target_id mcf_monitor_revision
    mcf_target_address mcf_probe_type mcf_probe_schema_version mcf_interval_seconds mcf_timeout_seconds
    mcf_configuration served_model].
  rewrite !float64_fits_int64 by assumption. rewrite Ho. reflexivity.
Qed.

Lemma go_quote_plain s : str_forall plain_char s = true -> go_quote s = quote s.
Proof. intros Hs. unfold go_quote, quote. by rewrite go_escape_plain. Qed.

Lemma entry_printed mt : servable mt -> plain (entry_of mt) = true ->
  go_marshal (monitor_map (go_monitor mt)) = dumps float_repr (entry_of mt).
Proof.
  intros [_ _ [o Ho] _] Hp. unfold entry_of, monitor_entry in *. fold (version_of mt.1) in *.
  cbn [plain forallb] in Hp. destruct_andb.
  unfold monitor_map, go_monitor.
  cbn [go_marshal dumps map MonitorID TargetID MonitorRevision TargetAddress ProbeType_ ProbeSchemaVersion
    IntervalSeconds TimeoutSeconds MissedRunPolicy Configuration_].
  assert (JObject (default [] (go_map (m_configuration mt.1))) = m_configuration mt.1) as -> by by rewrite Ho.
  rewrite go_marshal_plain, !go_quote_plain by assumption. reflexivity.
Qed.

(** ** The loop over the monitors *)

Lemma existsb_str_uuid (m : uuid) seen :
  (m < 2 ^ 128)%N -> Forall (fun u => (u < 2 ^ 128)%N) seen -> m ∉ seen ->
  existsb (String.eqb (str_uuid m)) (map str_uuid seen) = false.
Proof.
  intros Hm. induction 1 as [|u seen Hu _ IH]; [reflexivity|]. intros Hn. cbn [map existsb].
  apply not_elem_of_cons in Hn as [Hne Hn]. apply orb_false_iff. split.
  - apply String.eqb_neq. intros E%str_uuid_inj; [|assumption..]. by apply Hne.
  - by apply IH.
Qed.

Lemma check_monitors_served caps l seen :
  Forall servable l -> Forall (fun mt => capable caps (go_monitor mt) = true) l ->
  NoDup (map (fun mt : Monitor * Target => m_id mt.1) l) ->
  Forall (fun u => (u < 2 ^ 128)%N) seen -> (forall mt, mt ∈ l -> m_id mt.1 ∉ seen) ->
  check_monitors caps (map str_uuid seen) (map go_monitor l) = inr (map (fun mt => monitor_map (go_monitor mt)) l).
Proof.
  revert seen. induction l as [|mt l IH]; intros seen Hs Hc Hnd Hseen Hout; [done|].
  inversion_clear Hs as [|? ? Hmt Hs']. inversion_clear Hc as [|? ? Hcap Hc']. apply NoDup_cons in Hnd as [Hnew Hnd].
  destruct Hmt as [Hid _ _ Hsch]. cbn [map check_monitors].
  change (MonitorID (go_monitor mt)) with (str_uuid (m_id mt.1)).
  rewrite existsb_str_uuid by (assumption || (apply Hout; by left)). rewrite Hcap. cbn [negb].
  assert (schedule_ok (go_monitor mt) = true) as ->.
  { clear -Hsch. unfold schedule_ok, go_monitor. cbn [IntervalSeconds TimeoutSeconds MissedRunPolicy].
    rewrite String.eqb_refl. lia. }
  cbn [negb]. change (str_uuid (m_id mt.1) :: map str_uuid seen) with (map str_uuid (m_id mt.1 :: seen)).
  rewrite IH; [done|done|done|done|by constructor|].
  intros mt' Hin. rewrite not_elem_of_cons. split; [|apply Hout; by right].
  intros E. apply Hnew. rewrite <- E. by apply (list_elem_of_fmap_2 (fun mt : Monitor * Target => m_id mt.1)).
Qed.
End Entries.

(** ** The configuration an agent is served *)

Section Served.
Context {CO : Coercions} {P : Platform} {D : Decoder} {G : GoLib} (settings : Settings).
Implicit Types (db : MonDB).

(** The ids of monitors and targets are UUIDs. *)
Definition uuids db : Prop :=
  (forall k m, monitors db !! k = Some m -> (k < 2 ^ 128)%N) /\
  (forall k t, targets db !! k = Some t -> (k < 2 ^ 128)%N).

Lemma NoDup_configured db r a :
  monitors_keyed db -> NoDup (map (fun mt : Monitor * Target => m_id mt.1) (configured_monitors db r a)).
Proof.
  intros Hk. unfold configured_monitors, in_id_order.
  assert (NoDup (sorted_ids (selected db r a))) as Hnd.
  { unfold sorted_ids. rewrite merge_sort_Permutation. apply NoDup_elements. }
  induction Hnd as [|k l Hnew Hnd IH]; [constructor|]. simpl.
  destruct (selected db r a !! k) as [[m t]|] eqn:E; [|done]. cbn [map]. apply NoDup_cons. split; [|done].
  apply lookup_selected in E as (Hm & _); [|done]. cbn [fst]. rewrite (Hk _ _ Hm).
  intros Hin. apply list_elem_of_fmap in Hin as ([m' t'] & -> & Hin).
  apply list_elem_of_omap in Hin as (k' & Hk' & E'). apply lookup_selected in E' as (Hm' & _); [|done].
  cbn [fst] in *. rewrite (Hk _ _ Hm') in Hnew. done.
Qed.

(** Each monitor of the configuration passed the check of the capabilities. *)
Lemma build_entries_checked caps l entries :
  build_entries caps l = Ok entries ->
  Forall (fun mt : Monitor * Target => _check_capability mt.1 caps = Ok tt /\
    schema_version mt.1 = Ok (version_of mt.1)) l.
Proof.
  revert entries. induction l as [|[m t] l IH]; intros entries E; [constructor|]. cbn [build_entries] in E.
  destruct (_check_capability m caps) as [[]|] eqn:Ec; [|discriminate E].
  destruct (schema_version m) as [v|] eqn:Ev; [|discriminate E].
  destruct (build_entries caps l) as [es|] eqn:Eb; [|discriminate E].
  constructor; [|by eapply IH]. cbn [fst]. unfold version_of. by rewrite Ev.
Qed.

(** What an answer to a configuration request consists of. *)
Lemma configuration_answer db now au db' result :
  rtc (mon_step settings) empty_db db -> authenticated db au ->
  get_or_create_configuration now au db = (db', Ok result) ->
  let r := realm_id (au_realm au) in
  let a := a_id (au_agent au) in
  exists op, agent_operational_states db !! a = Some op /\
    build_entries (op_capabilities op) (configured_monitors db r a) =
      Ok (map entry_of (configured_monitors db r a)) /\
    res_content result = current_content db r a /\
    sn_content_hash (res_snapshot result) = content_hash_of (current_content db r a) /\
    agent_configuration_snapshots db' !! (r, a, sn_revision (res_snapshot result)) = Some (res_snapshot result) /\
    1 <= sn_revision (res_snapshot result) /\ agents db' = agents db.
Proof.
  intros Hreach Hau E r a. pose proof (config_ok_reachable settings db Hreach) as Hok.
  destruct (configuration_refused db now au Hok Hau) as [Hn He]. fold r a in Hn, He.
  destruct (agent_operational_states db !! a) as [op|] eqn:Eop; [|rewrite Hn in E; [discriminate E|done]].
  destruct (build_entries (op_capabilities op) (configured_monitors db r a)) as [es|e] eqn:Eb;
    [|rewrite (He op e) in E; [discriminate E|done|done]].
  destruct (configuration_run db now au op es Hok Hau Eop Eb) as (sn & H1 & H2 & H3 & _ & H5).
  fold r a in H1, H2, H3, H5. rewrite E in H5. injection H5 as -> ->.
  exists op. rewrite (build_entries_Ok _ _ _ Eb) in Eb. cbn [res_content res_snapshot].
  split_and!; try done.
  - rewrite H1. unfold served. cbn [agent_configuration_snapshots set_agent_configuration_snapshots].
    by rewrite lookup_insert_eq.
  - rewrite H1. unfold served_revision. destruct (desired db a =? 0) eqn:Ez; [done|].
    unfold desired in *. destruct (agent_configuration_states db !! a) as [st|] eqn:Est; [|done].
    destruct (co_states _ Hok _ _ Est) as [_ ? _ _]. lia.
Qed.

Lemma configured_servable db r a op :
  rtc (mon_step settings) empty_db db -> uuids db ->
  build_entries (op_capabilities op) (configured_monitors db r a) =
    Ok (map entry_of (configured_monitors db r a)) ->
  Forall servable (configured_monitors db r a).
Proof.
  intros Hreach [Hm Ht] Hb. apply build_entries_checked in Hb. rewrite Forall_forall in *.
  pose proof (rc_monitors_keyed _ (co_closed _ (config_ok_reachable settings db Hreach))) as Hk.
  intros [m t] Hin. destruct (Hb _ Hin) as [Hc _].
  apply elem_of_configured_monitors in Hin as [k Hsel]. apply lookup_selected in Hsel as (Hrow & _ & _ & _ & Htar & _);
    [|done]. split; cbn [fst snd] in *.
  - rewrite (Hk _ _ Hrow). by eapply Hm.
  - by eapply Ht.
  - unfold _check_capability in Hc. destruct (op_capabilities op); try discriminate Hc.
    destruct (m_configuration m); try discriminate Hc. by eexists.
  - apply (mo_schedule _ (proj2 (mr_row _ (monitor_rows_reachable settings db Hreach) _ _ Hrow))).
Qed.

(** The body of a response with the entries of [l]. *)
Definition response_body (a r : uuid) (k : Z) (hash : string) (t : Z) (l : list (Monitor * Target)) : json :=
  JObject [("protocol_version", JInt 1); ("configuration_schema_version", JInt 1); ("agent_id", j_uuid a);
    ("realm_id", j_uuid r); ("revision", JInt k); ("content_hash", JString hash); ("generated_at", j_time t);
    ("monitors", JArray (map (fun mt => encode_AgentMonitorConfiguration (served_model mt)) l))].

Lemma read_entries l : Forall servable l ->
  read_items read_AgentMonitorConfiguration (JArray (map entry_of l)) = Some (map served_model l).
Proof.
  induction 1 as [|mt l Hmt _ IH]; [reflexivity|]. cbn [read_items map read_all] in *.
  rewrite entry_read by assumption. cbn [mbind option_bind]. rewrite IH. reflexivity.
Qed.

Lemma decode_entries l : Forall servable l -> forallb plain (map entry_of l) = true ->
  read_items decode_monitor (JArray (map (fun mt => encode_AgentMonitorConfiguration (served_model mt)) l)) =
    Some (map go_monitor l).
Proof.
  induction 1 as [|mt l Hmt _ IH]; [reflexivity|]. cbn [read_items map read_all forallb] in *.
  intros [Hp Hl]%andb_true_iff. rewrite decode_entry by assumption. cbn [mbind option_bind].
  rewrite IH by assumption. reflexivity.
Qed.

Lemma decode_body a r k hash t l :
  Forall servable l -> forallb plain (map entry_of l) = true -> fits_int8 k = true -> in_calendar t = true ->
  decode_configuration (response_body a r k hash t l) =
    Some (mkConfigurationResponse 1 1 (str_uuid a) (str_uuid r) k hash (map go_monitor l)).
Proof.
  intros Hs Hp Hk Ht. unfold decode_configuration, response_body, go_member.
  cbn [obj_get String.eqb Ascii.eqb Bool.eqb go_string j_uuid j_time].
  change (go_int64 (JInt 1)) with (Some 1). unfold go_int64. rewrite Hk, decode_entries by assumption.
  unfold in_calendar in Ht. apply andb_true_iff in Ht as [Ht1%Z.leb_le Ht2%Z.ltb_lt].
  cbn [mbind option_bind]. rewrite go_time_utc by done. reflexivity.
Qed.

(** The content printed by the agent. *)
Lemma content_printed a r k hash l :
  Forall servable l -> plain (hash_input r a (map entry_of l)) = true ->
  go_marshal (agent_content (mkConfigurationResponse 1 1 (str_uuid a) (str_uuid r) k hash (map go_monitor l))
    (map (fun mt => monitor_map (go_monitor mt)) l)) =
  dumps float_repr (hash_input r a (map entry_of l)).
Proof.
  intros Hs Hp. unfold hash_input in *. cbn [plain forallb] in Hp. destruct_andb.
  unfold agent_content. cbn [go_marshal dumps map ConfigurationSchemaVersion AgentID RealmID].
  rewrite !go_quote_plain by assumption.
  assert (map go_marshal (map (fun mt => monitor_map (go_monitor mt)) l) = map (dumps float_repr) (map entry_of l))
    as ->.
  { rewrite !map_map. apply map_ext_elem. intros mt Hin. apply entry_printed.
    - rewrite Forall_forall in Hs. by apply Hs.
    - match goal with Hl : forallb plain _ = true |- _ => apply (forallb_in _ _ _ Hl) end.
      by apply list_elem_of_fmap_2. }
  generalize (map (dumps float_repr) (map entry_of l)). intros texts. reflexivity.
Qed.

(** The validation of a response with the entries of [l]: all that is left is the hash. *)
Lemma validate_served a r k hash l caps :
  Forall servable l -> Forall (fun mt => capable caps (go_monitor mt) = true) l ->
  NoDup (map (fun mt : Monitor * Target => m_id mt.1) l) -> 1 <= k ->
  let c := mkConfigurationResponse 1 1 (str_uuid a) (str_uuid r) k hash (map go_monitor l) in
  let text := go_marshal (agent_content c (map (fun mt => monitor_map (go_monitor mt)) l)) in
  Validate c (str_uuid a) (str_uuid r) caps =
    if equal_fold ("sha256:" +:+ sha256_hexdigest text) hash then Accepted_ text else ErrConfigurationHash.
Proof.
  intros Hs Hc Hnd Hk c text. unfold Validate.
  cbn [c ProtocolVersion ConfigurationSchemaVersion Revision AgentID RealmID Monitors ContentHash].
  assert ((k <? 1) = false) as -> by lia. rewrite !String.eqb_refl. cbn [Z.eqb Pos.eqb negb orb].
  assert (check_monitors caps [] (map go_monitor l) = inr (map (fun mt => monitor_map (go_monitor mt)) l)) as ->.
  { apply (check_monitors_served caps l []); [assumption..|constructor|]. intros mt _ H. by apply elem_of_nil in H. }
  reflexivity.
Qed.

(** What acceptance means. *)
Lemma validate_accepted c agent realm caps text :
  Validate c agent realm caps = Accepted_ text ->
  exists maps, check_monitors caps [] (Monitors c) = inr maps /\ text = go_marshal (agent_content c maps) /\
    equal_fold ("sha256:" +:+ sha256_hexdigest text) (ContentHash c) = true.
Proof.
  unfold Validate. destruct (_ || _ || _); [intros H; discriminate H|].
  destruct (_ || _); [intros H; discriminate H|].
  destruct (check_monitors _ _ _) as [e|maps] eqn:Em.
  - intros ->. exfalso. clear -Em. revert Em. generalize (@nil string). induction (Monitors c) as [|m l IH]; [done|].
    intros seen. cbn [check_monitors]. destruct (existsb _ _); [intros H; discriminate H|].
    destruct (negb _); [intros H; discriminate H|]. destruct (negb _); [intros H; discriminate H|].
    destruct (check_monitors _ _ l) eqn:El; [|intros H; discriminate H]. intros [= ->]. by apply (IH _ El).
  - cbv zeta. destruct (equal_fold _ _) eqn:Eq; [|intros H; discriminate H]. intros [= <-]. by exists maps.
Qed.

Lemma lower_hex s : str_forall is_hex_lower s = true -> lower s = s.
Proof.
  unfold lower. induction s as [|c s IH]; [done|]. simpl. intros [Hc Hs]%andb_true_iff. rewrite (IH Hs). f_equal.
  revert Hc. by destruct c as [[] [] [] [] [] [] [] []].
Qed.

Lemma equal_fold_digest x y :
  equal_fold ("sha256:" +:+ sha256_hexdigest x) ("sha256:" +:+ sha256_hexdigest y) = true ->
  sha256_hexdigest x = sha256_hexdigest y.
Proof.
  unfold equal_fold. intros E%String.eqb_eq. pose proof (sha256_hex x) as Hx. pose proof (sha256_hex y) as Hy.
  rewrite <- (lower_hex _ Hx), <- (lower_hex _ Hy). by injection E.
Qed.

(** The hash a decoded response carries. *)
Lemma decoded_hash r body c :
  encode_AgentConfigurationResponse r = Some body -> decode_configuration body = Some c ->
  ContentHash c = cf_content_hash r.
Proof.
  unfold encode_AgentConfigurationResponse. intros (es & _ & [= <-])%bind_Some Hd.
  unfold decode_configuration in Hd. repeat (apply bind_Some in Hd as (? & ? & Hd)). injection Hd as <-.
  cbn [ContentHash]. match goal with Hh : go_member _ "content_hash" _ _ = Some _ |- _ => by injection Hh end.
Qed.

(** C11 The agent accepts what it is served: in every reachable state, when an agent that has sent
    its capabilities in a heartbeat is answered with a configuration in which no text has a
    character that Go prints differently and every number is an integer below 2^53, the
    response is one the agent decodes and its validation accepts, having computed the very
    text the control plane hashed; and the acknowledgement the agent then sends is recorded. *)
Theorem agent_accepts_plain_configuration db now au db' result op caps :
  rtc (mon_step settings) empty_db db -> authenticated db au -> uuids db ->
  get_or_create_configuration now au db = (db', Ok result) ->
  agent_operational_states db !! a_id (au_agent au) = Some op ->
  read_AgentCapabilities (marshal_capabilities caps) = Some (op_capabilities op) ->
  plain (res_content result) = true ->
  in_calendar (sn_created_at (res_snapshot result)) = true ->
  fits_int8 (sn_revision (res_snapshot result)) = true ->
  exists monitors body c,
    json_get "monitors" (res_content result) = Some monitors /\
    encode_AgentConfigurationResponse (configuration_response au result monitors) = Some body /\
    decode_configuration body = Some c /\
    Validate c (str_uuid (a_id (au_agent au))) (str_uuid (realm_id (au_realm au))) caps =
      Accepted_ (canonical_json (res_content result)) /\
    forall activated_at, exists db2 st,
      acknowledge_configuration au (Revision c) (ContentHash c) activated_at db' = (db2, Ok st) /\
      Revision c <= st_acknowledged_revision st <= st_desired_revision st.
Proof.
  intros Hreach Hau Huuid E Hop Hcaps Hplain Htime Hrev.
  destruct (configuration_answer db now au db' result Hreach Hau E)
    as (op' & Hop' & Hb & Hcont & Hhash & Hsn & Hpos & Hag).
  set (r := realm_id (au_realm au)) in *. set (a := a_id (au_agent au)) in *.
  assert (op' = op) as -> by congruence.
  pose proof (configured_servable db r a op Hreach Huuid Hb) as Hs.
  pose proof (build_entries_checked _ _ _ Hb) as Hchk.
  set (l := configured_monitors db r a) in *. unfold current_content in Hcont, Hhash. fold l in Hcont, Hhash.
  rewrite Hcont in *.
  assert (forallb plain (map entry_of l) = true) as Hpl.
  { unfold hash_input in Hplain. cbn [plain forallb] in Hplain. by destruct_andb. }
  exists (JArray (map entry_of l)). eexists _, _. split_and!; [reflexivity| |by eapply decode_body| |].
  - unfold encode_AgentConfigurationResponse, configuration_response. cbn [cf_monitors].
    rewrite read_entries by assumption. cbn [mbind option_bind]. rewrite map_map. reflexivity.
  - rewrite (validate_served a r _ _ l caps); [|exact Hs| | |exact Hpos].
    + rewrite content_printed, Hhash by assumption. unfold equal_fold. by rewrite String.eqb_refl.
    + eapply Forall_impl; [exact Hchk|]. intros mt [Hc Hv].
      by apply (capable_agrees caps (op_capabilities op) mt.1 (version_of mt.1) (go_monitor mt)).
    + apply NoDup_configured, rc_monitors_keyed, (co_closed _ (config_ok_reachable settings db Hreach)).
  - intros t. cbn [Revision ContentHash cf_revision cf_content_hash configuration_response].
    assert (rtc (mon_step settings) empty_db db') as Hreach'.
    { eapply rtc_r; [exact Hreach|]. replace db' with (get_or_create_configuration now au db).1 by by rewrite E.
      by apply step_configuration. }
    assert (authenticated db' au) as Hau' by (destruct Hau; split; [by rewrite Hag|done..]).
    pose proof (acknowledge_records_issued_revisions settings db' au _ (cf_content_hash
      (configuration_response au result JNull)) t Hreach' Hau' Hrev) as Hack.
    cbv zeta in Hack. fold r a in Hack. rewrite Hsn in Hack. cbn [cf_content_hash configuration_response] in Hack.
    change (removeprefix "sha256:" ("sha256:" +:+ ?x)) with x in Hack. rewrite String.eqb_refl in Hack.
    destruct Hack as (st & st' & _ & -> & Hmax & Hle). eexists _, st'. split; [reflexivity|].
    split; [|done]. rewrite Hmax. apply Z.le_max_r.
Qed.

(** C32 The agent refuses markup: when a text of the served configuration contains one of the
    characters [<], [>] and [&] (a path with two query parameters, an expected body with a
    tag), the agent's validation does not accept the response, whatever capabilities the agent
    has, as long as SHA-256 has no collision between the text the agent computes and the one
    the control plane hashed. *)
Theorem agent_refuses_markup db now au db' result monitors body c agent realm caps text :
  rtc (mon_step settings) empty_db db -> authenticated db au ->
  get_or_create_configuration now au db = (db', Ok result) ->
  has_markup (res_content result) = true ->
  json_get "monitors" (res_content result) = Some monitors ->
  encode_AgentConfigurationResponse (configuration_response au result monitors) = Some body ->
  decode_configuration body = Some c ->
  (forall maps, check_monitors caps [] (Monitors c) = inr maps ->
     let computed := go_marshal (agent_content c maps) in
     sha256_hexdigest computed = sha256_hexdigest (canonical_json (res_content result)) ->
     computed = canonical_json (res_content result)) ->
  Validate c agent realm caps <> Accepted_ text.
Proof.
  intros Hreach Hau E Hm Hmon Henc Hdec Hinj Hval.
  destruct (configuration_answer db now au db' result Hreach Hau E) as (_ & _ & _ & Hcont & Hhash & _).
  rewrite <- Hcont in Hhash. unfold content_hash_of in Hhash.
  pose proof (decoded_hash _ _ _ Henc Hdec) as Hc. cbn [cf_content_hash configuration_response] in Hc.
  rewrite Hhash in Hc. apply validate_accepted in Hval as (maps & Hmaps & -> & Heq).
  rewrite Hc in Heq. apply equal_fold_digest in Heq.
  by apply (markup_texts_differ (res_content result) (agent_content c maps) Hm), Hinj.
Qed.
End Served.

(** ** On the worked run: a TCP monitor, and an HTTP monitor with two query parameters *)

#[local] Existing Instance example_platform.
#[local] Existing Instance strict_coercions.
#[local] Existing Instance example_decoder.
#[local] Existing Instance example_go.

Module ContractDemo.
Definition caps : GoCapabilities :=
  mkGoCapabilities [("tcp", mkGoProbeCapability [1] true); ("http", mkGoProbeCapability [1] true)] [] [].
Definition stored : json := default JNull (read_AgentCapabilities (marshal_capabilities caps)).
Definition heartbeat : AgentHeartbeatRequest :=
  mkAgentHeartbeatRequest 1 "1.0" "linux" "amd64" "probe-1" stored 0 0 0 0 None DBHealthy SchedRunning 1000000 [].
Definition db5 : MonDB := (record_heartbeat 2000000 Demo.au heartbeat Demo.db4).1.

Lemma contract_reach : rtc (mon_step default_settings) empty_db db5.
Proof. eapply rtc_r; [apply Demo.reach4|]. apply step_heartbeat, Demo.au_authenticated. by vm_compute. Qed.
Lemma contract_au : authenticated db5 Demo.au.
Proof. apply Demo.au_authenticated. by vm_compute. Qed.
Lemma monitors5 : monitors db5 = {[30%N := Demo.monitor]}.
Proof. by vm_compute. Qed.
Lemma targets5 : targets db5 = {[20%N := Demo.target]}.
Proof. by vm_compute. Qed.
Lemma uuids5 : uuids db5.
Proof.
  split; intros k x; [rewrite monitors5|rewrite targets5]; by intros [<- _]%lookup_singleton_Some.
Qed.
Definition content : json := hash_input 1 5 [monitor_entry Demo.monitor Demo.target 1].
Definition snapshot : AgentConfigurationSnapshot :=
  mkAgentConfigurationSnapshot 1 5 1 (content_hash_of content) content 3000000.
Definition db6 : MonDB := (get_or_create_configuration 3000000 Demo.au db5).1.
Lemma answer5 : get_or_create_configuration 3000000 Demo.au db5 = (db6, Ok (mkConfigurationResult snapshot content)).
Proof. unfold db6. apply run_outcome. vm_compute. reflexivity. Qed.
Lemma contract_operational : exists op, agent_operational_states db5 !! 5%N = Some op /\ op_capabilities op = stored.
Proof. eexists. by vm_compute. Qed.

(** The same agent with an HTTP monitor. *)
Definition path : json := JObject [("path", JString "/search?q=1&page=2")].
Definition db7 : MonDB := (create_monitor 31 example_realm Demo.target "site" HTTP 60 10 path None db5).1.
Definition monitor : Monitor := default Demo.monitor (monitors db7 !! 31%N).
Definition db8 : MonDB := (assign_monitor_to_agent example_realm monitor example_agent db7).1.
Definition run9 := get_or_create_configuration 3000000 Demo.au db8.

Lemma reach8 : rtc (mon_step default_settings) empty_db db8.
Proof.
  eapply rtc_r; [eapply rtc_r; [apply contract_reach|]|].
  - apply (step_create_monitor default_settings 31 example_realm Demo.target). by vm_compute.
  - apply (step_assign_agent default_settings example_realm monitor example_agent); by vm_compute.
Qed.
Lemma au8 : authenticated db8 Demo.au.
Proof. apply Demo.au_authenticated. by vm_compute. Qed.
Definition result_or {A} (a : A) (o : outcome A) : A := match o with Ok x => x | Err _ => a end.
Definition result9 : ConfigurationResult := result_or (mkConfigurationResult snapshot content) run9.2.
Definition monitors9 : json := default JNull (json_get "monitors" (res_content result9)).
Definition body9 : json :=
  default JNull (encode_AgentConfigurationResponse (configuration_response Demo.au result9 monitors9)).
Definition response9 : ConfigurationResponse :=
  default (mkConfigurationResponse 0 0 EmptyString EmptyString 0 EmptyString []) (decode_configuration body9).
Definition right_or {A B} (b : B) (s : A + B) : B := match s with inr x => x | inl _ => b end.
Definition maps9 : list json := right_or [] (check_monitors caps [] (Monitors response9)).
Lemma run9_eq : get_or_create_configuration 3000000 Demo.au db8 = (run9.1, Ok result9).
Proof. unfold run9. apply run_outcome. vm_compute. reflexivity. Qed.
Lemma maps9_eq : check_monitors caps [] (Monitors response9) = inr maps9.
Proof. vm_compute. reflexivity. Qed.
Lemma digests_differ : String.eqb (sha256_hexdigest (go_marshal (agent_content response9 maps9)))
  (sha256_hexdigest (canonical_json (res_content result9))) = false.
Proof. vm_compute. reflexivity. Qed.
End ContractDemo.

Lemma agent_accepts_plain_configuration_witness :
  exists body c, decode_configuration body = Some c /\
    Validate c (str_uuid 5) (str_uuid 1) ContractDemo.caps = Accepted_ (canonical_json ContractDemo.content).
Proof.
  destruct ContractDemo.contract_operational as (op & Hop & Hcaps).
  destruct (agent_accepts_plain_configuration default_settings ContractDemo.db5 3000000 Demo.au ContractDemo.db6
    (mkConfigurationResult ContractDemo.snapshot ContractDemo.content) op ContractDemo.caps ContractDemo.contract_reach
    ContractDemo.contract_au ContractDemo.uuids5 ContractDemo.answer5 Hop) as (monitors & body & c & _ & _ & Hd & Hv & _).
  - rewrite Hcaps. vm_compute. reflexivity.
  - vm_compute. reflexivity.
  - vm_compute. reflexivity.
  - vm_compute. reflexivity.
  - exists body, c. split; [exact Hd|exact Hv].
Defined.

Lemma agent_refuses_markup_witness :
  Validate ContractDemo.response9 (str_uuid 5) (str_uuid 1) ContractDemo.caps <>
    Accepted_ (go_marshal (agent_content ContractDemo.response9 ContractDemo.maps9)).
Proof.
  apply (agent_refuses_markup default_settings ContractDemo.db8 3000000 Demo.au ContractDemo.run9.1
    ContractDemo.result9 ContractDemo.monitors9 ContractDemo.body9 ContractDemo.response9 (str_uuid 5) (str_uuid 1)
    ContractDemo.caps _ ContractDemo.reach8 ContractDemo.au8 ContractDemo.run9_eq).
  - vm_compute. reflexivity.
  - vm_compute. reflexivity.
  - vm_compute. reflexivity.
  - vm_compute. reflexivity.
  - intros maps Hmaps computed Hsha. exfalso. rewrite ContractDemo.maps9_eq in Hmaps.
    assert (maps = ContractDemo.maps9) as Hm by congruence. subst computed. rewrite Hm in Hsha.
    pose proof ContractDemo.digests_differ as Hd. rewrite Hsha, String.eqb_refl in Hd. discriminate Hd.
Defined.
