(* ===== verification/EditProps.v ===== *)
(** * Reading a monitor and saving it again

    What [GET /monitors/{id}] answers is accepted by [PUT /monitors/{id}], and saving it
    unchanged writes nothing: no revision is raised and no agent is sent a new configuration. *)

From S2P Require Import Prelude PyText Json Platform Models ProbeConfig ProbeConfigProps Config Domain.
From S2P Require Import Credentials Configuration Selection Effects Isolation Steps ObservationSchema.
From S2P Require Import Observations Dashboard Accounts Lifecycle WebAuthn AuthApi SessionProps Api.
From S2P Require Import EndpointProps MonitorRows Requests Responses RequestProps AuthDemo WireDemo.
Local Open Scope Z_scope.

Section Edit.
Context {CO : Coercions} {P : Platform} {IF : IsoFormat} {H : PasswordHasher} {T : TwoFactorLib}
  {L : WebAuthnLib} {CL : Collation} {D : Decoder} {CS : Columns} (settings : Settings).

(** ** The domain service *)

(** A configuration in the table that validates again: the derived ICMP timeout is in its
    range and a DNS query name has no blanks or dots at its ends. *)
Definition revalidates (m : Monitor) : Prop :=
  forall v, m_configuration m = model_dump v -> icmp_timeout_in_range v = true /\ normal_config v = true.

Lemma stored_configuration_normal m : monitor_ok m -> revalidates m ->
  serialize_probe_configuration (m_probe_type m) (m_configuration m) (Some (m_timeout_seconds m)) =
    Ok (m_configuration m) /\ exists o, m_configuration m = JObject o.
Proof.
  intros [_ [j Hj] _] Hre. apply serialize_typed in Hj as (v & Hv & Ht & Hf & Hw & Hh).
  destruct (Hre v Hv) as [Hr Hn]. rewrite Hv, <-Ht. split; [by apply serialize_model_dump; auto|].
  destruct v; eexists; reflexivity.
Qed.

Lemma unchanged_behavior db m realm target :
  monitor_ok m -> revalidates m ->
  m_realm_id m = realm_id realm -> m_archived_at m = None ->
  t_id target = m_target_id m -> t_realm_id target = realm_id realm -> t_archived_at target = None ->
  t_enabled target = true ->
  update_monitor_behavior m realm target (m_probe_type m) (m_interval_seconds m) (m_timeout_seconds m)
    (m_configuration m) db = (db, Ok m).
Proof.
  intros Hok Hre HR HA HT HTR HTA HE. destruct (stored_configuration_normal m Hok Hre) as [Hs _].
  destruct (mo_schedule m Hok) as [H1 H2].
  unfold update_monitor_behavior, _require_same_realm, _require_active, _validate_schedule, serialize,
    lift_outcome, resource_realm_id, resource_archived_at, Monitor_owned, Target_owned, Monitor_archivable,
    Target_archivable.
  mrun. cbn [existsb]. rewrite HR, HTR, HA, HTA, HE, N.eqb_refl. mrun. cbn [is_none orb negb]. mrun.
  assert ((m_interval_seconds m <? 1) = false) as -> by (apply Z.ltb_ge; lia). mrun.
  assert ((m_timeout_seconds m <? 1) || (m_interval_seconds m <=? m_timeout_seconds m) = false) as ->
    by (apply orb_false_iff; split; [apply Z.ltb_ge|apply Z.leb_gt]; lia). mrun.
  rewrite Hs. mrun. rewrite HT, !bool_decide_eq_true_2, !Z.eqb_refl by done. done.
Qed.

(** ** The message *)

(** A name and a description as the handler writes them. *)
Definition tidy (m : Monitor) : bool :=
  String.eqb (strip (m_name m)) (m_name m) && (1 <=? str_len (m_name m)) && (str_len (m_name m) <=? 200) &&
  opt_ok (fun d => negb (String.eqb d EmptyString) && String.eqb (strip d) d) (m_description m).

Definition payload_of (m : Monitor) : MonitorCreate :=
  mkMonitorCreate (m_target_id m) (m_name m) (m_description m) (m_probe_type m) (m_interval_seconds m)
    (m_timeout_seconds m) (m_configuration m).

Lemma read_monitor_printed m :
  monitor_ok m -> revalidates m -> tidy m = true -> (m_target_id m < 2 ^ 128)%N ->
  read_MonitorCreate (encode_MonitorResponse m) = Some (payload_of m).
Proof.
  intros Hok Hre Ht Hid. destruct (stored_configuration_normal m Hok Hre) as [_ [o Ho]].
  destruct (mo_schedule m Hok) as [H1 H2]. unfold tidy in Ht. destruct_andb.
  unfold read_MonitorCreate, encode_MonitorResponse, encode_base, required, field, read_description, field, j_uuid,
    read_str, read_int_from.
  cbn [app obj_get String.eqb Ascii.eqb Bool.eqb].
  rewrite (to_uuid_str _ Hid), nullable_str, lit_ProbeType_print, to_str_JString, !to_int_JInt, Ho.
  cbn [mbind option_bind read_object].
  assert ((1 <=? m_interval_seconds m) = true) as -> by (apply Z.leb_le; lia).
  assert ((1 <=? m_timeout_seconds m) = true) as -> by (apply Z.leb_le; lia).
  match goal with Ha : (1 <=? str_len _) = true, Hb : (str_len _ <=? 200) = true |- _ => rewrite Ha, Hb end.
  cbn [andb ensure mbind option_bind]. unfold payload_of. by rewrite Ho.
Qed.

(** ** The handlers *)

Lemma unchanged_description m : tidy m = true ->
  match m_description m with
  | Some d => if String.eqb d EmptyString then None else Some (strip d)
  | None => None
  end = m_description m.
Proof.
  unfold tidy. intros Ht. destruct_andb. destruct (m_description m) as [d|]; [|done]. cbn [opt_ok] in *.
  destruct_andb. rewrite negb_true_iff in *. destruct (String.eqb d EmptyString); [done|].
  f_equal. by apply String.eqb_eq.
Qed.

Lemma live_row_found {R} (realm_of : R -> uuid) (arch : R -> option Z) realm id (t : gmap uuid R) r :
  t !! id = Some r -> realm_of r = realm_id realm -> arch r = None ->
  live_row realm_of arch realm id t = Some r.
Proof. intros Hr HR HA. unfold live_row, get_row. by rewrite Hr, HR, HA, N.eqb_refl. Qed.

Lemma get_monitor_inv now id request w w' m :
  get_monitor settings now id request w = (w', Ok m) ->
  w_mon w' = w_mon w /\ exists ra, m_realm_id m = realm_id (ra_realm ra) /\ monitors (w_mon w) !! id = Some m /\
    m_archived_at m = None /\
    exists d, require_realm_permission settings now request MONITORING_READ (w_auth w) = (d, Ok ra).
Proof.
  unfold get_monitor, authorize, on_auth, zoom. rewrite bind_run.
  destruct (require_realm_permission _ _ _ _ _) as [d [ra|e]] eqn:Ha; [|done]. mrun.
  destruct (live_row _ _ _ _ _) as [x|] eqn:El; [|done]. intros [= <- <-].
  apply live_row_Some in El as (? & ? & ?). split; [done|]. exists ra. eauto.
Qed.

Lemma reachable_rows w : rtc (api_step settings) empty_world w ->
  monitor_rows_ok (w_mon w) /\ realm_closed (w_mon w).
Proof.
  intros Hreach. pose proof (reachable_moves settings w Hreach) as Hmv. split.
  - apply (monitor_rows_reachable settings). by destruct Hmv.
  - destruct Hmv as [Hm _ _]. assert (realm_closed (w_mon empty_world)) as Hrc by by split.
    induction Hm as [|x y z Hxy _ IH]; [done|]. by eapply IH, rc_step.
Qed.

(** The name of a row is not taken by another row. *)
Lemma own_name_free db id m realm : monitor_rows_ok db -> monitors db !! id = Some m -> m_realm_id m = realm ->
  exists_row (fun x => (m_realm_id x =? realm)%N && String.eqb (m_name x) (m_name m) &&
    negb (m_id x =? m_id m)%N) (monitors db) = false.
Proof.
  intros Hrows Hrow <-. apply exists_row_false. intros k x Hx. apply not_true_iff_false. intros Hb. destruct_andb.
  destruct (mr_row _ Hrows _ _ Hx) as [<- _], (mr_row _ Hrows _ _ Hrow) as [<- _].
  rewrite negb_true_iff, N.eqb_neq in *. rewrite N.eqb_eq in *. rewrite String.eqb_eq in *.
  match goal with Hne : m_id x <> m_id m |- _ => apply Hne end. by eapply (mr_name _ Hrows _ _ Hrow).
Qed.

(** C29 Saving a monitor as it was read is accepted and writes nothing to the monitoring tables:
    the row that [GET] answered is printed as a message that [PUT] reads, and the update
    returns the same row with all tables as they were, so that its revision and the desired
    configurations of its agents stay. *)
Theorem saving_unchanged_is_silent w w1 now now' request id m target d ra :
  rtc (api_step settings) empty_world w ->
  get_monitor settings now id request w = (w1, Ok m) ->
  require_realm_permission settings now' request MONITORING_MANAGE (w_auth w1) = (d, Ok ra) ->
  m_realm_id m = realm_id (ra_realm ra) ->
  targets (w_mon w) !! m_target_id m = Some target -> t_archived_at target = None -> t_enabled target = true ->
  (m_target_id m < 2 ^ 128)%N -> tidy m = true -> revalidates m ->
  exists payload, read_MonitorCreate (encode_MonitorResponse m) = Some payload /\
    update_monitor settings now' id payload request w1 = (set_w_auth d w1, Ok m).
Proof.
  intros Hreach Hget Hauth HR Htgt HTA HTE Hid Htidy Hre.
  apply get_monitor_inv in Hget as (Hmon & _ & _ & Hrow & HA & _).
  destruct (reachable_rows w Hreach) as [Hrows Hrc]. rewrite <-Hmon in *.
  destruct (mr_row _ Hrows _ _ Hrow) as [Hkey Hok].
  assert (t_realm_id target = realm_id (ra_realm ra)) as HTR.
  { destruct (rc_monitors _ Hrc _ _ Hrow) as [_ (x & Hx & HxR)]. rewrite Htgt in Hx. congruence. }
  exists (payload_of m). split; [by apply read_monitor_printed|].
  unfold update_monitor, authorize, on_auth, zoom. rewrite bind_run, Hauth. mrun.
  rewrite (live_row_found m_realm_id m_archived_at _ _ (monitors (w_mon w1)) m) by done. cbn [require_some]. mrun.
  rewrite (live_row_found t_realm_id t_archived_at _ _ (targets (w_mon w1)) target) by done. cbn [require_some]. mrun.
  cbn [payload_of mc_name mc_description mc_probe_type mc_interval_seconds mc_timeout_seconds mc_configuration].
  assert (strip (m_name m) = m_name m) as -> by (unfold tidy in Htidy; destruct_andb; by apply String.eqb_eq).
  rewrite unchanged_description by done.
  rewrite (mo_text m Hok). mrun. change (w_mon (set_w_auth d w1)) with (w_mon w1). rewrite (own_name_free _ _ _ _ Hrows Hrow HR). mrun.
  unfold monitor_errors, catch, on_mon, zoom. mrun. change (w_mon (set_w_auth d w1)) with (w_mon w1).
  rewrite unchanged_behavior by (done || by rewrite (rc_targets _ Hrc _ _ Htgt)). mrun.
  rewrite String.eqb_refl, bool_decide_eq_true_2 by done. cbn [negb orb]. mrun. by destruct w1.
Qed.
End Edit.

(** ** A TCP monitor read and saved by the user who created it *)

#[local] Existing Instance strict_coercions.
#[local] Existing Instance example_platform.
#[local] Existing Instance example_hasher.
#[local] Existing Instance example_iso.
#[local] Existing Instance example_two_factor.
#[local] Existing Instance example_webauthn.
#[local] Existing Instance example_collation.
#[local] Existing Instance example_decoder.

#[local] Instance example_columns : Columns := {|
  created_at _ _ := 0; updated_at _ _ := 0; relation_id _ k := k.1.1;
  relation_created_at _ _ := 0; relation_updated_at _ _ := 0 |}.

Module EditDemo.
Definition request : Request := AuthDemo.request "session-token".
Definition new_target : endpoint := CreateTarget 7 (mkTargetCreate "gateway" None "192.0.2.1" true).
Definition new_monitor : endpoint := CreateMonitor 8
  (mkMonitorCreate 7 "ssh" (Some "the login port") TCP 60 10 (JObject [("port", JInt 22)])).
Definition world2 : World := (serve default_settings new_target 5000000 request SystemDemo.world1).1.
Definition world3 : World := (serve default_settings new_monitor 6000000 request world2).1.

Lemma edit_reach : rtc (api_step default_settings) empty_world world3.
Proof.
  eapply rtc_r; [eapply rtc_r; [exact SystemDemo.reach1|]|].
  - exact (api_browser default_settings SystemDemo.world1 new_target 5000000 request eq_refl).
  - exact (api_browser default_settings world2 new_monitor 6000000 request eq_refl).
Qed.

Definition read := get_monitor default_settings 7000000 8 request world3.
Definition stored : json :=
  JObject [("address_family", JString "auto"); ("port", JInt 22); ("schema_version", JInt 1)].
Definition row : Monitor := mkMonitor 8 2 7 "ssh" (Some "the login port") TCP 60 10 stored true 1 None.
Definition gateway : Target := mkTarget 7 2 "gateway" None "192.0.2.1" true None.
Definition manager := require_realm_permission default_settings 8000000 request MONITORING_MANAGE (w_auth read.1).

Definition realm_of (o : outcome RealmAuthorization) : uuid :=
  match o with Ok ra => realm_id (ra_realm ra) | Err _ => 0 end.

Lemma read_row : read.2 = Ok row.
Proof. by vm_compute. Qed.
Lemma target_row : targets (w_mon world3) !! 7%N = Some gateway.
Proof. by vm_compute. Qed.
Lemma manager_realm : realm_of manager.2 = 2%N.
Proof. by vm_compute. Qed.
Lemma realm_of_run {S} (o : S * outcome RealmAuthorization) r : r <> 0%N -> realm_of o.2 = r ->
  exists ra, o = (o.1, Ok ra) /\ realm_id (ra_realm ra) = r.
Proof. destruct o as [d [ra|e]]; cbn; [by exists ra|congruence]. Qed.
Lemma authorised : exists ra, manager = (manager.1, Ok ra) /\ realm_id (ra_realm ra) = 2%N.
Proof. apply realm_of_run; [done|exact manager_realm]. Qed.
Lemma row_revalidates : revalidates row.
Proof. intros [] Hv; try discriminate Hv; done. Qed.
End EditDemo.

Lemma saving_unchanged_is_silent_witness :
  exists payload, read_MonitorCreate (encode_MonitorResponse EditDemo.row) = Some payload /\
    (update_monitor default_settings 8000000 8 payload EditDemo.request EditDemo.read.1).2 = Ok EditDemo.row.
Proof.
  destruct EditDemo.authorised as (ra & Hm & HR).
  destruct (saving_unchanged_is_silent default_settings EditDemo.world3 EditDemo.read.1 7000000 8000000
    EditDemo.request 8 EditDemo.row EditDemo.gateway EditDemo.manager.1 ra EditDemo.edit_reach
    (eq_trans (surjective_pairing EditDemo.read) (f_equal (pair EditDemo.read.1) EditDemo.read_row))
    Hm (eq_sym HR) EditDemo.target_row eq_refl eq_refl eq_refl eq_refl EditDemo.row_revalidates)
    as (payload & Hp & Hu).
  exists payload. split; [exact Hp|]. exact (f_equal snd Hu).
Defined.
