(* ===== verification/MonitorRaces.v ===== *)
(** * Concurrent edits of a monitor (api/monitor_management.py, monitoring/domain.py)

    [PUT /monitors/{id}] reads the monitor, checks the edit and saves the new behaviour with
    the revision it read plus one, in statements of its own and without locking the row.
    Run alone the program is the handler of [Api].  Interleaved, two edits that both read
    before either saves are both accepted, with the same revision and different behaviour. *)

From S2P Require Import Prelude PyText Json Platform Models ProbeConfig Config Domain.
From S2P Require Import Credentials Configuration Selection Effects ObservationSchema Observations Dashboard.
From S2P Require Import Accounts Lifecycle WebAuthn AuthApi SessionProps Api EndpointProps AuthDemo.
From S2P Require Import EditProps Concurrency.
Local Open Scope Z_scope.

(** The programs run outside transactions; a bump of a revision, the one transaction they
    contain, holds the only row it works on, and is one statement here. *)
Abbreviation mprog R := (prog (S := MonDB) (K := unit) (R := R)).

Section Programs.
Context {CO : Coercions}.

(** [effective_agent_ids]: three queries. *)
Definition effective_agent_ids_prog (monitor : Monitor) : mprog (gset uuid) :=
  if negb (is_none (m_archived_at monitor)) || negb (m_enabled monitor) then mret ∅
  else
    direct_ids ← read (fun db => direct_agent_ids db (m_realm_id monitor) (m_id monitor));
    group_ids ← read (fun db => assigned_group_ids db (m_realm_id monitor) (m_id monitor));
    group_agent_ids ← read (fun db => group_member_ids db (m_realm_id monitor) group_ids);
    mret (list_to_set direct_ids ∪ list_to_set group_agent_ids).

Definition bump_prog (agent_ids : list uuid) (realm_id : uuid) : mprog unit :=
  prog_for_each (elements (list_to_set agent_ids : gset uuid)) (fun a => at_once (bump_one realm_id a)).

(** The monitor as [update_monitor_behavior] saves it. *)
Definition edited (monitor : Monitor) (target : Target) (payload : MonitorCreate) (normalized : json) : Monitor :=
  mkMonitor (m_id monitor) (m_realm_id monitor) (t_id target) (m_name monitor) (m_description monitor)
    (mc_probe_type payload) (mc_interval_seconds payload) (mc_timeout_seconds payload) normalized
    (m_enabled monitor) (m_revision monitor + 1) (m_archived_at monitor).

(** [update_monitor_behavior]: the checks concern the rows that were read. *)
Definition update_behavior_prog (monitor : Monitor) (realm : Realm) (target : Target)
    (payload : MonitorCreate) : mprog Monitor :=
  at_once (_require_same_realm realm [resource_realm_id monitor; resource_realm_id target]) ;;
  at_once (_require_active [resource_archived_at monitor; resource_archived_at target]) ;;
  at_once (raise_if (negb (t_enabled target))
    (ResourceStateError "Disabled targets cannot receive monitors")) ;;
  at_once (_validate_schedule (mc_interval_seconds payload) (mc_timeout_seconds payload)) ;;
  normalized ← at_once (serialize (mc_probe_type payload) (mc_configuration payload) (mc_timeout_seconds payload));
  if bool_decide (m_target_id monitor = t_id target) &&
     bool_decide (m_probe_type monitor = mc_probe_type payload) &&
     (m_interval_seconds monitor =? mc_interval_seconds payload) &&
     (m_timeout_seconds monitor =? mc_timeout_seconds payload) &&
     bool_decide (m_configuration monitor = normalized)
  then mret monitor
  else
    let monitor' := edited monitor target payload normalized in
    at_once (save_behavior monitor') ;;
    ids ← effective_agent_ids_prog monitor';
    bump_prog (elements ids) (realm_id realm) ;;
    mret monitor'.

Definition found_or {A} (o : option A) (e : exn) : mprog A :=
  match o with Some a => mret a | None => Ret (Err e) end.

(** The handler once the monitor is read. *)
Definition update_rest (realm : Realm) (payload : MonitorCreate) (found : option Monitor) : mprog Monitor :=
  monitor ← found_or found (not_found "Monitor not found");
  found_target ← read (fun db => live_row t_realm_id t_archived_at realm (mc_target_id payload) (targets db));
  target ← found_or found_target (not_found "Target not found");
  let name := strip (mc_name payload) in
  let description := match mc_description payload with
                     | Some d => if String.eqb d EmptyString then None else Some (strip d)
                     | None => None
                     end in
  if negb (pg_text name) then Ret (Err DataError) else
  taken ← read (fun db => exists_row (fun m => (m_realm_id m =? realm_id realm)%N &&
      String.eqb (m_name m) name && negb (m_id m =? m_id monitor)%N) (monitors db));
  if (taken : bool) then Ret (Err (_conflict "A monitor with that name already exists")) else
  prog_catch (prog_catch (
    monitor' ← update_behavior_prog monitor realm target payload;
    if negb (String.eqb (m_name monitor') name) ||
       negb (bool_decide (m_description monitor' = description))
    then
      at_once (rename_monitor (realm_id realm) (m_id monitor') name description) ;;
      refreshed ← read (fun db => monitors db !! m_id monitor');
      found_or refreshed DoesNotExist
    else mret monitor') is_IntegrityError (fun _ => _conflict "A monitor with that name already exists"))
    is_rejected_input _unprocessable.

Definition update_monitor_prog (realm : Realm) (monitor_id : uuid) (payload : MonitorCreate) : mprog Monitor :=
  query (fun db => live_row m_realm_id m_archived_at realm monitor_id (monitors db)) (update_rest realm payload).

(** ** Alone *)

Lemma effective_agent_ids_alone m db : run (effective_agent_ids_prog m) db = effective_agent_ids m db.
Proof. unfold effective_agent_ids_prog, effective_agent_ids, effective_agent_ids_of. by destruct (_ || _). Qed.

Lemma for_each_ext {S A} (l : list A) (f g : A -> M S unit) s :
  (forall x s, f x s = g x s) -> for_each l f s = for_each l g s.
Proof.
  intros Hfg. revert s. induction l as [|x l IH]; intros s; [done|]. simpl. rewrite !bind_run, Hfg.
  by destruct (g x s) as [s' [[]|e]].
Qed.

Lemma bump_alone ids r db : run (bump_prog ids r) db = _bump_configuration_revisions ids r db.
Proof.
  unfold bump_prog, _bump_configuration_revisions. rewrite run_for_each. apply for_each_ext.
  intros x s. apply run_at_once.
Qed.

(** The first statement of a program against the first step of an operation. *)
Ltac same_step := rewrite run_bind, !bind_run, ?run_at_once, ?effective_agent_ids_alone, ?bump_alone;
  lazymatch goal with |- context [match ?r with (_, _) => _ end] => destruct r as [? [?|?]]; [|done] end.

Lemma update_behavior_alone m realm t p db :
  run (update_behavior_prog m realm t p) db =
    update_monitor_behavior m realm t (mc_probe_type p) (mc_interval_seconds p) (mc_timeout_seconds p)
      (mc_configuration p) db.
Proof.
  unfold update_behavior_prog, update_monitor_behavior, edited. do 5 same_step.
  destruct (_ && _ && _ && _ && _); [done|]. by do 3 same_step.
Qed.

(** The handler, once the request is authorised. *)
Lemma update_monitor_alone {P : Platform} {IF : IsoFormat} {H : PasswordHasher} settings now id p request w w1 auth :
  authorize settings now request MONITORING_MANAGE w = (w1, Ok auth) ->
  update_monitor settings now id p request w =
    (set_w_mon (run (update_monitor_prog (ra_realm auth) id p) (w_mon w1)).1 w1,
     (run (update_monitor_prog (ra_realm auth) id p) (w_mon w1)).2).
Proof.
  intros Ha. unfold update_monitor. rewrite bind_run, Ha. destruct w1 as [a db o]. mrun. unfold update_monitor_prog.
  cbn [w_mon query select_for_update run]. destruct (live_row _ _ _ id _) as [m|]; [|done].
  unfold update_rest. cbn [require_some found_or]. mrun. rewrite run_bind, bind_run. cbn [run mret prog_ret].
  rewrite run_bind, bind_run. cbn [run read query select_for_update w_mon mret prog_ret].
  destruct (live_row _ _ _ _ (targets db)) as [t|]; [|done].
  cbn [require_some found_or]. mrun. rewrite run_bind, bind_run. cbn [run mret prog_ret].
  destruct (pg_text (strip (mc_name p))); [|done]. cbn [negb]. mrun.
  rewrite run_bind, bind_run. cbn [run read query select_for_update w_mon mret prog_ret].
  destruct (exists_row _ _); [done|]. mrun. rewrite run_catch. unfold monitor_errors, catch. rewrite run_catch.
  unfold catch. rewrite run_bind, !bind_run. unfold on_mon, zoom. cbn [w_mon]. rewrite update_behavior_alone.
  destruct (update_monitor_behavior _ _ _ _ _ _ _ _) as [db' [m'|e]]; [|done].
  destruct (_ || _); [|done]. rewrite run_bind, !bind_run, run_at_once. cbn [w_mon set_w_mon].
  destruct (rename_monitor _ _ _ _ _) as [db2 [[]|e]]; [|done]. rewrite run_bind, !bind_run.
  cbn [gets w_mon set_w_mon run read query select_for_update mret prog_ret].
  by destruct (monitors db2 !! m_id m').
Qed.
End Programs.

(** ** Two edits, one revision *)

Section Races.
Context {CO : Coercions}.

(** What an edit writes: the behaviour and the revision, into the row as it is. *)
Definition with_behavior (m r : Monitor) : Monitor :=
  mkMonitor (m_id r) (m_realm_id r) (m_target_id m) (m_name r) (m_description r) (m_probe_type m)
    (m_interval_seconds m) (m_timeout_seconds m) (m_configuration m) (m_enabled r) (m_revision m) (m_archived_at r).

Definition behave (m : Monitor) (realm : Realm) (t : Target) (p : MonitorCreate) : D Monitor :=
  update_monitor_behavior m realm t (mc_probe_type p) (mc_interval_seconds p) (mc_timeout_seconds p)
    (mc_configuration p).

Lemma save_anywhere m s s' a : save_behavior m s = (s', Ok a) ->
  forall db r, monitors db !! m_id m = Some r ->
    save_behavior m db = (set_monitors (<[m_id m := with_behavior m r]> (monitors db)) db, Ok tt).
Proof.
  unfold save_behavior, check_behavior. intros E db r Hr. minv. mrun. rewrite H. mrun. by rewrite Hr.
Qed.

(** An edit changes nothing, or writes the same on any row with the id. *)
Lemma behave_anywhere m realm t p db db1 m' :
  behave m realm t p db = (db1, Ok m') ->
  (m' = m /\ db1 = db) \/
  (exists norm, m' = edited m t p norm) /\
  forall db2 r, monitors db2 !! m_id m = Some r ->
    exists db3, behave m realm t p db2 = (db3, Ok m') /\
      monitors db3 = <[m_id m := with_behavior m' r]> (monitors db2) /\ targets db3 = targets db2.
Proof.
  unfold behave, update_monitor_behavior, _require_same_realm, _require_active, _validate_schedule, serialize,
    lift_outcome. intros E. minv. simplify_eq.
  destruct (serialize_probe_configuration _ _ _) as [norm|e] eqn:En; simplify_eq.
  destruct (_ && _ && _ && _ && _) eqn:Ec; [left; minv; by simplify_eq|]. minv. simplify_eq.
  right. split; [by eexists|]. intros db2 r Hr.
  mrun. repeat (match goal with H : ?b = false |- context [?b] => rewrite H end; mrun).
  erewrite (save_anywhere _ _ _ _ ltac:(eassumption) db2 r Hr). mrun. unfold effective_agent_ids. mrun.
  rewrite bump_closed_form. mrun. by eexists.
Qed.

(** What an edit leaves as it is. *)
Definition kept (r m : Monitor) : Prop :=
  m_id r = m_id m /\ m_realm_id r = m_realm_id m /\ m_enabled r = m_enabled m /\
  m_archived_at r = m_archived_at m.

(** On the row that was read, the row becomes the answer. *)
Lemma behave_row m realm t p db db1 m' :
  behave m realm t p db = (db1, Ok m') -> monitors db !! m_id m = Some m ->
  monitors db1 !! m_id m = Some m' /\ kept m' m /\ forall k, k <> m_id m -> monitors db !! k = monitors db1 !! k.
Proof.
  intros E Hrow. destruct (behave_anywhere _ _ _ _ _ _ _ E) as [[-> ->]|[[norm ->] Hany]]; [done|].
  destruct (Hany db m Hrow) as (db3 & E3 & Hm & _). rewrite E in E3. injection E3 as <-.
  rewrite Hm, lookup_insert_eq. split; [done|]. split; [done|]. intros k Hk. by rewrite lookup_insert_ne.
Qed.

(** ** The name *)

Definition new_description (p : MonitorCreate) : option string :=
  match mc_description p with
  | Some d => if String.eqb d EmptyString then None else Some (strip d)
  | None => None
  end.

Definition titled (p : MonitorCreate) (m : Monitor) : Monitor :=
  mkMonitor (m_id m) (m_realm_id m) (m_target_id m) (strip (mc_name p)) (new_description p)
    (m_probe_type m) (m_interval_seconds m) (m_timeout_seconds m) (m_configuration m)
    (m_enabled m) (m_revision m) (m_archived_at m).

Definition retitles (p : MonitorCreate) (m : Monitor) : bool :=
  negb (String.eqb (m_name m) (strip (mc_name p))) || negb (bool_decide (m_description m = new_description p)).

(** The name is taken by another monitor. *)
Definition taken (realm : Realm) (p : MonitorCreate) (id : uuid) (t : gmap uuid Monitor) : bool :=
  exists_row (fun m => (m_realm_id m =? realm_id realm)%N && String.eqb (m_name m) (strip (mc_name p)) &&
    negb (m_id m =? id)%N) t.

Lemma taken_agree realm p id t t' : (forall k, k <> id -> t !! k = t' !! k) ->
  (forall r, t' !! id = Some r -> m_id r = id) ->
  taken realm p id t = false -> taken realm p id t' = false.
Proof.
  unfold taken. rewrite !exists_row_false. intros Ha Hi Hf k r Hk.
  destruct (decide (k = id)) as [->|Hne]; [|by eapply (Hf k); rewrite Ha].
  by rewrite (Hi r Hk), N.eqb_refl, andb_false_r.
Qed.

(** Text that can be stored. *)
Definition title_ok (p : MonitorCreate) : bool := pg_text (strip (mc_name p)) && opt_ok pg_text (new_description p).

Lemma rename_run realm p id r db :
  monitors db !! id = Some r -> m_realm_id r = realm_id realm -> taken realm p id (monitors db) = false ->
  rename_monitor (realm_id realm) id (strip (mc_name p)) (new_description p) db =
    if title_ok p then (set_monitors (<[id := titled p r]> (monitors db)) db, Ok tt) else (db, Err DataError).
Proof.
  intros Hr HR Ht. unfold rename_monitor, check_name, get_row. mrun. fold (title_ok p).
  destruct (title_ok p); [|done]. mrun. rewrite Hr, HR, N.eqb_refl. mrun.
  replace (exists_row _ _) with false; [by mrun|]. symmetry. revert Ht. unfold taken. rewrite !exists_row_false.
  intros Hf k x Hk. rewrite <- (Hf k x Hk). by destruct (_ =? _)%N, (_ =? _)%N, (String.eqb _ _).
Qed.

(** The last part of the handler. *)
Definition retitle (realm : Realm) (p : MonitorCreate) (m : Monitor) : D Monitor :=
  if retitles p m then
    rename_monitor (realm_id realm) (m_id m) (strip (mc_name p)) (new_description p) ;;
    refreshed ← gets (fun db => monitors db !! m_id m);
    match refreshed with Some r => mret r | None => raise DoesNotExist end
  else mret m.

Lemma retitle_run realm p m row db :
  monitors db !! m_id m = Some row -> m_realm_id row = realm_id realm ->
  taken realm p (m_id m) (monitors db) = false ->
  retitle realm p m db = if retitles p m
    then if title_ok p then (set_monitors (<[m_id m := titled p row]> (monitors db)) db, Ok (titled p row))
      else (db, Err DataError)
    else (db, Ok m).
Proof.
  intros Hr HR Ht. unfold retitle. destruct (retitles p m); [|done].
  rewrite bind_run, (rename_run _ _ _ row) by done. destruct (title_ok p); [|done]. mrun. cbn [monitors set_monitors]. by rewrite lookup_insert_eq.
Qed.

(** An accepted edit, in steps. *)
Lemma update_rest_Ok realm p m db d m1 :
  run (update_rest realm p (Some m)) db = (d, Ok m1) <->
  exists t, live_row t_realm_id t_archived_at realm (mc_target_id p) (targets db) = Some t /\
    pg_text (strip (mc_name p)) = true /\ taken realm p (m_id m) (monitors db) = false /\
    (behave m realm t p ≫= retitle realm p) db = (d, Ok m1).
Proof.
  unfold update_rest. cbn [found_or]. rewrite run_bind, bind_run. cbn [run mret prog_ret].
  rewrite run_bind, bind_run. cbn [run read query select_for_update mret prog_ret].
  destruct (live_row _ _ _ _ (targets db)) as [t|]; [|split; [done|by intros (t & ? & _)]].
  cbn [found_or]. rewrite run_bind, bind_run. cbn [run mret prog_ret].
  destruct (pg_text (strip (mc_name p))); cbn [negb]; [|split; [done|by intros (? & _ & ? & _)]].
  rewrite run_bind, bind_run. cbn [run read query select_for_update mret prog_ret].
  fold (taken realm p (m_id m) (monitors db)). destruct (taken _ _ _ _); [split; [done|by intros (? & _ & _ & ? & _)]|].
  fold (new_description p).
  rewrite !run_catch_Ok, run_bind, bind_run, update_behavior_alone.
  transitivity ((behave m realm t p ≫= retitle realm p) db = (d, Ok m1)).
  2:{ split; [by exists t|by intros (? & [= <-] & _ & _ & ?)]. }
  rewrite bind_run. unfold behave, retitle, retitles.
  destruct (update_monitor_behavior _ _ _ _ _ _ _ _) as [db1 [m'|e]]; [|done].
  destruct (_ || _); [|done]. rewrite run_bind, !bind_run, run_at_once.
  destruct (rename_monitor _ _ _ _ _) as [db2 [[]|e]]; [|done]. rewrite run_bind, !bind_run.
  cbn [gets run read query select_for_update mret prog_ret]. by destruct (monitors db2 !! m_id m').
Qed.

Lemma kept_titled p m' m r : kept m' m -> kept r m -> titled p (with_behavior m' r) = titled p m'.
Proof. intros (H1 & H2 & H3 & H4) (H5 & H6 & H7 & H8). unfold titled, with_behavior. simpl. congruence. Qed.

(** The row after the edit: the behaviour of the answer, in a row that is otherwise kept. *)
Definition carries (row m : Monitor) : Prop := with_behavior m row = row.

(** An accepted edit that changed the behaviour is accepted in the same way from any tables
    that agree but for the row itself. *)
Lemma edit_anywhere realm p m db d1 m1 :
  run (update_rest realm p (Some m)) db = (d1, Ok m1) -> m_revision m1 <> m_revision m ->
  monitors db !! m_id m = Some m -> m_realm_id m = realm_id realm ->
  m_revision m1 = m_revision m + 1 /\
  forall db2 r, (forall k, k <> m_id m -> monitors db !! k = monitors db2 !! k) ->
    monitors db2 !! m_id m = Some r -> kept r m -> targets db2 = targets db ->
    exists d' row, run (update_rest realm p (Some m)) db2 = (d', Ok m1) /\
      monitors d' = <[m_id m := row]> (monitors db2) /\ targets d' = targets db2 /\
      kept row m /\ carries row m1 /\ (r = m -> row = m1).
Proof.
  intros E Hrev Hrow HR. apply update_rest_Ok in E as (t & Ht & Htext & Hfree & E).
  apply bind_inv_Ok in E as (db1 & m' & Eb & Er).
  destruct (behave_row _ _ _ _ _ _ _ Eb Hrow) as (Hrow1 & Hk & Hother). pose proof Hk as (Hid & HRk & _).
  rewrite (retitle_run _ _ _ m') in Er; [|by rewrite Hid|congruence|].
  2:{ rewrite Hid. eapply taken_agree; [exact Hother| |exact Hfree]. rewrite Hrow1. by intros ? [= <-]. }
  destruct (behave_anywhere _ _ _ _ _ _ _ Eb) as [[-> ->]|[[norm Hm'] Hany]].
  { destruct (retitles p m), (title_ok p); try done; by injection Er as _ <-. }
  split; [destruct (retitles p m'), (title_ok p); try done; injection Er as _ <-; by subst m'|].
  intros db2 r Hagree Hr Hkr Htg. destruct (Hany db2 r Hr) as (db3 & E3 & Hm3 & Ht3).
  pose proof Hkr as (Hidr & HRr & _).
  assert (retitle realm p m' db3 = if retitles p m'
    then if title_ok p then (set_monitors (<[m_id m := titled p m']> (monitors db3)) db3, Ok (titled p m'))
      else (db3, Err DataError) else (db3, Ok m')) as E4.
  { rewrite (retitle_run _ _ _ (with_behavior m' r)), (kept_titled _ _ m), Hid; try done.
    - by rewrite Hid, Hm3, lookup_insert_eq.
    - simpl. congruence.
    - rewrite Hid, Hm3. eapply taken_agree; [|intros ?; rewrite lookup_insert_eq; by intros [= <-]|exact Hfree].
      intros k Hne. rewrite lookup_insert_ne by done. by apply Hagree. }
  assert (forall d' , (behave m realm t p ≫= retitle realm p) db2 = (d', Ok m1) ->
    run (update_rest realm p (Some m)) db2 = (d', Ok m1)) as Hrun.
  { intros d' Hd. apply update_rest_Ok. exists t. rewrite Htg. split_and!; [done|done| |done].
    eapply taken_agree; [exact Hagree| |exact Hfree]. rewrite Hr. by intros ? [= <-]. }
  rewrite bind_run, E3, E4 in Hrun. destruct (retitles p m'); [destruct (title_ok p); [|done]|]; injection Er as _ <-.
  - eexists _, (titled p m'). split; [by apply Hrun|]. simpl. rewrite Hm3, insert_insert_eq.
    split_and!; try done.
  - eexists _, (with_behavior m' r). split; [by apply Hrun|]. split_and!; try done.
    intros ->. by subst m'.
Qed.

(** The row an accepted edit has read. *)
Lemma edit_read realm id p db m d m1 :
  monitors db !! id = Some m -> run (update_monitor_prog realm id p) db = (d, Ok m1) ->
  live_row m_realm_id m_archived_at realm id (monitors db) = Some m /\ m_realm_id m = realm_id realm /\
  run (update_rest realm p (Some m)) db = (d, Ok m1).
Proof.
  intros Hrow. unfold update_monitor_prog. cbn [query select_for_update run]. unfold live_row, get_row. rewrite Hrow.
  destruct (_ && _) eqn:Eg; [|done]. intros E. split; [done|]. guards. done.
Qed.

(** C34 Two edits of a monitor that are each accepted alone and each change what it does.  One
    after the other, the second change has a revision of its own.  When the second edit runs
    between the moment the first one reads the monitor and the moment it saves, both are
    answered as if they were alone, with the same revision: for a time the monitor is what the
    second answer says, and in the end it does what the first says, under one revision. *)
Theorem concurrent_edits_share_a_revision realm id p1 p2 db m d1 m1 d2 m2 :
  monitors db !! id = Some m -> m_id m = id ->
  run (update_monitor_prog realm id p1) db = (d1, Ok m1) -> m_revision m1 <> m_revision m ->
  run (update_monitor_prog realm id p2) db = (d2, Ok m2) -> m_revision m2 <> m_revision m ->
  (forall d m', run (update_monitor_prog realm id p1) d2 = (d, Ok m') -> m_revision m' <> m_revision m2 ->
     m_revision m' = m_revision m2 + 1) /\
  exists ts1 d ts row,
    rtc step (db, {[0%nat := Auto (update_monitor_prog realm id p1); 1%nat := Auto (update_monitor_prog realm id p2)]})
      (d2, ts1) /\ monitors d2 !! id = Some m2 /\
    rtc step (d2, ts1) (d, ts) /\ monitors d !! id = Some row /\ carries row m1 /\
    answer <$> ts !! 0%nat = Some (Some (Ok m1)) /\ answer <$> ts !! 1%nat = Some (Some (Ok m2)) /\
    m_revision m1 = m_revision m2 /\ m_revision row = m_revision m2.
Proof.
  intros Hrow <- E1 Hc1 E2 Hc2.
  destruct (edit_read _ _ _ _ _ _ _ Hrow E1) as (Hl & HR & R1).
  destruct (edit_read _ _ _ _ _ _ _ Hrow E2) as (_ & _ & R2).
  destruct (edit_anywhere _ _ _ _ _ _ R1 Hc1 Hrow HR) as [Hrev1 Hany1].
  destruct (edit_anywhere _ _ _ _ _ _ R2 Hc2 Hrow HR) as [Hrev2 Hany2].
  destruct (Hany2 db m) as (d2' & row2 & R2' & Hm2 & Ht2 & Hk2 & _ & Hrow2); [done..|].
  rewrite R2 in R2'. injection R2' as <-. rewrite (Hrow2 eq_refl) in *. clear row2 Hrow2.
  assert (monitors d2 !! m_id m = Some m2) as Hd2 by by rewrite Hm2, lookup_insert_eq.
  destruct (Hany1 d2 m2) as (d & row & R1' & Hm & _ & _ & Hcar & _); try done.
  { intros k Hne. by rewrite Hm2, lookup_insert_ne. }
  split.
  - intros d' m' E' Hne. destruct Hk2 as (Hid & HR2 & _). rewrite <- Hid in E', Hd2.
    destruct (edit_read _ _ _ _ _ _ _ Hd2 E') as (_ & HR' & R').
    by destruct (edit_anywhere _ _ _ _ _ _ R' Hne Hd2 HR') as [Hrev' _].
  - destruct (overtaken (fun db => live_row m_realm_id m_archived_at realm (m_id m) (monitors db))
      (update_rest realm p1) (update_monitor_prog realm (m_id m) p2) db) as (ts1 & ts & S1 & S2 & A0 & A1).
    rewrite E2, Hl in *. cbn [fst snd] in *. rewrite R1' in *. exists ts1, d, ts, row.
    split_and!; try done; [by rewrite Hm, lookup_insert_eq|congruence|].
    rewrite <- Hcar. simpl. congruence.
Qed.
End Races.

(** ** Two users move the port of one monitor *)

#[local] Existing Instance strict_coercions.
#[local] Existing Instance example_platform.
#[local] Existing Instance example_hasher.
#[local] Existing Instance example_iso.
#[local] Existing Instance example_two_factor.
#[local] Existing Instance example_webauthn.
#[local] Existing Instance example_collation.

Module MonitorRaceDemo.
Definition mon : MonDB := w_mon EditDemo.world3.
Definition realm : Realm := mkRealm 2 EmptyString EmptyString true 0.
Definition payload (port : Z) : MonitorCreate :=
  mkMonitorCreate 7 "ssh" (Some "the login port") TCP 60 10 (JObject [("port", JInt port)]).
Definition stored (port : Z) : json :=
  JObject [("address_family", JString "auto"); ("port", JInt port); ("schema_version", JInt 1)].
Definition edited_row (port : Z) : Monitor :=
  mkMonitor 8 2 7 "ssh" (Some "the login port") TCP 60 10 (stored port) true 2 None.
Definition edit (port : Z) : mprog Monitor := update_monitor_prog realm 8 (payload port).

Lemma edit_2222 : (run (edit 2222) mon).2 = Ok (edited_row 2222).
Proof. by vm_compute. Qed.
Lemma edit_443 : (run (edit 443) mon).2 = Ok (edited_row 443).
Proof. by vm_compute. Qed.
Lemma mon_row : monitors mon !! 8%N = Some EditDemo.row.
Proof. by vm_compute. Qed.
End MonitorRaceDemo.

Lemma concurrent_edits_share_a_revision_witness : exists d ts row,
  rtc step (MonitorRaceDemo.mon,
    {[0%nat := Auto (MonitorRaceDemo.edit 2222); 1%nat := Auto (MonitorRaceDemo.edit 443)]}) (d, ts) /\
  answer <$> ts !! 0%nat = Some (Some (Ok (MonitorRaceDemo.edited_row 2222))) /\
  answer <$> ts !! 1%nat = Some (Some (Ok (MonitorRaceDemo.edited_row 443))) /\
  monitors d !! 8%N = Some row /\ m_configuration row = MonitorRaceDemo.stored 2222 /\ m_revision row = 2.
Proof.
  destruct (concurrent_edits_share_a_revision MonitorRaceDemo.realm 8 (MonitorRaceDemo.payload 2222)
    (MonitorRaceDemo.payload 443) MonitorRaceDemo.mon EditDemo.row _ (MonitorRaceDemo.edited_row 2222) _
    (MonitorRaceDemo.edited_row 443) MonitorRaceDemo.mon_row eq_refl (run_outcome _ _ _ MonitorRaceDemo.edit_2222)
    ltac:(done) (run_outcome _ _ _ MonitorRaceDemo.edit_443) ltac:(done))
    as [_ (ts1 & d & ts & row & S1 & _ & S2 & Hrow & Hc & A0 & A1 & _ & Hr)].
  exists d, ts, row. split_and!; [etrans; [exact S1|exact S2]|exact A0|exact A1|exact Hrow| |exact Hr].
  rewrite <- Hc. reflexivity.
Defined.
