(* ===== verification/Failures.v ===== *)
(** * Which exceptions operations raise

    [raises Q m]: whatever the state, an exception that leaves [m] satisfies [Q].  The rules
    follow the combinators of the monad; [track] applies them down to the operations that
    [leaf] settles. *)

From Stdlib Require Import Ascii.
From S2P Require Import Prelude PyText Json Platform Models ProbeConfig Domain.
From S2P Require Import Credentials Configuration ObservationSchema Observations Dashboard Accounts.
From S2P Require Import Lifecycle WebAuthn AuthApi Api.
From S2P Require Import Selection Effects Isolation.
From S2P Require Import SessionProps AuthSteps EndpointProps.
Local Open Scope Z_scope.

Definition raises {S A} (Q : exn -> Prop) (m : M S A) : Prop := forall s e, (m s).2 = Err e -> Q e.

Section Raises.
Context {S : Type} (Q : exn -> Prop).

Lemma raises_ret {A} (a : A) : raises Q (mret a : M S A).
Proof. by intros s e. Qed.
Lemma raises_raise {A} e : Q e -> raises Q (raise e : M S A).
Proof. by intros He s e' [= <-]. Qed.
Lemma raises_gets {A} (f : S -> A) : raises Q (gets f).
Proof. by intros s e. Qed.
Lemma raises_modify (f : S -> S) : raises Q (modify f).
Proof. by intros s e. Qed.
Lemma raises_raise_if b e : (b = true -> Q e) -> raises Q (raise_if b e : M S unit).
Proof. intros He s e'. destruct b; [intros [= <-]; auto|done]. Qed.

(** What the first step returned is known to the second. *)
Lemma raises_bind_with {A B} (R : A -> Prop) (m : M S A) (k : A -> M S B) :
  (forall s s' a, m s = (s', Ok a) -> R a) -> raises Q m -> (forall a, R a -> raises Q (k a)) -> raises Q (m ≫= k).
Proof.
  intros HR Hm Hk s e. rewrite bind_run. specialize (Hm s).
  destruct (m s) as [s' [a|e']] eqn:E; [by apply Hk; eauto|]. intros [= <-]. by apply Hm.
Qed.
Lemma raises_bind {A B} (m : M S A) (k : A -> M S B) :
  raises Q m -> (forall a, raises Q (k a)) -> raises Q (m ≫= k).
Proof. intros Hm Hk. by apply (raises_bind_with (fun _ => True)); auto. Qed.

Lemma raises_in_transaction {A} (m : M S A) : raises Q m -> raises Q (in_transaction m).
Proof. intros Hm s e. specialize (Hm s). unfold in_transaction. by destruct (m s) as [s' [a|e']]; [|apply Hm]. Qed.
Lemma raises_for_each {A} (l : list A) (body : A -> M S unit) :
  (forall x, raises Q (body x)) -> raises Q (for_each l body).
Proof. intros Hb. induction l as [|x l IH]; simpl; [apply raises_ret|]. by apply raises_bind. Qed.
End Raises.

Lemma raises_weaken {S A} (Q Q' : exn -> Prop) (m : M S A) : raises Q m -> (forall e, Q e -> Q' e) -> raises Q' m.
Proof. intros Hm HQ s e He. by eapply HQ, Hm. Qed.

(** [except]: what is caught is translated, the rest goes on. *)
Lemma raises_catch {S A} (Q : exn -> Prop) (m : M S A) (p : exn -> bool) (h : exn -> exn) :
  raises (fun e => if p e then Q (h e) else Q e) m -> raises Q (catch m p h).
Proof.
  intros Hm s e. specialize (Hm s). unfold catch. destruct (m s) as [s' [a|e']]; [done|].
  intros [= <-]. specialize (Hm e' eq_refl). simpl in Hm. by destruct (p e').
Qed.

Lemma raises_zoom {S T A} (Q : exn -> Prop) (get : S -> T) put (m : M T A) :
  raises Q m -> raises Q (zoom get put m).
Proof.
  intros Hm s e. specialize (Hm (get s)). unfold zoom. by destruct (m (get s)) as [t [a|e']]; [|apply Hm].
Qed.

Ltac track leaf := repeat first [leaf | lazymatch goal with
  | |- raises _ (mret _) => apply raises_ret
  | |- raises _ (raise _) => apply raises_raise
  | |- raises _ (gets _) => apply raises_gets
  | |- raises _ (modify _) => apply raises_modify
  | |- raises _ (raise_if _ _) => apply raises_raise_if; intros ?
  | |- raises _ (catch _ _ _) => apply raises_catch
  | |- raises _ (zoom _ _ _) => apply raises_zoom
  | |- raises _ (in_transaction _) => apply raises_in_transaction
  | |- raises _ (for_each _ _) => apply raises_for_each; intros ?
  | |- raises _ (_ ≫= _) => apply raises_bind; [|intros ?]
  | |- raises _ (let _ := _ in _) => cbv zeta
  | |- raises _ (match ?x with _ => _ end) => destruct x eqn:?
  | |- raises _ ?m => let h := head_of m in unfold h
  end].

(** ** The operations behind the agent endpoints *)

(** The errors of the agent protocol: status, code and whether the agent may retry. *)
Definition protocol_errors : list (Z * string * bool) :=
  [(400, "unsupported_result_schema", false); (401, "invalid_credential", false);
   (401, "invalid_enrolment_token", false); (401, "not_authenticated", false);
   (409, "capabilities_required", true); (409, "configuration_revision_conflict", true);
   (409, "incompatible_capability", false); (409, "incompatible_protocol", false);
   (409, "unknown_configuration", false); (413, "observation_batch_too_large", true)].

(** An error of the protocol or, anything else, an internal error. *)
Definition agent_failure (e : exn) : Prop :=
  match e with
  | AgentProtocolError status code _ retryable _ => (status, code, retryable) ∈ protocol_errors
  | HTTPException _ _ => False
  | _ => True
  end.

Section Agents.
Context {CO : Coercions} {P : Platform} (settings : Settings).

Ltac settle := first [done | cbn; set_solver | idtac].

Lemma raises_credential realms now header : raises agent_failure (authenticate_agent realms now header).
Proof. track ltac:(fail); settle. Qed.

Lemma raises_authenticate now header : raises agent_failure (authenticate now header).
Proof. intros w. apply (raises_zoom _ w_mon set_w_mon), raises_credential. Qed.

Lemma raises_entries capabilities l e : build_entries capabilities l = Err e -> agent_failure e.
Proof.
  induction l as [|[m t] l IH]; [done|]. cbn [build_entries].
  destruct (_check_capability m capabilities) as [?|e'] eqn:Ec.
  - unfold schema_version. destruct (py_int _) as [v|e'] eqn:Ev;
      [destruct (build_entries capabilities l); [done|auto]|].
    intros [= <-]. unfold py_int in Ev. by repeat case_match; simplify_eq.
  - intros [= <-]. clear IH. unfold _check_capability in Ec.
    repeat case_match; try discriminate Ec; injection Ec as <-; settle.
Qed.

Lemma raises_configuration now au : raises agent_failure (get_or_create_configuration now au).
Proof.
  track ltac:(fail); settle. intros db e. cbn. apply raises_entries.
Qed.

Lemma raises_configured l e : configured_entries l = Err e -> e = KeyError.
Proof. induction l; simpl; [done|]. repeat case_match; intros [= <-]; auto. Qed.

Lemma raises_ingest_loop now received au up cfg l : raises agent_failure (ingest_loop now received au up cfg l).
Proof.
  induction l as [|o l IH]; [apply raises_ret|]. cbn [ingest_loop].
  track ltac:(exact IH); settle.
Qed.

Lemma raises_ingest mon now received au up : raises agent_failure (ingest_observations mon now received au up).
Proof.
  track ltac:(apply raises_ingest_loop); settle.
  unfold configured_of in *. repeat case_match; simplify_eq; settle. by erewrite (raises_configured _ e).
Qed.

(** Every failure of an agent's request. *)
Lemma raises_serve_agent e now : raises agent_failure (serve_agent settings e now).
Proof.
  destruct e; cbn [serve_agent]; track ltac:(first [apply raises_authenticate | apply raises_configuration
    | apply raises_ingest]); settle.
Qed.
End Agents.

(** ** Which exceptions the browser's endpoints raise *)

Definition http_error (e : exn) : Prop :=
  match e with HTTPException status _ => status ∈ [401; 403; 404; 409; 422] | _ => False end.

(** A name or a description that a text column refuses. *)
Definition unstorable (name : string) (description : option string) : Prop :=
  pg_text (strip name) && opt_ok pg_text description = false.

(** A time in the query that is near one of the ends of the calendar. *)
Definition near_end (now : Z) (start end_ : option QueryTime) : Prop :=
  let e := default (mkQueryTime now (Some 0)) end_ in
  let s := default (mkQueryTime (qt_instant e - hours 24) (qt_offset e)) start in
  qt_wall e - hours 24 < datetime_min \/ qt_instant s < datetime_min \/ datetime_max < qt_instant e.

(** The failures a handler of the monitoring API does not translate, and the requests that
    cause them. *)
Definition untranslated (now : Z) (e : endpoint) (x : exn) : Prop :=
  match e with
  | CreateAgent _ p => x = DataError /\ unstorable (ac_name p) (ac_description p)
  | CreateTarget _ p => x = DataError /\
      (unstorable (tc_name p) (tc_description p) \/ pg_text (strip (tc_address p)) = false)
  | CreateAgentGroup _ p | CreateTargetGroup _ p => x = DataError /\ unstorable (gc_name p) (gc_description p)
  | MonitorHistory _ s t _ | IcmpHistory _ s t _ => (x = OverflowError \/ x = DataError) /\ near_end now s t
  | CreateMonitor _ _ | UpdateMonitor _ _ => x = DataError \/ exists msg, x = ValueError msg
  | CreateEnrolmentToken _ _ _ => x = IntegrityError \/ x = OrmValidationError
  | DeleteEnrolmentToken _ _ | DeleteCredential _ _ => x = OrmValidationError
  | _ => False
  end.

Definition browser_failure (now : Z) (e : endpoint) (x : exn) : Prop := http_error x \/ untranslated now e x.

Section Browser.
Context {CO : Coercions} {P : Platform} {I : IsoFormat} {C : Collation} (settings : Settings).

Lemma raises_at {S A} Q (m : M S A) s e : raises Q m -> (m s).2 = Err e -> Q e.
Proof. intros Hm. apply Hm. Qed.

(** ** Authorisation: stored sessions always decode *)

Ltac refused := intros [= <-]; cbn; set_solver.

Lemma fails_session now request d e : auth_ok d ->
  (get_session_user settings now request d).2 = Err e -> http_error e.
Proof.
  intros Hok. unfold get_session_user. destruct (session_token settings request) as [token|]; [|refused].
  rewrite bind_run. cbn [gets]. destruct (redis_get now _ d) as [raw|] eqn:Er; [|refused].
  unfold redis_get in Er. destruct (redis d !! _) as [[v expires]|] eqn:Ek; [|done].
  destruct (ao_sessions _ Hok _ _ _ Ek) as (s & u & -> & Hs & _). destruct (_ <? _); [|done]. injection Er as <-.
  rewrite session_roundtrip by done. apply raises_at. track ltac:(fail); cbn; set_solver.
Qed.

Lemma fails_authorize now request permission w e : auth_ok (w_auth w) ->
  (authorize settings now request permission w).2 = Err e -> http_error e.
Proof.
  intros Hok. unfold authorize, on_auth, zoom, require_realm_permission. rewrite bind_run.
  pose proof (fails_session now request (w_auth w)) as Hs.
  destruct (get_session_user _ _ _ _) as [d [[u s]|e']]; cbn [fst snd] in *.
  - match goal with |- context [match ?m d with _ => _ end] =>
      enough (raises http_error m) as Hm by (specialize (Hm d e); by destruct (m d)) end.
    track ltac:(fail); cbn; set_solver.
  - intros [= <-]. by apply Hs.
Qed.

Lemma after_authorize {A} (Q : exn -> Prop) now request permission (k : RealmAuthorization -> Api A) w :
  auth_ok (w_auth w) -> (forall e, http_error e -> Q e) ->
  (forall ra d, let w' := set_w_auth d w in forall e, (k ra w').2 = Err e -> Q e) ->
  forall e, (ignore (authorize settings now request permission ≫= k) w).2 = Err e -> Q e.
Proof.
  intros Hok HQ Hk e. unfold ignore. rewrite !bind_run.
  pose proof (fails_authorize now request permission w) as Ha.
  destruct (authorize settings now request permission w) as [w' [ra|e']] eqn:E; [|intros [= <-]; by apply HQ, Ha].
  assert (exists d, w' = set_w_auth d w) as [d ->].
  { unfold authorize, on_auth, zoom in E. destruct (require_realm_permission _ _ _ _ _). injection E. eauto. }
  specialize (Hk ra d). cbn in Hk. destruct (k ra _) as [w2 [a|e']]; [done|]. intros [= <-]. by apply Hk.
Qed.

(** ** The handlers *)

Ltac settle := first [done | by right; eauto | left; cbn; set_solver | idtac].

(** A configuration is refused by its schema or by one of the two checks after it. *)
Lemma raises_serialize (Q : exn -> Prop) p j t :
  (forall msg, Q (ValueError msg)) -> (forall msg, Q (ValidationError msg)) -> raises Q (serialize p j t).
Proof.
  intros Hv Hs db e. unfold serialize, lift_outcome, serialize_probe_configuration, validate_probe_configuration,
    fit_timeout. cbn [snd]. repeat case_match; intros; by simplify_eq.
Qed.

(** Rows of the realm pass the realm check. *)
Lemma raises_same_realm Q realm l : Forall (fun r => r = realm_id realm) l -> raises Q (_require_same_realm realm l).
Proof.
  intros Hl. apply raises_raise_if. intros (r & Hr & Hne)%existsb_exists.
  rewrite Forall_forall in Hl. specialize (Hl r). rewrite <-list_elem_of_In in Hr.
  rewrite (Hl Hr), N.eqb_refl in Hne. done.
Qed.

(** Two rows that were found are rows of the realm. *)
Lemma raises_two_rows {R1 R2 A} (Q : exn -> Prop) (f1 : R1 -> uuid) (f2 : R2 -> uuid) (realm : Realm) l r
    (k : R1 * R2 -> Api A) :
  (forall w x, l w = Some x -> f1 x = realm_id realm) -> (forall w x, r w = Some x -> f2 x = realm_id realm) ->
  (forall msg, Q (not_found msg)) ->
  (forall x y, f1 x = realm_id realm -> f2 y = realm_id realm -> raises Q (k (x, y))) ->
  raises Q (two_rows l r ≫= k).
Proof.
  intros Hl Hr HQ Hk. apply (raises_bind_with _ (fun p => f1 p.1 = realm_id realm /\ f2 p.2 = realm_id realm)).
  - intros w w' [x y] E. unfold two_rows in E. minv. destruct (l w) eqn:E1; [destruct (r w) eqn:E2|]; minv; simplify_eq.
    cbn. split; [by eapply Hl|by eapply Hr].
  - track ltac:(fail). by destruct a, a0; track ltac:(fail); auto.
  - intros [x y] [Hx Hy]. by apply Hk.
Qed.

Lemma realm_row_of {R} (realm_of : R -> uuid) realm id (t : gmap uuid R) x :
  in_realm_row realm_of realm id t = Some x -> realm_of x = realm_id realm.
Proof. by intros [_ ?]%in_realm_row_Some. Qed.

(** The handlers whose writes meet only rows they have loaded. *)

Lemma fails_delete_target now id request w : auth_ok (w_auth w) -> realm_closed (w_mon w) ->
  forall x, (ignore (delete_target settings now id request) w).2 = Err x -> http_error x.
Proof.
  intros Hok Hrc. apply after_authorize; [done|done|]. intros ra d w' x. mrun.
  destruct (in_realm_row _ _ _ _) as [t|] eqn:Et; [|refused]. apply in_realm_row_Some in Et as [Ht HR].
  cbn [require_some]. mrun. unfold on_mon, zoom. change (w_mon w') with (w_mon w) in *.
  destruct (t_archived_at t) eqn:Earch.
  - unfold archive_target, _require_same_realm, resource_realm_id, Target_owned. mrun. cbn [existsb].
    by rewrite HR, N.eqb_refl, Earch.
  - by rewrite archive_target_run by (done || by rewrite (rc_targets _ Hrc _ _ Ht)).
Qed.

Lemma issue_raises now raw tok realm a db x : agents db !! a_id a = Some a -> a_realm_id a = realm_id realm ->
  (issue_enrolment_token settings now raw tok realm a None db).2 = Err x -> x = IntegrityError.
Proof.
  intros Ha HR. unfold issue_enrolment_token. rewrite bind_run. unfold in_transaction. rewrite bind_run. cbn [gets].
  unfold get_row, agent_in_realm at 1. rewrite Ha, HR, N.eqb_refl. cbn [is_none]. mrun.
  unfold update_tokens, insert_token. mrun. by destruct (_ || _); [intros [= <-]|].
Qed.

Lemma fails_create_token now raw tok id request w : auth_ok (w_auth w) -> realm_closed (w_mon w) ->
  forall x, (ignore (create_agent_enrolment_token settings now raw tok id request) w).2 = Err x ->
    browser_failure now (CreateEnrolmentToken raw tok id) x.
Proof.
  intros Hok Hrc. apply after_authorize; [done|by left|]. intros ra d w' x. rewrite bind_run. cbn [gets].
  destruct (get_row _ _ _) as [a|] eqn:Ea; [|intros [= <-]; left; cbn; set_solver].
  apply get_row_Some in Ea as [Ha Hb]. cbn [require_some]. rewrite bind_run, ret_run, bind_run.
  change (w_mon w') with (w_mon w) in *. rewrite <-(rc_agents _ Hrc _ _ Ha) in Ha.
  pose proof (issue_raises now raw tok (ra_realm ra) a (w_mon w)) as Hi.
  unfold on_mon, zoom. change (w_mon w') with (w_mon w).
  destruct (issue_enrolment_token _ _ _ _ _ _ _ _) as [db' [[t r]|e]].
  - apply raises_at. track ltac:(fail); settle. by right; right.
  - intros [= <-]. right; left. apply Hi; [done| |done]. destruct_andb. by apply N.eqb_eq.
Qed.

(** Saving keeps the row, so that it can be read again. *)
Lemma behavior_row db monitor realm target probe interval timeout conf db' m' :
  monitors db !! m_id monitor = Some monitor ->
  update_monitor_behavior monitor realm target probe interval timeout conf db = (db', Ok m') ->
  is_Some (monitors db' !! m_id m').
Proof.
  intros Hrow E. pose proof (update_monitor_effect db monitor realm target probe interval timeout conf Hrow) as He.
  assert (m_id m' = m_id monitor) as ->.
  { unfold update_monitor_behavior in E. minv. destruct (_ && _ && _ && _ && _); minv; by simplify_eq. }
  rewrite E in He. cbn [fst] in He. destruct He as [->|(m1 & _ & _ & _ & _ & _ & _ & _ & _ & _ & _ & ->)]; [eauto|].
  change (monitors (bump_db _ _ (set_monitors ?t _))) with t. rewrite lookup_insert_eq. eauto.
Qed.

Lemma rename_row db r id name descr k : is_Some (monitors db !! k) ->
  is_Some (monitors (rename_monitor r id name descr db).1 !! k).
Proof.
  intros Hk. unfold rename_monitor, check_name. mrun. destruct (negb _); [done|]. mrun. destruct (get_row _ _ _) as [m|]; [|done]. mrun.
  destruct (exists_row _ _); mrun; [done|]. cbn. destruct (decide (k = id)) as [->|].
  - rewrite lookup_insert_eq. eauto.
  - by rewrite lookup_insert_ne.
Qed.
(** What may leave a monitor operation inside its two [except] clauses. *)
Definition monitor_failure (now : Z) (e : endpoint) (x : exn) : Prop :=
  match x with
  | IntegrityError | MonitoringDomainError _ | RealmBoundaryError _ | HierarchyError _ | ResourceStateError _
  | ValidationError _ => True
  | _ => browser_failure now e x
  end.

Lemma fails_monitor_errors {A} now e (m : Api A) w x :
  (forall y, (m w).2 = Err y -> monitor_failure now e y) -> (monitor_errors m w).2 = Err x -> browser_failure now e x.
Proof.
  unfold monitor_errors, catch. intros Hm. destruct (m w) as [w' [a|y]]; [done|].
  specialize (Hm y eq_refl). destruct y; cbn; intros [= <-]; settle.
Qed.

Ltac translated He := cbn; settle; apply He; eauto.

Section Operations.
Context (now : Z) (e : endpoint)
  (He : forall x, x = DataError \/ (exists msg, x = ValueError msg) -> browser_failure now e x).

Lemma raises_create_monitor id realm target name probe interval timeout conf descr :
  raises (monitor_failure now e) (create_monitor id realm target name probe interval timeout conf descr).
Proof. track ltac:(apply raises_serialize; intros msg); translated He. Qed.

Lemma raises_update_behavior monitor realm target probe interval timeout conf :
  raises (monitor_failure now e) (update_monitor_behavior monitor realm target probe interval timeout conf).
Proof. track ltac:(apply raises_serialize; intros msg); translated He. Qed.

Lemma raises_rename r id name descr : raises (monitor_failure now e) (rename_monitor r id name descr).
Proof. track ltac:(fail); translated He. Qed.
End Operations.

Lemma fails_update_monitor now id payload request w : auth_ok (w_auth w) -> realm_closed (w_mon w) ->
  forall x, (ignore (update_monitor settings now id payload request) w).2 = Err x ->
    browser_failure now (UpdateMonitor id payload) x.
Proof.
  intros Hok Hrc. apply after_authorize; [done|by left|]. intros ra d w' x. cbv zeta. rewrite bind_run. cbn [gets].
  destruct (live_row _ _ _ _ _) as [m|] eqn:Em; [|intros [= <-]; settle].
  apply live_row_Some in Em as (Hm & _ & _). change (w_mon w') with (w_mon w) in Hm.
  rewrite <-(proj1 (rc_monitors _ Hrc _ _ Hm)) in Hm.
  cbn [require_some]. rewrite bind_run, ret_run, bind_run. cbn [gets].
  destruct (live_row _ _ _ _ _) as [t|]; [|intros [= <-]; settle].
  cbn [require_some]. rewrite bind_run, ret_run, bind_run, raise_if_run.
  destruct (negb (pg_text _)); [intros [= <-]; right; by left|]. rewrite bind_run. cbn [gets].
  rewrite bind_run, raise_if_run. destruct (exists_row _ _); [intros [= <-]; settle|].
  apply fails_monitor_errors. intros y. rewrite bind_run. unfold on_mon, zoom.
  change (w_mon w') with (w_mon w).
  pose proof (raises_update_behavior now (UpdateMonitor id payload) (fun x H => or_intror H) m (ra_realm ra) t
    (mc_probe_type payload) (mc_interval_seconds payload) (mc_timeout_seconds payload) (mc_configuration payload)
    (w_mon w)) as Hr.
  destruct (update_monitor_behavior _ _ _ _ _ _ _ _) as [db' [m'|z]] eqn:Eu; [|intros [= <-]; by apply Hr].
  apply behavior_row in Eu; [|done]. destruct (_ || _); [|done]. rewrite bind_run.
  unfold zoom. cbn [w_mon set_w_mon].
  set (descr := match mc_description payload with Some _ => _ | None => _ end).
  pose proof (rename_row db' (realm_id (ra_realm ra)) (m_id m') (strip (mc_name payload)) descr _ Eu) as Hrow.
  pose proof (raises_rename now (UpdateMonitor id payload) (fun x H => or_intror H) (realm_id (ra_realm ra)) (m_id m')
    (strip (mc_name payload)) descr db') as Hn.
  destruct (rename_monitor _ _ _ _ _) as [db2 [[]|z]]; [|intros [= <-]; by apply Hn].
  rewrite bind_run. cbn [gets w_mon set_w_mon fst] in *. by destruct Hrow as [x' ->].
Qed.

Lemma fails_create_monitor now id payload request w : auth_ok (w_auth w) ->
  forall x, (ignore (create_monitor_endpoint settings now id payload request) w).2 = Err x ->
    browser_failure now (CreateMonitor id payload) x.
Proof.
  intros Hok. apply after_authorize; [done|by left|]. intros ra d w' x. rewrite bind_run. cbn [gets].
  destruct (in_realm_row _ _ _ _) as [t|]; [|intros [= <-]; settle].
  cbn [require_some]. rewrite bind_run, ret_run. apply fails_monitor_errors. intros y. apply raises_at.
  apply raises_zoom, raises_create_monitor. intros z Hz. by right.
Qed.

(** A refused name or description of a row. *)
Lemma raises_insert_name (Q : exn -> Prop) name description :
  (unstorable name description -> Q DataError) -> raises Q (check_name (strip name) description).
Proof. intros HQ. apply raises_raise_if. intros Hn. by apply HQ, negb_true_iff. Qed.

(** The range of a history, and its encoding. *)
Lemma raises_history {A} (Q : exn -> Prop) now detail start end_ (k : Z -> Z -> Api A) :
  (forall text, Q (HTTPException 422 text)) ->
  (near_end now start end_ -> Q OverflowError /\ Q DataError) -> (forall s e, raises Q (k s e)) ->
  raises Q ('(s, e) ← _history_range now detail start end_; encode_range s e ;; k s e).
Proof.
  intros H422 Hnear Hk w x. unfold _history_range, encode_range, near_end in *. cbv zeta in *. mrun.
  set (e := default (mkQueryTime now (Some 0)) end_) in *.
  destruct (is_none start && (qt_wall e - hours 24 <? datetime_min)) eqn:E1.
  { intros [= <-]. apply Hnear. left. apply andb_true_iff in E1 as [_ E1]. by apply Z.ltb_lt. }
  mrun. destruct (_ || _ || _ || _); [intros [= <-]; apply H422|]. mrun.
  match goal with |- context [if ?b then Err DataError else _] => destruct b eqn:E2 end.
  - intros [= <-]. apply Hnear. right. apply orb_true_iff in E2 as [E2|E2]; apply Z.ltb_lt in E2; auto.
  - apply Hk.
Qed.

(** Every failure of a browser's request. *)
Lemma fails_serve e now request w : auth_ok (w_auth w) -> realm_closed (w_mon w) ->
  forall x, (serve settings e now request w).2 = Err x -> browser_failure now e x.
Proof.
  intros Hok Hrc. destruct e; cbn [serve];
    try (by intros x Hx; left; eapply fails_delete_target);
    try (by apply fails_create_token); try (by apply fails_update_monitor); try (by apply fails_create_monitor);
    (apply after_authorize; [done|by left|intros ra d w' x; apply raises_at]).
  all: track ltac:(first
    [ eapply raises_two_rows; [intros ? ?; apply realm_row_of|intros ? ?; apply realm_row_of
        |intros; left; cbn; set_solver|intros ? ? ? ?; cbn beta iota]
    | apply raises_same_realm; by repeat constructor
    | apply raises_history; [intros; left; cbn; set_solver|intros; split; right; split; by auto|intros]
    | apply raises_insert_name; intros ]); settle.
  all: cbn; right; split; [done|]; first [by left | by right; apply negb_true_iff].
Qed.
End Browser.
