(* ===== verification/Http.v ===== *)
(** * What a client is answered (main.py, api/agent_protocol.py)

    The handler of the application for the errors of the agent protocol, and FastAPI's own
    for everything else, over the routes of [serve] and [serve_agent]. *)

From Stdlib Require Import Ascii.
From S2P Require Import Prelude PyText Json Platform Models ProbeConfig Domain.
From S2P Require Import Credentials Configuration ObservationSchema Observations Dashboard Accounts.
From S2P Require Import Lifecycle WebAuthn AuthApi Api Requests Responses.
Local Open Scope Z_scope.

Record response := mkResponse { rs_status : Z; rs_body : json }.

(** FastAPI's handlers: an [HTTPException] is answered with its status and its detail, a
    request that does not validate with 422 and the list of its errors, any other exception
    with 500 and a body that tells nothing about it. *)
Class FastApi := {
  http_exception_handler : Z -> string -> response;
  request_validation_exception_handler : json -> response;
  server_error : response;
  http_exception_answer status detail :
    http_exception_handler status detail = mkResponse status (JObject [("detail", JString detail)]);
  validation_answer body : exists errors,
    request_validation_exception_handler body = mkResponse 422 (JObject [("detail", JArray errors)]);
  server_error_status : rs_status server_error = 500;
  server_error_body : exists text, rs_body server_error = JString text;
}.

Definition json_detail (d : detail) : json := match d with DetailInt z => JInt z | DetailText s => JString s end.

Definition agent_protocol_error_handler (status : Z) (code message : string) (retryable : bool)
    (details : list (string * detail)) : response :=
  mkResponse status (JObject [("error", JObject [
    ("code", JString code); ("message", JString message); ("retryable", JBool retryable);
    ("details", JObject (map (fun kv => (kv.1, json_detail kv.2)) details))])]).

(** The liveness probe. *)
Definition health : response := mkResponse 200 (JObject [("status", JString "ok")]).

Section Answers.
Context {F : FastApi}.

(** The answer to a handler that raised. *)
Definition answer_error (e : exn) : response :=
  match e with
  | AgentProtocolError status code message retryable details =>
      agent_protocol_error_handler status code message retryable details
  | HTTPException status detail => http_exception_handler status detail
  | _ => server_error
  end.

(** A route: what it depends on runs first, then the body is validated; the handlers below
    start with what they depend on.  What a handler returns is printed with the status of
    the route. *)
Definition route {A B} (depends : Api unit) (read : json -> option A) (handler : A -> Api B) (status : Z)
    (encode : B -> json) (body : json) (w : World) : World * response :=
  match read body with
  | None =>
      match depends w with
      | (w', Ok _) => (w', request_validation_exception_handler body)
      | (w', Err e) => (w', answer_error e)
      end
  | Some payload =>
      match handler payload w with
      | (w', Ok b) => (w', mkResponse status (encode b))
      | (w', Err e) => (w', answer_error e)
      end
  end.

(** ** The routes of the agent protocol *)

Context {CO : Coercions} {P : Platform} {D : Decoder} (settings : Settings).

(** [Depends(authenticate_agent)]. *)
Definition agent_only (now : Z) (authorization : string) : Api unit := ignore (authenticate now authorization).

Definition post_enrol (now : Z) (secret : string) (credential : uuid) (request : Request) :
    json -> World -> World * response :=
  route (mret tt) read_AgentEnrolmentRequest
    (fun p => enrol_agent settings now secret credential (en_protocol_version p) (en_enrolment_token p) request)
    201 encode_AgentEnrolmentResponse.

Definition post_heartbeat (now : Z) (authorization : string) : json -> World -> World * response :=
  route (agent_only now authorization) read_AgentHeartbeatRequest
    (fun p => Api.heartbeat settings now p authorization) 200 encode_AgentHeartbeatResponse.

Definition post_acknowledgement (now : Z) (authorization : string) : json -> World -> World * response :=
  route (agent_only now authorization) read_AgentConfigurationAcknowledgement
    (fun p => acknowledge_agent_configuration now (ack_protocol_version p) (ack_revision p) (ack_content_hash p)
      (instant (ack_activated_at p)) authorization) 200 encode_AcknowledgementResponse.

Definition post_observations (now received_at : Z) (content_length : option string) (authorization : string) :
    json -> World -> World * response :=
  route (agent_only now authorization) read_AgentObservationUpload
    (fun p => upload_observations now received_at p content_length authorization) 200
    encode_AgentObservationUploadResponse.

(** A query parameter that is an integer of at least [lo]. *)
Definition query_int (lo : Z) (text : string) : option Z :=
  z ← to_int (JString text); if lo <=? z then Some z else None.

(** [protocol_version: Query(ge=1) = 1], [active_revision: Query(ge=0) = None]. *)
Definition read_config_query (version active : option string) : option (Z * option Z) :=
  v ← match version with None => Some 1 | Some s => query_int 1 s end;
  a ← match active with None => Some None | Some s => Some <$> query_int 0 s end;
  Some (v, a).

(** The parameters are validated after what the route depends on has run, as a body is; 304
    has no body. *)
Definition get_config (now : Z) (version active hash : option string) (authorization : string)
    (w : World) : World * response :=
  match read_config_query version active with
  | None =>
      match agent_only now authorization w with
      | (w', Ok _) => (w', request_validation_exception_handler JNull)
      | (w', Err e) => (w', answer_error e)
      end
  | Some (v, a) =>
      match get_configuration now v a hash authorization w with
      | (w', Ok None) => (w', mkResponse 304 JNull)
      | (w', Ok (Some c)) =>
          match encode_AgentConfigurationResponse c with
          | Some j => (w', mkResponse 200 j)
          | None => (w', server_error)
          end
      | (w', Err e) => (w', answer_error e)
      end
  end.
End Answers.

(** The requests of an agent, as they arrive. *)
Inductive agent_call :=
| PostEnrol (secret : string) (credential : uuid) (request : Request) (body : json)
| PostHeartbeat (authorization : string) (body : json)
| GetConfig (version active hash : option string) (authorization : string)
| PostAcknowledgement (authorization : string) (body : json)
| PostObservations (received_at : Z) (content_length : option string) (authorization : string) (body : json).

Definition answer_agent `{FastApi} `{Coercions} {P : Platform} `{!Decoder} (settings : Settings) (c : agent_call)
    (now : Z) : World -> World * response :=
  match c with
  | PostEnrol secret id request body => post_enrol settings now secret id request body
  | PostHeartbeat authorization body => post_heartbeat settings now authorization body
  | GetConfig version active hash authorization => get_config now version active hash authorization
  | PostAcknowledgement authorization body => post_acknowledgement now authorization body
  | PostObservations received len authorization body => post_observations now received len authorization body
  end.

(** The requests of a browser: a handler that returned is answered with some success. *)
Definition answer_browser `{FastApi} `{Coercions} {P : Platform} `{IsoFormat} `{Collation} (settings : Settings)
    (e : endpoint) (now : Z) (request : Request) (w : World) : World * option response :=
  match serve settings e now request w with
  | (w', Ok _) => (w', None)
  | (w', Err x) => (w', Some (answer_error x))
  end.
