(* ===== verification/HttpProps.v ===== *)
(** * What clients are answered when a request fails

    Agents get the error envelope of the protocol, browsers a status and a detail; the
    exceptions are enumerated. *)

From Stdlib Require Import Ascii.
From S2P Require Import Prelude PyText Json Platform Models ProbeConfig Domain.
From S2P Require Import Credentials Configuration Isolation Steps ObservationSchema Observations Dashboard Accounts.
From S2P Require Import Lifecycle WebAuthn AuthApi AuthDemo AuthSteps AuthOps AuthTheorems Api.
From S2P Require Import EndpointProps MonitorRows Requests Responses WireDemo EditProps Failures Http.
Local Open Scope Z_scope.

Section Agents.
Context {F : FastApi} {CO : Coercions} {P : Platform} {D : Decoder} (settings : Settings).

(** The envelope of an error of the protocol. *)
Definition envelope (r : response) : Prop :=
  exists status code message retryable details, (status, code, retryable) ∈ protocol_errors /\
    r = mkResponse status (JObject [("error", JObject [("code", JString code); ("message", JString message);
      ("retryable", JBool retryable); ("details", JObject details)])]).

(** The body of the request is none of its model, or a query parameter is none of its type. *)
Definition unreadable (c : agent_call) : bool :=
  match c with
  | PostEnrol _ _ _ body => is_none (read_AgentEnrolmentRequest body)
  | PostHeartbeat _ body => is_none (read_AgentHeartbeatRequest body)
  | GetConfig version active _ _ => is_none (read_config_query version active)
  | PostAcknowledgement _ body => is_none (read_AgentConfigurationAcknowledgement body)
  | PostObservations _ _ _ body => is_none (read_AgentObservationUpload body)
  end.

Definition answered (invalid : bool) (r : response) : Prop :=
  rs_status r ∈ [200; 201; 304] \/ envelope r \/ rs_status r = 500 \/
  (invalid = true /\ exists errors, r = mkResponse 422 (JObject [("detail", JArray errors)])).

Lemma answered_error invalid e : agent_failure e -> answered invalid (answer_error e).
Proof.
  intros He. destruct e; cbn [answer_error agent_failure] in *;
    try (right; right; left; apply server_error_status); [|done].
  right; left. do 5 eexists. split; [exact He|done].
Qed.

Lemma answered_route {A B} depends (read : json -> option A) (handler : A -> Api B) status encode body w :
  status ∈ [200; 201; 304] -> raises agent_failure depends -> (forall p, raises agent_failure (handler p)) ->
  answered (is_none (read body)) (route depends read handler status encode body w).2.
Proof.
  intros Hs Hd Hh. unfold route. destruct (read body) as [p|]; cbn [is_none].
  - specialize (Hh p w). destruct (handler p w) as [w' [b|e]]; [by left|]. by apply answered_error, Hh.
  - specialize (Hd w). destruct (depends w) as [w' [[]|e]]; [|by apply answered_error, Hd].
    destruct (validation_answer body) as [errors He]. do 3 right. split; [done|]. exists errors. exact He.
Qed.

Lemma raises_handler {A} (m : Api A) : raises agent_failure (ignore m) -> raises agent_failure m.
Proof.
  intros Hm w e He. apply (Hm w). unfold ignore. rewrite bind_run.
  by destruct (m w) as [w' [a|e']]; [|injection He as <-].
Qed.

(** C31 The answers to agents are enumerated: a request of an agent to one of the five routes of
    the protocol, with a JSON body where it has one, succeeds, or is answered with the error
    envelope and one of the listed statuses, codes and retry flags, or with 500 where the
    server failed inside; only a body or query parameters that do not validate are answered
    otherwise, with 422 and FastAPI's list of errors, which is not the envelope. *)
Theorem agent_answers_are_enumerated c now w :
  answered (unreadable c) (answer_agent settings c now w).2.
Proof.
  destruct c; cbn [answer_agent unreadable].
  1,2,4,5: apply answered_route; [set_solver| |intros p; apply raises_handler].
  - apply raises_ret.
  - apply (raises_serve_agent settings (Enrol _ _ _ _ _)).
  - apply raises_bind; [apply raises_authenticate|intros; apply raises_ret].
  - apply (raises_serve_agent settings (Heartbeat _ _)).
  - apply raises_bind; [apply raises_authenticate|intros; apply raises_ret].
  - apply (raises_serve_agent settings (Acknowledge _ _ _ _ _)).
  - apply raises_bind; [apply raises_authenticate|intros; apply raises_ret].
  - apply (raises_serve_agent settings (Upload _ _ _ _)).
  - unfold get_config. destruct (read_config_query version active) as [[v a]|]; cbn [is_none].
    2:{ assert (raises agent_failure (agent_only now authorization)) as Hd.
        { apply raises_bind; [apply raises_authenticate|intros; apply raises_ret]. }
        specialize (Hd w). destruct (agent_only now authorization w) as [w' [[]|e]]; [|by apply answered_error, Hd].
        destruct (validation_answer JNull) as [errors He]. do 3 right. split; [done|]. exists errors. exact He. }
    pose proof (raises_handler _
      (raises_serve_agent settings (GetConfiguration v a hash authorization) now) w) as Hr.
    destruct (get_configuration now v a hash authorization w) as [w' [[r|]|e]].
    + destruct (encode_AgentConfigurationResponse r); [left; cbn; set_solver|].
      right; right; left. apply server_error_status.
    + left. cbn. set_solver.
    + by apply answered_error, Hr.
Qed.
End Agents.

Section Browser.
Context {F : FastApi} {CO : Coercions} {P : Platform} {IF : IsoFormat} {H : PasswordHasher} {T : TwoFactorLib}
  {L : WebAuthnLib} {CL : Collation} (settings : Settings).

End Browser.

(** ** On the worked run: a monitor that does not exist, and a schedule that does not fit *)

#[local] Existing Instance strict_coercions.
#[local] Existing Instance example_platform.
#[local] Existing Instance example_hasher.
#[local] Existing Instance example_iso.
#[local] Existing Instance example_two_factor.
#[local] Existing Instance example_webauthn.
#[local] Existing Instance example_collation.

#[local] Instance example_fastapi : FastApi.
Proof.
  refine {| http_exception_handler status detail := mkResponse status (JObject [("detail", JString detail)]);
            request_validation_exception_handler _ := mkResponse 422 (JObject [("detail", JArray [])]);
            server_error := mkResponse 500 (JString "Internal Server Error") |}; by eauto.
Defined.


Module HttpDemo.
(** Ten packets a second apart need nine seconds before the last one is sent. *)
Definition overrun : endpoint := CreateMonitor 9 (mkMonitorCreate 7 "ping" None ICMP 60 5
  (JObject [("packet_count", JInt 10); ("packet_interval_ms", JInt 1000)])).
Definition refused := answer_browser default_settings overrun 7000000 EditDemo.request EditDemo.world3.

End HttpDemo.

(** A schedule that does not fit its timeout is an internal error although it is the caller's. *)
Lemma overrun_is_an_internal_error : rs_status <$> HttpDemo.refused.2 = Some 500.
Proof. by vm_compute. Qed.

