(* ===== verification/AgentOutbox.v ===== *)
(** * The agent's outbox (agent/storage/observations.go, agent/storage/acknowledgements.go,
      agent/synchronization/upload.go, agent/synchronization/client.go)

    The agent writes every observation to a table of its own database, sends batches of them
    to the control plane, and removes a row only when the control plane has answered for it.
    Times are nanoseconds since 1970; the tables hold their texts, and their queries compare
    the texts. *)

From Stdlib Require Import QArith.
From stdpp Require Import pretty.
From S2P Require Import Prelude PyText Json Platform Models ProbeConfig Domain.
From S2P Require Import Credentials Configuration ObservationSchema Observations Dashboard Accounts.
From S2P Require Import Lifecycle WebAuthn AuthApi Api Requests Responses AgentContract.
Local Open Scope Z_scope.

(** ** Go's library *)

(** The years a stored time may have: 1 to 9999. *)
Definition zero_time : Z := -62135596800 * 10 ^ 9.
Definition go_year_ok (t : Z) : bool := (zero_time <=? t) && (t <? 253402300800 * 10 ^ 9).
Definition IsZero (t : Z) : bool := t =? zero_time.

Class GoTime {P : Platform} := {
  (** [time.Format] and [time.Parse] with [time.RFC3339Nano], in UTC. *)
  formatTime : Z -> string;
  parseTime : string -> option Z;
  parse_format : forall t, go_year_ok t = true -> parseTime (formatTime t) = Some t;
  (** [time.UnmarshalJSON] of a text. *)
  unmarshal_time : string -> option Z;
  unmarshal_json : forall d, aware_ok d = true ->
    unmarshal_time (datetime_json (instant d) (utc_offset d)) = Some (instant d * 1000);
  (** [time.ParseDuration]. *)
  parse_duration : string -> option Z;
  (** [time.Duration(float64(d) * f)]. *)
  scale : Z -> Q -> Z;
  scale_bounds : forall d f, 0 <= d <= 2 ^ 53 -> (0 <= f)%Q -> (f <= 1)%Q -> 0 <= scale d f <= d;
  (** What a JSON text denotes, where [json.Valid] accepts it, and the number of bytes that
      [json.Marshal] writes for it as a [json.RawMessage]. *)
  raw_value : string -> option json;
  raw_length : string -> Z;
}.

(** [time.Truncate(time.Microsecond)]. *)
Definition truncate_us (t : Z) : Z := t - t mod 1000.

(** ** The tables *)

Record PendingRow := mkPendingRow {
  p_monitor_id : string;
  p_monitor_revision : Z;
  p_agent_config_revision : Z;
  p_probe_type : string;
  p_canonical_payload : string;
  p_payload_size_bytes : Z;
  p_created_at : string;
  p_attempt_count : Z;
  p_next_attempt_at : string;
  p_last_attempt_at : option string;
  p_last_error_code : option string;
}.

Record RejectedRow := mkRejectedRow {
  r_canonical_payload : string;
  r_payload_size_bytes : Z;
  r_rejection_code : string;
  r_rejection_details : string;
  r_rejected_at : string;
}.

Record SyncRow := mkSyncRow {
  last_successful_contact_at : option string;
  last_successful_upload_at : option string;
  consecutive_failure_count : Z;
  server_backoff_until : option string;
}.

(** Both observation tables have the primary key (scheduled_at, observation_id). *)
Abbreviation rowkey := (string * string)%type.

Record Credential := mkCredential { CredentialID : string; Secret : string }.

(** [identity] is the URL of the control plane, once the agent is enrolled; [credentials] are
    in the order of [Store.Credentials]. *)
Record Store := mkStore {
  pending_observations : gmap rowkey PendingRow;
  rejected_observations : gmap rowkey RejectedRow;
  synchronization_state : SyncRow;
  identity : option string;
  credentials : list Credential;
}.

Definition set_pending (v : gmap rowkey PendingRow) (s : Store) : Store :=
  mkStore v (rejected_observations s) (synchronization_state s) (identity s) (credentials s).
Definition set_rejected (v : gmap rowkey RejectedRow) (s : Store) : Store :=
  mkStore (pending_observations s) v (synchronization_state s) (identity s) (credentials s).
Definition set_sync (v : SyncRow) (s : Store) : Store :=
  mkStore (pending_observations s) (rejected_observations s) v (identity s) (credentials s).

(** ** Observations *)

Record Observation := mkObservation {
  ScheduledAt : Z;
  ObservationID : string;
  ObMonitorID : string;
  ObMonitorRevision : Z;
  AgentConfigRevision : Z;
  ObProbeType : string;
  CanonicalPayload : string;
  CreatedAt : Z;
  AttemptCount : Z;
  NextAttemptAt : Z;
  LastAttemptAt : option Z;
  LastErrorCode : option string;
}.

Record QueueLimits := mkQueueLimits { MaxCount : Z; MaxBytes : Z }.
Definition DefaultQueueLimits : QueueLimits := mkQueueLimits 1000000 (2 ^ 30).

Definition go_error (msg : string) : exn := ValueError msg.
Definition ErrObservationConflict : exn := go_error "observation identity has different content".
Definition ErrQueueFull : exn := go_error "pending observation queue limit reached".
Definition ErrUntrustedAcknowledgement : exn := go_error "upload acknowledgement does not match batch".
Definition ErrBackoffActive : exn := go_error "observation upload backoff is active".
Definition ErrNoReadyData : exn := go_error "no observations are ready to upload".

Section Outbox.
Context {P : Platform} {GT : GoTime}.

Definition row_key (o : Observation) : rowkey := (formatTime (ScheduledAt o), ObservationID o).

Definition observationAlreadyQueued (o : Observation) : M Store bool :=
  row ← gets (fun s => pending_observations s !! row_key o);
  match row with
  | Some row =>
      raise_if (negb (String.eqb (p_canonical_payload row) (CanonicalPayload o))) ErrObservationConflict ;;
      mret true
  | None => mret false
  end.

(** [COUNT] and [SUM(payload_size_bytes)]. *)
Definition queue_count (s : Store) : Z := Z.of_nat (size (pending_observations s)).
Definition queue_bytes (s : Store) : Z :=
  foldr (fun r acc => p_payload_size_bytes r.2 + acc) 0 (map_to_list (pending_observations s)).

(** The row an observation is stored as. *)
Definition pending_row (o : Observation) : PendingRow :=
  mkPendingRow (ObMonitorID o) (ObMonitorRevision o) (AgentConfigRevision o) (ObProbeType o) (CanonicalPayload o)
    (Z.of_nat (String.length (CanonicalPayload o))) (formatTime (CreatedAt o)) (AttemptCount o)
    (formatTime (NextAttemptAt o)) None None.

Definition with_times (now : Z) (o : Observation) : Observation :=
  let created := if IsZero (CreatedAt o) then now else CreatedAt o in
  mkObservation (ScheduledAt o) (ObservationID o) (ObMonitorID o) (ObMonitorRevision o) (AgentConfigRevision o)
    (ObProbeType o) (CanonicalPayload o) created (AttemptCount o)
    (if IsZero (NextAttemptAt o) then created else NextAttemptAt o) (LastAttemptAt o) (LastErrorCode o).

Definition EnqueueObservation (now : Z) (o : Observation) (limits : QueueLimits) : M Store unit :=
  raise_if (String.eqb (ObservationID o) EmptyString || String.eqb (ObMonitorID o) EmptyString ||
            (ObMonitorRevision o <? 1) || (AgentConfigRevision o <? 1) || String.eqb (ObProbeType o) EmptyString ||
            String.eqb (CanonicalPayload o) EmptyString) (go_error "observation fields are required") ;;
  raise_if ((MaxCount limits <? 1) || (MaxBytes limits <? 1)) (go_error "positive queue limits are required") ;;
  let o := with_times now o in
  in_transaction (
    duplicate ← observationAlreadyQueued o;
    if (duplicate : bool) then mret tt
    else
      count ← gets queue_count;
      size ← gets queue_bytes;
      raise_if ((MaxCount limits <? count + 1) ||
                (MaxBytes limits <? size + Z.of_nat (String.length (CanonicalPayload o)))) ErrQueueFull ;;
      (* CHECK (attempt_count >= 0) *)
      raise_if (AttemptCount o <? 0) IntegrityError ;;
      modify (fun s => set_pending (<[row_key o := pending_row o]> (pending_observations s)) s)).

(** [scanObservation]. *)
Definition parse_optional (t : option string) : option (option Z) :=
  match t with Some t => Some <$> parseTime t | None => Some None end.
Definition scanObservation (row : rowkey * PendingRow) : option Observation :=
  let '(key, r) := row in
  scheduled ← parseTime key.1;
  created ← parseTime (p_created_at r);
  next ← parseTime (p_next_attempt_at r);
  last ← parse_optional (p_last_attempt_at r);
  Some (mkObservation scheduled key.2 (p_monitor_id r) (p_monitor_revision r) (p_agent_config_revision r)
    (p_probe_type r) (p_canonical_payload r) created (p_attempt_count r) next last (p_last_error_code r)).

(** ORDER BY scheduled_at, observation_id. *)
Definition key_le (x y : rowkey * PendingRow) : bool :=
  match String.compare x.1.1 y.1.1 with
  | Lt => true
  | Gt => false
  | Eq => String.leb x.1.2 y.1.2
  end.

Definition ready_rows (now : Z) (s : Store) : list (rowkey * PendingRow) :=
  order_by key_le (List.filter (fun x => String.leb (p_next_attempt_at x.2) (formatTime now))
                     (map_to_list (pending_observations s))).

Definition ReadyObservations (now : Z) (limit : nat) : M Store (list Observation) :=
  raise_if (limit <? 1)%nat (go_error "positive batch limit is required") ;;
  rows ← gets (ready_rows now);
  match mapM scanObservation (take limit rows) with
  | Some l => mret l
  | None => raise (go_error "parse stored time")
  end.

Definition RecordSynchronizationFailure (backoffUntil : Z) : M Store unit :=
  modify (fun s =>
    let state := synchronization_state s in
    set_sync (mkSyncRow (last_successful_contact_at state) (last_successful_upload_at state)
      (consecutive_failure_count state + 1) (Some (formatTime backoffUntil))) s).

Definition maxRejectionDetailsBytes : nat := 2 * 1024.

(** [INSERT INTO rejected_observations]: the key is unique, the size positive. *)
Definition insert_rejected (key : rowkey) (row : RejectedRow) : M Store unit :=
  taken ← gets (fun s => negb (is_none (rejected_observations s !! key)));
  raise_if taken IntegrityError ;;
  raise_if (r_payload_size_bytes row <? 1) IntegrityError ;;
  modify (fun s => set_rejected (<[key := row]> (rejected_observations s)) s).
Definition delete_pending (key : rowkey) : M Store unit :=
  modify (fun s => set_pending (delete key (pending_observations s)) s).

Definition QuarantineObservation (o : Observation) (code details : string) (now : Z) : M Store unit :=
  raise_if (String.eqb code EmptyString || (maxRejectionDetailsBytes <? String.length details)%nat)
    (go_error "valid bounded rejection details are required") ;;
  in_transaction (
    row ← gets (fun s => pending_observations s !! row_key o);
    match row with
    | None => raise (go_error "quarantine local observation: pending row not found")
    | Some row =>
        insert_rejected (row_key o) (mkRejectedRow (p_canonical_payload row) (p_payload_size_bytes row) code
          details (formatTime now)) ;;
        delete_pending (row_key o)
    end).

(** ** Acknowledgements *)

Record ObservationAcknowledgement := mkAcknowledgement {
  AckScheduledAt : Z;
  AckObservationID : string;
  Disposition_ : string;
  Code : string;
  Retryable : bool;
  Details : string;
  AckNextAttemptAt : Z;
}.

(** The fields of one acknowledgement. *)
Definition acknowledgement_ok (a : ObservationAcknowledgement) : bool :=
  if String.eqb (Disposition_ a) "accepted" || String.eqb (Disposition_ a) "duplicate" then
    String.eqb (Code a) EmptyString && negb (Retryable a)
  else if String.eqb (Disposition_ a) "rejected" then
    negb (String.eqb (Code a) EmptyString) && (String.length (Details a) <=? maxRejectionDetailsBytes)%nat &&
    negb (Retryable a && IsZero (AckNextAttemptAt a))
  else false.

Definition matches (o : Observation) (a : ObservationAcknowledgement) : bool :=
  (truncate_us (AckScheduledAt a) =? truncate_us (ScheduledAt o)) &&
  String.eqb (AckObservationID a) (ObservationID o).

Fixpoint check_acknowledgements (seen : list string) (batch : list Observation)
    (acknowledgements : list ObservationAcknowledgement) : bool :=
  match batch, acknowledgements with
  | o :: batch', a :: acknowledgements' =>
      let identity_ := formatTime (AckScheduledAt a) +:+ "/" +:+ AckObservationID a in
      negb (existsb (String.eqb identity_) seen) && matches o a && acknowledgement_ok a &&
      check_acknowledgements (identity_ :: seen) batch' acknowledgements'
  | _, _ => true
  end.

Definition validateAcknowledgements (batch : list Observation)
    (acknowledgements : list ObservationAcknowledgement) : bool :=
  negb (length batch =? 0)%nat && (length batch =? length acknowledgements)%nat &&
  check_acknowledgements [] batch acknowledgements.

(** The body of the loop. *)
Definition apply_one (now : Z) (o : Observation) (a : ObservationAcknowledgement) : M Store unit :=
  if String.eqb (Disposition_ a) "accepted" || String.eqb (Disposition_ a) "duplicate" then delete_pending (row_key o)
  else if String.eqb (Disposition_ a) "rejected" then
    if Retryable a then
      modify (fun s => set_pending (alter (fun r =>
        mkPendingRow (p_monitor_id r) (p_monitor_revision r) (p_agent_config_revision r) (p_probe_type r)
          (p_canonical_payload r) (p_payload_size_bytes r) (p_created_at r) (p_attempt_count r + 1)
          (formatTime (AckNextAttemptAt a)) (Some (formatTime now)) (Some (Code a)))
        (row_key o) (pending_observations s)) s)
    else
      insert_rejected (row_key o) (mkRejectedRow (CanonicalPayload o)
        (Z.of_nat (String.length (CanonicalPayload o))) (Code a) (Details a) (formatTime now)) ;;
      delete_pending (row_key o)
  else mret tt.

Definition ApplyAcknowledgements (batch : list Observation) (acknowledgements : list ObservationAcknowledgement)
    (now : Z) : M Store unit :=
  raise_if (negb (validateAcknowledgements batch acknowledgements)) ErrUntrustedAcknowledgement ;;
  in_transaction (
    for_each (zip batch acknowledgements) (fun x => apply_one now x.1 x.2) ;;
    modify (set_sync (mkSyncRow (Some (formatTime now)) (Some (formatTime now)) 0 None))).

(** ** Batches *)

Definition DefaultMaxBatchObservations : nat := 500.
Definition DefaultMaxBatchBytes : Z := 2 ^ 20.
Definition InitialRetryDelay : Z := 10 ^ 9.
Definition MaximumRetryDelay : Z := 5 * 60 * 10 ^ 9.

(** The JSON text of the upload, its quotes written as single ones: its length, and the value
    it denotes. *)
Definition upload_head (revision : Z) (batchID : string) : string :=
  "{'protocol_version':1,'result_schema_version':1,'agent_config_revision':" +:+ pretty revision +:+
  ",'batch_id':'" +:+ batchID +:+ "','observations':[".
Definition upload_length (revision : Z) (batchID : string) (l : list Observation) : Z :=
  Z.of_nat (String.length (upload_head revision batchID)) + Z.of_nat (length l - 1) +
  foldr (fun o acc => raw_length (CanonicalPayload o) + acc) 0 l + 2.
Definition upload_body (revision : Z) (batchID : string) (l : list Observation) : json :=
  JObject [("protocol_version", JInt 1); ("result_schema_version", JInt 1); ("agent_config_revision", JInt revision);
    ("batch_id", JString batchID);
    ("observations", JArray (map (fun o => default JNull (raw_value (CanonicalPayload o))) l))].

Record Batch := mkBatch { b_revision : Z; b_id : string; b_observations : list Observation }.

Inductive build :=
| NoBatch
| Built (b : Batch)
| OversizedObservation (o : Observation)
| InvalidObservation (o : Observation).

Fixpoint fill (maxObservations : nat) (maxBytes revision : Z) (batchID : string) (selected ready : list Observation) :
    build :=
  match ready with
  | [] => Built (mkBatch revision batchID selected)
  | o :: ready' =>
      if (length selected =? maxObservations)%nat || negb (AgentConfigRevision o =? revision)
      then Built (mkBatch revision batchID selected)
      else if is_none (raw_value (CanonicalPayload o)) then InvalidObservation o
      else if maxBytes <? upload_length revision batchID (selected ++ [o]) then
        match selected with
        | [] => OversizedObservation o
        | _ => Built (mkBatch revision batchID selected)
        end
      else fill maxObservations maxBytes revision batchID (selected ++ [o]) ready'
  end.

Definition BuildBatch (now : Z) (batchID : string) (maxObservations : nat) (maxBytes : Z) : M Store build :=
  raise_if ((maxObservations <? 1)%nat || (maxBytes <? 1)) (go_error "positive upload batch limits are required") ;;
  ready ← ReadyObservations now (maxObservations + 1);
  mret match ready with
       | [] => NoBatch
       | o :: _ => fill maxObservations maxBytes (AgentConfigRevision o) batchID [] ready
       end.

(** [min], [max] of the fraction; the exponent is at most 30. *)
Definition RetryDelay (failureCount serverRetryAfter : Z) (randomFraction : Q) : Z :=
  let failureCount := Z.max failureCount 1 in
  let randomFraction := if Qle_bool 0 randomFraction then randomFraction else 0%Q in
  let randomFraction := if Qle_bool randomFraction 1 then randomFraction else 1%Q in
  let exponent := Z.min (failureCount - 1) 30 in
  let maximum := Z.min (InitialRetryDelay * 2 ^ exponent) MaximumRetryDelay in
  let delay := scale maximum randomFraction in
  Z.min (if delay <? serverRetryAfter then serverRetryAfter else delay) MaximumRetryDelay.

(** ** The response *)

Record UploadResult := mkUploadResult {
  ResScheduledAt : Z; ResObservationID : string; ResDisposition : string; ResCode : string; ResRetryable : bool }.
Record UploadResponse := mkUploadResponse {
  ResProtocolVersion : Z; ResBatchID : string; Results : list UploadResult; RetryAfterSeconds : option Z }.

(** [DisallowUnknownFields]. *)
Definition known_members (known : list string) (o : list (string * json)) : bool :=
  forallb (fun m => existsb (String.eqb m.1) known) o.
Definition go_bool (j : json) : option bool := match j with JBool b => Some b | _ => None end.

Definition decode_result (j : json) : option UploadResult :=
  match j with
  | JObject o =>
      _ ← ensure (known_members ["scheduled_at"; "observation_id"; "disposition"; "code"; "retryable"] o);
      at_ ← go_member o "scheduled_at" zero_time (fun j => s ← go_string j; unmarshal_time s);
      id ← go_member o "observation_id" EmptyString go_string;
      disposition ← go_member o "disposition" EmptyString go_string;
      code ← go_member o "code" EmptyString go_string;
      retryable ← go_member o "retryable" false go_bool;
      Some (mkUploadResult at_ id disposition code retryable)
  | _ => None
  end.

Definition decode_response (j : json) : option UploadResponse :=
  match j with
  | JObject o =>
      _ ← ensure (known_members ["protocol_version"; "batch_id"; "results"; "retry_after_seconds"] o);
      version ← go_member o "protocol_version" 0 go_int64;
      batch ← go_member o "batch_id" EmptyString go_string;
      results ← go_member o "results" [] (read_items decode_result);
      delay ← go_member o "retry_after_seconds" None (fun j => Some <$> go_int64 j);
      Some (mkUploadResponse version batch results delay)
  | _ => None
  end.

(** ** One upload *)

(** What comes back over the network: nothing, or a status, the text of the header
    Retry-After and the value of the body, if the body is one JSON text. *)
Inductive transport :=
| NoResponse
| Response (status : Z) (retry_after : string) (body : option json).

Definition retryAfter (header : string) : Z := default 0 (parse_duration (header +:+ "s")).

(** A product of [int64]. *)
Definition int64 (z : Z) : Z := (z + 2 ^ 63) mod 2 ^ 64 - 2 ^ 63.

(** The acknowledgements that are applied: [random] gives the fractions that are drawn. *)
Definition acknowledgements_of (now serverDelay : Z) (random : nat -> Q) (batch : list Observation)
    (results : list UploadResult) : list ObservationAcknowledgement :=
  imap (fun index r =>
    let nextAttempt :=
      match (if ResRetryable r then batch !! index else None) with
      | Some o => now + RetryDelay (AttemptCount o + 1) serverDelay (random (S index))
      | None => zero_time
      end in
    mkAcknowledgement (ResScheduledAt r) (ResObservationID r) (ResDisposition r) (ResCode r) (ResRetryable r)
      EmptyString nextAttempt) results.

(** [W] is the world beyond the network, [Do] one exchange with it. *)
Context {W : Type} (Do : string -> json -> W -> W * transport).

Definition on_store {A} (m : M Store A) : M (Store * W) A := zoom fst (fun t s => (t, s.2)) m.
Definition send (authorization : string) (body : json) : M (Store * W) transport := fun s =>
  match Do authorization body s.2 with (w, r) => ((s.1, w), Ok r) end.

(** [later] is the clock when the failure is recorded. *)
Definition recordFailure (later : Z) (random : nat -> Q) (failures serverDelay : Z) (cause : exn) :
    M (Store * W) Z :=
  on_store (RecordSynchronizationFailure (later + RetryDelay (failures + 1) serverDelay (random 0%nat))) ;;
  raise cause.

(** What is done with the response to [batch]. *)
Definition receive (now later : Z) (random : nat -> Q) (failures : Z) (batch : Batch) (r : transport) :
    M (Store * W) Z :=
  let fail := recordFailure later random failures in
  match r with
  | NoResponse => fail 0 (go_error "upload observations")
  | Response status retry_after body =>
      if (status <? 200) || (300 <=? status) then fail (retryAfter retry_after) (go_error "observation upload returned")
      else
        match body ≫= decode_response with
        | None => fail 0 (go_error "decode upload response")
        | Some a =>
            if negb (ResProtocolVersion a =? 1) || negb (String.eqb (ResBatchID a) (b_id batch))
            then fail 0 ErrUntrustedAcknowledgement
            else
              let serverDelay := match RetryAfterSeconds a with Some s => int64 (s * 10 ^ 9) | None => 0 end in
              let results := acknowledgements_of now serverDelay random (b_observations batch) (Results a) in
              fun s =>
                match on_store (ApplyAcknowledgements (b_observations batch) results now) s with
                | (s', Ok _) => (s', Ok (Z.of_nat (length (b_observations batch))))
                | (s', Err e) => fail serverDelay e s'
                end
        end
  end.

Definition UploadOnce (now later : Z) (random : nat -> Q) (batchID : string) : M (Store * W) Z :=
  state ← on_store (gets synchronization_state);
  match parse_optional (last_successful_contact_at state), parse_optional (last_successful_upload_at state),
        parse_optional (server_backoff_until state) with
  | Some _, Some _, Some backoff =>
      raise_if (match backoff with Some t => now <? t | None => false end) ErrBackoffActive ;;
      built ← on_store (BuildBatch now batchID DefaultMaxBatchObservations DefaultMaxBatchBytes);
      match built with
      | OversizedObservation o =>
          on_store (QuarantineObservation o "local_payload_too_large" "serialized upload exceeds 1 MiB" now) ;; mret 0
      | InvalidObservation o =>
          on_store (QuarantineObservation o "local_invalid_payload" "stored observation is not valid JSON" now) ;;
          mret 0
      | NoBatch => raise ErrNoReadyData
      | Built batch =>
          raise_if (length (b_observations batch) =? 0)%nat ErrNoReadyData ;;
          url ← on_store (gets identity);
          raise_if (is_none url) (go_error "read upload identity") ;;
          stored ← on_store (gets credentials);
          match last stored with
          | None => raise (go_error "no upload credential is available")
          | Some c =>
              r ← send ("Bearer " +:+ CredentialID c +:+ "." +:+ Secret c)
                    (upload_body (b_revision batch) (b_id batch) (b_observations batch));
              receive now later random (consecutive_failure_count state) batch r
          end
      end
  | _, _, _ => raise (go_error "parse stored time")
  end.
End Outbox.

(** ** The agent's TCP probe (agent/probes/tcp/probe.go, agent/probe/observation.go) *)

(** Why [DialContext] failed; the first that applies. *)
Inductive dial_error :=
| DeadlineExceeded | Canceled | LocalResource | DNSError | ECONNREFUSED | ENETUNREACH | EHOSTUNREACH | OtherDialError.

Record errorClassification := mkClassification {
  ec_category : ErrorCategory; ec_code : string; ec_message : string; ec_failed : bool }.

Definition classifyError (e : dial_error) : errorClassification :=
  match e with
  | DeadlineExceeded => mkClassification EC_timeout "tcp_connect_timeout" "TCP connection timed out." false
  | Canceled => mkClassification EC_internal "tcp_cancelled" "TCP connection was cancelled locally." true
  | LocalResource =>
      mkClassification EC_resource_limit "tcp_local_resource_exhausted"
        "TCP connection could not start because local resources are exhausted." true
  | DNSError => mkClassification EC_resolution "tcp_resolution_failed" "TCP target resolution failed." false
  | ECONNREFUSED => mkClassification EC_connection "tcp_connection_refused" "TCP connection was refused." false
  | ENETUNREACH =>
      mkClassification EC_connection "tcp_network_unreachable" "TCP target network is unreachable." false
  | EHOSTUNREACH => mkClassification EC_connection "tcp_host_unreachable" "TCP target host is unreachable." false
  | OtherDialError => mkClassification EC_connection "tcp_connection_failed" "TCP connection failed." false
  end.

Inductive dial := Connected (address : string) (connect_ms : Q) | DialFailed (e : dial_error).

(** [probe.Result], without its times. *)
Record ProbeResult := mkProbeResult {
  pr_status : ExecutionStatus; pr_assessment : Assessment; pr_category : option ErrorCategory;
  pr_code : string; pr_message : string; pr_result : option ObservationResult }.

Definition completedUnhealthy (port : Z) (c : errorClassification) : ProbeResult :=
  mkProbeResult Completed Unhealthy (Some (ec_category c)) (ec_code c) (ec_message c)
    (Some (TcpResult (mkTcpResult port None None))).
Definition failed (c : errorClassification) : ProbeResult :=
  mkProbeResult Failed Unknown (Some (ec_category c)) (ec_code c) (ec_message c) None.

(** [Probe.Run] with a configuration that decodes. *)
Definition tcp_run (port : Z) (d : dial) : ProbeResult :=
  match d with
  | Connected address connect_ms =>
      mkProbeResult Completed Healthy None EmptyString EmptyString
        (Some (TcpResult (mkTcpResult port (Some address) (Some connect_ms))))
  | DialFailed e =>
      let classification := classifyError e in
      if ec_failed classification then failed classification else completedUnhealthy port classification
  end.

Definition text_option (s : string) : option string := if String.eqb s EmptyString then None else Some s.

(** [EncodeObservation]: what the text that is queued denotes. *)
Definition EncodeObservation (scheduled : AwareDatetime) (id monitor : uuid) (revision : Z) (type : ProbeType)
    (started finished : AwareDatetime) (r : ProbeResult) : AgentObservation :=
  mkAgentObservation scheduled id monitor revision type started finished (pr_status r) (pr_assessment r)
    (pr_category r) (text_option (pr_code r)) (text_option (pr_message r)) None (pr_result r).
