(* ===== verification/OutboxDemo.v ===== *)
(** * A worked system: an agent, its control plane and its outbox

    A user signs up, creates an agent, a target and a TCP monitor and assigns it; the agent
    enrols, sends a heartbeat and fetches its configuration.  Go's times and JSON texts are
    stand-ins. *)

From Stdlib Require Import Ascii QArith.
From stdpp Require Import pretty.
From S2P Require Import Prelude PyText Json Platform Models ProbeConfig Domain.
From S2P Require Import Credentials Configuration Steps ObservationSchema Observations Dashboard Accounts.
From S2P Require Import Lifecycle WebAuthn AuthApi AuthDemo SessionProps AuthSteps Api EndpointProps.
From S2P Require Import Requests Responses AgentContract WireDemo Http HttpProps AgentOutbox.
Local Open Scope Z_scope.

#[local] Existing Instance strict_coercions.
#[local] Existing Instance example_platform.
#[local] Existing Instance example_hasher.
#[local] Existing Instance example_iso.
#[local] Existing Instance example_two_factor.
#[local] Existing Instance example_webauthn.
#[local] Existing Instance example_collation.
#[local] Existing Instance example_decoder.
#[local] Existing Instance example_fastapi.

Module OutboxDemo.
Definition request : Request := AuthDemo.request "session-token".
Definition new_target : endpoint := CreateTarget 7 (mkTargetCreate "gateway" None "192.0.2.1" true).
Definition new_monitor : endpoint := CreateMonitor 8
  (mkMonitorCreate 7 "ssh" None TCP 60 10 (JObject [("port", JInt 22)])).
Definition world2 : World := SystemDemo.world2.
Definition world3 : World := (serve default_settings new_target 5000000 request world2).1.
Definition world4 : World := (serve default_settings new_monitor 6000000 request world3).1.
Definition world5 : World := (serve default_settings (PutAssignment 8 5) 7000000 request world4).1.
Definition world6 : World :=
  (serve default_settings (CreateEnrolmentToken "enrolment-token" 20 5) 8000000 request world5).1.
Definition world7 : World :=
  (serve_agent default_settings (Enrol "agent-secret" 30 1 "enrolment-token" request) 9000000 world6).1.
Definition credential : Credential := mkCredential (str_uuid 30) "agent-secret".
Definition header : string := "Bearer " +:+ CredentialID credential +:+ "." +:+ Secret credential.
Definition world8 : World := (serve_agent default_settings (Heartbeat Demo.heartbeat header) 10000000 world7).1.
Definition world9 : World := (serve_agent default_settings (GetConfiguration 1 None None header) 11000000 world8).1.

Lemma reach9 : rtc (api_step default_settings) empty_world world9.
Proof.
  assert (forall x y, rtc (api_step default_settings) empty_world x -> api_step default_settings x y ->
    rtc (api_step default_settings) empty_world y) as Hr by (intros x y; apply rtc_r).
  apply (Hr world8); [apply (Hr world7); [apply (Hr world6); [apply (Hr world5); [apply (Hr world4);
    [apply (Hr world3); [apply (Hr world2); [exact SystemDemo.reach2|]|]|]|]|]|]|].
  - exact (api_browser default_settings world2 new_target 5000000 request eq_refl).
  - exact (api_browser default_settings world3 new_monitor 6000000 request eq_refl).
  - exact (api_browser default_settings world4 (PutAssignment 8 5) 7000000 request eq_refl).
  - exact (api_browser default_settings world5 (CreateEnrolmentToken "enrolment-token" 20 5) 8000000 request eq_refl).
  - exact (api_agent default_settings world6 (Enrol "agent-secret" 30 1 "enrolment-token" request) 9000000 eq_refl I).
  - exact (api_agent default_settings world7 (Heartbeat Demo.heartbeat header) 10000000 eq_refl I).
  - exact (api_agent default_settings world8 (GetConfiguration 1 None None header) 11000000 eq_refl I).
Qed.

(** ** Two checks: the connection is refused, then made *)

Definition at_ (s : Z) : AwareDatetime := mkAware (s * 1000000) 0.
Definition up : AgentObservation :=
  EncodeObservation (at_ 20) 40 8 1 TCP (at_ 20) (at_ 21) (tcp_run 22 (Connected "192.0.2.1" (3 # 2)%Q)).
Definition down : AgentObservation :=
  EncodeObservation (at_ 12) 41 8 1 TCP (at_ 12) (at_ 13) (tcp_run 22 (DialFailed ECONNREFUSED)).

(** The texts of the example: times are hexadecimal numbers, payloads have names. *)
#[export] Instance example_go_time : GoTime.
Proof.
  refine {| formatTime t := to_hex 18 (Z.to_N (t - zero_time)) EmptyString;
            parseTime s := z ← py_int16 s; Some (z + zero_time); parse_duration _ := None; scale _ _ := 0;
            unmarshal_time s := let '(t, _, _) := partition "@"%char s in z ← py_int10 t; Some (z * 1000);
            raw_value s := if String.eqb s "up" then Some (dump_observation up)
                           else if String.eqb s "down" then Some (dump_observation down) else None;
            raw_length s := Z.of_nat (String.length s) |}.
  - intros t Ht. unfold go_year_ok in Ht. apply andb_true_iff in Ht as [H1 H2].
    apply Z.leb_le in H1. apply Z.ltb_lt in H2. rewrite (py_int16_to_hex 16).
    + cbn. f_equal. lia.
    + change (16 ^ N.of_nat 18)%N with (2 ^ 72)%N. unfold zero_time in *. lia.
  - intros d _. change (datetime_json (instant d) (utc_offset d)) with
      (pretty (instant d) +:+ String "@"%char (pretty (utc_offset d))). rewrite (partition_app "@"%char).
    + by rewrite py_int10_pretty.
    + apply pretty_chars; [|done]. intros x. unfold pretty_N_char. by repeat case_match.
  - intros d f Hd _ _. lia.
Defined.

Definition observation (id : uuid) (at_ : Z) (payload : string) : Observation :=
  mkObservation (at_ * 10 ^ 9) (str_uuid id) (str_uuid 8) 1 1 "tcp" payload zero_time 0 zero_time None None.
Definition ob_up : Observation := observation 40 20 "up".
Definition ob_down : Observation := observation 41 12 "down".

Definition store0 : Store :=
  mkStore ∅ ∅ (mkSyncRow None None 0 None) (Some "https://bifrost.example") [credential].
Definition store1 : Store := (EnqueueObservation (21 * 10 ^ 9) ob_up DefaultQueueLimits store0).1.
Definition store2 : Store := (EnqueueObservation (22 * 10 ^ 9) ob_down DefaultQueueLimits store1).1.

Definition random (_ : nat) : Q := (1 # 2)%Q.
Definition batch_id : string := str_uuid 50.
End OutboxDemo.
