(* ===== verification/OutboxProps.v ===== *)
(** * From the agent's outbox to the observation tables

    The upload loop of the agent runs against the control plane over a network that may lose
    the request or the response.  No observation is lost; a batch that is answered leaves the
    outbox; one observation the control plane cannot store keeps the whole outbox back. *)

From Stdlib Require Import QArith.
From stdpp Require Import pretty.
From S2P Require Import Prelude PyText Json Platform Models ProbeConfig Domain.
From S2P Require Import Credentials Configuration Steps ObservationSchema Observations ObservationProps Dashboard.
From S2P Require Import Accounts Lifecycle WebAuthn AuthApi AuthDemo SessionProps AuthSteps Api.
From S2P Require Import EndpointProps Requests Responses AgentContract.
From S2P Require Import RequestProps WireDemo Http HttpProps AgentOutbox OutboxDemo.
Local Open Scope Z_scope.

Lemma Forall2_chain {A B C} (R : A -> B -> Prop) (S : B -> C -> Prop) (T : A -> C -> Prop) l1 l2 l3 :
  (forall x y z, R x y -> S y z -> T x z) -> Forall2 R l1 l2 -> Forall2 S l2 l3 -> Forall2 T l1 l3.
Proof.
  intros HT H1. revert l3. induction H1 as [|x y l1 l2 Hxy _ IH]; intros l3 H2; inversion H2; subst; eauto.
Qed.

(** ** The network *)

Inductive fate :=
| Lost
| Intercepted (status : Z) (retry_after : string)
| ResponseLost
| Delivered.

(** The clock of the control plane, the time of its transaction and the header
    Content-Length. *)
Record arrival := mkArrival { at_server : Z; received_at : Z; content_length : option string }.

Section Delivery.
Context {F : FastApi} {CO : Coercions} {P : Platform} {D : Decoder} {GT : GoTime}.

Definition network (f : fate) (x : arrival) (authorization : string) (body : json) (w : World) : World * transport :=
  let '(w', r) := post_observations (at_server x) (received_at x) (content_length x) authorization body w in
  match f with
  | Lost => (w, NoResponse)
  | Intercepted status retry_after => (w, Response status retry_after None)
  | ResponseLost => (w', NoResponse)
  | Delivered => (w', Response (rs_status r) EmptyString (Some (rs_body r)))
  end.

(** ** What the control plane stores *)

Definition grows (db db' : ObsDB) : Prop :=
  forall k row, observations db !! k = Some row -> observations db' !! k = Some row.

#[global] Instance grows_preorder : PreOrder grows.
Proof. split; [by intros db k row|]. intros x y z H1 H2 k row Hk. by apply H2, H1. Qed.

(** The observation is stored, with the content it was sent with. *)
Definition stored_in (o : AgentObservation) (db : ObsDB) : Prop :=
  exists row, observations db !! key_of o = Some row /\ or_canonical_payload_hash row = Some (_canonical_hash o).

Lemma stored_grows o db db' : grows db db' -> stored_in o db -> stored_in o db'.
Proof. intros Hg (row & Hrow & Hh). exists row. auto. Qed.

Definition settled (db : ObsDB) (o : AgentObservation) (r : AgentObservationResult) : Prop :=
  ar_disposition r <> Rejected -> stored_in o db.

Lemma ingested_settled now recv au up cfg o db db' r :
  ingested now recv au up cfg o db db' r -> settled db' o r.
Proof.
  intros [code Hs|row Hs Hw Ho|d Hs Hw Hn Ht] Hr; [done|..].
  - case_bool_decide; [by exists row|done].
  - pose proof (typed_observations au o (set_observations (<[key_of o := common_row recv au up o
      (_canonical_hash o)]> (observations db)) db)) as Hobs.
    rewrite Ht in Hobs. cbn [fst observations set_observations] in Hobs.
    eexists. rewrite Hobs, lookup_insert_eq. done.
Qed.

Lemma loop_settled now recv au up cfg l : forall db db' rs,
  ingest_loop now recv au up cfg l db = (db', Ok rs) -> Forall2 (settled db') l rs.
Proof.
  induction l as [|o l IH]; intros db db' rs H; simpl in H; minv; [constructor|].
  constructor; [|by eapply IH]. intros Hr.
  eapply stored_grows; [intros k row; by eapply loop_observations|]. apply ingest_one_inv in H0. by eapply ingested_settled.
Qed.

Lemma ingest_settles mon now recv au up db db' rs :
  ingest_observations mon now recv au up db = (db', Ok rs) -> Forall2 (settled db') (up_observations up) rs.
Proof.
  intros [(_ & -> & ->)|(sn & cfg & _ & _ & Hl)]%ingest_inv; [|by eapply loop_settled].
  apply Forall2_fmap_r, Forall_Forall2_diag, Forall_true. by intros o [].
Qed.

Lemma ingest_grows mon now recv au up db : grows db (ingest_observations mon now recv au up db).1.
Proof.
  destruct (ingest_observations mon now recv au up db) as [db' [rs|e]] eqn:E; cbn [fst].
  - apply ingest_inv in E as [(_ & -> & _)|(sn & cfg & _ & _ & Hl)]; [done|].
    intros k row. by eapply loop_observations.
  - unfold ingest_observations in E. rewrite bind_run, raise_if_run in E.
    destruct (negb _); [by injection E as <- _|]. destruct (_ !! _) as [sn|]; [|done].
    destruct (configured_of _); [|by injection E as <- _]. by apply in_transaction_inv_Err in E as ->.
Qed.

Lemma authenticate_obs now header w : w_obs (authenticate now header w).1 = w_obs w.
Proof. unfold authenticate, on_mon, zoom. by destruct (authenticate_agent _ _ _ _). Qed.

Lemma on_mon_obs {A} (m : M MonDB A) w : w_obs (on_mon m w).1 = w_obs w.
Proof. unfold on_mon, zoom. by destruct (m (w_mon w)). Qed.

Lemma upload_settles now recv up len header w w' b rs :
  upload_observations now recv up len header w = (w', Ok (b, rs)) ->
  b = up_batch_id up /\ Forall2 (settled (w_obs w')) (up_observations up) rs.
Proof.
  unfold upload_observations. intros H. minv. simplify_eq. split; [done|].
  match goal with Hi : on_obs _ _ = (_, Ok _) |- _ => rename Hi into Hobs end.
  unfold on_obs, zoom in Hobs. destruct (ingest_observations _ _ _ _ _ _) as [db' r] eqn:E.
  injection Hobs as <- ->. by apply ingest_settles in E.
Qed.

Lemma upload_grows now recv up len header w :
  grows (w_obs w) (w_obs (upload_observations now recv up len header w).1).
Proof.
  unfold upload_observations. rewrite bind_run. pose proof (authenticate_obs now header w) as Ha.
  destruct (authenticate now header w) as [w1 [au|e]]; cbn [fst] in *; rewrite <- Ha; [|done].
  rewrite bind_run, raise_if_run. destruct (exceeds_limit len); [done|].
  rewrite bind_run. pose proof (on_mon_obs (require_supported_protocol (up_protocol_version up)) w1) as Hp.
  destruct (on_mon _ w1) as [w2 [u|e]]; cbn [fst] in *; rewrite <- Hp; [|done].
  rewrite bind_run, raise_if_run. destruct (negb _); [done|]. mrun.
  unfold on_obs, zoom. pose proof (ingest_grows (w_mon w2) now recv au up (w_obs w2)) as Hg.
  by destruct (ingest_observations _ _ _ _ _ _) as [db' [rs|e]].
Qed.

(** ** Answers the agent can read *)

Lemma read_all_Forall2 {A} (read : json -> option A) l xs :
  read_all read l = Some xs -> Forall2 (fun j x => read j = Some x) l xs.
Proof.
  revert xs. induction l as [|j l IH]; intros xs H; cbn [read_all] in H; [injection H as <-; constructor|].
  apply bind_Some in H as (x & Hx & H). apply bind_Some in H as (r & Hr & H). injection H as <-.
  constructor; auto.
Qed.

(** An answer that decodes is what the handler returned. *)
Lemma answer_error_unreadable e : decode_response (rs_body (answer_error e)) = None.
Proof.
  destruct e; cbn [answer_error]; try (destruct server_error_body as [text ->]; done); [done|].
  by rewrite http_exception_answer.
Qed.

Definition of_result (r : AgentObservationResult) (x : UploadResult) : Prop :=
  ResDisposition x = str_Disposition (ar_disposition r).

Lemma decode_result_of r x : decode_result (encode_AgentObservationResult r) = Some x -> of_result r x.
Proof.
  unfold encode_AgentObservationResult, decode_result. cbn [ensure known_members].
  intros H. repeat (apply bind_Some in H as (? & ? & H)). injection H as <-. unfold of_result.
  cbn [ResDisposition]. cbn in *. congruence.
Qed.

Lemma decode_response_of b rs a :
  decode_response (encode_AgentObservationUploadResponse (b, rs)) = Some a -> Forall2 of_result rs (Results a).
Proof.
  unfold encode_AgentObservationUploadResponse, decode_response.
  intros H. repeat (apply bind_Some in H as (? & ? & H)). injection H as <-. cbn [Results].
  match goal with Hr : go_member _ "results" _ _ = Some _ |- _ => rename Hr into Hres end.
  change (read_all decode_result (map encode_AgentObservationResult rs) = Some x2) in Hres.
  apply read_all_Forall2, Forall2_fmap_l in Hres. eapply Forall2_impl; [exact Hres|]. apply decode_result_of.
Qed.

(** ** One exchange *)

(** The payload was read as an observation that is stored. *)
Definition delivered (w : World) (payload : string) : Prop :=
  exists j o, raw_value payload = Some j /\ read_AgentObservation j = Some o /\ stored_in o (w_obs w).

Lemma delivered_grows w w' payload : grows (w_obs w) (w_obs w') -> delivered w payload -> delivered w' payload.
Proof. intros Hg (j & o & Hj & Ho & Hs). exists j, o. eauto using stored_grows. Qed.

(** A result that says so is true. *)
Definition truthful (w : World) (o : Observation) (x : UploadResult) : Prop :=
  ResDisposition x = "accepted" \/ ResDisposition x = "duplicate" -> delivered w (CanonicalPayload o).

Lemma read_body revision id batch up : read_AgentObservationUpload (upload_body revision id batch) = Some up ->
  Forall2 (fun o x => exists j, raw_value (CanonicalPayload o) = Some j /\ read_AgentObservation j = Some x)
    batch (up_observations up).
Proof.
  unfold read_AgentObservationUpload, upload_body, required. intros H.
  cbn [obj_get String.eqb Ascii.eqb Bool.eqb] in H.
  repeat (apply bind_Some in H as (? & ? & H)). apply checked_Some in H as [<- _]. cbn [up_observations].
  match goal with Hr : read_items _ _ = Some _ |- _ => cbn [read_items] in Hr;
    apply read_all_Forall2, Forall2_fmap_l in Hr; eapply Forall2_impl; [exact Hr|] end.
  intros ob y Hy. cbn in Hy. destruct (raw_value (CanonicalPayload ob)) as [j|]; [by exists j|done].
Qed.

Lemma post_grows now recv len header body w :
  grows (w_obs w) (w_obs (post_observations now recv len header body w).1).
Proof.
  unfold post_observations, route. destruct (read_AgentObservationUpload body) as [up|].
  - pose proof (upload_grows now recv up len header w) as Hg.
    by destruct (upload_observations _ _ _ _ _ w) as [w' [b|e]].
  - unfold agent_only, ignore. rewrite bind_run. pose proof (authenticate_obs now header w) as Ha.
    destruct (authenticate now header w) as [w1 [au|e]]; cbn [fst] in *; by rewrite <- Ha.
Qed.

Lemma post_truthful now recv len header revision id batch w w' r a :
  post_observations now recv len header (upload_body revision id batch) w = (w', r) ->
  decode_response (rs_body r) = Some a -> Forall2 (truthful w') batch (Results a).
Proof.
  unfold post_observations, route.
  destruct (read_AgentObservationUpload _) as [up|] eqn:Hup.
  - destruct (upload_observations _ _ _ _ _ w) as [w1 [[b rs]|e]] eqn:E; intros [= <- <-] Hd;
      [|by rewrite answer_error_unreadable in Hd].
    apply upload_settles in E as [-> Hs]. apply decode_response_of in Hd. apply read_body in Hup.
    assert (Forall2 (fun x res => exists r, settled (w_obs w1) x r /\ of_result r res)
      (up_observations up) (Results a)) as Hsr by (eapply Forall2_chain; [|exact Hs|exact Hd]; eauto).
    eapply Forall2_chain; [|exact Hup|exact Hsr].
    intros o x res (j & Hj & Hx) (r & Hr & Hres) Hdisp. exists j, x. split_and!; [done..|]. apply Hr.
    unfold of_result in Hres. intros Hrej. rewrite Hrej in Hres. by destruct Hdisp as [He|He]; rewrite He in Hres.
  - unfold agent_only, ignore. rewrite bind_run. destruct (authenticate now header w) as [w1 [au|e]];
      intros [= <- <-] Hd; [|by rewrite answer_error_unreadable in Hd].
    destruct (validation_answer (upload_body revision id batch)) as [errors Hv]. by rewrite Hv in Hd.
Qed.

Lemma network_grows f x header body w : grows (w_obs w) (w_obs (network f x header body w).1).
Proof.
  unfold network. pose proof (post_grows (at_server x) (received_at x) (content_length x) header body w) as Hg.
  destruct (post_observations _ _ _ _ _ _) as [w' r]. by destruct f.
Qed.

Lemma network_truthful f x header revision id batch w w' status retry body a :
  network f x header (upload_body revision id batch) w = (w', Response status retry body) ->
  body ≫= decode_response = Some a -> Forall2 (truthful w') batch (Results a).
Proof.
  unfold network. destruct (post_observations _ _ _ _ _ _) as [w1 r] eqn:E.
  destruct f; intros [= <- <- <- <-] Hd; [done|]. by eapply post_truthful.
Qed.

(** ** What is done with the answers *)

(** The entry is in one of the two tables, or the control plane has it. *)
Definition kept (s : Store) (w : World) (e : rowkey * string) : Prop :=
  (exists row, pending_observations s !! e.1 = Some row /\ p_canonical_payload row = e.2) \/
  (exists row, rejected_observations s !! e.1 = Some row /\ r_canonical_payload row = e.2) \/
  delivered w e.2.

Lemma kept_grows s w w' e : grows (w_obs w) (w_obs w') -> kept s w e -> kept s w' e.
Proof. intros Hg [H|[H|H]]; [by left|by right; left|right; right; by eapply delivered_grows]. Qed.

(** What an observation of a batch has in common with its row, if the row is still there. *)
Definition scanned (s : Store) (o : Observation) : Prop :=
  forall row, pending_observations s !! row_key o = Some row -> p_canonical_payload row = CanonicalPayload o.

Definition said_stored (a : ObservationAcknowledgement) : Prop :=
  Disposition_ a = "accepted" \/ Disposition_ a = "duplicate".

(** No entry is lost, rows keep their payload, and no row appears. *)
Record faithful (w : World) (s s' : Store) : Prop := {
  faithful_kept : forall e, kept s w e -> kept s' w e;
  faithful_scanned : forall o, scanned s o -> scanned s' o;
  faithful_rows : forall key, pending_observations s !! key = None -> pending_observations s' !! key = None;
}.

#[global] Instance faithful_preorder w : PreOrder (faithful w).
Proof. split; [by split|]. intros x y z [] []. split; auto. Qed.

Lemma faithful_delete w s o : scanned s o -> delivered w (CanonicalPayload o) ->
  faithful w s (set_pending (delete (row_key o) (pending_observations s)) s).
Proof.
  intros Hsc Hd. split.
  - intros [key payload] [(row & Hrow & Hp)|[Hr|Hr]]; [|by right; left|by right; right]. cbn [fst snd] in *.
    destruct (decide (key = row_key o)) as [->|Hne].
    + right; right. cbn. by rewrite <- Hp, (Hsc row Hrow).
    + left. exists row. cbn. by rewrite lookup_delete_ne.
  - intros o' Hs row. cbn. intros [_ H]%lookup_delete_Some. auto.
  - intros key Hk. apply lookup_delete_None. by right.
Qed.

Lemma faithful_reject w s o row : scanned s o -> r_canonical_payload row = CanonicalPayload o ->
  rejected_observations s !! row_key o = None ->
  faithful w s (set_pending (delete (row_key o) (pending_observations s))
    (set_rejected (<[row_key o := row]> (rejected_observations s)) s)).
Proof.
  intros Hsc Hrow Hn. split.
  - intros [key payload] [(r & Hr & Hp)|[(r & Hr & Hp)|Hd]]; cbn [fst snd] in *; [..|by right; right].
    + destruct (decide (key = row_key o)) as [->|Hne].
      * right; left. exists row. cbn. rewrite lookup_insert_eq. split; [done|]. by rewrite Hrow, <- (Hsc r Hr).
      * left. exists r. cbn. by rewrite lookup_delete_ne.
    + right; left. exists r. cbn. rewrite lookup_insert_ne; [done|congruence].
  - intros o' Hs r. cbn. intros [_ H]%lookup_delete_Some. auto.
  - intros key Hk. apply lookup_delete_None. by right.
Qed.

Lemma insert_rejected_inv key row s s' u : insert_rejected key row s = (s', Ok u) ->
  rejected_observations s !! key = None /\ s' = set_rejected (<[key := row]> (rejected_observations s)) s.
Proof. unfold insert_rejected. intros H. minv. by destruct (rejected_observations s !! key). Qed.

Lemma apply_one_faithful w now o a s s' u : scanned s o ->
  (said_stored a -> delivered w (CanonicalPayload o)) ->
  apply_one now o a s = (s', Ok u) -> faithful w s s'.
Proof.
  unfold apply_one, said_stored. intros Hsc Hd H.
  destruct (String.eqb_spec (Disposition_ a) "accepted") as [Ha|_];
    [apply modify_inv_Ok in H as ->; apply faithful_delete; auto|].
  destruct (String.eqb_spec (Disposition_ a) "duplicate") as [Ha|_];
    [apply modify_inv_Ok in H as ->; apply faithful_delete; auto|]. cbn [orb] in H.
  destruct (String.eqb (Disposition_ a) "rejected"); [|by minv].
  destruct (Retryable a).
  - apply modify_inv_Ok in H as ->. split.
    + intros [key payload] [(row & Hrow & Hp)|[Hr|Hr]]; [left|by right; left|by right; right]. cbn in *.
      destruct (decide (key = row_key o)) as [->|Hne].
      * eexists. rewrite lookup_alter_eq, Hrow. done.
      * exists row. by rewrite lookup_alter_ne.
    + intros o' Hs row. cbn. intros H. destruct (decide (row_key o = row_key o')) as [He|Hne].
      * rewrite He, lookup_alter_eq in H. destruct (pending_observations s !! row_key o') as [row'|] eqn:E; [|done].
        injection H as <-. exact (Hs row' E).
      * rewrite lookup_alter_ne in H by done. by apply Hs.
    + intros key Hk. by apply lookup_alter_None.
  - minv. apply insert_rejected_inv in H0 as [Hn ->]. apply modify_inv_Ok in H1 as ->. 
    refine (faithful_reject w s o _ Hsc _ Hn); done.
Qed.

Lemma apply_all_faithful w now (l : list (Observation * ObservationAcknowledgement)) : forall s s' u,
  (forall o a, (o, a) ∈ l -> scanned s o /\ (said_stored a -> delivered w (CanonicalPayload o))) ->
  for_each l (fun x => apply_one now x.1 x.2) s = (s', Ok u) -> faithful w s s'.
Proof.
  induction l as [|[o a] l IH]; intros s s' u Hl H; cbn [for_each] in H; minv; [done|].
  destruct (Hl o a) as [Hsc Hd]; [by left|]. pose proof (apply_one_faithful _ _ _ _ _ _ _ Hsc Hd H0) as Hf.
  etransitivity; [exact Hf|]. eapply IH; [|exact H1]. intros o' a' Hin.
  destruct (Hl o' a') as [Hsc' Hd']; [by right|]. split; [by apply (faithful_scanned _ _ _ Hf)|exact Hd'].
Qed.

(** ** Batches *)

(** The times of the keys are times that were printed. *)
Definition dated (s : Store) : Prop :=
  forall key row, pending_observations s !! key = Some row ->
  exists t, go_year_ok t = true /\ key.1 = formatTime t.

Lemma faithful_dated w s s' : faithful w s s' -> dated s -> dated s'.
Proof.
  intros Hf Hd key row Hrow. destruct (pending_observations s !! key) as [r|] eqn:E; [by eapply Hd|].
  by rewrite (faithful_rows _ _ _ Hf key E) in Hrow.
Qed.

(** The observation is one of the pending ones. *)
Definition queued (s : Store) (o : Observation) : Prop :=
  exists row, pending_observations s !! row_key o = Some row /\ scanObservation (row_key o, row) = Some o.

Lemma queued_scanned s o : queued s o -> scanned s o.
Proof.
  intros (row & Hrow & Hs) r Hr. rewrite Hrow in Hr. injection Hr as <-.
  unfold scanObservation in Hs. repeat (apply bind_Some in Hs as (? & _ & Hs)). by injection Hs as <-.
Qed.

Lemma scan_queued s key row o : dated s -> pending_observations s !! key = Some row ->
  scanObservation (key, row) = Some o -> row_key o = key /\ queued s o.
Proof.
  intros Hd Hrow Hs. destruct (Hd key row Hrow) as (t & Ht & Hkey). destruct key as [at_ id]. cbn in Hkey. subst at_.
  assert (row_key o = (formatTime t, id)) as Hk.
  { unfold scanObservation in Hs. cbn [fst snd] in Hs. rewrite parse_format in Hs by done.
    repeat (apply bind_Some in Hs as (? & ? & Hs)). injection Hs as <-. simplify_eq. done. }
  split; [done|]. exists row. by rewrite Hk.
Qed.

Lemma ready_queued now n s s' l : dated s -> ReadyObservations now n s = (s', Ok l) -> s' = s /\ Forall (queued s) l.
Proof.
  intros Hd H. unfold ReadyObservations in H. minv. destruct (mapM _ _) as [l'|] eqn:E; [|done]. minv.
  split; [done|]. apply mapM_Some in E. rewrite Forall_forall. intros o Ho.
  apply list_elem_of_lookup in Ho as [i Ho]. destruct (Forall2_lookup_r _ _ _ _ _ E Ho) as ([key row] & Hi & Hs).
  eapply scan_queued; [done| |exact Hs]. apply list_elem_of_lookup_2 in Hi. apply elem_of_take in Hi as (j & Hj & _).
  apply list_elem_of_lookup_2 in Hj. unfold ready_rows in Hj. rewrite order_by_perm in Hj.
  apply list_elem_of_In, List.filter_In in Hj as [Hj _]. by apply list_elem_of_In, elem_of_map_to_list in Hj.
Qed.

Definition build_queued (s : Store) (b : build) : Prop :=
  match b with
  | NoBatch => True
  | Built b => Forall (queued s) (b_observations b)
  | OversizedObservation o | InvalidObservation o => queued s o
  end.

Lemma fill_queued s n m r id ready : forall selected,
  Forall (queued s) selected -> Forall (queued s) ready -> build_queued s (fill n m r id selected ready).
Proof.
  induction ready as [|o ready IH]; intros selected Hs Hr; cbn [fill]; [done|].
  apply Forall_cons in Hr as [Ho Hr]. destruct (_ || _); [done|]. destruct (is_none _); [done|].
  destruct (_ <? _); [by destruct selected|]. apply IH; [|done]. apply Forall_app. by repeat constructor.
Qed.

Lemma build_is_queued now id n m s s' b : dated s -> BuildBatch now id n m s = (s', Ok b) ->
  s' = s /\ build_queued s b.
Proof.
  intros Hd H. unfold BuildBatch in H. minv.
  match goal with Hr : ReadyObservations _ _ _ = _ |- _ => apply (ready_queued _ _ _ _ _ Hd) in Hr as [-> Hl] end.
  split; [done|]. destruct a0 as [|o l]; [done|]. by apply fill_queued.
Qed.

Lemma quarantine_faithful w o code details now s s' r : queued s o ->
  QuarantineObservation o code details now s = (s', r) -> faithful w s s'.
Proof.
  intros Hq. unfold QuarantineObservation. rewrite bind_run, raise_if_run.
  destruct (_ || _); [by intros [= <- _]|].
  destruct (in_transaction _ s) as [s1 [u|e]] eqn:E; intros [= <- <-]; [|by apply in_transaction_inv_Err in E as ->].
  apply in_transaction_inv_Ok, bind_inv_Ok in E as (s2 & row' & Hg & E). apply gets_inv_Ok in Hg as [-> ->].
  pose proof (queued_scanned s o Hq) as Hsc. destruct Hq as (row & Hrow & _). rewrite Hrow in E.
  apply bind_inv_Ok in E as (s2 & u' & Hi & E). apply insert_rejected_inv in Hi as [Hn ->].
  apply modify_inv_Ok in E as ->. refine (faithful_reject w s o _ Hsc _ Hn). by apply Hsc.
Qed.

(** ** One upload *)

Lemma acknowledgements_truthful w now delay random batch results o a :
  Forall2 (truthful w) batch results -> (o, a) ∈ zip batch (acknowledgements_of now delay random batch results) ->
  said_stored a -> delivered w (CanonicalPayload o).
Proof.
  intros Ht [i Hi]%list_elem_of_lookup Hs. apply lookup_zip_with_Some in Hi as (o' & a' & [= <- <-] & Ho & Ha).
  unfold acknowledgements_of in Ha. rewrite list_lookup_imap in Ha.
  destruct (results !! i) as [res|] eqn:Hres; [|done]. injection Ha as <-.
  exact (Forall2_lookup_lr _ _ _ _ _ _ Ht Ho Hres Hs).
Qed.

Lemma apply_faithful w batch acks now s s' r :
  Forall (scanned s) batch -> (forall o a, (o, a) ∈ zip batch acks -> said_stored a -> delivered w (CanonicalPayload o)) ->
  ApplyAcknowledgements batch acks now s = (s', r) -> faithful w s s'.
Proof.
  intros Hsc Hst. unfold ApplyAcknowledgements. rewrite bind_run, raise_if_run.
  destruct (negb _); [by intros [= <- _]|].
  destruct (in_transaction _ s) as [s1 [u|e]] eqn:E; intros [= <- <-]; [|by apply in_transaction_inv_Err in E as ->].
  apply in_transaction_inv_Ok, bind_inv_Ok in E as (s2 & u' & Ha & E). apply modify_inv_Ok in E as ->.
  eapply apply_all_faithful in Ha; [destruct Ha; by split|].
  intros o a Hin. split; [|by apply Hst]. apply elem_of_zip_l in Hin. by eapply Forall_forall.
Qed.

Lemma fail_faithful now random failures delay cause s w s' w' r :
  recordFailure (W := World) now random failures delay cause (s, w) = ((s', w'), r) -> w' = w /\ faithful w s s'.
Proof. intros [= <- <- _]. split; [done|]. by split. Qed.

Lemma receive_faithful now later random failures batch t s w s' w' r :
  Forall (scanned s) (b_observations batch) ->
  (forall status retry body a, t = Response status retry body -> body ≫= decode_response = Some a ->
     Forall2 (truthful w) (b_observations batch) (Results a)) ->
  receive now later random failures batch t (s, w) = ((s', w'), r) -> w' = w /\ faithful w s s'.
Proof.
  intros Hsc Ht. unfold receive. destruct t as [|status retry body]; [apply fail_faithful|].
  destruct (_ || _); [apply fail_faithful|]. destruct (body ≫= decode_response) as [a|] eqn:Hb; [|apply fail_faithful].
  destruct (_ || _); [apply fail_faithful|]. specialize (Ht _ _ _ _ eq_refl Hb). cbv zeta. unfold on_store, zoom.
  cbn [fst]. destruct (ApplyAcknowledgements _ _ _ s) as [s1 r1] eqn:E.
  apply (apply_faithful w) in E; [|done|intros o x Hin; by eapply acknowledgements_truthful].
  destruct r1 as [u|e]; [by intros [= <- <- _]|]. intros [-> Hf]%fail_faithful. split; [done|]. by etransitivity.
Qed.

Lemma on_store_run {A} (m : M Store A) s (w : World) : on_store m (s, w) = ((m s).1, w, (m s).2).
Proof. unfold on_store, zoom. cbn [fst snd]. by destruct (m s). Qed.

Lemma build_state now id n m s : (BuildBatch now id n m s).1 = s.
Proof.
  unfold BuildBatch, ReadyObservations. rewrite bind_run, raise_if_run. destruct (_ || _); [done|].
  rewrite !bind_run, raise_if_run. destruct (_ <? _)%nat; [done|]. mrun. by destruct (mapM _ _).
Qed.

Ltac early := intros [= <- <- _]; (split; [by left|done]).

Lemma upload_faithful f x now later random id s w s' w' r : dated s ->
  UploadOnce (network f x) now later random id (s, w) = ((s', w'), r) ->
  (w' = w \/ exists header body, w' = (network f x header body w).1) /\ faithful w' s s'.
Proof.
  intros Hd. unfold UploadOnce. rewrite bind_run, on_store_run. mrun.
  repeat (destruct (parse_optional _); [|early]). rewrite bind_run, raise_if_run.
  destruct (match o1 with Some t => _ | None => _ end); [early|].
  rewrite bind_run, on_store_run, build_state.
  destruct (BuildBatch now id _ _ s) as [s1 [b|e]] eqn:Hb; cbn [fst snd]; [|early].
  apply (build_is_queued _ _ _ _ _ _ _ Hd) in Hb as [-> Hq]. destruct b as [|batch|ob|ob]; cbn [build_queued] in Hq.
  - early.
  - rewrite bind_run, raise_if_run. destruct (_ =? _)%nat; [early|].
    rewrite bind_run, on_store_run. mrun. destruct (is_none _); [early|].
    rewrite on_store_run. mrun. destruct (last _) as [c|]; [|early].
    rewrite bind_run. unfold send. cbn [fst snd].
    destruct (network _ _ _ _ w) as [w1 t] eqn:Hn.
    intros [-> Hf]%receive_faithful; [split; [right; do 2 eexists; by rewrite Hn|done]|..].
    + eapply Forall_impl; [exact Hq|]. intros ob. apply queued_scanned.
    + intros status retry body a -> Ha. by eapply network_truthful.
  - rewrite bind_run, on_store_run. destruct (QuarantineObservation _ _ _ _ s) as [s1 r1] eqn:E.
    apply (quarantine_faithful w) in E; [|done]. destruct r1; early.
  - rewrite bind_run, on_store_run. destruct (QuarantineObservation _ _ _ _ s) as [s1 r1] eqn:E.
    apply (quarantine_faithful w) in E; [|done]. destruct r1; early.
Qed.
End Delivery.

(** ** The system *)

(** The agent's database, the control plane, and what the agent has ever stored to be sent. *)
Record system := mkSystem { agent_store : Store; control_plane : World; produced : list (rowkey * string) }.

Definition enrolled (url : option string) (creds : list Credential) (s : Store) : Store :=
  mkStore (pending_observations s) (rejected_observations s) (synchronization_state s) url creds.
Definition new_store : Store := mkStore ∅ ∅ (mkSyncRow None None 0 None) None [].

Section System.
Context {F : FastApi} {CO : Coercions} {P : Platform} {D : Decoder} {GT : GoTime}.
Context {IF : IsoFormat} {H : PasswordHasher} {T : TwoFactorLib} {W : WebAuthnLib} {C : Collation}.
Context (settings : Settings).

#[local] Existing Instance sub_step_all.

(** An observation is stored, an upload is attempted, the identity of the agent changes, or
    the control plane serves any request of anybody. *)
Inductive system_step (y : system) : system -> Prop :=
| produce now o limits s' : go_year_ok (ScheduledAt o) = true ->
    EnqueueObservation now o limits (agent_store y) = (s', Ok tt) ->
    system_step y (mkSystem s' (control_plane y) ((row_key o, CanonicalPayload o) :: produced y))
| attempt f x now later random id s' w' r : in_calendar (at_server x) = true ->
    UploadOnce (network f x) now later random id (agent_store y, control_plane y) = ((s', w'), r) ->
    system_step y (mkSystem s' w' (produced y))
| enrol url creds : system_step y (mkSystem (enrolled url creds (agent_store y)) (control_plane y) (produced y))
| served w' : api_step settings (control_plane y) w' -> system_step y (mkSystem (agent_store y) w' (produced y)).

Lemma steps_grow db db' : rtc obs_step db db' -> grows db db'.
Proof.
  induction 1 as [|x y z [mon now recv au up Hok] _ IH]; [done|]. etransitivity; [apply ingest_grows|exact IH].
Qed.

Lemma post_moves now recv len header body w : good w -> in_calendar now = true ->
  moves settings (mon_step settings) obs_step w (post_observations now recv len header body w).1.
Proof.
  intros Hg Hnow. unfold post_observations, route. destruct (read_AgentObservationUpload body) as [up|] eqn:Hup.
  - assert (AgentObservationUpload_ok up = true) as Hok.
    { unfold read_AgentObservationUpload in Hup. destruct body; try done.
      repeat (apply bind_Some in Hup as (? & _ & Hup)). by apply checked_Some in Hup as [_ ?]. }
    pose proof (follows_upload settings now recv up len header w Hok Hg) as Hs. unfold safe in Hs.
    destruct (upload_observations _ _ _ _ _ w) as [w' [b|e]]; [exact (proj1 Hs)|exact Hs].
  - pose proof (follows_authenticate settings now header w Hg) as Hs. unfold safe in Hs.
    unfold agent_only, ignore. rewrite bind_run.
    destruct (authenticate now header w) as [w' [au|e]]; [exact (proj1 Hs)|exact Hs].
Qed.

Lemma network_good f x header body w : good w -> in_calendar (at_server x) = true -> good (network f x header body w).1.
Proof.
  intros Hg Hx. unfold network.
  pose proof (post_moves (at_server x) (received_at x) (content_length x) header body w Hg Hx) as Hm.
  destruct (post_observations _ _ _ _ _ _) as [w' r]. pose proof (good_moves settings _ _ _ _ Hg Hm).
  by destruct f.
Qed.

(** What holds of every reachable state. *)
Record orderly (y : system) : Prop := {
  or_good : good (control_plane y);
  or_dated : dated (agent_store y);
  or_kept : Forall (kept (agent_store y) (control_plane y)) (produced y);
}.

Lemma enqueue_keeps now o limits s s' w : EnqueueObservation now o limits s = (s', Ok tt) ->
  kept s' w (row_key o, CanonicalPayload o) /\ (forall e, kept s w e -> kept s' w e) /\
  forall key, key <> row_key o -> pending_observations s' !! key = pending_observations s !! key.
Proof.
  unfold EnqueueObservation, observationAlreadyQueued. intros Hq. minv.
  change (row_key (with_times now o)) with (row_key o) in *.
  destruct (pending_observations s !! row_key o) as [row|] eqn:E.
  - minv. split; [|done]. left. exists row. split; [done|]. cbn [snd].
    match goal with Hn : negb (String.eqb _ _) = false |- _ => by apply negb_false_iff, String.eqb_eq in Hn end.
  - minv. split_and!.
    + left. eexists. cbn. by rewrite lookup_insert_eq.
    + intros [key payload] [(row & Hrow & Hp)|Hr]; [|by right]. left. exists row. cbn in *.
      rewrite lookup_insert_ne; [done|congruence].
    + intros key Hne. cbn. by rewrite lookup_insert_ne.
Qed.

Lemma orderly_step y y' : orderly y -> system_step y y' -> orderly y'.
Proof.
  intros [Hg Hd Hk] [now o limits s' Hyear Hq|f x now later random id s' w' r Hx Hu|url creds|w' Hw].
  - apply (enqueue_keeps _ _ _ _ _ (control_plane y)) in Hq as (Hnew & Hold & Hother). split; [done|..]; cbn.
    + intros key row Hrow. destruct (decide (key = row_key o)) as [->|Hne]; [by exists (ScheduledAt o)|].
      rewrite Hother in Hrow by done. by eapply Hd.
    + constructor; [done|]. by eapply Forall_impl.
  - apply upload_faithful in Hu as [Hw Hf]; [|done].
    assert (good w' /\ grows (w_obs (control_plane y)) (w_obs w')) as [Hg' Hgr].
    { destruct Hw as [->|(header & body & ->)]; [done|]. split; [by apply network_good|apply network_grows]. }
    split; [done|by eapply faithful_dated|]. cbn. eapply Forall_impl; [exact Hk|].
    intros e He. apply (faithful_kept _ _ _ Hf). by eapply kept_grows.
  - by split.
  - pose proof (api_step_moves settings _ _ Hg Hw) as Hm. split; [by eapply good_moves; [apply _|..]|done|]. cbn.
    eapply Forall_impl; [exact Hk|]. intros e. apply kept_grows, steps_grow, Hm.
Qed.

(** C3 No observation is lost between the agent and the tables of the control plane.  In every
    run of the two, whatever the network loses (requests, responses, answers replaced by a
    proxy), whatever the control plane answers, whatever requests it serves in between and
    however often the agent tries, every observation that the agent ever stored to be sent is
    still waiting in its outbox, or is kept there as rejected with the reason, or is stored
    by the control plane with exactly the content that was sent. *)
Theorem no_observation_is_lost y :
  rtc system_step (mkSystem new_store empty_world []) y ->
  Forall (kept (agent_store y) (control_plane y)) (produced y).
Proof.
  assert (forall a b, rtc system_step a b -> orderly a -> orderly b) as Hgen.
  { induction 1 as [|a b c Hab _ IH]; [done|]. intros Ha. by apply IH, (orderly_step a). }
  intros Hr. apply (or_kept y), (Hgen _ _ Hr). split; [apply good_empty|by intros key row|constructor].
Qed.
End System.

(** ** The worked system: the request is lost, then the response, then both arrive *)

#[local] Existing Instance strict_coercions.
#[local] Existing Instance example_platform.
#[local] Existing Instance example_hasher.
#[local] Existing Instance example_iso.
#[local] Existing Instance example_two_factor.
#[local] Existing Instance example_webauthn.
#[local] Existing Instance example_collation.
#[local] Existing Instance example_decoder.
#[local] Existing Instance example_fastapi.
#[local] Existing Instance OutboxDemo.example_go_time.

Module LossDemo.
Import OutboxDemo.

(** An attempt at second [t] of both clocks. *)
Definition at_second (t : Z) : arrival := mkArrival (t * 10 ^ 6) (t * 10 ^ 6 + 1) (Some "200").
Definition attempt_at (f : fate) (t : Z) (sw : Store * World) : Store * World :=
  (UploadOnce (network f (at_second t)) (t * 10 ^ 9) (t * 10 ^ 9) random batch_id sw).1.

Definition sw1 : Store * World := attempt_at Lost 22 (store1, world9).
Definition sw2 : Store * World := attempt_at ResponseLost 23 sw1.
Definition sw3 : Store * World := attempt_at Delivered 24 sw2.
Definition entry : rowkey * string := (row_key ob_up, "up").

Lemma attempt_step f t s w l : in_calendar (t * 10 ^ 6) = true ->
  system_step default_settings (mkSystem s w l)
    (mkSystem (attempt_at f t (s, w)).1 (attempt_at f t (s, w)).2 l).
Proof.
  intros Ht. unfold attempt_at.
  destruct (UploadOnce _ _ _ _ _ (s, w)) as [[s' w'] r] eqn:E.
  exact (attempt default_settings (mkSystem s w l) f (at_second t) _ _ _ _ _ _ _ Ht E).
Qed.

Lemma next_attempt_step f t sw l : in_calendar (t * 10 ^ 6) = true ->
  system_step default_settings (mkSystem sw.1 sw.2 l) (mkSystem (attempt_at f t sw).1 (attempt_at f t sw).2 l).
Proof. destruct sw as [s w]. apply attempt_step. Qed.

Lemma requests_run w w' s l : rtc (api_step default_settings) w w' ->
  rtc (system_step default_settings) (mkSystem s w l) (mkSystem s w' l).
Proof.
  induction 1 as [|x y z Hxy _ IH]; [done|]. eapply rtc_l; [|exact IH].
  exact (served default_settings (mkSystem s x l) y Hxy).
Qed.

Lemma run_to_the_end : rtc (system_step default_settings) (mkSystem new_store empty_world [])
  (mkSystem sw3.1 sw3.2 [entry]).
Proof.
  transitivity (mkSystem new_store world9 []); [exact (requests_run _ _ _ _ reach9)|].
  apply (rtc_l _ _ (mkSystem store0 world9 []));
    [exact (enrol default_settings (mkSystem new_store world9 []) (Some "https://bifrost.example") [credential])|].
  apply (rtc_l _ _ (mkSystem store1 world9 [entry])).
  { apply (produce default_settings (mkSystem store0 world9 []) (21 * 10 ^ 9) ob_up DefaultQueueLimits store1);
      [reflexivity|]. unfold store1. apply run_outcome. by vm_compute. }
  apply (rtc_l _ _ (mkSystem sw1.1 sw1.2 [entry])); [exact (attempt_step Lost 22 store1 world9 [entry] eq_refl)|].
  apply (rtc_l _ _ (mkSystem sw2.1 sw2.2 [entry])); [exact (next_attempt_step ResponseLost 23 sw1 [entry] eq_refl)|].
  apply rtc_once. exact (next_attempt_step Delivered 24 sw2 [entry] eq_refl).
Qed.

Lemma outbox_empty : pending_observations sw3.1 = ∅ /\ rejected_observations sw3.1 = ∅.
Proof. by vm_compute. Qed.
End LossDemo.

(** The outbox is empty, so the control plane has the observation. *)
Lemma no_observation_is_lost_witness : delivered LossDemo.sw3.2 "up".
Proof.
  pose proof (no_observation_is_lost default_settings _ LossDemo.run_to_the_end) as Hk.
  apply Forall_cons in Hk as [[(row & Hrow & _)|[(row & Hrow & _)|Hd]] _]; [..|exact Hd]; cbn in Hrow.
  - rewrite (proj1 LossDemo.outbox_empty) in Hrow. discriminate Hrow.
  - rewrite (proj2 LossDemo.outbox_empty) in Hrow. discriminate Hrow.
Defined.
