(* ===== verification/OutboxBlocking.v ===== *)
(** * One observation that cannot be stored keeps the outbox back

    (agent/probes/tcp/probe.go, agent/synchronization/client.go, agents/observations.py)

    The TCP probe reports a connection that was not made without an address; the column of the
    address is NOT NULL, the control plane answers 500, and the agent sends the same batch
    again. *)

From Stdlib Require Import Ascii QArith.
From S2P Require Import Prelude PyText Json Platform Models ProbeConfig Domain.
From S2P Require Import Credentials Configuration CredentialsProps ObservationSchema Observations ObservationProps.
From S2P Require Import Dashboard Accounts Lifecycle WebAuthn AuthApi Api EndpointProps.
From S2P Require Import AuthDemo Requests Responses AgentContract RequestProps WireDemo Http HttpProps AgentOutbox.
From S2P Require Import OutboxDemo OutboxProps.
Local Open Scope Z_scope.

Lemma failed_dial_lacks_address scheduled id monitor revision started finished port e :
  ec_failed (classifyError e) = false ->
  lacks_address (EncodeObservation scheduled id monitor revision TCP started finished
    (tcp_run port (DialFailed e))) = true.
Proof. unfold tcp_run. by intros ->. Qed.

(** ** The first row of the queue *)

Lemma order_by_first {A} (le : A -> A -> bool) (x : A) l : (forall y z, le y z = true \/ le z y = true) ->
  x ∈ l -> (forall y, y ∈ l -> y = x \/ le y x = false) -> exists rest, order_by le l = x :: rest.
Proof.
  intros Ht. induction l as [|y l IH]; intros Hx Hl; [by apply elem_of_nil in Hx|]. cbn [order_by foldr].
  change (foldr (insert_by le) [] l) with (order_by le l).
  apply elem_of_cons in Hx as [<-|Hx].
  - destruct (order_by le l) as [|z rest] eqn:E; [by exists []|]. cbn [insert_by].
    enough (le x z = true) as -> by (by eexists). destruct (Hl z) as [->|Hz].
    + right. rewrite <- (order_by_perm le), E. by left.
    + by destruct (Ht x x).
    + destruct (Ht x z) as [|H]; congruence.
  - destruct IH as [rest ->]; [done|intros z Hz; apply Hl; by right|]. cbn [insert_by].
    destruct (Hl y) as [->|Hy]; [by left|destruct (le x x); by eexists|]. rewrite Hy. by eexists.
Qed.

Lemma key_le_total x y : key_le x y = true \/ key_le y x = true.
Proof.
  unfold key_le. rewrite (String.compare_antisym y.1.1 x.1.1).
  destruct (String.compare x.1.1 y.1.1); cbn; auto using String.leb_total.
Qed.

Section Blocking.
Context {F : FastApi} {CO : Coercions} {P : Platform} {D : Decoder} {GT : GoTime}.

(** The row is the first of all, and ready. *)
Definition first_row (s : Store) (key : rowkey) (row : PendingRow) : Prop :=
  pending_observations s !! key = Some row /\
  forall key' row', pending_observations s !! key' = Some row' -> key' = key \/ key_le (key', row') (key, row) = false.

Lemma ready_first s key row now : first_row s key row -> String.leb (p_next_attempt_at row) (formatTime now) = true ->
  exists rest, ready_rows now s = (key, row) :: rest.
Proof.
  intros [Hrow Hfirst] Hr. apply order_by_first; [apply key_le_total|..].
  - apply list_elem_of_In, List.filter_In. split; [|done]. by apply list_elem_of_In, elem_of_map_to_list.
  - intros [key' row'] Hin. apply list_elem_of_In, List.filter_In in Hin as [Hin _].
    apply list_elem_of_In, elem_of_map_to_list in Hin. destruct (Hfirst _ _ Hin) as [->|Hle]; [left|by right].
    by simplify_eq.
Qed.

(** The payloads are JSON. *)
Definition valid_payloads (s : Store) : Prop :=
  forall key row, pending_observations s !! key = Some row -> is_Some (raw_value (p_canonical_payload row)).

Lemma fill_first n m r id o ready : Forall (fun o => is_Some (raw_value (CanonicalPayload o))) ready ->
  forall selected, exists rest, fill n m r id (o :: selected) ready = Built (mkBatch r id (o :: rest)).
Proof.
  induction 1 as [|o' ready [j Hj] _ IH]; intros selected; cbn [fill]; [by eexists|].
  destruct (_ || _); [by eexists|]. rewrite Hj. cbn [is_none]. destruct (_ <? _); [by eexists|].
  apply (IH (selected ++ [o'])).
Qed.

Lemma scan_fields key row o : scanObservation (key, row) = Some o ->
  CanonicalPayload o = p_canonical_payload row /\ AgentConfigRevision o = p_agent_config_revision row.
Proof. unfold scanObservation. intros H. repeat (apply bind_Some in H as (? & _ & H)). by injection H as <-. Qed.

Lemma build_first s key row o now id : first_row s key row -> valid_payloads s ->
  String.leb (p_next_attempt_at row) (formatTime now) = true -> scanObservation (key, row) = Some o ->
  upload_length (AgentConfigRevision o) id [o] <= DefaultMaxBatchBytes ->
  (exists e, BuildBatch now id DefaultMaxBatchObservations DefaultMaxBatchBytes s = (s, Err e)) \/
  exists rest, BuildBatch now id DefaultMaxBatchObservations DefaultMaxBatchBytes s =
    (s, Ok (Built (mkBatch (AgentConfigRevision o) id (o :: rest)))).
Proof.
  intros Hf Hv Hr Hs Hlen. destruct (ready_first s key row now Hf Hr) as [rows Hrows].
  assert (forall x, x ∈ ready_rows now s -> pending_observations s !! x.1 = Some x.2) as Hin.
  { intros [k r] Hx. unfold ready_rows in Hx. rewrite order_by_perm in Hx.
    apply list_elem_of_In, List.filter_In in Hx as [Hx _]. by apply list_elem_of_In, elem_of_map_to_list in Hx. }
  unfold BuildBatch, ReadyObservations. mrun. rewrite Hrows in *.
  change (DefaultMaxBatchObservations + 1)%nat with (S DefaultMaxBatchObservations). cbn [firstn].
  change ((DefaultMaxBatchObservations <? 1)%nat || (DefaultMaxBatchBytes <? 1)) with false.
  change (S DefaultMaxBatchObservations <? 1)%nat with false. mrun.
  destruct (mapM scanObservation _) as [l|] eqn:E; [right|left; by eexists].
  apply mapM_Some in E. inversion E as [|? o' ? l' Ho Hl]; subst. rewrite Hs in Ho. injection Ho as <-.
  mrun. cbn [fill]. rewrite Z.eqb_refl. cbn [length Nat.eqb negb orb].
  destruct (scan_fields _ _ _ Hs) as [Hp _]. destruct (Hv _ _ (proj1 Hf)) as [j Hj]. rewrite Hp, Hj.
  cbn [is_none app]. rewrite (proj2 (Z.ltb_ge _ _)) by done.
  destruct (fill_first DefaultMaxBatchObservations DefaultMaxBatchBytes (AgentConfigRevision o) id o l')
    with (selected := @nil Observation) as [rest ->]; [|by exists rest].
  apply Forall_forall. intros x Hx. apply list_elem_of_lookup in Hx as [i Hx].
  destruct (Forall2_lookup_r _ _ _ _ _ Hl Hx) as ([k r] & Hi & Hk). apply list_elem_of_lookup_2, elem_of_take in Hi
    as (n & Hi & _). destruct (scan_fields _ _ _ Hk) as [-> _]. eapply (Hv k), (Hin (k, r)). right.
  by eapply list_elem_of_lookup_2.
Qed.

(** ** The control plane *)

(** The worlds differ at most in when credentials were last used. *)
Record alike (w w0 : World) : Prop := {
  al_obs : w_obs w = w_obs w0;
  al_auth : w_auth w = w_auth w0;
  al_agents : agents (w_mon w) = agents (w_mon w0);
  al_snapshots : agent_configuration_snapshots (w_mon w) = agent_configuration_snapshots (w_mon w0);
  al_credentials : touch_credential 0 <$> agent_credentials (w_mon w) =
                   touch_credential 0 <$> agent_credentials (w_mon w0);
}.

Lemma alike_refl w : alike w w.
Proof. by split. Qed.

Lemma touch_alter now id (m : gmap uuid AgentCredential) :
  touch_credential 0 <$> alter (touch_credential now) id m = touch_credential 0 <$> m.
Proof.
  apply map_eq. intros i. rewrite !lookup_fmap. destruct (decide (i = id)) as [->|Hne].
  - rewrite lookup_alter_eq. by destruct (m !! id).
  - by rewrite lookup_alter_ne.
Qed.

(** Authentication names the same agent in both. *)
Lemma authenticate_alike now header w w0 w' r : alike w w0 -> authenticate now header w = (w', r) ->
  alike w' w0 /\ forall au, r = Ok au -> exists w1 au0, authenticate now header w0 = (w1, Ok au0) /\
    au_realm au0 = au_realm au /\ au_agent au0 = au_agent au.
Proof.
  intros Hal. unfold authenticate, on_mon, zoom. rewrite <- (al_auth _ _ Hal). unfold authenticate_agent.
  destruct (partition " "%char header) as [[scheme sep] raw]. destruct (partition "."%char raw) as [[ident sep'] secret].
  mrun. destruct (_ || _); [intros [= <- <-]; split; [by destruct Hal|done]|].
  destruct (parse_uuid ident) as [id|]; [|intros [= <- <-]; split; [by destruct Hal|done]].
  pose proof (f_equal (lookup id) (al_credentials _ _ Hal)) as Hc. rewrite !lookup_fmap in Hc.
  unfold credential_with_relations. rewrite (al_agents _ _ Hal).
  destruct (agent_credentials (w_mon w) !! id) as [c|], (agent_credentials (w_mon w0) !! id) as [c0|]; try done;
    [|intros [= <- <-]; split; [by destruct Hal|done]].
  injection Hc as Hid Hre Hag Hna Hh Hex Hrev Hcr. rewrite Hre, Hag.
  destruct (agents (w_mon w0) !! cr_agent_id c0) as [ag|]; [|intros [= <- <-]; split; [by destruct Hal|done]].
  destruct (realms (w_auth w) !! cr_realm_id c0) as [re|]; [|intros [= <- <-]; split; [by destruct Hal|done]].
  mrun. unfold credential_unexpired. rewrite Hh, Hrev, Hex.
  destruct (negb _); [intros [= <- <-]; split; [by destruct Hal|done]|]. mrun. intros [= <- <-]. split.
  - destruct Hal. split; cbn; try done. by rewrite touch_alter.
  - intros au [= <-]. by do 2 eexists.
Qed.

Lemma body_revision revision id batch up :
  read_AgentObservationUpload (upload_body revision id batch) = Some up -> up_agent_config_revision up = revision.
Proof.
  unfold read_AgentObservationUpload, upload_body, required. intros H.
  cbn [obj_get String.eqb Ascii.eqb Bool.eqb] in H. rewrite !to_int_JInt in H. cbn [mbind option_bind] in H.
  repeat (apply bind_Some in H as (? & ? & H)). by apply checked_Some in H as [<- _].
Qed.

(** The credential belongs to the agent, and a snapshot of the revision has been issued to it. *)
Record issued (w : World) (header : string) (realm agent : uuid) (revision : Z) (cfg : list (string * json)) : Prop := {
  is_agent : forall now w' au, authenticate now header w = (w', Ok au) ->
    realm_id (au_realm au) = realm /\ a_id (au_agent au) = agent;
  is_snapshot : exists sn, agent_configuration_snapshots (w_mon w) !! (realm, agent, revision) = Some sn /\
    configured_of (sn_configuration sn) = Ok cfg;
}.

Section Unstorable.
Context (w0 : World) (header : string) (realm agent : uuid) (revision : Z) (cfg : list (string * json)).
Context (x : AgentObservation) (Hissued : issued w0 header realm agent revision cfg).
Context (Hnew : observations (w_obs w0) !! key_of x = None) (Hlacks : lacks_address x = true).

Lemma ingest_blocked w now recv au up rest : alike w w0 -> up_agent_config_revision up = revision ->
  realm_id (au_realm au) = realm -> a_id (au_agent au) = agent -> up_observations up = x :: rest ->
  screen now cfg x = None ->
  exists e, ingest_observations (w_mon w) now recv au up (w_obs w) = (w_obs w, Err e).
Proof.
  intros Hal Hrev Hre Hag Hup Hs. destruct (fits_int8 (up_agent_config_revision up)) eqn:Hfit.
  - destruct (is_snapshot _ _ _ _ _ _ Hissued) as (sn & Hsn & Hcfg).
    refine (result_without_address_fails_upload (w_mon w) now recv au up (w_obs w) sn cfg [] x rest Hfit _ Hcfg Hup
      _ _ Hs Hlacks); [|by intros y Hy%elem_of_nil|].
    + by rewrite (al_snapshots _ _ Hal), Hre, Hag, Hrev.
    + by rewrite (al_obs _ _ Hal).
  - unfold ingest_observations. rewrite Hfit. by eexists.
Qed.

Lemma upload_blocked w now recv up len rest w' r : alike w w0 -> up_agent_config_revision up = revision ->
  up_observations up = x :: rest -> screen now cfg x = None ->
  upload_observations now recv up len header w = (w', r) -> alike w' w0 /\ exists e, r = Err e.
Proof.
  intros Hal Hrev Hup Hs. unfold upload_observations. rewrite bind_run.
  destruct (authenticate now header w) as [w1 r1] eqn:Ha. apply (authenticate_alike _ _ _ _ _ _ Hal) in Ha as [Hal1 Hau].
  destruct r1 as [au|e]; [|intros [= <- <-]; eauto]. destruct (Hau au eq_refl) as (w2 & au0 & Ha0 & Hre & Hag).
  apply (is_agent _ _ _ _ _ _ Hissued) in Ha0 as [Hr0 Ha0]. rewrite Hre in Hr0. rewrite Hag in Ha0.
  rewrite bind_run, raise_if_run. destruct (exceeds_limit len); [intros [= <- <-]; eauto|].
  rewrite bind_run. unfold on_mon at 1, zoom at 1, require_supported_protocol. rewrite raise_if_run.
  assert (set_w_mon (w_mon w1) w1 = w1) as -> by by destruct w1.
  destruct (negb _); [intros [= <- <-]; eauto|]. rewrite bind_run, raise_if_run.
  destruct (negb _); [intros [= <- <-]; eauto|]. mrun. unfold on_obs, zoom.
  destruct (ingest_blocked w1 now recv au up rest Hal1 Hrev Hr0 Ha0 Hup Hs) as [e ->].
  intros [= <- <-]. split; [|eauto]. by destruct w1.
Qed.

Lemma post_blocked w now recv len id o j rest w' r : alike w w0 ->
  raw_value (CanonicalPayload o) = Some j -> read_AgentObservation j = Some x -> screen now cfg x = None ->
  post_observations now recv len header (upload_body revision id (o :: rest)) w = (w', r) ->
  alike w' w0 /\ decode_response (rs_body r) = None.
Proof.
  intros Hal Hj Hread Hs. unfold post_observations, route.
  destruct (read_AgentObservationUpload _) as [up|] eqn:Hup.
  - pose proof (body_revision _ _ _ _ Hup) as Hrev. apply read_body in Hup.
    apply Forall2_cons_inv_l in Hup as (x' & xs & (j' & Hj' & Hx') & _ & Hobs).
    rewrite Hj in Hj'. injection Hj' as <-. rewrite Hread in Hx'. injection Hx' as <-.
    destruct (upload_observations _ _ _ _ _ w) as [w1 r1] eqn:E.
    eapply upload_blocked in E as [Hal1 [e ->]]; [|done|done|done|done]. intros [= <- <-].
    split; [done|apply answer_error_unreadable].
  - unfold agent_only, ignore. rewrite bind_run. destruct (authenticate now header w) as [w1 r1] eqn:Ha.
    apply (authenticate_alike _ _ _ _ _ _ Hal) in Ha as [Hal1 _].
    destruct r1 as [au|e]; intros [= <- <-]; (split; [done|]); [|apply answer_error_unreadable].
    destruct (validation_answer (upload_body revision id (o :: rest))) as [errors Hv]. by rewrite Hv.
Qed.
End Unstorable.

(** ** Attempts *)

(** Everything but the state of the synchronization. *)
Definition same_queue (s s0 : Store) : Prop :=
  pending_observations s = pending_observations s0 /\ rejected_observations s = rejected_observations s0 /\
  identity s = identity s0 /\ credentials s = credentials s0.

Definition unreadable (t : transport) : Prop :=
  match t with NoResponse => True | Response _ _ body => body ≫= decode_response = None end.

Lemma receive_fails now later random failures batch t s (w : World) : unreadable t ->
  exists sync e, receive now later random failures batch t (s, w) = ((set_sync sync s, w), Err e).
Proof.
  intros Ht. unfold receive. destruct t as [|status retry body]; [by do 2 eexists|].
  destruct (_ || _); [by do 2 eexists|]. cbn in Ht. rewrite Ht. by do 2 eexists.
Qed.

Record trial := mkTrial {
  t_fate : fate; t_arrival : arrival; t_now : Z; t_later : Z; t_random : nat -> Q; t_batch : string }.

Definition try_upload (t : trial) (sw : Store * World) : (Store * World) * outcome Z :=
  UploadOnce (network (t_fate t) (t_arrival t)) (t_now t) (t_later t) (t_random t) (t_batch t) sw.
Definition try_all (l : list trial) (sw : Store * World) : Store * World :=
  foldl (fun sw t => (try_upload t sw).1) sw l.

(** The first row of the outbox holds an observation [x] of an issued configuration, which the
    control plane has not stored. *)
Record stuck (s : Store) (w : World) (row : PendingRow) (o : Observation) (cfg : list (string * json))
    (x : AgentObservation) : Prop := {
  st_first : first_row s (row_key o) row;
  st_scan : scanObservation (row_key o, row) = Some o;
  st_valid : valid_payloads s;
  st_payload : exists j, raw_value (CanonicalPayload o) = Some j /\ read_AgentObservation j = Some x;
  st_new : observations (w_obs w) !! key_of x = None;
  st_issued : forall c, last (credentials s) = Some c -> exists realm agent,
    issued w ("Bearer " +:+ CredentialID c +:+ "." +:+ Secret c) realm agent (AgentConfigRevision o) cfg;
}.

(** The row is due, its batch is not too long, and the observation is in the window of the
    control plane. *)
Definition trial_ok (row : PendingRow) (o : Observation) (cfg : list (string * json)) (x : AgentObservation)
    (t : trial) : bool :=
  String.leb (p_next_attempt_at row) (formatTime (t_now t)) &&
  (upload_length (AgentConfigRevision o) (t_batch t) [o] <=? DefaultMaxBatchBytes) &&
  is_none (screen (at_server (t_arrival t)) cfg x).

Section Stuck.
Context (s0 : Store) (w0 : World) (row : PendingRow) (o : Observation) (cfg : list (string * json)).
Context (x : AgentObservation) (Hst : stuck s0 w0 row o cfg x) (Hlacks : lacks_address x = true).

Lemma network_blocked f a c id rest w w' t : last (credentials s0) = Some c -> alike w w0 ->
  is_none (screen (at_server a) cfg x) = true ->
  network f a ("Bearer " +:+ CredentialID c +:+ "." +:+ Secret c)
    (upload_body (AgentConfigRevision o) id (o :: rest)) w = (w', t) ->
  alike w' w0 /\ unreadable t.
Proof.
  intros Hc Hal Hs. destruct (st_issued _ _ _ _ _ _ Hst c Hc) as (realm & agent & Hi).
  destruct (st_payload _ _ _ _ _ _ Hst) as (j & Hj & Hread). unfold network.
  destruct (post_observations _ _ _ _ _ w) as [w1 r] eqn:E.
  eapply post_blocked in E as [Hal1 Hr]; [|exact Hi|by apply Hst|exact Hlacks|done|exact Hj|exact Hread|by destruct (screen _ _ _)].
  by destruct f; intros [= <- <-].
Qed.

Lemma same_first s : same_queue s s0 -> first_row s (row_key o) row /\ valid_payloads s.
Proof.
  intros (Hp & _). split.
  - destruct (st_first _ _ _ _ _ _ Hst) as [H1 H2]. split; [by rewrite Hp|]. rewrite Hp. exact H2.
  - unfold valid_payloads. rewrite Hp. apply (st_valid _ _ _ _ _ _ Hst).
Qed.

Lemma try_blocked t s w s' w' r : trial_ok row o cfg x t = true -> same_queue s s0 -> alike w w0 ->
  try_upload t (s, w) = ((s', w'), r) -> same_queue s' s0 /\ alike w' w0.
Proof.
  intros Hok Hq Hal. unfold trial_ok in Hok. destruct_andb. destruct (same_first s Hq) as [Hf Hv].
  unfold try_upload, UploadOnce. rewrite bind_run, on_store_run. mrun.
  repeat (destruct (parse_optional _); [|by intros [= <- <- _]]). rewrite bind_run, raise_if_run.
  destruct (match o2 with Some t => _ | None => _ end); [by intros [= <- <- _]|].
  rewrite bind_run, on_store_run.
  destruct (build_first s (row_key o) row o (t_now t) (t_batch t) Hf Hv) as [[e ->]|[rest ->]];
    [done|by apply Hst|lia|by intros [= <- <- _]|]. cbn [fst snd b_observations length].
  rewrite bind_run, raise_if_run. cbn [Nat.eqb].
  rewrite bind_run, on_store_run. mrun. destruct (is_none (identity s)); [by intros [= <- <- _]|].
  rewrite on_store_run. mrun. destruct (last (credentials s)) as [c|] eqn:Hc; [|by intros [= <- <- _]].
  rewrite bind_run. unfold send. cbn [fst snd b_revision b_id b_observations].
  destruct (network _ _ _ _ w) as [w1 tr] eqn:Hn. apply network_blocked in Hn as [Hal1 Hun];
    [|by rewrite <- (proj2 (proj2 (proj2 Hq)))|done|done].
  destruct (receive_fails (t_now t) (t_later t) (t_random t) (consecutive_failure_count (synchronization_state s))
    (mkBatch (AgentConfigRevision o) (t_batch t) (o :: rest)) tr s w1 Hun) as (sync & e & ->).
  by intros [= <- <- _].
Qed.

Lemma try_all_blocked l : forallb (trial_ok row o cfg x) l = true -> forall s w, same_queue s s0 -> alike w w0 ->
  same_queue (try_all l (s, w)).1 s0 /\ alike (try_all l (s, w)).2 w0.
Proof.
  induction l as [|t l IH]; intros Hl s w Hq Hal; [done|]. cbn [forallb] in Hl. apply andb_true_iff in Hl as [Ht Hl].
  unfold try_all. cbn [foldl]. destruct (try_upload t (s, w)) as [[s1 w1] r] eqn:E.
  apply (try_blocked t s w s1 w1 r Ht Hq Hal) in E as [Hq1 Hal1]. by apply IH.
Qed.
End Stuck.

(** C4 One refused connection stops the uploads of an agent.  The TCP probe reports a connection
    that timed out, was refused or could not be routed or resolved as a completed check without
    an address.  Once that report is the first row of the outbox, no attempt to upload, however
    many are made and whatever the network does, takes any row out of the outbox or stores
    anything at the control plane: each batch starts with the report, the control plane cannot
    store it and answers with an error, and the agent takes every error for a passing one.
    It lasts until the report is older than the control plane accepts. *)
Theorem refused_connection_blocks_uploads s w row o cfg scheduled id monitor revision started finished port e l :
  ec_failed (classifyError e) = false ->
  let x := EncodeObservation scheduled id monitor revision TCP started finished (tcp_run port (DialFailed e)) in
  stuck s w row o cfg x -> forallb (trial_ok row o cfg x) l = true ->
  pending_observations (try_all l (s, w)).1 = pending_observations s /\
  rejected_observations (try_all l (s, w)).1 = rejected_observations s /\
  w_obs (try_all l (s, w)).2 = w_obs w.
Proof.
  intros He x Hst Hl. pose proof (failed_dial_lacks_address scheduled id monitor revision started finished port e He)
    as Hlacks.
  destruct (try_all_blocked s w row o cfg x Hst Hlacks l Hl s w) as [Hq Hal]; [by split_and!|apply alike_refl|].
  destruct Hq as (Hp & Hr & _). by destruct Hal.
Qed.
End Blocking.

(** ** The worked system: a refused connection, then one that was made *)

#[local] Existing Instance strict_coercions.
#[local] Existing Instance example_platform.
#[local] Existing Instance example_decoder.
#[local] Existing Instance example_fastapi.
#[local] Existing Instance OutboxDemo.example_go_time.

#[local] Instance PendingRow_eq_dec : EqDecision PendingRow.
Proof. solve_decision. Defined.

(** The credential a header names, and the entries of a snapshot. *)
Definition credential_named (header : string) : option uuid :=
  let '(_, _, raw) := partition " "%char header in let '(ident, _, _) := partition "."%char raw in parse_uuid ident.
Definition configured_in (sn : option AgentConfigurationSnapshot) : outcome (list (string * json)) :=
  match sn with Some sn => configured_of (sn_configuration sn) | None => Err KeyError end.
Definition entries_of (o : outcome (list (string * json))) : list (string * json) :=
  match o with Ok l => l | Err _ => [] end.

Lemma issued_intro w header id realm agent revision :
  credential_named header = Some id -> cr_agent_id <$> agent_credentials (w_mon w) !! id = Some agent ->
  cr_realm_id <$> agent_credentials (w_mon w) !! id = Some realm ->
  a_id <$> agents (w_mon w) !! agent = Some agent -> realm_id <$> realms (w_auth w) !! realm = Some realm ->
  let cfg := entries_of (configured_in (agent_configuration_snapshots (w_mon w) !! (realm, agent, revision))) in
  length cfg = 1%nat -> issued w header realm agent revision cfg.
Proof.
  intros Hh Hca Hcr Ha Hr cfg Hl. split.
  - intros now w' au Hau. unfold authenticate, on_mon, zoom in Hau.
    destruct (authenticate_agent _ _ _ _) as [db r] eqn:E. injection Hau as <- ->.
    apply authenticate_inv in E as (scheme & raw & ident & secret & id' & c & H1 & _ & H2 & H3 & Hc & _ & _ & _ & Hag &
      Hre & _). unfold credential_named in Hh. rewrite H1, H2, H3 in Hh. injection Hh as ->.
    rewrite Hc in Hca, Hcr. injection Hca as Hca. injection Hcr as Hcr. rewrite Hca in Hag. rewrite Hcr in Hre.
    rewrite Hag in Ha. rewrite Hre in Hr. injection Ha as Ha. by injection Hr as Hr.
  - subst cfg. destruct (agent_configuration_snapshots (w_mon w) !! _) as [sn|]; [|done]. exists sn. split; [done|].
    unfold configured_in in *. by destruct (configured_of (sn_configuration sn)).
Qed.

Module StuckDemo.
Import OutboxDemo.

Definition ob : Observation :=
  mkObservation (12 * 10 ^ 9) (str_uuid 41) (str_uuid 8) 1 1 "tcp" "down" (22 * 10 ^ 9) 0 (22 * 10 ^ 9) None None.
Definition row : PendingRow := pending_row ob.

Definition checks : bool :=
  bool_decide (pending_observations store2 !! row_key ob = Some row) &&
  forallb (fun x => (bool_decide (x.1 = row_key ob) || negb (key_le x (row_key ob, row))) &&
    negb (is_none (raw_value (p_canonical_payload x.2)))) (map_to_list (pending_observations store2)).
Lemma checks_pass : checks = true.
Proof. by vm_compute. Qed.

Lemma all_rows key r : pending_observations store2 !! key = Some r ->
  (key = row_key ob \/ key_le (key, r) (row_key ob, row) = false) /\ is_Some (raw_value (p_canonical_payload r)).
Proof.
  intros Hr. pose proof checks_pass as Hc. unfold checks in Hc. apply andb_true_iff in Hc as [_ Hc].
  rewrite forallb_forall in Hc. specialize (Hc (key, r)).
  rewrite <- list_elem_of_In, elem_of_map_to_list in Hc. apply Hc, andb_true_iff in Hr as [Hk Hv]. cbn [fst snd] in *.
  split; [|by destruct (raw_value _)]. apply orb_true_iff in Hk as [Hk|Hk]; [left; by apply bool_decide_eq_true in Hk|].
  right. by destruct (key_le _ _).
Qed.

Definition snapshot : option AgentConfigurationSnapshot :=
  agent_configuration_snapshots (w_mon world9) !! (2%N, 5%N, 1).
Definition cfg : list (string * json) := entries_of (configured_in snapshot).
Lemma configured_one : length cfg = 1%nat.
Proof. by vm_compute. Qed.

Lemma the_agent : cr_agent_id <$> agent_credentials (w_mon world9) !! 30%N = Some 5%N /\
  cr_realm_id <$> agent_credentials (w_mon world9) !! 30%N = Some 2%N /\
  a_id <$> agents (w_mon world9) !! 5%N = Some 5%N /\ realm_id <$> realms (w_auth world9) !! 2%N = Some 2%N.
Proof. by vm_compute. Qed.

Lemma header_parts : credential_named header = Some 30%N.
Proof. by vm_compute. Qed.

Lemma is_issued : issued world9 header 2 5 1 cfg.
Proof.
  destruct the_agent as (Ha & Hr & Hai & Hri).
  exact (issued_intro world9 header 30 2 5 1 header_parts Ha Hr Hai Hri configured_one).
Qed.

Lemma the_credential : last (credentials store2) = Some credential.
Proof. by vm_compute. Qed.

Lemma is_stuck : stuck store2 world9 row ob cfg down.
Proof.
  split.
  - split; [|intros key r Hr; by apply all_rows]. pose proof checks_pass as Hc. unfold checks in Hc.
    apply andb_true_iff in Hc as [Hc _]. by apply bool_decide_eq_true in Hc.
  - by vm_compute.
  - intros key r Hr. by apply all_rows in Hr as [_ ?].
  - exists (dump_observation down). split; [done|]. by vm_compute.
  - by vm_compute.
  - intros c Hc. rewrite the_credential in Hc. injection Hc as <-. exists 2%N, 5%N. exact is_issued.
Qed.

Definition trial_at (f : fate) (t : Z) : trial :=
  mkTrial f (mkArrival (t * 10 ^ 6) (t * 10 ^ 6 + 1) (Some "200")) (t * 10 ^ 9) (t * 10 ^ 9) random batch_id.
(** Two days of attempts. *)
Definition trials : list trial := map (fun i => trial_at Delivered (23 + 300 * Z.of_nat i)) (seq 0 576).
Lemma trials_ok : forallb (trial_ok row ob cfg down) trials = true.
Proof. by vm_compute. Qed.
End StuckDemo.

(** Two days later neither row has left the outbox. *)
Lemma refused_connection_blocks_uploads_witness :
  pending_observations (try_all StuckDemo.trials (OutboxDemo.store2, OutboxDemo.world9)).1 =
    pending_observations OutboxDemo.store2 /\
  rejected_observations (try_all StuckDemo.trials (OutboxDemo.store2, OutboxDemo.world9)).1 =
    rejected_observations OutboxDemo.store2 /\
  w_obs (try_all StuckDemo.trials (OutboxDemo.store2, OutboxDemo.world9)).2 = w_obs OutboxDemo.world9.
Proof.
  exact (refused_connection_blocks_uploads OutboxDemo.store2 OutboxDemo.world9 StuckDemo.row StuckDemo.ob StuckDemo.cfg
    (OutboxDemo.at_ 12) 41 8 1 (OutboxDemo.at_ 12) (OutboxDemo.at_ 13) 22 ECONNREFUSED StuckDemo.trials eq_refl
    StuckDemo.is_stuck StuckDemo.trials_ok).
Defined.
