(* ===== verification/OutboxDelivery.v ===== *)
(** * A batch that reaches the control plane leaves the outbox *)

From Stdlib Require Import Ascii QArith.
From S2P Require Import Prelude PyText Json Platform Models ProbeConfig Domain.
From S2P Require Import Credentials Configuration CredentialsProps ObservationSchema Observations ObservationProps.
From S2P Require Import Dashboard Accounts Lifecycle WebAuthn AuthApi Api EndpointProps.
From S2P Require Import SignupProps AuthDemo Requests Responses AgentContract RequestProps WireDemo Http HttpProps.
From S2P Require Import AgentOutbox OutboxDemo OutboxProps.
Local Open Scope Z_scope.

(** ** Texts *)

Lemma append_same_suffix a : forall b x y, String.length x = String.length y -> a +:+ x = b +:+ y -> x = y.
Proof.
  induction a as [|c a IH]; intros b x y Hl H.
  - destruct b as [|d b]; [done|]. apply (f_equal String.length) in H. rewrite !length_append in H. cbn in H. lia.
  - destruct b as [|d b]; [|injection H as _ H; by eapply IH].
    apply (f_equal String.length) in H. rewrite !length_append in H. cbn in H. lia.
Qed.

Lemma length_str_uuid u : String.length (str_uuid u) = 36%nat.
Proof.
  unfold str_uuid. assert (String.length (to_hex 32 u EmptyString) = 32%nat) as H by by rewrite length_to_hex.
  cbv zeta. destruct (to_hex 32 u EmptyString) as [|c h]; [done|].
  do 31 (destruct h as [|? h]; [done|]). by destruct h.
Qed.

Section Delivered.
Context {F : FastApi} {CO : Coercions} {P : Platform} {D : Decoder} {GT : GoTime}.

(** ** What the control plane answers *)

(** A final answer: the observation need not be sent again. *)
Definition final_answer (o : AgentObservation) (r : AgentObservationResult) : Prop :=
  ar_scheduled_at r = ob_scheduled_at o /\ ar_observation_id r = ob_observation_id o /\ ar_retryable r = false /\
  match ar_disposition r with
  | Rejected => exists c, ar_code r = Some c /\ c <> EmptyString
  | _ => ar_code r = None
  end.

Lemma screen_code now cfg o code : screen now cfg o = Some code -> code <> EmptyString.
Proof. unfold screen. repeat case_match; intros [= <-]; discriminate. Qed.

Lemma ingested_final now recv au up cfg o db db' r :
  ingested now recv au up cfg o db db' r -> final_answer o r.
Proof.
  intros [code Hs|row Hs Hw Ho|d Hs Hw Hn Ht]; unfold final_answer; cbn.
  - eauto 7 using screen_code.
  - case_bool_decide; cbn; split_and!; try done. by eexists.
  - done.
Qed.

Lemma loop_final now recv au up cfg l : forall db db' rs,
  ingest_loop now recv au up cfg l db = (db', Ok rs) -> Forall2 final_answer l rs.
Proof.
  induction l as [|o l IH]; intros db db' rs H; simpl in H; minv; [constructor|].
  constructor; [|by eapply IH]. apply ingest_one_inv in H0. by eapply ingested_final.
Qed.

(** ** What the agent reads *)

Definition result_of (r : AgentObservationResult) : UploadResult :=
  mkUploadResult (instant (ar_scheduled_at r) * 1000) (str_uuid (ar_observation_id r))
    (str_Disposition (ar_disposition r)) (default EmptyString (ar_code r)) (ar_retryable r).

Lemma decode_encode_result r : aware_ok (ar_scheduled_at r) = true ->
  decode_result (encode_AgentObservationResult r) = Some (result_of r).
Proof.
  intros Ha. unfold encode_AgentObservationResult, decode_result.
  assert (known_members ["scheduled_at"; "observation_id"; "disposition"; "code"; "retryable"]
    [("scheduled_at", j_datetime (ar_scheduled_at r)); ("observation_id", j_uuid (ar_observation_id r));
     ("disposition", JString (str_Disposition (ar_disposition r))); ("code", json_opt JString (ar_code r));
     ("retryable", JBool (ar_retryable r))] = true) as -> by done.
  unfold go_member. cbn [ensure obj_get String.eqb Ascii.eqb Bool.eqb mbind option_bind go_string j_datetime j_uuid].
  rewrite unmarshal_json by done. cbn [mbind option_bind go_bool]. unfold result_of. by destruct (ar_code r).
Qed.

Lemma read_all_results rs : Forall (fun r => aware_ok (ar_scheduled_at r) = true) rs ->
  read_all decode_result (map encode_AgentObservationResult rs) = Some (map result_of rs).
Proof.
  induction 1 as [|r rs Hr _ IH]; [done|]. cbn [map read_all]. by rewrite decode_encode_result, IH.
Qed.

Lemma decode_encode_response b rs : Forall (fun r => aware_ok (ar_scheduled_at r) = true) rs ->
  decode_response (encode_AgentObservationUploadResponse (b, rs)) =
    Some (mkUploadResponse 1 (str_uuid b) (map result_of rs) None).
Proof.
  intros Hrs. unfold encode_AgentObservationUploadResponse, decode_response. cbn [fst snd].
  assert (known_members ["protocol_version"; "batch_id"; "results"; "retry_after_seconds"]
    [("protocol_version", JInt 1); ("batch_id", j_uuid b); ("results", JArray (map encode_AgentObservationResult rs));
     ("retry_after_seconds", JNull)] = true) as -> by done.
  unfold go_member. cbn [ensure obj_get String.eqb Ascii.eqb Bool.eqb mbind option_bind go_string j_uuid read_items].
  by rewrite read_all_results.
Qed.

(** ** What the agent does with it *)

Definition ack_of (r : AgentObservationResult) : ObservationAcknowledgement :=
  mkAcknowledgement (instant (ar_scheduled_at r) * 1000) (str_uuid (ar_observation_id r))
    (str_Disposition (ar_disposition r)) (default EmptyString (ar_code r)) (ar_retryable r) EmptyString zero_time.

Lemma imap_all {A B} (f : nat -> A -> B) (g : A -> B) l : Forall (fun x => forall i, f i x = g x) l -> imap f l = map g l.
Proof.
  intros H. revert f H. induction l as [|x l IH]; intros f H; [done|]. apply Forall_cons in H as [Hx Hl].
  cbn. rewrite Hx. f_equal. apply IH. eapply Forall_impl; [exact Hl|]. intros y Hy i. apply Hy.
Qed.

Lemma acknowledgements_final now delay random batch rs : Forall (fun r => ar_retryable r = false) rs ->
  acknowledgements_of now delay random batch (map result_of rs) = map ack_of rs.
Proof.
  intros Hr. unfold acknowledgements_of. rewrite (imap_all _ (fun x => mkAcknowledgement (ResScheduledAt x)
    (ResObservationID x) (ResDisposition x) (ResCode x) (ResRetryable x) EmptyString zero_time)).
  - by rewrite map_map.
  - apply Forall_fmap. eapply Forall_impl; [exact Hr|]. intros r Hf i. cbn. by rewrite Hf.
Qed.

(** The row was written for the observation its payload denotes. *)
Definition labelled (o : Observation) (x : AgentObservation) : Prop :=
  ObservationID o = str_uuid (ob_observation_id x) /\ truncate_us (ScheduledAt o) = instant (ob_scheduled_at x) * 1000 /\
  aware_ok (ob_scheduled_at x) = true.

Definition answered (o : Observation) (r : AgentObservationResult) : Prop := exists x, labelled o x /\ final_answer x r.

Lemma answered_matches o r : answered o r -> matches o (ack_of r) = true /\ acknowledgement_ok (ack_of r) = true.
Proof.
  intros (x & (Hid & Hat & _) & Ha & Hi & Hr & Hd). split.
  - unfold matches, ack_of. cbn [AckScheduledAt AckObservationID]. rewrite Ha, Hi, Hid, Hat, String.eqb_refl.
    apply andb_true_iff. split; [|done]. apply Z.eqb_eq. unfold truncate_us. rewrite Z_mod_mult. lia.
  - unfold acknowledgement_ok, ack_of. cbn [Disposition_ Code Retryable Details AckNextAttemptAt].
    rewrite Hr. destruct (ar_disposition r); cbn; [by rewrite Hd..|]. destruct Hd as (c & -> & Hc). cbn.
    by rewrite (proj2 (String.eqb_neq c EmptyString) Hc).
Qed.

Lemma check_answered batch rs : Forall2 answered batch rs -> NoDup (map ObservationID batch) ->
  forall seen, (forall o t, o ∈ batch -> existsb (String.eqb (formatTime t +:+ "/" +:+ ObservationID o)) seen = false) ->
  check_acknowledgements seen batch (map ack_of rs) = true.
Proof.
  induction 1 as [|o r batch rs Ho Hall IH]; intros Hnd seen Hseen; [done|]. cbn [map check_acknowledgements].
  apply NoDup_cons in Hnd as [Hnew Hnd]. destruct (answered_matches o r Ho) as [Hm Hok]. rewrite Hm, Hok.
  assert (AckObservationID (ack_of r) = ObservationID o) as Hid.
  { destruct Ho as (x & (Hid & _) & _ & Hi & _). cbn. by rewrite Hi, Hid. }
  rewrite Hid, Hseen by (by left). cbn [negb andb]. apply IH; [done|]. intros o' t Ho'. cbn [existsb].
  rewrite Hseen by (by right). rewrite orb_false_r. apply String.eqb_neq. intros He.
  assert ("/" +:+ ObservationID o' = "/" +:+ ObservationID o) as Hx.
  { eapply append_same_suffix; [|exact He]. destruct Ho as (x & (Hi & _) & _).
    apply list_elem_of_lookup in Ho' as [i Hi']. destruct (Forall2_lookup_l _ _ _ _ _ Hall Hi') as (r' & _ & x' & (Hi2 & _) & _).
    rewrite Hi, Hi2, !length_append, !length_str_uuid. done. }
  apply append_inj_l in Hx. apply Hnew. rewrite <- Hx. by apply list_elem_of_fmap_2.
Qed.

(** Nothing stands in the way of a rejection, and the row can be written. *)
Definition free (s : Store) (o : Observation) : Prop :=
  rejected_observations s !! row_key o = None /\ CanonicalPayload o <> EmptyString.

Lemma apply_final now o r s : answered o r -> free s o ->
  exists s', apply_one now o (ack_of r) s = (s', Ok tt) /\ pending_observations s' = delete (row_key o) (pending_observations s) /\
    forall key, key <> row_key o -> rejected_observations s' !! key = rejected_observations s !! key.
Proof.
  intros (x & _ & _ & _ & Hr & Hd) [Hn Hp]. unfold apply_one, ack_of. cbn [Disposition_ Retryable Code Details].
  rewrite Hr. destruct (ar_disposition r); cbn; [by eexists..|].
  unfold insert_rejected, delete_pending. mrun. rewrite Hn. cbn [is_none negb].
  cbn [r_payload_size_bytes]. rewrite (proj2 (Z.ltb_ge _ _)) by (destruct (CanonicalPayload o); [done|cbn; lia]).
  eexists. split; [done|]. split; [done|]. intros key Hne. cbn. by rewrite lookup_insert_ne.
Qed.

Lemma apply_all_final now batch rs : Forall2 answered batch rs -> NoDup (map row_key batch) ->
  forall s, Forall (free s) batch ->
  exists s', for_each (zip batch (map ack_of rs)) (fun x => apply_one now x.1 x.2) s = (s', Ok tt) /\
    (forall key, pending_observations s !! key = None -> pending_observations s' !! key = None) /\
    forall o, o ∈ batch -> pending_observations s' !! row_key o = None.
Proof.
  induction 1 as [|o r batch rs Ho _ IH]; intros Hnd s Hf.
  - exists s. split; [done|]. split; [done|]. by intros o Ho%elem_of_nil.
  - apply NoDup_cons in Hnd as [Hnew Hnd]. apply Forall_cons in Hf as [Hfo Hf].
    destruct (apply_final now o r s Ho Hfo) as (s1 & H1 & Hp1 & Hr1).
    destruct (IH Hnd s1) as (s' & H' & Hkeep & Hgone).
    { apply Forall_forall. intros o' Ho'. rewrite Forall_forall in Hf. destruct (Hf o' Ho') as [Hn Hne]. split; [|done].
      rewrite Hr1; [done|]. intros He. apply Hnew. rewrite <- He. by apply list_elem_of_fmap_2. }
    exists s'. cbn [zip zip_with map for_each fst snd]. rewrite bind_run, H1. split; [done|]. split.
    + intros key Hk. apply Hkeep. rewrite Hp1. apply lookup_delete_None. by right.
    + intros o' [->|Ho']%elem_of_cons; [|by apply Hgone]. apply Hkeep. rewrite Hp1. apply lookup_delete_eq.
Qed.

Lemma apply_answers now batch rs s : batch <> [] -> Forall2 answered batch rs -> NoDup (map ObservationID batch) ->
  Forall (free s) batch ->
  exists s', ApplyAcknowledgements batch (map ack_of rs) now s = (s', Ok tt) /\
    forall o, o ∈ batch -> pending_observations s' !! row_key o = None.
Proof.
  intros Hne Hall Hnd Hf. unfold ApplyAcknowledgements. rewrite bind_run, raise_if_run.
  assert (validateAcknowledgements batch (map ack_of rs) = true) as ->.
  { unfold validateAcknowledgements. rewrite check_answered; [|done|done|done].
    rewrite length_map, (Forall2_length _ _ _ Hall), Nat.eqb_refl. destruct rs; [|done]. by inversion Hall; subst. }
  cbn [negb]. destruct (apply_all_final now batch rs Hall) with (s := s) as (s1 & H1 & _ & Hgone); [|done|].
  { apply (NoDup_fmap_1 snd). change (NoDup (map snd (map row_key batch))). by rewrite map_map. }
  unfold in_transaction. rewrite bind_run, H1. eexists. split; [done|]. exact Hgone.
Qed.

(** ** The exchange *)

Lemma body_header revision id batch up : read_AgentObservationUpload (upload_body revision id batch) = Some up ->
  up_protocol_version up = 1 /\ up_result_schema_version up = 1 /\ AgentObservationUpload_ok up = true.
Proof.
  unfold read_AgentObservationUpload, upload_body, required. intros H.
  cbn [obj_get String.eqb Ascii.eqb Bool.eqb] in H. rewrite !to_int_JInt in H. cbn [mbind option_bind] in H.
  repeat (apply bind_Some in H as (? & ? & H)). apply checked_Some in H as [<- Hok]. done.
Qed.

(** The control plane is ready for the upload: the credential is accepted, the configuration
    was issued, and the tables can hold the observations. *)
Record ready_for (w : World) (x : arrival) (header : string) (up : AgentObservationUpload) : Prop := {
  rf_length : exceeds_limit (content_length x) = false;
  rf_tables : obs_ok (w_obs w);
  rf_revision : fits_int8 (up_agent_config_revision up) = true;
  rf_storable : forallb (storable up) (up_observations up) = true;
  rf_issued : exists w1 au sn cfg, authenticate (at_server x) header w = (w1, Ok au) /\
    agent_configuration_snapshots (w_mon w1) !! (realm_id (au_realm au), a_id (au_agent au), up_agent_config_revision up)
      = Some sn /\ configured_of (sn_configuration sn) = Ok cfg;
}.

Lemma upload_answered w x header up : ready_for w x header up -> up_protocol_version up = 1 ->
  up_result_schema_version up = 1 -> AgentObservationUpload_ok up = true ->
  exists w' rs, upload_observations (at_server x) (received_at x) up (content_length x) header w =
    (w', Ok (up_batch_id up, rs)) /\ Forall2 final_answer (up_observations up) rs.
Proof.
  intros [Hlen Hdb Hfit Hst (w1 & au & sn & cfg & Ha & Hsn & Hcfg)] Hv Hs Hok. unfold upload_observations.
  pose proof (authenticate_obs (at_server x) header w) as Ho. rewrite Ha in Ho. cbn [fst] in Ho.
  rewrite bind_run, Ha, bind_run, raise_if_run, Hlen, bind_run.
  unfold on_mon at 1, zoom at 1, require_supported_protocol. rewrite raise_if_run, Hv, Hs.
  assert (set_w_mon (w_mon w1) w1 = w1) as -> by by destruct w1. cbn [MINIMUM_PROTOCOL_VERSION].
  change (negb ((MINIMUM_PROTOCOL_VERSION <=? 1) && (1 <=? MAXIMUM_PROTOCOL_VERSION))) with false. mrun.
  unfold AgentObservationUpload_ok in Hok. destruct_andb.
  destruct (loop_run (at_server x) (received_at x) au up cfg (up_observations up) (w_obs w1)) as (db' & rs & Hl);
    [lia|done|done|by rewrite Ho|].
  assert (ingest_observations (w_mon w1) (at_server x) (received_at x) au up (w_obs w1) = (db', Ok rs)) as Hi.
  { unfold ingest_observations. rewrite Hfit. mrun. rewrite Hsn, Hcfg. unfold in_transaction. by rewrite Hl. }
  unfold on_obs, zoom. rewrite Hi. do 2 eexists. split; [done|]. by eapply loop_final.
Qed.

(** The batch of the agent: it is due, and its rows are labelled as their payloads. *)
Definition may_upload (now : Z) (st : SyncRow) : bool :=
  match parse_optional (last_successful_contact_at st), parse_optional (last_successful_upload_at st),
        parse_optional (server_backoff_until st) with
  | Some _, Some _, Some backoff => negb (match backoff with Some t => now <? t | None => false end)
  | _, _, _ => false
  end.

Record sendable (now : Z) (s : Store) (b : Batch) (up : AgentObservationUpload) : Prop := {
  se_build : BuildBatch now (b_id b) DefaultMaxBatchObservations DefaultMaxBatchBytes s = (s, Ok (Built b));
  se_nonempty : b_observations b <> [];
  se_due : may_upload now (synchronization_state s) = true;
  se_identity : is_none (identity s) = false;
  se_read : read_AgentObservationUpload (upload_body (b_revision b) (b_id b) (b_observations b)) = Some up;
  se_batch : b_id b = str_uuid (up_batch_id up);
  se_labels : Forall2 labelled (b_observations b) (up_observations up);
  se_ids : NoDup (map ObservationID (b_observations b));
  se_free : Forall (free s) (b_observations b);
}.

Lemma sendable_answered now s b up rs : sendable now s b up -> Forall2 final_answer (up_observations up) rs ->
  Forall2 answered (b_observations b) rs /\
  Forall (fun r => aware_ok (ar_scheduled_at r) = true) rs /\ Forall (fun r => ar_retryable r = false) rs.
Proof.
  intros Hse Hfin. assert (Forall2 answered (b_observations b) rs) as Hans.
  { eapply Forall2_chain; [|apply (se_labels _ _ _ _ Hse)|exact Hfin]. intros o y r Hl Hr. by exists y. }
  split; [done|]. apply Forall_and, Forall_forall. intros r [i Hr]%list_elem_of_lookup.
  destruct (Forall2_lookup_r _ _ _ _ _ Hans Hr) as (o & _ & y & (_ & _ & Ha) & He & _ & Hret & _). by rewrite He.
Qed.

(** The run of the upload, up to what is stored. *)
Lemma upload_run now later random x s w b c up w' rs s' : sendable now s b up -> last (credentials s) = Some c ->
  upload_observations (at_server x) (received_at x) up (content_length x)
    ("Bearer " +:+ CredentialID c +:+ "." +:+ Secret c) w = (w', Ok (up_batch_id up, rs)) ->
  Forall (fun r => aware_ok (ar_scheduled_at r) = true) rs -> Forall (fun r => ar_retryable r = false) rs ->
  ApplyAcknowledgements (b_observations b) (map ack_of rs) now s = (s', Ok tt) ->
  UploadOnce (network Delivered x) now later random (b_id b) (s, w) =
    ((s', w'), Ok (Z.of_nat (length (b_observations b)))).
Proof.
  intros Hse Hc Hu Haware Hret Happ. unfold UploadOnce. rewrite bind_run, on_store_run. mrun.
  pose proof (se_due _ _ _ _ Hse) as Hdue. unfold may_upload in Hdue. repeat (destruct (parse_optional _); [|done]).
  rewrite bind_run, raise_if_run.
  rewrite (proj1 (negb_true_iff _) Hdue), bind_run, on_store_run, (se_build _ _ _ _ Hse). cbn [fst snd].
  rewrite bind_run, raise_if_run. destruct (length (b_observations b) =? 0)%nat eqn:Hl.
  { apply Nat.eqb_eq, length_zero_iff_nil in Hl. by destruct (se_nonempty _ _ _ _ Hse). }
  rewrite bind_run, on_store_run. mrun. rewrite (se_identity _ _ _ _ Hse), on_store_run. mrun. rewrite Hc.
  rewrite bind_run. unfold send, network, post_observations, route. cbn [snd fst].
  rewrite (se_read _ _ _ _ Hse), Hu. unfold receive. cbn [rs_status rs_body mbind option_bind].
  change ((200 <? 200) || (300 <=? 200)) with false. cbv iota. rewrite decode_encode_response by done.
  cbn [ResProtocolVersion ResBatchID Results RetryAfterSeconds]. rewrite (se_batch _ _ _ _ Hse), String.eqb_refl.
  cbn [Z.eqb Pos.eqb negb orb]. rewrite acknowledgements_final by done. by rewrite on_store_run, Happ.
Qed.

(** C5 An upload that arrives at a control plane that can store it, and whose answer arrives,
    succeeds: it takes every row of the batch out of the outbox, and for each of them the
    control plane has stored the observation or the agent keeps it as rejected. *)
Theorem answered_upload_leaves_outbox now later random x s w b c up :
  dated s -> sendable now s b up -> last (credentials s) = Some c ->
  ready_for w x ("Bearer " +:+ CredentialID c +:+ "." +:+ Secret c) up ->
  exists s' w', UploadOnce (network Delivered x) now later random (b_id b) (s, w) =
      ((s', w'), Ok (Z.of_nat (length (b_observations b)))) /\
    forall o, o ∈ b_observations b -> pending_observations s' !! row_key o = None /\
      (delivered w' (CanonicalPayload o) \/
       exists row, rejected_observations s' !! row_key o = Some row /\ r_canonical_payload row = CanonicalPayload o).
Proof.
  intros Hdated Hse Hc Hrf. destruct (body_header _ _ _ _ (se_read _ _ _ _ Hse)) as (Hv & Hs & Hok).
  destruct (upload_answered w x _ up Hrf Hv Hs Hok) as (w' & rs & Hu & Hfin).
  destruct (sendable_answered _ _ _ _ _ Hse Hfin) as (Hans & Haware & Hret).
  destruct (apply_answers now (b_observations b) rs s) as (s' & Happ & Hgone); try apply Hse; [done|].
  pose proof (upload_run now later random x s w b c up w' rs s' Hse Hc Hu Haware Hret Happ) as Hrun.
  exists s', w'. split; [done|]. intros o Ho. split; [by apply Hgone|].
  destruct (upload_faithful _ _ _ _ _ _ _ _ _ _ _ Hdated Hrun) as [_ Hf].
  destruct (faithful_kept _ _ _ Hf (row_key o, CanonicalPayload o)) as [(row & Hrow & _)|[Hr|Hd]]; [|..|by left].
  - left. destruct (build_is_queued _ _ _ _ _ _ _ Hdated (se_build _ _ _ _ Hse)) as [_ Hq]. cbn in Hq.
    rewrite Forall_forall in Hq. pose proof (queued_scanned _ _ (Hq o Ho)) as Hsc. destruct (Hq o Ho) as (row & Hrow & _).
    exists row. auto.
  - cbn in Hrow. by rewrite Hgone in Hrow.
  - right. exact Hr.
Qed.

(** [rf_issued], as a computation. *)
Definition issued_now (w : World) (x : arrival) (header : string) (up : AgentObservationUpload) : bool :=
  match authenticate (at_server x) header w with
  | (w1, Ok au) =>
      match agent_configuration_snapshots (w_mon w1) !!
              (realm_id (au_realm au), a_id (au_agent au), up_agent_config_revision up) with
      | Some sn => match configured_of (sn_configuration sn) with Ok _ => true | Err _ => false end
      | None => false
      end
  | _ => false
  end.

Lemma issued_now_spec w x header up : issued_now w x header up = true ->
  exists w1 au sn cfg, authenticate (at_server x) header w = (w1, Ok au) /\
    agent_configuration_snapshots (w_mon w1) !! (realm_id (au_realm au), a_id (au_agent au), up_agent_config_revision up)
      = Some sn /\ configured_of (sn_configuration sn) = Ok cfg.
Proof.
  unfold issued_now. destruct (authenticate _ _ _) as [w1 [au|e]]; [|done].
  destruct (_ !! _) as [sn|] eqn:Hsn; [|done]. destruct (configured_of _) as [cfg|] eqn:Hc; [|done].
  intros _. by exists w1, au, sn, cfg.
Qed.
End Delivered.

(** ** The worked system: a check that succeeded is delivered *)

#[local] Existing Instance strict_coercions.
#[local] Existing Instance example_platform.
#[local] Existing Instance example_decoder.
#[local] Existing Instance example_fastapi.
#[local] Existing Instance OutboxDemo.example_go_time.

Module DeliveryDemo.
Import OutboxDemo.

Definition ob : Observation :=
  mkObservation (20 * 10 ^ 9) (str_uuid 40) (str_uuid 8) 1 1 "tcp" "up" (21 * 10 ^ 9) 0 (21 * 10 ^ 9) None None.
Definition batch : Batch := mkBatch 1 batch_id [ob].
Definition upload : AgentObservationUpload := mkAgentObservationUpload 1 1 1 50 [up].
Definition arrives : arrival := mkArrival 22000000 22000001 (Some "200").

Lemma store_dated : dated store1.
Proof.
  intros key row Hrow. destruct (decide (key = row_key ob_up)) as [->|Hne].
  { exists (ScheduledAt ob_up). split; [by vm_compute|reflexivity]. }
  assert (EnqueueObservation (21 * 10 ^ 9) ob_up DefaultQueueLimits store0 = (store1, Ok tt)) as Hq.
  { unfold store1. apply run_outcome. by vm_compute. }
  apply (enqueue_keeps _ _ _ _ _ world9) in Hq as (_ & _ & Hother). rewrite Hother in Hrow by done. done.
Qed.

Lemma batch_built : (BuildBatch (22 * 10 ^ 9) batch_id DefaultMaxBatchObservations DefaultMaxBatchBytes store1).2 =
  Ok (Built batch).
Proof. by vm_compute. Qed.

Lemma batch_sendable : sendable (22 * 10 ^ 9) store1 batch upload.
Proof.
  split.
  - rewrite <- batch_built. pose proof (build_state (22 * 10 ^ 9) batch_id DefaultMaxBatchObservations
      DefaultMaxBatchBytes store1) as Hs. rewrite <- Hs at 2. by destruct (BuildBatch _ _ _ _ store1).
  - done.
  - by vm_compute.
  - by vm_compute.
  - by vm_compute.
  - done.
  - repeat constructor.
  - repeat constructor. by intros ?%elem_of_nil.
  - repeat constructor. by vm_compute.
Qed.

Lemma credential_used : last (credentials store1) = Some credential.
Proof. by vm_compute. Qed.

Lemma plane_ready : ready_for world9 arrives header upload.
Proof.
  split; try by vm_compute.
  - assert (w_obs world9 = empty_obs) as -> by by vm_compute. apply obs_ok_empty_tables.
  - apply issued_now_spec. by vm_compute.
Qed.
End DeliveryDemo.

Lemma answered_upload_leaves_outbox_witness :
  exists s' w', UploadOnce (network Delivered DeliveryDemo.arrives) (22 * 10 ^ 9) (22 * 10 ^ 9) OutboxDemo.random
      OutboxDemo.batch_id (OutboxDemo.store1, OutboxDemo.world9) = ((s', w'), Ok 1) /\
    pending_observations s' !! row_key DeliveryDemo.ob = None.
Proof.
  destruct (answered_upload_leaves_outbox (22 * 10 ^ 9) (22 * 10 ^ 9) OutboxDemo.random DeliveryDemo.arrives
    OutboxDemo.store1 OutboxDemo.world9 DeliveryDemo.batch OutboxDemo.credential DeliveryDemo.upload
    DeliveryDemo.store_dated DeliveryDemo.batch_sendable DeliveryDemo.credential_used DeliveryDemo.plane_ready)
    as (s' & w' & Hrun & Hgone).
  exists s', w'. split; [exact Hrun|]. apply (Hgone DeliveryDemo.ob). left.
Defined.
