(* ===== verification/Sql.v ===== *)
(** * The SQL of the migrations

    The part of PostgreSQL the migrations use: column types and the values they hold,
    conditions under three-valued logic, and the statements that define tables.  A
    database is a catalogue of table definitions and, for each table, its rows; a
    statement is executed on it or refused, as when a constraint is added that a stored
    row violates. *)

From Stdlib Require Import QArith Ascii.
From S2P Require Import Prelude PyText Json.
Local Open Scope Z_scope.

(** ** Values and types *)

Inductive value :=
| VNull
| VText (s : string)
| VInt (z : Z)
| VFloat (q : Q)
| VBool (b : bool)
| VUuid (u : uuid)
| VInstant (t : Z)
| VJson (j : json)
| VFloats (l : list Q)
| VInet (s : string).

Inductive sql_type :=
| UUID | VARCHAR (n : Z) | TEXT | BOOLEAN | INTEGER | BIGINT | TIMESTAMPTZ | JSONB
| DOUBLE_PRECISION | DOUBLE_PRECISION_ARRAY | INET.

(** Whether a column of the type can hold the value; NULL is for the NOT NULL constraint. *)
Definition holds_value (t : sql_type) (v : value) : bool :=
  match t, v with
  | _, VNull => true
  | UUID, VUuid _ => true
  | VARCHAR n, VText s => Z.of_nat (String.length s) <=? n
  | TEXT, VText _ => true
  | BOOLEAN, VBool _ => true
  | INTEGER, VInt z => (-2147483648 <=? z) && (z <=? 2147483647)
  | BIGINT, VInt z => (- 2 ^ 63 <=? z) && (z <? 2 ^ 63)
  | TIMESTAMPTZ, VInstant _ => true
  | JSONB, VJson _ => true
  | DOUBLE_PRECISION, VFloat _ => true
  | DOUBLE_PRECISION_ARRAY, VFloats _ => true
  | INET, VInet _ => true
  | _, _ => false
  end.

Definition is_null (v : value) : bool := match v with VNull => true | _ => false end.

(** A row gives values to columns; a column it does not name is NULL. *)
Abbreviation row := (list (string * value)).

Fixpoint cell (c : string) (r : row) : value :=
  match r with
  | [] => VNull
  | (c', v) :: r' => if String.eqb c c' then v else cell c r'
  end.

(** ** Conditions *)

Inductive expr :=
| Col (c : string)
| Num (z : Z)
| Str (s : string)
| Cardinality (e : expr)
| JsonbTypeof (e : expr).

Inductive comparison := Lt | Le | Eq | Ne | Ge | Gt.

Inductive cond :=
| IsNull (e : expr)
| Cmp (op : comparison) (e1 e2 : expr)
| Between (e lo hi : expr)
| In (e : expr) (l : list string)
| And (c1 c2 : cond)
| Or (c1 c2 : cond).

Definition json_typeof (j : json) : string :=
  match j with
  | JNull => "null" | JBool _ => "boolean" | JString _ => "string"
  | JArray _ => "array" | JObject _ => "object" | _ => "number"
  end.

Fixpoint eval (e : expr) (r : row) : value :=
  match e with
  | Col c => cell c r
  | Num z => VInt z
  | Str s => VText s
  | Cardinality e => match eval e r with VFloats l => VInt (Z.of_nat (length l)) | _ => VNull end
  | JsonbTypeof e => match eval e r with VJson j => VText (json_typeof j) | _ => VNull end
  end.

(** The order of two values of comparable types. *)
Definition compare_values (v1 v2 : value) : option Datatypes.comparison :=
  match v1, v2 with
  | VInt x, VInt y | VInstant x, VInstant y => Some (x ?= y)
  | VFloat x, VFloat y => Some (x ?= y)%Q
  | VFloat x, VInt y => Some (x ?= inject_Z y)%Q
  | VInt x, VFloat y => Some (inject_Z x ?= y)%Q
  | VUuid x, VUuid y => Some (x ?= y)%N
  | VText x, VText y => Some (String.compare x y)
  | _, _ => None
  end.

Definition holds_order (op : comparison) (c : Datatypes.comparison) : bool :=
  match op, c with
  | Lt, Datatypes.Lt | Le, Datatypes.Lt | Ne, Datatypes.Lt => true
  | Le, Datatypes.Eq | Eq, Datatypes.Eq | Ge, Datatypes.Eq => true
  | Gt, Datatypes.Gt | Ge, Datatypes.Gt | Ne, Datatypes.Gt => true
  | _, _ => false
  end.

(** [None] is UNKNOWN. *)
Definition and3 (x y : option bool) : option bool :=
  match x, y with
  | Some false, _ | _, Some false => Some false
  | Some true, Some true => Some true
  | _, _ => None
  end.
Definition or3 (x y : option bool) : option bool :=
  match x, y with
  | Some true, _ | _, Some true => Some true
  | Some false, Some false => Some false
  | _, _ => None
  end.

Definition compare3 (op : comparison) (v1 v2 : value) : option bool :=
  holds_order op <$> compare_values v1 v2.

Fixpoint truth (c : cond) (r : row) : option bool :=
  match c with
  | IsNull e => Some (is_null (eval e r))
  | Cmp op e1 e2 => compare3 op (eval e1 r) (eval e2 r)
  | Between e lo hi =>
      and3 (compare3 Ge (eval e r) (eval lo r)) (compare3 Le (eval e r) (eval hi r))
  | In e l => match eval e r with VText s => Some (existsb (String.eqb s) l) | _ => None end
  | And c1 c2 => and3 (truth c1 r) (truth c2 r)
  | Or c1 c2 => or3 (truth c1 r) (truth c2 r)
  end.

(** A CHECK fails only when its condition is false. *)
Definition check_holds (c : cond) (r : row) : bool :=
  match truth c r with Some false => false | _ => true end.

(** ** Tables *)

Inductive OnDelete := CASCADE | RESTRICT | SET_NULL.

Record Column := mkColumn {
  col_name : string;
  col_type : sql_type;
  col_not_null : bool;
  (** REFERENCES table (column) ON DELETE .. *)
  col_references : option (string * string * OnDelete);
}.

(** A uniqueness constraint or unique index: its columns, and whether NULLs are equal. *)
Record Unique := mkUnique { uq_columns : list string; uq_nulls_equal : bool }.

(** Plain indexes are left out: they do not constrain rows. *)
Record Table := mkTable {
  tb_columns : list Column;
  tb_uniques : list (string * Unique);
  tb_checks : list (string * cond);
  (** the dimension [create_hypertable] partitions by *)
  tb_partition : option string;
}.

Record Db := mkDb { db_tables : gmap string Table; db_rows : string -> list row }.

Definition empty_Db : Db := mkDb ∅ (fun _ => []).

#[export] Instance value_eq_dec : EqDecision value.
Proof. solve_decision. Defined.

(** ** What a row has to satisfy *)

Definition column_ok (r : row) (c : Column) : bool :=
  holds_value (col_type c) (cell (col_name c) r) &&
  (negb (col_not_null c) || negb (is_null (cell (col_name c) r))).

Definition row_ok (t : Table) (r : row) : bool :=
  forallb (column_ok r) (tb_columns t) && forallb (fun nc => check_holds nc.2 r) (tb_checks t).

(** Two rows clash on a uniqueness constraint when they agree on its columns. *)
Definition clash (u : Unique) (r1 r2 : row) : bool :=
  forallb (fun c => bool_decide (cell c r1 = cell c r2) &&
                    (uq_nulls_equal u || negb (is_null (cell c r1)))) (uq_columns u).

(** ** Statements *)

Inductive alter_action :=
| AddColumn (c : Column)
(** a column added with the value the stored rows get *)
| AddColumnDefault (c : Column) (v : value)
| DropColumn (c : string)
| RenameColumn (old new : string)
| SetColumn (c : Column)
| AddCheck (name : string) (c : cond)
| DropConstraint (name : string).

Inductive stmt :=
| CreateExtension (name : string)
| CreateTable (name : string) (columns : list Column) (uniques : list (string * Unique))
    (checks : list (string * cond))
| CreateHypertable (table dimension : string)
| CreateIndex (name table : string) (columns : list string)
| CreateUniqueIndex (name table : string) (u : Unique)
| AlterTable (table : string) (actions : list alter_action)
| DropIndex (name : string)
| DropTable (name : string)
(** [UPDATE table SET column = v WHERE column IS NULL] *)
| UpdateNulls (table column : string) (v : value).

Definition has_column (c : string) (t : Table) : bool :=
  existsb (fun x => String.eqb c (col_name x)) (tb_columns t).

Definition set_columns (l : list Column) (t : Table) : Table :=
  mkTable l (tb_uniques t) (tb_checks t) (tb_partition t).
Definition set_checks (l : list (string * cond)) (t : Table) : Table :=
  mkTable (tb_columns t) (tb_uniques t) l (tb_partition t).
Definition set_uniques (l : list (string * Unique)) (t : Table) : Table :=
  mkTable (tb_columns t) l (tb_checks t) (tb_partition t).

Definition without {A} (name : string) (l : list (string * A)) : list (string * A) :=
  List.filter (fun x => negb (String.eqb name x.1)) l.
Definition named {A} (name : string) (l : list (string * A)) : bool :=
  existsb (fun x => String.eqb name x.1) l.

Definition set_cell (c : string) (v : value) (r : row) : row :=
  (c, v) :: List.filter (fun p => negb (String.eqb c p.1)) r.

(** The definition and the rows after one action, or the refusal. *)
Definition alter (a : alter_action) (tr : Table * list row) : option (Table * list row) :=
  let (t, rows) := tr in
  match a with
  | AddColumn c =>
      if has_column (col_name c) t || (col_not_null c && negb (bool_decide (rows = []))) then None
      else Some (set_columns (tb_columns t ++ [c]) t, map (set_cell (col_name c) VNull) rows)
  | AddColumnDefault c v =>
      if has_column (col_name c) t then None
      else Some (set_columns (tb_columns t ++ [c]) t, map (set_cell (col_name c) v) rows)
  | DropColumn c =>
      if has_column c t
      then Some (set_columns (List.filter (fun x => negb (String.eqb c (col_name x))) (tb_columns t)) t,
                 map (List.filter (fun p => negb (String.eqb c p.1))) rows)
      else None
  | RenameColumn old new =>
      if has_column old t && negb (has_column new t)
      then Some (set_columns (map (fun x => if String.eqb old (col_name x)
                   then mkColumn new (col_type x) (col_not_null x) (col_references x) else x)
                   (tb_columns t)) t,
                 map (map (fun p => if String.eqb old p.1 then (new, p.2) else p)) rows)
      else None
  | SetColumn c =>
      if has_column (col_name c) t && forallb (fun r => column_ok r c) rows
      then Some (set_columns (map (fun x => if String.eqb (col_name c) (col_name x) then c else x)
                   (tb_columns t)) t, rows)
      else None
  | AddCheck name c =>
      if named name (tb_checks t) || negb (forallb (check_holds c) rows) then None
      else Some (set_checks (tb_checks t ++ [(name, c)]) t, rows)
  | DropConstraint name =>
      if named name (tb_checks t) then Some (set_checks (without name (tb_checks t)) t, rows)
      else if named name (tb_uniques t) then Some (set_uniques (without name (tb_uniques t)) t, rows)
      else None
  end.

Fixpoint alter_all (l : list alter_action) (tr : Table * list row) : option (Table * list row) :=
  match l with
  | [] => Some tr
  | a :: l' => match alter a tr with Some tr' => alter_all l' tr' | None => None end
  end.

Definition put (name : string) (t : Table) (rows : list row) (db : Db) : Db :=
  mkDb (<[name := t]> (db_tables db))
       (fun n => if String.eqb n name then rows else db_rows db n).

(** Some two rows clash. *)
Fixpoint clashing (u : Unique) (l : list row) : bool :=
  match l with
  | [] => false
  | r :: l' => existsb (clash u r) l' || clashing u l'
  end.

Definition on_table (name : string) (db : Db) (f : Table -> option Table) : option Db :=
  match db_tables db !! name with
  | Some t => match f t with Some t' => Some (put name t' (db_rows db name) db) | None => None end
  | None => None
  end.

(** The table that has a unique index of this name. *)
Definition index_table (name : string) (db : Db) : option (string * Table) :=
  List.find (fun nt => named name (tb_uniques nt.2)) (map_to_list (db_tables db)).

Definition exec (s : stmt) (db : Db) : option Db :=
  match s with
  | CreateExtension _ => Some db
  | CreateTable name columns uniques checks =>
      match db_tables db !! name with
      | Some _ => None
      | None => Some (put name (mkTable columns uniques checks None) [] db)
      end
  | CreateHypertable name dimension =>
      on_table name db (fun t => if has_column dimension t
        then Some (mkTable (tb_columns t) (tb_uniques t) (tb_checks t) (Some dimension))
        else None)
  | CreateIndex name table columns =>
      match db_tables db !! table with
      | Some t => if forallb (fun c => has_column c t) columns then Some db else None
      | None => None
      end
  | CreateUniqueIndex name table u =>
      on_table table db (fun t => if forallb (fun c => has_column c t) (uq_columns u) &&
                                     negb (clashing u (db_rows db table))
        then Some (set_uniques (tb_uniques t ++ [(name, u)]) t) else None)
  | AlterTable table actions =>
      match db_tables db !! table with
      | Some t =>
          match alter_all actions (t, db_rows db table) with
          | Some (t', rows) => Some (put table t' rows db)
          | None => None
          end
      | None => None
      end
  | DropIndex name =>
      match index_table name db with
      | Some (table, t) => Some (put table (set_uniques (without name (tb_uniques t)) t)
                                   (db_rows db table) db)
      | None => None
      end
  | DropTable name =>
      match db_tables db !! name with
      | Some _ => Some (mkDb (delete name (db_tables db))
                          (fun n => if String.eqb n name then [] else db_rows db n))
      | None => None
      end
  | UpdateNulls table column v =>
      match db_tables db !! table with
      | Some t =>
          if has_column column t
          then Some (mkDb (db_tables db) (fun n => if String.eqb n table
                 then map (fun r => if is_null (cell column r) then set_cell column v r else r)
                        (db_rows db n)
                 else db_rows db n))
          else None
      | None => None
      end
  end.

Fixpoint exec_all (l : list stmt) (db : Db) : option Db :=
  match l with
  | [] => Some db
  | s :: l' => match exec s db with Some db' => exec_all l' db' | None => None end
  end.
