(* ===== verification/Migrations.v ===== *)
(** * Schema migrations (migrations/0001 to 0012)

    The operations of the migration files as data: the keyword arguments of a field are a
    list, as written, and the SQL of [RunSQL] is a list of statements of [Sql].  The
    [description] of an enumerated field (a comment on the column), [DEFAULT
    CURRENT_TIMESTAMP] and the sort order of plain indexes are left out.

    How the ORM turns an operation into statements is the work of Tortoise: it is the class
    [Tortoise], with its documented behaviour as laws. *)

From Stdlib Require Import Ascii.
From S2P Require Import Prelude PyText Json Models Sql.
Local Open Scope Z_scope.

(** ** Fields and operations *)

Inductive py_default := Uuid4 | Dict | List | DefBool (b : bool) | DefInt (z : Z) | DefText (s : string).

Inductive kwarg :=
| primary_key (b : bool) | default_ (d : py_default) | unique (b : bool) | db_index (b : bool)
| null (b : bool) | auto_now (b : bool) | auto_now_add (b : bool) | max_length (n : Z)
| source_field (s : string) | db_constraint (b : bool) | to_field (s : string)
(** [related_name=False] is [None] *)
| related_name (s : option string) | on_delete (d : OnDelete)
| encoder (item_separator key_separator : string) | decoder_loads
| enum_type (values : list string).

Inductive Field :=
| UUIDField (l : list kwarg) | CharField (l : list kwarg) | TextField (l : list kwarg)
| BooleanField (l : list kwarg) | IntField (l : list kwarg) | BigIntField (l : list kwarg)
| DatetimeField (l : list kwarg) | JSONField (l : list kwarg) | CharEnumField (l : list kwarg)
| ForeignKeyField (model : string) (l : list kwarg) | OneToOneField (model : string) (l : list kwarg).

Definition ProbeType_values : list string := map str_ProbeType [ICMP; HTTP; TCP; DNS; TLS].

Record Options := mkOptions {
  opt_table : string; opt_app : string; opt_unique_together : list (list string);
  opt_pk_attr : string }.

Inductive operation :=
| CreateModel (name : string) (fields : list (string * Field)) (options : Options)
    (bases : list string)
| AddField (model_name name : string) (field : Field)
| AlterField (model_name name : string) (field : Field)
| RenameField (model_name old_name new_name : string)
| RunSQL (sql : list stmt) (reverse_sql : option (list stmt)).

Record Migration := mkMigration {
  mg_name : string;
  mg_dependencies : list (string * string);
  mg_initial : bool;
  mg_operations : list operation;
}.

(** A column of a CREATE TABLE statement. *)
Definition required (name : string) (t : sql_type) : Column := mkColumn name t true None.
Definition optional (name : string) (t : sql_type) : Column := mkColumn name t false None.

(** ** migrations/0001_initial.py *)

Definition create_Realm : operation :=
  CreateModel "Realm"
    [("created_at", DatetimeField [auto_now false; auto_now_add true]);
     ("updated_at", DatetimeField [auto_now true; auto_now_add false]);
     ("id", UUIDField [primary_key true; default_ Uuid4; unique true; db_index true]);
     ("name", CharField [max_length 200]);
     ("slug", CharField [unique true; db_index true; max_length 120]);
     ("is_active", BooleanField [default_ (DefBool true)])]
    (mkOptions "realm" "models" [] "id") ["TimestampedModel"].

Definition create_User : operation :=
  CreateModel "User"
    [("created_at", DatetimeField [auto_now false; auto_now_add true]);
     ("updated_at", DatetimeField [auto_now true; auto_now_add false]);
     ("id", UUIDField [primary_key true; default_ Uuid4; unique true; db_index true]);
     ("email", CharField [unique true; db_index true; max_length 320]);
     ("password_hash", CharField [max_length 255]);
     ("first_name", CharField [max_length 150]);
     ("last_name", CharField [max_length 150]);
     ("is_active", BooleanField [default_ (DefBool true)]);
     ("is_staff", BooleanField [default_ (DefBool false)]);
     ("email_verified", BooleanField [default_ (DefBool false)])]
    (mkOptions "user" "models" [] "id") ["TimestampedModel"].

Definition create_AuthenticationChallenge : operation :=
  CreateModel "AuthenticationChallenge"
    [("created_at", DatetimeField [auto_now false; auto_now_add true]);
     ("updated_at", DatetimeField [auto_now true; auto_now_add false]);
     ("id", UUIDField [primary_key true; default_ Uuid4; unique true; db_index true]);
     ("user", ForeignKeyField "models.User" [source_field "user_id"; null true;
        db_constraint true; to_field "id"; related_name (Some "authentication_challenges");
           on_delete CASCADE]);
     ("challenge_type", CharField [db_index true; max_length 32]);
     ("challenge_hash", CharField [unique true; db_index true; max_length 64]);
     ("expires_at", DatetimeField [db_index true; auto_now false; auto_now_add false]);
     ("consumed_at", DatetimeField [null true; auto_now false; auto_now_add false]);
     ("metadata", JSONField [default_ Dict; encoder "," ":"; decoder_loads])]
    (mkOptions "authenticationchallenge" "models" [] "id") ["TimestampedModel"].

Definition create_RealmMembership : operation :=
  CreateModel "RealmMembership"
    [("created_at", DatetimeField [auto_now false; auto_now_add true]);
     ("updated_at", DatetimeField [auto_now true; auto_now_add false]);
     ("id", UUIDField [primary_key true; default_ Uuid4; unique true; db_index true]);
     ("user", ForeignKeyField "models.User" [source_field "user_id"; db_constraint true;
        to_field "id"; related_name (Some "memberships"); on_delete CASCADE]);
     ("realm", ForeignKeyField "models.Realm" [source_field "realm_id"; db_constraint true;
        to_field "id"; related_name (Some "memberships"); on_delete CASCADE]);
     ("role", CharField [default_ (DefText "owner"); max_length 32])]
    (mkOptions "realmmembership" "models" [["user"; "realm"]] "id") ["TimestampedModel"].

Definition create_RecoveryCode : operation :=
  CreateModel "RecoveryCode"
    [("created_at", DatetimeField [auto_now false; auto_now_add true]);
     ("updated_at", DatetimeField [auto_now true; auto_now_add false]);
     ("id", UUIDField [primary_key true; default_ Uuid4; unique true; db_index true]);
     ("user", ForeignKeyField "models.User" [source_field "user_id"; db_constraint true;
        to_field "id"; related_name (Some "recovery_codes"); on_delete CASCADE]);
     ("code_hash", CharField [db_index true; max_length 64]);
     ("used_at", DatetimeField [null true; auto_now false; auto_now_add false])]
    (mkOptions "recoverycode" "models" [] "id") ["TimestampedModel"].

Definition create_TwoFactorMethod : operation :=
  CreateModel "TwoFactorMethod"
    [("created_at", DatetimeField [auto_now false; auto_now_add true]);
     ("updated_at", DatetimeField [auto_now true; auto_now_add false]);
     ("id", UUIDField [primary_key true; default_ Uuid4; unique true; db_index true]);
     ("user", ForeignKeyField "models.User" [source_field "user_id"; db_constraint true;
        to_field "id"; related_name (Some "two_factor_methods"); on_delete CASCADE]);
     ("method_type", CharField [default_ (DefText "totp"); max_length 32]);
     ("secret_encrypted", TextField [unique false]);
     ("name", CharField [default_ (DefText "Authenticator app"); max_length 120]);
     ("is_enabled", BooleanField [default_ (DefBool false)]);
     ("verified_at", DatetimeField [null true; auto_now false; auto_now_add false]);
     ("last_used_at", DatetimeField [null true; auto_now false; auto_now_add false])]
    (mkOptions "twofactormethod" "models" [["user"; "method_type"]] "id") ["TimestampedModel"].

Definition create_WebAuthnCredential : operation :=
  CreateModel "WebAuthnCredential"
    [("created_at", DatetimeField [auto_now false; auto_now_add true]);
     ("updated_at", DatetimeField [auto_now true; auto_now_add false]);
     ("id", UUIDField [primary_key true; default_ Uuid4; unique true; db_index true]);
     ("user", ForeignKeyField "models.User" [source_field "user_id"; db_constraint true;
        to_field "id"; related_name (Some "webauthn_credentials"); on_delete CASCADE]);
     ("credential_id", CharField [unique true; max_length 1024]);
     ("public_key", TextField [unique false]);
     ("sign_count", BigIntField [default_ (DefInt 0)]);
     ("name", CharField [default_ (DefText "Passkey"); max_length 120]);
     ("device_type", CharField [default_ (DefText EmptyString); max_length 64]);
     ("backed_up", BooleanField [default_ (DefBool false)]);
     ("transports", JSONField [default_ List; encoder "," ":"; decoder_loads]);
     ("last_used_at", DatetimeField [null true; auto_now false; auto_now_add false])]
    (mkOptions "webauthncredential" "models" [] "id") ["TimestampedModel"].

Definition migration_0001 : Migration :=
  mkMigration "0001_initial" [] true
    [create_Realm; create_User; create_AuthenticationChallenge; create_RealmMembership;
       create_RecoveryCode; create_TwoFactorMethod; create_WebAuthnCredential].

(** ** migrations/0002_rename_is_staff_to_is_superuser.py *)

Definition rename_is_staff : operation :=
  RenameField "User" "is_staff" "is_superuser".

Definition migration_0002 : Migration :=
  mkMigration "0002_rename_is_staff_to_is_superuser" [("models", "0001_initial")] false
    [rename_is_staff].

(** ** migrations/0003_add_session_version.py *)

Definition add_session_version : operation :=
  AddField "User" "session_version"
    (IntField [null true]).

Definition run_sql_0003 : operation :=
  RunSQL
    [UpdateNulls "user" "session_version" (VInt 1)]
    None.

Definition alter_session_version : operation :=
  AlterField "User" "session_version"
    (IntField [default_ (DefInt 1)]).

Definition migration_0003 : Migration :=
  mkMigration "0003_add_session_version" [("models", "0002_rename_is_staff_to_is_superuser")] false
    [add_session_version; run_sql_0003; alter_session_version].

(** ** migrations/0004_add_audit_events.py *)

Definition create_AuditEvent : operation :=
  CreateModel "AuditEvent"
    [("id", UUIDField [primary_key true; default_ Uuid4; unique true; db_index true]);
     ("occurred_at", DatetimeField [db_index true; auto_now false; auto_now_add true]);
     ("realm", ForeignKeyField "models.Realm" [source_field "realm_id"; null true;
        db_constraint true; to_field "id"; related_name (Some "audit_events"); on_delete SET_NULL]);
     ("actor_user", ForeignKeyField "models.User" [source_field "actor_user_id"; null true;
        db_constraint true; to_field "id"; related_name (Some "audit_events"); on_delete SET_NULL]);
     ("actor_type", CharField [max_length 32]);
     ("action", CharField [db_index true; max_length 120]);
     ("outcome", CharField [db_index true; max_length 32]);
     ("target_type", CharField [null true; max_length 80]);
     ("target_id", CharField [null true; max_length 255]);
     ("source_ip", CharField [null true; max_length 64]);
     ("user_agent", CharField [default_ (DefText EmptyString); max_length 512]);
     ("superuser_bypass", BooleanField [default_ (DefBool false)]);
     ("metadata", JSONField [default_ Dict; encoder "," ":"; decoder_loads])]
    (mkOptions "auditevent" "models" [] "id") ["Model"].

Definition migration_0004 : Migration :=
  mkMigration "0004_add_audit_events" [("models", "0003_add_session_version")] false
    [create_AuditEvent].

(** ** migrations/0005_enable_timescaledb.py *)

Definition run_sql_0005 : operation :=
  RunSQL
    [CreateExtension "timescaledb"]
    None.

Definition migration_0005 : Migration :=
  mkMigration "0005_enable_timescaledb" [("models", "0004_add_audit_events")] false
    [run_sql_0005].

(** ** migrations/0006_add_monitoring_domain.py *)

Definition create_Agent : operation :=
  CreateModel "Agent"
    [("id", UUIDField [primary_key true; default_ Uuid4; unique true; db_index true]);
     ("realm", ForeignKeyField "models.Realm" [source_field "realm_id"; db_constraint true;
        to_field "id"; related_name None; on_delete RESTRICT]);
     ("created_at", DatetimeField [auto_now false; auto_now_add true]);
     ("updated_at", DatetimeField [auto_now true; auto_now_add false]);
     ("name", CharField [max_length 200]);
     ("description", TextField [null true; unique false]);
     ("enabled", BooleanField [default_ (DefBool true)]);
     ("archived_at", DatetimeField [null true; db_index true; auto_now false; auto_now_add false])]
    (mkOptions "agent" "models" [["realm"; "name"]] "id") ["RealmOwnedModel"].

Definition create_AgentConfigurationSnapshot : operation :=
  CreateModel "AgentConfigurationSnapshot"
    [("id", UUIDField [primary_key true; default_ Uuid4; unique true; db_index true]);
     ("realm", ForeignKeyField "models.Realm" [source_field "realm_id"; db_constraint true;
        to_field "id"; related_name None; on_delete RESTRICT]);
     ("agent", ForeignKeyField "models.Agent" [source_field "agent_id"; db_constraint true;
        to_field "id"; related_name (Some "configuration_snapshots"); on_delete RESTRICT]);
     ("revision", BigIntField []);
     ("content_hash", CharField [max_length 64]);
     ("configuration", JSONField [encoder "," ":"; decoder_loads]);
     ("created_at", DatetimeField [auto_now false; auto_now_add true])]
    (mkOptions "agentconfigurationsnapshot" "models" [["realm"; "agent";
       "revision"]] "id") ["Model"].

Definition create_AgentConfigurationState : operation :=
  CreateModel "AgentConfigurationState"
    [("id", UUIDField [primary_key true; default_ Uuid4; unique true; db_index true]);
     ("realm", ForeignKeyField "models.Realm" [source_field "realm_id"; db_constraint true;
        to_field "id"; related_name None; on_delete RESTRICT]);
     ("created_at", DatetimeField [auto_now false; auto_now_add true]);
     ("updated_at", DatetimeField [auto_now true; auto_now_add false]);
     ("agent", OneToOneField "models.Agent" [source_field "agent_id"; db_constraint true;
        to_field "id"; related_name (Some "configuration_state"); on_delete CASCADE]);
     ("desired_revision", BigIntField [default_ (DefInt 0)]);
     ("desired_content_hash", CharField [default_ (DefText EmptyString); max_length 64]);
     ("acknowledged_revision", BigIntField [default_ (DefInt 0)]);
     ("acknowledged_at", DatetimeField [null true; auto_now false; auto_now_add false])]
    (mkOptions "agentconfigurationstate" "models" [] "id") ["RealmOwnedModel"].

Definition create_AgentCredential : operation :=
  CreateModel "AgentCredential"
    [("id", UUIDField [primary_key true; default_ Uuid4; unique true; db_index true]);
     ("realm", ForeignKeyField "models.Realm" [source_field "realm_id"; db_constraint true;
        to_field "id"; related_name None; on_delete RESTRICT]);
     ("created_at", DatetimeField [auto_now false; auto_now_add true]);
     ("updated_at", DatetimeField [auto_now true; auto_now_add false]);
     ("agent", ForeignKeyField "models.Agent" [source_field "agent_id"; db_constraint true;
        to_field "id"; related_name (Some "credentials"); on_delete CASCADE]);
     ("name", CharField [max_length 120]);
     ("credential_hash", CharField [max_length 128]);
     ("last_used_at", DatetimeField [null true; auto_now false; auto_now_add false]);
     ("expires_at", DatetimeField [null true; auto_now false; auto_now_add false]);
     ("revoked_at", DatetimeField [null true; db_index true; auto_now false; auto_now_add false])]
    (mkOptions "agentcredential" "models" [["realm"; "agent"; "name"]] "id") ["RealmOwnedModel"].

Definition create_AgentGroup : operation :=
  CreateModel "AgentGroup"
    [("id", UUIDField [primary_key true; default_ Uuid4; unique true; db_index true]);
     ("realm", ForeignKeyField "models.Realm" [source_field "realm_id"; db_constraint true;
        to_field "id"; related_name None; on_delete RESTRICT]);
     ("created_at", DatetimeField [auto_now false; auto_now_add true]);
     ("updated_at", DatetimeField [auto_now true; auto_now_add false]);
     ("parent", ForeignKeyField "models.AgentGroup" [source_field "parent_id"; null true;
        db_constraint true; to_field "id"; related_name (Some "children"); on_delete RESTRICT]);
     ("name", CharField [max_length 200]);
     ("description", TextField [null true; unique false]);
     ("enabled", BooleanField [default_ (DefBool true)]);
     ("archived_at", DatetimeField [null true; db_index true; auto_now false; auto_now_add false])]
    (mkOptions "agentgroup" "models" [] "id") ["RealmOwnedModel"].

Definition create_AgentGroupMembership : operation :=
  CreateModel "AgentGroupMembership"
    [("id", UUIDField [primary_key true; default_ Uuid4; unique true; db_index true]);
     ("realm", ForeignKeyField "models.Realm" [source_field "realm_id"; db_constraint true;
        to_field "id"; related_name None; on_delete RESTRICT]);
     ("agent_group", ForeignKeyField "models.AgentGroup" [source_field "agent_group_id";
        db_constraint true; to_field "id"; related_name (Some "memberships"); on_delete CASCADE]);
     ("agent", ForeignKeyField "models.Agent" [source_field "agent_id"; db_constraint true;
        to_field "id"; related_name (Some "group_memberships"); on_delete CASCADE]);
     ("created_at", DatetimeField [auto_now false; auto_now_add true])]
    (mkOptions "agentgroupmembership" "models" [["realm"; "agent_group"; "agent"]] "id") ["Model"].

Definition create_Target : operation :=
  CreateModel "Target"
    [("id", UUIDField [primary_key true; default_ Uuid4; unique true; db_index true]);
     ("realm", ForeignKeyField "models.Realm" [source_field "realm_id"; db_constraint true;
        to_field "id"; related_name None; on_delete RESTRICT]);
     ("created_at", DatetimeField [auto_now false; auto_now_add true]);
     ("updated_at", DatetimeField [auto_now true; auto_now_add false]);
     ("name", CharField [max_length 200]);
     ("description", TextField [null true; unique false]);
     ("address", CharField [max_length 253]);
     ("enabled", BooleanField [default_ (DefBool true)]);
     ("archived_at", DatetimeField [null true; db_index true; auto_now false; auto_now_add false])]
    (mkOptions "target" "models" [["realm"; "name"]] "id") ["RealmOwnedModel"].

Definition create_Monitor : operation :=
  CreateModel "Monitor"
    [("id", UUIDField [primary_key true; default_ Uuid4; unique true; db_index true]);
     ("realm", ForeignKeyField "models.Realm" [source_field "realm_id"; db_constraint true;
        to_field "id"; related_name None; on_delete RESTRICT]);
     ("created_at", DatetimeField [auto_now false; auto_now_add true]);
     ("updated_at", DatetimeField [auto_now true; auto_now_add false]);
     ("target", ForeignKeyField "models.Target" [source_field "target_id"; db_constraint true;
        to_field "id"; related_name (Some "monitors"); on_delete RESTRICT]);
     ("name", CharField [max_length 200]);
     ("description", TextField [null true; unique false]);
     ("probe_type", CharEnumField [enum_type ProbeType_values; max_length 16]);
     ("interval_seconds", IntField []);
     ("timeout_seconds", IntField []);
     ("configuration", JSONField [default_ Dict; encoder "," ":"; decoder_loads]);
     ("enabled", BooleanField [default_ (DefBool true)]);
     ("revision", IntField [default_ (DefInt 1)]);
     ("archived_at", DatetimeField [null true; db_index true; auto_now false; auto_now_add false])]
    (mkOptions "monitor" "models" [["realm"; "name"]] "id") ["RealmOwnedModel"].

Definition create_MonitorAgentAssignment : operation :=
  CreateModel "MonitorAgentAssignment"
    [("id", UUIDField [primary_key true; default_ Uuid4; unique true; db_index true]);
     ("realm", ForeignKeyField "models.Realm" [source_field "realm_id"; db_constraint true;
        to_field "id"; related_name None; on_delete RESTRICT]);
     ("created_at", DatetimeField [auto_now false; auto_now_add true]);
     ("updated_at", DatetimeField [auto_now true; auto_now_add false]);
     ("monitor", ForeignKeyField "models.Monitor" [source_field "monitor_id"; db_constraint true;
        to_field "id"; related_name (Some "agent_assignments"); on_delete CASCADE]);
     ("agent", ForeignKeyField "models.Agent" [source_field "agent_id"; db_constraint true;
        to_field "id"; related_name (Some "monitor_assignments"); on_delete CASCADE]);
     ("enabled", BooleanField [default_ (DefBool true)])]
    (mkOptions "monitoragentassignment" "models" [["realm"; "monitor";
       "agent"]] "id") ["RealmOwnedModel"].

Definition create_MonitorAgentGroupAssignment : operation :=
  CreateModel "MonitorAgentGroupAssignment"
    [("id", UUIDField [primary_key true; default_ Uuid4; unique true; db_index true]);
     ("realm", ForeignKeyField "models.Realm" [source_field "realm_id"; db_constraint true;
        to_field "id"; related_name None; on_delete RESTRICT]);
     ("created_at", DatetimeField [auto_now false; auto_now_add true]);
     ("updated_at", DatetimeField [auto_now true; auto_now_add false]);
     ("monitor", ForeignKeyField "models.Monitor" [source_field "monitor_id"; db_constraint true;
        to_field "id"; related_name (Some "agent_group_assignments"); on_delete CASCADE]);
     ("agent_group", ForeignKeyField "models.AgentGroup" [source_field "agent_group_id";
        db_constraint true; to_field "id"; related_name (Some "monitor_assignments");
           on_delete CASCADE]);
     ("enabled", BooleanField [default_ (DefBool true)])]
    (mkOptions "monitoragentgroupassignment" "models" [["realm"; "monitor";
       "agent_group"]] "id") ["RealmOwnedModel"].

Definition create_TargetGroup : operation :=
  CreateModel "TargetGroup"
    [("id", UUIDField [primary_key true; default_ Uuid4; unique true; db_index true]);
     ("realm", ForeignKeyField "models.Realm" [source_field "realm_id"; db_constraint true;
        to_field "id"; related_name None; on_delete RESTRICT]);
     ("created_at", DatetimeField [auto_now false; auto_now_add true]);
     ("updated_at", DatetimeField [auto_now true; auto_now_add false]);
     ("parent", ForeignKeyField "models.TargetGroup" [source_field "parent_id"; null true;
        db_constraint true; to_field "id"; related_name (Some "children"); on_delete RESTRICT]);
     ("name", CharField [max_length 200]);
     ("description", TextField [null true; unique false]);
     ("archived_at", DatetimeField [null true; db_index true; auto_now false; auto_now_add false])]
    (mkOptions "targetgroup" "models" [] "id") ["RealmOwnedModel"].

Definition create_TargetGroupMembership : operation :=
  CreateModel "TargetGroupMembership"
    [("id", UUIDField [primary_key true; default_ Uuid4; unique true; db_index true]);
     ("realm", ForeignKeyField "models.Realm" [source_field "realm_id"; db_constraint true;
        to_field "id"; related_name None; on_delete RESTRICT]);
     ("target_group", ForeignKeyField "models.TargetGroup" [source_field "target_group_id";
        db_constraint true; to_field "id"; related_name (Some "memberships"); on_delete CASCADE]);
     ("target", ForeignKeyField "models.Target" [source_field "target_id"; db_constraint true;
        to_field "id"; related_name (Some "group_memberships"); on_delete CASCADE]);
     ("created_at", DatetimeField [auto_now false; auto_now_add true])]
    (mkOptions "targetgroupmembership" "models" [["realm"; "target_group";
       "target"]] "id") ["Model"].

Definition run_sql_0006 : operation :=
  RunSQL
    [CreateUniqueIndex "agentgroup_realm_parent_name_uniq" "agentgroup"
      (mkUnique ["realm_id"; "parent_id"; "name"] true);
     CreateUniqueIndex "targetgroup_realm_parent_name_uniq" "targetgroup"
      (mkUnique ["realm_id"; "parent_id"; "name"] true);
     AlterTable "agentgroup"
      [AddCheck "agentgroup_parent_not_self"
        (Or (IsNull (Col "parent_id")) (Cmp Ne (Col "parent_id") (Col "id")))];
     AlterTable "targetgroup"
      [AddCheck "targetgroup_parent_not_self"
        (Or (IsNull (Col "parent_id")) (Cmp Ne (Col "parent_id") (Col "id")))];
     AlterTable "monitor"
      [AddCheck "monitor_probe_type_valid"
        (In (Col "probe_type") ["icmp"; "http"; "tcp"; "dns"; "tls"]);
       AddCheck "monitor_interval_valid"
        (Cmp Ge (Col "interval_seconds") (Num 1));
       AddCheck "monitor_timeout_valid"
        (And (Cmp Ge (Col "timeout_seconds") (Num 1)) (Cmp Lt (Col "timeout_seconds")
           (Col "interval_seconds")));
       AddCheck "monitor_revision_positive"
        (Cmp Gt (Col "revision") (Num 0))];
     AlterTable "agentconfigurationstate"
      [AddCheck "agent_config_revisions_valid"
        (And (And (Cmp Ge (Col "desired_revision") (Num 0))
           (Cmp Ge (Col "acknowledged_revision") (Num 0)))
              (Cmp Le (Col "acknowledged_revision") (Col "desired_revision")))];
     AlterTable "agentconfigurationsnapshot"
      [AddCheck "agent_config_snapshot_revision_positive"
        (Cmp Gt (Col "revision") (Num 0))]]
    (Some
    [AlterTable "agentconfigurationsnapshot"
      [DropConstraint "agent_config_snapshot_revision_positive"];
     AlterTable "agentconfigurationstate"
      [DropConstraint "agent_config_revisions_valid"];
     AlterTable "monitor"
      [DropConstraint "monitor_revision_positive";
       DropConstraint "monitor_timeout_valid";
       DropConstraint "monitor_interval_valid";
       DropConstraint "monitor_probe_type_valid"];
     AlterTable "targetgroup"
      [DropConstraint "targetgroup_parent_not_self"];
     AlterTable "agentgroup"
      [DropConstraint "agentgroup_parent_not_self"];
     DropIndex "targetgroup_realm_parent_name_uniq";
     DropIndex "agentgroup_realm_parent_name_uniq"]).

Definition migration_0006 : Migration :=
  mkMigration "0006_add_monitoring_domain" [("models", "0005_enable_timescaledb")] false
    [create_Agent; create_AgentConfigurationSnapshot; create_AgentConfigurationState;
       create_AgentCredential; create_AgentGroup; create_AgentGroupMembership; create_Target;
          create_Monitor; create_MonitorAgentAssignment; create_MonitorAgentGroupAssignment;
             create_TargetGroup; create_TargetGroupMembership; run_sql_0006].

(** ** migrations/0007_add_observation_hypertables.py *)

Definition table_observations : stmt :=
    CreateTable "observations"
      [required "scheduled_at" TIMESTAMPTZ;
       required "observation_id" UUID;
       required "realm_id" UUID;
       required "agent_id" UUID;
       required "monitor_id" UUID;
       required "probe_type" (VARCHAR 16);
       required "monitor_revision" BIGINT;
       required "agent_config_revision" BIGINT;
       required "started_at" TIMESTAMPTZ;
       required "finished_at" TIMESTAMPTZ;
       required "received_at" TIMESTAMPTZ;
       required "execution_status" (VARCHAR 16);
       required "assessment" (VARCHAR 16);
       optional "error_category" (VARCHAR 32);
       optional "error_code" (VARCHAR 120);
       optional "error_message" (VARCHAR 500);
       optional "agent_clock_offset_ms" INTEGER]
      [("observations_identity_uniq", mkUnique ["scheduled_at"; "observation_id"] false)]
      [("observations_probe_type_valid",
        In (Col "probe_type") ["icmp"; "http"; "tcp"; "dns"; "tls"]);
       ("observations_execution_status_valid",
        In (Col "execution_status") ["completed"; "failed"]);
       ("observations_assessment_valid",
        In (Col "assessment") ["healthy"; "unhealthy"; "unknown"]);
       ("observations_error_category_valid",
        Or (IsNull (Col "error_category")) (In (Col "error_category") ["timeout"; "resolution";
           "connection"; "tls"; "protocol"; "assertion"; "permission"; "invalid_configuration";
              "resource_limit"; "internal"]));
       ("observations_revisions_positive",
        And (Cmp Gt (Col "monitor_revision") (Num 0)) (Cmp Gt (Col "agent_config_revision")
           (Num 0)));
       ("observations_timestamps_ordered",
        And (Cmp Ge (Col "started_at") (Col "scheduled_at")) (Cmp Ge (Col "finished_at")
           (Col "started_at")))].

Definition table_icmp_results : stmt :=
    CreateTable "icmp_results"
      [required "scheduled_at" TIMESTAMPTZ;
       required "observation_id" UUID;
       required "realm_id" UUID;
       required "agent_id" UUID;
       required "monitor_id" UUID;
       required "packets_sent" INTEGER;
       required "packets_received" INTEGER;
       required "packet_loss_percent" DOUBLE_PRECISION;
       optional "min_rtt_ms" DOUBLE_PRECISION;
       optional "avg_rtt_ms" DOUBLE_PRECISION;
       optional "median_rtt_ms" DOUBLE_PRECISION;
       optional "max_rtt_ms" DOUBLE_PRECISION;
       optional "p95_rtt_ms" DOUBLE_PRECISION;
       optional "jitter_ms" DOUBLE_PRECISION;
       required "rtt_samples_ms" DOUBLE_PRECISION_ARRAY]
      [("icmp_results_identity_uniq", mkUnique ["scheduled_at"; "observation_id"] false)]
      [("icmp_results_packet_counts_valid",
        And (And (Between (Col "packets_sent") (Num 1) (Num 20))
           (Between (Col "packets_received") (Num 0) (Col "packets_sent")))
              (Cmp Eq (Cardinality (Col "rtt_samples_ms")) (Col "packets_received")));
       ("icmp_results_packet_loss_valid",
        Between (Col "packet_loss_percent") (Num 0) (Num 100));
       ("icmp_results_rtt_values_valid",
        Or (IsNull (Col "min_rtt_ms")) (Cmp Ge (Col "min_rtt_ms") (Num 0)))].

Definition table_http_results : stmt :=
    CreateTable "http_results"
      [required "scheduled_at" TIMESTAMPTZ;
       required "observation_id" UUID;
       required "realm_id" UUID;
       required "agent_id" UUID;
       required "monitor_id" UUID;
       required "method" (VARCHAR 8);
       required "scheme" (VARCHAR 8);
       optional "status_code" INTEGER;
       required "redirect_count" INTEGER;
       optional "response_size_bytes" BIGINT;
       optional "dns_ms" DOUBLE_PRECISION;
       optional "connect_ms" DOUBLE_PRECISION;
       optional "tls_ms" DOUBLE_PRECISION;
       optional "ttfb_ms" DOUBLE_PRECISION;
       optional "total_ms" DOUBLE_PRECISION;
       required "assertions_total" INTEGER;
       required "assertions_failed" INTEGER;
       optional "final_url_redacted" (VARCHAR 2048)]
      [("http_results_identity_uniq", mkUnique ["scheduled_at"; "observation_id"] false)]
      [("http_results_method_valid",
        In (Col "method") ["GET"; "HEAD"]);
       ("http_results_scheme_valid",
        In (Col "scheme") ["http"; "https"]);
       ("http_results_status_valid",
        Or (IsNull (Col "status_code")) (Between (Col "status_code") (Num 100) (Num 599)));
       ("http_results_counts_valid",
        And (And (And (Cmp Ge (Col "redirect_count") (Num 0)) (Cmp Ge (Col "assertions_total")
           (Num 0))) (Between (Col "assertions_failed") (Num 0) (Col "assertions_total")))
              (Or (IsNull (Col "response_size_bytes")) (Cmp Ge (Col "response_size_bytes")
                 (Num 0))))].

Definition table_tcp_results : stmt :=
    CreateTable "tcp_results"
      [required "scheduled_at" TIMESTAMPTZ;
       required "observation_id" UUID;
       required "realm_id" UUID;
       required "agent_id" UUID;
       required "monitor_id" UUID;
       required "port" INTEGER;
       required "address_used" INET;
       optional "connect_ms" DOUBLE_PRECISION]
      [("tcp_results_identity_uniq", mkUnique ["scheduled_at"; "observation_id"] false)]
      [("tcp_results_port_valid",
        Between (Col "port") (Num 1) (Num 65535));
       ("tcp_results_connect_valid",
        Or (IsNull (Col "connect_ms")) (Cmp Ge (Col "connect_ms") (Num 0)))].

Definition table_dns_results : stmt :=
    CreateTable "dns_results"
      [required "scheduled_at" TIMESTAMPTZ;
       required "observation_id" UUID;
       required "realm_id" UUID;
       required "agent_id" UUID;
       required "monitor_id" UUID;
       required "resolver_address" INET;
       required "query_name" (VARCHAR 253);
       required "query_type" (VARCHAR 16);
       optional "response_code" (VARCHAR 32);
       optional "response_ms" DOUBLE_PRECISION;
       required "answer_count" INTEGER;
       required "answers" JSONB;
       required "truncated" BOOLEAN;
       required "authoritative" BOOLEAN;
       required "assertions_total" INTEGER;
       required "assertions_failed" INTEGER]
      [("dns_results_identity_uniq", mkUnique ["scheduled_at"; "observation_id"] false)]
      [("dns_results_query_type_valid",
        In (Col "query_type") ["A"; "AAAA"; "CNAME"; "MX"; "NS"; "PTR"; "SOA"; "TXT"]);
       ("dns_results_values_valid",
        And (And (And (And (Or (IsNull (Col "response_ms")) (Cmp Ge (Col "response_ms")
           (Num 0))) (Cmp Ge (Col "answer_count") (Num 0)))
              (Cmp Eq (JsonbTypeof (Col "answers")) (Str "array")))
                 (Cmp Ge (Col "assertions_total") (Num 0))) (Between (Col "assertions_failed")
                    (Num 0) (Col "assertions_total")))].

Definition table_tls_results : stmt :=
    CreateTable "tls_results"
      [required "scheduled_at" TIMESTAMPTZ;
       required "observation_id" UUID;
       required "realm_id" UUID;
       required "agent_id" UUID;
       required "monitor_id" UUID;
       required "port" INTEGER;
       required "server_name" (VARCHAR 253);
       optional "protocol_version" (VARCHAR 32);
       optional "cipher_suite" (VARCHAR 160);
       optional "handshake_ms" DOUBLE_PRECISION;
       required "certificate_present" BOOLEAN;
       optional "hostname_valid" BOOLEAN;
       optional "chain_valid" BOOLEAN;
       optional "not_before" TIMESTAMPTZ;
       optional "not_after" TIMESTAMPTZ;
       optional "days_remaining" DOUBLE_PRECISION;
       optional "subject_name" (VARCHAR 500);
       optional "issuer_name" (VARCHAR 500);
       optional "serial_number" (VARCHAR 160);
       optional "fingerprint_sha256" (VARCHAR 64)]
      [("tls_results_identity_uniq", mkUnique ["scheduled_at"; "observation_id"] false)]
      [("tls_results_port_valid",
        Between (Col "port") (Num 1) (Num 65535));
       ("tls_results_handshake_valid",
        Or (IsNull (Col "handshake_ms")) (Cmp Ge (Col "handshake_ms") (Num 0)));
       ("tls_results_certificate_dates_valid",
        Or (Or (IsNull (Col "not_before")) (IsNull (Col "not_after")))
           (Cmp Ge (Col "not_after") (Col "not_before")))].

Definition run_sql_0007 : operation :=
  RunSQL
    [table_observations;
     CreateHypertable "observations" "scheduled_at";
     CreateIndex "observations_realm_monitor_agent_scheduled_idx" "observations"
      ["realm_id"; "monitor_id"; "agent_id"; "scheduled_at"];
     CreateIndex "observations_realm_agent_scheduled_idx" "observations"
      ["realm_id"; "agent_id"; "scheduled_at"];
     CreateIndex "observations_realm_assessment_scheduled_idx" "observations"
      ["realm_id"; "assessment"; "scheduled_at"];
     CreateIndex "observations_realm_received_idx" "observations"
      ["realm_id"; "received_at"];
     table_icmp_results;
     table_http_results;
     table_tcp_results;
     table_dns_results;
     table_tls_results;
     CreateHypertable "icmp_results" "scheduled_at";
     CreateHypertable "http_results" "scheduled_at";
     CreateHypertable "tcp_results" "scheduled_at";
     CreateHypertable "dns_results" "scheduled_at";
     CreateHypertable "tls_results" "scheduled_at";
     CreateIndex "icmp_results_realm_monitor_agent_scheduled_idx" "icmp_results"
      ["realm_id"; "monitor_id"; "agent_id"; "scheduled_at"];
     CreateIndex "http_results_realm_monitor_agent_scheduled_idx" "http_results"
      ["realm_id"; "monitor_id"; "agent_id"; "scheduled_at"];
     CreateIndex "tcp_results_realm_monitor_agent_scheduled_idx" "tcp_results"
      ["realm_id"; "monitor_id"; "agent_id"; "scheduled_at"];
     CreateIndex "dns_results_realm_monitor_agent_scheduled_idx" "dns_results"
      ["realm_id"; "monitor_id"; "agent_id"; "scheduled_at"];
     CreateIndex "tls_results_realm_monitor_agent_scheduled_idx" "tls_results"
      ["realm_id"; "monitor_id"; "agent_id"; "scheduled_at"]]
    (Some
    [DropTable "tls_results";
     DropTable "dns_results";
     DropTable "tcp_results";
     DropTable "http_results";
     DropTable "icmp_results";
     DropTable "observations"]).

Definition migration_0007 : Migration :=
  mkMigration "0007_add_observation_hypertables" [("models", "0006_add_monitoring_domain")] false
    [run_sql_0007].

(** ** migrations/0008_add_agent_enrollment_tokens.py *)

Definition create_AgentEnrolmentToken : operation :=
  CreateModel "AgentEnrolmentToken"
    [("id", UUIDField [primary_key true; default_ Uuid4; unique true; db_index true]);
     ("realm", ForeignKeyField "models.Realm" [source_field "realm_id"; db_constraint true;
        to_field "id"; related_name None; on_delete RESTRICT]);
     ("created_at", DatetimeField [auto_now false; auto_now_add true]);
     ("updated_at", DatetimeField [auto_now true; auto_now_add false]);
     ("agent", ForeignKeyField "models.Agent" [source_field "agent_id"; db_constraint true;
        to_field "id"; related_name (Some "enrolment_tokens"); on_delete CASCADE]);
     ("token_hash", CharField [unique true; db_index true; max_length 64]);
     ("expires_at", DatetimeField [auto_now false; auto_now_add false]);
     ("consumed_at", DatetimeField [null true; db_index true; auto_now false; auto_now_add false]);
     ("revoked_at", DatetimeField [null true; db_index true; auto_now false; auto_now_add false])]
    (mkOptions "agentenrolmenttoken" "models" [] "id") ["RealmOwnedModel"].

Definition migration_0008 : Migration :=
  mkMigration "0008_add_agent_enrollment_tokens" [("models", "0007_add_observation_hypertables")]
     false
    [create_AgentEnrolmentToken].

(** ** migrations/0009_add_agent_operational_state.py *)

Definition create_AgentOperationalState : operation :=
  CreateModel "AgentOperationalState"
    [("id", UUIDField [primary_key true; default_ Uuid4; unique true; db_index true]);
     ("realm", ForeignKeyField "models.Realm" [source_field "realm_id"; db_constraint true;
        to_field "id"; related_name None; on_delete RESTRICT]);
     ("created_at", DatetimeField [auto_now false; auto_now_add true]);
     ("updated_at", DatetimeField [auto_now true; auto_now_add false]);
     ("agent", OneToOneField "models.Agent" [source_field "agent_id"; db_constraint true;
        to_field "id"; related_name (Some "operational_state"); on_delete CASCADE]);
     ("last_heartbeat_at", DatetimeField [db_index true; auto_now false; auto_now_add false]);
     ("agent_version", CharField [max_length 120]);
     ("platform", CharField [max_length 120]);
     ("architecture", CharField [max_length 120]);
     ("hostname", CharField [max_length 253]);
     ("capabilities", JSONField [default_ Dict; encoder "," ":"; decoder_loads]);
     ("active_configuration_revision", BigIntField [default_ (DefInt 0)]);
     ("known_desired_configuration_revision", BigIntField [default_ (DefInt 0)]);
     ("queue_depth", BigIntField [default_ (DefInt 0)]);
     ("queue_bytes", BigIntField [default_ (DefInt 0)]);
     ("oldest_pending_observation_at", DatetimeField [null true; auto_now false;
        auto_now_add false]);
     ("database_health", CharField [max_length 16]);
     ("scheduler_state", CharField [max_length 16]);
     ("agent_time", DatetimeField [auto_now false; auto_now_add false]);
     ("clock_offset_ms", BigIntField []);
     ("warnings", JSONField [default_ List; encoder "," ":"; decoder_loads])]
    (mkOptions "agentoperationalstate" "models" [] "id") ["RealmOwnedModel"].

Definition migration_0009 : Migration :=
  mkMigration "0009_add_agent_operational_state" [("models", "0008_add_agent_enrollment_tokens")]
     false
    [create_AgentOperationalState].

(** ** migrations/0010_add_acknowledged_configuration_hash.py *)

Definition add_acknowledged_content_hash : operation :=
  AddField "AgentConfigurationState" "acknowledged_content_hash"
    (CharField [default_ (DefText EmptyString); max_length 64]).

Definition migration_0010 : Migration :=
  mkMigration "0010_add_acknowledged_configuration_hash" [("models",
     "0009_add_agent_operational_state")] false
    [add_acknowledged_content_hash].

(** ** migrations/0011_add_observation_content_hash.py *)

Definition run_sql_0011 : operation :=
  RunSQL
    [AlterTable "observations"
      [AddColumn (optional "canonical_payload_hash" (VARCHAR 64))]]
    (Some
    [AlterTable "observations"
      [DropColumn "canonical_payload_hash"]]).

Definition migration_0011 : Migration :=
  mkMigration "0011_add_observation_content_hash" [("models",
     "0010_add_acknowledged_configuration_hash")] false
    [run_sql_0011].

(** ** migrations/0012_expand_icmp_packet_count.py *)

Definition run_sql_0012 : operation :=
  RunSQL
    [AlterTable "icmp_results"
      [DropConstraint "icmp_results_packet_counts_valid"];
     AlterTable "icmp_results"
      [AddCheck "icmp_results_packet_counts_valid"
        (And (And (Between (Col "packets_sent") (Num 1) (Num 100))
           (Between (Col "packets_received") (Num 0) (Col "packets_sent")))
              (Cmp Eq (Cardinality (Col "rtt_samples_ms")) (Col "packets_received")))]]
    (Some
    [AlterTable "icmp_results"
      [DropConstraint "icmp_results_packet_counts_valid"];
     AlterTable "icmp_results"
      [AddCheck "icmp_results_packet_counts_valid"
        (And (And (Between (Col "packets_sent") (Num 1) (Num 20))
           (Between (Col "packets_received") (Num 0) (Col "packets_sent")))
              (Cmp Eq (Cardinality (Col "rtt_samples_ms")) (Col "packets_received")))]]).

Definition migration_0012 : Migration :=
  mkMigration "0012_expand_icmp_packet_count" [("models", "0011_add_observation_content_hash")]
     false
    [run_sql_0012].

(** The migrations in the order of their files. *)
Definition all_migrations : list Migration :=
  [migration_0001; migration_0002; migration_0003; migration_0004; migration_0005;
   migration_0006; migration_0007; migration_0008; migration_0009; migration_0010;
   migration_0011; migration_0012].

(** ** The ORM *)

(** The keyword argument of a kind, if it is given. *)
Definition kw {A} (get : kwarg -> option A) (l : list kwarg) : option A := head (omap get l).
Definition kw_primary_key := kw (fun k => match k with primary_key b => Some b | _ => None end).
Definition kw_unique := kw (fun k => match k with unique b => Some b | _ => None end).
Definition kw_null := kw (fun k => match k with null b => Some b | _ => None end).
Definition kw_default := kw (fun k => match k with default_ d => Some d | _ => None end).
Definition kw_max_length := kw (fun k => match k with max_length n => Some n | _ => None end).
Definition kw_source_field := kw (fun k => match k with source_field s => Some s | _ => None end).
Definition kw_to_field := kw (fun k => match k with to_field s => Some s | _ => None end).
Definition kw_db_constraint := kw (fun k => match k with db_constraint b => Some b | _ => None end).
Definition kw_on_delete := kw (fun k => match k with on_delete d => Some d | _ => None end).

Definition field_args (f : Field) : list kwarg :=
  match f with
  | UUIDField l | CharField l | TextField l | BooleanField l | IntField l | BigIntField l
  | DatetimeField l | JSONField l | CharEnumField l | ForeignKeyField _ l | OneToOneField _ l => l
  end.

(** The table of a model: its name in lower case; ["models.Agent"] names [Agent]. *)
Definition model_table (reference : string) : string :=
  lower (default reference (last (split_on "."%char reference))).

(** The documented column of a field: a relation is stored in the column [source_field], by
    default its name and [_id], with the type of the key it refers to, which is a UUID in
    every model of this application; columns are NOT NULL unless [null=True]. *)
Definition column_of (nf : string * Field) : Column :=
  let (name, f) := nf in
  let l := field_args f in
  let not_null := negb (default false (kw_null l)) in
  let plain t := mkColumn name t not_null None in
  let relation model := mkColumn (default (name +:+ "_id") (kw_source_field l)) UUID not_null
    (if default true (kw_db_constraint l)
     then Some (model_table model, default "id" (kw_to_field l), default CASCADE (kw_on_delete l))
     else None) in
  match f with
  | UUIDField _ => plain UUID
  | CharField _ | CharEnumField _ => plain (VARCHAR (default 0 (kw_max_length l)))
  | TextField _ => plain TEXT
  | BooleanField _ => plain BOOLEAN
  | IntField _ => plain INTEGER
  | BigIntField _ => plain BIGINT
  | DatetimeField _ => plain TIMESTAMPTZ
  | JSONField _ => plain JSONB
  | ForeignKeyField model _ | OneToOneField model _ => relation model
  end.

(** Fields with a uniqueness constraint of their own. *)
Definition field_unique (f : Field) : bool :=
  default false (kw_primary_key (field_args f)) || default false (kw_unique (field_args f)) ||
  match f with OneToOneField _ _ => true | _ => false end.

(** The column of a field named in [unique_together]. *)
Definition column_named (fields : list (string * Field)) (name : string) : string :=
  match List.find (fun nf => String.eqb name nf.1) fields with
  | Some nf => col_name (column_of nf)
  | None => name
  end.

Definition unique_groups (fields : list (string * Field)) (together : list (list string)) :
    list (list string) :=
  map (fun nf => [col_name (column_of nf)]) (List.filter (fun nf => field_unique nf.2) fields) ++
  map (map (column_named fields)) together.

(** A constant default as a value of the column. *)
Definition default_value (d : py_default) : option value :=
  match d with
  | DefBool b => Some (VBool b)
  | DefInt z => Some (VInt z)
  | DefText s => Some (VText s)
  | Uuid4 | Dict | List => None
  end.

(** Tortoise: the statements an operation is run as.  Constraints and indexes it creates get
    names of its own. *)
Class Tortoise := {
  constraint_name : string -> list string -> string;
  index_sql : string -> list (string * Field) -> list stmt;
  to_sql : operation -> list stmt;
  index_sql_plain : forall table fields s, s ∈ index_sql table fields ->
    exists name nf, nf ∈ fields /\ s = CreateIndex name table [col_name (column_of nf)];
  to_sql_create : forall name fields options bases,
    to_sql (CreateModel name fields options bases) =
      CreateTable (opt_table options) (map column_of fields)
        (map (fun g => (constraint_name (opt_table options) g, mkUnique g false))
           (unique_groups fields (opt_unique_together options))) []
      :: index_sql (opt_table options) fields;
  (** a nullable column is added empty, one with a constant default is added with it *)
  to_sql_add_null : forall model name f, kw_null (field_args f) = Some true ->
    to_sql (AddField model name f) =
      [AlterTable (model_table model) [AddColumn (column_of (name, f))]];
  to_sql_add_default : forall model name f d v, kw_null (field_args f) = None -> kw_default (field_args f) = Some d ->
    default_value d = Some v ->
    to_sql (AddField model name f) =
      [AlterTable (model_table model) [AddColumnDefault (column_of (name, f)) v]];
  to_sql_alter : forall model name f,
    to_sql (AlterField model name f) =
      [AlterTable (model_table model) [SetColumn (column_of (name, f))]];
  to_sql_rename : forall model old new,
    to_sql (RenameField model old new) = [AlterTable (model_table model) [RenameColumn old new]];
  to_sql_run : forall sql reverse, to_sql (RunSQL sql reverse) = sql;
}.

Section Migrate.
Context {T : Tortoise}.

(** The statements of a migration, run in order. *)
Definition migration_sql (m : Migration) : list stmt := mjoin (map to_sql (mg_operations m)).

(** A migration runs when the migrations it depends on have run. *)
Definition ready (applied : list string) (m : Migration) : bool :=
  forallb (fun d => existsb (String.eqb d.2) applied) (mg_dependencies m) &&
  (mg_initial m || negb (bool_decide (mg_dependencies m = []))).

Fixpoint migrate (applied : list string) (l : list Migration) (db : Db) : option Db :=
  match l with
  | [] => Some db
  | m :: l' =>
      if ready applied m
      then match exec_all (migration_sql m) db with
           | Some db' => migrate (applied ++ [mg_name m]) l' db'
           | None => None
           end
      else None
  end.
End Migrate.
