(* ===== verification/ModelClasses.v ===== *)
(** * The model classes (models/auth.py, models/monitoring.py)

    The declarations the ORM works from, with the fields of their abstract base classes,
    and the tables [generate_schemas] creates from them when [auto_create_schema] is set
    (main.py).  [Models] and [Accounts] have the rows as records. *)

From S2P Require Import Prelude PyText Json Models Sql Migrations.
Local Open Scope Z_scope.

(** A model: its name, the fields it inherits, its own fields and [Meta.unique_together]. *)
Record ModelClass := mkModelClass {
  cls_name : string;
  cls_inherited : list (string * Field);
  cls_fields : list (string * Field);
  cls_unique_together : list (list string);
}.

(** ** models/auth.py *)

Definition fields_TimestampedModel : list (string * Field) :=
  [("created_at", DatetimeField [auto_now_add true]);
   ("updated_at", DatetimeField [auto_now true])].

Definition model_User : ModelClass :=
  mkModelClass "User" fields_TimestampedModel
  [("id", UUIDField [primary_key true; default_ Uuid4]);
   ("email", CharField [max_length 320; unique true; db_index true]);
   ("password_hash", CharField [max_length 255]);
   ("first_name", CharField [max_length 150]);
   ("last_name", CharField [max_length 150]);
   ("is_active", BooleanField [default_ (DefBool true)]);
   ("is_superuser", BooleanField [default_ (DefBool false)]);
   ("email_verified", BooleanField [default_ (DefBool false)]);
   ("session_version", IntField [default_ (DefInt 1)])]
  [].

Definition model_Realm : ModelClass :=
  mkModelClass "Realm" fields_TimestampedModel
  [("id", UUIDField [primary_key true; default_ Uuid4]);
   ("name", CharField [max_length 200]);
   ("slug", CharField [max_length 120; unique true; db_index true]);
   ("is_active", BooleanField [default_ (DefBool true)])]
  [].

Definition model_RealmMembership : ModelClass :=
  mkModelClass "RealmMembership" fields_TimestampedModel
  [("id", UUIDField [primary_key true; default_ Uuid4]);
   ("user", ForeignKeyField "models.User" [related_name (Some "memberships"); on_delete CASCADE]);
   ("realm", ForeignKeyField "models.Realm" [related_name (Some "memberships"); on_delete CASCADE]);
   ("role", CharField [max_length 32; default_ (DefText "owner")])]
  [["user"; "realm"]].

Definition model_WebAuthnCredential : ModelClass :=
  mkModelClass "WebAuthnCredential" fields_TimestampedModel
  [("id", UUIDField [primary_key true; default_ Uuid4]);
   ("user", ForeignKeyField "models.User" [related_name (Some "webauthn_credentials");
      on_delete CASCADE]);
   ("credential_id", CharField [max_length 1024; unique true]);
   ("public_key", TextField []);
   ("sign_count", BigIntField [default_ (DefInt 0)]);
   ("name", CharField [max_length 120; default_ (DefText "Passkey")]);
   ("device_type", CharField [max_length 64; default_ (DefText EmptyString)]);
   ("backed_up", BooleanField [default_ (DefBool false)]);
   ("transports", JSONField [default_ List]);
   ("last_used_at", DatetimeField [null true])]
  [].

Definition model_TwoFactorMethod : ModelClass :=
  mkModelClass "TwoFactorMethod" fields_TimestampedModel
  [("id", UUIDField [primary_key true; default_ Uuid4]);
   ("user", ForeignKeyField "models.User" [related_name (Some "two_factor_methods");
      on_delete CASCADE]);
   ("method_type", CharField [max_length 32; default_ (DefText "totp")]);
   ("secret_encrypted", TextField []);
   ("name", CharField [max_length 120; default_ (DefText "Authenticator app")]);
   ("is_enabled", BooleanField [default_ (DefBool false)]);
   ("verified_at", DatetimeField [null true]);
   ("last_used_at", DatetimeField [null true])]
  [["user"; "method_type"]].

Definition model_RecoveryCode : ModelClass :=
  mkModelClass "RecoveryCode" fields_TimestampedModel
  [("id", UUIDField [primary_key true; default_ Uuid4]);
   ("user", ForeignKeyField "models.User" [related_name (Some "recovery_codes");
      on_delete CASCADE]);
   ("code_hash", CharField [max_length 64; db_index true]);
   ("used_at", DatetimeField [null true])]
  [].

Definition model_AuthenticationChallenge : ModelClass :=
  mkModelClass "AuthenticationChallenge" fields_TimestampedModel
  [("id", UUIDField [primary_key true; default_ Uuid4]);
   ("user", ForeignKeyField "models.User" [related_name (Some "authentication_challenges");
      null true; on_delete CASCADE]);
   ("challenge_type", CharField [max_length 32; db_index true]);
   ("challenge_hash", CharField [max_length 64; unique true; db_index true]);
   ("expires_at", DatetimeField [db_index true]);
   ("consumed_at", DatetimeField [null true]);
   ("metadata", JSONField [default_ Dict])]
  [].

Definition model_AuditEvent : ModelClass :=
  mkModelClass "AuditEvent" []
  [("id", UUIDField [primary_key true; default_ Uuid4]);
   ("occurred_at", DatetimeField [auto_now_add true; db_index true]);
   ("realm", ForeignKeyField "models.Realm" [related_name (Some "audit_events"); null true;
      on_delete SET_NULL]);
   ("actor_user", ForeignKeyField "models.User" [related_name (Some "audit_events"); null true;
      on_delete SET_NULL]);
   ("actor_type", CharField [max_length 32]);
   ("action", CharField [max_length 120; db_index true]);
   ("outcome", CharField [max_length 32; db_index true]);
   ("target_type", CharField [max_length 80; null true]);
   ("target_id", CharField [max_length 255; null true]);
   ("source_ip", CharField [max_length 64; null true]);
   ("user_agent", CharField [max_length 512; default_ (DefText EmptyString)]);
   ("superuser_bypass", BooleanField [default_ (DefBool false)]);
   ("metadata", JSONField [default_ Dict])]
  [].

(** ** models/monitoring.py *)

Definition fields_RealmOwnedModel : list (string * Field) :=
  [("id", UUIDField [primary_key true; default_ Uuid4]);
   ("realm", ForeignKeyField "models.Realm" [related_name None; on_delete RESTRICT]);
   ("created_at", DatetimeField [auto_now_add true]);
   ("updated_at", DatetimeField [auto_now true])].

Definition model_Agent : ModelClass :=
  mkModelClass "Agent" fields_RealmOwnedModel
  [("name", CharField [max_length 200]);
   ("description", TextField [null true]);
   ("enabled", BooleanField [default_ (DefBool true)]);
   ("archived_at", DatetimeField [null true; db_index true])]
  [["realm"; "name"]].

Definition model_AgentGroup : ModelClass :=
  mkModelClass "AgentGroup" fields_RealmOwnedModel
  [("parent", ForeignKeyField "models.AgentGroup" [related_name (Some "children"); null true;
     on_delete RESTRICT]);
   ("name", CharField [max_length 200]);
   ("description", TextField [null true]);
   ("enabled", BooleanField [default_ (DefBool true)]);
   ("archived_at", DatetimeField [null true; db_index true])]
  [].

Definition model_AgentGroupMembership : ModelClass :=
  mkModelClass "AgentGroupMembership" []
  [("id", UUIDField [primary_key true; default_ Uuid4]);
   ("realm", ForeignKeyField "models.Realm" [related_name None; on_delete RESTRICT]);
   ("agent_group", ForeignKeyField "models.AgentGroup" [related_name (Some "memberships");
      on_delete CASCADE]);
   ("agent", ForeignKeyField "models.Agent" [related_name (Some "group_memberships");
      on_delete CASCADE]);
   ("created_at", DatetimeField [auto_now_add true])]
  [["realm"; "agent_group"; "agent"]].

Definition model_AgentCredential : ModelClass :=
  mkModelClass "AgentCredential" fields_RealmOwnedModel
  [("agent", ForeignKeyField "models.Agent" [related_name (Some "credentials"); on_delete CASCADE]);
   ("name", CharField [max_length 120]);
   ("credential_hash", CharField [max_length 128]);
   ("last_used_at", DatetimeField [null true]);
   ("expires_at", DatetimeField [null true]);
   ("revoked_at", DatetimeField [null true; db_index true])]
  [["realm"; "agent"; "name"]].

Definition model_AgentEnrolmentToken : ModelClass :=
  mkModelClass "AgentEnrolmentToken" fields_RealmOwnedModel
  [("agent", ForeignKeyField "models.Agent" [related_name (Some "enrolment_tokens");
     on_delete CASCADE]);
   ("token_hash", CharField [max_length 64; unique true; db_index true]);
   ("expires_at", DatetimeField []);
   ("consumed_at", DatetimeField [null true; db_index true]);
   ("revoked_at", DatetimeField [null true; db_index true])]
  [].

Definition model_AgentOperationalState : ModelClass :=
  mkModelClass "AgentOperationalState" fields_RealmOwnedModel
  [("agent", OneToOneField "models.Agent" [related_name (Some "operational_state");
     on_delete CASCADE]);
   ("last_heartbeat_at", DatetimeField [db_index true]);
   ("agent_version", CharField [max_length 120]);
   ("platform", CharField [max_length 120]);
   ("architecture", CharField [max_length 120]);
   ("hostname", CharField [max_length 253]);
   ("capabilities", JSONField [default_ Dict]);
   ("active_configuration_revision", BigIntField [default_ (DefInt 0)]);
   ("known_desired_configuration_revision", BigIntField [default_ (DefInt 0)]);
   ("queue_depth", BigIntField [default_ (DefInt 0)]);
   ("queue_bytes", BigIntField [default_ (DefInt 0)]);
   ("oldest_pending_observation_at", DatetimeField [null true]);
   ("database_health", CharField [max_length 16]);
   ("scheduler_state", CharField [max_length 16]);
   ("agent_time", DatetimeField []);
   ("clock_offset_ms", BigIntField []);
   ("warnings", JSONField [default_ List])]
  [].

Definition model_Target : ModelClass :=
  mkModelClass "Target" fields_RealmOwnedModel
  [("name", CharField [max_length 200]);
   ("description", TextField [null true]);
   ("address", CharField [max_length 253]);
   ("enabled", BooleanField [default_ (DefBool true)]);
   ("archived_at", DatetimeField [null true; db_index true])]
  [["realm"; "name"]].

Definition model_TargetGroup : ModelClass :=
  mkModelClass "TargetGroup" fields_RealmOwnedModel
  [("parent", ForeignKeyField "models.TargetGroup" [related_name (Some "children"); null true;
     on_delete RESTRICT]);
   ("name", CharField [max_length 200]);
   ("description", TextField [null true]);
   ("archived_at", DatetimeField [null true; db_index true])]
  [].

Definition model_TargetGroupMembership : ModelClass :=
  mkModelClass "TargetGroupMembership" []
  [("id", UUIDField [primary_key true; default_ Uuid4]);
   ("realm", ForeignKeyField "models.Realm" [related_name None; on_delete RESTRICT]);
   ("target_group", ForeignKeyField "models.TargetGroup" [related_name (Some "memberships");
      on_delete CASCADE]);
   ("target", ForeignKeyField "models.Target" [related_name (Some "group_memberships");
      on_delete CASCADE]);
   ("created_at", DatetimeField [auto_now_add true])]
  [["realm"; "target_group"; "target"]].

Definition model_Monitor : ModelClass :=
  mkModelClass "Monitor" fields_RealmOwnedModel
  [("target", ForeignKeyField "models.Target" [related_name (Some "monitors"); on_delete RESTRICT]);
   ("name", CharField [max_length 200]);
   ("description", TextField [null true]);
   ("probe_type", CharEnumField [enum_type ProbeType_values; max_length 16]);
   ("interval_seconds", IntField []);
   ("timeout_seconds", IntField []);
   ("configuration", JSONField [default_ Dict]);
   ("enabled", BooleanField [default_ (DefBool true)]);
   ("revision", IntField [default_ (DefInt 1)]);
   ("archived_at", DatetimeField [null true; db_index true])]
  [["realm"; "name"]].

Definition model_MonitorAgentAssignment : ModelClass :=
  mkModelClass "MonitorAgentAssignment" fields_RealmOwnedModel
  [("monitor", ForeignKeyField "models.Monitor" [related_name (Some "agent_assignments");
     on_delete CASCADE]);
   ("agent", ForeignKeyField "models.Agent" [related_name (Some "monitor_assignments");
      on_delete CASCADE]);
   ("enabled", BooleanField [default_ (DefBool true)])]
  [["realm"; "monitor"; "agent"]].

Definition model_MonitorAgentGroupAssignment : ModelClass :=
  mkModelClass "MonitorAgentGroupAssignment" fields_RealmOwnedModel
  [("monitor", ForeignKeyField "models.Monitor" [related_name (Some "agent_group_assignments");
     on_delete CASCADE]);
   ("agent_group", ForeignKeyField "models.AgentGroup" [related_name (Some
      "monitor_assignments"); on_delete CASCADE]);
   ("enabled", BooleanField [default_ (DefBool true)])]
  [["realm"; "monitor"; "agent_group"]].

Definition model_AgentConfigurationState : ModelClass :=
  mkModelClass "AgentConfigurationState" fields_RealmOwnedModel
  [("agent", OneToOneField "models.Agent" [related_name (Some "configuration_state");
     on_delete CASCADE]);
   ("desired_revision", BigIntField [default_ (DefInt 0)]);
   ("desired_content_hash", CharField [max_length 64; default_ (DefText EmptyString)]);
   ("acknowledged_revision", BigIntField [default_ (DefInt 0)]);
   ("acknowledged_content_hash", CharField [max_length 64; default_ (DefText EmptyString)]);
   ("acknowledged_at", DatetimeField [null true])]
  [].

Definition model_AgentConfigurationSnapshot : ModelClass :=
  mkModelClass "AgentConfigurationSnapshot" []
  [("id", UUIDField [primary_key true; default_ Uuid4]);
   ("realm", ForeignKeyField "models.Realm" [related_name None; on_delete RESTRICT]);
   ("agent", ForeignKeyField "models.Agent" [related_name (Some "configuration_snapshots");
      on_delete RESTRICT]);
   ("revision", BigIntField []);
   ("content_hash", CharField [max_length 64]);
   ("configuration", JSONField []);
   ("created_at", DatetimeField [auto_now_add true])]
  [["realm"; "agent"; "revision"]].

(** The models [TORTOISE_ORM] registers (models/__init__.py). *)
Definition declared_models : list ModelClass :=
  [model_User; model_Realm; model_RealmMembership;
   model_WebAuthnCredential; model_TwoFactorMethod; model_RecoveryCode;
   model_AuthenticationChallenge; model_AuditEvent; model_Agent;
   model_AgentGroup; model_AgentGroupMembership; model_AgentCredential;
   model_AgentEnrolmentToken; model_AgentOperationalState; model_Target;
   model_TargetGroup; model_TargetGroupMembership; model_Monitor;
   model_MonitorAgentAssignment; model_MonitorAgentGroupAssignment; model_AgentConfigurationState;
   model_AgentConfigurationSnapshot].

Definition all_fields (m : ModelClass) : list (string * Field) := cls_inherited m ++ cls_fields m.

(** What the declaration says of its table: its name, columns and uniqueness constraints. *)
Definition declared_table (m : ModelClass) : string := model_table (cls_name m).
Definition declared_columns (m : ModelClass) : list Column := map column_of (all_fields m).
Definition declared_uniques (m : ModelClass) : list (list string) :=
  unique_groups (all_fields m) (cls_unique_together m).

Section GenerateSchemas.
Context {T : Tortoise}.

(** [RegisterTortoise(generate_schemas=True)]: one table per model. *)
Definition model_sql (m : ModelClass) : list stmt :=
  to_sql (CreateModel (cls_name m) (all_fields m)
    (mkOptions (declared_table m) "models" (cls_unique_together m) "id") []).
Definition generate_schemas (db : Db) : option Db :=
  exec_all (mjoin (map model_sql declared_models)) db.
End GenerateSchemas.
