(* ===== verification/SchemaProps.v ===== *)
(** * The migrated schema

    The statements of the migrations can be run whatever names the ORM chooses, on an empty
    and on a populated database; what they build are the tables the model classes declare,
    with the constraints written in SQL, and the hypertables. *)

From Stdlib Require Import Ascii.
From S2P Require Import Prelude PyText Json Models Sql Migrations ModelClasses.
Local Open Scope Z_scope.

#[export] Instance sql_type_eq_dec : EqDecision sql_type.
Proof. solve_decision. Defined.
#[export] Instance OnDelete_eq_dec : EqDecision OnDelete.
Proof. solve_decision. Defined.
#[export] Instance Column_eq_dec : EqDecision Column.
Proof. solve_decision. Defined.

(** ** The statements without the indexes of the ORM *)

Section Plain.
Context (cn : string -> list string -> string).

Definition plain_sql (o : operation) : list stmt :=
  match o with
  | CreateModel _ fields options _ =>
      [CreateTable (opt_table options) (map column_of fields)
         (map (fun g => (cn (opt_table options) g, mkUnique g false))
            (unique_groups fields (opt_unique_together options))) []]
  | AddField model name f =>
      [AlterTable (model_table model)
         [match kw_null (field_args f), kw_default (field_args f) ≫= default_value with
          | None, Some v => AddColumnDefault (column_of (name, f)) v
          | _, _ => AddColumn (column_of (name, f))
          end]]
  | AlterField model name f => [AlterTable (model_table model) [SetColumn (column_of (name, f))]]
  | RenameField model old new => [AlterTable (model_table model) [RenameColumn old new]]
  | RunSQL sql _ => sql
  end.

Definition plain_migration (m : Migration) : list stmt := mjoin (map plain_sql (mg_operations m)).

Definition plain_all (l : list Migration) : list stmt := mjoin (map plain_migration l).
End Plain.

(** A field is added either nullable or with a constant default. *)
Definition addable (o : operation) : bool :=
  match o with
  | AddField _ _ f =>
      match kw_null (field_args f), kw_default (field_args f) ≫= default_value with
      | Some true, None | None, Some _ => true
      | _, _ => false
      end
  | _ => true
  end.

Lemma exec_all_app l1 l2 db :
  exec_all (l1 ++ l2) db = exec_all l1 db ≫= exec_all l2.
Proof.
  revert db. induction l1 as [|s l1 IH]; intros db; [done|]. simpl.
  by destruct (exec s db).
Qed.

Section Tortoise.
Context {T : Tortoise}.

(** Plain indexes on columns of a table change nothing. *)
Lemma exec_indexes table fields t db l :
  db_tables db !! table = Some t -> tb_columns t = map column_of fields ->
  (forall s, s ∈ l -> s ∈ index_sql table fields) -> exec_all l db = Some db.
Proof.
  intros Ht Hc. induction l as [|s l IH]; intros Hl; [done|]. simpl.
  destruct (index_sql_plain _ _ _ (Hl s (list_elem_of_here _ _))) as (n & nf & Hin & ->).
  simpl. rewrite Ht. unfold has_column. rewrite Hc.
  assert (existsb (fun x => String.eqb (col_name (column_of nf)) (col_name x))
            (map column_of fields) = true) as ->.
  { apply existsb_exists. exists (column_of nf). split; [|by apply String.eqb_refl].
    apply in_map. by apply list_elem_of_In. }
  simpl. apply IH. intros s Hs. apply Hl. by apply list_elem_of_further.
Qed.

Lemma to_sql_addable model name f :
  addable (AddField model name f) = true ->
  to_sql (AddField model name f) = plain_sql constraint_name (AddField model name f).
Proof.
  unfold addable, plain_sql. intros Ha.
  destruct (kw_null (field_args f)) as [[]|] eqn:En; [| done |].
  - rewrite to_sql_add_null by done. by destruct (kw_default _ ≫= _).
  - destruct (kw_default (field_args f)) as [d|] eqn:Ed; [|done].
    cbn [mbind option_bind] in *. destruct (default_value d) as [v|] eqn:Ev; [|done].
    by rewrite (to_sql_add_default _ _ _ d v).
Qed.

Lemma exec_to_sql o db :
  addable o = true -> exec_all (to_sql o) db = exec_all (plain_sql constraint_name o) db.
Proof.
  destruct o as [n fs opts bs|m n f|m n f|m n n'|sql rev]; simpl; intros Ha.
  - rewrite to_sql_create. simpl. destruct (db_tables db !! opt_table opts); [done|].
    eapply exec_indexes; [simpl; apply lookup_insert_eq|done|done].
  - rewrite to_sql_addable by done. done.
  - by rewrite to_sql_alter.
  - by rewrite to_sql_rename.
  - by rewrite to_sql_run.
Qed.

Lemma exec_migration m db :
  forallb addable (mg_operations m) = true ->
  exec_all (migration_sql m) db = exec_all (plain_migration constraint_name m) db.
Proof.
  unfold migration_sql, plain_migration. generalize (mg_operations m). intros l.
  revert db. induction l as [|o l IH]; intros db; [done|]. simpl. intros [Ho Hl]%andb_true_iff.
  rewrite !exec_all_app, exec_to_sql by done. destruct (exec_all (plain_sql _ o) db); [|done].
  by apply IH.
Qed.

(** Each migration depends on migrations before it only. *)
Fixpoint in_order (applied : list string) (l : list Migration) : bool :=
  match l with
  | [] => true
  | m :: l' => ready applied m && in_order (applied ++ [mg_name m]) l'
  end.

Lemma in_order_app applied l1 l2 : in_order applied (l1 ++ l2) = true -> in_order applied l1 = true.
Proof.
  revert applied. induction l1 as [|m l1 IH]; intros applied; [done|]. simpl.
  intros [-> H]%andb_true_iff. by apply IH.
Qed.

Lemma migrate_plain applied l db :
  forallb (fun m => forallb addable (mg_operations m)) l = true ->
  in_order applied l = true ->
  migrate applied l db = exec_all (plain_all constraint_name l) db.
Proof.
  revert applied db. induction l as [|m l IH]; intros applied db; [done|]. simpl.
  intros [Hm Hl]%andb_true_iff [Hr Hc]%andb_true_iff. rewrite Hr, exec_migration by done.
  unfold plain_all. simpl. rewrite exec_all_app.
  destruct (exec_all (plain_migration _ m) db); [|done]. by apply IH.
Qed.
End Tortoise.

(** ** The tables of the model classes *)

Definition observation_tables : list string :=
  ["observations"; "icmp_results"; "http_results"; "tcp_results"; "dns_results"; "tls_results"].

(** The unique indexes of migration 0006 that are written in SQL, with NULLS NOT DISTINCT, and
    that no class declares: siblings have different names. *)
Definition sql_unique_indexes : list (string * list string) :=
  [("agentgroup", ["realm_id"; "parent_id"; "name"]); ("targetgroup", ["realm_id"; "parent_id"; "name"])].

(** The table has the columns and the uniqueness constraints the class declares, in which NULLs
    are distinct, and besides them exactly the unique indexes listed for it, in which NULLs are
    equal. *)
Record table_of_class (indexes : list (string * list string)) (m : ModelClass) (t : Table) : Prop := {
  toc_columns : forall c, c ∈ tb_columns t <-> c ∈ declared_columns m;
  toc_uniques : forall g, g ∈ declared_uniques m <-> exists n, (n, mkUnique g false) ∈ tb_uniques t;
  toc_indexes : forall g, (declared_table m, g) ∈ indexes <-> exists n, (n, mkUnique g true) ∈ tb_uniques t;
}.

(** All tables of the classes, and no others but [extra]. *)
Record schema_of_classes (extra : list string) (indexes : list (string * list string)) (db : Db) : Prop := {
  soc_tables : forall m, m ∈ declared_models ->
    exists t, db_tables db !! declared_table m = Some t /\ table_of_class indexes m t;
  soc_complete : forall n, is_Some (db_tables db !! n) <->
    n ∈ map declared_table declared_models ++ extra;
}.

(** The columns of the uniqueness constraints of one kind. *)
Definition uniques_of (nulls_equal : bool) (t : Table) : list (list string) :=
  map (fun nu => uq_columns nu.2)
    (List.filter (fun nu => Bool.eqb (uq_nulls_equal nu.2) nulls_equal) (tb_uniques t)).

Definition indexes_of (indexes : list (string * list string)) (table : string) : list (list string) :=
  map snd (List.filter (fun i => String.eqb i.1 table) indexes).

Definition same_elements {A} `{EqDecision A} (l1 l2 : list A) : bool :=
  forallb (fun x => bool_decide (x ∈ l2)) l1 && forallb (fun x => bool_decide (x ∈ l1)) l2.

Definition table_agrees (indexes : list (string * list string)) (m : ModelClass) (t : Table) : bool :=
  same_elements (tb_columns t) (declared_columns m) &&
  same_elements (uniques_of false t) (declared_uniques m) &&
  same_elements (uniques_of true t) (indexes_of indexes (declared_table m)).

Definition schema_agrees (extra : list string) (indexes : list (string * list string)) (db : Db) : bool :=
  forallb (fun m => match db_tables db !! declared_table m with
                    | Some t => table_agrees indexes m t
                    | None => false
                    end) declared_models &&
  same_elements (map fst (map_to_list (db_tables db))) (map declared_table declared_models ++ extra).

Lemma same_elements_iff {A} `{EqDecision A} (l1 l2 : list A) :
  same_elements l1 l2 = true -> forall x, x ∈ l1 <-> x ∈ l2.
Proof.
  intros [H1 H2]%andb_true_iff x. rewrite forallb_forall in H1, H2.
  split; intros Hx%list_elem_of_In; [apply H1 in Hx|apply H2 in Hx]; by apply bool_decide_eq_true in Hx.
Qed.

Lemma elem_of_uniques_of b t g :
  g ∈ uniques_of b t <-> exists n, (n, mkUnique g b) ∈ tb_uniques t.
Proof.
  unfold uniques_of. rewrite list_elem_of_In, in_map_iff. split.
  - intros ([n [g' b']] & <- & [Hin Hb%Bool.eqb_prop]%filter_In). simpl in *. subst b'.
    exists n. by apply list_elem_of_In.
  - intros [n Hin]. exists (n, mkUnique g b). split; [done|].
    apply filter_In. split; [by apply list_elem_of_In|apply Bool.eqb_reflx].
Qed.

Lemma elem_of_indexes_of indexes table g : g ∈ indexes_of indexes table <-> (table, g) ∈ indexes.
Proof.
  unfold indexes_of. rewrite list_elem_of_In, in_map_iff. split.
  - intros ([n g'] & <- & [Hin <-%String.eqb_eq]%filter_In). by apply list_elem_of_In.
  - intros Hin. exists (table, g). split; [done|]. apply filter_In.
    split; [by apply list_elem_of_In|apply String.eqb_refl].
Qed.

Lemma schema_agrees_sound extra indexes db :
  schema_agrees extra indexes db = true -> schema_of_classes extra indexes db.
Proof.
  intros [Hm Hn]%andb_true_iff. split.
  - intros m Hin%list_elem_of_In. rewrite forallb_forall in Hm. specialize (Hm _ Hin).
    destruct (db_tables db !! declared_table m) as [t|]; [|done]. exists t. split; [done|].
    apply andb_true_iff in Hm as [[Hc Hu]%andb_true_iff Hi].
    split; intros x; rewrite <-?elem_of_uniques_of, <-?elem_of_indexes_of; [|symmetry..]; by apply same_elements_iff.
  - intros n. rewrite <- (same_elements_iff _ _ Hn n), list_elem_of_In, in_map_iff. split.
    + intros [t Ht]. exists (n, t). split; [done|]. by apply list_elem_of_In, elem_of_map_to_list.
    + intros ([n' t] & <- & Hin%list_elem_of_In%elem_of_map_to_list). eauto.
Qed.

Definition final (cn : string -> list string -> string) : option Db :=
  exec_all (plain_all cn all_migrations) empty_Db.

Lemma final_agrees cn :
  match final cn with Some db => schema_agrees observation_tables sql_unique_indexes db | None => false end = true.
Proof. vm_compute. reflexivity. Qed.

Definition plain_class (cn : string -> list string -> string) (m : ModelClass) : list stmt :=
  plain_sql cn (CreateModel (cls_name m) (all_fields m)
    (mkOptions (declared_table m) "models" (cls_unique_together m) "id") []).

Definition generated (cn : string -> list string -> string) : option Db :=
  exec_all (mjoin (map (plain_class cn) declared_models)) empty_Db.

Lemma generated_agrees cn :
  match generated cn with
  | Some db => schema_agrees [] [] db &&
      forallb (fun nt => bool_decide (length (tb_checks nt.2) = 0%nat)) (map_to_list (db_tables db))
  | None => false
  end = true.
Proof. vm_compute. reflexivity. Qed.

Section Schema.
Context {T : Tortoise}.

Lemma migrate_all db : migrate [] all_migrations db =
  exec_all (plain_all constraint_name all_migrations) db.
Proof. by apply migrate_plain. Qed.

(** C6 The migrations run from an empty database, each after the one it depends on, and what
    they leave is the schema the model classes declare: for every class a table with exactly
    its columns (names, types, NOT NULL, references) and its uniqueness constraints, with two
    unique indexes on top, written in SQL and declared by no class, that keep the names of
    sibling groups apart; and besides these tables the six of the observations. *)
Theorem migrations_build_the_models :
  exists db, migrate [] all_migrations empty_Db = Some db /\
    schema_of_classes observation_tables sql_unique_indexes db.
Proof.
  rewrite migrate_all. pose proof (final_agrees constraint_name) as H. unfold final in H.
  destruct (exec_all _ empty_Db) as [db|]; [|done]. exists db. split; [done|].
  by apply schema_agrees_sound.
Qed.

Lemma generate_schemas_plain db :
  generate_schemas db = exec_all (mjoin (map (plain_class constraint_name) declared_models)) db.
Proof.
  unfold generate_schemas. generalize declared_models. intros l. revert db.
  induction l as [|m l IH]; intros db; [done|].
  change (mjoin (map model_sql (m :: l))) with (model_sql m ++ mjoin (map model_sql l)).
  change (mjoin (map (plain_class constraint_name) (m :: l))) with
    (plain_class constraint_name m ++ mjoin (map (plain_class constraint_name) l)).
  unfold model_sql at 1. rewrite !exec_all_app, exec_to_sql by done. fold (plain_class constraint_name m).
  destruct (exec_all (plain_class _ m) db); [apply IH|done].
Qed.

(** With [auto_create_schema] the tables of the classes are created with the same columns
    and uniqueness constraints, but with none of the unique indexes and checks written in SQL, and the tables of
    the observations are missing. *)
Theorem auto_created_schema_lacks_checks :
  exists db, generate_schemas empty_Db = Some db /\ schema_of_classes [] [] db /\
    (forall n t, db_tables db !! n = Some t -> tb_checks t = []) /\
    (forall n, n ∈ observation_tables -> db_tables db !! n = None).
Proof.
  rewrite generate_schemas_plain. pose proof (generated_agrees constraint_name) as H.
  unfold generated in H. destruct (exec_all _ empty_Db) as [db|]; [|done].
  apply andb_true_iff in H as [Ha Hc]. apply schema_agrees_sound in Ha. exists db.
  split_and!; [done|done| |].
  - intros n t Ht. rewrite forallb_forall in Hc.
    specialize (Hc (n, t)). cbn in Hc. apply elem_of_map_to_list, list_elem_of_In, Hc in Ht.
    by destruct (tb_checks t).
  - intros n Hn. apply eq_None_not_Some. intros Hs%(soc_complete _ _ _ Ha). revert Hs Hn.
    clear. rewrite app_nil_r. intros H1 H2.
    assert (forallb (fun x => negb (bool_decide (x ∈ map declared_table declared_models)))
              observation_tables = true) as H by by vm_compute.
    rewrite forallb_forall in H. apply list_elem_of_In, H in H2.
    by rewrite bool_decide_eq_true_2 in H2.
Qed.
End Schema.

(** ** An example

    An ORM that names constraints after their columns. *)

Module OrmDemo.
Local Open Scope string_scope.

Definition indexes (table : string) (fields : list (string * Field)) : list stmt :=
  omap (fun nf => if existsb (fun k => match k with db_index true => true | _ => false end)
                       (field_args nf.2)
                  then Some (CreateIndex (table ++ "_" ++ nf.1 ++ "_idx") table [col_name (column_of nf)])
                  else None) fields.

Lemma indexes_plain table fields s : s ∈ indexes table fields ->
  exists name nf, nf ∈ fields /\ s = CreateIndex name table [col_name (column_of nf)].
Proof.
  unfold indexes. rewrite list_elem_of_omap. intros (nf & Hin & Hs).
  destruct (existsb _ _); [|done]. injection Hs as <-. eauto.
Qed.

Definition name_constraint (table : string) (g : list string) : string :=
  "uid_" ++ table ++ "_" ++ String.concat "_" g.

Definition sql_of (o : operation) : list stmt :=
  plain_sql name_constraint o ++
  match o with CreateModel _ fields options _ => indexes (opt_table options) fields | _ => [] end.

#[export] Program Instance example_tortoise : Tortoise := {|
  constraint_name := name_constraint;
  index_sql := indexes;
  to_sql := sql_of;
|}.
Next Obligation. eauto using indexes_plain. Qed.
Next Obligation. done. Qed.
Next Obligation. intros model name f Hn. unfold sql_of, plain_sql. by rewrite Hn. Qed.
Next Obligation.
  intros model name f d v Hn Hd Hv. unfold sql_of, plain_sql. rewrite Hn, Hd. simpl. by rewrite Hv.
Qed.
Next Obligation. done. Qed.
Next Obligation. done. Qed.
Next Obligation. intros sql rev. apply app_nil_r. Qed.
End OrmDemo.

Lemma migrations_build_the_models_witness :
  exists db, migrate (T := OrmDemo.example_tortoise) [] all_migrations empty_Db = Some db /\
    schema_of_classes observation_tables sql_unique_indexes db.
Proof. apply (migrations_build_the_models (T := OrmDemo.example_tortoise)). Defined.
