(* ===== verification/UpgradeProps.v ===== *)
(** * Upgrading a populated database

    A database at any stage whose rows satisfy its schema can be migrated to the end: no
    statement is refused, every row survives with its values, and the rows satisfy the final
    schema. *)

From Stdlib Require Import QArith Ascii.
From S2P Require Import Prelude PyText Json Models Sql Migrations ModelClasses SchemaProps.
Local Open Scope Z_scope.

(** ** Rows of a table *)

(** A row names columns of its table only, and satisfies their types and the checks. *)
Definition row_fits (t : Table) (r : row) : Prop :=
  (forall c v, (c, v) ∈ r -> has_column c t = true) /\ row_ok t r = true.

Definition rows_fit (db : Db) : Prop :=
  forall n t r, db_tables db !! n = Some t -> r ∈ db_rows db n -> row_fits t r.

(** The column that holds the values of a column of the first schemas. *)
Definition renamed (n c : string) : string :=
  if String.eqb n "user" && String.eqb c "is_staff" then "is_superuser" else c.

Definition row_kept (n : string) (t : Table) (r r' : row) : Prop :=
  forall c, has_column c t = true -> cell (renamed n c) r' = cell c r.

(** Tables keep their columns and rows. *)
Definition grown (db db' : Db) : Prop := forall n t, db_tables db !! n = Some t ->
  exists t', db_tables db' !! n = Some t' /\
    (forall c, has_column c t = true -> has_column (renamed n c) t' = true) /\
    Forall2 (row_kept n t) (db_rows db n) (db_rows db' n).

Lemma renamed_idem n c : renamed n (renamed n c) = renamed n c.
Proof.
  unfold renamed. destruct (String.eqb n "user"); [|done]. simpl.
  destruct (String.eqb c "is_staff") eqn:E; [done|]. by rewrite E.
Qed.

Lemma grown_trans d1 d2 d3 : grown d1 d2 -> grown d2 d3 -> grown d1 d3.
Proof.
  intros H12 H23 n t Ht. destruct (H12 _ _ Ht) as (t2 & Ht2 & Hc2 & Hr2).
  destruct (H23 _ _ Ht2) as (t3 & Ht3 & Hc3 & Hr3). exists t3. split_and!; [done| |].
  - intros c Hc. rewrite <- renamed_idem. auto.
  - revert Hr3. generalize (db_rows d3 n). revert Hr2. generalize (db_rows d1 n).
    generalize (db_rows d2 n). intros l2 l1 H1. induction H1 as [|r1 r2 l1 l2 Hk _ IH];
      intros l3 H2; inversion H2 as [|? r3 ? l3' Hk' Hl']; subst; constructor; [|auto].
    intros c Hc. rewrite <- (Hk c Hc), <- (Hk' (renamed n c)) by auto. by rewrite renamed_idem.
Qed.

(** ** Tables depend on tables only *)

#[local] Arguments alter : simpl never.
#[local] Arguments exec : simpl never.

Lemma alter_tables a t rows rows0 t1 t2 rows1 rows2 :
  alter a (t, rows) = Some (t1, rows1) -> alter a (t, rows0) = Some (t2, rows2) -> t1 = t2.
Proof. unfold alter. destruct a; repeat case_match; intros; by simplify_eq/=. Qed.

Lemma alter_all_tables l t rows rows0 t1 t2 rows1 rows2 :
  alter_all l (t, rows) = Some (t1, rows1) -> alter_all l (t, rows0) = Some (t2, rows2) -> t1 = t2.
Proof.
  revert t rows rows0. induction l as [|a l IH]; intros t rows rows0; simpl; [naive_solver|].
  destruct (alter a (t, rows)) as [[u ru]|] eqn:E1; [|done].
  destruct (alter a (t, rows0)) as [[u' ru']|] eqn:E2; [|done].
  rewrite (alter_tables _ _ _ _ _ _ _ _ E1 E2). eauto.
Qed.

Lemma exec_tables s d d0 d' d0' :
  db_tables d = db_tables d0 -> exec s d = Some d' -> exec s d0 = Some d0' ->
  db_tables d' = db_tables d0'.
Proof.
  intros Ht. unfold exec, on_table, index_table. rewrite Ht.
  destruct s; repeat case_match; intros; simplify_eq; simpl; try congruence.
  rewrite Ht. f_equal. by eapply alter_all_tables.
Qed.

Lemma exec_all_tables l d d0 d' d0' :
  db_tables d = db_tables d0 -> exec_all l d = Some d' -> exec_all l d0 = Some d0' ->
  db_tables d' = db_tables d0'.
Proof.
  revert d d0. induction l as [|s l IH]; intros d d0 Ht; simpl; [naive_solver|].
  destruct (exec s d) as [e|] eqn:E; [|done]. destruct (exec s d0) as [e0|] eqn:E0; [|done].
  apply IH. by eapply exec_tables.
Qed.

(** ** Statements on tables created before *)

(** The tables created so far, where a statement is about one of them only. *)
Definition fresh_stmt (created : list string) (s : stmt) : option (list string) :=
  match s with
  | CreateExtension _ => Some created
  | CreateTable n _ _ _ => Some (n :: created)
  | CreateHypertable n _ | CreateIndex _ n _ | CreateUniqueIndex _ n _ | AlterTable n _ =>
      if existsb (String.eqb n) created then Some created else None
  | _ => None
  end.
Fixpoint fresh_all (created : list string) (l : list stmt) : option (list string) :=
  match l with
  | [] => Some created
  | s :: l' => match fresh_stmt created s with Some c => fresh_all c l' | None => None end
  end.

(** A run on a populated database follows the run on the same tables without rows. *)
Record follows_empty (start : Db) (created : list string) (d0 d : Db) : Prop := {
  fe_tables : db_tables d = db_tables d0;
  fe_empty : forall n, db_rows d0 n = [];
  fe_created : forall n, n ∈ created -> db_rows d n = [] /\ db_tables start !! n = None;
  fe_start : forall n t, db_tables start !! n = Some t ->
    db_tables d !! n = Some t /\ db_rows d n = db_rows start n;
  fe_new : forall n, db_tables start !! n = None -> is_Some (db_tables d !! n) -> n ∈ created;
}.

Lemma alter_nil a t t' rows : alter a (t, []) = Some (t', rows) -> rows = [].
Proof. unfold alter. destruct a; repeat case_match; intros; by simplify_eq/=. Qed.

Lemma alter_all_nil l t t' rows : alter_all l (t, []) = Some (t', rows) -> rows = [].
Proof.
  revert t. induction l as [|a l IH]; intros t; simpl; [naive_solver|].
  destruct (alter a (t, [])) as [[u ru]|] eqn:E; [|done]. rewrite (alter_nil _ _ _ _ E). apply IH.
Qed.

Lemma follows_put start created d0 d n t :
  follows_empty start created d0 d -> n ∈ created ->
  follows_empty start created (put n t [] d0) (put n t [] d).
Proof.
  intros [Ht He Hc Hs Hn] Hin. split; simpl.
  - by rewrite Ht.
  - intros m. by destruct (String.eqb m n).
  - intros m Hm. destruct (String.eqb m n); [split; [done|]; by apply Hc|by apply Hc].
  - intros m u Hu. assert (m <> n) as Hmn.
    { intros ->. destruct (Hc _ Hin). congruence. }
    rewrite lookup_insert_ne by done. apply String.eqb_neq in Hmn. rewrite Hmn. by apply Hs.
  - intros m Hm. rewrite lookup_insert_is_Some'. intros [<-|Hs']; [done|by apply Hn].
Qed.

Lemma follows_create start created d0 d n t :
  follows_empty start created d0 d -> db_tables d !! n = None ->
  follows_empty start (n :: created) (put n t [] d0) (put n t [] d).
Proof.
  intros [Ht He Hc Hs Hn] Hnone.
  assert (db_tables start !! n = None) as Hsn.
  { destruct (db_tables start !! n) as [u|] eqn:E; [|done]. apply Hs in E as [E _]. congruence. }
  split; simpl.
  - by rewrite Ht.
  - intros m. by destruct (String.eqb m n).
  - intros m [->|Hm]%elem_of_cons; [by rewrite String.eqb_refl|].
    destruct (String.eqb m n); [|by apply Hc]. split; [done|]. by apply Hc.
  - intros m u Hu. destruct (Hs _ _ Hu) as [Hd Hr].
    assert (m <> n) as Hmn by congruence. rewrite lookup_insert_ne by done.
    apply String.eqb_neq in Hmn. by rewrite Hmn.
  - intros m Hm. rewrite lookup_insert_is_Some'. intros [<-|Hs']; [by left|right; by apply Hn].
Qed.

Lemma follows_exec start created created' s d0 d d0' :
  fresh_stmt created s = Some created' -> follows_empty start created d0 d ->
  exec s d0 = Some d0' -> exists d', exec s d = Some d' /\ follows_empty start created' d0' d'.
Proof.
  intros Hf Hsim He. assert (Hin : forall n, existsb (String.eqb n) created = true -> n ∈ created).
  { intros n (x & Hx & Heq)%existsb_exists. apply String.eqb_eq in Heq as ->.
    by apply list_elem_of_In. }
  assert (Hrows : forall n, n ∈ created -> db_rows d n = [] /\ db_rows d0 n = []).
  { intros n Hn. split; [by apply (fe_created _ _ _ _ Hsim)|apply (fe_empty _ _ _ _ Hsim)]. }
  pose proof (fe_tables _ _ _ _ Hsim) as Ht.
  destruct s; simpl in Hf; try done; try (destruct (existsb _ _) eqn:Hex; [|done]; apply Hin in Hex;
    destruct (Hrows _ Hex) as [Hr Hr0]); injection Hf as <-; unfold exec, on_table in *;
    rewrite ?Ht, ?Hr, ?Hr0 in *.
  - injection He as <-. eauto.
  - destruct (db_tables d0 !! name) eqn:E; [done|]. injection He as <-. eexists. split; [done|].
    apply follows_create; [done|congruence].
  - repeat case_match; try done. injection He as <-. eexists. split; [done|]. by apply follows_put.
  - repeat case_match; try done. injection He as <-. eauto.
  - repeat case_match; try done. injection He as <-. eexists. split; [done|]. by apply follows_put.
  - repeat case_match; try done. injection He as <-. eexists. split; [done|].
    match goal with H : alter_all _ _ = Some _ |- _ => rewrite (alter_all_nil _ _ _ _ H) end.
    by apply follows_put.
Qed.

Lemma follows_exec_all start created created' l d0 d d0' :
  fresh_all created l = Some created' -> follows_empty start created d0 d ->
  exec_all l d0 = Some d0' -> exists d', exec_all l d = Some d' /\ follows_empty start created' d0' d'.
Proof.
  revert created d0 d. induction l as [|s l IH]; intros created d0 d; simpl.
  - intros [= ->] Hsim [= ->]. eauto.
  - destruct (fresh_stmt created s) as [c|] eqn:Ef; [|done].
    destruct (exec s d0) as [e0|] eqn:E0; [|done]. intros Hf Hsim He.
    destruct (follows_exec _ _ _ _ _ _ _ Ef Hsim E0) as (e & -> & Hsim'). eauto.
Qed.

(** The column is renamed by the second migration. *)
Definition is_renamed (tables : gmap string Table) : bool :=
  match tables !! "user" with Some t => negb (has_column "is_staff" t) | None => true end.

Lemma renamed_done tables n t c :
  is_renamed tables = true -> tables !! n = Some t -> has_column c t = true -> renamed n c = c.
Proof.
  unfold is_renamed, renamed. intros Hr Hn Hc.
  destruct (String.eqb n "user") eqn:En; [|done]. apply String.eqb_eq in En as ->.
  destruct (String.eqb c "is_staff") eqn:Ec; [|done]. apply String.eqb_eq in Ec as ->.
  rewrite Hn, Hc in Hr. done.
Qed.

Lemma Forall2_same {A} (R : A -> A -> Prop) l : (forall x, x ∈ l -> R x x) -> Forall2 R l l.
Proof.
  induction l as [|x l IH]; intros H; constructor; [apply H; by left|].
  apply IH. intros y Hy. apply H. by right.
Qed.

(** Statements that create tables and are about these tables only run on every database,
    leave the others alone and the new ones empty. *)
Lemma creating_upgrade l created tables d0' d :
  fresh_all [] l = Some created -> is_renamed tables = true -> db_tables d = tables ->
  exec_all l (mkDb tables (fun _ => [])) = Some d0' -> rows_fit d ->
  exists d', exec_all l d = Some d' /\ rows_fit d' /\ grown d d'.
Proof.
  intros Hf Hren Ht He Hok.
  destruct (follows_exec_all d [] created l (mkDb tables (fun _ => [])) d d0' Hf) as (d' & Hd & Hsim);
    [|done|].
  { split; simpl; try done; [by intros n ?%elem_of_nil|]. intros n Hn [t Hs]. congruence. }
  exists d'. split_and!; [done| |].
  - intros n t r Hn Hr. destruct (db_tables d !! n) as [u|] eqn:E.
    + destruct (fe_start _ _ _ _ Hsim _ _ E) as [E' Hrows]. rewrite Hrows in Hr.
      rewrite Hn in E'. simplify_eq. by eapply Hok.
    + assert (n ∈ created) as Hin by (eapply (fe_new _ _ _ _ Hsim); eauto).
      apply (fe_created _ _ _ _ Hsim) in Hin as [Hnil _]. rewrite Hnil in Hr.
      by apply elem_of_nil in Hr.
  - intros n t Hn. destruct (fe_start _ _ _ _ Hsim _ _ Hn) as [E' Hrows]. exists t.
    assert (Hid : forall c, has_column c t = true -> renamed n c = c).
    { intros c. eapply renamed_done; [exact Hren|]. by rewrite <- Ht. }
    split_and!; [done| |].
    + intros c Hc. by rewrite Hid.
    + rewrite Hrows. apply Forall2_same. intros r _ c Hc. by rewrite Hid.
Qed.

(** ** Statements on populated tables *)

Lemma cell_set_cell c c' v r :
  cell c (set_cell c' v r) = if String.eqb c c' then v else cell c r.
Proof.
  unfold set_cell. simpl. destruct (String.eqb c c') eqn:E; [done|].
  induction r as [|[k x] r IH]; [done|]. simpl. destruct (String.eqb c' k) eqn:Ek; simpl.
  - apply String.eqb_eq in Ek as <-. by rewrite E.
  - by rewrite IH.
Qed.

Lemma cell_absent c r : (forall v, (c, v) ∉ r) -> cell c r = VNull.
Proof.
  induction r as [|[k x] r IH]; intros H; [done|]. simpl. destruct (String.eqb c k) eqn:E.
  - apply String.eqb_eq in E as <-. exfalso. apply (H x). by left.
  - apply IH. intros v Hv. apply (H v). by right.
Qed.

Lemma has_column_in c t : has_column c t = true <-> exists x, x ∈ tb_columns t /\ col_name x = c.
Proof.
  unfold has_column. rewrite existsb_exists. setoid_rewrite <- list_elem_of_In.
  setoid_rewrite String.eqb_eq. naive_solver.
Qed.

(** Rows that agree on the columns of a condition agree on it. *)
Fixpoint expr_columns (e : expr) : list string :=
  match e with
  | Col c => [c]
  | Num _ | Str _ => []
  | Cardinality e | JsonbTypeof e => expr_columns e
  end.
Fixpoint cond_columns (c : cond) : list string :=
  match c with
  | IsNull e | In e _ => expr_columns e
  | Cmp _ e1 e2 => expr_columns e1 ++ expr_columns e2
  | Between e lo hi => expr_columns e ++ expr_columns lo ++ expr_columns hi
  | And c1 c2 | Or c1 c2 => cond_columns c1 ++ cond_columns c2
  end.

Lemma eval_ext e r r' : (forall c, c ∈ expr_columns e -> cell c r' = cell c r) -> eval e r' = eval e r.
Proof.
  induction e; simpl; intros H; [apply H; by left|done|done|by rewrite IHe|by rewrite IHe].
Qed.

Lemma truth_ext q r r' :
  (forall c, c ∈ cond_columns q -> cell c r' = cell c r) -> truth q r' = truth q r.
Proof.
  induction q; simpl; intros H; setoid_rewrite elem_of_app in H || idtac;
    repeat setoid_rewrite elem_of_app in H;
    rewrite ?(eval_ext e r r'), ?(eval_ext e1 r r'), ?(eval_ext e2 r r'), ?(eval_ext lo r r'),
      ?(eval_ext hi r r'), ?IHq1, ?IHq2 by auto; done.
Qed.

(** The checks of a table are about its columns. *)
Definition checks_closed (t : Table) : bool :=
  forallb (fun nc => forallb (fun c => has_column c t) (cond_columns nc.2)) (tb_checks t).

Lemma row_ok_iff t r : row_ok t r = true <->
  (forall x, x ∈ tb_columns t -> column_ok r x = true) /\
  (forall n q, (n, q) ∈ tb_checks t -> check_holds q r = true).
Proof.
  unfold row_ok. rewrite andb_true_iff, !forallb_forall. setoid_rewrite <- list_elem_of_In.
  split; intros [H1 H2]; (split; [done|]).
  - intros n q Hq. apply (H2 (n, q) Hq).
  - intros [n q] Hq. by apply (H2 n q).
Qed.

Lemma column_ok_ext x r r' : cell (col_name x) r' = cell (col_name x) r -> column_ok r' x = column_ok r x.
Proof. unfold column_ok. by intros ->. Qed.

Lemma checks_ext t r r' :
  checks_closed t = true -> (forall c, has_column c t = true -> cell c r' = cell c r) ->
  forall n q, (n, q) ∈ tb_checks t -> check_holds q r' = check_holds q r.
Proof.
  intros Hcl Hext n q Hq. unfold check_holds. rewrite (truth_ext q r r'); [done|].
  intros c Hc. apply Hext. unfold checks_closed in Hcl. rewrite forallb_forall in Hcl.
  apply list_elem_of_In, Hcl in Hq. rewrite forallb_forall in Hq. by apply Hq, list_elem_of_In.
Qed.

Section AddColumn.
Context (t : Table) (c : Column) (v : value).
Context (Hnew : has_column (col_name c) t = false) (Hcl : checks_closed t = true).
Context (Hv : column_ok [(col_name c, v)] c = true).

Lemma added_cell r d : has_column d t = true -> cell d (set_cell (col_name c) v r) = cell d r.
Proof.
  intros Hd. rewrite cell_set_cell. destruct (String.eqb d (col_name c)) eqn:E; [|done].
  apply String.eqb_eq in E as ->. congruence.
Qed.

Lemma added_fits r :
  row_fits t r -> row_fits (set_columns (tb_columns t ++ [c]) t) (set_cell (col_name c) v r).
Proof.
  intros [Hk [Hcol Hch]%row_ok_iff]. split.
  - intros d x Hin. apply has_column_in. simpl. apply elem_of_cons in Hin as [[= -> ->]|Hin].
    + exists c. split; [|done]. apply elem_of_app. right. by left.
    + apply list_elem_of_In, filter_In in Hin as [Hin _]. apply list_elem_of_In in Hin.
      apply Hk, has_column_in in Hin as (y & ? & ?). exists y. rewrite elem_of_app. auto.
  - apply row_ok_iff. split; simpl.
    + intros x [Hx| ->%list_elem_of_singleton]%elem_of_app.
      * rewrite (column_ok_ext x r); [auto|]. apply added_cell, has_column_in. eauto.
      * revert Hv. unfold column_ok. rewrite cell_set_cell. simpl. by rewrite String.eqb_refl.
    + intros n q Hq. rewrite (checks_ext t r) with (n := n); eauto using added_cell.
Qed.
End AddColumn.

Section RenameColumn.
Context (t : Table) (old new : string).
Context (Hold : has_column old t = true) (Hnew : has_column new t = false).
Context (Hcl : tb_checks t = []).

Definition rename_row (r : row) : row := map (fun p => if String.eqb old p.1 then (new, p.2) else p) r.

Lemma rename_cell r c : (forall d x, (d, x) ∈ r -> has_column d t = true) ->
  has_column c t = true -> cell (if String.eqb old c then new else c) (rename_row r) = cell c r.
Proof.
  intros Hk Hc. induction r as [|[k x] r IH]; [by destruct (String.eqb old c)|].
  simpl. rewrite <- IH by (intros d y Hy; apply (Hk d y); by right).
  assert (has_column k t = true) as Hkt by (apply (Hk k x); by left).
  assert (Hne : forall d, has_column d t = true -> String.eqb d new = false /\ String.eqb new d = false).
  { intros d Hd. split; apply String.eqb_neq; congruence. }
  destruct (String.eqb old c) eqn:Eo, (String.eqb old k) eqn:Ek; simpl.
  - apply String.eqb_eq in Eo as <-. apply String.eqb_eq in Ek as <-. by rewrite !String.eqb_refl.
  - apply String.eqb_eq in Eo as <-. rewrite Ek. by rewrite (proj2 (Hne k Hkt)).
  - rewrite (proj1 (Hne c Hc)). apply String.eqb_eq in Ek as <-.
    by rewrite (String.eqb_sym c old), Eo.
  - done.
Qed.

Definition rename_column (x : Column) : Column :=
  if String.eqb old (col_name x)
  then mkColumn new (col_type x) (col_not_null x) (col_references x) else x.

Lemma rename_column_name x : col_name (rename_column x) = if String.eqb old (col_name x) then new else col_name x.
Proof. unfold rename_column. by destruct (String.eqb old (col_name x)). Qed.

Lemma has_column_rename c : has_column c t = true ->
  has_column (if String.eqb old c then new else c) (set_columns (map rename_column (tb_columns t)) t) = true.
Proof.
  intros (x & Hx & <-)%has_column_in. apply has_column_in. exists (rename_column x). simpl.
  split; [by apply list_elem_of_fmap_2|apply rename_column_name].
Qed.

Lemma rename_fits r :
  row_fits t r -> row_fits (set_columns (map rename_column (tb_columns t)) t) (rename_row r).
Proof.
  intros [Hk [Hcol Hch]%row_ok_iff]. split.
  - intros d y Hin. unfold rename_row in Hin.
    apply list_elem_of_In, in_map_iff in Hin as ([k x] & Heq & Hin%list_elem_of_In).
    simpl in Heq. assert (d = if String.eqb old k then new else k) as ->.
    { by destruct (String.eqb old k); simplify_eq. }
    apply has_column_rename. by apply (Hk k x).
  - apply row_ok_iff. split; simpl.
    + intros y Hy. apply list_elem_of_In, in_map_iff in Hy as (x & <- & Hin%list_elem_of_In).
      rewrite <- (Hcol x Hin). unfold column_ok. rewrite rename_column_name, rename_cell;
        [|done|apply has_column_in; eauto].
      unfold rename_column. by destruct (String.eqb old (col_name x)).
    + rewrite Hcl. by intros n q ?%elem_of_nil.
Qed.
End RenameColumn.

(** Replacing the definition and the rows of one table. *)
Lemma put_upgrade d n t t' rows' :
  (n = "user" \/ is_renamed (db_tables d) = true) -> db_tables d !! n = Some t -> rows_fit d ->
  (forall r, r ∈ rows' -> row_fits t' r) ->
  (forall c, has_column c t = true -> has_column (renamed n c) t' = true) ->
  Forall2 (row_kept n t) (db_rows d n) rows' ->
  rows_fit (put n t' rows' d) /\ grown d (put n t' rows' d).
Proof.
  intros Hn Ht Hok Hf Hc Hk. split.
  - intros m u r. simpl. destruct (decide (m = n)) as [->|Hm].
    + rewrite lookup_insert_eq, String.eqb_refl. intros [= <-]. apply Hf.
    + rewrite lookup_insert_ne by done. apply String.eqb_neq in Hm. rewrite Hm. apply Hok.
  - intros m u Hu. simpl. destruct (decide (m = n)) as [->|Hm].
    + rewrite lookup_insert_eq, String.eqb_refl. exists t'. rewrite Ht in Hu. by injection Hu as <-.
    + rewrite lookup_insert_ne by done. exists u.
      assert (Hid : forall c, has_column c u = true -> renamed m c = c).
      { intros c Hcu. destruct Hn as [->|Hn]; [|by eapply renamed_done].
        unfold renamed. apply String.eqb_neq in Hm. by rewrite Hm. }
      apply String.eqb_neq in Hm. rewrite Hm. split_and!; [done| |].
      * intros c Hcu. by rewrite Hid.
      * apply Forall2_same. intros r _ c Hcu. by rewrite Hid.
Qed.

(** What is said of a database depends on its tables and rows only. *)
Lemma upgrade_ext d e e' :
  db_tables e' = db_tables e -> (forall n, db_rows e' n = db_rows e n) ->
  rows_fit e -> grown d e -> rows_fit e' /\ grown d e'.
Proof.
  intros Ht Hr Hok Hg. split.
  - intros n t r. rewrite Ht, Hr. apply Hok.
  - intros n t Hn. destruct (Hg _ _ Hn) as (t' & ? & ? & ?). exists t'. by rewrite Ht, Hr.
Qed.

Lemma set_cell_twice c v w r : set_cell c w (set_cell c v r) = set_cell c w r.
Proof.
  unfold set_cell. simpl. rewrite String.eqb_refl. simpl. f_equal.
  induction r as [|[k x] r IH]; [done|]. simpl. destruct (String.eqb c k) eqn:E; simpl; [done|].
  rewrite E. simpl. by rewrite IH.
Qed.

Lemma replace_absent c l :
  existsb (fun x => String.eqb (col_name c) (col_name x)) l = false ->
  map (fun x => if String.eqb (col_name c) (col_name x) then c else x) l = l.
Proof.
  induction l as [|x l IH]; [done|]. simpl. intros [-> ?]%orb_false_iff. f_equal. auto.
Qed.

Lemma filled_ok c v rows :
  column_ok [(col_name c, v)] c = true ->
  forallb (fun r => column_ok r c) (map (set_cell (col_name c) v) rows) = true.
Proof.
  intros Hv. apply forallb_forall. intros r' (r & <- & _)%in_map_iff.
  revert Hv. unfold column_ok. rewrite cell_set_cell. simpl. by rewrite String.eqb_refl.
Qed.

(** Adding a column with a value that fits it. *)
Lemma add_column_upgrade d n t c v a :
  a = AddColumnDefault c v \/ (a = AddColumn c /\ v = VNull /\ col_not_null c = false) ->
  is_renamed (db_tables d) = true -> db_tables d !! n = Some t -> rows_fit d ->
  has_column (col_name c) t = false -> checks_closed t = true ->
  column_ok [(col_name c, v)] c = true ->
  let d' := put n (set_columns (tb_columns t ++ [c]) t) (map (set_cell (col_name c) v) (db_rows d n)) d in
  exec (AlterTable n [a]) d = Some d' /\ rows_fit d' /\ grown d d'.
Proof.
  intros Ha Hren Ht Hok Hnew Hcl Hv d'. split.
  - unfold exec. rewrite Ht. cbn [alter_all]. unfold alter.
    destruct Ha as [->|(-> & -> & Hnn)]; rewrite ?Hnn, Hnew; done.
  - apply put_upgrade with (t := t); [by right|done|done| | |].
    + intros r' Hr'. apply list_elem_of_In, in_map_iff in Hr' as (r & <- & Hr%list_elem_of_In).
      apply added_fits; [done..|]. by eapply Hok.
    + intros e He. rewrite (renamed_done _ _ _ _ Hren Ht He).
      apply has_column_in in He as (x & ? & ?). apply has_column_in. exists x. simpl.
      rewrite elem_of_app. auto.
    + apply Forall2_fmap_r, Forall2_same. intros r _ e He.
      rewrite (renamed_done _ _ _ _ Hren Ht He). by eapply added_cell.
Qed.

(** A column that is added empty, filled and then made NOT NULL is added with its value. *)
Lemma add_then_require d n t name ty v :
  is_renamed (db_tables d) = true -> db_tables d !! n = Some t -> rows_fit d ->
  has_column name t = false -> checks_closed t = true ->
  holds_value ty v = true -> is_null v = false ->
  exists d', exec_all [AlterTable n [AddColumn (mkColumn name ty false None)]; UpdateNulls n name v;
                       AlterTable n [SetColumn (mkColumn name ty true None)]] d = Some d' /\
    rows_fit d' /\ grown d d'.
Proof.
  intros Hren Hu Hok Hnew Hcl Hty Hv.
  set (c := mkColumn name ty true None). set (c0 := mkColumn name ty false None).
  assert (Hc : column_ok [(name, v)] c = true).
  { unfold column_ok. simpl. by rewrite String.eqb_refl, Hty, Hv. }
  edestruct (add_column_upgrade d n t c v (AddColumnDefault c v)) as (_ & Hfit & Hg); [by left|done..|].
  destruct (add_column_upgrade d n t c0 VNull (AddColumn c0)) as (He & _); [by right|done..| |].
  { unfold column_ok. simpl. rewrite String.eqb_refl. by destruct ty. }
  assert (Hcol1 : has_column name (set_columns (tb_columns t ++ [c0]) t) = true).
  { apply has_column_in. exists c0. split; [|done]. apply elem_of_app. right. by left. }
  assert (Hfill : map (fun r => if is_null (cell name r) then set_cell name v r else r)
      (map (set_cell name VNull) (db_rows d n)) = map (set_cell name v) (db_rows d n)).
  { rewrite map_map. apply map_ext. intros r. rewrite cell_set_cell, String.eqb_refl. simpl.
    apply set_cell_twice. }
  assert (Hcols : set_columns (map (fun x => if String.eqb name (col_name x) then c else x)
      (tb_columns t ++ [c0])) t = set_columns (tb_columns t ++ [c]) t).
  { f_equal. rewrite map_app. f_equal; [by apply (replace_absent c)|]. simpl.
    by rewrite String.eqb_refl. }
  cbn [exec_all]. rewrite He. unfold exec. cbn [put db_tables db_rows].
  rewrite lookup_insert_eq, Hcol1. cbn [db_tables db_rows].
  rewrite lookup_insert_eq, !String.eqb_refl. cbn [alter_all]. unfold alter. cbn [col_name c c0].
  rewrite Hcol1, Hfill, (filled_ok c) by done. cbn [andb]. eexists. split; [done|].
  eapply upgrade_ext; [| |exact Hfit|exact Hg].
  - cbn [put db_tables]. rewrite !insert_insert_eq. f_equal. by rewrite <- Hcols.
  - intros m. cbn [put db_rows]. by destruct (String.eqb m n).
Qed.

Lemma named_without {A} name (l : list (string * A)) : named name (without name l) = false.
Proof.
  unfold named, without. induction l as [|[m x] l IH]; [done|]. simpl.
  destruct (String.eqb name m) eqn:E; simpl; [done|by rewrite E].
Qed.

(** A check is replaced by one that the rows satisfy as well. *)
Lemma replace_check d n t name q :
  is_renamed (db_tables d) = true -> db_tables d !! n = Some t -> rows_fit d ->
  named name (tb_checks t) = true -> (forall r, row_fits t r -> check_holds q r = true) ->
  exists d', exec_all [AlterTable n [DropConstraint name]; AlterTable n [AddCheck name q]] d = Some d' /\
    rows_fit d' /\ grown d d'.
Proof.
  intros Hren Hu Hok Hnamed Hq.
  pose proof (named_without name (tb_checks t)) as Hgone.
  set (t1 := set_checks (without name (tb_checks t)) t).
  set (t2 := set_checks (without name (tb_checks t) ++ [(name, q)]) t).
  assert (Hrows : forallb (check_holds q) (db_rows d n) = true).
  { apply forallb_forall. intros r Hr%list_elem_of_In. apply Hq. by eapply Hok. }
  destruct (put_upgrade d n t t2 (db_rows d n)) as [Hfit Hg]; [by right|done|done| | | |].
  - intros r Hr. destruct (Hok n t r Hu Hr) as [Hk Hrok]. split; [done|].
    apply row_ok_iff in Hrok as [Hcol Hch]. apply row_ok_iff. split; [done|]. simpl.
    intros m x [Hx|[= -> ->]%list_elem_of_singleton]%elem_of_app; [|by apply Hq, (Hok n t r)].
    apply (Hch m). unfold without in Hx. apply list_elem_of_In, filter_In in Hx as [Hx _].
    by apply list_elem_of_In.
  - intros e He. by rewrite (renamed_done _ _ _ _ Hren Hu He).
  - apply Forall2_same. intros r _ e He. by rewrite (renamed_done _ _ _ _ Hren Hu He).
  - cbn [exec_all]. unfold exec. rewrite Hu. cbn [alter_all]. unfold alter. rewrite Hnamed.
    cbn [put db_tables db_rows]. rewrite lookup_insert_eq, String.eqb_refl.
    cbn [set_checks tb_checks]. rewrite Hgone, Hrows. cbn [orb negb]. eexists. split; [done|].
    eapply upgrade_ext; [| |exact Hfit|exact Hg].
    + cbn [put db_tables]. by rewrite insert_insert_eq.
    + intros m. cbn [put db_rows]. by destruct (String.eqb m n).
Qed.

Lemma check_and a b r : check_holds (And a b) r = check_holds a r && check_holds b r.
Proof. unfold check_holds. cbn [truth]. by destruct (truth a r) as [[]|], (truth b r) as [[]|]. Qed.

Lemma check_between e lo hi r z :
  eval e r = VInt z -> check_holds (Between e (Num lo) (Num hi)) r = (lo <=? z) && (z <=? hi).
Proof.
  intros He. unfold check_holds. cbn [truth eval]. rewrite He. cbn.
  destruct (Z.compare_spec z lo), (Z.compare_spec z hi); cbn; lia.
Qed.

(** ** The stages *)

Section Stages.
Context (cn : string -> list string -> string).

(** The tables after the first [i] migrations. *)
Definition tables_after (i : nat) : gmap string Table :=
  match exec_all (plain_all cn (take i all_migrations)) empty_Db with
  | Some db => db_tables db
  | None => ∅
  end.

Definition upgrades (i : nat) (m : Migration) : Prop := forall d,
  db_tables d = tables_after i -> rows_fit d ->
  exists d', exec_all (plain_migration cn m) d = Some d' /\ rows_fit d' /\ grown d d'.

Definition creates (i : nat) (m : Migration) : bool :=
  match fresh_all [] (plain_migration cn m),
        exec_all (plain_migration cn m) (mkDb (tables_after i) (fun _ => [])) with
  | Some _, Some _ => is_renamed (tables_after i)
  | _, _ => false
  end.

Lemma creates_upgrades i m : creates i m = true -> upgrades i m.
Proof.
  unfold creates. intros H d Ht Hok.
  destruct (fresh_all _ _) as [created|] eqn:Ef; [|done].
  destruct (exec_all _ (mkDb _ _)) as [d0|] eqn:E; [|done]. by eapply creating_upgrade.
Qed.

(** What is known of a table at a stage. *)
Definition at_stage (i : nat) (n : string) (p : Table -> bool) : bool :=
  match tables_after i !! n with Some t => p t | None => false end.

Lemma at_stage_inv i n p d : at_stage i n p = true -> db_tables d = tables_after i ->
  exists t, db_tables d !! n = Some t /\ p t = true.
Proof. unfold at_stage. intros H ->. destruct (_ !! n) as [t|]; [eauto|done]. Qed.

Lemma upgrade_0002 : upgrades 1 migration_0002.
Proof.
  intros d Ht Hok. destruct (at_stage_inv 1 "user" (fun t => has_column "is_staff" t &&
    negb (has_column "is_superuser" t) && bool_decide (length (tb_checks t) = 0%nat)) d) as (t & Hu & Hp);
    [by vm_compute|done|].
  apply andb_true_iff in Hp as [[Hold Hnew%negb_true_iff]%andb_true_iff Hch%bool_decide_eq_true].
  apply length_zero_iff_nil in Hch.
  change (plain_migration cn migration_0002) with
    [AlterTable "user" [RenameColumn "is_staff" "is_superuser"]].
  cbn [exec_all]. unfold exec. rewrite Hu. cbn [alter_all]. unfold alter. rewrite Hold, Hnew.
  cbn [negb andb]. eexists. split; [done|].
  apply put_upgrade with (t := t); [by left|done|done| | |].
  - intros r' Hr'. apply list_elem_of_In, in_map_iff in Hr' as (r & <- & Hr%list_elem_of_In).
    apply (rename_fits t "is_staff" "is_superuser"); [done..|]. by eapply Hok.
  - intros c Hc. unfold renamed. cbn [String.eqb]. rewrite (String.eqb_sym c).
    by apply (has_column_rename t "is_staff" "is_superuser").
  - assert (Hin : forall r, r ∈ db_rows d "user" -> row_fits t r) by (intros r; by apply Hok).
    induction (db_rows d "user") as [|r l IH]; simpl; constructor.
    + intros c Hc. unfold renamed. cbn [String.eqb]. rewrite (String.eqb_sym c).
      apply (rename_cell t "is_staff" "is_superuser"); try done. apply Hin. by left.
    + apply IH. intros r' Hr'. apply Hin. by right.
Qed.

Lemma upgrade_0010 : upgrades 9 migration_0010.
Proof.
  intros d Ht Hok. destruct (at_stage_inv 9 "agentconfigurationstate" (fun t =>
    negb (has_column "acknowledged_content_hash" t) && checks_closed t &&
    is_renamed (tables_after 9)) d) as (t & Hu & Hp); [by vm_compute|done|].
  destruct_andb. rewrite <- Ht in *. clear Ht.
  edestruct (add_column_upgrade d "agentconfigurationstate" t
    (mkColumn "acknowledged_content_hash" (VARCHAR 64) true None) (VText EmptyString)
    (AddColumnDefault (mkColumn "acknowledged_content_hash" (VARCHAR 64) true None)
      (VText EmptyString))) as (He & Hfit & Hg); [by left|done|done|done|by apply negb_true_iff|done|done|].
  eexists. change (plain_migration cn migration_0010) with [AlterTable "agentconfigurationstate"
    [AddColumnDefault (mkColumn "acknowledged_content_hash" (VARCHAR 64) true None) (VText EmptyString)]].
  cbn [exec_all]. rewrite He. eauto.
Qed.

Lemma upgrade_0011 : upgrades 10 migration_0011.
Proof.
  intros d Ht Hok. destruct (at_stage_inv 10 "observations" (fun t =>
    negb (has_column "canonical_payload_hash" t) && checks_closed t &&
    is_renamed (tables_after 10)) d) as (t & Hu & Hp); [by vm_compute|done|].
  destruct_andb. rewrite <- Ht in *. clear Ht.
  edestruct (add_column_upgrade d "observations" t (optional "canonical_payload_hash" (VARCHAR 64)) VNull
    (AddColumn (optional "canonical_payload_hash" (VARCHAR 64))))
    as (He & Hfit & Hg); [by right|done|done|done|by apply negb_true_iff|done|done|].
  eexists. change (plain_migration cn migration_0011) with
    [AlterTable "observations" [AddColumn (optional "canonical_payload_hash" (VARCHAR 64))]].
  cbn [exec_all]. rewrite He. eauto.
Qed.

Lemma upgrade_0003 : upgrades 2 migration_0003.
Proof.
  intros d Ht Hok. destruct (at_stage_inv 2 "user" (fun t =>
    negb (has_column "session_version" t) && checks_closed t &&
    is_renamed (tables_after 2)) d) as (t & Hu & Hp); [by vm_compute|done|].
  destruct_andb. rewrite <- Ht in *. clear Ht.
  apply (add_then_require d "user" t "session_version" INTEGER (VInt 1));
    first [done | by apply negb_true_iff].
Qed.

Definition packet_counts (most : Z) : cond :=
  And (And (Between (Col "packets_sent") (Num 1) (Num most))
    (Between (Col "packets_received") (Num 0) (Col "packets_sent")))
    (Cmp Eq (Cardinality (Col "rtt_samples_ms")) (Col "packets_received")).

#[local] Instance comparison_eq_dec : EqDecision comparison.
Proof. solve_decision. Defined.
#[local] Instance expr_eq_dec : EqDecision expr.
Proof. solve_decision. Defined.
#[local] Instance cond_eq_dec : EqDecision cond.
Proof. solve_decision. Defined.

Lemma upgrade_0012 : upgrades 11 migration_0012.
Proof.
  intros d Ht Hok. destruct (at_stage_inv 11 "icmp_results" (fun t =>
    bool_decide (("icmp_results_packet_counts_valid", packet_counts 20) ∈ tb_checks t) &&
    bool_decide (required "packets_sent" INTEGER ∈ tb_columns t) &&
    named "icmp_results_packet_counts_valid" (tb_checks t) &&
    is_renamed (tables_after 11)) d) as (t & Hu & Hp); [by vm_compute|done|].
  destruct_andb. rewrite <- Ht in *. clear Ht.
  apply (replace_check d "icmp_results" t "icmp_results_packet_counts_valid" (packet_counts 100));
    [done..|].
  intros r [_ [Hcol Hch]%row_ok_iff]. apply bool_decide_eq_true in H, H2.
  apply Hch in H. apply Hcol in H2. unfold column_ok in H2.
  destruct (cell _ r) eqn:E in H2; try done.
  unfold packet_counts in *. rewrite !check_and, (check_between (Col "packets_sent") 1 20 r z E) in H.
  rewrite !check_and, (check_between (Col "packets_sent") 1 100 r z E).
  destruct_andb. split_andb; [lia..|done|done].
Qed.

Lemma every_stage_upgrades i m : all_migrations !! i = Some m -> upgrades i m.
Proof.
  destruct i as [|[|[|[|[|[|[|[|[|[|[|[|i]]]]]]]]]]]]; intros Hm.
  - destruct (Some_inj _ _ (Hm : Some migration_0001 = Some m)). apply creates_upgrades. by vm_compute.
  - destruct (Some_inj _ _ (Hm : Some migration_0002 = Some m)). apply upgrade_0002.
  - destruct (Some_inj _ _ (Hm : Some migration_0003 = Some m)). apply upgrade_0003.
  - destruct (Some_inj _ _ (Hm : Some migration_0004 = Some m)). apply creates_upgrades. by vm_compute.
  - destruct (Some_inj _ _ (Hm : Some migration_0005 = Some m)). apply creates_upgrades. by vm_compute.
  - destruct (Some_inj _ _ (Hm : Some migration_0006 = Some m)). apply creates_upgrades. by vm_compute.
  - destruct (Some_inj _ _ (Hm : Some migration_0007 = Some m)). apply creates_upgrades. by vm_compute.
  - destruct (Some_inj _ _ (Hm : Some migration_0008 = Some m)). apply creates_upgrades. by vm_compute.
  - destruct (Some_inj _ _ (Hm : Some migration_0009 = Some m)). apply creates_upgrades. by vm_compute.
  - destruct (Some_inj _ _ (Hm : Some migration_0010 = Some m)). apply upgrade_0010.
  - destruct (Some_inj _ _ (Hm : Some migration_0011 = Some m)). apply upgrade_0011.
  - destruct (Some_inj _ _ (Hm : Some migration_0012 = Some m)). apply upgrade_0012.
  - discriminate Hm.
Qed.
End Stages.

(** ** The upgrade *)

Section Upgrade.
Context {T : Tortoise}.

(** The names of the migrations applied before a stage. *)
Definition applied (i : nat) : list string := map mg_name (take i all_migrations).

Lemma ready_all : forallb (fun im => ready (applied im.1) im.2 && forallb addable (mg_operations im.2))
  (zip (seq 0 12) all_migrations) = true.
Proof. by vm_compute. Qed.

Lemma ready_at i m : all_migrations !! i = Some m ->
  ready (applied i) m = true /\ forallb addable (mg_operations m) = true.
Proof.
  intros Hm. apply andb_true_iff. pose proof ready_all as H. rewrite forallb_forall in H.
  apply (H (i, m)). apply list_elem_of_In, list_elem_of_lookup. exists i.
  apply lookup_zip_with_Some. exists i, m. split_and!; [done| |done].
  apply lookup_seq. split; [done|]. by apply lookup_lt_Some in Hm.
Qed.

Lemma plain_all_app cn l1 l2 : plain_all cn (l1 ++ l2) = plain_all cn l1 ++ plain_all cn l2.
Proof. unfold plain_all. by rewrite map_app, join_app. Qed.

Lemma prefix_runs cn i :
  exists d, exec_all (plain_all cn (take i all_migrations)) empty_Db = Some d /\
    db_tables d = tables_after cn i.
Proof.
  pose proof (final_agrees cn) as H. unfold final in H.
  rewrite <- (take_drop i all_migrations), plain_all_app, exec_all_app in H. unfold tables_after.
  destruct (exec_all (plain_all cn (take i all_migrations)) empty_Db) as [d|]; [eauto|done].
Qed.

Lemma tables_after_S cn i m d d' : all_migrations !! i = Some m ->
  db_tables d = tables_after cn i -> exec_all (plain_migration cn m) d = Some d' ->
  db_tables d' = tables_after cn (S i).
Proof.
  intros Hm Ht Hd. destruct (prefix_runs cn i) as (e & He & Hte).
  destruct (prefix_runs cn (S i)) as (e' & He' & <-).
  rewrite (take_S_r _ _ _ Hm), plain_all_app, exec_all_app, He in He'.
  unfold plain_all in He'. cbn [map mjoin list_join mbind option_bind] in He'. rewrite app_nil_r in He'.
  eapply exec_all_tables; [|exact Hd|exact He']. by rewrite Ht, Hte.
Qed.

Lemma grown_refl d : is_renamed (db_tables d) = true -> grown d d.
Proof.
  intros Hren n t Hn. exists t. split_and!; [done| |].
  - intros c Hc. by rewrite (renamed_done _ _ _ _ Hren Hn Hc).
  - apply Forall2_same. intros r _ c Hc. by rewrite (renamed_done _ _ _ _ Hren Hn Hc).
Qed.

Lemma renamed_at_end cn : is_renamed (tables_after cn 12) = true.
Proof. by vm_compute. Qed.

Lemma upgrade_from k i d : (i + k = 12)%nat ->
  db_tables d = tables_after constraint_name i -> rows_fit d ->
  exists d', migrate (applied i) (drop i all_migrations) d = Some d' /\ rows_fit d' /\ grown d d' /\
    db_tables d' = tables_after constraint_name 12.
Proof.
  revert i d. induction k as [|k IH]; intros i d Hi Ht Hok.
  - assert (i = 12%nat) as -> by lia. rewrite drop_ge by done. exists d.
    split_and!; [done..| |done]. apply grown_refl. rewrite Ht. apply renamed_at_end.
  - destruct (lookup_lt_is_Some_2 all_migrations i) as [m Hm]; [simpl; lia|].
    destruct (every_stage_upgrades constraint_name i m Hm d Ht Hok) as (d1 & Hd1 & Hok1 & Hg1).
    destruct (ready_at i m Hm) as [Hr Ha].
    destruct (IH (S i) d1) as (d2 & Hd2 & Hok2 & Hg2 & Ht2);
      [lia|by eapply tables_after_S|done|].
    exists d2. split_and!; [|done|by eapply grown_trans|done].
    rewrite (drop_S _ _ _ Hm). cbn [migrate]. rewrite Hr, exec_migration, Hd1 by done.
    rewrite <- Hd2. unfold applied. by rewrite (take_S_r _ _ _ Hm), map_app.
Qed.

Lemma migrate_take i :
  migrate [] (take i all_migrations) empty_Db =
    exec_all (plain_all constraint_name (take i all_migrations)) empty_Db.
Proof.
  apply migrate_plain; [apply forallb_forall; intros m Hm|].
  - apply list_elem_of_In in Hm. apply (elem_of_take) in Hm as (j & Hj & _).
    by apply (ready_at j).
  - apply in_order_app with (l2 := drop i all_migrations). by rewrite take_drop.
Qed.

(** C7 A database that the first [i] migrations built and that has been filled with rows that
    satisfy its columns and checks can be migrated to the end: the remaining migrations run,
    no row is lost, every column keeps its values (the flag [is_staff] under its new name),
    the rows satisfy the columns and checks of the final schema, and that schema is the one
    of the model classes. *)
Theorem populated_database_upgrades i db0 db :
  (i <= 12)%nat -> migrate [] (take i all_migrations) empty_Db = Some db0 ->
  db_tables db = db_tables db0 -> rows_fit db ->
  exists db', migrate (map mg_name (take i all_migrations)) (drop i all_migrations) db = Some db' /\
    rows_fit db' /\ grown db db' /\ schema_of_classes observation_tables sql_unique_indexes db'.
Proof.
  intros Hi H0 Ht Hok.
  assert (db_tables db0 = tables_after constraint_name i) as H1.
  { rewrite migrate_take in H0. destruct (prefix_runs constraint_name i) as (d & Hd & <-). congruence. }
  destruct (upgrade_from (12 - i) i db) as (db' & Hm & Hfit & Hg & Htb); [lia|congruence|done|].
  exists db'. split_and!; [done..|].
  pose proof (final_agrees constraint_name) as Hf. unfold final in Hf.
  destruct (prefix_runs constraint_name 12) as (d & Hd & Htd).
  rewrite take_ge in Hd by done. rewrite Hd in Hf. apply schema_agrees_sound in Hf.
  destruct Hf as [Hs Hc]. rewrite Htd, <- Htb in *. by split.
Qed.
End Upgrade.

(** ** An example

    A database after the first migration with one account. *)

Module UpgradeDemo.
Local Open Scope string_scope.

Import OrmDemo.

Definition account : row :=
  [("id", VUuid 7); ("created_at", VInstant 0); ("updated_at", VInstant 0);
   ("email", VText "ada@example.org"); ("password_hash", VText "argon2"); ("first_name", VText "Ada");
   ("last_name", VText "Lovelace"); ("is_active", VBool true); ("is_staff", VBool true);
   ("email_verified", VBool true)].

Definition first_tables : gmap string Table := tables_after name_constraint 1.
Definition populated : Db := mkDb first_tables (fun n => if String.eqb n "user" then [account] else []).

Lemma populated_fit : rows_fit populated.
Proof.
  intros n t r Hn Hr. cbn [populated db_rows] in Hr. destruct (String.eqb n "user") eqn:E;
    [|by apply elem_of_nil in Hr].
  apply String.eqb_eq in E as ->. apply list_elem_of_singleton in Hr as ->.
  assert (match first_tables !! "user" with
          | Some t => forallb (fun p => has_column p.1 t) account && row_ok t account
          | None => false
          end = true) as H by by vm_compute.
  cbn [populated db_tables] in Hn. rewrite Hn in H. apply andb_true_iff in H as [Hk Hok].
  split; [|done]. intros c v Hin. rewrite forallb_forall in Hk.
  by apply (Hk (c, v)), list_elem_of_In.
Qed.
End UpgradeDemo.

Lemma populated_database_upgrades_witness :
  exists db', migrate (T := OrmDemo.example_tortoise) ["0001_initial"] (drop 1 all_migrations)
      UpgradeDemo.populated = Some db' /\
    rows_fit db' /\ grown UpgradeDemo.populated db' /\ schema_of_classes observation_tables sql_unique_indexes db'.
Proof.
  destruct (prefix_runs OrmDemo.name_constraint 1) as (db0 & H0 & Ht0).
  apply (populated_database_upgrades (T := OrmDemo.example_tortoise) 1 db0).
  - lia.
  - rewrite migrate_take. exact H0.
  - symmetry. exact Ht0.
  - exact UpgradeDemo.populated_fit.
Defined.
