(* ===== verification/Wiring.v ===== *)
(** * Routes, connections and queues (main.py, api/*.py, auth/redis.py, celery_app.py)

    How a request finds its handler: FastAPI tries the routes in the order they were included,
    and takes the first whose path and method match.  The framework's own pages
    (/openapi.json, /docs, /redoc) lie outside. *)

From Stdlib Require Import Ascii.
From S2P Require Import Prelude PyText Platform Models.
Local Open Scope Z_scope.

(** ** Routing (Starlette) *)

Inductive verb := GET | POST | PUT | DELETE.
#[export] Instance verb_eq_dec : EqDecision verb.
Proof. solve_decision. Defined.

Inductive handler :=
| h_signup | h_request_email_verification | h_confirm_email_verification | h_forgot_password
| h_confirm_password_reset | h_login | h_logout | h_me | h_activate_realm | h_enrol_agent | h_heartbeat
| h_get_configuration | h_acknowledge_agent_configuration | h_upload_observations | h_list_agents
| h_create_agent | h_create_agent_enrolment_token | h_delete_agent_enrolment_token | h_list_agent_credentials
| h_get_agent_status | h_delete_agent_credential | h_list_targets | h_create_target | h_delete_target
| h_list_monitors | h_get_icmp_history | h_create_monitor_endpoint | h_list_agent_groups
| h_create_agent_group | h_list_target_groups | h_create_target_group | h_create_agent_group_membership
| h_delete_agent_group_membership | h_create_target_group_membership | h_delete_target_group_membership
| h_create_monitor_agent_assignment | h_delete_monitor_agent_assignment
| h_create_monitor_agent_group_assignment | h_delete_monitor_agent_group_assignment | h_get_monitor
| h_update_monitor | h_list_agent_group_memberships | h_list_target_group_memberships
| h_list_monitor_agent_assignments | h_list_monitor_agent_group_assignments | h_current_state
| h_recent_observations | h_monitor_history | h_verify_login_challenge | h_setup_totp | h_verify_totp
| h_disable_totp | h_two_factor_enabled | h_register_options | h_register_verify | h_authenticate_options
| h_authenticate_verify | h_delete_passkey | h_security_summary | h_health.

Record route := mkRoute { rt_verb : verb; rt_path : string; rt_handler : handler }.

(** A segment of a path template: literal, or a parameter, which any text without a slash
    but the empty one instantiates. *)
Inductive segment := Lit (s : string) | Param.

Definition is_param (s : string) : bool :=
  match s with String c _ => Ascii.eqb c "{" | EmptyString => false end.
Definition compile_path (path : string) : list segment :=
  map (fun s => if is_param s then Param else Lit s) (split_on "/" path).

(** The values of the parameters, where the path matches. *)
Fixpoint match_path (template : list segment) (path : list string) : option (list string) :=
  match template, path with
  | [], [] => Some []
  | Lit s :: template', t :: path' => if String.eqb s t then match_path template' path' else None
  | Param :: template', t :: path' =>
      if String.eqb t EmptyString then None else cons t <$> match_path template' path'
  | _, _ => None
  end.

Definition matches_path (r : route) (path : string) : option (list string) :=
  match_path (compile_path (rt_path r)) (split_on "/" path).

Inductive dispatched :=
| Handled (h : handler) (params : list string)
| MethodNotAllowed
| Redirected (path : string)
| NotFound.

Fixpoint first_full (routes : list route) (v : verb) (path : string) : option (handler * list string) :=
  match routes with
  | [] => None
  | r :: routes' =>
      match matches_path r path with
      | Some params => if bool_decide (rt_verb r = v) then Some (rt_handler r, params) else first_full routes' v path
      | None => first_full routes' v path
      end
  end.
Definition any_match (routes : list route) (path : string) : bool :=
  existsb (fun r => negb (is_none (matches_path r path))) routes.

(** [redirect_slashes]: the path with a slash more, or without those at its end. *)
Definition other_slash (path : string) : string :=
  match last_char path with
  | Some c => if Ascii.eqb c "/" then rstrip_with (Ascii.eqb "/") path else path +:+ "/"
  | None => path +:+ "/"
  end.

Definition dispatch (routes : list route) (v : verb) (path : string) : dispatched :=
  match first_full routes v path with
  | Some (h, params) => Handled h params
  | None =>
      if any_match routes path then MethodNotAllowed
      else if negb (String.eqb path "/") && any_match routes (other_slash path) then Redirected (other_slash path)
      else NotFound
  end.

(** [include_router]: the prefixes come before the path. *)
Definition include_router (prefix own : string) (routes : list route) : list route :=
  map (fun r => mkRoute (rt_verb r) (prefix +:+ own +:+ rt_path r) (rt_handler r)) routes.
Definition api_prefix : string := "/api/v1".

(** ** The routes *)

(** api/auth.py *)

Definition auth_prefix : string := "/auth".
Definition route_signup : route := mkRoute POST "/signup" h_signup.
Definition route_request_email_verification : route :=
  mkRoute POST "/email-verification/request" h_request_email_verification.
Definition route_confirm_email_verification : route :=
  mkRoute POST "/email-verification/confirm" h_confirm_email_verification.
Definition route_forgot_password : route := mkRoute POST "/password/forgot" h_forgot_password.
Definition route_confirm_password_reset : route := mkRoute POST "/password/reset" h_confirm_password_reset.
Definition route_login : route := mkRoute POST "/login" h_login.
Definition route_logout : route := mkRoute POST "/logout" h_logout.
Definition route_me : route := mkRoute GET "/me" h_me.
Definition route_activate_realm : route := mkRoute POST "/realm/{realm_id}/activate" h_activate_realm.
Definition auth_router : list route :=
  [route_signup; route_request_email_verification; route_confirm_email_verification; route_forgot_password;
   route_confirm_password_reset; route_login; route_logout; route_me; route_activate_realm].

(** api/agent_protocol.py *)

Definition agent_protocol_prefix : string := "/agent".
Definition route_enrol_agent : route := mkRoute POST "/enrol" h_enrol_agent.
Definition route_heartbeat : route := mkRoute POST "/heartbeat" h_heartbeat.
Definition route_get_configuration : route := mkRoute GET "/config" h_get_configuration.
Definition route_acknowledge_agent_configuration : route :=
  mkRoute POST "/config/acknowledge" h_acknowledge_agent_configuration.
Definition route_upload_observations : route := mkRoute POST "/observations" h_upload_observations.
Definition agent_protocol_router : list route :=
  [route_enrol_agent; route_heartbeat; route_get_configuration; route_acknowledge_agent_configuration;
   route_upload_observations].

(** api/monitoring.py *)

Definition monitoring_prefix : string := "/monitoring".
Definition route_list_agents : route := mkRoute GET "/agents" h_list_agents.
Definition route_create_agent : route := mkRoute POST "/agents" h_create_agent.
Definition route_create_agent_enrolment_token : route :=
  mkRoute POST "/agents/{agent_id}/enrolment-tokens" h_create_agent_enrolment_token.
Definition route_delete_agent_enrolment_token : route :=
  mkRoute DELETE "/agents/{agent_id}/enrolment-tokens/{token_id}" h_delete_agent_enrolment_token.
Definition route_list_agent_credentials : route :=
  mkRoute GET "/agents/{agent_id}/credentials" h_list_agent_credentials.
Definition route_get_agent_status : route := mkRoute GET "/agents/{agent_id}/status" h_get_agent_status.
Definition route_delete_agent_credential : route :=
  mkRoute DELETE "/agents/{agent_id}/credentials/{credential_id}" h_delete_agent_credential.
Definition route_list_targets : route := mkRoute GET "/targets" h_list_targets.
Definition route_create_target : route := mkRoute POST "/targets" h_create_target.
Definition route_delete_target : route := mkRoute DELETE "/targets/{target_id}" h_delete_target.
Definition route_list_monitors : route := mkRoute GET "/monitors" h_list_monitors.
Definition route_get_icmp_history : route := mkRoute GET "/monitors/{monitor_id}/icmp/history" h_get_icmp_history.
Definition route_create_monitor_endpoint : route := mkRoute POST "/monitors" h_create_monitor_endpoint.
Definition route_list_agent_groups : route := mkRoute GET "/agent-groups" h_list_agent_groups.
Definition route_create_agent_group : route := mkRoute POST "/agent-groups" h_create_agent_group.
Definition route_list_target_groups : route := mkRoute GET "/target-groups" h_list_target_groups.
Definition route_create_target_group : route := mkRoute POST "/target-groups" h_create_target_group.
Definition route_create_agent_group_membership : route :=
  mkRoute PUT "/agent-groups/{group_id}/agents/{agent_id}" h_create_agent_group_membership.
Definition route_delete_agent_group_membership : route :=
  mkRoute DELETE "/agent-groups/{group_id}/agents/{agent_id}" h_delete_agent_group_membership.
Definition route_create_target_group_membership : route :=
  mkRoute PUT "/target-groups/{group_id}/targets/{target_id}" h_create_target_group_membership.
Definition route_delete_target_group_membership : route :=
  mkRoute DELETE "/target-groups/{group_id}/targets/{target_id}" h_delete_target_group_membership.
Definition route_create_monitor_agent_assignment : route :=
  mkRoute PUT "/monitors/{monitor_id}/agents/{agent_id}" h_create_monitor_agent_assignment.
Definition route_delete_monitor_agent_assignment : route :=
  mkRoute DELETE "/monitors/{monitor_id}/agents/{agent_id}" h_delete_monitor_agent_assignment.
Definition route_create_monitor_agent_group_assignment : route :=
  mkRoute PUT "/monitors/{monitor_id}/agent-groups/{group_id}" h_create_monitor_agent_group_assignment.
Definition route_delete_monitor_agent_group_assignment : route :=
  mkRoute DELETE "/monitors/{monitor_id}/agent-groups/{group_id}" h_delete_monitor_agent_group_assignment.
Definition monitoring_router : list route :=
  [route_list_agents; route_create_agent; route_create_agent_enrolment_token;
   route_delete_agent_enrolment_token; route_list_agent_credentials; route_get_agent_status;
   route_delete_agent_credential; route_list_targets; route_create_target; route_delete_target;
   route_list_monitors; route_get_icmp_history; route_create_monitor_endpoint; route_list_agent_groups;
   route_create_agent_group; route_list_target_groups; route_create_target_group;
   route_create_agent_group_membership; route_delete_agent_group_membership;
   route_create_target_group_membership; route_delete_target_group_membership;
   route_create_monitor_agent_assignment; route_delete_monitor_agent_assignment;
   route_create_monitor_agent_group_assignment; route_delete_monitor_agent_group_assignment].

(** api/monitor_management.py *)

Definition monitor_management_prefix : string := "/monitoring".
Definition route_get_monitor : route := mkRoute GET "/monitors/{monitor_id}" h_get_monitor.
Definition route_update_monitor : route := mkRoute PUT "/monitors/{monitor_id}" h_update_monitor.
Definition monitor_management_router : list route :=
  [route_get_monitor; route_update_monitor].

(** api/monitoring_relationships.py *)

Definition monitoring_relationships_prefix : string := "/monitoring".
Definition route_list_agent_group_memberships : route :=
  mkRoute GET "/agent-group-memberships" h_list_agent_group_memberships.
Definition route_list_target_group_memberships : route :=
  mkRoute GET "/target-group-memberships" h_list_target_group_memberships.
Definition route_list_monitor_agent_assignments : route :=
  mkRoute GET "/monitor-agent-assignments" h_list_monitor_agent_assignments.
Definition route_list_monitor_agent_group_assignments : route :=
  mkRoute GET "/monitor-agent-group-assignments" h_list_monitor_agent_group_assignments.
Definition monitoring_relationships_router : list route :=
  [route_list_agent_group_memberships; route_list_target_group_memberships;
   route_list_monitor_agent_assignments; route_list_monitor_agent_group_assignments].

(** api/dashboard.py *)

Definition dashboard_prefix : string := "/monitoring/dashboard".
Definition route_current_state : route := mkRoute GET "/current-state" h_current_state.
Definition route_recent_observations : route := mkRoute GET "/recent-observations" h_recent_observations.
Definition route_monitor_history : route := mkRoute GET "/monitors/{monitor_id}/history" h_monitor_history.
Definition dashboard_router : list route :=
  [route_current_state; route_recent_observations; route_monitor_history].

(** api/two_factor.py *)

Definition two_factor_prefix : string := "/auth/2fa".
Definition route_verify_login_challenge : route := mkRoute POST "/challenge/verify" h_verify_login_challenge.
Definition route_setup_totp : route := mkRoute POST "/totp/setup" h_setup_totp.
Definition route_verify_totp : route := mkRoute POST "/totp/verify" h_verify_totp.
Definition route_disable_totp : route := mkRoute DELETE "/totp" h_disable_totp.
Definition route_two_factor_enabled : route := mkRoute GET "/enabled" h_two_factor_enabled.
Definition two_factor_router : list route :=
  [route_verify_login_challenge; route_setup_totp; route_verify_totp; route_disable_totp;
   route_two_factor_enabled].

(** api/webauthn.py *)

Definition webauthn_prefix : string := "/auth/webauthn".
Definition route_register_options : route := mkRoute POST "/register/options" h_register_options.
Definition route_register_verify : route := mkRoute POST "/register/verify" h_register_verify.
Definition route_authenticate_options : route := mkRoute POST "/authenticate/options" h_authenticate_options.
Definition route_authenticate_verify : route := mkRoute POST "/authenticate/verify" h_authenticate_verify.
Definition route_delete_passkey : route := mkRoute DELETE "/{credential_id}" h_delete_passkey.
Definition webauthn_router : list route :=
  [route_register_options; route_register_verify; route_authenticate_options; route_authenticate_verify;
   route_delete_passkey].

(** api/security.py *)

Definition security_prefix : string := "/auth/security".
Definition route_security_summary : route := mkRoute GET EmptyString h_security_summary.
Definition security_router : list route :=
  [route_security_summary].

(** main.py: the routers in the order they are included, then the liveness probe. *)

Definition app_routes : list route :=
  include_router api_prefix auth_prefix auth_router ++
  include_router api_prefix agent_protocol_prefix agent_protocol_router ++
  include_router api_prefix monitoring_prefix monitoring_router ++
  include_router api_prefix monitor_management_prefix monitor_management_router ++
  include_router api_prefix monitoring_relationships_prefix monitoring_relationships_router ++
  include_router api_prefix dashboard_prefix dashboard_router ++
  include_router api_prefix two_factor_prefix two_factor_router ++
  include_router api_prefix webauthn_prefix webauthn_router ++
  include_router api_prefix security_prefix security_router ++
  [mkRoute GET "/health" h_health].

(** ** Paths of routes *)

Definition slash_free (s : string) : bool := str_forall (fun c => negb (Ascii.eqb c "/")) s.
Definition parameter (s : string) : bool := negb (String.eqb s EmptyString) && slash_free s.

Fixpoint fill_path (template : list segment) (values : list string) : list string :=
  match template with
  | [] => []
  | Lit s :: template' => s :: fill_path template' values
  | Param :: template' =>
      match values with v :: values' => v :: fill_path template' values' | [] => [] end
  end.
Definition params (template : list segment) : nat :=
  length (List.filter (fun s => match s with Param => true | Lit _ => false end) template).

(** The path of a route with values for its parameters. *)
Definition path_with (r : route) (values : list string) : string :=
  join "/" (fill_path (compile_path (rt_path r)) values).

Lemma split_on_free s : slash_free s = true -> split_on "/" s = [s].
Proof.
  induction s as [|c s IH]; [done|]. unfold slash_free in *. cbn [str_forall split_on]. intros [Hc Hs]%andb_true_iff.
  apply negb_true_iff in Hc. by rewrite Hc, IH.
Qed.

Lemma split_on_segment s t : slash_free s = true -> split_on "/" (s +:+ String "/" t) = s :: split_on "/" t.
Proof.
  induction s as [|c s IH]; [done|]. unfold slash_free in *. cbn [str_forall]. intros [Hc Hs]%andb_true_iff.
  apply negb_true_iff in Hc. change (String c s +:+ String "/" t) with (String c (s +:+ String "/" t)).
  cbn [split_on]. by rewrite Hc, IH.
Qed.

Lemma split_join l : l <> [] -> Forall (fun s => slash_free s = true) l -> split_on "/" (join "/" l) = l.
Proof.
  intros Hne Hl. induction Hl as [|s l Hs Hl IH]; [done|]. destruct l as [|t l]; [by apply split_on_free|].
  change (join "/" (s :: t :: l)) with (s +:+ String "/" (join "/" (t :: l))).
  by rewrite split_on_segment, IH.
Qed.

Lemma split_on_pieces s : Forall (fun t => slash_free t = true) (split_on "/" s).
Proof.
  induction s as [|c s IH]; [by repeat constructor|]. cbn [split_on]. destruct (Ascii.eqb c "/") eqn:Hc; [by constructor|].
  destruct (split_on "/" s) as [|w ws]; inversion IH; subst; constructor; try done; unfold slash_free; cbn [str_forall];
    rewrite Hc; done.
Qed.

(** A template and the path made from it. *)
Definition literals_free (template : list segment) : Prop :=
  Forall (fun s => match s with Lit t => slash_free t = true | Param => True end) template.

Lemma compile_literals path : literals_free (compile_path path).
Proof.
  apply Forall_fmap. eapply Forall_impl; [apply split_on_pieces|]. intros s Hs. cbn. by destruct (is_param s).
Qed.

Lemma fill_spec template : literals_free template -> forall values, Forall (fun v => parameter v = true) values ->
  length values = params template ->
  match_path template (fill_path template values) = Some values /\
  Forall (fun s => slash_free s = true) (fill_path template values).
Proof.
  induction 1 as [|[t|] template Ht _ IH]; intros values Hv Hlen; cbn in Hlen.
  - by destruct values.
  - destruct (IH values Hv Hlen) as [Hm Hf]. cbn [fill_path match_path]. rewrite String.eqb_refl. auto.
  - destruct values as [|v values]; [done|]. apply Forall_cons in Hv as [Hpv Hv]. injection Hlen as Hlen.
    destruct (IH values Hv Hlen) as [Hm Hf]. unfold parameter in Hpv. apply andb_true_iff in Hpv as [He Hs].
    apply negb_true_iff in He. cbn [fill_path match_path]. rewrite He, Hm. auto.
Qed.

Lemma compile_nonnil path : compile_path path <> [].
Proof. unfold compile_path. pose proof (split_on_nonnil "/" path). by destruct (split_on "/" path). Qed.

Lemma path_with_matches r values : Forall (fun v => parameter v = true) values ->
  length values = params (compile_path (rt_path r)) -> matches_path r (path_with r values) = Some values.
Proof.
  intros Hv Hlen. destruct (fill_spec _ (compile_literals (rt_path r)) values Hv Hlen) as [Hm Hf].
  unfold matches_path, path_with. rewrite split_join; [done| |done].
  pose proof (compile_nonnil (rt_path r)) as Hn. destruct (compile_path (rt_path r)) as [|[s|] t]; [done|done|].
  by destruct values.
Qed.

(** ** No route hides another *)

(** Some path matches both templates. *)
Fixpoint overlap (x y : list segment) : bool :=
  match x, y with
  | [], [] => true
  | Lit s :: x', Lit t :: y' => String.eqb s t && overlap x' y'
  | Lit s :: x', Param :: y' | Param :: x', Lit s :: y' => negb (String.eqb s EmptyString) && overlap x' y'
  | Param :: x', Param :: y' => overlap x' y'
  | _, _ => false
  end.

Lemma overlap_spec x : forall y path v w, match_path x path = Some v -> match_path y path = Some w -> overlap x y = true.
Proof.
  induction x as [|[s|] x IH]; intros [|[t|] y] [|p path] v w Hx Hy; cbn in *; try done.
  - destruct (String.eqb_spec s p) as [->|]; [|done]. destruct (String.eqb_spec t p) as [->|]; [|done].
    rewrite String.eqb_refl. by eapply IH.
  - destruct (String.eqb_spec s p) as [->|]; [|done]. destruct (String.eqb p EmptyString); [done|].
    apply fmap_Some in Hy as (w' & Hy & _). by eapply IH.
  - destruct (String.eqb_spec t p) as [->|]; [|done]. destruct (String.eqb p EmptyString); [done|].
    apply fmap_Some in Hx as (v' & Hx & _). by eapply IH.
  - destruct (String.eqb p EmptyString); [done|]. apply fmap_Some in Hx as (v' & Hx & _).
    apply fmap_Some in Hy as (w' & Hy & _). by eapply IH.
Qed.

Definition clash (r1 r2 : route) : bool :=
  bool_decide (rt_verb r1 = rt_verb r2) && overlap (compile_path (rt_path r1)) (compile_path (rt_path r2)).
Fixpoint no_clash (routes : list route) : bool :=
  match routes with [] => true | r :: routes' => forallb (fun r' => negb (clash r r')) routes' && no_clash routes' end.

Lemma first_full_found routes r path values : no_clash routes = true -> r ∈ routes -> matches_path r path = Some values ->
  first_full routes (rt_verb r) path = Some (rt_handler r, values).
Proof.
  intros Hn Hr Hm. induction routes as [|r' routes IH]; [by apply elem_of_nil in Hr|]. cbn [no_clash] in Hn.
  apply andb_true_iff in Hn as [Hc Hn]. cbn [first_full]. apply elem_of_cons in Hr as [->|Hr].
  { by rewrite Hm, bool_decide_eq_true_2. }
  destruct (matches_path r' path) as [v|] eqn:Hm'; [|by apply IH].
  destruct (bool_decide (rt_verb r' = rt_verb r)) eqn:Hv; [exfalso|by apply IH].
  rewrite forallb_forall in Hc. specialize (Hc r (proj1 (list_elem_of_In _ _) Hr)). unfold clash in Hc. rewrite Hv in Hc.
  unfold matches_path in *. by rewrite (overlap_spec _ _ _ _ _ Hm' Hm) in Hc.
Qed.

Lemma app_routes_no_clash : no_clash app_routes = true.
Proof. by vm_compute. Qed.

(** Every operation of the API is reached under its own path: a request with the method of a
    route and its path, the parameters replaced by any texts without a slash, runs the handler
    of that route with exactly these texts; no route is hidden by one that was included
    before it. *)
Theorem every_route_is_reached r values :
  r ∈ app_routes -> Forall (fun v => parameter v = true) values ->
  length values = params (compile_path (rt_path r)) ->
  dispatch app_routes (rt_verb r) (path_with r values) = Handled (rt_handler r) values.
Proof.
  intros Hr Hv Hlen. unfold dispatch.
  by rewrite (first_full_found _ r _ values app_routes_no_clash Hr (path_with_matches r values Hv Hlen)).
Qed.

Lemma every_route_is_reached_witness :
  dispatch app_routes DELETE "/api/v1/monitoring/monitors/7/agent-groups/3" =
    Handled h_delete_monitor_agent_group_assignment ["7"; "3"].
Proof.
  refine (every_route_is_reached (mkRoute DELETE "/api/v1/monitoring/monitors/{monitor_id}/agent-groups/{group_id}"
    h_delete_monitor_agent_group_assignment) ["7"; "3"] _ _ _).
  - unfold app_routes. do 2 (apply elem_of_app; right). apply elem_of_app. left. apply list_elem_of_In. vm_compute. tauto.
  - by repeat constructor.
  - reflexivity.
Defined.

(** The paths the agent is built with (agent/synchronization/control_plane.go, client.go). *)
Example agent_paths_are_routed :
  dispatch app_routes POST "/api/v1/agent/enrol" = Handled h_enrol_agent [] /\
  dispatch app_routes POST "/api/v1/agent/heartbeat" = Handled h_heartbeat [] /\
  dispatch app_routes GET "/api/v1/agent/config" = Handled h_get_configuration [] /\
  dispatch app_routes POST "/api/v1/agent/config/acknowledge" = Handled h_acknowledge_agent_configuration [] /\
  dispatch app_routes POST "/api/v1/agent/observations" = Handled h_upload_observations [].
Proof. by vm_compute. Qed.

(** ** The process (main.py, auth/redis.py) *)

(** The global client of Redis, by its URL, whether the ORM is connected, and the clients that
    were opened and not closed. *)
Record Process := mkProcess { _client : option string; orm_connected : bool; open_clients : list string }.

Definition get_redis (settings : Settings) : M Process string :=
  c ← gets _client;
  match c with
  | Some client => mret client
  | None =>
      let client := redis_url settings in
      modify (fun p => mkProcess (Some client) (orm_connected p) (client :: open_clients p)) ;;
      mret client
  end.

Fixpoint close_one (client : string) (l : list string) : list string :=
  match l with
  | [] => []
  | x :: l' => if String.eqb x client then l' else x :: close_one client l'
  end.

Definition close_redis : M Process unit :=
  c ← gets _client;
  match c with
  | Some client => modify (fun p => mkProcess None (orm_connected p) (close_one client (open_clients p)))
  | None => mret tt
  end.

(** [try: m finally: last]. *)
Definition finally {S A} (m : M S A) (last : M S unit) : M S A := fun s =>
  match m s with (s', r) => match last s' with (s'', Ok _) => (s'', r) | (s'', Err e) => (s'', Err e) end end.

Definition set_orm (b : bool) : M Process unit := modify (fun p => mkProcess (_client p) b (open_clients p)).

(** [serving] is what runs between start and end; [ping] whether Redis answers. *)
Definition lifespan (settings : Settings) (ping : bool) (serving : M Process unit) : M Process unit :=
  set_orm true ;;
  finally
    (get_redis settings ;;
     raise_if (negb ping) (OSError "ConnectionError") ;;
     finally serving close_redis)
    (set_orm false).

(** Whatever happens while it serves, the process leaves no connection of the ORM and no
    client behind, if Redis answered when it started. *)
Lemma lifespan_releases settings serving :
  (forall p, open_clients (serving p).1 = option_list (_client (serving p).1)) ->
  let p := (lifespan settings true serving (mkProcess None false [])).1 in
  _client p = None /\ orm_connected p = false /\ open_clients p = [].
Proof.
  intros Hs. unfold lifespan, finally, set_orm, get_redis. mrun. cbn [_client orm_connected open_clients]. mrun.
  match goal with |- context [serving ?p] => specialize (Hs p); destruct (serving p) as [[c orm l] r] end.
  cbn in Hs. subst l. unfold close_redis. mrun. destruct c as [c|]; cbn; [|done]. by rewrite String.eqb_refl.
Qed.

(** A Redis that does not answer when the process starts leaves the client open. *)
Example failed_start_keeps_client :
  (lifespan default_settings false (mret tt) (mkProcess None false [])).1 =
    mkProcess (Some (redis_url default_settings)) false [redis_url default_settings].
Proof. reflexivity. Qed.

(** ** Task queues (celery_app.py, tasks/*.py) *)

(** [fnmatch] of a pattern whose only special character is the asterisk. *)
Fixpoint fnmatch (pattern : string) : string -> bool :=
  match pattern with
  | EmptyString => fun s => match s with EmptyString => true | _ => false end
  | String c pattern' =>
      if Ascii.eqb c "*" then
        fix any (s : string) : bool :=
          fnmatch pattern' s || match s with EmptyString => false | String _ s' => any s' end
      else fun s => match s with String d s' => Ascii.eqb c d && fnmatch pattern' s' | EmptyString => false end
  end.

Definition task_default_queue : string := "default".
Definition task_queues : list string := ["default"; "email"; "notifications"].
Definition task_routes : list (string * string) :=
  [("bifrostnms.tasks.email.*", "email"); ("bifrostnms.tasks.notifications.*", "notifications")].
Definition queue_of (task : string) : string :=
  match List.find (fun r => fnmatch r.1 task) task_routes with Some r => r.2 | None => task_default_queue end.

Definition send_email_task : string := "bifrostnms.tasks.email.send_email".
Definition healthcheck_task : string := "bifrostnms.tasks.system.healthcheck".

(** Every task is sent to a queue that exists, mail to a queue of its own. *)
Lemma tasks_have_queues task : queue_of task ∈ task_queues.
Proof.
  unfold queue_of. destruct (List.find _ task_routes) as [r|] eqn:E; [|by left].
  apply List.find_some in E as [[<-|[<-|[]]] _]; cbn; set_solver.
Qed.

Example queues_of_tasks : queue_of send_email_task = "email" /\ queue_of healthcheck_task = "default".
Proof. by vm_compute. Qed.
